(* ===== verification/_CoqProject ===== *)
-Q . S2P
Prelude.v
E820.v
Pmm.v
PmmFacts.v
PmmInit.v
PmmProps.v
FrameAlloc.v
Paging.v
PagingFacts.v
PagingProps.v
PageTables.v
Cow.v
CowProps.v
Demand.v
DemandProps.v
Slab.v
Heap.v
HeapFacts.v
HeapRep.v
HeapProps.v
HeapLock.v
HeapLockProps.v
KernelAlloc.v
KernelAllocProps.v
Pat.v
GuardPage.v
GuardPageProps.v
Packed.v
Ext4Layout.v
Ext4.v
Ext4Journal.v
Ext4Spec.v
Ext4Extents.v
Ext4Files.v
Ext4Dirs.v
Ext4Sample.v
Ext4Props.v
Ext4JournalFacts.v
Ext4JournalProps.v
Ports.v
Ata.v
AtaDrive.v
AtaProps.v
Ext4Ata.v
FileFault.v
Pci.v
PciHost.v
PciSample.v
PciProps.v
PciScan.v
Msi.v
MsiProps.v
MsixProps.v
Pic.v
PicProps.v
PicMod.v
Descriptors.v
DescriptorProps.v
DescriptorsMod.v
DescriptorsModProps.v
Boot.v
BootProps.v
Faults.v
FaultProps.v
Font.v
Video.v
VideoProps.v
VideoText.v
VideoMod.v
DebugText.v
Kernel.v
KernelFacts.v
KernelProps.v
SelfTest.v
SelfTestFacts.v
SelfTestProps.v
Halt.v
HaltProps.v
Interrupts.v
