(* ===== verification/Prelude.v ===== *)
(** Nafuraito kernel: a verification library.

    This is the root file: the shared vocabulary of the development, and its
    documentation.  Source paths are relative to [src/kernel/src/].

    * What is modelled

    Memory management, bottom up.

    - [E820]: [memory/e820.rs] and the map storage of [memory/lib.rs].  The
      entries the bootloader left are decoded from the byte store at every
      query, as the code does.
    - [Pmm], [PmmFacts], [PmmInit], [PmmProps]: [memory/pmm.rs], the bitmap
      allocator of physical frames with its zone counters, its contiguous
      allocator, its start-up and its C interface.
    - [FrameAlloc]: what the other modules ask of the frame allocator, a class
      of operations with laws ([FrameOps], [FrameLaws]) and the instance that
      [Pmm] provides.  Paging, copy-on-write, demand paging and the stacks are
      developed against the class.
    - [Paging], [PagingFacts], [PagingProps]: [memory/paging.rs], four- and
      five-level page tables; [PageTables], the table as a value and its place in
      memory.
    - [Cow], [CowProps]: [memory/cow.rs].
    - [Demand], [DemandProps]: [memory/demand_paging.rs] and the mmap wrappers
      of [memory/lib.rs].
    - [Slab], [Heap], [HeapFacts], [HeapRep], [HeapProps]: [memory/slab.rs] and
      [memory/heap.rs], the kernel heap.  [HeapLock], [HeapLockProps]: its spin lock,
      with the calls of several agents cut at their atomic accesses and interleaved.
    - [KernelAlloc], [KernelAllocProps]: the allocator section of [main.rs]
      (bump allocator of early boot, [kmalloc], [kfree], the [__rust_*] entry
      points) over the heap.
    - [Pat]: [memory/pat.rs].
    - [GuardPage], [GuardPageProps]: [memory/guard_page.rs], on paging.

    Files and the disk.

    - [Packed], [Ext4Layout]: the packed structures of
      [drivers/ext4journaling/ext4journaling.rs] as lists of fields, with the
      lemmas of their decoding.
    - [Ext4], [Ext4Journal]: the driver, over block callbacks and the kernel's
      allocator ([Ext4Env]): mounting, inodes, both block mappings, paths, file and
      directory handles, the journal and the C interface.
    - [Ext4Spec], [Ext4Extents], [Ext4Files], [Ext4Dirs]: what an extent tree, a
      file and a directory are, and that the driver reads them so; [Ext4Props],
      [Ext4JournalFacts], [Ext4JournalProps] the theorems, [Ext4Sample] a small
      volume.
    - [Ports]: port, memory-mapped and MSR access as classes, and the monad [hw]
      of programs on a machine.  [Ata], [AtaDrive], [AtaProps]: [drivers/ata.rs]
      against a drive that follows the command protocol.
    - [Ext4Ata]: the file system over the ATA callbacks.  [FileFault]: a page
      fault in a mapped file, through demand paging, to the blocks of the volume.

    Devices and interrupts.

    - [Pci], [PciHost], [PciSample], [PciProps], [PciScan]: [drivers/pci/lib.rs]
      against a host bridge ([PciHardware]); the scan against the tree of buses.
    - [Msi], [MsiProps], [MsixProps]: [drivers/pci/msi.rs].
    - [Pic], [PicProps]: [drivers/pic/lib.rs] and the I/O APIC of
      [drivers/pic/pic.rs] against the chips ([PicHardware], [IoApicHardware],
      [LocalApicHardware]); [PicMod]: the functions that [pic.rs] repeats from
      [lib.rs], and that they agree.
    - [Descriptors], [DescriptorProps]: [gdt/lib.rs], [idt/lib.rs].  [DescriptorsMod],
      [DescriptorsModProps]: [gdt/mod.rs], [gdt/tss.rs] and [idt/mod.rs], which are not
      linked, against them.
    - [Faults], [FaultProps]: the exception and interrupt handlers of [main.rs]
      with their text, and [idt/handlers.rs] over [Demand] and [Cow].
    - [Boot], [BootProps]: [boot_info.rs], the memory functions and the number
      printers of [main.rs].
    - [Font], [Video], [VideoProps], [VideoText]: [drivers/video/lib.rs] and the
      routines of [vga.c] behind it.  [VideoMod]: the wrappers of [drivers/video/video.rs].
      [DebugText]: the hexadecimal printers that the modules write for themselves and the
      print buffers of [idt/handlers.rs].
    - [Kernel], [KernelFacts], [KernelProps]: [enter] of [main.rs], the start of
      the kernel over all of the above.
    - [SelfTest], [SelfTestFacts], [SelfTestProps]: the two self-tests of [enter],
      which constants of the code keep off.
    - [Halt], [HaltProps]: the halt loops of [main.rs] (the end of [enter], of the panic
      shims and of the handlers) on a processor that takes interrupts, and the handlers
      it takes them with.  [Interrupts]: interrupts in the middle of the last text of
      [enter].

    A file without a suffix holds data and operations under the names of the
    code; [Facts], [Init], [Rep] and [Spec] files hold invariants, abstract
    specifications and the effect of each operation; [Props] files hold the
    theorems, those that are claims with their number, and closed instances.

    * How the code is read

    Integers are [Z]; the kernel is compiled with overflow checks off, so the
    [+], [-] and [*] of the code are [+w], [-w] and [*w] on 64-bit words where
    the code's operands may leave the word, with [wrap32], [wrap16] and [wrap8]
    for the narrower ones.  Memory reached through raw pointers is a [store], a
    finite map in which an unwritten address reads 0.  The stores
    are kept apart: bytes of the frame bitmap and the memory map, 64-bit words of
    the page tables, bytes of data pages and of the heap, the frame buffer, the
    cells of the text screen, device registers.  A theorem about one of
    them therefore says nothing about a wild write into another;
    [PagingProps.map_page_through_huge] shows where the code makes one.

    A method on [&mut self] takes and returns the state.  Code that can fail in
    the middle of changing the state is a [prog], a state and error monad whose
    answer [None] means undefined behaviour or a step that never returns: a null
    dereference in [Paging], a panic or a spin on a held lock in [Heap].  The
    theorems prove [Some] in every branch, so these do not happen.

    An operation of a module runs alone, as the modules state for one CPU in early
    boot, so a race on an atomic counter is not visible.  Two places are finer: the
    calls of the heap interleave at their atomic accesses in [HeapLock], and
    interrupts arrive between two characters of a text in [Interrupts] and at the
    [hlt] of an idle kernel in [Halt].  The debug log of the memory modules is left
    out but for its number printers ([DebugText]); the text of the handlers and of
    [enter] is kept.  A device is a state with a class of the operations that reach it and
    the laws its documentation gives; a second class with a concrete machine shows
    that the laws can hold.  CR2, CPUID, the MSR and the control registers are
    parameters or fields of the state; the callback that reads a file is a
    parameter with its documented contract, [DemandProps.callback_ok]; the
    addresses of the linker's arenas are parameters, [HeapRep.arena_ok] and
    [KernelAllocProps.arenas_ok].

    * Fuel

    Loops with a counter are [for_loop] or [find_loop] over their range and need
    none.  [Pmm.alloc_scan] has one round per bitmap byte, which the cyclic scan
    needs to come back to its start; [Pmm.contig_search] has [end_frame + 2]
    rounds, since a round returns or moves the frame forward; the page loops of
    [identity_map_range] and [munmap] have one round per page and one more.  That
    this is enough is part of the theorems on them
    ([PmmProps.alloc_contiguous_first_fit], [PagingProps.identity_map_correct],
    [DemandProps.munmap_correct]).  The walk over the page tables is structural
    on the list of levels of the paging mode, [Paging.mode_levels], where the
    code repeats itself once per mode.  The path and directory loops of [Ext4] have
    one round per byte, the extent walk one per level of the depth field, the
    polling loops of [Ata] the code's own counters.  [Video.line_loop] ends within
    one round more than the longer side of the line ([VideoProps.draw_line_correct]).
    The depth of [Pci.pci_enumerate] stands for the stack; 256 levels are enough
    when bridges lead to higher buses ([PciScan.pci_enumerate_terminates]).  A run in
    [Halt] and in [HeapLock] has no fuel: it is a list of events or of agents, of any
    length.

    * What the theorems show

    Frames: the allocator refines a set of frames in use
    ([PmmProps.pmm_refines_frames]); over any sequence of requests no frame is
    granted twice and none that start-up withheld is granted; each operation is
    characterised on every branch; start-up establishes the invariant and the
    exact set of free frames.

    Address spaces: on well-formed tables ([PagingFacts.pt_wf]) mapping,
    unmapping, remapping and translating change and read the partial function
    [PagingFacts.view] from addresses to leaf entries exactly as they should, and
    tables that become empty, and no other frame, go back to the allocator.  A
    mapping that fails changes no translation; it keeps the tables it has made, and
    a table frame at or above 4 GiB is lost ([PagingProps.map_page_correct]).

    Faults: the copy-on-write and demand-paging handlers map the page they
    should, with the content they should, and no other; a page of a file is what
    the callback of the region writes for its place in the file.  [mmap] and
    [munmap] keep the registry a set of disjoint ranges; [munmap] cuts the range out
    of the regions, returns exactly the frames of its pages and of the tables that go
    with them, and leaves the file offset of a
    region whose start it moves ([DemandProps.munmap_front_shifts_file]).

    Heap: the slab and page-run allocator refines a map of disjoint blocks whose
    bytes it never touches ([HeapProps.heap_refines_blocks]), with completeness
    of allocation; the bridge keeps the same contract over two arenas, and
    reallocation keeps the content.  Under the lock any interleaving of calls has the
    replies of a sequence of whole calls ([HeapLockProps.heap_calls_linearize]), blocks
    of different agents stay apart ([HeapLockProps.concurrent_blocks_apart]) and an
    agent that waits is served ([HeapLockProps.waiting_agent_served]).

    Files: reading a file gives the bytes of the abstract file, whatever mix of
    whole and partial blocks, holes and mappings it needs; extent and path lookup
    agree with the tree and the directories on disk; an inode that is written is
    read back; the journal writes what its commit order says.  The disk driver
    stores and returns blocks, and the file system over it reads the same files;
    a fault in a mapped file ends with the bytes of the file in the page.

    Devices: configuration addresses, base registers, capabilities and the bus
    scan; interrupt messages and vectors, which are never handed out twice; the
    masks, vectors and acknowledgements of the interrupt controllers; every gate
    leads to its handler on its stack, and that stack is never given away.

    Output: rectangles and lines colour exactly their pixels; text mode is a
    terminal of 25 lines, and so is text drawn with the font.

    The whole: [enter] reaches its final loop from every state with a free heap
    lock and a well-numbered bus tree, with every subsystem as its own theorems
    need it ([KernelProps.boot_correct]); interrupts are never on before the gates
    and the controllers are ready ([KernelProps.interrupts_have_gates]); in text
    mode its last report stands on the screen ([KernelProps.boot_reports]), also when
    interrupts come while it is written ([Interrupts.summary_survives_interrupts]).
    The kernel then serves every interrupt and waits again
    ([HaltProps.idle_kernel_serves]); a panic is final ([HaltProps.panic_is_final]), and
    an exception ends in a halt that keeps serving interrupts when its gate is a trap gate
    ([HaltProps.exceptions_end_in_hlt]).  The
    self-tests are run in the model: mapping passes ([SelfTestProps.paging_selftest_correct]);
    demand paging passes under the handler of [idt/handlers.rs]
    ([SelfTestProps.mmap_selftest_passes]) and stops under the one that is linked
    ([SelfTestProps.mmap_selftest_stops]).

    Where the code does something else, the theorem says what it does: zone
    allocation after start-up, canonical addresses, huge pages, unaligned fault
    addresses, uncounted shared frames, file offsets after a partial unmap,
    double frees, alignment in early boot, inodes written through the journal,
    the journal superblock, the sticky error of the drive, the size of 32-bit
    memory registers, unconfigured bridges, pending bits of MSI-X.

    * What is not modelled

    The re-exports of [memory/mod.rs], the extern declarations, and the debug log of
    the memory modules apart from its number printers.  [drivers/video/vesa_video.rs]
    repeats [vga.c], is not built and is not valid Rust.  The bootloader is assembly
    and C: the state it leaves is a hypothesis where it matters.  Weak memory: the
    steps of agents in [HeapLock] interleave, which the acquire and release orderings
    of the lock allow one to assume; the bytes a client writes to its blocks are not in
    that model.  Several processors in the other modules, and an interrupt in the middle
    of an operation other than the printing of a character, are outside the model. *)

From Stdlib Require Export ZArith Lia.
From stdpp Require Export base list gmap strings sorting.

#[global] Open Scope Z_scope.

(** * Results *)

(** [Result<A, E>]: the two constructors of the Rust type. *)
Inductive result (E A : Type) : Type :=
| Ok (a : A)
| Err (e : E).
Arguments Ok {E A} a.
Arguments Err {E A} e.

(** [Result::is_ok]. *)
Definition is_ok {E A} (r : result E A) : bool :=
  match r with Ok _ => true | Err _ => false end.

(** [Result::unwrap_or]. *)
Definition unwrap_or {E A} (r : result E A) (d : A) : A :=
  match r with Ok a => a | Err _ => d end.

(** [Result::map_err]. *)
Definition map_err {E F A} (f : E -> F) (r : result E A) : result F A :=
  match r with Ok a => Ok a | Err e => Err (f e) end.

#[export] Instance result_eq_dec {E A} `{EqDecision E, EqDecision A} :
  EqDecision (result E A).
Proof. solve_decision. Defined.

(** * Machine integers

    The kernel is compiled with [-C overflow-checks=no], so [+], [-] and [*]
    on [u64]/[usize] wrap.  A machine word is a [Z] in [0, 2^w); the wrap is
    written out at each operation. *)

Definition U64 : Z := 18446744073709551616.
Definition U32 : Z := 4294967296.
Definition U64_MAX : Z := 18446744073709551615.

Definition wrap64 (x : Z) : Z := x mod U64.
Definition wrap32 (x : Z) : Z := x mod U32.
Definition wrap16 (x : Z) : Z := x mod 65536.
Definition wrap8 (x : Z) : Z := x mod 256.

Definition add64 (x y : Z) : Z := wrap64 (x + y).
Definition sub64 (x y : Z) : Z := wrap64 (x - y).
Definition mul64 (x y : Z) : Z := wrap64 (x * y).
(** [u64::saturating_add] and [usize::saturating_sub]. *)
Definition sat_add64 (x y : Z) : Z := Z.min U64_MAX (x + y).
Definition sat_sub (x y : Z) : Z := Z.max 0 (x - y).
(** [u64::checked_add] and [u64::checked_sub]. *)
Definition checked_add64 (x y : Z) : option Z :=
  if x + y <? U64 then Some (x + y) else None.
Definition checked_sub64 (x y : Z) : option Z :=
  if 0 <=? x - y then Some (x - y) else None.
(** [!x] on [u64] and on [u8]. *)
Definition not64 (x : Z) : Z := U64_MAX - x.
Definition not8 (x : Z) : Z := 255 - x.
Definition not16 (x : Z) : Z := 65535 - x.
Definition not32 (x : Z) : Z := 4294967295 - x.
(** [1 << k]. *)
Definition bit (k : Z) : Z := Z.shiftl 1 k.

Declare Scope word_scope.
Delimit Scope word_scope with word.
Infix "+w" := add64 (at level 50, left associativity) : word_scope.
Infix "-w" := sub64 (at level 50, left associativity) : word_scope.
Infix "*w" := mul64 (at level 40, left associativity) : word_scope.
#[global] Open Scope word_scope.

(** A value of type [u64] or [usize], and of type [u8]. *)
Definition is_u64 (x : Z) : Prop := 0 <= x < U64.
Definition is_u8 (x : Z) : Prop := 0 <= x < 256.
Definition is_u32 (x : Z) : Prop := 0 <= x < U32.

#[export] Instance is_u64_dec x : Decision (is_u64 x).
Proof. unfold is_u64. apply _. Defined.
#[export] Instance is_u8_dec x : Decision (is_u8 x).
Proof. unfold is_u8. apply _. Defined.

Ltac word_unfold :=
  unfold add64, sub64, mul64, sat_add64, sat_sub, is_u64, is_u8, wrap64, wrap32,
    wrap16, wrap8, not64, not8, U64, U32, U64_MAX in *.

(** [lia] with [/] and [mod]. *)
Ltac dlia := Z.div_mod_to_equations; lia.

Lemma add64_small x y : 0 <= x + y < U64 -> x +w y = x + y.
Proof. intros. apply Z.mod_small. exact H. Qed.

Lemma sub64_small x y : 0 <= x - y < U64 -> x -w y = x - y.
Proof. intros. apply Z.mod_small. exact H. Qed.

Lemma mul64_small x y : 0 <= x * y < U64 -> x *w y = x * y.
Proof. intros. apply Z.mod_small. exact H. Qed.

Lemma wrap64_small x : is_u64 x -> wrap64 x = x.
Proof. intros. apply Z.mod_small. exact H. Qed.

Lemma wrap64_range x : is_u64 (wrap64 x).
Proof. apply Z.mod_pos_bound. reflexivity. Qed.

Lemma add64_range x y : is_u64 (x +w y).
Proof. apply wrap64_range. Qed.

Lemma sub64_range x y : is_u64 (x -w y).
Proof. apply wrap64_range. Qed.

Lemma mul64_range x y : is_u64 (x *w y).
Proof. apply wrap64_range. Qed.

Lemma add64_wrap x y : wrap64 x +w wrap64 y = wrap64 (x + y).
Proof. unfold add64, wrap64. symmetry. apply Z.add_mod. done. Qed.

Create HintDb word discriminated.
#[export] Hint Resolve wrap64_range add64_range sub64_range mul64_range : word.

(** * Bits *)

Lemma bit_pow k : 0 <= k -> bit k = 2 ^ k.
Proof. intros. unfold bit. rewrite Z.shiftl_mul_pow2; lia. Qed.

Lemma bit_testbit k i : 0 <= k -> 0 <= i -> Z.testbit (bit k) i = (i =? k).
Proof.
  intros. rewrite bit_pow by lia. rewrite Z.pow2_bits_eqb by lia.
  apply Z.eqb_sym.
Qed.

Lemma testbit_high x n i : 0 <= x < 2 ^ n -> n <= i -> Z.testbit x i = false.
Proof.
  intros Hx Hi.
  destruct (Z.lt_ge_cases n 0) as [Hn|Hn].
  { rewrite Z.pow_neg_r in Hx by lia. lia. }
  rewrite <- (Z.mod_small x (2 ^ n)) by lia. apply Z.mod_pow2_bits_high. lia.
Qed.

(** Two words of [n] bits are equal when their bits below [n] are. *)
Lemma bits_eq_below n x y :
  0 <= x < 2 ^ n -> 0 <= y < 2 ^ n ->
  (forall i, 0 <= i < n -> Z.testbit x i = Z.testbit y i) -> x = y.
Proof.
  intros Hx Hy H. apply Z.bits_inj'. intros i Hi.
  destruct (Z.lt_ge_cases i n); [by apply H; lia|].
  by rewrite !(testbit_high _ n).
Qed.

Lemma bound_from_bits n x :
  0 <= n -> 0 <= x -> (forall i, n <= i -> Z.testbit x i = false) -> x < 2 ^ n.
Proof.
  intros Hn Hx H. destruct (Z.eq_dec x 0) as [->|Hne]; [lia|].
  apply Z.log2_lt_pow2; [lia|].
  destruct (Z.lt_ge_cases (Z.log2 x) n); [done|].
  pose proof (Z.bit_log2 x ltac:(lia)) as Hb. rewrite H in Hb; [done|lia].
Qed.

Lemma lor_bound n x y : 0 <= n -> 0 <= x < 2 ^ n -> 0 <= y < 2 ^ n -> 0 <= Z.lor x y < 2 ^ n.
Proof.
  intros Hn Hx Hy. split; [apply Z.lor_nonneg; lia|].
  apply bound_from_bits; [lia|apply Z.lor_nonneg; lia|].
  intros i Hi. by rewrite Z.lor_spec, !(testbit_high _ n).
Qed.

Lemma land_bound_l n x y : 0 <= n -> 0 <= x < 2 ^ n -> 0 <= Z.land x y < 2 ^ n.
Proof.
  intros Hn Hx. assert (0 <= Z.land x y) by (apply Z.land_nonneg; lia).
  split; [done|]. apply bound_from_bits; [lia|done|].
  intros i Hi. by rewrite Z.land_spec, (testbit_high x n).
Qed.

(** [x & (1 << k) == 0] tests bit [k]. *)
Lemma land_bit_zero x k : 0 <= k -> (Z.land x (bit k) =? 0) = negb (Z.testbit x k).
Proof.
  intros Hk. destruct (Z.testbit x k) eqn:E; simpl.
  - apply Z.eqb_neq. intros H.
    assert (Z.testbit (Z.land x (bit k)) k = false) as H' by (rewrite H; apply Z.testbit_0_l).
    rewrite Z.land_spec, bit_testbit, E, Z.eqb_refl in H' by lia. done.
  - apply Z.eqb_eq. apply Z.bits_inj'. intros i Hi.
    rewrite Z.land_spec, bit_testbit, Z.testbit_0_l by lia.
    destruct (Z.eqb_spec i k) as [->|]; [by rewrite E|by rewrite andb_false_r].
Qed.

(** [x |= 1 << k] sets bit [k] and no other. *)
Lemma setbit_spec x k i :
  0 <= k -> 0 <= i -> Z.testbit (Z.lor x (bit k)) i = (i =? k) || Z.testbit x i.
Proof. intros. rewrite Z.lor_spec, bit_testbit by lia. apply orb_comm. Qed.

Lemma not8_spec x i : 0 <= i < 8 -> is_u8 x -> Z.testbit (not8 x) i = negb (Z.testbit x i).
Proof.
  intros Hi Hx. unfold not8. replace (255 - x) with (Z.lnot x + 2 ^ 8 * 1) by
    (unfold Z.lnot; lia).
  rewrite <- (Z.mod_pow2_bits_low (_ + _) 8) by lia.
  rewrite Z.add_mod, Z.mul_comm, Z.mod_mul, Z.add_0_r, Z.mod_mod by lia.
  rewrite Z.mod_pow2_bits_low by lia. apply Z.lnot_spec. lia.
Qed.

(** [x &= !(1 << k)] on a byte clears bit [k] and no other. *)
Lemma clearbit8_spec x k i :
  0 <= k < 8 -> 0 <= i -> is_u8 x ->
  Z.testbit (Z.land x (not8 (bit k))) i = negb (i =? k) && Z.testbit x i.
Proof.
  intros Hk Hi Hx. rewrite Z.land_spec.
  assert (is_u8 (bit k)) as Hb.
  { unfold is_u8. rewrite bit_pow by lia. split; [apply Z.pow_nonneg; lia|].
    change 256 with (2 ^ 8). apply Z.pow_lt_mono_r; lia. }
  destruct (Z.lt_ge_cases i 8).
  - rewrite not8_spec, bit_testbit by (done || lia). apply andb_comm.
  - unfold is_u8 in Hx. rewrite (testbit_high x 8) by (simpl; lia). by rewrite andb_false_r.
Qed.

Lemma setbit8_range x k : 0 <= k < 8 -> is_u8 x -> is_u8 (Z.lor x (bit k)).
Proof.
  unfold is_u8. intros Hk Hx. apply (lor_bound 8); [lia|simpl;lia|].
  rewrite bit_pow by lia. split; [apply Z.pow_nonneg; lia|].
  apply Z.pow_lt_mono_r; lia.
Qed.

Lemma land8_range x y : is_u8 x -> is_u8 (Z.land x y).
Proof. unfold is_u8. intros Hx. apply (land_bound_l 8); simpl; lia. Qed.

(** A byte different from [0xFF] has a clear bit, and [0xFF] has none. *)
Lemma byte_full x : is_u8 x -> (x =? 255) = forallb (Z.testbit x) [0;1;2;3;4;5;6;7].
Proof.
  intros Hx. destruct (forallb _ _) eqn:E.
  - apply Z.eqb_eq. rewrite forallb_forall in E. unfold is_u8 in Hx.
    apply (bits_eq_below 8); [simpl; lia|simpl; lia|].
    intros i Hi. rewrite E.
    + change 255 with (Z.ones 8). by rewrite Z.ones_spec_low.
    + assert (i = 0 \/ i = 1 \/ i = 2 \/ i = 3 \/ i = 4 \/ i = 5 \/ i = 6 \/ i = 7) as Hc by lia.
      simpl. intuition auto.
  - apply Z.eqb_neq. intros ->. vm_compute in E. done.
Qed.

#[export] Hint Resolve setbit8_range land8_range : word.

(** * Masks *)

Lemma land_low a k : 0 <= k -> Z.land a (2 ^ k - 1) = a mod 2 ^ k.
Proof.
  intros. replace (2 ^ k - 1) with (Z.ones k) by (rewrite Z.ones_equiv; lia).
  by apply Z.land_ones.
Qed.

Lemma not64_mask k a :
  0 <= k <= 64 -> is_u64 a -> Z.land a (not64 (2 ^ k - 1)) = a - a mod 2 ^ k.
Proof.
  intros Hk Ha.
  assert (not64 (2 ^ k - 1) = Z.shiftl (Z.ones (64 - k)) k) as ->.
  { rewrite Z.shiftl_mul_pow2, Z.ones_equiv by lia. unfold not64, U64_MAX.
    rewrite <- Z.sub_1_r, Z.mul_sub_distr_r, <- Z.pow_add_r by lia.
    replace (64 - k + k) with 64 by lia. lia. }
  replace (a - a mod 2 ^ k) with (Z.shiftl (Z.shiftr a k) k).
  2:{ rewrite Z.shiftl_mul_pow2, Z.shiftr_div_pow2 by lia.
      pose proof (Z.div_mod a (2 ^ k) ltac:(lia)). lia. }
  apply Z.bits_inj'. intros i Hi. rewrite Z.land_spec, !Z.shiftl_spec by lia.
  destruct (Z.lt_ge_cases i k).
  { rewrite !(Z.testbit_neg_r _ (i - k)) by lia. apply andb_false_r. }
  rewrite Z.shiftr_spec by lia. replace (i - k + k) with i by lia.
  destruct (Z.lt_ge_cases i 64).
  - rewrite Z.ones_spec_low by lia. apply andb_true_r.
  - rewrite Z.ones_spec_high by lia. rewrite andb_false_r. symmetry.
    apply (testbit_high _ 64); [exact Ha|lia].
Qed.

(** [(a >> s) & 0x1FF]: one nine-bit page-table index. *)
Lemma index9 a s : 0 <= s -> Z.land (Z.shiftr a s) 511 = (a / 2 ^ s) mod 512.
Proof.
  intros. rewrite Z.shiftr_div_pow2 by lia. change 511 with (2 ^ 9 - 1).
  rewrite land_low by lia. done.
Qed.

(** [x | y] is [x + y] when [x] is a multiple of [2^k] and [y < 2^k]. *)
Lemma lor_disjoint_add k x y :
  0 <= k -> x mod 2 ^ k = 0 -> 0 <= y < 2 ^ k -> Z.lor x y = x + y.
Proof.
  intros Hk Hx Hy.
  assert (Z.land x y = 0) as Hland.
  { apply Z.bits_inj'. intros i Hi. rewrite Z.land_spec, Z.testbit_0_l.
    destruct (Z.lt_ge_cases i k).
    - rewrite <- (Z.mod_pow2_bits_low x k i) by done. by rewrite Hx, Z.testbit_0_l.
    - rewrite (testbit_high y k) by done. apply andb_false_r. }
  rewrite <- Z.lxor_lor by done. symmetry. by apply Z.add_nocarry_lxor.
Qed.

(** * Masks *)

(** [x & m != 0]. *)
Definition has_bits (x m : Z) : bool := negb (Z.land x m =? 0).

Lemma not_spec n x i : 0 <= i < n -> 0 <= x < 2 ^ n ->
  Z.testbit (2 ^ n - 1 - x) i = negb (Z.testbit x i).
Proof.
  intros Hi Hx. replace (2 ^ n - 1 - x) with (Z.lnot x + 2 ^ n * 1) by (unfold Z.lnot; lia).
  rewrite <- (Z.mod_pow2_bits_low (_ + _) n) by lia.
  rewrite Z.add_mod, Z.mul_comm, Z.mod_mul, Z.add_0_r, Z.mod_mod by lia.
  rewrite Z.mod_pow2_bits_low by lia. apply Z.lnot_spec. lia.
Qed.

Lemma ones_bits w i : 0 <= w -> 0 <= i -> Z.testbit (2 ^ w - 1) i = (i <? w).
Proof.
  intros. replace (2 ^ w - 1) with (Z.ones w) by (rewrite Z.ones_equiv; lia).
  destruct (Z.ltb_spec i w); [by apply Z.ones_spec_low|by apply Z.ones_spec_high].
Qed.

Lemma mul_pow_bits v sh i : 0 <= sh -> 0 <= i ->
  Z.testbit (v * 2 ^ sh) i = if sh <=? i then Z.testbit v (i - sh) else false.
Proof.
  intros. destruct (Z.leb_spec sh i).
  - by rewrite Z.mul_pow2_bits.
  - by rewrite Z.mul_pow2_bits_low.
Qed.

Lemma mask_high w n x : 0 <= n <= w -> 0 <= x < 2 ^ w -> Z.land x (2 ^ w - 2 ^ n) = x - x mod 2 ^ n.
Proof.
  intros Hn Hx.
  replace (2 ^ w - 2 ^ n) with ((2 ^ (w - n) - 1) * 2 ^ n)
    by (rewrite Z.mul_sub_distr_r, <- Z.pow_add_r by lia; f_equal; [f_equal|]; lia).
  replace (x - x mod 2 ^ n) with (x / 2 ^ n * 2 ^ n) by (pose proof (Z.div_mod x (2 ^ n)); lia).
  apply Z.bits_inj'. intros i Hi. rewrite Z.land_spec, !mul_pow_bits by lia.
  destruct (Z.leb_spec n i); [|by rewrite andb_false_r].
  rewrite Z.div_pow2_bits, ones_bits by lia. replace (i - n + n) with i by lia.
  destruct (Z.ltb_spec (i - n) (w - n)); [by rewrite andb_true_r|].
  by rewrite (testbit_high x w) by lia.
Qed.

Lemma pow_range n m : 0 <= n <= m -> 1 <= 2 ^ n <= 2 ^ m.
Proof.
  intros. split; [|apply Z.pow_le_mono_r; lia]. pose proof (Z.pow_pos_nonneg 2 n). lia.
Qed.

Lemma has_bits_true x m : Z.land x m <> 0 -> has_bits x m = true.
Proof. intros. unfold has_bits. by destruct (Z.eqb_spec (Z.land x m) 0). Qed.

Lemma has_bits_false x m : Z.land x m = 0 -> has_bits x m = false.
Proof. intros H. unfold has_bits. by rewrite H. Qed.

(** * Byte and word stores

    Memory reached through raw pointers is a finite map from addresses to
    values; an address that was never written holds [0]. *)

Notation store := (gmap Z Z).
Definition rd (m : store) (a : Z) : Z := default 0 (m !! a).
Definition wr (m : store) (a v : Z) : store := <[a := v]> m.

Lemma rd_wr_eq m a v : rd (wr m a v) a = v.
Proof. unfold rd, wr. by rewrite lookup_insert_eq. Qed.

Lemma rd_wr_ne m a b v : a <> b -> rd (wr m a v) b = rd m b.
Proof. intros. unfold rd, wr. by rewrite lookup_insert_ne. Qed.

Lemma rd_wr m a b v : rd (wr m a v) b = if decide (a = b) then v else rd m b.
Proof. case_decide; subst; [apply rd_wr_eq|by apply rd_wr_ne]. Qed.

(** * Bounded loops *)

(** [for i in a .. a + n { s = body(i, s) }]. *)
Fixpoint for_range {St} (n : nat) (i : Z) (body : Z -> St -> St) (s : St) : St :=
  match n with
  | O => s
  | S n' => for_range n' (i + 1) body (body i s)
  end.

(** [for i in a .. b { .. }]; the range is empty when [b <= a]. *)
Definition for_loop {St} (a b : Z) (body : Z -> St -> St) (s : St) : St :=
  for_range (Z.to_nat (b - a)) a body s.

(** The invariant rule of [for_loop]. *)
Lemma for_loop_ind {St} (P : Z -> St -> Prop) a b body (s : St) :
  P a s ->
  (forall i s, a <= i < b -> P i s -> P (i + 1) (body i s)) ->
  P (Z.max a b) (for_loop a b body s).
Proof.
  intros H0 Hstep. unfold for_loop.
  assert (forall n i s, P i s -> a <= i -> i + Z.of_nat n = Z.max a b ->
            P (Z.max a b) (for_range n i body s)) as G.
  { induction n as [|n IH]; intros i t Hi Ha E; simpl.
    - by replace (Z.max a b) with i by lia.
    - apply IH; [|lia|lia]. apply Hstep; [lia|done]. }
  apply G; [done|lia|]. lia.
Qed.

(** A loop that fills a range. *)
Lemma rd_fill a b f m i :
  rd (for_loop a b (fun i m => wr m i (f i)) m) i = if decide (a <= i < b) then f i else rd m i.
Proof.
  pose proof (for_loop_ind (fun j s => rd s i = if decide (a <= i < j) then f i else rd m i) a b
    (fun i m => wr m i (f i)) m) as H. simpl in H.
  rewrite H; clear H; [repeat case_decide; lia || done|rewrite decide_False by lia; done|].
  intros j s Hj E. rewrite rd_wr. repeat case_decide; subst; try done; try lia.
Qed.

(** The first index of a range on which [f] answers: the shape of a scan that
    returns from inside its loop. *)
Fixpoint find_range {A} (n : nat) (i : Z) (f : Z -> option A) : option A :=
  match n with
  | O => None
  | S n' => match f i with Some x => Some x | None => find_range n' (i + 1) f end
  end.

Definition find_loop {A} (a b : Z) (f : Z -> option A) : option A :=
  find_range (Z.to_nat (b - a)) a f.

Lemma find_range_Some {A} n i (f : Z -> option A) x :
  find_range n i f = Some x ->
  exists j, i <= j < i + Z.of_nat n /\ f j = Some x /\ forall k, i <= k < j -> f k = None.
Proof.
  revert i. induction n as [|n IH]; intros i H; simpl in *; [done|].
  destruct (f i) as [y|] eqn:E.
  - injection H as <-. exists i. repeat split; [lia|lia|done|intros; lia].
  - destruct (IH _ H) as (j & Hj & Hf & Hk). exists j. repeat split; [lia|lia|done|].
    intros k Hkk. destruct (decide (k = i)) as [->|]; [done|]. apply Hk. lia.
Qed.

Lemma find_range_None {A} n i (f : Z -> option A) :
  find_range n i f = None -> forall j, i <= j < i + Z.of_nat n -> f j = None.
Proof.
  revert i. induction n as [|n IH]; intros i H j Hj; simpl in *; [lia|].
  destruct (f i) eqn:E; [done|].
  destruct (decide (j = i)) as [->|]; [done|]. eapply IH; [done|lia].
Qed.

Lemma find_loop_Some {A} a b (f : Z -> option A) x :
  find_loop a b f = Some x ->
  exists j, a <= j < b /\ f j = Some x /\ forall k, a <= k < j -> f k = None.
Proof.
  intros H. apply find_range_Some in H as (j & Hj & H). exists j. split; [lia|done].
Qed.

Lemma find_loop_None {A} a b (f : Z -> option A) :
  find_loop a b f = None -> forall j, a <= j < b -> f j = None.
Proof. intros H j Hj. eapply find_range_None; [done|lia]. Qed.

(** * Counting *)

(** How many indices below [n] satisfy [P]. *)
Fixpoint count_below (P : Z -> bool) (n : nat) : Z :=
  match n with
  | O => 0
  | S k => count_below P k + (if P (Z.of_nat k) then 1 else 0)
  end.

Definition countZ (P : Z -> bool) (n : Z) : Z := count_below P (Z.to_nat n).

Lemma countZ_ext P Q n : (forall i, 0 <= i < n -> P i = Q i) -> countZ P n = countZ Q n.
Proof.
  unfold countZ. intros H.
  assert (forall k, (k <= Z.to_nat n)%nat -> count_below P k = count_below Q k) as G.
  { induction k as [|k IH]; intros; simpl; [done|]. rewrite IH, H by lia. done. }
  by apply G.
Qed.

Lemma countZ_range P n : 0 <= n -> 0 <= countZ P n <= n.
Proof.
  unfold countZ. intros Hn.
  assert (forall k, 0 <= count_below P k <= Z.of_nat k) as G.
  { induction k as [|k IH]; simpl; [lia|]. destruct (P _); lia. }
  specialize (G (Z.to_nat n)). lia.
Qed.

Lemma countZ_pos P n : 0 < countZ P n <-> exists i, 0 <= i < n /\ P i = true.
Proof.
  unfold countZ. split.
  - assert (forall k, 0 < count_below P k -> exists i, 0 <= i < Z.of_nat k /\ P i = true) as G.
    { induction k as [|k IH]; simpl; [lia|]. destruct (P (Z.of_nat k)) eqn:E.
      - intros _. exists (Z.of_nat k). split; [lia|done].
      - intros H. destruct IH as (i & Hi & HP); [lia|]. exists i. split; [lia|done]. }
    intros H. destruct (G _ H) as (i & Hi & HP). exists i. split; [lia|done].
  - intros (i & Hi & HP).
    assert (forall k, i < Z.of_nat k -> 0 < count_below P k) as G.
    { induction k as [|k IH]; simpl; [lia|]. intros Hk.
      pose proof (countZ_range P (Z.of_nat k) ltac:(lia)) as Hr. unfold countZ in Hr.
      rewrite Nat2Z.id in Hr. destruct (decide (i = Z.of_nat k)) as [<-|].
      - rewrite HP. lia.
      - specialize (IH ltac:(lia)). destruct (P (Z.of_nat k)); lia. }
    apply G. lia.
Qed.

(** Switching [P] on at one index adds one. *)
Lemma countZ_flip P Q n k :
  0 <= k < n -> P k = false -> Q k = true -> (forall i, 0 <= i < n -> i <> k -> P i = Q i) ->
  countZ Q n = countZ P n + 1.
Proof.
  unfold countZ. intros Hk HP HQ Heq.
  assert (forall j, Z.of_nat j <= n ->
    count_below Q j = count_below P j + (if k <? Z.of_nat j then 1 else 0)) as G.
  { induction j as [|j IH]; intros Hj.
    - cbn [count_below]. change (Z.of_nat 0) with 0. destruct (Z.ltb_spec k 0); lia.
    - cbn [count_below]. rewrite IH by lia.
      destruct (decide (Z.of_nat j = k)) as [E|E].
      + rewrite E, HP, HQ. destruct (Z.ltb_spec k k), (Z.ltb_spec k (Z.of_nat (S j))); lia.
      + rewrite (Heq (Z.of_nat j)) by lia.
        destruct (Q (Z.of_nat j)), (Z.ltb_spec k (Z.of_nat j)), (Z.ltb_spec k (Z.of_nat (S j)));
        lia. }
  rewrite G by lia. destruct (Z.ltb_spec k (Z.of_nat (Z.to_nat n))); lia.
Qed.

Lemma countZ_all P n : 0 <= n -> (forall i, 0 <= i < n -> P i = true) -> countZ P n = n.
Proof.
  unfold countZ. intros Hn H.
  assert (forall k, Z.of_nat k <= n -> count_below P k = Z.of_nat k) as G.
  { induction k as [|k IH]; intros; simpl count_below; [done|]. rewrite IH, H by lia. lia. }
  rewrite G; lia.
Qed.

(** Switching [P] off on a run of [m] indices removes [m]. *)
Lemma countZ_run P Q n a m :
  0 <= a -> 0 <= m -> a + m <= n ->
  (forall i, a <= i < a + m -> P i = true /\ Q i = false) ->
  (forall i, 0 <= i < n -> ~ (a <= i < a + m) -> P i = Q i) ->
  countZ P n = countZ Q n + m.
Proof.
  intros Ha Hm. revert Q. pattern m. apply natlike_ind; [|clear m Hm|done].
  - intros Q _ _ H. rewrite (countZ_ext P Q); [lia|]. intros i Hi. apply H; lia.
  - intros m Hm IH Q Hn Hin Hout.
    set (R := fun i => if i =? a + m then true else Q i).
    rewrite (IH R); [|lia|..].
    + rewrite (countZ_flip Q R n (a + m)); [lia|lia|..].
      * apply Hin. lia.
      * subst R. cbv beta. by rewrite Z.eqb_refl.
      * intros i Hi Hne. subst R. cbv beta. by destruct (Z.eqb_spec i (a + m)).
    + intros i Hi. subst R. cbv beta. destruct (Z.eqb_spec i (a + m)); [lia|]. apply Hin. lia.
    + intros i Hi Hni. subst R. cbv beta. destruct (Z.eqb_spec i (a + m)) as [->|].
      * apply Hin. lia.
      * apply Hout; lia.
Qed.

(** * Stateful programs

    A function that works on a global state [S], may return an error (a string
    in the memory modules, a code in the file system) and may run into undefined behaviour (a null or dangling pointer): [None] is the
    latter.  stdpp's do-notation sequences them, [?] being the bind. *)

Definition eprog (E S X : Type) : Type := S -> option (S * result E X).
Abbreviation prog := (eprog string).

#[export] Instance prog_ret {E} S : MRet (eprog E S) := fun X x s => Some (s, Ok x).
#[export] Instance prog_bind {E} S : MBind (eprog E S) := fun X Y k p s =>
  match p s with
  | Some (s', Ok x) => k x s'
  | Some (s', Err e) => Some (s', Err e)
  | None => None
  end.

(** [return Err(e)], undefined behaviour, and access to the state. *)
Definition throw {E S X} (e : E) : eprog E S X := fun s => Some (s, Err e).
Arguments throw {E S X} e%_string_scope.
Definition undefined {E S X} : eprog E S X := fun _ => None.
Definition gets {E S X} (f : S -> X) : eprog E S X := fun s => Some (s, Ok (f s)).
Definition modify {E S} (f : S -> S) : eprog E S unit := fun s => Some (f s, Ok tt).
(** [match p() { Ok(x) => k(Ok(x)), Err(e) => k(Err(e)) }]: errors as values. *)
Definition catch {E S X} (p : eprog E S X) : eprog E S (result E X) := fun s =>
  match p s with Some (s', r) => Some (s', Ok r) | None => None end.

(** [for i in a .. a + n { body(i)?; }]. *)
Fixpoint prog_for {E S} (n : nat) (i : Z) (body : Z -> eprog E S unit) : eprog E S unit :=
  match n with
  | O => mret tt
  | S n' => body i ;; prog_for n' (i + 1) body
  end.

Lemma bind_ok {E S X Y} (p : eprog E S X) (k : X -> eprog E S Y) s s' x :
  p s = Some (s', Ok x) -> (p ≫= k) s = k x s'.
Proof. intros H. unfold mbind, prog_bind. by rewrite H. Qed.

Lemma bind_err {E S X Y} (p : eprog E S X) (k : X -> eprog E S Y) s s' e :
  p s = Some (s', Err e) -> (p ≫= k) s = Some (s', Err e).
Proof. intros H. unfold mbind, prog_bind. by rewrite H. Qed.

(** A program on a part of the state: [get] and [set] are a field. *)
Definition zoom {E S T X} (get : S -> T) (set : T -> S -> S) (p : eprog E T X) : eprog E S X := fun s =>
  match p (get s) with Some (t, r) => Some (set t s, r) | None => None end.

Lemma catch_run {E S X} (p : eprog E S X) s s' r : p s = Some (s', r) -> catch p s = Some (s', Ok r).
Proof. intros H. unfold catch. by rewrite H. Qed.

Lemma zoom_run {E S T X} (get : S -> T) set (p : eprog E T X) s t r :
  p (get s) = Some (t, r) -> zoom get set p s = Some (set t s, r).
Proof. intros H. unfold zoom. by rewrite H. Qed.
