(* ===== verification/E820.v ===== *)
(** E820 memory map: [memory/e820.rs] and the map storage of [memory/lib.rs].

    The 24-byte packed entries are decoded from the byte store the bootloader
    filled; [MemoryMap] is the pointer and count the code keeps.  Zones, NUMA
    identifiers, entry predicates, [parse] and every query of [MemoryMap] are
    here, then what they compute. *)

From S2P Require Import Prelude.

(** * Little-endian loads *)

(** [read_unaligned] of an [n]-byte little-endian integer. *)
Fixpoint le_load (m : store) (a : Z) (n : nat) : Z :=
  match n with
  | O => 0
  | S k => rd m a mod 256 + 256 * le_load m (a + 1) k
  end.

(** * Constants *)

Definition MEMORY_MAP_ADDR : Z := 28672.
Definition MAX_MEMORY_ENTRIES : Z := 64.
Definition DMA_ZONE_END : Z := 16 * 1024 * 1024.
Definition DMA32_ZONE_END : Z := 4 * 1024 * 1024 * 1024.
Definition MAX_NUMA_NODES : Z := 8.

(** * Zones *)

Inductive MemoryZone : Type := Dma | Dma32 | Normal | HighMem.

#[export] Instance MemoryZone_eq_dec : EqDecision MemoryZone.
Proof. solve_decision. Defined.

(** [zone as usize]. *)
Definition zone_idx (z : MemoryZone) : nat :=
  match z with Dma => 0 | Dma32 => 1 | Normal => 2 | HighMem => 3 end.

Definition start_address (z : MemoryZone) : Z :=
  match z with
  | Dma => 0
  | Dma32 => DMA_ZONE_END
  | Normal => DMA32_ZONE_END
  | HighMem => U64_MAX
  end.

Definition end_address (z : MemoryZone) : Z :=
  match z with
  | Dma => DMA_ZONE_END
  | Dma32 => DMA32_ZONE_END
  | Normal => U64_MAX
  | HighMem => U64_MAX
  end.

Definition zone_from_address (addr : Z) : MemoryZone :=
  if addr <? DMA_ZONE_END then Dma
  else if addr <? DMA32_ZONE_END then Dma32
  else Normal.

Definition zone_name (z : MemoryZone) : string :=
  match z with
  | Dma => "DMA"
  | Dma32 => "DMA32"
  | Normal => "Normal"
  | HighMem => "HighMem"
  end.

(** * NUMA nodes *)

Record NumaNode := mkNumaNode { numa_id : Z }.
Definition NumaNode_default : NumaNode := mkNumaNode 0.

(** * Region types *)

Inductive E820Type : Type :=
| Usable | Reserved | AcpiReclaimable | AcpiNvs | BadMemory | Unknown.

#[export] Instance E820Type_eq_dec : EqDecision E820Type.
Proof. solve_decision. Defined.

Definition E820Type_from_u32 (val : Z) : E820Type :=
  match val with
  | 1 => Usable
  | 2 => Reserved
  | 3 => AcpiReclaimable
  | 4 => AcpiNvs
  | 5 => BadMemory
  | _ => Unknown
  end.

Definition E820Type_name (t : E820Type) : string :=
  match t with
  | Usable => "Usable"
  | Reserved => "Reserved"
  | AcpiReclaimable => "ACPI Reclaimable"
  | AcpiNvs => "ACPI NVS"
  | BadMemory => "Bad Memory"
  | Unknown => "Unknown"
  end.

Definition type_is_usable (t : E820Type) : bool := bool_decide (t = Usable).

(** * Entries *)

Record E820Entry := mkE820Entry {
  e820_base : Z;
  e820_length : Z;
  region_type : Z;
  acpi_extended : Z;
}.

Definition E820Entry_size : Z := 24.

(** [read_unaligned(ptr as *const E820Entry)]. *)
Definition read_entry (m : store) (ptr : Z) : E820Entry :=
  {| e820_base := le_load m ptr 8;
     e820_length := le_load m (ptr + 8) 8;
     region_type := le_load m (ptr + 16) 4;
     acpi_extended := le_load m (ptr + 20) 4 |}.

Record E820EntryExtended := mkE820EntryExtended {
  entry : E820Entry;
  numa_node : NumaNode;
}.

Definition extended_zone (e : E820EntryExtended) : MemoryZone :=
  zone_from_address (e820_base (entry e)).

Definition entry_end (e : E820Entry) : Z := sat_add64 (e820_base e) (e820_length e).

Definition memory_type (e : E820Entry) : E820Type := E820Type_from_u32 (region_type e).

Definition is_valid (e : E820Entry) : bool :=
  (0 <? e820_length e)
  && (negb (Z.land (acpi_extended e) 1 =? 0) || (acpi_extended e =? 0)).

Definition is_usable (e : E820Entry) : bool := is_valid e && type_is_usable (memory_type e).

Definition entry_overlaps (e : E820Entry) (start end_ : Z) : bool :=
  (e820_base e <? end_) && (start <? entry_end e).

Definition entry_contains (e : E820Entry) (addr : Z) : bool :=
  (e820_base e <=? addr) && (addr <? entry_end e).

Definition entry_zone (e : E820Entry) : MemoryZone := zone_from_address (e820_base e).

Definition zone_overlap (e : E820Entry) (zone : MemoryZone) : option (Z * Z) :=
  let zone_start := start_address zone in
  let zone_end := end_address zone in
  let entry_start := e820_base e in
  let entry_end := entry_end e in
  if (zone_end <=? entry_start) || (entry_end <=? zone_start) then None
  else
    let overlap_start := Z.max entry_start zone_start in
    let overlap_end := Z.min entry_end zone_end in
    Some (overlap_start, overlap_end -w overlap_start).

(** * The map *)

Record MemoryMap := mkMemoryMap { entries_ptr : Z; mm_count : Z }.

(** The scan of [MemoryMap::parse]; [n] is the number of entries left before
    [MAX_MEMORY_ENTRIES]. *)
Fixpoint parse_scan (m : store) (ptr : Z) (n : nat) (cnt : Z) : Z :=
  match n with
  | O => cnt
  | S n' =>
      let e := read_entry m (ptr +w E820Entry_size *w cnt) in
      if (region_type e <? 1) || (5 <? region_type e) then cnt
      else if e820_length e =? 0 then cnt
      else parse_scan m ptr n' (cnt + 1)
  end.

Definition parse (m : store) (memory_map_addr : Z) : MemoryMap :=
  mkMemoryMap memory_map_addr
    (parse_scan m memory_map_addr (Z.to_nat MAX_MEMORY_ENTRIES) 0).

Definition entry_count (map : MemoryMap) : Z := mm_count map.

Definition mm_get (m : store) (map : MemoryMap) (index : Z) : option E820Entry :=
  if index <? mm_count map
  then Some (read_entry m (entries_ptr map +w E820Entry_size *w index))
  else None.

Definition entries_raw (map : MemoryMap) : Z * Z := (entries_ptr map, mm_count map).

(** The shared shape of the accumulating queries:
    [while i < self.count { if let Some(entry) = self.get(i) { .. } i += 1 }]. *)
Definition fold_entries {A} (m : store) (map : MemoryMap) (f : E820Entry -> A -> A) (a : A) : A :=
  for_loop 0 (mm_count map)
    (fun i acc => match mm_get m map i with Some e => f e acc | None => acc end) a.

Definition total_usable_memory (m : store) (map : MemoryMap) : Z :=
  fold_entries m map (fun e total => if is_usable e then total +w e820_length e else total) 0.

Definition total_memory (m : store) (map : MemoryMap) : Z :=
  fold_entries m map (fun e total => if is_valid e then total +w e820_length e else total) 0.

Definition largest_usable_region (m : store) (map : MemoryMap) : option E820Entry :=
  fst (fold_entries m map
    (fun e acc => if is_usable e && (snd acc <? e820_length e) then (Some e, e820_length e) else acc)
    (None, 0)).

Definition find_usable_region_containing (m : store) (map : MemoryMap) (addr : Z)
  : option E820Entry :=
  find_loop 0 (mm_count map) (fun i =>
    match mm_get m map i with
    | Some e => if is_usable e && entry_contains e addr then Some e else None
    | None => None
    end).

Definition highest_usable_address (m : store) (map : MemoryMap) : Z :=
  fold_entries m map
    (fun e highest =>
       if is_usable e then
         let end_ := entry_end e in if highest <? end_ then end_ else highest
       else highest) 0.

Definition usable_region_count (m : store) (map : MemoryMap) : Z :=
  fold_entries m map (fun e c => if is_usable e then c +w 1 else c) 0.

Definition valid_entry_count (m : store) (map : MemoryMap) : Z :=
  fold_entries m map (fun e c => if is_valid e then c +w 1 else c) 0.

Definition zone_memory (m : store) (map : MemoryMap) (zone : MemoryZone) : Z :=
  fold_entries m map
    (fun e total =>
       if is_usable e then
         match zone_overlap e zone with
         | Some (_, len) => total +w len
         | None => total
         end
       else total) 0.

Definition zone_region_count (m : store) (map : MemoryMap) (zone : MemoryZone) : Z :=
  fold_entries m map
    (fun e c => if is_usable e && bool_decide (entry_zone e = zone) then c +w 1 else c) 0.

(** * The global map storage of [lib.rs] *)

Record MemoryMapStorage := mkMemoryMapStorage { mms_map : MemoryMap; mms_initialized : bool }.

Definition MEMORY_MAP_STORAGE_init : MemoryMapStorage :=
  mkMemoryMapStorage (mkMemoryMap 0 0) false.

Definition memory_init (m : store) (memory_map_addr : Z) (st : MemoryMapStorage)
  : MemoryMapStorage := mkMemoryMapStorage (parse m memory_map_addr) true.

Definition memory_get (st : MemoryMapStorage) : option MemoryMap :=
  if mms_initialized st then Some (mms_map st) else None.

Definition memory_get_total_usable (m : store) (st : MemoryMapStorage) : Z :=
  if mms_initialized st then total_usable_memory m (mms_map st) else 0.

Definition memory_get_highest_address (m : store) (st : MemoryMapStorage) : Z :=
  if mms_initialized st then highest_usable_address m (mms_map st) else 0.

Definition format_size (bytes : Z) : Z * string :=
  let KB := 1024 in
  let MB := 1024 * KB in
  let GB := 1024 * MB in
  if GB <=? bytes then (bytes / GB, "GB")
  else if MB <=? bytes then (bytes / MB, "MB")
  else if KB <=? bytes then (bytes / KB, "KB")
  else (bytes, "B").

(** * A sample map, for the witnesses *)

Fixpoint le_bytes (n : nat) (v : Z) : list Z :=
  match n with O => [] | S k => v mod 256 :: le_bytes k (v / 256) end.

Definition entry_bytes (e : E820Entry) : list Z :=
  le_bytes 8 (e820_base e) ++ le_bytes 8 (e820_length e)
  ++ le_bytes 4 (region_type e) ++ le_bytes 4 (acpi_extended e).

Definition load_bytes (a : Z) (l : list Z) : store := list_to_map (zip (seqZ a (Z.of_nat (List.length l))) l).

(** 640 KiB low, 127 MiB from 1 MiB, a reserved hole and 1 GiB above 4 GiB. *)
Definition sample_map_bytes : store :=
  load_bytes 28672 (entry_bytes (mkE820Entry 0 655360 1 1)
    ++ entry_bytes (mkE820Entry 1048576 133169152 1 1)
    ++ entry_bytes (mkE820Entry 4026531840 268435456 2 1)
    ++ entry_bytes (mkE820Entry 4294967296 1073741824 1 1)).

(** * Facts *)

(** The entries of a map, in order. *)
Definition entries_list (m : store) (map : MemoryMap) : list E820Entry :=
  (fun i => read_entry m (entries_ptr map +w E820Entry_size *w i)) <$> seqZ 0 (mm_count map).

(** What [parse] requires of an entry it counts. *)
Definition entry_scanned (e : E820Entry) : Prop :=
  1 <= region_type e <= 5 /\ e820_length e <> 0.

Lemma le_load_range m a n : 0 <= le_load m a n < 256 ^ Z.of_nat n.
Proof.
  revert a. induction n as [|n IH]; intros a; [simpl; lia|].
  cbn [le_load]. rewrite Nat2Z.inj_succ, Z.pow_succ_r by lia.
  specialize (IH (a + 1)). pose proof (Z.mod_pos_bound (rd m a) 256 eq_refl). lia.
Qed.

Lemma read_entry_range m p :
  is_u64 (e820_base (read_entry m p)) /\ is_u64 (e820_length (read_entry m p)).
Proof.
  split; unfold is_u64, U64; change 18446744073709551616 with (256 ^ Z.of_nat 8);
    apply le_load_range.
Qed.

Lemma entries_list_range m map e :
  e ∈ entries_list m map -> is_u64 (e820_base e) /\ is_u64 (e820_length e).
Proof.
  unfold entries_list. rewrite list_elem_of_fmap. intros (i & -> & _). apply read_entry_range.
Qed.

Lemma for_range_foldl {A B} (g : Z -> B) (f : B -> A -> A) n i a :
  for_range n i (fun i acc => f (g i) acc) a = foldl (fun acc e => f e acc) a (g <$> seqZ i (Z.of_nat n)).
Proof.
  revert i a. induction n as [|n IH]; intros i a; [done|].
  cbn [for_range]. rewrite IH. rewrite (seqZ_cons i (Z.of_nat (S n))) by lia.
  cbn [fmap list_fmap foldl]. by replace (Z.pred (Z.of_nat (S n))) with (Z.of_nat n) by lia.
Qed.

Lemma for_range_ext {St} n i (f g : Z -> St -> St) s :
  (forall j s, i <= j < i + Z.of_nat n -> f j s = g j s) -> for_range n i f s = for_range n i g s.
Proof.
  revert i s. induction n as [|n IH]; intros i s H; [done|]. simpl.
  rewrite H by lia. apply IH. intros. apply H. lia.
Qed.

(** Every accumulating query is a left fold over the entries. *)
Lemma fold_entries_foldl {A} m map (f : E820Entry -> A -> A) a :
  fold_entries m map f a = foldl (fun acc e => f e acc) a (entries_list m map).
Proof.
  unfold fold_entries, for_loop, entries_list. rewrite Z.sub_0_r.
  rewrite (for_range_ext _ _ _ (fun i acc => f (read_entry m (entries_ptr map +w E820Entry_size *w i)) acc)).
  - rewrite (for_range_foldl (fun i => read_entry m (entries_ptr map +w E820Entry_size *w i)) f).
    destruct (Z.le_gt_cases 0 (mm_count map)).
    + by rewrite Z2Nat.id.
    + by rewrite !seqZ_nil by lia.
  - intros j s Hj. unfold mm_get. destruct (Z.ltb_spec j (mm_count map)); [done|lia].
Qed.

Lemma parse_scan_spec m ptr n cnt :
  0 <= cnt ->
  let c := parse_scan m ptr n cnt in
  cnt <= c <= cnt + Z.of_nat n
  /\ (forall i, cnt <= i < c -> entry_scanned (read_entry m (ptr +w E820Entry_size *w i)))
  /\ (c < cnt + Z.of_nat n -> ~ entry_scanned (read_entry m (ptr +w E820Entry_size *w c))).
Proof.
  revert cnt. induction n as [|n IH]; intros cnt Hc; cbn [parse_scan]; [split_and!; lia|].
  set (e := read_entry m _).
  destruct ((region_type e <? 1) || (5 <? region_type e)) eqn:E1; [|destruct (e820_length e =? 0) eqn:E2].
  - split_and!; [lia|lia|lia|]. intros _ [Hr _]. fold e in Hr. lia.
  - split_and!; [lia|lia|lia|]. intros _ [_ Hl]. fold e in Hl. lia.
  - specialize (IH (cnt + 1) ltac:(lia)). cbv zeta in IH. destruct IH as (Hr & Hok & Hend).
    split_and!; [lia|lia| |].
    + intros i Hi. destruct (decide (i = cnt)) as [->|]; [|apply Hok; lia].
      fold e. unfold entry_scanned. lia.
    + intros Hlt. apply Hend. lia.
Qed.

(** A total over the entries, wrapping at [u64]. *)
Lemma foldl_add64 (g : E820Entry -> Z) (p : E820Entry -> bool) l a :
  is_u64 a ->
  foldl (fun total e => if p e then total +w g e else total) a l
  = wrap64 (a + foldr (fun e t => (if p e then g e else 0) + t) 0 l).
Proof.
  revert a. induction l as [|e l IH]; intros a Ha; simpl.
  - by rewrite Z.add_0_r, wrap64_small.
  - destruct (p e).
    + rewrite IH by apply add64_range. unfold add64, wrap64. rewrite Zplus_mod_idemp_l.
      f_equal. lia.
    + rewrite IH by done. done.
Qed.

(** The length an entry contributes to a zone. *)
Definition overlap_len (e : E820Entry) (z : MemoryZone) : Z :=
  match zone_overlap e z with Some (_, len) => len | None => 0 end.

Lemma zone_bounds z : 0 <= start_address z <= end_address z /\ end_address z <= U64_MAX.
Proof. destruct z; simpl; unfold DMA_ZONE_END, DMA32_ZONE_END, U64_MAX; lia. Qed.

Lemma overlap_len_eq e z :
  is_u64 (e820_base e) -> is_u64 (e820_length e) ->
  overlap_len e z
  = Z.max 0 (Z.min (entry_end e) (end_address z) - Z.max (e820_base e) (start_address z)).
Proof.
  intros Hb Hl. unfold overlap_len, zone_overlap. pose proof (zone_bounds z) as [??].
  assert (e820_base e <= entry_end e <= U64_MAX) by (unfold entry_end; word_unfold; lia).
  destruct (_ || _) eqn:E.
  - apply orb_true_iff in E as [E|E]; apply Z.leb_le in E; lia.
  - apply orb_false_iff in E as [E1 E2]. apply Z.leb_gt in E1, E2.
    rewrite sub64_small; [lia|]. word_unfold. lia.
Qed.

Lemma zone_split e :
  is_u64 (e820_base e) -> is_u64 (e820_length e) -> e820_base e + e820_length e <= U64_MAX ->
  overlap_len e Dma + overlap_len e Dma32 + overlap_len e Normal = e820_length e.
Proof.
  intros Hb Hl Hend.
  rewrite !overlap_len_eq by done.
  unfold entry_end, sat_add64. rewrite (Z.min_r U64_MAX) by done.
  simpl. word_unfold. unfold DMA_ZONE_END, DMA32_ZONE_END in *. lia.
Qed.

Lemma zone_memory_sum m map z :
  zone_memory m map z
  = wrap64 (foldr (fun e t => (if is_usable e then overlap_len e z else 0) + t) 0 (entries_list m map)).
Proof.
  unfold zone_memory. rewrite fold_entries_foldl.
  rewrite <- (Z.add_0_l (foldr _ _ _)).
  rewrite <- (foldl_add64 (fun e => overlap_len e z) is_usable) by (unfold is_u64, U64; lia).
  assert (forall l a, is_u64 a ->
    foldl (fun total e => if is_usable e then
             match zone_overlap e z with Some (_, len) => total +w len | None => total end
             else total) a l
    = foldl (fun total e => if is_usable e then total +w overlap_len e z else total) a l)
    as G; [|apply G; unfold is_u64, U64; lia].
  induction l as [|e l IH]; intros a Ha; [done|]. simpl.
  unfold overlap_len. destruct (is_usable e); [|by apply IH].
  destruct (zone_overlap e z) as [[o len]|].
  - apply IH, add64_range.
  - rewrite add64_small; rewrite Z.add_0_r; [by apply IH|done].
Qed.

Lemma highest_fold l h0 :
  let h := foldl (fun highest e => if is_usable e then
             let end_ := entry_end e in if highest <? end_ then end_ else highest
           else highest) h0 l in
  h0 <= h
  /\ (forall e, e ∈ l -> is_usable e = true -> entry_end e <= h)
  /\ (h = h0 \/ exists e, e ∈ l /\ is_usable e = true /\ entry_end e = h).
Proof.
  revert h0. induction l as [|e l IH]; intros h0; cbn [foldl].
  { split_and!; [lia|intros e He; by apply elem_of_nil in He|by left]. }
  set (h1 := if is_usable e then _ else h0).
  specialize (IH h1). cbv zeta in *. destruct IH as (Hle & Hub & Hat).
  assert (h0 <= h1 /\ (is_usable e = true -> entry_end e <= h1)
          /\ (h1 = h0 \/ is_usable e = true /\ h1 = entry_end e)) as (Ha & Hb & Hc).
  { subst h1. destruct (is_usable e); [|split_and!; [lia|done|by left]].
    destruct (Z.ltb_spec h0 (entry_end e)); split_and!; try lia. }
  split_and!; [lia| |].
  - intros e' [->|He]%elem_of_cons Hu; [specialize (Hb Hu); lia|by apply Hub].
  - destruct Hat as [->|(e' & He & Hu & Heq)].
    + destruct Hc as [->|[Hu ->]]; [by left|right; exists e; split_and!; [left|done|done]].
    + right. exists e'. split_and!; [by right|done|done].
Qed.

Lemma usable_end_pos e :
  is_usable e = true -> is_u64 (e820_base e) -> is_u64 (e820_length e) -> 0 < entry_end e.
Proof.
  unfold is_usable, is_valid, entry_end. rewrite !andb_true_iff. word_unfold. lia.
Qed.

(** * Properties *)

(** [MemoryMap::parse] counts exactly the leading run of valid entries: it
    keeps at most 64, every kept entry has a type in 1..5 and a non-zero
    length, and when it keeps fewer than 64 the next entry is invalid. *)
Theorem parse_counts_valid_prefix m addr :
  let map := parse m addr in
  0 <= mm_count map <= MAX_MEMORY_ENTRIES
  /\ (forall i e, mm_get m map i = Some e -> 0 <= i -> entry_scanned e)
  /\ (mm_count map < MAX_MEMORY_ENTRIES ->
      ~ entry_scanned (read_entry m (addr +w E820Entry_size *w mm_count map))).
Proof.
  cbv zeta. unfold parse. cbn [mm_count].
  pose proof (parse_scan_spec m addr (Z.to_nat MAX_MEMORY_ENTRIES) 0 ltac:(lia)) as H.
  cbv zeta in H. destruct H as (Hr & Hok & Hend).
  replace (0 + Z.of_nat (Z.to_nat MAX_MEMORY_ENTRIES)) with MAX_MEMORY_ENTRIES in * by done.
  split_and!; [lia|lia| |done].
  intros i e. unfold mm_get. cbn [mm_count entries_ptr]. destruct (Z.ltb_spec i (parse_scan m addr (Z.to_nat MAX_MEMORY_ENTRIES) 0)); [|done].
  intros [= <-] Hi. apply Hok. lia.
Qed.

(** [highest_usable_address] is the maximum end address of the usable
    entries: it bounds every one of them and is reached by one, and it is 0
    exactly when no entry is usable. *)
Theorem highest_usable_is_max m map :
  let h := highest_usable_address m map in
  (forall e, e ∈ entries_list m map -> is_usable e = true -> entry_end e <= h)
  /\ (h <> 0 -> exists e, e ∈ entries_list m map /\ is_usable e = true /\ entry_end e = h)
  /\ (h = 0 <-> forall e, e ∈ entries_list m map -> is_usable e = false).
Proof.
  cbv zeta. unfold highest_usable_address. rewrite fold_entries_foldl.
  destruct (highest_fold (entries_list m map) 0) as (H0 & Hub & Hat). cbv zeta in *.
  split_and!; [done| |].
  - intros Hne. destruct Hat as [|H]; [done|exact H].
  - split.
    + intros Hz e He. destruct (is_usable e) eqn:Hu; [|done].
      specialize (Hub e He Hu). rewrite Hz in Hub.
      destruct (entries_list_range _ _ _ He) as [Hb Hl]. pose proof (usable_end_pos e Hu Hb Hl). lia.
    + intros Hno. destruct Hat as [|(e & He & Hu & _)]; [done|]. by rewrite Hno in Hu.
Qed.

(** The zones partition the usable memory: when no usable entry reaches
    past the address space, the memory of the DMA, DMA32 and Normal zones adds
    up (on [u64]) to the total usable memory, and HighMem is always empty. *)
Theorem zone_memory_partition m map :
  (forall e, e ∈ entries_list m map -> is_usable e = true ->
             e820_base e + e820_length e <= U64_MAX) ->
  zone_memory m map Dma +w zone_memory m map Dma32 +w zone_memory m map Normal
  = total_usable_memory m map
  /\ zone_memory m map HighMem = 0.
Proof.
  intros Hend. rewrite !zone_memory_sum.
  assert (total_usable_memory m map
    = wrap64 (foldr (fun e t => (if is_usable e then e820_length e else 0) + t) 0
                (entries_list m map))) as ->.
  { unfold total_usable_memory. rewrite fold_entries_foldl.
    rewrite (foldl_add64 (fun e => e820_length e) is_usable); [done|by vm_compute]. }
  pose proof (entries_list_range m map) as Hr.
  revert Hend Hr. generalize (entries_list m map). intros l Hend Hr.
  assert (forall z, z = HighMem -> foldr (fun e t => (if is_usable e then overlap_len e z else 0) + t) 0 l = 0) as Hhi.
  { intros z ->. induction l as [|e l IH]; [done|]. simpl. rewrite IH; [|intros; apply Hend; [by right|done]|intros; apply Hr; by right].
    destruct (Hr e ltac:(left)). rewrite overlap_len_eq by done.
    destruct (is_usable e); [|done]. unfold entry_end. simpl. word_unfold. lia. }
  split; [|by rewrite Hhi].
  clear Hhi. rewrite !add64_wrap.
  f_equal. induction l as [|e l IH]; [done|]. simpl.
  specialize (IH ltac:(intros; apply Hend; [by right|done]) ltac:(intros; apply Hr; by right)).
  destruct (Hr e ltac:(left)) as [Hb Hl]. specialize (Hend e ltac:(left)).
  destruct (is_usable e); [|lia].
  pose proof (zone_split e Hb Hl (Hend eq_refl)). lia.
Qed.

(** * Witness *)

Definition forall_list_dec (P : E820Entry -> bool) (l : list E820Entry) :
  forallb P l = true -> forall e, e ∈ l -> P e = true.
Proof. rewrite forallb_forall. intros H e He. apply H. by apply list_elem_of_In. Defined.

Lemma zone_memory_partition_witness :
  zone_memory sample_map_bytes (parse sample_map_bytes 28672) Dma = 16384000
  /\ total_usable_memory sample_map_bytes (parse sample_map_bytes 28672) = 1207566336
  /\ zone_memory sample_map_bytes (parse sample_map_bytes 28672) HighMem = 0.
Proof.
  split_and!; [by vm_compute|by vm_compute|].
  apply zone_memory_partition. intros e He _. apply Z.leb_le.
  revert e He. apply (forall_list_dec (fun e => e820_base e + e820_length e <=? U64_MAX)).
  by vm_compute.
Defined.
