(* ===== verification/Pmm.v ===== *)
(** Physical memory manager: [memory/pmm.rs].

    [PhysicalMemoryManager] is the struct; the bitmap it points to lives in the
    byte store, at [bitmap + frame / 8], bit [frame mod 8] (1 = in use).  An
    operation taking [&mut self] maps a [pmm_state] (struct and bytes) to a new
    one and a [result].  Serial and VGA output is left out.  The C wrappers act
    on the global instance, an [option] until [init] has stored it. *)

From S2P Require Import Prelude E820.

Definition PAGE_SIZE : Z := 4096.

(** * Data *)

Record MemoryError := mkMemoryError { code : Z; message : string; fatal : bool }.

Record AllocFlags := mkAllocFlags {
  dma_capable : bool;
  dma32_capable : bool;
  allow_fallback : bool;
  flags_numa_node : option NumaNode;
  zero_memory : bool;
}.

Definition AllocFlags_new : AllocFlags := mkAllocFlags false false true None false.
Definition AllocFlags_dma : AllocFlags := mkAllocFlags true false false None false.
Definition AllocFlags_dma32 : AllocFlags := mkAllocFlags false true true None false.
Definition AllocFlags_numa (node : NumaNode) : AllocFlags :=
  mkAllocFlags false false true (Some node) false.

Record ZoneStats := mkZoneStats {
  z_total_frames : Z;
  z_free_frames : Z;
  z_last_alloc_index : Z;
}.
Definition ZoneStats_new : ZoneStats := mkZoneStats 0 0 0.

Record NumaStats := mkNumaStats { n_total_frames : Z; n_free_frames : Z }.
Definition NumaStats_new : NumaStats := mkNumaStats 0 0.

Record PhysicalMemoryManager := mkPmm {
  bitmap : Z;
  bitmap_size : Z;
  bitmap_size_aligned : Z;
  total_frames : Z;
  free_frames : Z;
  last_alloc_index : Z;
  highest_address : Z;
  zones : list ZoneStats;
  numa_nodes : list NumaStats;
  numa_count : Z;
}.

(** The struct and the memory it points into. *)
Record pmm_state := mkPst { pm : PhysicalMemoryManager; bytes : store }.

(** Field assignments [self.f = v]. *)
Definition set_free_frames (v : Z) (p : PhysicalMemoryManager) : PhysicalMemoryManager :=
  mkPmm (bitmap p) (bitmap_size p) (bitmap_size_aligned p) (total_frames p) v
    (last_alloc_index p) (highest_address p) (zones p) (numa_nodes p) (numa_count p).
Definition set_last_alloc_index (v : Z) (p : PhysicalMemoryManager) : PhysicalMemoryManager :=
  mkPmm (bitmap p) (bitmap_size p) (bitmap_size_aligned p) (total_frames p) (free_frames p)
    v (highest_address p) (zones p) (numa_nodes p) (numa_count p).
Definition set_zones (v : list ZoneStats) (p : PhysicalMemoryManager) : PhysicalMemoryManager :=
  mkPmm (bitmap p) (bitmap_size p) (bitmap_size_aligned p) (total_frames p) (free_frames p)
    (last_alloc_index p) (highest_address p) v (numa_nodes p) (numa_count p).

(** [self.zones[i]]; [i] comes from a [MemoryZone], so it is in range. *)
Definition zone_at (p : PhysicalMemoryManager) (i : nat) : ZoneStats :=
  default ZoneStats_new (zones p !! i).
Definition zone_set_free (i : nat) (v : Z) (p : PhysicalMemoryManager) : PhysicalMemoryManager :=
  let z := zone_at p i in
  set_zones (<[i := mkZoneStats (z_total_frames z) v (z_last_alloc_index z)]> (zones p)) p.

(** * Bitmap bytes *)

(** [*self.bitmap.add(i)] and the store through it. *)
Definition bm_get (s : pmm_state) (i : Z) : Z := rd (bytes s) (bitmap (pm s) + i).
Definition bm_or (i v : Z) (s : pmm_state) : pmm_state :=
  mkPst (pm s) (wr (bytes s) (bitmap (pm s) + i) (Z.lor (bm_get s i) v)).
Definition bm_and (i v : Z) (s : pmm_state) : pmm_state :=
  mkPst (pm s) (wr (bytes s) (bitmap (pm s) + i) (Z.land (bm_get s i) v)).
Definition upd (f : PhysicalMemoryManager -> PhysicalMemoryManager) (s : pmm_state) : pmm_state :=
  mkPst (f (pm s)) (bytes s).

(** * Initialisation *)

Definition KERNEL_END : Z := 1048576 + 9 * 1024 * 1024.
Definition KERNEL_STACK_TOP : Z := 33554432.
Definition KERNEL_STACK_SIZE : Z := 1048576.

(** [mark_region_used_static]: the state is the memory and [*free_frames]. *)
Definition mark_region_used_static (start_frame end_frame bitmap_ptr : Z) (st : store * Z)
  : store * Z :=
  for_loop start_frame end_frame
    (fun frame '(m, free) =>
       let byte_idx := frame / 8 in
       let bit_offset := frame mod 8 in
       if Z.land (rd m (bitmap_ptr + byte_idx)) (bit bit_offset) =? 0
       then (wr m (bitmap_ptr + byte_idx) (Z.lor (rd m (bitmap_ptr + byte_idx)) (bit bit_offset)),
             sat_sub free 1)
       else (m, free)) st.

(** Step 3 of [init]: the first usable region with room for the bitmap. *)
Definition init_find_bitmap (m : store) (map : MemoryMap) (bitmap_size_aligned : Z) : option Z :=
  find_loop 0 (entry_count map) (fun i =>
    match mm_get m map i with
    | Some e =>
        if is_usable e then
          let region_start := if e820_base e <? KERNEL_END then KERNEL_END else e820_base e in
          let region_end := e820_base e +w e820_length e in
          if region_end <=? region_start then None
          else
            let usable_length := region_end -w region_start in
            if usable_length <? bitmap_size_aligned then None
            else Some region_start
        else None
    | None => None
    end).

(** Step 6: the free bits of one usable entry. *)
Definition init_free_entry (bitmap_ptr total_frames : Z) (e : E820Entry) (st : store * Z)
  : store * Z :=
  let region_base := e820_base e in
  let region_end := e820_base e +w e820_length e in
  let start_frame := (region_base +w PAGE_SIZE -w 1) / PAGE_SIZE in
  let end_frame := region_end / PAGE_SIZE in
  if total_frames <=? start_frame then st
  else
    let end_frame := if total_frames <? end_frame then total_frames else end_frame in
    for_loop start_frame end_frame
      (fun frame '(m, free) =>
         let byte_idx := frame / 8 in
         let bit_offset := frame mod 8 in
         (wr m (bitmap_ptr + byte_idx)
            (Z.land (rd m (bitmap_ptr + byte_idx)) (not8 (bit bit_offset))),
          free +w 1)) st.

Definition init_free_regions (map : MemoryMap) (bitmap_ptr total_frames : Z) (st : store * Z)
  : store * Z :=
  for_loop 0 (entry_count map)
    (fun i '(m, free) =>
       match mm_get m map i with
       | Some e => if is_usable e then init_free_entry bitmap_ptr total_frames e (m, free)
                   else (m, free)
       | None => (m, free)
       end) st.

(** Step 7: the reserved ranges, in the order the code marks them. *)
Definition init_reserve (map : MemoryMap) (bitmap_base_address bitmap_size : Z) (st : store * Z)
  : store * Z :=
  let bitmap_ptr := bitmap_base_address in
  let st := mark_region_used_static 0 (1048576 / PAGE_SIZE) bitmap_ptr st in
  let st := mark_region_used_static (1048576 / PAGE_SIZE)
              ((1048576 + 9 * 1024 * 1024) / PAGE_SIZE) bitmap_ptr st in
  let st := mark_region_used_static ((KERNEL_STACK_TOP - KERNEL_STACK_SIZE) / PAGE_SIZE)
              (KERNEL_STACK_TOP / PAGE_SIZE) bitmap_ptr st in
  let bitmap_start_frame := bitmap_base_address / PAGE_SIZE in
  let bitmap_end_frame := (bitmap_base_address +w bitmap_size +w PAGE_SIZE -w 1) / PAGE_SIZE in
  let st := mark_region_used_static bitmap_start_frame bitmap_end_frame bitmap_ptr st in
  let '(memmap_base, map_entry_count) := entries_raw map in
  let memmap_size := map_entry_count *w E820Entry_size in
  let memmap_start_frame := memmap_base / PAGE_SIZE in
  let memmap_end_frame := (memmap_base +w memmap_size +w PAGE_SIZE -w 1) / PAGE_SIZE in
  mark_region_used_static memmap_start_frame memmap_end_frame bitmap_ptr st.

(** Step 8: the bits past the last frame, in the last byte. *)
Definition init_phantom (bitmap_ptr total_frames : Z) (m : store) : store :=
  let remaining_bits := total_frames mod 8 in
  if remaining_bits =? 0 then m
  else
    let last_byte_index := total_frames / 8 in
    for_loop remaining_bits 8
      (fun b m => wr m (bitmap_ptr + last_byte_index)
                    (Z.lor (rd m (bitmap_ptr + last_byte_index)) (bit b))) m.

(** Step 9: only the totals are filled in. *)
Definition init_zones (total_frames : Z) : list ZoneStats :=
  let dma_end_frame := DMA_ZONE_END / PAGE_SIZE in
  let dma32_end_frame := DMA32_ZONE_END / PAGE_SIZE in
  [ mkZoneStats (if total_frames <? dma_end_frame then total_frames else dma_end_frame) 0 0;
    mkZoneStats (if dma_end_frame <? total_frames then
                   if total_frames <? dma32_end_frame then total_frames -w dma_end_frame
                   else dma32_end_frame -w dma_end_frame
                 else 0) 0 0;
    mkZoneStats (if dma32_end_frame <? total_frames then total_frames -w dma32_end_frame
                 else 0) 0 0;
    ZoneStats_new ].

Definition err_no_memory : MemoryError := mkMemoryError 1 "No memory detected!" true.
Definition err_no_region : MemoryError := mkMemoryError 2 "No suitable region for bitmap!" true.

Definition bitmap_bytes (total_frames : Z) : Z := (total_frames +w 7) / 8.
Definition bitmap_bytes_aligned (bitmap_size : Z) : Z :=
  (bitmap_size +w PAGE_SIZE -w 1) / PAGE_SIZE *w PAGE_SIZE.

(** [PhysicalMemoryManager::init]; the global instance is only stored on success. *)
Definition pmm_init (map : MemoryMap) (g : option PhysicalMemoryManager) (m : store)
  : option PhysicalMemoryManager * store * result MemoryError unit :=
  let highest_address := highest_usable_address m map in
  if highest_address =? 0 then (g, m, Err err_no_memory)
  else
    let total_frames := highest_address / PAGE_SIZE in
    let bitmap_size := bitmap_bytes total_frames in
    let bitmap_size_aligned := bitmap_bytes_aligned bitmap_size in
    match init_find_bitmap m map bitmap_size_aligned with
    | None => (g, m, Err err_no_region)
    | Some bitmap_base_address =>
        let bitmap_base_address :=
          if negb (bitmap_base_address mod PAGE_SIZE =? 0)
          then (bitmap_base_address / PAGE_SIZE + 1) *w PAGE_SIZE
          else bitmap_base_address in
        let bitmap_ptr := bitmap_base_address in
        let m := for_loop 0 bitmap_size (fun i m => wr m (bitmap_ptr + i) 255) m in
        let '(m, free) := init_free_regions map bitmap_ptr total_frames (m, 0) in
        let '(m, free) := init_reserve map bitmap_base_address bitmap_size (m, free) in
        let m := init_phantom bitmap_ptr total_frames m in
        let numa := <[0%nat := mkNumaStats total_frames free]> (replicate 8 NumaStats_new) in
        let pmm := mkPmm bitmap_ptr bitmap_size bitmap_size_aligned total_frames free 0
                     highest_address (init_zones total_frames) numa 1 in
        (Some pmm, m, Ok tt)
    end.

(** * Allocation *)

Definition err_no_free : MemoryError := mkMemoryError 3 "No free memory available!" false.
Definition err_not_found : MemoryError := mkMemoryError 4 "Failed to find free frame!" false.
Definition err_unaligned : MemoryError := mkMemoryError 5 "Address not page-aligned!" false.
Definition err_bounds : MemoryError := mkMemoryError 6 "Address out of bounds!" false.
Definition err_double_free : MemoryError := mkMemoryError 7 "Double free detected!" false.
Definition err_uninit : MemoryError := mkMemoryError 8 "PMM not initialized!" true.
Definition err_zone_empty : MemoryError := mkMemoryError 10 "No free frames in requested zone!" false.
Definition err_zone_not_found : MemoryError :=
  mkMemoryError 11 "Failed to find free frame in zone!" false.
Definition err_zero_frames : MemoryError := mkMemoryError 12 "Cannot allocate zero frames!" false.
Definition err_no_contiguous : MemoryError :=
  mkMemoryError 13 "No contiguous frames available!" false.

Definition bit_offsets : list Z := [0; 1; 2; 3; 4; 5; 6; 7].

(** The inner [for bit_offset in 0..8] of [alloc_frame]: the first clear bit,
    unless it is a phantom bit, which [break]s. *)
Fixpoint first_free_bit (offs : list Z) (byte_value current_idx total : Z) : option Z :=
  match offs with
  | [] => None
  | b :: offs' =>
      if Z.land byte_value (bit b) =? 0 then
        let frame_index := current_idx *w 8 +w b in
        if total <=? frame_index then None else Some b
      else first_free_bit offs' byte_value current_idx total
  end.

(** The [while loop_count < self.bitmap_size] scan; [n] is the number of
    iterations left. *)
Fixpoint alloc_scan (n : nat) (current_idx : Z) (s : pmm_state)
  : pmm_state * result MemoryError Z :=
  match n with
  | O => (s, Err err_not_found)
  | S n' =>
      let byte_value := bm_get s current_idx in
      let next := alloc_scan n' ((current_idx +w 1) mod bitmap_size (pm s)) s in
      if byte_value =? 255 then next
      else
        match first_free_bit bit_offsets byte_value current_idx (total_frames (pm s)) with
        | Some b =>
            let frame_index := current_idx *w 8 +w b in
            let s := bm_or current_idx (bit b) s in
            let s := upd (set_free_frames (free_frames (pm s) -w 1)) s in
            let s := upd (set_last_alloc_index current_idx) s in
            (s, Ok (frame_index *w PAGE_SIZE))
        | None => next
        end
  end.

Definition alloc_frame (s : pmm_state) : pmm_state * result MemoryError Z :=
  if free_frames (pm s) =? 0 then (s, Err err_no_free)
  else alloc_scan (Z.to_nat (bitmap_size (pm s))) (last_alloc_index (pm s)) s.

(** The zone's frame range, clamped to the tracked memory. *)
Definition zone_frames (p : PhysicalMemoryManager) (zone : MemoryZone) : Z * Z :=
  (start_address zone / PAGE_SIZE, Z.min (end_address zone / PAGE_SIZE) (total_frames p)).

(** The inner loop of [alloc_frame_in_zone]: frames outside the zone are skipped. *)
Fixpoint first_zone_bit (offs : list Z) (byte_value byte_idx zone_start zone_end : Z) : option Z :=
  match offs with
  | [] => None
  | b :: offs' =>
      let frame_index := byte_idx *w 8 +w b in
      if (frame_index <? zone_start) || (zone_end <=? frame_index)
      then first_zone_bit offs' byte_value byte_idx zone_start zone_end
      else if Z.land byte_value (bit b) =? 0 then Some b
      else first_zone_bit offs' byte_value byte_idx zone_start zone_end
  end.

Definition alloc_frame_in_zone (zone : MemoryZone) (s : pmm_state)
  : pmm_state * result MemoryError Z :=
  let i := zone_idx zone in
  if z_free_frames (zone_at (pm s) i) =? 0 then (s, Err err_zone_empty)
  else
    let '(zone_start, zone_end) := zone_frames (pm s) zone in
    let start_byte := zone_start / 8 in
    let end_byte := (zone_end +w 7) / 8 in
    match find_loop start_byte end_byte (fun byte_idx =>
            let byte_value := bm_get s byte_idx in
            if byte_value =? 255 then None
            else match first_zone_bit bit_offsets byte_value byte_idx zone_start zone_end with
                 | Some b => Some (byte_idx, b)
                 | None => None
                 end) with
    | Some (byte_idx, b) =>
        let frame_index := byte_idx *w 8 +w b in
        let s := bm_or byte_idx (bit b) s in
        let s := upd (set_free_frames (free_frames (pm s) -w 1)) s in
        let s := upd (zone_set_free i (z_free_frames (zone_at (pm s) i) -w 1)) s in
        let s := upd (set_last_alloc_index byte_idx) s in
        (s, Ok (frame_index *w PAGE_SIZE))
    | None => (s, Err err_zone_not_found)
    end.

Definition alloc_frame_numa (preferred_node : NumaNode) (s : pmm_state)
  : pmm_state * result MemoryError Z := alloc_frame s.

Definition alloc_dma_frame (s : pmm_state) : pmm_state * result MemoryError Z :=
  alloc_frame_in_zone Dma s.

Definition alloc_dma32_frame (s : pmm_state) : pmm_state * result MemoryError Z :=
  match alloc_frame_in_zone Dma s with
  | (s', Ok addr) => (s', Ok addr)
  | (s', Err _) => alloc_frame_in_zone Dma32 s'
  end.

(** * Single bits *)

Definition test_bit (s : pmm_state) (frame : Z) : bool :=
  if total_frames (pm s) <=? frame then true
  else negb (Z.land (bm_get s (frame / 8)) (bit (frame mod 8)) =? 0).

Definition set_bit (frame : Z) (s : pmm_state) : pmm_state :=
  if total_frames (pm s) <=? frame then s
  else if Z.land (bm_get s (frame / 8)) (bit (frame mod 8)) =? 0 then
    let s := bm_or (frame / 8) (bit (frame mod 8)) s in
    upd (set_free_frames (sat_sub (free_frames (pm s)) 1)) s
  else s.

Definition clear_bit (frame : Z) (s : pmm_state) : pmm_state :=
  if total_frames (pm s) <=? frame then s
  else if negb (Z.land (bm_get s (frame / 8)) (bit (frame mod 8)) =? 0) then
    let s := bm_and (frame / 8) (not8 (bit (frame mod 8))) s in
    upd (set_free_frames (free_frames (pm s) +w 1)) s
  else s.

Definition mark_region_used (b len : Z) (s : pmm_state) : pmm_state :=
  let start_frame := b / PAGE_SIZE in
  let end_frame := (b +w len +w PAGE_SIZE -w 1) / PAGE_SIZE in
  for_loop start_frame end_frame set_bit s.

Definition mark_region_free (b len : Z) (s : pmm_state) : pmm_state :=
  let start_frame := b / PAGE_SIZE in
  let end_frame := (b +w len +w PAGE_SIZE -w 1) / PAGE_SIZE in
  for_loop start_frame end_frame clear_bit s.

(** * Contiguous runs *)

(** The first used frame of [current .. current + count], if any: the inner
    loop of the search and the frame it breaks at. *)
Definition first_used (s : pmm_state) (current cnt : Z) : option Z :=
  find_loop 0 cnt (fun offset =>
    let frame := current +w offset in if test_bit s frame then Some frame else None).

(** Mark the run as used, with the zone counters. *)
Definition take_run (current cnt : Z) (s : pmm_state) : pmm_state :=
  for_loop 0 cnt (fun offset s =>
    let frame := current +w offset in
    let s := bm_or (frame / 8) (bit (frame mod 8)) s in
    let addr := frame *w PAGE_SIZE in
    let i := zone_idx (zone_from_address addr) in
    upd (zone_set_free i (z_free_frames (zone_at (pm s) i) -w 1)) s) s.

(** The [while current_frame + count <= end_frame] search.  Every round either
    returns or moves [current_frame] forward, so [end_frame + 2] rounds are
    enough; [None] would mean that the fuel was not. *)
Fixpoint contig_search (fuel : nat) (current cnt end_frame : Z) (s : pmm_state)
  : option (pmm_state * result MemoryError Z) :=
  match fuel with
  | O => None
  | S fuel' =>
      if current +w cnt <=? end_frame then
        match first_used s current cnt with
        | Some frame => contig_search fuel' (frame +w 1) cnt end_frame s
        | None =>
            let s := take_run current cnt s in
            let s := upd (set_free_frames (free_frames (pm s) -w cnt)) s in
            Some (s, Ok (current *w PAGE_SIZE))
        end
      else Some (s, Err err_no_contiguous)
  end.

Definition contig_range (zone : option MemoryZone) (s : pmm_state) : Z * Z :=
  match zone with
  | Some z => zone_frames (pm s) z
  | None => (0, total_frames (pm s))
  end.

Definition alloc_frames_contiguous (cnt : Z) (zone : option MemoryZone) (s : pmm_state)
  : option (pmm_state * result MemoryError Z) :=
  if cnt =? 0 then Some (s, Err err_zero_frames)
  else if cnt =? 1 then
    Some match zone with
         | Some z => alloc_frame_in_zone z s
         | None => alloc_frame s
         end
  else
    let '(start_frame, end_frame) := contig_range zone s in
    contig_search (Z.to_nat (end_frame + 2)) start_frame cnt end_frame s.

(** * Release *)

Definition free_frame (addr : Z) (s : pmm_state) : pmm_state * result MemoryError unit :=
  if negb (addr mod PAGE_SIZE =? 0) then (s, Err err_unaligned)
  else
    let frame_index := addr / PAGE_SIZE in
    if total_frames (pm s) <=? frame_index then (s, Err err_bounds)
    else
      let byte_idx := frame_index / 8 in
      let bit_offset := frame_index mod 8 in
      if Z.land (bm_get s byte_idx) (bit bit_offset) =? 0 then (s, Err err_double_free)
      else
        let s := bm_and byte_idx (not8 (bit bit_offset)) s in
        let s := upd (set_free_frames (free_frames (pm s) +w 1)) s in
        let i := zone_idx (zone_from_address addr) in
        let s := upd (zone_set_free i (z_free_frames (zone_at (pm s) i) +w 1)) s in
        let s := if byte_idx <? last_alloc_index (pm s)
                 then upd (set_last_alloc_index byte_idx) s else s in
        (s, Ok tt).

(** The loop of [free_frames_contiguous]; [?] stops at the first error. *)
Fixpoint free_run (n : nat) (i base_addr : Z) (s : pmm_state)
  : pmm_state * result MemoryError unit :=
  match n with
  | O => (s, Ok tt)
  | S n' =>
      match free_frame (base_addr +w i *w PAGE_SIZE) s with
      | (s', Ok _) => free_run n' (i + 1) base_addr s'
      | (s', Err e) => (s', Err e)
      end
  end.

Definition free_frames_contiguous (base_addr cnt : Z) (s : pmm_state)
  : pmm_state * result MemoryError unit :=
  if cnt =? 0 then (s, Ok tt)
  else if negb (base_addr mod PAGE_SIZE =? 0) then (s, Err err_unaligned)
  else free_run (Z.to_nat cnt) 0 base_addr s.

(** * Statistics *)

Definition free_frame_count (s : pmm_state) : Z := free_frames (pm s).
Definition total_frame_count (s : pmm_state) : Z := total_frames (pm s).
Definition free_memory (s : pmm_state) : Z := free_frames (pm s) *w PAGE_SIZE.
Definition used_memory (s : pmm_state) : Z :=
  (total_frames (pm s) -w free_frames (pm s)) *w PAGE_SIZE.
Definition total_memory_pmm (s : pmm_state) : Z := total_frames (pm s) *w PAGE_SIZE.
Definition is_frame_used (addr : Z) (s : pmm_state) : bool := test_bit s (addr / PAGE_SIZE).
Definition zone_stats (zone : MemoryZone) (s : pmm_state) : ZoneStats :=
  zone_at (pm s) (zone_idx zone).
Definition zone_free_memory (zone : MemoryZone) (s : pmm_state) : Z :=
  z_free_frames (zone_stats zone s) *w PAGE_SIZE.
Definition zone_total_memory (zone : MemoryZone) (s : pmm_state) : Z :=
  z_total_frames (zone_stats zone s) *w PAGE_SIZE.
Definition numa_stats (node : NumaNode) (s : pmm_state) : option NumaStats :=
  if numa_id node <? numa_count (pm s)
  then Some (default NumaStats_new (numa_nodes (pm s) !! Z.to_nat (numa_id node)))
  else None.
Definition numa_node_count (s : pmm_state) : Z := numa_count (pm s).
Definition numa_free_memory (node : NumaNode) (s : pmm_state) : Z :=
  match numa_stats node s with Some st => n_free_frames st *w PAGE_SIZE | None => 0 end.
Definition numa_total_memory (node : NumaNode) (s : pmm_state) : Z :=
  match numa_stats node s with Some st => n_total_frames st *w PAGE_SIZE | None => 0 end.

Definition memory_usage_percent (s : pmm_state) : Z :=
  if total_frames (pm s) =? 0 then 0
  else
    let used := total_frames (pm s) -w free_frames (pm s) in
    wrap8 ((used *w 100) / total_frames (pm s)).

Definition zone_usage_percent (zone : MemoryZone) (s : pmm_state) : Z :=
  let st := zone_stats zone s in
  if z_total_frames st =? 0 then 0
  else
    let used := z_total_frames st -w z_free_frames st in
    wrap8 ((used *w 100) / z_total_frames st).

Definition is_memory_critical (s : pmm_state) : bool := 90 <? memory_usage_percent s.
Definition is_zone_critical (zone : MemoryZone) (s : pmm_state) : bool :=
  90 <? zone_usage_percent zone s.

(** The longest run of free frames, as [fragmentation_estimate] scans it: the
    state is [(max_contiguous, current_run)]. *)
Definition longest_run (s : pmm_state) : Z :=
  fst (for_loop 0 (total_frames (pm s))
    (fun frame '(mx, run) =>
       if negb (test_bit s frame) then
         let run := run +w 1 in
         ((if mx <? run then run else mx), run)
       else (mx, 0)) (0, 0)).

Definition fragmentation_estimate (s : pmm_state) : Z :=
  if free_frames (pm s) =? 0 then 0
  else
    let ratio := (longest_run s *w 100) / free_frames (pm s) in
    wrap8 (100 -w ratio).

(** * The global instance and its C interface *)

(** [PMM_INSTANCE] and the memory. *)
Record pmm_global := mkGlobal { instance : option PhysicalMemoryManager; gbytes : store }.

(** [match get_pmm_mut() { Some(pmm) => f(pmm), None => d }]. *)
Definition with_pmm {A} (f : pmm_state -> pmm_state * A) (d : A) (g : pmm_global) : pmm_global * A :=
  match instance g with
  | Some p => let '(s, a) := f (mkPst p (gbytes g)) in (mkGlobal (Some (pm s)) (bytes s), a)
  | None => (g, d)
  end.

(** [match get_pmm() { Some(pmm) => f(pmm), None => d }]. *)
Definition read_pmm {A} (f : pmm_state -> A) (d : A) (g : pmm_global) : A :=
  match instance g with Some p => f (mkPst p (gbytes g)) | None => d end.

Definition alloc_frame_global : pmm_global -> pmm_global * result MemoryError Z :=
  with_pmm alloc_frame (Err err_uninit).
Definition free_frame_global (addr : Z) : pmm_global -> pmm_global * result MemoryError unit :=
  with_pmm (free_frame addr) (Err err_uninit).

(** [-(e.code as i32)] of an error, [ok] otherwise. *)
Definition c_status {A} (r : result MemoryError A) : Z :=
  match r with Ok _ => 0 | Err e => - code e end.

(** [match zone { 0 => Dma, 1 => Dma32, 2 => Normal, 3 => HighMem, _ => return 0 }]. *)
Definition zone_of_u8 (z : Z) : option MemoryZone :=
  match z with 0 => Some Dma | 1 => Some Dma32 | 2 => Some Normal | 3 => Some HighMem | _ => None end.

Definition lift_addr (f : pmm_state -> pmm_state * result MemoryError Z) (s : pmm_state)
  : pmm_state * Z := let '(s, r) := f s in (s, unwrap_or r 0).

Definition pmm_init_c (st : MemoryMapStorage) (g : pmm_global) : pmm_global * Z :=
  if negb (mms_initialized st) then (g, -9)
  else
    let '(i, m, r) := pmm_init (mms_map st) (instance g) (gbytes g) in
    match r with
    | Ok _ => (mkGlobal i m, if bool_decide (is_Some i) then 0 else -10)
    | Err e => (mkGlobal i m, - code e)
    end.

Definition pmm_alloc_frame : pmm_global -> pmm_global * Z := with_pmm (lift_addr alloc_frame) 0.
Definition pmm_free_frame (addr : Z) : pmm_global -> pmm_global * Z :=
  with_pmm (fun s => let '(s, r) := free_frame addr s in (s, c_status r)) (-8).
Definition pmm_free_memory : pmm_global -> Z := read_pmm free_memory 0.
Definition pmm_used_memory : pmm_global -> Z := read_pmm used_memory 0.
Definition pmm_total_memory : pmm_global -> Z := read_pmm total_memory_pmm 0.
Definition pmm_free_frame_count : pmm_global -> Z := read_pmm free_frame_count 0.
Definition pmm_used_frame_count : pmm_global -> Z :=
  read_pmm (fun s => total_frame_count s -w free_frame_count s) 0.
Definition pmm_is_initialized : pmm_global -> Z := read_pmm (fun _ => 1) 0.
Definition pmm_is_frame_used (addr : Z) : pmm_global -> Z :=
  read_pmm (fun s => if is_frame_used addr s then 1 else 0) (-1).

Definition pmm_alloc_frame_in_zone (zone : Z) : pmm_global -> pmm_global * Z :=
  with_pmm (fun s => match zone_of_u8 zone with
                     | Some z => lift_addr (alloc_frame_in_zone z) s
                     | None => (s, 0)
                     end) 0.
Definition pmm_alloc_dma_frame : pmm_global -> pmm_global * Z :=
  with_pmm (lift_addr alloc_dma_frame) 0.
Definition pmm_alloc_dma32_frame : pmm_global -> pmm_global * Z :=
  with_pmm (lift_addr alloc_dma32_frame) 0.
Definition pmm_zone_free_memory (zone : Z) : pmm_global -> Z :=
  read_pmm (fun s => match zone_of_u8 zone with Some z => zone_free_memory z s | None => 0 end) 0.
Definition pmm_zone_total_memory (zone : Z) : pmm_global -> Z :=
  read_pmm (fun s => match zone_of_u8 zone with Some z => zone_total_memory z s | None => 0 end) 0.

Definition pmm_alloc_frames_contiguous (cnt zone : Z) (g : pmm_global) : option (pmm_global * Z) :=
  match instance g with
  | Some p =>
      let run z :=
        match alloc_frames_contiguous cnt z (mkPst p (gbytes g)) with
        | Some (s, r) => Some (mkGlobal (Some (pm s)) (bytes s), unwrap_or r 0)
        | None => None
        end in
      if zone =? 255 then run None
      else match zone_of_u8 zone with
           | Some z => run (Some z)
           | None => Some (g, 0)
           end
  | None => Some (g, 0)
  end.

Definition pmm_free_frames_contiguous (base_addr cnt : Z) : pmm_global -> pmm_global * Z :=
  with_pmm (fun s => let '(s, r) := free_frames_contiguous base_addr cnt s in (s, c_status r)) (-1).
Definition pmm_memory_usage_percent : pmm_global -> Z := read_pmm memory_usage_percent 0.
Definition pmm_is_memory_critical : pmm_global -> Z :=
  read_pmm (fun s => if is_memory_critical s then 1 else 0) 0.
Definition pmm_alloc_frame_numa (node_id : Z) : pmm_global -> pmm_global * Z :=
  with_pmm (lift_addr (alloc_frame_numa (mkNumaNode node_id))) 0.
Definition pmm_numa_node_count : pmm_global -> Z := read_pmm numa_node_count 0.
Definition pmm_numa_free_memory (node_id : Z) : pmm_global -> Z :=
  read_pmm (numa_free_memory (mkNumaNode node_id)) 0.
Definition pmm_numa_total_memory (node_id : Z) : pmm_global -> Z :=
  read_pmm (numa_total_memory (mkNumaNode node_id)) 0.
