(* ===== verification/PmmFacts.v ===== *)
(** Physical memory manager: frame-level view, invariant and the effect of
    each operation.

    [frame_used] reads the bitmap as a set of frames; [pmm_inv] ties the struct
    to it.  Every operation is shown to be one of a few canonical updates
    ([take_frame], [take_zone_frame], [release_frame], a run of them), whose
    effect on the frame set and on the invariant is proved once. *)

From S2P Require Import Prelude E820 Pmm.

(** * Frames *)

Definition frame_used (s : pmm_state) (f : Z) : bool :=
  Z.testbit (bm_get s (f / 8)) (f mod 8).

Definition frame_free (s : pmm_state) (f : Z) : bool := negb (frame_used s f).

(** Frames are at most 2^52: addresses are [u64] and a frame is 2^12 bytes. *)
Definition MAX_FRAME : Z := 4503599627370496.

Record pmm_inv (s : pmm_state) : Prop := {
  inv_total : 0 <= total_frames (pm s) < MAX_FRAME;
  inv_size : bitmap_size (pm s) = (total_frames (pm s) + 7) / 8;
  inv_last : 0 <= last_alloc_index (pm s)
             /\ (0 < total_frames (pm s) -> last_alloc_index (pm s) < bitmap_size (pm s));
  inv_bytes : forall i, 0 <= i < bitmap_size (pm s) -> is_u8 (bm_get s i);
  inv_free : free_frames (pm s) = countZ (frame_free s) (total_frames (pm s));
  inv_zones : List.length (zones (pm s)) = 4%nat
              /\ forall i, is_u64 (z_free_frames (zone_at (pm s) i));
}.

(** The state after [alloc_frame] has handed out frame [f]. *)
Definition take_frame (f : Z) (s : pmm_state) : pmm_state :=
  let s := bm_or (f / 8) (bit (f mod 8)) s in
  let s := upd (set_free_frames (free_frames (pm s) -w 1)) s in
  upd (set_last_alloc_index (f / 8)) s.

(** The state after [alloc_frame_in_zone] has. *)
Definition take_zone_frame (i : nat) (f : Z) (s : pmm_state) : pmm_state :=
  let s := bm_or (f / 8) (bit (f mod 8)) s in
  let s := upd (set_free_frames (free_frames (pm s) -w 1)) s in
  let s := upd (zone_set_free i (z_free_frames (zone_at (pm s) i) -w 1)) s in
  upd (set_last_alloc_index (f / 8)) s.

(** The state after [free_frame] has released frame [f]. *)
Definition release_frame (f : Z) (s : pmm_state) : pmm_state :=
  let s := bm_and (f / 8) (not8 (bit (f mod 8))) s in
  let s := upd (set_free_frames (free_frames (pm s) +w 1)) s in
  let i := zone_idx (zone_from_address (f * PAGE_SIZE)) in
  let s := upd (zone_set_free i (z_free_frames (zone_at (pm s) i) +w 1)) s in
  if f / 8 <? last_alloc_index (pm s) then upd (set_last_alloc_index (f / 8)) s else s.

(** ** Arithmetic of frame numbers *)

Lemma frame_byte_lt f n : 0 <= f < n -> 0 <= f / 8 < (n + 7) / 8.
Proof. intros. split; dlia. Qed.

Lemma frame_mod8 f : 0 <= f mod 8 < 8.
Proof. apply Z.mod_pos_bound. lia. Qed.

Lemma frame_eq f g : f = g <-> f / 8 = g / 8 /\ f mod 8 = g mod 8.
Proof. split; [by intros ->|]. intros []. dlia. Qed.

Lemma frame_of_byte i b : 0 <= b < 8 -> (i * 8 + b) / 8 = i /\ (i * 8 + b) mod 8 = b.
Proof. intros. split; dlia. Qed.

Lemma frame_index_small i b n :
  0 <= i < (n + 7) / 8 -> 0 <= b < 8 -> 0 <= n < MAX_FRAME -> i *w 8 +w b = i * 8 + b.
Proof.
  unfold MAX_FRAME. intros. assert (i * 8 < n + 8) by dlia.
  rewrite (mul64_small i 8) by (unfold U64; lia). apply add64_small. unfold U64. lia.
Qed.

Lemma frame_addr_small f n : 0 <= f < n -> n <= MAX_FRAME -> f *w PAGE_SIZE = f * PAGE_SIZE.
Proof. unfold MAX_FRAME, PAGE_SIZE. intros. apply mul64_small. unfold U64. lia. Qed.

Lemma page_div f : f * PAGE_SIZE / PAGE_SIZE = f.
Proof. apply Z.div_mul. done. Qed.

Lemma page_mod f : (f * PAGE_SIZE) mod PAGE_SIZE = 0.
Proof. apply Z.mod_mul. done. Qed.

(** ** Bitmap updates *)

Lemma upd_bm_get f s i : bitmap (f (pm s)) = bitmap (pm s) -> bm_get (upd f s) i = bm_get s i.
Proof. unfold bm_get, upd. simpl. by intros ->. Qed.

Lemma bm_or_get i v s j : bm_get (bm_or i v s) j = if decide (i = j) then Z.lor (bm_get s i) v else bm_get s j.
Proof.
  unfold bm_or. unfold bm_get at 1. simpl. rewrite rd_wr.
  destruct (decide (i = j)) as [->|]; [by rewrite decide_True|]. rewrite decide_False by lia. done.
Qed.

Lemma bm_and_get i v s j : bm_get (bm_and i v s) j = if decide (i = j) then Z.land (bm_get s i) v else bm_get s j.
Proof.
  unfold bm_and. unfold bm_get at 1. simpl. rewrite rd_wr.
  destruct (decide (i = j)) as [->|]; [by rewrite decide_True|]. rewrite decide_False by lia. done.
Qed.

Lemma bm_or_used f s i :
  frame_used (bm_or (f / 8) (bit (f mod 8)) s) i = (i =? f) || frame_used s i.
Proof.
  unfold frame_used. rewrite bm_or_get.
  pose proof (frame_mod8 f). pose proof (frame_mod8 i).
  destruct (decide (f / 8 = i / 8)) as [E|E].
  - rewrite setbit_spec, E by lia. f_equal. apply eq_true_iff_eq.
    rewrite !Z.eqb_eq, (frame_eq i f). intuition lia.
  - destruct (Z.eqb_spec i f) as [->|]; done.
Qed.

Lemma bm_and_used f s i :
  is_u8 (bm_get s (f / 8)) ->
  frame_used (bm_and (f / 8) (not8 (bit (f mod 8))) s) i = negb (i =? f) && frame_used s i.
Proof.
  intros Hu. unfold frame_used. rewrite bm_and_get.
  pose proof (frame_mod8 f). pose proof (frame_mod8 i).
  destruct (decide (f / 8 = i / 8)) as [E|E].
  - rewrite clearbit8_spec, E by (done || lia). f_equal. f_equal. apply eq_true_iff_eq.
    rewrite !Z.eqb_eq, (frame_eq i f). intuition lia.
  - destruct (Z.eqb_spec i f) as [->|]; done.
Qed.

Lemma used_bit_test s f :
  (Z.land (bm_get s (f / 8)) (bit (f mod 8)) =? 0) = frame_free s f.
Proof. apply land_bit_zero. apply frame_mod8. Qed.

Lemma test_bit_used s f : f < total_frames (pm s) -> test_bit s f = frame_used s f.
Proof.
  intros. unfold test_bit. destruct (Z.leb_spec (total_frames (pm s)) f); [lia|].
  rewrite used_bit_test. unfold frame_free. by rewrite negb_involutive.
Qed.

(** ** Zone counters *)

Lemma zone_at_set p i v j :
  List.length (zones p) = 4%nat -> (i < 4)%nat ->
  z_free_frames (zone_at (zone_set_free i v p) j)
  = if decide (i = j) then v else z_free_frames (zone_at p j).
Proof.
  intros Hl Hi. unfold zone_at, zone_set_free. simpl.
  destruct (decide (i = j)) as [->|].
  - rewrite list_lookup_insert_eq by lia. done.
  - by rewrite list_lookup_insert_ne.
Qed.

Lemma zone_idx_lt z : (zone_idx z < 4)%nat.
Proof. destruct z; simpl; lia. Qed.

(** ** The invariant under an update *)

Lemma inv_free_range s : pmm_inv s -> 0 <= free_frames (pm s) <= total_frames (pm s).
Proof. intros I. rewrite (inv_free _ I). apply countZ_range. apply (inv_total _ I). Qed.

Lemma inv_free_pos s f :
  pmm_inv s -> 0 <= f < total_frames (pm s) -> frame_used s f = false -> 0 < free_frames (pm s).
Proof.
  intros I Hf Hu. rewrite (inv_free _ I). apply countZ_pos. exists f. split; [done|].
  unfold frame_free. by rewrite Hu.
Qed.

Lemma inv_byte s f :
  pmm_inv s -> 0 <= f < total_frames (pm s) -> is_u8 (bm_get s (f / 8)).
Proof. intros I Hf. apply (inv_bytes _ I). rewrite (inv_size _ I). by apply frame_byte_lt. Qed.

(** What an operation leaves alone, whatever frames it flips. *)
Record same_shape (s s' : pmm_state) : Prop := {
  shape_total : total_frames (pm s') = total_frames (pm s);
  shape_size : bitmap_size (pm s') = bitmap_size (pm s);
  shape_bitmap : bitmap (pm s') = bitmap (pm s);
  shape_last : 0 <= last_alloc_index (pm s')
               /\ (0 < total_frames (pm s) -> last_alloc_index (pm s') < bitmap_size (pm s));
  shape_bytes : forall i, 0 <= i < bitmap_size (pm s) -> is_u8 (bm_get s' i);
  shape_zones : List.length (zones (pm s')) = 4%nat
                /\ forall i, is_u64 (z_free_frames (zone_at (pm s') i));
}.

Lemma inv_from_shape s s' :
  pmm_inv s -> same_shape s s' ->
  free_frames (pm s') = countZ (frame_free s') (total_frames (pm s)) -> pmm_inv s'.
Proof.
  intros I [Ht Hs Hb Hl Hby Hz] Hf. constructor; rewrite ?Ht, ?Hs.
  - apply (inv_total _ I).
  - apply (inv_size _ I).
  - done.
  - done.
  - done.
  - done.
Qed.

Lemma inv_take s s' f :
  pmm_inv s -> same_shape s s' -> 0 <= f < total_frames (pm s) -> frame_used s f = false ->
  (forall i, 0 <= i < total_frames (pm s) -> frame_used s' i = (i =? f) || frame_used s i) ->
  free_frames (pm s') = free_frames (pm s) -w 1 -> pmm_inv s'.
Proof.
  intros I Sh Hf Hu Hus Hfree. apply (inv_from_shape s); [done|done|].
  pose proof (inv_free_range s I). pose proof (inv_free_pos s f I Hf Hu).
  pose proof (inv_total _ I). rewrite Hfree, sub64_small by (unfold U64, MAX_FRAME in *; lia).
  rewrite (inv_free _ I). unfold frame_free at 1.
  rewrite (countZ_flip (frame_free s') (frame_free s) _ f); [unfold frame_free; lia|done|..].
  - unfold frame_free. by rewrite Hus, Z.eqb_refl by lia.
  - unfold frame_free. by rewrite Hu.
  - intros i Hi Hne. unfold frame_free. rewrite Hus by lia.
    by destruct (Z.eqb_spec i f).
Qed.

Lemma inv_release s s' f :
  pmm_inv s -> same_shape s s' -> 0 <= f < total_frames (pm s) -> frame_used s f = true ->
  (forall i, 0 <= i < total_frames (pm s) -> frame_used s' i = negb (i =? f) && frame_used s i) ->
  free_frames (pm s') = free_frames (pm s) +w 1 -> pmm_inv s'.
Proof.
  intros I Sh Hf Hu Hus Hfree. apply (inv_from_shape s); [done|done|].
  pose proof (inv_free_range s I). pose proof (inv_total _ I).
  rewrite Hfree, add64_small by (unfold U64, MAX_FRAME in *; lia).
  rewrite (inv_free _ I).
  rewrite (countZ_flip (frame_free s) (frame_free s') _ f); [done|done|..].
  - unfold frame_free. by rewrite Hu.
  - unfold frame_free. by rewrite Hus, Z.eqb_refl by lia.
  - intros i Hi Hne. unfold frame_free. rewrite Hus by lia.
    by destruct (Z.eqb_spec i f).
Qed.

(** ** [take_frame] and its siblings *)

Lemma last_ok s f :
  pmm_inv s -> 0 <= f < total_frames (pm s) ->
  0 <= f / 8 /\ (0 < total_frames (pm s) -> f / 8 < bitmap_size (pm s)).
Proof.
  intros I Hf. rewrite (inv_size _ I). pose proof (frame_byte_lt f _ Hf). lia.
Qed.

Lemma bm_or_bytes s f i :
  pmm_inv s -> 0 <= i < bitmap_size (pm s) ->
  is_u8 (bm_get (bm_or (f / 8) (bit (f mod 8)) s) i).
Proof.
  intros I Hi. rewrite bm_or_get. pose proof (inv_bytes _ I).
  case_decide; subst; [apply setbit8_range; [apply frame_mod8|]|]; auto.
Qed.

Lemma bm_and_bytes s f v i :
  pmm_inv s -> 0 <= i < bitmap_size (pm s) -> is_u8 (bm_get (bm_and (f / 8) v s) i).
Proof.
  intros I Hi. rewrite bm_and_get. pose proof (inv_bytes _ I).
  case_decide; subst; [apply land8_range|]; auto.
Qed.

Lemma take_frame_used f s i : frame_used (take_frame f s) i = (i =? f) || frame_used s i.
Proof. rewrite <- bm_or_used. done. Qed.

Lemma take_frame_shape f s : pmm_inv s -> 0 <= f < total_frames (pm s) -> same_shape s (take_frame f s).
Proof.
  intros I Hf. constructor; try done.
  - by apply last_ok.
  - intros i Hi. exact (bm_or_bytes s f i I Hi).
  - apply (inv_zones _ I).
Qed.

Lemma take_frame_inv f s :
  pmm_inv s -> 0 <= f < total_frames (pm s) -> frame_used s f = false -> pmm_inv (take_frame f s).
Proof.
  intros I Hf Hu. apply (inv_take s _ f); auto using take_frame_shape, take_frame_used.
Qed.

Lemma take_zone_frame_used z f s i :
  frame_used (take_zone_frame z f s) i = (i =? f) || frame_used s i.
Proof. rewrite <- bm_or_used. done. Qed.

Lemma take_zone_frame_inv z f s :
  pmm_inv s -> 0 <= f < total_frames (pm s) -> frame_used s f = false ->
  pmm_inv (take_zone_frame (zone_idx z) f s).
Proof.
  intros I Hf Hu. destruct (inv_zones _ I) as [Hl Hz].
  apply (inv_take s _ f); [done| |done|done| |done].
  - constructor; try done.
    + by apply last_ok.
    + intros i Hi. exact (bm_or_bytes s f i I Hi).
    + split; [simpl; rewrite length_insert; done|]. intros j.
      change (is_u64 (z_free_frames (zone_at (zone_set_free (zone_idx z)
        (z_free_frames (zone_at (pm s) (zone_idx z)) -w 1) (pm s)) j))).
      rewrite zone_at_set by (done || apply zone_idx_lt).
      case_decide; [apply sub64_range|apply Hz].
  - intros. apply take_zone_frame_used.
Qed.

Lemma release_frame_used f s i :
  is_u8 (bm_get s (f / 8)) ->
  frame_used (release_frame f s) i = negb (i =? f) && frame_used s i.
Proof.
  intros Hb. rewrite <- bm_and_used by done. unfold release_frame. cbv zeta.
  by destruct (_ <? _).
Qed.

Lemma release_frame_free f s : free_frames (pm (release_frame f s)) = free_frames (pm s) +w 1.
Proof. unfold release_frame. cbv zeta. by destruct (_ <? _). Qed.

Lemma release_frame_zones f s j :
  List.length (zones (pm s)) = 4%nat ->
  z_free_frames (zone_at (pm (release_frame f s)) j)
  = if decide (zone_idx (zone_from_address (f * PAGE_SIZE)) = j)
    then z_free_frames (zone_at (pm s) j) +w 1 else z_free_frames (zone_at (pm s) j).
Proof.
  intros Hl.
  transitivity (z_free_frames (zone_at (zone_set_free (zone_idx (zone_from_address (f * PAGE_SIZE)))
     (z_free_frames (zone_at (pm s) (zone_idx (zone_from_address (f * PAGE_SIZE)))) +w 1) (pm s)) j)).
  { unfold release_frame. cbv zeta. by destruct (_ <? _). }
  rewrite zone_at_set by (done || apply zone_idx_lt). case_decide; by subst.
Qed.

Lemma release_frame_inv f s :
  pmm_inv s -> 0 <= f < total_frames (pm s) -> frame_used s f = true -> pmm_inv (release_frame f s).
Proof.
  intros I Hf Hu. pose proof (inv_byte s f I Hf) as Hb.
  destruct (inv_zones _ I) as [Hl Hz]. destruct (inv_last _ I) as [Hl0 Hl1].
  apply (inv_release s _ f); auto using release_frame_used, release_frame_free.
  constructor.
  1-3: unfold release_frame; cbv zeta; by destruct (_ <? _).
  - pose proof (last_ok s f I Hf). unfold release_frame. cbv zeta. simpl.
    destruct (Z.ltb_spec (f / 8) (last_alloc_index (pm s))); simpl; lia.
  - intros i Hi. replace (bm_get (release_frame f s) i)
      with (bm_get (bm_and (f / 8) (not8 (bit (f mod 8))) s) i).
    + by apply bm_and_bytes.
    + unfold release_frame. cbv zeta. by destruct (_ <? _).
  - split.
    + unfold release_frame. cbv zeta. destruct (_ <? _); simpl; by rewrite length_insert.
    + intros j. rewrite release_frame_zones by done. case_decide; [apply add64_range|apply Hz].
Qed.

(** ** The scan of [alloc_frame] *)

Lemma first_free_bit_spec n k v idx total :
  0 <= k -> k + Z.of_nat n = 8 -> 0 <= idx -> 0 <= total < MAX_FRAME -> idx < (total + 7) / 8 ->
  match first_free_bit (seqZ k (Z.of_nat n)) v idx total with
  | Some b => k <= b < 8 /\ Z.testbit v b = false /\ idx * 8 + b < total
              /\ forall c, k <= c < b -> Z.testbit v c = true
  | None => forall c, k <= c < 8 -> idx * 8 + c < total -> Z.testbit v c = true
  end.
Proof.
  revert k. induction n as [|n IH]; intros k Hk Hn Hi Ht Hidx.
  { intros c Hc. lia. }
  rewrite seqZ_cons by lia. replace (Z.pred (Z.of_nat (S n))) with (Z.of_nat n) by lia.
  cbn [first_free_bit]. rewrite land_bit_zero by lia.
  rewrite (frame_index_small idx k total) by lia.
  destruct (Z.testbit v k) eqn:E; cbn [negb].
  - specialize (IH (Z.succ k) ltac:(lia) ltac:(lia) Hi Ht Hidx).
    replace (k + 1) with (Z.succ k) in * by lia.
    destruct (first_free_bit _ _ _ _) as [b|].
    + destruct IH as (Hb & Hv & Hlt & Hall). split_and!; [lia|lia|done|done|].
      intros c Hc. destruct (decide (c = k)) as [->|]; [done|apply Hall; lia].
    + intros c Hc Hlt. destruct (decide (c = k)) as [->|]; [done|apply IH; lia].
  - destruct (Z.leb_spec total (idx * 8 + k)).
    + intros c Hc Hlt. lia.
    + split_and!; [lia|lia|done|lia|]. intros c Hc. lia.
Qed.

(** Every frame of byte [idx] below the total is in use. *)
Definition byte_exhausted (s : pmm_state) (idx : Z) : Prop :=
  forall f, 0 <= f < total_frames (pm s) -> f / 8 = idx -> frame_used s f = true.

Lemma byte_full_exhausted s idx :
  pmm_inv s -> 0 <= idx < bitmap_size (pm s) -> bm_get s idx = 255 -> byte_exhausted s idx.
Proof.
  intros I Hi Hv f Hf <-. unfold frame_used. rewrite Hv. change 255 with (Z.ones 8).
  apply Z.ones_spec_low. apply frame_mod8.
Qed.

(** One byte: either its first free frame, or none. *)
Lemma scan_byte s idx :
  pmm_inv s -> 0 <= idx < bitmap_size (pm s) ->
  match first_free_bit bit_offsets (bm_get s idx) idx (total_frames (pm s)) with
  | Some b => 0 <= b < 8 /\ idx *w 8 +w b = idx * 8 + b
              /\ 0 <= idx * 8 + b < total_frames (pm s) /\ frame_used s (idx * 8 + b) = false
  | None => byte_exhausted s idx
  end.
Proof.
  intros I Hi. pose proof (inv_total _ I) as Ht. pose proof (inv_size _ I) as Hs.
  pose proof (first_free_bit_spec 8 0 (bm_get s idx) idx (total_frames (pm s))
    ltac:(lia) eq_refl ltac:(lia) Ht ltac:(lia)) as H.
  change (seqZ 0 (Z.of_nat 8)) with bit_offsets in H.
  destruct (first_free_bit _ _ _ _) as [b|].
  - destruct H as (Hb & Hv & Hlt & _). destruct (frame_of_byte idx b Hb) as [Hd Hm].
    split_and!; [lia|lia| |lia|lia|].
    + apply (frame_index_small _ _ (total_frames (pm s))); lia.
    + unfold frame_used. by rewrite Hd, Hm.
  - intros f Hf Hd. unfold frame_used. rewrite Hd. pose proof (frame_mod8 f).
    apply H; [done|]. pose proof (Z.div_mod f 8 ltac:(lia)). lia.
Qed.

Lemma alloc_scan_spec n cur s :
  pmm_inv s -> 0 <= cur < bitmap_size (pm s) ->
  match alloc_scan n cur s with
  | (s', Ok a) => exists f, 0 <= f < total_frames (pm s) /\ frame_used s f = false
                            /\ a = f * PAGE_SIZE /\ s' = take_frame f s
  | (s', Err e) => s' = s /\ e = err_not_found
                   /\ forall j, 0 <= j < Z.of_nat n -> byte_exhausted s ((cur + j) mod bitmap_size (pm s))
  end.
Proof.
  revert cur. induction n as [|n IH]; intros cur I Hc.
  { cbn [alloc_scan]. split_and!; [done|done|]. intros j Hj. lia. }
  pose proof (inv_total _ I) as Ht. pose proof (inv_size _ I) as Hs.
  assert (0 <= (cur +w 1) mod bitmap_size (pm s) < bitmap_size (pm s)) as Hnx
    by (apply Z.mod_pos_bound; lia).
  assert ((cur +w 1) = cur + 1) as Hw.
  { apply add64_small. unfold U64, MAX_FRAME in *. rewrite Hs in Hc.
    assert ((total_frames (pm s) + 7) / 8 <= total_frames (pm s) + 7) by dlia. lia. }
  assert (byte_exhausted s cur ->
    match alloc_scan n ((cur +w 1) mod bitmap_size (pm s)) s with
    | (s', Ok a) => exists f, 0 <= f < total_frames (pm s) /\ frame_used s f = false
                            /\ a = f * PAGE_SIZE /\ s' = take_frame f s
    | (s', Err e) => s' = s /\ e = err_not_found
          /\ forall j, 0 <= j < Z.of_nat (S n) -> byte_exhausted s ((cur + j) mod bitmap_size (pm s))
    end) as Hnext.
  { intros Hex. specialize (IH _ I Hnx). destruct (alloc_scan n _ s) as [s' [a|e]]; [done|].
    destruct IH as (-> & -> & Hall). split_and!; [done|done|]. intros j Hj.
    destruct (decide (j = 0)) as [->|].
    - rewrite Z.add_0_r, Z.mod_small by lia. done.
    - specialize (Hall (j - 1) ltac:(lia)). rewrite Hw, Zplus_mod_idemp_l in Hall.
      by replace (cur + 1 + (j - 1)) with (cur + j) in Hall by lia. }
  cbn [alloc_scan]. destruct (Z.eqb_spec (bm_get s cur) 255) as [E|E].
  { apply Hnext. by apply byte_full_exhausted. }
  pose proof (scan_byte s cur I Hc) as Hb.
  destruct (first_free_bit _ _ _ _) as [b|]; [|by apply Hnext].
  destruct Hb as (Hb & Hidx & Hf & Hu). exists (cur * 8 + b).
  destruct (frame_of_byte cur b Hb) as [Hd Hm]. split_and!; [lia|lia|done| |].
  - rewrite Hidx. apply (frame_addr_small _ (total_frames (pm s))); [done|lia].
  - unfold take_frame. by rewrite Hd, Hm.
Qed.

(** With the invariant, [alloc_frame] fails exactly when every frame is in use,
    and then with code 3; code 4 is unreachable. *)
Lemma alloc_frame_spec s :
  pmm_inv s ->
  match alloc_frame s with
  | (s', Ok a) => exists f, 0 <= f < total_frames (pm s) /\ frame_used s f = false
                            /\ a = f * PAGE_SIZE /\ s' = take_frame f s
  | (s', Err e) => s' = s /\ e = err_no_free
                   /\ forall f, 0 <= f < total_frames (pm s) -> frame_used s f = true
  end.
Proof.
  intros I. unfold alloc_frame. destruct (Z.eqb_spec (free_frames (pm s)) 0) as [E|E].
  { split_and!; [done|done|]. intros f Hf. destruct (frame_used s f) eqn:Hu; [done|].
    pose proof (inv_free_pos s f I Hf Hu). lia. }
  pose proof (inv_free_range s I). destruct (inv_last _ I) as [Hl0 Hl1].
  pose proof (inv_size _ I) as Hs.
  assert (0 < bitmap_size (pm s)) as Hpos by (rewrite Hs; dlia).
  pose proof (alloc_scan_spec (Z.to_nat (bitmap_size (pm s))) (last_alloc_index (pm s)) s I
    ltac:(lia)) as H1.
  destruct (alloc_scan _ _ s) as [s' [a|e]]; [done|]. destruct H1 as (-> & -> & Hall). exfalso.
  rewrite (inv_free _ I) in E.
  assert (0 < countZ (frame_free s) (total_frames (pm s))) as Hc
    by (rewrite (inv_free _ I) in H; lia).
  apply countZ_pos in Hc as (f & Hf & Hu).
  pose proof (frame_byte_lt f _ Hf) as Hfb. rewrite <- Hs in Hfb.
  specialize (Hall ((f / 8 - last_alloc_index (pm s)) mod bitmap_size (pm s))).
  rewrite Zplus_mod_idemp_r in Hall.
  replace (last_alloc_index (pm s) + (f / 8 - last_alloc_index (pm s))) with (f / 8) in Hall by lia.
  rewrite (Z.mod_small (f / 8)) in Hall by lia.
  pose proof (Z.mod_pos_bound (f / 8 - last_alloc_index (pm s)) (bitmap_size (pm s)) Hpos).
  unfold frame_free in Hu. rewrite Hall in Hu by (done || lia). done.
Qed.

(** ** [free_frame] *)

Lemma free_frame_spec addr s :
  pmm_inv s -> 0 <= addr ->
  let f := addr / PAGE_SIZE in
  free_frame addr s =
    if decide (addr mod PAGE_SIZE <> 0) then (s, Err err_unaligned)
    else if decide (total_frames (pm s) <= f) then (s, Err err_bounds)
    else if frame_used s f then (release_frame f s, Ok tt)
    else (s, Err err_double_free).
Proof.
  intros I Ha. cbv zeta. unfold free_frame.
  destruct (Z.eqb_spec (addr mod PAGE_SIZE) 0) as [E|E]; cbn [negb];
    [rewrite decide_False by lia|by rewrite decide_True].
  destruct (Z.leb_spec (total_frames (pm s)) (addr / PAGE_SIZE));
    [by rewrite decide_True|rewrite decide_False by lia].
  rewrite used_bit_test. unfold frame_free. destruct (frame_used s (addr / PAGE_SIZE)); cbn [negb];
    [|done].
  unfold release_frame. replace (addr / PAGE_SIZE * PAGE_SIZE) with addr; [done|].
  pose proof (Z.div_mod addr PAGE_SIZE ltac:(done)). lia.
Qed.

Lemma free_frame_page f s :
  pmm_inv s -> 0 <= f < total_frames (pm s) ->
  free_frame (f * PAGE_SIZE) s
  = if frame_used s f then (release_frame f s, Ok tt) else (s, Err err_double_free).
Proof.
  intros I Hf. rewrite free_frame_spec by (done || unfold PAGE_SIZE; lia).
  cbv zeta. rewrite page_div. rewrite decide_False by (rewrite page_mod; lia).
  by rewrite decide_False by lia.
Qed.

(** ** [alloc_frame_in_zone] *)

Lemma first_zone_bit_spec n k v idx total zs ze :
  0 <= k -> k + Z.of_nat n = 8 -> 0 <= idx < (total + 7) / 8 -> 0 <= total < MAX_FRAME ->
  match first_zone_bit (seqZ k (Z.of_nat n)) v idx zs ze with
  | Some b => k <= b < 8 /\ Z.testbit v b = false /\ zs <= idx * 8 + b < ze
  | None => forall c, k <= c < 8 -> zs <= idx * 8 + c < ze -> Z.testbit v c = true
  end.
Proof.
  revert k. induction n as [|n IH]; intros k Hk Hn Hi Ht.
  { intros c Hc. lia. }
  rewrite seqZ_cons by lia. replace (Z.pred (Z.of_nat (S n))) with (Z.of_nat n) by lia.
  cbn [first_zone_bit]. rewrite land_bit_zero by lia.
  rewrite (frame_index_small idx k total) by lia.
  specialize (IH (Z.succ k) ltac:(lia) ltac:(lia) Hi Ht).
  destruct (Z.ltb_spec (idx * 8 + k) zs), (Z.leb_spec ze (idx * 8 + k)); cbn [orb];
    try destruct (Z.testbit v k) eqn:E; cbn [negb].
  all: try (destruct (first_zone_bit _ _ _ _ _) as [b|];
    [ destruct IH as (? & ? & ?); split_and!; (done || lia)
    | intros c Hc Hz; destruct (decide (c = k)) as [->|]; [done || lia|apply IH; lia] ]).
  split_and!; (done || lia).
Qed.

Lemma zone_frames_range zone p :
  0 <= total_frames p -> let '(zs, ze) := zone_frames p zone in 0 <= zs /\ ze <= total_frames p.
Proof.
  intros. unfold zone_frames. pose proof (zone_bounds zone) as [[? ?] ?].
  split; [apply Z.div_pos; [done|unfold PAGE_SIZE; lia]|lia].
Qed.

Lemma alloc_frame_in_zone_spec zone s :
  pmm_inv s ->
  let '(zs, ze) := zone_frames (pm s) zone in
  match alloc_frame_in_zone zone s with
  | (s', Ok a) => exists f, zs <= f < ze /\ 0 <= f < total_frames (pm s) /\ frame_used s f = false
                            /\ a = f * PAGE_SIZE /\ s' = take_zone_frame (zone_idx zone) f s
  | (s', Err e) => s' = s /\
      ((z_free_frames (zone_at (pm s) (zone_idx zone)) = 0 /\ e = err_zone_empty)
       \/ (z_free_frames (zone_at (pm s) (zone_idx zone)) <> 0 /\ e = err_zone_not_found
           /\ forall f, zs <= f < ze -> frame_used s f = true))
  end.
Proof.
  intros I. unfold alloc_frame_in_zone.
  pose proof (inv_total _ I) as Ht. pose proof (inv_size _ I) as Hs.
  pose proof (zone_frames_range zone (pm s) ltac:(lia)) as Hzr.
  destruct (zone_frames (pm s) zone) as [zs ze] eqn:Ez. destruct Hzr as [Hz0 Hz1].
  destruct (Z.eqb_spec (z_free_frames (zone_at (pm s) (zone_idx zone))) 0) as [E|E].
  { split; [done|]. left. done. }
  assert (0 <= zs / 8) as Hz8 by (apply Z.div_pos; lia).
  assert (forall i, zs / 8 <= i < (ze +w 7) / 8 -> 0 <= i < (total_frames (pm s) + 7) / 8) as Hir.
  { intros i Hi. destruct (Z.lt_ge_cases (ze + 7) 0).
    - assert (zs <= ze \/ ze < zs) by lia. unfold zone_frames in Ez.
      pose proof (zone_bounds zone) as [[? ?] ?]. injection Ez as <- <-.
      assert (0 <= end_address zone / PAGE_SIZE) by (apply Z.div_pos; [lia|done]). lia.
    - rewrite add64_small in Hi by (unfold U64, MAX_FRAME in *; lia).
      assert ((ze + 7) / 8 <= (total_frames (pm s) + 7) / 8) by (apply Z.div_le_mono; lia). lia. }
  destruct (find_loop _ _ _) as [[idx b]|] eqn:F.
  - apply find_loop_Some in F as (j & Hj & Hf & _). specialize (Hir j Hj).
    pose proof (first_zone_bit_spec 8 0 (bm_get s j) j (total_frames (pm s)) zs ze
      ltac:(lia) eq_refl Hir Ht) as H.
    change (seqZ 0 (Z.of_nat 8)) with bit_offsets in H. cbv zeta in Hf.
    destruct (bm_get s j =? 255); [done|].
    destruct (first_zone_bit _ _ _ _ _) as [b'|]; [|done]. injection Hf as <- <-.
    destruct H as (Hb & Hv & Hr). destruct (frame_of_byte j b' Hb) as [Hd Hm].
    exists (j * 8 + b'). split_and!; [lia|lia|lia|lia| | |].
    + unfold frame_used. by rewrite Hd, Hm.
    + rewrite (frame_index_small _ _ (total_frames (pm s))) by lia.
      apply (frame_addr_small _ (total_frames (pm s))); lia.
    + unfold take_zone_frame. by rewrite Hd, Hm.
  - split; [done|]. right. split_and!; [done|done|]. intros f Hf.
    assert (ze + 7 < U64) by (unfold U64, MAX_FRAME in *; lia).
    assert (zs / 8 <= f / 8 < (ze +w 7) / 8) as Hb.
    { rewrite add64_small by lia. split; [apply Z.div_le_mono; lia|]. dlia. }
    pose proof (find_loop_None _ _ _ F _ Hb) as Hn. cbv beta zeta in Hn.
    specialize (Hir _ Hb).
    pose proof (first_zone_bit_spec 8 0 (bm_get s (f / 8)) (f / 8) (total_frames (pm s)) zs ze
      ltac:(lia) eq_refl Hir Ht) as H1.
    change (seqZ 0 (Z.of_nat 8)) with bit_offsets in H1.
    destruct (Z.eqb_spec (bm_get s (f / 8)) 255) as [E2|E2].
    + apply (byte_full_exhausted s (f / 8)); [done|lia|done|lia|done].
    + destruct (first_zone_bit _ _ _ _ _) as [b'|]; [done|]. unfold frame_used.
      pose proof (frame_mod8 f). apply H1; [done|]. pose proof (Z.div_mod f 8 ltac:(lia)). lia.
Qed.

(** ** Contiguous runs *)

Lemma same_shape_refl s : pmm_inv s -> same_shape s s.
Proof. intros I. destruct I. constructor; try done. Qed.

(** The state of the search after it has taken the run. *)
Definition take_run_state (f cnt : Z) (s : pmm_state) : pmm_state :=
  let s := take_run f cnt s in upd (set_free_frames (free_frames (pm s) -w cnt)) s.

(** Membership of a run of frames, as a boolean. *)
Definition in_run (f cnt i : Z) : bool := (f <=? i) && (i <? f + cnt).

Lemma in_run_spec f cnt i : in_run f cnt i = true <-> f <= i < f + cnt.
Proof. unfold in_run. rewrite andb_true_iff, Z.leb_le, Z.ltb_lt. done. Qed.

Lemma in_run_false f cnt i : in_run f cnt i = false <-> ~ (f <= i < f + cnt).
Proof. rewrite <- in_run_spec. by destruct (in_run f cnt i). Qed.

Lemma take_run_spec f cnt s :
  pmm_inv s -> 0 <= f -> 0 <= cnt -> f + cnt <= total_frames (pm s) ->
  same_shape s (take_run f cnt s)
  /\ free_frames (pm (take_run f cnt s)) = free_frames (pm s)
  /\ forall i, frame_used (take_run f cnt s) i = in_run f cnt i || frame_used s i.
Proof.
  intros I Hf Hc Ht. pose proof (inv_total _ I) as Hto. unfold MAX_FRAME in Hto.
  unfold take_run.
  set (body := fun offset s => _).
  pose (P := fun o s' => same_shape s s' /\ free_frames (pm s') = free_frames (pm s)
    /\ forall i, frame_used s' i = in_run f o i || frame_used s i).
  enough (P (Z.max 0 cnt) (for_loop 0 cnt body s)) as HP by (by rewrite Z.max_r in HP by lia).
  apply for_loop_ind.
  - split_and!; [by apply same_shape_refl|done|]. intros i.
    assert (in_run f 0 i = false) as -> by (rewrite in_run_false; lia). done.
  - intros o s' Ho (Sh & Hfr & Hu). subst body. cbv beta zeta.
    rewrite (add64_small f o) by (unfold U64; lia).
    split_and!; [|done|].
    + destruct Sh as [St Ss Sb Sl Sby [Sz Szr]]. constructor; try done.
      * intros i Hi. unfold upd. change (bm_get (mkPst _ _) i) with
          (bm_get (bm_or ((f + o) / 8) (bit ((f + o) mod 8)) s') i).
        rewrite bm_or_get. case_decide; subst; [apply setbit8_range; [apply frame_mod8|]|]; auto.
      * split; [simpl; rewrite length_insert; done|]. intros j. unfold upd. cbn [pm].
        rewrite zone_at_set by (done || apply zone_idx_lt).
        case_decide; [apply sub64_range|apply Szr].
    + intros i. change (frame_used (upd _ ?x) i) with (frame_used x i).
      rewrite bm_or_used, Hu. rewrite orb_assoc. f_equal. apply eq_true_iff_eq.
      rewrite orb_true_iff, Z.eqb_eq, !in_run_spec. lia.
Qed.

Lemma take_run_state_used f cnt s i :
  pmm_inv s -> 0 <= f -> 0 <= cnt -> f + cnt <= total_frames (pm s) ->
  frame_used (take_run_state f cnt s) i = in_run f cnt i || frame_used s i.
Proof. intros I Hf Hc Ht. destruct (take_run_spec f cnt s I Hf Hc Ht) as (_ & _ & H). apply H. Qed.

(** A run of free frames is within the free count. *)
Lemma run_free_count f cnt s :
  pmm_inv s -> 0 <= f -> 0 <= cnt -> f + cnt <= total_frames (pm s) ->
  (forall i, f <= i < f + cnt -> frame_used s i = false) ->
  free_frames (pm s)
  = countZ (fun i => negb (in_run f cnt i || frame_used s i)) (total_frames (pm s)) + cnt.
Proof.
  intros I Hf Hc Ht Hu. rewrite (inv_free _ I).
  apply (countZ_run _ _ _ f cnt); [done|done|lia|..].
  - intros i Hi. unfold frame_free. rewrite Hu by done.
    assert (in_run f cnt i = true) as -> by (by apply in_run_spec). done.
  - intros i Hi Hn. unfold frame_free.
    assert (in_run f cnt i = false) as -> by (by apply in_run_false). done.
Qed.

Lemma take_run_state_inv f cnt s :
  pmm_inv s -> 0 <= f -> 0 <= cnt -> f + cnt <= total_frames (pm s) ->
  (forall i, f <= i < f + cnt -> frame_used s i = false) ->
  pmm_inv (take_run_state f cnt s)
  /\ free_frames (pm (take_run_state f cnt s)) = free_frames (pm s) - cnt.
Proof.
  intros I Hf Hc Ht Hu. destruct (take_run_spec f cnt s I Hf Hc Ht) as (Sh & Hfr & Hus).
  pose proof (run_free_count f cnt s I Hf Hc Ht Hu) as Hrun.
  pose proof (countZ_range (fun i => negb (in_run f cnt i || frame_used s i))
    (total_frames (pm s)) ltac:(lia)) as Hr.
  pose proof (inv_free_range s I). pose proof (inv_total _ I).
  assert (free_frames (pm (take_run_state f cnt s)) = free_frames (pm s) - cnt) as Hfree.
  { unfold take_run_state. simpl. rewrite Hfr. apply sub64_small.
    unfold U64, MAX_FRAME in *. lia. }
  split; [|done]. apply (inv_from_shape s); [done| |].
  - destruct Sh. constructor; done.
  - rewrite Hfree, Hrun. rewrite Z.add_simpl_r. apply countZ_ext. intros i Hi.
    unfold frame_free. rewrite take_run_state_used by done. done.
Qed.

Lemma first_used_spec s cur cnt :
  0 <= cur -> 0 <= cnt -> cur + cnt < U64 -> cur + cnt <= total_frames (pm s) ->
  match first_used s cur cnt with
  | Some f => cur <= f < cur + cnt /\ frame_used s f = true
              /\ forall i, cur <= i < f -> frame_used s i = false
  | None => forall i, cur <= i < cur + cnt -> frame_used s i = false
  end.
Proof.
  intros Hc Hn Hw Ht. unfold first_used.
  assert (forall o, 0 <= o < cnt -> cur +w o = cur + o) as Ha.
  { intros. apply add64_small. lia. }
  destruct (find_loop _ _ _) as [f|] eqn:F.
  - apply find_loop_Some in F as (j & Hj & Hf & Hbefore). cbv beta zeta in *.
    rewrite Ha, test_bit_used in Hf by lia. destruct (frame_used s (cur + j)) eqn:E; [|done].
    injection Hf as <-. split_and!; [lia|lia|done|]. intros i Hi.
    specialize (Hbefore (i - cur) ltac:(lia)). rewrite Ha, test_bit_used in Hbefore by lia.
    replace (cur + (i - cur)) with i in Hbefore by lia. by destruct (frame_used s i).
  - intros i Hi. pose proof (find_loop_None _ _ _ F (i - cur) ltac:(lia)) as Hno.
    cbv beta zeta in Hno. rewrite Ha, test_bit_used in Hno by lia.
    replace (cur + (i - cur)) with i in Hno by lia. by destruct (frame_used s i).
Qed.

(** The search answers, with the first run of free frames in its range. *)
Lemma contig_search_spec fuel cur cnt end_frame s :
  pmm_inv s -> 0 <= cur <= MAX_FRAME -> 0 < cnt <= MAX_FRAME -> end_frame <= total_frames (pm s) ->
  end_frame + 2 - cur <= Z.of_nat fuel -> (0 < fuel)%nat ->
  match contig_search fuel cur cnt end_frame s with
  | Some (s', Ok a) => exists f, cur <= f /\ f + cnt <= end_frame /\ a = f * PAGE_SIZE
      /\ (forall i, f <= i < f + cnt -> frame_used s i = false)
      /\ (forall g, cur <= g < f -> exists i, g <= i < g + cnt /\ frame_used s i = true)
      /\ s' = take_run_state f cnt s
  | Some (s', Err e) => s' = s /\ e = err_no_contiguous
      /\ forall g, cur <= g -> g + cnt <= end_frame -> exists i, g <= i < g + cnt /\ frame_used s i = true
  | None => False
  end.
Proof.
  revert cur. induction fuel as [|fuel IH]; intros cur I Hc Hn He Hfu H0; [lia|].
  pose proof (inv_total _ I) as Ht. cbn [contig_search].
  rewrite (add64_small cur cnt) by (unfold U64, MAX_FRAME in *; lia).
  destruct (Z.leb_spec (cur + cnt) end_frame) as [Hle|Hgt].
  2:{ split_and!; [done|done|]. intros g Hg Hge. lia. }
  pose proof (first_used_spec s cur cnt ltac:(lia) ltac:(lia)
    ltac:(unfold U64, MAX_FRAME in *; lia) ltac:(lia)) as Hfu'.
  destruct (first_used s cur cnt) as [u|].
  - destruct Hfu' as (Hu & Huu & _).
    rewrite (add64_small u 1) by (unfold U64, MAX_FRAME in *; lia).
    assert ((0 < fuel)%nat) by lia.
    assert (forall g, cur <= g < u + 1 -> exists i, g <= i < g + cnt /\ frame_used s i = true) as Hskip.
    { intros g Hg. exists u. split; [lia|done]. }
    specialize (IH (u + 1) I ltac:(lia) Hn He ltac:(lia) ltac:(done)).
    destruct (contig_search fuel (u + 1) cnt end_frame s) as [[s' [a|e]]|]; [| |done].
    + destruct IH as (f & Hf1 & Hf2 & Ha & Hfree & Hfirst & Hs).
      exists f. split_and!; [lia|done|done|done| |done]. intros g Hg.
      destruct (Z.lt_ge_cases g (u + 1)); [apply Hskip; lia|apply Hfirst; lia].
    + destruct IH as (-> & -> & Hall). split_and!; [done|done|]. intros g Hg Hge.
      destruct (Z.lt_ge_cases g (u + 1)); [apply Hskip; lia|apply Hall; lia].
  - exists cur. split_and!; [lia|lia| |done| |done].
    + apply (frame_addr_small _ (total_frames (pm s))); lia.
    + intros g Hg. lia.
Qed.
