(* ===== verification/PmmInit.v ===== *)
(** Initialisation of the physical memory manager.

    The memory written by [init] is followed as a bitmap view of the byte store
    ([bit_used], [bitmap_view]): filling it, freeing the usable regions,
    re-marking the reserved ranges and the phantom bits each have one lemma, and
    the result is the invariant of [PmmFacts]. *)

From S2P Require Import Prelude E820 Pmm PmmFacts.

(** * The bitmap during initialisation *)

Definition bit_used (ptr : Z) (m : store) (f : Z) : bool :=
  Z.testbit (rd m (ptr + f / 8)) (f mod 8).

(** The store [m] differs from [m0] in the bitmap only, its bytes are bytes,
    and [free] counts the clear bits below [total]. *)
Record bitmap_view (ptr size total : Z) (m0 m : store) (free : Z) : Prop := {
  view_frame : forall a, ~ (ptr <= a < ptr + size) -> rd m a = rd m0 a;
  view_bytes : forall i, 0 <= i < size -> is_u8 (rd m (ptr + i));
  view_free : free = countZ (fun f => negb (bit_used ptr m f)) total;
}.

(** The frames an entry contributes: the whole pages inside it. *)
Definition entry_covers (e : E820Entry) (f : Z) : Prop :=
  is_usable e = true
  /\ (e820_base e + PAGE_SIZE - 1) / PAGE_SIZE <= f < (e820_base e + e820_length e) / PAGE_SIZE.

(** The frames [init] keeps back whatever the map says: low memory and kernel,
    the boot stack, the bitmap and the memory map itself. *)
Definition reserved_frame (map : MemoryMap) (ptr size f : Z) : Prop :=
  0 <= f < KERNEL_END / PAGE_SIZE
  \/ (KERNEL_STACK_TOP - KERNEL_STACK_SIZE) / PAGE_SIZE <= f < KERNEL_STACK_TOP / PAGE_SIZE
  \/ ptr / PAGE_SIZE <= f < (ptr + size + PAGE_SIZE - 1) / PAGE_SIZE
  \/ entries_ptr map / PAGE_SIZE <= f
     < (entries_ptr map + mm_count map * E820Entry_size + PAGE_SIZE - 1) / PAGE_SIZE.

(** What the boot path guarantees of the map handed to [init]: it lies below
    the kernel's end, its usable entries are page-based, end below 2^60 and do
    not overlap, and the machine has at least 32 MiB (up to the boot stack). *)
Record good_map (m : store) (map : MemoryMap) : Prop := {
  gm_place : 0 <= entries_ptr map
             /\ entries_ptr map + mm_count map * E820Entry_size <= KERNEL_END;
  gm_count : 0 <= mm_count map <= MAX_MEMORY_ENTRIES;
  gm_end : forall i e, 0 <= i -> mm_get m map i = Some e -> is_usable e = true ->
           e820_base e + e820_length e <= 2 ^ 60 /\ e820_base e mod PAGE_SIZE = 0;
  gm_disjoint : forall i j e e', 0 <= i < j -> mm_get m map i = Some e -> mm_get m map j = Some e' ->
           is_usable e = true -> is_usable e' = true ->
           e820_base e + e820_length e <= e820_base e' \/ e820_base e' + e820_length e' <= e820_base e;
  gm_stack : KERNEL_STACK_TOP <= highest_usable_address m map;
}.

(** * Lemmas *)

Section View.
Context (ptr size total : Z) (m0 : store).
Hypothesis (Hsize : size = (total + 7) / 8) (Htotal : 0 <= total < MAX_FRAME).

Lemma bit_used_wr_or m f g :
  bit_used ptr (wr m (ptr + f / 8) (Z.lor (rd m (ptr + f / 8)) (bit (f mod 8)))) g
  = (g =? f) || bit_used ptr m g.
Proof.
  unfold bit_used. rewrite rd_wr. pose proof (frame_mod8 f). pose proof (frame_mod8 g).
  destruct (decide (ptr + f / 8 = ptr + g / 8)) as [E|E].
  - rewrite E, setbit_spec by lia. f_equal. apply eq_true_iff_eq.
    rewrite !Z.eqb_eq, (frame_eq g f). intuition lia.
  - destruct (Z.eqb_spec g f) as [->|]; done.
Qed.

Lemma bit_used_wr_and m f g :
  is_u8 (rd m (ptr + f / 8)) ->
  bit_used ptr (wr m (ptr + f / 8) (Z.land (rd m (ptr + f / 8)) (not8 (bit (f mod 8))))) g
  = negb (g =? f) && bit_used ptr m g.
Proof.
  intros Hu. unfold bit_used. rewrite rd_wr. pose proof (frame_mod8 f). pose proof (frame_mod8 g).
  destruct (decide (ptr + f / 8 = ptr + g / 8)) as [E|E].
  - rewrite <- E, clearbit8_spec by (done || lia). f_equal. f_equal. apply eq_true_iff_eq.
    rewrite !Z.eqb_eq, (frame_eq g f). intuition lia.
  - destruct (Z.eqb_spec g f) as [->|]; done.
Qed.

Lemma view_byte m free f : bitmap_view ptr size total m0 m free -> 0 <= f < total ->
  is_u8 (rd m (ptr + f / 8)).
Proof. intros V Hf. apply (view_bytes _ _ _ _ _ _ V). rewrite Hsize. by apply frame_byte_lt. Qed.

(** Writing byte [f / 8] of the bitmap keeps the first two parts of the view. *)
Lemma view_write m free f v free' :
  bitmap_view ptr size total m0 m free -> 0 <= f < total -> is_u8 v ->
  free' = countZ (fun g => negb (bit_used ptr (wr m (ptr + f / 8) v) g)) total ->
  bitmap_view ptr size total m0 (wr m (ptr + f / 8) v) free'.
Proof.
  intros V Hf Hv Hfree. pose proof (frame_byte_lt f total Hf). constructor; [..|done].
  - intros a Ha. rewrite rd_wr_ne by lia. by apply (view_frame _ _ _ _ _ _ V).
  - intros i Hi. rewrite rd_wr. case_decide; [done|]. by apply (view_bytes _ _ _ _ _ _ V).
Qed.

Lemma view_set m free f :
  bitmap_view ptr size total m0 m free -> 0 <= f < total -> bit_used ptr m f = false ->
  bitmap_view ptr size total m0
    (wr m (ptr + f / 8) (Z.lor (rd m (ptr + f / 8)) (bit (f mod 8)))) (sat_sub free 1).
Proof.
  intros V Hf Hu. apply (view_write m free); [done|done| |].
  { apply setbit8_range; [apply frame_mod8|by apply (view_byte _ free)]. }
  pose proof (view_free _ _ _ _ _ _ V) as Hfree.
  rewrite (countZ_flip (fun g => negb (bit_used ptr
    (wr m (ptr + f / 8) (Z.lor (rd m (ptr + f / 8)) (bit (f mod 8)))) g)) _ _ f) in Hfree; [|lia|..].
  - unfold sat_sub. pose proof (countZ_range (fun g => negb (bit_used ptr
      (wr m (ptr + f / 8) (Z.lor (rd m (ptr + f / 8)) (bit (f mod 8)))) g)) total ltac:(lia)). lia.
  - by rewrite bit_used_wr_or, Z.eqb_refl.
  - by rewrite Hu.
  - intros i Hi Hne. rewrite bit_used_wr_or. by destruct (Z.eqb_spec i f).
Qed.

Lemma view_clear m free f :
  bitmap_view ptr size total m0 m free -> 0 <= f < total -> bit_used ptr m f = true ->
  bitmap_view ptr size total m0
    (wr m (ptr + f / 8) (Z.land (rd m (ptr + f / 8)) (not8 (bit (f mod 8))))) (free +w 1).
Proof.
  intros V Hf Hu. pose proof (view_byte _ _ _ V Hf) as Hb.
  apply (view_write m free); [done|done|by apply land8_range|].
  pose proof (view_free _ _ _ _ _ _ V) as Hfree.
  pose proof (countZ_range (fun g => negb (bit_used ptr m g)) total ltac:(lia)).
  rewrite add64_small by (unfold U64, MAX_FRAME in *; lia). rewrite Hfree. symmetry.
  apply (countZ_flip _ _ _ f); [done|by rewrite Hu|..].
  - by rewrite bit_used_wr_and, Z.eqb_refl.
  - intros i Hi Hne. rewrite bit_used_wr_and by done. by destruct (Z.eqb_spec i f).
Qed.

(** [mark_region_used_static] on a range of tracked frames. *)
Lemma mark_static_spec a b m free :
  bitmap_view ptr size total m0 m free -> 0 <= a -> b <= total ->
  let '(m', free') := mark_region_used_static a b ptr (m, free) in
  bitmap_view ptr size total m0 m' free'
  /\ forall f, 0 <= f < total ->
       bit_used ptr m' f = (a <=? f) && (f <? b) || bit_used ptr m f.
Proof.
  intros V Ha Hb. unfold mark_region_used_static.
  set (body := fun frame '(m, free) => _).
  pose (P := fun i (st : store * Z) => bitmap_view ptr size total m0 (fst st) (snd st)
    /\ forall f, 0 <= f < total -> bit_used ptr (fst st) f = (a <=? f) && (f <? i) || bit_used ptr m f).
  assert (P (Z.max a b) (for_loop a b body (m, free))) as [HV HU].
  { apply for_loop_ind.
    - split; [done|]. intros f Hf.
      assert ((a <=? f) && (f <? a) = false) as -> by lia. done.
    - intros i [m1 free1] Hi [V1 U1]. cbn [fst snd] in *. subst body. cbv beta iota zeta.
      rewrite land_bit_zero by apply frame_mod8. fold (bit_used ptr m1 i).
      destruct (bit_used ptr m1 i) eqn:E; cbn [negb]; split; cbn [fst snd].
      + done.
      + intros f Hf. rewrite U1 by done. rewrite U1 in E by lia.
        destruct (decide (f = i)) as [->|].
        * rewrite E. symmetry. assert ((a <=? i) && (i <? i + 1) = true) as -> by lia. done.
        * f_equal. lia.
      + apply view_set; [done|lia|done].
      + intros f Hf. rewrite bit_used_wr_or, U1, orb_assoc by done. f_equal.
        destruct (Z.eqb_spec f i); lia. }
  destruct (for_loop a b body (m, free)) as [m' free']. cbn [fst snd] in *. split; [done|].
  intros f Hf. rewrite HU by done. f_equal. destruct (Z.le_gt_cases a b); [|lia].
  by rewrite Z.max_r by lia.
Qed.

(** Step 6 on one entry whose frames are all still marked. *)
Lemma free_entry_spec e m free :
  bitmap_view ptr size total m0 m free ->
  e820_base e mod PAGE_SIZE = 0 -> 0 <= e820_base e -> 0 <= e820_length e ->
  e820_base e + e820_length e <= 2 ^ 60 ->
  (forall f, e820_base e / PAGE_SIZE <= f < (e820_base e + e820_length e) / PAGE_SIZE ->
     0 <= f < total -> bit_used ptr m f = true) ->
  let '(m', free') := init_free_entry ptr total e (m, free) in
  bitmap_view ptr size total m0 m' free'
  /\ forall f, 0 <= f < total ->
       bit_used ptr m' f
       = negb ((e820_base e / PAGE_SIZE <=? f) && (f <? (e820_base e + e820_length e) / PAGE_SIZE))
         && bit_used ptr m f.
Proof.
  intros V Hal Hb Hl Hend Hu. unfold init_free_entry. cbv zeta.
  rewrite (add64_small (e820_base e) (e820_length e)) by (unfold U64; lia).
  rewrite (add64_small (e820_base e) PAGE_SIZE) by (unfold U64, PAGE_SIZE; lia).
  rewrite sub64_small by (unfold U64, PAGE_SIZE; lia).
  assert ((e820_base e + PAGE_SIZE - 1) / PAGE_SIZE = e820_base e / PAGE_SIZE) as ->
    by (unfold PAGE_SIZE in *; dlia).
  set (a := e820_base e / PAGE_SIZE) in *. set (b := (_ + _) / PAGE_SIZE) in *.
  assert (0 <= a) by (apply Z.div_pos; [done|unfold PAGE_SIZE; lia]).
  destruct (Z.leb_spec total a).
  { split; [done|]. intros f Hf. assert ((a <=? f) = false) as -> by lia. done. }
  set (b' := if total <? b then total else b).
  assert (b' <= total /\ forall f, f < total -> (f <? b) = (f <? b')) as [Hb' Hfb].
  { subst b'. destruct (Z.ltb_spec total b); split; (lia || intros; lia). }
  set (body := fun frame '(m, free) => _).
  pose (P := fun i (st : store * Z) => bitmap_view ptr size total m0 (fst st) (snd st)
    /\ forall f, 0 <= f < total ->
         bit_used ptr (fst st) f = negb ((a <=? f) && (f <? i)) && bit_used ptr m f).
  assert (P (Z.max a b') (for_loop a b' body (m, free))) as [HV HU].
  { apply for_loop_ind.
    - split; [done|]. intros f Hf.
      assert ((a <=? f) && (f <? a) = false) as -> by lia. done.
    - intros i [m1 free1] Hi [V1 U1]. cbn [fst snd] in *. subst body. cbv beta iota zeta.
      split; cbn [fst snd].
      + apply view_clear; [done|lia|]. rewrite U1 by lia.
        assert ((a <=? i) && (i <? i) = false) as -> by lia. apply Hu; [|lia].
        specialize (Hfb i ltac:(lia)). lia.
      + intros f Hf. rewrite bit_used_wr_and by (apply (view_byte _ free1); [done|lia]).
        rewrite U1 by done. rewrite andb_assoc. f_equal.
        destruct (Z.eqb_spec f i); cbn [negb andb]; lia. }
  destruct (for_loop a b' body (m, free)) as [m' free']. cbn [fst snd] in *. split; [done|].
  intros f Hf. rewrite HU, Hfb by (done || lia). f_equal. f_equal. lia.
Qed.

(** Step 4: every bit set. *)
Lemma fill_view :
  let m := for_loop 0 size (fun i m => wr m (ptr + i) 255) m0 in
  bitmap_view ptr size total m0 m 0 /\ forall f, 0 <= f < total -> bit_used ptr m f = true.
Proof.
  cbv zeta. set (body := fun i (m : store) => _).
  pose (P := fun n m => (forall a, ~ (ptr <= a < ptr + n) -> rd m a = rd m0 a)
                        /\ forall i, 0 <= i < n -> rd m (ptr + i) = 255).
  assert (P (Z.max 0 size) (for_loop 0 size body m0)) as [Hout Hin].
  { apply for_loop_ind; [split; [done|intros; lia]|].
    intros i m Hi [H1 H2]. subst body. split; cbv beta.
    - intros a Ha. rewrite rd_wr_ne by lia. apply H1. lia.
    - intros j Hj. rewrite rd_wr. case_decide; [done|]. apply H2. lia. }
  assert (0 <= size) by (rewrite Hsize; dlia). rewrite Z.max_r in Hout, Hin by done.
  set (m := for_loop 0 size body m0) in *.
  assert (forall f, 0 <= f < total -> bit_used ptr m f = true) as Hu.
  { intros f Hf. unfold bit_used. rewrite Hin by (rewrite Hsize; by apply frame_byte_lt).
    change 255 with (Z.ones 8). apply Z.ones_spec_low. apply frame_mod8. }
  split; [|done]. constructor; [done| |].
  - intros i Hi. rewrite Hin by done. done.
  - rewrite (countZ_ext _ (fun _ => false)); [|intros f Hf; by rewrite Hu].
    unfold countZ. induction (Z.to_nat total) as [|k IH]; [done|]. simpl count_below. lia.
Qed.

(** Step 8 touches no tracked frame. *)
Lemma phantom_view m free :
  bitmap_view ptr size total m0 m free ->
  bitmap_view ptr size total m0 (init_phantom ptr total m) free
  /\ forall f, 0 <= f < total -> bit_used ptr (init_phantom ptr total m) f = bit_used ptr m f.
Proof.
  intros V. unfold init_phantom. cbv zeta.
  destruct (Z.eqb_spec (total mod 8) 0) as [E|E]; [done|].
  set (body := fun b (m : store) => _).
  pose (P := fun (i : Z) m' => (forall a, a <> ptr + total / 8 -> rd m' a = rd m a)
    /\ is_u8 (rd m' (ptr + total / 8))
    /\ forall k, 0 <= k < total mod 8 ->
         Z.testbit (rd m' (ptr + total / 8)) k = Z.testbit (rd m (ptr + total / 8)) k).
  assert (0 <= total / 8 < size) as Hlast.
  { rewrite Hsize. split; dlia. }
  assert (P (Z.max (total mod 8) 8) (for_loop (total mod 8) 8 body m)) as (H1 & H2 & H3).
  { apply for_loop_ind.
    - split_and!; [done|by apply (view_bytes _ _ _ _ _ _ V)|done].
    - intros i m1 Hi (A1 & A2 & A3). subst body. pose proof (frame_mod8 total).
      split_and!; cbv beta.
      + intros a Ha. rewrite rd_wr_ne by lia. by apply A1.
      + rewrite rd_wr_eq. apply setbit8_range; [lia|done].
      + intros k Hk. rewrite rd_wr_eq, setbit_spec, A3 by lia. by destruct (Z.eqb_spec k i); [lia|]. }
  assert (forall f, 0 <= f < total ->
    bit_used ptr (for_loop (total mod 8) 8 body m) f = bit_used ptr m f) as Hu.
  { intros f Hf. unfold bit_used. destruct (decide (f / 8 = total / 8)) as [Ef|Ef].
    - rewrite Ef. apply H3. pose proof (frame_mod8 f). split; [lia|].
      pose proof (Z.div_mod f 8 ltac:(lia)). pose proof (Z.div_mod total 8 ltac:(lia)). lia.
    - by rewrite H1 by lia. }
  split; [|done]. constructor.
  - intros a Ha. rewrite H1 by lia. by apply (view_frame _ _ _ _ _ _ V).
  - intros i Hi. destruct (decide (i = total / 8)) as [->|]; [done|].
    rewrite H1 by lia. by apply (view_bytes _ _ _ _ _ _ V).
  - rewrite (view_free _ _ _ _ _ _ V). apply countZ_ext. intros f Hf. by rewrite Hu.
Qed.
End View.

(** * The memory map is read where the bitmap is not *)

Lemma le_load_ext m m' a n :
  (forall i, a <= i < a + Z.of_nat n -> rd m' i = rd m i) -> le_load m' a n = le_load m a n.
Proof.
  revert a. induction n as [|n IH]; intros a H; [done|]. cbn [le_load].
  rewrite (IH (a + 1)) by (intros; apply H; lia). by rewrite H by lia.
Qed.

Lemma mm_get_ext m m' map i :
  0 <= entries_ptr map -> entries_ptr map + mm_count map * E820Entry_size <= KERNEL_END -> 0 <= i ->
  (forall a, a < KERNEL_END -> rd m' a = rd m a) ->
  mm_get m' map i = mm_get m map i.
Proof.
  unfold mm_get, E820Entry_size. intros H0 H1 Hi H. destruct (Z.ltb_spec i (mm_count map)); [|done].
  assert (KERNEL_END < U64) by done.
  rewrite (mul64_small 24 i), add64_small by lia.
  unfold read_entry. f_equal. f_equal; apply le_load_ext; intros; apply H; lia.
Qed.

Lemma good_map_entry m map i e :
  good_map m map -> 0 <= i -> mm_get m map i = Some e ->
  e820_base e + e820_length e <= U64_MAX \/ is_usable e = false.
Proof.
  intros G Hi He. destruct (is_usable e) eqn:Hu; [left|by right].
  pose proof (gm_end _ _ G i e Hi He Hu) as [? _]. unfold U64_MAX. lia.
Qed.

Lemma mm_get_range m map i e : mm_get m map i = Some e ->
  i < mm_count map /\ is_u64 (e820_base e) /\ is_u64 (e820_length e).
Proof.
  unfold mm_get. destruct (Z.ltb_spec i (mm_count map)); [|done]. intros [= <-].
  split; [done|apply read_entry_range].
Qed.

Lemma mm_get_elem m map i e : 0 <= i -> mm_get m map i = Some e -> e ∈ entries_list m map.
Proof.
  unfold mm_get. intros Hi. destruct (Z.ltb_spec i (mm_count map)); [|done]. intros [= <-].
  unfold entries_list. apply list_elem_of_fmap. exists i. split; [done|]. apply elem_of_seqZ. lia.
Qed.

Lemma entries_elem_get m map e :
  e ∈ entries_list m map -> exists i, 0 <= i < mm_count map /\ mm_get m map i = Some e.
Proof.
  unfold entries_list. rewrite list_elem_of_fmap. intros (i & -> & Hi).
  apply elem_of_seqZ in Hi. exists i. split; [lia|]. unfold mm_get.
  destruct (Z.ltb_spec i (mm_count map)); [done|lia].
Qed.

(** A covered frame is the whole of an entry's page: with page-based entries. *)
Lemma covers_aligned e f :
  e820_base e mod PAGE_SIZE = 0 -> is_usable e = true ->
  (entry_covers e f <-> e820_base e / PAGE_SIZE <= f < (e820_base e + e820_length e) / PAGE_SIZE).
Proof.
  intros Hal Hu. unfold entry_covers.
  assert ((e820_base e + PAGE_SIZE - 1) / PAGE_SIZE = e820_base e / PAGE_SIZE) as ->
    by (unfold PAGE_SIZE in *; dlia). intuition.
Qed.

(** Pages of disjoint entries are disjoint. *)
Lemma covers_disjoint e e' f :
  e820_base e + e820_length e <= e820_base e' \/ e820_base e' + e820_length e' <= e820_base e ->
  entry_covers e f -> entry_covers e' f -> False.
Proof.
  unfold entry_covers. intros Hd [_ H] [_ H'].
  assert (forall x y, x <= y -> x / PAGE_SIZE <= (y + PAGE_SIZE - 1) / PAGE_SIZE) as Hm.
  { intros. unfold PAGE_SIZE. dlia. }
  destruct Hd as [Hd|Hd]; apply Hm in Hd; lia.
Qed.

(** Some entry before index [n] covers [f]. *)
Definition covered (m : store) (map : MemoryMap) (n f : Z) : Prop :=
  exists i e, 0 <= i < n /\ mm_get m map i = Some e /\ entry_covers e f.

Section Init.
Context (m0 : store) (map : MemoryMap) (ptr size total : Z).
Hypothesis (Hg : good_map m0 map).
Hypothesis (Hptr : KERNEL_END <= ptr).
Hypothesis (Hsize : size = (total + 7) / 8) (Htotal : 0 <= total < MAX_FRAME).

Lemma init_get m free i :
  bitmap_view ptr size total m0 m free -> 0 <= i -> mm_get m map i = mm_get m0 map i.
Proof.
  intros V Hi. destruct (gm_place _ _ Hg). apply mm_get_ext; [done|done|done|].
  intros a Ha. apply (view_frame _ _ _ _ _ _ V). lia.
Qed.

(** Step 6: exactly the covered frames become free. *)
Lemma free_regions_spec m free :
  bitmap_view ptr size total m0 m free ->
  (forall f, 0 <= f < total -> bit_used ptr m f = true) ->
  let '(m', free') := init_free_regions map ptr total (m, free) in
  bitmap_view ptr size total m0 m' free'
  /\ forall f, 0 <= f < total ->
       (bit_used ptr m' f = false <-> covered m0 map (mm_count map) f).
Proof.
  intros V Hall. unfold init_free_regions, entry_count.
  set (body := fun i '(m, free) => _).
  pose (P := fun i (st : store * Z) => bitmap_view ptr size total m0 (fst st) (snd st)
    /\ forall f, 0 <= f < total -> (bit_used ptr (fst st) f = false <-> covered m0 map i f)).
  assert (P (Z.max 0 (mm_count map)) (for_loop 0 (mm_count map) body (m, free))) as [HV HU].
  { apply for_loop_ind.
    - split; [done|]. intros f Hf. cbn [fst]. rewrite Hall by done.
      split; [done|]. intros (i & e & Hi & _). lia.
    - intros i [m1 free1] Hi [V1 U1]. cbn [fst snd] in *. subst body. cbv beta iota.
      rewrite (init_get m1 free1) by (done || lia).
      assert (forall f, covered m0 map (i + 1) f <->
        covered m0 map i f \/ exists e, mm_get m0 map i = Some e /\ entry_covers e f) as Hstep.
      { intros f. split.
        - intros (j & e & Hj & He & Hc). destruct (decide (j = i)) as [->|].
          + right. by exists e.
          + left. exists j, e. split; [lia|done].
        - intros [(j & e & Hj & He & Hc)|(e & He & Hc)]; [exists j, e|exists i, e]; (split; [lia|done]). }
      destruct (mm_get m0 map i) as [e|] eqn:He.
      2:{ split; [done|]. intros f Hf. cbn [fst]. rewrite U1, Hstep by done.
          split; [by left|]. intros [|(e & ? & _)]; done. }
      destruct (is_usable e) eqn:Hu.
      2:{ split; [done|]. intros f Hf. cbn [fst]. rewrite U1, Hstep by done.
          split; [by left|]. intros [|(e' & [= <-] & Hc & _)]; [done|congruence]. }
      destruct (gm_end _ _ Hg i e ltac:(lia) He Hu) as [Hend Hal].
      destruct (mm_get_range _ _ _ _ He) as (_ & [Hb _] & [Hl _]).
      pose proof (free_entry_spec ptr size total m0 Hsize Htotal e m1 free1 V1 Hal Hb Hl Hend) as Hs.
      destruct (init_free_entry ptr total e (m1, free1)) as [m2 free2].
      destruct Hs as [V2 U2].
      { intros f Hf Hft. apply not_false_is_true. rewrite U1 by done.
        intros (j & e' & Hj & He' & Hc).
        pose proof (gm_disjoint _ _ Hg j i e' e ltac:(lia) He' He ltac:(apply Hc) Hu) as Hd.
        apply (covers_disjoint e' e f); [lia|done|]. by apply covers_aligned. }
      split; [done|]. intros f Hf. cbn [fst]. rewrite U2, andb_false_iff, negb_false_iff by done.
      rewrite U1, Hstep by done. split.
      + intros [Hc|]; [|by left]. right. exists e. split; [done|].
        apply covers_aligned; [done|done|lia].
      + intros [|(e' & [= <-] & Hc)]; [by right|]. left. apply covers_aligned in Hc; [lia|done|done]. }
  destruct (for_loop 0 (mm_count map) body (m, free)) as [m' free']. cbn [fst snd] in *.
  rewrite Z.max_r in HU by apply (gm_count _ _ Hg). done.
Qed.

(** Step 7: the reserved ranges, and only they, are marked again. *)
Lemma reserve_spec m free :
  bitmap_view ptr size total m0 m free ->
  ptr + size <= 2 ^ 61 -> (ptr + size + PAGE_SIZE - 1) / PAGE_SIZE <= total ->
  KERNEL_STACK_TOP / PAGE_SIZE <= total ->
  let '(m', free') := init_reserve map ptr size (m, free) in
  bitmap_view ptr size total m0 m' free'
  /\ forall f, 0 <= f < total ->
       (bit_used ptr m' f = true <-> reserved_frame map ptr size f \/ bit_used ptr m f = true).
Proof.
  intros V Hpb Hpe Hst. unfold init_reserve, entries_raw. cbv zeta.
  destruct (gm_place _ _ Hg) as [Hp0 Hp1]. pose proof (gm_count _ _ Hg) as Hc.
  assert (KERNEL_END = 10485760) as HK by done. assert (0 <= size) by (rewrite Hsize; dlia).
  unfold MAX_MEMORY_ENTRIES in Hc.
  rewrite (add64_small ptr size) by (unfold U64; lia).
  rewrite (add64_small (ptr + size)), (sub64_small (ptr + size + PAGE_SIZE))
    by (unfold U64, PAGE_SIZE; lia).
  rewrite (mul64_small (mm_count map)) by (unfold U64, E820Entry_size; lia).
  unfold E820Entry_size in *.
  rewrite (add64_small (entries_ptr map)) by (unfold U64; lia).
  rewrite (add64_small (entries_ptr map + _)), (sub64_small (entries_ptr map + _ + PAGE_SIZE))
    by (unfold U64, PAGE_SIZE; lia).
  assert ((entries_ptr map + mm_count map * 24 + PAGE_SIZE - 1) / PAGE_SIZE <= total) as Hm.
  { etransitivity; [|exact Hst]. apply Z.div_le_mono; [done|]. unfold PAGE_SIZE, KERNEL_STACK_TOP. lia. }
  assert (KERNEL_STACK_TOP / PAGE_SIZE = 8192) as HS by done. rewrite HS in *.
  assert (0 <= ptr / PAGE_SIZE) as Hq by (apply Z.div_pos; [lia|done]).
  assert (0 <= entries_ptr map / PAGE_SIZE) as Hq' by (apply Z.div_pos; [lia|done]).
  pose proof (mark_static_spec ptr size total m0 Hsize Htotal 0 (1048576 / PAGE_SIZE) m free V
    ltac:(lia) ltac:(change (1048576 / PAGE_SIZE) with 256; lia)) as H1.
  destruct (mark_region_used_static 0 _ ptr (m, free)) as [m1 f1]. destruct H1 as [V1 U1].
  pose proof (mark_static_spec ptr size total m0 Hsize Htotal (1048576 / PAGE_SIZE)
    ((1048576 + 9 * 1024 * 1024) / PAGE_SIZE) m1 f1 V1 ltac:(done)
    ltac:(change ((1048576 + 9 * 1024 * 1024) / PAGE_SIZE) with 2560; lia)) as H2.
  destruct (mark_region_used_static _ _ ptr (m1, f1)) as [m2 f2]. destruct H2 as [V2 U2].
  pose proof (mark_static_spec ptr size total m0 Hsize Htotal
    ((KERNEL_STACK_TOP - KERNEL_STACK_SIZE) / PAGE_SIZE) 8192 m2 f2 V2 ltac:(done) Hst) as H3.
  destruct (mark_region_used_static _ _ ptr (m2, f2)) as [m3 f3]. destruct H3 as [V3 U3].
  pose proof (mark_static_spec ptr size total m0 Hsize Htotal
    (ptr / PAGE_SIZE) ((ptr + size + PAGE_SIZE - 1) / PAGE_SIZE) m3 f3 V3 Hq Hpe) as H4.
  destruct (mark_region_used_static _ _ ptr (m3, f3)) as [m4 f4]. destruct H4 as [V4 U4].
  pose proof (mark_static_spec ptr size total m0 Hsize Htotal
    (entries_ptr map / PAGE_SIZE) _ m4 f4 V4 Hq' Hm) as H5.
  destruct (mark_region_used_static _ _ ptr (m4, f4)) as [m5 f5]. destruct H5 as [V5 U5].
  split; [done|]. intros f Hf. rewrite U5, U4, U3, U2, U1 by done.
  unfold reserved_frame. rewrite HS.
  change (1048576 / PAGE_SIZE) with 256. change ((1048576 + 9 * 1024 * 1024) / PAGE_SIZE) with 2560.
  change (KERNEL_END / PAGE_SIZE) with 2560. unfold E820Entry_size.
  rewrite !orb_true_iff, !andb_true_iff, !Z.leb_le, !Z.ltb_lt.
  destruct (bit_used ptr m f); intuition lia.
Qed.
End Init.

(** Step 3 finds room: page-based, above the kernel, inside a usable entry. *)
Lemma find_bitmap_spec m map sz p :
  good_map m map -> 0 < sz ->
  init_find_bitmap m map sz = Some p ->
  KERNEL_END <= p /\ p mod PAGE_SIZE = 0 /\ p + sz <= highest_usable_address m map
  /\ p + sz <= 2 ^ 60.
Proof.
  intros G Hsz Hf. apply find_loop_Some in Hf as (i & Hi & Hf & _). unfold entry_count in Hi.
  cbv beta in Hf. destruct (mm_get m map i) as [e|] eqn:He; [|done].
  destruct (is_usable e) eqn:Hu; [|done]. cbv zeta in Hf.
  destruct (gm_end _ _ G i e ltac:(lia) He Hu) as [Hend Hal].
  destruct (mm_get_range _ _ _ _ He) as (_ & [Hb _] & [Hl _]).
  rewrite add64_small in Hf by (unfold U64; lia).
  assert (entry_end e <= highest_usable_address m map) as Hh.
  { unfold highest_usable_address. rewrite fold_entries_foldl.
    apply (highest_fold (entries_list m map) 0); [|done]. eapply mm_get_elem; [|done]. lia. }
  assert (entry_end e = e820_base e + e820_length e) as Hee
    by (unfold entry_end, sat_add64, U64_MAX; lia).
  rewrite Hee in Hh.
  set (rs := if e820_base e <? KERNEL_END then KERNEL_END else e820_base e) in Hf.
  assert (e820_base e <= rs /\ KERNEL_END <= rs /\ rs mod PAGE_SIZE = 0) as (Hr1 & Hr2 & Hr3).
  { subst rs. destruct (Z.ltb_spec (e820_base e) KERNEL_END); split_and!; (done || lia). }
  assert (0 < KERNEL_END) by done.
  destruct (Z.leb_spec (e820_base e + e820_length e) rs) as [|Hlt]; [done|].
  rewrite sub64_small in Hf by (unfold U64; lia).
  destruct (Z.ltb_spec (e820_base e + e820_length e - rs) sz); [done|]. injection Hf as <-.
  split_and!; (done || lia).
Qed.

Lemma highest_bound m map :
  good_map m map -> highest_usable_address m map <= 2 ^ 60.
Proof.
  intros G. unfold highest_usable_address. rewrite fold_entries_foldl.
  destruct (highest_fold (entries_list m map) 0) as (_ & _ & [E|(e & He & Hu & E)]); cbv zeta in E;
    [rewrite E; lia|]. rewrite <- E.
  apply entries_elem_get in He as (i & Hi & He).
  destruct (gm_end _ _ G i e ltac:(lia) He Hu). unfold entry_end, sat_add64. lia.
Qed.

(** The sizes [init] computes, without wrap-around. *)
Lemma init_sizes total :
  0 < total <= 2 ^ 48 ->
  let size := bitmap_bytes total in
  size = (total + 7) / 8 /\ 0 < size <= 2 ^ 48
  /\ bitmap_bytes_aligned size = (size + PAGE_SIZE - 1) / PAGE_SIZE * PAGE_SIZE
  /\ size <= bitmap_bytes_aligned size.
Proof.
  intros Ht. cbv zeta. unfold bitmap_bytes. rewrite add64_small by (unfold U64; lia).
  assert (0 < (total + 7) / 8 <= 2 ^ 48) as Hs by dlia. set (size := (total + 7) / 8) in *.
  unfold bitmap_bytes_aligned. rewrite (add64_small size) by (unfold U64, PAGE_SIZE; lia).
  rewrite sub64_small by (unfold U64, PAGE_SIZE; lia).
  assert (size <= (size + PAGE_SIZE - 1) / PAGE_SIZE * PAGE_SIZE <= size + PAGE_SIZE)
    by (unfold PAGE_SIZE; dlia).
  rewrite mul64_small by (unfold U64, PAGE_SIZE in *; lia). lia.
Qed.

Lemma zones_init_zero total i : z_free_frames (zone_at (mkPmm 0 0 0 0 0 0 0 (init_zones total) [] 0) i) = 0.
Proof. destruct i as [|[|[|[|i]]]]; reflexivity. Qed.

(** The bitmap view of a finished [init] is the invariant of [PmmFacts]. *)
Lemma view_inv p m0 m total :
  bitmap_view (bitmap p) (bitmap_size p) total m0 m (free_frames p) ->
  total = total_frames p -> bitmap_size p = (total + 7) / 8 -> 0 < total < MAX_FRAME ->
  last_alloc_index p = 0 -> zones p = init_zones total ->
  pmm_inv (mkPst p m).
Proof.
  intros V Ht Hs Htot Hl Hz. constructor; cbn [pm].
  - lia.
  - by rewrite <- Ht.
  - rewrite Hl, Hs. split; [done|]. intros _. dlia.
  - apply (view_bytes _ _ _ _ _ _ V).
  - rewrite <- Ht. apply (view_free _ _ _ _ _ _ V).
  - rewrite Hz. split; [done|]. intros i.
    replace (zone_at p i) with (zone_at (mkPmm 0 0 0 0 0 0 0 (init_zones total) [] 0) i)
      by (unfold zone_at; by rewrite Hz).
    by rewrite zones_init_zero.
Qed.

(** The region search of [init] on this map. *)
Definition init_region (m : store) (map : MemoryMap) : option Z :=
  init_find_bitmap m map
    (bitmap_bytes_aligned (bitmap_bytes (highest_usable_address m map / PAGE_SIZE))).

Lemma pmm_init_spec m map g :
  good_map m map ->
  match pmm_init map g m with
  | (g', m', Err e) => g' = g /\ m' = m /\ e = err_no_region /\ init_region m map = None
  | (g', m', Ok _) => exists p, g' = Some p
      /\ pmm_inv (mkPst p m')
      /\ total_frames p = highest_usable_address m map / PAGE_SIZE
      /\ (forall f, 0 <= f < total_frames p ->
            (frame_used (mkPst p m') f = false <->
             covered m map (mm_count map) f /\ ~ reserved_frame map (bitmap p) (bitmap_size p) f))
      /\ (forall a, ~ (bitmap p <= a < bitmap p + bitmap_size p) -> rd m' a = rd m a)
      /\ init_region m map = Some (bitmap p) /\ KERNEL_END <= bitmap p
      /\ (forall i, z_free_frames (zone_at p i) = 0)
  end.
Proof.
  intros G. pose proof (highest_bound m map G) as Hhi. pose proof (gm_stack _ _ G) as Hst.
  unfold pmm_init, init_region. cbv zeta. set (h := highest_usable_address m map) in *.
  assert (KERNEL_STACK_TOP = 33554432) as HK by done.
  destruct (Z.eqb_spec h 0); [lia|].
  set (total := h / PAGE_SIZE).
  assert (8192 <= total <= 2 ^ 48) as Htot.
  { subst total. split.
    - change 8192 with (KERNEL_STACK_TOP / PAGE_SIZE). by apply Z.div_le_mono.
    - change (2 ^ 48) with (2 ^ 60 / PAGE_SIZE). by apply Z.div_le_mono. }
  destruct (init_sizes total ltac:(lia)) as (Hs & Hsr & Hal & Hle).
  set (size := bitmap_bytes total) in *.
  destruct (init_find_bitmap m map (bitmap_bytes_aligned size)) as [ptr|] eqn:F; [|done].
  destruct (find_bitmap_spec m map (bitmap_bytes_aligned size) ptr G ltac:(lia) F) as (Hp1 & Hp2 & Hp3 & Hp4).
  rewrite Hp2. cbn [Z.eqb negb]. fold h in Hp3.
  assert (0 <= total < MAX_FRAME) as Hmax by (unfold MAX_FRAME; lia).
  destruct (fill_view ptr size total m Hs Hmax) as [V1 U1].
  set (m1 := for_loop 0 size _ m) in *.
  pose proof (free_regions_spec m map ptr size total G Hp1 Hs Hmax m1 0 V1 U1) as H2.
  destruct (init_free_regions map ptr total (m1, 0)) as [m2 f2]. destruct H2 as [V2 U2].
  assert ((ptr + size + PAGE_SIZE - 1) / PAGE_SIZE <= total) as Hpe.
  { subst total. rewrite Hal in Hp3. apply Z.div_le_lower_bound; [done|].
    unfold PAGE_SIZE in *. dlia. }
  pose proof (reserve_spec m map ptr size total G Hp1 Hs Hmax m2 f2 V2 ltac:(lia) Hpe
    ltac:(change (KERNEL_STACK_TOP / PAGE_SIZE) with 8192; lia)) as H3.
  destruct (init_reserve map ptr size (m2, f2)) as [m3 f3]. destruct H3 as [V3 U3].
  destruct (phantom_view ptr size total m Hs Hmax m3 f3 V3) as [V4 U4].
  set (p := mkPmm _ _ _ _ _ _ _ _ _ _). exists p. split; [done|].
  split_and!.
  - apply (view_inv p m _ total V4); (done || lia).
  - done.
  - intros f Hf. change (frame_used _ f) with (bit_used ptr (init_phantom ptr total m3) f).
    rewrite U4, <- U2 by done. specialize (U3 f Hf).
    change (bitmap p) with ptr. change (bitmap_size p) with size. clear - U3.
    destruct (bit_used ptr m3 f), (bit_used ptr m2 f); intuition congruence.
  - apply (view_frame _ _ _ _ _ _ V4).
  - done.
  - done.
  - intros i. exact (zones_init_zero total i).
Qed.

(** ** Checking [good_map] on a concrete map *)

Definition entry_ok (e : E820Entry) : bool :=
  negb (is_usable e)
  || ((e820_base e + e820_length e <=? 2 ^ 60) && (e820_base e mod PAGE_SIZE =? 0)).

Definition entries_apart (e e' : E820Entry) : bool :=
  negb (is_usable e) || negb (is_usable e')
  || (e820_base e + e820_length e <=? e820_base e')
  || (e820_base e' + e820_length e' <=? e820_base e).

Fixpoint pairwise_apart (l : list E820Entry) : bool :=
  match l with [] => true | e :: l' => forallb (entries_apart e) l' && pairwise_apart l' end.

Lemma pairwise_apart_lookup l i j e e' :
  pairwise_apart l = true -> (i < j)%nat -> l !! i = Some e -> l !! j = Some e' ->
  entries_apart e e' = true.
Proof.
  revert i j. induction l as [|x l IH]; intros i j; [done|]. cbn [pairwise_apart].
  rewrite andb_true_iff. intros [Hx Hl] Hij Hi Hj. destruct j as [|j]; [lia|].
  destruct i as [|i]; [|by apply (IH i j); [done|lia|..]].
  injection Hi as <-. rewrite forallb_forall in Hx. apply Hx.
  apply list_elem_of_In. by eapply list_elem_of_lookup_2.
Qed.

Lemma mm_get_lookup m map i e : 0 <= i -> mm_get m map i = Some e ->
  entries_list m map !! Z.to_nat i = Some e.
Proof.
  intros Hi. unfold mm_get. destruct (Z.ltb_spec i (mm_count map)); [|done]. intros [= <-].
  unfold entries_list. rewrite list_lookup_fmap, lookup_seqZ_lt by lia. cbn.
  by rewrite Z2Nat.id by lia.
Qed.

Lemma good_map_check m map :
  (0 <=? entries_ptr map) && (entries_ptr map + mm_count map * E820Entry_size <=? KERNEL_END)
    && (0 <=? mm_count map) && (mm_count map <=? MAX_MEMORY_ENTRIES)
    && forallb entry_ok (entries_list m map) && pairwise_apart (entries_list m map)
    && (KERNEL_STACK_TOP <=? highest_usable_address m map) = true ->
  good_map m map.
Proof.
  rewrite !andb_true_iff, !Z.leb_le, forallb_forall.
  intros [[[[[[H1 H2] H3] H4] H5] H6] H7]. constructor; [done|done| | |done].
  - intros i e Hi He Hu. specialize (H5 e). rewrite <- list_elem_of_In in H5.
    specialize (H5 (mm_get_elem _ _ _ _ Hi He)). unfold entry_ok in H5. rewrite Hu in H5. lia.
  - intros i j e e' Hij He He' Hu Hu'.
    pose proof (pairwise_apart_lookup (entries_list m map) (Z.to_nat i) (Z.to_nat j) e e' H6 ltac:(lia) (mm_get_lookup m map i e ltac:(lia) He)
      (mm_get_lookup m map j e' ltac:(lia) He')) as H.
    unfold entries_apart in H. rewrite Hu, Hu' in H. cbn [negb orb] in H. lia.
Qed.
