(* ===== verification/PmmProps.v ===== *)
(** Physical memory manager: what it promises.

    First the abstract specification: a set of frames in use and the steps a
    caller may observe ([frames_step]).  Then the properties of each operation,
    the refinement of the specification by the bitmap manager, its safety over
    any sequence of requests, and what [init] establishes.  A small concrete
    manager at the end instantiates them. *)

From S2P Require Import Prelude E820 Pmm PmmFacts PmmInit.

(** * Abstract specification *)

(** What a caller can ask of the manager, and what it observes. *)
Inductive request : Type :=
| RAlloc
| RAllocZone (z : MemoryZone)
| RAllocDma32
| RAllocContiguous (cnt : Z) (zone : option MemoryZone)
| RFree (addr : Z).

Inductive reply : Type :=
| Addr (a : Z)
| Freed
| Failed (c : Z).

Definition frame_run (f cnt : Z) : gset Z := list_to_set (seqZ f cnt).

(** How many frames a request is granted, and where they may lie. *)
Definition request_size (r : request) : Z :=
  match r with RAllocContiguous cnt _ => cnt | _ => 1 end.

Definition request_place (total : Z) (r : request) : Z * Z :=
  match r with
  | RAllocZone z | RAllocContiguous _ (Some z) =>
      (start_address z / PAGE_SIZE, Z.min (end_address z / PAGE_SIZE) total)
  | RAllocDma32 => (0, Z.min (DMA32_ZONE_END / PAGE_SIZE) total)
  | _ => (0, total)
  end.

(** The specification: a grant is a run of free frames inside the requested
    place, a release gives back one frame in use, and a refusal changes nothing.
    Plain allocation is refused only when memory is full, a contiguous one only
    when no run fits, a release only for an address that is not a frame in use;
    a zone allocation may be refused at any time (its counters are advisory). *)
Inductive frames_step (total : Z) (U : gset Z) : request -> reply -> gset Z -> Prop :=
| step_grant r f lo hi :
    request_place total r = (lo, hi) ->
    (match r with RFree _ => False | _ => True end) ->
    0 < request_size r ->
    lo <= f -> f + request_size r <= hi ->
    frame_run f (request_size r) ## U ->
    frames_step total U r (Addr (f * PAGE_SIZE)) (frame_run f (request_size r) ∪ U)
| step_release f :
    0 <= f < total -> f ∈ U ->
    frames_step total U (RFree (f * PAGE_SIZE)) Freed (U ∖ {[ f ]})
| step_refuse_alloc :
    (forall f, 0 <= f < total -> f ∈ U) ->
    frames_step total U RAlloc (Failed 3) U
| step_refuse_zone r c :
    (match r with RAllocZone _ | RAllocDma32 | RAllocContiguous 1 (Some _) => True | _ => False end) ->
    c = 10 \/ c = 11 ->
    frames_step total U r (Failed c) U
| step_refuse_zero zone :
    frames_step total U (RAllocContiguous 0 zone) (Failed 12) U
| step_refuse_one :
    (forall f, 0 <= f < total -> f ∈ U) ->
    frames_step total U (RAllocContiguous 1 None) (Failed 3) U
| step_refuse_run cnt zone lo hi :
    request_place total (RAllocContiguous cnt zone) = (lo, hi) -> 1 < cnt ->
    (forall f, lo <= f -> f + cnt <= hi -> exists i, f <= i < f + cnt /\ i ∈ U) ->
    frames_step total U (RAllocContiguous cnt zone) (Failed 13) U
| step_refuse_free addr c :
    (c = 5 /\ addr mod PAGE_SIZE <> 0)
    \/ (c = 6 /\ total <= addr / PAGE_SIZE)
    \/ (c = 7 /\ 0 <= addr / PAGE_SIZE < total /\ addr / PAGE_SIZE ∉ U) ->
    frames_step total U (RFree addr) (Failed c) U.

(** The concrete manager behind the same interface. *)
Definition reply_addr (r : result MemoryError Z) : reply :=
  match r with Ok a => Addr a | Err e => Failed (code e) end.

Definition serve (r : request) (s : pmm_state) : option (pmm_state * reply) :=
  match r with
  | RAlloc => let '(s', a) := alloc_frame s in Some (s', reply_addr a)
  | RAllocZone z => let '(s', a) := alloc_frame_in_zone z s in Some (s', reply_addr a)
  | RAllocDma32 => let '(s', a) := alloc_dma32_frame s in Some (s', reply_addr a)
  | RAllocContiguous cnt zone =>
      match alloc_frames_contiguous cnt zone s with
      | Some (s', a) => Some (s', reply_addr a)
      | None => None
      end
  | RFree addr =>
      match free_frame addr s with
      | (s', Ok _) => Some (s', Freed)
      | (s', Err e) => Some (s', Failed (code e))
      end
  end.

(** The abstraction: the set of frames whose bit is set. *)
Definition used_set (s : pmm_state) : gset Z :=
  list_to_set (filter (fun f => frame_used s f = true) (seqZ 0 (total_frames (pm s)))).

(** Arguments the callers pass: unsigned, and a run no longer than memory can
    be.  (A run length close to 2^64 makes [current_frame + count] wrap in a
    zone that does not start at 0.) *)
Definition request_ok (r : request) : Prop :=
  match r with
  | RFree addr => 0 <= addr
  | RAllocContiguous cnt _ => 0 <= cnt <= MAX_FRAME
  | _ => True
  end.

(** A sequence of requests, with the replies, in order. *)
Inductive served : pmm_state -> list (request * reply) -> pmm_state -> Prop :=
| served_nil s : served s [] s
| served_cons s r rep s1 log s2 :
    request_ok r -> serve r s = Some (s1, rep) -> served s1 log s2 -> served s ((r, rep) :: log) s2.

(** The frames the caller holds after a log, newest event last. *)
Definition held_after (H : gset Z) (e : request * reply) : gset Z :=
  match e with
  | (RFree addr, Freed) => H ∖ {[ addr / PAGE_SIZE ]}
  | (r, Addr a) => frame_run (a / PAGE_SIZE) (request_size r) ∪ H
  | _ => H
  end.
Definition held (log : list (request * reply)) : gset Z := foldl held_after ∅ log.

(** A small manager for the witnesses: 20 frames, frames 0..4 and the four
    phantom bits of the last byte set, and one zone with a counter. *)
Definition sample_manager : PhysicalMemoryManager :=
  mkPmm 4096 3 4096 20 15 0 81920
    [mkZoneStats 20 15 0; ZoneStats_new; ZoneStats_new; ZoneStats_new]
    (replicate 8 NumaStats_new) 1.
Definition sample_pmm : pmm_state :=
  mkPst sample_manager (wr (wr ∅ 4096 31) 4098 240).

Definition sample_map : MemoryMap := parse sample_map_bytes MEMORY_MAP_ADDR.

(** * Lemmas *)

Lemma elem_of_frame_run f cnt i : i ∈ frame_run f cnt <-> f <= i < f + cnt.
Proof. unfold frame_run. rewrite elem_of_list_to_set, elem_of_seqZ. lia. Qed.

Lemma elem_of_used_set s f :
  f ∈ used_set s <-> 0 <= f < total_frames (pm s) /\ frame_used s f = true.
Proof.
  unfold used_set. rewrite elem_of_list_to_set, list_elem_of_filter, elem_of_seqZ.
  intuition lia.
Qed.

(** Marking a run of tracked frames, on the abstract set. *)
Lemma used_set_grant s s' f cnt :
  total_frames (pm s') = total_frames (pm s) -> 0 <= f -> f + cnt <= total_frames (pm s) ->
  (forall i, frame_used s' i = in_run f cnt i || frame_used s i) ->
  used_set s' = frame_run f cnt ∪ used_set s.
Proof.
  intros Ht Hf Hc Hu. apply set_eq. intros i.
  rewrite elem_of_union, !elem_of_used_set, elem_of_frame_run, Ht, Hu, orb_true_iff, in_run_spec.
  intuition lia.
Qed.

Lemma used_set_release s s' f :
  total_frames (pm s') = total_frames (pm s) ->
  (forall i, frame_used s' i = negb (i =? f) && frame_used s i) ->
  used_set s' = used_set s ∖ {[ f ]}.
Proof.
  intros Ht Hu. apply set_eq. intros i.
  rewrite elem_of_difference, elem_of_singleton, !elem_of_used_set, Ht, Hu, andb_true_iff,
    negb_true_iff, Z.eqb_neq. intuition.
Qed.

Lemma run_disjoint s f cnt :
  (forall i, f <= i < f + cnt -> frame_used s i = false) -> frame_run f cnt ## used_set s.
Proof.
  intros H i Hi Hu. apply elem_of_frame_run in Hi. apply elem_of_used_set in Hu as [_ Hu].
  by rewrite H in Hu.
Qed.

Lemma in_run_one f i : in_run f 1 i = (i =? f).
Proof. apply eq_true_iff_eq. rewrite in_run_spec, Z.eqb_eq. lia. Qed.

(** One frame granted. *)
Lemma grant_one r s s' f lo hi :
  request_place (total_frames (pm s)) r = (lo, hi) -> request_size r = 1 ->
  (match r with RFree _ => False | _ => True end) ->
  lo <= f < hi -> 0 <= f < total_frames (pm s) -> frame_used s f = false ->
  total_frames (pm s') = total_frames (pm s) ->
  (forall i, frame_used s' i = (i =? f) || frame_used s i) ->
  frames_step (total_frames (pm s)) (used_set s) r (Addr (f * PAGE_SIZE)) (used_set s').
Proof.
  intros Hp Hs Hr Hlo Hf Hfree Ht Hu.
  rewrite (used_set_grant s s' f 1) by (done || lia || (intros; by rewrite in_run_one)).
  rewrite <- Hs. apply (step_grant _ _ _ _ lo hi); rewrite ?Hs; [done|done|lia|lia|lia|].
  apply run_disjoint. intros i Hi. by replace i with f by lia.
Qed.

Lemma all_used_set s :
  (forall f, 0 <= f < total_frames (pm s) -> frame_used s f = true) ->
  forall f, 0 <= f < total_frames (pm s) -> f ∈ used_set s.
Proof. intros H f Hf. apply elem_of_used_set. auto. Qed.

(** ** [serve], request by request *)

Lemma serve_alloc s : pmm_inv s ->
  exists s' rep, serve RAlloc s = Some (s', rep) /\ pmm_inv s'
    /\ total_frames (pm s') = total_frames (pm s)
    /\ frames_step (total_frames (pm s)) (used_set s) RAlloc rep (used_set s').
Proof.
  intros I. pose proof (alloc_frame_spec s I) as H. cbn [serve].
  destruct (alloc_frame s) as [s' [a|e]]; do 2 eexists; (split; [done|]).
  - destruct H as (f & Hf & Hu & -> & ->). split_and!; [by apply take_frame_inv|done|].
    cbn [reply_addr]. apply (grant_one _ _ _ _ 0 (total_frames (pm s)));
      auto using take_frame_used.
  - destruct H as (-> & -> & Hall). split_and!; [done|done|].
    apply step_refuse_alloc. by apply all_used_set.
Qed.

(** The frame of a zone allocation, with its place left to the caller. *)
Lemma zone_grant z r s lo hi :
  pmm_inv s -> request_size r = 1 -> (match r with RFree _ => False | _ => True end) ->
  request_place (total_frames (pm s)) r = (lo, hi) ->
  lo <= start_address z / PAGE_SIZE ->
  Z.min (end_address z / PAGE_SIZE) (total_frames (pm s)) <= hi ->
  match alloc_frame_in_zone z s with
  | (s', Ok a) => pmm_inv s' /\ total_frames (pm s') = total_frames (pm s)
      /\ frames_step (total_frames (pm s)) (used_set s) r (Addr a) (used_set s')
  | (s', Err e) => s' = s /\ (code e = 10 \/ code e = 11)
  end.
Proof.
  intros I Hsz Hr Hp Hlo Hhi. pose proof (alloc_frame_in_zone_spec z s I) as H.
  unfold zone_frames in H. destruct (alloc_frame_in_zone z s) as [s' [a|e]].
  - destruct H as (f & Hz & Hf & Hu & -> & ->). split_and!; [by apply take_zone_frame_inv|done|].
    eapply (grant_one r s _ f); [exact Hp|done|done|lia|done|done|done|].
    intros. apply take_zone_frame_used.
  - destruct H as (-> & [[_ ->]|(_ & -> & _)]); (split; [done|]); [by left|by right].
Qed.

Lemma serve_zone z s : pmm_inv s ->
  exists s' rep, serve (RAllocZone z) s = Some (s', rep) /\ pmm_inv s'
    /\ total_frames (pm s') = total_frames (pm s)
    /\ frames_step (total_frames (pm s)) (used_set s) (RAllocZone z) rep (used_set s').
Proof.
  intros I. pose proof (zone_grant z (RAllocZone z) s _ _ I eq_refl Logic.I eq_refl
    ltac:(lia) ltac:(lia)) as H. cbn [serve].
  destruct (alloc_frame_in_zone z s) as [s' [a|e]]; do 2 eexists; (split; [done|]).
  - done.
  - destruct H as [-> Hc]. split_and!; [done|done|]. by apply step_refuse_zone.
Qed.

Lemma serve_dma32 s : pmm_inv s ->
  exists s' rep, serve RAllocDma32 s = Some (s', rep) /\ pmm_inv s'
    /\ total_frames (pm s') = total_frames (pm s)
    /\ frames_step (total_frames (pm s)) (used_set s) RAllocDma32 rep (used_set s').
Proof.
  intros I. cbn [serve]. unfold alloc_dma32_frame.
  pose proof (zone_grant Dma RAllocDma32 s 0 _ I eq_refl Logic.I eq_refl) as H1.
  pose proof (zone_grant Dma32 RAllocDma32 s 0 _ I eq_refl Logic.I eq_refl) as H2.
  specialize (H1 ltac:(done) ltac:(change (end_address Dma / PAGE_SIZE) with 4096;
    change (DMA32_ZONE_END / PAGE_SIZE) with 1048576; lia)).
  specialize (H2 ltac:(done) ltac:(cbn [end_address]; lia)).
  destruct (alloc_frame_in_zone Dma s) as [s1 [a|e]].
  { do 2 eexists. split; [done|]. exact H1. }
  destruct H1 as [-> _]. destruct (alloc_frame_in_zone Dma32 s) as [s2 [a|e']];
    do 2 eexists; (split; [done|]); [exact H2|].
  destruct H2 as [-> Hc]. split_and!; [done|done|]. by apply step_refuse_zone.
Qed.

(** The range of a contiguous request, as the specification states it. *)
Lemma contig_place s cnt zone :
  pmm_inv s ->
  let '(lo, hi) := contig_range zone s in
  request_place (total_frames (pm s)) (RAllocContiguous cnt zone) = (lo, hi)
  /\ 0 <= lo <= MAX_FRAME /\ 0 <= hi <= total_frames (pm s).
Proof.
  intros I. pose proof (inv_total _ I). unfold contig_range, zone_frames.
  destruct zone as [z|]; [|split_and!; (done || lia)].
  pose proof (zone_bounds z) as [[? ?] ?].
  assert (0 <= end_address z / PAGE_SIZE) by (apply Z.div_pos; [lia|done]).
  split_and!; [done| | |lia|lia].
  - apply Z.div_pos; [done|unfold PAGE_SIZE; lia].
  - change MAX_FRAME with (2 ^ 64 / PAGE_SIZE). apply Z.div_le_mono; [done|].
    unfold U64_MAX in *. lia.
Qed.

Lemma serve_contig cnt zone s : pmm_inv s -> 0 <= cnt <= MAX_FRAME ->
  exists s' rep, serve (RAllocContiguous cnt zone) s = Some (s', rep) /\ pmm_inv s'
    /\ total_frames (pm s') = total_frames (pm s)
    /\ frames_step (total_frames (pm s)) (used_set s) (RAllocContiguous cnt zone) rep (used_set s').
Proof.
  intros I Hc. cbn [serve]. unfold alloc_frames_contiguous.
  destruct (Z.eqb_spec cnt 0) as [->|H0].
  { do 2 eexists. split_and!; [done|done|done|]. apply step_refuse_zero. }
  destruct (Z.eqb_spec cnt 1) as [->|H1].
  { destruct zone as [z|].
    - pose proof (zone_grant z (RAllocContiguous 1 (Some z)) s _ _ I eq_refl Logic.I eq_refl
        ltac:(lia) ltac:(lia)) as H.
      destruct (alloc_frame_in_zone z s) as [s' [a|e]]; do 2 eexists; (split; [done|]); [exact H|].
      destruct H as [-> He]. split_and!; [done|done|]. by apply step_refuse_zone.
    - pose proof (alloc_frame_spec s I) as H.
      destruct (alloc_frame s) as [s' [a|e]]; do 2 eexists; (split; [done|]).
      + destruct H as (f & Hf & Hu & -> & ->). split_and!; [by apply take_frame_inv|done|].
        apply (grant_one _ _ _ _ 0 (total_frames (pm s))); auto using take_frame_used.
      + destruct H as (-> & -> & Hall). split_and!; [done|done|].
        apply step_refuse_one. by apply all_used_set. }
  pose proof (contig_place s cnt zone I) as Hp.
  destruct (contig_range zone s) as [lo hi]. destruct Hp as (Hp & Hlo & Hhi).
  pose proof (contig_search_spec (Z.to_nat (hi + 2)) lo cnt hi s I Hlo ltac:(lia) ltac:(lia)) as H.
  pose proof (inv_total _ I) as Ht.
  specialize (H ltac:(lia) ltac:(lia)).
  destruct (contig_search _ lo cnt hi s) as [[s' [a|e]]|]; [| |done]; do 2 eexists; (split; [done|]).
  - destruct H as (f & Hf1 & Hf2 & -> & Hfree & _ & ->).
    destruct (take_run_state_inv f cnt s I ltac:(lia) ltac:(lia) ltac:(lia) Hfree) as [I' _].
    split_and!; [done| |].
    + destruct (take_run_spec f cnt s I ltac:(lia) ltac:(lia) ltac:(lia)) as (Sh & _ & _).
      apply (shape_total _ _ Sh).
    + assert (used_set (take_run_state f cnt s) = frame_run f cnt ∪ used_set s) as ->.
      { apply used_set_grant; [|lia|lia|].
        - destruct (take_run_spec f cnt s I ltac:(lia) ltac:(lia) ltac:(lia)) as (Sh & _ & _).
          apply (shape_total _ _ Sh).
        - intros i. apply take_run_state_used; (done || lia). }
      apply (step_grant _ _ (RAllocContiguous cnt zone) f lo hi); cbn [request_size];
        [done|done|lia|lia|lia|by apply run_disjoint].
  - destruct H as (-> & -> & Hno). split_and!; [done|done|].
    apply (step_refuse_run _ _ _ _ lo hi); [done|lia|]. intros f Hf He.
    destruct (Hno f Hf He) as (i & Hi & Hu). exists i. split; [done|].
    apply elem_of_used_set. split; [lia|done].
Qed.

Lemma page_of_aligned addr : addr mod PAGE_SIZE = 0 -> addr = addr / PAGE_SIZE * PAGE_SIZE.
Proof. intros. pose proof (Z.div_mod addr PAGE_SIZE ltac:(done)). lia. Qed.

Lemma release_shape_total f s : total_frames (pm (release_frame f s)) = total_frames (pm s).
Proof. unfold release_frame. cbv zeta. by destruct (_ <? _). Qed.

Lemma serve_free addr s : pmm_inv s -> 0 <= addr ->
  exists s' rep, serve (RFree addr) s = Some (s', rep) /\ pmm_inv s'
    /\ total_frames (pm s') = total_frames (pm s)
    /\ frames_step (total_frames (pm s)) (used_set s) (RFree addr) rep (used_set s').
Proof.
  intros I Ha. cbn [serve]. rewrite free_frame_spec by done. cbv zeta.
  assert (0 <= addr / PAGE_SIZE) as Hf0 by (apply Z.div_pos; done).
  case_decide as E1; [|case_decide as E2; [|destruct (frame_used s (addr / PAGE_SIZE)) eqn:Hu]];
    do 2 eexists; (split; [done|]).
  - split_and!; [done|done|]. apply step_refuse_free. by left.
  - split_and!; [done|done|]. apply step_refuse_free. right. by left.
  - assert (addr mod PAGE_SIZE = 0) as Hal by lia. 
    split_and!; [apply release_frame_inv; (done || lia)|apply release_shape_total|].
    rewrite (used_set_release s (release_frame (addr / PAGE_SIZE) s) (addr / PAGE_SIZE)); [|apply release_shape_total|].
    + rewrite (page_of_aligned addr Hal) at 1. apply step_release; [lia|].
      apply elem_of_used_set. split; [lia|done].
    + intros i. apply release_frame_used. apply inv_byte; (done || lia).
  - split_and!; [done|done|]. apply step_refuse_free. right. right.
    split_and!; [done|done|lia|]. rewrite elem_of_used_set, Hu. by intros [].
Qed.

Lemma serve_spec r s : pmm_inv s -> request_ok r ->
  exists s' rep, serve r s = Some (s', rep) /\ pmm_inv s'
    /\ total_frames (pm s') = total_frames (pm s)
    /\ frames_step (total_frames (pm s)) (used_set s) r rep (used_set s').
Proof.
  intros I Hr. destruct r; cbn in Hr; [by apply serve_alloc|by apply serve_zone|by apply serve_dma32
    |by apply serve_contig|by apply serve_free].
Qed.

Lemma held_failed H r c : held_after H (r, Failed c) = H.
Proof. by destruct r. Qed.

(** One specification step keeps the held frames among the used ones, and
    grants none that is held. *)
Lemma held_step total U r rep U' H :
  frames_step total U r rep U' -> H ⊆ U ->
  held_after H (r, rep) ⊆ U'
  /\ (forall a, rep = Addr a -> frame_run (a / PAGE_SIZE) (request_size r) ## H).
Proof.
  intros Hs HU. destruct Hs as [r f lo hi Hp Hr Hsz Hlo Hhi Hd|f Hf Hin|?|?|?|?|?|?];
    try (rewrite held_failed; split; done).
  - split.
    + assert (held_after H (r, Addr (f * PAGE_SIZE)) = frame_run f (request_size r) ∪ H) as ->.
      { destruct r; cbn [held_after]; rewrite ?page_div; done. }
      set_solver.
    + intros a [= <-]. rewrite page_div. set_solver.
  - split; [|done]. cbn [held_after]. rewrite page_div. set_solver.
Qed.

Lemma held_served s log s' H :
  served s log s' -> pmm_inv s -> H ⊆ used_set s ->
  pmm_inv s' /\ foldl held_after H log ⊆ used_set s'
  /\ forall log1 r a log2, log = log1 ++ (r, Addr a) :: log2 ->
       frame_run (a / PAGE_SIZE) (request_size r) ## foldl held_after H log1.
Proof.
  intros Hs. revert H. induction Hs as [s|s r rep s1 log s2 Hok Hsv Hs IH]; intros H I HU.
  { split_and!; [done|done|]. intros log1 r a log2 E. by destruct log1. }
  destruct (serve_spec r s I Hok) as (s1' & rep' & Hsv' & I1 & _ & Hst).
  rewrite Hsv in Hsv'. injection Hsv' as <- <-.
  destruct (held_step _ _ _ _ _ H Hst HU) as [HU1 Hgr].
  destruct (IH _ I1 HU1) as (I2 & HU2 & Hlog).
  split_and!; [done|done|]. intros log1 r' a log2 E. destruct log1 as [|e log1].
  - injection E as -> -> ->. by apply Hgr.
  - injection E as <- ->. cbn [foldl]. by eapply Hlog.
Qed.

(** The loop of [free_frames_contiguous] frees the longest prefix in use. *)
Definition freed_prefix (s s' : pmm_state) (f k : Z) : Prop :=
  f + k <= total_frames (pm s)
  /\ (forall i, f <= i < f + k -> frame_used s i = true)
  /\ (forall i, frame_used s' i = negb (in_run f k i) && frame_used s i)
  /\ free_frames (pm s') = free_frames (pm s) + k
  /\ total_frames (pm s') = total_frames (pm s)
  /\ pmm_inv s'.

Lemma in_run_cons f k i : 0 <= k -> in_run f (k + 1) i = (i =? f) || in_run (f + 1) k i.
Proof.
  intros. apply eq_true_iff_eq. rewrite orb_true_iff, Z.eqb_eq, !in_run_spec. lia.
Qed.

Lemma freed_prefix_cons s f k s' :
  pmm_inv s -> 0 <= f < total_frames (pm s) -> 0 <= k -> frame_used s f = true ->
  freed_prefix (release_frame f s) s' (f + 1) k -> freed_prefix s s' f (k + 1).
Proof.
  intros I Hf Hk Hu (Ht & Hall & Hus & Hfr & Htot & I').
  pose proof (inv_byte s f I Hf) as Hb. pose proof (inv_free_range s I). pose proof (inv_total _ I).
  rewrite release_shape_total in Ht, Htot.
  split_and!; [lia| | | |done|done].
  - intros i Hi. destruct (decide (i = f)) as [->|]; [done|].
    specialize (Hall i ltac:(lia)). rewrite release_frame_used in Hall by done.
    by apply andb_true_iff in Hall as [_ ?].
  - intros i. rewrite Hus, release_frame_used, in_run_cons by done.
    by destruct (i =? f), (in_run (f + 1) k i).
  - rewrite Hfr, release_frame_free, add64_small by (unfold U64, MAX_FRAME in *; lia). lia.
Qed.

Lemma free_run_spec n i f s :
  pmm_inv s -> 0 <= f -> 0 <= i -> f + i < MAX_FRAME ->
  match free_run n i (f * PAGE_SIZE) s with
  | (s', Ok _) => freed_prefix s s' (f + i) (Z.of_nat n)
                  \/ (n = 0%nat /\ s' = s)
  | (s', Err e) => exists k, 0 <= k < Z.of_nat n
      /\ (freed_prefix s s' (f + i) k \/ (k = 0 /\ s' = s))
      /\ ((e = err_bounds /\ total_frames (pm s) <= f + i + k)
          \/ (e = err_double_free /\ f + i + k < total_frames (pm s)
              /\ frame_used s (f + i + k) = false))
  end.
Proof.
  revert i s. induction n as [|n IH]; intros i s I Hf Hi Hm; [by right|]. cbn [free_run].
  assert (f * PAGE_SIZE +w i *w PAGE_SIZE = (f + i) * PAGE_SIZE) as ->.
  { unfold PAGE_SIZE, MAX_FRAME in *. rewrite (mul64_small i) by (unfold U64; lia).
    rewrite add64_small by (unfold U64; lia). lia. }
  pose proof (inv_total _ I) as Ht. rewrite free_frame_spec by (done || unfold PAGE_SIZE; lia).
  cbv zeta. rewrite page_div. rewrite decide_False by (rewrite page_mod; lia).
  case_decide as E2.
  { exists 0. split_and!; [lia|lia|by right|]. left. split; [done|lia]. }
  destruct (frame_used s (f + i)) eqn:Hu.
  2:{ exists 0. split_and!; [lia|lia|by right|]. right. rewrite Z.add_0_r. split_and!; (done || lia). }
  pose proof (release_frame_inv (f + i) s I ltac:(lia) Hu) as I1.
  specialize (IH (i + 1) _ I1 Hf ltac:(lia) ltac:(lia)).
  assert (freed_prefix s (release_frame (f + i) s) (f + i) 1) as Hone.
  { apply (freed_prefix_cons s (f + i) 0); [done|lia|lia|done|].
    split_and!; [rewrite release_shape_total; lia|intros; lia| |lia|done|done].
    intros j. assert (in_run (f + i + 1) 0 j = false) as -> by (apply in_run_false; lia). done. }
  replace (f + (i + 1)) with (f + i + 1) in IH by lia.
  destruct (free_run n (i + 1) (f * PAGE_SIZE) (release_frame (f + i) s)) as [s' [u|e]].
  - left. rewrite Nat2Z.inj_succ. destruct IH as [IH|[-> ->]]; [|done].
    apply freed_prefix_cons; (done || lia).
  - destruct IH as (k & Hk & Hpre & Hstop). exists (k + 1).
    rewrite release_shape_total in Hstop. replace (f + i + (k + 1)) with (f + i + 1 + k) by lia.
    split_and!; [lia|lia| |].
    + left. destruct Hpre as [Hpre|[-> ->]]; [|done]. apply freed_prefix_cons; (done || lia).
    + destruct Hstop as [|(-> & Hlt & Hn)]; [by left|]. right. split_and!; [done|done|].
      rewrite release_frame_used in Hn by (apply inv_byte; (done || lia)).
      destruct (Z.eqb_spec (f + i + 1 + k) (f + i)); [lia|done].
Qed.

(** ** Statistics *)

Lemma countZ_succ P n : 0 <= n -> countZ P (n + 1) = countZ P n + (if P n then 1 else 0).
Proof.
  intros. unfold countZ. replace (Z.to_nat (n + 1)) with (S (Z.to_nat n)) by lia.
  cbn [count_below]. by rewrite Z2Nat.id.
Qed.

(** The longest run of free frames is within the free count. *)
Lemma longest_run_bound s : pmm_inv s -> 0 <= longest_run s <= free_frames (pm s).
Proof.
  intros I. pose proof (inv_total _ I) as Ht. rewrite (inv_free _ I). unfold longest_run.
  set (body := fun frame '(mx, run) => _).
  pose (P := fun i (st : Z * Z) => 0 <= fst st <= countZ (frame_free s) i
                                   /\ 0 <= snd st <= countZ (frame_free s) i).
  enough (P (Z.max 0 (total_frames (pm s))) (for_loop 0 (total_frames (pm s)) body (0, 0))) as [H _]
    by (by rewrite Z.max_r in H by lia).
  apply for_loop_ind; [by split|].
  intros i [mx run] Hi [H1 H2]. cbn [fst snd] in *. unfold P.
  rewrite countZ_succ by lia. subst body. cbv beta iota zeta.
  rewrite test_bit_used by lia. fold (frame_free s i).
  pose proof (countZ_range (frame_free s) i ltac:(lia)).
  destruct (frame_free s i); cbn [fst snd].
  - rewrite add64_small by (unfold U64, MAX_FRAME in *; lia).
    destruct (Z.ltb_spec mx (run + 1)); lia.
  - lia.
Qed.

Lemma wrap8_small x : is_u8 x -> wrap8 x = x.
Proof. apply Z.mod_small. Qed.

(** ** After [init] *)

(** Frames that [init] withholds: outside the usable regions, or reserved. *)
Definition withheld (m : store) (map : MemoryMap) (p : PhysicalMemoryManager) (f : Z) : Prop :=
  ~ (covered m map (mm_count map) f /\ ~ reserved_frame map (bitmap p) (bitmap_size p) f).

Lemma held_keeps (N : gset Z) log H :
  (forall addr, (RFree addr, Freed) ∈ log -> addr / PAGE_SIZE ∉ N) -> N ⊆ H ->
  N ⊆ foldl held_after H log.
Proof.
  revert H. induction log as [|[r rep] log IH]; intros H Hno HN; [done|]. cbn [foldl]. apply IH.
  - intros addr Ha. apply Hno. by right.
  - assert (forall addr, r = RFree addr -> rep = Freed -> addr / PAGE_SIZE ∉ N) as Hn.
    { intros addr -> ->. apply Hno. by left. }
    destruct r, rep; cbn [held_after]; try done; try (by apply union_subseteq_r').
    specialize (Hn addr eq_refl eq_refl). set_solver.
Qed.

(** * Properties of the operations *)

(** [alloc_frame] is correct and complete: it hands out the page-aligned
    address of a tracked frame that was free, marks that frame and no other,
    takes one off the free count and keeps the invariant; it fails only when
    every tracked frame is in use, with code 3 and nothing changed, so the
    code-4 error of the scan is unreachable. *)
Theorem alloc_frame_correct s :
  pmm_inv s ->
  match alloc_frame s with
  | (s', Ok a) =>
      let f := a / PAGE_SIZE in
      a = f * PAGE_SIZE /\ 0 <= f < total_frames (pm s)
      /\ frame_used s f = false
      /\ (forall i, frame_used s' i = (i =? f) || frame_used s i)
      /\ free_frames (pm s') = free_frames (pm s) - 1
      /\ pmm_inv s'
  | (s', Err e) => s' = s /\ e = err_no_free
      /\ forall f, 0 <= f < total_frames (pm s) -> frame_used s f = true
  end.
Proof.
  intros I. pose proof (alloc_frame_spec s I) as H. destruct (alloc_frame s) as [s' [a|e]]; [|done].
  destruct H as (f & Hf & Hu & -> & ->). cbv zeta. rewrite page_div.
  pose proof (inv_free_pos s f I Hf Hu). pose proof (inv_free_range s I). pose proof (inv_total _ I).
  split_and!; [done|lia|lia|done|apply take_frame_used| |by apply take_frame_inv].
  apply sub64_small. unfold U64, MAX_FRAME in *. lia.
Qed.

(** [free_frame] answers every address: an unaligned one with code 5, one
    past the tracked memory with code 6, a frame that is not in use with code 7
    (double free), all without any change; otherwise it clears that frame and no
    other, adds one to the free count and to the counter of the frame's zone, and
    keeps the invariant. *)
Theorem free_frame_correct s addr :
  pmm_inv s -> is_u64 addr ->
  let f := addr / PAGE_SIZE in
  match free_frame addr s with
  | (s', Ok _) =>
      addr mod PAGE_SIZE = 0 /\ f < total_frames (pm s) /\ frame_used s f = true
      /\ (forall i, frame_used s' i = negb (i =? f) && frame_used s i)
      /\ free_frames (pm s') = free_frames (pm s) + 1
      /\ (forall z, z_free_frames (zone_stats z s')
            = if decide (z = zone_from_address addr)
              then z_free_frames (zone_stats z s) +w 1 else z_free_frames (zone_stats z s))
      /\ pmm_inv s'
  | (s', Err e) => s' = s /\
      ((addr mod PAGE_SIZE <> 0 /\ e = err_unaligned)
       \/ (addr mod PAGE_SIZE = 0 /\ total_frames (pm s) <= f /\ e = err_bounds)
       \/ (addr mod PAGE_SIZE = 0 /\ f < total_frames (pm s) /\ frame_used s f = false
           /\ e = err_double_free))
  end.
Proof.
  intros I [Ha _]. cbv zeta. rewrite free_frame_spec by done. cbv zeta.
  assert (0 <= addr / PAGE_SIZE) as Hf0 by (apply Z.div_pos; done).
  case_decide as E1; [split; [done|by left]|].
  case_decide as E2; [split; [done|right; left; split_and!; (done || lia)]|].
  destruct (frame_used s (addr / PAGE_SIZE)) eqn:Hu.
  2:{ split; [done|]. right. right. split_and!; (done || lia). }
  assert (addr mod PAGE_SIZE = 0) as Hal by lia.
  pose proof (inv_free_range s I). pose proof (inv_total _ I).
  split_and!; [done|lia|done| | | |].
  - intros i. apply release_frame_used. apply inv_byte; (done || lia).
  - rewrite release_frame_free. apply add64_small. unfold U64, MAX_FRAME in *. lia.
  - intros z. unfold zone_stats. rewrite release_frame_zones by apply (inv_zones _ I).
    rewrite <- (page_of_aligned addr Hal).
    destruct (decide (z = zone_from_address addr)) as [->|Hne]; [by rewrite decide_True|].
    rewrite decide_False; [done|]. intros E. apply Hne. revert E.
    by destruct z, (zone_from_address addr).
  - apply release_frame_inv; (done || lia).
Qed.

(** [alloc_frame_in_zone] hands out a free frame inside the zone (so an
    ISA-DMA frame is below 16 MiB and a DMA32 frame below 4 GiB), marks only it
    and keeps the invariant; it fails with code 10 when the zone's counter is 0
    and with code 11 only when every tracked frame of the zone is in use. *)
Theorem alloc_in_zone_correct zone s :
  pmm_inv s ->
  let '(zs, ze) := zone_frames (pm s) zone in
  match alloc_frame_in_zone zone s with
  | (s', Ok a) =>
      let f := a / PAGE_SIZE in
      a = f * PAGE_SIZE /\ zs <= f < ze
      /\ a < end_address zone
      /\ frame_used s f = false
      /\ (forall i, frame_used s' i = (i =? f) || frame_used s i)
      /\ pmm_inv s'
  | (s', Err e) => s' = s /\
      ((z_free_frames (zone_stats zone s) = 0 /\ e = err_zone_empty)
       \/ (e = err_zone_not_found /\ forall f, zs <= f < ze -> frame_used s f = true))
  end.
Proof.
  intros I. pose proof (alloc_frame_in_zone_spec zone s I) as H.
  destruct (zone_frames (pm s) zone) as [zs ze] eqn:Ez.
  destruct (alloc_frame_in_zone zone s) as [s' [a|e]].
  - destruct H as (f & Hz & Hf & Hu & -> & ->). cbv zeta. rewrite page_div.
    split_and!; [done|lia|lia| |done|apply take_zone_frame_used|by apply take_zone_frame_inv].
    unfold zone_frames in Ez. injection Ez as _ <-. unfold PAGE_SIZE in *. dlia.
  - destruct H as (-> & [?|(_ & -> & Hall)]); (split; [done|]); [by left|by right].
Qed.

(** [alloc_frames_contiguous] always answers, and is first-fit: on more than
    one frame it returns the lowest run of free frames inside the requested
    range, marks that run and nothing else, lowers the free count by its length
    and keeps the invariant; code 13 means that no run of that length is free. *)
Theorem alloc_contiguous_first_fit cnt zone s :
  pmm_inv s -> 1 < cnt <= MAX_FRAME ->
  let '(lo, hi) := contig_range zone s in
  match alloc_frames_contiguous cnt zone s with
  | Some (s', Ok a) =>
      let f := a / PAGE_SIZE in
      a = f * PAGE_SIZE /\ lo <= f /\ f + cnt <= hi
      /\ (forall i, f <= i < f + cnt -> frame_used s i = false)
      /\ (forall g, lo <= g < f -> exists i, g <= i < g + cnt /\ frame_used s i = true)
      /\ (forall i, frame_used s' i = in_run f cnt i || frame_used s i)
      /\ free_frames (pm s') = free_frames (pm s) - cnt
      /\ pmm_inv s'
  | Some (s', Err e) => s' = s /\ e = err_no_contiguous
      /\ forall g, lo <= g -> g + cnt <= hi -> exists i, g <= i < g + cnt /\ frame_used s i = true
  | None => False
  end.
Proof.
  intros I Hc. pose proof (contig_place s cnt zone I) as Hp. pose proof (inv_total _ I).
  unfold alloc_frames_contiguous.
  destruct (contig_range zone s) as [lo hi]. destruct Hp as (_ & Hlo & Hhi).
  destruct (Z.eqb_spec cnt 0); [lia|]. destruct (Z.eqb_spec cnt 1); [lia|].
  pose proof (contig_search_spec (Z.to_nat (hi + 2)) lo cnt hi s I Hlo ltac:(lia) ltac:(lia)
    ltac:(lia) ltac:(lia)) as H1.
  destruct (contig_search _ lo cnt hi s) as [[s' [a|e]]|]; [|done|done].
  destruct H1 as (f & Hf1 & Hf2 & -> & Hfree & Hfirst & ->). cbv zeta. rewrite page_div.
  destruct (take_run_state_inv f cnt s I ltac:(lia) ltac:(lia) ltac:(lia) Hfree) as [I' Hn].
  split_and!; [done|done|done|done|done| |done|done].
  intros i. apply take_run_state_used; (done || lia).
Qed.

(** [free_frames_contiguous] on an aligned run frees exactly its longest
    prefix of frames in use: with success, the whole run; otherwise it stops at
    the first frame that is free (code 7) or out of range (code 6), with the
    frames before it already released and every other frame untouched. *)
Theorem free_contiguous_prefix base cnt s :
  pmm_inv s -> is_u64 base -> 0 < cnt < U64 ->
  let f := base / PAGE_SIZE in
  match free_frames_contiguous base cnt s with
  | (s', Ok _) => base mod PAGE_SIZE = 0 /\ freed_prefix s s' f cnt
  | (s', Err e) =>
      (base mod PAGE_SIZE <> 0 /\ e = err_unaligned /\ s' = s)
      \/ exists k, 0 <= k < cnt /\ base mod PAGE_SIZE = 0
          /\ (freed_prefix s s' f k \/ (k = 0 /\ s' = s))
          /\ ((e = err_bounds /\ total_frames (pm s) <= f + k)
              \/ (e = err_double_free /\ f + k < total_frames (pm s)
                  /\ frame_used s (f + k) = false))
  end.
Proof.
  intros I Hb Hc. cbv zeta. unfold free_frames_contiguous.
  destruct (Z.eqb_spec cnt 0); [lia|].
  destruct (Z.eqb_spec (base mod PAGE_SIZE) 0) as [E|E]; cbn [negb]; [|by left].
  assert (0 <= base / PAGE_SIZE < MAX_FRAME) as Hf.
  { unfold is_u64, U64 in Hb. split; [apply Z.div_pos; [lia|done]|].
    apply Z.div_lt_upper_bound; [done|]. unfold MAX_FRAME, PAGE_SIZE. lia. }
  pose proof (free_run_spec (Z.to_nat cnt) 0 (base / PAGE_SIZE) s I ltac:(lia) ltac:(lia)
    ltac:(lia)) as H.
  rewrite <- (page_of_aligned base E), Z.add_0_r, Z2Nat.id in H by lia.
  destruct (free_run _ _ _ _) as [s' [u|e]].
  - split; [done|]. destruct H as [H|[Hn _]]; [done|lia].
  - right. destruct H as (k & Hk & Hpre & Hstop). exists k. split_and!; (done || lia).
Qed.

(** C1. Refinement: the bitmap manager implements the specification.  From a
    state in the invariant every request is answered (the searches terminate),
    the invariant is kept, and the answer and the change of the set of frames in
    use are a step of [frames_step]. *)
Theorem pmm_refines_frames r s :
  pmm_inv s -> request_ok r ->
  exists s' rep, serve r s = Some (s', rep) /\ pmm_inv s'
    /\ total_frames (pm s') = total_frames (pm s)
    /\ frames_step (total_frames (pm s)) (used_set s) r rep (used_set s').
Proof. intros I Hr. by apply serve_spec. Qed.

(** C6. Safety over any sequence of requests: an allocation never hands out a
    frame that an earlier allocation handed out and that has not been freed
    since, and every frame still held is marked in the bitmap. *)
Theorem no_frame_granted_twice s log s' :
  pmm_inv s -> served s log s' ->
  held log ⊆ used_set s'
  /\ forall log1 r a log2, log = log1 ++ (r, Addr a) :: log2 ->
       frame_run (a / PAGE_SIZE) (request_size r) ## held log1.
Proof.
  intros I Hs. by destruct (held_served s log s' ∅ Hs I (empty_subseteq _)) as (_ & H).
Qed.

(** C22. [init] on a sane map: it fails only when no usable region has room for
    the bitmap (code 2, nothing changed); otherwise the stored manager satisfies
    the invariant, tracks every frame up to the highest usable address, and its
    free frames are exactly the whole pages of the usable entries outside the
    reserved ranges (low memory and kernel, boot stack, bitmap, memory map); only
    the bitmap's bytes are written, above the kernel. *)
Theorem pmm_init_correct m map g :
  good_map m map ->
  match pmm_init map g m with
  | (g', m', Err e) => g' = g /\ m' = m /\ e = err_no_region /\ init_region m map = None
  | (g', m', Ok _) => exists p, g' = Some p /\ init_region m map = Some (bitmap p)
      /\ pmm_inv (mkPst p m')
      /\ total_frames p = highest_usable_address m map / PAGE_SIZE
      /\ (forall f, 0 <= f < total_frames p ->
            (frame_used (mkPst p m') f = true <-> withheld m map p f))
      /\ (forall a, ~ (bitmap p <= a < bitmap p + bitmap_size p) -> rd m' a = rd m a)
      /\ KERNEL_END <= bitmap p
  end.
Proof.
  intros G. pose proof (pmm_init_spec m map g G) as H.
  destruct (pmm_init map g m) as [[g' m'] [u|e]]; [|done].
  destruct H as (p & -> & I & Ht & Hu & Hm & Hr & Hp & _). exists p.
  split_and!; [done|done|done|done| |done|done].
  intros f Hf. unfold withheld. rewrite <- Hu by done.
  by destruct (frame_used (mkPst p m') f).
Qed.

(** Nothing outside the usable RAM is ever handed out: after [init], in any
    sequence of requests that does not free a withheld frame, no allocation
    grants a frame of low memory, the kernel, the boot stack, the bitmap, the
    memory map, or outside a usable entry. *)
Theorem withheld_never_granted m map g p m' log s' :
  good_map m map -> pmm_init map g m = (Some p, m', Ok tt) ->
  served (mkPst p m') log s' ->
  (forall addr, (RFree addr, Freed) ∈ log -> ~ withheld m map p (addr / PAGE_SIZE)) ->
  forall log1 r a log2 f, log = log1 ++ (r, Addr a) :: log2 ->
    f ∈ frame_run (a / PAGE_SIZE) (request_size r) -> 0 <= f < total_frames p ->
    ~ withheld m map p f.
Proof.
  intros G E Hs Hno log1 r a log2 f El Hf Hft Hw.
  pose proof (pmm_init_spec m map g G) as H. rewrite E in H.
  destruct H as (p' & [= <-] & I & Ht & Hu & _).
  assert ({[ f ]} ⊆ used_set (mkPst p m')) as Hsub.
  { apply singleton_subseteq_l, elem_of_used_set. split; [done|].
    apply not_false_is_true. rewrite Hu by done. done. }
  destruct (held_served _ _ _ _ Hs I Hsub) as (_ & _ & Hd).
  specialize (Hd log1 r a log2 El f Hf). apply Hd.
  apply (held_keeps {[ f ]}); [|done|by apply elem_of_singleton].
  intros addr Ha Hin%elem_of_singleton. rewrite <- Hin in Hw.
  apply (Hno addr); [|done]. rewrite El. apply elem_of_app. by left.
Qed.

(** [init] fills in the zones' totals but not their free counts, so right
    after it every zone allocation, and with it [alloc_dma_frame] and
    [alloc_dma32_frame], is refused with code 10, whatever memory is free. *)
Theorem zone_alloc_fails_after_init m map g p m' zone :
  good_map m map -> pmm_init map g m = (Some p, m', Ok tt) ->
  let s := mkPst p m' in
  alloc_frame_in_zone zone s = (s, Err err_zone_empty)
  /\ alloc_dma_frame s = (s, Err err_zone_empty)
  /\ alloc_dma32_frame s = (s, Err err_zone_empty).
Proof.
  intros G E. pose proof (pmm_init_spec m map g G) as H. rewrite E in H.
  destruct H as (p' & [= <-] & _ & _ & _ & _ & _ & _ & Hz). cbv zeta.
  assert (forall z, alloc_frame_in_zone z (mkPst p m') = (mkPst p m', Err err_zone_empty)) as A.
  { intros z. unfold alloc_frame_in_zone. cbn [pm]. by rewrite Hz. }
  unfold alloc_dma_frame, alloc_dma32_frame. by rewrite !A.
Qed.

(** The statistics are exact percentages: in the invariant nothing wraps,
    [memory_usage_percent] is the used share rounded down, never above 100, and
    [fragmentation_estimate] stays within 0..100. *)
Theorem percentages_exact s :
  pmm_inv s -> 0 < total_frames (pm s) ->
  memory_usage_percent s
    = (total_frames (pm s) - free_frames (pm s)) * 100 / total_frames (pm s)
  /\ 0 <= memory_usage_percent s <= 100
  /\ 0 <= fragmentation_estimate s <= 100.
Proof.
  intros I Ht. pose proof (inv_free_range s I) as Hf. pose proof (inv_total _ I) as Hm.
  pose proof (longest_run_bound s I) as Hl. unfold MAX_FRAME in Hm.
  assert (0 <= (total_frames (pm s) - free_frames (pm s)) * 100 / total_frames (pm s) <= 100) as Hp.
  { split; [apply Z.div_pos; lia|]. apply Z.div_le_upper_bound; lia. }
  assert (memory_usage_percent s
    = (total_frames (pm s) - free_frames (pm s)) * 100 / total_frames (pm s)) as E.
  { unfold memory_usage_percent. destruct (Z.eqb_spec (total_frames (pm s)) 0); [lia|]. cbv zeta.
    rewrite sub64_small, mul64_small by (unfold U64; lia). apply wrap8_small. unfold is_u8. lia. }
  rewrite E. split_and!; [done|lia|lia| |]; unfold fragmentation_estimate;
    destruct (Z.eqb_spec (free_frames (pm s)) 0); try lia; cbv zeta.
  all: rewrite mul64_small by (unfold U64; lia).
  all: assert (0 <= longest_run s * 100 / free_frames (pm s) <= 100)
    by (split; [apply Z.div_pos; lia|apply Z.div_le_upper_bound; lia]).
  all: rewrite sub64_small by (unfold U64; lia); rewrite wrap8_small by (unfold is_u8; lia); lia.
Qed.

(** * Witnesses *)

Lemma sample_inv : pmm_inv sample_pmm.
Proof.
  constructor.
  - by vm_compute.
  - done.
  - split; [by vm_compute|]. intros _. by vm_compute.
  - intros i Hi. change (bitmap_size (pm sample_pmm)) with 3 in Hi.
    assert (i = 0 \/ i = 1 \/ i = 2) as [->|[->| ->]] by lia; by vm_compute.
  - by vm_compute.
  - split; [done|]. intros [|[|[|[|i]]]]; by vm_compute.
Qed.

Lemma sample_good : good_map sample_map_bytes sample_map.
Proof. apply good_map_check. by vm_compute. Qed.

Lemma sample_init g : exists p m',
  pmm_init sample_map g sample_map_bytes = (Some p, m', Ok tt).
Proof.
  pose proof (pmm_init_spec _ _ g sample_good) as H.
  destruct (pmm_init sample_map g sample_map_bytes) as [[g' m'] [[]|e]].
  - destruct H as (p & -> & _). by exists p, m'.
  - destruct H as (_ & _ & _ & H). vm_compute in H. done.
Qed.

Lemma sample_covered : covered sample_map_bytes sample_map (mm_count sample_map) 9000.
Proof.
  exists 1, (mkE820Entry 1048576 133169152 1 1).
  split; [by vm_compute|]. split; [by vm_compute|]. split; [by vm_compute|]. by vm_compute.
Qed.

Lemma sample_unreserved : ~ reserved_frame sample_map 10485760 163840 9000.
Proof.
  unfold reserved_frame. intros [H|[H|[H|H]]]; vm_compute in H; destruct H as [Ha Hb];
    by (apply Ha || (revert Hb; done)).
Qed.

(** Frame 9000 (35 MiB) is free after [init] of the sample map. *)
Lemma sample_init_free g p m' :
  pmm_init sample_map g sample_map_bytes = (Some p, m', Ok tt) ->
  pmm_inv (mkPst p m') /\ total_frames p = 1310720 /\ frame_used (mkPst p m') 9000 = false.
Proof.
  intros E. pose proof (pmm_init_spec _ _ g sample_good) as H. rewrite E in H.
  destruct H as (p' & [= <-] & I & Ht & Hu & _ & Hr & _). clear E.
  assert (total_frames p = 1310720) as Htot by (rewrite Ht; by vm_compute).
  assert (init_region sample_map_bytes sample_map = Some 10485760) as Hc by (by vm_compute).
  rewrite Hc in Hr. injection Hr as Hb. symmetry in Hb.
  assert (bitmap_size p = 163840) as Hs.
  { pose proof (inv_size _ I) as Hs. cbn [pm] in Hs. rewrite Hs, Htot. done. }
  split_and!; [done|done|]. apply Hu; [lia|]. rewrite Hb, Hs. split.
  - exact sample_covered.
  - exact sample_unreserved.
Qed.

Lemma alloc_frame_correct_witness :
  fst (alloc_frame sample_pmm) = take_frame 5 sample_pmm
  /\ snd (alloc_frame sample_pmm) = Ok 20480
  /\ frame_used sample_pmm 5 = false
  /\ free_frames (pm (fst (alloc_frame sample_pmm))) = 14.
Proof.
  pose proof (alloc_frame_correct sample_pmm sample_inv) as H.
  assert (snd (alloc_frame sample_pmm) = Ok 20480) as E by (by vm_compute).
  destruct (alloc_frame sample_pmm) as [s' r] eqn:Ea. cbn [fst snd] in *. subst r.
  destruct H as (_ & _ & Hu & _ & Hf & _).
  split_and!; [|done|exact Hu|exact Hf].
  change s' with (fst (s', Ok (E:=MemoryError) 20480)). rewrite <- Ea. by vm_compute.
Defined.

Lemma free_frame_correct_witness :
  is_u64 16384 /\ is_ok (snd (free_frame 16384 sample_pmm)) = true
  /\ snd (free_frame 24576 sample_pmm) = Err err_double_free
  /\ pmm_inv (fst (free_frame 16384 sample_pmm)).
Proof.
  pose proof (free_frame_correct sample_pmm 16384 sample_inv ltac:(by vm_compute)) as H.
  assert (is_ok (snd (free_frame 16384 sample_pmm)) = true) as E by (by vm_compute).
  destruct (free_frame 16384 sample_pmm) as [s' [u|e]]; [|done].
  split; [by vm_compute|]. split; [done|]. split; [by vm_compute|]. apply H.
Defined.

Lemma alloc_in_zone_correct_witness :
  is_ok (snd (alloc_frame_in_zone Dma sample_pmm)) = true
  /\ pmm_inv (fst (alloc_frame_in_zone Dma sample_pmm)).
Proof.
  pose proof (alloc_in_zone_correct Dma sample_pmm sample_inv) as H.
  destruct (zone_frames (pm sample_pmm) Dma) as [zs ze].
  assert (is_ok (snd (alloc_frame_in_zone Dma sample_pmm)) = true) as E by (by vm_compute).
  destruct (alloc_frame_in_zone Dma sample_pmm) as [s' [a|e]]; [|done].
  split; [done|]. apply H.
Defined.

Lemma alloc_contiguous_first_fit_witness :
  exists s', alloc_frames_contiguous 4 None sample_pmm = Some (s', Ok 20480)
    /\ free_frames (pm s') = 11 /\ pmm_inv s'.
Proof.
  pose proof (alloc_contiguous_first_fit 4 None sample_pmm sample_inv ltac:(by vm_compute)) as H.
  assert (snd <$> alloc_frames_contiguous 4 None sample_pmm = Some (Ok 20480)) as E by (by vm_compute).
  destruct (contig_range None sample_pmm) as [lo hi].
  destruct (alloc_frames_contiguous 4 None sample_pmm) as [[s' [a|e]]|]; [|done|done].
  injection E as ->. exists s'. destruct H as (_ & _ & _ & _ & _ & _ & Hf & I).
  split_and!; [done|exact Hf|exact I].
Defined.

Lemma free_contiguous_prefix_witness :
  exists s', free_frames_contiguous 12288 2 sample_pmm = (s', Ok tt) /\ freed_prefix sample_pmm s' 3 2.
Proof.
  pose proof (free_contiguous_prefix 12288 2 sample_pmm sample_inv ltac:(by vm_compute)
    ltac:(by vm_compute)) as H.
  assert (is_ok (snd (free_frames_contiguous 12288 2 sample_pmm)) = true) as E by (by vm_compute).
  destruct (free_frames_contiguous 12288 2 sample_pmm) as [s' [[]|e]]; [|done].
  exists s'. split; [done|]. apply H.
Defined.

Lemma pmm_refines_frames_witness :
  exists s' rep, serve (RAllocContiguous 3 None) sample_pmm = Some (s', rep) /\ pmm_inv s'.
Proof.
  destruct (pmm_refines_frames (RAllocContiguous 3 None) sample_pmm sample_inv ltac:(by vm_compute))
    as (s' & rep & H & I & _).
  by exists s', rep.
Defined.

Lemma no_frame_granted_twice_witness :
  served sample_pmm [(RAlloc, Addr 20480)] (take_frame 5 sample_pmm)
  /\ held [(RAlloc, Addr 20480)] ⊆ used_set (take_frame 5 sample_pmm).
Proof.
  assert (served sample_pmm [(RAlloc, Addr 20480)] (take_frame 5 sample_pmm)) as Hs.
  { apply (served_cons _ _ _ (take_frame 5 sample_pmm)); [done|by vm_compute|apply served_nil]. }
  split; [done|]. exact (proj1 (no_frame_granted_twice _ _ _ sample_inv Hs)).
Defined.

Lemma pmm_init_correct_witness :
  exists p m', pmm_init sample_map None sample_map_bytes = (Some p, m', Ok tt)
    /\ bitmap p = 10485760 /\ pmm_inv (mkPst p m').
Proof.
  pose proof (pmm_init_correct sample_map_bytes sample_map None sample_good) as H.
  destruct (sample_init None) as (p & m' & E). exists p, m'. rewrite E in H.
  destruct H as (p' & [= <-] & Hr & I & _). split_and!; [done| |done].
  assert (init_region sample_map_bytes sample_map = Some 10485760) as Hc by (by vm_compute).
  rewrite Hc in Hr. congruence.
Defined.

Lemma withheld_never_granted_witness :
  exists p m' a s', pmm_init sample_map None sample_map_bytes = (Some p, m', Ok tt)
    /\ serve RAlloc (mkPst p m') = Some (s', Addr a)
    /\ ~ withheld sample_map_bytes sample_map p (a / PAGE_SIZE).
Proof.
  destruct (sample_init None) as (p & m' & E). destruct (sample_init_free _ _ _ E) as (I & Ht & Hfree).
  pose proof (alloc_frame_spec _ I) as H.
  destruct (alloc_frame (mkPst p m')) as [s' [a|e]] eqn:Ea.
  2:{ exfalso. destruct H as (_ & _ & H). rewrite H in Hfree; [done|]. cbn [pm]. lia. }
  destruct H as (f & Hf & _ & -> & _). exists p, m', (f * PAGE_SIZE), s'.
  assert (serve RAlloc (mkPst p m') = Some (s', Addr (f * PAGE_SIZE))) as Hs
    by (cbn [serve]; by rewrite Ea).
  split_and!; [done|done|].
  apply (withheld_never_granted _ _ None p m' [(RAlloc, Addr (f * PAGE_SIZE))] s' sample_good E)
    with (log1 := []) (r := RAlloc) (a := f * PAGE_SIZE) (log2 := []).
  - apply (served_cons _ _ _ s'); [done|done|apply served_nil].
  - intros addr Ha. apply list_elem_of_singleton in Ha. done.
  - done.
  - rewrite page_div. apply elem_of_frame_run. cbn [request_size]. lia.
  - by rewrite page_div.
Defined.

Lemma zone_alloc_fails_after_init_witness :
  exists p m', pmm_init sample_map None sample_map_bytes = (Some p, m', Ok tt)
    /\ alloc_frame_in_zone Dma (mkPst p m') = (mkPst p m', Err err_zone_empty)
    /\ frame_used (mkPst p m') 9000 = false.
Proof.
  destruct (sample_init None) as (p & m' & E). exists p, m'. split_and!; [done| |].
  - apply (zone_alloc_fails_after_init _ _ None p m' Dma sample_good E).
  - apply (sample_init_free _ _ _ E).
Defined.

Lemma percentages_exact_witness :
  0 < total_frames (pm sample_pmm) /\ memory_usage_percent sample_pmm = 25.
Proof.
  split; [by vm_compute|].
  destruct (percentages_exact sample_pmm sample_inv ltac:(by vm_compute)) as [-> _]. by vm_compute.
Defined.
