(* ===== verification/FrameAlloc.v ===== *)
(** The frame allocator as its clients see it.

    [FrameOps] has the operations the paging code calls: allocation through the
    C ABI (0 for failure) and as a Rust function (a [Result]), DMA32 allocation
    and release; [FrameLaws] what it relies on: an allocation fails with address 0 or
    hands out a fresh frame, a DMA32 one below 4 GiB, and a frame in use can be
    freed.  The instance discharges the laws from the bitmap manager. *)

From S2P Require Import Prelude E820 Pmm PmmFacts.

(** * Interface *)

Class FrameOps (A : Type) := {
  fa_alloc : A -> A * Z;
  fa_try_alloc : A -> A * option Z;
  fa_alloc_dma32 : A -> A * Z;
  fa_free : Z -> A -> A * bool;
}.

(** Physical addresses have 52 bits, so there are at most 2^40 frames. *)
Definition PHYS_FRAMES : Z := 2 ^ 40.

(** The effect of granting frame [f], in terms of the frames in use. *)
Definition granted {A} (used : A -> Z -> bool) (inv : A -> Prop) (a a' : A) (x : Z) : Prop :=
  exists f, 0 < f < PHYS_FRAMES /\ x = f * PAGE_SIZE /\ used a f = false
    /\ (forall g, used a' g = (g =? f) || used a g) /\ inv a'.

Class FrameLaws (A : Type) `{FrameOps A} := {
  fa_inv : A -> Prop;
  fa_used : A -> Z -> bool;
  fa_alloc_law : forall a a' x, fa_inv a -> fa_alloc a = (a', x) ->
    (x = 0 /\ a' = a) \/ granted fa_used fa_inv a a' x;
  fa_try_law : forall a a' r, fa_inv a -> fa_try_alloc a = (a', r) ->
    match r with Some x => granted fa_used fa_inv a a' x | None => a' = a end;
  fa_dma32_law : forall a a' x, fa_inv a -> fa_alloc_dma32 a = (a', x) ->
    (x = 0 /\ a' = a) \/ (x < U32 /\ granted fa_used fa_inv a a' x);
  fa_free_law : forall a f, fa_inv a -> 0 < f -> fa_used a f = true ->
    exists a', fa_free (f * PAGE_SIZE) a = (a', true) /\ fa_inv a'
      /\ forall g, fa_used a' g = negb (g =? f) && fa_used a g;
}.

(** * The bitmap manager *)

#[export] Instance pmm_frame_ops : FrameOps pmm_global := {
  fa_alloc := pmm_alloc_frame;
  fa_try_alloc := fun g =>
    let '(g', r) := alloc_frame_global g in
    (g', match r with Ok a => Some a | Err _ => None end);
  fa_alloc_dma32 := pmm_alloc_dma32_frame;
  fa_free := fun x g => let '(g', r) := free_frame_global x g in (g', is_ok r);
}.

(** Frame 0 is in use (low memory is reserved), so 0 is free to mean failure. *)
Definition pmm_good (g : pmm_global) : Prop :=
  match instance g with
  | Some p => pmm_inv (mkPst p (gbytes g)) /\ 0 < total_frames p <= PHYS_FRAMES
              /\ frame_used (mkPst p (gbytes g)) 0 = true
  | None => True
  end.

Definition pmm_frame_used (g : pmm_global) (f : Z) : bool :=
  match instance g with
  | Some p => (0 <=? f) && (f <? total_frames p) && frame_used (mkPst p (gbytes g)) f
  | None => false
  end.

Lemma release_total f s : total_frames (pm (release_frame f s)) = total_frames (pm s).
Proof. unfold release_frame. cbv zeta. by destruct (_ <? _). Qed.

(** A successful allocation, whichever operation made it. *)
Lemma pmm_granted p m s' f :
  pmm_good (mkGlobal (Some p) m) ->
  0 <= f < total_frames p -> frame_used (mkPst p m) f = false ->
  pmm_inv s' -> total_frames (pm s') = total_frames p ->
  (forall i, frame_used s' i = (i =? f) || frame_used (mkPst p m) i) ->
  granted pmm_frame_used pmm_good (mkGlobal (Some p) m) (mkGlobal (Some (pm s')) (bytes s'))
    (f * PAGE_SIZE).
Proof.
  intros (I & Ht & H0) Hf Hu I' Ht' Hus. cbn in I, Ht, H0.
  assert (0 <> f) by (intros <-; congruence). pose proof (inv_total _ I) as Hm. cbn [pm] in Hm.
  destruct s' as [p' m']. cbn [pm bytes] in *.
  exists f. split_and!; [lia|lia|done| | |].
  - unfold pmm_frame_used. cbn [instance gbytes]. rewrite Hu. by rewrite andb_false_r.
  - intros g. unfold pmm_frame_used. cbn [instance gbytes]. rewrite Ht', Hus.
    destruct (Z.eqb_spec g f) as [->|]; [|done]. lia.
  - unfold pmm_good. cbn [instance gbytes]. rewrite Ht', Hus, H0. split_and!; [done|lia|lia|lia].
Qed.

Lemma pmm_alloc_law g g' x : pmm_good g -> pmm_alloc_frame g = (g', x) ->
  (x = 0 /\ g' = g) \/ granted pmm_frame_used pmm_good g g' x.
Proof.
  destruct g as [[p|] m]; unfold pmm_alloc_frame, with_pmm, lift_addr; cbn [instance gbytes];
    [|intros _ [= <- <-]; by left].
  intros G. pose proof (alloc_frame_spec (mkPst p m) (proj1 G)) as H.
  destruct (alloc_frame (mkPst p m)) as [s' [a|e]]; intros [= <- <-].
  - right. destruct H as (f & Hf & Hu & -> & ->). apply pmm_granted; try done.
    + by apply take_frame_inv; [apply G|..].
    + intros. apply take_frame_used.
  - destruct H as (-> & _). by left.
Qed.

Lemma pmm_try_law g g' r : pmm_good g -> fa_try_alloc g = (g', r) ->
  match r with Some x => granted pmm_frame_used pmm_good g g' x | None => g' = g end.
Proof.
  intros G. cbn [fa_try_alloc pmm_frame_ops]. unfold alloc_frame_global.
  destruct g as [[p|] m]; unfold with_pmm; cbn [instance gbytes]; [|by intros [= <- <-]].
  pose proof (alloc_frame_spec (mkPst p m) (proj1 G)) as H.
  destruct (alloc_frame (mkPst p m)) as [s' [a|e]]; intros [= <- <-].
  - destruct H as (f & Hf & Hu & -> & ->). apply pmm_granted; try done.
    + by apply take_frame_inv; [apply G|..].
    + intros. apply take_frame_used.
  - destruct H as (-> & _). done.
Qed.

Lemma zone_grant_law z p m s' a :
  pmm_good (mkGlobal (Some p) m) -> alloc_frame_in_zone z (mkPst p m) = (s', Ok a) ->
  a < end_address z
  /\ granted pmm_frame_used pmm_good (mkGlobal (Some p) m) (mkGlobal (Some (pm s')) (bytes s')) a.
Proof.
  intros G E. pose proof (alloc_frame_in_zone_spec z (mkPst p m) (proj1 G)) as H. rewrite E in H.
  unfold zone_frames in H. destruct H as (f & Hz & Hf & Hu & -> & ->). split.
  - unfold PAGE_SIZE in *. cbn in Hz. dlia.
  - apply pmm_granted; try done.
    + by apply take_zone_frame_inv; [apply G|..].
    + intros. apply take_zone_frame_used.
Qed.

Lemma zone_refused z p m s' e :
  pmm_good (mkGlobal (Some p) m) -> alloc_frame_in_zone z (mkPst p m) = (s', Err e) -> s' = mkPst p m.
Proof.
  intros G E. pose proof (alloc_frame_in_zone_spec z (mkPst p m) (proj1 G)) as H. rewrite E in H.
  unfold zone_frames in H. by destruct H.
Qed.

Lemma pmm_dma32_law g g' x : pmm_good g -> pmm_alloc_dma32_frame g = (g', x) ->
  (x = 0 /\ g' = g) \/ (x < U32 /\ granted pmm_frame_used pmm_good g g' x).
Proof.
  destruct g as [[p|] m]; unfold pmm_alloc_dma32_frame, with_pmm, lift_addr; cbn [instance gbytes];
    [|intros _ [= <- <-]; by left].
  intros G. unfold alloc_dma32_frame.
  destruct (alloc_frame_in_zone Dma (mkPst p m)) as [s1 [a|e]] eqn:E1.
  { intros [= <- <-]. right. destruct (zone_grant_law _ _ _ _ _ G E1) as [Hlt H]. split; [|exact H].
    cbn in Hlt. unfold DMA_ZONE_END, U32 in *. lia. }
  apply zone_refused in E1; [|done]. subst s1.
  destruct (alloc_frame_in_zone Dma32 (mkPst p m)) as [s2 [a|e2]] eqn:E2; intros [= <- <-].
  - right. destruct (zone_grant_law _ _ _ _ _ G E2) as [Hlt H]. split; [|exact H].
    cbn in Hlt. unfold DMA32_ZONE_END, U32 in *. lia.
  - apply zone_refused in E2; [|done]. subst s2. by left.
Qed.

Lemma pmm_free_law g f : pmm_good g -> 0 < f -> pmm_frame_used g f = true ->
  exists g', fa_free (f * PAGE_SIZE) g = (g', true) /\ pmm_good g'
    /\ forall i, pmm_frame_used g' i = negb (i =? f) && pmm_frame_used g i.
Proof.
  destruct g as [[p|] m]; [|done]. intros (I & Ht & H0) Hf Hu. cbn in I, Ht, H0.
  unfold pmm_frame_used in Hu. cbn [instance gbytes] in Hu.
  rewrite !andb_true_iff, Z.ltb_lt in Hu. destruct Hu as [[_ Hlt] Hu].
  cbn [fa_free pmm_frame_ops]. unfold free_frame_global, with_pmm. cbn [instance gbytes].
  rewrite free_frame_page, Hu by (done || (cbn [pm]; lia)). eexists. split; [done|].
  pose proof (inv_byte _ f I ltac:(cbn [pm]; lia)) as Hb.
  split.
  - unfold pmm_good. cbn [instance gbytes]. rewrite release_total. cbn [pm].
    destruct (release_frame f (mkPst p m)) as [p' m'] eqn:Er. cbn [pm bytes]. rewrite <- Er.
    split_and!; [apply release_frame_inv; (done || (cbn [pm]; lia))|lia|lia|].
    rewrite release_frame_used, H0 by done. destruct (Z.eqb_spec 0 f); [lia|done].
  - intros i. unfold pmm_frame_used. cbn [instance gbytes]. rewrite release_total. cbn [pm].
    destruct (release_frame f (mkPst p m)) as [p' m'] eqn:Er. cbn [pm bytes].
    rewrite <- Er, release_frame_used by done.
    destruct (i =? f); cbn [negb andb]; [by rewrite andb_false_r|done].
Qed.

#[export] Instance pmm_frame_laws : FrameLaws pmm_global := {
  fa_inv := pmm_good;
  fa_used := pmm_frame_used;
  fa_alloc_law := pmm_alloc_law;
  fa_try_law := pmm_try_law;
  fa_dma32_law := pmm_dma32_law;
  fa_free_law := pmm_free_law;
}.
