(* ===== verification/Paging.v ===== *)
(** Paging: [memory/paging.rs].

    Page tables live in a store of 64-bit words keyed by physical address.  The
    walk over the levels, which the code spells out once per paging mode, is a
    recursion over the list of levels of the mode; entries are read, created,
    set and cleared in the order of the code.  The frame allocator is the
    interface of [FrameAlloc]; CPUID is a parameter; CR3, CR4 and the
    invalidated addresses are fields of the state.  Dereferencing the null
    pointer that [phys_to_virt] returns beyond 4 GiB is undefined behaviour. *)

From S2P Require Import Prelude FrameAlloc.

(** * Constants *)

Definition PAGING_PAGE_SIZE : Z := 4096.
Definition PAGE_SIZE_2MB : Z := 2 * 1024 * 1024.
Definition PAGE_SIZE_1GB : Z := 1024 * 1024 * 1024.
Definition PAGE_TABLE_ENTRIES : Z := 512.
Definition LA48_VIRT_ADDR_BITS : Z := 48.
Definition LA57_VIRT_ADDR_BITS : Z := 57.
Definition LA48_VIRT_ADDR_SIZE : Z := Z.shiftl 1 LA48_VIRT_ADDR_BITS.
Definition LA57_VIRT_ADDR_SIZE : Z := Z.shiftl 1 LA57_VIRT_ADDR_BITS.

(** * Flags and entries: words of 64 bits *)

Definition PRESENT : Z := bit 0.
Definition WRITABLE : Z := bit 1.
Definition USER : Z := bit 2.
Definition WRITE_THROUGH : Z := bit 3.
Definition CACHE_DISABLE : Z := bit 4.
Definition ACCESSED : Z := bit 5.
Definition DIRTY : Z := bit 6.
Definition HUGE_PAGE : Z := bit 7.
Definition GLOBAL : Z := bit 8.
Definition PAT_FLAG : Z := bit 7.
Definition NO_EXECUTE : Z := bit 63.

Definition flags_contains (f flag : Z) : bool := negb (Z.land f flag =? 0).
Definition flags_set (f flag : Z) : Z := Z.lor f flag.
Definition flags_clear (f flag : Z) : Z := Z.land f (not64 flag).
Definition kernel : Z := Z.lor (Z.lor PRESENT WRITABLE) GLOBAL.
Definition user : Z := Z.lor (Z.lor PRESENT WRITABLE) USER.
Definition kernel_readonly : Z := Z.lor PRESENT GLOBAL.
Definition user_readonly : Z := Z.lor PRESENT USER.
Definition kernel_with_memory_type (pat_flags : Z) : Z := Z.lor kernel pat_flags.
Definition user_with_memory_type (pat_flags : Z) : Z := Z.lor user pat_flags.
Definition kernel_uncacheable : Z := Z.lor kernel CACHE_DISABLE.
Definition kernel_write_combining : Z := Z.lor (Z.lor kernel WRITE_THROUGH) PAT_FLAG.

Definition ADDR_MASK : Z := 4503599627366400.  (* 0x000F_FFFF_FFFF_F000 *)

Definition is_present (e : Z) : bool := negb (Z.land e PRESENT =? 0).
Definition is_huge (e : Z) : bool := negb (Z.land e HUGE_PAGE =? 0).
Definition pte_address (e : Z) : Z := Z.land e ADDR_MASK.
Definition pte_flags (e : Z) : Z := Z.land e 4095.
Definition pte_set (addr flags : Z) : Z := Z.lor (Z.land addr ADDR_MASK) flags.

(** * Virtual addresses *)

Definition pml5_index (v : Z) : Z := Z.land (Z.shiftr v 48) 511.
Definition pml4_index (v : Z) : Z := Z.land (Z.shiftr v 39) 511.
Definition pdpt_index (v : Z) : Z := Z.land (Z.shiftr v 30) 511.
Definition pd_index (v : Z) : Z := Z.land (Z.shiftr v 21) 511.
Definition pt_index (v : Z) : Z := Z.land (Z.shiftr v 12) 511.
Definition page_offset (v : Z) : Z := Z.land v 4095.

Definition is_canonical_la48 (v : Z) : bool :=
  let upper_bits := Z.shiftr v 48 in (upper_bits =? 0) || (upper_bits =? 65535).
Definition is_canonical_la57 (v : Z) : bool :=
  let upper_bits := Z.shiftr v 57 in (upper_bits =? 0) || (upper_bits =? 127).

(** * Physical addresses *)

Definition is_aligned (p : Z) : bool := Z.land p 4095 =? 0.
Definition align_down (p : Z) : Z := Z.land p (not64 4095).
Definition align_up (p : Z) : Z := Z.land (p +w 4095) (not64 4095).

(** * State *)

Inductive PagingMode : Type := FourLevel | FiveLevel.

#[export] Instance PagingMode_eq_dec : EqDecision PagingMode.
Proof. solve_decision. Defined.

Record PagingManager := mkPagingManager {
  mode : PagingMode;
  root_table_phys : Z;
  la57_supported : bool;
  nx_supported : bool;
}.
Definition PagingManager_new : PagingManager := mkPagingManager FourLevel 0 false false.

Record CpuidResult := mkCpuidResult { eax : Z; ebx : Z; ecx : Z; edx : Z }.

(** The levels whose entries point to tables, and the leaf table. *)
Inductive PtLevel : Type := PML5 | PML4 | PDPT | PD | PT.

#[export] Instance PtLevel_eq_dec : EqDecision PtLevel.
Proof. solve_decision. Defined.

Definition level_index (l : PtLevel) (v : Z) : Z :=
  match l with
  | PML5 => pml5_index v | PML4 => pml4_index v | PDPT => pdpt_index v
  | PD => pd_index v | PT => pt_index v
  end.

Definition not_mapped (l : PtLevel) : string :=
  match l with
  | PML5 => "Page not mapped (PML5)" | PML4 => "Page not mapped (PML4)"
  | PDPT => "Page not mapped (PDPT)" | PD => "Page not mapped (PD)"
  | PT => "Page not mapped (PT)"
  end.

Definition mode_levels (m : PagingMode) : list PtLevel :=
  match m with FiveLevel => [PML5; PML4; PDPT; PD] | FourLevel => [PML4; PDPT; PD] end.

(** The levels at which [translate_address] and [get_page_flags] look at the
    huge bit, with the offset mask of the page. *)
Definition huge_mask (l : PtLevel) : option Z :=
  match l with PDPT => Some 1073741823 | PD => Some 2097151 | _ => None end.

(** [palloc] is the frame allocator, [tlb] the addresses passed to [invlpg],
    latest first. *)
Record paging_state (A : Type) := mkPaging {
  palloc : A;
  pmem : store;
  pmgr : option PagingManager;
  cr3 : Z;
  cr4 : Z;
  tlb : list Z;
}.
Arguments mkPaging {A}.
Arguments palloc {A}.
Arguments pmem {A}.
Arguments pmgr {A}.
Arguments cr3 {A}.
Arguments cr4 {A}.
Arguments tlb {A}.

Section Paging.
Context {A : Type} `{FrameOps A}.
Context (cpuid : Z -> Z -> CpuidResult).
Notation pst := (paging_state A).

Definition set_alloc (a : A) (s : pst) : pst :=
  mkPaging a (pmem s) (pmgr s) (cr3 s) (cr4 s) (tlb s).
Definition set_mem (m : store) (s : pst) : pst :=
  mkPaging (palloc s) m (pmgr s) (cr3 s) (cr4 s) (tlb s).
Definition set_mgr (m : option PagingManager) (s : pst) : pst :=
  mkPaging (palloc s) (pmem s) m (cr3 s) (cr4 s) (tlb s).

(** * CPU features and control registers *)

Definition check_la57_support : bool := negb (Z.land (ecx (cpuid 7 0)) (bit 16) =? 0).
Definition check_nx_support : bool := negb (Z.land (edx (cpuid 2147483649 0)) (bit 20) =? 0).

Definition read_cr3 (s : pst) : Z := cr3 s.
Definition write_cr3 (v : Z) (s : pst) : pst :=
  mkPaging (palloc s) (pmem s) (pmgr s) v (cr4 s) (tlb s).
Definition read_cr4 (s : pst) : Z := cr4 s.
Definition write_cr4 (v : Z) (s : pst) : pst :=
  mkPaging (palloc s) (pmem s) (pmgr s) (cr3 s) v (tlb s).

Definition enable_la57 : prog pst unit :=
  if negb check_la57_support then throw "LA57 not supported by CPU"
  else modify (fun s => write_cr4 (Z.lor (read_cr4 s) (bit 12)) s).
Definition disable_la57 (s : pst) : pst := write_cr4 (Z.land (read_cr4 s) (not64 (bit 12))) s.
Definition is_la57_enabled (s : pst) : bool := negb (Z.land (read_cr4 s) (bit 12) =? 0).

Definition invlpg (v : Z) (s : pst) : pst :=
  mkPaging (palloc s) (pmem s) (pmgr s) (cr3 s) (cr4 s) (v :: tlb s).
Definition flush_tlb (s : pst) : pst := write_cr3 (read_cr3 s) s.

Definition paging_init (root : Z) : prog pst unit :=
  modify (fun s =>
    let m := if is_la57_enabled s then FiveLevel else FourLevel in
    set_mgr (Some (mkPagingManager m (Z.land root (not64 4095)) check_la57_support check_nx_support)) s).

(** [get_paging_manager().ok_or(..)?]. *)
Definition get_paging_manager : prog pst PagingManager :=
  fun s => match pmgr s with
           | Some m => Some (s, Ok m)
           | None => Some (s, Err "Paging not initialized")
           end.

(** * Access to the tables *)

Definition phys_to_virt (phys_addr : Z) : Z := if U32 <=? phys_addr then 0 else phys_addr.

(** The address of [entries[index]] of a table. *)
Definition entry_ptr (table_phys idx : Z) : prog pst Z :=
  let p := phys_to_virt table_phys in
  if p =? 0 then undefined else mret (p + 8 * idx).

Definition load_entry (ptr : Z) : prog pst Z := gets (fun s => rd (pmem s) ptr).
Definition store_entry (ptr v : Z) : prog pst unit :=
  modify (fun s => set_mem (wr (pmem s) ptr v) s).

(** [write_bytes(table_ptr, 0, 512)] on [u64]s. *)
Definition zero_table (t : Z) (m : store) : store :=
  for_loop 0 PAGE_TABLE_ENTRIES (fun i m => wr m (t + 8 * i) 0) m.

Definition alloc_page_table : prog pst Z :=
  fun s =>
    let '(a, addr) := fa_alloc_dma32 (palloc s) in
    let '(a, addr) := if addr =? 0 then fa_alloc a else (a, addr) in
    let s := set_alloc a s in
    if addr =? 0 then Some (s, Err "Failed to allocate page table frame")
    else
      let table_ptr := phys_to_virt addr in
      if table_ptr =? 0 then
        Some (s, Err "Page table frame not identity-mapped (<4 GiB required)")
      else Some (set_mem (zero_table table_ptr (pmem s)) s, Ok addr).

Definition free_page_table (addr : Z) : prog pst unit :=
  fun s =>
    let '(a, ok) := fa_free addr (palloc s) in
    Some (set_alloc a s, if ok then Ok tt else Err "Failed to free page table frame").

(** Flags of an intermediate entry. *)
Definition table_flags (flags : Z) : Z :=
  let f := flags_set (flags_set 0 PRESENT) WRITABLE in
  if flags_contains flags USER then flags_set f USER else f.

Definition get_or_create_next_level (ptr flags : Z) : prog pst Z :=
  e ← load_entry ptr;
  if is_present e then mret (pte_address e)
  else
    new_table_addr ← alloc_page_table;
    store_entry ptr (pte_set new_table_addr (table_flags flags)) ;;
    mret new_table_addr.

Definition is_page_table_empty (table_phys : Z) : prog pst bool :=
  ptr ← entry_ptr table_phys 0;
  gets (fun s => match find_loop 0 PAGE_TABLE_ENTRIES (fun i =>
                         if negb (rd (pmem s) (ptr + 8 * i) =? 0) then Some tt else None) with
                 | Some _ => false
                 | None => true
                 end).

(** * Mapping *)

Definition check_canonical (m : PagingMode) (v : Z) : prog pst unit :=
  match m with
  | FourLevel => if is_canonical_la48 v then mret tt
                 else throw "Virtual address not canonical for LA48"
  | FiveLevel => if is_canonical_la57 v then mret tt
                 else throw "Virtual address not canonical for LA57"
  end.

(** From [table], through the levels [ls], creating what is missing. *)
Fixpoint walk_create (ls : list PtLevel) (table v flags : Z) : prog pst Z :=
  match ls with
  | [] => mret table
  | l :: ls' =>
      ptr ← entry_ptr table (level_index l v);
      next ← get_or_create_next_level ptr flags;
      walk_create ls' next v flags
  end.

Definition map_page (v p flags : Z) : prog pst unit :=
  manager ← get_paging_manager;
  if negb (is_aligned p) then throw "Physical address not page-aligned"
  else
    check_canonical (mode manager) v ;;
    pt ← walk_create (mode_levels (mode manager)) (root_table_phys manager) v flags;
    ptr ← entry_ptr pt (pt_index v);
    store_entry ptr (pte_set p flags) ;;
    modify (invlpg v).

(** * Unmapping *)

(** Down to the leaf, clearing its entry, then bottom-up: the answer is whether
    the table walked from may have become empty. *)
Fixpoint unmap_walk (ls : list PtLevel) (table v : Z) (free_empty : bool) : prog pst bool :=
  match ls with
  | [] =>
      ptr ← entry_ptr table (pt_index v);
      e ← load_entry ptr;
      if negb (is_present e) then throw (not_mapped PT)
      else store_entry ptr 0 ;; mret free_empty
  | l :: ls' =>
      ptr ← entry_ptr table (level_index l v);
      e ← load_entry ptr;
      if negb (is_present e) then throw (not_mapped l)
      else
        let next := pte_address e in
        candidate ← unmap_walk ls' next v free_empty;
        if (candidate : bool) then
          empty ← is_page_table_empty next;
          if (empty : bool) then
            store_entry ptr 0 ;;
            free_page_table next ;;
            mret true
          else mret false
        else mret false
  end.

Definition unmap_page_internal (v : Z) (free_empty : bool) : prog pst unit :=
  manager ← get_paging_manager;
  check_canonical (mode manager) v ;;
  unmap_walk (mode_levels (mode manager)) (root_table_phys manager) v free_empty ;;
  modify (invlpg v).

Definition unmap_page (v : Z) : prog pst unit := unmap_page_internal v true.

(** * Reading the tables *)

(** The entry that decides the translation: a huge one, with its offset mask,
    or the leaf of a 4 KiB page. *)
Inductive leaf_entry : Type :=
| HugeLeaf (mask e : Z)
| PageLeaf (e : Z).

Fixpoint walk_leaf (ls : list PtLevel) (table v : Z) : prog pst leaf_entry :=
  match ls with
  | [] =>
      ptr ← entry_ptr table (pt_index v);
      e ← load_entry ptr;
      if negb (is_present e) then throw (not_mapped PT) else mret (PageLeaf e)
  | l :: ls' =>
      ptr ← entry_ptr table (level_index l v);
      e ← load_entry ptr;
      if negb (is_present e) then throw (not_mapped l)
      else
        match huge_mask l with
        | Some mask => if is_huge e then mret (HugeLeaf mask e)
                       else walk_leaf ls' (pte_address e) v
        | None => walk_leaf ls' (pte_address e) v
        end
  end.

Definition leaf_phys (v : Z) (l : leaf_entry) : Z :=
  match l with
  | HugeLeaf mask e => Z.lor (Z.land (pte_address e) (not64 mask)) (Z.land v mask)
  | PageLeaf e => Z.lor (pte_address e) (page_offset v)
  end.

Definition leaf_flags (l : leaf_entry) : Z :=
  match l with HugeLeaf _ e => pte_flags e | PageLeaf e => pte_flags e end.

Definition find_leaf (v : Z) : prog pst leaf_entry :=
  manager ← get_paging_manager;
  check_canonical (mode manager) v ;;
  walk_leaf (mode_levels (mode manager)) (root_table_phys manager) v.

Definition translate_address (v : Z) : prog pst Z :=
  l ← find_leaf v; mret (leaf_phys v l).

Definition get_page_flags (v : Z) : prog pst Z :=
  l ← find_leaf v; mret (leaf_flags l).

(** * Ranges *)

(** [while addr < end { map_page(addr, addr)?; addr += PAGE_SIZE }]; [n] bounds
    the number of pages. *)
Fixpoint identity_map_loop (n : nat) (addr end_ flags : Z) : prog pst unit :=
  match n with
  | O => if addr <? end_ then undefined else mret tt
  | S n' =>
      if addr <? end_ then
        map_page addr addr flags ;;
        identity_map_loop n' (addr +w PAGING_PAGE_SIZE) end_ flags
      else mret tt
  end.

Definition identity_map_range (start_phys end_phys flags : Z) : prog pst unit :=
  manager ← get_paging_manager;
  let start := align_down start_phys in
  let end_ := align_up end_phys in
  identity_map_loop (Z.to_nat ((end_ - start) / PAGING_PAGE_SIZE + 1)) start end_ flags.

Definition page_count (size : Z) : Z := (size +w PAGING_PAGE_SIZE -w 1) / PAGING_PAGE_SIZE.

Definition map_range (virt_start phys_start size flags : Z) : prog pst unit :=
  prog_for (Z.to_nat (page_count size)) 0 (fun i =>
    map_page (virt_start +w i *w PAGING_PAGE_SIZE) (phys_start +w i *w PAGING_PAGE_SIZE) flags).

Definition unmap_range (virt_start size : Z) : prog pst unit :=
  prog_for (Z.to_nat (page_count size)) 0 (fun i =>
    unmap_page (virt_start +w i *w PAGING_PAGE_SIZE)).

(** * Remapping *)

(** The walk of [remap_page]: it looks at no huge bit. *)
Fixpoint walk_to_pt (ls : list PtLevel) (table v : Z) : prog pst Z :=
  match ls with
  | [] =>
      ptr ← entry_ptr table (pt_index v);
      e ← load_entry ptr;
      if negb (is_present e) then throw (not_mapped PT) else mret ptr
  | l :: ls' =>
      ptr ← entry_ptr table (level_index l v);
      e ← load_entry ptr;
      if negb (is_present e) then throw (not_mapped l) else walk_to_pt ls' (pte_address e) v
  end.

Definition remap_page (v new_phys_addr flags : Z) : prog pst unit :=
  manager ← get_paging_manager;
  if negb (is_aligned new_phys_addr) then throw "Physical address not page-aligned"
  else
    ptr ← walk_to_pt (mode_levels (mode manager)) (root_table_phys manager) v;
    store_entry ptr (pte_set new_phys_addr flags) ;;
    modify (invlpg v).

Definition change_page_flags (v new_flags : Z) : prog pst unit :=
  phys_addr ← translate_address v;
  remap_page v phys_addr new_flags.

Definition get_current_page_table (s : pst) : Z := Z.land (read_cr3 s) ADDR_MASK.
Definition switch_page_table (new_root : Z) (s : pst) : pst := write_cr3 new_root s.

(** * C interface *)

(** [match p() { Ok(_) => 0, Err(_) => -1 }]; no error escapes. *)
Definition c_result {X} (p : prog pst X) (s : pst) : option (pst * Z) :=
  match p s with
  | Some (s', Ok _) => Some (s', 0)
  | Some (s', Err _) => Some (s', -1)
  | None => None
  end.

Definition paging_check_la57_support : Z := if check_la57_support then 1 else 0.
Definition paging_check_nx_support : Z := if check_nx_support then 1 else 0.
Definition paging_is_la57_enabled (s : pst) : Z := if is_la57_enabled s then 1 else 0.
Definition paging_read_cr3 (s : pst) : Z := read_cr3 s.
Definition paging_init_c (root : Z) : pst -> option (pst * Z) := c_result (paging_init root).
Definition paging_get_mode (s : pst) : Z :=
  match pmgr s with
  | Some mgr => match mode mgr with FourLevel => 0 | FiveLevel => 1 end
  | None => -1
  end.
Definition paging_invlpg (v : Z) (s : pst) : pst := invlpg v s.
Definition paging_flush_tlb (s : pst) : pst := flush_tlb s.
Definition paging_map_page (v p flags : Z) : pst -> option (pst * Z) :=
  c_result (map_page v p (flags_set flags PRESENT)).
Definition paging_unmap_page (v : Z) : pst -> option (pst * Z) := c_result (unmap_page v).
Definition paging_translate_address (v : Z) (s : pst) : option (pst * Z) :=
  match translate_address v s with
  | Some (s', r) => Some (s', unwrap_or r 0)
  | None => None
  end.
Definition paging_is_mapped (v : Z) (s : pst) : option (pst * Z) :=
  match translate_address v s with
  | Some (s', r) => Some (s', if is_ok r then 1 else 0)
  | None => None
  end.
Definition paging_identity_map_range (start_phys end_phys flags : Z) : pst -> option (pst * Z) :=
  c_result (identity_map_range start_phys end_phys flags).
End Paging.
