(* ===== verification/PagingFacts.v ===== *)
(** Paging: well-formed page tables and how the operations change them.

    [pt_wf T] types the tables: [T] maps the physical address of every table to
    the list of indices that leads to it.  Creating a missing table, writing a
    leaf entry and removing an empty table each keep it and have one lemma about
    the lookup [leaf]; the operations of [Paging] are sequences of them. *)

From S2P Require Import Prelude FrameAlloc Paging.

(** * The typing of tables *)

Definition entry (m : store) (t i : Z) : Z := rd m (t + 8 * i).

Definition huge_at (l : PtLevel) (e : Z) : bool :=
  match huge_mask l with Some _ => is_huge e | None => false end.

Record pt_wf (T : gmap Z (list Z)) (LS : list PtLevel) (root : Z) (m : store) : Prop := {
  wf_root : T !! root = Some [];
  wf_inj : forall a b p, T !! a = Some p -> T !! b = Some p -> a = b;
  wf_addr : forall a p, T !! a = Some p -> 0 < a < U32 /\ a mod 4096 = 0;
  wf_child : forall a p l i, T !! a = Some p -> LS !! List.length p = Some l -> 0 <= i < 512 ->
    is_present (entry m a i) = true -> huge_at l (entry m a i) = false ->
    T !! pte_address (entry m a i) = Some (p ++ [i]);
  wf_parent : forall b p i, T !! b = Some (p ++ [i]) ->
    exists a l, T !! a = Some p /\ LS !! List.length p = Some l /\ 0 <= i < 512
      /\ is_present (entry m a i) = true /\ huge_at l (entry m a i) = false
      /\ pte_address (entry m a i) = b;
}.

(** The lookup as a function of the memory. *)
Fixpoint leaf (m : store) (ls : list PtLevel) (t v : Z) : option leaf_entry :=
  match ls with
  | [] => let e := entry m t (pt_index v) in if is_present e then Some (PageLeaf e) else None
  | l :: ls' =>
      let e := entry m t (level_index l v) in
      if is_present e then
        if huge_at l e then
          match huge_mask l with Some mask => Some (HugeLeaf mask e) | None => None end
        else leaf m ls' (pte_address e) v
      else None
  end.

(** The indices of [v] at the levels [ls]. *)
Definition idxs (ls : list PtLevel) (v : Z) : list Z := (fun l => level_index l v) <$> ls.

(** Two addresses on the same page, for the hardware and the code. *)
Definition page_path (ls : list PtLevel) (v : Z) : list Z := idxs (ls ++ [PT]) v.

Definition not_huge (o : option leaf_entry) : Prop := forall mask e, o <> Some (HugeLeaf mask e).

(** ** Words *)

Lemma level_index_range l v : 0 <= level_index l v < 512.
Proof.
  destruct l; cbn; unfold pml5_index, pml4_index, pdpt_index, pd_index, pt_index;
    rewrite index9 by lia; apply Z.mod_pos_bound; lia.
Qed.

Lemma addr_mask_spec x : 0 <= x -> Z.land x ADDR_MASK = (x / 4096) mod 2 ^ 40 * 4096.
Proof.
  intros Hx. change ADDR_MASK with (Z.shiftl (Z.ones 40) 12).
  rewrite <- Z.land_ones by lia. change 4096 with (2 ^ 12).
  rewrite <- Z.shiftl_mul_pow2, <- Z.shiftr_div_pow2 by lia.
  apply Z.bits_inj'. intros i Hi. rewrite Z.land_spec, !Z.shiftl_spec, Z.land_spec by lia.
  destruct (Z.lt_ge_cases i 12).
  - rewrite !(Z.testbit_neg_r _ (i - 12)) by lia. by rewrite andb_false_r.
  - rewrite Z.shiftr_spec by lia. by replace (i - 12 + 12) with i by lia.
Qed.

Lemma addr_mask_aligned x : 0 <= x < 2 ^ 52 -> x mod 4096 = 0 -> Z.land x ADDR_MASK = x.
Proof.
  intros Hx Hm. rewrite addr_mask_spec by lia. rewrite Z.mod_small; [dlia|].
  split; [apply Z.div_pos; lia|]. apply Z.div_lt_upper_bound; lia.
Qed.

Lemma pte_address_aligned e : 0 <= e -> pte_address e mod 4096 = 0.
Proof. intros. unfold pte_address. rewrite addr_mask_spec by done. apply Z.mod_mul. lia. Qed.

(** A physical address and flags that do not overlap. *)
Definition flags_ok (flags : Z) : Prop := 0 <= flags /\ Z.land flags ADDR_MASK = 0.

Lemma pte_set_address p flags :
  0 <= p < 2 ^ 52 -> p mod 4096 = 0 -> flags_ok flags -> pte_address (pte_set p flags) = p.
Proof.
  intros Hp Hm [_ Hf]. unfold pte_address, pte_set. rewrite Z.land_lor_distr_l, Hf, Z.lor_0_r.
  by rewrite !addr_mask_aligned by (rewrite ?addr_mask_aligned; done).
Qed.

Lemma pte_set_present p flags :
  is_present flags = true -> is_present (pte_set p flags) = true.
Proof.
  unfold is_present, pte_set, PRESENT. rewrite !land_bit_zero by lia. rewrite !negb_involutive.
  intros H. by rewrite Z.lor_spec, H, orb_true_r.
Qed.

Lemma table_flags_cases f : table_flags f = 3 \/ table_flags f = 7.
Proof. unfold table_flags. destruct (flags_contains f USER); [right|left]; done. Qed.

(** The entry that points to a fresh table. *)
Lemma table_entry b f :
  0 < b < U32 -> b mod 4096 = 0 ->
  is_present (pte_set b (table_flags f)) = true
  /\ is_huge (pte_set b (table_flags f)) = false
  /\ pte_address (pte_set b (table_flags f)) = b.
Proof.
  intros Hb Hm. unfold U32 in Hb. split_and!.
  - apply pte_set_present. by destruct (table_flags_cases f) as [->| ->].
  - unfold is_huge, pte_set, HUGE_PAGE. rewrite land_bit_zero by lia. rewrite negb_involutive.
    rewrite addr_mask_aligned by (done || lia). rewrite Z.lor_spec.
    assert (Z.testbit b 7 = false) as ->.
    { rewrite <- (Z.mod_pow2_bits_low b 12 7) by lia. change (2 ^ 12) with 4096. by rewrite Hm. }
    by destruct (table_flags_cases f) as [->| ->].
  - apply pte_set_address; [lia|done|]. destruct (table_flags_cases f) as [->| ->]; done.
Qed.

(** ** Memory of tables *)

Lemma zero_table_spec t m :
  (forall i, 0 <= i < 512 -> entry (zero_table t m) t i = 0)
  /\ (forall a, ~ (t <= a < t + 4096) -> rd (zero_table t m) a = rd m a).
Proof.
  unfold zero_table, entry, PAGE_TABLE_ENTRIES.
  set (body := fun i (m : store) => _).
  pose (P := fun n (m' : store) => (forall i, 0 <= i < n -> rd m' (t + 8 * i) = 0)
    /\ forall a, ~ (t <= a < t + 4096) -> rd m' a = rd m a).
  enough (P (Z.max 0 512) (for_loop 0 512 body m)) as H by exact H.
  apply for_loop_ind; [split; [intros; lia|done]|].
  intros i m' Hi [H1 H2]. subst body. split; cbv beta.
  - intros j Hj. rewrite rd_wr. case_decide; [done|]. apply H1. lia.
  - intros a Ha. rewrite rd_wr_ne by lia. by apply H2.
Qed.

(** Tables at distinct page-aligned addresses do not overlap. *)
Lemma tables_disjoint a b i j :
  a mod 4096 = 0 -> b mod 4096 = 0 -> 0 <= i < 512 -> 0 <= j < 512 ->
  a + 8 * i = b + 8 * j -> a = b /\ i = j.
Proof. intros. assert (a = b) by dlia. subst. lia. Qed.

Lemma entry_wr m a i b j v :
  a mod 4096 = 0 -> b mod 4096 = 0 -> 0 <= i < 512 -> 0 <= j < 512 ->
  entry (wr m (a + 8 * i) v) b j = if decide (a = b /\ i = j) then v else entry m b j.
Proof.
  intros. unfold entry. rewrite rd_wr. case_decide as E1; case_decide as E2; try done.
  - apply tables_disjoint in E1; done.
  - destruct E2 as [-> ->]. done.
Qed.

Lemma entry_zero_other t m a i :
  a mod 4096 = 0 -> t mod 4096 = 0 -> 0 <= i < 512 -> a <> t ->
  entry (zero_table t m) a i = entry m a i.
Proof. intros. unfold entry. apply zero_table_spec. dlia. Qed.

(** ** The lookup *)

Lemma zero_not_present : is_present 0 = false.
Proof. done. Qed.

Lemma leaf_zero m ls t v :
  (forall i, 0 <= i < 512 -> entry m t i = 0) -> leaf m ls t v = None.
Proof.
  intros Hz. destruct ls as [|l ls]; cbn [leaf]; rewrite Hz by
    (apply (level_index_range PT) || apply level_index_range); done.
Qed.

Lemma lookup_app_head {X} (l1 l2 : list X) x : (l1 ++ x :: l2) !! List.length l1 = Some x.
Proof. rewrite lookup_app_r by lia. by rewrite Nat.sub_diag. Qed.

(** The lookup depends on the indices only. *)
Lemma leaf_same_path m ls t v v' :
  page_path ls v = page_path ls v' -> leaf m ls t v = leaf m ls t v'.
Proof.
  revert t. induction ls as [|l ls IH]; intros t E; cbn in E |- *.
  - by injection E as ->.
  - injection E as -> E. destruct (is_present _); [|done]. destruct (huge_at _ _); [done|]. by apply IH.
Qed.

Section Wf.
Context (LS : list PtLevel) (root : Z).
Notation wf T m := (pt_wf T LS root m).

(** [t] is the table of the prefix [p], and [ls] are the levels below it. *)
Definition at_level (T : gmap Z (list Z)) (t : Z) (p : list Z) (ls : list PtLevel) : Prop :=
  T !! t = Some p /\ exists ls1, LS = ls1 ++ ls /\ List.length ls1 = List.length p.

Lemma at_root T m : wf T m -> at_level T root [] LS.
Proof. intros W. split; [apply (wf_root _ _ _ _ W)|]. by exists []. Qed.

Lemma at_level_head T t p l ls : at_level T t p (l :: ls) -> LS !! List.length p = Some l.
Proof. intros (_ & ls1 & -> & <-). apply lookup_app_head. Qed.

Lemma at_level_below T t p l ls t' i :
  at_level T t p (l :: ls) -> T !! t' = Some (p ++ [i]) -> at_level T t' (p ++ [i]) ls.
Proof.
  intros (_ & ls1 & -> & Hl) Ht. split; [done|]. exists (ls1 ++ [l]).
  rewrite <- app_assoc, !length_app, Hl. done.
Qed.

Lemma at_level_leaf T t p : at_level T t p [] -> LS !! List.length p = None.
Proof.
  intros (_ & ls1 & -> & <-). rewrite app_nil_r. apply lookup_ge_None. lia.
Qed.

(** Below a present, non-huge entry is its child. *)
Lemma at_level_child T m t p l ls v :
  wf T m -> at_level T t p (l :: ls) ->
  let e := entry m t (level_index l v) in
  is_present e = true -> huge_at l e = false ->
  at_level T (pte_address e) (p ++ [level_index l v]) ls.
Proof.
  intros W Hat e Hp Hh. eapply at_level_below; [done|].
  eapply (wf_child _ _ _ _ W); [apply Hat|by eapply at_level_head|apply level_index_range|done|done].
Qed.

Lemma wf_aligned T m a p : wf T m -> T !! a = Some p -> a mod 4096 = 0.
Proof. intros W H. by apply (wf_addr _ _ _ _ W) in H as [_ ?]. Qed.

(** Every prefix of a table's path has its table. *)
Lemma wf_prefix T m b p q : wf T m -> T !! b = Some (p ++ q) -> exists a, T !! a = Some p.
Proof.
  intros W. revert b. induction q as [|i q IH] using rev_ind; intros b Hb.
  { rewrite app_nil_r in Hb. by exists b. }
  rewrite app_assoc in Hb. destruct (wf_parent _ _ _ _ W _ _ _ Hb) as (a & _ & Ha & _).
  by apply (IH a).
Qed.

(** The lookup ends in the table of the full path, when there is one. *)
Lemma leaf_at T m pt v ls : wf T m -> forall t p, at_level T t p ls ->
  T !! pt = Some (p ++ idxs ls v) ->
  leaf m ls t v
  = let e := entry m pt (pt_index v) in if is_present e then Some (PageLeaf e) else None.
Proof.
  intros W. induction ls as [|l ls IH]; intros t p Hat Hpt; cbn [leaf].
  - cbn in Hpt. rewrite app_nil_r in Hpt. destruct Hat as [Ht _].
    by rewrite (wf_inj _ _ _ _ W _ _ _ Hpt Ht).
  - cbn [idxs fmap list_fmap] in Hpt. change (level_index l v :: _) with
      ([level_index l v] ++ idxs ls v) in Hpt. rewrite app_assoc in Hpt.
    destruct (wf_prefix _ _ _ _ _ W Hpt) as [c Hc].
    destruct (wf_parent _ _ _ _ W _ _ _ Hc) as (a & l' & Ha & Hl & Hi & Hp & Hh & Hadr).
    destruct Hat as [Ht Hls]. pose proof (wf_inj _ _ _ _ W _ _ _ Ha Ht) as ->.
    rewrite (at_level_head T t p l ls (conj Ht Hls)) in Hl. injection Hl as <-.
    rewrite Hp, Hh, Hadr. eapply IH; [|exact Hpt].
    by apply (at_level_below T t p l).
Qed.

(** ** Creating a table *)

Definition create (m : store) (t i b f : Z) : store :=
  wr (zero_table b m) (t + 8 * i) (pte_set b (table_flags f)).

Section Create.
Context (T : gmap Z (list Z)) (m : store) (t : Z) (p : list Z) (l : PtLevel) (i b f : Z).
Hypothesis (W : wf T m) (Ht : T !! t = Some p) (Hl : LS !! List.length p = Some l).
Hypothesis (Hi : 0 <= i < 512) (Habs : is_present (entry m t i) = false).
Hypothesis (Hb : 0 < b < U32) (Hba : b mod 4096 = 0) (Hfresh : T !! b = None).

Lemma create_entry a q j : T !! a = Some q -> 0 <= j < 512 ->
  entry (create m t i b f) a j
  = if decide (t = a /\ i = j) then pte_set b (table_flags f) else entry m a j.
Proof.
  intros Ha Hj. pose proof (wf_aligned _ _ _ _ W Ha). pose proof (wf_aligned _ _ _ _ W Ht).
  unfold create. rewrite entry_wr by done. case_decide; [done|].
  apply entry_zero_other; try done. intros ->. congruence.
Qed.

Lemma create_fresh j : 0 <= j < 512 -> entry (create m t i b f) b j = 0.
Proof.
  intros Hj. pose proof (wf_aligned _ _ _ _ W Ht). unfold create. rewrite entry_wr by done.
  rewrite decide_False; [by apply zero_table_spec|]. intros [-> _]. congruence.
Qed.

Lemma create_leaf ls v : forall t' p', at_level T t' p' ls ->
  leaf (create m t i b f) ls t' v = leaf m ls t' v.
Proof.
  induction ls as [|l' ls IH]; intros t' p' Hat; cbn [leaf].
  - rewrite (create_entry _ p') by (apply Hat || apply (level_index_range PT)).
    rewrite decide_False; [done|]. intros [<- _]. destruct Hat as [Ht' Hls].
    rewrite Ht in Ht'. injection Ht' as <-.
    rewrite (at_level_leaf T t p) in Hl by done. done.
  - rewrite (create_entry _ p') by (apply Hat || apply level_index_range).
    case_decide as E.
    + destruct E as [<- <-]. destruct (table_entry b f Hb Hba) as (Hp & Hh & Ha).
      assert (huge_at l' (pte_set b (table_flags f)) = false) as ->
        by (unfold huge_at; destruct (huge_mask l'); done).
      rewrite Hp, Ha, Habs. apply leaf_zero. intros. by apply create_fresh.
    + destruct (is_present (entry m t' (level_index l' v))) eqn:Hp; [|done].
      destruct (huge_at l' (entry m t' (level_index l' v))) eqn:Hh; [done|].
      eapply IH. by apply (at_level_child T m).
Qed.

Lemma create_wf : wf (<[b := p ++ [i]]> T) (create m t i b f).
Proof.
  destruct (table_entry b f Hb Hba) as (Hep & Heh & Hea).
  assert (forall a q, T !! a = Some q -> a <> b) as Hne by (intros a q Ha ->; congruence).
  assert (forall a, T !! a <> Some (p ++ [i])) as Hno.
  { intros a Ha. destruct (wf_parent _ _ _ _ W _ _ _ Ha) as (t' & _ & Ht' & _ & _ & Hp & _).
    rewrite (wf_inj _ _ _ _ W _ _ _ Ht' Ht), Habs in Hp. done. }
  constructor.
  - rewrite lookup_insert_ne; [apply (wf_root _ _ _ _ W)|].
    intros E. by apply (Hne root [] (wf_root _ _ _ _ W)).
  - intros a c q. rewrite !lookup_insert_Some.
    intros [[<- <-]|[Hab Ha]] [[<- E]|[Hcb Hc]]; try done.
    + by apply Hno in Hc.
    + subst q. by apply Hno in Ha.
    + by apply (wf_inj _ _ _ _ W _ _ _ Ha Hc).
  - intros a q [[<- <-]|[_ Ha]]%lookup_insert_Some; [done|by apply (wf_addr _ _ _ _ W) in Ha].
  - intros a q l' j [[<- <-]|[Hab Ha]]%lookup_insert_Some Hl' Hj Hp Hh.
    + by rewrite create_fresh in Hp.
    + rewrite (create_entry a q) in * by done. case_decide as E.
      * destruct E as [<- <-]. rewrite Hea. rewrite Ht in Ha. injection Ha as <-. by simplify_map_eq.
      * pose proof (wf_child _ _ _ _ W _ _ _ _ Ha Hl' Hj Hp Hh) as Hc.
        rewrite lookup_insert_ne; [done|]. intros E'. by apply (Hne _ _ Hc).
  - intros c q j [[<- E]|[Hcb Hc]]%lookup_insert_Some.
    + apply app_inj_tail in E as [<- <-]. exists t, l.
      assert (t <> b) by (by eapply Hne). rewrite lookup_insert_ne by done.
      rewrite (create_entry t p), decide_True by done.
      split_and!; try done; [lia|lia|]. unfold huge_at. by destruct (huge_mask l).
    + destruct (wf_parent _ _ _ _ W _ _ _ Hc) as (a & l' & Ha & Hl' & Hj & Hp & Hh & Had).
      exists a, l'. assert (a <> b) by (by eapply Hne). rewrite lookup_insert_ne by done.
      rewrite (create_entry a q) by done. rewrite decide_False; [split_and!; (done || lia)|].
      intros [<- <-]. rewrite Habs in Hp. done.
Qed.
End Create.

(** ** Writing a leaf entry *)

Section WriteLeaf.
Context (T : gmap Z (list Z)) (m : store) (t : Z) (p : list Z) (i e : Z).
Hypothesis (W : wf T m) (Ht : T !! t = Some p) (Hl : LS !! List.length p = None).
Hypothesis (Hi : 0 <= i < 512).

Lemma write_entry a q j : T !! a = Some q -> 0 <= j < 512 ->
  entry (wr m (t + 8 * i) e) a j = if decide (t = a /\ i = j) then e else entry m a j.
Proof.
  intros Ha Hj. pose proof (wf_aligned _ _ _ _ W Ha). pose proof (wf_aligned _ _ _ _ W Ht).
  by rewrite entry_wr.
Qed.

(** Entries of tables above the leaf level are not touched. *)
Lemma write_upper a q j l : T !! a = Some q -> LS !! List.length q = Some l -> 0 <= j < 512 ->
  entry (wr m (t + 8 * i) e) a j = entry m a j.
Proof.
  intros Ha Hq Hj. rewrite (write_entry a q) by done. rewrite decide_False; [done|].
  intros [<- _]. rewrite Ht in Ha. injection Ha as <-. congruence.
Qed.

Lemma write_wf : wf T (wr m (t + 8 * i) e).
Proof.
  constructor; [apply (wf_root _ _ _ _ W)|apply (wf_inj _ _ _ _ W)|apply (wf_addr _ _ _ _ W)|..].
  - intros a q l j Ha Hq Hj. rewrite (write_upper a q j l) by done. by apply (wf_child _ _ _ _ W).
  - intros b q j Hb. destruct (wf_parent _ _ _ _ W _ _ _ Hb) as (a & l & Ha & Hq & Hj & H).
    exists a, l. by rewrite (write_upper a q j l).
Qed.

Lemma write_leaf_other ls v : forall t' p', at_level T t' p' ls ->
  p' ++ page_path ls v <> p ++ [i] ->
  leaf (wr m (t + 8 * i) e) ls t' v = leaf m ls t' v.
Proof.
  induction ls as [|l ls IH]; intros t' p' Hat Hne; cbn [leaf].
  - rewrite (write_entry t' p') by (apply Hat || apply (level_index_range PT)).
    rewrite decide_False; [done|]. intros [<- E]. apply Hne. destruct Hat as [Ht' _].
    rewrite Ht in Ht'. injection Ht' as <-. by rewrite E.
  - rewrite (write_upper t' p' _ l)
      by (apply Hat || apply level_index_range || by eapply at_level_head).
    destruct (is_present _) eqn:Hp; [|done]. destruct (huge_at _ _) eqn:Hh; [done|].
    eapply IH; [by apply (at_level_child T m)|]. intros E. apply Hne. rewrite <- E.
    unfold page_path. cbn. by rewrite <- app_assoc.
Qed.

Lemma write_leaf_same ls v t' p' : at_level T t' p' ls ->
  T !! t = Some (p' ++ idxs ls v) -> i = pt_index v ->
  leaf (wr m (t + 8 * i) e) ls t' v = if is_present e then Some (PageLeaf e) else None.
Proof.
  intros Hat Hpt Hiv. rewrite (leaf_at T _ t v ls write_wf t' p' Hat Hpt). cbv zeta.
  by rewrite <- Hiv, (write_entry t p), decide_True by done.
Qed.
End WriteLeaf.

Lemma page_path_app ls v : page_path ls v = idxs ls v ++ [pt_index v].
Proof. unfold page_path, idxs. by rewrite fmap_app. Qed.

Lemma idxs_length ls v : List.length (idxs ls v) = List.length ls.
Proof. apply length_fmap. Qed.

(** Writing the leaf entry of [v], seen from the root. *)
Lemma write_leaf_root T m pt v e :
  wf T m -> T !! pt = Some (idxs LS v) ->
  wf T (wr m (pt + 8 * pt_index v) e)
  /\ forall v', leaf (wr m (pt + 8 * pt_index v) e) LS root v'
      = if decide (page_path LS v' = page_path LS v)
        then if is_present e then Some (PageLeaf e) else None
        else leaf m LS root v'.
Proof.
  intros W Hpt. pose proof (level_index_range PT v) as Hr. cbn in Hr.
  assert (LS !! List.length (idxs LS v) = None) as Hl
    by (rewrite idxs_length; apply lookup_ge_None; lia).
  split; [by apply (write_wf _ _ _ (idxs LS v))|].
  intros v'. case_decide as E.
  - apply (write_leaf_same T m pt (idxs LS v) _ e W Hpt Hl Hr LS v' root []); [by eapply at_root|..];
      rewrite !page_path_app in E; apply app_inj_tail in E as [E1 E2]; [|done]. cbn. by rewrite E1.
  - apply (write_leaf_other T m pt (idxs LS v) _ e W Hpt Hl Hr LS v' root []); [by eapply at_root|].
    cbn. rewrite <- page_path_app. done.
Qed.

(** ** Removing an empty table *)

Section Remove.
Context (T : gmap Z (list Z)) (m : store) (t c : Z) (p : list Z) (l : PtLevel) (i : Z).
Hypothesis (W : wf T m) (Ht : T !! t = Some p) (Hl : LS !! List.length p = Some l).
Hypothesis (Hi : 0 <= i < 512) (Hc : T !! c = Some (p ++ [i])).
Hypothesis (Hz : forall j, 0 <= j < 512 -> entry m c j = 0).

Lemma remove_entry a q j : T !! a = Some q -> 0 <= j < 512 ->
  entry (wr m (t + 8 * i) 0) a j = if decide (t = a /\ i = j) then 0 else entry m a j.
Proof.
  intros Ha Hj. pose proof (wf_aligned _ _ _ _ W Ha). pose proof (wf_aligned _ _ _ _ W Ht).
  by rewrite entry_wr.
Qed.

Lemma remove_wf : wf (delete c T) (wr m (t + 8 * i) 0).
Proof.
  constructor.
  - rewrite lookup_delete_ne; [apply (wf_root _ _ _ _ W)|]. intros ->.
    rewrite (wf_root _ _ _ _ W) in Hc. injection Hc as E. by apply (app_cons_not_nil p [] i).
  - intros a b q [_ Ha]%lookup_delete_Some [_ Hb]%lookup_delete_Some.
    by apply (wf_inj _ _ _ _ W _ _ _ Ha Hb).
  - intros a q [_ Ha]%lookup_delete_Some. by apply (wf_addr _ _ _ _ W) in Ha.
  - intros a q l' j [Hne Ha]%lookup_delete_Some Hq Hj.
    rewrite (remove_entry a q) by done. case_decide as E; [done|]. intros Hp Hh.
    pose proof (wf_child _ _ _ _ W _ _ _ _ Ha Hq Hj Hp Hh) as Hd.
    rewrite lookup_delete_ne; [done|]. intros E'. rewrite <- E', Hc in Hd.
    injection Hd as Hd. apply app_inj_tail in Hd as [<- <-].
    apply E. split; [|done]. by apply (wf_inj _ _ _ _ W _ _ _ Ht Ha).
  - intros b q j [Hne Hb]%lookup_delete_Some.
    destruct (wf_parent _ _ _ _ W _ _ _ Hb) as (a & l' & Ha & Hq & Hj & Hp & Hh & Had).
    exists a, l'. assert (a <> c) by (intros ->; by rewrite Hz in Hp).
    rewrite lookup_delete_ne by done. rewrite (remove_entry a q) by done.
    rewrite decide_False; [done|]. intros [<- <-]. apply Hne.
    rewrite Ht in Ha. injection Ha as <-. by apply (wf_inj _ _ _ _ W _ _ _ Hc Hb).
Qed.

Lemma remove_leaf ls v : forall t' p', at_level T t' p' ls ->
  leaf (wr m (t + 8 * i) 0) ls t' v = leaf m ls t' v.
Proof.
  induction ls as [|l' ls IH]; intros t' p' Hat; cbn [leaf].
  - rewrite (remove_entry t' p') by (apply Hat || apply (level_index_range PT)).
    rewrite decide_False; [done|]. intros [<- _]. destruct Hat as [Ht' Hls].
    rewrite Ht in Ht'. injection Ht' as <-. rewrite (at_level_leaf T t p) in Hl by done. done.
  - rewrite (remove_entry t' p') by (apply Hat || apply level_index_range).
    case_decide as E.
    + destruct E as [<- Hix]. rewrite zero_not_present.
      pose proof (wf_parent _ _ _ _ W _ _ _ Hc) as (a & l2 & Ha & Hl2 & _ & Hp & Hh & Had).
      pose proof (wf_inj _ _ _ _ W _ _ _ Ha Ht) as ->.
      assert (p' = p) as -> by (destruct Hat as [Ht' _]; congruence).
      rewrite (at_level_head T t p l' ls Hat) in Hl2. injection Hl2 as <-.
      rewrite <- Hix, Hp, Hh, Had. symmetry. by apply leaf_zero.
    + destruct (is_present (entry m t' (level_index l' v))) eqn:Hp; [|done].
      destruct (huge_at l' (entry m t' (level_index l' v))) eqn:Hh; [done|].
      eapply IH. by apply (at_level_child T m).
Qed.
End Remove.
End Wf.

(** * The operations on well-formed tables *)

Section Ops.
Context {A : Type} `{FrameLaws A}.
Notation pst := (paging_state A).

(** The tables are well-formed and the allocator counts their frames as used. *)
Record tables_ok (T : gmap Z (list Z)) (LS : list PtLevel) (root : Z) (s : pst) : Prop := {
  ok_wf : pt_wf T LS root (pmem s);
  ok_alloc : fa_inv (palloc s);
  ok_used : forall a p, T !! a = Some p -> fa_used (palloc s) (a / 4096) = true;
}.

Definition same_regs (s s' : pst) : Prop :=
  pmgr s' = pmgr s /\ cr3 s' = cr3 s /\ cr4 s' = cr4 s /\ tlb s' = tlb s.

(** Frames in use stay in use. *)
Definition used_mono (s s' : pst) : Prop :=
  forall g, fa_used (palloc s) g = true -> fa_used (palloc s') g = true.

Lemma same_regs_refl s : same_regs s s.
Proof. done. Qed.

Lemma same_regs_trans s1 s2 s3 : same_regs s1 s2 -> same_regs s2 s3 -> same_regs s1 s3.
Proof. unfold same_regs. intros (?&?&?&?) (?&?&?&?). split_and!; congruence. Qed.

Lemma entry_ptr_ok t i (s : pst) : 0 < t < U32 -> entry_ptr t i s = Some (s, Ok (t + 8 * i)).
Proof.
  intros Ht. unfold entry_ptr, phys_to_virt.
  destruct (Z.leb_spec U32 t); [lia|]. by destruct (Z.eqb_spec t 0); [lia|].
Qed.

Lemma table_addr T LS root m t p : pt_wf T LS root m -> T !! t = Some p -> 0 < t < U32.
Proof. intros W Ht. by apply (wf_addr _ _ _ _ W) in Ht as [? _]. Qed.

(** ** [alloc_page_table] *)

(** Why there is no new table, and the frame that is lost then: the allocator has
    none, or the one it gave lies at 4 GiB or above and is not given back. *)
Definition table_refused (lost : option Z) (e : string) : Prop :=
  match lost with
  | None => e = "Failed to allocate page table frame"
  | Some f => e = "Page table frame not identity-mapped (<4 GiB required)" /\ U32 <= f * 4096
  end.

Lemma alloc_page_table_spec (s : pst) : fa_inv (palloc s) ->
  match alloc_page_table s with
  | Some (s', r) => same_regs s s' /\ fa_inv (palloc s')
      /\ match r with
         | Ok b => 0 < b < U32 /\ b mod 4096 = 0 /\ fa_used (palloc s) (b / 4096) = false
                   /\ (forall g, fa_used (palloc s') g = (g =? b / 4096) || fa_used (palloc s) g)
                   /\ pmem s' = zero_table b (pmem s)
         | Err e => pmem s' = pmem s /\ exists lost, table_refused lost e
             /\ (forall f, lost = Some f -> fa_used (palloc s) f = false)
             /\ forall g, fa_used (palloc s') g = bool_decide (lost = Some g) || fa_used (palloc s) g
         end
  | None => False
  end.
Proof.
  intros I. unfold alloc_page_table.
  destruct (fa_alloc_dma32 (palloc s)) as [a1 x1] eqn:E1.
  destruct (if x1 =? 0 then fa_alloc a1 else (a1, x1)) as [a x] eqn:E2.
  assert ((x = 0 /\ a = palloc s) \/ granted fa_used fa_inv (palloc s) a x) as Hx.
  { destruct (fa_dma32_law _ _ _ I E1) as [[-> ->]|[_ Hg]].
    - cbn in E2. by apply fa_alloc_law.
    - destruct (Z.eqb_spec x1 0) as [->|]; [|injection E2 as <- <-; by right].
      destruct Hg as (f & Hf & E & _). unfold Pmm.PAGE_SIZE in E. lia. }
  destruct Hx as [[-> ->]|(f & Hf & -> & Hu & Hus & I')]; cbn [Z.eqb].
  { split; [by destruct s|]. split; [done|]. split; [done|]. by exists None. }
  unfold PHYS_FRAMES, Pmm.PAGE_SIZE in *. destruct (Z.eqb_spec (f * 4096) 0); [lia|].
  unfold phys_to_virt. destruct (Z.leb_spec U32 (f * 4096)); cbn [Z.eqb].
  - split; [done|]. split; [done|]. split; [done|]. exists (Some f). split; [done|]. split; [by intros ? [= <-]|]. intros g. cbn. rewrite Hus. f_equal.
    apply eq_true_iff_eq. rewrite Z.eqb_eq, bool_decide_eq_true. split; congruence.
  - destruct (Z.eqb_spec (f * 4096) 0); [lia|]. cbn [palloc set_mem set_alloc pmem].
    assert (f * 4096 / 4096 = f) as -> by (apply Z.div_mul; lia).
    split_and!; try done; try lia. apply Z.mod_mul. lia.
Qed.

Lemma not_huge_child m ls l t v :
  not_huge (leaf m (l :: ls) t v) -> is_present (entry m t (level_index l v)) = true ->
  huge_at l (entry m t (level_index l v)) = false
  /\ not_huge (leaf m ls (pte_address (entry m t (level_index l v))) v).
Proof.
  cbn [leaf]. intros Hn Hp. rewrite Hp in Hn. unfold huge_at in *.
  destruct (huge_mask l) as [mask|]; [|done].
  destruct (is_huge _); [|done]. exfalso. by eapply Hn.
Qed.

(** The frames that are in use now and were not are those of the new tables and
    the lost one. *)
Definition grown_by (T T' : gmap Z (list Z)) (lost : option Z) (s s' : pst) : Prop :=
  forall g, fa_used (palloc s') g = true <-> fa_used (palloc s) g = true
    \/ (exists a q, T' !! a = Some q /\ T !! a = None /\ a / 4096 = g) \/ lost = Some g.

(** New tables on the path [ps], in frames that were free. *)
Record tables_grown (T T' : gmap Z (list Z)) (ps : list Z) (lost : option Z) (s s' : pst) : Prop := {
  tg_sub : T ⊆ T';
  tg_new : forall a q, T' !! a = Some q -> T !! a = Some q
    \/ (q `prefix_of` ps /\ fa_used (palloc s) (a / 4096) = false);
  tg_used : grown_by T T' lost s s';
  tg_lost : forall f, lost = Some f -> fa_used (palloc s) f = false;
}.

(** Tables come in frames that were free. *)
Definition tables_added (T T' : gmap Z (list Z)) (s : pst) : Prop :=
  T ⊆ T' /\ forall a q, T' !! a = Some q -> T !! a = Some q \/ fa_used (palloc s) (a / 4096) = false.

Lemma grown_added T T' ps lost s s' : tables_grown T T' ps lost s s' -> tables_added T T' s.
Proof. intros [Hs Hn _ _]. split; [done|]. intros a q Ha. destruct (Hn a q Ha) as [?|[_ ?]]; [by left|by right]. Qed.

Lemma grown_mono T T' ps lost s s' : tables_grown T T' ps lost s s' -> used_mono s s'.
Proof. intros [_ _ Hu _] g Hg. apply Hu. by left. Qed.

Lemma grown_refl T ps s : tables_grown T T ps None s s.
Proof.
  constructor; [done|by left| |done]. intros g. split; [by left|]. intros [?|[(a & q & H1 & H2 & _)|[=]]]; congruence.
Qed.

(** ** [walk_create] *)

Lemma grown_refused T ps lost (s s' : pst) :
  (forall g, fa_used (palloc s') g = bool_decide (lost = Some g) || fa_used (palloc s) g) ->
  (forall f, lost = Some f -> fa_used (palloc s) f = false) -> tables_grown T T ps lost s s'.
Proof.
  intros Hu Hl. constructor; [done|by left| |done].
  intros g. rewrite Hu, orb_true_iff, bool_decide_eq_true. split; [tauto|].
  intros [?|[(a & q & H1 & H2 & _)|?]]; [tauto|congruence|tauto].
Qed.

Lemma grown_trans T b q T' ps lost s s2 s' : T !! b = None -> fa_used (palloc s) (b / 4096) = false ->
  q `prefix_of` ps -> (forall g, fa_used (palloc s2) g = (g =? b / 4096) || fa_used (palloc s) g) ->
  tables_grown (<[b := q]> T) T' ps lost s2 s' -> tables_grown T T' ps lost s s'.
Proof.
  intros Hn Hb Hq Hu [Hs Hf Hg Hl].
  assert (forall g, fa_used (palloc s2) g = false -> fa_used (palloc s) g = false) as Hdown
    by (intros g; rewrite Hu; by intros [_ ?]%orb_false_iff).
  constructor; [etransitivity; [|exact Hs]; by apply insert_subseteq| | |by auto].
  - intros a q' Ha. destruct (Hf a q' Ha) as [[[<- <-]|[_ Hq2]]%lookup_insert_Some|[H1 H2]]; [by right|by left|right; auto].
  - intros g. rewrite (Hg g), Hu, orb_true_iff, Z.eqb_eq. split.
    + intros [[->|?]|[(a & q' & H1 & H2 & H3)|?]]; [|by left| |by right; right].
      * right. left. exists b, q. split_and!; [|done|done]. eapply lookup_weaken; [apply lookup_insert_eq|exact Hs].
      * right. left. exists a, q'. split_and!; [done| |done]. by apply lookup_insert_None in H2 as [? _].
    + intros [?|[(a & q' & H1 & H2 & H3)|?]]; [by left; right| |by right; right].
      destruct (decide (a = b)) as [->|Hne]; [left; by left|]. right. left. exists a, q'.
      split_and!; [done|by rewrite lookup_insert_ne|done].
Qed.

Lemma walk_create_spec LS root v f ls : forall (s : pst) T t p,
  tables_ok T LS root s -> at_level LS T t p ls -> p ++ idxs ls v = idxs LS v ->
  not_huge (leaf (pmem s) ls t v) ->
  match walk_create ls t v f s with
  | Some (s', r) => same_regs s s'
      /\ exists T' lost, tables_ok T' LS root s' /\ tables_grown T T' (idxs LS v) lost s s'
      /\ (forall v', leaf (pmem s') LS root v' = leaf (pmem s) LS root v')
      /\ match r with Ok pt => lost = None /\ T' !! pt = Some (p ++ idxs ls v) | Err e => table_refused lost e end
  | None => False
  end.
Proof.
  induction ls as [|l ls IH]; intros s T t p [W I Hus] Hat Hpre Hnh; cbn [walk_create].
  { split; [done|].
    exists T, None. split_and!; [done|apply grown_refl|done|done|]. cbn. rewrite app_nil_r. apply Hat. }
  destruct Hat as [Ht Hls]. pose proof (table_addr _ _ _ _ _ _ W Ht) as Hta.
  erewrite bind_ok by (by apply entry_ptr_ok).
  unfold get_or_create_next_level.
  destruct (is_present (entry (pmem s) t (level_index l v))) eqn:Hp.
  - destruct (not_huge_child _ _ _ _ _ Hnh Hp) as [Hh Hnh'].
    pose proof (at_level_child LS root T _ t p l ls v W (conj Ht Hls) Hp Hh) as Hat'.
    erewrite bind_ok; [|erewrite bind_ok by reflexivity; cbv beta;
      fold (entry (pmem s) t (level_index l v)); rewrite Hp; reflexivity].
    specialize (IH s T _ _ (Build_tables_ok _ _ _ _ W I Hus) Hat' ltac:(by rewrite <- app_assoc) Hnh').
    destruct (walk_create ls _ v f s) as [[s' r]|]; [|done].
    destruct IH as (Hr & T' & lost & ? & ? & ? & Hpt). split; [done|]. exists T', lost.
    split; [done|]. split; [done|]. split; [done|].
    destruct r; [|done]. cbn. by rewrite <- app_assoc in Hpt.
  - pose proof (alloc_page_table_spec s I) as Ha.
    destruct (alloc_page_table s) as [[s1 r1]|] eqn:Ea; [|done].
    destruct Ha as (Hr1 & I1 & Hcase). destruct r1 as [b|e].
    2:{ erewrite bind_err; [|erewrite bind_ok by reflexivity; cbv beta;
          fold (entry (pmem s) t (level_index l v)); rewrite Hp; by apply bind_err].
        destruct Hcase as (Hm & lost & Hlost & Hfree & Hu). split; [done|]. exists T, lost. split_and!; [|by eapply grown_refused|..|done].
        - constructor; [by rewrite Hm|done|]. intros a q Ha. rewrite Hu, (Hus a q Ha). apply orb_true_r.
        - intros v'. by rewrite Hm. }
    destruct Hcase as (Hb & Hba & Hbu & Hu & Hm).
    assert (forall g, fa_used (palloc s) g = true -> fa_used (palloc s1) g = true) as Hmono
      by (intros g Hg; by rewrite Hu, Hg, orb_true_r).
    assert (fa_used (palloc s1) (b / 4096) = true) as Hbu' by (by rewrite Hu, Z.eqb_refl).
    assert (T !! b = None) as Hfresh.
    { destruct (T !! b) eqn:E; [|done]. apply Hus in E. congruence. }
    erewrite bind_ok; [|erewrite bind_ok by reflexivity; cbv beta;
      fold (entry (pmem s) t (level_index l v)); rewrite Hp;
      erewrite bind_ok by exact Ea; cbv beta; reflexivity].
    pose proof (at_level_head LS T t p l ls (conj Ht Hls)) as Hl.
    pose proof (level_index_range l v) as Hi.
    set (s2 := set_mem (wr (pmem s1) (t + 8 * level_index l v) (pte_set b (table_flags f))) s1).
    assert (pmem s2 = create (pmem s) t (level_index l v) b f) as Hm2
      by (cbn; by rewrite Hm).
    assert (tables_ok (<[b := p ++ [level_index l v]]> T) LS root s2) as Hok2.
    { constructor.
      - rewrite Hm2. by apply (create_wf LS root T _ t p l).
      - done.
      - intros a q [[<- _]|[_ Ha]]%lookup_insert_Some; [done|]. eauto. }
    assert (at_level LS (<[b := p ++ [level_index l v]]> T) b (p ++ [level_index l v]) ls) as Hat2.
    { apply (at_level_below LS (<[b := p ++ [level_index l v]]> T) t p l);
        [|by rewrite lookup_insert_eq].
      split; [|exact Hls]. rewrite lookup_insert_ne; [exact Ht|]. intros ->. congruence. }
    assert (leaf (pmem s2) ls b v = None) as Hnone.
    { rewrite Hm2. apply leaf_zero. intros j Hj. by apply (create_fresh LS root T _ t p). }
    specialize (IH s2 _ _ _ Hok2 Hat2 ltac:(by rewrite <- app_assoc) ltac:(by rewrite Hnone)).
    destruct (walk_create ls b v f s2) as [[s' r]|]; [|done].
    destruct IH as (Hr2 & T' & lost & Hok' & Hsub & Hleaf & Hpt).
    split; [apply (same_regs_trans s s2); [exact Hr1|exact Hr2]|].
    exists T', lost. split; [done|]. split; [|split].
    + apply (grown_trans T b (p ++ [level_index l v]) T' _ lost s s2); try done.
      rewrite <- Hpre. exists (idxs ls v). by rewrite <- app_assoc.
    + intros v'. rewrite Hleaf, Hm2.
      apply (create_leaf LS root T _ t p l _ b f W Ht Hl Hi Hp Hb Hba Hfresh LS v' root []).
      by apply (at_root LS root T (pmem s)).
    + destruct r; [|done]. cbn. by rewrite <- app_assoc in Hpt.
Qed.

(** ** The paging state as a whole *)

Record paging_ok (T : gmap Z (list Z)) (mg : PagingManager) (s : pst) : Prop := {
  pg_mgr : pmgr s = Some mg;
  pg_tables : tables_ok T (mode_levels (mode mg)) (root_table_phys mg) s;
}.

(** What the tables map [v] to, for a manager. *)
Definition view (mg : PagingManager) (s : pst) (v : Z) : option leaf_entry :=
  leaf (pmem s) (mode_levels (mode mg)) (root_table_phys mg) v.

Definition canonical (mg : PagingManager) (v : Z) : bool :=
  match mode mg with FourLevel => is_canonical_la48 v | FiveLevel => is_canonical_la57 v end.

Definition same_page (mg : PagingManager) (v v' : Z) : Prop :=
  page_path (mode_levels (mode mg)) v = page_path (mode_levels (mode mg)) v'.

#[export] Instance same_page_dec mg v v' : Decision (same_page mg v v').
Proof. unfold same_page. apply _. Defined.

Lemma get_manager_ok T mg s : paging_ok T mg s -> get_paging_manager s = Some (s, Ok mg).
Proof. intros [Hm _]. unfold get_paging_manager. by rewrite Hm. Qed.

Lemma check_canonical_ok mg v (s : pst) :
  canonical mg v = true -> check_canonical (mode mg) v s = Some (s, Ok tt).
Proof. unfold canonical, check_canonical. destruct (mode mg); intros ->; done. Qed.

(** A leaf write through the table of the full path, and the TLB flush. *)
Lemma leaf_update T mg (s : pst) pt v e :
  paging_ok T mg s -> T !! pt = Some (idxs (mode_levels (mode mg)) v) ->
  exists s', (ptr ← entry_ptr pt (pt_index v); store_entry ptr e ;; modify (invlpg v)) s
             = Some (s', Ok tt)
    /\ paging_ok T mg s' /\ pmgr s' = pmgr s /\ palloc s' = palloc s /\ tlb s' = v :: tlb s
    /\ forall v', view mg s' v'
        = if decide (same_page mg v' v) then if is_present e then Some (PageLeaf e) else None
          else view mg s v'.
Proof.
  intros [Hm [W I Hu]] Hpt. pose proof (table_addr _ _ _ _ _ _ W Hpt) as Hta.
  destruct (write_leaf_root _ _ T (pmem s) pt v e W Hpt) as [W' Hview].
  eexists. split; [erewrite bind_ok by (by apply entry_ptr_ok); reflexivity|].
  split_and!; [constructor; [done|constructor; done]|done|done|done|].
  exact Hview.
Qed.

Lemma map_page_grows T mg s v p f :
  paging_ok T mg s -> canonical mg v = true -> is_aligned p = true -> not_huge (view mg s v) ->
  match map_page v p f s with
  | Some (s', r) => exists T' lost, paging_ok T' mg s'
      /\ tables_grown T T' (idxs (mode_levels (mode mg)) v) lost s s' /\
      match r with
      | Ok _ => lost = None /\ tlb s' = v :: tlb s
          /\ forall v', view mg s' v'
              = if decide (same_page mg v' v)
                then if is_present (pte_set p f) then Some (PageLeaf (pte_set p f)) else None
                else view mg s v'
      | Err e => table_refused lost e /\ tlb s' = tlb s /\ forall v', view mg s' v' = view mg s v'
      end
  | None => False
  end.
Proof.
  intros Hok Hc Ha Hnh. unfold map_page.
  erewrite bind_ok by (by eapply get_manager_ok). rewrite Ha. cbn [negb].
  erewrite bind_ok by (by apply check_canonical_ok).
  destruct Hok as [Hm Ht].
  pose proof (walk_create_spec _ _ v f _ s T _ [] Ht (at_root _ _ _ _ (ok_wf _ _ _ _ Ht)) eq_refl Hnh) as Hw.
  destruct (walk_create _ _ v f s) as [[s1 r]|] eqn:Ew; [|done].
  destruct Hw as ((Hr1 & _ & _ & Hr4) & T' & lost & Ht' & Hgr & Hleaf & Hpt). destruct r as [pt|e].
  - destruct Hpt as [-> Hpt]. assert (paging_ok T' mg s1) as Hok1 by (constructor; [congruence|done]).
    destruct (leaf_update T' mg s1 pt v (pte_set p f) Hok1 Hpt) as (s2 & E & Hok2 & _ & Hal & Htlb & Hv).
    erewrite bind_ok by exact Ew. cbv beta in E |- *. rewrite E. exists T', None. split; [done|].
    split; [destruct Hgr; constructor; try done; intros g; rewrite Hal; auto|]. split; [done|].
    split; [by rewrite Htlb, Hr4|]. intros v'. rewrite Hv. unfold view. by rewrite Hleaf.
  - erewrite bind_err by exact Ew. exists T', lost. split; [constructor; [congruence|done]|]. split; [exact Hgr|].
    split; [done|]. split; [done|]. intros v'. apply Hleaf.
Qed.

Lemma map_page_full T mg s v p f :
  paging_ok T mg s -> canonical mg v = true -> is_aligned p = true -> not_huge (view mg s v) ->
  match map_page v p f s with
  | Some (s', r) => used_mono s s' /\ exists T', paging_ok T' mg s' /\ tables_added T T' s /\
      match r with
      | Ok _ => tlb s' = v :: tlb s
          /\ forall v', view mg s' v'
              = if decide (same_page mg v' v)
                then if is_present (pte_set p f) then Some (PageLeaf (pte_set p f)) else None
                else view mg s v'
      | Err _ => tlb s' = tlb s /\ forall v', view mg s' v' = view mg s v'
      end
  | None => False
  end.
Proof.
  intros Hok Hc Ha Hnh. pose proof (map_page_grows T mg s v p f Hok Hc Ha Hnh) as Hg.
  destruct (map_page v p f s) as [[s' r]|]; [|done]. destruct Hg as (T' & lost & Hok' & Hgr & Hr).
  split; [by eapply grown_mono|]. exists T'. split; [done|]. split; [by eapply grown_added|].
  destruct r; by destruct Hr as [_ Hr].
Qed.

Lemma map_page_spec T mg s v p f :
  paging_ok T mg s -> canonical mg v = true -> is_aligned p = true -> not_huge (view mg s v) ->
  match map_page v p f s with
  | Some (s', r) => used_mono s s' /\ exists T', paging_ok T' mg s' /\
      match r with
      | Ok _ => tlb s' = v :: tlb s
          /\ forall v', view mg s' v'
              = if decide (same_page mg v' v)
                then if is_present (pte_set p f) then Some (PageLeaf (pte_set p f)) else None
                else view mg s v'
      | Err _ => tlb s' = tlb s /\ forall v', view mg s' v' = view mg s v'
      end
  | None => False
  end.
Proof.
  intros Hok Hc Ha Hnh. pose proof (map_page_full T mg s v p f Hok Hc Ha Hnh) as Hf.
  destruct (map_page v p f s) as [[s' r]|]; [|done]. destruct Hf as (Hm & T' & Hok' & _ & Hr).
  split; [exact Hm|]. by exists T'.
Qed.

(** ** [unmap_walk] *)

(** A table without an entry. *)
Definition table_empty (m : store) (t : Z) : Prop := forall i, 0 <= i < 512 -> entry m t i = 0.

Lemma is_empty_spec t (s : pst) : 0 < t < U32 ->
  exists b, is_page_table_empty t s = Some (s, Ok b) /\ (b = true <-> table_empty (pmem s) t).
Proof.
  intros Ht. unfold is_page_table_empty. erewrite bind_ok by (by apply entry_ptr_ok).
  assert (forall i, t + 8 * 0 + 8 * i = t + 8 * i) as Ei by lia.
  eexists. split; [reflexivity|]. destruct (find_loop _ _ _) as [k|] eqn:F.
  - apply find_loop_Some in F as (i & Hi & Hk & _). split; [done|]. intros He. exfalso.
    specialize (He i Hi). unfold entry in He. cbv beta in Hk. by rewrite Ei, He in Hk.
  - split; [|done]. intros _ i Hi. pose proof (find_loop_None _ _ _ F i Hi) as Hn. cbv beta in Hn. unfold entry.
    rewrite Ei in Hn. by destruct (Z.eqb_spec (rd (pmem s) (t + 8 * i)) 0).
Qed.

Lemma free_table_spec T (s : pst) LS root c p :
  tables_ok T LS root s -> T !! c = Some p ->
  exists a, fa_free c (palloc s) = (a, true) /\ fa_inv a
    /\ (forall g, fa_used a g = negb (g =? c / 4096) && fa_used (palloc s) g)
    /\ forall a' q, delete c T !! a' = Some q -> fa_used a (a' / 4096) = true.
Proof.
  intros [W I Hu] Hc. pose proof (wf_addr _ _ _ _ W _ _ Hc) as [Hca Hcm].
  destruct (fa_free_law (palloc s) (c / 4096) I) as (a & E & Ia & Hus);
    [dlia|by eapply Hu|].
  exists a. unfold Pmm.PAGE_SIZE in E. replace (c / 4096 * 4096) with c in E by dlia.
  split_and!; [done|done|exact Hus|].
  intros a' q [Hne Ha']%lookup_delete_Some. rewrite Hus.
  pose proof (wf_addr _ _ _ _ W _ _ Ha') as [_ Hm'].
  destruct (Z.eqb_spec (a' / 4096) (c / 4096)); [exfalso; apply Hne; dlia|]. by eapply Hu.
Qed.

(** The tables of [T'] are among those of [T], and the frames of the others, and
    no more, have been freed. *)
Definition tables_released (T T' : gmap Z (list Z)) (s s' : pst) : Prop :=
  (forall a q, T' !! a = Some q -> T !! a = Some q)
  /\ forall g, fa_used (palloc s') g = true <-> fa_used (palloc s) g = true
       /\ forall a q, T !! a = Some q -> T' !! a = None -> a / 4096 <> g.

Lemma released_mono T T' s s' g : tables_released T T' s s' ->
  fa_used (palloc s') g = true -> fa_used (palloc s) g = true.
Proof. intros [_ Hu] Hg. by apply Hu in Hg as [? _]. Qed.

Lemma released_other T T' s s' g : tables_released T T' s s' ->
  (forall a q, T !! a = Some q -> a / 4096 <> g) -> fa_used (palloc s') g = fa_used (palloc s) g.
Proof.
  intros [_ Hu] Hg. apply eq_true_iff_eq. rewrite Hu. split; [by intros [? _]|]. intros ?. split; [done|].
  intros a q Ha _. by eapply Hg.
Qed.

Lemma released_refl T s s' : palloc s' = palloc s -> tables_released T T s s'.
Proof. intros E. split; [done|]. intros g. rewrite E. split; [|by intros [? _]]. intros ?. split; [done|]. congruence. Qed.

Lemma released_step T T1 c q0 s s1 s2 : tables_released T T1 s s1 -> T1 !! c = Some q0 ->
  (forall g, fa_used (palloc s2) g = negb (g =? c / 4096) && fa_used (palloc s1) g) ->
  tables_released T (delete c T1) s s2.
Proof.
  intros [Hsub Hu] Hc Hs. split; [by intros a q [_ Ha]%lookup_delete_Some; apply Hsub|].
  intros g. rewrite Hs, andb_true_iff, negb_true_iff, Z.eqb_neq, (Hu g). split.
  - intros (Hne & Hg & Hall). split; [done|]. intros a q Ha Hnone.
    apply lookup_delete_None in Hnone as [<-|Hnone]; [congruence|by eapply Hall].
  - intros (Hg & Hall). split_and!; [|done|].
    + intros ->. by apply (Hall c q0); [apply Hsub|apply lookup_delete_eq|].
    + intros a q Ha Hnone. apply (Hall a q Ha). apply lookup_delete_None. by right.
Qed.

(** The tables that are gone were below [p] on the path [ps] and are empty; when
    [fe] says so, the ones left there are not. *)
Record pruned (T T' : gmap Z (list Z)) (p ps : list Z) (fe : bool) (m : store) : Prop := {
  pr_gone : forall a q, T !! a = Some q -> T' !! a = None ->
    (List.length p < List.length q)%nat /\ q `prefix_of` ps /\ table_empty m a;
  pr_left : forall a q, T' !! a = Some q -> (List.length p < List.length q)%nat -> q `prefix_of` ps ->
    fe = true -> ~ table_empty m a;
}.

(** The first table below [p] on the path. *)
Lemma next_on_path LS root T m next p i ps a q : pt_wf T LS root m -> T !! next = Some (p ++ [i]) ->
  (p ++ [i]) `prefix_of` ps -> T !! a = Some q -> q `prefix_of` ps -> (List.length p < List.length q)%nat ->
  a = next \/ (List.length (p ++ [i]) < List.length q)%nat.
Proof.
  intros W Hn [r1 Hr1] Ha [r2 Hr2] Hl. rewrite length_app. cbn [List.length].
  destruct (decide (List.length q = S (List.length p))) as [El|]; [left|right; lia].
  assert (q = p ++ [i]) as ->.
  { rewrite Hr1 in Hr2. apply app_inj_1 in Hr2 as [-> _]; [done|]. rewrite length_app. cbn. lia. }
  by apply (wf_inj _ _ _ _ W _ _ _ Ha Hn).
Qed.

(** The table [next] below [t] stays. *)
Lemma pruned_keep LS root T T1 m next p i ps fe : pt_wf T1 LS root m -> T1 !! next = Some (p ++ [i]) ->
  (p ++ [i]) `prefix_of` ps -> (fe = true -> ~ table_empty m next) ->
  pruned T T1 (p ++ [i]) ps fe m -> pruned T T1 p ps fe m.
Proof.
  intros W Hn Hps Hne [Hgone Hleft]. constructor.
  - intros a q Ha Hnone. destruct (Hgone a q Ha Hnone) as (Hl & ? & ?). split_and!; try done.
    rewrite length_app in Hl. lia.
  - intros a q Ha Hl Hq Hfe.
    destruct (next_on_path LS root T1 m next p i ps a q W Hn Hps Ha Hq Hl) as [->|Hl']; [by apply Hne|by eapply Hleft].
Qed.

(** The empty table [next] below [t] is removed. *)
Lemma pruned_remove LS root T T1 m t next p i ps fe : pt_wf T1 LS root m -> 0 <= i < 512 ->
  T1 !! t = Some p -> T1 !! next = Some (p ++ [i]) -> (p ++ [i]) `prefix_of` ps ->
  table_empty m next -> (forall a q, T1 !! a = Some q -> T !! a = Some q) ->
  pruned T T1 (p ++ [i]) ps fe m -> pruned T (delete next T1) p ps fe (wr m (t + 8 * i) 0).
Proof.
  intros W Hi Ht Hn Hps He Hsub [Hgone Hleft].
  assert (forall a, table_empty m a -> table_empty (wr m (t + 8 * i) 0) a) as Hz.
  { intros a Ha j Hj. unfold entry. rewrite rd_wr. case_decide; [done|]. by apply Ha. }
  constructor.
  - intros a q Ha Hnone. destruct (T1 !! a) as [q'|] eqn:E1.
    + assert (a = next) as -> by (apply lookup_delete_None in Hnone as [?|?]; congruence).
      rewrite (Hsub _ _ Hn) in Ha. injection Ha as <-. split_and!; [rewrite length_app; cbn; lia|done|by apply Hz].
    + destruct (Hgone a q Ha E1) as (Hl & ? & ?). split_and!; [rewrite length_app in Hl; lia|done|by apply Hz].
  - intros a q [Hne Ha]%lookup_delete_Some Hl Hq Hfe Hemp.
    destruct (next_on_path LS root T1 m next p i ps a q W Hn Hps Ha Hq Hl) as [->|Hl']; [done|].
    apply (Hleft a q Ha Hl' Hq Hfe). intros j Hj. specialize (Hemp j Hj).
    pose proof (wf_addr _ _ _ _ W _ _ Ha) as [_ Ham]. pose proof (wf_addr _ _ _ _ W _ _ Ht) as [_ Htm].
    rewrite entry_wr, decide_False in Hemp; [done| |done..].
    intros [-> _]. rewrite Ht in Ha. injection Ha as ->. lia.
Qed.

Lemma parent_not_empty LS root T m t next p i : pt_wf T LS root m -> T !! t = Some p -> T !! next = Some (p ++ [i]) ->
  ~ table_empty m t.
Proof.
  intros W Ht Hn He. destruct (wf_parent _ _ _ _ W _ _ _ Hn) as (a & l & Ha & _ & Hi & Hp & _).
  assert (a = t) as -> by (by apply (wf_inj _ _ _ _ W a t p)). by rewrite (He i Hi) in Hp.
Qed.

Lemma unmap_walk_spec LS root v fe ls : forall (s : pst) T t p,
  tables_ok T LS root s -> at_level LS T t p ls -> p ++ idxs ls v = idxs LS v ->
  not_huge (leaf (pmem s) ls t v) ->
  match unmap_walk ls t v fe s with
  | Some (s', Ok b) => same_regs s s' /\ leaf (pmem s) ls t v <> None
      /\ exists T', tables_ok T' LS root s' /\ tables_released T T' s s'
      /\ pruned T T' p (idxs LS v) fe (pmem s')
      /\ (b = true -> fe = true) /\ (fe = true -> b = false -> ~ table_empty (pmem s') t)
      /\ forall v', leaf (pmem s') LS root v'
          = if decide (page_path LS v' = page_path LS v) then None else leaf (pmem s) LS root v'
  | Some (s', Err e) => s' = s /\ leaf (pmem s) ls t v = None
  | None => False
  end.
Proof.
  induction ls as [|l ls IH]; intros s T t p Htk Hat Hpre Hnh; cbn [unmap_walk].
  { pose proof Htk as [W I Hus]. destruct Hat as [Ht Hls]. pose proof (table_addr _ _ _ _ _ _ W Ht) as Hta.
    erewrite bind_ok by (by apply entry_ptr_ok). erewrite bind_ok by reflexivity.
    fold (entry (pmem s) t (pt_index v)). cbn [leaf].
    destruct (is_present (entry (pmem s) t (pt_index v))); cbn [negb]; [|done].
    cbn in Hpre. rewrite app_nil_r in Hpre. subst p.
    destruct (write_leaf_root LS root T (pmem s) t v 0 W Ht) as [W' Hv].
    erewrite bind_ok by reflexivity. split_and!; [done|done|]. exists T. split; [done|]. split; [by apply released_refl|].
    split; [|split; [done|split; [congruence|exact Hv]]]. constructor; [congruence|]. intros a q _ Hl [r Hq].
    apply (f_equal List.length) in Hq. rewrite length_app in Hq. lia. }
  pose proof Htk as [W I Hus]. pose proof Hat as [Ht Hls].
  pose proof (table_addr _ _ _ _ _ _ W Ht) as Hta.
  erewrite bind_ok by (by apply entry_ptr_ok). erewrite bind_ok by reflexivity.
  fold (entry (pmem s) t (level_index l v)).
  pose proof (not_huge_child _ ls l t v Hnh) as Hch. cbn [leaf].
  destruct (is_present (entry (pmem s) t (level_index l v))) eqn:Hp; cbn [negb]; [|done].
  destruct (Hch eq_refl) as [Hh Hnh']. rewrite Hh. clear Hch.
  set (next := pte_address (entry (pmem s) t (level_index l v))) in *.
  pose proof (at_level_child LS root T _ t p l ls v W Hat Hp Hh) as Hat'. cbv zeta in Hat'. fold next in Hat'.
  specialize (IH s T next (p ++ [level_index l v]) Htk Hat' ltac:(by rewrite <- app_assoc) Hnh').
  destruct (unmap_walk ls next v fe s) as [[s1 [cand|e]]|] eqn:Eu; [| |done].
  2:{ erewrite bind_err by exact Eu. done. }
  destruct IH as (Hr1 & Hnn & T1 & Htk1 & Hrel & Hpr & Hfe & Hcand & Hleaf).
  erewrite bind_ok by exact Eu.
  assert (forall a q, T !! a = Some q -> (List.length q <= S (List.length p))%nat -> T1 !! a = Some q) as Hkeep.
  { intros a q Ha Hq. destruct (T1 !! a) as [q'|] eqn:E1.
    - apply (proj1 Hrel) in E1. congruence.
    - destruct (pr_gone _ _ _ _ _ _ Hpr a q Ha E1) as [Hl _]. rewrite length_app in Hl. cbn in Hl. lia. }
  assert (T1 !! next = Some (p ++ [level_index l v])) as Hn1
    by (apply Hkeep; [apply Hat'|rewrite length_app; cbn; lia]).
  assert (T1 !! t = Some p) as Ht1 by (apply Hkeep; [done|lia]).
  assert ((p ++ [level_index l v]) `prefix_of` idxs LS v) as Hps
    by (rewrite <- Hpre; exists (idxs ls v); by rewrite <- app_assoc).
  pose proof Htk1 as [W1 I1 Hus1].
  pose proof (parent_not_empty LS root T1 _ t next p _ W1 Ht1 Hn1) as Htne.
  destruct cand.
  2:{ split_and!; [done|done|]. exists T1. split; [done|]. split; [done|].
      split; [apply (pruned_keep LS root T T1 _ next p _ _ fe W1 Hn1 Hps); [by intros ?; apply Hcand|done]|done]. }
  destruct (is_empty_spec next s1 (table_addr _ _ _ _ _ _ W1 Hn1)) as (b & Eb & Hb).
  erewrite bind_ok by exact Eb. destruct b.
  2:{ split_and!; [done|done|]. exists T1. split; [done|]. split; [done|].
      split; [apply (pruned_keep LS root T T1 _ next p _ _ fe W1 Hn1 Hps); [by intros _ He; apply Hb in He|done]|done]. }
  apply proj1 in Hb. specialize (Hb eq_refl). erewrite bind_ok by reflexivity.
  set (s2 := set_mem _ s1).
  destruct (free_table_spec T1 s1 LS root next _ Htk1 Hn1) as (a & Ef & Ia & Hsame & Hua).
  assert (free_page_table next s2 = Some (set_alloc a s2, Ok tt)) as Efp.
  { unfold free_page_table. change (palloc s2) with (palloc s1). by rewrite Ef. }
  erewrite bind_ok by exact Efp.
  pose proof (at_level_head LS T t p l ls Hat) as Hl. pose proof (level_index_range l v) as Hi.
  split_and!; [by apply (same_regs_trans s s1)|done|]. exists (delete next T1).
  split; [|split; [|split; [|split; [done|split; [done|]]]]].
  - constructor; [|done|exact Hua].
    by apply (remove_wf LS root T1 _ t next p).
  - by apply (released_step T T1 next (p ++ [level_index l v]) s s1).
  - apply (pruned_remove LS root T T1 _ t next p _ _ fe W1 Hi Ht1 Hn1 Hps Hb); [apply Hrel|done].
  - intros v'. rewrite <- Hleaf.
    apply (remove_leaf LS root T1 (pmem s1) t next p l _ W1 Ht1 Hl Hi Hn1 Hb LS v' root []).
    by apply (at_root LS root T1 (pmem s1)).
Qed.

Lemma unmap_page_spec T mg s v fe :
  paging_ok T mg s -> canonical mg v = true -> not_huge (view mg s v) ->
  match unmap_page_internal v fe s with
  | Some (s', Ok _) => view mg s v <> None /\ tlb s' = v :: tlb s
      /\ (exists T', paging_ok T' mg s' /\ tables_released T T' s s'
            /\ pruned T T' [] (idxs (mode_levels (mode mg)) v) fe (pmem s'))
      /\ forall v', view mg s' v' = if decide (same_page mg v' v) then None else view mg s v'
  | Some (s', Err e) => s' = s /\ view mg s v = None
  | None => False
  end.
Proof.
  intros Hok Hc Hnh. unfold unmap_page_internal.
  erewrite bind_ok by (by eapply get_manager_ok).
  erewrite bind_ok by (by apply check_canonical_ok).
  destruct Hok as [Hm Ht].
  pose proof (unmap_walk_spec _ _ v fe _ s T _ [] Ht (at_root _ _ _ _ (ok_wf _ _ _ _ Ht)) eq_refl Hnh) as Hw.
  destruct (unmap_walk _ _ v fe s) as [[s1 [b|e]]|] eqn:Ew; [| |done].
  - destruct Hw as ((Hr1 & _ & _ & Hr4) & Hnn & T' & Ht' & Hrel & Hpr & _ & _ & Hleaf).
    erewrite bind_ok by exact Ew. split; [done|]. split; [cbn; by rewrite Hr4|]. split; [|exact Hleaf].
    exists T'. split; [|split; [exact Hrel|exact Hpr]].
    constructor; [cbn; congruence|]. destruct Ht'. constructor; done.
  - erewrite bind_err by exact Ew. done.
Qed.

(** ** Reading *)

Lemma walk_leaf_spec LS root v ls : forall (s : pst) T t p,
  tables_ok T LS root s -> at_level LS T t p ls ->
  walk_leaf ls t v s = Some (s, match leaf (pmem s) ls t v with
                                | Some l => Ok l
                                | None => Err (default "" (match walk_leaf ls t v s with
                                    | Some (_, Err e) => Some e | _ => None end)) end).
Proof.
  induction ls as [|l ls IH]; intros s T t p Htk Hat; cbn [walk_leaf].
  all: pose proof Htk as [W I Hus]; pose proof Hat as [Ht Hls].
  all: pose proof (table_addr _ _ _ _ _ _ W Ht) as Hta.
  - erewrite !bind_ok by (by apply entry_ptr_ok). erewrite !bind_ok by reflexivity.
    fold (entry (pmem s) t (pt_index v)). cbn [leaf].
    by destruct (is_present (entry (pmem s) t (pt_index v))).
  - erewrite !bind_ok by (by apply entry_ptr_ok). erewrite !bind_ok by reflexivity.
    fold (entry (pmem s) t (level_index l v)). cbn [leaf].
    destruct (is_present (entry (pmem s) t (level_index l v))) eqn:Hp; [|done]. cbn [negb].
    destruct (huge_at l (entry (pmem s) t (level_index l v))) eqn:Hh.
    + unfold huge_at in Hh. destruct (huge_mask l); [|done]. by rewrite Hh.
    + assert (at_level LS T (pte_address (entry (pmem s) t (level_index l v)))
                (p ++ [level_index l v]) ls) as Hat'
        by (by apply (at_level_child LS root T (pmem s) t p l ls v W Hat Hp Hh)).
      specialize (IH s T _ _ Htk Hat'). unfold huge_at in Hh.
      destruct (huge_mask l); [rewrite Hh|]; exact IH.
Qed.

(** Reading never changes the state nor goes wrong on well-formed tables. *)
Lemma find_leaf_spec T mg s v :
  paging_ok T mg s -> canonical mg v = true ->
  match view mg s v with
  | Some l => find_leaf v s = Some (s, Ok l)
  | None => exists e, find_leaf v s = Some (s, Err e)
  end.
Proof.
  intros Hok Hc. unfold find_leaf. erewrite bind_ok by (by eapply get_manager_ok).
  erewrite bind_ok by (by apply check_canonical_ok). destruct Hok as [Hm Ht].
  pose proof (walk_leaf_spec _ _ v _ s T _ [] Ht (at_root _ _ _ _ (ok_wf _ _ _ _ Ht))) as Hw.
  unfold view. destruct (leaf _ _ _ v); [done|]. by eexists.
Qed.

Lemma translate_spec T mg s v :
  paging_ok T mg s -> canonical mg v = true ->
  match view mg s v with
  | Some l => translate_address v s = Some (s, Ok (leaf_phys v l))
  | None => exists e, translate_address v s = Some (s, Err e)
  end.
Proof.
  intros Hok Hc. pose proof (find_leaf_spec T mg s v Hok Hc) as Hf. unfold translate_address.
  destruct (view mg s v); [by erewrite bind_ok by exact Hf|].
  destruct Hf as [e Hf]. exists e. by erewrite bind_err by exact Hf.
Qed.

(** ** [walk_to_pt] *)

Lemma walk_to_pt_spec LS root v ls : forall (s : pst) T t p,
  tables_ok T LS root s -> at_level LS T t p ls -> not_huge (leaf (pmem s) ls t v) ->
  match leaf (pmem s) ls t v with
  | Some _ => exists pt, walk_to_pt ls t v s = Some (s, Ok (pt + 8 * pt_index v))
                         /\ T !! pt = Some (p ++ idxs ls v)
  | None => exists e, walk_to_pt ls t v s = Some (s, Err e)
  end.
Proof.
  induction ls as [|l ls IH]; intros s T t p Htk Hat Hnh; cbn [walk_to_pt].
  all: pose proof Htk as [W I Hus]; pose proof Hat as [Ht Hls].
  all: pose proof (table_addr _ _ _ _ _ _ W Ht) as Hta.
  - erewrite bind_ok by (by apply entry_ptr_ok). erewrite bind_ok by reflexivity.
    fold (entry (pmem s) t (pt_index v)). cbn [leaf].
    destruct (is_present (entry (pmem s) t (pt_index v))); cbn [negb]; [|by eexists].
    exists t. split; [done|]. cbn. by rewrite app_nil_r.
  - erewrite bind_ok by (by apply entry_ptr_ok). erewrite bind_ok by reflexivity.
    fold (entry (pmem s) t (level_index l v)).
    pose proof (not_huge_child _ ls l t v Hnh) as Hch. cbn [leaf].
    destruct (is_present (entry (pmem s) t (level_index l v))) eqn:Hp; cbn [negb]; [|by eexists].
    destruct (Hch eq_refl) as [Hh Hnh']. rewrite Hh.
    pose proof (at_level_child LS root T _ t p l ls v W Hat Hp Hh) as Hat'.
    specialize (IH s T _ _ Htk Hat' Hnh'). destruct (leaf _ ls _ v); [|done].
    destruct IH as (pt & E & Hpt). exists pt. split; [done|]. by rewrite <- app_assoc in Hpt.
Qed.

Lemma remap_page_spec T mg s v p f :
  paging_ok T mg s -> is_aligned p = true -> not_huge (view mg s v) ->
  match view mg s v with
  | Some _ => exists s', remap_page v p f s = Some (s', Ok tt) /\ paging_ok T mg s'
      /\ tlb s' = v :: tlb s
      /\ forall v', view mg s' v'
          = if decide (same_page mg v' v)
            then if is_present (pte_set p f) then Some (PageLeaf (pte_set p f)) else None
            else view mg s v'
  | None => exists e, remap_page v p f s = Some (s, Err e)
  end.
Proof.
  intros Hok Ha Hnh. unfold remap_page. erewrite !bind_ok by (by eapply get_manager_ok).
  rewrite Ha. cbn [negb]. pose proof Hok as [Hm Ht].
  pose proof (walk_to_pt_spec _ _ v _ s T _ [] Ht (at_root _ _ _ _ (ok_wf _ _ _ _ Ht)) Hnh) as Hw.
  unfold view at 1. destruct (leaf _ _ _ v).
  - destruct Hw as (pt & Ew & Hpt).
    destruct (leaf_update T mg s pt v (pte_set p f) Hok Hpt) as (s' & E & Hok' & _ & _ & Htlb & Hv).
    exists s'. split_and!; try done. erewrite bind_ok by exact Ew.
    erewrite bind_ok in E; [exact E|]. apply entry_ptr_ok.
    by apply (table_addr _ _ _ _ _ _ (ok_wf _ _ _ _ Ht) Hpt).
  - destruct Hw as [e Ew]. exists e. by erewrite bind_err by exact Ew.
Qed.
End Ops.
