(* ===== verification/PagingProps.v ===== *)
(** Paging: what it promises.

    The view of an address space is the function [view] from addresses to leaf
    entries.  The theorems say how each operation changes it on well-formed
    tables, and what happens where the code leaves that ground (huge pages,
    addresses that are not canonical, unaligned addresses). *)

From S2P Require Import Prelude E820 Pmm PmmFacts PmmProps FrameAlloc Paging PagingFacts.

(** * Addresses *)

Definition vpn_bits (m : PagingMode) : Z := match m with FourLevel => 36 | FiveLevel => 45 end.

(** The base of the page that the tables see of an address. *)
Definition page_base (mg : PagingManager) (v : Z) : Z :=
  (v / 4096) mod 2 ^ vpn_bits (mode mg) * 4096.

(** Canonical in the architecture's sense: bits 63 down to [bits - 1] agree. *)
Definition arch_canonical (bits v : Z) : Prop :=
  v / 2 ^ (bits - 1) = 0 \/ v / 2 ^ (bits - 1) = 2 ^ (65 - bits) - 1.

(** * A concrete address space, for the witnesses

    Root in frame 4 of [sample_pmm], one table of each level below it in frames
    1, 2 and 3; 0x5000 is mapped to 2 MiB, and the 2 MiB page at 2 MiB to 4 MiB. *)

Definition sample_mgr : PagingManager := mkPagingManager FourLevel 16384 false true.
Definition sample_tables : store :=
  wr (wr (wr (wr (wr ∅ 16384 (4096 + 3)) 4096 (8192 + 3)) 8192 (12288 + 3)) 8200 (4194304 + 131))
    12328 (2097152 + 3).
Definition sample_types : gmap Z (list Z) :=
  <[16384 := []]> (<[4096 := [0]]> (<[8192 := [0; 0]]> (<[12288 := [0; 0; 0]]> ∅))).
Definition sample_paging : paging_state pmm_global :=
  mkPaging (mkGlobal (Some sample_manager) (bytes sample_pmm)) sample_tables (Some sample_mgr)
    16384 0 [].

(** * Lemmas *)

Lemma idx_vpn v k : 0 <= v -> 0 <= k -> Z.land (Z.shiftr v (12 + k)) 511 = (v / 4096 / 2 ^ k) mod 512.
Proof.
  intros Hv Hk. rewrite index9 by lia. rewrite Z.pow_add_r, Z.div_div by lia. done.
Qed.

(** Two numbers agree modulo [2^(k+9)] when their low [k] bits and the nine
    bits above do. *)
Lemma mod_split x y k : 0 <= k ->
  x mod 2 ^ (k + 9) = y mod 2 ^ (k + 9)
  <-> (x / 2 ^ k) mod 512 = (y / 2 ^ k) mod 512 /\ x mod 2 ^ k = y mod 2 ^ k.
Proof.
  intros Hk. rewrite Z.pow_add_r by lia. change (2 ^ 9) with 512.
  rewrite !Z.rem_mul_r by lia.
  pose proof (Z.mod_pos_bound x (2 ^ k) ltac:(lia)). pose proof (Z.mod_pos_bound y (2 ^ k) ltac:(lia)).
  split; [|by intros [-> ->]]. intros E.
  assert ((x / 2 ^ k) mod 512 = (y / 2 ^ k) mod 512) by nia. split; [done|]. nia.
Qed.

Lemma level_index_vpn v : 0 <= v ->
  pt_index v = (v / 4096) mod 512 /\ pd_index v = (v / 4096 / 2 ^ 9) mod 512
  /\ pdpt_index v = (v / 4096 / 2 ^ 18) mod 512 /\ pml4_index v = (v / 4096 / 2 ^ 27) mod 512
  /\ pml5_index v = (v / 4096 / 2 ^ 36) mod 512.
Proof.
  intros Hv. split_and!; [|exact (idx_vpn v 9 Hv ltac:(lia))|exact (idx_vpn v 18 Hv ltac:(lia))
    |exact (idx_vpn v 27 Hv ltac:(lia))|exact (idx_vpn v 36 Hv ltac:(lia))].
  unfold pt_index. rewrite index9 by lia. done.
Qed.

Lemma vpn_split x y :
  (x mod 2 ^ 36 = y mod 2 ^ 36
   <-> (x / 2 ^ 27) mod 512 = (y / 2 ^ 27) mod 512 /\ (x / 2 ^ 18) mod 512 = (y / 2 ^ 18) mod 512
       /\ (x / 2 ^ 9) mod 512 = (y / 2 ^ 9) mod 512 /\ x mod 512 = y mod 512)
  /\ (x mod 2 ^ 45 = y mod 2 ^ 45
   <-> (x / 2 ^ 36) mod 512 = (y / 2 ^ 36) mod 512 /\ x mod 2 ^ 36 = y mod 2 ^ 36).
Proof.
  pose proof (mod_split x y 36 ltac:(lia)) as H36. pose proof (mod_split x y 27 ltac:(lia)) as H27.
  pose proof (mod_split x y 18 ltac:(lia)) as H18. pose proof (mod_split x y 9 ltac:(lia)) as H9.
  change (36 + 9) with 45 in *. change (27 + 9) with 36 in *. change (18 + 9) with 27 in *.
  change (9 + 9) with 18 in *. change (x mod 2 ^ 9) with (x mod 512) in *.
  change (y mod 2 ^ 9) with (y mod 512) in *. tauto.
Qed.

Lemma same_page_base mg v v' : 0 <= v -> 0 <= v' ->
  same_page mg v v' <-> page_base mg v = page_base mg v'.
Proof.
  intros Hv Hv'. unfold same_page, page_base.
  assert (forall a b, a * 4096 = b * 4096 <-> a = b) as -> by (intros; lia).
  destruct (level_index_vpn v Hv) as (E1 & E2 & E3 & E4 & E5).
  destruct (level_index_vpn v' Hv') as (F1 & F2 & F3 & F4 & F5).
  destruct (vpn_split (v / 4096) (v' / 4096)) as [H4 H5].
  unfold page_path, idxs, vpn_bits.
  destruct (mode mg); cbn [mode_levels app fmap list_fmap level_index];
    rewrite ?E1, ?E2, ?E3, ?E4, ?E5, ?F1, ?F2, ?F3, ?F4, ?F5.
  - rewrite H4. split; [by intros [= -> -> -> ->]|by intros (-> & -> & -> & ->)].
  - rewrite H5, H4. split; [by intros [= -> -> -> -> ->]|by intros (-> & -> & -> & -> & ->)].
Qed.

Lemma page_base_small mg v : 0 <= v < 2 ^ 48 -> page_base mg v = v - v mod 4096.
Proof.
  intros Hv. unfold page_base. rewrite Z.mod_small.
  - pose proof (Z.div_mod v 4096 ltac:(lia)). lia.
  - split; [apply Z.div_pos; lia|]. apply Z.div_lt_upper_bound; [lia|].
    unfold vpn_bits. destruct (mode mg); lia.
Qed.

Lemma canonical_small mg v : 0 <= v < 2 ^ 48 -> canonical mg v = true.
Proof.
  intros Hv. unfold canonical, is_canonical_la48, is_canonical_la57.
  rewrite !Z.shiftr_div_pow2 by lia.
  rewrite !(Z.div_small v) by lia. by destruct (mode mg).
Qed.

(** ** Ranges

    The addresses whose page, as the tables see it, is a page of the aligned
    range, when the range does not run past the end of what the tables can tell
    apart. *)
Definition covers (mg : PagingManager) (lo hi v : Z) : Prop :=
  page_base mg lo <= page_base mg v < page_base mg lo + (hi - lo).

#[export] Instance covers_dec mg lo hi v : Decision (covers mg lo hi v).
Proof. unfold covers. apply _. Defined.

Record one_window (mg : PagingManager) (lo hi : Z) : Prop := {
  ow_canonical : forall a, lo <= a < hi -> canonical mg a = true;
  ow_fits : page_base mg lo + (hi - lo) <= 2 ^ vpn_bits (mode mg) * 4096;
}.

Lemma window_base mg lo hi a : one_window mg lo hi -> 0 <= lo -> lo mod 4096 = 0 -> lo <= a < hi ->
  page_base mg a = page_base mg lo + (a - a mod 4096 - lo).
Proof.
  intros [_ Hf] H0 Hm Ha. unfold page_base in *.
  assert (0 < 2 ^ vpn_bits (mode mg)) by (unfold vpn_bits; destruct (mode mg); lia).
  set (N := 2 ^ vpn_bits (mode mg)) in *.
  assert (a / 4096 = lo / 4096 + (a - lo) / 4096) as E by dlia.
  pose proof (Z.mod_pos_bound (lo / 4096) N ltac:(lia)).
  replace ((a / 4096) mod N) with ((lo / 4096) mod N + (a - lo) / 4096); [dlia|].
  rewrite E, <- Zplus_mod_idemp_l. symmetry. apply Z.mod_small. dlia.
Qed.

Lemma window_next mg lo hi : one_window mg lo hi -> 0 <= lo -> lo mod 4096 = 0 -> lo + 4096 <= hi -> one_window mg (lo + 4096) hi.
Proof.
  intros W H0 Hm Hh. constructor; [intros; apply (ow_canonical _ _ _ W); lia|].
  destruct (decide (lo + 4096 = hi)) as [<-|].
  - rewrite Z.sub_diag, Z.add_0_r. unfold page_base.
    pose proof (Z.mod_pos_bound ((lo + 4096) / 4096) (2 ^ vpn_bits (mode mg))
      ltac:(unfold vpn_bits; destruct (mode mg); lia)). lia.
  - rewrite (window_base mg lo hi (lo + 4096)) by (done || lia). pose proof (ow_fits _ _ _ W).
    replace ((lo + 4096) mod 4096) with 0 by dlia. lia.
Qed.

(** The first page, and the others. *)
Lemma covers_next mg lo hi v : one_window mg lo hi -> 0 <= lo -> lo mod 4096 = 0 -> lo + 4096 <= hi ->
  covers mg lo hi v <-> page_base mg v = page_base mg lo \/ covers mg (lo + 4096) hi v.
Proof.
  intros W H0 Hm Hh. unfold covers.
  assert (page_base mg v mod 4096 = 0) as Hv by (apply Z.mod_mul; lia).
  assert (page_base mg lo mod 4096 = 0) as Hl by (apply Z.mod_mul; lia).
  destruct (decide (lo + 4096 = hi)) as [<-|]; [split; [intros; left; dlia|intros [->|]; lia]|].
  rewrite (window_base mg lo hi (lo + 4096)) by (done || lia).
  replace ((lo + 4096) mod 4096) with 0 by dlia. split; [intros; dlia|lia].
Qed.

(** Addresses of programs, below 2^47. *)
Lemma one_window_user mg lo hi : 0 <= lo -> lo mod 4096 = 0 -> hi <= 2 ^ 47 -> lo < hi -> one_window mg lo hi.
Proof.
  intros H0 Hm Hh Hlt. constructor; [intros; apply canonical_small; lia|].
  rewrite page_base_small by lia. unfold vpn_bits. destruct (mode mg); lia.
Qed.

Lemma covers_user mg lo hi v : 0 <= lo < 2 ^ 48 -> lo mod 4096 = 0 -> covers mg lo hi v <-> lo <= page_base mg v < hi.
Proof. intros H0 Hm. unfold covers. rewrite page_base_small by lia. lia. Qed.

Lemma is_aligned_mod p : is_aligned p = true <-> p mod 4096 = 0.
Proof.
  unfold is_aligned. change 4095 with (2 ^ 12 - 1). rewrite land_low by lia. apply Z.eqb_eq.
Qed.

Lemma align_down_spec p : is_u64 p -> align_down p = p - p mod 4096.
Proof. intros. unfold align_down. change 4095 with (2 ^ 12 - 1). by rewrite not64_mask by (done || lia). Qed.

Lemma align_up_spec p : 0 <= p <= 2 ^ 47 ->
  align_up p mod 4096 = 0 /\ p <= align_up p < p + 4096.
Proof.
  intros Hp. unfold align_up. rewrite add64_small by (unfold U64; lia).
  change 4095 with (2 ^ 12 - 1). rewrite not64_mask by (unfold is_u64, U64; lia).
  change (2 ^ 12) with 4096. split; dlia.
Qed.

Lemma page_leaf_phys p f v :
  0 <= p < 2 ^ 52 -> p mod 4096 = 0 -> flags_ok f ->
  leaf_phys v (PageLeaf (pte_set p f)) = p + v mod 4096.
Proof.
  intros Hp Hm Hf. cbn [leaf_phys]. rewrite pte_set_address by done.
  unfold page_offset. change 4095 with (2 ^ 12 - 1). rewrite land_low by lia.
  change (2 ^ 12) with 4096. apply (lor_disjoint_add 12); [lia|done|].
  apply Z.mod_pos_bound. lia.
Qed.

Section Props.
Context {A : Type} {Ops : FrameOps A} {Laws : FrameLaws A}.
Notation pst := (paging_state A).
Implicit Types (s : pst) (mg : PagingManager).

(** The loop of [identity_map_range]: it maps a prefix [addr .. k) of the range,
    the whole of it unless a table cannot be allocated. *)
Lemma identity_loop_spec mg f end_ n : forall addr s T,
  flags_ok f -> is_present f = true ->
  paging_ok T mg s -> 0 <= addr -> addr mod 4096 = 0 -> end_ mod 4096 = 0 -> end_ <= 2 ^ 47 + 4096 ->
  end_ - addr <= 4096 * Z.of_nat n ->
  (forall v, addr <= v < end_ -> not_huge (view mg s v)) ->
  match identity_map_loop n addr end_ f s with
  | Some (s', r) => exists k, addr <= k
      /\ (match r with Ok _ => k = Z.max addr end_ | Err _ => k < end_ end)
      /\ (exists T', paging_ok T' mg s')
      /\ forall v, 0 <= v -> view mg s' v
          = if decide (addr <= page_base mg v < k) then Some (PageLeaf (pte_set (page_base mg v) f))
            else view mg s v
  | None => False
  end.
Proof.
  induction n as [|n IH]; intros addr s T Hf Hp Hok H0 Ha He Hmax Hn Hnh; cbn [identity_map_loop].
  { destruct (Z.ltb_spec addr end_); [lia|]. exists addr. split_and!; [lia|lia|by exists T|].
    intros v Hv. by rewrite decide_False by lia. }
  destruct (Z.ltb_spec addr end_) as [Hlt|].
  2:{ exists addr. split_and!; [lia|lia|by exists T|]. intros v Hv. by rewrite decide_False by lia. }
  pose proof (map_page_spec T mg s addr addr f Hok (canonical_small mg addr ltac:(lia))
    (proj2 (is_aligned_mod addr) Ha) (Hnh addr ltac:(lia))) as Hm.
  destruct (map_page addr addr f s) as [[s1 r1]|] eqn:Em; [|done].
  destruct Hm as (_ & T1 & Hok1 & Hv1). destruct r1 as [u|e].
  2:{ erewrite bind_err by exact Em. exists addr. split_and!; [lia|done|by exists T1|].
      intros v Hv. rewrite decide_False by lia. by apply Hv1. }
  destruct Hv1 as [_ Hv1]. erewrite bind_ok by exact Em.
  rewrite pte_set_present in Hv1 by done.
  assert (addr +w PAGING_PAGE_SIZE = addr + 4096) as Hadd.
  { apply add64_small. unfold PAGING_PAGE_SIZE, U64. lia. }
  rewrite Hadd.
  assert (forall v, 0 <= v -> same_page mg v addr <-> page_base mg v = addr) as Hsp.
  { intros v Hv. rewrite same_page_base by lia. rewrite (page_base_small mg addr) by lia.
    by rewrite Ha, Z.sub_0_r. }
  assert (forall v, addr + 4096 <= v < end_ -> not_huge (view mg s1 v)) as Hnh1.
  { intros v Hv. rewrite Hv1. case_decide as E; [done|]. apply Hnh. lia. }
  specialize (IH (addr + 4096) s1 T1 Hf Hp Hok1 ltac:(lia) ltac:(dlia) He Hmax ltac:(lia) Hnh1).
  destruct (identity_map_loop n (addr + 4096) end_ f s1) as [[s' r]|]; [|done].
  destruct IH as (k & Hk & Hr & HT & Hview).
  assert (addr + 4096 <= end_) by dlia.
  exists k. split_and!; [lia|destruct r; lia|done|].
  intros v Hv. rewrite Hview by done. rewrite Hv1.
  assert (page_base mg v mod 4096 = 0) as Hbm by (apply Z.mod_mul; lia).
  destruct (decide (same_page mg v addr)) as [E|E]; rewrite Hsp in E by done.
  - rewrite (decide_False (P := addr + 4096 <= _ < k)) by lia. rewrite E.
    by rewrite decide_True by lia.
  - destruct (decide (addr + 4096 <= page_base mg v < k)); [by rewrite decide_True by lia|].
    rewrite decide_False; [done|]. intros Hx. apply E. dlia.
Qed.

(** Through present entries down to a 2 MiB entry, [walk_create] ends at the
    data page: it does not look at the huge bit. *)
Lemma walk_create_huge LS root v f e ls : forall s T t p,
  tables_ok T LS root s -> at_level LS T t p ls ->
  (forall ls1 ls2, LS = ls1 ++ PD :: ls2 -> ls2 = []) ->
  leaf (pmem s) ls t v = Some (HugeLeaf 2097151 e) ->
  walk_create ls t v f s = Some (s, Ok (pte_address e)).
Proof.
  induction ls as [|l ls IH]; intros s T t p Htk Hat Hlast Hl; cbn [walk_create leaf] in *.
  { by destruct (is_present _). }
  pose proof Htk as [W I Hus]. pose proof Hat as [Ht (ls1 & HLS & _)].
  pose proof (table_addr _ _ _ _ _ _ W Ht) as Hta.
  erewrite bind_ok by (by apply entry_ptr_ok). unfold get_or_create_next_level.
  destruct (is_present (entry (pmem s) t (level_index l v))) eqn:Hp; [|done].
  erewrite bind_ok; [|erewrite bind_ok by reflexivity; cbv beta;
    fold (entry (pmem s) t (level_index l v)); rewrite Hp; reflexivity].
  destruct (huge_at l (entry (pmem s) t (level_index l v))) eqn:Hh.
  - destruct l; cbn in Hl; try done. injection Hl as <-. by rewrite (Hlast _ _ HLS).
  - eapply IH; [done| |done|done]. by apply (at_level_child LS root T (pmem s) t p l ls v).
Qed.

Lemma pd_last m ls1 ls2 : mode_levels m = ls1 ++ PD :: ls2 -> ls2 = [].
Proof.
  destruct m, ls1 as [|a [|b [|c [|d ls1]]]]; cbn; intros E; try done; try (by injection E);
    exfalso; injection E as _ _ _ E; try (injection E as _ E); by destruct ls1.
Qed.

(** Memory that agrees on the tables gives the same lookups. *)
Lemma leaf_ext LS root T m m' v ls : pt_wf T LS root m ->
  (forall a p i, T !! a = Some p -> 0 <= i < 512 -> entry m' a i = entry m a i) ->
  forall t p, at_level LS T t p ls -> leaf m' ls t v = leaf m ls t v.
Proof.
  intros W Hext. induction ls as [|l ls IH]; intros t p Hat; cbn [leaf];
    rewrite (Hext t p) by (apply Hat || apply level_index_range || apply (level_index_range PT));
    [done|].
  destruct (is_present (entry m t (level_index l v))) eqn:Hp; [|done].
  destruct (huge_at l (entry m t (level_index l v))) eqn:Hh; [done|].
  eapply IH. by apply (at_level_child LS root T m t p l ls v).
Qed.

(** * Properties *)

(** C4. [map_page] on well-formed tables, for an accepted address, an aligned
    frame and a page not inside a huge one: no table pointer is null; with
    success exactly the pages that the indices of the address select change, to
    an entry of the given frame and flags, and the address is flushed from the
    TLB; with an error no translation changes and nothing is flushed.  Either way
    the tables stay well-formed, and what has been allocated is told exactly: the
    old tables stay, new ones lie on the path of the address, in frames that were
    free, and the frames newly in use are those of the new tables.  Tables created
    before an error are kept.  There are two errors: the allocator has no frame for
    a table, or the frame it gives lies at 4 GiB or above; that frame is lost, in
    use and held by no table. *)
Theorem map_page_correct T mg s v p f :
  paging_ok T mg s -> canonical mg v = true -> p mod 4096 = 0 -> is_present f = true ->
  not_huge (view mg s v) ->
  match map_page v p f s with
  | Some (s', r) => exists T' lost, paging_ok T' mg s' /\ T ⊆ T'
      /\ (forall a q, T' !! a = Some q -> T !! a = Some q
            \/ (q `prefix_of` idxs (mode_levels (mode mg)) v /\ fa_used (palloc s) (a / 4096) = false))
      /\ (forall g, fa_used (palloc s') g = true <-> fa_used (palloc s) g = true
            \/ (exists a q, T' !! a = Some q /\ T !! a = None /\ a / 4096 = g) \/ lost = Some g) /\
      match r with
      | Ok _ => lost = None /\ tlb s' = v :: tlb s
          /\ forall v', view mg s' v'
              = if decide (same_page mg v' v) then Some (PageLeaf (pte_set p f)) else view mg s v'
      | Err e => tlb s' = tlb s /\ (forall v', view mg s' v' = view mg s v') /\
          match lost with
          | None => e = "Failed to allocate page table frame"
          | Some g => e = "Page table frame not identity-mapped (<4 GiB required)"
              /\ U32 <= g * 4096 /\ fa_used (palloc s) g = false
          end
      end
  | None => False
  end.
Proof.
  intros Hok Hc Hp Hf Hnh.
  pose proof (map_page_grows T mg s v p f Hok Hc (proj2 (is_aligned_mod p) Hp) Hnh) as Hm.
  rewrite pte_set_present in Hm by done.
  destruct (map_page v p f s) as [[s' r]|]; [|done]. destruct Hm as (T' & lost & Hok' & [Hsub Hnew Hused Hfree] & Hr).
  exists T', lost. split; [done|]. split; [done|]. split; [done|]. split; [exact Hused|].
  destruct r as [u|e]; [done|]. destruct Hr as (He & Ht & Hv). split; [done|]. split; [done|].
  destruct lost as [g|]; [|done]. destruct He as [-> Hg]. split_and!; [done|done|by apply Hfree].
Qed.

(** Round trip: after a successful [map_page] of [v] to [p], every address
    of the page translates to [p] plus its offset, and every address of another
    page translates as before. *)
Theorem translate_after_map T mg s s' v p f v' :
  paging_ok T mg s -> canonical mg v = true -> canonical mg v' = true -> not_huge (view mg s v) ->
  0 <= p < 2 ^ 52 -> p mod 4096 = 0 -> flags_ok f -> is_present f = true -> 0 <= v -> 0 <= v' ->
  map_page v p f s = Some (s', Ok tt) ->
  if decide (page_base mg v' = page_base mg v)
  then translate_address v' s' = Some (s', Ok (p + v' mod 4096))
  else forall q, translate_address v' s = Some (s, Ok q) <-> translate_address v' s' = Some (s', Ok q).
Proof.
  intros Hok Hc Hc' Hnh Hp Hpa Hf Hfp Hv Hv' Em.
  pose proof (map_page_spec T mg s v p f Hok Hc (proj2 (is_aligned_mod p) Hpa) Hnh) as Hm.
  rewrite Em in Hm. destruct Hm as (_ & T' & Hok' & _ & Hview).
  rewrite pte_set_present in Hview by done.
  pose proof (translate_spec T mg s v' Hok Hc') as Ht.
  pose proof (translate_spec T' mg s' v' Hok' Hc') as Ht'. rewrite Hview in Ht'.
  destruct (decide (page_base mg v' = page_base mg v)) as [E|E].
  - rewrite decide_True in Ht' by (by apply same_page_base). by rewrite page_leaf_phys in Ht'.
  - rewrite decide_False in Ht' by (by rewrite same_page_base). intros q.
    destruct (view mg s v') as [l|]; [rewrite Ht, Ht'; split; by intros [= ->]|].
    destruct Ht as [e ->], Ht' as [e' ->]. split; by intros [=].
Qed.

(** C30. [unmap_page] on well-formed tables: it succeeds exactly when the page is
    mapped; then that page and no other disappears, the address is flushed and
    the tables stay well-formed.  The frames freed are exactly those of the tables
    that are gone, so the frame of the page itself is not; a table that is gone is
    on the path of the address, not the root, and has no entry; and every
    table left on the path below the root has an entry, so all emptied ones are
    gone.  When it fails nothing has changed. *)
Theorem unmap_page_correct T mg s v :
  paging_ok T mg s -> canonical mg v = true -> not_huge (view mg s v) ->
  let path := idxs (mode_levels (mode mg)) v in
  match unmap_page v s with
  | Some (s', Ok _) => view mg s v <> None /\ tlb s' = v :: tlb s
      /\ (forall v', view mg s' v' = if decide (same_page mg v' v) then None else view mg s v')
      /\ exists T', paging_ok T' mg s'
        /\ (forall a q, T' !! a = Some q -> T !! a = Some q)
        /\ (forall g, fa_used (palloc s') g = true <-> fa_used (palloc s) g = true
              /\ forall a q, T !! a = Some q -> T' !! a = None -> a / 4096 <> g)
        /\ (forall a q, T !! a = Some q -> T' !! a = None ->
              q <> [] /\ q `prefix_of` path /\ table_empty (pmem s') a)
        /\ (forall a q, T' !! a = Some q -> q <> [] -> q `prefix_of` path -> ~ table_empty (pmem s') a)
  | Some (s', Err e) => s' = s /\ view mg s v = None
  | None => False
  end.
Proof.
  intros Hok Hc Hnh path. pose proof (unmap_page_spec T mg s v true Hok Hc Hnh) as Hu. unfold unmap_page.
  destruct (unmap_page_internal v true s) as [[s' [u|e]]|]; [|done|done].
  destruct Hu as (Hv & Ht & (T' & Hok' & [Hsub Hus] & [Hgone Hleft]) & Hview).
  split; [done|]. split; [done|]. split; [done|]. exists T'. split; [done|]. split; [done|]. split; [done|]. split.
  - intros a q Ha Hn. destruct (Hgone a q Ha Hn) as (Hl & Hq & He). split; [by intros ->; cbn in Hl; lia|done].
  - intros a q Ha Hn Hq. apply (Hleft a q Ha); [|done|done]. destruct q; [done|cbn; lia].
Qed.

(** [identity_map_range] below 2^47 terminates and maps a prefix of the range
    page by page, all of it on success: then every address of the range
    translates to itself; no page outside the range changes, and the tables stay
    well-formed. *)
Theorem identity_map_correct T mg s start end_ f :
  paging_ok T mg s -> is_u64 start -> 0 <= end_ <= 2 ^ 47 -> flags_ok f -> is_present f = true ->
  (forall v, align_down start <= v < align_up end_ -> not_huge (view mg s v)) ->
  match identity_map_range start end_ f s with
  | Some (s', r) => (exists T', paging_ok T' mg s')
      /\ (forall v, 0 <= v -> ~ (align_down start <= page_base mg v < align_up end_) ->
            view mg s' v = view mg s v)
      /\ (r = Ok tt -> forall v, align_down start <= v < align_up end_ ->
            translate_address v s' = Some (s', Ok v))
  | None => False
  end.
Proof.
  intros Hok Hs He Hf Hp Hnh. unfold identity_map_range.
  erewrite bind_ok by (by eapply get_manager_ok).
  destruct (align_up_spec end_ He) as [Hem Her].
  pose proof (align_down_spec start Hs) as Hd. unfold is_u64 in Hs.
  assert (0 <= align_down start /\ align_down start mod 4096 = 0) as [Hd0 Hdm] by (rewrite Hd; split; dlia).
  pose proof (identity_loop_spec mg f (align_up end_)
    (Z.to_nat ((align_up end_ - align_down start) / PAGING_PAGE_SIZE + 1)) (align_down start) s T
    Hf Hp Hok Hd0 Hdm Hem ltac:(lia) ltac:(unfold PAGING_PAGE_SIZE; dlia) Hnh) as Hl.
  destruct (identity_map_loop _ _ _ _ _) as [[s' r]|]; [|done].
  destruct Hl as (k & Hk & Hr & [T' Hok'] & Hview). split_and!; [by exists T'| |].
  - intros v Hv Hout. rewrite Hview by done. rewrite decide_False; [done|].
    destruct r; lia.
  - intros -> v Hv. pose proof (translate_spec T' mg s' v Hok' (canonical_small mg v ltac:(lia))) as Ht.
    rewrite Hview in Ht by lia. pose proof (page_base_small mg v ltac:(lia)) as Hb.
    rewrite decide_True in Ht by (rewrite Hb; dlia).
    rewrite page_leaf_phys in Ht by (done || (rewrite Hb; dlia)). rewrite Ht. do 3 f_equal. lia.
Qed.

(** [change_page_flags] of a mapped 4 KiB page keeps its frame and sets its
    flags, for that page only; at an address that is not page-aligned it is
    refused although the page is mapped, because the translated address carries
    the offset. *)
Theorem change_page_flags_correct T mg s v e f :
  paging_ok T mg s -> canonical mg v = true -> view mg s v = Some (PageLeaf e) -> 0 <= v -> 0 <= e ->
  if decide (v mod 4096 = 0)
  then exists s', change_page_flags v f s = Some (s', Ok tt) /\ (exists T', paging_ok T' mg s')
    /\ tlb s' = v :: tlb s
    /\ forall v', view mg s' v'
        = if decide (same_page mg v' v)
          then if is_present (pte_set (pte_address e) f)
               then Some (PageLeaf (pte_set (pte_address e) f)) else None
          else view mg s v'
  else change_page_flags v f s = Some (s, Err "Physical address not page-aligned").
Proof.
  intros Hok Hc Hv Hv0 He. pose proof (translate_spec T mg s v Hok Hc) as Ht. rewrite Hv in Ht.
  assert (leaf_phys v (PageLeaf e) = pte_address e + v mod 4096) as Hl.
  { cbn [leaf_phys]. unfold page_offset. change 4095 with (2 ^ 12 - 1). rewrite land_low by lia.
    apply (lor_disjoint_add 12); [lia|by apply pte_address_aligned|]. apply Z.mod_pos_bound. lia. }
  pose proof (pte_address_aligned e He) as Ha. unfold change_page_flags.
  case_decide as Em.
  - rewrite Em, Z.add_0_r in Hl. erewrite bind_ok by exact Ht. rewrite Hl.
    pose proof (remap_page_spec T mg s v (pte_address e) f Hok
      (proj2 (is_aligned_mod _) Ha) ltac:(by rewrite Hv)) as Hr.
    rewrite Hv in Hr. destruct Hr as (s' & E & Hok' & Htlb & Hview).
    exists s'. split_and!; [done|by exists T|done|done].
  - erewrite bind_ok by exact Ht. unfold remap_page. erewrite bind_ok by (by eapply get_manager_ok).
    assert (is_aligned (leaf_phys v (PageLeaf e)) = false) as ->; [|done].
    apply not_true_is_false. rewrite is_aligned_mod, Hl. intros E. apply Em.
    clear -E Ha. dlia.
Qed.

(** [map_page] does not look at the huge bit: on a page inside a 2 MiB
    mapping it reports success, writes the new entry into the mapped memory (the
    word [pt_index] of the data page) and leaves the translation as it was. *)
Theorem map_page_through_huge T mg s v p f e :
  paging_ok T mg s -> canonical mg v = true -> p mod 4096 = 0 ->
  view mg s v = Some (HugeLeaf 2097151 e) -> 0 <= e -> 0 < pte_address e < U32 ->
  T !! pte_address e = None ->
  exists s', map_page v p f s = Some (s', Ok tt)
    /\ pmem s' = wr (pmem s) (pte_address e + 8 * pt_index v) (pte_set p f)
    /\ forall v', view mg s' v' = view mg s v'.
Proof.
  intros Hok Hc Hp Hv He Hd Hnt. unfold map_page.
  erewrite bind_ok by (by eapply get_manager_ok).
  rewrite (proj2 (is_aligned_mod p) Hp). cbn [negb].
  erewrite bind_ok by (by apply check_canonical_ok). pose proof Hok as [Hm Ht].
  pose proof (ok_wf _ _ _ _ Ht) as W.
  erewrite bind_ok by (apply (walk_create_huge _ _ v f e _ s T _ [] Ht (at_root _ _ _ _ W)
    (pd_last (mode mg)) Hv)).
  erewrite bind_ok by (by apply entry_ptr_ok). eexists. split_and!; [reflexivity|done|].
  intros v'. unfold view. cbn [pmem invlpg set_mem].
  eapply (leaf_ext _ _ T _ _ v' _ W); [|by eapply at_root].
  intros a q i Ha Hi. pose proof (wf_aligned _ _ _ _ _ _ W Ha).
  pose proof (level_index_range PT v) as Hr. cbn in Hr.
  rewrite entry_wr by (done || by apply pte_address_aligned).
  rewrite decide_False; [done|]. intros [<- _]. congruence.
Qed.

(** The canonical checks accept more than canonical addresses: for every
    [v] below 2^48 (2^57) both [v] and [v] with all higher bits set are accepted
    and share their table entries, but exactly one of the two is canonical; so a
    mapping made at either one is visible at the other. *)
Theorem canonical_check_aliases mg v :
  let bits := 12 + vpn_bits (mode mg) in
  0 <= v < 2 ^ bits ->
  let w := v + (2 ^ 64 - 2 ^ bits) in
  canonical mg v = true /\ canonical mg w = true /\ same_page mg v w
  /\ (arch_canonical bits v <-> ~ arch_canonical bits w).
Proof.
  cbv zeta. intros Hv.
  assert (same_page mg v (v + (2 ^ 64 - 2 ^ (12 + vpn_bits (mode mg))))) as Hs.
  { unfold vpn_bits in *. apply same_page_base; [lia|destruct (mode mg); lia|]. unfold page_base, vpn_bits.
    destruct (mode mg); cbn in Hv |- *; dlia. }
  unfold canonical, is_canonical_la48, is_canonical_la57, arch_canonical in *.
  unfold vpn_bits in *. rewrite !Z.shiftr_div_pow2 by lia.
  destruct (mode mg); cbn in Hv |- *; split_and!; try done.
  all: try (clear Hs; apply orb_true_iff; rewrite !Z.eqb_eq; dlia).
  all: clear Hs; split; [intros [|] []|]; dlia.
Qed.
End Props.

(** * Witnesses *)

Lemma sample_tables_lookup a e : rd sample_tables a = e -> e <> 0 ->
  (a = 16384 /\ e = 4099) \/ (a = 4096 /\ e = 8195) \/ (a = 8192 /\ e = 12291)
  \/ (a = 8200 /\ e = 4194435) \/ (a = 12328 /\ e = 2097155).
Proof.
  unfold sample_tables. rewrite !rd_wr. intros <- Hne. repeat case_decide; subst; auto 10.
  unfold rd in Hne. by rewrite lookup_empty in Hne.
Qed.

Lemma sample_types_lookup a p : sample_types !! a = Some p ->
  (a = 16384 /\ p = []) \/ (a = 4096 /\ p = [0]) \/ (a = 8192 /\ p = [0; 0])
  \/ (a = 12288 /\ p = [0; 0; 0]).
Proof.
  unfold sample_types. rewrite !lookup_insert_Some, lookup_empty. intuition (subst; auto; done).
Qed.

Lemma sample_entry a i e : entry sample_tables a i = e -> e <> 0 ->
  (a + 8 * i = 16384 /\ e = 4099) \/ (a + 8 * i = 4096 /\ e = 8195)
  \/ (a + 8 * i = 8192 /\ e = 12291) \/ (a + 8 * i = 8200 /\ e = 4194435)
  \/ (a + 8 * i = 12328 /\ e = 2097155).
Proof. apply sample_tables_lookup. Qed.

Lemma present_nonzero e : is_present e = true -> e <> 0.
Proof. by intros H ->. Qed.

Lemma sample_wf : pt_wf sample_types (mode_levels FourLevel) 16384 sample_tables.
Proof.
  constructor.
  - done.
  - intros a b p Ha%sample_types_lookup Hb%sample_types_lookup.
    destruct Ha as [[-> ->]|[[-> ->]|[[-> ->]|[-> ->]]]];
      destruct Hb as [[-> E]|[[-> E]|[[-> E]|[-> E]]]]; done.
  - intros a p Ha%sample_types_lookup.
    destruct Ha as [[-> _]|[[-> _]|[[-> _]|[-> _]]]]; done.
  - intros a p l i Ha%sample_types_lookup Hl Hi Hp Hh.
    destruct (sample_entry a i _ eq_refl (present_nonzero _ Hp)) as [[E1 E2]|[[E1 E2]|[[E1 E2]|[[E1 E2]|[E1 E2]]]]];
      rewrite E2 in *;
      destruct Ha as [[-> ->]|[[-> ->]|[[-> ->]|[-> ->]]]]; try lia; cbn in Hl; try done;
      injection Hl as <-; try done.
    all: assert (i = 0) as -> by lia; done.
  - intros b p i Hb%sample_types_lookup.
    destruct Hb as [[-> E]|[[-> E]|[[-> E]|[-> E]]]].
    + by destruct p.
    + destruct p as [|x p]; [|by destruct p]. simplify_eq/=. exists 16384, PML4. by split_and!.
    + destruct p as [|x [|y p]]; [done| |by destruct p]. simplify_eq/=. exists 4096, PDPT. by split_and!.
    + destruct p as [|x [|y [|z p]]]; [done|done| |by destruct p]. simplify_eq/=.
      exists 8192, PD. by split_and!.
Qed.

Lemma sample_paging_ok : paging_ok sample_types sample_mgr sample_paging.
Proof.
  constructor; [done|]. constructor.
  - exact sample_wf.
  - split; [exact sample_inv|done].
  - intros a p Ha%sample_types_lookup.
    destruct Ha as [[-> _]|[[-> _]|[[-> _]|[-> _]]]]; by vm_compute.
Qed.

Lemma sample_not_huge v :
  match view sample_mgr sample_paging v with Some (HugeLeaf _ _) => false | _ => true end = true ->
  not_huge (view sample_mgr sample_paging v).
Proof. intros H mask e E. by rewrite E in H. Qed.

Lemma map_page_correct_witness :
  exists s', map_page 24576 3145728 3 sample_paging = Some (s', Ok tt)
    /\ view sample_mgr s' 24580 = Some (PageLeaf 3145731)
    /\ view sample_mgr s' 20480 = Some (PageLeaf 2097155).
Proof.
  pose proof (map_page_correct sample_types sample_mgr sample_paging 24576 3145728 3 sample_paging_ok
    ltac:(done) ltac:(done) ltac:(done) (sample_not_huge 24576 eq_refl)) as H.
  assert (snd <$> map_page 24576 3145728 3 sample_paging = Some (Ok tt)) as E by (by vm_compute).
  destruct (map_page 24576 3145728 3 sample_paging) as [[s' r]|]; [|done].
  injection E as ->. exists s'. destruct H as (T' & lost & _ & _ & _ & _ & _ & _ & Hv). split; [done|].
  split; rewrite Hv; by vm_compute.
Defined.

Lemma translate_after_map_witness :
  exists s', map_page 24576 3145728 3 sample_paging = Some (s', Ok tt)
    /\ translate_address 24580 s' = Some (s', Ok 3145732).
Proof.
  assert (snd <$> map_page 24576 3145728 3 sample_paging = Some (Ok tt)) as E by (by vm_compute).
  destruct (map_page 24576 3145728 3 sample_paging) as [[s' r]|] eqn:Em; [|done].
  injection E as ->. exists s'. split; [done|].
  exact (translate_after_map sample_types sample_mgr sample_paging s' 24576 3145728 3 24580
    sample_paging_ok ltac:(done) ltac:(done) (sample_not_huge 24576 eq_refl) ltac:(done) ltac:(done)
    ltac:(done) ltac:(done) ltac:(done) ltac:(done) Em).
Defined.

Lemma unmap_page_correct_witness :
  exists s', unmap_page 20480 sample_paging = Some (s', Ok tt)
    /\ view sample_mgr s' 20480 = None
    /\ view sample_mgr s' 2097152 = Some (HugeLeaf 2097151 4194435)
    /\ fa_used (palloc sample_paging) 3 = true /\ fa_used (palloc s') 3 = false
    /\ fa_used (palloc s') 2 = true.
Proof.
  pose proof (unmap_page_correct sample_types sample_mgr sample_paging 20480 sample_paging_ok
    ltac:(done) (sample_not_huge 20480 eq_refl)) as H. cbv zeta in H.
  assert ((fun r => (r.2, fa_used (palloc r.1) 3, fa_used (palloc r.1) 2)) <$> unmap_page 20480 sample_paging
    = Some (Ok tt, false, true)) as E by (by vm_compute).
  destruct (unmap_page 20480 sample_paging) as [[s' r]|]; [|done].
  injection E as -> E3 E2. exists s'. destruct H as (_ & _ & Hv & _). split; [done|].
  split; [rewrite Hv; by vm_compute|]. split; [rewrite Hv; by vm_compute|]. split; [by vm_compute|done].
Defined.

Lemma identity_map_correct_witness :
  exists s', identity_map_range 24577 28673 3 sample_paging = Some (s', Ok tt)
    /\ translate_address 24999 s' = Some (s', Ok 24999).
Proof.
  pose proof (identity_map_correct sample_types sample_mgr sample_paging 24577 28673 3
    sample_paging_ok ltac:(done) ltac:(done) ltac:(done) ltac:(done)) as H.
  assert (snd <$> identity_map_range 24577 28673 3 sample_paging = Some (Ok tt)) as E
    by (by vm_compute).
  destruct (identity_map_range 24577 28673 3 sample_paging) as [[s' r]|]; [|destruct H; done].
  injection E as ->. exists s'. split; [done|]. apply H; [|done|done].
  intros v Hv. change (align_down 24577) with 24576 in Hv. change (align_up 28673) with 32768 in Hv.
  assert (idxs [PML4; PDPT; PD] v = [0; 0; 0]) as Hi.
  { cbn. unfold pml4_index, pdpt_index, pd_index. rewrite !index9 by lia. repeat f_equal; dlia. }
  intros mask e. change (view sample_mgr sample_paging v) with
    (leaf sample_tables (mode_levels FourLevel) 16384 v).
  rewrite (leaf_at (mode_levels FourLevel) 16384 sample_types sample_tables 12288 v _ sample_wf 16384 []
    (at_root _ _ _ _ sample_wf)) by (cbn [mode_levels]; by rewrite Hi).
  cbv zeta. by destruct (is_present _).
Defined.

Lemma change_page_flags_correct_witness :
  (exists s', change_page_flags 20480 1 sample_paging = Some (s', Ok tt)
    /\ view sample_mgr s' 20480 = Some (PageLeaf 2097153))
  /\ change_page_flags 20488 1 sample_paging
      = Some (sample_paging, Err "Physical address not page-aligned").
Proof.
  split.
  - destruct (change_page_flags_correct sample_types sample_mgr sample_paging 20480 2097155 1
      sample_paging_ok ltac:(done) ltac:(done) ltac:(done) ltac:(done)) as (s' & E & _ & _ & Hv).
    exists s'. split; [done|]. rewrite Hv. by vm_compute.
  - exact (change_page_flags_correct sample_types sample_mgr sample_paging 20488 2097155 1
      sample_paging_ok ltac:(done) ltac:(done) ltac:(done) ltac:(done)).
Defined.

Lemma map_page_through_huge_witness :
  exists s', map_page 2101248 8388608 3 sample_paging = Some (s', Ok tt)
    /\ rd (pmem s') 4194312 = 8388611
    /\ view sample_mgr s' 2101248 = Some (HugeLeaf 2097151 4194435).
Proof.
  destruct (map_page_through_huge sample_types sample_mgr sample_paging 2101248 8388608 3 4194435
    sample_paging_ok ltac:(done) ltac:(done) ltac:(done) ltac:(done) ltac:(done) ltac:(done))
    as (s' & E & Hm & Hv).
  exists s'. split; [done|]. rewrite Hm, Hv. split; by vm_compute.
Defined.

Lemma canonical_check_aliases_witness :
  0 <= 140737488355328 < 2 ^ 48 /\ canonical sample_mgr 140737488355328 = true
  /\ ~ arch_canonical 48 140737488355328
  /\ same_page sample_mgr 140737488355328 18446603336221196288.
Proof.
  destruct (canonical_check_aliases sample_mgr 140737488355328 ltac:(by vm_compute)) as (H1 & _ & H3 & _).
  split; [by vm_compute|]. split; [done|]. split; [|exact H3].
  intros [H|H]; vm_compute in H; done.
Defined.
