(* ===== verification/PageTables.v ===== *)
(** The types of [memory/paging.rs] as values: [PageTable] as an array of 512
    entries, and how it lies in the store of words that Paging.v works on.

    Paging.v reads and writes entries by address; here a whole table is a value, with
    the methods of [PageTable] and [PageTableEntry], and the view of the store as a
    table makes the two agree. *)

From S2P Require Import Prelude FrameAlloc Paging PagingFacts.

(** * Entries *)

Abbreviation PageTableEntry := Z (only parsing).
Definition PageTableEntry_new : PageTableEntry := 0.
Definition entry_set (addr flags : Z) (e : PageTableEntry) : PageTableEntry := pte_set addr flags.
Definition entry_clear (e : PageTableEntry) : PageTableEntry := 0.
Definition entry_raw (e : PageTableEntry) : Z := e.

(** * Tables *)

Abbreviation PageTable := (list Z) (only parsing).
Definition PageTable_new : PageTable := replicate (Z.to_nat PAGE_TABLE_ENTRIES) PageTableEntry_new.
Definition create_page_table : PageTable := PageTable_new.
Definition PageTable_get (index : Z) (t : PageTable) : option PageTableEntry := t !! Z.to_nat index.
(** What is done through the reference that [get_mut] gives. *)
Definition PageTable_get_mut (index : Z) (f : PageTableEntry -> PageTableEntry) (t : PageTable) : option PageTable :=
  e ← t !! Z.to_nat index; Some (<[Z.to_nat index := f e]> t).
Definition PageTable_clear (t : PageTable) : PageTable := entry_clear <$> t.

(** * The paging manager *)

Definition manager_mode (m : PagingManager) : PagingMode := mode m.
Definition is_la57_supported (m : PagingManager) : bool := la57_supported m.
Definition is_nx_supported (m : PagingManager) : bool := nx_supported m.
Definition manager_root (m : PagingManager) : Z := root_table_phys m.

(** [switch_page_table]. *)
Definition switch_page_table {A} (new_root : Z) (s : paging_state A) : paging_state A := write_cr3 new_root s.

(** * Tables in memory *)

(** The table at address [p] of the store. *)
Definition table_at (p : Z) (m : store) : PageTable :=
  (fun i => rd m (p + 8 * Z.of_nat i)) <$> seq 0 (Z.to_nat PAGE_TABLE_ENTRIES).

Lemma length_table_at p m : length (table_at p m) = Z.to_nat PAGE_TABLE_ENTRIES.
Proof. unfold table_at. by rewrite length_fmap, length_seq. Qed.

Lemma table_at_lookup p m i : 0 <= i < PAGE_TABLE_ENTRIES -> table_at p m !! Z.to_nat i = Some (rd m (p + 8 * i)).
Proof.
  unfold PAGE_TABLE_ENTRIES. intros Hi. unfold table_at, PAGE_TABLE_ENTRIES. rewrite list_lookup_fmap, lookup_seq_lt by lia.
  cbn. do 3 f_equal. lia.
Qed.

Lemma table_at_ge p m i : PAGE_TABLE_ENTRIES <= i -> table_at p m !! Z.to_nat i = None.
Proof. intros Hi. apply lookup_ge_None_2. rewrite length_table_at. lia. Qed.

(** Two tables are equal when their entries are. *)
Lemma table_ext (t : PageTable) p m : length t = Z.to_nat PAGE_TABLE_ENTRIES ->
  (forall i, 0 <= i < PAGE_TABLE_ENTRIES -> t !! Z.to_nat i = Some (rd m (p + 8 * i))) -> table_at p m = t.
Proof.
  intros Hl H. apply list_eq. intros n. destruct (decide (n < Z.to_nat PAGE_TABLE_ENTRIES)%nat) as [Hn|Hn].
  - specialize (H (Z.of_nat n) ltac:(lia)). rewrite <- (table_at_lookup p m (Z.of_nat n)) in H by lia.
    by rewrite Nat2Z.id in H.
  - by rewrite !lookup_ge_None_2 by (rewrite ?length_table_at; lia).
Qed.

(** A page table is an array of 512 words.  Reading entry [i] of the table at [p]
    is reading the word at [p + 8 i], for the indices below 512 and no others; a word
    stored there changes that entry and leaves the rest of the table and every other
    table that does not overlap; clearing the table in memory gives the table that
    [PageTable::new], [create_page_table] and [clear] give, all entries of which are
    absent. *)
Theorem page_table_in_memory p m i v :
  0 <= i ->
  let t := table_at p m in
  length t = Z.to_nat PAGE_TABLE_ENTRIES
  /\ PageTable_get i t = (if i <? PAGE_TABLE_ENTRIES then Some (rd m (p + 8 * i)) else None)
  /\ PageTable_get_mut i (fun _ => v) t
     = (if i <? PAGE_TABLE_ENTRIES then Some (table_at p (wr m (p + 8 * i) v)) else None)
  /\ (forall q, i < PAGE_TABLE_ENTRIES -> q + 8 * PAGE_TABLE_ENTRIES <= p \/ p + 8 * PAGE_TABLE_ENTRIES <= q ->
        table_at q (wr m (p + 8 * i) v) = table_at q m)
  /\ table_at p (zero_table p m) = create_page_table /\ PageTable_clear t = create_page_table
  /\ (forall j e, PageTable_get j create_page_table = Some e -> is_present e = false).
Proof.
  intros Hi t.
  assert (forall j, 0 <= j < PAGE_TABLE_ENTRIES -> create_page_table !! Z.to_nat j = Some 0) as Hnew.
  { intros j Hj. apply lookup_replicate_2. lia. }
  split; [apply length_table_at|]. split.
  { unfold PageTable_get, t. destruct (Z.ltb_spec i PAGE_TABLE_ENTRIES); [by apply table_at_lookup|by apply table_at_ge]. }
  split.
  { unfold PageTable_get_mut, t. destruct (Z.ltb_spec i PAGE_TABLE_ENTRIES); [|by rewrite table_at_ge].
    rewrite table_at_lookup by lia. cbn [mbind option_bind]. f_equal. symmetry. apply table_ext.
    - etransitivity; [apply length_insert|apply length_table_at].
    - intros j Hj. rewrite rd_wr. case_decide as Hd.
      + assert (j = i) as -> by lia. apply list_lookup_insert_eq. rewrite length_table_at. lia.
      + rewrite list_lookup_insert_ne by lia. by apply table_at_lookup. }
  split.
  { intros q Hlt Hq. apply table_ext; [apply length_table_at|]. intros j Hj. rewrite table_at_lookup by done.
    rewrite rd_wr_ne by lia. done. }
  split.
  { apply table_ext; [apply length_replicate|]. intros j Hj. rewrite Hnew by done. f_equal. symmetry. by apply zero_table_spec. }
  split.
  { apply list_eq. intros n. unfold PageTable_clear. rewrite list_lookup_fmap.
    destruct (decide (n < Z.to_nat PAGE_TABLE_ENTRIES)%nat) as [Hn|Hn].
    - destruct (lookup_lt_is_Some_2 t n) as [e ->]; [unfold t; rewrite length_table_at; lia|].
      by rewrite <- (Nat2Z.id n), Hnew by lia.
    - rewrite (lookup_ge_None_2 t) by (unfold t; rewrite length_table_at; lia).
      by rewrite (lookup_ge_None_2 create_page_table) by (unfold create_page_table, PageTable_new; rewrite length_replicate; lia). }
  intros j e E. unfold PageTable_get in E. apply lookup_replicate in E as [-> _]. done.
Qed.

Lemma page_table_in_memory_witness :
  PageTable_get 511 (table_at 4096 (wr ∅ 8184 7)) = Some 7 /\ PageTable_get 512 (table_at 4096 (wr ∅ 8184 7)) = None
  /\ table_at 4096 (zero_table 4096 (wr ∅ 8184 7)) = create_page_table.
Proof.
  destruct (page_table_in_memory 4096 (wr ∅ 8184 7) 511 0 ltac:(lia)) as (_ & H1 & _ & _ & H2 & _).
  destruct (page_table_in_memory 4096 (wr ∅ 8184 7) 512 0 ltac:(lia)) as (_ & H3 & _).
  split; [exact H1|]. split; [exact H3|exact H2].
Defined.
