(* ===== verification/Cow.v ===== *)
(** Copy-on-write: [memory/cow.rs].

    On top of the paging state, the reference count of each physical frame and
    the bytes of the frames.  The counters are 32-bit atomics; one operation at
    a time is modelled, with their wrap-around. *)

From S2P Require Import Prelude FrameAlloc Paging.

Definition MAX_FRAMES : Z := 1024 * 1024.
Definition COW_BIT : Z := Z.shiftl 1 9.

Record cow_state (A : Type) := mkCow {
  cpaging : paging_state A;
  cbytes : store;
  refcount_table : store;
}.
Arguments mkCow {A}.
Arguments cpaging {A}.
Arguments cbytes {A}.
Arguments refcount_table {A}.

Section Cow.
Context {A : Type} {Ops : FrameOps A}.
Notation cst := (cow_state A).

Definition set_cpaging (p : paging_state A) (s : cst) : cst := mkCow p (cbytes s) (refcount_table s).
Definition set_cbytes (m : store) (s : cst) : cst := mkCow (cpaging s) m (refcount_table s).
Definition set_refcounts (m : store) (s : cst) : cst := mkCow (cpaging s) (cbytes s) m.
Definition on_paging {X} (p : prog (paging_state A) X) : prog cst X := zoom cpaging set_cpaging p.

(** * Reference counts *)

Definition phys_to_frame_index (phys_addr : Z) : Z := phys_addr / PAGING_PAGE_SIZE.

Definition cow_init (s : cst) : cst :=
  set_refcounts (for_loop 0 MAX_FRAMES (fun i m => wr m i 0) (refcount_table s)) s.

Definition get_refcount (p : Z) (s : cst) : Z :=
  let index := phys_to_frame_index p in
  if MAX_FRAMES <=? index then 0 else rd (refcount_table s) index.

Definition inc_refcount (p : Z) (s : cst) : cst * Z :=
  let index := phys_to_frame_index p in
  if MAX_FRAMES <=? index then (s, 0)
  else
    let v := wrap32 (rd (refcount_table s) index + 1) in
    (set_refcounts (wr (refcount_table s) index v) s, v).

(** [fetch_sub] wraps the counter; the result is clamped at 0. *)
Definition dec_refcount (p : Z) (s : cst) : cst * Z :=
  let index := phys_to_frame_index p in
  if MAX_FRAMES <=? index then (s, 0)
  else
    let old := rd (refcount_table s) index in
    let s := set_refcounts (wr (refcount_table s) index (wrap32 (old - 1))) s in
    (s, if 0 <? old then old - 1 else 0).

Definition set_refcount (p count : Z) (s : cst) : cst :=
  let index := phys_to_frame_index p in
  if MAX_FRAMES <=? index then s
  else set_refcounts (wr (refcount_table s) index count) s.

Definition is_cow_page (flags : Z) : bool := negb (Z.land flags COW_BIT =? 0).

(** * Flags *)

(** Read-only with the CoW bit, and writable without it. *)
Definition cow_flags (flags : Z) : Z := Z.lor (flags_clear flags WRITABLE) COW_BIT.
Definition writable_flags (flags : Z) : Z := Z.land (flags_set flags WRITABLE) (not64 COW_BIT).

(** * Operations *)

Definition mark_cow (v : Z) : prog cst unit :=
  current_flags ← on_paging (get_page_flags v);
  phys_addr ← on_paging (translate_address v);
  modify (fun s => fst (inc_refcount phys_addr s)) ;;
  on_paging (remap_page v phys_addr (cow_flags current_flags)).

Definition mark_cow_range (virt_start size : Z) : prog cst unit :=
  prog_for (Z.to_nat (page_count size)) 0 (fun i => mark_cow (virt_start +w i *w PAGING_PAGE_SIZE)).

(** [copy_page]: 4096 bytes between identity-mapped frames. *)
Definition copy_bytes (src dst : Z) (m : store) : store :=
  for_loop 0 PAGING_PAGE_SIZE (fun i m' => wr m' (dst + i) (rd m (src + i))) m.

Definition copy_page (src dst : Z) : prog cst unit :=
  if negb (is_aligned src) || negb (is_aligned dst)
  then throw "Physical addresses must be page-aligned"
  else modify (fun s => set_cbytes (copy_bytes src dst (cbytes s)) s).

(** [alloc_frame()] with the test [unwrap_or_default() == 0]. *)
Definition cow_alloc_frame (err : string) : prog cst Z :=
  fun s =>
    let '(a, r) := fa_try_alloc (palloc (cpaging s)) in
    let s := set_cpaging (set_alloc a (cpaging s)) s in
    match r with
    | Some x => if x =? 0 then Some (s, Err err) else Some (s, Ok x)
    | None => Some (s, Err err)
    end.

(** [free_frame(..);], its result ignored. *)
Definition cow_free_frame (addr : Z) (s : cst) : cst :=
  let '(a, _) := fa_free addr (palloc (cpaging s)) in
  set_cpaging (set_alloc a (cpaging s)) s.

(** The two branches [handle_cow_fault] and [unshare_cow_page] have in common. *)
Definition cow_make_writable (v phys flags : Z) : prog cst unit :=
  modify (fun s => fst (dec_refcount phys s)) ;;
  on_paging (remap_page v phys (writable_flags flags)).

Definition cow_copy (v phys flags : Z) (err : string) : prog cst unit :=
  new_phys ← cow_alloc_frame err;
  copy_page phys new_phys ;;
  on_paging (remap_page v new_phys (writable_flags flags)) ;;
  modify (fun s =>
    let '(s, new_refcount) := dec_refcount phys s in
    let s := if new_refcount =? 0 then cow_free_frame phys s else s in
    set_refcount new_phys 1 s).

Definition handle_cow_fault (v : Z) : prog cst unit :=
  current_flags ← on_paging (get_page_flags v);
  if negb (is_cow_page current_flags) then throw "Not a CoW page"
  else
    old_phys_addr ← on_paging (translate_address v);
    refcount ← gets (get_refcount old_phys_addr);
    if refcount <=? 1 then cow_make_writable v old_phys_addr current_flags
    else cow_copy v old_phys_addr current_flags "Failed to allocate frame for CoW".

Definition share_page_cow (src dst : Z) : prog cst unit :=
  phys_addr ← on_paging (translate_address src);
  src_flags ← on_paging (get_page_flags src);
  on_paging (remap_page src phys_addr (cow_flags src_flags)) ;;
  on_paging (map_page dst phys_addr (cow_flags src_flags)) ;;
  modify (fun s => fst (inc_refcount phys_addr s)).

Definition clone_range_cow (src_start dst_start size : Z) : prog cst unit :=
  prog_for (Z.to_nat (page_count size)) 0 (fun i =>
    let src := src_start +w i *w PAGING_PAGE_SIZE in
    let dst := dst_start +w i *w PAGING_PAGE_SIZE in
    r ← catch (on_paging (translate_address src));
    if is_ok (r : result string Z) then share_page_cow src dst else mret tt).

Definition unshare_cow_page (v : Z) : prog cst unit :=
  current_flags ← on_paging (get_page_flags v);
  if negb (is_cow_page current_flags) then mret tt
  else
    old_phys_addr ← on_paging (translate_address v);
    refcount ← gets (get_refcount old_phys_addr);
    if refcount <=? 1 then cow_make_writable v old_phys_addr current_flags
    else cow_copy v old_phys_addr current_flags "Failed to allocate frame".

(** * C interface *)

Definition cow_c {X} (p : prog cst X) (s : cst) : option (cst * Z) :=
  match p s with
  | Some (s', Ok _) => Some (s', 0)
  | Some (s', Err _) => Some (s', -1)
  | None => None
  end.

Definition cow_mark_page (v : Z) : cst -> option (cst * Z) := cow_c (mark_cow v).
Definition cow_handle_fault (v : Z) : cst -> option (cst * Z) := cow_c (handle_cow_fault v).
Definition cow_get_refcount (p : Z) (s : cst) : Z := get_refcount p s.
Definition cow_share_page (src dst : Z) : cst -> option (cst * Z) := cow_c (share_page_cow src dst).
Definition cow_clone_range (src dst size : Z) : cst -> option (cst * Z) :=
  cow_c (clone_range_cow src dst size).
End Cow.
