(* ===== verification/CowProps.v ===== *)
(** Copy-on-write: what it promises, on well-formed page tables. *)

From S2P Require Import Prelude E820 Pmm PmmFacts PmmProps FrameAlloc Paging PagingFacts PagingProps Cow.

(** The address space of [sample_paging] with entry [e] at 0x6000, for the
    witnesses. *)
Definition sample_cow (e : Z) (counts : store) : cow_state pmm_global :=
  mkCow (set_mem (wr sample_tables (12288 + 8 * pt_index 24576) e) sample_paging) ∅ counts.

(** * Lemmas *)

(** ** Flag words *)

Lemma testbit_low12 e i : 0 <= i < 12 -> Z.testbit (pte_flags e) i = Z.testbit e i.
Proof.
  intros. unfold pte_flags. change 4095 with (Z.ones 12). rewrite Z.land_spec, Z.ones_spec_low by lia.
  apply andb_true_r.
Qed.

Lemma testbit_high12 e i : 12 <= i -> Z.testbit (pte_flags e) i = false.
Proof.
  intros. unfold pte_flags. change 4095 with (Z.ones 12). rewrite Z.land_spec, Z.ones_spec_high by lia.
  apply andb_false_r.
Qed.

Lemma not64_testbit k i : 0 <= k < 64 -> 0 <= i < 64 ->
  Z.testbit (not64 (bit k)) i = negb (i =? k).
Proof.
  intros Hk Hi. unfold not64. replace (U64_MAX - bit k) with (Z.lnot (bit k) + 1 * 2 ^ 64)
    by (unfold Z.lnot, U64_MAX; lia).
  rewrite <- (Z.mod_pow2_bits_low _ 64) by lia. rewrite Z.mod_add by lia.
  rewrite Z.mod_pow2_bits_low by lia. rewrite Z.lnot_spec, bit_testbit by lia. done.
Qed.

Lemma writable_bits e i : 0 <= i < 64 ->
  Z.testbit (writable_flags (pte_flags e)) i
  = negb (i =? 9) && ((i =? 1) || (i <? 12) && Z.testbit e i).
Proof.
  intros Hi. unfold writable_flags, flags_set, WRITABLE. change COW_BIT with (bit 9).
  rewrite Z.land_spec, Z.lor_spec, not64_testbit, bit_testbit by lia.
  rewrite andb_comm. f_equal. rewrite orb_comm. f_equal.
  destruct (Z.ltb_spec i 12); [by rewrite testbit_low12 by lia|by rewrite testbit_high12 by lia].
Qed.

Lemma writable_range e : 0 <= writable_flags (pte_flags e) < 4096.
Proof.
  assert (0 <= pte_flags e < 2 ^ 12) as Hf.
  { unfold pte_flags. rewrite Z.land_comm. apply (land_bound_l 12); lia. }
  change 4096 with (2 ^ 12). apply land_bound_l; [lia|]. by apply lor_bound.
Qed.

Lemma low_flags_ok f : 0 <= f < 4096 -> flags_ok f.
Proof.
  intros Hf. split; [lia|]. apply Z.bits_inj'. intros i Hi. rewrite Z.land_spec, Z.testbit_0_l.
  destruct (Z.lt_ge_cases i 12).
  - change ADDR_MASK with (Z.shiftl (Z.ones 40) 12). rewrite Z.shiftl_spec by lia.
    rewrite (Z.testbit_neg_r _ (i - 12)) by lia. apply andb_false_r.
  - rewrite (testbit_high f 12) by (lia || (split; [lia|]; change (2 ^ 12) with 4096; lia)). done.
Qed.

Lemma testbit_flag f k : 0 <= k -> negb (Z.land f (bit k) =? 0) = Z.testbit f k.
Proof. intros. by rewrite land_bit_zero, negb_involutive. Qed.

(** The entry the fault handler installs: present, writable, not CoW, and
    without the no-execute bit. *)
Lemma writable_entry e p : is_present e = true -> 0 <= p < 2 ^ 52 -> p mod 4096 = 0 ->
  let e' := pte_set p (writable_flags (pte_flags e)) in
  is_present e' = true /\ pte_address e' = p
  /\ Z.land e' WRITABLE <> 0 /\ Z.land e' COW_BIT = 0 /\ Z.testbit e' 63 = false.
Proof.
  intros Hp Hr Hm. cbv zeta. pose proof (writable_range e) as Hw.
  unfold is_present, PRESENT in Hp. rewrite testbit_flag in Hp by lia.
  assert (pte_set p (writable_flags (pte_flags e)) = p + writable_flags (pte_flags e)) as Hadd.
  { unfold pte_set. rewrite addr_mask_aligned by done. apply (lor_disjoint_add 12); [lia|done|].
    change (2 ^ 12) with 4096. lia. }
  assert (forall i, 0 <= i < 12 -> Z.testbit (pte_set p (writable_flags (pte_flags e))) i
                     = Z.testbit (writable_flags (pte_flags e)) i) as Hbit.
  { intros i Hi. unfold pte_set. rewrite addr_mask_aligned, Z.lor_spec by done.
    rewrite <- (Z.mod_pow2_bits_low p 12 i) by lia. change (2 ^ 12) with 4096.
    by rewrite Hm, Z.testbit_0_l. }
  split_and!.
  - unfold is_present, PRESENT. rewrite testbit_flag, Hbit, writable_bits, Hp by lia. done.
  - apply pte_set_address; [done|done|by apply low_flags_ok].
  - intros H. assert (negb (Z.land (pte_set p (writable_flags (pte_flags e))) WRITABLE =? 0) = false) as E
      by (by rewrite H). unfold WRITABLE in E. rewrite testbit_flag, Hbit, writable_bits in E by lia. done.
  - apply Z.eqb_eq. apply negb_false_iff. change COW_BIT with (bit 9).
    rewrite testbit_flag, Hbit, writable_bits by lia. done.
  - apply (testbit_high _ 63); [|lia]. rewrite Hadd. lia.
Qed.

(** The entry that [share_page_cow] installs: present, CoW, read-only. *)
Lemma cow_bits e i : 0 <= i < 64 ->
  Z.testbit (cow_flags (pte_flags e)) i
  = (i =? 9) || negb (i =? 1) && ((i <? 12) && Z.testbit e i).
Proof.
  intros Hi. unfold cow_flags, flags_clear, WRITABLE. change COW_BIT with (bit 9).
  rewrite Z.lor_spec, Z.land_spec, not64_testbit, bit_testbit by lia.
  rewrite orb_comm. f_equal. rewrite andb_comm. f_equal.
  destruct (Z.ltb_spec i 12); [by rewrite testbit_low12 by lia|by rewrite testbit_high12 by lia].
Qed.

Lemma pte_flags_range e : 0 <= pte_flags e < 2 ^ 12.
Proof. unfold pte_flags. rewrite Z.land_comm. apply (land_bound_l 12); lia. Qed.

Lemma cow_entry e p : is_present e = true -> 0 <= p < 2 ^ 52 -> p mod 4096 = 0 ->
  let e' := pte_set p (cow_flags (pte_flags e)) in
  0 <= e' /\ is_present e' = true /\ pte_address e' = p /\ is_cow_page (pte_flags e') = true.
Proof.
  intros Hp Hr Hm. cbv zeta. unfold is_present, PRESENT in Hp. rewrite testbit_flag in Hp by lia.
  assert (0 <= cow_flags (pte_flags e) < 4096) as Hw.
  { change 4096 with (2 ^ 12). apply lor_bound; [lia| |done].
    apply land_bound_l; [lia|apply pte_flags_range]. }
  split_and!.
  - unfold pte_set. apply Z.lor_nonneg. split; [|lia]. rewrite addr_mask_aligned by done. lia.
  - apply pte_set_present. unfold is_present, PRESENT. by rewrite testbit_flag, cow_bits, Hp by lia.
  - apply pte_set_address; [done|done|by apply low_flags_ok].
  - unfold is_cow_page. change COW_BIT with (bit 9). rewrite testbit_flag, testbit_low12 by lia.
    unfold pte_set. by rewrite Z.lor_spec, cow_bits, orb_true_r by lia.
Qed.

(** ** Programs on the paging part *)

Section Props.
Context {A : Type} {Ops : FrameOps A} {Laws : FrameLaws A}.
Notation cst := (cow_state A).
Implicit Types (s : cst) (mg : PagingManager).

Lemma on_paging_ok {X} (p : prog (paging_state A) X) s t r :
  p (cpaging s) = Some (t, r) -> on_paging p s = Some (set_cpaging t s, r).
Proof. apply zoom_run. Qed.

Lemma set_cpaging_id s : set_cpaging (cpaging s) s = s.
Proof. by destruct s. Qed.

Lemma page_flags_spec T mg (t : paging_state A) v l :
  paging_ok T mg t -> canonical mg v = true -> view mg t v = Some l ->
  get_page_flags v t = Some (t, Ok (leaf_flags l)).
Proof.
  intros Hok Hc Hv. pose proof (find_leaf_spec T mg t v Hok Hc) as Hf. rewrite Hv in Hf.
  unfold get_page_flags. by erewrite bind_ok by exact Hf.
Qed.

Lemma translate_mapped T mg (t : paging_state A) v l :
  paging_ok T mg t -> canonical mg v = true -> view mg t v = Some l ->
  translate_address v t = Some (t, Ok (leaf_phys v l)).
Proof.
  intros Hok Hc Hv. pose proof (translate_spec T mg t v Hok Hc) as Hf. by rewrite Hv in Hf.
Qed.

Lemma leaf_phys_offset v e : 0 <= e -> leaf_phys v (PageLeaf e) = pte_address e + v mod 4096.
Proof.
  intros He. cbn [leaf_phys]. unfold page_offset. change 4095 with (2 ^ 12 - 1). rewrite land_low by lia.
  apply (lor_disjoint_add 12); [lia|by apply pte_address_aligned|]. apply Z.mod_pos_bound. lia.
Qed.

Lemma copy_bytes_spec src dst m :
  (forall i, 0 <= i < 4096 -> rd (copy_bytes src dst m) (dst + i) = rd m (src + i))
  /\ forall a, ~ (dst <= a < dst + 4096) -> rd (copy_bytes src dst m) a = rd m a.
Proof.
  unfold copy_bytes, PAGING_PAGE_SIZE. set (body := fun i (m' : store) => _).
  pose (P := fun n (m' : store) => (forall i, 0 <= i < n -> rd m' (dst + i) = rd m (src + i))
    /\ forall a, ~ (dst <= a < dst + 4096) -> rd m' a = rd m a).
  enough (P (Z.max 0 4096) (for_loop 0 4096 body m)) as H by exact H.
  apply for_loop_ind; [split; [intros; lia|done]|].
  intros i m' Hi [H1 H2]. subst body. split; cbv beta.
  - intros j Hj. rewrite rd_wr. case_decide as E; [by replace j with i by lia|]. apply H1. lia.
  - intros a Ha. rewrite rd_wr_ne by lia. by apply H2.
Qed.

(** The frame of a fault, and its counter. *)
Definition frame_of (e : Z) : Z := pte_address e / 4096.

Lemma pte_address_range e : 0 <= e -> 0 <= pte_address e < 2 ^ 52.
Proof.
  intros He. unfold pte_address. rewrite addr_mask_spec by done.
  pose proof (Z.mod_pos_bound (e / 4096) (2 ^ 40) ltac:(lia)). lia.
Qed.

(** A granted frame leaves the tables well-formed. *)
Lemma grant_tables_ok T mg (t : paging_state A) a x :
  paging_ok T mg t -> granted fa_used fa_inv (palloc t) a x -> paging_ok T mg (set_alloc a t).
Proof.
  intros [Hm [W I Hu]] (f & _ & _ & _ & Hus & Ia). constructor; [done|]. constructor; [done|done|].
  intros c p Hc. cbn. rewrite Hus. rewrite (Hu c p Hc). apply orb_true_r.
Qed.

(** The common hypotheses of the fault theorems: [v] is mapped by the present
    CoW entry [e], whose frame is in use. *)
Record cow_mapped (T : gmap Z (list Z)) (mg : PagingManager) (s : cst) (v e : Z) : Prop := {
  cm_ok : paging_ok T mg (cpaging s);
  cm_canonical : canonical mg v = true;
  cm_view : view mg (cpaging s) v = Some (PageLeaf e);
  cm_entry : 0 <= e /\ is_present e = true /\ is_cow_page (pte_flags e) = true;
  cm_used : fa_used (palloc (cpaging s)) (frame_of e) = true;
  cm_counts : forall i, 0 <= rd (refcount_table s) i < U32;
}.

(** [handle_cow_fault] up to its two branches. *)
Lemma cow_fault_branch T mg s v e : cow_mapped T mg s v e ->
  handle_cow_fault v s
  = (if get_refcount (pte_address e + v mod 4096) s <=? 1
     then cow_make_writable v (pte_address e + v mod 4096) (pte_flags e)
     else cow_copy v (pte_address e + v mod 4096) (pte_flags e) "Failed to allocate frame for CoW") s.
Proof.
  intros [Hok Hc Hv (He & Hp & Hcow) Hu _]. unfold handle_cow_fault.
  erewrite bind_ok by (apply on_paging_ok; by eapply page_flags_spec).
  rewrite set_cpaging_id. cbn [leaf_flags]. rewrite Hcow. cbn [negb].
  erewrite bind_ok by (apply on_paging_ok; by eapply translate_mapped).
  rewrite set_cpaging_id, leaf_phys_offset by done.
  erewrite bind_ok by reflexivity. by destruct (_ <=? 1).
Qed.

Lemma frame_offset e v : 0 <= e -> (pte_address e + v mod 4096) / 4096 = frame_of e.
Proof.
  intros He. unfold frame_of. pose proof (pte_address_aligned e He).
  pose proof (Z.mod_pos_bound v 4096 ltac:(lia)). dlia.
Qed.

Lemma refcount_at p s : p / 4096 < MAX_FRAMES -> get_refcount p s = rd (refcount_table s) (p / 4096).
Proof.
  intros Hp. unfold get_refcount, phys_to_frame_index, PAGING_PAGE_SIZE.
  destruct (Z.leb_spec MAX_FRAMES (p / 4096)); [lia|done].
Qed.

(** [dec_refcount] on a tracked frame. *)
Lemma dec_refcount_spec p s : p / 4096 < MAX_FRAMES ->
  dec_refcount p s
  = (set_refcounts (wr (refcount_table s) (p / 4096) (wrap32 (rd (refcount_table s) (p / 4096) - 1))) s,
     Z.max 0 (rd (refcount_table s) (p / 4096) - 1)).
Proof.
  intros Hp. unfold dec_refcount, phys_to_frame_index, PAGING_PAGE_SIZE.
  destruct (Z.leb_spec MAX_FRAMES (p / 4096)); [lia|]. cbv zeta. f_equal.
  destruct (Z.ltb_spec 0 (rd (refcount_table s) (p / 4096))); lia.
Qed.

(** Remapping to a page-aligned frame, in the CoW state. *)
Lemma cow_remap T mg s v e p :
  paging_ok T mg (cpaging s) -> view mg (cpaging s) v = Some (PageLeaf e) -> is_present e = true ->
  0 <= p < 2 ^ 52 -> p mod 4096 = 0 ->
  exists t, on_paging (remap_page v p (writable_flags (pte_flags e))) s = Some (set_cpaging t s, Ok tt)
    /\ paging_ok T mg t
    /\ forall v', view mg t v'
        = if decide (same_page mg v' v)
          then Some (PageLeaf (pte_set p (writable_flags (pte_flags e))))
          else view mg (cpaging s) v'.
Proof.
  intros Hok Hv He Hp Hm.
  pose proof (remap_page_spec T mg (cpaging s) v p (writable_flags (pte_flags e)) Hok
    (proj2 (is_aligned_mod p) Hm) ltac:(by rewrite Hv)) as Hr.
  rewrite Hv in Hr. destruct Hr as (t & E & Hok' & _ & Hview).
  destruct (writable_entry e p He Hp Hm) as [Hpr _]. rewrite Hpr in Hview.
  exists t. split_and!; [by apply on_paging_ok|done|done].
Qed.

(** [handle_cow_fault] at the base of a page, both branches. *)
Lemma cow_fault_spec T mg s v e :
  cow_mapped T mg s v e -> v mod 4096 = 0 -> frame_of e < MAX_FRAMES ->
  let old := pte_address e in
  let count := rd (refcount_table s) (frame_of e) in
  match handle_cow_fault v s with
  | Some (s', Ok _) => exists p e', p mod 4096 = 0
      /\ e' = pte_set p (writable_flags (pte_flags e)) /\ is_present e' = true /\ pte_address e' = p
      /\ Z.land e' WRITABLE <> 0 /\ Z.land e' COW_BIT = 0 /\ Z.testbit e' 63 = false
      /\ paging_ok T mg (cpaging s')
      /\ (forall v', view mg (cpaging s') v'
            = if decide (same_page mg v' v) then Some (PageLeaf e') else view mg (cpaging s) v')
      /\ (if count <=? 1
          then p = old /\ cbytes s' = cbytes s
               /\ rd (refcount_table s') (frame_of e) = wrap32 (count - 1)
          else fa_used (palloc (cpaging s)) (p / 4096) = false
               /\ (forall i, 0 <= i < 4096 -> rd (cbytes s') (p + i) = rd (cbytes s) (old + i))
               /\ (forall a, ~ (p <= a < p + 4096) -> rd (cbytes s') a = rd (cbytes s) a)
               /\ rd (refcount_table s') (frame_of e) = count - 1
               /\ (p / 4096 < MAX_FRAMES -> rd (refcount_table s') (p / 4096) = 1))
  | Some (s', Err er) => s' = s /\ 1 < count /\ er = "Failed to allocate frame for CoW"
  | None => False
  end.
Proof.
  intros Hcm Hal Hf. cbv zeta. rewrite (cow_fault_branch T mg s v e Hcm).
  destruct Hcm as [Hok Hc Hv (He & Hp & Hcow) Hu Hcnt]. rewrite Hal, Z.add_0_r.
  pose proof (pte_address_aligned e He) as Ha. pose proof (pte_address_range e He) as Hr.
  rewrite refcount_at by exact Hf. fold (frame_of e).
  set (count := rd (refcount_table s) (frame_of e)).
  destruct (Z.leb_spec count 1) as [Hle|Hgt].
  - unfold cow_make_writable. erewrite bind_ok by reflexivity.
    rewrite (dec_refcount_spec (pte_address e)) by exact Hf. fold (frame_of e). fold count. cbn [fst].
    set (s1 := set_refcounts _ s).
    destruct (cow_remap T mg s1 v e (pte_address e) Hok Hv Hp Hr Ha) as (t & E & Hok' & Hview).
    rewrite E. destruct (writable_entry e _ Hp Hr Ha) as (H1 & H2 & H3 & H4 & H5).
    exists (pte_address e), (pte_set (pte_address e) (writable_flags (pte_flags e))).
    split_and!; try done. cbn [refcount_table set_cpaging s1 set_refcounts]. apply rd_wr_eq.
  - unfold cow_copy, cow_alloc_frame.
    destruct (fa_try_alloc (palloc (cpaging s))) as [a r] eqn:Ea.
    pose proof (fa_try_law _ _ _ (ok_alloc _ _ _ _ (pg_tables _ _ _ Hok)) Ea) as Hlaw.
    destruct r as [x|].
    2:{ subst a. erewrite bind_err; [|by rewrite Ea]. destruct s as [pg b rc]. by destruct pg. }
    pose proof Hlaw as (f & Hfr & Hx & Hfu & Hus & _). unfold PHYS_FRAMES, Pmm.PAGE_SIZE in *.
    assert (x / 4096 = f) as Hxf by (subst x; by apply Z.div_mul).
    assert (x mod 4096 = 0) as Hxm by (subst x; by apply Z.mod_mul).
    erewrite bind_ok; [|rewrite Ea; destruct (Z.eqb_spec x 0); [lia|reflexivity]].
    set (s1 := set_cpaging (set_alloc a (cpaging s)) s).
    pose proof (grant_tables_ok T mg (cpaging s) a x Hok Hlaw) as Hok1.
    unfold copy_page.
    rewrite (proj2 (is_aligned_mod _) Ha), (proj2 (is_aligned_mod _) Hxm). cbn [negb orb].
    erewrite bind_ok by reflexivity.
    set (s2 := set_cbytes _ s1).
    destruct (cow_remap T mg s2 v e x Hok1 Hv Hp ltac:(lia) Hxm) as (t & E & Hok' & Hview).
    erewrite bind_ok by exact E. cbv beta.
    set (s3 := set_cpaging t s2). unfold modify.
    rewrite (dec_refcount_spec (pte_address e) s3) by exact Hf. fold (frame_of e).
    change (refcount_table s3) with (refcount_table s). fold count. rewrite Z.max_r by lia.
    destruct (Z.eqb_spec (count - 1) 0); [lia|].
    destruct (writable_entry e x Hp ltac:(lia) Hxm) as (H1 & H2 & H3 & H4 & H5).
    exists x, (pte_set x (writable_flags (pte_flags e))).
    destruct (copy_bytes_spec (pte_address e) x (cbytes s)) as [Hc1 Hc2].
    assert (f <> frame_of e) as Hne by (intros ->; congruence).
    assert (wrap32 (count - 1) = count - 1) as Hw.
    { specialize (Hcnt (frame_of e)). fold count in Hcnt. apply Z.mod_small. lia. }
    unfold set_refcount, phys_to_frame_index, PAGING_PAGE_SIZE. rewrite Hxf, Hw.
    destruct (Z.leb_spec MAX_FRAMES f); split_and!; try done; cbn [refcount_table set_refcounts].
    + apply rd_wr_eq.
    + intros; lia.
    + rewrite rd_wr_ne by done. apply rd_wr_eq.
    + intros _. apply rd_wr_eq.
Qed.

(** [share_page_cow]: both pages map the frame read-only, and the count of the
    frame has gone up by one. *)
Lemma share_spec T mg s src dst es :
  paging_ok T mg (cpaging s) -> canonical mg src = true -> canonical mg dst = true ->
  ~ same_page mg dst src -> src mod 4096 = 0 ->
  (forall i, 0 <= rd (refcount_table s) i < U32 - 1) ->
  0 <= es -> is_present es = true -> frame_of es < MAX_FRAMES ->
  fa_used (palloc (cpaging s)) (frame_of es) = true ->
  view mg (cpaging s) src = Some (PageLeaf es) -> view mg (cpaging s) dst = None ->
  let e1 := pte_set (pte_address es) (cow_flags (pte_flags es)) in
  (exists s1 er, share_page_cow src dst s = Some (s1, Err er))
  \/ exists s1 T1, share_page_cow src dst s = Some (s1, Ok tt)
      /\ cow_mapped T1 mg s1 dst e1
      /\ view mg (cpaging s1) src = Some (PageLeaf e1)
      /\ rd (refcount_table s1) (frame_of es) = rd (refcount_table s) (frame_of es) + 1
      /\ fa_used (palloc (cpaging s1)) (pte_address es / 4096) = true.
Proof.
  intros Hok Hcs Hcd Hne Hsa Hcnt He Hp Hf Hu Hvs Hvd e1.
  pose proof (pte_address_aligned es He) as Ha. pose proof (pte_address_range es He) as Hr.
  destruct (cow_entry es (pte_address es) Hp Hr Ha) as (H0 & H1 & H2 & H3). fold e1 in H0, H1, H2, H3.
  unfold share_page_cow.
  erewrite bind_ok by (apply on_paging_ok; by eapply translate_mapped).
  rewrite set_cpaging_id, leaf_phys_offset, Hsa, Z.add_0_r by done.
  erewrite bind_ok by (apply on_paging_ok; by eapply page_flags_spec).
  rewrite set_cpaging_id. cbn [leaf_flags].
  pose proof (remap_page_spec T mg (cpaging s) src (pte_address es) (cow_flags (pte_flags es)) Hok
    (proj2 (is_aligned_mod _) Ha) ltac:(by rewrite Hvs)) as Hrm.
  rewrite Hvs in Hrm. destruct Hrm as (t1 & E1 & Hok1 & _ & Hv1). fold e1 in Hv1. rewrite H1 in Hv1.
  erewrite bind_ok by (apply on_paging_ok; exact E1).
  assert (fa_used (palloc t1) (frame_of es) = true) as Hu1.
  { rewrite <- Hu. f_equal. revert E1. unfold remap_page.
    erewrite bind_ok by (by eapply get_manager_ok).
    rewrite (proj2 (is_aligned_mod _) Ha). cbn [negb].
    pose proof (walk_to_pt_spec _ _ src _ (cpaging s) T _ [] (pg_tables _ _ _ Hok)
      (at_root _ _ _ _ (ok_wf _ _ _ _ (pg_tables _ _ _ Hok))) ltac:(fold (view mg (cpaging s) src);
      by rewrite Hvs)) as Hw.
    fold (view mg (cpaging s) src) in Hw. rewrite Hvs in Hw. destruct Hw as (pt & Ew & _).
    erewrite bind_ok by exact Ew. by intros [= <-]. }
  assert (view mg t1 dst = None) as Hvd1 by (rewrite Hv1, decide_False; done).
  set (s1 := set_cpaging t1 s).
  pose proof (map_page_spec T mg t1 dst (pte_address es) (cow_flags (pte_flags es)) Hok1 Hcd
    (proj2 (is_aligned_mod _) Ha) ltac:(by rewrite Hvd1)) as Hm.
  fold e1 in Hm. rewrite H1 in Hm.
  destruct (map_page dst (pte_address es) (cow_flags (pte_flags es)) t1) as [[t2 [[]|er]]|] eqn:E2;
    [right| |done].
  2:{ left. do 2 eexists. erewrite bind_err; [done|]. by apply on_paging_ok. }
  destruct Hm as (Hmn & T2 & Hok2 & _ & Hv2).
  erewrite bind_ok by (apply on_paging_ok; exact E2).
  do 2 eexists. split; [reflexivity|]. unfold inc_refcount, phys_to_frame_index, PAGING_PAGE_SIZE.
  fold (frame_of es). destruct (Z.leb_spec MAX_FRAMES (frame_of es)); [lia|].
  cbn [fst cpaging set_cpaging set_refcounts refcount_table s1].
  assert (frame_of e1 = frame_of es) as Hfe by (unfold frame_of; by rewrite H2).
  pose proof (Hcnt (frame_of es)) as Hcf.
  assert (wrap32 (rd (refcount_table s) (frame_of es) + 1) = rd (refcount_table s) (frame_of es) + 1) as Hw
    by (apply Z.mod_small; lia).
  split_and!.
  - constructor; cbn [cpaging set_cpaging set_refcounts refcount_table]; [done|done| |done| |].
    + by rewrite Hv2, decide_True.
    + rewrite Hfe. by apply Hmn.
    + intros i. rewrite Hw, rd_wr. specialize (Hcnt i). case_decide; lia.
  - rewrite Hv2, decide_False; [|intros E; by apply Hne]. by rewrite Hv1, decide_True.
  - rewrite Hw. apply rd_wr_eq.
  - by apply Hmn.
Qed.

(** * Properties *)

(** C21. [handle_cow_fault] at the base of a mapped CoW page.  With a reference
    count of at most 1 the page is made writable in place and the count lowered.
    With a higher count either no frame is free and nothing changes, or the page
    is moved to a fresh frame that holds a copy of the 4096 bytes, the old
    frame's count goes down by one and the new one's is 1.  In both cases no
    other page's translation changes, the new entry is writable and not CoW, and
    the no-execute bit is lost. *)
Theorem cow_fault_correct T mg s v e :
  cow_mapped T mg s v e -> v mod 4096 = 0 -> frame_of e < MAX_FRAMES ->
  let old := pte_address e in
  let count := rd (refcount_table s) (frame_of e) in
  match handle_cow_fault v s with
  | Some (s', Ok _) => exists p e', p mod 4096 = 0
      /\ e' = pte_set p (writable_flags (pte_flags e)) /\ is_present e' = true /\ pte_address e' = p
      /\ Z.land e' WRITABLE <> 0 /\ Z.land e' COW_BIT = 0 /\ Z.testbit e' 63 = false
      /\ paging_ok T mg (cpaging s')
      /\ (forall v', view mg (cpaging s') v'
            = if decide (same_page mg v' v) then Some (PageLeaf e') else view mg (cpaging s) v')
      /\ (if count <=? 1
          then p = old /\ cbytes s' = cbytes s
               /\ rd (refcount_table s') (frame_of e) = wrap32 (count - 1)
          else fa_used (palloc (cpaging s)) (p / 4096) = false
               /\ (forall i, 0 <= i < 4096 -> rd (cbytes s') (p + i) = rd (cbytes s) (old + i))
               /\ (forall a, ~ (p <= a < p + 4096) -> rd (cbytes s') a = rd (cbytes s) a)
               /\ rd (refcount_table s') (frame_of e) = count - 1
               /\ (p / 4096 < MAX_FRAMES -> rd (refcount_table s') (p / 4096) = 1))
  | Some (s', Err er) => s' = s /\ 1 < count /\ er = "Failed to allocate frame for CoW"
  | None => False
  end.
Proof. intros Hcm Hal Hf. by apply cow_fault_spec. Qed.

(** At an address inside the page the handler fails, because the translated
    address carries the offset: with a count of at most 1 after the count has
    been lowered (from 0 it wraps to 2^32 - 1), with a higher count after a frame
    has been allocated, which nothing releases. *)
Theorem cow_fault_unaligned T mg s v e :
  cow_mapped T mg s v e -> v mod 4096 <> 0 -> frame_of e < MAX_FRAMES ->
  match handle_cow_fault v s with
  | Some (s', Err _) => (forall v', view mg (cpaging s') v' = view mg (cpaging s) v') /\
      if rd (refcount_table s) (frame_of e) <=? 1
      then rd (refcount_table s') (frame_of e) = wrap32 (rd (refcount_table s) (frame_of e) - 1)
      else refcount_table s' = refcount_table s
           /\ (s' = s \/ exists x, granted fa_used fa_inv (palloc (cpaging s)) (palloc (cpaging s')) x)
  | _ => False
  end.
Proof.
  intros Hcm Hal Hf. rewrite (cow_fault_branch T mg s v e Hcm).
  destruct Hcm as [Hok Hc Hv (He & Hp & Hcow) Hu Hcnt].
  pose proof (pte_address_aligned e He) as Ha. pose proof (frame_offset e v He) as Hfo.
  set (p := pte_address e + v mod 4096) in *.
  assert (is_aligned p = false) as Hna.
  { apply not_true_is_false. rewrite is_aligned_mod. intros E. apply Hal. subst p. clear -E Ha. dlia. }
  rewrite refcount_at by (by rewrite Hfo). rewrite Hfo.
  destruct (Z.leb_spec (rd (refcount_table s) (frame_of e)) 1) as [Hle|Hgt].
  - unfold cow_make_writable. erewrite bind_ok by reflexivity.
    rewrite (dec_refcount_spec p) by (by rewrite Hfo). rewrite Hfo. cbn [fst].
    unfold on_paging, remap_page. erewrite zoom_run.
    2:{ erewrite bind_ok by (by eapply get_manager_ok). rewrite Hna. reflexivity. }
    split; [done|]. cbn [refcount_table set_cpaging set_refcounts]. apply rd_wr_eq.
  - unfold cow_copy, cow_alloc_frame.
    destruct (fa_try_alloc (palloc (cpaging s))) as [a r] eqn:Ea.
    pose proof (fa_try_law _ _ _ (ok_alloc _ _ _ _ (pg_tables _ _ _ Hok)) Ea) as Hlaw.
    destruct r as [x|].
    2:{ subst a. erewrite bind_err by (by rewrite Ea). destruct s as [pg b rc]. destruct pg.
        split_and!; [done|done|by left]. }
    erewrite bind_ok; [|rewrite Ea; destruct (Z.eqb_spec x 0) as [->|]; [|reflexivity]].
    2:{ exfalso. destruct Hlaw as (f & Hfr & Hx & _). unfold Pmm.PAGE_SIZE in Hx. lia. }
    unfold copy_page. rewrite Hna. cbn [negb orb].
    erewrite bind_err by reflexivity. split_and!; [done|done|]. right. by exists x.
Qed.

(** [share_page_cow] counts the new mapping only.  When the source's frame
    has no count yet (nothing in the kernel gives a fresh frame one), a write
    fault at the destination takes the count of 1 for sole ownership: the
    destination becomes writable in the frame that the source still maps, so the
    two are not isolated.  With a count of 1 or more at the source the
    destination is not made writable in place. *)
Theorem share_then_fault T mg s src dst es :
  paging_ok T mg (cpaging s) -> canonical mg src = true -> canonical mg dst = true ->
  ~ same_page mg dst src -> src mod 4096 = 0 -> dst mod 4096 = 0 ->
  (forall i, 0 <= rd (refcount_table s) i < U32 - 1) ->
  0 <= es -> is_present es = true -> frame_of es < MAX_FRAMES ->
  fa_used (palloc (cpaging s)) (frame_of es) = true ->
  view mg (cpaging s) src = Some (PageLeaf es) -> view mg (cpaging s) dst = None ->
  let count := rd (refcount_table s) (frame_of es) in
  match share_page_cow src dst s with
  | Some (s1, Ok _) =>
      rd (refcount_table s1) (frame_of es) = count + 1
      /\ match handle_cow_fault dst s1 with
         | Some (s2, Ok _) => exists e1 e2,
             view mg (cpaging s2) src = Some (PageLeaf e1) /\ pte_address e1 = pte_address es
             /\ view mg (cpaging s2) dst = Some (PageLeaf e2) /\ Z.land e2 WRITABLE <> 0
             /\ (pte_address e2 = pte_address es <-> count = 0)
         | Some (_, Err _) => 0 < count
         | None => False
         end
  | Some (_, Err _) => True
  | None => False
  end.
Proof.
  intros Hok Hcs Hcd Hne Hsa Hda Hcnt He Hp Hf Hu Hvs Hvd count.
  destruct (share_spec T mg s src dst es Hok Hcs Hcd Hne Hsa Hcnt He Hp Hf Hu Hvs Hvd)
    as [(s1 & er & ->)|(s1 & T1 & -> & Hcm & Hvs1 & Hc1 & Hp1)]; [done|].
  fold count in Hc1. split; [done|].
  pose proof (cow_entry es (pte_address es) Hp (pte_address_range es He) (pte_address_aligned es He))
    as (H0 & H1 & H2 & H3). cbv zeta in *.
  set (e1 := pte_set (pte_address es) (cow_flags (pte_flags es))) in *.
  assert (frame_of e1 = frame_of es) as Hfe by (unfold frame_of; by rewrite H2).
  pose proof (cow_fault_spec T1 mg s1 dst e1 Hcm Hda ltac:(by rewrite Hfe)) as Hs. cbv zeta in Hs.
  rewrite Hfe, Hc1 in Hs. specialize (Hcnt (frame_of es)). fold count in Hcnt.
  destruct (handle_cow_fault dst s1) as [[s2 [u|er]]|]; [|lia|done].
  destruct Hs as (p & e2 & Hpa & _ & _ & Hp2 & Hw & _ & _ & _ & Hv2 & Hcase).
  exists e1, e2. split_and!.
  - rewrite Hv2, decide_False; [done|]. intros E. by apply Hne.
  - done.
  - rewrite Hv2, decide_True; done.
  - done.
  - rewrite Hp2. destruct (Z.leb_spec (count + 1) 1).
    + destruct Hcase as (-> & _). split; [lia|done].
    + destruct Hcase as (Hfr & _). split; [|lia]. intros Epp. exfalso.
      rewrite Epp in Hfr. unfold frame_of in *. congruence.
Qed.
End Props.

(** * Witnesses *)

Lemma sample_cow_ok e counts : is_present e = true ->
  paging_ok sample_types sample_mgr (cpaging (sample_cow e counts))
  /\ forall v, view sample_mgr (cpaging (sample_cow e counts)) v
      = if decide (same_page sample_mgr v 24576) then Some (PageLeaf e)
        else view sample_mgr sample_paging v.
Proof.
  intros He. destruct sample_paging_ok as [Hm [W I Hu]].
  destruct (write_leaf_root (mode_levels FourLevel) 16384 sample_types sample_tables 12288 24576 e W
    ltac:(by vm_compute)) as [W' Hv].
  split; [constructor; [done|by constructor]|]. intros v. rewrite He in Hv. exact (Hv v).
Qed.

Lemma sample_counts_range n i : 0 <= n < U32 - 1 -> 0 <= rd (wr ∅ 0 n) i < U32 - 1.
Proof.
  intros Hn. rewrite rd_wr. case_decide; [done|]. unfold rd. rewrite lookup_empty. done.
Qed.

Lemma sample_cow_mapped n v : 0 <= n < U32 - 1 -> 24576 <= v < 28672 ->
  cow_mapped sample_types sample_mgr (sample_cow 513 (wr ∅ 0 n)) v 513.
Proof.
  intros Hn Hv. destruct (sample_cow_ok 513 (wr ∅ 0 n) eq_refl) as [Hok Hview].
  constructor; [done|apply canonical_small; lia| |done|by vm_compute|].
  - rewrite Hview, decide_True; [done|]. apply same_page_base; [lia|lia|].
    rewrite !page_base_small by lia. dlia.
  - intros i. pose proof (sample_counts_range n i Hn). cbn [refcount_table sample_cow]. lia.
Qed.

Lemma cow_fault_correct_witness :
  exists s', handle_cow_fault 24576 (sample_cow 513 (wr ∅ 0 2)) = Some (s', Ok tt)
    /\ rd (refcount_table s') 0 = 1.
Proof.
  pose proof (cow_fault_correct sample_types sample_mgr (sample_cow 513 (wr ∅ 0 2)) 24576 513
    (sample_cow_mapped 2 24576 ltac:(done) ltac:(done)) ltac:(done) ltac:(done)) as H.
  assert (is_ok <$> (snd <$> handle_cow_fault 24576 (sample_cow 513 (wr ∅ 0 2))) = Some true) as E
    by (by vm_compute).
  destruct (handle_cow_fault 24576 (sample_cow 513 (wr ∅ 0 2))) as [[s' [[]|er]]|]; [|done|done].
  exists s'. split; [done|].
  destruct H as (p & e' & _ & _ & _ & _ & _ & _ & _ & _ & _ & _ & _ & _ & Hc & _). exact Hc.
Defined.

Lemma cow_fault_unaligned_witness :
  exists s' er, handle_cow_fault 24584 (sample_cow 513 (wr ∅ 0 0)) = Some (s', Err er)
    /\ rd (refcount_table s') 0 = 4294967295.
Proof.
  pose proof (cow_fault_unaligned sample_types sample_mgr (sample_cow 513 (wr ∅ 0 0)) 24584 513
    (sample_cow_mapped 0 24584 ltac:(done) ltac:(done)) ltac:(done) ltac:(done)) as H.
  destruct (handle_cow_fault 24584 (sample_cow 513 (wr ∅ 0 0))) as [[s' [[]|er]]|]; [done| |done].
  exists s', er. split; [done|]. exact (proj2 H).
Defined.

Lemma share_then_fault_witness :
  exists s1 s2 e2, share_page_cow 24576 28672 (sample_cow 7 (wr ∅ 0 0)) = Some (s1, Ok tt)
    /\ handle_cow_fault 28672 s1 = Some (s2, Ok tt)
    /\ view sample_mgr (cpaging s2) 28672 = Some (PageLeaf e2)
    /\ pte_address e2 = pte_address 7 /\ Z.land e2 WRITABLE <> 0.
Proof.
  destruct (sample_cow_ok 7 (wr ∅ 0 0) eq_refl) as [Hok Hview].
  pose proof (share_then_fault sample_types sample_mgr (sample_cow 7 (wr ∅ 0 0)) 24576 28672 7 Hok
    ltac:(done) ltac:(done) ltac:(intros E; vm_compute in E; done) ltac:(done) ltac:(done)
    (fun i => sample_counts_range 0 i ltac:(done)) ltac:(done) ltac:(done) ltac:(done)
    ltac:(by vm_compute) ltac:(by rewrite Hview) ltac:(by rewrite Hview)) as H.
  assert (is_ok <$> (snd <$> share_page_cow 24576 28672 (sample_cow 7 (wr ∅ 0 0))) = Some true) as E
    by (by vm_compute).
  cbv zeta in H.
  destruct (share_page_cow 24576 28672 (sample_cow 7 (wr ∅ 0 0))) as [[s1 [[]|er]]|]; [|done|done].
  destruct H as [_ H].
  destruct (handle_cow_fault 28672 s1) as [[s2 [[]|er]]|] eqn:Eh; [|by vm_compute in H|done].
  destruct H as (e1 & e2 & _ & _ & Hv & Hw & Hp). exists s1, s2, e2.
  split_and!; [done|done|done|by apply Hp|done].
Defined.
