(* ===== verification/Demand.v ===== *)
(** Demand paging: [memory/demand_paging.rs] and the mmap wrappers of
    [memory/lib.rs].

    The registry is the array of 64 optional regions; populating a page goes
    through the allocator, the bytes of the frame and [map_page].  The callback
    that reads a file is code outside the kernel and a parameter. *)

From S2P Require Import Prelude FrameAlloc Paging.

Definition MAX_REGIONS : Z := 64.

(** [read_at] is the callback's address; what it does is a parameter below. *)
Record FileBacking := mkFileBacking {
  ctx : Z;
  read_at : Z;
  file_offset : Z;
  file_size : Z;
}.

Inductive BackingKind : Type :=
| ZeroFill
| FileBacked (f : FileBacking).

Record VmRegion := mkVmRegion {
  vm_start : Z;
  vm_end : Z;
  vm_flags : Z;
  backing : BackingKind;
}.

Abbreviation registry := (list (option VmRegion)).
Definition REGIONS_init : registry := replicate 64 None.

Definition demand_align_down (addr : Z) : Z := Z.land addr (not64 (PAGING_PAGE_SIZE - 1)).
Definition demand_align_up (addr : Z) : Z :=
  Z.land (addr +w PAGING_PAGE_SIZE -w 1) (not64 (PAGING_PAGE_SIZE - 1)).

Definition ranges_overlap (a_start a_end b_start b_end : Z) : bool :=
  (a_start <? b_end) && (b_start <? a_end).

(** This module's own [phys_to_virt]: 0 is the null pointer. *)
Definition demand_phys_to_virt (phys_addr : Z) : Z :=
  if 134217728 <=? phys_addr then 0 else phys_addr.

(** * The registry *)

(** [for slot in REGIONS.iter_mut() { if slot.is_none() { *slot = r; .. } }]. *)
Fixpoint put_first (r : VmRegion) (rs : registry) : option registry :=
  match rs with
  | [] => None
  | None :: rs' => Some (Some r :: rs')
  | Some x :: rs' => match put_first r rs' with Some l => Some (Some x :: l) | None => None end
  end.

(** The aligned range of [start, start + size), or the error. *)
Definition aligned_range (start size : Z) : result string (Z * Z) :=
  match checked_add64 start size with
  | None => Err "Size overflow"
  | Some e =>
      let start_addr := demand_align_down start in
      let end_addr := demand_align_up e in
      if end_addr <=? start_addr then Err "Invalid region size" else Ok (start_addr, end_addr)
  end.

Definition register_region (start size flags : Z) (b : BackingKind) (rs : registry)
  : registry * result string unit :=
  match aligned_range start size with
  | Err e => (rs, Err e)
  | Ok (s, e) =>
      match put_first (mkVmRegion s e flags b) rs with
      | Some rs' => (rs', Ok tt)
      | None => (rs, Err "No free region slots")
      end
  end.

Definition register_file_region (start size flags : Z) (f : FileBacking) (rs : registry)
  : registry * result string unit :=
  if negb (file_offset f mod PAGING_PAGE_SIZE =? 0) then (rs, Err "File offset must be page-aligned")
  else register_region start size flags (FileBacked f) rs.

(** Some registered region overlaps the range. *)
Definition overlaps_registry (s e : Z) (rs : registry) : bool :=
  existsb (fun slot => match slot with
                       | Some r => ranges_overlap s e (vm_start r) (vm_end r)
                       | None => false
                       end) rs.

Definition mmap (start size flags : Z) (b : BackingKind) (rs : registry)
  : registry * result string Z :=
  if size =? 0 then (rs, Err "Invalid region size")
  else if (match b with
           | FileBacked f => negb (file_offset f mod PAGING_PAGE_SIZE =? 0)
           | ZeroFill => false
           end) then (rs, Err "File offset must be page-aligned")
  else
    match aligned_range start size with
    | Err e => (rs, Err e)
    | Ok (s, e) =>
        if overlaps_registry s e rs then (rs, Err "Region overlaps existing mapping")
        else
          match put_first (mkVmRegion s e flags b) rs with
          | Some rs' => (rs', Ok s)
          | None => (rs, Err "No free region slots")
          end
    end.

Definition mmap_file (start size flags : Z) (f : FileBacking) (rs : registry)
  : registry * result string Z :=
  if negb (file_offset f mod PAGING_PAGE_SIZE =? 0) then (rs, Err "File offset must be page-aligned")
  else mmap start size flags (FileBacked f) rs.

Fixpoint find_region (addr : Z) (rs : registry) : option VmRegion :=
  match rs with
  | [] => None
  | Some r :: rs' => if (vm_start r <=? addr) && (addr <? vm_end r) then Some r else find_region addr rs'
  | None :: rs' => find_region addr rs'
  end.

(** One step of the registry update of [munmap], at index [i]. *)
Definition unmap_slot (us ue : Z) (i : nat) (rs : registry) : registry * result string unit :=
  match rs !! i with
  | Some (Some r) =>
      if negb (ranges_overlap us ue (vm_start r) (vm_end r)) then (rs, Ok tt)
      else if (us <=? vm_start r) && (vm_end r <=? ue) then (<[i := None]> rs, Ok tt)
      else if (us <=? vm_start r) && (ue <? vm_end r) then
        (<[i := Some (mkVmRegion ue (vm_end r) (vm_flags r) (backing r))]> rs, Ok tt)
      else if (vm_start r <? us) && (vm_end r <=? ue) then
        (<[i := Some (mkVmRegion (vm_start r) us (vm_flags r) (backing r))]> rs, Ok tt)
      else
        let right := mkVmRegion ue (vm_end r) (vm_flags r) (backing r) in
        let rs := <[i := Some (mkVmRegion (vm_start r) us (vm_flags r) (backing r))]> rs in
        match put_first right rs with
        | Some rs' => (rs', Ok tt)
        | None => (rs, Err "No free region slots for split")
        end
  | _ => (rs, Ok tt)
  end.

(** [while i < REGIONS.len()]: [n] slots from [i] on. *)
Fixpoint unmap_slots (us ue : Z) (n i : nat) (rs : registry) : registry * result string unit :=
  match n with
  | O => (rs, Ok tt)
  | S n' =>
      match unmap_slot us ue i rs with
      | (rs', Ok _) => unmap_slots us ue n' (S i) rs'
      | (rs', Err e) => (rs', Err e)
      end
  end.

(** * State and pages *)

Record demand_state (A : Type) := mkDemand {
  dpaging : paging_state A;
  dbytes : store;
  REGIONS : registry;
}.
Arguments mkDemand {A}.
Arguments dpaging {A}.
Arguments dbytes {A}.
Arguments REGIONS {A}.

Section Demand.
Context {A : Type} {Ops : FrameOps A}.
(** The file callback: address, context, offset, destination, length; it works
    on the bytes and answers the number of bytes read. *)
Context (call_read_at : Z -> Z -> Z -> Z -> Z -> store -> store * Z).
Notation dst := (demand_state A).

Definition set_dpaging (p : paging_state A) (s : dst) : dst := mkDemand p (dbytes s) (REGIONS s).
Definition set_dbytes (m : store) (s : dst) : dst := mkDemand (dpaging s) m (REGIONS s).
Definition set_regions (rs : registry) (s : dst) : dst := mkDemand (dpaging s) (dbytes s) rs.
Definition on_dpaging {X} (p : prog (paging_state A) X) : prog dst X := zoom dpaging set_dpaging p.
Definition on_regions {X} (f : registry -> registry * result string X) : prog dst X :=
  fun s => let '(rs, r) := f (REGIONS s) in Some (set_regions rs s, r).

Definition demand_free_frame (frame : Z) : prog dst unit :=
  fun s =>
    let '(a, ok) := fa_free frame (palloc (dpaging s)) in
    Some (set_dpaging (set_alloc a (dpaging s)) s,
          if ok then Ok tt else Err "Failed to free frame").

(** One page of the unmap loop. *)
Definition unmap_one (addr : Z) : prog dst unit :=
  r ← catch (on_dpaging (translate_address addr));
  match (r : result string Z) with
  | Ok phys =>
      on_dpaging (unmap_page addr) ;;
      demand_free_frame (align_down phys)
  | Err _ => mret tt
  end.

(** [while addr < unmap_end]; [n] bounds the pages. *)
Fixpoint unmap_pages (n : nat) (addr unmap_end : Z) : prog dst unit :=
  match n with
  | O => if addr <? unmap_end then undefined else mret tt
  | S n' =>
      if addr <? unmap_end then
        unmap_one addr ;; unmap_pages n' (addr +w PAGING_PAGE_SIZE) unmap_end
      else mret tt
  end.

Definition munmap (start size : Z) : prog dst unit :=
  if size =? 0 then throw "Invalid region size"
  else
    match aligned_range start size with
    | Err e => throw e
    | Ok (us, ue) =>
        has_region ← gets (fun s => overlaps_registry us ue (REGIONS s));
        if negb (has_region : bool) then throw "Address not in demand region"
        else
          unmap_pages (Z.to_nat ((ue - us) / PAGING_PAGE_SIZE + 1)) us ue ;;
          on_regions (fun rs => unmap_slots us ue (List.length rs) 0 rs)
    end.

(** * Page faults *)

(** [write_bytes(virt, 0, PAGE_SIZE)]. *)
Definition zero_page (virt : Z) (m : store) : store :=
  for_loop 0 PAGING_PAGE_SIZE (fun i m => wr m (virt + i) 0) m.

Definition demand_alloc_frame : prog dst Z :=
  fun s =>
    let '(a, r) := fa_try_alloc (palloc (dpaging s)) in
    Some (set_dpaging (set_alloc a (dpaging s)) s,
          match r with Some x => Ok x | None => Err "Failed to allocate frame" end).

(** The file offset of the page at [page_base], with the checks of the code. *)
Definition page_file_offset (r : VmRegion) (f : FileBacking) (page_base : Z) : result string Z :=
  match checked_sub64 page_base (vm_start r) with
  | None => Err "Fault outside region"
  | Some page_offset =>
      match checked_add64 (file_offset f) page_offset with
      | None => Err "File offset overflow"
      | Some o => Ok o
      end
  end.

(** The content of the new page. *)
Definition fill_page (r : VmRegion) (page_base phys : Z) : prog dst unit :=
  let virt := demand_phys_to_virt phys in
  if virt =? 0 then throw "No identity mapping for frame"
  else
    modify (fun s => set_dbytes (zero_page virt (dbytes s)) s) ;;
    match backing r with
    | ZeroFill => mret tt
    | FileBacked f =>
        match page_file_offset r f page_base with
        | Err e => throw e
        | Ok off =>
            if off <? file_size f then
              let remaining := file_size f - off in
              let to_read := Z.min PAGING_PAGE_SIZE remaining in
              modify (fun s =>
                set_dbytes (fst (call_read_at (read_at f) (ctx f) off virt to_read (dbytes s))) s)
            else mret tt
        end
    end.

Definition handle_demand_page_fault (fault_addr error_code : Z) : prog dst unit :=
  if negb (Z.land error_code 1 =? 0) then throw "Page was present"
  else
    found ← gets (fun s => find_region fault_addr (REGIONS s));
    match (found : option VmRegion) with
    | None => throw "Address not in demand region"
    | Some region =>
        let page_base := demand_align_down fault_addr in
        phys ← demand_alloc_frame;
        fill_page region page_base phys ;;
        on_dpaging (map_page page_base phys (flags_set (vm_flags region) PRESENT))
    end.

(** * C wrappers of [memory/lib.rs] *)

Definition memory_mmap_zero (start size flags : Z) (s : dst) : dst * Z :=
  let '(rs, r) := mmap start size flags ZeroFill (REGIONS s) in
  (set_regions rs s, unwrap_or r 0).

Definition memory_mmap_file (start size flags c rd_at off sz : Z) (s : dst) : dst * Z :=
  let '(rs, r) := mmap_file start size flags (mkFileBacking c rd_at off sz) (REGIONS s) in
  (set_regions rs s, unwrap_or r 0).

Definition memory_munmap (start size : Z) (s : dst) : option (dst * Z) :=
  match munmap start size s with
  | Some (s', r) => Some (s', if is_ok r then 0 else -1)
  | None => None
  end.
End Demand.
