(* ===== verification/DemandProps.v ===== *)
(** Demand paging: what it promises.

    The registry is read as a partial function from addresses to their region
    ([owner], [find_region]); [mmap] extends it by one range, [munmap] cuts one out
    ([cut]). *)

From S2P Require Import Prelude E820 Pmm PmmFacts PmmProps FrameAlloc Paging PagingFacts PagingProps Cow CowProps Demand.

(** * The registry as a map of ranges *)

Definition region_ok (r : VmRegion) : Prop :=
  0 <= vm_start r < vm_end r /\ vm_end r < U64
  /\ vm_start r mod 4096 = 0 /\ vm_end r mod 4096 = 0.

Definition in_region (r : VmRegion) (a : Z) : Prop := vm_start r <= a < vm_end r.

Definition apart (r r' : VmRegion) : Prop := vm_end r <= vm_start r' \/ vm_end r' <= vm_start r.

Record registry_wf (rs : registry) : Prop := {
  rw_region : forall i r, rs !! i = Some (Some r) -> region_ok r;
  rw_apart : forall i j r r', i <> j -> rs !! i = Some (Some r) -> rs !! j = Some (Some r') -> apart r r';
}.

(** Address [a] belongs to region [r] of the registry. *)
Definition owner (rs : registry) (a : Z) (r : VmRegion) : Prop :=
  exists i, rs !! i = Some (Some r) /\ in_region r a.

(** The part of region [r] on the side of [a] when the range is cut out.  The part
    behind the range starts at its end; the backing stays as it is, with its file
    offset. *)
Definition cut (us ue a : Z) (r : VmRegion) : VmRegion :=
  if a <? us then mkVmRegion (vm_start r) (Z.min (vm_end r) us) (vm_flags r) (backing r)
  else mkVmRegion (Z.max (vm_start r) ue) (vm_end r) (vm_flags r) (backing r).

(** Outside the range the registries have the same regions, once the range is cut
    out of them. *)
Definition same_outside (us ue : Z) (rs rs' : registry) : Prop :=
  forall a c, ~ (us <= a < ue) ->
    (exists r, owner rs a r /\ cut us ue a r = c) <-> (exists r, owner rs' a r /\ cut us ue a r = c).

Definition outside (us ue : Z) (r : VmRegion) : Prop := ue <= vm_start r \/ vm_end r <= us.

(** A small instance, for the witnesses: a file-backed region over the pages
    0x6000 and 0x7000, the first populated with frame 5. *)
Definition sample_file : FileBacking := mkFileBacking 0 0 8192 20000.
Definition sample_region : VmRegion := mkVmRegion 24576 32768 2 (FileBacked sample_file).
Definition sample_regions : registry := [None; Some sample_region].
Definition sample_alloc : pmm_global := fst (fa_try_alloc (palloc sample_paging)).
Definition sample_demand : demand_state pmm_global :=
  mkDemand (set_alloc sample_alloc (cpaging (sample_cow 20483 ∅))) ∅ sample_regions.
(** A callback whose file has the byte [k mod 199] at [k]. *)
Definition sample_read (p c off d len : Z) (m : store) : store * Z :=
  (for_loop 0 len (fun i m => wr m (d + i) ((off + i) mod 199)) m, len).

(** * Lemmas *)

Lemma demand_align_down_spec a : is_u64 a -> demand_align_down a = a - a mod 4096.
Proof.
  intros. unfold demand_align_down. change (PAGING_PAGE_SIZE - 1) with (2 ^ 12 - 1).
  by rewrite not64_mask by (done || lia).
Qed.

Lemma aligned_range_spec start size s e : is_u64 start -> 0 <= size ->
  aligned_range start size = Ok (s, e) ->
  start + size < U64 /\ 0 <= s < e /\ e < U64 /\ s mod 4096 = 0 /\ e mod 4096 = 0
  /\ s <= start < s + 4096 /\ start + size <= e < start + size + 4096.
Proof.
  intros Hs Hsz. unfold aligned_range, checked_add64.
  destruct (Z.ltb_spec (start + size) U64) as [Hlt|]; [|done].
  destruct (Z.leb_spec (demand_align_up (start + size)) (demand_align_down start)) as [|Hle]; [done|].
  intros [= <- <-]. rewrite demand_align_down_spec in * by done. unfold is_u64 in Hs.
  assert (demand_align_up (start + size)
          = ((start + size + 4095) mod U64) - ((start + size + 4095) mod U64) mod 4096) as E.
  { unfold demand_align_up. unfold add64, sub64, wrap64.
    rewrite Zminus_mod_idemp_l. unfold PAGING_PAGE_SIZE.
    replace (start + size + 4096 - 1) with (start + size + 4095) by lia.
    change (4096 - 1) with (2 ^ 12 - 1). change 4096 with (2 ^ 12).
    rewrite not64_mask; [done|lia|]. apply Z.mod_pos_bound. done. }
  rewrite E in *. unfold U64 in *.
  assert (start + size + 4095 < 18446744073709551616) as Hno.
  { destruct (Z.lt_ge_cases (start + size + 4095) 18446744073709551616); [done|]. exfalso.
    assert ((start + size + 4095) mod 18446744073709551616 < 4096) by
      (rewrite <- (Z.mod_unique_pos (start + size + 4095) 18446744073709551616 1
         (start + size + 4095 - 18446744073709551616)) by lia; lia).
    revert Hle. dlia. }
  rewrite (Z.mod_small (start + size + 4095)) in * by lia. split_and!; dlia.
Qed.

Lemma put_first_Some r rs rs' : put_first r rs = Some rs' ->
  exists i, rs !! i = Some None /\ rs' = <[i := Some r]> rs.
Proof.
  revert rs'. induction rs as [|[x|] rs IH]; intros rs'; cbn [put_first]; [done| |].
  - destruct (put_first r rs) as [l|]; [|done]. intros [= <-].
    destruct (IH l eq_refl) as (i & Hi & ->). by exists (S i).
  - intros [= <-]. by exists 0%nat.
Qed.

Lemma put_first_keep r rs rs' i x : put_first r rs = Some rs' ->
  rs !! i = Some (Some x) -> rs' !! i = Some (Some x).
Proof.
  intros Hp Hi. apply put_first_Some in Hp as (k & Hk & ->).
  rewrite list_lookup_insert_ne; [done|]. intros ->. congruence.
Qed.

Lemma put_first_None r rs i : put_first r rs = None -> rs !! i <> Some None.
Proof.
  revert i. induction rs as [|[x|] rs IH]; intros i; cbn [put_first]; [done| |done].
  destruct (put_first r rs); [done|]. intros _. destruct i as [|i]; [done|]. by apply IH.
Qed.

Lemma overlaps_false s e rs : overlaps_registry s e rs = false <->
  forall i r, rs !! i = Some (Some r) -> ranges_overlap s e (vm_start r) (vm_end r) = false.
Proof.
  unfold overlaps_registry. split.
  - intros H i r Hi. apply not_true_is_false. intros Ho. apply not_true_iff_false in H. apply H.
    apply existsb_exists. exists (Some r). split; [|done].
    apply list_elem_of_In. by eapply list_elem_of_lookup_2.
  - intros H. apply not_true_iff_false. intros Ho.
    apply existsb_exists in Ho as ([r|] & Hin & Ho); [|done].
    apply list_elem_of_In, list_elem_of_lookup_1 in Hin as [i Hi].
    by rewrite (H i r Hi) in Ho.
Qed.

Lemma overlap_false s e r : region_ok r -> s < e ->
  ranges_overlap s e (vm_start r) (vm_end r) = false <-> outside s e r.
Proof. unfold ranges_overlap, outside, region_ok. intros. rewrite andb_false_iff. lia. Qed.

(** The slots after a write. *)
Lemma slot_insert (rs : registry) i x j r : rs !! i = Some x -> forall y,
  <[i := y]> rs !! j = Some (Some r) <-> (j = i /\ y = Some r) \/ (j <> i /\ rs !! j = Some (Some r)).
Proof.
  intros Hi y. destruct (decide (j = i)) as [->|Hne].
  - rewrite list_lookup_insert_eq by (by eapply lookup_lt_Some). naive_solver.
  - rewrite list_lookup_insert_ne by done. naive_solver.
Qed.

(** A free slot takes a region apart from all others. *)
Lemma wf_insert rs i y x : registry_wf rs -> rs !! i = Some x -> region_ok y ->
  (forall j r, j <> i -> rs !! j = Some (Some r) -> apart y r) -> registry_wf (<[i := Some y]> rs).
Proof.
  intros W Hi Hy Hap. constructor.
  - intros j r [[-> [= ->]]|[_ Hj]]%(slot_insert rs i x j r Hi); [done|by apply (rw_region _ W) in Hj].
  - intros j k r r' Hjk Hj Hk. apply (slot_insert rs i x j r Hi) in Hj.
    apply (slot_insert rs i x k r' Hi) in Hk.
    destruct Hj as [[-> [= ->]]|[Hji Hj]], Hk as [[-> [= ->]]|[Hki Hk]]; [done| | |].
    + by eapply Hap.
    + apply (Hap j r) in Hj; [|done]. unfold apart in *. lia.
    + by apply (rw_apart _ W j k).
Qed.

Lemma wf_clear rs i x : registry_wf rs -> rs !! i = Some x -> registry_wf (<[i := None]> rs).
Proof.
  intros W Hi. constructor.
  - intros j r [[_ [=]]|[_ Hj]]%(slot_insert rs i x j r Hi). by apply (rw_region _ W) in Hj.
  - intros j k r r' Hjk Hj Hk. apply (slot_insert rs i x j r Hi) in Hj as [[_ [=]]|[_ Hj]].
    apply (slot_insert rs i x k r' Hi) in Hk as [[_ [=]]|[_ Hk]]. by apply (rw_apart _ W j k).
Qed.

Lemma owner_insert rs i x y a r : rs !! i = Some x ->
  owner (<[i := y]> rs) a r <-> (y = Some r /\ in_region r a)
    \/ exists j, j <> i /\ rs !! j = Some (Some r) /\ in_region r a.
Proof.
  intros Hi. unfold owner. split.
  - intros (j & Hj & Ha). apply (slot_insert rs i x j r Hi) in Hj as [[-> ->]|[Hne Hj]]; eauto 6.
  - intros [[-> Ha]|(j & Hne & Hj & Ha)].
    + exists i. split; [|done]. apply (slot_insert rs i x i r Hi). by left.
    + exists j. split; [|done]. apply (slot_insert rs i x j r Hi). by right.
Qed.

(** In a well-formed registry the owner is unique, and [find_region] finds it. *)
Lemma owner_unique rs a r r' : registry_wf rs -> owner rs a r -> owner rs a r' -> r = r'.
Proof.
  intros W (i & Hi & Ha) (j & Hj & Ha'). destruct (decide (i = j)) as [->|Hne]; [congruence|].
  pose proof (rw_apart _ W i j r r' Hne Hi Hj) as Hap. unfold apart, in_region in *. lia.
Qed.

Lemma find_region_Some rs a r : find_region a rs = Some r -> owner rs a r.
Proof.
  induction rs as [|[x|] rs IH]; cbn [find_region]; [done| |].
  - destruct (_ && _) eqn:E.
    + intros [= ->]. exists 0%nat. split; [done|]. unfold in_region. lia.
    + intros H. destruct (IH H) as (i & Hi & Ha). by exists (S i).
  - intros H. destruct (IH H) as (i & Hi & Ha). by exists (S i).
Qed.

Lemma find_region_None rs a : find_region a rs = None -> forall r, ~ owner rs a r.
Proof.
  induction rs as [|[x|] rs IH]; cbn [find_region]; intros H r (i & Hi & Ha); [done| |].
  - destruct (_ && _) eqn:E; [done|]. destruct i as [|i].
    + injection Hi as ->. unfold in_region in Ha. lia.
    + apply (IH H r). by exists i.
  - destruct i as [|i]; [done|]. apply (IH H r). by exists i.
Qed.

Lemma find_region_owner rs a r : registry_wf rs -> find_region a rs = Some r <-> owner rs a r.
Proof.
  intros W. split; [apply find_region_Some|]. intros Ho.
  destruct (find_region a rs) as [r'|] eqn:E.
  - apply find_region_Some in E. by rewrite (owner_unique rs a r r' W Ho E).
  - by apply (find_region_None rs a E) in Ho.
Qed.

(** ** One step of the registry update of [munmap] *)

Definition aligned_range_ok (us ue : Z) : Prop :=
  0 <= us < ue /\ ue < U64 /\ us mod 4096 = 0 /\ ue mod 4096 = 0.

Lemma same_outside_refl us ue rs : same_outside us ue rs rs.
Proof. done. Qed.

Lemma same_outside_trans us ue rs1 rs2 rs3 :
  same_outside us ue rs1 rs2 -> same_outside us ue rs2 rs3 -> same_outside us ue rs1 rs3.
Proof. intros H1 H2 a c Ha. etransitivity; [by apply H1|by apply H2]. Qed.

(** Replacing region [r] in slot [i] by [y], which has the same part outside the
    range. *)
Lemma same_outside_replace us ue rs i r y : rs !! i = Some (Some r) ->
  (forall a, ~ (us <= a < ue) ->
     match y with
     | Some r' => (in_region r a <-> in_region r' a) /\ (in_region r a -> cut us ue a r' = cut us ue a r)
     | None => ~ in_region r a
     end) ->
  same_outside us ue rs (<[i := y]> rs).
Proof.
  intros Hi Hy a c Ha. specialize (Hy a Ha). split.
  - intros (x & (j & Hj & Hx) & Hc). destruct (decide (j = i)) as [->|Hne].
    + assert (x = r) as -> by congruence. destruct y as [r'|]; [|by apply Hy in Hx].
      exists r'. split; [|rewrite <- Hc; by apply Hy].
      apply (owner_insert rs i _ (Some r') a r' Hi). left. split; [done|by apply Hy].
    + exists x. split; [|done]. apply (owner_insert rs i _ y a x Hi). right. by exists j.
  - intros (x & Ho & Hc). apply (owner_insert rs i _ y a x Hi) in Ho.
    destruct Ho as [[-> Hx]|(j & Hne & Hj & Hx)].
    + exists r. apply Hy in Hx. split; [exists i; by split|]. rewrite <- Hc. symmetry. by apply Hy.
    + exists x. split; [by exists j|done].
Qed.

Ltac cut_parts := unfold in_region, cut; cbn; repeat case_match; rewrite ?Z.ltb_lt, ?Z.ltb_ge in *;
  (split; [lia|intros; f_equal; lia]) || (f_equal; lia) || lia.

Record slot_done (us ue : Z) (i : nat) (rs rs' : registry) : Prop := {
  sd_wf : registry_wf rs';
  sd_len : List.length rs' = List.length rs;
  sd_same : same_outside us ue rs rs';
  sd_here : forall r, rs' !! i = Some (Some r) -> outside us ue r;
  sd_other : forall j r, j <> i -> rs' !! j = Some (Some r) ->
    rs !! j = Some (Some r) \/ outside us ue r;
}.

Lemma apart_sub r r' x : apart r x -> vm_start r <= vm_start r' -> vm_end r' <= vm_end r -> apart r' x.
Proof. unfold apart. lia. Qed.

(** Shrinking a region in place. *)
Lemma slot_shrink us ue rs i r r' :
  registry_wf rs -> rs !! i = Some (Some r) -> region_ok r' ->
  vm_flags r' = vm_flags r -> backing r' = backing r ->
  vm_start r <= vm_start r' -> vm_end r' <= vm_end r -> outside us ue r' ->
  registry_wf (<[i := Some r']> rs)
  /\ (forall j x, j <> i -> rs !! j = Some (Some x) -> apart r' x).
Proof.
  intros W Hi Hok Hf Hb Hs He Ho.
  assert (forall j x, j <> i -> rs !! j = Some (Some x) -> apart r' x) as Hap.
  { intros j x Hne Hj. apply (apart_sub r); [|done|done]. by apply (rw_apart _ W i j). }
  split; [|done]. by apply (wf_insert rs i r' (Some r)).
Qed.

Lemma unmap_slot_spec us ue i rs :
  registry_wf rs -> aligned_range_ok us ue ->
  match unmap_slot us ue i rs with
  | (rs', Ok _) => slot_done us ue i rs rs'
  | (rs', Err _) => forall j, rs' !! j <> Some None
  end.
Proof.
  intros W (Hu & Hue & Ham & Hem). unfold unmap_slot.
  destruct (rs !! i) as [[r|]|] eqn:Hi.
  2,3: constructor; [done|done|apply same_outside_refl|intros r Hr; congruence|by left].
  pose proof (rw_region _ W i r Hi) as (Hr & Hre & Hrm & Hrem).
  destruct (ranges_overlap us ue (vm_start r) (vm_end r)) eqn:Eo; cbn [negb].
  2:{ apply overlap_false in Eo; [|done|lia]. constructor; try done; [|by left].
      intros x Hx. congruence. }
  unfold ranges_overlap in Eo. rewrite andb_true_iff, !Z.ltb_lt in Eo.
  assert (forall y j x, j <> i -> <[i := y]> rs !! j = Some (Some x) -> rs !! j = Some (Some x)) as Hkeep.
  { intros y j x Hne Hj. by rewrite list_lookup_insert_ne in Hj. }
  destruct ((us <=? vm_start r) && (vm_end r <=? ue)) eqn:E1.
  { constructor.
    - by apply (wf_clear rs i (Some r)).
    - apply length_insert.
    - apply (same_outside_replace us ue rs i r); [done|]. intros a Ha. unfold in_region. lia.
    - intros x Hx. apply (slot_insert rs i _ i x Hi) in Hx as [[_ [=]]|[? _]]; done.
    - intros j x Hne Hj. left. by apply (Hkeep None). }
  destruct ((us <=? vm_start r) && (ue <? vm_end r)) eqn:E2.
  { set (r' := mkVmRegion ue (vm_end r) (vm_flags r) (backing r)).
    destruct (slot_shrink us ue rs i r r' W Hi) as [W' _];
      [unfold region_ok; cbn; lia|done|done|cbn; lia|cbn; lia|left; cbn; lia|].
    constructor.
    - done.
    - apply length_insert.
    - apply (same_outside_replace us ue rs i r); [done|]. intros a Ha. cut_parts.
    - intros x Hx. apply (slot_insert rs i _ i x Hi) in Hx as [[_ [= <-]]|[? _]]; [|done].
      left. cbn. lia.
    - intros j x Hne Hj. left. by apply (Hkeep (Some r')). }
  set (left := mkVmRegion (vm_start r) us (vm_flags r) (backing r)).
  destruct ((vm_start r <? us) && (vm_end r <=? ue)) eqn:E3.
  { destruct (slot_shrink us ue rs i r left W Hi) as [W' _];
      [unfold region_ok; cbn; lia|done|done|cbn; lia|cbn; lia|right; cbn; lia|].
    constructor.
    - done.
    - apply length_insert.
    - apply (same_outside_replace us ue rs i r); [done|]. intros a Ha. cut_parts.
    - intros x Hx. apply (slot_insert rs i _ i x Hi) in Hx as [[_ [= <-]]|[? _]]; [|done].
      right. cbn. lia.
    - intros j x Hne Hj. left. by apply (Hkeep (Some left)). }
  set (right := mkVmRegion ue (vm_end r) (vm_flags r) (backing r)).
  destruct (slot_shrink us ue rs i r left W Hi) as [W1 _];
    [unfold region_ok; cbn; lia|done|done|cbn; lia|cbn; lia|right; cbn; lia|].
  destruct (put_first right (<[i := Some left]> rs)) as [rs'|] eqn:Ep.
  2:{ intros j. by apply (put_first_None right). }
  apply put_first_Some in Ep as (k & Hk & ->).
  assert (k <> i) as Hki.
  { intros ->. rewrite list_lookup_insert_eq in Hk by (by eapply lookup_lt_Some). done. }
  assert (rs !! k = Some None) as Hk0 by (by rewrite list_lookup_insert_ne in Hk).
  assert (forall j x, j <> k -> <[i := Some left]> rs !! j = Some (Some x) -> apart right x) as Hap.
  { intros j x Hjk Hj. apply (slot_insert rs i _ j x Hi) in Hj as [[-> [= <-]]|[Hji Hj]].
    - right. cbn. lia.
    - apply (apart_sub r); [by apply (rw_apart _ W i j)|cbn; lia|cbn; lia]. }
  constructor.
  - apply (wf_insert _ k right None); [done|done|unfold region_ok; cbn; lia|done].
  - by rewrite !length_insert.
  - assert (forall a, in_region r a -> a < us -> in_region left a /\ cut us ue a left = cut us ue a r) as HL
      by (intros a Hx Hlt; unfold in_region in *; split; [cbn; lia|cut_parts]).
    assert (forall a, in_region r a -> ue <= a -> in_region right a /\ cut us ue a right = cut us ue a r) as HR
      by (intros a Hx Hlt; unfold in_region in *; split; [cbn; lia|cut_parts]).
    intros a c Ha. split.
    + intros (x & (j & Hj & Hx) & Hc). destruct (decide (j = i)) as [->|Hji].
      * assert (x = r) as -> by congruence. destruct (Z.lt_ge_cases a us) as [Hlt|Hge].
        -- destruct (HL a Hx Hlt) as [Hl Hlc]. exists left. split; [|congruence]. exists i. split; [|done].
           rewrite list_lookup_insert_ne by done. apply list_lookup_insert_eq. by eapply lookup_lt_Some.
        -- destruct (HR a Hx ltac:(lia)) as [Hl Hlc]. exists right. split; [|congruence]. exists k. split; [|done].
           apply list_lookup_insert_eq. rewrite length_insert. by eapply lookup_lt_Some.
      * exists x. split; [|done]. exists j. split; [|done].
        rewrite !list_lookup_insert_ne; [done|congruence|congruence].
    + intros (x & (j & Hj & Hx) & Hc).
      apply (slot_insert _ k _ j x Hk) in Hj as [[-> [= <-]]|[Hjk Hj]].
      * assert (in_region r a /\ ue <= a) as [Hra Hge] by (unfold in_region in *; cbn in Hx; lia).
        exists r. split; [by exists i|]. rewrite <- Hc. symmetry. by apply HR.
      * apply (slot_insert rs i _ j x Hi) in Hj as [[-> [= <-]]|[Hji Hj]].
        -- assert (in_region r a /\ a < us) as [Hra Hge] by (unfold in_region in *; cbn in Hx; lia).
           exists r. split; [by exists i|]. rewrite <- Hc. symmetry. by apply HL.
        -- exists x. split; [by exists j|done].
  - intros x Hx. rewrite list_lookup_insert_ne in Hx by done.
    apply (slot_insert rs i _ i x Hi) in Hx as [[_ [= <-]]|[? _]]; [|done]. right. cbn. lia.
  - intros j x Hne Hj. apply (slot_insert _ k _ j x Hk) in Hj as [[-> [= <-]]|[Hjk Hj]].
    + right. left. cbn. lia.
    + left. by apply (Hkeep (Some left)).
Qed.

(** All slots: from slot [i] on, with the ones before already clear. *)
Lemma unmap_slots_spec us ue n : forall i rs,
  registry_wf rs -> aligned_range_ok us ue -> (i + n)%nat = List.length rs ->
  (forall j r, (j < i)%nat -> rs !! j = Some (Some r) -> outside us ue r) ->
  match unmap_slots us ue n i rs with
  | (rs', Ok _) => registry_wf rs' /\ List.length rs' = List.length rs /\ same_outside us ue rs rs'
      /\ forall j r, rs' !! j = Some (Some r) -> outside us ue r
  | (rs', Err _) => forall j, rs' !! j <> Some None
  end.
Proof.
  induction n as [|n IH]; intros i rs W Hr Hlen Hdone; cbn [unmap_slots].
  { split_and!; [done|done|apply same_outside_refl|]. intros j r Hj. apply (Hdone j); [|done].
    apply lookup_lt_Some in Hj. lia. }
  pose proof (unmap_slot_spec us ue i rs W Hr) as H1.
  destruct (unmap_slot us ue i rs) as [rs1 [[]|e]]; [|done].
  destruct H1 as [W1 L1 S1 Hh Ho].
  specialize (IH (S i) rs1 W1 Hr ltac:(lia)).
  destruct (unmap_slots us ue n (S i) rs1) as [rs2 [[]|e]].
  - destruct IH as (W2 & L2 & S2 & Hall).
    { intros j r Hj Hjr. destruct (decide (j = i)) as [->|Hne]; [by apply Hh|].
      destruct (Ho j r Hne Hjr) as [Hj0|]; [|done]. apply (Hdone j); [lia|done]. }
    split_and!; [done|congruence|by eapply same_outside_trans|done].
  - apply IH. intros j r Hj Hjr. destruct (decide (j = i)) as [->|Hne]; [by apply Hh|].
    destruct (Ho j r Hne Hjr) as [Hj0|]; [|done]. apply (Hdone j); [lia|done].
Qed.


(** The registry after a complete update, as a function of the one before. *)
Lemma cut_outside us ue a r : us < ue -> in_region r a -> outside us ue r -> ~ (us <= a < ue) -> cut us ue a r = r.
Proof.
  unfold in_region, outside, cut. destruct r as [st en fl b]; cbn. intros.
  destruct (Z.ltb_spec a us); f_equal; lia.
Qed.

Lemma find_region_cut us ue rs rs' a : us < ue -> registry_wf rs -> registry_wf rs' -> same_outside us ue rs rs' ->
  (forall j r, rs' !! j = Some (Some r) -> outside us ue r) ->
  find_region a rs' = if decide (us <= a < ue) then None else cut us ue a <$> find_region a rs.
Proof.
  intros Hlt W W' Hsame Hout.
  assert (forall r, owner rs' a r -> in_region r a /\ outside us ue r) as Ho
    by (intros r (j & Hj & Hr); split; [done|by eapply Hout]).
  case_decide as Ha.
  - destruct (find_region a rs') as [r|] eqn:E; [|done]. apply find_region_Some, Ho in E as [H1 H2].
    exfalso. unfold in_region, outside in *. lia.
  - destruct (find_region a rs) as [r|] eqn:E; cbn [fmap option_fmap option_map].
    + apply find_region_Some in E. destruct (proj1 (Hsame a (cut us ue a r) Ha) ltac:(by exists r)) as (r' & Hr' & Hc).
      destruct (Ho r' Hr') as [H1 H2]. rewrite (cut_outside us ue a r' Hlt H1 H2 Ha) in Hc. subst r'.
      by apply find_region_owner.
    + destruct (find_region a rs') as [r'|] eqn:E'; [|done]. exfalso. apply find_region_Some in E'.
      destruct (proj2 (Hsame a (cut us ue a r') Ha) ltac:(by exists r')) as (r & Hr & _).
      by apply (find_region_None rs a E r).
Qed.

(** What is left when a region must be split and no slot is free: its left part,
    the right part is lost. *)
Definition split_failed (us ue : Z) (rs rs' : registry) : Prop :=
  exists i r, rs !! i = Some (Some r) /\ vm_start r < us /\ ue < vm_end r
    /\ (forall j, rs !! j <> Some None)
    /\ rs' = <[i := Some (mkVmRegion (vm_start r) us (vm_flags r) (backing r))]> rs.

(** A step before such a split changes nothing: the region to split is the only
    one that meets the range. *)
Lemma unmap_slot_full us ue i rs rs1 j r : registry_wf rs -> registry_wf rs1 -> aligned_range_ok us ue ->
  unmap_slot us ue i rs = (rs1, Ok tt) -> (forall j, rs1 !! j <> Some None) ->
  rs1 !! j = Some (Some r) -> vm_start r < us -> ue < vm_end r -> rs1 = rs.
Proof.
  intros W W1 Hr E Hfull Hj Hs He. unfold aligned_range_ok in Hr.
  assert (forall y k, rs1 !! k = Some (Some y) -> vm_start y < vm_end y ->
    (vm_start y = ue \/ vm_end y = us) -> False) as Hno.
  { intros y k Hy Hlt Hcut. destruct (decide (k = j)) as [->|Hne].
    - assert (y = r) as -> by congruence. lia.
    - destruct (rw_apart _ W1 k j y r Hne Hy Hj); lia. }
  unfold unmap_slot in E. destruct (rs !! i) as [[x|]|] eqn:Hi; [|by injection E..].
  pose proof (rw_region _ W i x Hi) as (Hx & _).
  assert (forall y, <[i := y]> rs !! i = Some y) as Hins
    by (intros; apply list_lookup_insert_eq; by eapply lookup_lt_Some).
  destruct (negb (ranges_overlap us ue (vm_start x) (vm_end x))) eqn:Eo; [by injection E|].
  apply negb_false_iff in Eo. unfold ranges_overlap in Eo. rewrite andb_true_iff, !Z.ltb_lt in Eo.
  destruct (Z.leb_spec us (vm_start x)), (Z.leb_spec (vm_end x) ue), (Z.ltb_spec ue (vm_end x)),
    (Z.ltb_spec (vm_start x) us); cbn [andb] in E; try lia.
  - injection E as <-. by destruct (Hfull i).
  - injection E as <-. exfalso. by apply (Hno _ i (Hins _)); cbn; [lia|left].
  - injection E as <-. exfalso. by apply (Hno _ i (Hins _)); cbn; [lia|right].
  - destruct (put_first _ _) as [l|] eqn:Ep; [|done]. injection E as <-. exfalso.
    apply (Hno (mkVmRegion (vm_start x) us (vm_flags x) (backing x)) i); [|cbn; lia|by right].
    by apply (put_first_keep _ _ _ _ _ Ep), Hins.
Qed.

Lemma unmap_slots_err us ue n : forall i rs rs' e, registry_wf rs -> aligned_range_ok us ue ->
  unmap_slots us ue n i rs = (rs', Err e) ->
  e = "No free region slots for split" /\ split_failed us ue rs rs'.
Proof.
  induction n as [|n IH]; intros i rs rs' e W Hr; cbn [unmap_slots]; [done|].
  pose proof (unmap_slot_spec us ue i rs W Hr) as H1.
  destruct (unmap_slot us ue i rs) as [rs1 [[]|e1]] eqn:E1.
  - intros E2. destruct H1 as [W1 _ _ _ _]. destruct (IH (S i) rs1 rs' e W1 Hr E2) as [-> Hf]. split; [done|].
    destruct Hf as (j & r & Hj & Hs & He & Hfull & ->).
    pose proof (unmap_slot_full us ue i rs rs1 j r W W1 Hr E1 Hfull Hj Hs He) as ->. by exists j, r.
  - intros [= <- <-]. unfold unmap_slot in E1. destruct (rs !! i) as [[x|]|] eqn:Hi; [|done|done].
    destruct (negb _); [done|].
    destruct (Z.leb_spec us (vm_start x)), (Z.leb_spec (vm_end x) ue), (Z.ltb_spec ue (vm_end x)),
      (Z.ltb_spec (vm_start x) us); cbn [andb] in E1; try done; unfold aligned_range_ok in Hr; try lia.
    destruct (put_first _ _) as [l|] eqn:Ep; [done|]. injection E1 as <- <-. split; [done|].
    exists i, x. split_and!; [done|done|done| |done]. intros j Hj.
    apply (put_first_None _ _ j Ep). rewrite list_lookup_insert_ne; [done|]. intros ->. congruence.
Qed.

(** ** [mmap] *)

(** [mmap] keeps the registry well-formed.  On success it adds exactly one
    region, the page-aligned range of the request, with the flags and backing
    asked for, and no other address changes region; it fails, changing nothing,
    only for an empty or overflowing request, a misaligned file offset, an
    overlap with an existing region or a full registry. *)
Theorem mmap_correct start size flags b (rs : registry) :
  registry_wf rs -> is_u64 start -> 0 <= size ->
  match mmap start size flags b rs with
  | (rs', Ok s) => exists e, aligned_range start size = Ok (s, e)
      /\ s <= start /\ start + size <= e
      /\ registry_wf rs'
      /\ forall a, find_region a rs'
          = if decide (s <= a < e) then Some (mkVmRegion s e flags b) else find_region a rs
  | (rs', Err _) => rs' = rs /\
      (size = 0
       \/ (exists f, b = FileBacked f /\ file_offset f mod 4096 <> 0)
       \/ (forall s e, aligned_range start size <> Ok (s, e))
       \/ (exists s e i r, aligned_range start size = Ok (s, e) /\ rs !! i = Some (Some r)
             /\ ~ outside s e r)
       \/ (forall i, rs !! i <> Some None))
  end.
Proof.
  intros W Hst Hsz. unfold mmap. destruct (Z.eqb_spec size 0); [split; [done|by left]|].
  destruct (match b with FileBacked f => _ | ZeroFill => false end) eqn:Eb.
  { split; [done|]. right. left. destruct b as [|f]; [done|]. exists f. split; [done|].
    unfold PAGING_PAGE_SIZE in Eb. lia. }
  destruct (aligned_range start size) as [[s e]|er] eqn:Er.
  2:{ split; [done|]. do 2 right. by left. }
  destruct (aligned_range_spec start size s e Hst Hsz Er) as (_ & Hs & He & Hsm & Hem & Hss & Hse).
  destruct (overlaps_registry s e rs) eqn:Eo.
  { split; [done|]. do 3 right. left. unfold overlaps_registry in Eo.
    apply existsb_exists in Eo as ([r|] & Hin & Ho); [|done].
    apply list_elem_of_In, list_elem_of_lookup_1 in Hin as [i Hi].
    exists s, e, i, r. split_and!; [done|done|]. intros Hout.
    apply overlap_false in Hout; [congruence|by apply (rw_region _ W i)|lia]. }
  destruct (put_first _ rs) as [rs'|] eqn:Ep.
  2:{ split; [done|]. do 4 right. intros i. by eapply put_first_None. }
  apply put_first_Some in Ep as (i & Hi & ->). set (y := mkVmRegion s e flags b) in *.
  assert (registry_wf (<[i := Some y]> rs)) as W'.
  { apply (wf_insert rs i y None); [done|done|unfold region_ok; cbn; lia|].
    intros j r Hne Hj. pose proof (proj1 (overlaps_false s e rs) Eo j r Hj) as Ho.
    apply overlap_false in Ho; [|by apply (rw_region _ W j)|lia]. unfold outside, apart in *. cbn. lia. }
  exists e. split_and!; [done|lia|lia|done|]. intros a.
  case_decide as Ea.
  - apply find_region_owner; [done|]. apply (owner_insert rs i None (Some y) a y Hi). by left.
  - destruct (find_region a rs) as [r|] eqn:Ef.
    + apply find_region_owner; [done|]. apply find_region_owner in Ef as (j & Hj & Ha); [|done].
      apply (owner_insert rs i None (Some y) a r Hi). right. exists j. split; [|done].
      intros ->. congruence.
    + destruct (find_region a (<[i := Some y]> rs)) as [r|] eqn:Ef'; [|done]. exfalso.
      apply find_region_Some, (owner_insert rs i None (Some y) a r Hi) in Ef'.
      destruct Ef' as [[[= <-] Hx]|(j & _ & Hj & Hx)]; [by apply Ea|].
      apply (find_region_None _ _ Ef r). by exists j.
Qed.

(** ** What [munmap] does to a file-backed region *)


Lemma unmap_slot_other us ue j i rs x :
  j <> i -> rs !! i = Some (Some x) -> (unmap_slot us ue j rs).1 !! i = Some (Some x).
Proof.
  intros Hne Hi. unfold unmap_slot. repeat (case_match; cbn [fst]; try done).
  all: try (by rewrite list_lookup_insert_ne).
  - eapply put_first_keep; [eassumption|]. by rewrite list_lookup_insert_ne.
Qed.

Lemma unmap_slots_other us ue n : forall k i rs rs' x,
  (i < k)%nat -> rs !! i = Some (Some x) -> unmap_slots us ue n k rs = (rs', Ok tt) ->
  rs' !! i = Some (Some x).
Proof.
  induction n as [|n IH]; intros k i rs rs' x Hk Hi; cbn [unmap_slots]; [by intros [= <-]|].
  pose proof (unmap_slot_other us ue k i rs x ltac:(lia) Hi) as H1.
  destruct (unmap_slot us ue k rs) as [rs1 [[]|e]]; [|done]. cbn [fst] in H1.
  apply IH; [lia|done].
Qed.

(** The front of region [r] is cut off: it now starts at [ue]. *)
Definition cut_front (ue : Z) (r : VmRegion) : VmRegion :=
  mkVmRegion ue (vm_end r) (vm_flags r) (backing r).

Lemma unmap_slots_front us ue n : forall k i rs rs' r,
  (k <= i < k + n)%nat -> rs !! i = Some (Some r) -> us <= vm_start r < ue -> ue < vm_end r ->
  unmap_slots us ue n k rs = (rs', Ok tt) -> rs' !! i = Some (Some (cut_front ue r)).
Proof.
  induction n as [|n IH]; intros k i rs rs' r Hk Hi Hs He; cbn [unmap_slots]; [lia|].
  destruct (decide (k = i)) as [->|Hne].
  - assert (unmap_slot us ue i rs = (<[i := Some (cut_front ue r)]> rs, Ok tt)) as ->.
    { unfold unmap_slot. rewrite Hi. unfold ranges_overlap.
      destruct (Z.ltb_spec us (vm_end r)); [|lia]. destruct (Z.ltb_spec (vm_start r) ue); [|lia].
      destruct (Z.leb_spec us (vm_start r)); [|lia]. destruct (Z.leb_spec (vm_end r) ue); [lia|].
      destruct (Z.ltb_spec ue (vm_end r)); [done|lia]. }
    apply unmap_slots_other; [lia|]. apply list_lookup_insert_eq. by eapply lookup_lt_Some.
  - pose proof (unmap_slot_other us ue k i rs r Hne Hi) as H1.
    destruct (unmap_slot us ue k rs) as [rs1 [[]|e]]; [|done]. cbn [fst] in H1.
    apply IH; [lia|done|done|done].
Qed.

(** Unmapping the front of a file-backed region moves the region's start but
    not its file offset: a page that stays mapped is from then on filled from
    the file [ue - start] bytes too early. *)
Theorem munmap_front_shifts_file us ue i (rs rs' : registry) r f p :
  registry_wf rs -> aligned_range_ok us ue ->
  rs !! i = Some (Some r) -> backing r = FileBacked f -> us <= vm_start r < ue -> ue <= p < vm_end r ->
  0 <= file_offset f -> file_offset f + (vm_end r - vm_start r) < U64 ->
  unmap_slots us ue (List.length rs) 0 rs = (rs', Ok tt) ->
  exists r', find_region p rs = Some r /\ find_region p rs' = Some r' /\ backing r' = FileBacked f
    /\ page_file_offset r f p = Ok (file_offset f + (p - vm_start r))
    /\ page_file_offset r' f p = Ok (file_offset f + (p - vm_start r) - (ue - vm_start r)).
Proof.
  intros W Hr Hi Hb Hs Hp Hf Hmax E.
  pose proof (unmap_slots_spec us ue (List.length rs) 0 rs W Hr eq_refl ltac:(intros; lia)) as Hu.
  rewrite E in Hu. destruct Hu as (W' & _).
  pose proof (unmap_slots_front us ue (List.length rs) 0 i rs rs' r
    ltac:(apply lookup_lt_Some in Hi; lia) Hi Hs ltac:(lia) E) as Hi'.
  exists (cut_front ue r). split_and!.
  - apply find_region_owner; [done|]. exists i. split; [done|]. unfold in_region. lia.
  - apply find_region_owner; [done|]. exists i. split; [done|]. unfold in_region. cbn. lia.
  - done.
  - unfold page_file_offset, checked_sub64, checked_add64.
    destruct (Z.leb_spec 0 (p - vm_start r)); [|lia].
    destruct (Z.ltb_spec (file_offset f + (p - vm_start r)) U64); [done|lia].
  - unfold page_file_offset, checked_sub64, checked_add64. cbn [vm_start cut_front].
    destruct (Z.leb_spec 0 (p - ue)); [|lia].
    destruct (Z.ltb_spec (file_offset f + (p - ue)) U64); [|lia]. f_equal. lia.
Qed.

(** ** The pages of the range *)

Section Props.
Context {A : Type} {Ops : FrameOps A} {Laws : FrameLaws A}.
Notation dst := (demand_state A).
Implicit Types (s : dst) (mg : PagingManager).

(** The populated pages of a range are 4 KiB pages whose frames are in use, are
    not page tables and belong to one page each. *)
Record data_pages (T : gmap Z (list Z)) (mg : PagingManager) (t : paging_state A) (us ue : Z) : Prop := {
  dp_leaf : forall v l, us <= v < ue -> v mod 4096 = 0 -> view mg t v = Some l ->
    exists e, l = PageLeaf e /\ 0 <= e /\ 0 < pte_address e / 4096
      /\ fa_used (palloc t) (pte_address e / 4096) = true
      /\ forall a q, T !! a = Some q -> a / 4096 <> pte_address e / 4096;
  dp_distinct : forall v v' e e', us <= v < ue -> us <= v' < ue -> v mod 4096 = 0 -> v' mod 4096 = 0 ->
    v <> v' -> view mg t v = Some (PageLeaf e) -> view mg t v' = Some (PageLeaf e') ->
    pte_address e / 4096 <> pte_address e' / 4096;
}.

Lemma on_dpaging_ok {X} (p : prog (paging_state A) X) s t r :
  p (dpaging s) = Some (t, r) -> on_dpaging p s = Some (set_dpaging t s, r).
Proof. apply zoom_run. Qed.

Lemma set_dpaging_id s : set_dpaging (dpaging s) s = s.
Proof. by destruct s. Qed.

Lemma align_down_frame e : 0 <= e -> align_down (pte_address e) = pte_address e / 4096 * 4096.
Proof.
  intros He. pose proof (pte_address_aligned e He). unfold pte_address in *.
  rewrite addr_mask_spec in * by done. pose proof (Z.mod_pos_bound (e / 4096) (2 ^ 40) ltac:(lia)).
  rewrite align_down_spec by (unfold is_u64, U64; lia). dlia.
Qed.

(** One populated page: the mapping goes, then its frame. *)
Lemma unmap_one_spec T mg s addr :
  paging_ok T mg (dpaging s) -> canonical mg addr = true -> addr mod 4096 = 0 ->
  (forall l, view mg (dpaging s) addr = Some l ->
    exists e, l = PageLeaf e /\ 0 <= e /\ 0 < pte_address e / 4096
      /\ fa_used (palloc (dpaging s)) (pte_address e / 4096) = true
      /\ forall a q, T !! a = Some q -> a / 4096 <> pte_address e / 4096) ->
  exists s' T', unmap_one addr s = Some (s', Ok tt) /\ REGIONS s' = REGIONS s /\ dbytes s' = dbytes s
    /\ paging_ok T' mg (dpaging s') /\ (forall a q, T' !! a = Some q -> T !! a = Some q)
    /\ (forall v, view mg (dpaging s') v
          = if decide (same_page mg v addr) then None else view mg (dpaging s) v)
    /\ forall g, fa_used (palloc (dpaging s')) g = true <-> fa_used (palloc (dpaging s)) g = true
          /\ (forall a q, T !! a = Some q -> T' !! a = None -> a / 4096 <> g)
          /\ forall e, view mg (dpaging s) addr = Some (PageLeaf e) -> pte_address e / 4096 <> g.
Proof.
  intros Hok Hc Ham Hd.
  pose proof (translate_spec T mg (dpaging s) addr Hok Hc) as Ht. unfold unmap_one.
  destruct (view mg (dpaging s) addr) as [l|] eqn:Hv.
  2:{ destruct Ht as [er Ht]. erewrite bind_ok by (apply catch_run; by apply on_dpaging_ok).
      rewrite set_dpaging_id. exists s, T. split; [done|]. split; [done|]. split; [done|]. split; [done|].
      split; [done|]. split.
      - intros v. case_decide as E; [|done]. unfold view, same_page in *.
        pose proof (leaf_same_path (pmem (dpaging s)) (mode_levels (mode mg)) (root_table_phys mg) v addr E) as ->.
        exact Hv.
      - intros g. split; [|by intros [? _]]. intros ?. split_and!; [done|congruence|done]. }
  destruct (Hd l eq_refl) as (e & -> & He & Hf & Hu & Hnt). clear Hd.
  erewrite bind_ok by (apply catch_run; by apply on_dpaging_ok).
  rewrite set_dpaging_id.
  assert (leaf_phys addr (PageLeaf e) = pte_address e) as ->.
  { cbn [leaf_phys]. unfold page_offset. change 4095 with (2 ^ 12 - 1). rewrite land_low by lia.
    change (2 ^ 12) with 4096. by rewrite Ham, Z.lor_0_r. }
  pose proof (unmap_page_spec T mg (dpaging s) addr true Hok Hc ltac:(by rewrite Hv)) as Hun.
  destruct (unmap_page_internal addr true (dpaging s)) as [[t1 [[]|er]]|] eqn:Eu; [| |done].
  2:{ destruct Hun as [_ Hn]. congruence. }
  destruct Hun as (_ & _ & (T' & Hok1 & Hrel & _) & Hview). pose proof Hrel as [Hsub Hused].
  erewrite bind_ok by (apply on_dpaging_ok; exact Eu).
  unfold demand_free_frame. cbn [dpaging set_dpaging].
  assert (fa_used (palloc t1) (pte_address e / 4096) = true) as Hu1 by (by rewrite (released_other _ _ _ _ _ Hrel Hnt)).
  destruct Hok1 as [Hm1 [W1 I1 Hus1]].
  destruct (fa_free_law (palloc t1) (pte_address e / 4096) I1 Hf Hu1) as (a & Ef & Ia & Hua).
  unfold Pmm.PAGE_SIZE in Ef. rewrite <- align_down_frame in Ef by done. rewrite Ef.
  do 2 eexists. split; [reflexivity|]. split; [done|]. split; [done|].
  split; [|split; [exact Hsub|split; [exact Hview|]]].
  - constructor; [done|]. constructor; [exact W1|done|]. intros c q Hc'. cbn. rewrite Hua.
    specialize (Hnt c q (Hsub c q Hc')). destruct (Z.eqb_spec (c / 4096) (pte_address e / 4096)); [done|].
    by apply (Hus1 c q).
  - intros g. cbn. rewrite Hua, andb_true_iff, negb_true_iff, Z.eqb_neq, (Hused g). split.
    + intros (Hne & Hg & Hall). split_and!; [done|done|]. intros e' [= <-]. by apply not_eq_sym.
    + intros (Hg & Hall & Hpage). split_and!; [|done|done]. apply not_eq_sym. by apply Hpage.
Qed.

(** The rest of the range still has data pages after one page is gone. *)
Lemma data_pages_next T T' mg (t t' : paging_state A) addr ue :
  data_pages T mg t addr ue -> one_window mg addr ue -> 0 <= addr < ue -> addr mod 4096 = 0 ->
  (forall a q, T' !! a = Some q -> T !! a = Some q) ->
  (forall v, view mg t' v = if decide (same_page mg v addr) then None else view mg t v) ->
  (forall g, fa_used (palloc t) g = true -> (forall a q, T !! a = Some q -> a / 4096 <> g) ->
     (forall e, view mg t addr = Some (PageLeaf e) -> pte_address e / 4096 <> g) ->
     fa_used (palloc t') g = true) ->
  data_pages T' mg t' (addr + 4096) ue.
Proof.
  intros [Hl Hd] W H0 Ham Hsub Hview Hkeep.
  assert (forall v, addr + 4096 <= v < ue -> v mod 4096 = 0 -> view mg t' v = view mg t v) as Hsame.
  { intros v Hv Hvm. rewrite Hview, decide_False; [done|].
    rewrite same_page_base, (window_base mg addr ue v W) by lia. clear - Hv Hvm. lia. }
  constructor.
  - intros v l Hv Hvm Hvl. rewrite Hsame in Hvl by done.
    destruct (Hl v l ltac:(lia) Hvm Hvl) as (e & -> & He & Hf & Hu & Hnt).
    exists e. split_and!; try done; [|by intros a q Ha; eapply Hnt, Hsub].
    apply Hkeep; [done|done|]. intros e' He'. by apply (Hd addr v); (done || lia).
  - intros v v' e e' Hv Hv' Hvm Hvm' Hne He He'. rewrite Hsame in He, He' by done.
    by apply (Hd v v'); (done || lia).
Qed.

(** The range is empty, and the frames that have been freed are those of its pages
    and of the tables that are gone. *)
Record range_unmapped (T T' : gmap Z (list Z)) (mg : PagingManager) (us ue : Z) (t t' : paging_state A) : Prop := {
  ru_ok : paging_ok T' mg t';
  ru_sub : forall a q, T' !! a = Some q -> T !! a = Some q;
  ru_view : forall v, 0 <= v -> view mg t' v = if decide (covers mg us ue v) then None else view mg t v;
  ru_frames : forall g, fa_used (palloc t') g = true <-> fa_used (palloc t) g = true
    /\ (forall a q, T !! a = Some q -> T' !! a = None -> a / 4096 <> g)
    /\ forall v e, us <= v < ue -> v mod 4096 = 0 -> view mg t v = Some (PageLeaf e) -> pte_address e / 4096 <> g;
}.

Lemma range_unmapped_empty T mg us ue (t : paging_state A) : paging_ok T mg t -> ue <= us -> range_unmapped T T mg us ue t t.
Proof.
  intros Hok Hle. constructor; [done|done| |].
  - intros v Hv. by rewrite decide_False by (unfold covers; lia).
  - intros g. split; [|by intros [? _]]. intros ?. split_and!; [done|congruence|intros; lia].
Qed.

(** One page, then the rest. *)
Lemma range_unmapped_step T T1 T2 mg addr ue (t t1 t2 : paging_state A) :
  one_window mg addr ue -> 0 <= addr -> addr mod 4096 = 0 -> addr + 4096 <= ue ->
  (forall a q, T1 !! a = Some q -> T !! a = Some q) ->
  (forall v, view mg t1 v = if decide (same_page mg v addr) then None else view mg t v) ->
  (forall g, fa_used (palloc t1) g = true <-> fa_used (palloc t) g = true
     /\ (forall a q, T !! a = Some q -> T1 !! a = None -> a / 4096 <> g)
     /\ forall e, view mg t addr = Some (PageLeaf e) -> pte_address e / 4096 <> g) ->
  range_unmapped T1 T2 mg (addr + 4096) ue t1 t2 -> range_unmapped T T2 mg addr ue t t2.
Proof.
  intros W H0 Ham Hle Hsub Hview Hfr [Hok2 Hsub2 Hv2 Hf2].
  assert (forall v, addr + 4096 <= v < ue -> v mod 4096 = 0 -> view mg t1 v = view mg t v) as Hlater.
  { intros v Hv Hvm. rewrite Hview, decide_False; [done|].
    rewrite same_page_base, (window_base mg addr ue v W) by lia. clear - Hv Hvm. lia. }
  constructor; [done|auto| |].
  - intros v Hv. rewrite Hv2, Hview by done.
    pose proof (covers_next mg addr ue v W ltac:(lia) Ham ltac:(done)) as Hcn.
    pose proof (same_page_base mg v addr Hv H0) as Hsp. repeat case_decide; tauto.
  - intros g. rewrite (Hf2 g), (Hfr g). split.
    + intros ((Hg & Hg1 & Hp1) & Hg2 & Hp2). split_and!; [done| |].
      * intros a q Ha Hn. destruct (T1 !! a) as [q'|] eqn:E1; [by eapply Hg2|by eapply Hg1].
      * intros v e Hv Hvm Hve. destruct (decide (v = addr)) as [->|Hne]; [by apply Hp1|].
        assert (addr + 4096 <= v < ue) as Hv' by (clear - Hv Hvm Ham Hne; dlia).
        apply (Hp2 v); [done|done|]. by rewrite Hlater.
    + intros (Hg & Hall & Hp). split_and!; [done| | | |].
      * intros a q Ha Hn. apply (Hall a q Ha). destruct (T2 !! a) as [q'|] eqn:E2; [|done].
        apply Hsub2 in E2. congruence.
      * intros e. apply Hp; [lia|done].
      * intros a q Ha Hn. by apply (Hall a q); [apply Hsub|].
      * intros v e Hv Hvm. rewrite Hlater by done. apply Hp; [lia|done].
Qed.

(** The loop over the pages: it empties the range and frees each frame. *)
Lemma unmap_pages_spec mg ue n : forall T s addr,
  paging_ok T mg (dpaging s) -> data_pages T mg (dpaging s) addr ue ->
  one_window mg addr ue -> 0 <= addr -> addr mod 4096 = 0 -> ue mod 4096 = 0 -> ue < U64 -> ue - addr <= 4096 * Z.of_nat n ->
  exists s' T', unmap_pages n addr ue s = Some (s', Ok tt) /\ REGIONS s' = REGIONS s
    /\ dbytes s' = dbytes s /\ range_unmapped T T' mg addr ue (dpaging s) (dpaging s').
Proof.
  induction n as [|n IH]; intros T s addr Hok Hd W H0 Ham Hem Hmax Hn; cbn [unmap_pages].
  all: destruct (Z.ltb_spec addr ue) as [Hlt|Hge]; [try lia|].
  1,3: exists s, T; split_and!; [done|done|done|by apply range_unmapped_empty].
  destruct (unmap_one_spec T mg s addr Hok (ow_canonical _ _ _ W addr ltac:(lia)) Ham) as
    (s1 & T1 & E1 & Hr1 & Hb1 & Hok1 & Hsub & Hview & Hfr).
  { intros l Hl. apply (dp_leaf _ _ _ _ _ Hd addr); (done || lia). }
  erewrite bind_ok by exact E1.
  assert (addr + 4096 <= ue) as Hle by dlia.
  assert (addr +w PAGING_PAGE_SIZE = addr + 4096) as ->
    by (apply add64_small; unfold PAGING_PAGE_SIZE, U64 in *; lia).
  destruct (IH T1 s1 (addr + 4096) Hok1) as (s2 & T2 & E2 & Hr2 & Hb2 & Hru);
    [|by apply window_next|lia|dlia|done|done|lia|].
  { eapply data_pages_next; try done. intros g Hg Hgt Hge. apply Hfr. split_and!; [done|by intros; eapply Hgt|done]. }
  exists s2, T2. rewrite Hr2, Hb2, Hr1, Hb1. split_and!; [done|done|done|].
  by apply (range_unmapped_step T T1 T2 mg addr ue (dpaging s) (dpaging s1)).
Qed.

(** * Properties *)

(** C17. [munmap] of a range in one window of the tables (every range below 2^47
    is one), when its populated pages are data pages: it terminates without
    touching a null table and writes no data byte.  On success no address of the
    aligned range has a region or a mapping any more, every other translation
    stays, and the frames that have been freed are exactly those of the pages of the
    range and of the tables that are gone.  The registry is determined: outside the
    range an address is in the region it was in, cut at the range.  The part behind
    the range starts at the end of the range but keeps the file offset of the whole,
    so that its pages that are not populated yet will be filled from an earlier place
    of the file.  An error leaves the state as it was (the request is empty or
    overflows, or it meets no region), except when the registry is full and cannot
    hold the right part of a split region: then the pages are gone all the same, and
    the right part has lost its region. *)
Theorem munmap_correct T mg s start size :
  registry_wf (REGIONS s) -> paging_ok T mg (dpaging s) -> is_u64 start -> 0 <= size ->
  (forall us ue, aligned_range start size = Ok (us, ue) ->
     one_window mg us ue /\ data_pages T mg (dpaging s) us ue) ->
  match munmap start size s with
  | Some (s', Ok _) => exists us ue T', aligned_range start size = Ok (us, ue)
      /\ registry_wf (REGIONS s')
      /\ (forall a, find_region a (REGIONS s')
            = if decide (us <= a < ue) then None else cut us ue a <$> find_region a (REGIONS s))
      /\ range_unmapped T T' mg us ue (dpaging s) (dpaging s') /\ dbytes s' = dbytes s
  | Some (s', Err e) =>
      (s' = s /\ (size = 0 \/ forall us ue i r, aligned_range start size = Ok (us, ue) ->
                    REGIONS s !! i = Some (Some r) -> outside us ue r))
      \/ exists us ue T', aligned_range start size = Ok (us, ue) /\ e = "No free region slots for split"
           /\ split_failed us ue (REGIONS s) (REGIONS s')
           /\ range_unmapped T T' mg us ue (dpaging s) (dpaging s') /\ dbytes s' = dbytes s
  | None => False
  end.
Proof.
  intros W Hok Hst Hsz Hd. unfold munmap. destruct (Z.eqb_spec size 0); [left; split; [done|by left]|].
  destruct (aligned_range start size) as [[us ue]|er] eqn:Er; [|left; split; [done|by right]].
  destruct (aligned_range_spec start size us ue Hst Hsz Er) as (_ & Hs & He & Hsm & Hem & _).
  destruct (Hd us ue eq_refl) as [Hw Hdp]. clear Hd.
  erewrite bind_ok by reflexivity. destruct (overlaps_registry us ue (REGIONS s)) eqn:Eo; cbn [negb].
  2:{ left. split; [done|right]. intros ? ? i r [= <- <-] Hi.
      apply overlap_false; [by apply (rw_region _ W i)|lia|]. by apply (proj1 (overlaps_false us ue _) Eo i). }
  destruct (unmap_pages_spec mg ue (Z.to_nat ((ue - us) / PAGING_PAGE_SIZE + 1)) T s us Hok Hdp
    Hw ltac:(lia) Hsm Hem ltac:(lia) ltac:(unfold PAGING_PAGE_SIZE; dlia))
    as (s1 & T1 & E1 & Hr1 & Hb1 & Hru).
  erewrite bind_ok by exact E1. unfold on_regions. rewrite Hr1.
  pose proof (unmap_slots_spec us ue (List.length (REGIONS s)) 0 (REGIONS s) W
    ltac:(unfold aligned_range_ok; lia) eq_refl ltac:(intros; lia)) as Hu.
  destruct (unmap_slots us ue _ 0 (REGIONS s)) as [rs' [[]|e]] eqn:Eu.
  - destruct Hu as (W' & _ & Hsame & Hout). exists us, ue, T1. split; [done|]. split; [done|].
    split; [|split; [done|done]]. intros a. apply find_region_cut; (done || lia).
  - right. apply unmap_slots_err in Eu as [-> Hf]; [|done|unfold aligned_range_ok; lia].
    exists us, ue, T1. split_and!; [done|done|exact Hf|exact Hru|exact Hb1].
Qed.

(** ** Adding a page *)

(** A page mapped to a frame of its own: the frame was free, it holds no table, and
    new tables are in frames that were free. *)
Record page_added (T T' : gmap Z (list Z)) mg (page flags x : Z) (t t' : paging_state A) : Prop := {
  pa_ok : paging_ok T' mg t';
  pa_frame : x mod 4096 = 0 /\ 0 < x < 134217728;
  pa_free : fa_used (palloc t) (x / 4096) = false;
  pa_used : fa_used (palloc t') (x / 4096) = true;
  pa_mono : used_mono t t';
  pa_tables : forall a q, T' !! a = Some q ->
    a / 4096 <> x / 4096 /\ (T !! a = Some q \/ fa_used (palloc t) (a / 4096) = false);
  pa_view : forall v, view mg t' v
    = if decide (same_page mg v page) then Some (PageLeaf (pte_set x flags)) else view mg t v;
}.

(** Pages mapped so are data pages. *)
Lemma data_pages_none T mg (t : paging_state A) us ue :
  (forall v, us <= v < ue -> v mod 4096 = 0 -> view mg t v = None) -> data_pages T mg t us ue.
Proof. intros Hn. constructor; [intros v l H1 H2 H3|intros v v' e e' H1 _ H2 _ _ H3 _]; by rewrite Hn in H3. Qed.

Lemma data_pages_added T T' mg page flags x (t t' : paging_state A) us ue :
  page_added T T' mg page flags x t t' -> flags_ok flags -> one_window mg us ue -> 0 <= us -> us mod 4096 = 0 ->
  us <= page < ue -> data_pages T mg t us ue -> data_pages T' mg t' us ue.
Proof.
  intros P Hfl W H0 Hum Hp [Hl Hd]. destruct (pa_frame _ _ _ _ _ _ _ _ P) as [Hxm Hx].
  assert (0 <= pte_set x flags /\ pte_address (pte_set x flags) = x) as [He0 Hea].
  { split; [|apply pte_set_address; [lia|done|done]]. unfold pte_set. apply Z.lor_nonneg. split; [apply Z.land_nonneg; lia|apply Hfl]. }
  assert (forall v l, us <= v < ue -> v mod 4096 = 0 -> view mg t' v = Some l ->
    (l = PageLeaf (pte_set x flags) /\ same_page mg v page) \/ (~ same_page mg v page /\ view mg t v = Some l)) as Hcase.
  { intros v l Hv Hvm Hvl. rewrite (pa_view _ _ _ _ _ _ _ _ P) in Hvl. case_decide; [left; by simplify_eq|by right]. }
  assert (forall v l e, us <= v < ue -> v mod 4096 = 0 -> view mg t v = Some l -> l = PageLeaf e ->
    pte_address e / 4096 <> x / 4096) as Hold.
  { intros v l e Hv Hvm Hvl ->. destruct (Hl v _ Hv Hvm Hvl) as (e' & [= <-] & _ & _ & Hu & _).
    intros E. rewrite E in Hu. by rewrite (pa_free _ _ _ _ _ _ _ _ P) in Hu. }
  constructor.
  - intros v l Hv Hvm Hvl. destruct (Hcase v l Hv Hvm Hvl) as [[-> _]|[_ Hvt]].
    + exists (pte_set x flags). rewrite Hea. split_and!; [done|done|dlia|apply P|].
      intros a q Ha. by apply (pa_tables _ _ _ _ _ _ _ _ P a q).
    + destruct (Hl v l Hv Hvm Hvt) as (e & -> & He & Hf & Hu & Hnt). exists e.
      split_and!; try done; [by apply (pa_mono _ _ _ _ _ _ _ _ P)|].
      intros a q Ha. destruct (pa_tables _ _ _ _ _ _ _ _ P a q Ha) as [_ [HT|Hn]]; [by eapply Hnt|congruence].
  - intros v v' e e' Hv Hv' Hvm Hvm' Hne He He'.
    destruct (Hcase v _ Hv Hvm He) as [[[= ->] Es]|[_ Ht]], (Hcase v' _ Hv' Hvm' He') as [[[= ->] Es']|[_ Ht']].
    + exfalso. apply Hne. assert (same_page mg v v') as E by (unfold same_page; rewrite Es; by rewrite Es').
      apply same_page_base in E; [|lia..]. rewrite (window_base mg us ue v W), (window_base mg us ue v' W) in E by (done || lia). lia.
    + rewrite Hea. intros E. symmetry in E. exact (Hold v' _ e' Hv' Hvm' Ht' eq_refl E).
    + rewrite Hea. exact (Hold v _ e Hv Hvm Ht eq_refl).
    + by apply (Hd v v').
Qed.

(** ** Filling a page *)

Lemma zero_page_spec x m :
  (forall i, 0 <= i < 4096 -> rd (zero_page x m) (x + i) = 0)
  /\ forall a, ~ (x <= a < x + 4096) -> rd (zero_page x m) a = rd m a.
Proof.
  unfold zero_page, PAGING_PAGE_SIZE. set (body := fun i (m : store) => _).
  pose (P := fun n (m' : store) => (forall i, 0 <= i < n -> rd m' (x + i) = 0)
    /\ forall a, ~ (x <= a < x + 4096) -> rd m' a = rd m a).
  enough (P (Z.max 0 4096) (for_loop 0 4096 body m)) as H by exact H.
  apply for_loop_ind; [split; [intros; lia|done]|].
  intros i m' Hi [H1 H2]. subst body. split; cbv beta.
  - intros j Hj. rewrite rd_wr. case_decide; [done|]. apply H1. lia.
  - intros a Ha. rewrite rd_wr_ne by lia. by apply H2.
Qed.

Context (cb : Z -> Z -> Z -> Z -> Z -> store -> store * Z).

(** The documented contract of the callback: it writes at most the [len] bytes
    at [dst]. *)
Definition callback_ok : Prop :=
  forall p c off d len m a, ~ (d <= a < d + len) -> rd (fst (cb p c off d len m)) a = rd m a.

(** An allocation alone keeps the page tables. *)
Lemma alloc_paging_ok T mg (t : paging_state A) al x : paging_ok T mg t ->
  fa_try_alloc (palloc t) = (al, Some x) -> paging_ok T mg (set_alloc al t).
Proof.
  intros Hok Ea. eapply grant_tables_ok; [done|].
  exact (fa_try_law _ _ _ (ok_alloc _ _ _ _ (pg_tables _ _ _ Hok)) Ea).
Qed.

(** The place in the file of the page at [page_base], and how many bytes of the page
    come from there. *)
Definition page_offset_in (r : VmRegion) (f : FileBacking) (page_base : Z) : Z :=
  file_offset f + (page_base - vm_start r).
Definition file_bytes (r : VmRegion) (page_base : Z) : Z :=
  match backing r with
  | ZeroFill => 0
  | FileBacked f => Z.max 0 (Z.min 4096 (file_size f - page_offset_in r f page_base))
  end.

Lemma page_file_offset_ok r f pb off : page_file_offset r f pb = Ok off -> off = page_offset_in r f pb.
Proof.
  unfold page_file_offset, page_offset_in, checked_sub64, checked_add64. destruct (_ <=? _); [|done].
  destruct (_ <? _); [|done]. by intros [= <-].
Qed.

(** The bytes after the page at [x] has been filled: zeros in the page, and for a
    file what the callback then writes when it is asked for the bytes of the page,
    as many as the file has, from their place in the file. *)
Definition filled_from (r : VmRegion) (pb x : Z) (m m' : store) : Prop :=
  exists m0, (forall i, 0 <= i < 4096 -> rd m0 (x + i) = 0)
    /\ (forall a, ~ (x <= a < x + 4096) -> rd m0 a = rd m a)
    /\ m' = match backing r with
            | ZeroFill => m0
            | FileBacked f =>
                if 0 <? file_bytes r pb
                then fst (cb (read_at f) (ctx f) (page_offset_in r f pb) x (file_bytes r pb) m0) else m0
            end.

Lemma fill_page_spec r pb x s : callback_ok -> 0 < x ->
  match fill_page cb r pb x s with
  | Some (s', Ok _) => x < 134217728 /\ dpaging s' = dpaging s /\ REGIONS s' = REGIONS s
      /\ (forall i, file_bytes r pb <= i < 4096 -> rd (dbytes s') (x + i) = 0)
      /\ (forall a, ~ (x <= a < x + 4096) -> rd (dbytes s') a = rd (dbytes s) a)
      /\ filled_from r pb x (dbytes s) (dbytes s')
  | Some (s', Err _) => dpaging s' = dpaging s /\ REGIONS s' = REGIONS s
  | None => False
  end.
Proof.
  intros Hcb Hx. unfold fill_page, demand_phys_to_virt.
  destruct (Z.leb_spec 134217728 x); [done|]. destruct (Z.eqb_spec x 0); [lia|].
  destruct (zero_page_spec x (dbytes s)) as [Hz Hzo].
  erewrite bind_ok by reflexivity. unfold filled_from, file_bytes.
  assert (exists m0, (forall i, 0 <= i < 4096 -> rd m0 (x + i) = 0)
    /\ (forall a, ~ (x <= a < x + 4096) -> rd m0 a = rd (dbytes s) a) /\ zero_page x (dbytes s) = m0) as Hm0.
  { exists (zero_page x (dbytes s)). split_and!; [intros; apply Hz; lia|done|done]. }
  destruct (backing r) as [|f].
  { split_and!; [lia|done|done| |done|exact Hm0]. intros i Hi. apply Hz. lia. }
  destruct (page_file_offset r f pb) as [off|e] eqn:Eoff; [|done]. apply page_file_offset_ok in Eoff as <-.
  destruct (Z.ltb_spec off (file_size f)); cbn [dpaging REGIONS set_dbytes dbytes modify].
  2:{ rewrite (proj2 (Z.ltb_ge 0 (Z.max 0 (Z.min 4096 (file_size f - off))))) by lia.
      split_and!; [lia|done|done| |done|exact Hm0]. intros i Hi. apply Hz. lia. }
  rewrite (proj2 (Z.ltb_lt 0 (Z.max 0 (Z.min 4096 (file_size f - off))))) by lia.
  rewrite (Z.max_r 0 (Z.min 4096 (file_size f - off))) by lia.
  unfold PAGING_PAGE_SIZE. split_and!; [lia|done|done| | |].
  - intros i Hi. rewrite Hcb by lia. apply Hz. lia.
  - intros a Ha. rewrite Hcb by lia. by apply Hzo.
  - destruct Hm0 as (m0 & H1 & H2 & <-). by exists (zero_page x (dbytes s)).
Qed.

(** [handle_demand_page_fault] on a page that is not present. *)
Lemma demand_fault_full T mg s a code :
  callback_ok -> paging_ok T mg (dpaging s) -> is_u64 a ->
  (forall r, find_region a (REGIONS s) = Some r -> 0 <= vm_flags r) ->
  let page := demand_align_down a in
  canonical mg page = true -> view mg (dpaging s) page = None ->
  match handle_demand_page_fault cb a code s with
  | Some (s', Ok _) => exists r x T', find_region a (REGIONS s) = Some r
      /\ page_added T T' mg page (flags_set (vm_flags r) PRESENT) x (dpaging s) (dpaging s')
      /\ (forall i, file_bytes r page <= i < 4096 -> rd (dbytes s') (x + i) = 0)
      /\ (forall b, ~ (x <= b < x + 4096) -> rd (dbytes s') b = rd (dbytes s) b)
      /\ filled_from r page x (dbytes s) (dbytes s')
      /\ REGIONS s' = REGIONS s
  | Some (s', Err e) => REGIONS s' = REGIONS s
      /\ (forall v, view mg (dpaging s') v = view mg (dpaging s) v)
      /\ (s' = s \/ exists f, fa_used (palloc (dpaging s)) f = false
                            /\ fa_used (palloc (dpaging s')) f = true)
  | None => False
  end.
Proof.
  intros Hcb Hok Ha Hfl page Hc Hv. unfold handle_demand_page_fault.
  destruct (negb (Z.land code 1 =? 0)); [split_and!; [done|done|by left]|].
  erewrite bind_ok by reflexivity.
  destruct (find_region a (REGIONS s)) as [r|] eqn:Ef; [|split_and!; [done|done|by left]].
  specialize (Hfl r eq_refl).
  destruct (fa_try_alloc (palloc (dpaging s))) as [al res] eqn:Ea.
  pose proof (fa_try_law _ _ _ (ok_alloc _ _ _ _ (pg_tables _ _ _ Hok)) Ea) as Hlaw.
  assert (demand_alloc_frame s = Some (set_dpaging (set_alloc al (dpaging s)) s,
    match res with Some x => Ok x | None => Err "Failed to allocate frame" end)) as Eda
    by (unfold demand_alloc_frame; by rewrite Ea).
  destruct res as [x|].
  2:{ subst al. erewrite bind_err by exact Eda. destruct s as [pg b rs]. destruct pg.
      split_and!; [done|done|by left]. }
  erewrite bind_ok by exact Eda. fold page.
  set (s1 := set_dpaging (set_alloc al (dpaging s)) s).
  pose proof Hlaw as (f & Hfr & Hx & Hfu & Hus & Ia). unfold Pmm.PAGE_SIZE, PHYS_FRAMES in *.
  assert (x / 4096 = f) as Hxf by (subst x; by apply Z.div_mul).
  assert (x mod 4096 = 0) as Hxm by (subst x; by apply Z.mod_mul).
  assert (fa_used al f = true) as Hal by (by rewrite Hus, Z.eqb_refl).
  pose proof (alloc_paging_ok T mg (dpaging s) al x Hok Ea) as Hok1.
  pose proof (fill_page_spec r page x s1 Hcb ltac:(lia)) as Hfp.
  destruct (fill_page cb r page x s1) as [[s2 [[]|e]]|] eqn:Efp; [| |done].
  2:{ erewrite bind_err by exact Efp. destruct Hfp as [Hd Hr]. rewrite Hd, Hr.
      split_and!; [done|done|]. right. exists f. split; [done|]. cbn. done. }
  destruct Hfp as (Hlo & Hd2 & Hr2 & Hz2 & Ho2 & Hfill). erewrite bind_ok by exact Efp.
  set (flags := flags_set (vm_flags r) PRESENT).
  assert (is_present flags = true) as Hpr.
  { subst flags. unfold is_present, flags_set, PRESENT. rewrite land_bit_zero, negb_involutive by lia.
    rewrite Z.lor_spec, bit_testbit by lia. by rewrite orb_true_r. }
  assert (not_huge (view mg (dpaging s2) page)) as Hnh.
  { rewrite Hd2. change (view mg (dpaging s1) page) with (view mg (dpaging s) page). by rewrite Hv. }
  pose proof (map_page_full T mg (dpaging s2) page x flags ltac:(by rewrite Hd2) Hc
    (proj2 (is_aligned_mod x) Hxm) Hnh) as Hm.
  rewrite pte_set_present in Hm by done.
  destruct (map_page page x flags (dpaging s2)) as [[t [[]|e]]|] eqn:Em; [| |done].
  - destruct Hm as (Hmono & T' & Hok' & [_ Hadd] & _ & Hview).
    rewrite (on_dpaging_ok _ s2 t (Ok tt)) by exact Em. rewrite Hd2 in *. exists r, x, T'. cbn.
    split; [done|]. split; [|done]. constructor; try done.
    + lia.
    + by rewrite Hxf.
    + rewrite Hxf. by apply Hmono.
    + intros g Hg. apply Hmono. cbn. rewrite Hus, Hg. apply orb_true_r.
    + intros b q Hb. rewrite Hxf. destruct (Hadd b q Hb) as [HT|Hn].
      * pose proof (ok_used _ _ _ _ (pg_tables _ _ _ Hok) b q HT). split; [congruence|by left].
      * cbn in Hn. rewrite Hus in Hn. apply orb_false_iff in Hn as [Hn%Z.eqb_neq Hn']. split; [done|by right].
  - destruct Hm as (Hmono & T' & _ & _ & _ & Hview).
    rewrite (on_dpaging_ok _ s2 t (Err e)) by exact Em. cbn. split_and!; [done| |].
    + intros v. rewrite Hview, Hd2. done.
    + right. exists f. split; [done|]. apply Hmono. rewrite Hd2. done.
Qed.

(** [handle_demand_page_fault] on a page that is not present. *)
Lemma demand_fault_spec T mg s a code :
  callback_ok -> paging_ok T mg (dpaging s) -> is_u64 a ->
  (forall r, find_region a (REGIONS s) = Some r -> 0 <= vm_flags r) ->
  let page := demand_align_down a in
  canonical mg page = true -> view mg (dpaging s) page = None ->
  match handle_demand_page_fault cb a code s with
  | Some (s', Ok _) => exists r x, find_region a (REGIONS s) = Some r
      /\ fa_used (palloc (dpaging s)) (x / 4096) = false /\ (x mod 4096 = 0 /\ 0 < x < 134217728)
      /\ (exists T', paging_ok T' mg (dpaging s'))
      /\ (forall v, view mg (dpaging s') v
            = if decide (same_page mg v page)
              then Some (PageLeaf (pte_set x (flags_set (vm_flags r) PRESENT)))
              else view mg (dpaging s) v)
      /\ (forall i, file_bytes r page <= i < 4096 -> rd (dbytes s') (x + i) = 0)
      /\ (forall b, ~ (x <= b < x + 4096) -> rd (dbytes s') b = rd (dbytes s) b)
      /\ filled_from r page x (dbytes s) (dbytes s')
      /\ REGIONS s' = REGIONS s
  | Some (s', Err e) => REGIONS s' = REGIONS s
      /\ (forall v, view mg (dpaging s') v = view mg (dpaging s) v)
      /\ (s' = s \/ exists f, fa_used (palloc (dpaging s)) f = false
                            /\ fa_used (palloc (dpaging s')) f = true)
  | None => False
  end.
Proof.
  intros Hcb Hok Ha Hfl page Hc Hv. pose proof (demand_fault_full T mg s a code Hcb Hok Ha Hfl Hc Hv) as H.
  destruct (handle_demand_page_fault cb a code s) as [[s' [[]|e]]|]; [|done|done].
  destruct H as (r & x & T' & Hr & Hp & H). destruct Hp. exists r, x. by eauto 10.
Qed.

(** C18. [handle_demand_page_fault] on a page that is not present.  On success
    the address was in a region, and the page, and no other, is mapped with the
    region's flags to a frame that was free and holds no table ([page_added]).  The
    page has been zeroed, and when it lies before the end of a file the callback of
    the region has then been run on it, once, with the file's context, the place of
    the page in the file and the number of bytes of the page that the file has
    ([filled_from]); the bytes past the file's end, all of them for anonymous
    memory, are zero, and no byte of another page changes.  On an error no
    translation changes; then either nothing has changed at all, or a frame has been
    allocated that nothing maps or frees. *)
Theorem demand_fault_correct T mg s a code :
  callback_ok -> paging_ok T mg (dpaging s) -> is_u64 a ->
  (forall r, find_region a (REGIONS s) = Some r -> 0 <= vm_flags r) ->
  let page := demand_align_down a in
  canonical mg page = true -> view mg (dpaging s) page = None ->
  match handle_demand_page_fault cb a code s with
  | Some (s', Ok _) => exists r x T', find_region a (REGIONS s) = Some r
      /\ page_added T T' mg page (flags_set (vm_flags r) PRESENT) x (dpaging s) (dpaging s')
      /\ filled_from r page x (dbytes s) (dbytes s')
      /\ (forall i, file_bytes r page <= i < 4096 -> rd (dbytes s') (x + i) = 0)
      /\ (forall b, ~ (x <= b < x + 4096) -> rd (dbytes s') b = rd (dbytes s) b)
      /\ REGIONS s' = REGIONS s
  | Some (s', Err e) => REGIONS s' = REGIONS s
      /\ (forall v, view mg (dpaging s') v = view mg (dpaging s) v)
      /\ (s' = s \/ exists f, fa_used (palloc (dpaging s)) f = false
                            /\ fa_used (palloc (dpaging s')) f = true)
  | None => False
  end.
Proof.
  intros Hcb Hok Ha Hfl page Hc Hv. pose proof (demand_fault_full T mg s a code Hcb Hok Ha Hfl Hc Hv) as H.
  fold page in H. destruct (handle_demand_page_fault cb a code s) as [[s' [u|e]]|]; [|exact H..].
  destruct H as (r & x & T' & H1 & H2 & H3 & H4 & H5 & H6). exists r, x, T'. by split_and!.
Qed.
End Props.

(** * Witnesses *)

Lemma sample_regions_wf : registry_wf sample_regions.
Proof.
  assert (forall i r, sample_regions !! i = Some (Some r) -> i = 1%nat /\ r = sample_region) as H
    by (intros [|[|i]] r; cbn; (done || by intros [= <-])).
  constructor.
  - intros i r Hi. apply H in Hi as [-> ->]. split_and!; by vm_compute.
  - intros i j r r' Hne Hi Hj. apply H in Hi as [-> _]. by apply H in Hj as [-> _].
Qed.

Lemma sample_demand_ok : paging_ok sample_types sample_mgr (dpaging sample_demand)
  /\ forall v, view sample_mgr (dpaging sample_demand) v
      = if decide (same_page sample_mgr v 24576) then Some (PageLeaf 20483)
        else view sample_mgr sample_paging v.
Proof.
  destruct (sample_cow_ok 20483 ∅ eq_refl) as [Hok Hv]. split; [|exact Hv].
  apply (alloc_paging_ok _ _ _ _ 20480 Hok). by vm_compute.
Qed.

Lemma sample_data_pages :
  data_pages sample_types sample_mgr (dpaging sample_demand) 24576 28672.
Proof.
  destruct sample_demand_ok as [_ Hv].
  assert (forall v, 24576 <= v < 28672 -> v mod 4096 = 0 -> v = 24576) as Hone by (intros; dlia).
  assert (view sample_mgr (dpaging sample_demand) 24576 = Some (PageLeaf 20483)) as E
    by (rewrite Hv, decide_True; [done|by vm_compute]).
  constructor.
  - intros v l H1 H2. rewrite (Hone v H1 H2), E. intros [= <-]. exists 20483.
    split_and!; [done|done|by vm_compute|by vm_compute|].
    intros a q Ha%sample_types_lookup. change (pte_address 20483 / 4096) with 5.
    destruct Ha as [[-> _]|[[-> _]|[[-> _]|[-> _]]]]; by vm_compute.
  - intros v v' e e' H1 H2 H3 H4 Hne. rewrite (Hone v H1 H3), (Hone v' H2 H4) in Hne. done.
Qed.

Lemma mmap_correct_witness :
  exists rs', mmap 20481 4000 2 ZeroFill sample_regions = (rs', Ok 20480)
    /\ find_region 24575 rs' = Some (mkVmRegion 20480 24576 2 ZeroFill).
Proof.
  pose proof (mmap_correct 20481 4000 2 ZeroFill sample_regions sample_regions_wf
    ltac:(unfold is_u64, U64; lia) ltac:(lia)) as H.
  assert (snd (mmap 20481 4000 2 ZeroFill sample_regions) = Ok 20480) as E by (by vm_compute).
  destruct (mmap 20481 4000 2 ZeroFill sample_regions) as [rs' r]. cbn [snd] in E. subst r.
  exists rs'. split; [done|]. destruct H as (e & He & _ & _ & _ & Hf).
  assert (e = 24576) as -> by (vm_compute in He; congruence).
  rewrite Hf, decide_True; [done|lia].
Defined.

Lemma munmap_correct_witness :
  exists s', munmap 24576 4096 sample_demand = Some (s', Ok tt)
    /\ view sample_mgr (dpaging s') 24576 = None
    /\ find_region 24576 (REGIONS s') = None
    /\ find_region 28672 (REGIONS s') = Some (mkVmRegion 28672 32768 2 (FileBacked sample_file))
    /\ fa_used (palloc (dpaging s')) 5 = false.
Proof.
  destruct sample_demand_ok as [Hok Hview].
  assert (aligned_range 24576 4096 = Ok (24576, 28672)) as Er by (by vm_compute).
  pose proof (munmap_correct sample_types sample_mgr sample_demand 24576 4096 sample_regions_wf Hok
    ltac:(unfold is_u64, U64; lia) ltac:(lia)
    ltac:(rewrite Er; intros us ue [= <- <-]; split; [by apply one_window_user|exact sample_data_pages])) as H.
  assert (snd <$> munmap 24576 4096 sample_demand = Some (Ok tt)) as E by (by vm_compute).
  destruct (munmap 24576 4096 sample_demand) as [[s' r]|]; [|done].
  cbn in E. injection E as ->. exists s'. split; [done|].
  destruct H as (us & ue & T' & Er' & _ & Hf & Hru & _). rewrite Er in Er'. injection Er' as <- <-.
  split_and!.
  - rewrite (ru_view _ _ _ _ _ _ _ Hru), decide_True; [done|by vm_compute|lia].
  - rewrite Hf, decide_True; [done|lia].
  - rewrite Hf, decide_False by lia. by vm_compute.
  - apply not_true_is_false. intros Hu. apply (ru_frames _ _ _ _ _ _ _ Hru) in Hu as (_ & _ & Hp).
    apply (Hp 24576 20483); [lia|done| |by vm_compute]. rewrite Hview, decide_True; [done|by vm_compute].
Defined.

Lemma munmap_front_shifts_file_witness :
  exists rs' r', unmap_slots 24576 28672 2 0 sample_regions = (rs', Ok tt)
    /\ find_region 28672 rs' = Some r'
    /\ page_file_offset sample_region sample_file 28672 = Ok 12288
    /\ page_file_offset r' sample_file 28672 = Ok 8192.
Proof.
  destruct (unmap_slots 24576 28672 2 0 sample_regions) as [rs' r] eqn:E.
  assert (r = Ok tt) as -> by (vm_compute in E; congruence).
  destruct (munmap_front_shifts_file 24576 28672 1 sample_regions rs' sample_region sample_file 28672
    sample_regions_wf ltac:(split_and!; by vm_compute) eq_refl eq_refl
    ltac:(cbn; lia) ltac:(cbn; lia) ltac:(cbn; lia) ltac:(cbn; unfold U64; lia) E)
    as (r' & _ & Hf & _ & H1 & H2).
  exists rs', r'. split_and!; [done|exact Hf|exact H1|exact H2].
Defined.

Lemma sample_read_ok : callback_ok sample_read.
Proof.
  intros p c off d len m a Ha. unfold sample_read. cbn [fst].
  apply (for_loop_ind (fun _ m' => rd m' a = rd m a)); [done|].
  intros i m' Hi E. rewrite rd_wr_ne by lia. done.
Qed.

Lemma sample_read_bytes p c off d len m i : 0 <= i < len ->
  rd (fst (sample_read p c off d len m)) (d + i) = (off + i) mod 199.
Proof.
  intros Hi. unfold sample_read. cbn [fst].
  assert (forall i, 0 <= i < Z.max 0 len -> rd (for_loop 0 len (fun i m => wr m (d + i) ((off + i) mod 199)) m) (d + i)
    = (off + i) mod 199) as H; [|apply H; lia].
  apply (for_loop_ind (fun n m' => forall i, 0 <= i < n -> rd m' (d + i) = (off + i) mod 199)); [intros; lia|].
  intros k m' Hk IH j Hj. rewrite rd_wr. case_decide; [f_equal; lia|]. apply IH. lia.
Qed.

Lemma demand_fault_correct_witness :
  exists s' x, handle_demand_page_fault sample_read 28680 0 sample_demand = Some (s', Ok tt)
    /\ view sample_mgr (dpaging s') 28672 = Some (PageLeaf (pte_set x 3))
    /\ exists m0, dbytes s' = fst (sample_read 0 0 12288 x 4096 m0) /\ rd (dbytes s') (x + 5) = (12288 + 5) mod 199.
Proof.
  destruct sample_demand_ok as [Hok Hview].
  assert (view sample_mgr (dpaging sample_demand) 28672 = None) as Hv
    by (rewrite Hview; by vm_compute).
  pose proof (demand_fault_correct sample_read sample_types sample_mgr sample_demand 28680 0
    sample_read_ok Hok ltac:(unfold is_u64, U64; lia)
    ltac:(intros r Hr; vm_compute in Hr; injection Hr as <-; cbn; lia)
    ltac:(by vm_compute) Hv) as H.
  assert (is_ok <$> (snd <$> handle_demand_page_fault sample_read 28680 0 sample_demand) = Some true) as E
    by (by vm_compute).
  destruct (handle_demand_page_fault sample_read 28680 0 sample_demand) as [[s' [[]|er]]|] eqn:Eh;
    [|done|done].
  destruct H as (r & x & T' & Hr & Hp & Hfill & _). exists s', x. split; [done|].
  assert (r = sample_region) as -> by (vm_compute in Hr; injection Hr as <-; done).
  split; [rewrite (pa_view _ _ _ _ _ _ _ _ Hp), decide_True; [done|by vm_compute]|].
  destruct Hfill as (m0 & _ & _ & E'). exists m0.
  assert (dbytes s' = fst (sample_read 0 0 12288 x 4096 m0)) as -> by exact E'. split; [done|].
  assert (0 <= 5 < 4096) as Hi by lia. exact (sample_read_bytes 0 0 12288 x 4096 m0 5 Hi).
Defined.
