(* ===== verification/Slab.v ===== *)
(** Slab pages: [memory/slab.rs].

    A slab page is 4 KiB of the byte store holding objects of one size; the free
    objects are linked through their first two bytes.  The facts about one page
    are at the end of the file; the heap builds on them. *)

From S2P Require Import Prelude.

Definition SLAB_PAGE_SIZE : Z := 4096.
Definition SLAB_CLASS_COUNT : Z := 8.
Definition SLAB_CLASS_SIZES : list Z := [16; 32; 64; 128; 256; 512; 1024; 2048].
Definition FREE_LIST_END : Z := 65535.

Record SlabPage := mkSlab {
  active : bool;
  class_index : Z;
  free_head : Z;
  in_use : Z;
  capacity : Z;
}.

Definition SlabPage_empty : SlabPage := mkSlab false 0 FREE_LIST_END 0 0.
#[export] Instance SlabPage_inhabited : Inhabited SlabPage := populate SlabPage_empty.

Definition has_free_objects (s : SlabPage) : bool := active s && negb (free_head s =? FREE_LIST_END).
Definition is_empty (s : SlabPage) : bool := active s && (in_use s =? 0).

(** The first class, from index [i] on, of at least [required] bytes. *)
Fixpoint first_class (required i : Z) (sizes : list Z) : option Z :=
  match sizes with
  | [] => None
  | c :: cs => if required <=? c then Some i else first_class required (i + 1) cs
  end.

Definition class_index_for (size align : Z) : option Z :=
  first_class (Z.max (Z.max size align) 2) 0 SLAB_CLASS_SIZES.

Definition class_size (class_index : Z) : Z :=
  if SLAB_CLASS_COUNT <=? class_index then 0 else SLAB_CLASS_SIZES !!! Z.to_nat class_index.

(** [read_unaligned] and [write_unaligned] of a little-endian [u16]. *)
Definition rd16 (m : store) (a : Z) : Z := rd m a + 256 * rd m (a + 1).
Definition wr16 (m : store) (a v : Z) : store := wr (wr m a (v mod 256)) (a + 1) (v / 256 mod 256).

(** [None]: the division by an object size of 0 panics. *)
Definition init_slab_page (page class_index : Z) (m : store) : option (store * SlabPage) :=
  let obj_size := class_size class_index in
  if obj_size =? 0 then None
  else
    let cap := wrap16 (SLAB_PAGE_SIZE / obj_size) in
    let slab := mkSlab true (wrap8 class_index) (if 0 <? cap then 0 else FREE_LIST_END) 0 cap in
    if cap =? 0 then Some (m, slab)
    else
      Some (for_loop 0 cap (fun i m =>
              wr16 m (page + i * obj_size) (if i + 1 <? cap then i + 1 else FREE_LIST_END)) m,
            slab).

(** The object, or 0 (null). *)
Definition alloc_from_slab (page : Z) (slab : SlabPage) (m : store) : SlabPage * Z :=
  if negb (has_free_objects slab) then (slab, 0)
  else
    let obj_size := class_size (class_index slab) in
    if obj_size =? 0 then (slab, 0)
    else
      let obj_ptr := page + free_head slab * obj_size in
      let next := rd16 m obj_ptr in
      (mkSlab (active slab) (class_index slab) next (Z.min 65535 (in_use slab + 1)) (capacity slab),
       obj_ptr).

Definition free_to_slab (page : Z) (slab : SlabPage) (ptr : Z) (m : store) : store * SlabPage * bool :=
  if ptr =? 0 then (m, slab, true)
  else if negb (active slab) then (m, slab, false)
  else
    let obj_size := class_size (class_index slab) in
    if obj_size =? 0 then (m, slab, false)
    else
      let page_end := page + SLAB_PAGE_SIZE in
      if (ptr <? page) || (page_end <=? ptr) then (m, slab, false)
      else
        let offset := ptr - page in
        if negb (offset mod obj_size =? 0) then (m, slab, false)
        else
          let obj_index := wrap16 (offset / obj_size) in
          if capacity slab <=? obj_index then (m, slab, false)
          else
            (wr16 m (page + offset) (free_head slab),
             mkSlab (active slab) (class_index slab) obj_index (sat_sub (in_use slab) 1) (capacity slab),
             true).

(** * What a slab page holds *)

(** The free list from index [h]: the indices met until the end marker. *)
Fixpoint chain (m : store) (page sz h : Z) (fl : list Z) : Prop :=
  match fl with
  | [] => h = FREE_LIST_END
  | i :: fl' => h = i /\ chain m page sz (rd16 m (page + i * sz)) fl'
  end.

(** The page holds the free objects [fl] and the allocated objects [objs], each
    with the number of bytes asked for. *)
Record slab_ok (m : store) (page : Z) (s : SlabPage) (ci : Z) (fl : list Z) (objs : gmap Z Z) : Prop := {
  so_class : 0 <= ci < 8;
  so_active : active s = true;
  so_index : class_index s = ci;
  so_cap : capacity s = 4096 / class_size ci;
  so_chain : chain m page (class_size ci) (free_head s) fl;
  so_nodup : NoDup fl;
  so_fl : forall i, i ∈ fl <-> 0 <= i < capacity s /\ objs !! i = None;
  so_objs : forall i n, objs !! i = Some n -> 0 <= i < capacity s /\ 0 < n <= class_size ci;
  so_use : in_use s = Z.of_nat (size objs);
  so_count : in_use s + Z.of_nat (List.length fl) = capacity s;
}.

(** * Lemmas *)

Lemma rd16_wr16_eq m a v : 0 <= v < 65536 -> rd16 (wr16 m a v) a = v.
Proof.
  intros. unfold rd16, wr16. rewrite rd_wr_eq, (rd_wr_ne _ (a + 1) a), rd_wr_eq by lia. dlia.
Qed.

Lemma rd_wr16_ne m a b v : b <> a -> b <> a + 1 -> rd (wr16 m a v) b = rd m b.
Proof. intros. unfold wr16. by rewrite !rd_wr_ne by lia. Qed.

Lemma rd16_ext m m' a : rd m a = rd m' a -> rd m (a + 1) = rd m' (a + 1) -> rd16 m a = rd16 m' a.
Proof. unfold rd16. lia. Qed.

Lemma rd16_wr16_ne m a b v : a + 2 <= b \/ b + 2 <= a -> rd16 (wr16 m a v) b = rd16 m b.
Proof. intros. apply rd16_ext; apply rd_wr16_ne; lia. Qed.

(** The object size of a class, with its power and the objects of a page. *)
Lemma class_size_spec ci : 0 <= ci < 8 ->
  class_size ci = 2 ^ (ci + 4) /\ 16 <= class_size ci <= 2048
  /\ 2 <= 4096 / class_size ci <= 256 /\ 4096 / class_size ci * class_size ci = 4096.
Proof.
  intros. assert (ci = 0 \/ ci = 1 \/ ci = 2 \/ ci = 3 \/ ci = 4 \/ ci = 5 \/ ci = 6 \/ ci = 7) as E by lia.
  destruct E as [->|[->|[->|[->|[->|[->|[->| ->]]]]]]]; by vm_compute.
Qed.

Lemma class_index_for_spec size align :
  match class_index_for size align with
  | Some ci => 0 <= ci < 8 /\ size <= class_size ci /\ align <= class_size ci
      /\ forall cj, 0 <= cj < ci -> class_size cj < Z.max (Z.max size align) 2
  | None => 2048 < Z.max size align
  end.
Proof.
  unfold class_index_for. cbn [first_class SLAB_CLASS_SIZES].
  set (r := Z.max (Z.max size align) 2).
  repeat (match goal with |- context [r <=? ?c] => destruct (Z.leb_spec r c) end; [
    split_and!; [lia|lia|vm_compute class_size; lia|vm_compute class_size; lia|
      intros cj Hcj; cbn in Hcj;
      assert (cj = 0 \/ cj = 1 \/ cj = 2 \/ cj = 3 \/ cj = 4 \/ cj = 5 \/ cj = 6) as E by lia;
      destruct E as [->|[->|[->|[->|[->|[->| ->]]]]]]; vm_compute class_size; lia] |]).
  lia.
Qed.

(** Two objects of a page do not meet. *)
Lemma objects_apart sz i j : 0 < sz -> i <> j -> i * sz + sz <= j * sz \/ j * sz + sz <= i * sz.
Proof. intros. destruct (Z.lt_ge_cases i j); [left|right]; nia. Qed.

Lemma object_in_page sz cap i : 0 < sz -> cap * sz = 4096 -> 0 <= i < cap ->
  0 <= i * sz /\ i * sz + sz <= 4096.
Proof. intros. nia. Qed.

Lemma chain_ext m m' page sz fl : forall h,
  (forall i, i ∈ fl -> rd16 m' (page + i * sz) = rd16 m (page + i * sz)) ->
  chain m page sz h fl -> chain m' page sz h fl.
Proof.
  induction fl as [|i fl IH]; intros h He; cbn [chain]; [done|].
  intros [-> Hc]. split; [done|]. rewrite He by (left). apply IH; [|done].
  intros j Hj. apply He. by right.
Qed.

Lemma slab_ok_ext m m' page s ci fl objs :
  (forall i, i ∈ fl -> rd16 m' (page + i * class_size ci) = rd16 m (page + i * class_size ci)) ->
  slab_ok m page s ci fl objs -> slab_ok m' page s ci fl objs.
Proof. intros He []. constructor; try done. by eapply chain_ext. Qed.

Lemma slab_capacity m page s ci fl objs : slab_ok m page s ci fl objs ->
  2 <= capacity s <= 256 /\ capacity s * class_size ci = 4096 /\ 16 <= class_size ci <= 2048.
Proof. intros []. pose proof (class_size_spec ci so_class0). rewrite so_cap0. lia. Qed.

Lemma has_free_spec m page s ci fl objs : slab_ok m page s ci fl objs ->
  has_free_objects s = match fl with [] => false | _ => true end.
Proof.
  intros H. pose proof (slab_capacity _ _ _ _ _ _ H) as [Hc _]. destruct H.
  unfold has_free_objects. rewrite so_active0. destruct fl as [|i fl]; cbn [chain] in so_chain0.
  - by rewrite so_chain0.
  - destruct so_chain0 as [-> _]. destruct (proj1 (so_fl0 i) ltac:(left)) as [Hi _].
    destruct (Z.eqb_spec i FREE_LIST_END); [unfold FREE_LIST_END in *; lia|done].
Qed.

Lemma slab_is_empty_spec m page s ci fl objs : slab_ok m page s ci fl objs ->
  is_empty s = bool_decide (objs = ∅).
Proof.
  intros []. unfold is_empty. rewrite so_active0, so_use0. cbn.
  destruct (Z.eqb_spec (Z.of_nat (size objs)) 0) as [E|E]; symmetry.
  - apply bool_decide_eq_true, map_size_empty_iff. lia.
  - apply bool_decide_eq_false. intros ->. rewrite map_size_empty in E. lia.
Qed.

(** ** Initialisation *)

Lemma chain_seq m page sz cap : forall n k, 0 <= k -> k + Z.of_nat n = cap ->
  (forall i, k <= i < cap -> rd16 m (page + i * sz) = if i + 1 <? cap then i + 1 else FREE_LIST_END) ->
  chain m page sz (if k <? cap then k else FREE_LIST_END) (seqZ k (Z.of_nat n)).
Proof.
  induction n as [|n IH]; intros k Hk E Hm.
  - destruct (Z.ltb_spec k cap); [lia|]. done.
  - rewrite seqZ_cons by lia. cbn [chain]. destruct (Z.ltb_spec k cap); [|lia]. split; [done|].
    rewrite Hm by lia. replace (Z.pred (Z.of_nat (S n))) with (Z.of_nat n) by lia.
    apply (IH (k + 1)); [lia|lia|]. intros i Hi. apply Hm. lia.
Qed.

Lemma init_slab_page_spec page ci m : 0 <= ci < 8 ->
  exists m' s, init_slab_page page ci m = Some (m', s)
    /\ slab_ok m' page s ci (seqZ 0 (4096 / class_size ci)) ∅
    /\ forall a, ~ (page <= a < page + 4096) -> rd m' a = rd m a.
Proof.
  intros Hci. destruct (class_size_spec ci Hci) as (_ & Hsz & Hcap & Hmul).
  unfold init_slab_page. destruct (Z.eqb_spec (class_size ci) 0); [lia|].
  unfold SLAB_PAGE_SIZE, wrap16, wrap8. rewrite !(Z.mod_small _ 65536), (Z.mod_small ci) by lia.
  set (sz := class_size ci) in *. set (cap := 4096 / sz) in *.
  destruct (Z.eqb_spec cap 0); [lia|]. destruct (Z.ltb_spec 0 cap); [|lia].
  set (body := fun i m => wr16 m (page + i * sz) _). eexists _, _. split; [done|].
  assert ((forall i, 0 <= i < cap -> rd16 (for_loop 0 cap body m) (page + i * sz)
             = if i + 1 <? cap then i + 1 else FREE_LIST_END)
    /\ forall a, ~ (page <= a < page + 4096) -> rd (for_loop 0 cap body m) a = rd m a) as [Hw Ho].
  { pose (P := fun n (m' : store) => (forall i, 0 <= i < n -> rd16 m' (page + i * sz)
        = if i + 1 <? cap then i + 1 else FREE_LIST_END)
      /\ forall a, ~ (page <= a < page + 4096) -> rd m' a = rd m a).
    enough (P (Z.max 0 cap) (for_loop 0 cap body m)) as HP by (rewrite Z.max_r in HP by lia; exact HP).
    apply for_loop_ind; [split; [intros; lia|done]|]. intros k m' Hk [H1 H2]. subst body. split; cbv beta.
    - intros i Hi. destruct (decide (i = k)) as [->|Hne].
      + rewrite rd16_wr16_eq; [done|]. unfold FREE_LIST_END. destruct (Z.ltb_spec (k + 1) cap); lia.
      + rewrite rd16_wr16_ne; [apply H1; lia|]. destruct (objects_apart sz i k); lia.
    - intros a Ha. destruct (object_in_page sz cap k) as [? ?]; [lia|lia|lia|].
      rewrite rd_wr16_ne by lia. by apply H2. }
  split; [|exact Ho]. constructor; cbn [class_index capacity active free_head in_use]; try done.
  - pose proof (chain_seq (for_loop 0 cap body m) page sz cap (Z.to_nat cap) 0 ltac:(lia) ltac:(lia) Hw) as Hc.
    rewrite Z2Nat.id in Hc by lia. destruct (Z.ltb_spec 0 cap); [exact Hc|lia].
  - apply NoDup_seqZ.
  - intros i. rewrite elem_of_seqZ, lookup_empty. intuition lia.
  - rewrite length_seqZ. lia.
Qed.

(** ** Allocation *)

Lemma alloc_from_slab_spec m page s ci i fl objs n : slab_ok m page s ci (i :: fl) objs ->
  0 < n <= class_size ci ->
  exists s', alloc_from_slab page s m = (s', page + i * class_size ci)
    /\ slab_ok m page s' ci fl (<[i := n]> objs).
Proof.
  intros H Hn. pose proof (has_free_spec _ _ _ _ _ _ H) as Hf.
  destruct (slab_capacity _ _ _ _ _ _ H) as (Hc & Hmul & Hsz).
  unfold alloc_from_slab. rewrite Hf. cbn [negb].
  destruct H as [A B C D [Eh Ec] N F O U K]. rewrite C, Eh.
  destruct (Z.eqb_spec (class_size ci) 0); [lia|].
  destruct (proj1 (F i) ltac:(left)) as [Hi Hni]. apply NoDup_cons in N as [Nin N].
  eexists. split; [done|].
  cbn [List.length] in K.
  constructor; cbn [class_index capacity active free_head in_use]; try done.
  - intros j. split.
    + intros Hj. destruct (proj1 (F j) ltac:(by right)). split; [done|].
      rewrite lookup_insert_ne; [done|]. by intros ->.
    + intros [Hj Hl]. apply lookup_insert_None in Hl as [Hl Hne].
      pose proof (proj2 (F j) (conj Hj Hl)) as [Hji|Hin]%elem_of_cons; congruence.
  - intros j n'. rewrite lookup_insert_Some. intros [[<- <-]|[_ Hj]]; [done|by apply O in Hj].
  - rewrite map_size_insert_None by done. lia.
  - lia.
Qed.

(** ** Release *)

Lemma free_to_slab_spec m page s ci fl objs i n : slab_ok m page s ci fl objs ->
  0 < page -> objs !! i = Some n ->
  exists m' s', free_to_slab page s (page + i * class_size ci) m = (m', s', true)
    /\ slab_ok m' page s' ci (i :: fl) (delete i objs)
    /\ forall a, ~ (page + i * class_size ci <= a < page + i * class_size ci + 2) -> rd m' a = rd m a.
Proof.
  intros H Hp Hi. pose proof (slab_capacity _ _ _ _ _ _ H) as (Hc & Hmul & Hsz).
  destruct H as [A B C D E N F O U K]. destruct (O i n Hi) as [Hir Hn].
  set (sz := class_size ci) in *. destruct (object_in_page sz (capacity s) i) as [H0 H1]; [lia|lia|lia|].
  unfold free_to_slab, SLAB_PAGE_SIZE. rewrite B, C. fold sz. cbn [negb].
  destruct (Z.eqb_spec (page + i * sz) 0); [lia|]. destruct (Z.eqb_spec sz 0); [lia|].
  destruct (Z.ltb_spec (page + i * sz) page); [lia|].
  destruct (Z.leb_spec (page + 4096) (page + i * sz)); [lia|]. cbn [orb].
  replace (page + i * sz - page) with (i * sz) by lia. rewrite Z.mod_mul, Z.div_mul by lia.
  unfold wrap16. rewrite Z.mod_small by lia. cbn [negb Z.eqb].
  destruct (Z.leb_spec (capacity s) i); [lia|]. eexists _, _. split; [done|].
  assert (0 <= free_head s < 65536) as Hfh.
  { destruct fl as [|j fl]; cbn [chain] in E; [unfold FREE_LIST_END in *; lia|].
    destruct E as [-> _]. destruct (proj1 (F j) ltac:(left)). lia. }
  assert (i ∉ fl) as Hnin by (intros Hin; apply F in Hin as [_ Hin]; congruence).
  assert (1 <= Z.of_nat (size objs)) as Hsize.
  { enough (size objs <> 0%nat) by lia. intros Hz%map_size_empty_iff. subst objs. done. }
  split.
  - constructor; cbn [class_index capacity active free_head in_use List.length]; try done.
    + cbn [chain]. split; [done|]. rewrite rd16_wr16_eq by done.
      eapply chain_ext; [|exact E]. intros j Hj. fold sz. apply rd16_wr16_ne.
      assert (i <> j) by (intros E'; congruence). destruct (objects_apart sz i j); lia.
    + by apply NoDup_cons.
    + intros j. rewrite elem_of_cons, F, lookup_delete_None.
      split.
      { intros [-> |[? ?]]; auto. }
      intros [? [<- |?]]; auto.
    + intros j n' [_ Hj]%lookup_delete_Some. by apply O in Hj.
    + unfold sat_sub. rewrite map_size_delete_Some by done. lia.
    + unfold sat_sub. lia.
  - intros a Ha. apply rd_wr16_ne; lia.
Qed.
