(* ===== verification/Heap.v ===== *)
(** The kernel heap: [memory/heap.rs].

    The arena is 4 MiB of the byte store from the address [HEAP_ARENA], which
    the linker chooses.  The fixed arrays of [HeapState] are lists, the spinlock
    is a flag: a lock that is held at entry spins for ever, [None].
    Calls that interleave are in HeapLock.v. *)

From S2P Require Import Prelude Slab.

Definition HEAP_SIZE : Z := 4194304.
Definition HEAP_PAGE_COUNT : Z := HEAP_SIZE / SLAB_PAGE_SIZE.
Definition PAGE_KIND_FREE : Z := 0.
Definition PAGE_KIND_SLAB : Z := 1.
Definition PAGE_KIND_LARGE : Z := 2.
Definition LARGE_MAGIC : Z := 1312900693.
(** [size_of::<LargeAllocHeader>()]: a [u32] and two [u16]. *)
Definition LargeAllocHeader_size : Z := 8.

(** [get_unchecked] and [get_unchecked_mut] at an index of the array. *)
Definition aget {X} `{Inhabited X} (l : list X) (i : Z) : X := l !!! Z.to_nat i.
Definition aset {X} (l : list X) (i : Z) (x : X) : list X := <[Z.to_nat i := x]> l.

Record HeapState := mkHeapState {
  initialized : bool;
  page_bitmap : list Z;
  page_kind : list Z;
  page_head : list Z;
  slabs : list SlabPage;
}.

Definition HeapState_new : HeapState :=
  mkHeapState false (replicate 128 0) (replicate 1024 PAGE_KIND_FREE) (replicate 1024 65535)
    (replicate 1024 SlabPage_empty).

(** The state and the bytes it manages. *)
Record heap := mkHeap {
  hs : HeapState;
  hmem : store;
}.

Definition set_hs (s : HeapState) (h : heap) : heap := mkHeap s (hmem h).
Definition set_hmem (m : store) (h : heap) : heap := mkHeap (hs h) m.

Definition reset (s : HeapState) : HeapState :=
  let s1 := for_loop 0 (HEAP_PAGE_COUNT / 8) (fun i s =>
    mkHeapState (initialized s) (aset (page_bitmap s) i 0) (page_kind s) (page_head s) (slabs s)) s in
  let s2 := for_loop 0 HEAP_PAGE_COUNT (fun i s =>
    mkHeapState (initialized s) (page_bitmap s) (aset (page_kind s) i PAGE_KIND_FREE)
      (aset (page_head s) i 65535) (aset (slabs s) i SlabPage_empty)) s1 in
  mkHeapState true (page_bitmap s2) (page_kind s2) (page_head s2) (slabs s2).

Definition heap_align_up (value align : Z) : Z := Z.land (value +w align -w 1) (not64 (align -w 1)).

Definition is_page_used (s : HeapState) (page : Z) : bool :=
  negb (Z.land (aget (page_bitmap s) (page / 8)) (bit (page mod 8)) =? 0).

Definition set_page_used (s : HeapState) (page : Z) (used : bool) : HeapState :=
  let byte := aget (page_bitmap s) (page / 8) in
  let byte' := if used then Z.lor byte (bit (page mod 8)) else Z.land byte (not8 (bit (page mod 8))) in
  mkHeapState (initialized s) (aset (page_bitmap s) (page / 8) byte') (page_kind s) (page_head s) (slabs s).

Definition page_kind_get (s : HeapState) (page : Z) : Z := aget (page_kind s) page.
Definition page_kind_set (s : HeapState) (page k : Z) : HeapState :=
  mkHeapState (initialized s) (page_bitmap s) (aset (page_kind s) page k) (page_head s) (slabs s).
Definition page_head_get (s : HeapState) (page : Z) : Z := aget (page_head s) page.
Definition page_head_set (s : HeapState) (page k : Z) : HeapState :=
  mkHeapState (initialized s) (page_bitmap s) (page_kind s) (aset (page_head s) page k) (slabs s).
Definition slab_get (s : HeapState) (page : Z) : SlabPage := aget (slabs s) page.
Definition slab_set (s : HeapState) (page : Z) (x : SlabPage) : HeapState :=
  mkHeapState (initialized s) (page_bitmap s) (page_kind s) (page_head s) (aset (slabs s) page x).

(** The search loop of [alloc_contiguous_pages]: [n] pages are left from [page]
    on, the current run starts at [run_start] and has [run_len] pages. *)
Fixpoint find_run (s : HeapState) (count : Z) (n : nat) (page run_start run_len : Z) : option Z :=
  match n with
  | O => None
  | S n' =>
      if negb (is_page_used s page) then
        let run_start := if run_len =? 0 then page else run_start in
        let run_len := run_len + 1 in
        if run_len =? count then Some run_start
        else find_run s count n' (page + 1) run_start run_len
      else find_run s count n' (page + 1) run_start 0
  end.

Definition alloc_contiguous_pages (s : HeapState) (count : Z) : HeapState * option Z :=
  if (count =? 0) || (HEAP_PAGE_COUNT <? count) then (s, None)
  else
    match find_run s count (Z.to_nat HEAP_PAGE_COUNT) 0 0 0 with
    | Some run_start =>
        (for_loop 0 count (fun i s => set_page_used s (run_start + i) true) s, Some run_start)
    | None => (s, None)
    end.

Definition free_contiguous_pages (s : HeapState) (start count : Z) : HeapState :=
  for_loop 0 (Z.min count (HEAP_PAGE_COUNT - start)) (fun i s =>
    let page := start + i in
    slab_set (page_head_set (page_kind_set (set_page_used s page false) page PAGE_KIND_FREE) page 65535)
      page SlabPage_empty) s.

(** The magic and page count of a large run's header. *)
Definition rd32 (m : store) (a : Z) : Z := rd16 m a + 65536 * rd16 m (a + 2).
Definition wr32 (m : store) (a v : Z) : store := wr16 (wr16 m a (v mod 65536)) (a + 2) (v / 65536 mod 65536).

Section Heap.
Context (HEAP_ARENA : Z).

Definition page_ptr (page_index : Z) : Z := HEAP_ARENA + page_index * SLAB_PAGE_SIZE.

(** The first pass of [alloc_small]: 0 when no slab of the class has a free object. *)
Fixpoint alloc_existing (class : Z) (n : nat) (page : Z) (h : heap) : heap * Z :=
  match n with
  | O => (h, 0)
  | S n' =>
      let slab := slab_get (hs h) page in
      if (page_kind_get (hs h) page =? PAGE_KIND_SLAB)
         && (active slab && (class_index slab =? class) && has_free_objects slab) then
        let '(slab', ptr) := alloc_from_slab (page_ptr page) slab (hmem h) in
        let h' := set_hs (slab_set (hs h) page slab') h in
        if negb (ptr =? 0) then (h', ptr) else alloc_existing class n' (page + 1) h'
      else alloc_existing class n' (page + 1) h
  end.

(** [None]: a panic. *)
Definition alloc_small (h : heap) (size align : Z) : option (heap * Z) :=
  match class_index_for size align with
  | None => Some (h, 0)
  | Some class =>
      let '(h, ptr) := alloc_existing class (Z.to_nat HEAP_PAGE_COUNT) 0 h in
      if negb (ptr =? 0) then Some (h, ptr)
      else
        match alloc_contiguous_pages (hs h) 1 with
        | (s, None) => Some (set_hs s h, 0)
        | (s, Some new_page) =>
            let s := page_head_set (page_kind_set s new_page PAGE_KIND_SLAB) new_page (wrap16 new_page) in
            match init_slab_page (page_ptr new_page) class (hmem h) with
            | None => None
            | Some (m, slab) =>
                let '(slab', ptr) := alloc_from_slab (page_ptr new_page) slab m in
                Some (mkHeap (slab_set s new_page slab') m, ptr)
            end
        end
  end.

Definition alloc_large (h : heap) (size align : Z) : heap * Z :=
  let bytes_needed := sat_add64 (sat_add64 size align) LargeAllocHeader_size in
  let pages := (bytes_needed +w SLAB_PAGE_SIZE -w 1) / SLAB_PAGE_SIZE in
  if (pages =? 0) || (65535 <? pages) then (h, 0)
  else
    match alloc_contiguous_pages (hs h) pages with
    | (s, None) => (set_hs s h, 0)
    | (s, Some head_page) =>
        let base_ptr := page_ptr head_page in
        let s := for_loop 0 pages (fun i s =>
          page_head_set (page_kind_set s (head_page + i) PAGE_KIND_LARGE) (head_page + i)
            (wrap16 head_page)) s in
        let m := wr16 (wr16 (wr32 (hmem h) base_ptr LARGE_MAGIC) (base_ptr + 4) (wrap16 pages))
                   (base_ptr + 6) 0 in
        (mkHeap s m, heap_align_up (base_ptr + LargeAllocHeader_size) (Z.max align 1))
    end.

Definition alloc_inner (h : heap) (size align : Z) : option (heap * Z) :=
  if size =? 0 then Some (h, 0)
  else
    match class_index_for size align with
    | Some _ =>
        match alloc_small h size align with
        | None => None
        | Some (h', ptr) => if negb (ptr =? 0) then Some (h', ptr) else Some (alloc_large h' size align)
        end
    | None => Some (alloc_large h size align)
    end.

Definition free_inner (h : heap) (ptr : Z) : heap :=
  if ptr =? 0 then h
  else
    let base := HEAP_ARENA in
    let heap_end := base + HEAP_SIZE in
    if (ptr <? base) || (heap_end <=? ptr) then h
    else
      let page := (ptr - base) / SLAB_PAGE_SIZE in
      if HEAP_PAGE_COUNT <=? page then h
      else
        let kind := page_kind_get (hs h) page in
        if kind =? PAGE_KIND_SLAB then
          let head_page := page_head_get (hs h) page in
          if HEAP_PAGE_COUNT <=? head_page then h
          else
            let '(m, slab, ok) := free_to_slab (page_ptr head_page) (slab_get (hs h) head_page) ptr (hmem h) in
            let h' := mkHeap (slab_set (hs h) head_page slab) m in
            if negb ok then h'
            else if is_empty slab then set_hs (free_contiguous_pages (hs h') head_page 1) h'
            else h'
        else if kind =? PAGE_KIND_LARGE then
          let head_page := page_head_get (hs h) page in
          if HEAP_PAGE_COUNT <=? head_page then h
          else if negb (rd32 (hmem h) (page_ptr head_page) =? LARGE_MAGIC) then h
          else
            let pages := rd16 (hmem h) (page_ptr head_page + 4) in
            set_hs (free_contiguous_pages (hs h) head_page pages) h
        else h.

(** * The globals *)

Record heap_global := mkHeapGlobal {
  HEAP_LOCK : bool;
  HEAP_READY : bool;
  HEAP_STATE : heap;
}.

(** [let _guard = HEAP_LOCK.lock(); ..]: the guard is dropped at the end. *)
Definition with_heap_lock {X} (f : heap -> option (heap * X)) (g : heap_global) : option (heap_global * X) :=
  if HEAP_LOCK g then None
  else
    match f (HEAP_STATE g) with
    | Some (h, x) => Some (mkHeapGlobal false (HEAP_READY g) h, x)
    | None => None
    end.

Definition heap_init (g : heap_global) : option (heap_global * result string unit) :=
  match with_heap_lock (fun h => Some (set_hs (reset (hs h)) h, tt)) g with
  | Some (g', _) => Some (mkHeapGlobal (HEAP_LOCK g') true (HEAP_STATE g'), Ok tt)
  | None => None
  end.

Definition heap_is_initialized (g : heap_global) : bool := HEAP_READY g.

(** [core::alloc::Layout]. *)
Record Layout := mkLayout {
  layout_size : Z;
  layout_align : Z;
}.

Definition is_power_of_two (x : Z) : bool := (0 <? x) && (Z.land x (x - 1) =? 0).

(** [Layout::from_size_align]: a power of two, and the size rounded up to it at
    most [isize::MAX]. *)
Definition Layout_from_size_align (size align : Z) : option Layout :=
  if is_power_of_two align && (size <=? 2 ^ 63 - align) then Some (mkLayout size align) else None.

Definition heap_alloc (layout : Layout) (g : heap_global) : option (heap_global * Z) :=
  if negb (heap_is_initialized g) then Some (g, 0)
  else with_heap_lock (fun h => alloc_inner h (layout_size layout) (layout_align layout)) g.

Definition heap_dealloc (ptr : Z) (g : heap_global) : option (heap_global * unit) :=
  if negb (heap_is_initialized g) then Some (g, tt)
  else with_heap_lock (fun h => Some (free_inner h ptr, tt)) g.

(** ** C interface *)

Definition heap_init_c (g : heap_global) : option (heap_global * Z) :=
  match heap_init g with
  | Some (g', r) => Some (g', if is_ok r then 0 else -1)
  | None => None
  end.

Definition heap_is_initialized_c (g : heap_global) : Z := if heap_is_initialized g then 1 else 0.

Definition heap_alloc_c (size align : Z) (g : heap_global) : option (heap_global * Z) :=
  match Layout_from_size_align size (Z.max align 1) with
  | Some layout => heap_alloc layout g
  | None => Some (g, 0)
  end.

Definition heap_dealloc_c (ptr : Z) (g : heap_global) : option (heap_global * unit) := heap_dealloc ptr g.
End Heap.
