(* ===== verification/HeapFacts.v ===== *)
(** The heap's page arrays and runs: the facts the heap's theorems rest on.

    The arena is divided into runs: a slab page, or the pages of one large
    block.  [heap_inv] ties a map of runs to the arrays and the bytes. *)

From S2P Require Import Prelude Slab Heap.

(** * What a page and a run are *)

(** The row of the arrays for one page. *)
Definition page_row (s : HeapState) (p : Z) : bool * Z * Z * SlabPage :=
  (is_page_used s p, page_kind_get s p, page_head_get s p, slab_get s p).

Definition free_row : bool * Z * Z * SlabPage := (false, PAGE_KIND_FREE, 65535, SlabPage_empty).

Record arrays_ok (s : HeapState) : Prop := {
  ar_bitmap : List.length (page_bitmap s) = 128%nat;
  ar_kind : List.length (page_kind s) = 1024%nat;
  ar_head : List.length (page_head s) = 1024%nat;
  ar_slabs : List.length (slabs s) = 1024%nat;
  ar_bytes : forall i, 0 <= i < 128 -> is_u8 (aget (page_bitmap s) i);
}.

(** A run: a slab page of a class with its free objects and its allocated
    objects, or [pages] pages with one block. *)
Inductive run : Type :=
| SlabRun (class : Z) (fl : list Z) (objs : gmap Z Z)
| LargeRun (pages ptr size : Z).

Definition run_pages (r : run) : Z :=
  match r with SlabRun _ _ _ => 1 | LargeRun n _ _ => n end.

Definition covers (R : gmap Z run) (p : Z) : Prop :=
  exists hd r, R !! hd = Some r /\ hd <= p < hd + run_pages r.

Section Facts.
Context (HEAP_ARENA : Z).
Notation page_ptr := (page_ptr HEAP_ARENA).

Definition run_ok (h : heap) (hd : Z) (r : run) : Prop :=
  match r with
  | SlabRun ci fl objs =>
      page_row (hs h) hd = (true, PAGE_KIND_SLAB, hd, slab_get (hs h) hd)
      /\ slab_ok (hmem h) (page_ptr hd) (slab_get (hs h) hd) ci fl objs /\ objs <> ∅
  | LargeRun n ptr size =>
      (forall p, hd <= p < hd + n ->
         page_row (hs h) p = (true, PAGE_KIND_LARGE, hd, slab_get (hs h) p))
      /\ rd32 (hmem h) (page_ptr hd) = LARGE_MAGIC /\ rd16 (hmem h) (page_ptr hd + 4) = n
      /\ page_ptr hd + 8 <= ptr /\ ptr + size <= page_ptr (hd + n) /\ 0 < size
  end.

(** The blocks of a run. *)
Definition run_live (hd : Z) (r : run) (p n : Z) : Prop :=
  match r with
  | SlabRun ci _ objs => exists i, objs !! i = Some n /\ p = page_ptr hd + i * class_size ci
  | LargeRun _ ptr size => p = ptr /\ n = size
  end.

Record heap_inv (h : heap) (R : gmap Z run) : Prop := {
  hi_arrays : arrays_ok (hs h);
  hi_run : forall hd r, R !! hd = Some r ->
    0 <= hd /\ 0 < run_pages r /\ hd + run_pages r <= 1024 /\ run_ok h hd r;
  hi_apart : forall hd hd' r r', R !! hd = Some r -> R !! hd' = Some r' -> hd <> hd' ->
    hd + run_pages r <= hd' \/ hd' + run_pages r' <= hd;
  hi_free : forall p, 0 <= p < 1024 ->
    covers R p \/ (is_page_used (hs h) p = false /\ page_kind_get (hs h) p = PAGE_KIND_FREE);
}.
End Facts.

(** * Lemmas *)

(** ** Arrays *)

Lemma length_aset {X} (l : list X) i x : List.length (aset l i x) = List.length l.
Proof. apply length_insert. Qed.

Lemma aget_aset {X} `{Inhabited X} (l : list X) i j x : 0 <= i -> 0 <= j ->
  (Z.to_nat i < List.length l)%nat -> aget (aset l i x) j = if decide (j = i) then x else aget l j.
Proof.
  intros Hi Hj Hl. unfold aget, aset. case_decide as E.
  - subst j. by apply list_lookup_total_insert_eq.
  - apply list_lookup_total_insert_ne. lia.
Qed.

Lemma aget_replicate {X} `{Inhabited X} n i (x : X) : 0 <= i < Z.of_nat n -> aget (replicate n x) i = x.
Proof. intros. unfold aget. apply lookup_total_replicate_2. lia. Qed.

Lemma is_page_used_testbit s p : 0 <= p ->
  is_page_used s p = Z.testbit (aget (page_bitmap s) (p / 8)) (p mod 8).
Proof. intros. unfold is_page_used. rewrite land_bit_zero by dlia. by rewrite negb_involutive. Qed.

Lemma set_page_used_row s p u q : arrays_ok s -> 0 <= p < 1024 -> 0 <= q < 1024 ->
  page_row (set_page_used s p u) q
  = if decide (q = p) then (u, page_kind_get s q, page_head_get s q, slab_get s q) else page_row s q.
Proof.
  intros [Hl _ _ _ Hb] Hp Hq. unfold page_row. rewrite !is_page_used_testbit by lia.
  assert (is_u8 (aget (page_bitmap s) (p / 8))) as Hu by (apply Hb; dlia).
  unfold set_page_used at 1. cbn [page_bitmap]. rewrite aget_aset by (rewrite ?Hl; dlia).
  change (page_kind_get (set_page_used s p u) q) with (page_kind_get s q).
  change (page_head_get (set_page_used s p u) q) with (page_head_get s q).
  change (slab_get (set_page_used s p u) q) with (slab_get s q).
  destruct (decide (q / 8 = p / 8)) as [E|E].
  - rewrite E. destruct u.
    + rewrite setbit_spec by (try lia; dlia). case_decide as E2.
      * subst q. by rewrite Z.eqb_refl.
      * destruct (Z.eqb_spec (q mod 8) (p mod 8)); [dlia|]. done.
    + rewrite clearbit8_spec by (try done; dlia). case_decide as E2.
      * subst q. by rewrite Z.eqb_refl.
      * destruct (Z.eqb_spec (q mod 8) (p mod 8)); [dlia|]. done.
  - rewrite decide_False; [done|]. intros ->. done.
Qed.

Lemma set_page_used_ok s p u : arrays_ok s -> 0 <= p < 1024 -> arrays_ok (set_page_used s p u).
Proof.
  intros [Hl ? ? ? Hb] Hp. constructor; try done; unfold set_page_used; cbn [page_bitmap].
  - by rewrite length_aset.
  - intros i Hi. rewrite aget_aset by (rewrite ?Hl; dlia). case_decide; [|by apply Hb].
    assert (is_u8 (aget (page_bitmap s) (p / 8))) as Hu by (apply Hb; dlia).
    destruct u; [apply setbit8_range|apply land8_range]; try done; dlia.
Qed.

(** The setters of the other arrays. *)
Lemma page_kind_set_row s p k q : arrays_ok s -> 0 <= p < 1024 -> 0 <= q < 1024 ->
  page_row (page_kind_set s p k) q
  = if decide (q = p) then (is_page_used s q, k, page_head_get s q, slab_get s q) else page_row s q.
Proof.
  intros [_ Hl _ _ _] Hp Hq. unfold page_row, page_kind_get, page_kind_set. cbn [page_kind].
  rewrite aget_aset by (rewrite ?Hl; lia). by case_decide.
Qed.

Lemma page_head_set_row s p k q : arrays_ok s -> 0 <= p < 1024 -> 0 <= q < 1024 ->
  page_row (page_head_set s p k) q
  = if decide (q = p) then (is_page_used s q, page_kind_get s q, k, slab_get s q) else page_row s q.
Proof.
  intros [_ _ Hl _ _] Hp Hq. unfold page_row, page_head_get, page_head_set. cbn [page_head].
  rewrite aget_aset by (rewrite ?Hl; lia). by case_decide.
Qed.

Lemma slab_set_row s p k q : arrays_ok s -> 0 <= p < 1024 -> 0 <= q < 1024 ->
  page_row (slab_set s p k) q
  = if decide (q = p) then (is_page_used s q, page_kind_get s q, page_head_get s q, k) else page_row s q.
Proof.
  intros [_ _ _ Hl _] Hp Hq. unfold page_row, slab_get, slab_set. cbn [slabs].
  rewrite aget_aset by (rewrite ?Hl; lia). by case_decide.
Qed.

Lemma page_kind_set_ok s p k : arrays_ok s -> arrays_ok (page_kind_set s p k).
Proof. intros []. constructor; try done. unfold page_kind_set; cbn. by rewrite length_aset. Qed.

Lemma page_head_set_ok s p k : arrays_ok s -> arrays_ok (page_head_set s p k).
Proof. intros []. constructor; try done. unfold page_head_set; cbn. by rewrite length_aset. Qed.

Lemma slab_set_ok s p k : arrays_ok s -> arrays_ok (slab_set s p k).
Proof. intros []. constructor; try done. unfold slab_set; cbn. by rewrite length_aset. Qed.

#[export] Hint Resolve set_page_used_ok page_kind_set_ok page_head_set_ok slab_set_ok : heap.

(** Reading one column of a row. *)
Lemma row_used s s' p : page_row s' p = page_row s p -> is_page_used s' p = is_page_used s p.
Proof. by intros [= ? ? ? ?]. Qed.

Lemma row_eq s p u k hd sl : page_row s p = (u, k, hd, sl) ->
  is_page_used s p = u /\ page_kind_get s p = k /\ page_head_get s p = hd /\ slab_get s p = sl.
Proof. by intros [= ? ? ? ?]. Qed.

(** A loop that rewrites the rows of the pages from [st] on. *)
Lemma page_loop st n (body : Z -> HeapState -> HeapState)
    (f : Z -> bool * Z * Z * SlabPage -> bool * Z * Z * SlabPage) s :
  arrays_ok s -> 0 <= n ->
  (forall i s, 0 <= i < n -> arrays_ok s -> arrays_ok (body i s)
     /\ forall q, 0 <= q < 1024 ->
          page_row (body i s) q = if decide (q = st + i) then f q (page_row s q) else page_row s q) ->
  arrays_ok (for_loop 0 n body s)
  /\ forall q, 0 <= q < 1024 -> page_row (for_loop 0 n body s) q
       = if decide (st <= q < st + n) then f q (page_row s q) else page_row s q.
Proof.
  intros Hs Hn Hb.
  pose (P := fun k s' => arrays_ok s' /\ forall q, 0 <= q < 1024 -> page_row s' q
     = if decide (st <= q < st + k) then f q (page_row s q) else page_row s q).
  enough (P (Z.max 0 n) (for_loop 0 n body s)) as HP by (rewrite Z.max_r in HP by lia; exact HP).
  apply for_loop_ind.
  - split; [done|]. intros q Hq. by rewrite decide_False by lia.
  - intros i s' Hi [Ha Hr]. destruct (Hb i s' Hi Ha) as [Ha' Hr']. split; [done|].
    intros q Hq. rewrite Hr', Hr by done. repeat case_decide; try lia; done.
Qed.

Lemma free_contiguous_pages_spec s st n : arrays_ok s -> 0 <= st -> 0 <= n -> st + n <= 1024 ->
  arrays_ok (free_contiguous_pages s st n)
  /\ forall q, 0 <= q < 1024 -> page_row (free_contiguous_pages s st n) q
       = if decide (st <= q < st + n) then free_row else page_row s q.
Proof.
  intros Ha Hst Hn Hmax. unfold free_contiguous_pages.
  change HEAP_PAGE_COUNT with 1024. rewrite Z.min_l by lia.
  apply (page_loop st n _ (fun _ _ => free_row)); [done|done|].
  intros i s' Hi Ha'. split; [auto 8 with heap lia|]. intros q Hq. cbv beta zeta.
  assert (0 <= st + i < 1024) by lia.
  rewrite slab_set_row by auto 8 with heap. case_decide as E.
  - rewrite E. pose proof (page_head_set_row (page_kind_set (set_page_used s' (st + i) false) (st + i)
      PAGE_KIND_FREE) (st + i) 65535 (st + i) ltac:(auto 8 with heap) ltac:(done) ltac:(done)) as H1.
    pose proof (page_kind_set_row (set_page_used s' (st + i) false) (st + i) PAGE_KIND_FREE (st + i)
      ltac:(auto 8 with heap) ltac:(done) ltac:(done)) as H2.
    pose proof (set_page_used_row s' (st + i) false (st + i) Ha' ltac:(done) ltac:(done)) as H3.
    rewrite decide_True in H1, H2, H3 by done.
    apply row_eq in H1 as (U1 & K1 & T1 & _), H2 as (U2 & K2 & _ & _), H3 as (U3 & _ & _ & _).
    unfold free_row. by rewrite U1, U2, U3, K1, K2, T1.
  - rewrite page_head_set_row, decide_False by auto 8 with heap.
    rewrite page_kind_set_row, decide_False by auto 8 with heap.
    by rewrite set_page_used_row, decide_False by auto 8 with heap.
Qed.

Lemma find_run_spec s count : forall n page rs len, 0 < count -> 0 <= len < count -> len <= page ->
  (len <> 0 -> rs = page - len) ->
  (forall q, page - len <= q < page -> is_page_used s q = false) ->
  (page - len = 0 \/ is_page_used s (page - len - 1) = true) ->
  (forall st, 0 <= st -> st + count <= page -> exists q, st <= q < st + count /\ is_page_used s q = true) ->
  match find_run s count n page rs len with
  | Some st => 0 <= st /\ st + count <= page + Z.of_nat n
      /\ (forall q, st <= q < st + count -> is_page_used s q = false)
  | None => forall st, 0 <= st -> st + count <= page + Z.of_nat n ->
      exists q, st <= q < st + count /\ is_page_used s q = true
  end.
Proof.
  induction n as [|n IH]; intros page rs len Hc Hlen Hpg Hrs Hfree Hedge Hno; cbn [find_run].
  { intros st H1 H2. apply Hno; lia. }
  destruct (is_page_used s page) eqn:Eu; cbn [negb].
  - specialize (IH (page + 1) rs 0 Hc ltac:(lia) ltac:(lia) ltac:(lia) ltac:(intros; lia)
      ltac:(right; replace (page + 1 - 0 - 1) with page by lia; done)).
    replace (page + Z.of_nat (S n)) with (page + 1 + Z.of_nat n) by lia. apply IH.
    intros st H1 H2. destruct (Z.le_gt_cases (st + count) page); [by apply Hno|].
    exists page. split; [lia|done].
  - set (rs' := if len =? 0 then page else rs).
    assert (rs' = page - len) as Hrs' by (subst rs'; destruct (Z.eqb_spec len 0); [lia|auto]).
    assert (forall q, page - len <= q < page + 1 -> is_page_used s q = false) as Hfree'
      by (intros q Hq; destruct (Z.eq_dec q page) as [->|]; [done|apply Hfree; lia]).
    replace (page + Z.of_nat (S n)) with (page + 1 + Z.of_nat n) by lia.
    destruct (Z.eqb_spec (len + 1) count).
    + split_and!; [lia|lia|]. intros q Hq. apply Hfree'. lia.
    + apply IH; try done; try lia.
      * intros q Hq. apply Hfree'. lia.
      * replace (page + 1 - (len + 1)) with (page - len) by lia. done.
      * intros st H1 H2. destruct (Z.le_gt_cases (st + count) page); [by apply Hno|].
        destruct Hedge as [|Hu]; [lia|]. exists (page - len - 1). split; [lia|done].
Qed.

(** [alloc_contiguous_pages]: some run of free pages, found whenever there is one. *)
Lemma alloc_contiguous_pages_spec s n : arrays_ok s -> 0 < n ->
  match alloc_contiguous_pages s n with
  | (s', Some st) => 0 <= st /\ st + n <= 1024
      /\ (forall q, st <= q < st + n -> is_page_used s q = false)
      /\ arrays_ok s'
      /\ forall q, 0 <= q < 1024 -> page_row s' q
          = if decide (st <= q < st + n) then (true, page_kind_get s q, page_head_get s q, slab_get s q)
            else page_row s q
  | (s', None) => s' = s /\ forall st, 0 <= st -> st + n <= 1024 ->
      exists q, st <= q < st + n /\ is_page_used s q = true
  end.
Proof.
  intros Ha Hn. unfold alloc_contiguous_pages. change HEAP_PAGE_COUNT with 1024.
  destruct (Z.eqb_spec n 0); [lia|]. destruct (Z.ltb_spec 1024 n); cbn [orb].
  { split; [done|]. intros; lia. }
  pose proof (find_run_spec s n (Z.to_nat 1024) 0 0 0 Hn ltac:(lia) ltac:(lia) ltac:(lia)
    ltac:(intros; lia) ltac:(by left) ltac:(intros; lia)) as Hf.
  destruct (find_run s n (Z.to_nat 1024) 0 0 0) as [st|]; [|split; [done|exact Hf]].
  destruct Hf as (H0 & H1 & H2). change (0 + Z.of_nat (Z.to_nat 1024)) with 1024 in H1.
  split_and!; [done|done|done| |];
    apply (page_loop st n _ (fun _ r => let '(_, k, hd, sl) := r in (true, k, hd, sl))); try done; try lia;
    (intros i s' Hi Ha'; split; [auto with heap lia|]; intros q Hq;
     rewrite set_page_used_row by (done || lia); by case_decide).
Qed.

(** ** Runs *)

Section Runs.
Context (HEAP_ARENA : Z).
Context (Hbase : 0 < HEAP_ARENA).
Context (Hpage : HEAP_ARENA mod 4096 = 0).
Context (Hend : HEAP_ARENA + HEAP_SIZE < U64).
Notation page_ptr := (page_ptr HEAP_ARENA).
Notation heap_inv := (heap_inv HEAP_ARENA).
Notation run_ok := (run_ok HEAP_ARENA).
Notation run_live := (run_live HEAP_ARENA).

(** The bytes of the pages [lo, hi). *)
Definition in_pages (lo hi a : Z) : Prop := page_ptr lo <= a < page_ptr hi.

Lemma run_live_inside h hd r p n : run_ok h hd r -> run_live hd r p n ->
  0 < n /\ page_ptr hd <= p /\ p + n <= page_ptr (hd + run_pages r).
Proof.
  destruct r as [ci fl objs|k ptr size]; cbn [HeapFacts.run_ok HeapFacts.run_live run_pages].
  - intros (_ & Hs & _) (i & Hi & ->). destruct (slab_capacity _ _ _ _ _ _ Hs) as (Hc & Hm & Hz).
    destruct (so_objs _ _ _ _ _ _ Hs i n Hi). unfold Heap.page_ptr, SLAB_PAGE_SIZE.
    destruct (object_in_page (class_size ci) (capacity (slab_get (hs h) hd)) i); lia.
  - intros (_ & _ & _ & H1 & H2 & H3) [-> ->]. lia.
Qed.

(** What a run says depends on its own rows and on the bytes its blocks do not
    use. *)
Lemma run_ok_frame h h' hd r : 0 <= hd -> hd + run_pages r <= 1024 ->
  (forall p, hd <= p < hd + run_pages r -> page_row (hs h') p = page_row (hs h) p) ->
  (forall a, in_pages hd (hd + run_pages r) a -> rd (hmem h') a <> rd (hmem h) a ->
     exists p n, run_live hd r p n /\ p <= a < p + n) ->
  run_ok h hd r -> run_ok h' hd r.
Proof.
  intros H0 Hmax Hrow Hmem Hok. pose proof (run_live_inside h hd r) as Hin.
  assert (forall a, in_pages hd (hd + run_pages r) a ->
    (forall p n, run_live hd r p n -> ~ (p <= a < p + n)) -> rd (hmem h') a = rd (hmem h) a) as Hsame.
  { intros a Ha Hno. destruct (Z.eq_dec (rd (hmem h') a) (rd (hmem h) a)) as [|Hne]; [done|].
    destruct (Hmem a Ha Hne) as (p & n & Hl & Hp). by destruct (Hno p n Hl). }
  unfold in_pages in Hsame. clear Hmem.
  destruct r as [ci fl objs|k ptr size]; cbn [HeapFacts.run_ok HeapFacts.run_live run_pages] in *.
  - destruct Hok as (Hr & Hs & Hne). pose proof (Hrow hd ltac:(lia)) as Hrow'.
    assert (slab_get (hs h') hd = slab_get (hs h) hd) as Esl by (by injection Hrow').
    rewrite Hrow', Esl. split_and!; [done| |done]. eapply slab_ok_ext; [|exact Hs].
    destruct (slab_capacity _ _ _ _ _ _ Hs) as (Hc & Hm & Hz).
    intros i Hi. apply (so_fl _ _ _ _ _ _ Hs) in Hi as [Hi Hno].
    destruct (object_in_page (class_size ci) (capacity (slab_get (hs h) hd)) i) as [Hi1 Hi2]; [lia|lia|lia|].
    assert (forall d, 0 <= d < 2 -> rd (hmem h') (page_ptr hd + i * class_size ci + d)
              = rd (hmem h) (page_ptr hd + i * class_size ci + d)) as Hd.
    { intros d Hd. apply Hsame; [unfold Heap.page_ptr, SLAB_PAGE_SIZE; lia|].
      intros p n (j & Hj & ->). destruct (so_objs _ _ _ _ _ _ Hs j n Hj) as [Hjc Hjn].
      assert (i <> j) as Hij by (intros ->; congruence).
      destruct (objects_apart (class_size ci) i j); lia. }
    apply rd16_ext; [|by apply Hd]. specialize (Hd 0). rewrite !Z.add_0_r in Hd. by apply Hd.
  - destruct Hok as (Hr & Hm & Hp & H1 & H2 & H3).
    assert (forall a, page_ptr hd <= a < page_ptr hd + 8 -> rd (hmem h') a = rd (hmem h) a) as Hd.
    { intros a Ha. apply Hsame; [lia|]. intros p n [-> ->]. lia. }
    split_and!; try done.
    + intros p Hpp. pose proof (Hrow p Hpp) as Hrow'. rewrite Hrow', Hr by done.
      assert (slab_get (hs h') p = slab_get (hs h) p) as -> by (by injection Hrow'). done.
    + rewrite <- Hm. unfold rd32. f_equal; [|f_equal]; apply rd16_ext; apply Hd; lia.
    + rewrite <- Hp. apply rd16_ext; apply Hd; lia.
Qed.

(** ** Changing one run *)

Lemma covers_alter R lo (ro : option run) p :
  covers (partial_alter (fun _ => ro) lo R) p
  <-> (exists r, ro = Some r /\ lo <= p < lo + run_pages r)
      \/ exists hd r, hd <> lo /\ R !! hd = Some r /\ hd <= p < hd + run_pages r.
Proof.
  unfold covers. split.
  - intros (hd & r & Hr & Hp). destruct (decide (hd = lo)) as [->|Hne].
    + rewrite lookup_partial_alter_eq in Hr. left. eauto.
    + rewrite lookup_partial_alter_ne in Hr by done. right. eauto.
  - intros [(r & -> & Hp)|(hd & r & Hne & Hr & Hp)].
    + exists lo, r. by rewrite lookup_partial_alter_eq.
    + exists hd, r. by rewrite lookup_partial_alter_ne.
Qed.

(** An operation that works on the pages [lo, hi) only, which held one run or
    none, and leaves the run [ro] or none there. *)
Lemma heap_inv_change h h' R lo hi (ro : option run) :
  heap_inv h R -> 0 <= lo < hi -> hi <= 1024 -> arrays_ok (hs h') ->
  (forall hd r, R !! hd = Some r -> hd <> lo -> hd + run_pages r <= lo \/ hi <= hd) ->
  (forall r, R !! lo = Some r -> lo + run_pages r = hi) ->
  (forall p, 0 <= p < 1024 -> ~ (lo <= p < hi) -> page_row (hs h') p = page_row (hs h) p) ->
  (forall a, ~ in_pages lo hi a -> rd (hmem h') a = rd (hmem h) a) ->
  match ro with
  | Some r => lo + run_pages r = hi /\ run_ok h' lo r
  | None => forall p, lo <= p < hi -> is_page_used (hs h') p = false
              /\ page_kind_get (hs h') p = PAGE_KIND_FREE
  end ->
  heap_inv h' (partial_alter (fun _ => ro) lo R).
Proof.
  intros Hinv Hlo Hhi Ha Hsep Hself Hrow Hmem Hro. destruct Hinv as [_ Hrun Hap Hfr]. constructor; [done| | |].
  - intros hd r Hr. destruct (decide (hd = lo)) as [->|Hne].
    + rewrite lookup_partial_alter_eq in Hr. subst ro. destruct Hro as [Hp Hok]. split_and!; lia || done.
    + rewrite lookup_partial_alter_ne in Hr by done. destruct (Hrun hd r Hr) as (H1 & H2 & H3 & H4).
      split_and!; [done|done|done|]. apply (run_ok_frame h); [done|done| | |done].
      * intros p Hp. apply Hrow; [lia|]. destruct (Hsep hd r Hr Hne); lia.
      * intros a Hin Hdiff. destruct Hdiff. apply Hmem. unfold in_pages, Heap.page_ptr, SLAB_PAGE_SIZE in *.
        destruct (Hsep hd r Hr Hne); lia.
  - intros hd hd' r r' Hr Hr' Hne.
    assert (forall h1 r1 r2, partial_alter (fun _ => ro) lo R !! lo = Some r1 -> h1 <> lo ->
      R !! h1 = Some r2 -> lo + run_pages r1 <= h1 \/ h1 + run_pages r2 <= lo) as Hmix.
    { intros h1 r1 r2 E1 Hn1 E2. rewrite lookup_partial_alter_eq in E1. subst ro. destruct Hro as [Hp _].
      destruct (Hsep h1 r2 E2 Hn1); lia. }
    destruct (decide (hd = lo)) as [->|Hn1]; [|destruct (decide (hd' = lo)) as [->|Hn2]].
    + rewrite lookup_partial_alter_ne in Hr' by done. by apply (Hmix hd' r r').
    + rewrite lookup_partial_alter_ne in Hr by done. destruct (Hmix hd r' r Hr' Hn1 Hr); [by right|by left].
    + rewrite lookup_partial_alter_ne in Hr by done. rewrite lookup_partial_alter_ne in Hr' by done.
      by apply (Hap hd hd').
  - intros p Hp. rewrite covers_alter. destruct (decide (lo <= p < hi)) as [Hin|Hout].
    + destruct ro as [r|]; [left; left; exists r; split; [done|lia]|right; by apply Hro].
    + pose proof (Hrow p Hp Hout) as E. destruct (Hfr p Hp) as [(hd & r & Hr & Hc)|Hf].
      * destruct (decide (hd = lo)) as [->|Hne]; [pose proof (Hself r Hr); lia|].
        left. right. eauto.
      * right. injection E as -> -> _ _. done.
Qed.

(** ** Finding the run of a page *)

Lemma free_page_uncovered h R p : heap_inv h R -> is_page_used (hs h) p = false ->
  forall hd r, R !! hd = Some r -> ~ (hd <= p < hd + run_pages r).
Proof.
  intros Hi Hu hd r Hr Hp. destruct (hi_run _ _ _ Hi hd r Hr) as (H1 & H2 & H3 & H4).
  destruct r as [ci fl objs|k ptr size]; cbn [HeapFacts.run_ok run_pages] in *.
  - destruct H4 as (Hrow & _). assert (p = hd) as -> by lia. apply row_eq in Hrow as [E _]. congruence.
  - destruct H4 as (Hrow & _). specialize (Hrow p Hp). apply row_eq in Hrow as [E _]. congruence.
Qed.

(** The row of a page that is in use names its run. *)
Lemma page_run h R p : heap_inv h R -> 0 <= p < 1024 -> page_kind_get (hs h) p <> PAGE_KIND_FREE ->
  exists r, R !! page_head_get (hs h) p = Some r
    /\ page_head_get (hs h) p <= p < page_head_get (hs h) p + run_pages r
    /\ page_kind_get (hs h) p = match r with SlabRun _ _ _ => PAGE_KIND_SLAB | _ => PAGE_KIND_LARGE end.
Proof.
  intros Hi Hp Hk. destruct (hi_free _ _ _ Hi p Hp) as [(hd & r & Hr & Hc)|[_ Hf]]; [|done].
  destruct (hi_run _ _ _ Hi hd r Hr) as (H1 & H2 & H3 & H4).
  assert (page_head_get (hs h) p = hd
    /\ page_kind_get (hs h) p = match r with SlabRun _ _ _ => PAGE_KIND_SLAB | _ => PAGE_KIND_LARGE end)
    as [E1 E2].
  { destruct r as [ci fl objs|k ptr size]; cbn [HeapFacts.run_ok run_pages] in *.
    - assert (p = hd) as -> by lia. destruct H4 as (Hrow & _). by apply row_eq in Hrow as (_ & -> & -> & _).
    - destruct H4 as (Hrow & _). specialize (Hrow p Hc). by apply row_eq in Hrow as (_ & -> & -> & _). }
  exists r. by rewrite E1, E2.
Qed.
End Runs.
