(* ===== verification/HeapRep.v ===== *)
(** The kernel heap as a map of blocks.

    The abstract state is the map [B] of live blocks, address to size.
    [heap_rep h B] relates it to the heap's arrays and bytes; the refinement
    theorem covers a client that also reads and writes its blocks. *)

From S2P Require Import Prelude Slab Heap HeapFacts.

(** * The live blocks *)

Definition live (HEAP_ARENA : Z) (R : gmap Z run) (p n : Z) : Prop :=
  exists hd r, R !! hd = Some r /\ run_live HEAP_ARENA hd r p n.

Definition heap_rep (HEAP_ARENA : Z) (h : heap) (B : gmap Z Z) : Prop :=
  exists R, heap_inv HEAP_ARENA h R /\ forall p n, B !! p = Some n <-> live HEAP_ARENA R p n.

(** What the linker guarantees of the arena's address ([repr(align(4096))]). *)
Record arena_ok (HEAP_ARENA : Z) : Prop := {
  ao_pos : 0 < HEAP_ARENA;
  ao_page : HEAP_ARENA mod 4096 = 0;
  ao_end : HEAP_ARENA + HEAP_SIZE < 2 ^ 63;
}.

(** A layout as [Layout::from_size_align] makes it. *)
Definition layout_ok (size align : Z) : Prop :=
  0 <= size /\ exists k, 0 <= k < 64 /\ align = 2 ^ k /\ size <= 2 ^ 63 - align.

(** Byte [a] belongs to a live block. *)
Definition owned (B : gmap Z Z) (a : Z) : Prop := exists p n, B !! p = Some n /\ p <= a < p + n.

(** The bytes an operation on the heap leaves alone: those of the blocks, and
    those outside the arena. *)
Definition kept (HEAP_ARENA : Z) (B : gmap Z Z) (a : Z) : Prop :=
  owned B a \/ ~ (HEAP_ARENA <= a < HEAP_ARENA + HEAP_SIZE).

(** The number of pages of a large block. *)
Definition large_pages (size align : Z) : Z := (size + align + 8 + 4095) / 4096.

(** * The abstract heap

    A client asks for blocks, gives them back, and reads and writes bytes of the
    blocks it holds.  The abstract state is the map of blocks and their bytes. *)

Inductive heap_call : Type :=
| CAlloc (size align : Z)
| CFree (p : Z)
| CRead (a : Z)
| CWrite (a v : Z).

(** The calls a client may make: it gives back blocks it holds or null, and
    touches bytes of blocks it holds. *)
Definition allowed (B : gmap Z Z) (c : heap_call) : Prop :=
  match c with
  | CAlloc size align => 0 <= size /\ 0 <= align
  | CFree p => p = 0 \/ B !! p <> None
  | CRead a => owned B a
  | CWrite a _ => owned B a
  end.

Inductive blocks_step (HEAP_ARENA : Z) :
  gmap Z Z * store -> heap_call -> Z -> gmap Z Z * store -> Prop :=
| bs_refuse B M size align : blocks_step HEAP_ARENA (B, M) (CAlloc size align) 0 (B, M)
| bs_grant B M M' size align p :
    0 < size -> HEAP_ARENA <= p -> p + size <= HEAP_ARENA + HEAP_SIZE -> p mod Z.max align 1 = 0 ->
    B !! p = None -> (forall q k, B !! q = Some k -> p + size <= q \/ q + k <= p) ->
    (forall a, owned B a -> rd M' a = rd M a) ->
    blocks_step HEAP_ARENA (B, M) (CAlloc size align) p (<[p := size]> B, M')
| bs_free B M p : p = 0 \/ B !! p <> None ->
    blocks_step HEAP_ARENA (B, M) (CFree p) 0 (delete p B, M)
| bs_read B M a : owned B a -> blocks_step HEAP_ARENA (B, M) (CRead a) (rd M a) (B, M)
| bs_write B M a v : owned B a -> blocks_step HEAP_ARENA (B, M) (CWrite a v) 0 (B, wr M a v).

Definition global_mem (g : heap_global) : store := hmem (HEAP_STATE g).

(** A call served by the kernel: the C interface, or the client's own access. *)
Definition heap_serve (HEAP_ARENA : Z) (c : heap_call) (g : heap_global) : option (heap_global * Z) :=
  match c with
  | CAlloc size align => heap_alloc_c HEAP_ARENA size align g
  | CFree p => match heap_dealloc_c HEAP_ARENA p g with Some (g', _) => Some (g', 0) | None => None end
  | CRead a => Some (g, rd (global_mem g) a)
  | CWrite a v => Some (mkHeapGlobal (HEAP_LOCK g) (HEAP_READY g)
                          (set_hmem (wr (global_mem g) a v) (HEAP_STATE g)), 0)
  end.

(** The initialised heap, its lock free, holds these blocks with these bytes. *)
Record global_rep (HEAP_ARENA : Z) (g : heap_global) (B : gmap Z Z) (M : store) : Prop := {
  gr_lock : HEAP_LOCK g = false;
  gr_ready : HEAP_READY g = true;
  gr_heap : heap_rep HEAP_ARENA (HEAP_STATE g) B;
  gr_bytes : forall a, owned B a -> rd (global_mem g) a = rd M a;
}.

(** The blocks held after a call and its reply. *)
Definition blocks_after (B : gmap Z Z) (c : heap_call) (r : Z) : gmap Z Z :=
  match c with
  | CAlloc size _ => if r =? 0 then B else <[r := size]> B
  | CFree p => delete p B
  | _ => B
  end.

(** A sequence of allowed calls and their replies, with the blocks held. *)
Inductive client_run (HEAP_ARENA : Z) :
  heap_global -> gmap Z Z -> list (heap_call * Z) -> heap_global -> gmap Z Z -> Prop :=
| cr_nil g B : client_run HEAP_ARENA g B [] g B
| cr_cons g B c r g1 tr g2 B2 :
    allowed B c -> heap_serve HEAP_ARENA c g = Some (g1, r) ->
    client_run HEAP_ARENA g1 (blocks_after B c r) tr g2 B2 ->
    client_run HEAP_ARENA g B ((c, r) :: tr) g2 B2.

(** The arrays have their declared lengths. *)
Definition array_lengths (s : HeapState) : Prop :=
  List.length (page_bitmap s) = 128%nat /\ List.length (page_kind s) = 1024%nat
  /\ List.length (page_head s) = 1024%nat /\ List.length (slabs s) = 1024%nat.

(** A small instance, for the witnesses: an empty heap at 8 MiB, and the heap
    after the allocation of 24 bytes. *)
Definition sample_arena : Z := 8388608.
Definition sample_boot : heap_global := mkHeapGlobal false false (mkHeap HeapState_new ∅).
Definition sample_ready : heap_global :=
  mkHeapGlobal false true (mkHeap (mkHeapState true (replicate 128 0) (replicate 1024 PAGE_KIND_FREE)
    (replicate 1024 65535) (replicate 1024 SlabPage_empty)) ∅).
Definition sample_held : heap_global :=
  match heap_alloc_c sample_arena 24 8 sample_ready with Some (g, _) => g | None => sample_ready end.

(** * Lemmas *)

Section Props.
Context (HEAP_ARENA : Z).
Context (Har : arena_ok HEAP_ARENA).
Notation page_ptr := (page_ptr HEAP_ARENA).
Notation heap_inv := (heap_inv HEAP_ARENA).
Notation run_live := (run_live HEAP_ARENA).
Notation live := (live HEAP_ARENA).
Notation kept := (kept HEAP_ARENA).
Notation heap_rep := (heap_rep HEAP_ARENA).

Lemma page_ptr_mono i j : i <= j -> page_ptr i <= page_ptr j.
Proof. unfold Heap.page_ptr, SLAB_PAGE_SIZE. lia. Qed.

Lemma run_live_page h R hd r p n : heap_inv h R -> R !! hd = Some r -> run_live hd r p n ->
  0 < n /\ hd <= (p - HEAP_ARENA) / 4096 < hd + run_pages r
  /\ page_ptr hd <= p /\ p + n <= page_ptr (hd + run_pages r) /\ 0 <= hd /\ hd + run_pages r <= 1024.
Proof.
  intros Hi Hr Hl. destruct (hi_run _ _ _ Hi hd r Hr) as (H1 & H2 & H3 & H4).
  destruct (run_live_inside HEAP_ARENA h hd r p n H4 Hl) as (H5 & H6 & H7).
  pose proof (ao_pos _ Har). unfold Heap.page_ptr, SLAB_PAGE_SIZE in *. split_and!; try done; dlia.
Qed.

(** One page, one run. *)
Lemma same_run h R hd hd' r r' p : heap_inv h R -> R !! hd = Some r -> R !! hd' = Some r' ->
  hd <= p < hd + run_pages r -> hd' <= p < hd' + run_pages r' -> hd = hd' /\ r = r'.
Proof.
  intros Hi Hr Hr' Hp Hp'. destruct (decide (hd = hd')) as [->|Hne]; [split; congruence|].
  destruct (hi_apart _ _ _ Hi hd hd' r r' Hr Hr' Hne); lia.
Qed.

Lemma live_inside h R p n : heap_inv h R -> live R p n ->
  0 < n /\ HEAP_ARENA <= p /\ p + n <= HEAP_ARENA + HEAP_SIZE.
Proof.
  intros Hi (hd & r & Hr & Hl). destruct (run_live_page _ _ _ _ _ _ Hi Hr Hl) as (H1 & _ & H2 & H3 & H4 & H5).
  unfold Heap.page_ptr, SLAB_PAGE_SIZE, HEAP_SIZE in *. lia.
Qed.

(** Two live blocks are the same block or share no byte. *)
Lemma live_apart h R p n q k : heap_inv h R -> live R p n -> live R q k ->
  (p = q /\ n = k) \/ (p <> q /\ (p + n <= q \/ q + k <= p)).
Proof.
  intros Hi (hd & r & Hr & Hl) (hd' & r' & Hr' & Hl').
  destruct (run_live_page _ _ _ _ _ _ Hi Hr Hl) as (H1 & _ & H2 & H3 & _).
  destruct (run_live_page _ _ _ _ _ _ Hi Hr' Hl') as (H4 & _ & H5 & H6 & _).
  destruct (decide (hd = hd')) as [->|Hne].
  - rewrite Hr in Hr'. injection Hr' as <-. destruct (hi_run _ _ _ Hi hd' r Hr) as (_ & _ & _ & Hok).
    destruct r as [ci fl objs|kk ptr size]; cbn [HeapFacts.run_live HeapFacts.run_ok] in *.
    + destruct Hok as (_ & Hs & _), Hl as (i & Hi' & ->), Hl' as (j & Hj & ->).
      destruct (slab_capacity _ _ _ _ _ _ Hs) as (Hc & Hm & Hz).
      destruct (so_objs _ _ _ _ _ _ Hs i n Hi'), (so_objs _ _ _ _ _ _ Hs j k Hj).
      destruct (decide (i = j)) as [->|Hne]; [left; split; [done|congruence]|].
      right. destruct (objects_apart (class_size ci) i j); lia.
    + left. destruct Hl, Hl'. subst. done.
  - right. destruct (hi_apart _ _ _ Hi hd hd' r r' Hr Hr' Hne) as [H|H];
      apply page_ptr_mono in H; lia.
Qed.

Lemma live_alter R lo (ro : option run) p n :
  live (partial_alter (fun _ => ro) lo R) p n
  <-> (exists r, ro = Some r /\ run_live lo r p n)
      \/ exists hd r, hd <> lo /\ R !! hd = Some r /\ run_live hd r p n.
Proof.
  unfold HeapRep.live. split.
  - intros (hd & r & Hr & Hp). destruct (decide (hd = lo)) as [->|Hne].
    + rewrite lookup_partial_alter_eq in Hr. left. eauto.
    + rewrite lookup_partial_alter_ne in Hr by done. right. eauto.
  - intros [(r & -> & Hp)|(hd & r & Hne & Hr & Hp)].
    + exists lo, r. by rewrite lookup_partial_alter_eq.
    + exists hd, r. by rewrite lookup_partial_alter_ne.
Qed.

(** One more block, in the run at [lo]. *)
Lemma rep_insert h' R B lo r' p n :
  (forall q k, B !! q = Some k <-> live R q k) ->
  (forall k, ~ live R p k) ->
  (forall q k, run_live lo r' q k <-> (q = p /\ k = n) \/ exists r, R !! lo = Some r /\ run_live lo r q k) ->
  heap_inv h' (<[lo := r']> R) -> heap_rep h' (<[p := n]> B).
Proof.
  intros HB Hf Hr Hi. exists (<[lo := r']> R). split; [done|]. intros q k.
  change (<[lo := r']> R) with (partial_alter (fun _ => Some r') lo R).
  rewrite live_alter, lookup_insert_Some, HB. split.
  - intros [[<- <-]|[Hne (hd & r & Hl & Hrl)]].
    + left. exists r'. split; [done|]. apply Hr. by left.
    + destruct (decide (hd = lo)) as [->|Hne2]; [|right; eauto].
      left. exists r'. split; [done|]. apply Hr. right. eauto.
  - assert (forall hd r, R !! hd = Some r -> run_live hd r q k -> p <> q) as Hne.
    { intros hd r Hl Hrl ->. apply (Hf k). by exists hd, r. }
    intros [(r & [= <-] & Hrl)|(hd & r & _ & Hl & Hrl)].
    + apply Hr in Hrl as [[-> ->]|(r & Hl & Hrl)]; [by left|].
      right. split; [by eapply Hne|]. by exists lo, r.
    + right. split; [by eapply Hne|]. by exists hd, r.
Qed.

(** One block less. *)
Lemma rep_delete h h' R B lo r (ro : option run) p n :
  heap_inv h R -> (forall q k, B !! q = Some k <-> live R q k) ->
  R !! lo = Some r -> run_live lo r p n ->
  (forall q k, (exists r', ro = Some r' /\ run_live lo r' q k) <-> q <> p /\ run_live lo r q k) ->
  heap_inv h' (partial_alter (fun _ => ro) lo R) -> heap_rep h' (delete p B).
Proof.
  intros Hi HB Hr Hrl Hro Hi'. exists (partial_alter (fun _ => ro) lo R). split; [done|]. intros q k.
  rewrite live_alter, lookup_delete_Some, HB, Hro. split.
  - intros [Hne (hd & r' & Hl & Hrl')]. destruct (decide (hd = lo)) as [->|Hne2]; [|right; eauto].
    left. split; [congruence|]. by simplify_eq.
  - intros [[Hne Hl]|(hd & r' & Hne & Hl & Hrl')].
    + split; [congruence|]. by exists lo, r.
    + split; [|by exists hd, r']. intros ->.
      destruct (run_live_page _ _ _ _ _ _ Hi Hr Hrl) as (_ & H1 & _).
      destruct (run_live_page _ _ _ _ _ _ Hi Hl Hrl') as (_ & H2 & _).
      by destruct (same_run _ _ _ _ _ _ _ Hi Hl Hr H2 H1).
Qed.

(** ** Small blocks *)

(** A slab page takes a new list, new objects and new bytes. *)
Lemma slab_change h R pg ci fl objs s' m' fl' objs' :
  heap_inv h R -> R !! pg = Some (SlabRun ci fl objs) ->
  slab_ok m' (page_ptr pg) s' ci fl' objs' -> objs' <> ∅ ->
  (forall a, ~ (page_ptr pg <= a < page_ptr (pg + 1)) -> rd m' a = rd (hmem h) a) ->
  heap_inv (mkHeap (slab_set (hs h) pg s') m') (<[pg := SlabRun ci fl' objs']> R).
Proof.
  intros Hi Hr Hs Hne Hm. destruct (hi_run _ _ _ Hi pg _ Hr) as (H1 & H2 & H3 & H4). cbn [run_pages] in *.
  pose proof (hi_arrays _ _ _ Hi) as Ha.
  apply (heap_inv_change HEAP_ARENA h _ R pg (pg + 1) (Some (SlabRun ci fl' objs'))); try done; try lia.
  - by apply slab_set_ok.
  - intros hd r Hl Hd. destruct (hi_apart _ _ _ Hi hd pg r _ Hl Hr Hd); cbn [run_pages] in *; lia.
  - intros r Hl. rewrite Hr in Hl. by injection Hl as <-.
  - intros p Hp Hout. cbn [hs]. rewrite slab_set_row by (done || lia). by rewrite decide_False by lia.
  - cbn [hs hmem]. split; [done|]. cbn [HeapFacts.run_ok hs hmem] in *. destruct H4 as (Hrow & _).
    pose proof (slab_set_row (hs h) pg s' pg Ha ltac:(lia) ltac:(lia)) as Hrow'.
    rewrite decide_True in Hrow' by done. apply row_eq in Hrow as (U & K & T & _).
    assert (slab_get (slab_set (hs h) pg s') pg = s') as -> by (by apply row_eq in Hrow' as (_ & _ & _ & ->)).
    rewrite Hrow', U, K, T. done.
Qed.

(** Allocation in an existing slab page. *)
Lemma slab_alloc h R pg ci i fl objs n : heap_inv h R -> R !! pg = Some (SlabRun ci (i :: fl) objs) ->
  0 < n <= class_size ci ->
  exists s', alloc_from_slab (page_ptr pg) (slab_get (hs h) pg) (hmem h)
      = (s', page_ptr pg + i * class_size ci)
    /\ heap_inv (set_hs (slab_set (hs h) pg s') h) (<[pg := SlabRun ci fl (<[i := n]> objs)]> R).
Proof.
  intros Hi Hr Hn. destruct (hi_run _ _ _ Hi pg _ Hr) as (_ & _ & _ & _ & Hs & _).
  destruct (alloc_from_slab_spec _ _ _ _ _ _ _ n Hs Hn) as (s' & E & Hs'). exists s'. split; [done|].
  apply (slab_change h R pg ci (i :: fl) objs); try done. apply insert_non_empty.
Qed.

Lemma slab_object_pos h R pg r i sz : heap_inv h R -> R !! pg = Some r -> 0 <= i -> 0 < sz ->
  page_ptr pg + i * sz <> 0.
Proof.
  intros Hi Hr ? ?. destruct (hi_run _ _ _ Hi pg _ Hr) as (H1 & _). pose proof (ao_pos _ Har).
  unfold Heap.page_ptr, SLAB_PAGE_SIZE. nia.
Qed.

(** The first pass of [alloc_small]: a slab of the class with a free object, or
    nothing changes. *)
Lemma alloc_existing_spec ci size : 0 <= ci < 8 -> 0 < size <= class_size ci ->
  forall n page h R, heap_inv h R -> 0 <= page -> page + Z.of_nat n <= 1024 ->
  match alloc_existing HEAP_ARENA ci n page h with
  | (h', p) => (p = 0 /\ h' = h)
      \/ exists pg i fl objs, R !! pg = Some (SlabRun ci (i :: fl) objs)
           /\ p = page_ptr pg + i * class_size ci /\ p <> 0 /\ hmem h' = hmem h
           /\ heap_inv h' (<[pg := SlabRun ci fl (<[i := size]> objs)]> R)
  end.
Proof.
  intros Hci Hsz. induction n as [|n IH]; intros page h R Hi Hp Hmax; cbn [alloc_existing]; [by left|].
  specialize (IH (page + 1) h R Hi ltac:(lia) ltac:(lia)).
  destruct (Z.eqb_spec (page_kind_get (hs h) page) PAGE_KIND_SLAB) as [Ek|]; [|exact IH].
  destruct (page_run HEAP_ARENA h R page Hi ltac:(lia) ltac:(by rewrite Ek)) as (r & Hr & Hin & Hk).
  destruct r as [cj fl objs|]; [|by rewrite Ek in Hk]. cbn [run_pages] in Hin.
  replace (page_head_get (hs h) page) with page in * by lia.
  destruct (hi_run _ _ _ Hi page _ Hr) as (_ & _ & _ & _ & Hs & _).
  rewrite (so_active _ _ _ _ _ _ Hs), (so_index _ _ _ _ _ _ Hs), (has_free_spec _ _ _ _ _ _ Hs). cbn [andb].
  destruct (Z.eqb_spec cj ci) as [->|]; [|exact IH]. cbn [andb].
  destruct fl as [|i fl]; [exact IH|].
  destruct (slab_alloc h R page ci i fl objs size Hi Hr Hsz) as (s' & -> & Hi').
  destruct (proj1 (so_fl _ _ _ _ _ _ Hs i) ltac:(left)) as [Hic _].
  pose proof (slab_object_pos h R page _ i (class_size ci) Hi Hr ltac:(lia) ltac:(lia)) as Hnz.
  destruct (Z.eqb_spec (page_ptr page + i * class_size ci) 0); [done|]. cbn [negb].
  right. exists page, i, fl, objs. done.
Qed.

Lemma object_aligned ci k pg i : 0 <= ci < 8 -> 0 <= k -> 2 ^ k <= class_size ci ->
  (page_ptr pg + i * class_size ci) mod 2 ^ k = 0.
Proof.
  intros Hci Hk Hle. destruct (class_size_spec ci Hci) as (E & _). rewrite E in *.
  apply Z.pow_le_mono_r_iff in Hle; [|lia|lia].
  assert ((2 ^ k | HEAP_ARENA)) as Hd.
  { apply (Z.divide_trans _ (2 ^ 12)).
    - exists (2 ^ (12 - k)). rewrite <- Z.pow_add_r by lia. f_equal. lia.
    - apply Z.mod_divide; [done|exact (ao_page _ Har)]. }
  apply Z.mod_divide; [lia|]. unfold Heap.page_ptr, SLAB_PAGE_SIZE.
  repeat apply Z.divide_add_r; [done| |]; apply Z.divide_mul_r.
  - exists (2 ^ (12 - k)). rewrite <- Z.pow_add_r by lia. change 4096 with (2 ^ 12). f_equal. lia.
  - exists (2 ^ (ci + 4 - k)). rewrite <- Z.pow_add_r by lia. f_equal. lia.
Qed.

(** Live bytes are not in unused pages. *)
Lemma live_not_unused h R lo hi p n a : heap_inv h R -> live R p n -> p <= a < p + n ->
  (forall q, lo <= q < hi -> is_page_used (hs h) q = false) -> in_pages HEAP_ARENA lo hi a -> False.
Proof.
  intros Hi (hd & r & Hr & Hl) Ha Hu Hin.
  destruct (run_live_page _ _ _ _ _ _ Hi Hr Hl) as (_ & _ & H1 & H2 & _).
  unfold in_pages, Heap.page_ptr, SLAB_PAGE_SIZE in *.
  assert (lo <= (a - HEAP_ARENA) / 4096 < hi) as Hq by dlia.
  apply (free_page_uncovered HEAP_ARENA h R _ Hi (Hu _ Hq) hd r Hr). dlia.
Qed.

(** What a successful allocation gives. *)
Definition granted_block (h : heap) (B : gmap Z Z) (size align : Z) (h' : heap) (p : Z) : Prop :=
  p <> 0 /\ p mod align = 0 /\ B !! p = None /\ heap_rep h' (<[p := size]> B)
  /\ forall a, kept B a -> rd (hmem h') a = rd (hmem h) a.

(** A run on pages that were unused. *)
Lemma fresh_run h h' R B lo n r p size : heap_inv h R -> (forall q k, B !! q = Some k <-> live R q k) ->
  0 <= lo -> 0 < n -> lo + n <= 1024 -> (forall q, lo <= q < lo + n -> is_page_used (hs h) q = false) ->
  arrays_ok (hs h') ->
  (forall q, 0 <= q < 1024 -> ~ (lo <= q < lo + n) -> page_row (hs h') q = page_row (hs h) q) ->
  (forall a, ~ in_pages HEAP_ARENA lo (lo + n) a -> rd (hmem h') a = rd (hmem h) a) ->
  run_pages r = n -> run_ok HEAP_ARENA h' lo r ->
  (forall q k, run_live lo r q k <-> q = p /\ k = size) ->
  p <> 0 /\ B !! p = None /\ heap_rep h' (<[p := size]> B)
  /\ forall a, kept B a -> rd (hmem h') a = rd (hmem h) a.
Proof.
  intros Hi HB Hlo Hn Hmax Hu Ha Hrow Hmem Hp Hok Hl.
  assert (R !! lo = None) as Hno.
  { destruct (R !! lo) as [r0|] eqn:E; [|done]. destruct (hi_run _ _ _ Hi lo r0 E) as (_ & H2 & _).
    destruct (free_page_uncovered HEAP_ARENA h R lo Hi (Hu lo ltac:(lia)) lo r0 E). lia. }
  assert (heap_inv h' (<[lo := r]> R)) as Hi'.
  { apply (heap_inv_change HEAP_ARENA h h' R lo (lo + n) (Some r)); try done; try lia.
    - intros hd r0 E Hne. destruct (hi_run _ _ _ Hi hd r0 E) as (H1 & H2 & H3 & _).
      destruct (Z.le_gt_cases (hd + run_pages r0) lo); [by left|]. right.
      destruct (Z.le_gt_cases (lo + n) hd); [done|].
      pose proof (free_page_uncovered HEAP_ARENA h R (Z.max lo hd) Hi (Hu (Z.max lo hd) ltac:(lia)) hd r0 E). lia.
    - intros r0 E. congruence.
    - split; [lia|done]. }
  destruct (run_live_inside HEAP_ARENA h' lo r p size Hok ltac:(by apply Hl)) as (H1 & H2 & H3).
  rewrite Hp in H3.
  assert (forall k, ~ live R p k) as Hfresh.
  { intros k Hk. destruct (live_inside _ _ _ _ Hi Hk) as (Hk0 & _).
    apply (live_not_unused h R lo (lo + n) p k p Hi Hk ltac:(lia) Hu). unfold in_pages. lia. }
  pose proof (ao_pos _ Har). split_and!.
  - unfold Heap.page_ptr, SLAB_PAGE_SIZE in *. lia.
  - destruct (B !! p) as [k|] eqn:E; [|done]. apply HB in E. by destruct (Hfresh k).
  - apply (rep_insert h' R B lo r); try done. intros q k. rewrite Hl. split; [by left|].
    intros [|(r0 & E & _)]; [done|congruence].
  - intros a [(q & k & Hq & Haq)|Hout]; apply Hmem; intros Hin.
    + apply HB in Hq. by eapply (live_not_unused h R lo (lo + n) q k a).
    + unfold in_pages, Heap.page_ptr, SLAB_PAGE_SIZE, HEAP_SIZE in *. lia.
Qed.

(** The free object the first pass finds is a new block. *)
Lemma existing_granted h h' R B pg ci i fl objs size k : heap_inv h R ->
  (forall q n, B !! q = Some n <-> live R q n) -> 0 <= k -> 2 ^ k <= class_size ci ->
  R !! pg = Some (SlabRun ci (i :: fl) objs) -> hmem h' = hmem h ->
  heap_inv h' (<[pg := SlabRun ci fl (<[i := size]> objs)]> R) ->
  granted_block h B size (2 ^ k) h' (page_ptr pg + i * class_size ci).
Proof.
  intros Hi HB Hk Hal Hr Hm Hi'. destruct (hi_run _ _ _ Hi pg _ Hr) as (Hpg0 & _ & _ & _ & Hs & _).
  destruct (proj1 (so_fl _ _ _ _ _ _ Hs i) ltac:(left)) as [Hic Hno].
  destruct (slab_capacity _ _ _ _ _ _ Hs) as (Hc1 & Hc2 & Hc3).
  destruct (object_in_page (class_size ci) (capacity (slab_get (hs h) pg)) i) as [Ho1 Ho2]; [lia|lia|lia|].
  assert (forall n, ~ live R (page_ptr pg + i * class_size ci) n) as Hfresh.
  { intros n (hd & r & Hr' & Hl). pose proof (run_live_page _ _ _ _ _ _ Hi Hr' Hl) as (_ & Hpg & _).
    assert ((page_ptr pg + i * class_size ci - HEAP_ARENA) / 4096 = pg) as Epg
      by (unfold Heap.page_ptr, SLAB_PAGE_SIZE; dlia).
    rewrite Epg in Hpg.
    destruct (same_run _ _ _ _ _ _ pg Hi Hr' Hr Hpg ltac:(cbn [run_pages]; lia)) as [-> ->].
    destruct Hl as (j & Hj & Ej). assert (i = j) as -> by nia. congruence. }
  split_and!.
  - apply (slab_object_pos h R pg _ i (class_size ci) Hi Hr); lia.
  - apply object_aligned; [exact (so_class _ _ _ _ _ _ Hs)|done|done].
  - destruct (B !! _) as [n|] eqn:E; [|done]. apply HB in E. by destruct (Hfresh n).
  - apply (rep_insert _ R B pg (SlabRun ci fl (<[i := size]> objs))); try done.
    intros q n. cbn [HeapFacts.run_live]. split.
    + intros (j & Hj & ->). apply lookup_insert_Some in Hj as [[<- <-]|[Hne Hj]]; [by left|].
      right. exists (SlabRun ci (i :: fl) objs). split; [done|]. by exists j.
    + intros [[-> ->]|(r & Hr' & Hl)]; [exists i; by rewrite lookup_insert_eq|].
      rewrite Hr in Hr'. injection Hr' as <-. destruct Hl as (j & Hj & ->). exists j.
      rewrite lookup_insert_ne; [done|]. intros ->. congruence.
  - intros a _. by rewrite Hm.
Qed.

(** So is the first object of a fresh slab page. *)
Lemma fresh_slab_granted h R B s1 m1 st ci sl' fl size k : heap_inv h R ->
  (forall q n, B !! q = Some n <-> live R q n) -> 0 <= k -> 2 ^ k <= class_size ci -> 0 <= ci < 8 ->
  0 <= st -> st + 1 <= 1024 -> is_page_used (hs h) st = false -> arrays_ok s1 ->
  (forall q, 0 <= q < 1024 -> page_row s1 q
     = if decide (st <= q < st + 1)
       then (true, page_kind_get (hs h) q, page_head_get (hs h) q, slab_get (hs h) q)
       else page_row (hs h) q) ->
  (forall a, ~ (page_ptr st <= a < page_ptr st + 4096) -> rd m1 a = rd (hmem h) a) ->
  slab_ok m1 (page_ptr st) sl' ci fl {[0 := size]} ->
  granted_block h B size (2 ^ k)
    (mkHeap (slab_set (page_head_set (page_kind_set s1 st PAGE_KIND_SLAB) st (wrap16 st)) st sl') m1)
    (page_ptr st).
Proof.
  intros Hi HB Hk Hal Hci H0 H1 Hu Hok1 Hrow1 Hm1 Hs'. set (s2 := page_head_set _ st _).
  assert (arrays_ok s2) as Hok2 by (subst s2; auto with heap).
  destruct (fresh_run h (mkHeap (slab_set s2 st sl') m1) R B st 1 (SlabRun ci fl {[0 := size]})
    (page_ptr st) size Hi HB H0 ltac:(lia) H1) as (F1 & F2 & F3 & F4); try done.
  - intros q Hq. by replace q with st by lia.
  - by apply slab_set_ok.
  - intros q Hq Hout. cbn [hs]. rewrite slab_set_row, decide_False by (done || lia). subst s2.
    rewrite page_head_set_row, decide_False by (auto with heap || lia).
    rewrite page_kind_set_row, decide_False by (auto with heap || lia).
    by rewrite Hrow1, decide_False by lia.
  - intros a Hout. apply Hm1. unfold in_pages, Heap.page_ptr, SLAB_PAGE_SIZE in *. lia.
  - cbn [HeapFacts.run_ok hs hmem].
    pose proof (slab_set_row s2 st sl' st Hok2 ltac:(lia) ltac:(lia)) as E3. rewrite decide_True in E3 by done.
    pose proof (page_head_set_row (page_kind_set s1 st PAGE_KIND_SLAB) st (wrap16 st) st
      ltac:(auto with heap) ltac:(lia) ltac:(lia)) as E2. rewrite decide_True in E2 by done.
    pose proof (page_kind_set_row s1 st PAGE_KIND_SLAB st Hok1 ltac:(lia) ltac:(lia)) as E1.
    rewrite decide_True in E1 by done. pose proof (Hrow1 st ltac:(lia)) as E0. rewrite decide_True in E0 by lia.
    apply row_eq in E0 as (U0 & _), E1 as (U1 & K1 & _ & _), E2 as (U2 & K2 & T2 & _).
    fold s2 in U2, K2, T2.
    assert (slab_get (slab_set s2 st sl') st = sl') as -> by (by apply row_eq in E3 as (_ & _ & _ & ->)).
    rewrite E3, U2, U1, U0, K2, K1, T2. unfold wrap16. rewrite Z.mod_small by lia.
    split_and!; [done|exact Hs'|apply insert_non_empty].
  - intros q n. cbn [HeapFacts.run_live]. split.
    + intros (j & Hj & ->). apply lookup_singleton_Some in Hj as [<- <-]. split; [lia|done].
    + intros [-> ->]. exists 0. split; [by rewrite lookup_singleton_eq|lia].
  - split_and!; try done. pose proof (object_aligned ci k st 0 Hci Hk Hal) as E.
    by replace (page_ptr st + 0 * class_size ci) with (page_ptr st) in E by lia.
Qed.

Lemma alloc_small_spec h R B size k ci : heap_inv h R -> (forall q k, B !! q = Some k <-> live R q k) ->
  0 < size -> 0 <= k -> class_index_for size (2 ^ k) = Some ci ->
  exists h' p, alloc_small HEAP_ARENA h size (2 ^ k) = Some (h', p)
    /\ ((p = 0 /\ h' = h /\ forall q, 0 <= q < 1024 -> is_page_used (hs h) q = true)
        \/ granted_block h B size (2 ^ k) h' p).
Proof.
  intros Hi HB Hsz Hk Ec. unfold alloc_small. pose proof (class_index_for_spec size (2 ^ k)) as Hc.
  rewrite Ec in *. destruct Hc as (Hci & Hs1 & Hs2 & _).
  pose proof (alloc_existing_spec ci size Hci ltac:(lia) (Z.to_nat HEAP_PAGE_COUNT) 0 h R Hi
    ltac:(lia) ltac:(done)) as He.
  destruct (alloc_existing HEAP_ARENA ci (Z.to_nat HEAP_PAGE_COUNT) 0 h) as [h1 p1].
  destruct He as [[-> ->]|(pg & i & fl & objs & Hr & -> & Hnz & Hm & Hi')].
  2:{ destruct (Z.eqb_spec (page_ptr pg + i * class_size ci) 0); [done|]. cbn [negb].
      eexists _, _. split; [done|]. right. by eapply existing_granted. }
  cbn [negb Z.eqb].
  pose proof (alloc_contiguous_pages_spec (hs h) 1 (hi_arrays _ _ _ Hi) ltac:(lia)) as Ha.
  destruct (alloc_contiguous_pages (hs h) 1) as [s1 [st|]].
  2:{ destruct Ha as [-> Hno]. exists h, 0. destruct h as [s m]. split; [done|]. left.
      split_and!; [done|done|]. intros q Hq. destruct (Hno q ltac:(lia) ltac:(lia)) as (q' & Hq' & Hu).
      by replace q with q' by lia. }
  destruct Ha as (H0 & H1 & Hu & Hok1 & Hrow1).
  destruct (class_size_spec ci Hci) as (_ & Hcs & Hcap & Hmul).
  destruct (init_slab_page_spec (page_ptr st) ci (hmem h) Hci) as (m1 & sl & -> & Hs & Hm1).
  rewrite seqZ_cons in Hs by lia.
  destruct (alloc_from_slab_spec _ _ _ _ _ _ _ size Hs ltac:(lia)) as (sl' & -> & Hs').
  rewrite insert_empty in Hs'. eexists _, _. split; [done|]. right.
  replace (page_ptr st + 0 * class_size ci) with (page_ptr st) in * by lia.
  eapply fresh_slab_granted; try done. apply Hu. lia.
Qed.

(** ** Large blocks *)

Lemma heap_align_up_spec v k : 0 <= k < 64 -> 0 <= v -> v + 2 ^ k < U64 ->
  v <= heap_align_up v (2 ^ k) < v + 2 ^ k /\ heap_align_up v (2 ^ k) mod 2 ^ k = 0.
Proof.
  intros Hk Hv Hb. assert (0 < 2 ^ k) by lia. unfold heap_align_up, U64 in *.
  rewrite add64_small by (unfold U64; lia).
  rewrite !sub64_small by (unfold U64; lia).
  rewrite not64_mask by (unfold is_u64, U64; lia).
  set (x := v + 2 ^ k - 1). pose proof (Z.mod_pos_bound x (2 ^ k) ltac:(lia)) as Hm.
  split; [subst x; lia|]. rewrite Zminus_mod_idemp_r, Z.sub_diag. apply Z.mod_0_l. lia.
Qed.

(** The header of a run. *)
Lemma write_header m a n : 0 <= n < 65536 ->
  let m' := wr16 (wr16 (wr32 m a LARGE_MAGIC) (a + 4) n) (a + 6) 0 in
  rd32 m' a = LARGE_MAGIC /\ rd16 m' (a + 4) = n
  /\ forall b, ~ (a <= b < a + 8) -> rd m' b = rd m b.
Proof.
  intros Hn m'. subst m'. unfold rd32, wr32. split_and!.
  - rewrite !(rd16_wr16_ne _ (a + 6)), !(rd16_wr16_ne _ (a + 4)) by lia.
    rewrite (rd16_wr16_ne _ (a + 2) a), rd16_wr16_eq, rd16_wr16_eq by (done || lia). done.
  - rewrite rd16_wr16_ne by lia. by rewrite rd16_wr16_eq.
  - intros b Hb. by rewrite !rd_wr16_ne by lia.
Qed.

Lemma alloc_large_pages size k : 0 <= k < 64 -> 0 <= size <= 2 ^ 63 - 2 ^ k ->
  (sat_add64 (sat_add64 size (2 ^ k)) LargeAllocHeader_size +w SLAB_PAGE_SIZE -w 1) / SLAB_PAGE_SIZE
  = large_pages size (2 ^ k).
Proof.
  intros Hk Hs. assert (0 < 2 ^ k) by lia. unfold sat_add64, LargeAllocHeader_size, SLAB_PAGE_SIZE, large_pages.
  unfold U64_MAX. rewrite !Z.min_r by lia. rewrite add64_small by (unfold U64; lia).
  rewrite sub64_small by (unfold U64; lia). f_equal. lia.
Qed.

Lemma alloc_large_spec h R B size k : heap_inv h R -> (forall q n, B !! q = Some n <-> live R q n) ->
  0 < size -> 0 <= k < 64 -> size <= 2 ^ 63 - 2 ^ k ->
  match alloc_large HEAP_ARENA h size (2 ^ k) with
  | (h', p) => (p = 0 /\ h' = h /\ forall st, 0 <= st -> st + large_pages size (2 ^ k) <= 1024 ->
                  exists q, st <= q < st + large_pages size (2 ^ k) /\ is_page_used (hs h) q = true)
               \/ granted_block h B size (2 ^ k) h' p
  end.
Proof.
  intros Hi HB Hsz Hk Hmax. unfold alloc_large. rewrite alloc_large_pages by lia.
  set (n := large_pages size (2 ^ k)).
  assert (0 < 2 ^ k) as Hk2 by lia.
  assert (1 <= n /\ size + 2 ^ k + 8 <= n * 4096) as [Hn1 Hn2] by (subst n; unfold large_pages; dlia).
  destruct (Z.eqb_spec n 0); [lia|]. destruct (Z.ltb_spec 65535 n); cbn [orb].
  { left. split_and!; [done|done|]. intros; lia. }
  pose proof (alloc_contiguous_pages_spec (hs h) n (hi_arrays _ _ _ Hi) ltac:(lia)) as Ha.
  destruct (alloc_contiguous_pages (hs h) n) as [s1 [st|]].
  2:{ destruct Ha as [-> Hno]. left. destruct h as [s m]. done. }
  destruct Ha as (H0 & H1 & Hu & Hok1 & Hrow1). right. unfold wrap16. rewrite !Z.mod_small by lia.
  destruct (page_loop st n (fun i s => page_head_set (page_kind_set s (st + i) PAGE_KIND_LARGE) (st + i) st)
    (fun _ r => let '(u, _, _, sl) := r in (u, PAGE_KIND_LARGE, st, sl)) s1 Hok1 ltac:(lia)) as [Hok2 Hrow2].
  { intros i s Hin Hs. split; [auto with heap|]. intros q Hq.
    rewrite page_head_set_row by (auto with heap || lia). case_decide; [|by rewrite page_kind_set_row, decide_False by (done || lia)].
    pose proof (page_kind_set_row s (st + i) PAGE_KIND_LARGE q Hs ltac:(lia) Hq) as E. rewrite decide_True in E by done.
    by apply row_eq in E as (-> & -> & _ & ->). }
  set (s2 := for_loop 0 n _ s1) in *.
  destruct (write_header (hmem h) (page_ptr st) n ltac:(lia)) as (M1 & M2 & M3). cbv zeta in *.
  set (m := wr16 (wr16 _ _ _) _ _) in *. set (p := heap_align_up _ _).
  pose proof (ao_pos _ Har). pose proof (ao_end _ Har).
  assert (page_ptr st + 8 <= p < page_ptr st + 8 + 2 ^ k /\ p mod 2 ^ k = 0) as [Hp1 Hp2].
  { subst p. rewrite Z.max_l by lia. apply heap_align_up_spec; [done| |];
      unfold Heap.page_ptr, SLAB_PAGE_SIZE, HEAP_SIZE, LargeAllocHeader_size, U64 in *; lia. }
  assert (page_ptr (st + n) = page_ptr st + n * 4096) as Hend by (unfold Heap.page_ptr, SLAB_PAGE_SIZE; lia).
  destruct (fresh_run h (mkHeap s2 m) R B st n (LargeRun n p size) p size Hi HB H0 ltac:(lia) H1 Hu Hok2)
    as (F1 & F2 & F3 & F4); try done.
  - intros q Hq Hout. cbn [hs]. by rewrite Hrow2, decide_False, Hrow1, decide_False by done.
  - intros a Hout. apply M3. unfold in_pages in Hout. lia.
  - cbn [HeapFacts.run_ok hs hmem]. split_and!; [|done|done|lia|lia|done].
    intros q Hq. assert (0 <= q < 1024) as Hq' by lia.
    rewrite Hrow2, decide_True, Hrow1, decide_True by done.
    pose proof (Hrow2 q Hq') as E. rewrite decide_True, Hrow1, decide_True in E by done.
    by apply row_eq in E as (_ & _ & _ & ->).
Qed.

(** * Allocation *)

Lemma alloc_inner_spec h B size align : heap_rep h B -> layout_ok size align ->
  exists h' p, alloc_inner HEAP_ARENA h size align = Some (h', p)
    /\ ((p = 0 /\ h' = h /\ (size = 0 \/ forall st, 0 <= st -> st + large_pages size align <= 1024 ->
           exists q, st <= q < st + large_pages size align /\ is_page_used (hs h) q = true))
        \/ granted_block h B size align h' p).
Proof.
  intros (R & Hi & HB) (Hsz & k & Hk & -> & Hmax). unfold alloc_inner.
  destruct (Z.eqb_spec size 0); [exists h, 0; split; [done|]; left; auto|].
  pose proof (alloc_large_spec h R B size k Hi HB ltac:(lia) Hk Hmax) as Hlg.
  destruct (class_index_for size (2 ^ k)) as [ci|] eqn:Ec.
  2:{ destruct (alloc_large HEAP_ARENA h size (2 ^ k)) as [h' p]. exists h', p. split; [done|].
      destruct Hlg as [(? & ? & ?)|?]; auto. }
  destruct (alloc_small_spec h R B size k ci Hi HB ltac:(lia) ltac:(lia) Ec) as (h1 & p1 & -> & Hs).
  destruct (Z.eqb_spec p1 0) as [->|]; cbn [negb].
  - destruct Hs as [(_ & -> & Hall)|(Hz & _)]; [|done].
    destruct (alloc_large HEAP_ARENA h size (2 ^ k)) as [h' p]. exists h', p. split; [done|].
    destruct Hlg as [(? & ? & ?)|?]; auto.
  - exists h1, p1. split; [done|]. destruct Hs as [(? & _)|?]; [done|by right].
Qed.

(** * Release *)

(** What releasing block [p] gives. *)
Definition released (h : heap) (B : gmap Z Z) (p : Z) (h' : heap) : Prop :=
  heap_rep h' (delete p B) /\ forall a, kept (delete p B) a -> rd (hmem h') a = rd (hmem h) a.

(** The other blocks keep clear of the bytes a slab release writes. *)
Lemma slab_object_clear h R hd ci fl objs i n q k a : heap_inv h R ->
  R !! hd = Some (SlabRun ci fl objs) -> objs !! i = Some n -> live R q k ->
  q <> page_ptr hd + i * class_size ci -> q <= a < q + k ->
  ~ (page_ptr hd + i * class_size ci <= a < page_ptr hd + i * class_size ci + 2).
Proof.
  intros Hi Hr Ho (hd' & r & Hr' & Hl) Hne Ha.
  destruct (hi_run _ _ _ Hi hd _ Hr) as (_ & _ & _ & _ & Hs & _).
  destruct (slab_capacity _ _ _ _ _ _ Hs) as (Hc & Hm & Hz).
  destruct (so_objs _ _ _ _ _ _ Hs i n Ho) as [Hic Hin].
  destruct (object_in_page (class_size ci) (capacity (slab_get (hs h) hd)) i) as [Ho1 Ho2]; [lia|lia|lia|].
  destruct (decide (hd' = hd)) as [->|Hd].
  - rewrite Hr in Hr'. injection Hr' as <-. destruct Hl as (j & Hj & ->).
    destruct (so_objs _ _ _ _ _ _ Hs j k Hj) as [Hjc Hjn].
    destruct (decide (i = j)) as [->|Hij]; [done|].
    destruct (objects_apart (class_size ci) i j); lia.
  - destruct (run_live_page _ _ _ _ _ _ Hi Hr' Hl) as (_ & _ & H2 & H3 & _).
    destruct (hi_apart _ _ _ Hi hd hd' _ _ Hr Hr' ltac:(done)) as [H|H]; cbn [run_pages] in H;
      apply page_ptr_mono in H; unfold Heap.page_ptr, SLAB_PAGE_SIZE in *; lia.
Qed.

(** Giving the pages of a run back. *)
Lemma free_run_inv h h' R lo r : heap_inv h R -> R !! lo = Some r -> arrays_ok (hs h') ->
  (forall q, 0 <= q < 1024 -> ~ (lo <= q < lo + run_pages r) -> page_row (hs h') q = page_row (hs h) q) ->
  (forall a, ~ in_pages HEAP_ARENA lo (lo + run_pages r) a -> rd (hmem h') a = rd (hmem h) a) ->
  heap_inv (set_hs (free_contiguous_pages (hs h') lo (run_pages r)) h') (partial_alter (fun _ => None) lo R).
Proof.
  intros Hi Hr Ha Hrow Hm. destruct (hi_run _ _ _ Hi lo r Hr) as (H1 & H2 & H3 & _).
  destruct (free_contiguous_pages_spec (hs h') lo (run_pages r) Ha ltac:(lia) ltac:(lia) ltac:(lia)) as [Ha' Hrow'].
  apply (heap_inv_change HEAP_ARENA h _ R lo (lo + run_pages r) None); try done; try lia.
  - intros hd r0 E Hne. destruct (hi_apart _ _ _ Hi hd lo r0 r E Hr Hne); lia.
  - intros r0 E. rewrite Hr in E. by injection E as <-.
  - intros q Hq Hout. cbn [hs set_hs]. rewrite Hrow', decide_False by done. by apply Hrow.
  - intros q Hq. cbn [hs set_hs]. pose proof (Hrow' q ltac:(lia)) as E. rewrite decide_True in E by done.
    by apply row_eq in E as (-> & -> & _ & _).
Qed.

Lemma free_slab h R B hd ci fl objs i n : heap_inv h R -> (forall q k, B !! q = Some k <-> live R q k) ->
  R !! hd = Some (SlabRun ci fl objs) -> objs !! i = Some n ->
  let p := page_ptr hd + i * class_size ci in
  released h B p
    (let '(m, slab, ok) := free_to_slab (page_ptr hd) (slab_get (hs h) hd) p (hmem h) in
     let h' := mkHeap (slab_set (hs h) hd slab) m in
     if negb ok then h'
     else if is_empty slab then set_hs (free_contiguous_pages (hs h') hd 1) h' else h').
Proof.
  intros Hi HB Hr Ho p. destruct (hi_run _ _ _ Hi hd _ Hr) as (H1 & _ & H3 & _ & Hs & Hne0).
  destruct (slab_capacity _ _ _ _ _ _ Hs) as (Hc & Hm & Hz).
  destruct (so_objs _ _ _ _ _ _ Hs i n Ho) as [Hic Hin].
  destruct (object_in_page (class_size ci) (capacity (slab_get (hs h) hd)) i) as [Ho1 Ho2]; [lia|lia|lia|].
  pose proof (ao_pos _ Har). pose proof (hi_arrays _ _ _ Hi) as Ha. cbn [run_pages] in H3.
  destruct (free_to_slab_spec _ _ _ _ _ _ i n Hs ltac:(unfold Heap.page_ptr, SLAB_PAGE_SIZE; lia) Ho)
    as (m' & s' & E & Hs' & Hm'). subst p. rewrite E. cbn [negb]. rewrite (slab_is_empty_spec _ _ _ _ _ _ Hs').
  set (p := page_ptr hd + i * class_size ci) in *.
  assert (run_live hd (SlabRun ci fl objs) p n) as Hl by (by exists i).
  assert (forall q k, run_live hd (SlabRun ci (i :: fl) (delete i objs)) q k
    <-> q <> p /\ run_live hd (SlabRun ci fl objs) q k) as Hlive.
  { intros q k. cbn [HeapFacts.run_live]. split.
    - intros (j & [Hij Hj]%lookup_delete_Some & ->). split; [subst p; nia|by exists j].
    - intros [Hq (j & Hj & ->)]. exists j. rewrite lookup_delete_Some. split; [|done].
      split; [|done]. intros ->. done. }
  assert (forall a, kept (delete p B) a -> rd m' a = rd (hmem h) a) as Hmem.
  { intros a [(q & k & [Hq HBq]%lookup_delete_Some & Hqa)|Hout]; apply Hm'.
    - apply HB in HBq. eapply (slab_object_clear h R hd ci fl objs i n q k a); done.
    - unfold p, Heap.page_ptr, SLAB_PAGE_SIZE, HEAP_SIZE in *. lia. }
  assert (forall a, ~ (page_ptr hd <= a < page_ptr (hd + 1)) -> rd m' a = rd (hmem h) a) as Hmpg.
  { intros a Hout. apply Hm'. unfold Heap.page_ptr, SLAB_PAGE_SIZE in *. lia. }
  destruct (bool_decide_reflect (delete i objs = ∅)) as [Ee|Ene]; (split; [|exact Hmem]).
  - eapply (rep_delete h _ R B hd _ None p n Hi HB Hr Hl).
    + intros q k. split; [by intros (? & ? & _)|]. rewrite <- Hlive. intros (j & Hj & _).
      by rewrite Ee, lookup_empty in Hj.
    + apply (free_run_inv h (mkHeap (slab_set (hs h) hd s') m') R hd (SlabRun ci fl objs)); try done.
      * by apply slab_set_ok.
      * intros q Hq Hout. cbn [hs run_pages] in *. by rewrite slab_set_row, decide_False by (done || lia).
  - eapply (rep_delete h _ R B hd _ (Some (SlabRun ci (i :: fl) (delete i objs))) p n Hi HB Hr Hl).
    + intros q k. rewrite <- Hlive. split; [by intros (? & [= <-] & ?)|eauto].
    + by apply (slab_change h R hd ci fl objs).
Qed.

Lemma free_inner_spec h B p n : heap_rep h B -> B !! p = Some n -> released h B p (free_inner HEAP_ARENA h p).
Proof.
  intros (R & Hi & HB) Hp. pose proof Hp as Hp'. apply HB in Hp' as (hd & r & Hr & Hl).
  destruct (run_live_page _ _ _ _ _ _ Hi Hr Hl) as (Hn & Hpg & H2 & H3 & H4 & H5).
  destruct (live_inside h R p n Hi ltac:(by exists hd, r)) as (_ & H6 & H7). pose proof (ao_pos _ Har).
  unfold free_inner. destruct (Z.eqb_spec p 0); [lia|].
  destruct (Z.ltb_spec p HEAP_ARENA); [lia|]. destruct (Z.leb_spec (HEAP_ARENA + HEAP_SIZE) p); [lia|]. cbn [orb].
  change SLAB_PAGE_SIZE with 4096. change HEAP_PAGE_COUNT with 1024.
  set (q := (p - HEAP_ARENA) / 4096) in *. destruct (Z.leb_spec 1024 q); [lia|].
  destruct (hi_run _ _ _ Hi hd r Hr) as (_ & _ & _ & Hok).
  destruct r as [ci fl objs|np ptr size]; cbn [HeapFacts.run_ok run_pages] in *.
  - assert (q = hd) as -> by lia. destruct Hok as (Hrow & _). apply row_eq in Hrow as (_ & -> & -> & _).
    change (PAGE_KIND_SLAB =? PAGE_KIND_SLAB) with true. cbv iota.
    destruct (Z.leb_spec 1024 hd); [lia|]. destruct Hl as (i & Ho & ->).
    by apply (free_slab h R B hd ci fl objs i n).
  - destruct Hok as (Hrow & Hmag & Hnp & _). specialize (Hrow q Hpg).
    apply row_eq in Hrow as (_ & -> & -> & _). change (PAGE_KIND_LARGE =? PAGE_KIND_SLAB) with false.
    change (PAGE_KIND_LARGE =? PAGE_KIND_LARGE) with true. cbv iota.
    destruct (Z.leb_spec 1024 hd); [lia|]. rewrite Hmag, Z.eqb_refl, Hnp. cbn [negb].
    split; [|done]. eapply (rep_delete h _ R B hd _ None p n Hi HB Hr Hl).
    + intros x k. split; [by intros (? & ? & _)|]. destruct Hl as [-> ->]. by intros [Hx [-> ->]].
    + apply (free_run_inv h h R hd (LargeRun np ptr size)); [done|done| |done|done].
      exact (hi_arrays _ _ _ Hi).
Qed.

(** * Writes, and the empty heap *)

(** New bytes inside the blocks, or outside the arena, change no block. *)
Lemma rep_mem h B m' : heap_rep h B ->
  (forall a, HEAP_ARENA <= a < HEAP_ARENA + HEAP_SIZE -> rd m' a <> rd (hmem h) a -> owned B a) ->
  heap_rep (set_hmem m' h) B.
Proof.
  intros (R & Hi & HB) Hm. exists R. split; [|done].
  pose proof Hi as [Har' Hrun Hap Hfr]. constructor; try done.
  intros hd' r' Hr'. destruct (Hrun hd' r' Hr') as (H1 & H2 & H3 & H4). split_and!; try done.
  apply (run_ok_frame HEAP_ARENA h); [done|done|done| |exact H4]. intros b Hb Hdiff. cbn [hmem set_hmem] in Hdiff.
  destruct (Hm b) as (p & n & Hp & Ha); [|done|].
  { unfold in_pages, Heap.page_ptr, SLAB_PAGE_SIZE, HEAP_SIZE in *. lia. }
  apply HB in Hp as (hd & r & Hr & Hl).
  destruct (decide (hd' = hd)) as [->|Hne]; [rewrite Hr in Hr'; injection Hr' as <-; by exists p, n|]. exfalso.
  destruct (Hrun hd r Hr) as (_ & _ & _ & H4').
  destruct (run_live_inside HEAP_ARENA h hd r p n H4' Hl) as (_ & H5 & H6). unfold in_pages in Hb.
  destruct (Hap hd hd' r r' Hr Hr' ltac:(done)) as [H|H]; apply page_ptr_mono in H; lia.
Qed.

Lemma write_spec h B a v : heap_rep h B -> owned B a -> heap_rep (set_hmem (wr (hmem h) a v) h) B.
Proof.
  intros Hh Ho. apply rep_mem; [done|]. intros b _ Hne. rewrite rd_wr in Hne. case_decide; [by subst|done].
Qed.

Lemma free_inner_ignores h p : p = 0 \/ p < HEAP_ARENA \/ HEAP_ARENA + HEAP_SIZE <= p
    \/ page_kind_get (hs h) ((p - HEAP_ARENA) / 4096) = PAGE_KIND_FREE ->
  free_inner HEAP_ARENA h p = h.
Proof.
  intros H. unfold free_inner. destruct (Z.eqb_spec p 0); [done|].
  destruct (Z.ltb_spec p HEAP_ARENA); [done|]. destruct (Z.leb_spec (HEAP_ARENA + HEAP_SIZE) p); [done|].
  destruct H as [|[|[|H]]]; [lia|lia|lia|]. cbn [orb]. change SLAB_PAGE_SIZE with 4096. rewrite H.
  by destruct (HEAP_PAGE_COUNT <=? _).
Qed.

Lemma owned_delete B p n a : B !! p = Some n -> owned (delete p B) a -> owned B a.
Proof. intros Hp (q & k & [_ Hq]%lookup_delete_Some & Ha). by exists q, k. Qed.

Lemma rep_apart h B p n q k : heap_rep h B -> B !! p = Some n -> B !! q = Some k -> p <> q ->
  p + n <= q \/ q + k <= p.
Proof.
  intros (R & Hi & HB) Hp%HB Hq%HB Hne. by destruct (live_apart h R p n q k Hi Hp Hq) as [[? _]|[_ ?]].
Qed.

Lemma rep_inside h B p n : heap_rep h B -> B !! p = Some n ->
  0 < n /\ HEAP_ARENA <= p /\ p + n <= HEAP_ARENA + HEAP_SIZE.
Proof. intros (R & Hi & HB) Hp%HB. by eapply live_inside. Qed.

Lemma is_power_of_two_spec x : 0 <= x -> is_power_of_two x = true -> exists k, 0 <= k /\ x = 2 ^ k.
Proof.
  intros Hx. unfold is_power_of_two. rewrite andb_true_iff, Z.ltb_lt, Z.eqb_eq. intros [Hp Hl].
  exists (Z.log2 x). pose proof (Z.log2_nonneg x). split; [done|].
  destruct (Z.log2_spec x Hp) as [H1 H2]. rewrite Z.pow_succ_r in H2 by done.
  destruct (Z.eq_dec x (2 ^ Z.log2 x)) as [|Hne]; [done|]. exfalso.
  assert (Z.testbit (Z.land x (x - 1)) (Z.log2 x) = true) as Ht.
  { rewrite Z.land_spec, Z.bit_log2 by done. cbn [andb].
    replace (Z.log2 x) with (Z.log2 (x - 1))
      by (apply Z.log2_unique; [done|rewrite Z.pow_succ_r by done; lia]). apply Z.bit_log2. lia. }
  by rewrite Hl, Z.bits_0 in Ht.
Qed.

Lemma layout_spec size align l : 0 <= size -> 0 <= align ->
  Layout_from_size_align size (Z.max align 1) = Some l ->
  l = mkLayout size (Z.max align 1) /\ layout_ok size (Z.max align 1).
Proof.
  intros Hs Ha. unfold Layout_from_size_align.
  destruct (is_power_of_two (Z.max align 1)) eqn:Ep; [|done]. cbn [andb].
  destruct (Z.leb_spec size (2 ^ 63 - Z.max align 1)); [|done]. intros [= <-]. split; [done|]. split; [done|].
  destruct (is_power_of_two_spec (Z.max align 1) ltac:(lia) Ep) as (k & Hk & E). exists k.
  rewrite E in *. split_and!; try done.
  enough (2 ^ k < 2 ^ 64) as Hlt by (apply Z.pow_lt_mono_r_iff in Hlt; lia). lia.
Qed.

(** The C allocation entry point. *)
Lemma heap_alloc_c_spec g B M size align : global_rep HEAP_ARENA g B M -> 0 <= size -> 0 <= align ->
  exists g' p, heap_alloc_c HEAP_ARENA size align g = Some (g', p)
    /\ ((p = 0 /\ g' = g
          /\ (Layout_from_size_align size (Z.max align 1) = None \/ size = 0
              \/ forall st, 0 <= st -> st + large_pages size (Z.max align 1) <= 1024 ->
                   exists q, st <= q < st + large_pages size (Z.max align 1)
                     /\ is_page_used (hs (HEAP_STATE g)) q = true))
        \/ (granted_block (HEAP_STATE g) B size (Z.max align 1) (HEAP_STATE g') p
             /\ HEAP_LOCK g' = false /\ HEAP_READY g' = true)).
Proof.
  intros [Hlk Hrd Hh _] Hs Ha. unfold heap_alloc_c.
  destruct (Layout_from_size_align size (Z.max align 1)) as [l|] eqn:El.
  2:{ exists g, 0. split; [done|]. left. auto. }
  apply layout_spec in El as [-> Hl]; [|done|done].
  unfold heap_alloc, heap_is_initialized, with_heap_lock. rewrite Hrd, Hlk. cbn [negb layout_size layout_align].
  destruct (alloc_inner_spec _ B size (Z.max align 1) Hh Hl) as (h' & p & -> & Hc).
  eexists _, _. split; [done|]. destruct Hc as [(-> & -> & Hc)|Hc]; [left|by right].
  split_and!; [done| |tauto]. destruct g as [lk rdy st]. cbn in *. by subst.
Qed.

(** One call of a client refines a step of the abstract heap. *)
Lemma heap_serve_spec g B M c : global_rep HEAP_ARENA g B M -> allowed B c ->
  exists g' r B' M', heap_serve HEAP_ARENA c g = Some (g', r)
    /\ blocks_step HEAP_ARENA (B, M) c r (B', M') /\ global_rep HEAP_ARENA g' B' M'.
Proof.
  intros Hg Hc. pose proof Hg as [Hlk Hrd Hh Hb]. destruct c as [size align|p|a|a v]; cbn [heap_serve allowed] in *.
  - destruct Hc as [Hs Ha]. destruct (heap_alloc_c_spec g B M size align Hg Hs Ha) as (g' & p & E & Hc).
    destruct Hc as [(-> & -> & _)|((Hnz & Hal & Hno & Hrep & Hby) & Hlk' & Hrd')].
    + exists g, 0, B, M. split; [done|]. split; [constructor|done].
    + exists g', p, (<[p := size]> B), (global_mem g'). split; [done|].
      assert (<[p := size]> B !! p = Some size) as Hp by apply lookup_insert_eq.
      destruct (rep_inside _ _ _ _ Hrep Hp) as (H1 & H2 & H3). split; [|by constructor].
      constructor; try done.
      * intros q k Hq. assert (p <> q) as Hne by (intros ->; congruence).
        apply (rep_apart (HEAP_STATE g') (<[p := size]> B)); try done. by rewrite lookup_insert_ne.
      * intros a Ha'. rewrite <- Hb by done. apply Hby. by left.
  - unfold heap_dealloc_c, heap_dealloc, heap_is_initialized, with_heap_lock. rewrite Hrd, Hlk. cbn [negb].
    exists (mkHeapGlobal false true (free_inner HEAP_ARENA (HEAP_STATE g) p)), 0, (delete p B), M.
    split; [done|]. split; [by constructor|].
    destruct (B !! p) as [n|] eqn:Ep.
    + destruct (free_inner_spec _ B p n Hh Ep) as [Hrep Hby].
      constructor; try done. intros a Ha. cbn [global_mem HEAP_STATE]. unfold global_mem in *. cbn.
      rewrite Hby by (by left). apply Hb. by eapply owned_delete.
    + destruct Hc as [->|]; [|done]. rewrite delete_id by done. by constructor.
  - exists g, (rd (global_mem g) a), B, M. split; [done|]. split; [|done]. rewrite Hb by done. by constructor.
  - eexists _, _, B, (wr M a v). split; [done|]. split; [by constructor|].
    constructor; cbn [HEAP_LOCK HEAP_READY HEAP_STATE]; [done|done|by apply write_spec|].
    intros b Hob. unfold global_mem. cbn. rewrite !rd_wr. case_decide; [done|by apply Hb].
Qed.

Lemma blocks_step_after B M c r B' M' : blocks_step HEAP_ARENA (B, M) c r (B', M') -> B' = blocks_after B c r.
Proof.
  pose proof (ao_pos _ Har). intros Hs. inversion Hs; subst; try done. cbn [blocks_after].
  destruct (Z.eqb_spec r 0); [lia|done].
Qed.

Lemma blocks_step_keeps B M c r B' M' p n a : blocks_step HEAP_ARENA (B, M) c r (B', M') ->
  B !! p = Some n -> p <= a < p + n -> c <> CFree p -> (forall v, c <> CWrite a v) ->
  B' !! p = Some n /\ rd M' a = rd M a.
Proof.
  intros Hs Hp Ha Hf Hw. assert (owned B a) as Ho by (by exists p, n).
  inversion Hs; subst; auto.
  - split; [|auto]. rewrite lookup_insert_ne; [done|]. congruence.
  - split; [|done]. rewrite lookup_delete_ne; [done|]. congruence.
  - split; [done|]. apply rd_wr_ne. intros ->. by eapply Hw.
Qed.
End Props.

Lemma blocks_step_read HEAP_ARENA B M a r B' M' :
  blocks_step HEAP_ARENA (B, M) (CRead a) r (B', M') -> r = rd M a.
Proof. by inversion 1. Qed.

(** ** The empty heap *)

Lemma aset_loop {X} `{Inhabited X} (x : X) n (l : list X) : List.length l = n ->
  for_loop 0 (Z.of_nat n) (fun i l => aset l i x) l = replicate n x.
Proof.
  intros Hl. pose (P := fun k l' => List.length l' = n /\ forall i, 0 <= i < k -> aget l' i = x).
  assert (P (Z.max 0 (Z.of_nat n)) (for_loop 0 (Z.of_nat n) (fun i l => aset l i x) l)) as [Hn Hx].
  { apply for_loop_ind; [split; [done|intros; lia]|]. intros k l' Hk [Hn Hx]. split.
    - by rewrite length_aset.
    - intros i Hi. rewrite aget_aset by lia. case_decide; [done|]. apply Hx. lia. }
  apply list_eq_same_length with n; [by rewrite length_replicate|done|].
  intros i y z Hi Hy Hz. apply lookup_replicate in Hz as [-> _].
  rewrite <- (Hx (Z.of_nat i)) by lia. unfold aget. rewrite Nat2Z.id. symmetry.
  by apply list_lookup_total_correct.
Qed.

Lemma reset_spec s : array_lengths s ->
  reset s = mkHeapState true (replicate 128 0) (replicate 1024 PAGE_KIND_FREE) (replicate 1024 65535)
    (replicate 1024 SlabPage_empty).
Proof.
  intros (H1 & H2 & H3 & H4).
  assert (forall k i s, for_range k i (fun i s => mkHeapState (initialized s) (aset (page_bitmap s) i 0)
      (page_kind s) (page_head s) (slabs s)) s
    = mkHeapState (initialized s) (for_range k i (fun i l => aset l i 0) (page_bitmap s))
        (page_kind s) (page_head s) (slabs s)) as E1.
  { induction k as [|k IH]; intros i s0; cbn [for_range]; [by destruct s0|]. by rewrite IH. }
  assert (forall k i s, for_range k i (fun i s => mkHeapState (initialized s) (page_bitmap s)
      (aset (page_kind s) i PAGE_KIND_FREE) (aset (page_head s) i 65535) (aset (slabs s) i SlabPage_empty)) s
    = mkHeapState (initialized s) (page_bitmap s) (for_range k i (fun i l => aset l i PAGE_KIND_FREE) (page_kind s))
        (for_range k i (fun i l => aset l i 65535) (page_head s))
        (for_range k i (fun i l => aset l i SlabPage_empty) (slabs s))) as E2.
  { induction k as [|k IH]; intros i s0; cbn [for_range]; [by destruct s0|]. by rewrite IH. }
  unfold reset. cbv zeta. unfold for_loop. rewrite !E2, !E1. cbn [initialized page_bitmap page_kind page_head slabs].
  pose proof (aset_loop 0 128 (page_bitmap s) H1) as B1. pose proof (aset_loop PAGE_KIND_FREE 1024 (page_kind s) H2) as B2.
  pose proof (aset_loop 65535 1024 (page_head s) H3) as B3. pose proof (aset_loop SlabPage_empty 1024 (slabs s) H4) as B4.
  unfold for_loop in *. change (HEAP_PAGE_COUNT / 8) with (Z.of_nat 128).
  change HEAP_PAGE_COUNT with (Z.of_nat 1024). by rewrite B1, B2, B3, B4.
Qed.

Lemma empty_heap_rep HEAP_ARENA b m : heap_rep HEAP_ARENA
  (mkHeap (mkHeapState b (replicate 128 0) (replicate 1024 PAGE_KIND_FREE) (replicate 1024 65535)
             (replicate 1024 SlabPage_empty)) m) ∅.
Proof.
  exists ∅. split; [constructor|].
  - constructor; cbn [hs page_bitmap page_kind page_head slabs]; try apply length_replicate.
    intros i Hi. by rewrite aget_replicate by lia.
  - intros hd r Hr. by rewrite lookup_empty in Hr.
  - intros hd hd' r r' Hr. by rewrite lookup_empty in Hr.
  - intros p Hp. right. unfold is_page_used, page_kind_get. cbn [hs page_bitmap page_kind].
    rewrite !aget_replicate by dlia. done.
  - intros p n. rewrite lookup_empty. split; [done|]. intros (hd & r & Hr & _). by rewrite lookup_empty in Hr.
Qed.

(** ** The instances *)

Lemma sample_arena_ok : arena_ok sample_arena.
Proof. constructor; by vm_compute. Qed.

Lemma sample_ready_rep : global_rep sample_arena sample_ready ∅ ∅.
Proof. constructor; [done|done|apply empty_heap_rep|done]. Qed.

Lemma sample_held_rep : global_rep sample_arena sample_held {[8388608 := 24]} (global_mem sample_held).
Proof.
  destruct (heap_serve_spec sample_arena sample_arena_ok sample_ready ∅ ∅ (CAlloc 24 8) sample_ready_rep
    ltac:(done)) as (g' & r & B' & M' & E & Hs & Hg).
  assert (snd <$> heap_serve sample_arena (CAlloc 24 8) sample_ready = Some 8388608) as Er by (by vm_compute).
  unfold sample_held. change (heap_alloc_c sample_arena 24 8 sample_ready)
    with (heap_serve sample_arena (CAlloc 24 8) sample_ready).
  rewrite E in *. injection Er as ->. rewrite <- (insert_empty (M := gmap Z)).
  inversion Hs; subst. destruct Hg. by constructor.
Qed.
