(* ===== verification/HeapProps.v ===== *)
(** The kernel heap: what it promises.

    Each theorem is about the C interface of [memory/heap.rs] on a heap that
    [global_rep] relates to a map of blocks. *)

From S2P Require Import Prelude Slab Heap HeapFacts HeapRep.

(** C2. Every call a client of the heap may make is served (no endless spinning
    on the lock, no panic), and is a step of the abstract heap: an allocation
    gives null or a block of the size asked for, aligned, inside the arena and
    apart from every block held, a release removes the block, and the bytes of
    the blocks held are what the client wrote. *)
Theorem heap_refines_blocks HEAP_ARENA g B M c :
  arena_ok HEAP_ARENA -> global_rep HEAP_ARENA g B M -> allowed B c ->
  exists g' r B' M', heap_serve HEAP_ARENA c g = Some (g', r)
    /\ blocks_step HEAP_ARENA (B, M) c r (B', M') /\ global_rep HEAP_ARENA g' B' M'.
Proof. intros. by apply heap_serve_spec. Qed.

(** C7. Over any sequence of allowed calls, a block that is not given back is
    still held at the end and a byte of it that the client does not write has
    not changed; the blocks held at the end lie in the arena and share no byte. *)
Theorem held_block_keeps_its_bytes HEAP_ARENA g B M tr g' B' :
  arena_ok HEAP_ARENA -> client_run HEAP_ARENA g B tr g' B' -> global_rep HEAP_ARENA g B M ->
  (forall p n a, B !! p = Some n -> p <= a < p + n ->
     (forall c r, (c, r) ∈ tr -> c <> CFree p /\ forall v, c <> CWrite a v) ->
     B' !! p = Some n /\ rd (global_mem g') a = rd (global_mem g) a)
  /\ (forall p n, B' !! p = Some n -> 0 < n /\ HEAP_ARENA <= p /\ p + n <= HEAP_ARENA + HEAP_SIZE)
  /\ (forall p n q k, B' !! p = Some n -> B' !! q = Some k -> p <> q -> p + n <= q \/ q + k <= p).
Proof.
  intros Har Hrun. revert M. induction Hrun as [g B|g B c r g1 tr g2 B2 Hc Hs Hrun IH]; intros M Hg.
  - split_and!; [done| |]; intros *.
    + by apply (rep_inside HEAP_ARENA Har (HEAP_STATE g)), Hg.
    + by apply (rep_apart HEAP_ARENA Har (HEAP_STATE g)), Hg.
  - destruct (heap_serve_spec HEAP_ARENA Har g B M c Hg Hc) as (g1' & r' & B1 & M1 & Es & Hst & Hg1).
    rewrite Hs in Es. injection Es as <- <-.
    pose proof (blocks_step_after HEAP_ARENA Har _ _ _ _ _ _ Hst) as ->.
    destruct (IH M1 Hg1) as (IH1 & IH2 & IH3). split_and!; [|done|done].
    intros p n a Hp Ha Htr. destruct (Htr c r ltac:(left)) as [Hf Hw].
    destruct (blocks_step_keeps _ _ _ _ _ _ _ p n a Hst Hp Ha Hf Hw) as [Hp1 Hm1].
    destruct (IH1 p n a Hp1 Ha) as [Hp2 Hm2]; [intros; apply (Htr _ r0); by right|].
    split; [done|]. rewrite Hm2, (gr_bytes _ _ _ _ Hg1), (gr_bytes _ _ _ _ Hg) by (by exists p, n). done.
Qed.

(** [heap_alloc_c] is correct and complete: it returns null, changing
    nothing, only for an invalid layout, a size of 0 or when no run of free pages
    is long enough; otherwise a new aligned block; the bytes of the blocks held
    and the bytes outside the arena do not change. *)
Theorem heap_alloc_correct HEAP_ARENA g B M size align :
  arena_ok HEAP_ARENA -> global_rep HEAP_ARENA g B M -> 0 <= size -> 0 <= align ->
  exists g' p, heap_alloc_c HEAP_ARENA size align g = Some (g', p)
    /\ ((p = 0 /\ g' = g
          /\ (Layout_from_size_align size (Z.max align 1) = None \/ size = 0
              \/ forall st, 0 <= st -> st + large_pages size (Z.max align 1) <= 1024 ->
                   exists q, st <= q < st + large_pages size (Z.max align 1)
                     /\ is_page_used (hs (HEAP_STATE g)) q = true))
        \/ (p <> 0 /\ p mod Z.max align 1 = 0 /\ B !! p = None
             /\ heap_rep HEAP_ARENA (HEAP_STATE g') (<[p := size]> B)
             /\ (forall a, kept HEAP_ARENA B a -> rd (global_mem g') a = rd (global_mem g) a)
             /\ HEAP_LOCK g' = false)).
Proof.
  intros Har Hg Hs Ha. destruct (heap_alloc_c_spec HEAP_ARENA Har g B M size align Hg Hs Ha)
    as (g' & p & E & [Hc|((H1 & H2 & H3 & H4 & H5) & H6 & _)]); exists g', p; auto 10.
Qed.

(** [heap_dealloc_c] gives back exactly the block at the address, leaving
    the bytes of the others and those outside the arena; null, an address outside the arena and one in a
    free page are ignored. *)
Theorem heap_free_correct HEAP_ARENA g B M p :
  arena_ok HEAP_ARENA -> global_rep HEAP_ARENA g B M ->
  exists g', heap_dealloc_c HEAP_ARENA p g = Some (g', tt)
    /\ (forall n, B !! p = Some n -> heap_rep HEAP_ARENA (HEAP_STATE g') (delete p B)
          /\ forall a, kept HEAP_ARENA (delete p B) a -> rd (global_mem g') a = rd (global_mem g) a)
    /\ (p = 0 \/ p < HEAP_ARENA \/ HEAP_ARENA + HEAP_SIZE <= p
         \/ page_kind_get (hs (HEAP_STATE g)) ((p - HEAP_ARENA) / 4096) = PAGE_KIND_FREE -> g' = g).
Proof.
  intros Har [Hlk Hrd Hh _]. unfold heap_dealloc_c, heap_dealloc, heap_is_initialized, with_heap_lock.
  rewrite Hrd, Hlk. cbn [negb]. eexists. split; [done|]. split.
  - intros n Hp. by apply (free_inner_spec HEAP_ARENA Har _ B p n).
  - intros Hi. rewrite free_inner_ignores by done. destruct g as [lk rdy st]. cbn in *. by subst.
Qed.

(** [heap_init_c] makes an empty, initialised heap of any state of the
    arrays, keeps every byte of memory and leaves the lock free. *)
Theorem heap_init_correct HEAP_ARENA g :
  HEAP_LOCK g = false -> array_lengths (hs (HEAP_STATE g)) ->
  exists g', heap_init_c g = Some (g', 0) /\ global_rep HEAP_ARENA g' ∅ (global_mem g)
    /\ global_mem g' = global_mem g /\ heap_is_initialized_c g' = 1.
Proof.
  intros Hlk Hlen. unfold heap_init_c, heap_init, with_heap_lock. rewrite Hlk.
  eexists. split; [done|]. split_and!; [|done|done]. constructor; try done.
  cbn [HEAP_STATE HEAP_LOCK]. unfold set_hs. rewrite reset_spec by done. apply empty_heap_rep.
Qed.

(** A second release of the same object of a slab page that stays in use is
    accepted; the next two allocations of the class then return the same
    address. *)
Theorem slab_double_free m page s ci fl objs i n :
  slab_ok m page s ci fl objs -> 0 < page -> objs !! i = Some n ->
  let p := page + i * class_size ci in
  exists m1 s1 m2 s2 s3 s4, free_to_slab page s p m = (m1, s1, true)
    /\ free_to_slab page s1 p m1 = (m2, s2, true)
    /\ alloc_from_slab page s2 m2 = (s3, p) /\ alloc_from_slab page s3 m2 = (s4, p).
Proof.
  intros Hs Hp Hi p. destruct (free_to_slab_spec m page s ci fl objs i n Hs Hp Hi) as (m1 & s1 & E1 & Hs1 & _).
  fold p in E1. pose proof (slab_capacity _ _ _ _ _ _ Hs1) as (Hc & Hmul & Hsz).
  destruct (proj1 (so_fl _ _ _ _ _ _ Hs1 i) ltac:(left)) as [Hic _].
  destruct (object_in_page (class_size ci) (capacity s1) i) as [Ho1 Ho2]; [lia|lia|lia|].
  assert (free_to_slab page s1 p m1 = (wr16 m1 p i,
    mkSlab true ci i (sat_sub (in_use s1) 1) (capacity s1), true)) as E2.
  { unfold free_to_slab, SLAB_PAGE_SIZE. rewrite (so_active _ _ _ _ _ _ Hs1), (so_index _ _ _ _ _ _ Hs1).
    destruct (so_chain _ _ _ _ _ _ Hs1) as [-> _]. subst p. cbn [negb].
    destruct (Z.eqb_spec (page + i * class_size ci) 0); [lia|].
    destruct (Z.eqb_spec (class_size ci) 0); [lia|].
    destruct (Z.ltb_spec (page + i * class_size ci) page); [lia|].
    destruct (Z.leb_spec (page + 4096) (page + i * class_size ci)); [lia|]. cbn [orb].
    replace (page + i * class_size ci - page) with (i * class_size ci) by lia.
    rewrite Z.mod_mul, Z.div_mul by lia. unfold wrap16. rewrite Z.mod_small by lia. cbn [negb Z.eqb].
    by destruct (Z.leb_spec (capacity s1) i); [lia|]. }
  assert (forall u c, alloc_from_slab page (mkSlab true ci i u c) (wr16 m1 p i)
    = (mkSlab true ci i (Z.min 65535 (u + 1)) c, p)) as Ea.
  { intros u c. unfold alloc_from_slab, has_free_objects. cbn [active free_head class_index in_use capacity].
    destruct (Z.eqb_spec i FREE_LIST_END); [unfold FREE_LIST_END in *; lia|]. cbn [negb andb].
    destruct (Z.eqb_spec (class_size ci) 0); [lia|]. fold p. by rewrite rd16_wr16_eq by lia. }
  eexists _, _, _, _, _, _. split_and!; [exact E1|exact E2|apply Ea|apply Ea].
Qed.

(** * Witnesses *)

Lemma heap_refines_blocks_witness :
  exists g' r, heap_serve sample_arena (CRead 8388609) sample_held = Some (g', r)
    /\ r = rd (global_mem sample_held) 8388609.
Proof.
  assert (allowed {[8388608 := 24]} (CRead 8388609)) as Ha.
  { exists 8388608, 24. split; [apply lookup_singleton_eq|done]. }
  destruct (heap_refines_blocks sample_arena sample_held _ _ (CRead 8388609) sample_arena_ok
    sample_held_rep Ha) as (g' & r & B' & M' & E & Hs & Hg).
  exists g', r. split; [exact E|]. exact (blocks_step_read _ _ _ _ _ _ _ Hs).
Defined.

Lemma held_block_keeps_its_bytes_witness :
  exists g', heap_serve sample_arena (CAlloc 30 8) sample_held = Some (g', 8388640)
    /\ rd (global_mem g') 8388609 = rd (global_mem sample_held) 8388609.
Proof.
  assert (snd <$> heap_serve sample_arena (CAlloc 30 8) sample_held = Some 8388640) as Er by (by vm_compute).
  destruct (heap_serve sample_arena (CAlloc 30 8) sample_held) as [[g' r]|] eqn:E; [|done].
  injection Er as ->. exists g'. split; [reflexivity|].
  assert (client_run sample_arena sample_held {[8388608 := 24]} [(CAlloc 30 8, 8388640)] g'
    (blocks_after {[8388608 := 24]} (CAlloc 30 8) 8388640)) as Hrun.
  { apply (cr_cons _ _ _ _ _ g'); [cbn [allowed]; lia|exact E|apply cr_nil]. }
  destruct (held_block_keeps_its_bytes sample_arena sample_held _ _ _ g' _ sample_arena_ok
    Hrun sample_held_rep) as [H _].
  destruct (H 8388608 24 8388609) as [_ Hr]; [apply lookup_singleton_eq|lia| |exact Hr].
  intros c r [= -> ->]%list_elem_of_singleton. split; [discriminate|intros; discriminate].
Defined.

Lemma heap_alloc_correct_witness :
  exists g', heap_alloc_c sample_arena 5000 16 sample_held = Some (g', 8392720)
    /\ heap_rep sample_arena (HEAP_STATE g') (<[8392720 := 5000]> {[8388608 := 24]}).
Proof.
  destruct (heap_alloc_correct sample_arena sample_held _ _ 5000 16 sample_arena_ok sample_held_rep
    ltac:(done) ltac:(done)) as (g' & p & E & H).
  assert (snd <$> heap_alloc_c sample_arena 5000 16 sample_held = Some 8392720) as Er by (by vm_compute).
  rewrite E in Er. injection Er as ->. exists g'. split; [exact E|].
  destruct H as [(H0 & _)|(_ & _ & _ & H & _)]; [discriminate H0|exact H].
Defined.

Lemma heap_free_correct_witness :
  exists g', heap_dealloc_c sample_arena 8388608 sample_held = Some (g', tt)
    /\ heap_rep sample_arena (HEAP_STATE g') (delete 8388608 {[8388608 := 24]}).
Proof.
  destruct (heap_free_correct sample_arena sample_held _ _ 8388608 sample_arena_ok sample_held_rep)
    as (g' & E & H & _).
  exists g'. split; [exact E|]. exact (proj1 (H 24 (lookup_singleton_eq _ _))).
Defined.

Lemma heap_init_correct_witness :
  exists g', heap_init_c sample_boot = Some (g', 0) /\ heap_rep sample_arena (HEAP_STATE g') ∅.
Proof.
  destruct (heap_init_correct sample_arena sample_boot eq_refl ltac:(by vm_compute)) as (g' & E & H & _).
  exists g'. split; [exact E|]. exact (gr_heap _ _ _ _ H).
Defined.

Lemma slab_double_free_witness :
  exists m s s1 s2, alloc_from_slab 4096 s m = (s1, 4096) /\ alloc_from_slab 4096 s1 m = (s2, 4096).
Proof.
  destruct (init_slab_page_spec 4096 0 ∅ ltac:(done)) as (m & s & _ & Hs & _).
  rewrite seqZ_cons in Hs by done.
  destruct (alloc_from_slab_spec _ _ _ _ _ _ _ 16 Hs ltac:(done)) as (s' & _ & Hs').
  destruct (slab_double_free m 4096 s' 0 _ _ 0 16 Hs' ltac:(done) (lookup_insert_eq _ _ _))
    as (m1 & s1 & m2 & s2 & s3 & s4 & _ & _ & E1 & E2).
  by exists m2, s2, s3, s4.
Defined.
