(* ===== verification/HeapLock.v ===== *)
(** The lock of the heap: [SpinLock] of [memory/heap.rs] and its use by the entry
    points of the heap, with several processors (or contexts) calling at once.

    Heap.v runs a call from its start to its end; here a call is cut at its atomic
    accesses - the load of [HEAP_READY], the compare-and-exchange of the lock, the
    critical section, the store that publishes [HEAP_READY], the store that opens the
    lock - and the steps of the agents interleave freely.  The critical section takes
    the state of the heap as it is when the lock is taken and stores its result later,
    so that two of them at once would lose an update.

    A step is a function, so a run is the schedule of the agents. *)

From S2P Require Import Prelude Slab Heap.

(** * Requests *)

Inductive request : Set := HInit | HAlloc (size align : Z) | HFree (p : Z).
#[export] Instance request_eq_dec : EqDecision request.
Proof. solve_decision. Defined.

Section HeapLock.
Context (HEAP_ARENA : Z).

(** A request served from its start to its end. *)
Definition serve_request (r : request) (g : heap_global) : option (heap_global * Z) :=
  match r with
  | HInit => heap_init_c g
  | HAlloc size align => heap_alloc_c HEAP_ARENA size align g
  | HFree p => match heap_dealloc_c HEAP_ARENA p g with Some (g', _) => Some (g', 0) | None => None end
  end.

(** The critical section of a request, on the state it reads. *)
Definition locked_work (r : request) (h : heap) : option (heap * Z) :=
  match r with
  | HInit => Some (set_hs (reset (hs h)) h, 0)
  | HAlloc size align =>
      match Layout_from_size_align size (Z.max align 1) with
      | Some l => alloc_inner HEAP_ARENA h (layout_size l) (layout_align l)
      | None => Some (h, 0)
      end
  | HFree p => Some (free_inner HEAP_ARENA h p, 0)
  end.

(** * Agents *)

(** Where an agent is in its request. *)
Inductive phase : Type :=
| Outside
| Spinning (r : request)              (** [while compare_exchange(..).is_err()] *)
| Inside (r : request) (h : heap)     (** the guard is held; the state read *)
| Publishing                          (** [HEAP_READY.store(true)] of [heap_init] *)
| Leaving (r : request) (x : Z).      (** the guard is about to be dropped *)

(** An agent, with the requests it has finished and the replies. *)
Record agent := mkAgent { phase_of : phase; history : list (request * Z) }.

Definition to_phase (p : phase) (a : agent) : agent := mkAgent p (history a).
Definition replied (r : request) (x : Z) (a : agent) : agent := mkAgent Outside (history a ++ [(r, x)]).

Definition set_lock (b : bool) (g : heap_global) : heap_global := mkHeapGlobal b (HEAP_READY g) (HEAP_STATE g).

(** [SpinLock::lock]: one turn of its loop. *)
Definition lock_turn (g : heap_global) : heap_global * bool :=
  if HEAP_LOCK g then (g, false) else (set_lock true g, true).
(** The drop of the guard. *)
Definition unlock (g : heap_global) : heap_global := set_lock false g.

(** The start of a request: what is decided before the lock. *)
Definition begin_request (r : request) (g : heap_global) (a : agent) : agent :=
  match r with
  | HInit => to_phase (Spinning r) a
  | HAlloc size align =>
      match Layout_from_size_align size (Z.max align 1) with
      | None => replied r 0 a
      | Some _ => if negb (heap_is_initialized g) then replied r 0 a else to_phase (Spinning r) a
      end
  | HFree _ => if negb (heap_is_initialized g) then replied r 0 a else to_phase (Spinning r) a
  end.

(** One step of an agent; [next] is the request it makes next, from what it has
    seen. *)
Definition advance (next : list (request * Z) -> option request) (g : heap_global) (a : agent)
  : option (heap_global * agent) :=
  match phase_of a with
  | Outside => r ← next (history a); Some (g, begin_request r g a)
  | Spinning r =>
      let '(g', won) := lock_turn g in
      Some (g', if won : bool then to_phase (Inside r (HEAP_STATE g)) a else a)
  | Inside r h =>
      '(h', x) ← locked_work r h;
      Some (mkHeapGlobal (HEAP_LOCK g) (HEAP_READY g) h',
            to_phase (match r with HInit => Publishing | _ => Leaving r x end) a)
  | Publishing => Some (mkHeapGlobal (HEAP_LOCK g) true (HEAP_STATE g), to_phase (Leaving HInit 0) a)
  | Leaving r x => Some (unlock g, replied r x a)
  end.

(** * The system *)

Record system := mkSystem { shared : heap_global; agents : list agent }.

Definition start_system (n : nat) (g : heap_global) : system := mkSystem g (replicate n (mkAgent Outside [])).

Context (client : nat -> list (request * Z) -> option request).

Definition sys_step (i : nat) (s : system) : option system :=
  a ← agents s !! i;
  '(g', a') ← advance (client i) (shared s) a;
  Some (mkSystem g' (<[i := a']> (agents s))).

Fixpoint run_schedule (sched : list nat) (s : system) : option system :=
  match sched with
  | [] => Some s
  | i :: sched' => s' ← sys_step i s; run_schedule sched' s'
  end.
End HeapLock.

(** The agent holds the guard. *)
Definition critical (p : phase) : bool :=
  match p with Inside _ _ | Publishing | Leaving _ _ => true | _ => false end.

(** The reply that is certain but not yet given. *)
Definition pending (p : phase) : list (request * Z) := match p with Leaving r x => [(r, x)] | _ => [] end.
Definition answered (a : agent) : list (request * Z) := history a ++ pending (phase_of a).

(** * Sequential histories *)

Abbreviation entry := (nat * request * Z)%type.

(** The requests served one after the other, with these replies. *)
Fixpoint serve_log (HEAP_ARENA : Z) (log : list entry) (g : heap_global) : option heap_global :=
  match log with
  | [] => Some g
  | (_, r, x) :: log' =>
      match serve_request HEAP_ARENA r g with
      | Some (g', x') => if x' =? x then serve_log HEAP_ARENA log' g' else None
      | None => None
      end
  end.

(** The part of one agent. *)
Definition own (i : nat) (log : list entry) : list (request * Z) :=
  omap (fun e : entry => let '(j, r, x) := e in if decide (j = i) then Some (r, x) else None) log.

(** Every entry is what its agent asked for when it had seen its own entries before. *)
Definition follows (client : nat -> list (request * Z) -> option request) (log : list entry) : Prop :=
  forall l1 i r x l2, log = l1 ++ (i, r, x) :: l2 -> client i (own i l1) = Some r.

(** A small instance, for the witnesses: each agent allocates 24 bytes, and agent 0
    gives them back; they collide at the lock. *)
Definition sample_client (i : nat) (l : list (request * Z)) : option request :=
  match l with
  | [] => Some (HAlloc 24 8)
  | [(HAlloc _ _, p)] => if (i =? 0)%nat then Some (HFree p) else None
  | _ => None
  end.
Definition sample_schedule : list nat := [0; 1; 0; 1; 0; 1]%nat.
