(* ===== verification/HeapLockProps.v ===== *)
(** The heap under its lock: whatever the schedule of the agents, the calls take
    effect one at a time, and blocks of different agents stay apart. *)

From S2P Require Import Prelude Slab Heap HeapFacts HeapRep HeapLock.

(** * Sequential histories *)

Section Logs.
Context (HEAP_ARENA : Z).

Lemma serve_log_snoc log g0 g i r x g' : serve_log HEAP_ARENA log g0 = Some g ->
  serve_request HEAP_ARENA r g = Some (g', x) -> serve_log HEAP_ARENA (log ++ [(i, r, x)]) g0 = Some g'.
Proof.
  revert g0. induction log as [|[[j q] y] log IH]; intros g0; cbn [serve_log app].
  - intros [= ->] E. by rewrite E, Z.eqb_refl.
  - destruct (serve_request HEAP_ARENA q g0) as [[g1 z]|]; [|done]. destruct (z =? y); [|done]. by apply IH.
Qed.

Lemma serve_log_snoc_inv log g0 i r x g' : serve_log HEAP_ARENA (log ++ [(i, r, x)]) g0 = Some g' ->
  exists g, serve_log HEAP_ARENA log g0 = Some g /\ serve_request HEAP_ARENA r g = Some (g', x).
Proof.
  revert g0. induction log as [|[[j q] y] log IH]; intros g0; cbn [serve_log app].
  - destruct (serve_request HEAP_ARENA r g0) as [[g1 z]|] eqn:E; [|done]. destruct (Z.eqb_spec z x) as [->|]; [|done].
    intros [= ->]. by exists g0.
  - destruct (serve_request HEAP_ARENA q g0) as [[g1 z]|]; [|done]. destruct (z =? y); [|done]. apply IH.
Qed.

Lemma own_snoc i log j r x : own i (log ++ [(j, r, x)]) = own i log ++ (if decide (j = i) then [(r, x)] else []).
Proof. unfold own. rewrite omap_app. cbn. by destruct (decide (j = i)). Qed.
Lemma own_other i log j r x : j <> i -> own i (log ++ [(j, r, x)]) = own i log.
Proof. intros. rewrite own_snoc, decide_False by done. by rewrite app_nil_r. Qed.
Lemma own_self i log r x : own i (log ++ [(i, r, x)]) = own i log ++ [(r, x)].
Proof. by rewrite own_snoc, decide_True. Qed.

Context (client : nat -> list (request * Z) -> option request).

Lemma follows_nil : follows client [].
Proof. intros [|e l1] i r x l2 E; done. Qed.
Lemma follows_snoc log i r x : follows client log -> client i (own i log) = Some r -> follows client (log ++ [(i, r, x)]).
Proof.
  intros Hf Hc l1 j q y l2 E. destruct l2 as [|e l2 _] using rev_ind.
  - apply app_inj_tail in E as [<- [= <- <- <-]]. done.
  - rewrite app_comm_cons, app_assoc in E. apply app_inj_tail in E as [E _]. by eapply Hf.
Qed.
Lemma follows_snoc_inv log i r x : follows client (log ++ [(i, r, x)]) -> follows client log /\ client i (own i log) = Some r.
Proof.
  intros H. split; [|by eapply H]. intros l1 j q y l2 ->. apply (H l1 j q y (l2 ++ [(i, r, x)])).
  by rewrite <- app_assoc.
Qed.
End Logs.

Section Invariant.
Context (HEAP_ARENA : Z) (client : nat -> list (request * Z) -> option request) (g0 : heap_global).
Notation sys_step := (sys_step HEAP_ARENA client).
Notation run_schedule := (run_schedule HEAP_ARENA client).

(** The request goes to the lock. *)
Definition goes (r : request) (g : heap_global) : Prop :=
  match r with
  | HInit => True
  | HAlloc size align => is_Some (Layout_from_size_align size (Z.max align 1)) /\ HEAP_READY g = true
  | HFree _ => HEAP_READY g = true
  end.
Lemma goes_mono r g g' : (HEAP_READY g = true -> HEAP_READY g' = true) -> goes r g -> goes r g'.
Proof. destruct r; cbn; tauto. Qed.

(** What the phase of an agent says of the shared state [sh] and of the heap [g]
    that the history so far gives. *)
Definition phase_ok (log : list entry) (sh g : heap_global) (i : nat) (a : agent) : Prop :=
  own i log = answered a /\
  match phase_of a with
  | Outside | Leaving _ _ => True
  | Spinning r => client i (history a) = Some r /\ goes r sh
  | Inside r h => client i (history a) = Some r /\ goes r sh /\ h = HEAP_STATE sh
  | Publishing => client i (history a) = Some HInit
      /\ HEAP_STATE sh = set_hs (reset (hs (HEAP_STATE g))) (HEAP_STATE g)
  end.

(** The guard has one holder at most, and the flag of the lock shows it. *)
Definition guarded (s : system) : Prop :=
  exists o : option nat, HEAP_LOCK (shared s) = bool_decide (is_Some o)
    /\ (forall k, o = Some k -> is_Some (agents s !! k))
    /\ forall i a, agents s !! i = Some a -> critical (phase_of a) = bool_decide (o = Some i).

Record linked (s : system) (log : list entry) (g : heap_global) : Prop := {
  ln_log : serve_log HEAP_ARENA log g0 = Some g;
  ln_follows : follows client log;
  ln_lock : HEAP_LOCK g = false;
  ln_ready : HEAP_READY g = HEAP_READY (shared s);
  ln_guard : guarded s;
  ln_agents : forall i a, agents s !! i = Some a -> phase_ok log (shared s) g i a;
  ln_state : (forall i a, agents s !! i = Some a -> phase_of a <> Publishing) -> HEAP_STATE g = HEAP_STATE (shared s);
}.

Lemma guard_one s i a j b : guarded s -> agents s !! i = Some a -> agents s !! j = Some b ->
  critical (phase_of a) = true -> critical (phase_of b) = true -> i = j.
Proof.
  intros (o & _ & _ & Ho) Ha Hb. rewrite (Ho i a Ha), (Ho j b Hb), !bool_decide_eq_true. congruence.
Qed.

Lemma guard_free s i a : guarded s -> HEAP_LOCK (shared s) = false -> agents s !! i = Some a -> critical (phase_of a) = false.
Proof.
  intros (o & Hl & _ & Ho) Hf Ha. rewrite Hf in Hl. symmetry in Hl. apply bool_decide_eq_false in Hl.
  rewrite (Ho i a Ha). apply bool_decide_eq_false. intros ->. apply Hl. by eexists.
Qed.

(** How a step moves the guard. *)
Definition guard_step (l l' c c' : bool) : Prop :=
  (c' = c /\ l' = l) \/ (c = false /\ c' = true /\ l = false /\ l' = true) \/ (c = true /\ c' = false /\ l' = false).

Lemma guarded_step s i a sh' a' : guarded s -> agents s !! i = Some a ->
  guard_step (HEAP_LOCK (shared s)) (HEAP_LOCK sh') (critical (phase_of a)) (critical (phase_of a')) ->
  guarded (mkSystem sh' (<[i := a']> (agents s))).
Proof.
  intros G Ha Hg. pose proof (lookup_lt_Some _ _ _ Ha) as Hlt. pose proof G as (o & Hl & Hk & Ho).
  assert (forall k, is_Some (agents s !! k) -> is_Some (<[i := a']> (agents s) !! k)) as Hin.
  { intros k Hk'. apply lookup_lt_is_Some. rewrite length_insert. by apply lookup_lt_is_Some. }
  assert (forall o', HEAP_LOCK sh' = bool_decide (is_Some o') -> (forall k, o' = Some k -> is_Some (agents s !! k)) ->
    critical (phase_of a') = bool_decide (o' = Some i) ->
    (forall j b, j <> i -> agents s !! j = Some b -> bool_decide (o = Some j) = bool_decide (o' = Some j)) ->
    guarded (mkSystem sh' (<[i := a']> (agents s)))) as Hmk.
  { intros o' Hl' Hk' Hi Hj. exists o'. split; [exact Hl'|]. split; [intros k E; by apply Hin, Hk'|].
    intros j b. cbn [agents]. rewrite list_lookup_insert. destruct (decide (i = j /\ _)) as [[<- _]|Hne].
    - by intros [= <-].
    - intros Hb. destruct (decide (j = i)) as [->|Hji]; [exfalso; apply Hne; by split|].
      rewrite (Ho j b Hb). by eapply Hj. }
  specialize (Ho i a Ha) as Hoi. destruct Hg as [[Hc Hlk]|[(Hc & Hc' & Hlk & Hlk')|(Hc & Hc' & Hlk')]].
  - apply (Hmk o); [by rewrite Hlk|exact Hk|by rewrite Hc|done].
  - assert (o = None) as ->.
    { destruct o; [|done]. rewrite Hlk in Hl. by rewrite bool_decide_true in Hl by by eexists. }
    apply (Hmk (Some i)); [rewrite Hlk'; by rewrite bool_decide_true by by eexists|intros k [= <-]; by eexists| |].
    + by rewrite Hc', bool_decide_true.
    + intros j b Hj _. by rewrite !bool_decide_false by congruence.
  - rewrite Hc in Hoi. symmetry in Hoi. apply bool_decide_eq_true in Hoi as ->.
    apply (Hmk None); [rewrite Hlk'; by rewrite bool_decide_false by by intros []|done| |].
    + by rewrite Hc', bool_decide_false.
    + intros j b Hj _. by rewrite !bool_decide_false by congruence.
Qed.

(** A step of agent [i], seen by all. *)
Lemma linked_step s log g i a sh' a' log' g' :
  linked s log g -> agents s !! i = Some a ->
  serve_log HEAP_ARENA log' g0 = Some g' -> follows client log' ->
  HEAP_LOCK g' = false -> HEAP_READY g' = HEAP_READY sh' ->
  (forall j, j <> i -> own j log' = own j log) ->
  (HEAP_READY (shared s) = true -> HEAP_READY sh' = true) ->
  (critical (phase_of a) = true \/ HEAP_STATE sh' = HEAP_STATE (shared s) /\ HEAP_STATE g' = HEAP_STATE g) ->
  guard_step (HEAP_LOCK (shared s)) (HEAP_LOCK sh') (critical (phase_of a)) (critical (phase_of a')) ->
  phase_ok log' sh' g' i a' ->
  (phase_of a' <> Publishing -> (forall j b, j <> i -> agents s !! j = Some b -> phase_of b <> Publishing) ->
     HEAP_STATE g' = HEAP_STATE sh') ->
  linked (mkSystem sh' (<[i := a']> (agents s))) log' g'.
Proof.
  intros I Ha Hlog Hf Hl Hr Hown Hmono Hst Hgu Hok Hs. pose proof (lookup_lt_Some _ _ _ Ha) as Hlt.
  assert (forall j b, <[i := a']> (agents s) !! j = Some b ->
    (j = i /\ b = a') \/ (j <> i /\ agents s !! j = Some b)) as Hcase.
  { intros j b. rewrite list_lookup_insert. destruct (decide (i = j /\ _)) as [[<- _]|Hne].
    - intros [= <-]. by left.
    - intros Hb. right. split; [|done]. intros ->. apply Hne. by split. }
  split; try done.
  - exact (guarded_step s i a sh' a' (ln_guard _ _ _ I) Ha Hgu).
  - cbn [agents shared]. intros j b Hb. destruct (Hcase j b Hb) as [[-> ->]|[Hj Hb']]; [done|].
    destruct (ln_agents _ _ _ I j b Hb') as [Ho Hp]. split; [by rewrite Hown|].
    assert (critical (phase_of b) = true -> HEAP_STATE sh' = HEAP_STATE (shared s) /\ HEAP_STATE g' = HEAP_STATE g) as Hsame.
    { intros Hcb. destruct Hst as [Hca|]; [|done]. exfalso. apply Hj.
      exact (guard_one s j b i a (ln_guard _ _ _ I) Hb' Ha Hcb Hca). }
    destruct (phase_of b) as [|r|r h| |r x]; cbn in *; try done.
    + destruct Hp as [Hc Hg]. split; [done|]. by eapply goes_mono.
    + destruct Hp as (Hc & Hg & ->). destruct (Hsame eq_refl) as [-> _]. split_and!; [done| |done]. by eapply goes_mono.
    + destruct Hp as [Hc E]. destruct (Hsame eq_refl) as [-> ->]. done.
  - intros Hno. apply Hs.
    + apply (Hno i a'). cbn. by apply list_lookup_insert_eq.
    + intros j b Hj Hb. apply (Hno j b). cbn. by rewrite list_lookup_insert_ne.
Qed.
(** * The steps *)

(** A request that does not go to the lock is answered 0 and changes nothing. *)
Lemma begin_served r g : HEAP_LOCK g = false ->
  (goes r g /\ forall a, begin_request r g a = to_phase (Spinning r) a)
  \/ (serve_request HEAP_ARENA r g = Some (g, 0) /\ forall a, begin_request r g a = replied r 0 a).
Proof.
  intros Hl. destruct r as [|size align|p]; cbn; [by left| |].
  - unfold heap_alloc_c, heap_alloc. destruct (Layout_from_size_align size (Z.max align 1)) as [l|]; [|by right].
    unfold heap_is_initialized. destruct (HEAP_READY g); cbn [negb]; [left|by right]. split; [|done]. split; [by eexists|done].
  - unfold heap_dealloc_c, heap_dealloc, heap_is_initialized. destruct (HEAP_READY g); cbn [negb]; [by left|by right].
Qed.

(** A critical section is the request served on its own. *)
Lemma work_served r g h x : HEAP_LOCK g = false -> goes r g -> r <> HInit ->
  locked_work HEAP_ARENA r (HEAP_STATE g) = Some (h, x) ->
  serve_request HEAP_ARENA r g = Some (mkHeapGlobal false (HEAP_READY g) h, x).
Proof.
  intros Hl Hg Hr. destruct r as [|size align|p]; [done| |]; cbn in *.
  - destruct Hg as [[l El] Hrd]. rewrite El. unfold heap_alloc_c, heap_alloc, heap_is_initialized, with_heap_lock.
    rewrite El, Hrd, Hl. cbn [negb]. by destruct (alloc_inner _ _ _ _) as [[h' y]|]; [intros [= <- <-]|].
  - unfold heap_dealloc_c, heap_dealloc, heap_is_initialized, with_heap_lock. rewrite Hg, Hl. cbn [negb]. by intros [= <- <-].
Qed.

Lemma init_served g : HEAP_LOCK g = false ->
  serve_request HEAP_ARENA HInit g = Some (mkHeapGlobal false true (set_hs (reset (hs (HEAP_STATE g))) (HEAP_STATE g)), 0).
Proof. intros Hl. cbn. unfold heap_init_c, heap_init, with_heap_lock. by rewrite Hl. Qed.

Ltac same_history := match goal with I : linked _ _ _ |- _ =>
  first [exact (ln_log _ _ _ I)|exact (ln_follows _ _ _ I)|exact (ln_lock _ _ _ I)|exact (ln_ready _ _ _ I)] end.

(** Every step of every agent keeps the link to a sequential history, which grows
    by one entry at most. *)
Lemma step_linked s log g i s' : linked s log g -> sys_step i s = Some s' ->
  exists log' g', linked s' log' g' /\ (log' = log \/ exists e, log' = log ++ [e]).
Proof.
  intros I. unfold HeapLock.sys_step. destruct (agents s !! i) as [a|] eqn:Ha; [|done]. cbn [mbind option_bind].
  destruct (ln_agents _ _ _ I i a Ha) as [Hown Hph]. unfold advance. unfold answered in Hown.
  pose proof (ln_lock _ _ _ I) as Hl. pose proof (ln_ready _ _ _ I) as Hrd. pose proof (ln_state _ _ _ I) as Hst.
  destruct (phase_of a) as [|r|r h| |r x] eqn:Ep; cbn [pending] in Hown; rewrite ?app_nil_r in Hown.
  - destruct (client i (history a)) as [r|] eqn:Ec; [|done]. cbn [mbind option_bind]. intros [= <-].
    assert (forall g1, HEAP_READY g1 = HEAP_READY g -> forall b, begin_request r g1 b = begin_request r g b) as Hb.
    { intros g1 E b. destruct r; cbn; unfold heap_is_initialized; by rewrite ?E. }
    rewrite (Hb _ (eq_sym Hrd)). destruct (begin_served r g Hl) as [[Hgo Eb]|[Es Eb]]; rewrite Eb.
    + exists log, g. split; [|by left]. apply (linked_step s log g i a _ _ _ _ I Ha); try done; try same_history; rewrite ?Ep; try (by right).
      * left. by split.
      * split; [by cbn; rewrite app_nil_r|]. cbn. split; [done|]. eapply goes_mono; [|exact Hgo]. by rewrite Hrd.
      * intros _ Hno. apply Hst. intros j b Hj. destruct (decide (j = i)) as [->|Hne]; [|by eapply Hno].
        rewrite Ha in Hj. injection Hj as <-. by rewrite Ep.
    + exists (log ++ [(i, r, 0)]), g. split; [|right; by eexists].
      apply (linked_step s log g i a _ _ _ _ I Ha); try done; try same_history; rewrite ?Ep; try (by right).
      * eapply serve_log_snoc; [apply I|exact Es].
      * apply follows_snoc; [apply I|by rewrite Hown].
      * intros j Hj. by apply own_other.
      * left. by split.
      * split; [|done]. cbn. rewrite app_nil_r, own_self. by rewrite Hown.
      * intros _ Hno. apply Hst. intros j b Hj. destruct (decide (j = i)) as [->|Hne]; [|by eapply Hno].
        rewrite Ha in Hj. injection Hj as <-. by rewrite Ep.
  - unfold lock_turn. destruct (HEAP_LOCK (shared s)) eqn:El; intros [= <-].
    { exists log, g. split; [|by left]. rewrite (list_insert_id _ _ _ Ha). by destruct s. }
    exists log, g. split; [|by left]. apply (linked_step s log g i a _ _ _ _ I Ha); try done; try same_history; rewrite ?Ep; try (by right).
    + right. left. by split_and!.
    + split; [by cbn; rewrite app_nil_r|]. cbn. by destruct Hph as [? ?].
    + intros _ _. cbn. apply Hst. intros j b Hj E.
      pose proof (guard_free s j b (ln_guard _ _ _ I) El Hj) as Hc. by rewrite E in Hc.
  - destruct Hph as (Hc & Hgo & ->). destruct (locked_work HEAP_ARENA r (HEAP_STATE (shared s))) as [[h' x]|] eqn:Ew; [|done].
    cbn [mbind option_bind]. intros [= <-].
    assert (HEAP_STATE g = HEAP_STATE (shared s)) as Hsame.
    { apply Hst. intros j b Hj E. assert (j = i) as ->.
      { apply (guard_one s j b i a (ln_guard _ _ _ I) Hj Ha); [by rewrite E|by rewrite Ep]. }
      rewrite Ha in Hj. injection Hj as <-. congruence. }
    assert (goes r g) as Hgo' by (eapply goes_mono; [|exact Hgo]; by rewrite Hrd).
    destruct (decide (r = HInit)) as [->|Hne].
    + cbn in Ew. injection Ew as <- <-. exists log, g. split; [|by left].
      apply (linked_step s log g i a _ _ _ _ I Ha); try done; try same_history; rewrite ?Ep; try (by left).
      * split; [by cbn; rewrite app_nil_r|]. cbn. split; [done|]. by rewrite Hsame.
    + exists (log ++ [(i, r, x)]), (mkHeapGlobal false (HEAP_READY g) h'). split; [|right; by eexists].
      replace (match r with HInit => Publishing | _ => Leaving r x end) with (Leaving r x) by (by destruct r).
      rewrite <- Hsame in Ew.
      apply (linked_step s log g i a _ _ _ _ I Ha); try done; try same_history; rewrite ?Ep; try (by left).
      * eapply serve_log_snoc; [apply I|by apply work_served].
      * apply follows_snoc; [apply I|by rewrite Hown].
      * intros j Hj. by apply own_other.
      * split; [|done]. unfold answered. cbn. by rewrite own_self, Hown.
  - destruct Hph as [Hc E]. intros [= <-].
    exists (log ++ [(i, HInit, 0)]), (mkHeapGlobal false true (HEAP_STATE (shared s))). split; [|right; by eexists].
    apply (linked_step s log g i a _ _ _ _ I Ha); try done; try same_history; rewrite ?Ep; try (by left).
    + eapply serve_log_snoc; [apply I|]. rewrite E. by apply init_served.
    + apply follows_snoc; [apply I|by rewrite Hown].
    + intros j Hj. by apply own_other.
    + split; [|done]. unfold answered. cbn. by rewrite own_self, Hown.
  - intros [= <-]. exists log, g. split; [|by left]. apply (linked_step s log g i a _ _ _ _ I Ha); try done; try same_history; rewrite ?Ep; try (by left).
    + right. right. by split_and!.
    + split; [|done]. cbn. by rewrite app_nil_r.
    + intros _ Hno. cbn. apply Hst. intros j b Hj. destruct (decide (j = i)) as [->|Hne]; [|by eapply Hno].
      rewrite Ha in Hj. injection Hj as <-. by rewrite Ep.
Qed.

Lemma start_linked n : HEAP_LOCK g0 = false -> linked (start_system n g0) [] g0.
Proof.
  intros Hl. split; try done; cbn [shared agents start_system].
  - apply follows_nil.
  - exists None. split; [done|]. split; [done|]. intros i a [-> _]%lookup_replicate. done.
  - intros i a [-> _]%lookup_replicate. by split.
Qed.

Lemma run_linked sched s log g s' : linked s log g -> run_schedule sched s = Some s' ->
  exists log' g', linked s' log' g' /\ log `prefix_of` log'.
Proof.
  revert s log g. induction sched as [|i sched IH]; intros s log g I; cbn [HeapLock.run_schedule]; [intros [= <-]; by exists log, g|].
  destruct (sys_step i s) as [s1|] eqn:E; [|done]. cbn [mbind option_bind]. intros Hrun.
  destruct (step_linked s log g i s1 I E) as (log1 & g1 & I1 & Hlog).
  destruct (IH s1 log1 g1 I1 Hrun) as (log' & g' & I' & Hp). exists log', g'. split; [done|].
  etransitivity; [|exact Hp]. destruct Hlog as [->|[e ->]]; [done|by apply prefix_app_r].
Qed.
End Invariant.

(** C8. The lock makes the calls of the heap atomic.  Any number of agents with any
    clients run their calls in any interleaving of their atomic steps; then there is
    a sequence of whole calls, served one after the other from the same start, that
    explains the run: every agent has the replies of its own calls in it, in its
    order, each call is the one its client asked for when it had seen the replies
    before, and when nobody is in a critical section the globals of the heap are
    those the sequence leaves.  No two agents are ever in their critical sections at
    once, and the sequence of a longer run extends the one of its beginning. *)
Theorem heap_calls_linearize HEAP_ARENA client g0 n sched sched' s s' :
  HEAP_LOCK g0 = false ->
  run_schedule HEAP_ARENA client sched (start_system n g0) = Some s ->
  run_schedule HEAP_ARENA client sched' s = Some s' ->
  let explains log t := exists g, serve_log HEAP_ARENA log g0 = Some g /\ follows client log
    /\ (forall i a, agents t !! i = Some a -> own i log = answered a)
    /\ ((forall a, a ∈ agents t -> critical (phase_of a) = false) -> shared t = g)
    /\ (forall i a j b, agents t !! i = Some a -> agents t !! j = Some b ->
          critical (phase_of a) = true -> critical (phase_of b) = true -> i = j) in
  exists log log', explains log s /\ explains (log ++ log') s'.
Proof.
  intros Hl Hrun Hrun' explains.
  assert (forall t log g, linked HEAP_ARENA client g0 t log g -> explains log t) as Hex.
  { intros t log g I. exists g. split; [apply (ln_log _ _ _ _ _ _ I)|]. split; [apply (ln_follows _ _ _ _ _ _ I)|].
    split; [intros i a Ha; by destruct (ln_agents _ _ _ _ _ _ I i a Ha)|]. split.
    - intros Hno. pose proof (ln_lock _ _ _ _ _ _ I) as El. pose proof (ln_ready _ _ _ _ _ _ I) as Er.
      destruct (ln_guard _ _ _ _ _ _ I) as (o & Ho & Hk & Hc).
      assert (HEAP_LOCK (shared t) = false) as Hf.
      { rewrite Ho. apply bool_decide_eq_false. intros [k ->]. destruct (Hk k eq_refl) as [a Ha].
        pose proof (Hc k a Ha) as E. rewrite (Hno a) in E by by eapply list_elem_of_lookup_2.
        by rewrite bool_decide_true in E. }
      assert (HEAP_STATE g = HEAP_STATE (shared t)) as Es.
      { apply (ln_state _ _ _ _ _ _ I). intros i a Ha E. pose proof (Hno a ltac:(by eapply list_elem_of_lookup_2)) as E'.
        by rewrite E in E'. }
      destruct g, (shared t). cbn in *. congruence.
    - intros i a j b. apply (guard_one t). apply (ln_guard _ _ _ _ _ _ I). }
  destruct (run_linked HEAP_ARENA client g0 sched _ [] g0 s (start_linked HEAP_ARENA client g0 n Hl) Hrun)
    as (log & g & I & _).
  destruct (run_linked HEAP_ARENA client g0 sched' s log g s' I Hrun') as (log1 & g1 & I1 & [log' ->]).
  exists log, log'. split; by eapply Hex.
Qed.

(** * Blocks of different agents *)

Definition call_of (r : request) : heap_call :=
  match r with HInit => CRead 0 | HAlloc size align => CAlloc size align | HFree p => CFree p end.

(** The blocks that an agent holds, from what it has seen. *)
Definition held (l : list (request * Z)) : gmap Z Z :=
  fold_left (fun B '(r, x) => blocks_after B (call_of r) x) l ∅.
Lemma held_snoc l r x : held (l ++ [(r, x)]) = blocks_after (held l) (call_of r) x.
Proof. unfold held. by rewrite fold_left_app. Qed.

(** Clients that do not start the heap again and give back their own blocks only. *)
Definition polite (client : nat -> list (request * Z) -> option request) : Prop := forall i l r,
  client i l = Some r ->
  match r with
  | HInit => False
  | HAlloc size align => 0 <= size /\ 0 <= align
  | HFree p => p = 0 \/ held l !! p <> None
  end.

Section Blocks.
Context (HEAP_ARENA : Z) (client : nat -> list (request * Z) -> option request).
Context (Har : arena_ok HEAP_ARENA) (Hpol : polite client).

(** The blocks of a sequential history are those of its agents, apart. *)
Lemma log_blocks log g0 g M0 : global_rep HEAP_ARENA g0 ∅ M0 -> serve_log HEAP_ARENA log g0 = Some g -> follows client log ->
  exists B M, global_rep HEAP_ARENA g B M
    /\ (forall i p k, held (own i log) !! p = Some k -> B !! p = Some k)
    /\ (forall i j p, i <> j -> is_Some (held (own i log) !! p) -> held (own j log) !! p = None).
Proof.
  intros Hg0. revert g. induction log as [|[[i r] x] log IH] using rev_ind; intros g Hlog Hf.
  { cbn in Hlog. injection Hlog as <-. exists ∅, M0. split; [done|]. split; [done|]. by intros. }
  apply serve_log_snoc_inv in Hlog as (g1 & Hlog & Es). apply follows_snoc_inv in Hf as [Hf Hc].
  destruct (IH g1 Hlog Hf) as (B & M & Hrep & Hin & Hap).
  pose proof (Hpol i _ _ Hc) as Hr.
  assert (allowed B (call_of r)) as Hall.
  { destruct r as [|size align|p]; cbn; [done|done|]. destruct Hr as [->|Hr]; [by left|right].
    destruct (held (own i log) !! p) as [k|] eqn:E; [|done]. by rewrite (Hin i p k E). }
  destruct (heap_serve_spec HEAP_ARENA Har g1 B M (call_of r) Hrep Hall) as (g' & x' & B' & M' & E & Hst & Hrep').
  assert (g' = g /\ x' = x) as [-> ->].
  { destruct r as [|size align|p]; [done| |]; cbn in E, Es; rewrite Es in E; by injection E as <- <-. }
  pose proof (blocks_step_after HEAP_ARENA Har _ _ _ _ _ _ Hst) as HB. exists B', M'. split; [exact Hrep'|].
  assert (forall j, j <> i -> held (own j (log ++ [(i, r, x)])) = held (own j log)) as Ho.
  { intros j Hj. by rewrite own_other. }
  assert (held (own i (log ++ [(i, r, x)])) = blocks_after (held (own i log)) (call_of r) x) as Hs.
  { by rewrite own_self, held_snoc. }
  (* what the entry does to the blocks of the others *)
  assert (forall j p k, j <> i -> held (own j log) !! p = Some k -> B' !! p = Some k
    /\ blocks_after (held (own i log)) (call_of r) x !! p = None) as Hothers.
  { intros j p k Hj Hp. pose proof (Hin j p k Hp) as HBp. pose proof (Hap j i p Hj ltac:(by eexists)) as Hnone.
    rewrite HB. destruct r as [|size align|q]; [done| |]; cbn [call_of blocks_after].
    - destruct (Z.eqb_spec x 0); [done|].
      assert (x <> p) as Hne by (inversion Hst; subst; congruence).
      by rewrite !lookup_insert_ne.
    - assert (q <> p) as Hne.
      { intros ->. cbn in Hr. destruct Hr as [->|Hr]; [|congruence].
        destruct (rep_inside HEAP_ARENA Har _ _ _ _ (gr_heap _ _ _ _ Hrep) HBp) as (_ & H0 & _).
        pose proof (ao_pos _ Har). lia. }
      by rewrite !lookup_delete_ne. }
  split.
  - intros j p k. destruct (decide (j = i)) as [->|Hj].
    + rewrite Hs, HB. destruct r as [|size align|q]; [done| |]; cbn [call_of blocks_after].
      * destruct (x =? 0); [apply Hin|]. rewrite !lookup_insert_Some. intros [?|[??]]; [by left|right; split; [done|by eapply Hin]].
      * rewrite !lookup_delete_Some. intros [??]. split; [done|by eapply Hin].
    + rewrite Ho by done. intros Hp. by destruct (Hothers j p k Hj Hp).
  - intros j1 j2 p Hne. destruct (decide (j1 = i)) as [->|H1], (decide (j2 = i)) as [->|H2]; [done| | |].
    + rewrite Hs, (Ho j2 H2). intros Hi. destruct (held (own j2 log) !! p) as [k|] eqn:Ek; [|done].
      destruct (Hothers j2 p k H2 Ek) as [_ Hn]. rewrite Hn in Hi. by destruct Hi.
    + rewrite Hs, (Ho j1 H1). intros [k Hk]. by destruct (Hothers j1 p k H1 Hk).
    + rewrite (Ho j1 H1), (Ho j2 H2). by apply Hap.
Qed.

Lemma run_cons i l s : run_schedule HEAP_ARENA client (i :: l) s
  = s1 ← sys_step HEAP_ARENA client i s; run_schedule HEAP_ARENA client l s1.
Proof. done. Qed.
Lemma run_app l l' s : run_schedule HEAP_ARENA client (l ++ l') s
  = s1 ← run_schedule HEAP_ARENA client l s; run_schedule HEAP_ARENA client l' s1.
Proof.
  revert s. induction l as [|i l IH]; intros s; [done|]. cbn [app]. rewrite !run_cons.
  by destruct (sys_step HEAP_ARENA client i s) as [s1|]; cbn [mbind option_bind].
Qed.

(** The steps of an agent that holds the guard always go on. *)
Lemma step_leaving s i a r x : agents s !! i = Some a -> phase_of a = Leaving r x ->
  sys_step HEAP_ARENA client i s = Some (mkSystem (unlock (shared s)) (<[i := replied r x a]> (agents s))).
Proof. intros Ha Ep. unfold sys_step. rewrite Ha. cbn [mbind option_bind]. unfold advance. by rewrite Ep. Qed.

Lemma step_spinning s i a r : agents s !! i = Some a -> phase_of a = Spinning r -> HEAP_LOCK (shared s) = false ->
  sys_step HEAP_ARENA client i s
  = Some (mkSystem (set_lock true (shared s)) (<[i := to_phase (Inside r (HEAP_STATE (shared s))) a]> (agents s))).
Proof.
  intros Ha Ep El. unfold sys_step. rewrite Ha. cbn [mbind option_bind]. unfold advance, lock_turn. by rewrite Ep, El.
Qed.

Lemma polite_lock i l r : client i l = Some r -> r <> HInit.
Proof. intros Hc ->. exact (Hpol i l _ Hc). Qed.

Lemma work_total g B M i l r : global_rep HEAP_ARENA g B M -> goes r g -> client i l = Some r ->
  is_Some (locked_work HEAP_ARENA r (HEAP_STATE g)).
Proof.
  intros Hrep Hg Hc. pose proof (Hpol i l r Hc) as Hr. destruct r as [|size align|p]; cbn; [by eexists| |by eexists].
  destruct Hg as [[y Ey] _]. rewrite Ey.
  destruct (heap_serve_spec HEAP_ARENA Har g B M (CAlloc size align) Hrep Hr) as (g' & x & _ & _ & E & _).
  cbn in E. unfold heap_alloc_c, heap_alloc, heap_is_initialized, with_heap_lock in E.
  rewrite Ey, (gr_ready _ _ _ _ Hrep), (gr_lock _ _ _ _ Hrep) in E. cbn [negb] in E.
  by destruct (alloc_inner HEAP_ARENA (HEAP_STATE g) (layout_size y) (layout_align y)) as [[h z]|]; [eexists|].
Qed.

Section Run.
Context (g0 : heap_global) (M0 : store) (Hg0 : global_rep HEAP_ARENA g0 ∅ M0).
Notation linked := (linked HEAP_ARENA client g0).

(** No agent of polite clients publishes, so the heap of the history is the one of the globals. *)
Lemma polite_state s log g : linked s log g -> HEAP_STATE g = HEAP_STATE (shared s).
Proof.
  intros I. apply (ln_state _ _ _ _ _ _ I). intros i a Ha Ep.
  destruct (ln_agents _ _ _ _ _ _ I i a Ha) as [_ H]. rewrite Ep in H. destruct H as [Hc _].
  by eapply polite_lock in Hc.
Qed.

Lemma step_inside s log g i a r h : linked s log g -> agents s !! i = Some a -> phase_of a = Inside r h ->
  exists x sh, sys_step HEAP_ARENA client i s = Some (mkSystem sh (<[i := to_phase (Leaving r x) a]> (agents s))).
Proof.
  intros I Ha Ep. destruct (ln_agents _ _ _ _ _ _ I i a Ha) as [_ H]. rewrite Ep in H. destruct H as (Hc & Hg & ->).
  destruct (log_blocks log g0 g M0 Hg0 (ln_log _ _ _ _ _ _ I) (ln_follows _ _ _ _ _ _ I)) as (B & M & Hrep & _).
  destruct (work_total g B M i (history a) r Hrep) as [[h' x] Ew]; [|exact Hc|].
  { eapply goes_mono; [|exact Hg]. by rewrite (ln_ready _ _ _ _ _ _ I). }
  rewrite (polite_state s log g I) in Ew. exists x. unfold sys_step. rewrite Ha. cbn [mbind option_bind].
  unfold advance. rewrite Ep, Ew. cbn [mbind option_bind]. pose proof (polite_lock i (history a) r Hc) as Hr.
  eexists. by destruct r.
Qed.

Lemma inside_finishes s log g i a r h : linked s log g -> agents s !! i = Some a -> phase_of a = Inside r h ->
  exists x sh, run_schedule HEAP_ARENA client [i; i] s = Some (mkSystem (unlock sh) (<[i := replied r x a]> (agents s))).
Proof.
  intros I Ha Ep. destruct (step_inside s log g i a r h I Ha Ep) as (x & sh & E). exists x, sh.
  cbn [run_schedule]. rewrite E. cbn [mbind option_bind]. pose proof (lookup_lt_Some _ _ _ Ha) as Hlt.
  rewrite (step_leaving _ i (to_phase (Leaving r x) a) r x); [|cbn; by apply list_lookup_insert_eq|done].
  cbn. by rewrite list_insert_insert_eq.
Qed.

Lemma holder_finishes s log g i a : linked s log g -> agents s !! i = Some a -> critical (phase_of a) = true ->
  exists n r x sh, (n <= 2)%nat
    /\ run_schedule HEAP_ARENA client (replicate n i) s = Some (mkSystem (unlock sh) (<[i := replied r x a]> (agents s))).
Proof.
  intros I Ha Hcr. destruct (phase_of a) as [| |r h| |r x] eqn:Ep; try done.
  - destruct (inside_finishes s log g i a r h I Ha Ep) as (x & sh & E). by exists 2%nat, r, x, sh; split; [lia|].
  - destruct (ln_agents _ _ _ _ _ _ I i a Ha) as [_ H]. rewrite Ep in H. destruct H as [Hc _].
    by eapply polite_lock in Hc.
  - exists 1%nat, r, x, (shared s). split; [lia|]. cbn [replicate run_schedule]. by rewrite (step_leaving s i a r x Ha Ep).
Qed.

Lemma spinning_finishes s log g i a r : linked s log g -> agents s !! i = Some a -> phase_of a = Spinning r ->
  HEAP_LOCK (shared s) = false ->
  exists x sh, run_schedule HEAP_ARENA client [i; i; i] s
    = Some (mkSystem (unlock sh) (<[i := replied r x a]> (agents s))).
Proof.
  intros I Ha Ep El. pose proof (step_spinning s i a r Ha Ep El) as E1. pose proof (lookup_lt_Some _ _ _ Ha) as Hlt.
  destruct (step_linked _ _ _ s log g i _ I E1) as (log1 & g1 & I1 & _).
  destruct (inside_finishes _ log1 g1 i (to_phase (Inside r (HEAP_STATE (shared s))) a) r (HEAP_STATE (shared s)) I1
    ltac:(cbn; by apply list_lookup_insert_eq) eq_refl) as (x & sh & E2).
  exists x, sh. change [i; i; i] with (i :: [i; i]). rewrite run_cons, E1. cbn [mbind option_bind]. rewrite E2. cbn.
  by rewrite list_insert_insert_eq.
Qed.
End Run.
End Blocks.

(** C9. Under the lock the blocks of different agents stay apart.  Agents that do
    not start the heap again and give back only blocks of their own allocate and
    free at once, in any interleaving; at any time every block an agent holds lies
    in the arena, and no two blocks share a byte, be they of one agent or of two. *)
Theorem concurrent_blocks_apart HEAP_ARENA client g0 M0 n sched s :
  arena_ok HEAP_ARENA -> polite client -> global_rep HEAP_ARENA g0 ∅ M0 ->
  run_schedule HEAP_ARENA client sched (start_system n g0) = Some s ->
  forall i a p k, agents s !! i = Some a -> held (answered a) !! p = Some k ->
    (0 < k /\ HEAP_ARENA <= p /\ p + k <= HEAP_ARENA + HEAP_SIZE)
    /\ forall j b q l, agents s !! j = Some b -> held (answered b) !! q = Some l -> (i, p) <> (j, q) ->
         p + k <= q \/ q + l <= p.
Proof.
  intros Har Hpol Hg0 Hrun i a p k Ha Hp.
  destruct (run_linked HEAP_ARENA client g0 sched _ [] g0 s (start_linked HEAP_ARENA client g0 n (gr_lock _ _ _ _ Hg0)) Hrun)
    as (log & g & I & _).
  destruct (log_blocks HEAP_ARENA client Har Hpol log g0 g M0 Hg0 (ln_log _ _ _ _ _ _ I) (ln_follows _ _ _ _ _ _ I))
    as (B & M & [_ _ Hrep _] & Hin & Hap).
  destruct (ln_agents _ _ _ _ _ _ I i a Ha) as [Ea _]. rewrite <- Ea in Hp.
  split; [exact (rep_inside HEAP_ARENA Har _ _ _ _ Hrep (Hin i p k Hp))|].
  intros j b q l Hb Hq Hne. destruct (ln_agents _ _ _ _ _ _ I j b Hb) as [Eb _]. rewrite <- Eb in Hq.
  apply (rep_apart HEAP_ARENA Har _ _ _ _ _ _ Hrep (Hin i p k Hp) (Hin j q l Hq)). intros ->.
  destruct (decide (i = j)) as [->|Hij]; [by apply Hne|]. rewrite (Hap i j q Hij) in Hq; [done|by eexists].
Qed.

(** C38. The lock is never lost.  From every state that an interleaving of such
    agents reaches, an agent that waits for the lock gets its reply within five
    steps of the agent in the critical section and its own: at most two to leave the
    section and three to take the lock, work and open it. *)
Theorem waiting_agent_served HEAP_ARENA client g0 M0 n sched s i a r :
  arena_ok HEAP_ARENA -> polite client -> global_rep HEAP_ARENA g0 ∅ M0 ->
  run_schedule HEAP_ARENA client sched (start_system n g0) = Some s ->
  agents s !! i = Some a -> phase_of a = Spinning r ->
  exists k m s' x, (m <= 2)%nat
    /\ run_schedule HEAP_ARENA client (replicate m k ++ [i; i; i]) s = Some s'
    /\ agents s' !! i = Some (replied r x a) /\ HEAP_LOCK (shared s') = false.
Proof.
  intros Har Hpol Hg0 Hrun Ha Ep. pose proof (lookup_lt_Some _ _ _ Ha) as Hlt.
  destruct (run_linked HEAP_ARENA client g0 sched _ [] g0 s (start_linked HEAP_ARENA client g0 n (gr_lock _ _ _ _ Hg0)) Hrun)
    as (log & g & I & _).
  assert (exists k m s1, (m <= 2)%nat /\ run_schedule HEAP_ARENA client (replicate m k) s = Some s1
    /\ agents s1 !! i = Some a /\ HEAP_LOCK (shared s1) = false) as (k & m & s1 & Hm & E1 & Ha1 & El1).
  { destruct (HEAP_LOCK (shared s)) eqn:El; [|exists 0%nat, 0%nat, s; by split_and!; [lia|..]].
    destruct (ln_guard _ _ _ _ _ _ I) as (o & Ho & Hk & Hc). rewrite El in Ho. symmetry in Ho.
    apply bool_decide_eq_true in Ho as [k ->]. destruct (Hk k eq_refl) as [b Hb].
    destruct (holder_finishes HEAP_ARENA client Har Hpol g0 M0 Hg0 s log g k b I Hb) as (m & q & x & sh & Hm & E).
    { rewrite (Hc k b Hb). by apply bool_decide_eq_true. }
    exists k, m. eexists. split; [exact Hm|]. split; [exact E|]. split; [|done]. cbn.
    rewrite list_lookup_insert_ne; [done|]. intros ->. rewrite Hb in Ha. injection Ha as ->.
    pose proof (Hc i a Hb) as Hca. rewrite Ep, bool_decide_true in Hca by done. done. }
  destruct (run_linked HEAP_ARENA client g0 _ s log g s1 I E1) as (log1 & g1 & I1 & _).
  destruct (spinning_finishes HEAP_ARENA client Har Hpol g0 M0 Hg0 s1 log1 g1 i a r I1 Ha1 Ep El1) as (x & sh & E2).
  exists k, m. eexists. exists x. split; [exact Hm|]. rewrite run_app, E1. split; [exact E2|]. split; [|done]. cbn.
  apply list_lookup_insert_eq. by eapply lookup_lt_Some.
Qed.

(** * Two agents that collide at the lock *)

Lemma sample_polite : polite sample_client.
Proof.
  intros i l r. destruct l as [|[q p] [|e l]]; cbn; [by intros [= <-]| |by destruct q].
  destruct q as [|size align|q]; [done| |done]. destruct (i =? 0)%nat; [|done]. intros [= <-].
  destruct (Z.eqb_spec p 0) as [->|Hp]; [by left|right]. unfold held. cbn.
  destruct (Z.eqb_spec p 0); [done|]. by rewrite lookup_insert_eq.
Qed.

Lemma sample_run : exists s s', run_schedule sample_arena sample_client sample_schedule (start_system 2 sample_ready) = Some s
  /\ run_schedule sample_arena sample_client [0; 1; 0; 1; 1]%nat s = Some s'
  /\ agents s = [mkAgent (Leaving (HAlloc 24 8) 8388608) []; mkAgent (Spinning (HAlloc 24 8)) []]
  /\ agents s' = [mkAgent (Spinning (HFree 8388608)) [(HAlloc 24 8, 8388608)]; mkAgent Outside [(HAlloc 24 8, 8388640)]].
Proof.
  pose (o := run_schedule sample_arena sample_client sample_schedule (start_system 2 sample_ready)).
  assert (agents <$> o
    = Some [mkAgent (Leaving (HAlloc 24 8) 8388608) []; mkAgent (Spinning (HAlloc 24 8)) []]) as E1 by (vm_compute; reflexivity).
  assert (agents <$> (s ← o; run_schedule sample_arena sample_client [0; 1; 0; 1; 1]%nat s)
    = Some [mkAgent (Spinning (HFree 8388608)) [(HAlloc 24 8, 8388608)]; mkAgent Outside [(HAlloc 24 8, 8388640)]])
    as E2 by (vm_compute; reflexivity).
  fold o. destruct o as [s|]; [|discriminate E1]. cbn [mbind option_bind] in E2.
  destruct (run_schedule sample_arena sample_client [0; 1; 0; 1; 1]%nat s) as [s'|] eqn:E; [|discriminate E2].
  injection E1 as E1. injection E2 as E2. exists s, s'. exact (conj eq_refl (conj E (conj E1 E2))).
Qed.

Lemma heap_calls_linearize_witness : exists s s' log g,
  run_schedule sample_arena sample_client (sample_schedule ++ [0; 1; 0; 1; 1]%nat) (start_system 2 sample_ready) = Some s'
  /\ run_schedule sample_arena sample_client sample_schedule (start_system 2 sample_ready) = Some s
  /\ serve_log sample_arena log sample_ready = Some g
  /\ own 0 log = [(HAlloc 24 8, 8388608)] /\ own 1 log = [(HAlloc 24 8, 8388640)] /\ shared s' = g.
Proof.
  destruct sample_run as (s & s' & E & E' & Ha & Ha').
  destruct (heap_calls_linearize sample_arena sample_client sample_ready 2 _ _ s s' eq_refl E E')
    as (log & log' & _ & (g & Hs & _ & Ho & Hq & _)).
  exists s, s', (log ++ log'), g. split; [by rewrite run_app, E|]. split; [exact E|]. split; [exact Hs|].
  split; [exact (Ho 0%nat _ ltac:(by rewrite Ha'))|]. split; [exact (Ho 1%nat _ ltac:(by rewrite Ha'))|].
  apply Hq. rewrite Ha'. intros a Hin. apply elem_of_cons in Hin as [->|Hin]; [done|].
  by apply list_elem_of_singleton in Hin as ->.
Defined.

Lemma concurrent_blocks_apart_witness : exists s, 
  run_schedule sample_arena sample_client (sample_schedule ++ [0; 1; 0; 1; 1]%nat) (start_system 2 sample_ready) = Some s
  /\ ((8388608 + 24 <= 8388640 \/ 8388640 + 24 <= 8388608)
      /\ 0 < 24 /\ sample_arena <= 8388640 /\ 8388640 + 24 <= sample_arena + HEAP_SIZE).
Proof.
  destruct sample_run as (s & s' & E & E' & _ & Ha'). exists s'.
  assert (run_schedule sample_arena sample_client (sample_schedule ++ [0; 1; 0; 1; 1]%nat) (start_system 2 sample_ready)
    = Some s') as Er by (by rewrite run_app, E). split; [exact Er|].
  pose proof (concurrent_blocks_apart sample_arena sample_client sample_ready ∅ 2 _ s' sample_arena_ok sample_polite
    sample_ready_rep Er) as H. split.
  - apply (proj2 (H 0%nat _ 8388608 24 ltac:(by rewrite Ha') eq_refl) 1%nat _ 8388640 24 ltac:(by rewrite Ha') eq_refl ltac:(done)).
  - exact (proj1 (H 1%nat _ 8388640 24 ltac:(by rewrite Ha') eq_refl)).
Defined.

Lemma waiting_agent_served_witness : exists s k m s' x,
  run_schedule sample_arena sample_client sample_schedule (start_system 2 sample_ready) = Some s
  /\ HEAP_LOCK (shared s) = true /\ (m <= 2)%nat
  /\ run_schedule sample_arena sample_client (replicate m k ++ [1; 1; 1]%nat) s = Some s'
  /\ agents s' !! 1%nat = Some (mkAgent Outside [(HAlloc 24 8, x)]).
Proof.
  destruct sample_run as (s & s' & E & _ & Ha & _).
  destruct (waiting_agent_served sample_arena sample_client sample_ready ∅ 2 _ s 1%nat _ (HAlloc 24 8) sample_arena_ok
    sample_polite sample_ready_rep E ltac:(by rewrite Ha) eq_refl) as (k & m & s1 & x & Hm & E1 & Ha1 & _).
  exists s, k, m, s1, x. split; [exact E|]. split.
  - assert ((HEAP_LOCK ∘ shared) <$> run_schedule sample_arena sample_client sample_schedule (start_system 2 sample_ready)
      = Some true) as El by (vm_compute; reflexivity).
    rewrite E in El. by injection El.
  - exact (conj Hm (conj E1 Ha1)).
Defined.
