(* ===== verification/KernelAlloc.v ===== *)
(** The kernel's allocator bridge: the heap section of [main.rs].

    Before the runtime heap is up, and when it is full, a bump allocator over a
    256 KiB static serves; [kmalloc], [kfree] and the [__rust_*] shims go through
    it.  Both arenas lie in the one byte store of the heap. *)

From S2P Require Import Prelude Slab Heap.

Definition EARLY_HEAP_SIZE : Z := 262144.

Record kernel_heap := mkKernel {
  kheap : heap_global;
  EARLY_HEAP_OFFSET : Z;
}.

Definition kernel_mem (k : kernel_heap) : store := hmem (HEAP_STATE (kheap k)).
Definition set_kheap (g : heap_global) (k : kernel_heap) : kernel_heap := mkKernel g (EARLY_HEAP_OFFSET k).
Definition set_kmem (m : store) (k : kernel_heap) : kernel_heap :=
  set_kheap (mkHeapGlobal (HEAP_LOCK (kheap k)) (HEAP_READY (kheap k)) (set_hmem m (HEAP_STATE (kheap k)))) k.

(** [copy_nonoverlapping(src, dst, n)]: all of the source is read first. *)
Definition copy_nonoverlapping (src dst n : Z) (m : store) : store :=
  for_loop 0 n (fun i m' => wr m' (dst + i) (rd m (src + i))) m.

(** [write_bytes(dst, 0, n)]. *)
Definition write_zeros (dst n : Z) (m : store) : store := for_loop 0 n (fun i m' => wr m' (dst + i) 0) m.

Section KernelAlloc.
Context (HEAP_ARENA EARLY_HEAP : Z).

(** [KernelAllocator::alloc_early]; with no other core the exchange succeeds. *)
Definition alloc_early (layout : Layout) (k : kernel_heap) : kernel_heap * Z :=
  let align := Z.max (layout_align layout) 16 in
  let current := EARLY_HEAP_OFFSET k in
  let aligned := Z.land (current +w align -w 1) (not64 (align -w 1)) in
  let next := sat_add64 aligned (layout_size layout) in
  if EARLY_HEAP_SIZE <? next then (k, 0)
  else (mkKernel (kheap k) next, EARLY_HEAP + aligned).

(** [GlobalAlloc::alloc] and [dealloc]. *)
Definition kernel_alloc (layout : Layout) (k : kernel_heap) : option (kernel_heap * Z) :=
  if negb (heap_is_initialized_c (kheap k) =? 0) then
    match heap_alloc_c HEAP_ARENA (layout_size layout) (layout_align layout) (kheap k) with
    | Some (g, ptr) =>
        if negb (ptr =? 0) then Some (set_kheap g k, ptr) else Some (alloc_early layout (set_kheap g k))
    | None => None
    end
  else Some (alloc_early layout k).

Definition kernel_dealloc (ptr : Z) (k : kernel_heap) : option kernel_heap :=
  if negb (heap_is_initialized_c (kheap k) =? 0) then
    match heap_dealloc_c HEAP_ARENA ptr (kheap k) with
    | Some (g, _) => Some (set_kheap g k)
    | None => None
    end
  else Some k.

Definition kmalloc (size : Z) (k : kernel_heap) : option (kernel_heap * Z) :=
  match Layout_from_size_align size 16 with
  | Some layout => kernel_alloc layout k
  | None => Some (k, 0)
  end.

Definition kfree (ptr : Z) (k : kernel_heap) : option kernel_heap := kernel_dealloc ptr k.

Definition rust_alloc (size align : Z) (k : kernel_heap) : option (kernel_heap * Z) :=
  match Layout_from_size_align size align with
  | Some layout => kernel_alloc layout k
  | None => Some (k, 0)
  end.

Definition rust_dealloc (ptr size align : Z) (k : kernel_heap) : option kernel_heap :=
  match Layout_from_size_align size align with
  | Some _ => kernel_dealloc ptr k
  | None => Some k
  end.

Definition rust_realloc (ptr old_size align new_size : Z) (k : kernel_heap) : option (kernel_heap * Z) :=
  match Layout_from_size_align new_size align with
  | None => Some (k, 0)
  | Some _ =>
      match rust_alloc new_size align k with
      | None => None
      | Some (k1, new_ptr) =>
          if negb (new_ptr =? 0) then
            let copy_size := Z.min old_size new_size in
            let k2 := set_kmem (copy_nonoverlapping ptr new_ptr copy_size (kernel_mem k1)) k1 in
            match Layout_from_size_align old_size align with
            | Some _ =>
                match rust_dealloc ptr old_size align k2 with
                | Some k3 => Some (k3, new_ptr)
                | None => None
                end
            | None => Some (k2, new_ptr)
            end
          else Some (k1, new_ptr)
      end
  end.

Definition rust_alloc_zeroed (size align : Z) (k : kernel_heap) : option (kernel_heap * Z) :=
  match rust_alloc size align k with
  | None => None
  | Some (k1, ptr) =>
      if negb (ptr =? 0) then Some (set_kmem (write_zeros ptr size (kernel_mem k1)) k1, ptr)
      else Some (k1, ptr)
  end.
End KernelAlloc.
