(* ===== verification/KernelAllocProps.v ===== *)
(** The allocator bridge: what it promises.

    The blocks handed out by the two arenas together, as one map. *)

From S2P Require Import Prelude Slab Heap HeapFacts HeapRep KernelAlloc.

(** What the linker guarantees of the two statics. *)
Record arenas_ok (HEAP_ARENA EARLY_HEAP : Z) : Prop := {
  as_heap : arena_ok HEAP_ARENA;
  as_pos : 0 < EARLY_HEAP;
  as_align : EARLY_HEAP mod 16 = 0;
  as_end : EARLY_HEAP + EARLY_HEAP_SIZE < 2 ^ 63;
  as_apart : EARLY_HEAP + EARLY_HEAP_SIZE <= HEAP_ARENA \/ HEAP_ARENA + HEAP_SIZE <= EARLY_HEAP;
}.

(** The blocks of the bump allocator lie below its offset. *)
Record early_rep (EARLY_HEAP off : Z) (Be : gmap Z Z) : Prop := {
  er_off : 0 <= off <= EARLY_HEAP_SIZE;
  er_block : forall p n, Be !! p = Some n -> 0 < n /\ EARLY_HEAP <= p /\ p + n <= EARLY_HEAP + off;
  er_apart : forall p n q k, Be !! p = Some n -> Be !! q = Some k -> p <> q -> p + n <= q \/ q + k <= p;
}.

(** The kernel holds the blocks [B]: those of the runtime heap, which may still
    be down, and those of the bump allocator. *)
Definition kernel_rep (HEAP_ARENA EARLY_HEAP : Z) (k : kernel_heap) (B : gmap Z Z) : Prop :=
  exists Bh Be, early_rep EARLY_HEAP (EARLY_HEAP_OFFSET k) Be
    /\ HEAP_LOCK (kheap k) = false
    /\ ((HEAP_READY (kheap k) = true /\ heap_rep HEAP_ARENA (HEAP_STATE (kheap k)) Bh)
        \/ (HEAP_READY (kheap k) = false /\ Bh = ∅))
    /\ forall p n, B !! p = Some n <-> Bh !! p = Some n \/ Be !! p = Some n.

(** What a successful allocation gives. *)
Definition new_block (HEAP_ARENA EARLY_HEAP : Z) (k : kernel_heap) (B : gmap Z Z) (size align : Z)
    (k' : kernel_heap) (p : Z) : Prop :=
  p <> 0 /\ B !! p = None /\ kernel_rep HEAP_ARENA EARLY_HEAP k' (<[p := size]> B)
  /\ (forall a, owned B a -> rd (kernel_mem k') a = rd (kernel_mem k) a)
  /\ (EARLY_HEAP mod align = 0 -> p mod align = 0).

(** A small instance, for the witnesses: before the runtime heap is up. *)
Definition sample_kernel : kernel_heap := mkKernel sample_ready 0.
Definition sample_early : Z := 4194320.

(** * Lemmas *)

Lemma copy_spec src dst n m :
  (forall i, 0 <= i < n -> rd (copy_nonoverlapping src dst n m) (dst + i) = rd m (src + i))
  /\ forall a, ~ (dst <= a < dst + n) -> rd (copy_nonoverlapping src dst n m) a = rd m a.
Proof.
  unfold copy_nonoverlapping. destruct (Z.le_gt_cases 0 n) as [Hn|Hn].
  2:{ replace (for_loop 0 n _ m) with m; [split; [intros; lia|done]|].
      unfold for_loop. by replace (Z.to_nat (n - 0)) with 0%nat by lia. }
  set (body := fun i (m' : store) => _).
  pose (P := fun k (m' : store) => (forall i, 0 <= i < k -> rd m' (dst + i) = rd m (src + i))
    /\ forall a, ~ (dst <= a < dst + n) -> rd m' a = rd m a).
  enough (P (Z.max 0 n) (for_loop 0 n body m)) as HP by (rewrite Z.max_r in HP by lia; exact HP).
  apply for_loop_ind; [split; [intros; lia|done]|]. intros k m' Hk [H1 H2]. subst body. split; cbv beta.
  - intros i Hi. rewrite rd_wr. case_decide as E; [by replace i with k by lia|]. apply H1. lia.
  - intros a Ha. rewrite rd_wr_ne by lia. by apply H2.
Qed.

Section Props.
Context (HEAP_ARENA EARLY_HEAP : Z).
Context (Has : arenas_ok HEAP_ARENA EARLY_HEAP).
Notation kernel_rep := (kernel_rep HEAP_ARENA EARLY_HEAP).
Notation new_block := (new_block HEAP_ARENA EARLY_HEAP).

Lemma kernel_block k B p n : kernel_rep k B -> B !! p = Some n -> 0 < n /\ 0 < p.
Proof.
  intros (Bh & Be & He & _ & Hh & HB) Hp. pose proof (as_pos _ _ Has). pose proof (ao_pos _ (as_heap _ _ Has)).
  apply HB in Hp as [Hp|Hp].
  - destruct Hh as [[_ Hh]|[_ ->]]; [|by rewrite lookup_empty in Hp].
    destruct (rep_inside HEAP_ARENA (as_heap _ _ Has) _ _ _ _ Hh Hp). lia.
  - destruct (er_block _ _ _ He p n Hp). lia.
Qed.

(** Blocks of the two arenas. *)
Lemma arenas_apart k Bh Be p n q m : early_rep EARLY_HEAP (EARLY_HEAP_OFFSET k) Be ->
  (HEAP_READY (kheap k) = true /\ heap_rep HEAP_ARENA (HEAP_STATE (kheap k)) Bh)
  \/ (HEAP_READY (kheap k) = false /\ Bh = ∅) ->
  Bh !! p = Some n -> Be !! q = Some m ->
  (p + n <= q \/ q + m <= p) /\ HEAP_ARENA <= p < HEAP_ARENA + HEAP_SIZE
  /\ (q < HEAP_ARENA \/ HEAP_ARENA + HEAP_SIZE <= q).
Proof.
  intros He Hh Hp Hq. destruct Hh as [[_ Hh]|[_ ->]]; [|by rewrite lookup_empty in Hp].
  destruct (rep_inside HEAP_ARENA (as_heap _ _ Has) _ _ _ _ Hh Hp) as (H1 & H2 & H3).
  destruct (er_block _ _ _ He q m Hq) as (H4 & H5 & H6). pose proof (er_off _ _ _ He).
  destruct (as_apart _ _ Has); lia.
Qed.

Lemma kernel_apart k B p n q m : kernel_rep k B -> B !! p = Some n -> B !! q = Some m -> p <> q ->
  p + n <= q \/ q + m <= p.
Proof.
  intros (Bh & Be & He & _ & Hh & HB) Hp Hq Hne.
  apply HB in Hp as [Hp|Hp]; apply HB in Hq as [Hq|Hq].
  - destruct Hh as [[_ Hh]|[_ ->]]; [|by rewrite lookup_empty in Hp].
    by apply (rep_apart HEAP_ARENA (as_heap _ _ Has) _ _ _ _ _ _ Hh).
  - by destruct (arenas_apart k Bh Be p n q m He Hh Hp Hq).
  - destruct (arenas_apart k Bh Be q m p n He Hh Hq Hp) as [[|] _]; [by right|by left].
  - by apply (er_apart _ _ _ He p n q m).
Qed.

(** New bytes inside the blocks change no block. *)
Lemma kernel_rep_mem k B m' : kernel_rep k B ->
  (forall a, rd m' a <> rd (kernel_mem k) a -> owned B a) -> kernel_rep (set_kmem m' k) B.
Proof.
  intros (Bh & Be & He & Hl & Hh & HB) Hm. exists Bh, Be.
  split_and!; [done|done| |done]. destruct Hh as [[Hr Hh]|?]; [left|by right]. split; [done|].
  apply (rep_mem HEAP_ARENA); [done|]. intros a Ha Hne.
  destruct (Hm a Hne) as (p & n & Hp & Hin). apply HB in Hp as [Hp|Hp]; [by exists p, n|].
  destruct (er_block _ _ _ He p n Hp) as (H4 & H5 & H6). pose proof (er_off _ _ _ He).
  destruct (as_apart _ _ Has); lia.
Qed.

Lemma owned_insert B p n a : owned B a -> B !! p = None -> owned (<[p := n]> B) a.
Proof. intros (q & k & Hq & Ha) Hp. exists q, k. split; [|done]. rewrite lookup_insert_ne; [done|congruence]. Qed.

(** ** The bump allocator *)

Lemma alloc_early_spec k B size align : kernel_rep k B -> layout_ok size align -> 0 < size ->
  match alloc_early EARLY_HEAP (mkLayout size align) k with
  | (k', p) => (p = 0 /\ k' = k) \/ new_block k B size align k' p
  end.
Proof.
  intros (Bh & Be & He & Hl & Hh & HB) (_ & j & Hj & -> & Hmax) Hsz. unfold alloc_early.
  cbn [layout_align layout_size]. pose proof (er_off _ _ _ He) as Hoff. unfold EARLY_HEAP_SIZE in *.
  assert (exists j', 0 <= j' < 64 /\ Z.max (2 ^ j) 16 = 2 ^ j' /\ j <= j') as (j' & Hj' & Ej & Hle).
  { destruct (Z.le_gt_cases j 4).
    - exists 4. split_and!; try done. rewrite Z.max_r; [done|]. change 16 with (2 ^ 4). apply Z.pow_le_mono_r; lia.
    - exists j. split_and!; try lia. rewrite Z.max_l; [done|]. change 16 with (2 ^ 4). apply Z.pow_le_mono_r; lia. }
  assert (2 ^ j' <= 2 ^ 63) by (apply Z.pow_le_mono_r; lia).
  destruct (heap_align_up_spec (EARLY_HEAP_OFFSET k) j' Hj' ltac:(lia) ltac:(unfold U64; lia)) as [Hb Hm].
  change (Z.land (EARLY_HEAP_OFFSET k +w Z.max (2 ^ j) 16 -w 1) (not64 (Z.max (2 ^ j) 16 -w 1)))
    with (heap_align_up (EARLY_HEAP_OFFSET k) (Z.max (2 ^ j) 16)).
  rewrite Ej. set (al := heap_align_up _ _) in *.
  destruct (Z.ltb_spec 262144 (sat_add64 al size)) as [|Hle2]; [by left|]. right.
  unfold sat_add64, U64_MAX in *. rewrite Z.min_r in Hle2 |- * by lia.
  pose proof (as_pos _ _ Has).
  set (p := EARLY_HEAP + al).
  assert (forall q n, Be !! q = Some n -> q + n <= p) as Hbelow
    by (intros q n Hq; destruct (er_block _ _ _ He q n Hq); subst p; lia).
  assert (early_rep EARLY_HEAP (al + size) (<[p := size]> Be)) as He'.
  { constructor.
    - unfold EARLY_HEAP_SIZE. lia.
    - intros q n [[<- <-]|[_ Hq]]%lookup_insert_Some; [subst p; lia|].
      destruct (er_block _ _ _ He q n Hq). lia.
    - intros q n q' n' [[<- <-]|[_ Hq]]%lookup_insert_Some [[<- <-]|[_ Hq']]%lookup_insert_Some Hne; try done.
      + right. by apply Hbelow.
      + left. by apply Hbelow.
      + by apply (er_apart _ _ _ He q n q' n'). }
  assert (B !! p = None) as Hno.
  { destruct (B !! p) as [n|] eqn:E; [|done]. apply HB in E as [E|E].
    - destruct (arenas_apart (mkKernel (kheap k) (al + size)) Bh (<[p := size]> Be) p n p size He' Hh E
        (lookup_insert_eq _ _ _)) as ([|] & _ & _); [|lia].
      destruct Hh as [[_ Hh]|[_ ->]]; [|by rewrite lookup_empty in E].
      destruct (rep_inside HEAP_ARENA (as_heap _ _ Has) _ _ _ _ Hh E). lia.
    - pose proof (Hbelow p n E). destruct (er_block _ _ _ He p n E). lia. }
  split_and!; [subst p; lia|done| |done|].
  - exists Bh, (<[p := size]> Be). split_and!; [exact He'|done|done|].
    intros q n. rewrite !lookup_insert_Some, HB. split; [tauto|].
    intros [Hq|[?|[? Hq]]]; [|tauto|tauto]. right. split; [|by left]. intros <-.
    assert (B !! p = Some n) by (apply HB; by left). congruence.
  - intros Hbase. subst p. rewrite Z.add_mod, Hbase by lia.
    assert (al mod 2 ^ j = 0) as ->; [|apply Z.mod_0_l; lia].
    apply Z.mod_divide; [lia|]. apply (Z.divide_trans _ (2 ^ j')).
    + exists (2 ^ (j' - j)). rewrite <- Z.pow_add_r by lia. f_equal. lia.
    + apply Z.mod_divide; [lia|done].
Qed.

(** ** The bridge *)

Lemma layout_ok_some size align : layout_ok size align ->
  Layout_from_size_align size align = Some (mkLayout size align) /\ Z.max align 1 = align.
Proof.
  intros (_ & j & Hj & -> & Hm). assert (0 < 2 ^ j) by lia. split; [|lia].
  unfold Layout_from_size_align, is_power_of_two. destruct (Z.ltb_spec 0 (2 ^ j)); [|lia].
  rewrite land_low, Z.mod_same by lia. destruct (Z.leb_spec size (2 ^ 63 - 2 ^ j)); [done|lia].
Qed.

Lemma kernel_alloc_spec k B size align : kernel_rep k B -> layout_ok size align -> 0 < size ->
  exists k' p, kernel_alloc HEAP_ARENA EARLY_HEAP (mkLayout size align) k = Some (k', p)
    /\ ((p = 0 /\ k' = k) \/ new_block k B size align k' p).
Proof.
  intros Hk Hl Hsz. pose proof (alloc_early_spec k B size align Hk Hl Hsz) as Hearly.
  unfold kernel_alloc, heap_is_initialized_c, heap_is_initialized.
  destruct (HEAP_READY (kheap k)) eqn:Er; cbn [negb Z.eqb].
  2:{ destruct (alloc_early EARLY_HEAP (mkLayout size align) k) as [k' p]. eauto. }
  pose proof Hk as (Bh & Be & He & Hlk & [[_ Hh]|[E _]] & HB); [|congruence].
  destruct (layout_ok_some size align Hl) as [_ Emax].
  assert (0 <= align) as Ha by lia. destruct Hl as (Hs0 & Hl').
  assert (global_rep HEAP_ARENA (kheap k) Bh (global_mem (kheap k))) as Hg by (by constructor).
  destruct (heap_alloc_c_spec HEAP_ARENA (as_heap _ _ Has) _ Bh _ size align Hg Hs0 Ha)
    as (g' & p & E & Hc). cbn [layout_size layout_align]. rewrite E, Emax in *.
  destruct Hc as [(-> & -> & _)|((Hnz & Hal & Hno & Hrep & Hby) & Hlk' & Hrd')].
  { cbn [Z.eqb negb]. replace (set_kheap (kheap k) k) with k by (by destruct k).
    destruct (alloc_early EARLY_HEAP (mkLayout size align) k) as [k' p]. eauto. }
  destruct (Z.eqb_spec p 0); [done|]. cbn [negb]. eexists _, _. split; [done|]. right.
  assert (<[p := size]> Bh !! p = Some size) as Hp by apply lookup_insert_eq.
  assert (forall q m, Be !! q = Some m -> p + size <= q \/ q + m <= p) as Hap.
  { intros q m Hq. by destruct (arenas_apart (set_kheap g' k) (<[p := size]> Bh) Be p size q m He
      ltac:(by left) Hp Hq). }
  split_and!; [done| | | |done].
  - destruct (B !! p) as [n0|] eqn:Eb; [|done]. apply HB in Eb as [Eb|Eb]; [congruence|].
    destruct (er_block _ _ _ He p n0 Eb). destruct (Hap p n0 Eb); lia.
  - exists (<[p := size]> Bh), Be. split_and!; [done|done|by left|].
    intros q m. rewrite !lookup_insert_Some, HB. split; [tauto|]. intros [[?|?]|Hq]; [tauto|tauto|].
    right. split; [|by right]. intros <-. destruct (er_block _ _ _ He p m Hq). destruct (Hap p m Hq); lia.
  - intros a (q & m & Hq & Ha'). unfold kernel_mem, set_kheap. cbn [kheap].
    apply HB in Hq as [Hq|Hq]; [apply Hby; left; by exists q, m|].
    destruct (er_block _ _ _ He q m Hq) as (H1 & H2 & H3). pose proof (er_off _ _ _ He).
    apply Hby. right. destruct (as_apart _ _ Has); lia.
Qed.

Lemma kernel_dealloc_spec k B p n : kernel_rep k B -> B !! p = Some n ->
  exists k', kernel_dealloc HEAP_ARENA p k = Some k' /\ kernel_rep k' (delete p B)
    /\ forall a, owned (delete p B) a -> rd (kernel_mem k') a = rd (kernel_mem k) a.
Proof.
  intros Hk Hp. pose proof Hk as (Bh & Be & He & Hlk & Hh & HB).
  assert (early_rep EARLY_HEAP (EARLY_HEAP_OFFSET k) (delete p Be)) as He'.
  { constructor; [exact (er_off _ _ _ He)| |].
    - intros q m [_ Hq]%lookup_delete_Some. by apply (er_block _ _ _ He).
    - intros q m q' m' [_ Hq]%lookup_delete_Some [_ Hq']%lookup_delete_Some. by apply (er_apart _ _ _ He). }
  assert (forall q m, delete p B !! q = Some m <-> delete p Bh !! q = Some m \/ delete p Be !! q = Some m) as HB'.
  { intros q m. rewrite !lookup_delete_Some, HB. tauto. }
  unfold kernel_dealloc, heap_is_initialized_c, heap_is_initialized.
  destruct Hh as [[Hr Hh]|[Hr ->]]; rewrite Hr; cbn [negb Z.eqb].
  2:{ exists k. split_and!; [done| |done]. exists (delete p ∅), (delete p Be).
      split_and!; [done|done| |done]. right. by rewrite delete_empty. }
  unfold heap_dealloc_c, heap_dealloc, heap_is_initialized, with_heap_lock. rewrite Hr, Hlk. cbn [negb].
  eexists. split; [done|].
  destruct (Bh !! p) as [m|] eqn:Ebh.
  - destruct (free_inner_spec HEAP_ARENA (as_heap _ _ Has) _ Bh p m Hh Ebh) as [Hrep Hby]. split.
    + exists (delete p Bh), (delete p Be). split_and!; [done|done|by left|done].
    + intros a (q & x & Hq & Ha). apply HB' in Hq as [Hq|Hq]; apply Hby; [left; by exists q, x|right].
      destruct (er_block _ _ _ He' q x Hq) as (H1 & H2 & H3). pose proof (er_off _ _ _ He).
      destruct (as_apart _ _ Has); lia.
  - pose proof (proj1 (HB p n) Hp) as [Hpe|Hpe]; [congruence|].
    destruct (er_block _ _ _ He p n Hpe) as (H1 & H2 & H3). pose proof (er_off _ _ _ He).
    rewrite free_inner_ignores by (destruct (as_apart _ _ Has); lia). split; [|done].
    exists (delete p Bh), (delete p Be). split_and!; [done|done| |done]. left. by rewrite delete_id.
Qed.

(** ** Reallocation *)

Lemma rust_realloc_spec k B ptr old align new : kernel_rep k B -> B !! ptr = Some old ->
  layout_ok old align -> layout_ok new align -> 0 < new ->
  exists k' p, rust_realloc HEAP_ARENA EARLY_HEAP ptr old align new k = Some (k', p)
    /\ ((p = 0 /\ k' = k)
        \/ (p <> 0 /\ B !! p = None
            /\ kernel_rep k' (delete ptr (<[p := new]> B))
            /\ (forall i, 0 <= i < Z.min old new -> rd (kernel_mem k') (p + i) = rd (kernel_mem k) (ptr + i))
            /\ (forall a, owned (delete ptr B) a -> rd (kernel_mem k') a = rd (kernel_mem k) a))).
Proof.
  intros Hk Hp Hlo Hln Hnew. unfold rust_realloc, rust_alloc.
  destruct (layout_ok_some new align Hln) as [-> _].
  destruct (kernel_alloc_spec k B new align Hk Hln Hnew) as (k1 & p & -> & [[-> ->]|Hb]).
  { exists k, 0. split; [done|]. by left. }
  destruct Hb as (Hnz & Hno & Hk1 & Hby & _). destruct (Z.eqb_spec p 0); [done|]. cbn [negb].
  destruct (layout_ok_some old align Hlo) as [Elo _]. unfold rust_dealloc. rewrite Elo.
  set (cs := Z.min old new). set (m2 := copy_nonoverlapping ptr p cs (kernel_mem k1)).
  destruct (copy_spec ptr p cs (kernel_mem k1)) as [Hc1 Hc2]. fold m2 in Hc1, Hc2.
  assert (<[p := new]> B !! p = Some new) as Hpn by apply lookup_insert_eq.
  assert (ptr <> p) as Hne by congruence.
  assert (<[p := new]> B !! ptr = Some old) as Hpo by (by rewrite lookup_insert_ne).
  assert (kernel_rep (set_kmem m2 k1) (<[p := new]> B)) as Hk2.
  { apply kernel_rep_mem; [done|]. intros a Hd. exists p, new. split; [done|].
    destruct (decide (p <= a < p + cs)); [lia|]. by rewrite Hc2 in Hd. }
  destruct (kernel_dealloc_spec _ _ ptr old Hk2 Hpo) as (k3 & E3 & Hk3 & Hby3).
  rewrite E3. exists k3, p. split; [done|]. right. split_and!; [done|done|done| |].
  - intros i Hi. rewrite Hby3.
    2:{ exists p, new. split; [|lia]. by rewrite lookup_delete_ne. }
    change (kernel_mem (set_kmem m2 k1)) with m2. rewrite Hc1 by done. apply Hby.
    exists ptr, old. split; [done|lia].
  - intros a (q & x & [Hq HBq]%lookup_delete_Some & Ha).
    assert (q <> p) as Hqp by congruence.
    assert (<[p := new]> B !! q = Some x) as Hq' by (by rewrite lookup_insert_ne).
    rewrite Hby3.
    2:{ exists q, x. split; [|done]. by rewrite lookup_delete_ne. }
    change (kernel_mem (set_kmem m2 k1)) with m2. rewrite Hc2; [apply Hby; by exists q, x|].
    destruct (kernel_apart k1 _ p new q x Hk1 Hpn Hq' ltac:(done)); lia.
Qed.
End Props.

(** * Properties *)

(** [kmalloc], in early boot and at run time: null, changing nothing, or a
    block aligned to 16 bytes, apart from every block the kernel holds and
    leaving their bytes; [kfree] then gives the kernel back exactly the blocks
    it held. *)
Theorem kmalloc_correct HEAP_ARENA EARLY_HEAP k B size :
  arenas_ok HEAP_ARENA EARLY_HEAP -> kernel_rep HEAP_ARENA EARLY_HEAP k B -> 0 < size <= 2 ^ 63 - 16 ->
  exists k' p, kmalloc HEAP_ARENA EARLY_HEAP size k = Some (k', p)
    /\ ((p = 0 /\ k' = k)
        \/ (p mod 16 = 0 /\ (forall q n, B !! q = Some n -> p + size <= q \/ q + n <= p)
            /\ kernel_rep HEAP_ARENA EARLY_HEAP k' (<[p := size]> B)
            /\ (forall a, owned B a -> rd (kernel_mem k') a = rd (kernel_mem k) a)
            /\ exists k'', kfree HEAP_ARENA p k' = Some k'' /\ kernel_rep HEAP_ARENA EARLY_HEAP k'' B
                 /\ forall a, owned B a -> rd (kernel_mem k'') a = rd (kernel_mem k) a)).
Proof.
  intros Has Hk Hsz. assert (layout_ok size 16) as Hl by (split; [lia|]; exists 4; split_and!; done || lia).
  unfold kmalloc. destruct (layout_ok_some size 16 Hl) as [-> _].
  destruct (kernel_alloc_spec _ _ Has k B size 16 Hk Hl ltac:(lia)) as (k' & p & E & [[-> ->]|Hb]).
  { exists k, 0. split; [exact E|]. by left. }
  exists k', p. split; [exact E|]. right. destruct Hb as (_ & Hno & Hk' & Hby & Hal).
  assert (<[p := size]> B !! p = Some size) as Hp by apply lookup_insert_eq.
  destruct (kernel_dealloc_spec _ _ Has k' _ p size Hk' Hp) as (k'' & Ef & Hk'' & Hby').
  rewrite delete_insert_id in Hk'', Hby' by done.
  split_and!; [exact (Hal (as_align _ _ Has))| |done|done|].
  - intros q n Hq. assert (q <> p) by congruence.
    apply (kernel_apart _ _ Has k' (<[p := size]> B)); try done. by rewrite lookup_insert_ne.
  - exists k''. split_and!; [exact Ef|done|]. intros a Ha. rewrite Hby' by done. by apply Hby.
Qed.

(** [__rust_realloc] of a block the kernel holds: null with nothing changed,
    the old block still held, or a new block whose first bytes are the old
    block's, which is gone; the other blocks keep their bytes. *)
Theorem rust_realloc_correct HEAP_ARENA EARLY_HEAP k B ptr old align new :
  arenas_ok HEAP_ARENA EARLY_HEAP -> kernel_rep HEAP_ARENA EARLY_HEAP k B -> B !! ptr = Some old ->
  layout_ok old align -> layout_ok new align -> 0 < new ->
  exists k' p, rust_realloc HEAP_ARENA EARLY_HEAP ptr old align new k = Some (k', p)
    /\ ((p = 0 /\ k' = k)
        \/ (p <> 0 /\ B !! p = None
            /\ kernel_rep HEAP_ARENA EARLY_HEAP k' (delete ptr (<[p := new]> B))
            /\ (forall i, 0 <= i < Z.min old new -> rd (kernel_mem k') (p + i) = rd (kernel_mem k) (ptr + i))
            /\ (forall a, owned (delete ptr B) a -> rd (kernel_mem k') a = rd (kernel_mem k) a))).
Proof. intros Has. exact (rust_realloc_spec HEAP_ARENA EARLY_HEAP Has k B ptr old align new). Qed.

(** The bump allocator aligns the offset, not the address: when the static
    is not a multiple of a larger alignment, the first block it hands out for
    that alignment is misaligned. *)
Theorem early_heap_misaligned HEAP_ARENA EARLY_HEAP k size j :
  HEAP_READY (kheap k) = false -> EARLY_HEAP_OFFSET k = 0 -> 4 <= j < 63 -> 0 < size <= EARLY_HEAP_SIZE ->
  0 < EARLY_HEAP -> EARLY_HEAP mod 2 ^ j <> 0 ->
  exists k' p, rust_alloc HEAP_ARENA EARLY_HEAP size (2 ^ j) k = Some (k', p)
    /\ p <> 0 /\ p mod 2 ^ j <> 0.
Proof.
  intros Hr Ho Hj Hsz Hp Hm. unfold rust_alloc, EARLY_HEAP_SIZE in *.
  assert (2 ^ j <= 2 ^ 62) by (apply Z.pow_le_mono_r; lia).
  assert (16 <= 2 ^ j) by (change 16 with (2 ^ 4); apply Z.pow_le_mono_r; lia).
  destruct (layout_ok_some size (2 ^ j)) as [-> _]; [split; [lia|]; exists j; lia|].
  unfold kernel_alloc, heap_is_initialized_c, heap_is_initialized. rewrite Hr. cbn [negb Z.eqb].
  unfold alloc_early. cbn [layout_align layout_size]. rewrite Ho, Z.max_l by lia.
  assert (Z.land (0 +w 2 ^ j -w 1) (not64 (2 ^ j -w 1)) = 0) as ->.
  { rewrite add64_small by (unfold U64; lia). rewrite !sub64_small by (unfold U64; lia).
    rewrite not64_mask by (unfold is_u64, U64; lia). rewrite Z.mod_small by lia. lia. }
  unfold sat_add64, U64_MAX, EARLY_HEAP_SIZE. rewrite Z.min_r by lia.
  destruct (Z.ltb_spec 262144 (0 + size)); [lia|]. eexists _, _. split; [done|]. by rewrite Z.add_0_r; split; [lia|].
Qed.

(** * Witnesses *)

Lemma sample_arenas_ok : arenas_ok sample_arena sample_early.
Proof. constructor; [exact sample_arena_ok|done|done|by vm_compute|left; by vm_compute]. Qed.

Lemma sample_kernel_rep : kernel_rep sample_arena sample_early sample_kernel ∅.
Proof.
  exists ∅, ∅. split_and!; [|done| |].
  - constructor; [done|intros p n Hp|intros p n q m Hp]; by rewrite lookup_empty in Hp.
  - left. split; [done|apply empty_heap_rep].
  - intros p n. rewrite lookup_empty. tauto.
Qed.

(** The kernel after a first [kmalloc] of 24 bytes. *)
Lemma sample_block : exists k, kernel_rep sample_arena sample_early k {[8388608 := 24]}
  /\ kernel_alloc sample_arena sample_early (mkLayout 24 16) sample_kernel = Some (k, 8388608).
Proof.
  destruct (kernel_alloc_spec _ _ sample_arenas_ok sample_kernel ∅ 24 16 sample_kernel_rep)
    as (k & p & E & H); [split; [done|]; exists 4; by vm_compute|done|].
  assert (snd <$> kernel_alloc sample_arena sample_early (mkLayout 24 16) sample_kernel = Some 8388608) as Er
    by (by vm_compute).
  rewrite E in Er. injection Er as ->. exists k. split; [|exact E].
  destruct H as [[H0 _]|(_ & _ & H & _)]; [discriminate H0|]. by rewrite insert_empty in H.
Qed.

Lemma kmalloc_correct_witness :
  exists k', kmalloc sample_arena sample_early 100 sample_kernel = Some (k', 8388608)
    /\ kernel_rep sample_arena sample_early k' {[8388608 := 100]}.
Proof.
  destruct (kmalloc_correct sample_arena sample_early sample_kernel ∅ 100 sample_arenas_ok sample_kernel_rep
    ltac:(lia)) as (k' & p & E & H).
  assert (snd <$> kmalloc sample_arena sample_early 100 sample_kernel = Some 8388608) as Er by (by vm_compute).
  rewrite E in Er. injection Er as ->. exists k'. split; [exact E|].
  destruct H as [[H0 _]|(_ & _ & H & _)]; [discriminate H0|]. rewrite insert_empty in H. exact H.
Defined.

Lemma rust_realloc_correct_witness :
  exists k k' p, rust_realloc sample_arena sample_early 8388608 24 16 200 k = Some (k', p)
    /\ kernel_rep sample_arena sample_early k {[8388608 := 24]}
    /\ (p = 0 \/ forall i, 0 <= i < 24 -> rd (kernel_mem k') (p + i) = rd (kernel_mem k) (8388608 + i)).
Proof.
  destruct sample_block as (k & Hk & _).
  destruct (rust_realloc_correct sample_arena sample_early k _ 8388608 24 16 200 sample_arenas_ok Hk
    (lookup_singleton_eq _ _) ltac:(split; [done|]; exists 4; by vm_compute)
    ltac:(split; [done|]; exists 4; by vm_compute) ltac:(done)) as (k' & p & E & H).
  exists k, k', p. split_and!; [exact E|exact Hk|].
  destruct H as [[H _]|(_ & _ & _ & H & _)]; [by left|right; exact H].
Defined.

Lemma early_heap_misaligned_witness :
  exists k' p, rust_alloc sample_arena sample_early 8 64 (mkKernel sample_boot 0) = Some (k', p)
    /\ p <> 0 /\ p mod 64 <> 0.
Proof.
  apply (early_heap_misaligned sample_arena sample_early (mkKernel sample_boot 0) 8 6);
    [reflexivity|reflexivity|lia|by vm_compute|by vm_compute|by vm_compute].
Defined.
