(* ===== verification/Pat.v ===== *)
(** The page attribute table: [memory/pat.rs].

    The MSR and the manager are the state; the CPUID answer is a parameter.  A
    page-table entry selects one of the eight entries through its PWT, PCD and
    PAT bits; the theorems relate the flags the kernel uses to the memory type
    the processor then applies. *)

From S2P Require Import Prelude FrameAlloc Paging.

Definition IA32_PAT_MSR : Z := 631.

Inductive MemoryType : Set := UC | WC | Reserved2 | Reserved3 | WT | WP | WB | UCMinus.

(** [as u64] / [as u8]. *)
Definition mt_u8 (t : MemoryType) : Z :=
  match t with
  | UC => 0 | WC => 1 | Reserved2 => 2 | Reserved3 => 3 | WT => 4 | WP => 5 | WB => 6 | UCMinus => 7
  end.

Definition MemoryType_from_u8 (val : Z) : option MemoryType :=
  if val =? 0 then Some UC
  else if val =? 1 then Some WC
  else if val =? 4 then Some WT
  else if val =? 5 then Some WP
  else if val =? 6 then Some WB
  else if val =? 7 then Some UCMinus
  else None.

Definition MemoryType_name (t : MemoryType) : string :=
  match t with
  | UC => "UC (Uncacheable)"
  | WC => "WC (Write-Combining)"
  | WT => "WT (Write-Through)"
  | WP => "WP (Write-Protected)"
  | WB => "WB (Write-Back)"
  | UCMinus => "UC- (Uncacheable)"
  | Reserved2 | Reserved3 => "Reserved"
  end.

Record PatConfig := mkPat {
  pa0 : MemoryType; pa1 : MemoryType; pa2 : MemoryType; pa3 : MemoryType;
  pa4 : MemoryType; pa5 : MemoryType; pa6 : MemoryType; pa7 : MemoryType;
}.

Definition PatConfig_default : PatConfig := mkPat WB WT UCMinus UC WB WT UCMinus UC.
Definition optimized : PatConfig := mkPat WB WT UC UC WB WC WP UC.

Definition to_msr_value (c : PatConfig) : Z :=
  Z.lor (Z.lor (Z.lor (Z.lor (Z.lor (Z.lor (Z.lor (mt_u8 (pa0 c))
    (Z.shiftl (mt_u8 (pa1 c)) 8)) (Z.shiftl (mt_u8 (pa2 c)) 16)) (Z.shiftl (mt_u8 (pa3 c)) 24))
    (Z.shiftl (mt_u8 (pa4 c)) 32)) (Z.shiftl (mt_u8 (pa5 c)) 40)) (Z.shiftl (mt_u8 (pa6 c)) 48))
    (Z.shiftl (mt_u8 (pa7 c)) 56).

(** One entry of the MSR, or what the code takes for an invalid one. *)
Definition msr_entry (val shift : Z) (d : MemoryType) : MemoryType :=
  default d (MemoryType_from_u8 (Z.land (Z.shiftr val shift) 255)).

Definition from_msr_value (val : Z) : PatConfig :=
  mkPat (msr_entry val 0 WB) (msr_entry val 8 WT) (msr_entry val 16 UCMinus) (msr_entry val 24 UC)
    (msr_entry val 32 WB) (msr_entry val 40 WT) (msr_entry val 48 UCMinus) (msr_entry val 56 UC).

Record PatManager := mkPatManager {
  pat_supported : bool;
  pat_enabled : bool;
  pat_config : PatConfig;
}.

Definition PatManager_new : PatManager := mkPatManager false false PatConfig_default.

Record pat_state := mkPatState {
  pat_msr : Z;
  PAT_MANAGER : option PatManager;
}.

(** [rdmsr] and [wrmsr] move the value through [edx:eax]. *)
Definition rdmsr (s : pat_state) : Z :=
  Z.lor (Z.shiftl (Z.shiftr (pat_msr s) 32) 32) (Z.land (pat_msr s) 4294967295).
Definition wrmsr (value : Z) (s : pat_state) : pat_state :=
  mkPatState (Z.lor (Z.shiftl (Z.shiftr value 32) 32) (Z.land value 4294967295)) (PAT_MANAGER s).

Definition read_pat (s : pat_state) : PatConfig := from_msr_value (rdmsr s).
Definition write_pat (c : PatConfig) (s : pat_state) : pat_state := wrmsr (to_msr_value c) s.

Section Pat.
(** [edx] of CPUID leaf 1. *)
Context (cpuid_edx : Z).

Definition check_pat_support : bool := negb (Z.land cpuid_edx (bit 16) =? 0).

Definition pat_init (s : pat_state) : pat_state * result string unit :=
  if negb check_pat_support then (s, Err "PAT not supported")
  else
    let s := write_pat optimized s in
    let new_config := read_pat s in
    (mkPatState (pat_msr s) (Some (mkPatManager true true new_config)), Ok tt).

Definition pat_check_support : Z := if check_pat_support then 1 else 0.
Definition pat_init_c (s : pat_state) : pat_state * Z :=
  let '(s', r) := pat_init s in (s', if is_ok r then 0 else -1).
End Pat.

Definition is_pat_initialized (s : pat_state) : bool :=
  match PAT_MANAGER s with Some _ => true | None => false end.
Definition pat_is_initialized (s : pat_state) : Z := if is_pat_initialized s then 1 else 0.

Definition pat_get_entry (index : Z) (s : pat_state) : Z :=
  if 7 <? index then 255
  else
    match PAT_MANAGER s with
    | None => 255
    | Some manager =>
        let c := pat_config manager in
        if index =? 0 then mt_u8 (pa0 c) else if index =? 1 then mt_u8 (pa1 c)
        else if index =? 2 then mt_u8 (pa2 c) else if index =? 3 then mt_u8 (pa3 c)
        else if index =? 4 then mt_u8 (pa4 c) else if index =? 5 then mt_u8 (pa5 c)
        else if index =? 6 then mt_u8 (pa6 c) else if index =? 7 then mt_u8 (pa7 c)
        else 255
    end.

Definition pat_read_msr (s : pat_state) : Z := rdmsr s.

Definition flags_normal_memory : Z := 0.
Definition flags_write_through : Z := bit 3.
Definition flags_uncacheable : Z := bit 4.
Definition flags_write_combining : Z := Z.lor (bit 7) (bit 3).
Definition flags_write_protected : Z := Z.lor (bit 7) (bit 4).

Definition memory_type_to_flags (t : MemoryType) : Z :=
  match t with
  | WB => 0
  | WT => bit 3
  | UC => bit 4
  | WC => Z.lor (bit 7) (bit 3)
  | WP => Z.lor (bit 7) (bit 4)
  | _ => 0
  end.

(** * What the processor applies *)

(** The entry that a 4 KiB page-table entry selects: PAT, PCD and PWT as a
    three-bit index (Intel SDM, volume 3, section 13.12.3). *)
Definition selected_entry (c : PatConfig) (pte : Z) : MemoryType :=
  let p := Z.testbit pte 7 in
  let d := Z.testbit pte 4 in
  let t := Z.testbit pte 3 in
  match p, d, t with
  | false, false, false => pa0 c
  | false, false, true => pa1 c
  | false, true, false => pa2 c
  | false, true, true => pa3 c
  | true, false, false => pa4 c
  | true, false, true => pa5 c
  | true, true, false => pa6 c
  | true, true, true => pa7 c
  end.

(** The types the architecture defines. *)
Definition defined_type (t : MemoryType) : bool :=
  match t with Reserved2 | Reserved3 => false | _ => true end.
Definition defined_config (c : PatConfig) : bool :=
  forallb defined_type [pa0 c; pa1 c; pa2 c; pa3 c; pa4 c; pa5 c; pa6 c; pa7 c].

(** * Lemmas *)

Lemma mt_u8_range t : 0 <= mt_u8 t < 8.
Proof. by destruct t. Qed.

Lemma lor_shift_add x y k : 0 <= k -> 0 <= x < 2 ^ k -> Z.lor x (Z.shiftl y k) = x + y * 2 ^ k.
Proof.
  intros Hk Hx. rewrite Z.shiftl_mul_pow2, Z.lor_comm by done.
  rewrite (lor_disjoint_add k) by (done || apply Z.mod_mul; lia). lia.
Qed.

Lemma to_msr_sum c : to_msr_value c = mt_u8 (pa0 c) + mt_u8 (pa1 c) * 2 ^ 8 + mt_u8 (pa2 c) * 2 ^ 16
  + mt_u8 (pa3 c) * 2 ^ 24 + mt_u8 (pa4 c) * 2 ^ 32 + mt_u8 (pa5 c) * 2 ^ 40 + mt_u8 (pa6 c) * 2 ^ 48
  + mt_u8 (pa7 c) * 2 ^ 56.
Proof.
  unfold to_msr_value.
  pose proof (mt_u8_range (pa0 c)). pose proof (mt_u8_range (pa1 c)). pose proof (mt_u8_range (pa2 c)).
  pose proof (mt_u8_range (pa3 c)). pose proof (mt_u8_range (pa4 c)). pose proof (mt_u8_range (pa5 c)).
  pose proof (mt_u8_range (pa6 c)). rewrite (lor_shift_add _ _ 8) by lia. rewrite (lor_shift_add _ _ 16) by lia.
  rewrite (lor_shift_add _ _ 24) by lia. rewrite (lor_shift_add _ _ 32) by lia.
  rewrite (lor_shift_add _ _ 40) by lia. rewrite (lor_shift_add _ _ 48) by lia.
  by rewrite (lor_shift_add _ _ 56) by lia.
Qed.

(** One byte of the MSR. *)
Lemma msr_entry_spec v lo t hi k d : 0 <= k -> 0 <= lo < 2 ^ k -> v = lo + (mt_u8 t + hi * 256) * 2 ^ k ->
  defined_type t = true -> msr_entry v k d = t.
Proof.
  intros Hk Hlo -> Ht. unfold msr_entry. change 255 with (2 ^ 8 - 1).
  rewrite Z.shiftr_div_pow2, Z.div_add, (Z.div_small lo), Z.add_0_l, land_low by lia.
  change (2 ^ 8) with 256. rewrite Z.mod_add by lia. pose proof (mt_u8_range t).
  rewrite Z.mod_small by lia. by destruct t.
Qed.

Lemma msr_word v : 0 <= v -> Z.lor (Z.shiftl (Z.shiftr v 32) 32) (Z.land v 4294967295) = v.
Proof.
  intros Hv. change 4294967295 with (2 ^ 32 - 1). rewrite land_low, Z.lor_comm by lia.
  rewrite lor_shift_add by (try lia; apply Z.mod_pos_bound; lia).
  rewrite Z.shiftr_div_pow2 by lia. pose proof (Z.div_mod v (2 ^ 32)). lia.
Qed.

Lemma from_to_msr c : defined_config c = true -> from_msr_value (to_msr_value c) = c.
Proof.
  unfold defined_config. cbn [forallb]. rewrite !andb_true_iff.
  intros (D0 & D1 & D2 & D3 & D4 & D5 & D6 & D7 & _). rewrite to_msr_sum. unfold from_msr_value.
  destruct c as [t0 t1 t2 t3 t4 t5 t6 t7]. cbn [pa0 pa1 pa2 pa3 pa4 pa5 pa6 pa7] in *.
  pose proof (mt_u8_range t0). pose proof (mt_u8_range t1). pose proof (mt_u8_range t2).
  pose proof (mt_u8_range t3). pose proof (mt_u8_range t4). pose proof (mt_u8_range t5).
  pose proof (mt_u8_range t6). pose proof (mt_u8_range t7).
  set (b0 := mt_u8 t0) in *. set (b1 := mt_u8 t1) in *. set (b2 := mt_u8 t2) in *. set (b3 := mt_u8 t3) in *.
  set (b4 := mt_u8 t4) in *. set (b5 := mt_u8 t5) in *. set (b6 := mt_u8 t6) in *. set (b7 := mt_u8 t7) in *.
  f_equal.
  - apply (msr_entry_spec _ 0 t0 (b1 + b2 * 2 ^ 8 + b3 * 2 ^ 16 + b4 * 2 ^ 24 + b5 * 2 ^ 32 + b6 * 2 ^ 40 + b7 * 2 ^ 48)); (done || lia).
  - apply (msr_entry_spec _ b0 t1 (b2 + b3 * 2 ^ 8 + b4 * 2 ^ 16 + b5 * 2 ^ 24 + b6 * 2 ^ 32 + b7 * 2 ^ 40)); (done || lia).
  - apply (msr_entry_spec _ (b0 + b1 * 2 ^ 8) t2 (b3 + b4 * 2 ^ 8 + b5 * 2 ^ 16 + b6 * 2 ^ 24 + b7 * 2 ^ 32)); (done || lia).
  - apply (msr_entry_spec _ (b0 + b1 * 2 ^ 8 + b2 * 2 ^ 16) t3 (b4 + b5 * 2 ^ 8 + b6 * 2 ^ 16 + b7 * 2 ^ 24)); (done || lia).
  - apply (msr_entry_spec _ (b0 + b1 * 2 ^ 8 + b2 * 2 ^ 16 + b3 * 2 ^ 24) t4 (b5 + b6 * 2 ^ 8 + b7 * 2 ^ 16)); (done || lia).
  - apply (msr_entry_spec _ (b0 + b1 * 2 ^ 8 + b2 * 2 ^ 16 + b3 * 2 ^ 24 + b4 * 2 ^ 32) t5 (b6 + b7 * 2 ^ 8)); (done || lia).
  - apply (msr_entry_spec _ (b0 + b1 * 2 ^ 8 + b2 * 2 ^ 16 + b3 * 2 ^ 24 + b4 * 2 ^ 32 + b5 * 2 ^ 40) t6 b7); (done || lia).
  - apply (msr_entry_spec _ (b0 + b1 * 2 ^ 8 + b2 * 2 ^ 16 + b3 * 2 ^ 24 + b4 * 2 ^ 32 + b5 * 2 ^ 40 + b6 * 2 ^ 48) t7 0); (done || lia).
Qed.

(** * Properties *)

(** Writing a configuration of defined types to the MSR and reading it back
    gives the same configuration. *)
Theorem pat_msr_roundtrip c s :
  defined_config c = true -> read_pat (write_pat c s) = c.
Proof.
  intros Hc. unfold read_pat, write_pat, rdmsr, wrmsr. cbn [pat_msr].
  assert (0 <= to_msr_value c) as Hp.
  { rewrite to_msr_sum. pose proof (mt_u8_range (pa0 c)). pose proof (mt_u8_range (pa1 c)).
    pose proof (mt_u8_range (pa2 c)). pose proof (mt_u8_range (pa3 c)). pose proof (mt_u8_range (pa4 c)).
    pose proof (mt_u8_range (pa5 c)). pose proof (mt_u8_range (pa6 c)). pose proof (mt_u8_range (pa7 c)). lia. }
  rewrite !msr_word by (rewrite ?msr_word by done; done). by apply from_to_msr.
Qed.

(** After [pat_init] on a processor with the PAT, the flags that
    [memory_type_to_flags] gives for a type, combined with any kernel page flags,
    select an entry of that type; only the request for UC- selects write-back
    memory.  Without the PAT nothing changes and the error is reported. *)
Theorem pat_init_correct cpuid_edx s :
  match pat_init cpuid_edx s with
  | (s', Ok _) => check_pat_support cpuid_edx = true /\ is_pat_initialized s' = true
      /\ read_pat s' = optimized
      /\ (forall i, 0 <= i < 8 -> pat_get_entry i s' = Z.land (Z.shiftr (pat_msr s') (8 * i)) 255)
      /\ forall t, defined_type t = true ->
           selected_entry (read_pat s') (kernel_with_memory_type (memory_type_to_flags t))
             = match t with UCMinus => WB | _ => t end
           /\ selected_entry (read_pat s') (user_with_memory_type (memory_type_to_flags t))
             = match t with UCMinus => WB | _ => t end
  | (s', Err _) => check_pat_support cpuid_edx = false /\ s' = s
  end.
Proof.
  unfold pat_init. destruct (check_pat_support cpuid_edx); cbn [negb]; [|done]. split_and!; try done.
  - intros i Hi. assert (i = 0 \/ i = 1 \/ i = 2 \/ i = 3 \/ i = 4 \/ i = 5 \/ i = 6 \/ i = 7) as E by lia.
    destruct E as [->|[->|[->|[->|[->|[->|[->| ->]]]]]]]; by vm_compute.
  - intros t Ht. by destruct t; vm_compute.
Qed.

(** * Witnesses *)

Lemma pat_msr_roundtrip_witness :
  read_pat (write_pat optimized (mkPatState 0 None)) = optimized.
Proof. apply (pat_msr_roundtrip optimized (mkPatState 0 None)). reflexivity. Defined.
