(* ===== verification/GuardPage.v ===== *)
(** Kernel stacks with guard pages: [memory/guard_page.rs].

    The registry of guard pages and the bump offset are the module's state; the
    stack pages go through the frame allocator and [map_page].  The atomics are
    plain fields: the module states that it is for one CPU in early boot. *)

From S2P Require Import Prelude FrameAlloc Paging.

Definition MAX_GUARD_PAGES : Z := 64.
Definition DEFAULT_STACK_PAGES : Z := 4.
Definition KERNEL_STACK_AREA_BASE : Z := 33554432.

Record guard_state (A : Type) := mkGuard {
  gpaging : paging_state A;
  GUARD_REGISTRY : list Z;
  GUARD_REGISTRY_COUNT : Z;
  NEXT_STACK_OFFSET : Z;
}.
Arguments mkGuard {A}.
Arguments gpaging {A}.
Arguments GUARD_REGISTRY {A}.
Arguments GUARD_REGISTRY_COUNT {A}.
Arguments NEXT_STACK_OFFSET {A}.

Section GuardPage.
Context {A : Type} {Ops : FrameOps A}.
Notation gst := (guard_state A).

Definition set_gpaging (p : paging_state A) (s : gst) : gst :=
  mkGuard p (GUARD_REGISTRY s) (GUARD_REGISTRY_COUNT s) (NEXT_STACK_OFFSET s).

Definition page_base_of (addr : Z) : Z := Z.land addr (not64 (PAGING_PAGE_SIZE - 1)).

Definition register_guard_page (virt_addr : Z) (s : gst) : gst * bool :=
  let idx := GUARD_REGISTRY_COUNT s in
  if MAX_GUARD_PAGES <=? idx then (s, false)
  else
    (mkGuard (gpaging s) (<[Z.to_nat idx := page_base_of virt_addr]> (GUARD_REGISTRY s)) (idx + 1)
       (NEXT_STACK_OFFSET s), true).

(** The scan of the first [count] slots. *)
Definition is_guard_page (addr : Z) (s : gst) : bool :=
  existsb (fun slot => slot =? page_base_of addr)
    (take (Z.to_nat (GUARD_REGISTRY_COUNT s)) (GUARD_REGISTRY s)).

Definition alloc_stack_frame (s : gst) : gst * Z :=
  let '(a1, frame) := fa_alloc_dma32 (palloc (gpaging s)) in
  if negb (frame =? 0) then (set_gpaging (set_alloc a1 (gpaging s)) s, frame)
  else
    let '(a2, frame) := fa_alloc a1 in
    (set_gpaging (set_alloc a2 (gpaging s)) s, frame).

Definition stack_flags : Z := flags_set kernel NO_EXECUTE.

(** The page loop of [allocate_kernel_stack]: [n] pages from page [i] on; [false]
    is the early [return 0]. *)
Fixpoint map_stack_pages (n : nat) (i base_virt : Z) (s : gst) : option (gst * bool) :=
  match n with
  | O => Some (s, true)
  | S n' =>
      let virt := base_virt +w PAGING_PAGE_SIZE +w (i *w PAGING_PAGE_SIZE) in
      let '(s, phys) := alloc_stack_frame s in
      if phys =? 0 then Some (s, false)
      else
        match map_page virt phys stack_flags (gpaging s) with
        | Some (p, Ok _) => map_stack_pages n' (i + 1) base_virt (set_gpaging p s)
        | Some (p, Err _) => Some (set_gpaging p s, false)
        | None => None
        end
  end.

Definition allocate_kernel_stack (stack_pages : Z) (s : gst) : option (gst * Z) :=
  let slot_size := (stack_pages +w 1) *w PAGING_PAGE_SIZE in
  let slot_offset := NEXT_STACK_OFFSET s in
  let s := mkGuard (gpaging s) (GUARD_REGISTRY s) (GUARD_REGISTRY_COUNT s) (slot_offset +w slot_size) in
  let base_virt := KERNEL_STACK_AREA_BASE +w slot_offset in
  let '(s, _) := register_guard_page base_virt s in
  match map_stack_pages (Z.to_nat stack_pages) 0 base_virt s with
  | Some (s, true) => Some (s, base_virt +w ((stack_pages +w 1) *w PAGING_PAGE_SIZE))
  | Some (s, false) => Some (s, 0)
  | None => None
  end.

(** * C interface *)

Definition guard_page_init (s : gst) : gst := s.

Definition guard_page_register (virt_addr : Z) (s : gst) : gst * Z :=
  let '(s', b) := register_guard_page virt_addr s in (s', if b then 1 else 0).

Definition guard_page_is_guard_page (addr : Z) (s : gst) : Z := if is_guard_page addr s then 1 else 0.

Definition guard_page_alloc_kernel_stack (s : gst) : option (gst * Z) :=
  allocate_kernel_stack DEFAULT_STACK_PAGES s.
End GuardPage.
