(* ===== verification/GuardPageProps.v ===== *)
(** Kernel stacks with guard pages: what the module promises. *)

From S2P Require Import Prelude E820 Pmm PmmFacts PmmProps FrameAlloc Paging PagingFacts PagingProps Cow CowProps GuardPage.

Record guard_ok {A} (s : guard_state A) : Prop := {
  go_len : List.length (GUARD_REGISTRY s) = 64%nat;
  go_count : 0 <= GUARD_REGISTRY_COUNT s <= 64;
  go_offset : 0 <= NEXT_STACK_OFFSET s /\ NEXT_STACK_OFFSET s mod 4096 = 0;
}.

(** The slot of the next stack of [n] pages: the guard page and the stack. *)
Definition slot_base {A} (s : guard_state A) : Z := KERNEL_STACK_AREA_BASE + NEXT_STACK_OFFSET s.
Definition slot_top {A} (s : guard_state A) (n : Z) : Z := slot_base s + (n + 1) * 4096.

(** A small instance, for the witnesses. *)
Definition sample_guard : guard_state pmm_global := mkGuard sample_paging (replicate 64 0) 0 0.

(** * Lemmas *)

Section Props.
Context {A : Type} {Ops : FrameOps A} {Laws : FrameLaws A}.
Notation gst := (guard_state A).
Implicit Types (s : gst) (mg : PagingManager).

Lemma page_base_of_spec a : is_u64 a -> page_base_of a = a - a mod 4096.
Proof.
  intros. unfold page_base_of. change (PAGING_PAGE_SIZE - 1) with (2 ^ 12 - 1).
  by rewrite not64_mask by (done || lia).
Qed.

Lemma alloc_stack_frame_spec T mg s s' x : paging_ok T mg (gpaging s) -> alloc_stack_frame s = (s', x) ->
  GUARD_REGISTRY s' = GUARD_REGISTRY s /\ GUARD_REGISTRY_COUNT s' = GUARD_REGISTRY_COUNT s
  /\ NEXT_STACK_OFFSET s' = NEXT_STACK_OFFSET s /\ paging_ok T mg (gpaging s')
  /\ (forall v, view mg (gpaging s') v = view mg (gpaging s) v) /\ used_mono (gpaging s) (gpaging s')
  /\ (x <> 0 -> x mod 4096 = 0 /\ fa_used (palloc (gpaging s)) (x / 4096) = false
                /\ fa_used (palloc (gpaging s')) (x / 4096) = true).
Proof.
  intros Hok. pose proof (ok_alloc _ _ _ _ (pg_tables _ _ _ Hok)) as I.
  assert (forall a, granted fa_used fa_inv (palloc (gpaging s)) a x ->
    x mod 4096 = 0 /\ fa_used (palloc (gpaging s)) (x / 4096) = false /\ fa_used a (x / 4096) = true
    /\ forall f, fa_used (palloc (gpaging s)) f = true -> fa_used a f = true) as Hg.
  { intros a (f & _ & -> & Hf & Hu & _). unfold Pmm.PAGE_SIZE. rewrite Z.mod_mul, Z.div_mul by done.
    split_and!; try done; [by rewrite Hu, Z.eqb_refl|]. intros g Hg. by rewrite Hu, Hg, orb_true_r. }
  unfold alloc_stack_frame.
  destruct (fa_alloc_dma32 (palloc (gpaging s))) as [a1 f1] eqn:E1.
  apply fa_dma32_law in E1; [|done]. destruct E1 as [[-> ->]|[_ G1]].
  - cbn [negb Z.eqb]. destruct (fa_alloc (palloc (gpaging s))) as [a2 f2] eqn:E2. intros [= <- <-].
    apply fa_alloc_law in E2; [|done]. destruct E2 as [[-> ->]|G2].
    + replace (set_gpaging (set_alloc (palloc (gpaging s)) (gpaging s)) s) with s
        by (by destruct s as [[] ? ? ?]).
      split_and!; try done. by intros g Hug.
    + split_and!; try done; [by eapply grant_tables_ok| |intros _]; by apply Hg in G2 as (? & ? & ? & ?).
  - assert (f1 <> 0) as Hf1 by (destruct G1 as (f & Hf & -> & _); unfold Pmm.PAGE_SIZE; lia).
    destruct (Z.eqb_spec f1 0); [done|]. cbn [negb]. intros [= <- <-].
    split_and!; try done; [by eapply grant_tables_ok| |intros _]; by apply Hg in G1 as (? & ? & ? & ?).
Qed.

Lemma stack_flags_present x : is_present (pte_set x stack_flags) = true.
Proof. apply pte_set_present. by vm_compute. Qed.

(** The pages of the loop, on success and on failure. *)
Lemma map_stack_pages_spec mg : forall n i base s T, paging_ok T mg (gpaging s) ->
  0 <= i -> 0 <= base -> base mod 4096 = 0 ->
  let lo := base + 4096 + i * 4096 in
  let hi := lo + Z.of_nat n * 4096 in
  hi <= 2 ^ 47 ->
  (forall v, lo <= v < hi -> not_huge (view mg (gpaging s) v)) ->
  match map_stack_pages n i base s with
  | Some (s', b) => GUARD_REGISTRY s' = GUARD_REGISTRY s
      /\ GUARD_REGISTRY_COUNT s' = GUARD_REGISTRY_COUNT s /\ NEXT_STACK_OFFSET s' = NEXT_STACK_OFFSET s
      /\ used_mono (gpaging s) (gpaging s') /\ (exists T', paging_ok T' mg (gpaging s'))
      /\ (forall v, 0 <= v -> ~ (lo <= page_base mg v < hi) ->
            view mg (gpaging s') v = view mg (gpaging s) v)
      /\ (b = true -> exists xs, List.length xs = n /\ NoDup xs
            /\ forall k x, xs !! k = Some x -> x mod 4096 = 0
                 /\ fa_used (palloc (gpaging s)) (x / 4096) = false
                 /\ fa_used (palloc (gpaging s')) (x / 4096) = true
                 /\ view mg (gpaging s') (lo + Z.of_nat k * 4096) = Some (PageLeaf (pte_set x stack_flags)))
  | None => False
  end.
Proof.
  induction n as [|n IH]; intros i base s T Hok Hi Hb Hbm lo hi Hmax Hnh; cbn [map_stack_pages].
  { split_and!; try done; [by intros g Hug|by exists T|]. intros _. exists []. split_and!; [done|constructor|].
    intros k x Hk. by rewrite lookup_nil in Hk. }
  destruct (alloc_stack_frame s) as [s1 x] eqn:Ea.
  destruct (alloc_stack_frame_spec T mg s s1 x Hok Ea) as (R1 & R2 & R3 & Hok1 & Hv1 & Hm1 & Hx).
  destruct (Z.eqb_spec x 0) as [->|Hxn].
  { split_and!; try done. by exists T. }
  destruct (Hx Hxn) as (Hxm & Hxf & Hxu).
  assert (base +w PAGING_PAGE_SIZE +w (i *w PAGING_PAGE_SIZE) = lo) as ->.
  { unfold PAGING_PAGE_SIZE. unfold hi, lo in *. rewrite mul64_small by (unfold U64; lia).
    rewrite (add64_small base) by (unfold U64; lia). rewrite add64_small by (unfold U64; lia). lia. }
  assert (lo mod 4096 = 0) as Hlm by (subst lo; dlia).
  assert (not_huge (view mg (gpaging s1) lo)) as Hnh1 by (rewrite Hv1; apply Hnh; lia).
  pose proof (map_page_spec T mg (gpaging s1) lo x stack_flags Hok1 (canonical_small mg lo ltac:(lia))
    (proj2 (is_aligned_mod x) Hxm) Hnh1) as Hmp.
  destruct (map_page lo x stack_flags (gpaging s1)) as [[t [u|e]]|]; [| |done].
  2:{ destruct Hmp as (Hm2 & T2 & Hok2 & _ & Hv2). split_and!; try done.
      - intros g Hg. by apply Hm2, Hm1.
      - by exists T2.
      - intros v _ _. cbn. by rewrite Hv2. }
  destruct Hmp as (Hm2 & T2 & Hok2 & _ & Hv2). rewrite stack_flags_present in Hv2.
  assert (forall v, 0 <= v -> same_page mg v lo <-> page_base mg v = lo) as Hsp.
  { intros v Hv. rewrite same_page_base, (page_base_small mg lo) by lia. by rewrite Hlm, Z.sub_0_r. }
  specialize (IH (i + 1) base (set_gpaging t s1) T2 Hok2 ltac:(lia) Hb Hbm).
  cbv zeta in IH. replace (base + 4096 + (i + 1) * 4096) with (lo + 4096) in IH by lia.
  replace (lo + 4096 + Z.of_nat n * 4096) with hi in IH by lia.
  specialize (IH Hmax). cbn [gpaging set_gpaging] in IH.
  assert (forall v, lo + 4096 <= v < hi -> not_huge (view mg t v)) as Hnh2.
  { intros v Hv. rewrite Hv2. case_decide; [done|]. rewrite Hv1. apply Hnh. lia. }
  specialize (IH Hnh2). destruct (map_stack_pages n (i + 1) base (set_gpaging t s1)) as [[s' b]|]; [|done].
  destruct IH as (Q1 & Q2 & Q3 & Hm3 & Hok3 & Hv3 & Hxs). cbn [set_gpaging] in Q1, Q2, Q3. split_and!.
  - by rewrite Q1.
  - by rewrite Q2.
  - by rewrite Q3.
  - intros g Hg. by apply Hm3, Hm2, Hm1.
  - done.
  - intros v Hv Hout. rewrite Hv3 by lia. rewrite Hv2, decide_False, Hv1; [done|].
    rewrite Hsp by done. lia.
  - intros ->. destruct (Hxs eq_refl) as (xs & Hl & Hnd & Hall). exists (x :: xs). split_and!.
    + cbn. by rewrite Hl.
    + apply NoDup_cons. split; [|done]. intros Hin. apply list_elem_of_lookup in Hin as [k Hk].
      destruct (Hall k x Hk) as (_ & Hf & _). apply Hm2 in Hxu. congruence.
    + intros [|k] y Hy.
      * injection Hy as <-. split_and!; [done|done|by apply Hm3, Hm2|].
        rewrite Z.mul_0_l, Z.add_0_r, Hv3, Hv2, decide_True; [done|by apply Hsp; [lia|rewrite page_base_small, Hlm by lia; lia]|lia|].
        rewrite page_base_small, Hlm by lia. lia.
      * destruct (Hall k y Hy) as (Y1 & Y2 & Y3 & Y4). split_and!; [done| |done|].
        { destruct (fa_used (palloc (gpaging s)) (y / 4096)) eqn:E; [|done].
          apply Hm1, Hm2 in E. congruence. }
        rewrite <- Y4. f_equal. lia.
Qed.

Lemma take_insert_next (l : list Z) i x : (i < List.length l)%nat ->
  take (S i) (<[i := x]> l) = take i l ++ [x].
Proof.
  intros Hi. rewrite (take_S_r _ _ x) by (by apply list_lookup_insert_eq).
  by rewrite take_insert_ge by lia.
Qed.

Lemma register_guard_spec a s : guard_ok s -> is_u64 a ->
  match register_guard_page a s with
  | (s', true) => gpaging s' = gpaging s /\ NEXT_STACK_OFFSET s' = NEXT_STACK_OFFSET s /\ guard_ok s'
      /\ forall b, is_u64 b -> is_guard_page b s' = (b / 4096 =? a / 4096) || is_guard_page b s
  | (s', false) => s' = s /\ GUARD_REGISTRY_COUNT s = 64
  end.
Proof.
  intros [Hl Hc Ho] Ha. unfold register_guard_page, MAX_GUARD_PAGES.
  destruct (Z.leb_spec 64 (GUARD_REGISTRY_COUNT s)); [split; [done|lia]|].
  split_and!; [done|done| |].
  - constructor; cbn; [by rewrite length_insert|lia|done].
  - intros b Hb. unfold is_guard_page. cbn [GUARD_REGISTRY GUARD_REGISTRY_COUNT].
    replace (Z.to_nat (GUARD_REGISTRY_COUNT s + 1)) with (S (Z.to_nat (GUARD_REGISTRY_COUNT s))) by lia.
    rewrite take_insert_next by lia. rewrite existsb_app. cbn [existsb]. rewrite orb_false_r, orb_comm. f_equal.
    rewrite !page_base_of_spec by done.
    destruct (Z.eqb_spec (a - a mod 4096) (b - b mod 4096)), (Z.eqb_spec (b / 4096) (a / 4096)); try done; dlia.
Qed.
End Props.

(** * Properties *)

(** [allocate_kernel_stack], on every outcome. *)
Lemma kernel_stack_spec {A} `{FrameLaws A} T mg (s : guard_state A) n :
  guard_ok s -> paging_ok T mg (gpaging s) -> 0 <= n -> slot_top s n <= 2 ^ 47 ->
  (forall v, slot_base s <= v < slot_top s n -> not_huge (view mg (gpaging s) v)) ->
  match allocate_kernel_stack n s with
  | Some (s', r) => guard_ok s' /\ (exists T', paging_ok T' mg (gpaging s'))
      /\ slot_base s' = slot_top s n
      /\ (forall v, 0 <= v -> ~ (slot_base s + 4096 <= page_base mg v < slot_top s n) ->
            view mg (gpaging s') v = view mg (gpaging s) v)
      /\ (forall a, is_u64 a -> is_guard_page a s'
            = ((GUARD_REGISTRY_COUNT s <? 64) && (a / 4096 =? slot_base s / 4096)) || is_guard_page a s)
      /\ (r <> 0 -> r = slot_top s n /\ exists xs, List.length xs = Z.to_nat n /\ NoDup xs
            /\ forall k x, xs !! k = Some x ->
                 x mod 4096 = 0 /\ fa_used (palloc (gpaging s)) (x / 4096) = false
                 /\ fa_used (palloc (gpaging s')) (x / 4096) = true
                 /\ view mg (gpaging s') (slot_base s + 4096 + Z.of_nat k * 4096)
                     = Some (PageLeaf (pte_set x stack_flags)))
  | None => False
  end.
Proof.
  intros Hg Hok Hn Htop Hnh. unfold allocate_kernel_stack. pose proof Hg as [Hl Hc [Ho1 Ho2]].
  unfold slot_top, slot_base, KERNEL_STACK_AREA_BASE, PAGING_PAGE_SIZE in *.
  rewrite !(add64_small n), !mul64_small, !add64_small by (unfold U64; lia).
  set (base := 33554432 + NEXT_STACK_OFFSET s) in *.
  set (s0 := mkGuard _ _ _ _).
  assert (guard_ok s0) as Hg0 by (constructor; cbn; [done|done|split; [lia|dlia]]).
  pose proof (register_guard_spec base s0 Hg0 ltac:(unfold is_u64, U64; lia)) as Hr.
  destruct (register_guard_page base s0) as [s1 b] eqn:Er.
  assert (gpaging s1 = gpaging s /\ NEXT_STACK_OFFSET s1 = NEXT_STACK_OFFSET s + (n + 1) * 4096 /\ guard_ok s1
    /\ forall a, is_u64 a -> is_guard_page a s1
         = ((GUARD_REGISTRY_COUNT s <? 64) && (a / 4096 =? base / 4096)) || is_guard_page a s)
    as (P1 & P2 & P3 & P4).
  { destruct b.
    - destruct Hr as (-> & -> & Hg1 & Hgp). split_and!; [done|done|done|]. intros a Ha. rewrite Hgp by done.
      unfold register_guard_page, MAX_GUARD_PAGES in Er. destruct (Z.leb_spec 64 (GUARD_REGISTRY_COUNT s0)); [done|].
      change (GUARD_REGISTRY_COUNT s0) with (GUARD_REGISTRY_COUNT s) in *.
      destruct (Z.ltb_spec (GUARD_REGISTRY_COUNT s) 64); [done|lia].
    - destruct Hr as [-> Hc64]. split_and!; [done|done|done|]. intros a Ha.
      change (GUARD_REGISTRY_COUNT s0) with (GUARD_REGISTRY_COUNT s) in *. by rewrite Hc64. }
  pose proof (map_stack_pages_spec mg (Z.to_nat n) 0 base s1 T ltac:(by rewrite P1) ltac:(lia) ltac:(lia)
    ltac:(subst base; dlia)) as Hm.
  cbv zeta in Hm. rewrite Z2Nat.id, Z.mul_0_l, Z.add_0_r, P1 in Hm by done.
  specialize (Hm ltac:(lia) ltac:(intros v Hv; apply Hnh; lia)).
  replace (base + 4096 + n * 4096) with (base + (n + 1) * 4096) in Hm by lia.
  destruct (map_stack_pages (Z.to_nat n) 0 base s1) as [[s2 ok]|]; [|done].
  destruct Hm as (Q1 & Q2 & Q3 & _ & Hok2 & Hv & Hxs).
  assert (guard_ok s2) as Hg2 by (destruct P3; constructor; rewrite ?Q1, ?Q2, ?Q3; done).
  assert (forall a, is_guard_page a s2 = is_guard_page a s1) as Hgp
    by (intros a; unfold is_guard_page; by rewrite Q1, Q2).
  destruct ok; (split_and!; [done|done|rewrite Q3, P2; lia|exact Hv|intros a Ha; rewrite Hgp; by apply P4|]); [|done].
  intros _. split; [done|]. destruct (Hxs eq_refl) as (xs & H1 & H2 & H3). by exists xs.
Qed.

(** [allocate_kernel_stack], when the slot lies below 2^47 and no huge page
    maps it: it never dereferences null, advances the bump offset past the slot,
    changes no page outside the stack's own pages (so the guard page keeps its
    mapping) and keeps the page tables well-formed.  A returned stack pointer is
    the top of the slot, and every stack page below it is mapped writable and
    non-executable to its own frame that was free; the guard page is recognised
    unless the registry was full. *)
Theorem kernel_stack_correct {A} `{FrameLaws A} T mg (s : guard_state A) n :
  guard_ok s -> paging_ok T mg (gpaging s) -> 0 <= n -> slot_top s n <= 2 ^ 47 ->
  (forall v, slot_base s <= v < slot_top s n -> not_huge (view mg (gpaging s) v)) ->
  match allocate_kernel_stack n s with
  | Some (s', r) => guard_ok s' /\ (exists T', paging_ok T' mg (gpaging s'))
      /\ slot_base s' = slot_top s n
      /\ (forall v, 0 <= v -> ~ (slot_base s + 4096 <= page_base mg v < slot_top s n) ->
            view mg (gpaging s') v = view mg (gpaging s) v)
      /\ (forall a, is_u64 a -> is_guard_page a s'
            = ((GUARD_REGISTRY_COUNT s <? 64) && (a / 4096 =? slot_base s / 4096)) || is_guard_page a s)
      /\ (r <> 0 -> r = slot_top s n /\ exists xs, List.length xs = Z.to_nat n /\ NoDup xs
            /\ forall k x, xs !! k = Some x ->
                 x mod 4096 = 0 /\ fa_used (palloc (gpaging s)) (x / 4096) = false
                 /\ fa_used (palloc (gpaging s')) (x / 4096) = true
                 /\ view mg (gpaging s') (slot_base s + 4096 + Z.of_nat k * 4096)
                     = Some (PageLeaf (pte_set x stack_flags)))
  | None => False
  end.
Proof. exact (kernel_stack_spec T mg s n). Qed.

(** * Witnesses *)

Lemma kernel_stack_correct_witness :
  exists s', allocate_kernel_stack 2 sample_guard = Some (s', 33566720)
    /\ is_guard_page 33554440 s' = true
    /\ exists x, view sample_mgr (gpaging s') 33558528 = Some (PageLeaf (pte_set x stack_flags)).
Proof.
  pose proof (kernel_stack_correct sample_types sample_mgr sample_guard 2
    ltac:(constructor; [done|done|split; done]) sample_paging_ok ltac:(lia) ltac:(by vm_compute)) as H.
  assert (forall v, slot_base sample_guard <= v < slot_top sample_guard 2 ->
    not_huge (view sample_mgr sample_paging v)) as Hn.
  { intros v Hv. change (slot_base sample_guard) with 33554432 in Hv.
    change (slot_top sample_guard 2) with 33566720 in Hv.
    assert (exists b, view sample_mgr sample_paging v = view sample_mgr sample_paging b
      /\ (b = 33554432 \/ b = 33558528 \/ b = 33562624)) as (b & E & Hb).
    { exists (v - v mod 4096). split; [|dlia]. apply leaf_same_path.
      apply same_page_base; [lia|dlia|]. rewrite !page_base_small by dlia. dlia. }
    rewrite E. destruct Hb as [->|[->| ->]]; by apply sample_not_huge. }
  specialize (H Hn).
  assert (snd <$> allocate_kernel_stack 2 sample_guard = Some 33566720) as E by (by vm_compute).
  destruct (allocate_kernel_stack 2 sample_guard) as [[s' r]|]; [|done].
  injection E as ->. exists s'. split; [reflexivity|].
  destruct H as (_ & _ & _ & _ & Hg & Hx). split.
  - rewrite Hg by (by vm_compute). by vm_compute.
  - destruct (Hx ltac:(done)) as (_ & [|x xs] & Hl & _ & Hall); [discriminate Hl|].
    exists x. exact (proj2 (proj2 (proj2 (Hall 0%nat x eq_refl)))).
Defined.
