(* ===== verification/Packed.v ===== *)
(** Packed structures: [#[repr(C, packed)]] structs as the bytes they occupy.

    The code copies such structs bytewise between buffers and locals, so a value
    of one is a list of bytes, and its declaration is the list of its fields with
    their widths.  A field is read as a little-endian integer at its offset. *)

From S2P Require Import Prelude.

Abbreviation bytes := (list Z).

(** A value of type [[u8]]. *)
Definition is_bytes (bs : bytes) : Prop := Forall is_u8 bs.

(** * Little-endian integers *)

Fixpoint le (bs : bytes) : Z :=
  match bs with
  | [] => 0
  | b :: t => b + 256 * le t
  end.

Fixpoint to_le (n : nat) (v : Z) : bytes :=
  match n with
  | O => []
  | S n' => v mod 256 :: to_le n' (v / 256)
  end.

(** * Slices

    [&buf[off..off + n]] and a raw read of [n] bytes at [off]: outside the buffer
    the former panics and the latter is undefined behaviour. *)

Definition slice (buf : bytes) (off n : Z) : option bytes :=
  if (0 <=? off) && (0 <=? n) && (off + n <=? Z.of_nat (length buf))
  then Some (take (Z.to_nat n) (drop (Z.to_nat off) buf)) else None.

(** [copy_nonoverlapping(src, &mut buf[off..])]. *)
Definition splice (buf : bytes) (off : Z) (src : bytes) : option bytes :=
  if (0 <=? off) && (off + Z.of_nat (length src) <=? Z.of_nat (length buf))
  then Some (take (Z.to_nat off) buf ++ src
             ++ drop (Z.to_nat off + length src) buf)
  else None.

(** * Layouts *)

Abbreviation layout := (list (string * nat)).

Fixpoint size_of (L : layout) : nat :=
  match L with
  | [] => O
  | (_, w) :: L' => (w + size_of L')%nat
  end.

(** The offset and the width of a field. *)
Fixpoint field_at (L : layout) (f : string) : nat * nat :=
  match L with
  | [] => (O, O)
  | (g, w) :: L' =>
      if String.eqb f g then (O, w)
      else let '(o, w') := field_at L' f in ((w + o)%nat, w')
  end.

Definition field_bytes (L : layout) (f : string) (s : bytes) : bytes :=
  let '(o, w) := field_at L f in take w (drop o s).

(** [s.f], and [s.f = v]. *)
Definition field (L : layout) (f : string) (s : bytes) : Z := le (field_bytes L f s).
Definition set_field (L : layout) (f : string) (v : Z) (s : bytes) : bytes :=
  let '(o, w) := field_at L f in take o s ++ to_le w v ++ drop (o + w) s.

(** [mem::zeroed()]. *)
Definition zeros (n : nat) : bytes := replicate n 0.

(** * Lemmas *)

Lemma le_range bs : is_bytes bs -> 0 <= le bs < 256 ^ Z.of_nat (length bs).
Proof.
  induction 1 as [|b t Hb Ht IH]; [cbn; lia|]. cbn [le length].
  rewrite Nat2Z.inj_succ, Z.pow_succ_r by lia. unfold is_u8 in Hb.
  revert IH. generalize (256 ^ Z.of_nat (length t)). intros. nia.
Qed.

Lemma length_to_le n v : length (to_le n v) = n.
Proof. revert v. induction n as [|n IH]; intros; cbn; [done|by rewrite IH]. Qed.

Lemma to_le_bytes n v : is_bytes (to_le n v).
Proof.
  revert v. induction n as [|n IH]; intros v; cbn; [by constructor|].
  constructor; [|apply IH]. apply Z.mod_pos_bound. lia.
Qed.

Lemma le_to_le n v : le (to_le n v) = v mod 256 ^ Z.of_nat n.
Proof.
  revert v. induction n as [|n IH]; intros v.
  { cbn. by rewrite Z.mod_1_r. }
  cbn [to_le le]. rewrite IH, Nat2Z.inj_succ, Z.pow_succ_r by lia.
  rewrite Z.rem_mul_r by lia. lia.
Qed.

Lemma to_le_le bs : is_bytes bs -> to_le (length bs) (le bs) = bs.
Proof.
  induction 1 as [|b t Hb Ht IH]; [done|]. cbn [length le to_le].
  unfold is_u8 in Hb. f_equal; [dlia|].
  replace ((b + 256 * le t) / 256) with (le t) by dlia. done.
Qed.

Lemma is_bytes_take n bs : is_bytes bs -> is_bytes (take n bs).
Proof. apply Forall_take. Qed.
Lemma is_bytes_drop n bs : is_bytes bs -> is_bytes (drop n bs).
Proof. apply Forall_drop. Qed.
Lemma is_bytes_app a b : is_bytes a -> is_bytes b -> is_bytes (a ++ b).
Proof. intros. by apply Forall_app. Qed.
Lemma is_bytes_zeros n : is_bytes (zeros n).
Proof. apply Forall_replicate. unfold is_u8. lia. Qed.

Create HintDb bytes discriminated.
#[export] Hint Resolve is_bytes_take is_bytes_drop is_bytes_app is_bytes_zeros to_le_bytes : bytes.

Lemma field_range L f s :
  is_bytes s -> 0 <= field L f s < 256 ^ Z.of_nat (snd (field_at L f)).
Proof.
  intros Hs. unfold field, field_bytes. destruct (field_at L f) as [o w].
  pose proof (le_range (take w (drop o s)) ltac:(auto with bytes)) as H.
  cbn [snd]. split; [lia|]. eapply Z.lt_le_trans; [apply H|].
  apply Z.pow_le_mono_r; [lia|]. rewrite length_take. lia.
Qed.

Lemma slice_some buf off n :
  0 <= off -> 0 <= n -> off + n <= Z.of_nat (length buf) ->
  slice buf off n = Some (take (Z.to_nat n) (drop (Z.to_nat off) buf)).
Proof.
  intros. unfold slice.
  destruct (Z.leb_spec 0 off), (Z.leb_spec 0 n), (Z.leb_spec (off + n) (Z.of_nat (length buf)));
    try lia. done.
Qed.

Lemma slice_spec buf off n bs : slice buf off n = Some bs ->
  0 <= off /\ 0 <= n /\ off + n <= Z.of_nat (length buf)
  /\ bs = take (Z.to_nat n) (drop (Z.to_nat off) buf) /\ Z.of_nat (length bs) = n.
Proof.
  unfold slice.
  destruct (Z.leb_spec 0 off), (Z.leb_spec 0 n), (Z.leb_spec (off + n) (Z.of_nat (length buf)));
    cbn; try done.
  intros [= <-]. split_and!; try lia; [done|]. rewrite length_take, length_drop. lia.
Qed.

Lemma slice_bytes buf off n bs : is_bytes buf -> slice buf off n = Some bs -> is_bytes bs.
Proof. intros H (_ & _ & _ & -> & _)%slice_spec. auto with bytes. Qed.

Lemma splice_some buf off src :
  0 <= off -> off + Z.of_nat (length src) <= Z.of_nat (length buf) ->
  splice buf off src = Some (take (Z.to_nat off) buf ++ src ++ drop (Z.to_nat off + length src) buf).
Proof.
  intros. unfold splice.
  destruct (Z.leb_spec 0 off), (Z.leb_spec (off + Z.of_nat (length src)) (Z.of_nat (length buf)));
    try lia. done.
Qed.

Lemma splice_length buf off src buf' :
  splice buf off src = Some buf' -> length buf' = length buf.
Proof.
  unfold splice.
  destruct (Z.leb_spec 0 off), (Z.leb_spec (off + Z.of_nat (length src)) (Z.of_nat (length buf)));
    cbn; try done.
  intros [= <-]. rewrite !length_app, length_take, length_drop. lia.
Qed.

(** What is read back after a copy: the copied bytes at their place, the old
    bytes elsewhere. *)
Lemma splice_slice_same buf off src buf' :
  splice buf off src = Some buf' -> slice buf' off (Z.of_nat (length src)) = Some src.
Proof.
  intros H. pose proof (splice_length _ _ _ _ H) as Hl. revert H. unfold splice.
  destruct (Z.leb_spec 0 off), (Z.leb_spec (off + Z.of_nat (length src)) (Z.of_nat (length buf)));
    cbn; try done.
  intros [= <-]. rewrite slice_some by lia. f_equal.
  rewrite drop_app_length' by (rewrite length_take; lia). rewrite Nat2Z.id.
  by rewrite take_app_length.
Qed.

Lemma splice_lookup buf off src buf' i : splice buf off src = Some buf' ->
  buf' !! i = if decide (off <= Z.of_nat i < off + Z.of_nat (length src))
              then src !! (i - Z.to_nat off)%nat else buf !! i.
Proof.
  unfold splice.
  destruct (Z.leb_spec 0 off), (Z.leb_spec (off + Z.of_nat (length src)) (Z.of_nat (length buf)));
    cbn; try done.
  intros [= <-]. case_decide.
  - rewrite lookup_app_r by (rewrite length_take; lia). rewrite length_take.
    rewrite lookup_app_l by lia. f_equal. lia.
  - destruct (decide (Z.of_nat i < off)).
    + rewrite lookup_app_l by (rewrite length_take; lia). apply lookup_take_lt. lia.
    + rewrite lookup_app_r by (rewrite length_take; lia). rewrite length_take.
      rewrite lookup_app_r by lia. rewrite lookup_drop. f_equal. lia.
Qed.

Lemma splice_bytes buf off src buf' :
  is_bytes buf -> is_bytes src -> splice buf off src = Some buf' -> is_bytes buf'.
Proof.
  unfold splice. intros Hb Hs.
  destruct (Z.leb_spec 0 off), (Z.leb_spec (off + Z.of_nat (length src)) (Z.of_nat (length buf)));
    cbn; try done.
  intros [= <-]. auto with bytes.
Qed.

(** A field of a struct that is long enough, after a store to it and after a
    store to a field that does not overlap it. *)
Lemma field_set_same L f v s :
  (fst (field_at L f) + snd (field_at L f) <= length s)%nat ->
  field L f (set_field L f v s) = v mod 256 ^ Z.of_nat (snd (field_at L f)).
Proof.
  unfold field, field_bytes, set_field. destruct (field_at L f) as [o w]. cbn. intros H.
  rewrite drop_app_length' by (rewrite length_take; lia).
  rewrite take_app_length' by (by rewrite length_to_le). apply le_to_le.
Qed.

Lemma field_set_other L f g v s :
  let '(o, w) := field_at L f in let '(o', w') := field_at L g in
  (o + w <= length s)%nat -> (o' + w' <= o \/ o + w <= o')%nat ->
  field L g (set_field L f v s) = field L g s.
Proof.
  unfold field, field_bytes, set_field.
  destruct (field_at L f) as [o w] eqn:Ef, (field_at L g) as [o' w'] eqn:Eg.
  intros Hl Hd. f_equal. apply list_eq. intros i.
  destruct (decide (i < w')%nat).
  2:{ rewrite !lookup_ge_None_2; [done| |]; rewrite length_take; lia. }
  rewrite !lookup_take_lt by done. rewrite !lookup_drop.
  destruct Hd.
  - rewrite lookup_app_l by (rewrite length_take; lia). apply lookup_take_lt. lia.
  - rewrite lookup_app_r by (rewrite length_take; lia).
    rewrite lookup_app_r by (rewrite length_to_le, length_take; lia).
    rewrite lookup_drop, length_to_le, length_take. f_equal. lia.
Qed.

Lemma length_set_field L f v s :
  (fst (field_at L f) + snd (field_at L f) <= length s)%nat -> length (set_field L f v s) = length s.
Proof.
  unfold set_field. destruct (field_at L f) as [o w]. cbn. intros.
  rewrite !length_app, length_take, length_drop, length_to_le. lia.
Qed.

#[global] Arguments field : simpl never.
#[global] Arguments set_field : simpl never.
#[global] Arguments field_bytes : simpl never.
