(* ===== verification/Ext4Layout.v ===== *)
(** Data of the ext4 driver: [drivers/ext4journaling/ext4journaling.rs], from the
    constants to the structs and their accessors.

    A packed struct is the bytes it occupies ([Packed]); its declaration is the
    layout of the same name. *)

From S2P Require Import Prelude Packed.

Definition EXT4_SUPER_MAGIC : Z := 61267.
Definition EXT4_SUPERBLOCK_OFFSET : Z := 1024.
Definition EXT4_ROOT_INODE : Z := 2.
Definition EXT4_EXTENTS_FL : Z := 524288.
Definition EXT4_FEATURE_COMPAT_HAS_JOURNAL : Z := 4.
Definition EXT4_FEATURE_INCOMPAT_RECOVER : Z := 4.
Definition EXT4_FEATURE_INCOMPAT_EXTENTS : Z := 64.
Definition EXT4_FEATURE_INCOMPAT_64BIT : Z := 128.
Definition JBD2_MAGIC_NUMBER : Z := 3225106840.
Definition JBD2_DESCRIPTOR_BLOCK : Z := 1.
Definition JBD2_COMMIT_BLOCK : Z := 2.
Definition EXT4_MIN_BLOCK_SIZE : Z := 1024.
Definition EXT4_NAME_LEN : Z := 255.
Definition EXT4_NDIR_BLOCKS : Z := 12.
Definition EXT4_IND_BLOCK : Z := 12.
Definition EXT4_DIND_BLOCK : Z := 13.
Definition EXT4_TIND_BLOCK : Z := 14.
Definition EXT4_EXT_MAGIC : Z := 62218.
Definition EXT4_MMAP_SCRATCH_SIZE : Z := 4096.

(** The error codes ([Journal] is [JournalError] here). *)
Inductive Ext4Error : Type :=
| Success | InvalidMagic | Io | NoMem | NotFound | Invalid | JournalError | NoSpace | Permission.

#[export] Instance Ext4Error_eq_dec : EqDecision Ext4Error.
Proof. solve_decision. Defined.

(** [self as i32]. *)
Definition Ext4Error_code (e : Ext4Error) : Z :=
  match e with
  | Success => 0 | InvalidMagic => -1 | Io => -2 | NoMem => -3 | NotFound => -4
  | Invalid => -5 | JournalError => -6 | NoSpace => -7 | Permission => -8
  end.

Definition is_success (e : Ext4Error) : bool :=
  match e with Success => true | _ => false end.

(** * Structs *)

Definition Ext4Superblock : layout :=
  [("s_inodes_count", 4); ("s_blocks_count_lo", 4); ("s_r_blocks_count_lo", 4);
    ("s_free_blocks_count_lo", 4); ("s_free_inodes_count", 4); ("s_first_data_block", 4);
    ("s_log_block_size", 4); ("s_log_cluster_size", 4); ("s_blocks_per_group", 4);
    ("s_clusters_per_group", 4); ("s_inodes_per_group", 4); ("s_mtime", 4); ("s_wtime", 4);
    ("s_mnt_count", 2); ("s_max_mnt_count", 2); ("s_magic", 2); ("s_state", 2);
    ("s_errors", 2); ("s_minor_rev_level", 2); ("s_lastcheck", 4); ("s_checkinterval", 4);
    ("s_creator_os", 4); ("s_rev_level", 4); ("s_def_resuid", 2); ("s_def_resgid", 2);
    ("s_first_ino", 4); ("s_inode_size", 2); ("s_block_group_nr", 2); ("s_feature_compat", 4);
    ("s_feature_incompat", 4); ("s_feature_ro_compat", 4); ("s_uuid", 16);
    ("s_volume_name", 16); ("s_last_mounted", 64); ("s_algorithm_usage_bitmap", 4);
    ("s_prealloc_blocks", 1); ("s_prealloc_dir_blocks", 1); ("s_reserved_gdt_blocks", 2);
    ("s_journal_uuid", 16); ("s_journal_inum", 4); ("s_journal_dev", 4); ("s_last_orphan", 4);
    ("s_hash_seed", 16); ("s_def_hash_version", 1); ("s_jnl_backup_type", 1);
    ("s_desc_size", 2); ("s_default_mount_opts", 4); ("s_first_meta_bg", 4);
    ("s_mkfs_time", 4); ("s_jnl_blocks", 68); ("s_blocks_count_hi", 4);
    ("s_r_blocks_count_hi", 4); ("s_free_blocks_count_hi", 4); ("s_min_extra_isize", 2);
    ("s_want_extra_isize", 2); ("s_flags", 4); ("s_raid_stride", 2); ("s_mmp_interval", 2);
    ("s_mmp_block", 8); ("s_raid_stripe_width", 4); ("s_log_groups_per_flex", 1);
    ("s_checksum_type", 1); ("s_reserved_pad", 2); ("s_kbytes_written", 8);
    ("s_snapshot_inum", 4); ("s_snapshot_id", 4); ("s_snapshot_r_blocks_count", 8);
    ("s_snapshot_list", 4); ("s_error_count", 4); ("s_first_error_time", 4);
    ("s_first_error_ino", 4); ("s_first_error_block", 8); ("s_first_error_func", 32);
    ("s_first_error_line", 4); ("s_last_error_time", 4); ("s_last_error_ino", 4);
    ("s_last_error_line", 4); ("s_last_error_block", 8); ("s_last_error_func", 32);
    ("s_mount_opts", 64); ("s_usr_quota_inum", 4); ("s_grp_quota_inum", 4);
    ("s_overhead_blocks", 4); ("s_backup_bgs", 8); ("s_encrypt_algos", 4);
    ("s_encrypt_pw_salt", 16); ("s_lpf_ino", 4); ("s_prj_quota_inum", 4);
    ("s_checksum_seed", 4); ("s_reserved", 392); ("s_checksum", 4)]%nat.

Definition Ext4GroupDesc : layout :=
  [("bg_block_bitmap_lo", 4); ("bg_inode_bitmap_lo", 4); ("bg_inode_table_lo", 4);
    ("bg_free_blocks_count_lo", 2); ("bg_free_inodes_count_lo", 2);
    ("bg_used_dirs_count_lo", 2); ("bg_flags", 2); ("bg_exclude_bitmap_lo", 4);
    ("bg_block_bitmap_csum_lo", 2); ("bg_inode_bitmap_csum_lo", 2); ("bg_itable_unused_lo", 2);
    ("bg_checksum", 2); ("bg_block_bitmap_hi", 4); ("bg_inode_bitmap_hi", 4);
    ("bg_inode_table_hi", 4); ("bg_free_blocks_count_hi", 2); ("bg_free_inodes_count_hi", 2);
    ("bg_used_dirs_count_hi", 2); ("bg_itable_unused_hi", 2); ("bg_exclude_bitmap_hi", 4);
    ("bg_block_bitmap_csum_hi", 2); ("bg_inode_bitmap_csum_hi", 2); ("bg_reserved", 4)]%nat.

Definition Ext4Inode : layout :=
  [("i_mode", 2); ("i_uid", 2); ("i_size_lo", 4); ("i_atime", 4); ("i_ctime", 4);
    ("i_mtime", 4); ("i_dtime", 4); ("i_gid", 2); ("i_links_count", 2); ("i_blocks_lo", 4);
    ("i_flags", 4); ("i_osd1", 4); ("i_block", 60); ("i_generation", 4); ("i_file_acl_lo", 4);
    ("i_size_hi", 4); ("i_obso_faddr", 4); ("i_blocks_hi", 2); ("i_file_acl_hi", 2);
    ("i_uid_hi", 2); ("i_gid_hi", 2); ("i_checksum_lo", 2); ("i_reserved", 2);
    ("i_extra_isize", 2); ("i_checksum_hi", 2); ("i_ctime_extra", 4); ("i_mtime_extra", 4);
    ("i_atime_extra", 4); ("i_crtime", 4); ("i_crtime_extra", 4); ("i_version_hi", 4);
    ("i_projid", 4)]%nat.

Definition Ext4DirEntry : layout :=
  [("inode", 4); ("rec_len", 2); ("name_len", 1); ("file_type", 1); ("name", 255)]%nat.

Definition Ext4ExtentHeader : layout :=
  [("eh_magic", 2); ("eh_entries", 2); ("eh_max", 2); ("eh_depth", 2); ("eh_generation", 4)]%nat.

Definition Ext4ExtentIdx : layout :=
  [("ei_block", 4); ("ei_leaf_lo", 4); ("ei_leaf_hi", 2); ("ei_unused", 2)]%nat.

Definition Ext4Extent : layout :=
  [("ee_block", 4); ("ee_len", 2); ("ee_start_hi", 2); ("ee_start_lo", 4)]%nat.

Definition Jbd2Header : layout :=
  [("h_magic", 4); ("h_blocktype", 4); ("h_sequence", 4)]%nat.

Definition Jbd2Superblock : layout :=
  [("s_header", 12); ("s_blocksize", 4); ("s_maxlen", 4); ("s_first", 4); ("s_sequence", 4);
    ("s_start", 4); ("s_errno", 4); ("s_feature_compat", 4); ("s_feature_incompat", 4);
    ("s_feature_ro_compat", 4); ("s_uuid", 16); ("s_nr_users", 4); ("s_dynsuper", 4);
    ("s_max_transaction", 4); ("s_max_trans_data", 4); ("s_checksum_type", 1);
    ("s_padding2", 3); ("s_padding", 168); ("s_checksum", 4); ("s_users", 768)]%nat.

Definition Jbd2BlockTag : layout :=
  [("t_blocknr", 4); ("t_checksum", 2); ("t_flags", 2); ("t_blocknr_hi", 4)]%nat.

(** * Accessors *)

(** [(lo as u64) | ((hi as u64) << 32)], and the 32-bit one. *)
Definition join64 (lo hi : Z) : Z := Z.lor lo (wrap64 (Z.shiftl hi 32)).
Definition join32 (lo hi : Z) : Z := Z.lor lo (wrap32 (Z.shiftl hi 16)).

Definition i_block_offset : nat := Eval vm_compute in fst (field_at Ext4Inode "i_block").
(** [inode.i_block[k]] for a literal or checked [k < 15]. *)
Definition i_block (i : bytes) (k : Z) : Z := le (take 4 (drop (i_block_offset + 4 * Z.to_nat k) i)).

Definition inode_size_of (i : bytes) : Z :=
  join64 (field Ext4Inode "i_size_lo" i) (field Ext4Inode "i_size_hi" i).
Definition inode_uid (i : bytes) : Z :=
  join32 (field Ext4Inode "i_uid" i) (field Ext4Inode "i_uid_hi" i).
Definition inode_gid (i : bytes) : Z :=
  join32 (field Ext4Inode "i_gid" i) (field Ext4Inode "i_gid_hi" i).
Definition uses_extents (i : bytes) : bool :=
  negb (Z.land (field Ext4Inode "i_flags" i) EXT4_EXTENTS_FL =? 0).
Definition is_dir (i : bytes) : bool := Z.land (field Ext4Inode "i_mode" i) 61440 =? 16384.
Definition is_file (i : bytes) : bool := Z.land (field Ext4Inode "i_mode" i) 61440 =? 32768.
Definition is_symlink (i : bytes) : bool := Z.land (field Ext4Inode "i_mode" i) 61440 =? 40960.

Definition name_bytes (e : bytes) : bytes :=
  take (Z.to_nat (field Ext4DirEntry "name_len" e)) (field_bytes Ext4DirEntry "name" e).

Definition idx_leaf (x : bytes) : Z :=
  join64 (field Ext4ExtentIdx "ei_leaf_lo" x) (field Ext4ExtentIdx "ei_leaf_hi" x).
Definition extent_start (x : bytes) : Z :=
  join64 (field Ext4Extent "ee_start_lo" x) (field Ext4Extent "ee_start_hi" x).
Definition extent_len (x : bytes) : Z := Z.land (field Ext4Extent "ee_len" x) 32767.
Definition is_uninitialized (x : bytes) : bool :=
  negb (Z.land (field Ext4Extent "ee_len" x) 32768 =? 0).

(** * Journal *)

Record Transaction := mkTransaction {
  tid : Z;
  tblocks : list Z;
  tdata : list bytes;
}.

Definition Transaction_new (t : Z) : Transaction := mkTransaction t [] [].
Definition Transaction_add_block (block : Z) (data : bytes) (t : Transaction) : Transaction :=
  mkTransaction (tid t) (tblocks t ++ [block]) (tdata t ++ [data]).

Record Journal := mkJournal {
  jsuperblock : bytes;
  journal_start : Z;
  journal_length : Z;
  current_sequence : Z;
  jhead : Z;
  jtail : Z;
  running : bool;
  current_transaction : option Transaction;
}.

Definition set_transaction (t : option Transaction) (j : Journal) : Journal :=
  mkJournal (jsuperblock j) (journal_start j) (journal_length j) (current_sequence j) (jhead j)
    (jtail j) (running j) t.
Definition set_sequence (n : Z) (j : Journal) : Journal :=
  mkJournal (jsuperblock j) (journal_start j) (journal_length j) n (jhead j) (jtail j)
    (running j) (current_transaction j).
Definition set_head (h : Z) (j : Journal) : Journal :=
  mkJournal (jsuperblock j) (journal_start j) (journal_length j) (current_sequence j) h
    (jtail j) (running j) (current_transaction j).

Definition Journal_new (sb : bytes) (start : Z) : Journal :=
  mkJournal sb start (field Jbd2Superblock "s_maxlen" sb) (field Jbd2Superblock "s_sequence" sb)
    (field Jbd2Superblock "s_start" sb) (field Jbd2Superblock "s_start" sb) true None.

Definition start_transaction (j : Journal) : Journal :=
  match current_transaction j with
  | Some _ => j
  | None =>
      set_transaction (Some (Transaction_new (current_sequence j)))
        (set_sequence (wrap32 (current_sequence j + 1)) j)
  end.

Definition journal_add_block (block : Z) (data : bytes) (j : Journal) : Journal :=
  let j := match current_transaction j with None => start_transaction j | Some _ => j end in
  match current_transaction j with
  | Some t => set_transaction (Some (Transaction_add_block block data t)) j
  | None => j
  end.

Record Ext4FsStats := mkStats {
  st_total_blocks : Z;
  st_free_blocks : Z;
  st_total_inodes : Z;
  st_free_inodes : Z;
}.

Inductive SeekFrom : Type := SeekStart | SeekCurrent | SeekEnd.
