(* ===== verification/Ext4.v ===== *)
(** The ext4 driver, reading side: [drivers/ext4journaling/ext4journaling.rs].

    Mounting, inodes, the two block mappings, path lookup, reading files and
    directories.  The journal is [Ext4Journal].

    The block device behind the C callbacks and the allocator that answers
    [kmalloc] are outside this crate: the type [D] of their states and what they
    do are parameters.  The callbacks sit in global variables, which are part of
    the state [World].  [None] is a panic (division by zero, an index or slice
    out of range) or a raw read or write outside an allocation. *)

From S2P Require Import Prelude Packed Ext4Layout.

Definition add32 (x y : Z) : Z := wrap32 (x + y).
Definition sub32 (x y : Z) : Z := wrap32 (x - y).
Definition mul32 (x y : Z) : Z := wrap32 (x * y).

(** What the crate asks of the kernel: [kmalloc], whose answer 0 is null. *)
Class Ext4Env (D : Type) := env_kmalloc : Z -> D -> D * Z.

(** The C callbacks: device, block, buffer; the state of the device, the return
    code and the buffer afterwards. *)
Definition Ext4ReadBlockC (D : Type) : Type := Z -> Z -> bytes -> D -> D * (Z * bytes).
Definition Ext4WriteBlockC (D : Type) : Type := Z -> Z -> bytes -> D -> D * Z.
Definition Ext4SyncC (D : Type) : Type := Z -> D -> D * Z.

(** The globals of the crate, and the outside state. *)
Record World (D : Type) := mkWorld {
  env : D;
  EXT4_C_READ : option (Ext4ReadBlockC D);
  EXT4_C_WRITE : option (Ext4WriteBlockC D);
  EXT4_C_SYNC : option (Ext4SyncC D);
  EXT4_MMAP_SCRATCH : bytes;
}.
Arguments mkWorld {D}. Arguments env {D}. Arguments EXT4_C_READ {D}.
Arguments EXT4_C_WRITE {D}. Arguments EXT4_C_SYNC {D}. Arguments EXT4_MMAP_SCRATCH {D}.

Definition set_env {D} (d : D) (w : World D) : World D :=
  mkWorld d (EXT4_C_READ w) (EXT4_C_WRITE w) (EXT4_C_SYNC w) (EXT4_MMAP_SCRATCH w).
Definition set_scratch {D} (b : bytes) (w : World D) : World D :=
  mkWorld (env w) (EXT4_C_READ w) (EXT4_C_WRITE w) (EXT4_C_SYNC w) b.
Definition set_callbacks {D} r wr sy (w : World D) : World D :=
  mkWorld (env w) r wr sy (EXT4_MMAP_SCRATCH w).

(** The Rust callbacks; a read leaves its buffer changed even when it fails. *)
Definition ReadBlockFn (D : Type) : Type :=
  Z -> Z -> bytes -> World D -> World D * (bytes * result Ext4Error unit).
Definition WriteBlockFn (D : Type) : Type :=
  Z -> Z -> bytes -> World D -> World D * result Ext4Error unit.
Definition SyncFn (D : Type) : Type := Z -> World D -> World D * result Ext4Error unit.

Record Ext4BlockOps (D : Type) := mkOps {
  ops_read : option (ReadBlockFn D);
  ops_write : option (WriteBlockFn D);
  ops_sync : option (SyncFn D);
}.
Arguments mkOps {D}. Arguments ops_read {D}. Arguments ops_write {D}. Arguments ops_sync {D}.

Record Ext4Filesystem (D : Type) := mkFs {
  device : Z;
  ops : Ext4BlockOps D;
  superblock : bytes;
  group_descs : list bytes;
  journal : option Journal;
  block_size : Z;
  blocks_per_group : Z;
  inodes_per_group : Z;
  inode_size : Z;
  group_count : Z;
  desc_size : Z;
  total_blocks : Z;
  readonly : bool;
  use_extents : bool;
  use_64bit : bool;
}.
Arguments mkFs {D}. Arguments device {D}. Arguments ops {D}. Arguments superblock {D}.
Arguments group_descs {D}. Arguments journal {D}. Arguments block_size {D}.
Arguments blocks_per_group {D}. Arguments inodes_per_group {D}. Arguments inode_size {D}.
Arguments group_count {D}. Arguments desc_size {D}. Arguments total_blocks {D}.
Arguments readonly {D}. Arguments use_extents {D}. Arguments use_64bit {D}.

Definition set_superblock {D} (b : bytes) (f : Ext4Filesystem D) : Ext4Filesystem D :=
  mkFs (device f) (ops f) b (group_descs f) (journal f) (block_size f) (blocks_per_group f)
    (inodes_per_group f) (inode_size f) (group_count f) (desc_size f) (total_blocks f)
    (readonly f) (use_extents f) (use_64bit f).
Definition set_group_descs {D} (g : list bytes) (f : Ext4Filesystem D) : Ext4Filesystem D :=
  mkFs (device f) (ops f) (superblock f) g (journal f) (block_size f) (blocks_per_group f)
    (inodes_per_group f) (inode_size f) (group_count f) (desc_size f) (total_blocks f)
    (readonly f) (use_extents f) (use_64bit f).
Definition set_journal {D} (j : option Journal) (f : Ext4Filesystem D) : Ext4Filesystem D :=
  mkFs (device f) (ops f) (superblock f) (group_descs f) j (block_size f) (blocks_per_group f)
    (inodes_per_group f) (inode_size f) (group_count f) (desc_size f) (total_blocks f)
    (readonly f) (use_extents f) (use_64bit f).

(** The context [mount] starts from. *)
Definition Ext4Filesystem_blank {D} (dev : Z) (o : Ext4BlockOps D) : Ext4Filesystem D :=
  mkFs dev o (zeros (size_of Ext4Superblock)) [] None 0 0 0 0 0 0 0 false false false.

Record Ext4FileHandle (D : Type) := mkHandle {
  fh_fs : Ext4Filesystem D;
  fh_inode_num : Z;
  fh_inode : bytes;
  fh_position : Z;
  fh_flags : Z;
}.
Arguments mkHandle {D}. Arguments fh_fs {D}. Arguments fh_inode_num {D}.
Arguments fh_inode {D}. Arguments fh_position {D}. Arguments fh_flags {D}.

Definition set_fh_position {D} (p : Z) (h : Ext4FileHandle D) : Ext4FileHandle D :=
  mkHandle (fh_fs h) (fh_inode_num h) (fh_inode h) p (fh_flags h).

Record Ext4MmapFile (D : Type) := mkMmapFile {
  mf_fs : Ext4Filesystem D;
  mf_inode : bytes;
  mf_file_size : Z;
}.
Arguments mkMmapFile {D}. Arguments mf_fs {D}. Arguments mf_inode {D}. Arguments mf_file_size {D}.

Record Ext4DirIterator (D : Type) := mkDirIter {
  di_fs : Ext4Filesystem D;
  di_inode : bytes;
  di_position : Z;
  di_size : Z;
}.
Arguments mkDirIter {D}. Arguments di_fs {D}. Arguments di_inode {D}.
Arguments di_position {D}. Arguments di_size {D}.

Definition set_di_position {D} (p : Z) (i : Ext4DirIterator D) : Ext4DirIterator D :=
  mkDirIter (di_fs i) (di_inode i) p (di_size i).

Section Ext4.
Context {D : Type} `{Env : Ext4Env D}.

Abbreviation io := (eprog Ext4Error (World D)).
Abbreviation FS := (Ext4Filesystem D).

(** A step that panics or leaves an allocation when it has no answer. *)
Definition must {X} (o : option X) : io X :=
  match o with Some x => mret x | None => undefined end.
(** [x / y] and [x % y] on unsigned integers. *)
Definition div_by (x y : Z) : io Z := if y =? 0 then undefined else mret (x / y).
Definition rem_by (x y : Z) : io Z := if y =? 0 then undefined else mret (x mod y).

(** * Allocation and block input and output *)

Definition kernel_alloc_bytes (size : Z) (w : World D) : World D * option bytes :=
  if size =? 0 then (w, None)
  else
    let '(d, ptr) := env_kmalloc size (env w) in
    (set_env d w, if ptr =? 0 then None else Some (zeros (Z.to_nat size))).

(** [kernel_alloc_bytes(size).ok_or(Ext4Error::NoMem)?]. *)
Definition alloc_buffer (size : Z) : io bytes := fun w =>
  let '(w, r) := kernel_alloc_bytes size w in
  Some (w, match r with Some b => Ok b | None => Err NoMem end).

Definition read_block_trampoline : ReadBlockFn D := fun dev block buffer w =>
  match EXT4_C_READ w with
  | None => (w, (buffer, Err Invalid))
  | Some cb =>
      let '(d, (rc, buf)) := cb dev block buffer (env w) in
      (set_env d w, (buf, if rc =? 0 then Ok tt else Err Io))
  end.

Definition write_block_trampoline : WriteBlockFn D := fun dev block buffer w =>
  match EXT4_C_WRITE w with
  | None => (w, Err Invalid)
  | Some cb =>
      let '(d, rc) := cb dev block buffer (env w) in
      (set_env d w, if rc =? 0 then Ok tt else Err Io)
  end.

Definition sync_trampoline : SyncFn D := fun dev w =>
  match EXT4_C_SYNC w with
  | None => (w, Err Invalid)
  | Some cb =>
      let '(d, rc) := cb dev (env w) in
      (set_env d w, if rc =? 0 then Ok tt else Err Io)
  end.

Definition read_block (fs : FS) (block : Z) (buffer : bytes) (w : World D)
  : World D * (bytes * result Ext4Error unit) :=
  match ops_read (ops fs) with
  | Some read_fn => read_fn (device fs) block buffer w
  | None => (w, (buffer, Err Invalid))
  end.

(** [self.read_block(block, &mut buffer)?] on a local buffer. *)
Definition read_into (fs : FS) (block : Z) (buffer : bytes) : io bytes := fun w =>
  let '(w, (b, r)) := read_block fs block buffer w in
  Some (w, match r with Ok _ => Ok b | Err e => Err e end).

Definition write_block (fs : FS) (block : Z) (buffer : bytes) : io unit := fun w =>
  if readonly fs then Some (w, Err Permission)
  else
    match ops_write (ops fs) with
    | Some write_fn => let '(w, r) := write_fn (device fs) block buffer w in Some (w, r)
    | None => Some (w, Err Invalid)
    end.

(** * Mounting *)

Definition read_superblock (fs : FS) : io FS :=
  buffer ← alloc_buffer (EXT4_MIN_BLOCK_SIZE * 2);
  buffer ← read_into fs 0 buffer;
  sb ← must (slice buffer EXT4_SUPERBLOCK_OFFSET (Z.of_nat (size_of Ext4Superblock)));
  if negb (field Ext4Superblock "s_magic" sb =? EXT4_SUPER_MAGIC) then throw InvalidMagic
  else
    let bsize := wrap32 (Z.shiftl EXT4_MIN_BLOCK_SIZE (field Ext4Superblock "s_log_block_size" sb mod 32)) in
    let bpg := field Ext4Superblock "s_blocks_per_group" sb in
    let ipg := field Ext4Superblock "s_inodes_per_group" sb in
    let isize := field Ext4Superblock "s_inode_size" sb in
    let incompat := field Ext4Superblock "s_feature_incompat" sb in
    let is64 := negb (Z.land incompat EXT4_FEATURE_INCOMPAT_64BIT =? 0) in
    let total :=
      if is64 then Z.lor (wrap64 (Z.shiftl (field Ext4Superblock "s_blocks_count_hi" sb) 32))
                         (field Ext4Superblock "s_blocks_count_lo" sb)
      else field Ext4Superblock "s_blocks_count_lo" sb in
    let dsize :=
      if is64 then
        let d := field Ext4Superblock "s_desc_size" sb in if d <? 32 then 32 else d
      else 32 in
    groups ← div_by (total +w bpg -w 1) bpg;
    mret (mkFs (device fs) (ops fs) sb (group_descs fs) (journal fs) bsize bpg ipg isize
            (wrap32 groups) dsize total (readonly fs)
            (negb (Z.land incompat EXT4_FEATURE_INCOMPAT_EXTENTS =? 0)) is64).

(** One descriptor: as many of its 64 bytes as the disk has. *)
Definition group_desc_at (fs : FS) (buffer : bytes) (j : Z) : option bytes :=
  let n := Z.min (Z.of_nat (size_of Ext4GroupDesc)) (desc_size fs) in
  match slice buffer (mul32 j (desc_size fs)) n with
  | Some src => Some (src ++ drop (Z.to_nat n) (zeros (size_of Ext4GroupDesc)))
  | None => None
  end.

(** [for j in 0..desc_per_block]: [n] rounds from [j] on. *)
Fixpoint descs_of_block (fs : FS) (buffer : bytes) (n : nat) (j first : Z) (acc : list bytes)
  : option (list bytes) :=
  match n with
  | O => Some acc
  | S n' =>
      if group_count fs <=? add32 first j then Some acc
      else
        match group_desc_at fs buffer j with
        | Some d => descs_of_block fs buffer n' (j + 1) first (acc ++ [d])
        | None => None
        end
  end.

(** [for i in 0..desc_blocks]: [n] rounds from [i] on. *)
Fixpoint desc_blocks_loop (fs : FS) (per_block start : Z) (n : nat) (i : Z) (buffer : bytes)
    (acc : list bytes) : io (list bytes) :=
  match n with
  | O => mret acc
  | S n' =>
      buffer ← read_into fs (start +w i) buffer;
      acc ← must (descs_of_block fs buffer (Z.to_nat per_block) 0 (mul32 i per_block) acc);
      desc_blocks_loop fs per_block start n' (i + 1) buffer acc
  end.

Definition read_group_descriptors (fs : FS) : io FS :=
  desc_per_block ← div_by (block_size fs) (desc_size fs);
  desc_blocks ← div_by (sub32 (add32 (group_count fs) desc_per_block) 1) desc_per_block;
  buffer ← alloc_buffer (block_size fs);
  let desc_start := if block_size fs =? EXT4_MIN_BLOCK_SIZE then 2 else 1 in
  descs ← desc_blocks_loop fs desc_per_block desc_start (Z.to_nat desc_blocks) 0 buffer (group_descs fs);
  mret (set_group_descs descs fs).

(** * Inodes *)

(** Block and offset of an inode on the disk. *)
Definition inode_location (fs : FS) (inode_num : Z) : io (Z * Z) :=
  group ← div_by (inode_num - 1) (inodes_per_group fs);
  index ← rem_by (inode_num - 1) (inodes_per_group fs);
  if group_count fs <=? group then throw Invalid
  else
    desc ← must (group_descs fs !! Z.to_nat group);
    let lo := field Ext4GroupDesc "bg_inode_table_lo" desc in
    let inode_table :=
      if use_64bit fs then join64 lo (field Ext4GroupDesc "bg_inode_table_hi" desc) else lo in
    b ← div_by (mul32 index (inode_size fs)) (block_size fs);
    offset ← rem_by (mul32 index (inode_size fs)) (block_size fs);
    mret (inode_table +w b, offset).

Definition read_inode (fs : FS) (inode_num : Z) : io bytes :=
  if inode_num =? 0 then throw Invalid
  else
    loc ← inode_location fs inode_num;
    let '(block, offset) := loc : Z * Z in
    buffer ← alloc_buffer (block_size fs);
    buffer ← read_into fs block buffer;
    must (slice buffer offset (Z.of_nat (size_of Ext4Inode))).

(** * Extent trees *)

(** The [i]-th 12-byte entry of a node after its header. *)
Definition node_entry (node : bytes) (i : Z) : option bytes :=
  slice node (Z.of_nat (size_of Ext4ExtentHeader) + Z.of_nat (size_of Ext4ExtentIdx) * i)
    (Z.of_nat (size_of Ext4ExtentIdx)).

(** The scan of an index node: [n] entries from [i] on; the last one that starts
    at or before the block. *)
Fixpoint scan_index (node : bytes) (lb32 : Z) (n : nat) (i : Z) (best : option bytes)
  : option (option bytes) :=
  match n with
  | O => Some best
  | S n' =>
      match node_entry node i with
      | None => None
      | Some idx =>
          if field Ext4ExtentIdx "ei_block" idx <=? lb32
          then scan_index node lb32 n' (i + 1) (Some idx)
          else Some best
      end
  end.

(** The scan of a leaf. *)
Fixpoint scan_leaf (node : bytes) (lb : Z) (n : nat) (i : Z) : option (option Z) :=
  match n with
  | O => Some None
  | S n' =>
      match node_entry node i with
      | None => None
      | Some e =>
          let ee_block := field Ext4Extent "ee_block" e in
          if (ee_block <=? lb) && (lb <? add32 ee_block (extent_len e))
          then Some (Some (extent_start e +w (lb - ee_block)))
          else scan_leaf node lb n' (i + 1)
      end
  end.

(** [while depth > 0]; the node is the memory behind [header_ptr]. *)
Fixpoint descend (fs : FS) (lb : Z) (depth : nat) (node : bytes) : io bytes :=
  match depth with
  | O => mret node
  | S depth' =>
      best ← must (scan_index node (wrap32 lb)
                     (Z.to_nat (field Ext4ExtentHeader "eh_entries" node)) 0 None);
      match (best : option bytes) with
      | None => throw NotFound
      | Some idx =>
          buffer ← alloc_buffer (block_size fs);
          buffer ← read_into fs (idx_leaf idx) buffer;
          descend fs lb depth' buffer
      end
  end.

(** The root node starts at [i_block] inside the inode. *)
Definition get_block_from_extent (fs : FS) (inode : bytes) (logical_block : Z) : io Z :=
  let root := drop i_block_offset inode in
  if negb (field Ext4ExtentHeader "eh_magic" root =? EXT4_EXT_MAGIC) then throw Invalid
  else
    leaf ← descend fs logical_block (Z.to_nat (field Ext4ExtentHeader "eh_depth" root)) root;
    found ← must (scan_leaf leaf logical_block
                    (Z.to_nat (field Ext4ExtentHeader "eh_entries" leaf)) 0);
    match (found : option Z) with
    | Some physical_block => mret physical_block
    | None => throw NotFound
    end.

(** * Indirect blocks *)

(** [ptrs[i]] on the block taken as an array of [n] words. *)
Definition ptr_at (buffer : bytes) (n i : Z) : option Z :=
  if (0 <=? i) && (i <? n)
  then match slice buffer (4 * i) 4 with Some b => Some (le b) | None => None end
  else None.

Definition get_block_indirect (fs : FS) (inode : bytes) (logical_block : Z) : io Z :=
  let n := block_size fs / 4 in
  if logical_block <? EXT4_NDIR_BLOCKS then mret (i_block inode logical_block)
  else
    let lb := logical_block - EXT4_NDIR_BLOCKS in
    buffer ← alloc_buffer (block_size fs);
    if lb <? n then
      buffer ← read_into fs (i_block inode EXT4_IND_BLOCK) buffer;
      must (ptr_at buffer n lb)
    else
      let lb := lb - n in
      if lb <? n *w n then
        buffer ← read_into fs (i_block inode EXT4_DIND_BLOCK) buffer;
        ind_block ← must (ptr_at buffer n (lb / n));
        buffer ← read_into fs ind_block buffer;
        must (ptr_at buffer n (lb mod n))
      else
        let lb := lb - n *w n in
        buffer ← read_into fs (i_block inode EXT4_TIND_BLOCK) buffer;
        dind_block ← must (ptr_at buffer n (lb / (n *w n)));
        buffer ← read_into fs dind_block buffer;
        ind_block ← must (ptr_at buffer n ((lb / n) mod n));
        buffer ← read_into fs ind_block buffer;
        must (ptr_at buffer n (lb mod n)).

Definition get_block (fs : FS) (inode : bytes) (logical_block : Z) : io Z :=
  if uses_extents inode then get_block_from_extent fs inode logical_block
  else get_block_indirect fs inode logical_block.

(** * Directories and paths *)

(** [while block_offset < block_size]: [n] rounds. *)
Fixpoint find_in_block (bsize : Z) (buffer name : bytes) (n : nat) (off : Z)
  : option (option Z) :=
  if bsize <=? off then Some None
  else
    match n with
    | O => None
    | S n' =>
        match slice buffer off (Z.of_nat (size_of Ext4DirEntry)) with
        | None => None
        | Some e =>
            let rec_len := field Ext4DirEntry "rec_len" e in
            if rec_len =? 0 then Some None
            else if negb (field Ext4DirEntry "inode" e =? 0)
                    && (field Ext4DirEntry "name_len" e =? Z.of_nat (length name))
                    && bool_decide (name_bytes e = name)
            then Some (Some (field Ext4DirEntry "inode" e))
            else find_in_block bsize buffer name n' (off + rec_len)
        end
    end.

(** [while offset < dir_size]: [n] rounds. *)
Fixpoint find_in_dir (fs : FS) (dir_inode name : bytes) (n : nat) (offset : Z) (buffer : bytes)
  : io Z :=
  if inode_size_of dir_inode <=? offset then throw NotFound
  else
    match n with
    | O => undefined
    | S n' =>
        physical_block ← get_block fs dir_inode (offset / block_size fs);
        if physical_block =? 0
        then find_in_dir fs dir_inode name n' (offset +w block_size fs) buffer
        else
          buffer ← read_into fs physical_block buffer;
          found ← must (find_in_block (block_size fs) buffer name (Z.to_nat (block_size fs)) 0);
          match (found : option Z) with
          | Some ino => mret ino
          | None => find_in_dir fs dir_inode name n' (offset +w block_size fs) buffer
          end
    end.

Definition dir_find_entry (fs : FS) (dir_inode name : bytes) : io Z :=
  buffer ← alloc_buffer (block_size fs);
  find_in_dir fs dir_inode name
    (Z.to_nat (inode_size_of dir_inode / block_size fs + 1)) 0 buffer.

Definition SLASH : Z := 47.

(** [while !p.is_empty() && p[0] == '/' { p = &p[1..]; }]. *)
Fixpoint skip_slashes (p : bytes) : bytes :=
  match p with
  | c :: p' => if c =? SLASH then skip_slashes p' else p
  | [] => []
  end.

(** The length of the next component, at most [n]. *)
Fixpoint component_len (p : bytes) (n : nat) : nat :=
  match n, p with
  | S n', c :: p' => if c =? SLASH then O else S (component_len p' n')
  | _, _ => O
  end.

(** [while !p.is_empty()]: [n] rounds. *)
Fixpoint walk_path (fs : FS) (n : nat) (p : bytes) (current_inode : Z) : io Z :=
  match p with
  | [] => mret current_inode
  | _ :: p' =>
      match n with
      | O => undefined
      | S n' =>
          let len := component_len p (Z.to_nat EXT4_NAME_LEN) in
          if (len =? 0)%nat then walk_path fs n' p' current_inode
          else
            inode ← read_inode fs current_inode;
            next ← dir_find_entry fs inode (take len p);
            walk_path fs n' (skip_slashes (drop len p)) next
      end
  end.

Definition lookup_path (fs : FS) (path : bytes) : io Z :=
  let p := skip_slashes path in
  match p with
  | [] => mret EXT4_ROOT_INODE
  | _ => walk_path fs (length p) p EXT4_ROOT_INODE
  end.

Definition ext4_open (fs : FS) (path : bytes) (flags : Z) : io (Ext4FileHandle D) :=
  inode_num ← lookup_path fs path;
  inode ← read_inode fs inode_num;
  mret (mkHandle fs inode_num inode 0 flags).

Definition ext4_stat (fs : FS) (path : bytes) : io bytes :=
  inode_num ← lookup_path fs path;
  read_inode fs inode_num.

Definition ext4_statfs (fs : FS) : Ext4FsStats :=
  let sb := superblock fs in
  mkStats (total_blocks fs)
    (if use_64bit fs
     then Z.lor (wrap64 (Z.shiftl (field Ext4Superblock "s_free_blocks_count_hi" sb) 32))
                (field Ext4Superblock "s_free_blocks_count_lo" sb)
     else field Ext4Superblock "s_free_blocks_count_lo" sb)
    (field Ext4Superblock "s_inodes_count" sb) (field Ext4Superblock "s_free_inodes_count" sb).

(** * Reading files

    The destination is part of the state, since chunks read before an error stay
    in it. *)

Definition on_world {T X} (p : io X) : eprog Ext4Error (World D * T) X :=
  zoom fst (fun w s => (w, snd s)) p.

(** [dst[off..off + n].copy_from_slice(src)]. *)
Definition put_dst (off : Z) (src : bytes) : eprog Ext4Error (World D * bytes) unit := fun s =>
  match splice (snd s) off src with
  | Some dst => Some ((fst s, dst), Ok tt)
  | None => None
  end.

(** [self.read_block(block, &mut dst[off..off + n])?]. *)
Definition read_dst (fs : FS) (block off n : Z) : eprog Ext4Error (World D * bytes) unit := fun s =>
  match slice (snd s) off n with
  | None => None
  | Some part =>
      let '(w, (b, r)) := read_block fs block part (fst s) in
      match splice (snd s) off b with
      | Some dst => Some ((w, dst), r)
      | None => None
      end
  end.

(** [self.read_block(block, &mut scratch[..n])?] on the global buffer, then the
    bytes [from .. from + len] of it. *)
Definition read_scratch (fs : FS) (block n from len : Z) : io bytes := fun w =>
  match slice (EXT4_MMAP_SCRATCH w) 0 n with
  | None => None
  | Some part =>
      let '(w, (b, r)) := read_block fs block part w in
      match splice (EXT4_MMAP_SCRATCH w) 0 b with
      | None => None
      | Some sc =>
          match r with
          | Err e => Some (set_scratch sc w, Err e)
          | Ok _ =>
              match slice sc from len with
              | Some x => Some (set_scratch sc w, Ok x)
              | None => None
              end
          end
      end
  end.

(** [while total_read < to_read]: [n] rounds. *)
Fixpoint read_chunks (fs : FS) (inode : bytes) (offset to_read : Z) (n : nat) (total_read : Z)
  : eprog Ext4Error (World D * bytes) Z :=
  if to_read <=? total_read then mret total_read
  else
    match n with
    | O => fun _ => None
    | S n' =>
        let current_offset := offset +w total_read in
        let logical_block := current_offset / block_size fs in
        let block_offset := current_offset mod block_size fs in
        let chunk := Z.min (block_size fs - block_offset) (to_read - total_read) in
        physical_block ← on_world (get_block fs inode logical_block);
        (if physical_block =? 0 then put_dst total_read (zeros (Z.to_nat chunk))
         else if (block_offset =? 0) && (chunk =? block_size fs)
         then read_dst fs physical_block total_read chunk
         else
           part ← on_world (read_scratch fs physical_block (block_size fs) block_offset chunk);
           put_dst total_read part) ;;
        read_chunks fs inode offset to_read n' (total_read + chunk)
    end.

Definition read_at_into (fs : FS) (inode : bytes) (offset : Z)
  : eprog Ext4Error (World D * bytes) Z := fun s =>
  let file_size := inode_size_of inode in
  let len := Z.of_nat (length (snd s)) in
  if (file_size <=? offset) || (len =? 0) then Some (s, Ok 0)
  else if block_size fs =? 0 then Some (s, Err Invalid)
  else if EXT4_MMAP_SCRATCH_SIZE <? block_size fs then Some (s, Err NoMem)
  else
    let to_read := Z.min len (file_size - offset) in
    read_chunks fs inode offset to_read (Z.to_nat to_read) 0 s.

(** * File handles *)

Abbreviation hio := (eprog Ext4Error (World D * (Ext4FileHandle D * bytes))).

Definition put_buffer (off : Z) (src : bytes) : hio unit := fun s =>
  let '(w, (h, buf)) := s in
  match splice buf off src with
  | Some buf' => Some ((w, (h, buf')), Ok tt)
  | None => None
  end.

Definition advance (n : Z) : hio unit := fun s =>
  let '(w, (h, buf)) := s in
  Some ((w, (set_fh_position (fh_position h +w n) h, buf)), Ok tt).

(** [while total_read < size]: [n] rounds; [buf_offset] equals [total_read]. *)
Fixpoint handle_read_loop (n : nat) (size total_read : Z) (block_buffer : bytes) : hio Z :=
  if size <=? total_read then mret total_read
  else
    match n with
    | O => fun _ => None
    | S n' =>
        h ← gets (fun s => fst (snd s));
        let fs := fh_fs h in
        let logical_block := fh_position h / block_size fs in
        let offset := fh_position h mod block_size fs in
        let to_read := Z.min (block_size fs - offset) (size - total_read) in
        physical_block ← on_world (get_block fs (fh_inode h) logical_block);
        if physical_block =? 0 then
          put_buffer total_read (zeros (Z.to_nat to_read)) ;;
          advance to_read ;;
          handle_read_loop n' size (total_read + to_read) block_buffer
        else
          block_buffer ← on_world (read_into fs physical_block block_buffer);
          part ← on_world (must (slice block_buffer offset to_read));
          put_buffer total_read part ;;
          advance to_read ;;
          handle_read_loop n' size (total_read + to_read) block_buffer
    end.

Definition handle_read : hio Z := fun s =>
  let '(_, (h, buffer)) := s in
  let file_size := inode_size_of (fh_inode h) in
  if file_size <=? fh_position h then Some (s, Ok 0)
  else
    let size := Z.min (Z.of_nat (length buffer)) (file_size - fh_position h) in
    (block_buffer ← on_world (alloc_buffer (block_size (fh_fs h)));
     handle_read_loop (Z.to_nat size) size 0 block_buffer) s.

(** [x as i64]. *)
Definition as_i64 (x : Z) : Z := let y := wrap64 x in if y <? 9223372036854775808 then y else y - U64.

Definition handle_seek (offset : Z) (whence : SeekFrom) (h : Ext4FileHandle D)
  : Ext4FileHandle D * result Ext4Error Z :=
  let new_pos :=
    match whence with
    | SeekStart => offset
    | SeekCurrent => as_i64 (as_i64 (fh_position h) + offset)
    | SeekEnd => as_i64 (as_i64 (inode_size_of (fh_inode h)) + offset)
    end in
  if new_pos <? 0 then (h, Err Invalid) else (set_fh_position new_pos h, Ok new_pos).

Definition handle_tell (h : Ext4FileHandle D) : Z := fh_position h.

Definition handle_read_at_into (h : Ext4FileHandle D) (offset : Z)
  : eprog Ext4Error (World D * bytes) Z :=
  read_at_into (fh_fs h) (fh_inode h) offset.

(** * Mapped files *)

Definition mmap_size (f : Ext4MmapFile D) : Z := mf_file_size f.

Definition mmap_read_at_into (f : Ext4MmapFile D) (offset : Z)
  : eprog Ext4Error (World D * bytes) Z :=
  read_at_into (mf_fs f) (mf_inode f) offset.

Definition open_mmap_file (fs : FS) (path : bytes) : io (Ext4MmapFile D) :=
  inode_num ← lookup_path fs path;
  inode ← read_inode fs inode_num;
  mret (mkMmapFile fs inode (inode_size_of inode)).

(** The callback for mapped regions; a null context or buffer is [None]. *)
Definition ext4_mmap_read_at (ctx : option (Ext4MmapFile D)) (offset : Z) (dst : option bytes)
    (w : World D) : option (World D * option bytes * Z) :=
  match ctx, dst with
  | Some file, Some buffer =>
      if Z.of_nat (length buffer) =? 0 then Some (w, dst, 0)
      else
        match mmap_read_at_into file offset (w, buffer) with
        | Some ((w, buffer), Ok n) => Some (w, Some buffer, n)
        | Some ((w, buffer), Err _) => Some (w, Some buffer, 0)
        | None => None
        end
  | _, _ => Some (w, dst, 0)
  end.

(** [None] for the null pointer; the size goes out through [out_size]. *)
Definition ext4_mmap_open_c (fs : option FS) (path : option bytes)
    (w : World D) : option (World D * option (Ext4MmapFile D * Z)) :=
  match fs, path with
  | Some fs, Some path =>
      if (length path =? 0)%nat then Some (w, None)
      else
        match open_mmap_file fs path w with
        | Some (w, Ok file) => Some (w, Some (file, mmap_size file))
        | Some (w, Err _) => Some (w, None)
        | None => None
        end
  | _, _ => Some (w, None)
  end.

(** * Directory iteration *)

Definition DirIterator_new (fs : FS) (path : bytes) : io (Ext4DirIterator D) :=
  inode_num ← lookup_path fs path;
  inode ← read_inode fs inode_num;
  mret (mkDirIter fs inode 0 (inode_size_of inode)).

Abbreviation dio := (eprog Ext4Error (World D * Ext4DirIterator D)).

Definition set_position (p : Z) : dio unit := modify (fun s => (fst s, set_di_position p (snd s))).

(** [while self.position < self.size]: [n] rounds. *)
Fixpoint dir_read_loop (n : nat) (buffer : bytes) : dio bytes :=
  it ← gets snd;
  if di_size it <=? di_position it then throw NotFound
  else
    match n with
    | O => fun _ => None
    | S n' =>
        let fs := di_fs it in
        let logical_block := di_position it / block_size fs in
        let block_offset := di_position it mod block_size fs in
        physical_block ← on_world (get_block fs (di_inode it) logical_block);
        if physical_block =? 0 then
          set_position (di_position it +w (block_size fs - block_offset)) ;;
          dir_read_loop n' buffer
        else
          buffer ← on_world (read_into fs physical_block buffer);
          entry ← on_world (must (slice buffer block_offset (Z.of_nat (size_of Ext4DirEntry))));
          if field Ext4DirEntry "rec_len" entry =? 0 then
            set_position (di_position it +w (block_size fs - block_offset)) ;;
            dir_read_loop n' buffer
          else
            set_position (di_position it +w field Ext4DirEntry "rec_len" entry) ;;
            if negb (field Ext4DirEntry "inode" entry =? 0) then mret entry
            else dir_read_loop n' buffer
    end.

Definition dir_read : dio bytes := fun s =>
  let it := snd s in
  (buffer ← on_world (alloc_buffer (block_size (di_fs it)));
   dir_read_loop (Z.to_nat (di_size it - di_position it)) buffer) s.

(** [Iterator::next]. *)
Definition dir_next (s : World D * Ext4DirIterator D)
  : option ((World D * Ext4DirIterator D) * option bytes) :=
  match dir_read s with
  | Some (s, Ok e) => Some (s, Some e)
  | Some (s, Err _) => Some (s, None)
  | None => None
  end.
End Ext4.
