(* ===== verification/Ext4Journal.v ===== *)
(** The ext4 driver, writing side: [drivers/ext4journaling/ext4journaling.rs].

    The journal, journaled writes, commit, mounting and unmounting, and the C
    entry points.  A method on [&mut self] works on the pair of the outside state
    and the file-system context. *)

From S2P Require Import Prelude Packed Ext4Layout Ext4.

Section Ext4Journal.
Context {D : Type} `{Env : Ext4Env D}.

Abbreviation io := (eprog Ext4Error (World D)).
Abbreviation FS := (Ext4Filesystem D).
Abbreviation fio := (eprog Ext4Error (World D * FS)).

Definition with_fs {X} (p : FS -> io X) : fio X := fun s => zoom fst (fun w t => (w, snd t)) (p (snd s)) s.
Definition modify_fs (f : FS -> FS) : fio unit := modify (fun s => (fst s, f (snd s))).

(** * Mounting *)

(** Recovery only clears the flag. *)
Definition journal_recover (fs : FS) : FS :=
  let incompat := field Ext4Superblock "s_feature_incompat" (superblock fs) in
  set_superblock
    (set_field Ext4Superblock "s_feature_incompat"
       (Z.land incompat (Z.lnot EXT4_FEATURE_INCOMPAT_RECOVER)) (superblock fs)) fs.

Definition init_journal (fs : FS) : io FS :=
  if Z.land (field Ext4Superblock "s_feature_compat" (superblock fs)) EXT4_FEATURE_COMPAT_HAS_JOURNAL =? 0
  then mret fs
  else
    journal_inode ← read_inode fs (field Ext4Superblock "s_journal_inum" (superblock fs));
    start ← get_block fs journal_inode 0;
    if start =? 0 then throw JournalError
    else
      buffer ← alloc_buffer (block_size fs);
      buffer ← read_into fs start buffer;
      jbd2_sb ← must (slice buffer 0 (Z.of_nat (size_of Jbd2Superblock)));
      if negb (field Jbd2Header "h_magic" (field_bytes Jbd2Superblock "s_header" jbd2_sb)
               =? JBD2_MAGIC_NUMBER)
      then throw JournalError
      else
        let fs := set_journal (Some (Journal_new jbd2_sb start)) fs in
        mret (if Z.land (field Ext4Superblock "s_feature_incompat" (superblock fs))
                        EXT4_FEATURE_INCOMPAT_RECOVER =? 0
              then fs else journal_recover fs).

Definition mount (dev : Z) (o : Ext4BlockOps D) : io FS :=
  fs ← read_superblock (Ext4Filesystem_blank dev o);
  fs ← read_group_descriptors fs;
  init_journal fs.

(** * Writing *)

(** The copy of the data is the fresh, zeroed buffer. *)
Definition write_block_journaled (block : Z) (data : bytes) : fio unit :=
  fs ← gets snd;
  match journal fs with
  | Some j =>
      if running j then
        data_copy ← with_fs (fun _ => alloc_buffer (Z.of_nat (length data)));
        modify_fs (set_journal (Some (journal_add_block block data_copy j)))
      else with_fs (fun fs => write_block fs block data)
  | None => with_fs (fun fs => write_block fs block data)
  end.

Definition write_inode (inode_num : Z) (inode : bytes) : fio unit :=
  fs ← gets snd;
  if (inode_num =? 0) || readonly fs then throw Invalid
  else
    loc ← with_fs (fun fs => inode_location fs inode_num);
    let '(block, offset) := loc : Z * Z in
    buffer ← with_fs (fun fs => alloc_buffer (block_size fs));
    buffer ← with_fs (fun fs => read_into fs block buffer);
    buffer ← with_fs (fun _ => must (splice buffer offset inode));
    write_block_journaled block buffer.

(** * Commit *)

(** A block of zeros that starts with a journal header. *)
Definition header_bytes (blocktype sequence : Z) : bytes :=
  to_le 4 JBD2_MAGIC_NUMBER ++ to_le 4 blocktype ++ to_le 4 sequence.

Definition header_block (blocktype sequence : Z) : fio bytes :=
  buffer ← with_fs (fun fs => alloc_buffer (block_size fs));
  with_fs (fun _ => must (splice buffer 0 (header_bytes blocktype sequence))).

(** [for data in &trans.data]: the position after each block. *)
Fixpoint write_journal_data (start len : Z) (data : list bytes) (journal_block : Z) : fio Z :=
  match data with
  | [] => mret journal_block
  | d :: data' =>
      with_fs (fun fs => write_block fs (start +w journal_block) d) ;;
      let journal_block := journal_block +w 1 in
      write_journal_data start len data'
        (if len <=? journal_block then 1 else journal_block)
  end.

(** [for (i, block) in trans.blocks.iter().enumerate()]. *)
Fixpoint write_in_place (blocks : list Z) (data : list bytes) (i : nat) : fio unit :=
  match blocks with
  | [] => mret tt
  | b :: blocks' =>
      d ← with_fs (fun _ => must (data !! i));
      with_fs (fun fs => write_block fs b d) ;;
      write_in_place blocks' data (S i)
  end.

(** [if let Some(sync_fn) = self.ops.sync { sync_fn(self.device)?; }]. *)
Definition sync_device : fio unit :=
  with_fs (fun fs w =>
    match ops_sync (ops fs) with
    | Some sync_fn => let '(w, r) := sync_fn (device fs) w in Some (w, r)
    | None => Some (w, Ok tt)
    end).

(** The writes of a commit, up to the sync; the position after the data. *)
Definition commit_sequence (j : Journal) (trans : Transaction) : fio Z :=
  let start := journal_start j in
  desc_buffer ← header_block JBD2_DESCRIPTOR_BLOCK (tid trans);
  with_fs (fun fs => write_block fs (start +w jhead j) desc_buffer) ;;
  jb ← write_journal_data start (journal_length j) (tdata trans) (jhead j +w 1);
  commit_buffer ← header_block JBD2_COMMIT_BLOCK (tid trans);
  with_fs (fun fs => write_block fs (start +w jb) commit_buffer) ;;
  write_in_place (tblocks trans) (tdata trans) 0 ;;
  sync_device ;;
  mret jb.

(** [journal.head = journal_block as u32 + 1]. *)
Definition move_head (jb : Z) (fs : FS) : FS :=
  match journal fs with
  | Some j => set_journal (Some (set_head (wrap32 (wrap32 jb + 1)) j)) fs
  | None => fs
  end.

Definition journal_commit : fio unit :=
  fs ← gets snd;
  match journal fs with
  | None => mret tt
  | Some j =>
      match current_transaction j with
      | None => mret tt
      | Some trans =>
          modify_fs (set_journal (Some (set_transaction None j))) ;;
          jb ← commit_sequence j trans;
          modify_fs (move_head jb)
      end
  end.

Definition unmount (fs : FS) (w : World D) : option (World D * result Ext4Error unit) :=
  match (journal_commit ;; sync_device) (w, fs) with
  | Some ((w, _), r) => Some (w, r)
  | None => None
  end.

(** * C entry points *)

(** [None] is the null pointer. *)
Definition ext4_mount_c (dev : Z) (r : option (Ext4ReadBlockC D)) (wr : option (Ext4WriteBlockC D))
    (sy : option (Ext4SyncC D)) (w : World D) : option (World D * option FS) :=
  match r with
  | None => Some (w, None)
  | Some _ =>
      let w := set_callbacks r wr sy w in
      let o := mkOps (Some read_block_trampoline)
                 (match wr with Some _ => Some write_block_trampoline | None => None end)
                 (match sy with Some _ => Some sync_trampoline | None => None end) in
      match mount dev o w with
      | Some (w, Ok fs) => Some (w, Some fs)
      | Some (w, Err _) => Some (w, None)
      | None => None
      end
  end.

(** Dropping the context touches neither the device nor the journal. *)
Definition ext4_unmount_c (fs : option FS) (w : World D) : World D := w.
Definition ext4_mmap_close_c (file : option (Ext4MmapFile D)) (w : World D) : World D := w.
End Ext4Journal.
