(* ===== verification/Ext4Spec.v ===== *)
(** What the ext4 driver relies on, and the rules its theorems are proved with.

    [BlockReader] and [BlockWriter] are the contract of the callbacks and the
    allocator: reading a block gives its content and changes none, writing changes
    that block only,
    and an operation may fail with an I/O or memory error unless the outside
    state is [good].  [reads] is the judgement for a program that only reads. *)

From S2P Require Import Prelude Packed Ext4Layout Ext4.

Definition env_error (e : Ext4Error) : Prop := e = Io \/ e = NoMem.

Class BlockReader (D : Type) `{Env : Ext4Env D} (o : Ext4BlockOps D) (dev bs : Z) := {
  blk : World D -> Z -> bytes;
  dev_inv : World D -> Prop;
  good : World D -> Prop;
  blk_length : forall w b, Z.of_nat (length (blk w b)) = bs;
  blk_bytes : forall w b, is_bytes (blk w b);
  scratch_law : forall w sc, dev_inv w -> length sc = length (EXT4_MMAP_SCRATCH w) ->
    dev_inv (set_scratch sc w) /\ (forall b, blk (set_scratch sc w) b = blk w b)
    /\ (good w -> good (set_scratch sc w));
  scratch_length : forall w, dev_inv w -> Z.of_nat (length (EXT4_MMAP_SCRATCH w)) = EXT4_MMAP_SCRATCH_SIZE;
  kmalloc_law : forall w n d p, dev_inv w -> env_kmalloc n (env w) = (d, p) ->
    dev_inv (set_env d w) /\ (forall b, blk (set_env d w) b = blk w b)
    /\ (good w -> good (set_env d w) /\ p <> 0);
  read_law : forall w b buf, dev_inv w -> Z.of_nat (length buf) = bs ->
    exists rd w' buf' r, ops_read o = Some rd /\ rd dev b buf w = (w', (buf', r))
      /\ dev_inv w' /\ (forall c, blk w' c = blk w c) /\ (good w -> good w' /\ r = Ok tt)
      /\ length buf' = length buf
      /\ (r = Ok tt /\ buf' = blk w b \/ exists e, r = Err e /\ env_error e);
}.

(** A device that can also be written. *)
Class BlockWriter (D : Type) `{Env : Ext4Env D} (o : Ext4BlockOps D) (dev bs : Z)
    `{Dev : !BlockReader D o dev bs} := {
  write_law : forall w b buf, dev_inv w -> Z.of_nat (length buf) = bs -> is_bytes buf ->
    exists wr w' r, ops_write o = Some wr /\ wr dev b buf w = (w', r)
      /\ dev_inv w' /\ (forall c, c <> b -> blk w' c = blk w c) /\ (good w -> good w' /\ r = Ok tt)
      /\ (r = Ok tt /\ blk w' b = buf \/ exists e, r = Err e /\ env_error e);
  sync_law : forall w f, dev_inv w -> ops_sync o = Some f ->
    exists w' r, f dev w = (w', r)
      /\ dev_inv w' /\ (forall c, blk w' c = blk w c) /\ (good w -> good w' /\ r = Ok tt)
      /\ (r = Ok tt \/ exists e, r = Err e /\ env_error e);
}.

Section Spec.
Context {D : Type} `{Env : Ext4Env D} {o : Ext4BlockOps D} {dev bs : Z}.
Context `{Dev : !BlockReader D o dev bs}.

Abbreviation io := (eprog Ext4Error (World D)).
Abbreviation FS := (Ext4Filesystem D).

(** A context over this device. *)
Record fs_on (fs : FS) : Prop := {
  on_ops : ops fs = o;
  on_device : device fs = dev;
  on_block_size : block_size fs = bs;
  on_min_size : EXT4_MIN_BLOCK_SIZE <= bs < U32;
}.

(** The device keeps its content. *)
Definition quiet (w w' : World D) : Prop :=
  dev_inv w' /\ (forall b, blk w' b = blk w b) /\ (good w -> good w').

Lemma quiet_refl w : dev_inv w -> quiet w w.
Proof. intros. by split_and!. Qed.

Lemma quiet_trans w1 w2 w3 : quiet w1 w2 -> quiet w2 w3 -> quiet w1 w3.
Proof.
  intros (_ & H1 & G1) (I2 & H2 & G2). split_and!; [done| |tauto]. intros. by rewrite H2.
Qed.

(** The program returns, the device keeps its content, and the result satisfies
    [Q] unless the outside failed. *)
Definition reads {X} (p : io X) (w : World D) (Q : result Ext4Error X -> Prop) : Prop :=
  exists w' r, p w = Some (w', r) /\ quiet w w'
    /\ (Q r \/ exists e, r = Err e /\ env_error e /\ ~ good w).

Lemma reads_ret {X} (x : X) w Q : dev_inv w -> Q (Ok x) -> reads (mret x) w Q.
Proof. intros. exists w, (Ok x). split_and!; [done|by apply quiet_refl|by left]. Qed.

Lemma reads_throw {X} e w (Q : result Ext4Error X -> Prop) :
  dev_inv w -> Q (Err e) -> reads (throw e) w Q.
Proof. intros. exists w, (Err e). split_and!; [done|by apply quiet_refl|by left]. Qed.

Lemma reads_bind {X Y} (p : io X) (k : X -> io Y) w Q1 Q :
  reads p w Q1 ->
  (forall x w', Q1 (Ok x) -> quiet w w' -> reads (k x) w' Q) ->
  (forall e, Q1 (Err e) -> Q (Err e)) ->
  reads (p ≫= k) w Q.
Proof.
  intros (w1 & r & E & Hq & Hr) Hk He. destruct r as [x|e].
  - destruct Hr as [Hr|(e & ? & _)]; [|done].
    destruct (Hk x w1 Hr Hq) as (w2 & r2 & E2 & Hq2 & Hr2).
    exists w2, r2. rewrite (bind_ok _ _ _ _ _ E). split_and!; [done|by eapply quiet_trans|].
    destruct Hr2 as [|(e & -> & Hee & Hg)]; [by left|right].
    exists e. split_and!; [done|done|]. intros G. apply Hg. by apply Hq.
  - exists w1, (Err e). rewrite (bind_err _ _ _ _ _ E). split_and!; [done|done|].
    destruct Hr as [Hr|(e' & [= <-] & H)]; [left; by apply He|right]. by exists e.
Qed.

Lemma reads_weaken {X} (p : io X) w (Q Q' : result Ext4Error X -> Prop) :
  reads p w Q -> (forall r, Q r -> Q' r) -> reads p w Q'.
Proof.
  intros (w' & r & E & Hq & [H|H]) HQ; exists w', r; split_and!; auto.
Qed.

(** A step that has its answer. *)
Lemma reads_must {X} (m : option X) x w Q :
  dev_inv w -> m = Some x -> Q (Ok x) -> reads (must m) w Q.
Proof. intros ? -> ?. by apply reads_ret. Qed.

Lemma reads_div x y w Q : dev_inv w -> y <> 0 -> Q (Ok (x / y)) -> reads (div_by x y) w Q.
Proof. intros. unfold div_by. destruct (Z.eqb_spec y 0); [done|]. by apply reads_ret. Qed.

Lemma reads_rem x y w Q : dev_inv w -> y <> 0 -> Q (Ok (x mod y)) -> reads (rem_by x y) w Q.
Proof. intros. unfold rem_by. destruct (Z.eqb_spec y 0); [done|]. by apply reads_ret. Qed.

(** A buffer of zeros, unless memory is short. *)
Lemma reads_alloc n w Q : dev_inv w -> 0 < n -> Q (Ok (zeros (Z.to_nat n))) ->
  reads (alloc_buffer n) w Q.
Proof.
  intros Hi Hn HQ. unfold reads, alloc_buffer, kernel_alloc_bytes.
  destruct (Z.eqb_spec n 0); [lia|].
  destruct (env_kmalloc n (env w)) as [d p] eqn:E.
  destruct (kmalloc_law _ _ _ _ Hi E) as (Hi' & Hb & Hg).
  eexists _, _. split_and!; [done|split_and!; [done|done|tauto]|].
  destruct (Z.eqb_spec p 0) as [->|]; [|by left].
  right. exists NoMem. split_and!; [done|by right|]. by intros [_ ?]%Hg.
Qed.

(** A block read into a local buffer. *)
Lemma reads_block fs b buf w Q : fs_on fs -> dev_inv w -> Z.of_nat (length buf) = bs ->
  Q (Ok (blk w b)) -> reads (read_into fs b buf) w Q.
Proof.
  intros Hf Hi Hl HQ. unfold reads, read_into, read_block.
  rewrite (on_ops _ Hf), (on_device _ Hf).
  destruct (read_law w b buf Hi Hl) as (f & w' & buf' & r & -> & -> & Hi' & Hb & Hg & _ & Hr).
  eexists _, _. split_and!; [done|split_and!; [done|done|tauto]|].
  destruct Hr as [[-> ->]|(e & -> & He)]; [by left|].
  right. exists e. split_and!; [done|done|]. by intros [_ ?]%Hg.
Qed.

(** The same steps followed by the rest of a program. *)
Lemma bind_must {X Y} (m : option X) x (k : X -> io Y) w Q :
  m = Some x -> reads (k x) w Q -> reads (must m ≫= k) w Q.
Proof. intros ->. done. Qed.

Lemma bind_block {Y} fs b buf (k : bytes -> io Y) w Q :
  fs_on fs -> dev_inv w -> Z.of_nat (length buf) = bs ->
  (forall w', quiet w w' -> reads (k (blk w b)) w' Q) -> reads (read_into fs b buf ≫= k) w Q.
Proof.
  intros Hf Hi Hl Hk.
  eapply reads_bind; [by apply (reads_block fs b buf w (fun r => r = Ok (blk w b)))| |done].
  intros ? w' [= ->]. apply Hk.
Qed.

Lemma bind_alloc {Y} n (k : bytes -> io Y) w Q : dev_inv w -> 0 < n ->
  (forall w', quiet w w' -> reads (k (zeros (Z.to_nat n))) w' Q) -> reads (alloc_buffer n ≫= k) w Q.
Proof.
  intros Hi Hn Hk.
  eapply reads_bind; [by apply (reads_alloc n w (fun r => r = Ok (zeros (Z.to_nat n))))| |done].
  intros ? w' [= ->]. apply Hk.
Qed.

Lemma bind_div {Y} x y (k : Z -> io Y) w Q : y <> 0 -> reads (k (x / y)) w Q ->
  reads (div_by x y ≫= k) w Q.
Proof. intros. unfold div_by. by destruct (Z.eqb_spec y 0). Qed.

Lemma bind_rem {Y} x y (k : Z -> io Y) w Q : y <> 0 -> reads (k (x mod y)) w Q ->
  reads (rem_by x y ≫= k) w Q.
Proof. intros. unfold rem_by. by destruct (Z.eqb_spec y 0). Qed.

Lemma length_zeros n : 0 <= n -> Z.of_nat (length (zeros (Z.to_nat n))) = n.
Proof. intros. unfold zeros. rewrite length_replicate. lia. Qed.

Lemma quiet_inv w w' : quiet w w' -> dev_inv w'.
Proof. by intros (? & _). Qed.
Lemma quiet_blk w w' b : quiet w w' -> blk w' b = blk w b.
Proof. by intros (_ & ? & _). Qed.

(** Running a reading program on a larger state. *)
Lemma on_world_run {T X} (p : io X) (w : World D) (t : T) w' r :
  p w = Some (w', r) -> on_world p (w, t) = Some ((w', t), r).
Proof. intros H. unfold on_world, zoom. cbn. by rewrite H. Qed.

Lemma blk_slice w b off n : 0 <= off -> 0 <= n -> off + n <= bs ->
  slice (blk w b) off n = Some (take (Z.to_nat n) (drop (Z.to_nat off) (blk w b))).
Proof. intros. apply slice_some; [done..|]. rewrite blk_length. lia. Qed.
End Spec.
