(* ===== verification/Ext4Extents.v ===== *)
(** The block mappings of [Ext4]: extent trees and indirect blocks.

    An extent tree on the disk stands for a list of extents in the order of the
    leaves; looking a block up in the tree is looking it up in the list. *)

From S2P Require Import Prelude Packed Ext4Layout Ext4 Ext4Spec.

(** * The abstract map *)

Record extent := mkExtent { x_block : Z; x_len : Z; x_start : Z }.

Definition covers (e : extent) (lb : Z) : bool := (x_block e <=? lb) && (lb <? x_block e + x_len e).

(** The physical block of a logical one. *)
Fixpoint ext_find (es : list extent) (lb : Z) : option Z :=
  match es with
  | [] => None
  | e :: es' => if covers e lb then Some (x_start e + (lb - x_block e)) else ext_find es' lb
  end.

Definition extent_of (b : bytes) : extent :=
  mkExtent (field Ext4Extent "ee_block" b) (extent_len b) (extent_start b).

(** An extent the format can hold. *)
Definition extent_ok (e : extent) : Prop :=
  0 <= x_block e /\ 0 <= x_len e < 32768 /\ x_block e + x_len e < U32 /\ 0 <= x_start e < 2 ^ 48.

(** A child of an index node: key, block, extents below it. *)
Record child := mkChild { c_key : Z; c_block : Z; c_extents : list extent }.

Definition node_entries (node : bytes) : Z := field Ext4ExtentHeader "eh_entries" node.

(** The node of depth [d] stands for the extents. *)
Fixpoint ext_rep (content : Z -> bytes) (d : nat) (node : bytes) (es : list extent) : Prop :=
  match d with
  | O =>
      node_entries node = Z.of_nat (length es) /\ Forall extent_ok es
      /\ forall i e, es !! i = Some e ->
           exists b, node_entry node (Z.of_nat i) = Some b /\ extent_of b = e
  | S d' =>
      exists cs : list child,
        node_entries node = Z.of_nat (length cs)
        /\ es = concat (map c_extents cs)
        /\ (forall i c, cs !! i = Some c ->
              exists b, node_entry node (Z.of_nat i) = Some b
                /\ field Ext4ExtentIdx "ei_block" b = c_key c /\ idx_leaf b = c_block c)
        /\ (forall i c, cs !! i = Some c -> ext_rep content d' (content (c_block c)) (c_extents c))
        /\ (forall i c e, cs !! i = Some c -> e ∈ c_extents c -> c_key c <= x_block e)
        /\ (forall i j c c' e, (i < j)%nat -> cs !! i = Some c -> cs !! j = Some c' ->
              c_key c < c_key c' /\ (e ∈ c_extents c -> x_block e + x_len e <= c_key c'))
  end.

(** * Lemmas on the map *)

Lemma ext_find_none es lb : (forall e, e ∈ es -> covers e lb = false) -> ext_find es lb = None.
Proof.
  induction es as [|e es IH]; intros H; cbn; [done|].
  rewrite (H e) by apply list_elem_of_here. apply IH. intros x Hx. apply H. by right.
Qed.

Lemma ext_find_app es1 es2 lb :
  ext_find (es1 ++ es2) lb
  = match ext_find es1 lb with Some p => Some p | None => ext_find es2 lb end.
Proof. induction es1 as [|e es IH]; cbn; [done|]. destruct (covers e lb); [done|apply IH]. Qed.

(** Only the [k]-th part of a concatenation covers the block. *)
Lemma ext_find_concat (cs : list child) k c lb :
  cs !! k = Some c ->
  (forall j c' e, cs !! j = Some c' -> j <> k -> e ∈ c_extents c' -> covers e lb = false) ->
  ext_find (concat (map c_extents cs)) lb = ext_find (c_extents c) lb.
Proof.
  revert k. induction cs as [|c0 cs IH]; intros k Hk H; [done|]. cbn [map concat].
  rewrite ext_find_app. destruct k as [|k].
  - injection Hk as ->. destruct (ext_find (c_extents c) lb); [done|].
    apply ext_find_none. intros e (l & Hl & He)%list_elem_of_In%in_concat.
    apply list_elem_of_In in He. apply in_map_iff in Hl as (c' & <- & Hc).
    apply list_elem_of_In, list_elem_of_lookup in Hc as [j Hj].
    by apply (H (S j) c' e).
  - rewrite ext_find_none by (intros e He; by apply (H O c0 e)).
    apply (IH k Hk). intros j c' e Hj Hne He. apply (H (S j) c' e); [done|lia|done].
Qed.

Lemma ext_find_concat_none (cs : list child) lb :
  (forall j c e, cs !! j = Some c -> e ∈ c_extents c -> covers e lb = false) ->
  ext_find (concat (map c_extents cs)) lb = None.
Proof.
  intros H. apply ext_find_none. intros e (l & Hl & He)%list_elem_of_In%in_concat.
  apply list_elem_of_In in He. apply in_map_iff in Hl as (c & <- & Hc).
  apply list_elem_of_In, list_elem_of_lookup in Hc as [j Hj]. by apply (H j c e).
Qed.

Lemma covers_bound e lb : extent_ok e -> U32 <= lb -> covers e lb = false.
Proof.
  intros (? & ? & ? & _) ?. unfold covers. apply andb_false_iff. right. apply Z.ltb_ge. lia.
Qed.

(** * Scans of a node *)

(** The scan of an index node stops at the first key above the block. *)
Lemma scan_index_spec node lb (cs : list child) i best :
  (forall k c, cs !! k = Some c ->
     exists b, node_entry node (i + Z.of_nat k) = Some b
       /\ field Ext4ExtentIdx "ei_block" b = c_key c /\ idx_leaf b = c_block c) ->
  exists n r, scan_index node lb (length cs) i best = Some r /\ (n <= length cs)%nat
    /\ (forall j c, (j < n)%nat -> cs !! j = Some c -> c_key c <= lb)
    /\ (forall c, cs !! n = Some c -> lb < c_key c)
    /\ match n with
       | O => r = best
       | S n' => exists c b, cs !! n' = Some c /\ r = Some b /\ idx_leaf b = c_block c
       end.
Proof.
  revert i best. induction cs as [|c cs IH]; intros i best H.
  { exists O, best. split_and!; (done || lia). }
  destruct (H O c eq_refl) as (b & Eb & Hkey & Hleaf). rewrite Z.add_0_r in Eb.
  cbn [length scan_index]. rewrite Eb, Hkey. destruct (Z.leb_spec (c_key c) lb) as [Hle|Hgt].
  - destruct (IH (i + 1) (Some b)) as (n & r & Er & Hn & Hlow & Hhigh & Hr).
    { intros k c' Hk. destruct (H (S k) c' Hk) as (b' & Eb' & Hb').
      exists b'. split; [|done]. rewrite <- Eb'. f_equal. lia. }
    exists (S n), r. split_and!; [done|lia| |done|].
    + intros [|j] c' Hj Hc; [by injection Hc as <-|]. apply (Hlow j); [lia|done].
    + destruct n as [|n']; [by exists c, b|]. destruct Hr as (c' & b' & Hc' & ? & ?).
      by exists c', b'.
  - exists O, best. split_and!; [done|lia| |by intros ? [= <-]|done]. intros; lia.
Qed.

Lemma scan_leaf_spec node lb es i : 0 <= lb ->
  Forall extent_ok es ->
  (forall k e, es !! k = Some e ->
     exists b, node_entry node (i + Z.of_nat k) = Some b /\ extent_of b = e) ->
  scan_leaf node lb (length es) i = Some (ext_find es lb).
Proof.
  intros Hlb Hok. revert i. induction Hok as [|e es He Hok IH]; intros i H; [done|].
  destruct (H O e eq_refl) as (b & Eb & Hb). rewrite Z.add_0_r in Eb.
  cbn [length scan_leaf ext_find]. rewrite Eb. subst e.
  destruct He as (Hb0 & Hl & Hu & Hs). cbn [extent_of x_block x_len x_start] in *.
  unfold covers, add32. cbn [extent_of x_block x_len x_start].
  unfold wrap32. rewrite (Z.mod_small (_ + _)) by lia.
  destruct (Z.leb_spec (field Ext4Extent "ee_block" b) lb); cbn [andb].
  2:{ apply IH. intros k e Hk. destruct (H (S k) e Hk) as (b' & ? & ?).
      exists b'. split; [|done]. replace (i + 1 + Z.of_nat k) with (i + Z.of_nat (S k)) by lia. done. }
  destruct (Z.ltb_spec lb (field Ext4Extent "ee_block" b + extent_len b)).
  - rewrite add64_small; [done|]. unfold U64. lia.
  - apply IH. intros k e Hk. destruct (H (S k) e Hk) as (b' & ? & ?).
    exists b'. split; [|done]. replace (i + 1 + Z.of_nat k) with (i + Z.of_nat (S k)) by lia. done.
Qed.

(** The child a scan selects is the only one that can cover the block. *)
Lemma selected_child (cs : list child) n lb :
  (forall i c e, cs !! i = Some c -> e ∈ c_extents c -> c_key c <= x_block e) ->
  (forall i j c c' e, (i < j)%nat -> cs !! i = Some c -> cs !! j = Some c' ->
     c_key c < c_key c' /\ (e ∈ c_extents c -> x_block e + x_len e <= c_key c')) ->
  (n <= length cs)%nat ->
  (forall j c, (j < n)%nat -> cs !! j = Some c -> c_key c <= lb) ->
  (forall c, cs !! n = Some c -> lb < c_key c) ->
  forall j c e, cs !! j = Some c -> S j <> n -> e ∈ c_extents c -> covers e lb = false.
Proof.
  intros Hmin Hsort Hn Hlow Hhigh j c e Hj Hne He. unfold covers. apply andb_false_iff.
  destruct (decide (S j < n)%nat) as [Hlt|Hge].
  - right. apply Z.ltb_ge. assert (is_Some (cs !! S j)) as [c' Hc'] by (apply lookup_lt_is_Some; lia).
    destruct (Hsort j (S j) c c' e ltac:(lia) Hj Hc') as [_ Hb]. specialize (Hb He).
    specialize (Hlow (S j) c' Hlt Hc'). lia.
  - left. apply Z.leb_gt. specialize (Hmin _ _ _ Hj He).
    assert (is_Some (cs !! n)) as [c' Hc'].
    { apply lookup_lt_is_Some. pose proof (lookup_lt_Some _ _ _ Hj). lia. }
    specialize (Hhigh _ Hc'). destruct (decide (n = j)) as [->|].
    + rewrite Hj in Hc'. injection Hc' as <-. lia.
    + destruct (Hsort n j c' c e ltac:(lia) Hc' Hj) as [? _]. lia.
Qed.

Section Extents.
Context {D : Type} `{Env : Ext4Env D} {o : Ext4BlockOps D} {dev bs : Z}.
Context `{Dev : !BlockReader D o dev bs}.

Lemma wrap32_small lb : 0 <= lb < U32 -> wrap32 lb = lb.
Proof. apply Z.mod_small. Qed.

Lemma ext_rep_ext c1 c2 d node es :
  (forall b, c2 b = c1 b) -> ext_rep c1 d node es -> ext_rep c2 d node es.
Proof.
  intros Hc. revert node es. induction d as [|d IH]; intros node es; [done|].
  intros (cs & H1 & H2 & H3 & H4 & H5). exists cs. split_and!; [done..| |apply H5|apply H5].
  intros i c Hi. rewrite Hc. by apply IH, (H4 i).
Qed.

Lemma ext_rep_covers_big c d node es lb :
  ext_rep c d node es -> U32 <= lb -> ext_find es lb = None.
Proof.
  intros H Hlb. apply ext_find_none. intros e He. apply covers_bound; [|done].
  revert node es e H He. induction d as [|d IH]; intros node es e H He.
  - destruct H as (_ & Hok & _). rewrite Forall_forall in Hok. by apply Hok.
  - destruct H as (cs & _ & -> & _ & Hch & _).
    apply list_elem_of_In, in_concat in He as (l & Hl & He). apply list_elem_of_In in He.
    apply in_map_iff in Hl as (c' & <- & Hc).
    apply list_elem_of_In, list_elem_of_lookup in Hc as [j Hj]. by apply (IH _ _ _ (Hch _ _ Hj)).
Qed.

(** Going down the tree keeps what a lookup finds. *)
Lemma descend_spec fs lb d node es w :
  fs_on (o := o) (dev := dev) (bs := bs) fs -> dev_inv w -> 0 <= lb ->
  ext_rep (blk w) d node es ->
  reads (descend fs lb d node) w (fun r =>
    match r with
    | Ok leaf => exists es', ext_rep (blk w) 0 leaf es' /\ ext_find es' lb = ext_find es lb
    | Err e => e = NotFound /\ ext_find es lb = None
    end).
Proof.
  intros Hf Hi Hlb. revert node es w Hi. induction d as [|d IH]; intros node es w Hi Hrep.
  { apply reads_ret; [done|]. by exists es. }
  pose proof Hrep as (cs & Hn & Hes & Hent & Hch & Hmin & Hsort). cbn [descend].
  unfold node_entries in Hn. rewrite Hn, Nat2Z.id.
  destruct (scan_index_spec node (wrap32 lb) cs 0 None) as (n & best & Eb & Hnn & Hlow & Hhigh & Hr).
  { intros k c Hk. destruct (Hent k c Hk) as (b & ? & ?). by exists b. }
  apply (bind_must _ best); [done|].
  assert (forall j c e, cs !! j = Some c -> S j <> n -> e ∈ c_extents c -> covers e lb = false) as Hout.
  { destruct (Z.lt_ge_cases lb U32) as [Hs|Hbig].
    - rewrite wrap32_small in Hlow, Hhigh by done. by apply selected_child.
    - intros j c e Hj _ He.
      destruct (covers e lb) eqn:Ec; [|done]. exfalso.
      assert (ext_find (c_extents c) lb = None) as Hno by (eapply ext_rep_covers_big; [by eapply Hch|done]).
      revert Hno He. generalize (c_extents c). intros l Hl He.
      induction l as [|x l IHl]; [by apply not_elem_of_nil in He|]. cbn in Hl.
      destruct (covers x lb) eqn:Ex; [done|].
      apply elem_of_cons in He as [->|He]; [congruence|by apply IHl]. }
  destruct n as [|n'].
  { subst best. apply reads_throw; [done|]. split; [done|]. subst es.
    apply ext_find_concat_none. intros j c e Hj He. by apply (Hout j c e). }
  destruct Hr as (c & b & Hc & -> & Hleaf).
  destruct (on_min_size _ Hf) as [Hmin1 _]. unfold EXT4_MIN_BLOCK_SIZE in Hmin1.
  rewrite (on_block_size _ Hf).
  apply bind_alloc; [done|lia|]. intros w2 Hq2.
  apply bind_block; [done|by eapply quiet_inv|apply length_zeros; lia|]. intros w3 Hq3.
  assert (forall x, blk w3 x = blk w x) as Hb.
  { intros. rewrite (quiet_blk w2 w3), (quiet_blk w w2) by done. done. }
  eapply reads_weaken.
  { apply (IH (blk w2 (idx_leaf b)) (c_extents c) w3); [by eapply quiet_inv|].
    rewrite (quiet_blk w w2), Hleaf by done. apply (ext_rep_ext (blk w)); [done|]. by apply (Hch n'). }
  intros r Hr. assert (ext_find es lb = ext_find (c_extents c) lb) as ->.
  { subst es. apply (ext_find_concat cs n'); [done|].
    intros j c' e Hj Hne He. by apply (Hout j c' e); [|lia|]. }
  destruct r as [leaf|e]; [|done]. destruct Hr as (es' & Hrep' & Hfind).
  exists es'. split; [|done]. by apply (ext_rep_ext (blk w3)); [intros; rewrite Hb|].
Qed.

(** The extent map of an inode. *)
Definition extent_map (content : Z -> bytes) (inode : bytes) (es : list extent) : Prop :=
  let root := drop i_block_offset inode in
  field Ext4ExtentHeader "eh_magic" root = EXT4_EXT_MAGIC
  /\ ext_rep content (Z.to_nat (field Ext4ExtentHeader "eh_depth" root)) root es.

Lemma extent_lookup_spec fs inode es lb w :
  fs_on (o := o) (dev := dev) (bs := bs) fs -> dev_inv w -> 0 <= lb ->
  extent_map (blk w) inode es ->
  reads (get_block_from_extent fs inode lb) w (fun r =>
    r = match ext_find es lb with Some p => Ok p | None => Err NotFound end).
Proof.
  intros Hf Hi Hlb [Hm Hrep]. unfold get_block_from_extent. rewrite Hm, Z.eqb_refl. cbn [negb].
  eapply reads_bind; [by apply descend_spec| |].
  2:{ intros e [-> Hn]. by rewrite Hn. }
  intros leaf w1 (es' & Hrep' & Hfind) (Hi1 & Hb1 & _).
  destruct Hrep' as (Hn & Hok & Hent). unfold node_entries in Hn. rewrite Hn, Nat2Z.id.
  assert (scan_leaf leaf lb (length es') 0 = Some (ext_find es' lb)) as E by by apply scan_leaf_spec.
  apply (bind_must _ (ext_find es' lb)); [done|]. rewrite Hfind.
  destruct (ext_find es lb); [by apply reads_ret|by apply reads_throw].
Qed.

(** * Indirect blocks

    The path of a logical block: the slot of [i_block] and the index in each
    indirect block on the way, for [n] pointers to a block. *)
Definition ind_path (n lb : Z) : option (Z * list Z) :=
  if lb <? 12 then Some (lb, [])
  else
    let r := lb - 12 in
    if r <? n then Some (12, [r])
    else
      let r := r - n in
      if r <? n * n then Some (13, [r / n; r mod n])
      else
        let r := r - n * n in
        if r <? n * n * n then Some (14, [r / (n * n); (r / n) mod n; r mod n]) else None.

(** Entry [i] of a block of pointers, and the block at the end of a path. *)
Definition ptr_in (b : bytes) (i : Z) : Z := le (take 4 (drop (Z.to_nat (4 * i)) b)).
Fixpoint follow (content : Z -> bytes) (p : Z) (path : list Z) : Z :=
  match path with
  | [] => p
  | i :: path' => follow content (ptr_in (content p) i) path'
  end.

(** How many blocks an inode without extents can address. *)
Definition ind_limit (n : Z) : Z := 12 + n + n * n + n * n * n.

Lemma split_index n r : 0 < n -> 0 <= r < n * n -> 0 <= r / n < n /\ 0 <= r mod n < n.
Proof.
  intros. split; [|apply Z.mod_pos_bound; lia].
  split; [apply Z.div_pos; lia|apply Z.div_lt_upper_bound; lia].
Qed.

Lemma split_index3 n r : 0 < n -> 0 <= r < n * n * n ->
  0 <= r / (n * n) < n /\ 0 <= (r / n) mod n < n /\ 0 <= r mod n < n.
Proof.
  intros. split_and!; try (apply Z.mod_pos_bound; lia).
  - apply Z.div_pos; nia.
  - apply Z.div_lt_upper_bound; nia.
Qed.

(** Every index of a path is within its block. *)
Lemma ind_path_in_range n lb slot path : 0 < n -> 0 <= lb -> ind_path n lb = Some (slot, path) ->
  0 <= slot < 15 /\ Forall (fun i => 0 <= i < n) path.
Proof.
  intros Hn Hlb. unfold ind_path.
  destruct (Z.ltb_spec lb 12). { intros [= <- <-]. split; [lia|constructor]. }
  destruct (Z.ltb_spec (lb - 12) n). { intros [= <- <-]. split; [lia|]. constructor; [lia|constructor]. }
  destruct (Z.ltb_spec (lb - 12 - n) (n * n)).
  { intros [= <- <-]. split; [lia|]. pose proof (split_index n (lb - 12 - n) Hn ltac:(lia)).
    repeat constructor; tauto. }
  destruct (Z.ltb_spec (lb - 12 - n - n * n) (n * n * n)); [|done].
  intros [= <- <-]. split; [lia|]. pose proof (split_index3 n (lb - 12 - n - n * n) Hn ltac:(lia)).
  repeat constructor; tauto.
Qed.

(** The remainder of a block number is determined by its indices. *)
Lemma recompose2 n r : 0 < n -> r = n * (r / n) + r mod n.
Proof. intros. apply Z.div_mod. lia. Qed.

Lemma recompose3 n r : 0 < n -> r = n * (n * (r / (n * n)) + (r / n) mod n) + r mod n.
Proof.
  intros. rewrite <- Z.div_div by lia. rewrite <- (recompose2 n (r / n)) by done. by apply recompose2.
Qed.

(** Different blocks have different paths. *)
Lemma ind_path_inj n a b x : 0 < n -> ind_path n a = Some x -> ind_path n b = Some x ->
  0 <= a -> 0 <= b -> a = b.
Proof.
  intros Hn. unfold ind_path.
  destruct (Z.ltb_spec a 12), (Z.ltb_spec b 12);
    try (intros [= <-] [= ->]; lia);
    destruct (Z.ltb_spec (a - 12) n), (Z.ltb_spec (b - 12) n);
    destruct (Z.ltb_spec (a - 12 - n) (n * n)), (Z.ltb_spec (b - 12 - n) (n * n));
    destruct (Z.ltb_spec (a - 12 - n - n * n) (n * n * n)),
             (Z.ltb_spec (b - 12 - n - n * n) (n * n * n));
    intros [= <-]; intros E; try discriminate E; injection E; intros; try lia.
  all: try (pose proof (recompose2 n (a - 12 - n) Hn); pose proof (recompose2 n (b - 12 - n) Hn)).
  all: try (pose proof (recompose3 n (a - 12 - n - n * n) Hn);
            pose proof (recompose3 n (b - 12 - n - n * n) Hn)).
  all: try congruence.
  all: try (enough (a - 12 - n = b - 12 - n) by lia; congruence).
  all: try (enough (a - 12 - n - n * n = b - 12 - n - n * n) by lia; congruence).
Qed.

Lemma ptr_at_blk w b i : 0 <= i < bs / 4 -> 0 <= bs ->
  ptr_at (blk w b) (bs / 4) i = Some (ptr_in (blk w b) i).
Proof.
  intros Hi Hbs. unfold ptr_at. destruct (Z.leb_spec 0 i), (Z.ltb_spec i (bs / 4)); try lia.
  cbn [andb]. assert (4 * i + 4 <= bs) by dlia. by rewrite blk_slice by lia.
Qed.

(** One pointer of an indirect block. *)
Lemma bind_ptr {Y} fs p i buf (k : bytes -> Z -> eprog Ext4Error (World D) Y) w Q :
  fs_on (o := o) (dev := dev) (bs := bs) fs -> dev_inv w -> Z.of_nat (length buf) = bs ->
  0 <= i < bs / 4 ->
  (forall w', quiet w w' -> reads (k (blk w p) (ptr_in (blk w p) i)) w' Q) ->
  reads (buffer ← read_into fs p buf; x ← must (ptr_at buffer (bs / 4) i); k buffer x) w Q.
Proof.
  intros Hf Hi Hl Hr Hk. destruct (on_min_size _ Hf) as [Hm _]. unfold EXT4_MIN_BLOCK_SIZE in Hm.
  apply bind_block; [done..|]. intros w' Hq.
  apply (bind_must _ (ptr_in (blk w p) i)); [apply ptr_at_blk; lia|by apply Hk].
Qed.

Lemma reads_ptr fs p i buf w Q :
  fs_on (o := o) (dev := dev) (bs := bs) fs -> dev_inv w -> Z.of_nat (length buf) = bs ->
  0 <= i < bs / 4 -> Q (Ok (ptr_in (blk w p) i)) ->
  reads (buffer ← read_into fs p buf; must (ptr_at buffer (bs / 4) i)) w Q.
Proof.
  intros Hf Hi Hl Hr HQ. destruct (on_min_size _ Hf) as [Hm _]. unfold EXT4_MIN_BLOCK_SIZE in Hm.
  apply bind_block; [done..|]. intros w' Hq.
  eapply reads_must; [by eapply quiet_inv|apply ptr_at_blk; lia|done].
Qed.

Lemma blk_len w b : Z.of_nat (length (blk w b)) = bs.
Proof. apply blk_length. Qed.

(** The indirect mapping follows the path. *)
Lemma indirect_lookup_spec fs inode lb slot path w :
  fs_on (o := o) (dev := dev) (bs := bs) fs -> dev_inv w -> 0 <= lb ->
  ind_path (bs / 4) lb = Some (slot, path) ->
  reads (get_block_indirect fs inode lb) w (fun r =>
    r = Ok (follow (blk w) (i_block inode slot) path)).
Proof.
  intros Hf Hi Hlb. destruct (on_min_size _ Hf) as [Hm HM]. unfold EXT4_MIN_BLOCK_SIZE, U32 in *.
  unfold get_block_indirect, ind_path, EXT4_NDIR_BLOCKS, EXT4_IND_BLOCK, EXT4_DIND_BLOCK, EXT4_TIND_BLOCK.
  rewrite (on_block_size _ Hf). assert (0 < bs / 4 < 2 ^ 30) as Hn by dlia.
  rewrite mul64_small by (unfold U64; nia).
  destruct (Z.ltb_spec lb 12). { intros [= <- <-]. by apply reads_ret. }
  intros Hp. apply bind_alloc; [done|lia|]. intros w1 Hq1. revert Hp.
  pose proof (quiet_inv _ _ Hq1) as Hi1.
  destruct (Z.ltb_spec (lb - 12) (bs / 4)).
  { intros [= <- <-]. apply reads_ptr; [done..|apply length_zeros; lia|lia|].
    by rewrite (quiet_blk w w1). }
  destruct (Z.ltb_spec (lb - 12 - bs / 4) (bs / 4 * (bs / 4))).
  { destruct (split_index (bs / 4) (lb - 12 - bs / 4)) as [Hr1 Hr2]; [lia..|].
    intros [= <- <-]. apply bind_ptr; [done..|apply length_zeros; lia|done|]. intros w2 Hq2.
    apply reads_ptr; [done|by eapply quiet_inv|apply blk_len|done|].
    cbn [follow]. by rewrite !(quiet_blk w1 w2), !(quiet_blk w w1). }
  destruct (Z.ltb_spec (lb - 12 - bs / 4 - bs / 4 * (bs / 4)) (bs / 4 * (bs / 4) * (bs / 4))); [|done].
  destruct (split_index3 (bs / 4) (lb - 12 - bs / 4 - bs / 4 * (bs / 4))) as (Hr1 & Hr2 & Hr3); [lia..|].
  intros [= <- <-]. apply bind_ptr; [done..|apply length_zeros; lia|done|]. intros w2 Hq2.
  apply bind_ptr; [done|by eapply quiet_inv|apply blk_len|done|]. intros w3 Hq3.
  apply reads_ptr; [done|by eapply quiet_inv|apply blk_len|done|].
  cbn [follow]. by rewrite !(quiet_blk w2 w3), !(quiet_blk w1 w2), !(quiet_blk w w1).
Qed.

(** Beyond the triple-indirect blocks the index is out of range and the kernel
    panics, unless the outside fails first. *)
Lemma indirect_beyond_spec fs inode lb w :
  fs_on (o := o) (dev := dev) (bs := bs) fs -> dev_inv w -> good w -> lb < U64 ->
  ind_limit (bs / 4) <= lb -> get_block_indirect fs inode lb w = None.
Proof.
  intros Hf Hi Hg Hlb Hlim. destruct (on_min_size _ Hf) as [Hm HM]. unfold EXT4_MIN_BLOCK_SIZE, U32, ind_limit in *.
  unfold get_block_indirect, EXT4_NDIR_BLOCKS, EXT4_IND_BLOCK, EXT4_DIND_BLOCK, EXT4_TIND_BLOCK.
  rewrite (on_block_size _ Hf). assert (0 < bs / 4 < 2 ^ 30) as Hn by dlia.
  rewrite mul64_small by (unfold U64; nia). set (n := bs / 4) in *.
  destruct (Z.ltb_spec lb 12); [nia|].
  destruct (reads_alloc bs w (fun r => r = Ok (zeros (Z.to_nat bs))) Hi ltac:(lia) eq_refl)
    as (w1 & r & E1 & (Hi1 & Hb1 & Hg1) & [->|(e & _ & _ & Hng)]); [|done].
  rewrite (bind_ok _ _ _ _ _ E1).
  destruct (Z.ltb_spec (lb - 12) n); [nia|]. destruct (Z.ltb_spec (lb - 12 - n) (n * n)); [nia|].
  destruct (reads_block fs (i_block inode 14) (zeros (Z.to_nat bs)) w1
              (fun r => r = Ok (blk w1 (i_block inode 14))) Hf Hi1 (length_zeros bs ltac:(lia)) eq_refl)
    as (w2 & r & E2 & (Hi2 & Hb2 & Hg2) & [->|(e & _ & _ & Hng)]); [|by apply Hg1 in Hg].
  rewrite (bind_ok _ _ _ _ _ E2).
  assert (n <= (lb - 12 - n - n * n) / (n * n)) by (apply Z.div_le_lower_bound; nia).
  assert (forall buf, ptr_at buf n ((lb - 12 - n - n * n) / (n * n)) = None) as ->; [|done].
  intros buf. unfold ptr_at.
  destruct (Z.ltb_spec ((lb - 12 - n - n * n) / (n * n)) n); [lia|]. by rewrite andb_false_r.
Qed.
End Extents.
