(* ===== verification/Ext4Files.v ===== *)
(** Reading files: [read_at_into] and the file handle of [Ext4] against a
    definition that reads one byte at a time. *)

From S2P Require Import Prelude Packed Ext4Layout Ext4 Ext4Spec Ext4Extents.

(** * The reference *)

(** Byte [k] of the file, for a map [m] from its blocks to those of the disk;
    block 0 is a hole. *)
Definition file_byte (content : Z -> bytes) (bs k p : Z) : Z :=
  if p =? 0 then 0 else default 0 (content p !! Z.to_nat (k mod bs)).

(** [n] bytes from [off] on, or the first error of the map. *)
Fixpoint file_range (content : Z -> bytes) (m : Z -> result Ext4Error Z) (bs off : Z) (n : nat)
  : result Ext4Error bytes :=
  match n with
  | O => Ok []
  | S n' =>
      match m (off / bs) with
      | Err e => Err e
      | Ok p =>
          match file_range content m bs (off + 1) n' with
          | Ok l => Ok (file_byte content bs off p :: l)
          | Err e => Err e
          end
      end
  end.

Lemma file_range_length c m bs off n l : file_range c m bs off n = Ok l -> length l = n.
Proof.
  revert off l. induction n as [|n IH]; intros off l; cbn; [by intros [= <-]|].
  destruct (m (off / bs)) as [p|]; [|done].
  destruct (file_range c m bs (off + 1) n) as [l'|] eqn:E; [|done].
  intros [= <-]. cbn. f_equal. by apply (IH (off + 1)).
Qed.

Lemma file_range_ext c1 c2 m bs off n : (forall b, c2 b = c1 b) ->
  file_range c2 m bs off n = file_range c1 m bs off n.
Proof.
  intros Hc. revert off. induction n as [|n IH]; intros off; cbn; [done|].
  rewrite IH. destruct (m (off / bs)); [|done]. unfold file_byte. by rewrite Hc.
Qed.

(** The part of a block that a chunk covers. *)
Definition chunk_bytes (content : Z -> bytes) (p bo : Z) (n : nat) : bytes :=
  if p =? 0 then zeros n else take n (drop (Z.to_nat bo) (content p)).

(** A chunk inside one block. *)
Lemma file_range_chunk c m bs off p n k :
  0 < bs -> 0 <= off -> m (off / bs) = Ok p ->
  off mod bs + Z.of_nat n <= bs -> (forall b, Z.of_nat (length (c b)) = bs) ->
  file_range c m bs off (n + k)
  = match file_range c m bs (off + Z.of_nat n) k with
    | Ok l => Ok (chunk_bytes c p (off mod bs) n ++ l)
    | Err e => Err e
    end.
Proof.
  intros Hbs. revert off. induction n as [|n IH]; intros off Hoff Hm Hn Hl.
  { rewrite Z.add_0_r. unfold chunk_bytes. cbn [Nat.add zeros replicate].
    destruct (p =? 0); cbn; by destruct (file_range c m bs off k). }
  cbn [Nat.add file_range]. rewrite Hm.
  destruct (decide (n = O)) as [->|Hne].
  - cbn [Nat.add]. change (Z.of_nat 1) with 1.
    destruct (file_range c m bs (off + 1) k); [|done]. f_equal.
    unfold file_byte, chunk_bytes. destruct (Z.eqb_spec p 0); [done|]. cbn [app].
    pose proof (Z.mod_pos_bound off bs Hbs).
    assert (is_Some (c p !! Z.to_nat (off mod bs))) as [x Hx]
      by (apply lookup_lt_is_Some; specialize (Hl p); lia).
    rewrite Hx, (drop_S _ _ _ Hx). done.
  - pose proof (Z.mod_pos_bound off bs Hbs).
    assert (off / bs = (off + 1) / bs /\ (off + 1) mod bs = off mod bs + 1) as [Hd Hmd].
    { pose proof (Z.div_mod off bs ltac:(lia)).
      split; [apply Z.div_unique with (off mod bs + 1); lia|].
      symmetry. apply Z.mod_unique with (off / bs); lia. }
    rewrite IH; [|lia|by rewrite <- Hd|lia|done].
    replace (off + 1 + Z.of_nat n) with (off + Z.of_nat (S n)) by lia.
    destruct (file_range c m bs (off + Z.of_nat (S n)) k); [|done]. f_equal.
    unfold file_byte, chunk_bytes. rewrite Hmd. destruct (Z.eqb_spec p 0); [done|].
    assert (is_Some (c p !! Z.to_nat (off mod bs))) as [x Hx]
      by (apply lookup_lt_is_Some; specialize (Hl p); lia).
    rewrite Hx, (drop_S _ _ _ Hx). cbn [app take default]. f_equal.
    by replace (Z.to_nat (off mod bs + 1)) with (S (Z.to_nat (off mod bs))) by lia.
Qed.

Lemma file_range_error c m bs off n e : m (off / bs) = Err e -> file_range c m bs off (S n) = Err e.
Proof. intros E. cbn. by rewrite E. Qed.

Section Files.
Context {D : Type} `{Env : Ext4Env D} {o : Ext4BlockOps D} {dev bs : Z}.
Context `{Dev : !BlockReader D o dev bs}.

(** The map of an inode on a disk, as far as [limit] blocks. *)
Definition block_map (content : Z -> bytes) (inode : bytes) (limit : Z) (m : Z -> result Ext4Error Z)
  : Prop :=
  if uses_extents inode then
    exists es, extent_map content inode es
      /\ forall lb, 0 <= lb -> m lb = match ext_find es lb with Some p => Ok p | None => Err NotFound end
  else
    forall lb, 0 <= lb < limit -> exists slot path,
      ind_path (bs / 4) lb = Some (slot, path) /\ m lb = Ok (follow content (i_block inode slot) path).

Lemma follow_ext c1 c2 p path : (forall b, c2 b = c1 b) -> follow c2 p path = follow c1 p path.
Proof. intros Hc. revert p. induction path as [|i t IH]; intros p; cbn; [done|]. by rewrite Hc. Qed.

Lemma block_map_ext c1 c2 inode limit m : (forall b, c2 b = c1 b) ->
  block_map c1 inode limit m -> block_map c2 inode limit m.
Proof.
  intros Hc. unfold block_map. destruct (uses_extents inode).
  - intros (es & [Hm Hr] & H). exists es. split; [|done]. split; [done|]. by apply (ext_rep_ext c1).
  - intros H lb Hlb. destruct (H lb Hlb) as (slot & path & ? & ?). exists slot, path.
    by rewrite (follow_ext c1 c2).
Qed.

Lemma get_block_spec fs inode limit m lb w :
  fs_on (o := o) (dev := dev) (bs := bs) fs -> dev_inv w ->
  block_map (blk w) inode limit m -> 0 <= lb < limit ->
  reads (get_block fs inode lb) w (fun r => r = m lb).
Proof.
  intros Hf Hi Hm Hlb. unfold get_block, block_map in *. destruct (uses_extents inode).
  - destruct Hm as (es & Hes & Hm). rewrite Hm by lia. by apply extent_lookup_spec; [..|lia|].
  - destruct (Hm lb Hlb) as (slot & path & Hp & ->).
    by apply indirect_lookup_spec; [..|lia|].
Qed.

Lemma on_world_reads {T X} (p : eprog Ext4Error (World D) X) w (t : T) Q :
  reads p w Q -> exists w' r, on_world p (w, t) = Some ((w', t), r) /\ quiet w w'
    /\ (Q r \/ exists e, r = Err e /\ env_error e /\ ~ good w).
Proof.
  intros (w' & r & E & Hq & Hr). exists w', r. split_and!; [|done|done]. by apply on_world_run.
Qed.

(** The scratch buffer takes the whole block. *)
Lemma scratch_spec fs b from len w :
  fs_on (o := o) (dev := dev) (bs := bs) fs -> dev_inv w -> bs <= EXT4_MMAP_SCRATCH_SIZE ->
  0 <= from -> 0 <= len -> from + len <= bs ->
  reads (read_scratch fs b bs from len) w (fun r =>
    r = Ok (take (Z.to_nat len) (drop (Z.to_nat from) (blk w b)))).
Proof.
  intros Hf Hi Hbs H0 H1 H2. destruct (on_min_size _ Hf) as [Hm _]. unfold EXT4_MIN_BLOCK_SIZE in Hm.
  pose proof (scratch_length _ Hi) as Hs. unfold EXT4_MMAP_SCRATCH_SIZE in *.
  unfold reads, read_scratch, read_block. rewrite slice_some, (on_ops _ Hf), (on_device _ Hf) by lia.
  set (part := take _ _). assert (Z.of_nat (length part) = bs) as Hp.
  { subst part. rewrite length_take, length_drop. lia. }
  destruct (read_law w b part Hi Hp) as (f & w' & buf' & r & -> & -> & Hi' & Hb & Hg & Hl & Hr).
  pose proof (scratch_length _ Hi') as Hs'. unfold EXT4_MMAP_SCRATCH_SIZE in Hs'.
  rewrite splice_some by lia. set (sc := _ ++ _).
  assert (length sc = length (EXT4_MMAP_SCRATCH w')) as Hsc.
  { subst sc. rewrite !length_app, length_take, length_drop. lia. }
  destruct (scratch_law w' sc Hi' Hsc) as (Hi2 & Hb2 & Hg2).
  assert (quiet w (set_scratch sc w')) as Hq.
  { split_and!; [done| |tauto]. intros. by rewrite Hb2, Hb. }
  destruct Hr as [[-> Hbuf]|(e & -> & He)].
  - assert (slice sc from len = Some (take (Z.to_nat len) (drop (Z.to_nat from) buf'))) as Hsl.
    { rewrite slice_some by lia. f_equal. subst sc. rewrite take_0. cbn [app].
      rewrite drop_app_le by lia. rewrite take_app_le; [done|]. rewrite length_drop. lia. }

    rewrite Hsl. eexists _, _. split_and!; [done|done|]. left. by rewrite Hbuf.
  - eexists _, _. split_and!; [done|done|]. right. exists e. split_and!; [done|done|]. by intros [_ ?]%Hg.
Qed.

(** Only bytes [t, n) of the buffer may have changed. *)
Definition framed (dst dst' : bytes) (t n : Z) : Prop :=
  length dst' = length dst
  /\ take (Z.to_nat t) dst' = take (Z.to_nat t) dst /\ drop (Z.to_nat n) dst' = drop (Z.to_nat n) dst.

(** What a read of bytes [t, n) of the buffer did: the disk is as before, and
    the buffer has the wanted bytes there, or the answer is the wanted error, or
    the outside failed. *)
Definition read_done (w w' : World D) (dst dst' : bytes) (t n x : Z) (r : result Ext4Error Z)
    (want : result Ext4Error bytes) : Prop :=
  quiet w w' /\ framed dst dst' t n
  /\ (match want with
      | Ok l => r = Ok x /\ dst' = take (Z.to_nat t) dst ++ l ++ drop (Z.to_nat n) dst
      | Err e => r = Err e
      end
      \/ exists e, r = Err e /\ env_error e /\ ~ good w).

Lemma splice_keep dst t x : 0 <= t -> t + Z.of_nat (length x) <= Z.of_nat (length dst) ->
  exists dst', splice dst t x = Some dst' /\ length dst' = length dst
    /\ dst' = take (Z.to_nat t) dst ++ x ++ drop (Z.to_nat t + length x) dst
    /\ take (Z.to_nat t) dst' = take (Z.to_nat t) dst
    /\ take (Z.to_nat t + length x) dst' = take (Z.to_nat t) dst ++ x
    /\ forall n, t + Z.of_nat (length x) <= n -> drop (Z.to_nat n) dst' = drop (Z.to_nat n) dst.
Proof.
  intros. eexists. split; [by apply splice_some|]. split; [|split; [done|split_and!]].
  - rewrite !length_app, length_take, length_drop. lia.
  - rewrite take_app_length'; [done|]. rewrite length_take. lia.
  - rewrite app_assoc, take_app_length'; [done|]. rewrite length_app, length_take. lia.
  - intros n Hn. rewrite app_assoc, drop_app_ge by (rewrite length_app, length_take; lia).
    rewrite drop_drop. f_equal. rewrite length_app, length_take. lia.
Qed.

Lemma framed_refl dst t n : framed dst dst t n.
Proof. done. Qed.

(** A chunk and the rest. *)
Lemma framed_step dst d1 d2 t t1 n : t <= t1 <= n -> 0 <= t ->
  framed dst d1 t n -> framed d1 d2 t1 n -> framed dst d2 t n.
Proof.
  intros Ht H0 (Hl1 & Ht1 & Hd1) (Hl2 & Ht2 & Hd2). split_and!; [congruence| |congruence].
  rewrite <- Ht1. apply (f_equal (take (Z.to_nat t))) in Ht2. rewrite !take_take in Ht2.
  by rewrite !Nat.min_l in Ht2 by lia.
Qed.

(** The step of [read_chunks] on one chunk. *)
Lemma chunk_step fs p bo chunk t w dst :
  fs_on (o := o) (dev := dev) (bs := bs) fs -> dev_inv w -> bs <= EXT4_MMAP_SCRATCH_SIZE ->
  0 <= bo -> 0 < chunk -> bo + chunk <= bs -> 0 <= t -> t + chunk <= Z.of_nat (length dst) ->
  exists w' dst' r,
    (if p =? 0 then put_dst t (zeros (Z.to_nat chunk))
     else if (bo =? 0) && (chunk =? block_size fs) then read_dst fs p t chunk
     else
       part ← on_world (read_scratch fs p (block_size fs) bo chunk);
       put_dst t part) (w, dst) = Some ((w', dst'), r)
    /\ quiet w w' /\ framed dst dst' t (t + chunk)
    /\ (r = Ok tt /\ take (Z.to_nat (t + chunk)) dst'
                    = take (Z.to_nat t) dst ++ chunk_bytes (blk w) p bo (Z.to_nat chunk)
        \/ exists e, r = Err e /\ env_error e /\ ~ good w).
Proof.
  intros Hf Hi Hbs Hbo Hc Hbc Ht Hl. rewrite (on_block_size _ Hf). unfold chunk_bytes.
  assert (forall x w' : _, quiet w w' -> length x = Z.to_nat chunk ->
    exists dst', put_dst t x (w', dst) = Some ((w', dst'), Ok tt)
      /\ framed dst dst' t (t + chunk)
      /\ take (Z.to_nat (t + chunk)) dst' = take (Z.to_nat t) dst ++ x) as Hput.
  { intros x w' Hq Hx. destruct (splice_keep dst t x Ht ltac:(lia)) as (d & E & Hld & _ & Ht' & Htt & Hd).
    exists d. unfold put_dst. cbn [fst snd]. rewrite E. split; [done|].
    split; [split_and!; [done..|apply Hd; lia]|]. rewrite <- Htt. f_equal. lia. }
  destruct (Z.eqb_spec p 0) as [->|Hp].
  { destruct (Hput (zeros (Z.to_nat chunk)) w) as (d & E & Hfr & Htk);
      [by apply quiet_refl|by unfold zeros; rewrite length_replicate|].
    exists w, d, (Ok tt). split; [done|]. split; [by apply quiet_refl|]. split; [done|]. by left. }
  destruct ((bo =? 0) && (chunk =? bs)) eqn:Ewhole.
  - apply andb_true_iff in Ewhole as [->%Z.eqb_eq ->%Z.eqb_eq].
    unfold read_dst, read_block. cbn [fst snd]. rewrite slice_some, (on_ops _ Hf), (on_device _ Hf) by lia.
    set (part := take _ _). assert (Z.of_nat (length part) = bs) as Hlp.
    { subst part. rewrite length_take, length_drop. lia. }
    destruct (read_law w p part Hi Hlp) as (f & w' & buf' & r & -> & -> & Hi' & Hb & Hg & Hlb & Hr).
    destruct (splice_keep dst t buf' Ht ltac:(lia)) as (d & E & Hld & _ & Ht' & Htt & Hd). rewrite E.
    exists w', d, r. split; [done|]. split; [split_and!; [done|done|tauto]|].
    split; [split_and!; [done|done|apply Hd; lia]|].
    destruct Hr as [[-> ->]|(e & -> & He)].
    + left. split; [done|]. rewrite take_ge with (n := Z.to_nat bs).
      2:{ rewrite length_drop. pose proof (blk_length w p). lia. }
      change (Z.to_nat 0) with O. rewrite drop_0, <- Htt. f_equal. pose proof (blk_length w p). lia.
    + right. exists e. split_and!; [done|done|]. by intros [_ ?]%Hg.
  - destruct (on_world_reads _ w dst _ (scratch_spec fs p bo chunk w Hf Hi Hbs Hbo ltac:(lia) Hbc))
      as (w' & r & E & Hq & Hr).
    destruct Hr as [->|(e & -> & He & Hg)].
    + rewrite (bind_ok _ _ _ _ _ E).
      destruct (Hput (take (Z.to_nat chunk) (drop (Z.to_nat bo) (blk w p))) w' Hq) as (d & Ep & Hfr & Htk).
      { rewrite length_take, length_drop. pose proof (blk_length w p). lia. }
      exists w', d, (Ok tt). split_and!; [done..|by left].
    + rewrite (bind_err _ _ _ _ _ E). exists w', dst, (Err e).
      split_and!; [done..|]. right. by exists e.
Qed.

Lemma read_chunks_spec fs inode limit m off n fuel t w dst :
  fs_on (o := o) (dev := dev) (bs := bs) fs -> dev_inv w -> bs <= EXT4_MMAP_SCRATCH_SIZE ->
  block_map (blk w) inode limit m ->
  0 <= off -> off + n < U64 -> off + n <= limit * bs -> 0 <= t <= n -> n <= Z.of_nat (length dst) ->
  n - t <= Z.of_nat fuel ->
  exists w' dst' r, read_chunks fs inode off n fuel t (w, dst) = Some ((w', dst'), r)
    /\ read_done w w' dst dst' t n n r (file_range (blk w) m bs (off + t) (Z.to_nat (n - t))).
Proof.
  intros Hf Hi Hbs. destruct (on_min_size _ Hf) as [Hm _]. unfold EXT4_MIN_BLOCK_SIZE in Hm.
  revert t w dst Hi. induction fuel as [|fuel IH]; intros t w dst Hi Hmap Hoff Hn Hlim Ht Hl Hfu.
  { assert (t = n) as -> by lia. unfold read_chunks. rewrite Z.leb_refl.
    exists w, dst, (Ok n). split; [done|]. split; [by apply quiet_refl|]. split; [done|].
    rewrite Z.sub_diag. left. change (Z.to_nat 0) with O. cbn [file_range app]. by rewrite take_drop. }
  cbn [read_chunks]. destruct (Z.leb_spec n t).
  { assert (t = n) as -> by lia. exists w, dst, (Ok n). split; [done|]. split; [by apply quiet_refl|]. split; [done|].
    rewrite Z.sub_diag. left. change (Z.to_nat 0) with O. cbn [file_range app]. by rewrite take_drop. }
  rewrite add64_small, !(on_block_size _ Hf) by lia.
  set (lb := (off + t) / bs). set (bo := (off + t) mod bs).
  set (chunk := Z.min (bs - bo) (n - t)).
  assert (0 <= bo < bs) as Hbo by (apply Z.mod_pos_bound; lia).
  assert (0 <= lb < limit) as Hlb.
  { split; [apply Z.div_pos; lia|apply Z.div_lt_upper_bound; lia]. }
  destruct (on_world_reads _ w dst _ (get_block_spec fs inode limit m lb w Hf Hi Hmap Hlb))
    as (w1 & r & E1 & Hq1 & Hr).
  assert (Z.to_nat (n - t) = (Z.to_nat chunk + Z.to_nat (n - (t + chunk)))%nat) as Hsplit by lia.
  destruct Hr as [->|(e & -> & He & Hg)].
  2:{ rewrite (bind_err _ _ _ _ _ E1). exists w1, dst, (Err e). split; [done|].
      split; [done|]. split; [done|]. right. by exists e. }
  destruct (m lb) as [p|e] eqn:Em.
  2:{ rewrite (bind_err _ _ _ _ _ E1). exists w1, dst, (Err e). split; [done|].
      split; [done|]. split; [done|]. left.
      replace (Z.to_nat (n - t)) with (S (Z.to_nat (n - t - 1))) by lia.
      by rewrite (file_range_error _ _ _ _ _ e). }
  rewrite (bind_ok _ _ _ _ _ E1).
  pose proof (chunk_step fs p bo chunk t w1 dst Hf (quiet_inv _ _ Hq1) Hbs
    ltac:(lia) ltac:(lia) ltac:(lia) ltac:(lia) ltac:(lia)) as Hstep.
  rewrite (on_block_size _ Hf) in Hstep.
  destruct Hstep as (w2 & d2 & r2 & E2 & Hq2 & Hfr2 & Hr2).
  assert (quiet w w2) as Hq by by eapply quiet_trans.
  assert (framed dst d2 t n) as Hfr.
  { destruct Hfr2 as (Hl2 & Ht2 & Hd2). split_and!; [done..|].
    replace (Z.to_nat n) with (Z.to_nat (t + chunk) + Z.to_nat (n - (t + chunk)))%nat by lia.
    by rewrite <- !drop_drop, Hd2. }
  destruct Hr2 as [[-> Htk]|(e & -> & He & Hg)].
  2:{ rewrite (bind_err _ _ _ _ _ E2). exists w2, d2, (Err e). split; [done|].
      split; [done|]. split; [done|]. right. exists e. split_and!; [done|done|].
      intros ?. apply Hg. by apply Hq1. }
  rewrite (bind_ok _ _ _ _ _ E2).
  destruct (IH (t + chunk) w2 d2) as (w3 & d3 & r3 & E3 & Hq3 & Hfr3 & Hr3); try lia.
  { by eapply quiet_inv. }
  { apply (block_map_ext (blk w)); [|done]. intros. by apply quiet_blk. }
  { destruct Hfr2 as [-> _]. lia. }
  exists w3, d3, r3. split; [exact E3|]. split; [by eapply quiet_trans|].
  split. { eapply framed_step; [|..|exact Hfr|exact Hfr3]; lia. }
  destruct Hr3 as [Hr3|(e & -> & He & Hg)].
  2:{ right. exists e. split_and!; [done|done|]. intros ?. apply Hg. by apply Hq. }
  left. rewrite (file_range_ext (blk w) (blk w2)) in Hr3 by (intros; by apply quiet_blk).
  rewrite Hsplit, (file_range_chunk _ _ _ _ p) by (first [done|lia|apply blk_length]).
  replace (off + t + Z.of_nat (Z.to_nat chunk)) with (off + (t + chunk)) by lia.
  destruct (file_range (blk w) m bs (off + (t + chunk)) _) as [l|e]; [|done].
  destruct Hr3 as [-> ->]. split; [done|].
  rewrite Htk. unfold chunk_bytes. rewrite (quiet_blk w w1) by done. fold bo.
  destruct Hfr as (_ & _ & ->). by rewrite <- !app_assoc.
Qed.

(** * Reading at an offset *)

(** How many bytes a read delivers. *)
Definition read_len (inode : bytes) (off len : Z) : Z := Z.max 0 (Z.min len (inode_size_of inode - off)).

Lemma inode_size_range inode : is_bytes inode -> is_u64 (inode_size_of inode).
Proof.
  intros Hb. unfold inode_size_of, join64. unfold is_u64, U64.
  pose proof (field_range Ext4Inode "i_size_lo" inode Hb) as Hlo.
  pose proof (field_range Ext4Inode "i_size_hi" inode Hb) as Hhi.
  apply (lor_bound 64); [lia|cbn in Hlo |- *; lia|]. apply wrap64_range.
Qed.

(** An inode, on the disk of the world [w], whose blocks are [m] throughout. *)
Record file_ok (fs : Ext4Filesystem D) (w : World D) (inode : bytes) (m : Z -> result Ext4Error Z)
  : Prop := {
  fo_fs : fs_on (o := o) (dev := dev) (bs := bs) fs;
  fo_inv : dev_inv w;
  fo_bytes : is_bytes inode;
  fo_map : block_map (blk w) inode (inode_size_of inode / bs + 1) m;
}.

Lemma file_limit inode n off : 0 < bs -> off + n <= inode_size_of inode ->
  off + n <= (inode_size_of inode / bs + 1) * bs.
Proof. intros. dlia. Qed.

Lemma read_at_spec fs w inode m off dst :
  file_ok fs w inode m -> bs <= EXT4_MMAP_SCRATCH_SIZE -> is_u64 off ->
  let n := read_len inode off (Z.of_nat (length dst)) in
  exists w' dst' r, read_at_into fs inode off (w, dst) = Some ((w', dst'), r)
    /\ read_done w w' dst dst' 0 n n r (file_range (blk w) m bs off (Z.to_nat n)).
Proof.
  intros [Hf Hi Hb Hmap] Hbs Hoff n0. destruct (on_min_size _ Hf) as [Hm _]. unfold EXT4_MIN_BLOCK_SIZE in Hm.
  pose proof (inode_size_range _ Hb) as Hsz. unfold is_u64 in *.
  unfold read_at_into. cbn [snd]. subst n0. unfold read_len.
  destruct ((inode_size_of inode <=? off) || (Z.of_nat (length dst) =? 0)) eqn:E0.
  { assert (Z.max 0 (Z.min (Z.of_nat (length dst)) (inode_size_of inode - off)) = 0) as ->.
    { apply orb_true_iff in E0 as [?%Z.leb_le|?%Z.eqb_eq]; lia. }
    exists w, dst, (Ok 0). split; [done|]. split; [by apply quiet_refl|]. split; [done|]. by left. }
  apply orb_false_iff in E0 as [Hgt%Z.leb_gt Hne%Z.eqb_neq].
  rewrite (on_block_size _ Hf). destruct (Z.eqb_spec bs 0) as [?|_]; [lia|].
  destruct (Z.ltb_spec EXT4_MMAP_SCRATCH_SIZE bs); [lia|]. rewrite Z.max_r by lia.
  set (n := Z.min _ _).
  destruct (read_chunks_spec fs inode (inode_size_of inode / bs + 1) m off n (Z.to_nat n) 0 w dst)
    as (w' & d' & r & E & Hd); try (done || lia).
  { apply file_limit; lia. }
  exists w', d', r. split; [done|]. by rewrite Z.add_0_r, Z.sub_0_r in Hd.
Qed.

(** * Reading through a handle *)

Lemma handle_step {X} p bo chunk t bb (k : bytes -> eprog Ext4Error (World D * (Ext4FileHandle D * bytes)) X)
    w h buf :
  fs_on (o := o) (dev := dev) (bs := bs) (fh_fs h) -> dev_inv w -> Z.of_nat (length bb) = bs ->
  0 <= bo -> 0 < chunk -> bo + chunk <= bs -> 0 <= t -> t + chunk <= Z.of_nat (length buf) ->
  let run :=
    (if p =? 0 then put_buffer t (zeros (Z.to_nat chunk)) ;; advance chunk ;; k bb
     else
       bb ← on_world (read_into (fh_fs h) p bb);
       part ← on_world (must (slice bb bo chunk));
       put_buffer t part ;; advance chunk ;; k bb) (w, (h, buf)) in
  exists w', quiet w w' /\
    ((exists buf' bb', run = k bb' (w', (set_fh_position (fh_position h +w chunk) h, buf'))
        /\ Z.of_nat (length bb') = bs /\ framed buf buf' t (t + chunk)
        /\ take (Z.to_nat (t + chunk)) buf'
           = take (Z.to_nat t) buf ++ chunk_bytes (blk w) p bo (Z.to_nat chunk))
     \/ exists e, run = Some ((w', (h, buf)), Err e) /\ env_error e /\ ~ good w).
Proof.
  intros Hf Hi Hbb Hbo Hc Hbc Ht Hl run. unfold chunk_bytes.
  assert (forall x w' b, quiet w w' -> length x = Z.to_nat chunk -> exists buf',
    (put_buffer t x ;; advance chunk ;; k b) (w', (h, buf))
      = k b (w', (set_fh_position (fh_position h +w chunk) h, buf'))
    /\ framed buf buf' t (t + chunk)
    /\ take (Z.to_nat (t + chunk)) buf' = take (Z.to_nat t) buf ++ x) as Hput.
  { intros x w' b Hq Hx. destruct (splice_keep buf t x Ht ltac:(lia)) as (d & E & Hld & _ & Ht' & Htt & Hd).
    exists d. split; [|split; [split_and!; [done..|apply Hd; lia]|]].
    - unfold put_buffer, advance, mbind, prog_bind. cbn. by rewrite E.
    - rewrite <- Htt. f_equal. lia. }
  subst run. destruct (Z.eqb_spec p 0) as [->|Hp].
  { destruct (Hput (zeros (Z.to_nat chunk)) w bb) as (d & E & Hfr & Htk);
      [by apply quiet_refl|by unfold zeros; rewrite length_replicate|].
    exists w. split; [by apply quiet_refl|]. left. by exists d, bb. }
  destruct (on_world_reads _ w (h, buf) _
    (reads_block (fh_fs h) p bb w (fun r => r = Ok (blk w p)) Hf Hi Hbb eq_refl))
    as (w' & r & E & Hq & [->|(e & -> & He & Hg)]).
  - rewrite (bind_ok _ _ _ _ _ E). rewrite (blk_slice w p bo chunk) by lia.
    set (part := take _ _). rewrite (bind_ok _ _ _ (w', (h, buf)) part) by done.
    destruct (Hput part w' (blk w p) Hq) as (d & Ep & Hfr & Htk).
    { subst part. rewrite length_take, length_drop. pose proof (blk_length w p). lia. }
    exists w'. split; [done|]. left. exists d, (blk w p). split_and!; [done|apply blk_length|done|done].
  - rewrite (bind_err _ _ _ _ _ E). exists w'. split; [done|]. right. by exists e.
Qed.

Lemma handle_loop_spec limit m n fuel t bb w h buf pos :
  fs_on (o := o) (dev := dev) (bs := bs) (fh_fs h) -> dev_inv w -> Z.of_nat (length bb) = bs ->
  block_map (blk w) (fh_inode h) limit m -> fh_position h = pos + t ->
  0 <= pos -> pos + n < U64 -> pos + n <= limit * bs -> 0 <= t <= n -> n <= Z.of_nat (length buf) ->
  n - t <= Z.of_nat fuel ->
  exists w' buf' p' r,
    handle_read_loop fuel n t bb (w, (h, buf)) = Some ((w', (set_fh_position p' h, buf')), r)
    /\ read_done w w' buf buf' t n n r (file_range (blk w) m bs (pos + t) (Z.to_nat (n - t)))
    /\ pos + t <= p' <= pos + n /\ (is_ok r = true -> p' = pos + n).
Proof.
  intros Hf Hi. destruct (on_min_size _ Hf) as [Hm _]. unfold EXT4_MIN_BLOCK_SIZE in Hm.
  revert t bb w h buf Hf Hi.
  assert (forall w h buf bb f, dev_inv w -> fh_position h = pos + n -> (f = handle_read_loop 0 n n bb \/ exists k, f = handle_read_loop (S k) n n bb) ->
    exists w' buf' p' r, f (w, (h, buf)) = Some ((w', (set_fh_position p' h, buf')), r)
    /\ read_done w w' buf buf' n n n r (file_range (blk w) m bs (pos + n) (Z.to_nat (n - n)))
    /\ pos + n <= p' <= pos + n /\ (is_ok r = true -> p' = pos + n)) as Hend.
  { intros w h buf bb f Hi Hp Hfe. exists w, buf, (pos + n), (Ok n). split.
    - assert (set_fh_position (pos + n) h = h) as -> by (destruct h; cbn in *; by subst).
      destruct Hfe as [->|[k ->]]; cbn [handle_read_loop]; by rewrite Z.leb_refl.
    - split; [|split; [lia|done]]. split; [by apply quiet_refl|]. split; [done|]. left.
      rewrite Z.sub_diag. change (Z.to_nat 0) with O. cbn [file_range app]. by rewrite take_drop. }
  induction fuel as [|fuel IH]; intros t bb w h buf Hf Hi Hbb Hmap Hpos Hp0 Hn Hlim Ht Hl Hfu.
  { assert (t = n) as -> by lia. apply (Hend w h buf bb); [done|done|by left]. }
  destruct (decide (t = n)) as [->|Hne].
  { apply (Hend w h buf bb); [done|done|right; by exists fuel]. }
  cbn [handle_read_loop]. destruct (Z.leb_spec n t); [lia|].
  rewrite (bind_ok _ _ _ (w, (h, buf)) h) by done. rewrite Hpos, !(on_block_size _ Hf).
  set (lb := (pos + t) / bs). set (bo := (pos + t) mod bs).
  set (chunk := Z.min (bs - bo) (n - t)).
  assert (0 <= bo < bs) as Hbo by (apply Z.mod_pos_bound; lia).
  assert (0 <= lb < limit) as Hlb by (split; [apply Z.div_pos; lia|apply Z.div_lt_upper_bound; lia]).
  destruct (on_world_reads _ w (h, buf) _ (get_block_spec (fh_fs h) (fh_inode h) limit m lb w Hf Hi Hmap Hlb))
    as (w1 & r & E1 & Hq1 & Hr).
  assert (set_fh_position (pos + t) h = h) as Hsame by (destruct h; cbn in *; by subst).
  assert (Z.to_nat (n - t) = (Z.to_nat chunk + Z.to_nat (n - (t + chunk)))%nat) as Hsplit by lia.
  destruct Hr as [->|(e & -> & He & Hg)].
  2:{ rewrite (bind_err _ _ _ _ _ E1). exists w1, buf, (pos + t), (Err e). rewrite Hsame. split; [done|].
      split; [|split; [lia|done]]. split; [done|]. split; [done|]. right. by exists e. }
  destruct (m lb) as [p|e] eqn:Em.
  2:{ rewrite (bind_err _ _ _ _ _ E1). exists w1, buf, (pos + t), (Err e). rewrite Hsame. split; [done|].
      split; [|split; [lia|done]]. split; [done|]. split; [done|]. left.
      replace (Z.to_nat (n - t)) with (S (Z.to_nat (n - t - 1))) by lia.
      by rewrite (file_range_error _ _ _ _ _ e). }
  rewrite (bind_ok _ _ _ _ _ E1).
  destruct (handle_step p bo chunk t bb (handle_read_loop fuel n (t + chunk)) w1 h buf Hf
    (quiet_inv _ _ Hq1) Hbb ltac:(lia) ltac:(lia) ltac:(lia) ltac:(lia) ltac:(lia))
    as (w2 & Hq2 & [(b2 & bb2 & E2 & Hbb2 & Hfr2 & Htk)|(e & E2 & He & Hg)]); rewrite E2; clear E2.
  2:{ exists w2, buf, (pos + t), (Err e). rewrite Hsame. split; [done|].
      split; [|split; [lia|done]]. split; [by eapply quiet_trans|]. split; [done|]. right.
      exists e. split_and!; [done|done|]. intros ?. apply Hg. by apply Hq1. }
  assert (quiet w w2) as Hq by by eapply quiet_trans.
  assert (framed buf b2 t n) as Hfr.
  { destruct Hfr2 as (Hl2 & Ht2 & Hd2). split_and!; [done..|].
    replace (Z.to_nat n) with (Z.to_nat (t + chunk) + Z.to_nat (n - (t + chunk)))%nat by lia.
    by rewrite <- !drop_drop, Hd2. }
  rewrite Hpos, add64_small by lia.
  destruct (IH (t + chunk) bb2 w2 (set_fh_position (pos + t + chunk) h) b2)
    as (w3 & d3 & p3 & r3 & E3 & (Hq3 & Hfr3 & Hr3) & Hp3 & Hok); try (done || lia).
  { by eapply quiet_inv. }
  { apply (block_map_ext (blk w)); [|done]. intros. by apply quiet_blk. }
  { cbn. lia. }
  { destruct Hfr2 as [-> _]. lia. }
  exists w3, d3, p3, r3. split; [exact E3|]. split; [|split; [lia|done]].
  split; [by eapply quiet_trans|]. split. { eapply framed_step; [|..|exact Hfr|exact Hfr3]; lia. }
  destruct Hr3 as [Hr3|(e & -> & He & Hg)].
  2:{ right. exists e. split_and!; [done|done|]. intros ?. apply Hg. by apply Hq. }
  left. rewrite (file_range_ext (blk w) (blk w2)) in Hr3 by (intros; by apply quiet_blk).
  rewrite Hsplit, (file_range_chunk _ _ _ _ p) by (first [done|lia|apply blk_length]).
  replace (pos + t + Z.of_nat (Z.to_nat chunk)) with (pos + (t + chunk)) by lia.
  destruct (file_range (blk w) m bs (pos + (t + chunk)) _) as [l|e]; [|done].
  destruct Hr3 as [-> ->]. split; [done|].
  rewrite Htk. unfold chunk_bytes. rewrite (quiet_blk w w1) by done. fold bo.
  destruct Hfr as (_ & _ & ->). by rewrite <- !app_assoc.
Qed.

Lemma handle_read_spec w h buf m :
  file_ok (fh_fs h) w (fh_inode h) m -> is_u64 (fh_position h) ->
  let n := read_len (fh_inode h) (fh_position h) (Z.of_nat (length buf)) in
  exists w' buf' p' r, handle_read (w, (h, buf)) = Some ((w', (set_fh_position p' h, buf')), r)
    /\ read_done w w' buf buf' 0 n n r (file_range (blk w) m bs (fh_position h) (Z.to_nat n))
    /\ fh_position h <= p' <= fh_position h + n /\ (is_ok r = true -> p' = fh_position h + n).
Proof.
  intros [Hf Hi Hb Hmap] Hpos n0. destruct (on_min_size _ Hf) as [Hm _]. unfold EXT4_MIN_BLOCK_SIZE in Hm.
  pose proof (inode_size_range _ Hb) as Hsz. unfold is_u64 in *.
  assert (set_fh_position (fh_position h) h = h) as Hsame by by destruct h.
  unfold handle_read. subst n0. unfold read_len.
  destruct (Z.leb_spec (inode_size_of (fh_inode h)) (fh_position h)).
  { rewrite (Z.max_l 0) by lia. exists w, buf, (fh_position h), (Ok 0). rewrite Hsame.
    split; [done|]. split; [|split; [lia|intros; lia]].
    split; [by apply quiet_refl|]. split; [done|]. by left. }
  rewrite Z.max_r by lia. set (n := Z.min _ _).
  destruct (on_world_reads _ w (h, buf) _
    (reads_alloc bs w (fun r => r = Ok (zeros (Z.to_nat bs))) Hi ltac:(lia) eq_refl))
    as (w1 & r & E & Hq & [->|(e & -> & He & Hg)]); rewrite (on_block_size _ Hf).
  2:{ rewrite (bind_err _ _ _ _ _ E). exists w1, buf, (fh_position h), (Err e). rewrite Hsame.
      split; [done|]. split; [|split; [lia|done]]. split; [done|]. split; [done|]. right. by exists e. }
  rewrite (bind_ok _ _ _ _ _ E).
  destruct (handle_loop_spec (inode_size_of (fh_inode h) / bs + 1) m n (Z.to_nat n) 0
    (zeros (Z.to_nat bs)) w1 h buf (fh_position h)) as (w2 & b2 & p2 & r2 & E2 & (Hq2 & Hfr & Hr) & Hp & Hok);
    try (done || lia).
  { by eapply quiet_inv. }
  { apply length_zeros. lia. }
  { apply (block_map_ext (blk w)); [|done]. intros. by apply quiet_blk. }
  { apply file_limit; lia. }
  exists w2, b2, p2, r2. split; [done|]. split; [|split; [lia|done]].
  split; [by eapply quiet_trans|]. split; [done|]. rewrite Z.add_0_r, Z.sub_0_r in Hr.
  rewrite (file_range_ext (blk w) (blk w1)) in Hr by (intros; by apply quiet_blk).
  destruct Hr as [Hr|(e & ? & ? & Hg)]; [by left|right]. exists e. split_and!; [done|done|].
  intros ?. apply Hg. by apply Hq.
Qed.
End Files.
