(* ===== verification/Ext4Dirs.v ===== *)
(** Inodes, directories and paths of [Ext4] against what they mean: an inode is
    160 bytes of the inode table, a directory is the list of its entries, a path
    is the list of its components. *)

From S2P Require Import Prelude Packed Ext4Layout Ext4 Ext4Spec Ext4Extents Ext4Files.

(** * Directory blocks *)

Definition dirent_len : Z := Eval vm_compute in Z.of_nat (size_of Ext4DirEntry).

(** The entries of a block from an offset on; a length of 0 ends the block.  All
    263 bytes the code loads for an entry are inside the block. *)
Inductive dir_at (bs : Z) (buf : bytes) : Z -> list bytes -> Prop :=
| dir_end off : bs <= off -> dir_at bs buf off []
| dir_stop off e : off < bs -> slice buf off dirent_len = Some e ->
    field Ext4DirEntry "rec_len" e = 0 -> dir_at bs buf off []
| dir_entry off e es : off < bs -> slice buf off dirent_len = Some e ->
    0 < field Ext4DirEntry "rec_len" e ->
    dir_at bs buf (off + field Ext4DirEntry "rec_len" e) es -> dir_at bs buf off (e :: es).

(** A live entry of that name. *)
Definition names (name e : bytes) : bool :=
  negb (field Ext4DirEntry "inode" e =? 0)
  && (field Ext4DirEntry "name_len" e =? Z.of_nat (length name))
  && bool_decide (name_bytes e = name).

(** The inode of the first entry of that name. *)
Fixpoint dir_lookup (name : bytes) (es : list bytes) : option Z :=
  match es with
  | [] => None
  | e :: es' => if names name e then Some (field Ext4DirEntry "inode" e) else dir_lookup name es'
  end.

Lemma dir_lookup_app name es1 es2 :
  dir_lookup name (es1 ++ es2)
  = match dir_lookup name es1 with Some i => Some i | None => dir_lookup name es2 end.
Proof. induction es1 as [|e es IH]; cbn; [done|]. by destruct (names name e). Qed.

Lemma find_in_block_spec bs buf name n off es :
  dir_at bs buf off es -> 0 <= off -> bs - off <= Z.of_nat n ->
  find_in_block bs buf name n off = Some (dir_lookup name es).
Proof.
  intros H. revert n. induction H as [off Ho|off e Ho Hs Hz|off e es Ho Hs Hp H IH]; intros n H0 Hn.
  - destruct n; cbn; by rewrite (proj2 (Z.leb_le _ _) Ho).
  - destruct n as [|n]; [lia|]. cbn [find_in_block]. destruct (Z.leb_spec bs off); [lia|].
    change (Z.of_nat (size_of Ext4DirEntry)) with dirent_len. by rewrite Hs, Hz.
  - destruct n as [|n]; [lia|]. cbn [find_in_block dir_lookup]. destruct (Z.leb_spec bs off); [lia|].
    change (Z.of_nat (size_of Ext4DirEntry)) with dirent_len. rewrite Hs.
    destruct (Z.eqb_spec (field Ext4DirEntry "rec_len" e) 0) as [?|_]; [lia|].
    fold (names name e). destruct (names name e); [done|]. apply IH; lia.
Qed.

(** * Paths *)

(** The components of a path: the pieces between slashes that are not empty. *)
Fixpoint components_from (cur : bytes) (p : bytes) : list bytes :=
  match p with
  | [] => if decide (cur = []) then [] else [cur]
  | c :: p' =>
      if c =? SLASH then
        if decide (cur = []) then components_from [] p' else cur :: components_from [] p'
      else components_from (cur ++ [c]) p'
  end.
Definition components (p : bytes) : list bytes := components_from [] p.

Lemma components_skip p : components (skip_slashes p) = components p.
Proof.
  induction p as [|c p IH]; [done|]. cbn [skip_slashes].
  destruct (c =? SLASH) eqn:E; [|done]. rewrite IH. unfold components at 2. cbn. by rewrite E.
Qed.

(** Taking the first component off. *)
Lemma components_take p cur n :
  (component_len p n = length p \/ p !! component_len p n = Some SLASH) ->
  components_from cur p
  = (if decide (cur ++ take (component_len p n) p = []) then []
     else [cur ++ take (component_len p n) p]) ++ components (drop (component_len p n) p).
Proof.
  revert cur n. induction p as [|c p IH]; intros cur n H.
  { assert (component_len [] n = O) as -> by by destruct n.
    cbn [take drop components_from]. rewrite app_nil_r. unfold components. cbn. by rewrite app_nil_r. }
  destruct n as [|n].
  { cbn in H. destruct H as [|H]; [done|]. injection H as ->. cbn [component_len take drop].
    rewrite app_nil_r. unfold components. cbn. by destruct (decide (cur = [])). }
  cbn [component_len] in *. destruct (Z.eqb_spec c SLASH) as [->|Hc].
  { cbn [take drop]. rewrite app_nil_r. unfold components. cbn. by destruct (decide (cur = [])). }
  cbn [take drop components_from]. destruct (Z.eqb_spec c SLASH); [done|].
  rewrite (IH (cur ++ [c]) n).
  - by rewrite <- !app_assoc.
  - destruct H as [H|H]; [left; cbn in H; lia|by right].
Qed.

Lemma component_len_le p n : (component_len p n <= length p)%nat /\ (component_len p n <= n)%nat.
Proof.
  revert n. induction p as [|c p IH]; intros [|n]; cbn; try lia.
  destruct (c =? SLASH); [lia|]. specialize (IH n). lia.
Qed.

(** Where the scan for the end of a component stops. *)
Lemma component_stop p n :
  component_len p n = length p \/ p !! component_len p n = Some SLASH \/ component_len p n = n.
Proof.
  revert n. induction p as [|c p IH]; intros [|n]; cbn; auto.
  destruct (Z.eqb_spec c SLASH) as [->|Hc]; [by right; left|].
  destruct (IH n) as [->|[H|H]]; [by left|by right; left|right; right; by f_equal].
Qed.

(** No component is longer than a name can be. *)
Definition short_names (p : bytes) : Prop :=
  Forall (fun c => (length c <= Z.to_nat EXT4_NAME_LEN)%nat) (components p).

Lemma skip_slashes_length p : (length (skip_slashes p) <= length p)%nat.
Proof. induction p as [|c p IH]; cbn; [lia|]. destruct (c =? SLASH); cbn; lia. Qed.

Lemma skip_slashes_head p c t : skip_slashes p = c :: t -> c <> SLASH.
Proof.
  induction p as [|x p IH]; cbn; [done|]. destruct (Z.eqb_spec x SLASH); [done|]. by intros [= -> ->].
Qed.

Lemma components_keep p cur : cur <> [] ->
  exists c t, components_from cur p = c :: t /\ (length cur <= length c)%nat.
Proof.
  revert cur. induction p as [|x p IH]; intros cur Hc; cbn.
  - destruct (decide (cur = [])); [done|]. by exists cur, [].
  - destruct (x =? SLASH).
    + destruct (decide (cur = [])); [done|]. by exists cur, (components_from [] p).
    + destruct (IH (cur ++ [x])) as (c & t & -> & H); [by destruct cur|].
      rewrite length_app in H. exists c, t. split; [done|lia].
Qed.

(** [n] bytes without a slash are part of the first component. *)
Lemma components_head p n cur : component_len p n = n -> n <> O ->
  exists c t, components_from cur p = c :: t /\ (length cur + n <= length c)%nat.
Proof.
  revert cur n. induction p as [|x p IH]; intros cur [|n] Hn Hne; try done.
  cbn [component_len] in Hn. destruct (x =? SLASH) eqn:E; [done|]. cbn [components_from]. rewrite E.
  injection Hn as Hn. destruct n as [|n].
  - destruct (components_keep p (cur ++ [x])) as (c & t & -> & H); [by destruct cur|].
    rewrite length_app in H. cbn in H. exists c, t. split; [done|lia].
  - destruct (IH (cur ++ [x]) (S n) Hn) as (c & t & -> & H); [done|].
    rewrite length_app in H. cbn in H. exists c, t. split; [done|lia].
Qed.

Lemma component_len_next p n x :
  component_len p n = n -> p !! n = Some x -> x <> SLASH -> component_len p (S n) = S n.
Proof.
  revert n. induction p as [|y p IH]; intros n Hn Hx Hne; [done|]. destruct n as [|n].
  - injection Hx as ->. cbn. destruct (Z.eqb_spec x SLASH); [done|]. by destruct p.
  - cbn [component_len] in *. destruct (y =? SLASH); [done|]. injection Hn as Hn. f_equal. by apply IH.
Qed.

(** With short names the scan stops at a slash or at the end. *)
Lemma short_component p : short_names p ->
  component_len p (Z.to_nat EXT4_NAME_LEN) = length p
  \/ p !! component_len p (Z.to_nat EXT4_NAME_LEN) = Some SLASH.
Proof.
  intros Hs. destruct (component_stop p (Z.to_nat EXT4_NAME_LEN)) as [H|[H|H]]; [by left|by right|].
  rewrite H. destruct (p !! Z.to_nat EXT4_NAME_LEN) as [x|] eqn:Ex.
  2:{ left. apply lookup_ge_None in Ex. pose proof (component_len_le p (Z.to_nat EXT4_NAME_LEN)). lia. }
  right. destruct (decide (x = SLASH)) as [->|Hx]; [done|]. exfalso.
  pose proof (component_len_next _ _ _ H Ex Hx) as H'.
  destruct (components_head p _ [] H') as (c & t & Hc & Hl); [done|].
  unfold short_names, components in Hs. rewrite Hc in Hs. apply Forall_cons in Hs as [Hlt _].
  cbn [length] in Hl. lia.
Qed.

Section Paths.
Context {D : Type} `{Env : Ext4Env D}.

(** The reference: look the components up one after the other. *)
Fixpoint resolve (fs : Ext4Filesystem D) (cs : list bytes) (current : Z) : eprog Ext4Error (World D) Z :=
  match cs with
  | [] => mret current
  | c :: cs' =>
      inode ← read_inode fs current;
      next ← dir_find_entry fs inode c;
      resolve fs cs' next
  end.

Lemma bind_eq {X Y} (p : eprog Ext4Error (World D) X) (k1 k2 : X -> eprog Ext4Error (World D) Y) w :
  (forall x w', k1 x w' = k2 x w') -> (p ≫= k1) w = (p ≫= k2) w.
Proof. intros H. unfold mbind, prog_bind. by destruct (p w) as [[w' [x|e]]|]. Qed.

Lemma walk_path_spec fs n p cur w :
  (length p <= n)%nat -> short_names p -> hd_error p <> Some SLASH ->
  walk_path fs n p cur w = resolve fs (components p) cur w.
Proof.
  revert p cur w. induction n as [|n IH]; intros p cur w Hn Hs Hh.
  { by destruct p; [|cbn in Hn; lia]. }
  destruct p as [|c p']; [done|]. set (p := c :: p') in *. cbn [walk_path].
  pose proof (short_component p Hs) as Hstop.
  set (len := component_len p (Z.to_nat EXT4_NAME_LEN)) in *.
  assert (len <> O) as Hlen.
  { subst len p. change (Z.to_nat EXT4_NAME_LEN) with (S 254). cbn [component_len].
    destruct (Z.eqb_spec c SLASH) as [->|]; [by cbn in Hh|done]. }
  destruct (Nat.eqb_spec len 0); [done|].
  pose proof (components_take p [] (Z.to_nat EXT4_NAME_LEN) Hstop) as Hc. cbn [app] in Hc.
  fold len (components p) in Hc.
  assert (take len p <> []) as Hne by (subst p; by destruct len).
  destruct (decide (take len p = [])); [done|]. rewrite Hc. cbn [app resolve].
  assert (short_names (drop len p)) as Hs'.
  { unfold short_names in *. rewrite Hc in Hs. by inversion Hs. }
  apply bind_eq. intros inode w1. apply bind_eq. intros next w2.
  rewrite <- (components_skip (drop len p)). apply IH.
  - pose proof (skip_slashes_length (drop len p)) as Hsl. rewrite length_drop in Hsl. lia.
  - unfold short_names. by rewrite components_skip.
  - destruct (skip_slashes (drop len p)) as [|x t] eqn:E; [done|]. cbn. intros [= ->].
    by apply skip_slashes_head in E.
Qed.

Lemma lookup_path_spec fs path w : short_names path ->
  lookup_path fs path w = resolve fs (components path) EXT4_ROOT_INODE w.
Proof.
  intros Hs. unfold lookup_path. rewrite <- components_skip.
  assert (short_names (skip_slashes path)) as Hs' by (unfold short_names; by rewrite components_skip).
  destruct (skip_slashes path) as [|c t] eqn:E; [done|].
  apply walk_path_spec; [done|done|]. cbn. intros [= ->]. by apply skip_slashes_head in E.
Qed.
End Paths.

Section Dirs.
Context {D : Type} `{Env : Ext4Env D} {o : Ext4BlockOps D} {dev bs : Z}.
Context `{Dev : !BlockReader D o dev bs}.

(** * Inodes *)

Definition inode_len : Z := Eval vm_compute in Z.of_nat (size_of Ext4Inode).

(** The inode tables of a context are set up. *)
Record tables_ok (fs : Ext4Filesystem D) : Prop := {
  tb_fs : fs_on (o := o) (dev := dev) (bs := bs) fs;
  tb_per_group : 0 < inodes_per_group fs;
  tb_groups : Z.of_nat (length (group_descs fs)) = group_count fs;
}.

Definition inode_group (fs : Ext4Filesystem D) (n : Z) : Z := (n - 1) / inodes_per_group fs.

(** Block and offset of inode [n]. *)
Definition inode_block (fs : Ext4Filesystem D) (n : Z) : Z :=
  let desc := default [] (group_descs fs !! Z.to_nat (inode_group fs n)) in
  let lo := field Ext4GroupDesc "bg_inode_table_lo" desc in
  (if use_64bit fs then join64 lo (field Ext4GroupDesc "bg_inode_table_hi" desc) else lo)
  +w mul32 ((n - 1) mod inodes_per_group fs) (inode_size fs) / bs.
Definition inode_offset (fs : Ext4Filesystem D) (n : Z) : Z :=
  mul32 ((n - 1) mod inodes_per_group fs) (inode_size fs) mod bs.

Lemma location_spec fs n w Q : tables_ok fs -> dev_inv w -> 0 < n ->
  (inode_group fs n < group_count fs -> Q (Ok (inode_block fs n, inode_offset fs n))) ->
  (group_count fs <= inode_group fs n -> Q (Err Invalid)) ->
  reads (inode_location fs n) w Q.
Proof.
  intros [Hf Hp Hg] Hi Hn Hok Herr. destruct (on_min_size _ Hf) as [Hm _]. unfold EXT4_MIN_BLOCK_SIZE in Hm.
  unfold inode_location. apply bind_div; [lia|]. apply bind_rem; [lia|]. fold (inode_group fs n).
  destruct (Z.leb_spec (group_count fs) (inode_group fs n)) as [Hge|Hlt]; [by apply reads_throw; auto|].
  assert (0 <= inode_group fs n) by (apply Z.div_pos; lia).
  assert (is_Some (group_descs fs !! Z.to_nat (inode_group fs n))) as [d Hd]
    by (apply lookup_lt_is_Some; lia).
  apply (bind_must _ d); [done|]. apply bind_div; [rewrite (on_block_size _ Hf); lia|].
  apply bind_rem; [rewrite (on_block_size _ Hf); lia|]. apply reads_ret; [done|].
  specialize (Hok Hlt). unfold inode_block, inode_offset in Hok. rewrite Hd in Hok. cbn [default] in Hok.
  by rewrite (on_block_size _ Hf).
Qed.

(** Inode [n] as it is on the disk. *)
Definition disk_inode (fs : Ext4Filesystem D) (w : World D) (n : Z) : bytes :=
  take (Z.to_nat inode_len) (drop (Z.to_nat (inode_offset fs n)) (blk w (inode_block fs n))).

Lemma inode_offset_range fs n : 0 < bs -> 0 <= inode_offset fs n < bs.
Proof. intros. by apply Z.mod_pos_bound. Qed.

Lemma read_inode_spec fs n w : tables_ok fs -> dev_inv w -> 0 < n ->
  inode_offset fs n + inode_len <= bs ->
  reads (read_inode fs n) w (fun r =>
    r = if group_count fs <=? inode_group fs n then Err Invalid else Ok (disk_inode fs w n)).
Proof.
  intros Ht Hi Hn Hfit. pose proof (tb_fs _ Ht) as Hf.
  destruct (on_min_size _ Hf) as [Hm _]. unfold EXT4_MIN_BLOCK_SIZE in Hm.
  unfold read_inode. destruct (Z.eqb_spec n 0); [lia|].
  eapply reads_bind.
  { apply (location_spec fs n w (fun r => r = if group_count fs <=? inode_group fs n then Err Invalid
             else Ok (inode_block fs n, inode_offset fs n))); [done..| |].
    - intros. by destruct (Z.leb_spec (group_count fs) (inode_group fs n)); [lia|].
    - intros. by destruct (Z.leb_spec (group_count fs) (inode_group fs n)); [|lia]. }
  2:{ intros e He. destruct (group_count fs <=? inode_group fs n); [by injection He as ->|done]. }
  intros loc w1 Hloc Hq1. destruct (group_count fs <=? inode_group fs n); [done|].
  injection Hloc as ->. rewrite (on_block_size _ Hf).
  apply bind_alloc; [by eapply quiet_inv|lia|]. intros w2 Hq2.
  apply bind_block; [done|by eapply quiet_inv|apply length_zeros; lia|]. intros w3 Hq3.
  pose proof (inode_offset_range fs n ltac:(lia)).
  eapply reads_must; [by eapply quiet_inv|apply blk_slice; [lia|cbn; lia|exact Hfit]|].
  unfold disk_inode. by rewrite (quiet_blk w1 w2), (quiet_blk w w1).
Qed.

(** An inode that does not fit is read past the end of the buffer. *)
Lemma read_inode_overrun_spec fs n w : tables_ok fs -> dev_inv w -> good w -> 0 < n ->
  inode_group fs n < group_count fs -> bs < inode_offset fs n + inode_len ->
  read_inode fs n w = None.
Proof.
  intros Ht Hi Hg Hn Hgr Hfit. pose proof (tb_fs _ Ht) as Hf.
  destruct (on_min_size _ Hf) as [Hm _]. unfold EXT4_MIN_BLOCK_SIZE in Hm.
  unfold read_inode. destruct (Z.eqb_spec n 0); [lia|].
  destruct (location_spec fs n w (fun r => r = Ok (inode_block fs n, inode_offset fs n)) Ht Hi Hn
    ltac:(done) ltac:(lia)) as (w1 & r & E1 & (Hi1 & _ & Hg1) & [->|(? & _ & _ & ?)]); [|done].
  rewrite (bind_ok _ _ _ _ _ E1). rewrite (on_block_size _ Hf).
  destruct (reads_alloc bs w1 (fun r => r = Ok (zeros (Z.to_nat bs))) Hi1 ltac:(lia) eq_refl)
    as (w2 & r & E2 & (Hi2 & _ & Hg2) & [->|(? & _ & _ & ?)]); [|tauto].
  rewrite (bind_ok _ _ _ _ _ E2).
  destruct (reads_block fs (inode_block fs n) (zeros (Z.to_nat bs)) w2
              (fun r => r = Ok (blk w2 (inode_block fs n))) Hf Hi2 (length_zeros bs ltac:(lia)) eq_refl)
    as (w3 & r & E3 & _ & [->|(e & _ & _ & ?)]); [|tauto].
  rewrite (bind_ok _ _ _ _ _ E3).
  destruct (slice (blk w2 (inode_block fs n)) (inode_offset fs n) (Z.of_nat (size_of Ext4Inode))) eqn:E; [|done].
  apply slice_spec in E as (_ & _ & E & _). rewrite blk_length in E. change (Z.of_nat (size_of Ext4Inode)) with inode_len in E. lia.
Qed.

(** * Directories *)

(** The blocks of a directory and the entries of each. *)
Definition dir_rep (content : Z -> bytes) (m : Z -> result Ext4Error Z) (nblocks : nat)
    (ess : list (list bytes)) : Prop :=
  length ess = nblocks
  /\ forall i es, ess !! i = Some es -> exists p, m (Z.of_nat i) = Ok p
       /\ if p =? 0 then es = [] else dir_at bs (content p) 0 es.

Definition dir_blocks (inode : bytes) : nat := Z.to_nat ((inode_size_of inode + bs - 1) / bs).

Lemma find_in_dir_spec fs inode name m limit n i ess w buf :
  fs_on (o := o) (dev := dev) (bs := bs) fs -> dev_inv w -> is_bytes inode ->
  block_map (bs := bs) (blk w) inode limit m -> inode_size_of inode <= limit * bs ->
  inode_size_of inode + bs <= U64 -> Z.of_nat (length buf) = bs ->
  (forall k es, ess !! k = Some es -> exists p, m (Z.of_nat (i + k)) = Ok p
     /\ if p =? 0 then es = [] else dir_at bs (blk w p) 0 es) ->
  (i + length ess = dir_blocks inode)%nat -> (dir_blocks inode - i <= n)%nat ->
  reads (find_in_dir fs inode name n (Z.of_nat i * bs) buf) w (fun r =>
    r = match dir_lookup name (concat ess) with Some ino => Ok ino | None => Err NotFound end).
Proof.
  intros Hf Hi Hb. destruct (on_min_size _ Hf) as [Hm _]. unfold EXT4_MIN_BLOCK_SIZE in Hm.
  pose proof (inode_size_range _ Hb) as Hsz. unfold is_u64 in Hsz.
  revert i ess w buf Hi. induction n as [|n IH]; intros i ess w buf Hi Hmap Hlim Hbig Hlen Hess Hcount Hfuel.
  { assert (i = dir_blocks inode) as -> by lia. destruct ess as [|? ?]; [|cbn in Hcount; lia].
    cbn [find_in_dir]. destruct (Z.leb_spec (inode_size_of inode) (Z.of_nat (dir_blocks inode) * bs)) as [_|Hlt].
    - by apply reads_throw.
    - exfalso. unfold dir_blocks in Hlt. rewrite Z2Nat.id in Hlt by (apply Z.div_pos; lia). dlia. }
  cbn [find_in_dir]. destruct (Z.leb_spec (inode_size_of inode) (Z.of_nat i * bs)) as [Hle|Hlt].
  { assert (dir_blocks inode <= i)%nat.
    { unfold dir_blocks. assert ((inode_size_of inode + bs - 1) / bs < Z.of_nat i + 1); [|lia].
      apply Z.div_lt_upper_bound; lia. }
    destruct ess; [|cbn in Hcount; lia]. by apply reads_throw. }
  assert (i < dir_blocks inode)%nat as Hib.
  { unfold dir_blocks. assert (Z.of_nat i + 1 <= (inode_size_of inode + bs - 1) / bs); [|lia].
    apply Z.div_le_lower_bound; lia. }
  destruct ess as [|es ess]; [cbn in Hcount; lia|]. rewrite (on_block_size _ Hf), Z.div_mul by lia.
  destruct (Hess O es eq_refl) as (p & Hp & Hes). rewrite Nat.add_0_r in Hp.
  assert (forall w' buf', quiet w w' -> Z.of_nat (length buf') = bs ->
    reads (find_in_dir fs inode name n (Z.of_nat i * bs +w bs) buf') w' (fun r =>
      r = match dir_lookup name (concat ess) with Some ino => Ok ino | None => Err NotFound end)) as Hnext.
  { intros w' buf' Hq Hl'. rewrite add64_small by lia.
    replace (Z.of_nat i * bs + bs) with (Z.of_nat (S i) * bs) by lia.
    apply IH; [by eapply quiet_inv| |done..| | |].
    - apply (block_map_ext (blk w)); [|done]. intros. by apply quiet_blk.
    - intros k es' Hk. destruct (Hess (S k) es' Hk) as (p' & Hp' & Hes').
      exists p'. replace (S i + k)%nat with (i + S k)%nat by lia. split; [done|].
      by rewrite (quiet_blk w w').
    - cbn in Hcount. lia.
    - lia. }
  eapply reads_bind; [apply (get_block_spec fs inode limit m); [done..|nia]| |].
  2:{ intros e. by rewrite Hp. }
  intros p' w1 Hp' Hq1. rewrite Hp in Hp'. injection Hp' as ->. cbn [concat]. rewrite dir_lookup_app.
  destruct (Z.eqb_spec p 0) as [->|Hp0]; [subst es; by apply Hnext|].
  apply bind_block; [done|by eapply quiet_inv|done|]. intros w2 Hq2.
  assert (quiet w w2) as Hq by by eapply quiet_trans.
  rewrite (quiet_blk w w1) by done.
  apply (bind_must _ (dir_lookup name es)).
  { apply find_in_block_spec; [done|lia|lia]. }
  destruct (dir_lookup name es); [apply reads_ret; [by eapply quiet_inv|done]|].
  apply Hnext; [done|apply blk_length].
Qed.

Lemma dir_find_spec fs inode name m ess w :
  file_ok (o := o) (dev := dev) (bs := bs) fs w inode m -> inode_size_of inode + bs <= U64 ->
  dir_rep (blk w) m (dir_blocks inode) ess ->
  reads (dir_find_entry fs inode name) w (fun r =>
    r = match dir_lookup name (concat ess) with Some ino => Ok ino | None => Err NotFound end).
Proof.
  intros [Hf Hi Hb Hmap] Hbig [Hc Hess]. destruct (on_min_size _ Hf) as [Hm _]. unfold EXT4_MIN_BLOCK_SIZE in Hm.
  pose proof (inode_size_range _ Hb) as Hsz. unfold is_u64 in Hsz.
  unfold dir_find_entry. rewrite (on_block_size _ Hf). apply bind_alloc; [done|lia|]. intros w1 Hq1.
  change 0 with (Z.of_nat 0 * bs).
  apply (find_in_dir_spec fs inode name m (inode_size_of inode / bs + 1)); try done.
  - by eapply quiet_inv.
  - apply (block_map_ext (blk w)); [|done]. intros. by apply quiet_blk.
  - dlia.
  - apply length_zeros. lia.
  - intros k es Hk. destruct (Hess k es Hk) as (p & ? & ?). exists p. by rewrite (quiet_blk w w1).
  - unfold dir_blocks. assert ((inode_size_of inode + bs - 1) / bs <= inode_size_of inode / bs + 1); [|lia].
    rewrite <- Z.div_add by lia. apply Z.div_le_mono; lia.
Qed.
End Dirs.
