(* ===== verification/Ext4Sample.v ===== *)
(** A disk in memory that meets the contract of [Ext4Spec], and a small file
    system on it: what the closed instances of the ext4 theorems run on. *)

From S2P Require Import Prelude Packed Ext4Layout Ext4 Ext4Spec.

(** * The disk *)

Definition RAM_BS : Z := 1024.
Abbreviation ramdisk := (gmap Z bytes).

Definition ram_block (d : ramdisk) (b : Z) : bytes :=
  match d !! b with
  | Some x => if decide (Z.of_nat (length x) = RAM_BS /\ Forall is_u8 x) then x else zeros 1024
  | None => zeros 1024
  end.

#[export] Instance ram_env : Ext4Env ramdisk := fun size d => (d, 1).

Definition ram_read : Ext4ReadBlockC ramdisk := fun _ b buf d => (d, (0, ram_block d b)).
Definition ram_write : Ext4WriteBlockC ramdisk := fun _ b buf d => (<[b := buf]> d, 0).
Definition ram_sync : Ext4SyncC ramdisk := fun _ d => (d, 0).

Definition ram_ops : Ext4BlockOps ramdisk :=
  mkOps (Some read_block_trampoline) (Some write_block_trampoline) (Some sync_trampoline).

Definition ram_world (d : ramdisk) : World ramdisk :=
  mkWorld d (Some ram_read) (Some ram_write) (Some ram_sync) (zeros 4096).

Definition ram_inv (w : World ramdisk) : Prop :=
  EXT4_C_READ w = Some ram_read /\ EXT4_C_WRITE w = Some ram_write
  /\ EXT4_C_SYNC w = Some ram_sync /\ Z.of_nat (length (EXT4_MMAP_SCRATCH w)) = 4096.

Lemma ram_block_ok d b : Z.of_nat (length (ram_block d b)) = RAM_BS /\ is_bytes (ram_block d b).
Proof.
  assert (Z.of_nat (length (zeros 1024)) = RAM_BS /\ is_bytes (zeros 1024)) as Hz.
  { split; [done|apply is_bytes_zeros]. }
  unfold ram_block. destruct (d !! b) as [x|]; [|done]. by case_decide.
Qed.

Lemma ram_block_write d b x c : Z.of_nat (length x) = RAM_BS -> is_bytes x ->
  ram_block (<[b := x]> d) c = if decide (c = b) then x else ram_block d c.
Proof.
  intros Hl Hb. unfold ram_block. case_decide as E.
  - subst. rewrite lookup_insert_eq. by rewrite decide_True.
  - by rewrite lookup_insert_ne.
Qed.

#[export] Program Instance ram_device : BlockReader ramdisk ram_ops 0 RAM_BS := {
  blk w b := ram_block (env w) b;
  dev_inv := ram_inv;
  good _ := True;
}.
Next Obligation. intros w b. apply ram_block_ok. Qed.
Next Obligation. intros w b. apply ram_block_ok. Qed.
Next Obligation. intros w sc (? & ? & ? & Hs) Hl. unfold ram_inv. split_and!; try done. by rewrite <- Hs, <- Hl. Qed.
Next Obligation. by intros w (_ & _ & _ & ->). Qed.
Next Obligation. intros w n d p Hi [= <- <-]. split_and!; [apply Hi..| |]; done. Qed.
Next Obligation.
  intros w b buf (Hr & Hi) Hl. eexists read_block_trampoline, _, _, _. split; [done|].
  unfold read_block_trampoline. rewrite Hr. cbn. split; [done|].
  split; [by split|]. split; [done|]. split; [done|].
  pose proof (ram_block_ok (env w) b) as [H _]. split; [lia|by left].
Qed.

#[export] Program Instance ram_writer : BlockWriter ramdisk ram_ops 0 RAM_BS := {}.
Next Obligation.
  intros w b buf (Hr & Hw & Hs & Hi) Hl Hb. eexists write_block_trampoline, _, _. split; [done|].
  unfold write_block_trampoline. rewrite Hw. cbn. split; [done|].
  split; [by unfold ram_inv; split_and!|]. split; [|split; [done|]].
  - intros c Hc. unfold set_env, env. rewrite ram_block_write by done. by rewrite decide_False.
  - left. split; [done|]. unfold set_env, env. rewrite ram_block_write by done. by rewrite decide_True.
Qed.
Next Obligation.
  intros w f (Hr & Hw & Hs & Hi) [= <-]. eexists _, _. unfold sync_trampoline. rewrite Hs. cbn.
  split; [done|]. split; [by unfold ram_inv; split_and!|]. split; [done|]. split; [done|by left].
Qed.

(** * The file system *)

Definition u16s (l : list Z) : bytes := flat_map (to_le 2) l.
Definition u32s (l : list Z) : bytes := flat_map (to_le 4) l.
Definition pad (n : nat) (b : bytes) : bytes := take n (b ++ zeros n).

(** An inode with a mode, a size, flags and [i_block]. *)
Definition mk_inode (mode size flags : Z) (blocks : bytes) : bytes :=
  set_field Ext4Inode "i_mode" mode
    (set_field Ext4Inode "i_size_lo" size
      (set_field Ext4Inode "i_flags" flags (zeros 40 ++ pad 60 blocks ++ zeros 60))).

Definition ext_header (entries depth : Z) : bytes := u16s [EXT4_EXT_MAGIC; entries; 4; depth] ++ zeros 4.
Definition ext_entry (block len start : Z) : bytes := u32s [block] ++ u16s [len; 0] ++ u32s [start].
Definition idx_entry (block leaf : Z) : bytes := u32s [block; leaf] ++ zeros 4.

(** Root directory, a file of two extents, a file with an extent tree. *)
Definition root_inode : bytes := mk_inode 16384 1024 0 (u32s [10]).
Definition file_inode : bytes :=
  mk_inode 32768 2500 EXT4_EXTENTS_FL (ext_header 2 0 ++ ext_entry 0 2 20 ++ ext_entry 2 1 30).
Definition tree_inode : bytes :=
  mk_inode 32768 3072 EXT4_EXTENTS_FL (ext_header 2 1 ++ idx_entry 0 40 ++ idx_entry 2 41).

Definition dirent (ino rec_len : Z) (name : bytes) : bytes :=
  u32s [ino] ++ u16s [rec_len] ++ [Z.of_nat (length name); 1] ++ name.

Definition sample_disk : ramdisk :=
  list_to_map
    [(5, pad 1024 (zeros 256 ++ pad 256 root_inode));
     (6, pad 1024 (pad 256 file_inode ++ pad 256 tree_inode));
     (10, pad 1024 (pad 12 (dirent 2 12 [46]) ++ dirent 5 16 [102; 105; 108; 101]));
     (20, pad 1024 [1; 2; 3]); (21, pad 1024 [4; 5; 6]); (30, pad 1024 [7; 8; 9]);
     (40, pad 1024 (ext_header 1 0 ++ ext_entry 0 2 50));
     (41, pad 1024 (ext_header 1 0 ++ ext_entry 2 1 60))].

Definition sample_desc : bytes := pad 64 (u32s [3; 4; 5]).

Definition sample_fs : Ext4Filesystem ramdisk :=
  mkFs 0 ram_ops (zeros 1024) [sample_desc] None 1024 8192 8 256 1 32 100 false true false.

Definition sample_world : World ramdisk := ram_world sample_disk.

Lemma sample_world_inv : dev_inv sample_world.
Proof. by unfold dev_inv; cbn; unfold ram_inv; split_and!. Qed.

Lemma sample_on : fs_on (o := ram_ops) (dev := 0) (bs := RAM_BS) sample_fs.
Proof. by split. Qed.
