(* ===== verification/Ext4Props.v ===== *)
(** Theorems on the reading side of the ext4 driver, with closed instances on the
    file system of [Ext4Sample]. *)

From S2P Require Import Prelude Packed Ext4Layout Ext4 Ext4Spec Ext4Extents Ext4Files Ext4Dirs Ext4Sample.

Section Ext4Props.
Context {D : Type} `{Env : Ext4Env D} {o : Ext4BlockOps D} {dev bs : Z}.
Context `{Dev : !BlockReader D o dev bs}.

Abbreviation FS := (Ext4Filesystem D).
Abbreviation on_dev := (fs_on (o := o) (dev := dev) (bs := bs)).
Abbreviation tables := (tables_ok (o := o) (dev := dev) (bs := bs)).
Abbreviation file_at := (file_ok (o := o) (dev := dev) (bs := bs)).

(** C3. Reading a file at an offset is reading it byte by byte through its block
    map: the call returns, the disk is unchanged, and the buffer receives the
    bytes up to the end of the file or of the buffer (zeros for holes) and is
    otherwise as it was, or the answer is the first error of the map, or the
    device or the allocator failed. *)
Theorem file_read_correct (fs : FS) w inode m off dst :
  file_at fs w inode m -> bs <= EXT4_MMAP_SCRATCH_SIZE -> is_u64 off ->
  let n := read_len inode off (Z.of_nat (length dst)) in
  exists w' dst' r, read_at_into fs inode off (w, dst) = Some ((w', dst'), r)
    /\ read_done w w' dst dst' 0 n n r (file_range (blk w) m bs off (Z.to_nat n)).
Proof. apply read_at_spec. Qed.

(** Reading through a handle is reading at its position: on a device that
    does not fail both calls give the same answer and, when that is a success,
    the same buffer, and the position moves by the number of bytes read. *)
Theorem handle_read_agrees (h : Ext4FileHandle D) w buf m :
  file_at (fh_fs h) w (fh_inode h) m -> bs <= EXT4_MMAP_SCRATCH_SIZE -> is_u64 (fh_position h) ->
  good w ->
  exists w1 w2 b1 b2 p r,
    read_at_into (fh_fs h) (fh_inode h) (fh_position h) (w, buf) = Some ((w1, b1), r)
    /\ handle_read (w, (h, buf)) = Some ((w2, (set_fh_position p h, b2)), r)
    /\ match r with
       | Ok n => b1 = b2 /\ p = fh_position h + n
       | Err _ => fh_position h <= p <= inode_size_of (fh_inode h) \/ p = fh_position h
       end.
Proof.
  intros Hfile Hbs Hp Hg.
  destruct (read_at_spec _ _ _ _ _ buf Hfile Hbs Hp) as (w1 & b1 & r1 & E1 & _ & _ & Hr1).
  destruct (handle_read_spec w h buf m Hfile Hp) as (w2 & b2 & p & r2 & E2 & (_ & _ & Hr2) & Hpp & Hok).
  assert (r1 = r2 /\ (is_ok r1 = true -> b1 = b2
            /\ r1 = Ok (read_len (fh_inode h) (fh_position h) (Z.of_nat (length buf))))) as [<- Hb].
  { destruct Hr1 as [Hr1|(? & _ & _ & ?)]; [|done]. destruct Hr2 as [Hr2|(? & _ & _ & ?)]; [|done].
    destruct (file_range _ _ _ _ _); [|by subst]. destruct Hr1 as [-> ->], Hr2 as [-> ->]. done. }
  exists w1, w2, b1, b2, p, r1. split_and!; [done..|].
  destruct r1 as [n|e].
  - destruct (Hb eq_refl) as [-> [= ->]]. split; [done|by apply Hok].
  - unfold read_len in Hpp. lia.
Qed.

(** C19. Looking a block up in an extent tree of any depth is looking it up in the
    list of extents the tree stands for; a block that no extent covers is
    [NotFound]. *)
Theorem extent_lookup_correct (fs : FS) w inode es lb :
  on_dev fs -> dev_inv w -> 0 <= lb -> extent_map (blk w) inode es ->
  reads (get_block_from_extent fs inode lb) w (fun r =>
    r = match ext_find es lb with Some p => Ok p | None => Err NotFound end).
Proof. intros. by apply extent_lookup_spec. Qed.

(** C20. The indirect mapping follows the path of the block through the pointer
    blocks; paths of different blocks are different and every index is inside its
    block; beyond the triple-indirect range the kernel panics. *)
Theorem indirect_lookup_correct (fs : FS) w inode lb :
  on_dev fs -> dev_inv w -> is_u64 lb ->
  match ind_path (bs / 4) lb with
  | Some (slot, path) =>
      reads (get_block_indirect fs inode lb) w
        (fun r => r = Ok (follow (blk w) (i_block inode slot) path))
      /\ 0 <= slot < 15 /\ Forall (fun i => 0 <= i < bs / 4) path
      /\ forall lb', 0 <= lb' -> ind_path (bs / 4) lb' = Some (slot, path) -> lb' = lb
  | None => good w -> get_block_indirect fs inode lb w = None
  end.
Proof.
  intros Hf Hi [H0 H1]. destruct (on_min_size _ Hf) as [Hm _]. unfold EXT4_MIN_BLOCK_SIZE in Hm.
  assert (0 < bs / 4) by dlia.
  destruct (ind_path (bs / 4) lb) as [[slot path]|] eqn:E.
  - split; [by apply indirect_lookup_spec|].
    destruct (ind_path_in_range _ _ _ _ ltac:(done) H0 E). split_and!; [lia|lia|done|].
    intros lb' H' E'. by apply (ind_path_inj (bs / 4) lb' lb (slot, path)).
  - intros Hg. apply indirect_beyond_spec; [done..|].
    revert E. unfold ind_path, ind_limit.
    destruct (Z.ltb_spec lb 12), (Z.ltb_spec (lb - 12) (bs / 4)),
      (Z.ltb_spec (lb - 12 - bs / 4) (bs / 4 * (bs / 4))),
      (Z.ltb_spec (lb - 12 - bs / 4 - bs / 4 * (bs / 4)) (bs / 4 * (bs / 4) * (bs / 4))); done || lia.
Qed.

(** C28. Searching a directory finds the inode of the first live entry of exactly
    that name among the entries of all its blocks, holes skipped, and [NotFound]
    when there is none. *)
Theorem dir_find_correct (fs : FS) w inode name m ess :
  file_at fs w inode m -> inode_size_of inode + bs <= U64 ->
  dir_rep (bs := bs) (blk w) m (dir_blocks (bs := bs) inode) ess ->
  reads (dir_find_entry fs inode name) w (fun r =>
    r = match dir_lookup name (concat ess) with Some ino => Ok ino | None => Err NotFound end).
Proof. apply dir_find_spec. Qed.

(** C34. A path is resolved by looking its components up one after the other from
    the root: leading, trailing and repeated slashes do not matter, and the empty
    path is the root, as long as no component is longer than 255 bytes. *)
Theorem lookup_path_correct (fs : FS) (path : bytes) (w : World D) :
  short_names path ->
  lookup_path fs path w = resolve fs (components path) EXT4_ROOT_INODE w.
Proof. apply lookup_path_spec. Qed.

(** Reading an inode returns the 160 bytes at its place in the inode table,
    or [Invalid] outside the groups; but an inode that starts less than 160 bytes
    before the end of its block, as the last one of every block does when inodes
    have 128 bytes, is read past the end of the buffer. *)
Theorem read_inode_correct (fs : FS) w n :
  tables fs -> dev_inv w -> 0 < n ->
  (inode_offset (bs := bs) fs n + inode_len <= bs ->
     reads (read_inode fs n) w (fun r =>
       r = if group_count fs <=? inode_group fs n then Err Invalid else Ok (disk_inode fs w n)))
  /\ (bs < inode_offset (bs := bs) fs n + inode_len -> inode_group fs n < group_count fs ->
      good w -> read_inode fs n w = None).
Proof.
  intros Ht Hi Hn. split; intros H; [by apply read_inode_spec|]. intros. by apply read_inode_overrun_spec.
Qed.
End Ext4Props.

(** Seeking moves to the sum of the origin and the offset when that is a
    position, past the end of the file included; a sum below zero, or one that
    does not fit in 63 bits, is [Invalid] and leaves the handle alone. *)
Theorem seek_correct {D} (h : Ext4FileHandle D) offset whence :
  let base := match whence with
              | SeekStart => 0
              | SeekCurrent => fh_position h
              | SeekEnd => inode_size_of (fh_inode h)
              end in
  0 <= base < 2 ^ 63 -> -2 ^ 63 <= offset < 2 ^ 63 ->
  handle_seek offset whence h =
    if (0 <=? base + offset) && (base + offset <? 2 ^ 63)
    then (set_fh_position (base + offset) h, Ok (base + offset))
    else (h, Err Invalid).
Proof.
  intros base Hb Ho.
  assert (forall x, 0 <= x < 2 ^ 63 -> as_i64 x = x) as Hid.
  { intros x Hx. unfold as_i64, wrap64, U64. rewrite Z.mod_small by lia.
    destruct (Z.ltb_spec x 9223372036854775808); lia. }
  assert (forall x, 0 <= x < 2 ^ 63 -> let y := as_i64 (x + offset) in
    if (0 <=? x + offset) && (x + offset <? 2 ^ 63) then y = x + offset else y < 0) as Hsum.
  { intros x Hx y. subst y. unfold as_i64, wrap64, U64.
    destruct (Z.leb_spec 0 (x + offset)); cbn [andb].
    - rewrite Z.mod_small by lia.
      destruct (Z.ltb_spec (x + offset) (2 ^ 63)), (Z.ltb_spec (x + offset) 9223372036854775808); lia.
    - rewrite <- (Z.mod_add (x + offset) 1) by lia. rewrite Z.mod_small by lia.
      destruct (Z.ltb_spec (x + offset + 1 * 18446744073709551616) 9223372036854775808); lia. }
  unfold handle_seek. destruct whence; subst base; cbv beta iota in *.
  - destruct (Z.ltb_spec offset 0), (Z.leb_spec 0 (0 + offset)); try lia; cbn [andb]; [done|].
    rewrite Z.add_0_l. destruct (Z.ltb_spec offset (2 ^ 63)); [done|lia].
  - rewrite (Hid _ Hb). specialize (Hsum _ Hb). cbv zeta in Hsum.
    destruct ((0 <=? fh_position h + offset) && _) eqn:E.
    + rewrite Hsum. apply andb_true_iff in E as [E%Z.leb_le _].
      destruct (Z.ltb_spec (fh_position h + offset) 0); [lia|done].
    + destruct (Z.ltb_spec (as_i64 (fh_position h + offset)) 0); [done|lia].
  - rewrite (Hid _ Hb). specialize (Hsum _ Hb). cbv zeta in Hsum.
    destruct ((0 <=? inode_size_of (fh_inode h) + offset) && _) eqn:E.
    + rewrite Hsum. apply andb_true_iff in E as [E%Z.leb_le _].
      destruct (Z.ltb_spec (inode_size_of (fh_inode h) + offset) 0); [lia|done].
    + destruct (Z.ltb_spec (as_i64 (inode_size_of (fh_inode h) + offset)) 0); [done|lia].
Qed.

(** * Closed instances *)

Definition file_extents : list extent := [mkExtent 0 2 20; mkExtent 2 1 30].
Definition tree_extents : list extent := [mkExtent 0 2 50; mkExtent 2 1 60].

Definition map_of (es : list extent) (lb : Z) : result Ext4Error Z :=
  match ext_find es lb with Some p => Ok p | None => Err NotFound end.

Lemma file_extents_ok : extent_map (blk sample_world) file_inode file_extents.
Proof.
  split; [by vm_compute|].
  split; [by vm_compute|]. split; [repeat constructor; by vm_compute|].
  intros [|[|i]] e He; [injection He as <-..|discriminate He];
    (eexists; split; [vm_compute; reflexivity|vm_compute; reflexivity]).
Qed.

Lemma tree_leaf_ok b start blockno len :
  ram_block sample_disk b = pad 1024 (ext_header 1 0 ++ ext_entry blockno len start) ->
  extent_ok (mkExtent blockno len start) ->
  node_entries (ram_block sample_disk b) = 1 ->
  (exists e, node_entry (ram_block sample_disk b) 0 = Some e /\ extent_of e = mkExtent blockno len start) ->
  ext_rep (ram_block sample_disk) 0 (ram_block sample_disk b) [mkExtent blockno len start].
Proof.
  intros _ Hok Hn He. split; [done|]. split; [by constructor|]. by intros [|[|i]] e [= <-].
Qed.

Lemma tree_extents_ok : extent_map (blk sample_world) tree_inode tree_extents.
Proof.
  split; [by vm_compute|]. change (ext_rep (ram_block sample_disk) 1 (drop i_block_offset tree_inode) tree_extents).
  exists [mkChild 0 40 [mkExtent 0 2 50]; mkChild 2 41 [mkExtent 2 1 60]].
  split; [by vm_compute|]. split; [done|]. split; [|split; [|split]].
  - intros [|[|i]] c Hc; [injection Hc as <-..|discriminate Hc];
      (eexists; split; [vm_compute; reflexivity|split; vm_compute; reflexivity]).
  - intros [|[|i]] c Hc; [injection Hc as <-..|discriminate Hc];
      (apply tree_leaf_ok;
       [vm_compute; reflexivity|by vm_compute|vm_compute; reflexivity
       |eexists; split; [vm_compute; reflexivity|vm_compute; reflexivity]]).
  - intros [|[|[|i]]] c e [= <-]; cbn; intros ->%list_elem_of_singleton; cbn; lia.
  - intros [|[|[|i]]] [|[|[|j]]] c c' e Hij; try lia; try done. intros [= <-] [= <-]. cbn.
    split; [lia|]. intros ->%list_elem_of_singleton. cbn. lia.
Qed.

Lemma sample_bytes i : i = file_inode \/ i = tree_inode \/ i = root_inode -> is_bytes i.
Proof.
  intros H. apply (bool_decide_unpack (Forall is_u8 i)).
  by destruct H as [->|[->| ->]]; vm_compute.
Qed.

Lemma sample_file_ok : file_ok (o := ram_ops) (dev := 0) (bs := RAM_BS) sample_fs sample_world file_inode
  (map_of file_extents).
Proof.
  split; [apply sample_on|apply sample_world_inv|apply sample_bytes; by left|].
  unfold block_map. replace (uses_extents file_inode) with true by by vm_compute.
  exists file_extents. split; [apply file_extents_ok|done].
Qed.

Lemma file_read_correct_witness :
  exists w' dst' r, read_at_into sample_fs file_inode 1020 (sample_world, zeros 6) = Some ((w', dst'), r)
    /\ r = Ok 6 /\ dst' = [0; 0; 0; 0; 4; 5].
Proof.
  destruct (file_read_correct (bs := RAM_BS) sample_fs sample_world file_inode (map_of file_extents) 1020 (zeros 6)
    sample_file_ok ltac:(by vm_compute) ltac:(by vm_compute)) as (w' & dst' & r & E & _ & _ & Hr).
  exists w', dst', r. split; [exact E|]. destruct Hr as [Hr|(? & _ & _ & [])]; [|done].
  replace (file_range _ _ _ _ _) with (Ok [0; 0; 0; 0; 4; 5] : result Ext4Error bytes) in Hr by by vm_compute.
  destruct Hr as [Hr ->]. split; [rewrite Hr; by vm_compute|by vm_compute].
Defined.

Definition sample_handle : Ext4FileHandle ramdisk := mkHandle sample_fs 5 file_inode 2498 0.

Lemma handle_read_agrees_witness :
  exists w1 w2 b p r, read_at_into sample_fs file_inode 2498 (sample_world, zeros 6) = Some ((w1, b), r)
    /\ handle_read (sample_world, (sample_handle, zeros 6)) = Some ((w2, (set_fh_position p sample_handle, b)), r)
    /\ r = Ok 2 /\ p = 2500.
Proof.
  destruct (handle_read_agrees (bs := RAM_BS) sample_handle sample_world (zeros 6) (map_of file_extents)
    sample_file_ok ltac:(by vm_compute) ltac:(by vm_compute) I) as (w1 & w2 & b1 & b2 & p & r & E1 & E2 & Hr).
  assert (snd <$> read_at_into sample_fs file_inode 2498 (sample_world, zeros 6) = Some (Ok 2)) as E by by vm_compute.
  cbn [fh_fs fh_inode fh_position sample_handle] in E1. rewrite E1 in E. injection E as ->.
  destruct Hr as [-> ->]. change (fh_position sample_handle + 2) with 2500 in E2.
  exists w1, w2, b2, 2500, (Ok 2).
  split; [exact E1|]. split; [exact E2|]. split; reflexivity.
Defined.

Lemma extent_lookup_correct_witness :
  exists w', get_block_from_extent sample_fs tree_inode 2 sample_world = Some (w', Ok 60).
Proof.
  destruct (extent_lookup_correct (bs := RAM_BS) sample_fs sample_world tree_inode tree_extents 2
    sample_on sample_world_inv ltac:(lia) tree_extents_ok) as (w' & r & E & _ & [->|(? & _ & _ & [])]); [|exact I].
  by exists w'.
Defined.

Lemma indirect_lookup_correct_witness :
  (exists w', get_block_indirect sample_fs root_inode 0 sample_world = Some (w', Ok 10))
  /\ get_block_indirect sample_fs root_inode 20000000 sample_world = None.
Proof.
  pose proof (indirect_lookup_correct (bs := RAM_BS) sample_fs sample_world root_inode 0
    sample_on sample_world_inv ltac:(by vm_compute)) as H1.
  pose proof (indirect_lookup_correct (bs := RAM_BS) sample_fs sample_world root_inode 20000000
    sample_on sample_world_inv ltac:(by vm_compute)) as H2.
  split.
  - destruct H1 as [(w' & r & E & _ & [->|(? & _ & _ & [])]) _]; [|exact I]. by exists w'.
  - exact (H2 I).
Defined.

Definition root_map (lb : Z) : result Ext4Error Z := Ok (if lb =? 0 then 10 else 0).
Definition root_entries : list bytes :=
  [pad 263 (drop 0 (ram_block sample_disk 10)); pad 263 (drop 12 (ram_block sample_disk 10))].

Lemma root_dir_at : dir_at RAM_BS (ram_block sample_disk 10) 0 root_entries.
Proof.
  eapply dir_entry; [by vm_compute|by vm_compute|by vm_compute|].
  eapply dir_entry; [by vm_compute|by vm_compute|by vm_compute|].
  eapply dir_stop; by vm_compute.
Qed.

Lemma root_file_ok : file_ok (o := ram_ops) (dev := 0) (bs := RAM_BS) sample_fs sample_world root_inode root_map.
Proof.
  split; [apply sample_on|apply sample_world_inv|apply sample_bytes; by right; right|].
  unfold block_map. replace (uses_extents root_inode) with false by by vm_compute.
  intros lb Hlb. replace (inode_size_of root_inode / RAM_BS + 1) with 2 in Hlb by by vm_compute.
  assert (lb = 0 \/ lb = 1) as [->| ->] by lia; eexists _, _; split; by vm_compute.
Qed.

Lemma dir_find_correct_witness :
  exists w', dir_find_entry sample_fs root_inode [102; 105; 108; 101] sample_world = Some (w', Ok 5).
Proof.
  destruct (dir_find_correct (bs := RAM_BS) sample_fs sample_world root_inode [102; 105; 108; 101] root_map
    [root_entries] root_file_ok ltac:(by vm_compute)) as (w' & r & E & _ & [Hr|(? & _ & _ & [])]).
  { split; [by vm_compute|]. intros [|i] es [= <-]. exists 10. split; [done|]. apply root_dir_at. }
  2: exact I.
  exists w'. rewrite E, Hr. by vm_compute.
Defined.

Lemma lookup_path_correct_witness :
  lookup_path sample_fs [47; 47; 102; 105; 108; 101; 47] sample_world
  = resolve sample_fs [[102; 105; 108; 101]] 2 sample_world
  /\ exists w', lookup_path sample_fs [47; 47; 102; 105; 108; 101; 47] sample_world = Some (w', Ok 5).
Proof.
  assert (short_names [47; 47; 102; 105; 108; 101; 47]) as Hs
    by (apply (bool_decide_unpack (Forall (fun c => (length c <= 255)%nat) _)); by vm_compute).
  split; [exact (lookup_path_correct sample_fs _ sample_world Hs)|].
  assert (snd <$> lookup_path sample_fs [47; 47; 102; 105; 108; 101; 47] sample_world = Some (Ok 5)) as E
    by by vm_compute.
  destruct (lookup_path _ _ _) as [[w' r]|]; [|discriminate E]. injection E as ->. by exists w'.
Defined.

(** The same tables with inodes of 128 bytes. *)
Definition small_fs : Ext4Filesystem ramdisk :=
  mkFs 0 ram_ops (zeros 1024) [sample_desc] None 1024 8192 8 128 1 32 100 false true false.

Lemma read_inode_correct_witness :
  (exists w', read_inode sample_fs 5 sample_world = Some (w', Ok file_inode))
  /\ read_inode small_fs 8 sample_world = None.
Proof.
  destruct (read_inode_correct (bs := RAM_BS) sample_fs sample_world 5
    ltac:(by split; [apply sample_on|..]) sample_world_inv ltac:(lia)) as [H1 _].
  destruct (read_inode_correct (bs := RAM_BS) small_fs sample_world 8
    ltac:(by split; [split|..]) sample_world_inv ltac:(lia)) as [_ H2].
  split; [|apply H2; by vm_compute].
  destruct H1 as (w' & r & E & _ & [Hr|(? & _ & _ & [])]); [by vm_compute| |exact I].
  exists w'. rewrite E, Hr. by vm_compute.
Defined.

Lemma seek_correct_witness :
  handle_seek (-1) SeekEnd sample_handle = (set_fh_position 2499 sample_handle, Ok 2499)
  /\ handle_seek (2 ^ 63 - 1) SeekCurrent sample_handle = (sample_handle, Err Invalid).
Proof.
  split.
  - exact (seek_correct sample_handle (-1) SeekEnd ltac:(by vm_compute) ltac:(lia)).
  - exact (seek_correct sample_handle (2 ^ 63 - 1) SeekCurrent ltac:(by vm_compute) ltac:(lia)).
Defined.
