(* ===== verification/Ext4JournalFacts.v ===== *)
(** The effect of the writing operations of [Ext4Journal]: which blocks they
    write, in which order, and what becomes of the transaction. *)

From S2P Require Import Prelude Packed Ext4Layout Ext4 Ext4Spec Ext4Extents Ext4Files Ext4Dirs Ext4Journal.

(** * Writes as a list *)

Definition disk_write (content : Z -> bytes) (b : Z) (data : bytes) (c : Z) : bytes :=
  if decide (c = b) then data else content c.
Definition disk_writes (content : Z -> bytes) (ws : list (Z * bytes)) : Z -> bytes :=
  fold_left (fun f '(b, d) => disk_write f b d) ws content.

Lemma disk_writes_ext c1 c2 ws b : (forall x, c1 x = c2 x) -> disk_writes c1 ws b = disk_writes c2 ws b.
Proof.
  unfold disk_writes. revert c1 c2. induction ws as [|[a d] ws IH]; intros c1 c2 H; cbn; [done|].
  apply IH. intros x. unfold disk_write. by case_decide.
Qed.

Lemma disk_writes_app c ws1 ws2 b :
  disk_writes c (ws1 ++ ws2) b = disk_writes (disk_writes c ws1) ws2 b.
Proof. unfold disk_writes. by rewrite fold_left_app. Qed.

Lemma disk_writes_other c ws b : b ∉ map fst ws -> disk_writes c ws b = c b.
Proof.
  unfold disk_writes. revert c. induction ws as [|[a d] ws IH]; intros c H; cbn in *; [done|].
  rewrite not_elem_of_cons in H. destruct H as [Hne H]. rewrite IH by done.
  unfold disk_write. by rewrite decide_False.
Qed.

(** The last write to a block is the one that stays. *)
Lemma disk_writes_last c ws b d ws' : b ∉ map fst ws' -> disk_writes c (ws ++ (b, d) :: ws') b = d.
Proof.
  intros H. rewrite disk_writes_app. change ((b, d) :: ws') with ([(b, d)] ++ ws').
  rewrite disk_writes_app, disk_writes_other by done. cbn. unfold disk_write. by rewrite decide_True.
Qed.

(** Where the data blocks of a transaction go in the journal, and the position
    after them. *)
Fixpoint journal_slots (len : Z) (n : nat) (jb : Z) : list Z :=
  match n with
  | O => []
  | S n' => jb :: journal_slots len n' (if len <=? jb +w 1 then 1 else jb +w 1)
  end.
Fixpoint journal_after (len : Z) (n : nat) (jb : Z) : Z :=
  match n with
  | O => jb
  | S n' => journal_after len n' (if len <=? jb +w 1 then 1 else jb +w 1)
  end.

Section Facts.
Context {D : Type} `{Env : Ext4Env D} {o : Ext4BlockOps D} {dev bs : Z}.
Context `{Dev : !BlockReader D o dev bs}.
Context `{Wr : !BlockWriter D o dev bs}.

Abbreviation FS := (Ext4Filesystem D).
Abbreviation fio := (eprog Ext4Error (World D * FS)).
Abbreviation on_dev := (fs_on (o := o) (dev := dev) (bs := bs)).

(** A program that makes these writes in this order and answers [x], or stops on
    the way with an outside error; it touches no other block, and on a good
    device it does not stop. *)
Definition does {X} (p : fio X) (w : World D) (fs : FS) (ws : list (Z * bytes)) (x : X) : Prop :=
  exists w' r, p (w, fs) = Some ((w', fs), r) /\ dev_inv w'
    /\ (forall c, c ∉ map fst ws -> blk w' c = blk w c)
    /\ (good w -> good w' /\ r = Ok x)
    /\ (r = Ok x /\ (forall c, blk w' c = disk_writes (blk w) ws c)
        \/ exists e, r = Err e /\ env_error e).

Lemma does_ret {X} (x : X) w fs : dev_inv w -> does (mret x) w fs [] x.
Proof. intros. exists w, (Ok x). split_and!; [done..|]. by left. Qed.

Lemma does_bind {X Y} (p : fio X) (k : X -> fio Y) w fs ws1 ws2 x y :
  does p w fs ws1 x -> (forall w', dev_inv w' -> does (k x) w' fs ws2 y) ->
  does (p ≫= k) w fs (ws1 ++ ws2) y.
Proof.
  intros (w1 & r1 & E1 & Hi1 & Ho1 & Hg1 & Hr1) Hk.
  destruct Hr1 as [[-> Hb1]|(e & -> & He)].
  - destruct (Hk w1 Hi1) as (w2 & r2 & E2 & Hi2 & Ho2 & Hg2 & Hr2).
    exists w2, r2. rewrite (bind_ok _ _ _ _ _ E1). split_and!; [done|done| |tauto|].
    + intros c. rewrite map_app, not_elem_of_app. intros [? ?]. by rewrite Ho2, Ho1.
    + destruct Hr2 as [[-> Hb2]|(e & -> & He)]; [left|right; by exists e].
      split; [done|]. intros c. rewrite disk_writes_app, Hb2. by apply disk_writes_ext.
  - exists w1, (Err e). rewrite (bind_err _ _ _ _ _ E1). split_and!; [done|done| | |right; by exists e].
    + intros c. rewrite map_app, not_elem_of_app. intros [? ?]. by apply Ho1.
    + intros [_ ?]%Hg1. done.
Qed.

(** A step that writes nothing. *)
Lemma does_step {X Y} (p : fio X) (k : X -> fio Y) w fs ws x y :
  does p w fs [] x -> (forall w', dev_inv w' -> does (k x) w' fs ws y) -> does (p ≫= k) w fs ws y.
Proof. intros. by apply (does_bind p k w fs [] ws x y). Qed.

Lemma does_reads {X} (p : FS -> eprog Ext4Error (World D) X) w fs x :
  reads (p fs) w (fun r => r = Ok x) -> does (with_fs p) w fs [] x.
Proof.
  intros (w' & r & E & (Hi & Hb & Hg) & Hr). exists w', r.
  split_and!; [unfold with_fs, zoom; cbn; by rewrite E|done|done| |].
  - intros G. split; [auto|]. destruct Hr as [->|(? & _ & _ & ?)]; done.
  - destruct Hr as [->|(e & -> & He & _)]; [by left|right; by exists e].
Qed.

Lemma does_write fs w b data : on_dev fs -> readonly fs = false -> dev_inv w ->
  Z.of_nat (length data) = bs -> is_bytes data ->
  does (with_fs (fun fs => write_block fs b data)) w fs [(b, data)] tt.
Proof.
  intros Hf Hro Hi Hl Hb. unfold does, with_fs, zoom, write_block. cbn [fst snd]. rewrite Hro, (on_ops _ Hf), (on_device _ Hf).
  destruct (write_law w b data Hi Hl Hb) as (f & w' & r & -> & -> & Hi' & Ho & Hg & Hr).
  exists w', r. split_and!; [done|done| |done|].
  - intros c Hc. apply Ho. cbn in Hc. rewrite not_elem_of_cons in Hc. tauto.
  - destruct Hr as [[-> Hr]|(e & -> & He)]; [left|right; by exists e]. split; [done|].
    intros c. cbn. unfold disk_write. case_decide; [by subst|by apply Ho].
Qed.

Lemma does_sync fs w : on_dev fs -> dev_inv w -> does sync_device w fs [] tt.
Proof.
  intros Hf Hi. unfold does, sync_device, with_fs, zoom. cbn [fst snd]. rewrite (on_ops _ Hf), (on_device _ Hf).
  destruct (ops_sync o) as [f|] eqn:Ef.
  - destruct (sync_law w f Hi Ef) as (w' & r & -> & Hi' & Ho & Hg & Hr). exists w', r.
    split_and!; [done|done|done|done|]. destruct Hr as [->|(e & -> & He)]; [by left|right; by exists e].
  - exists w, (Ok tt). split_and!; [done..|by left].
Qed.

(** * Journal blocks *)

(** A block that holds a journal header and zeros. *)
Definition header_content (blocktype sequence : Z) : bytes :=
  header_bytes blocktype sequence ++ drop 12 (zeros (Z.to_nat bs)).

Lemma header_bytes_length t n : length (header_bytes t n) = 12%nat.
Proof. unfold header_bytes. rewrite !length_app, !length_to_le. done. Qed.

Lemma header_content_length t n : EXT4_MIN_BLOCK_SIZE <= bs -> Z.of_nat (length (header_content t n)) = bs.
Proof.
  unfold EXT4_MIN_BLOCK_SIZE, header_content. intros. rewrite length_app, header_bytes_length, length_drop.
  pose proof (length_zeros bs ltac:(lia)). lia.
Qed.

Lemma header_content_bytes t n : is_bytes (header_content t n).
Proof. unfold header_content, header_bytes. auto 10 with bytes. Qed.

Lemma does_header fs w t n : on_dev fs -> dev_inv w ->
  does (header_block t n) w fs [] (header_content t n).
Proof.
  intros Hf Hi. destruct (on_min_size _ Hf) as [Hm _]. unfold EXT4_MIN_BLOCK_SIZE in Hm.
  unfold header_block.
  eapply does_step; [apply does_reads; rewrite (on_block_size _ Hf); by apply (reads_alloc bs w); [|lia|]|].
  intros w1 Hi1. apply does_reads. eapply reads_must; [done| |done].
  pose proof (length_zeros bs ltac:(lia)). rewrite splice_some by (rewrite ?header_bytes_length; lia).
  rewrite header_bytes_length. by rewrite take_0.
Qed.

Lemma does_data fs start len data jb w : on_dev fs -> readonly fs = false -> dev_inv w ->
  Forall (fun d => Z.of_nat (length d) = bs /\ is_bytes d) data ->
  does (write_journal_data start len data jb) w fs
    (zip (map (add64 start) (journal_slots len (length data) jb)) data)
    (journal_after len (length data) jb).
Proof.
  intros Hf Hro Hi Hd. revert jb w Hi. induction Hd as [|d data [Hl Hb] Hd IH]; intros jb w Hi.
  { by apply does_ret. }
  cbn [write_journal_data length journal_slots journal_after map zip zip_with].
  apply (does_bind _ _ w fs [(start +w jb, d)] _ tt); [by apply does_write|].
  intros w1 Hi1. by apply IH.
Qed.

Lemma does_in_place fs blocks data i w : on_dev fs -> readonly fs = false -> dev_inv w ->
  Forall (fun d => Z.of_nat (length d) = bs /\ is_bytes d) data ->
  (i + length blocks <= length data)%nat ->
  does (write_in_place blocks data i) w fs (zip blocks (drop i data)) tt.
Proof.
  intros Hf Hro Hi Hd. revert i w Hi. induction blocks as [|b blocks IH]; intros i w Hi Hlen.
  { by apply does_ret. }
  cbn in Hlen. assert (is_Some (data !! i)) as [d Hdi] by (apply lookup_lt_is_Some; lia).
  rewrite (drop_S _ _ _ Hdi). cbn [write_in_place zip zip_with].
  destruct (proj1 (Forall_lookup _ _) Hd i d Hdi) as [Hl Hb].
  eapply does_step; [apply does_reads; by eapply reads_must|]. intros w1 Hi1.
  apply (does_bind _ _ w1 fs [(b, d)] _ tt); [by apply does_write|]. intros w2 Hi2.
  apply IH; [done|lia].
Qed.

(** * Commit *)

(** The writes of a commit. *)
Definition commit_writes (j : Journal) (t : Transaction) : list (Z * bytes) :=
  let start := journal_start j in
  let n := length (tdata t) in
  let first := jhead j +w 1 in
  [(start +w jhead j, header_content JBD2_DESCRIPTOR_BLOCK (tid t))]
  ++ zip (map (add64 start) (journal_slots (journal_length j) n first)) (tdata t)
  ++ [(start +w journal_after (journal_length j) n first, header_content JBD2_COMMIT_BLOCK (tid t))]
  ++ zip (tblocks t) (tdata t).

(** A transaction of whole blocks. *)
Definition transaction_ok (t : Transaction) : Prop :=
  length (tblocks t) = length (tdata t)
  /\ Forall (fun d => Z.of_nat (length d) = bs /\ is_bytes d) (tdata t).

(** The context after the transaction has been taken, and after the commit. *)
Definition after_take (j : Journal) (fs : FS) : FS := set_journal (Some (set_transaction None j)) fs.
Definition after_commit (j : Journal) (t : Transaction) (fs : FS) : FS :=
  set_journal (Some (set_head
    (wrap32 (wrap32 (journal_after (journal_length j) (length (tdata t)) (jhead j +w 1)) + 1))
    (set_transaction None j))) fs.

Lemma does_commit fs w j t : on_dev fs -> readonly fs = false -> dev_inv w -> transaction_ok t ->
  does (commit_sequence j t) w fs (commit_writes j t)
    (journal_after (journal_length j) (length (tdata t)) (jhead j +w 1)).
Proof.
  intros Hf Hro Hi [Hlen Hd]. destruct (on_min_size _ Hf) as [Hm _].
  unfold commit_writes, commit_sequence. set (first := jhead j +w 1).
  set (after := journal_after (journal_length j) (length (tdata t)) first).
  eapply does_step; [by apply does_header|]. intros w1 Hi1.
  eapply does_bind; [apply does_write; [done..|by apply header_content_length|apply header_content_bytes]|].
  intros w2 Hi2. eapply does_bind; [by apply does_data|]. intros w3 Hi3. fold after.
  eapply does_step; [by apply does_header|]. intros w4 Hi4.
  eapply does_bind; [apply does_write; [done..|by apply header_content_length|apply header_content_bytes]|].
  intros w5 Hi5. rewrite <- (app_nil_r (zip (tblocks t) (tdata t))).
  eapply does_bind; [apply (does_in_place _ _ _ 0); [done..|lia]|]. intros w6 Hi6.
  eapply does_step; [by apply does_sync|]. intros w7 Hi7. by apply does_ret.
Qed.

Lemma commit_spec fs w j t : on_dev fs -> readonly fs = false -> dev_inv w ->
  journal fs = Some j -> current_transaction j = Some t -> transaction_ok t ->
  exists w' fs' r, journal_commit (w, fs) = Some ((w', fs'), r) /\ dev_inv w'
    /\ (forall c, c ∉ map fst (commit_writes j t) -> blk w' c = blk w c)
    /\ (good w -> good w' /\ r = Ok tt)
    /\ (r = Ok tt /\ fs' = after_commit j t fs
        /\ (forall c, blk w' c = disk_writes (blk w) (commit_writes j t) c)
        \/ (exists e, r = Err e /\ env_error e) /\ fs' = after_take j fs).
Proof.
  intros Hf Hro Hi Hj Ht Hok.
  assert (on_dev (after_take j fs)) as Hf' by by destruct Hf.
  unfold journal_commit. rewrite (bind_ok _ _ _ (w, fs) fs) by done. rewrite Hj, Ht.
  rewrite (bind_ok _ _ _ (w, after_take j fs) tt) by done.
  destruct (does_commit (after_take j fs) w j t Hf' Hro Hi Hok) as (w' & r & E & Hi' & Ho & Hg & Hr).
  destruct Hr as [[-> Hb]|(e & -> & He)].
  - exists w', (after_commit j t fs), (Ok tt). rewrite (bind_ok _ _ _ _ _ E).
    split_and!; [done|done|done|by intros [? _]%Hg|]. by left.
  - exists w', (after_take j fs), (Err e). rewrite (bind_err _ _ _ _ _ E).
    split_and!; [done|done|done|by intros [_ ?]%Hg|]. right. split; [by exists e|done].
Qed.

(** * Writing an inode *)

Abbreviation tables := (tables_ok (o := o) (dev := dev) (bs := bs)).

(** The block of inode [n] with the inode in its place. *)
Definition with_inode (fs : FS) (w : World D) (n : Z) (inode : bytes) : bytes :=
  let off := Z.to_nat (inode_offset (bs := bs) fs n) in
  let old := blk w (inode_block (bs := bs) fs n) in
  take off old ++ inode ++ drop (off + length inode) old.

Lemma does_reads_bind {X Y} (p : FS -> eprog Ext4Error (World D) X) (k : X -> fio Y) w fs ws x y :
  reads (p fs) w (fun r => r = Ok x) -> (forall w', quiet w w' -> does (k x) w' fs ws y) ->
  does (with_fs p ≫= k) w fs ws y.
Proof.
  intros (w1 & r & E & Hq & Hr) Hk.
  assert (with_fs p (w, fs) = Some ((w1, fs), r)) as E'.
  { unfold with_fs, zoom. cbn. by rewrite E. }
  destruct Hr as [->|(e & -> & He & Hg)].
  - destruct (Hk w1 Hq) as (w2 & r2 & E2 & Hi2 & Ho2 & Hg2 & Hr2).
    exists w2, r2. rewrite (bind_ok _ _ _ _ _ E'). split_and!; [done|done| | |].
    + intros c Hc. by rewrite Ho2, (quiet_blk w w1).
    + intros G. apply Hg2. by apply Hq.
    + destruct Hr2 as [[-> Hb]|H]; [left|by right]. split; [done|]. intros c. rewrite Hb.
      apply disk_writes_ext. intros b. by apply quiet_blk.
  - exists w1, (Err e). rewrite (bind_err _ _ _ _ _ E'). split_and!; [done|apply Hq| |done|right; by exists e].
    intros c _. by apply quiet_blk.
Qed.

Lemma disk_inode_fits fs n : 0 < bs -> inode_offset (bs := bs) fs n + inode_len <= bs ->
  forall w, Z.of_nat (length (disk_inode (Dev := Dev) fs w n)) = inode_len.
Proof.
  intros Hbs Hfit w. unfold disk_inode. rewrite length_take, length_drop.
  pose proof (blk_length w (inode_block (bs := bs) fs n)). pose proof (inode_offset_range (bs := bs) fs n Hbs).
  unfold inode_len in *. lia.
Qed.

Lemma does_gets {Y} (k : FS -> fio Y) w fs ws y :
  does (k fs) w fs ws y -> does (gets snd ≫= k) w fs ws y.
Proof. done. Qed.

Lemma with_inode_length fs w n inode : 0 < bs -> Z.of_nat (length inode) = inode_len ->
  inode_offset (bs := bs) fs n + inode_len <= bs -> Z.of_nat (length (with_inode fs w n inode)) = bs.
Proof.
  intros Hbs Hl Hfit. unfold with_inode. rewrite !length_app, length_take, length_drop.
  pose proof (blk_length w (inode_block (bs := bs) fs n)). pose proof (inode_offset_range (bs := bs) fs n Hbs).
  unfold inode_len in *. lia.
Qed.

(** Everything of [write_inode] up to the write. *)
Lemma write_inode_run fs w n inode : tables fs -> readonly fs = false -> dev_inv w ->
  0 < n -> inode_group fs n < group_count fs -> inode_offset (bs := bs) fs n + inode_len <= bs ->
  Z.of_nat (length inode) = inode_len ->
  exists w' r, quiet w w' /\
    (write_inode n inode (w, fs)
       = write_block_journaled (inode_block (bs := bs) fs n) (with_inode fs w n inode) (w', fs)
     \/ write_inode n inode (w, fs) = Some ((w', fs), Err r) /\ env_error r /\ ~ good w).
Proof.
  intros Ht Hro Hi Hn Hg Hfit Hlen. pose proof (tb_fs _ Ht) as Hf.
  destruct (on_min_size _ Hf) as [Hm _]. unfold EXT4_MIN_BLOCK_SIZE in Hm.
  pose proof (inode_offset_range (bs := bs) fs n ltac:(lia)) as Hoff.
  assert (reads (loc ← inode_location fs n; buffer ← alloc_buffer (block_size fs);
     buffer ← read_into fs (fst loc) buffer; must (splice buffer (snd loc) inode)) w
     (fun r => r = Ok (with_inode fs w n inode))) as (w' & r & E & Hq & Hr).
  { eapply reads_bind.
    { apply (location_spec fs n w (fun r => r = Ok (inode_block (bs := bs) fs n, inode_offset (bs := bs) fs n)));
        [done..|lia]. }
    2: done.
    intros ? w1 [= ->] Hq1. rewrite (on_block_size _ Hf).
    apply bind_alloc; [by eapply quiet_inv|lia|]. intros w2 Hq2.
    apply bind_block; [done|by eapply quiet_inv|apply length_zeros; lia|]. intros w3 Hq3. cbn [fst snd].
    rewrite (quiet_blk w1 w2), (quiet_blk w w1) by done.
    pose proof (blk_length w (inode_block (bs := bs) fs n)).
    eapply reads_must; [by eapply quiet_inv|by apply splice_some; lia|done]. }
  exists w', (match r with Ok _ => Io | Err e => e end). split; [done|].
  assert (write_inode n inode (w, fs)
    = match r with
      | Ok b => write_block_journaled (inode_block (bs := bs) fs n) b (w', fs)
      | Err e => Some ((w', fs), Err e)
      end) as ->.
  { unfold write_inode. rewrite (bind_ok _ _ _ (w, fs) fs) by done.
    destruct (Z.eqb_spec n 0); [lia|]. rewrite Hro. cbn [orb].
    revert E. unfold with_fs, zoom, mbind, prog_bind. cbn [fst snd].
    destruct (reads_bind (inode_location fs n) mret w (fun r => r = Ok (inode_block (bs := bs) fs n, inode_offset (bs := bs) fs n))
      (fun r => r = Ok (inode_block (bs := bs) fs n, inode_offset (bs := bs) fs n))) as (wl & rl & El & _ & Hl).
    { apply location_spec; [done..|lia]. }
    { intros ? ? [= ->] Hq1. apply reads_ret; [by eapply quiet_inv|done]. }
    { done. }
    unfold mbind, prog_bind in El.
    destruct (inode_location fs n w) as [[w1 [[b off]|e]]|]; [|by intros [= <- <-]|done].
    cbn [fst snd]. assert (b = inode_block (bs := bs) fs n) as ->.
    { injection El as _ <-. destruct Hl as [[= -> ->]|(? & [=] & _)]. done. }
    destruct (alloc_buffer (block_size fs) w1) as [[w2 [buf|e]]|]; [|by intros [= <- <-]|done].
    cbn [fst snd]. destruct (read_into fs _ buf w2) as [[w3 [buf'|e]]|]; [|by intros [= <- <-]|done].
    cbn [fst snd]. destruct (must (splice buf' off inode) w3) as [[w4 [x|e]]|]; [|by intros [= <- <-]|done].
    by intros [= <- <-]. }
  destruct Hr as [->|(e & -> & He & Hng)]; [by left|by right].
Qed.

(** Without a journal the inode reaches the disk, and no other byte changes. *)
Lemma write_inode_direct fs w n inode : tables fs -> readonly fs = false -> dev_inv w ->
  journal fs = None ->
  0 < n -> inode_group fs n < group_count fs -> inode_offset (bs := bs) fs n + inode_len <= bs ->
  Z.of_nat (length inode) = inode_len -> is_bytes inode ->
  does (write_inode n inode) w fs [(inode_block (bs := bs) fs n, with_inode fs w n inode)] tt.
Proof.
  intros Ht Hro Hi Hj Hn Hg Hfit Hlen Hb. pose proof (tb_fs _ Ht) as Hf.
  destruct (on_min_size _ Hf) as [Hm _]. unfold EXT4_MIN_BLOCK_SIZE in Hm.
  destruct (write_inode_run fs w n inode Ht Hro Hi Hn Hg Hfit Hlen) as (w1 & e & Hq & [E|(E & He & Hng)]).
  - destruct (does_write fs w1 (inode_block (bs := bs) fs n) (with_inode fs w n inode) Hf Hro
      (quiet_inv _ _ Hq)) as (w2 & r2 & E2 & Hi2 & Ho2 & Hg2 & Hr2).
    { apply with_inode_length; [lia|done|done]. }
    { unfold with_inode. pose proof (blk_bytes w (inode_block (bs := bs) fs n)). auto 10 with bytes. }
    exists w2, r2. split.
    { rewrite E. unfold write_block_journaled. rewrite (bind_ok _ _ _ (w1, fs) fs) by done. by rewrite Hj. }
    split_and!; [done| | |].
    + intros c Hc. by rewrite Ho2, (quiet_blk w w1).
    + intros G. apply Hg2. by apply Hq.
    + destruct Hr2 as [[-> Hb2]|H]; [left|by right]. split; [done|]. intros c. rewrite Hb2.
      apply disk_writes_ext. intros x. by apply quiet_blk.
  - exists w1, (Err e). split_and!; [done|apply Hq| |done|right; by exists e].
    intros c _. by apply quiet_blk.
Qed.

(** With a running journal a block of zeros joins the transaction instead. *)
Lemma write_inode_journaled fs w n inode j : tables fs -> readonly fs = false -> dev_inv w ->
  journal fs = Some j -> running j = true ->
  0 < n -> inode_group fs n < group_count fs -> inode_offset (bs := bs) fs n + inode_len <= bs ->
  Z.of_nat (length inode) = inode_len ->
  exists w' fs' r, write_inode n inode (w, fs) = Some ((w', fs'), r) /\ quiet w w'
    /\ (r = Ok tt
         /\ fs' = set_journal (Some (journal_add_block (inode_block (bs := bs) fs n) (zeros (Z.to_nat bs)) j)) fs
        \/ fs' = fs /\ (exists e, r = Err e /\ env_error e) /\ ~ good w).
Proof.
  intros Ht Hro Hi Hj Hrun Hn Hg Hfit Hlen. pose proof (tb_fs _ Ht) as Hf.
  destruct (on_min_size _ Hf) as [Hm _]. unfold EXT4_MIN_BLOCK_SIZE in Hm.
  destruct (write_inode_run fs w n inode Ht Hro Hi Hn Hg Hfit Hlen) as (w1 & e & Hq & [E|(E & He & Hng)]).
  2:{ exists w1, fs, (Err e). split_and!; [done|apply Hq..|]. right. split_and!; [done|by exists e|done]. }
  rewrite E. unfold write_block_journaled. rewrite (bind_ok _ _ _ (w1, fs) fs) by done. rewrite Hj, Hrun.
  rewrite (with_inode_length fs w n inode ltac:(lia) Hlen Hfit).
  destruct (reads_alloc bs w1 (fun r => r = Ok (zeros (Z.to_nat bs))) (quiet_inv _ _ Hq) ltac:(lia) eq_refl)
    as (w2 & r & E2 & Hq2 & Hr).
  assert (with_fs (fun _ : FS => alloc_buffer bs) (w1, fs) = Some ((w2, fs), r)) as E3.
  { unfold with_fs, zoom. cbn. by rewrite E2. }
  assert (quiet w w2) as Hq' by by eapply quiet_trans.
  destruct Hr as [->|(e' & -> & He & Hng)].
  - rewrite (bind_ok _ _ _ _ _ E3). eexists _, _, (Ok tt). split_and!; [done|apply Hq'..|]. by left.
  - rewrite (bind_err _ _ _ _ _ E3). exists w2, fs, (Err e'). split_and!; [done|apply Hq'..|].
    right. split_and!; [done|by exists e'|]. intros ?. apply Hng. by apply Hq.
Qed.
End Facts.
