(* ===== verification/Ext4JournalProps.v ===== *)
(** Theorems on the writing side of the ext4 driver, with closed instances on the
    file system of [Ext4Sample]. *)

From S2P Require Import Prelude Packed Ext4Layout Ext4 Ext4Spec Ext4Extents Ext4Files Ext4Dirs Ext4Journal Ext4JournalFacts Ext4Sample Ext4Props.

Section JournalProps.
Context {D : Type} `{Env : Ext4Env D} {o : Ext4BlockOps D} {dev bs : Z}.
Context `{Dev : !BlockReader D o dev bs}.
Context `{Wr : !BlockWriter D o dev bs}.

Abbreviation FS := (Ext4Filesystem D).
Abbreviation on_dev := (fs_on (o := o) (dev := dev) (bs := bs)).
Abbreviation tables := (tables_ok (o := o) (dev := dev) (bs := bs)).
Abbreviation file_at := (file_ok (o := o) (dev := dev) (bs := bs)).

(** Inode [m] does not share a byte with inode [n]. *)
Definition apart (fs : FS) (n m : Z) : Prop :=
  inode_block (bs := bs) fs m <> inode_block (bs := bs) fs n
  \/ inode_offset (bs := bs) fs m + inode_len <= inode_offset (bs := bs) fs n
  \/ inode_offset (bs := bs) fs n + inode_len <= inode_offset (bs := bs) fs m.

Lemma with_inode_at fs w n inode m : 0 < bs ->
  inode_offset (bs := bs) fs n + inode_len <= bs -> Z.of_nat (length inode) = inode_len ->
  let blk' b := if decide (b = inode_block (bs := bs) fs n) then with_inode fs w n inode else blk w b in
  take (Z.to_nat inode_len) (drop (Z.to_nat (inode_offset (bs := bs) fs n)) (blk' (inode_block (bs := bs) fs n)))
    = inode
  /\ (apart fs n m -> inode_offset (bs := bs) fs m + inode_len <= bs ->
      take (Z.to_nat inode_len) (drop (Z.to_nat (inode_offset (bs := bs) fs m)) (blk' (inode_block (bs := bs) fs m)))
      = disk_inode fs w m).
Proof.
  intros Hbs Hfit Hl blk'. subst blk'. cbv beta.
  pose proof (inode_offset_range (bs := bs) fs n Hbs). pose proof (inode_offset_range (bs := bs) fs m Hbs).
  pose proof (blk_length w (inode_block (bs := bs) fs n)) as Hlen. unfold inode_len in *. split.
  - rewrite decide_True by done. unfold with_inode.
    rewrite drop_app_length' by (rewrite length_take; lia). apply take_app_length'. lia.
  - intros Ha Hm. unfold disk_inode, inode_len. case_decide as E; [|done]. rewrite E.
    destruct Ha as [?|Ha]; [done|]. unfold inode_len in Ha. unfold with_inode.
    apply list_eq. intros i. destruct (decide (i < Z.to_nat 160)%nat).
    2:{ rewrite !lookup_ge_None_2; [done| |]; rewrite length_take; lia. }
    rewrite !lookup_take_lt, !lookup_drop by done. destruct Ha.
    + rewrite lookup_app_l by (rewrite length_take; lia). apply lookup_take_lt. lia.
    + rewrite lookup_app_r by (rewrite length_take; lia).
      rewrite lookup_app_r by (rewrite length_take; lia). rewrite lookup_drop, length_take. f_equal. lia.
Qed.

(** C14. Without a journal, on a device that does not fail, an inode that has been
    written is read back, and no inode apart from it and no other block changes. *)
Theorem inode_write_read (fs : FS) w n inode :
  tables fs -> readonly fs = false -> dev_inv w -> good w -> journal fs = None ->
  0 < n -> inode_group fs n < group_count fs -> inode_offset (bs := bs) fs n + inode_len <= bs ->
  Z.of_nat (length inode) = inode_len -> is_bytes inode ->
  exists w', write_inode n inode (w, fs) = Some ((w', fs), Ok tt)
    /\ (exists w'', read_inode fs n w' = Some (w'', Ok inode))
    /\ (forall m, apart fs n m -> inode_offset (bs := bs) fs m + inode_len <= bs ->
          disk_inode fs w' m = disk_inode fs w m)
    /\ (forall b, b <> inode_block (bs := bs) fs n -> blk w' b = blk w b).
Proof.
  intros Ht Hro Hi Hg Hj Hn Hgr Hfit Hl Hb. pose proof (tb_fs _ Ht) as Hf.
  destruct (on_min_size _ Hf) as [Hm _]. unfold EXT4_MIN_BLOCK_SIZE in Hm.
  destruct (write_inode_direct fs w n inode Ht Hro Hi Hj Hn Hgr Hfit Hl Hb)
    as (w' & r & E & Hi' & _ & Hgood & Hr).
  destruct (Hgood Hg) as [Hg' ->]. destruct Hr as [[_ Hblk]|(? & [=] & _)].
  exists w'. split; [done|].
  assert (forall b, blk w' b = if decide (b = inode_block (bs := bs) fs n) then with_inode fs w n inode else blk w b) as Hb'.
  { intros b. by rewrite Hblk. }
  split_and!.
  - destruct (read_inode_spec fs n w' Ht Hi' Hn Hfit) as (w'' & r & Er & _ & Hr).
    exists w''. rewrite Er. f_equal. f_equal. destruct Hr as [->|(? & _ & _ & ?)]; [|done].
    destruct (Z.leb_spec (group_count fs) (inode_group fs n)); [lia|]. f_equal. unfold disk_inode.
    rewrite Hb'. apply (with_inode_at fs w n inode n); [lia|done|done].
  - intros m Ha Hmf. unfold disk_inode at 1. rewrite Hb'.
    by apply (with_inode_at fs w n inode m); [lia|..].
  - intros b Hne. rewrite Hb'. by rewrite decide_False.
Qed.

(** With a running journal the content of a written inode is lost: the journal
    receives a block of zeros, and the commit that succeeds writes those zeros
    over the whole block of the inode table. *)
Theorem journaled_inode_lost (fs : FS) w n inode j :
  tables fs -> readonly fs = false -> dev_inv w -> good w ->
  journal fs = Some j -> running j = true -> current_transaction j = None ->
  0 < n -> inode_group fs n < group_count fs -> inode_offset (bs := bs) fs n + inode_len <= bs ->
  Z.of_nat (length inode) = inode_len ->
  exists w1 fs1 w2 fs2, write_inode n inode (w, fs) = Some ((w1, fs1), Ok tt)
    /\ (forall b, blk w1 b = blk w b)
    /\ journal_commit (w1, fs1) = Some ((w2, fs2), Ok tt)
    /\ blk w2 (inode_block (bs := bs) fs n) = zeros (Z.to_nat bs).
Proof.
  intros Ht Hro Hi Hg Hj Hrun Hnone Hn Hgr Hfit Hl. pose proof (tb_fs _ Ht) as Hf.
  destruct (on_min_size _ Hf) as [Hm _]. unfold EXT4_MIN_BLOCK_SIZE in Hm.
  destruct (write_inode_journaled fs w n inode j Ht Hro Hi Hj Hrun Hn Hgr Hfit Hl)
    as (w1 & fs1 & r & E1 & Hq & [[-> ->]|(_ & _ & ?)]); [|done].
  set (j1 := journal_add_block _ _ _) in *. set (b := inode_block (bs := bs) fs n) in *.
  assert (current_transaction j1 = Some (mkTransaction (current_sequence j) [b] [zeros (Z.to_nat bs)])) as Htr.
  { subst j1. unfold journal_add_block. rewrite Hnone. unfold start_transaction. by rewrite Hnone. }
  destruct (commit_spec (set_journal (Some j1) fs) w1 j1 (mkTransaction (current_sequence j) [b] [zeros (Z.to_nat bs)]))
    as (w2 & fs2 & r2 & E2 & _ & _ & Hgood & Hr); try done.
  { by destruct Hf. }
  { by eapply quiet_inv. }
  { split; [done|]. constructor; [|constructor]. split; [apply length_zeros; lia|apply is_bytes_zeros]. }
  destruct Hgood as [_ ->]; [by apply Hq|].
  destruct Hr as [(_ & _ & Hb)|[(? & [=] & _) _]].
  exists w1, (set_journal (Some j1) fs), w2, fs2. split_and!; [done| |done|].
  - intros c. by apply quiet_blk.
  - rewrite Hb. unfold commit_writes. cbn [tblocks tdata length zip zip_with]. rewrite !app_assoc.
    apply (disk_writes_last _ _ b (zeros (Z.to_nat bs)) []). apply not_elem_of_nil.
Qed.

(** C29. A commit writes, in this order, a descriptor block at the head of the
    journal, the data blocks at the following positions, a commit block after
    them, and then every data block in its place, and moves the head past the
    commit block.  When the device fails the answer is an error, blocks outside
    this list are untouched, and the transaction is gone all the same. *)
Theorem journal_commit_correct (fs : FS) w j t :
  on_dev fs -> readonly fs = false -> dev_inv w ->
  journal fs = Some j -> current_transaction j = Some t -> transaction_ok (bs := bs) t ->
  exists w' fs' r, journal_commit (w, fs) = Some ((w', fs'), r) /\ dev_inv w'
    /\ (forall c, c ∉ map fst (commit_writes (bs := bs) j t) -> blk w' c = blk w c)
    /\ (good w -> good w' /\ r = Ok tt)
    /\ (r = Ok tt /\ fs' = after_commit j t fs
        /\ (forall c, blk w' c = disk_writes (blk w) (commit_writes (bs := bs) j t) c)
        \/ (exists e, r = Err e /\ env_error e) /\ fs' = after_take j fs).
Proof. apply commit_spec. Qed.

(** Positions in the journal stay between 1 and its length, unless the first one
    is beyond it. *)
Lemma journal_slots_range len n jb : 1 <= jb -> jb < U64 - 1 -> 1 <= len < U64 ->
  Forall (fun s => 1 <= s <= Z.max jb (len - 1)) (journal_slots len n jb)
  /\ 1 <= journal_after len n jb <= Z.max jb (len - 1).
Proof.
  revert jb. induction n as [|n IH]; intros jb H1 H2 H3; cbn; [split; [constructor|lia]|].
  rewrite add64_small by (unfold U64 in *; lia).
  destruct (Z.leb_spec len (jb + 1)).
  - destruct (IH 1) as [Hs Ha]; [unfold U64 in *; lia..|]. split; [|lia].
    constructor; [lia|]. eapply Forall_impl; [exact Hs|]. cbv beta. intros. lia.
  - destruct (IH (jb + 1)) as [Hs Ha]; [unfold U64 in *; lia..|]. split; [|lia].
    constructor; [lia|]. eapply Forall_impl; [exact Hs|]. cbv beta. intros. lia.
Qed.

(** A journal that is empty starts at position 0 ([s_start] is 0 then), and
    position 0 is the block of the journal superblock: the first commit that
    succeeds replaces the superblock by its descriptor block, whose length field
    is 0. *)
Theorem first_commit_overwrites_superblock (fs : FS) w j t :
  on_dev fs -> readonly fs = false -> dev_inv w -> good w ->
  journal fs = Some j -> current_transaction j = Some t -> transaction_ok (bs := bs) t ->
  jhead j = 0 -> is_u64 (journal_start j) -> 1 <= journal_length j < U32 ->
  journal_start j ∉ tblocks t ->
  exists w' fs', journal_commit (w, fs) = Some ((w', fs'), Ok tt)
    /\ blk w' (journal_start j) = header_content (bs := bs) JBD2_DESCRIPTOR_BLOCK (tid t)
    /\ field Jbd2Superblock "s_maxlen" (blk w' (journal_start j)) = 0.
Proof.
  intros Hf Hro Hi Hg Hj Ht Hok Hh Hs Hl Hnot.
  destruct (commit_spec fs w j t Hf Hro Hi Hj Ht Hok) as (w' & fs' & r & E & _ & _ & Hgood & Hr).
  destruct (Hgood Hg) as [_ ->]. destruct Hr as [(_ & _ & Hb)|[(? & [=] & _) _]].
  exists w', fs'. split; [done|].
  destruct (on_min_size _ Hf) as [Hm _]. unfold EXT4_MIN_BLOCK_SIZE in Hm.
  assert (blk w' (journal_start j) = header_content (bs := bs) JBD2_DESCRIPTOR_BLOCK (tid t)) as Eb.
  { rewrite Hb. unfold commit_writes. rewrite Hh.
    replace (journal_start j +w 0) with (journal_start j)
      by (rewrite add64_small; unfold is_u64, U64 in *; lia).
    change ([(journal_start j, header_content (bs := bs) JBD2_DESCRIPTOR_BLOCK (tid t))] ++ ?l)
      with ([] ++ (journal_start j, header_content (bs := bs) JBD2_DESCRIPTOR_BLOCK (tid t)) :: l).
    apply disk_writes_last.
    change (0 +w 1) with 1.
    destruct (journal_slots_range (journal_length j) (length (tdata t)) 1) as [Hsl Ha];
      [unfold U64, U32 in *; lia..|].
    assert (forall s, 1 <= s <= Z.max 1 (journal_length j - 1) -> journal_start j +w s <> journal_start j) as Hne.
    { intros s Hsr. unfold add64, wrap64, is_u64, U64, U32 in *.
      intros Ec. pose proof (Z.div_mod (journal_start j + s) 18446744073709551616 ltac:(lia)). nia. }
    rewrite !map_app, !not_elem_of_app. split_and!.
    - intros Hin. apply list_elem_of_fmap in Hin as ([a d] & Ea & Hin). cbn in Ea. subst a.
      apply elem_of_zip_l in Hin. apply list_elem_of_fmap in Hin as (s & Es & Hin).
      rewrite Forall_forall in Hsl. by apply (Hne s); [apply Hsl|].
    - cbn. rewrite list_elem_of_singleton. intros Ec. by apply (Hne _ Ha).
    - intros Hin. apply list_elem_of_fmap in Hin as ([a d] & Ea & Hin). cbn in Ea. subst a.
      by apply elem_of_zip_l in Hin. }
  split; [done|]. rewrite Eb. unfold header_content, field, field_bytes.
  change (field_at Jbd2Superblock "s_maxlen") with (16, 4)%nat. cbv beta iota.
  rewrite drop_app_ge by (rewrite header_bytes_length; lia). rewrite header_bytes_length, drop_drop.
  unfold zeros. rewrite drop_replicate, take_replicate.
  replace (_ `min` _)%nat with 4%nat by lia. done.
Qed.

(** The journal area does not record where its blocks belong: two transactions
    with the same data for different blocks make the same writes to the journal,
    so replaying it could not tell them apart. *)
Lemma journal_forgets_targets j tid0 b1 b2 data :
  exists common,
    commit_writes (bs := bs) j (mkTransaction tid0 b1 data) = common ++ zip b1 data
    /\ commit_writes (bs := bs) j (mkTransaction tid0 b2 data) = common ++ zip b2 data.
Proof. eexists. unfold commit_writes. cbn [tblocks tdata tid]. by rewrite !app_assoc. Qed.

(** Mounting accepts a journal exactly when the first word of its superblock,
    read in the byte order of the machine, is the JBD2 magic; its state then
    starts at the positions of the superblock.  A file system that needs recovery
    is not recovered: its flag is cleared in memory. *)
Theorem init_journal_correct (fs : FS) w m p :
  let n := field Ext4Superblock "s_journal_inum" (superblock fs) in
  let sb := take 1024 (blk w p) in
  tables fs -> dev_inv w -> is_bytes (superblock fs) ->
  Z.land (field Ext4Superblock "s_feature_compat" (superblock fs)) EXT4_FEATURE_COMPAT_HAS_JOURNAL <> 0 ->
  n <> 0 -> inode_group fs n < group_count fs -> inode_offset (bs := bs) fs n + inode_len <= bs ->
  block_map (bs := bs) (blk w) (disk_inode fs w n) 1 m -> m 0 = Ok p -> p <> 0 ->
  reads (init_journal fs) w (fun r =>
    r = if le (take 4 (blk w p)) =? JBD2_MAGIC_NUMBER
        then Ok (let fs := set_journal (Some (Journal_new sb p)) fs in
                 if Z.land (field Ext4Superblock "s_feature_incompat" (superblock fs))
                           EXT4_FEATURE_INCOMPAT_RECOVER =? 0
                 then fs else journal_recover fs)
        else Err JournalError).
Proof.
  intros n sb Ht Hi Hbs Hhas Hn Hgr Hfit Hmap Hm Hp. pose proof (tb_fs _ Ht) as Hf.
  destruct (on_min_size _ Hf) as [Hmin _]. unfold EXT4_MIN_BLOCK_SIZE in Hmin.
  assert (0 < n) as Hpos by (pose proof (field_range Ext4Superblock "s_journal_inum" _ Hbs); subst n; lia).
  unfold init_journal. rewrite (proj2 (Z.eqb_neq _ _) Hhas).
  eapply reads_bind; [by apply read_inode_spec| |].
  2:{ fold n. intros e. rewrite (proj2 (Z.leb_gt _ _) Hgr). intros He. discriminate He. }
  fold n. rewrite (proj2 (Z.leb_gt _ _) Hgr). intros ? w1 [= ->] Hq1.
  eapply reads_bind.
  { apply (get_block_spec fs _ 1 m 0 w1 Hf (quiet_inv _ _ Hq1)); [|lia].
    apply (block_map_ext (blk w)); [|exact Hmap]. intros. by apply quiet_blk. }
  2:{ intros e. rewrite Hm. intros He. discriminate He. }
  intros p' w2 Hp' Hq2. rewrite Hm in Hp'. injection Hp' as ->.
  rewrite (proj2 (Z.eqb_neq _ _) Hp), (on_block_size _ Hf).
  apply bind_alloc; [by eapply quiet_inv|lia|]. intros w3 Hq3.
  apply bind_block; [exact Hf|by eapply quiet_inv|apply length_zeros; lia|]. intros w4 Hq4.
  rewrite (quiet_blk w2 w3), (quiet_blk w1 w2), (quiet_blk w w1) by done.
  apply (bind_must _ sb); [by rewrite blk_slice by (cbn; lia)|].
  replace (field Jbd2Header "h_magic" (field_bytes Jbd2Superblock "s_header" sb)) with (le (take 4 (blk w p))).
  2:{ unfold field, field_bytes. cbn [field_at Jbd2Header Jbd2Superblock String.eqb Ascii.eqb Bool.eqb].
      rewrite !drop_0, take_take. subst sb. rewrite take_take. done. }
  destruct (Z.eqb_spec (le (take 4 (blk w p))) JBD2_MAGIC_NUMBER); cbn [negb].
  2:{ apply reads_throw; [by eapply quiet_inv|reflexivity]. }
  apply reads_ret; [by eapply quiet_inv|reflexivity].
Qed.
End JournalProps.

(** * Closed instances *)

Lemma sample_tables : tables_ok (o := ram_ops) (dev := 0) (bs := RAM_BS) sample_fs.
Proof. split; [apply sample_on|reflexivity|reflexivity]. Qed.

Lemma inode_write_read_witness :
  exists w', write_inode 6 file_inode (sample_world, sample_fs) = Some ((w', sample_fs), Ok tt)
    /\ (exists w'', read_inode sample_fs 6 w' = Some (w'', Ok file_inode))
    /\ disk_inode (bs := RAM_BS) sample_fs w' 5 = file_inode.
Proof.
  destruct (inode_write_read (bs := RAM_BS) sample_fs sample_world 6 file_inode
    sample_tables eq_refl sample_world_inv I eq_refl ltac:(lia) ltac:(by vm_compute) ltac:(by vm_compute)
    ltac:(by vm_compute) ltac:(apply sample_bytes; by left)) as (w' & E & Hr & Ho & _).
  exists w'. split; [exact E|]. split; [exact Hr|].
  rewrite Ho; [by vm_compute|right; left; by vm_compute|by vm_compute].
Defined.

Definition sample_journal : Journal := mkJournal (zeros 1024) 70 8 1 0 0 true None.
Definition journal_fs : Ext4Filesystem ramdisk := set_journal (Some sample_journal) sample_fs.

Lemma journal_on : fs_on (o := ram_ops) (dev := 0) (bs := RAM_BS) journal_fs.
Proof. by split. Qed.

Lemma journaled_inode_lost_witness :
  exists w1 fs1 w2 fs2, write_inode 6 file_inode (sample_world, journal_fs) = Some ((w1, fs1), Ok tt)
    /\ journal_commit (w1, fs1) = Some ((w2, fs2), Ok tt)
    /\ blk (bs := RAM_BS) w2 6 = zeros 1024.
Proof.
  destruct (journaled_inode_lost (bs := RAM_BS) journal_fs sample_world 6 file_inode sample_journal
    ltac:(split; [apply journal_on|reflexivity|reflexivity]) eq_refl sample_world_inv I eq_refl eq_refl eq_refl
    ltac:(lia) ltac:(by vm_compute) ltac:(by vm_compute) ltac:(by vm_compute))
    as (w1 & fs1 & w2 & fs2 & E1 & _ & E2 & Hz).
  exists w1, fs1, w2, fs2. split; [exact E1|]. split; [exact E2|]. exact Hz.
Defined.

Definition sample_transaction : Transaction := mkTransaction 1 [6] [pad 1024 [42]].
Definition open_journal : Journal := set_transaction (Some sample_transaction) sample_journal.
Definition open_fs : Ext4Filesystem ramdisk := set_journal (Some open_journal) sample_fs.

Lemma sample_transaction_ok : transaction_ok (bs := RAM_BS) sample_transaction.
Proof.
  split; [reflexivity|]. constructor; [|constructor]. split; [by vm_compute|].
  apply (bool_decide_unpack (Forall is_u8 _)). by vm_compute.
Qed.

Lemma journal_commit_correct_witness :
  exists w' fs', journal_commit (sample_world, open_fs) = Some ((w', fs'), Ok tt)
    /\ blk (bs := RAM_BS) w' 6 = pad 1024 [42] /\ blk (bs := RAM_BS) w' 71 = pad 1024 [42].
Proof.
  destruct (journal_commit_correct (bs := RAM_BS) open_fs sample_world open_journal sample_transaction
    ltac:(by split) eq_refl sample_world_inv eq_refl eq_refl sample_transaction_ok)
    as (w' & fs' & r & E & _ & _ & Hg & Hr).
  destruct (Hg I) as [_ ->]. destruct Hr as [(_ & _ & Hb)|[(? & [=] & _) _]].
  exists w', fs'. split; [exact E|]. rewrite !Hb. split; by vm_compute.
Defined.

Lemma first_commit_overwrites_superblock_witness :
  exists w' fs', journal_commit (sample_world, open_fs) = Some ((w', fs'), Ok tt)
    /\ field Jbd2Superblock "s_maxlen" (blk (bs := RAM_BS) w' 70) = 0.
Proof.
  destruct (first_commit_overwrites_superblock (bs := RAM_BS) open_fs sample_world open_journal sample_transaction
    ltac:(by split) eq_refl sample_world_inv I eq_refl eq_refl sample_transaction_ok eq_refl
    ltac:(by vm_compute) ltac:(by vm_compute) ltac:(apply not_elem_of_cons; split; [cbn; lia|apply not_elem_of_nil]))
    as (w' & fs' & E & _ & Hl).
  exists w', fs'. split; [exact E|exact Hl].
Defined.

(** A disk with a journal in inode 3, in the byte order of the JBD2 format. *)
Definition jbd2_superblock : bytes := pad 1024 [192; 59; 57; 152; 0; 0; 0; 4].
Definition jbd2_world : World ramdisk :=
  ram_world (<[70 := jbd2_superblock]>
    (<[5 := pad 1024 (zeros 512 ++ mk_inode 32768 8192 0 (u32s [70]))]> sample_disk)).
Definition jbd2_fs : Ext4Filesystem ramdisk :=
  set_superblock (set_field Ext4Superblock "s_journal_inum" 3
    (set_field Ext4Superblock "s_feature_compat" 4 (zeros 1024))) sample_fs.

Lemma init_journal_correct_witness :
  exists w', init_journal jbd2_fs jbd2_world = Some (w', Err JournalError).
Proof.
  destruct (init_journal_correct (bs := RAM_BS) jbd2_fs jbd2_world (fun _ => Ok 70) 70)
    as (w' & r & E & _ & Hr).
  - split; [by split|reflexivity|reflexivity].
  - unfold dev_inv. cbn [ram_device]. unfold ram_inv. by split_and!.
  - apply (bool_decide_unpack (Forall is_u8 _)). by vm_compute.
  - by vm_compute.
  - by vm_compute.
  - by vm_compute.
  - by vm_compute.
  - unfold block_map. match goal with |- context [uses_extents ?i] => replace (uses_extents i) with false by by vm_compute end.
    intros lb Hlb. assert (lb = 0) as -> by lia. eexists _, _. split; [by vm_compute|]. by vm_compute.
  - reflexivity.
  - lia.
  - exists w'. rewrite E. destruct Hr as [->|(? & _ & _ & [])]; [by vm_compute|exact I].
Defined.
