(* ===== verification/Ports.v ===== *)
(** Port input and output: the [in], [out], [rep insw] and [rep outsw]
    instructions that the drivers wrap.

    The devices behind the ports are outside the kernel: the type of their state
    and what an access does to it are parameters, a class of operations.  Memory
    mapped registers and model-specific registers are classes of their own. *)

From S2P Require Import Prelude.

Class PortIO (S : Type) := {
  (** [inb], [outb] *)
  port_in8 : Z -> S -> S * Z;
  port_out8 : Z -> Z -> S -> S;
  (** [in eax, dx], [out dx, eax] *)
  port_in32 : Z -> S -> S * Z;
  port_out32 : Z -> Z -> S -> S;
  (** [rep insw] and [rep outsw]: the words in the order of the transfer *)
  port_insw : Z -> nat -> S -> S * list Z;
  port_outsw : Z -> list Z -> S -> S;
}.

(** [read_volatile] and [write_volatile] of a register of that many bytes at a
    physical address. *)
Class MmioIO (S : Type) := {
  mmio_read : Z -> Z -> S -> S * Z;
  mmio_write : Z -> Z -> Z -> S -> S;
}.

(** [rdmsr] and [wrmsr]. *)
Class MsrIO (S : Type) := {
  msr_read : Z -> S -> S * Z;
  msr_write : Z -> Z -> S -> S;
}.

(** * Programs on hardware

    An operation that cannot fail: the state of the machine and a value. *)

Definition hw (S X : Type) : Type := S -> S * X.

#[export] Instance hw_ret S : MRet (hw S) := fun X x s => (s, x).
#[export] Instance hw_bind S : MBind (hw S) := fun X Y k p s => let '(s, x) := p s in k x s.
(** A write. *)
Definition put {S} (f : S -> S) : hw S unit := fun s => (f s, tt).

Lemma hw_bind_run {S X Y} (p : hw S X) (k : X -> hw S Y) s s' x :
  p s = (s', x) -> (p ≫= k) s = k x s'.
Proof. intros E. unfold mbind, hw_bind. by rewrite E. Qed.

(** A sequence of byte writes. *)
Definition outs8 {S} `{PortIO S} (ws : list (Z * Z)) (s : S) : S :=
  fold_left (fun s '(p, v) => port_out8 p v s) ws s.
