(* ===== verification/Ata.v ===== *)
(** The ATA disk driver: [drivers/ata.rs].

    Polled transfers of 512-byte sectors with 28-bit and 48-bit addresses, the
    cache flush, and the block callbacks the ext4 driver is mounted with.  The
    ports are those of [Ports]; a destination buffer is threaded through the
    transfer, since sectors read before an error stay in it. *)

From S2P Require Import Prelude Packed Ports.

Definition ATA_PRIMARY_DATA : Z := 496.
Definition ATA_PRIMARY_SECCOUNT : Z := 498.
Definition ATA_PRIMARY_LBA_LO : Z := 499.
Definition ATA_PRIMARY_LBA_MID : Z := 500.
Definition ATA_PRIMARY_LBA_HI : Z := 501.
Definition ATA_PRIMARY_DRIVE : Z := 502.
Definition ATA_PRIMARY_STATUS : Z := 503.
Definition ATA_PRIMARY_CMD : Z := 503.

Definition ATA_STATUS_ERR : Z := 1.
Definition ATA_STATUS_DRQ : Z := 8.
Definition ATA_STATUS_RDY : Z := 64.
Definition ATA_STATUS_BSY : Z := 128.

Definition ATA_CMD_READ_SECTORS : Z := 32.
Definition ATA_CMD_READ_SECTORS_EXT : Z := 36.
Definition ATA_CMD_WRITE_SECTORS : Z := 48.
Definition ATA_CMD_WRITE_SECTORS_EXT : Z := 52.
Definition ATA_CMD_FLUSH_CACHE : Z := 231.
Definition ATA_CMD_FLUSH_CACHE_EXT : Z := 234.

Definition EXT4_PARTITION_LBA : Z := 2048.

Record Ext4AtaDevice := mkAtaDevice { partition_lba : Z }.
Definition EXT4_ATA_DEVICE : Ext4AtaDevice := mkAtaDevice EXT4_PARTITION_LBA.

(** [lba & 0xFF] and so on, as a byte of the address. *)
Definition lba_byte (lba k : Z) : Z := wrap8 (Z.land (Z.shiftr lba k) 255).

Section Ata.
Context {S : Type} `{Io : PortIO S}.

(** * Polling *)

Definition ATA_TIMEOUT : Z := 100000.

Definition status_has (status b : Z) : bool := negb (Z.land status b =? 0).

(** [while timeout > 0]: the fuel is the timeout. *)
Fixpoint poll_ready (timeout : nat) (s : S) : S * bool :=
  match timeout with
  | O => (s, false)
  | Datatypes.S timeout' =>
      let '(s, status) := port_in8 ATA_PRIMARY_STATUS s in
      if status_has status ATA_STATUS_ERR then (s, false)
      else if status_has status ATA_STATUS_BSY then poll_ready timeout' s
      else if status_has status ATA_STATUS_RDY then (s, true)
      else poll_ready timeout' s
  end.

Definition ata_wait_ready (s : S) : S * bool := poll_ready (Z.to_nat ATA_TIMEOUT) s.

Fixpoint poll_drq (timeout : nat) (s : S) : S * bool :=
  match timeout with
  | O => (s, false)
  | Datatypes.S timeout' =>
      let '(s, status) := port_in8 ATA_PRIMARY_STATUS s in
      if status_has status ATA_STATUS_BSY then poll_drq timeout' s
      else if status_has status ATA_STATUS_ERR then (s, false)
      else if status_has status ATA_STATUS_DRQ then (s, true)
      else poll_drq timeout' s
  end.

Definition ata_wait_drq (s : S) : S * bool := poll_drq (Z.to_nat ATA_TIMEOUT) s.

(** * Commands *)

(** The register writes of one sector command. *)
Definition command_lba28 (lba cmd : Z) : list (Z * Z) :=
  [(ATA_PRIMARY_DRIVE, Z.lor 224 (wrap8 (Z.land (Z.shiftr lba 24) 15)));
   (ATA_PRIMARY_SECCOUNT, 1);
   (ATA_PRIMARY_LBA_LO, lba_byte lba 0);
   (ATA_PRIMARY_LBA_MID, lba_byte lba 8);
   (ATA_PRIMARY_LBA_HI, lba_byte lba 16);
   (ATA_PRIMARY_CMD, cmd)].

Definition command_lba48 (lba cmd : Z) : list (Z * Z) :=
  [(ATA_PRIMARY_DRIVE, 224);
   (ATA_PRIMARY_SECCOUNT, 0);
   (ATA_PRIMARY_LBA_LO, lba_byte lba 24);
   (ATA_PRIMARY_LBA_MID, lba_byte lba 32);
   (ATA_PRIMARY_LBA_HI, lba_byte lba 40);
   (ATA_PRIMARY_SECCOUNT, 1);
   (ATA_PRIMARY_LBA_LO, lba_byte lba 0);
   (ATA_PRIMARY_LBA_MID, lba_byte lba 8);
   (ATA_PRIMARY_LBA_HI, lba_byte lba 16);
   (ATA_PRIMARY_CMD, cmd)].

(** One round of a transfer up to the data phase. *)
Definition start_sector (cmds : list (Z * Z)) (s : S) : S * bool :=
  let '(s, ready) := ata_wait_ready s in
  if negb ready then (s, false)
  else ata_wait_drq (outs8 cmds s).

(** [for _ in 0..count]: [pos] is how far [buffer] has moved.  Outside the
    buffer the transfer is undefined. *)
Fixpoint read_loop (cmds : Z -> list (Z * Z)) (count : nat) (current_lba pos : Z) (dest : bytes)
    (s : S) : option (S * bytes * bool) :=
  match count with
  | O => Some (s, dest, true)
  | Datatypes.S count' =>
      let '(s, ok) := start_sector (cmds current_lba) s in
      if negb ok then Some (s, dest, false)
      else
        let '(s, ws) := port_insw ATA_PRIMARY_DATA 256 s in
        match splice dest pos (flat_map (to_le 2) ws) with
        | Some dest => read_loop cmds count' (current_lba +w 1) (pos + 512) dest s
        | None => None
        end
  end.

(** The words of a byte buffer. *)
Fixpoint words_of (b : bytes) : list Z :=
  match b with
  | x :: y :: t => le [x; y] :: words_of t
  | _ => []
  end.

Fixpoint write_loop (cmds : Z -> list (Z * Z)) (count : nat) (current_lba pos : Z) (src : bytes)
    (s : S) : option (S * bool) :=
  match count with
  | O => Some (s, true)
  | Datatypes.S count' =>
      let '(s, ok) := start_sector (cmds current_lba) s in
      if negb ok then Some (s, false)
      else
        match slice src pos 512 with
        | Some part =>
            write_loop cmds count' (current_lba +w 1) (pos + 512) src
              (port_outsw ATA_PRIMARY_DATA (words_of part) s)
        | None => None
        end
  end.

Definition ata_read_sectors_lba28 (dest : bytes) (lba count : Z) (s : S) : option (S * bytes * bool) :=
  if count =? 0 then Some (s, dest, true)
  else if 268435455 <? lba then Some (s, dest, false)
  else read_loop (fun l => command_lba28 l ATA_CMD_READ_SECTORS) (Z.to_nat count) lba 0 dest s.

Definition ata_read_sectors_lba48 (dest : bytes) (lba count : Z) (s : S) : option (S * bytes * bool) :=
  if count =? 0 then Some (s, dest, true)
  else if 281474976710655 <? lba then Some (s, dest, false)
  else if 65535 <? count then Some (s, dest, false)
  else read_loop (fun l => command_lba48 l ATA_CMD_READ_SECTORS_EXT) (Z.to_nat count) lba 0 dest s.

Definition ata_write_sectors_lba28 (src : bytes) (lba count : Z) (s : S) : option (S * bool) :=
  if count =? 0 then Some (s, true)
  else if 268435455 <? lba then Some (s, false)
  else write_loop (fun l => command_lba28 l ATA_CMD_WRITE_SECTORS) (Z.to_nat count) lba 0 src s.

Definition ata_write_sectors_lba48 (src : bytes) (lba count : Z) (s : S) : option (S * bool) :=
  if count =? 0 then Some (s, true)
  else if 281474976710655 <? lba then Some (s, false)
  else if 65535 <? count then Some (s, false)
  else write_loop (fun l => command_lba48 l ATA_CMD_WRITE_SECTORS_EXT) (Z.to_nat count) lba 0 src s.

Definition ata_write_sectors (src : bytes) (lba count : Z) (s : S) : option (S * bool) :=
  if 268435455 <? lba then ata_write_sectors_lba48 src lba count s
  else ata_write_sectors_lba28 src lba count s.

Definition ata_read_sectors (dest : bytes) (lba count : Z) (s : S) : option (S * bytes * bool) :=
  if 268435455 <? lba then ata_read_sectors_lba48 dest lba count s
  else ata_read_sectors_lba28 dest lba count s.

Definition ata_flush_cache (use_lba48 : bool) (s : S) : S * bool :=
  let '(s, ready) := ata_wait_ready s in
  if negb ready then (s, false)
  else
    ata_wait_ready
      (port_out8 ATA_PRIMARY_CMD
         (if use_lba48 then ATA_CMD_FLUSH_CACHE_EXT else ATA_CMD_FLUSH_CACHE) s).

(** * Block callbacks

    A null device or buffer is [None]. *)

Definition block_lba (dev : Ext4AtaDevice) (block len : Z) : Z :=
  partition_lba dev +w (block *w wrap32 (len / 512)).

Definition ext4_read_block_ata (dev : option Ext4AtaDevice) (block : Z) (buffer : option bytes)
    (s : S) : option (S * option bytes * Z) :=
  match dev, buffer with
  | Some device, Some buf =>
      let len := Z.of_nat (length buf) in
      if len =? 0 then Some (s, buffer, -1)
      else if negb (len mod 512 =? 0) then Some (s, buffer, -1)
      else
        match ata_read_sectors buf (block_lba device block len) (wrap32 (len / 512)) s with
        | Some (s, buf, ok) => Some (s, Some buf, if ok then 0 else -1)
        | None => None
        end
  | _, _ => Some (s, buffer, -1)
  end.

Definition ext4_write_block_ata (dev : option Ext4AtaDevice) (block : Z) (buffer : option bytes)
    (s : S) : option (S * Z) :=
  match dev, buffer with
  | Some device, Some buf =>
      let len := Z.of_nat (length buf) in
      if len =? 0 then Some (s, -1)
      else if negb (len mod 512 =? 0) then Some (s, -1)
      else
        match ata_write_sectors buf (block_lba device block len) (wrap32 (len / 512)) s with
        | Some (s, ok) => Some (s, if ok then 0 else -1)
        | None => None
        end
  | _, _ => Some (s, -1)
  end.

Definition ext4_sync_ata (dev : option Ext4AtaDevice) (s : S) : S * Z :=
  match dev with
  | None => (s, -1)
  | Some _ => let '(s, ok) := ata_flush_cache true s in (s, if ok then 0 else -1)
  end.
End Ata.
