(* ===== verification/AtaDrive.v ===== *)
(** The contract of the hardware behind [Ata]: a drive with a task file, the way
    the ATA standard describes it to its host.

    The registers keep the last two values written (the 48-bit commands use
    both); a command takes effect when it is written to the command register;
    while a command runs the status is BSY for a number of reads; a command that
    fails leaves ERR in the status until the next command is written.
    [AtaHardware] says that the ports of the machine behave like that. *)

From S2P Require Import Prelude Packed Ports Ata.

Inductive Phase : Type :=
| Idle
| DataIn (lba : Z)
| DataOut (lba : Z).

Record Drive := mkDrive {
  dr_sectors : gmap Z bytes;
  dr_bad : gset Z;
  dr_latency : nat;
  dr_select : Z;
  dr_lo : Z * Z;
  dr_mid : Z * Z;
  dr_hi : Z * Z;
  dr_err : bool;
  dr_phase : Phase;
  dr_busy : nat;
}.

(** The 512 bytes of a sector. *)
Definition sector_of (m : gmap Z bytes) (lba : Z) : bytes :=
  match m !! lba with
  | Some x => if decide (length x = 512%nat /\ Forall is_u8 x) then x else zeros 512
  | None => zeros 512
  end.
Definition sector (d : Drive) (lba : Z) : bytes := sector_of (dr_sectors d) lba.

(** The state with other registers, or another phase. *)
Definition set_regs (sel : Z) (lo mid hi : Z * Z) (d : Drive) : Drive :=
  mkDrive (dr_sectors d) (dr_bad d) (dr_latency d) sel lo mid hi (dr_err d) (dr_phase d) (dr_busy d).
Definition set_phase (err : bool) (ph : Phase) (busy : nat) (d : Drive) : Drive :=
  mkDrive (dr_sectors d) (dr_bad d) (dr_latency d) (dr_select d) (dr_lo d) (dr_mid d) (dr_hi d) err ph busy.
Definition set_sector (lba : Z) (b : bytes) (d : Drive) : Drive :=
  mkDrive (<[lba := b]> (dr_sectors d)) (dr_bad d) (dr_latency d) (dr_select d) (dr_lo d) (dr_mid d)
    (dr_hi d) (dr_err d) (dr_phase d) (dr_busy d).

(** The addresses in the registers. *)
Definition lba28_of (d : Drive) : Z :=
  (dr_select d mod 16) * 2 ^ 24 + snd (dr_hi d) * 2 ^ 16 + snd (dr_mid d) * 2 ^ 8 + snd (dr_lo d).
Definition lba48_of (d : Drive) : Z :=
  fst (dr_hi d) * 2 ^ 40 + fst (dr_mid d) * 2 ^ 32 + fst (dr_lo d) * 2 ^ 24
  + snd (dr_hi d) * 2 ^ 16 + snd (dr_mid d) * 2 ^ 8 + snd (dr_lo d).

Definition accept (ph : Z -> Phase) (lba : Z) (d : Drive) : Drive :=
  if bool_decide (lba ∈ dr_bad d) then set_phase true Idle (dr_latency d) d
  else set_phase false (ph lba) (dr_latency d) d.

Definition drive_command (c : Z) (d : Drive) : Drive :=
  if c =? ATA_CMD_READ_SECTORS then accept DataIn (lba28_of d) d
  else if c =? ATA_CMD_READ_SECTORS_EXT then accept DataIn (lba48_of d) d
  else if c =? ATA_CMD_WRITE_SECTORS then accept DataOut (lba28_of d) d
  else if c =? ATA_CMD_WRITE_SECTORS_EXT then accept DataOut (lba48_of d) d
  else if (c =? ATA_CMD_FLUSH_CACHE) || (c =? ATA_CMD_FLUSH_CACHE_EXT)
  then set_phase false Idle (dr_latency d) d
  else set_phase true Idle 0 d.

Definition drive_out8 (p v : Z) (d : Drive) : Drive :=
  if p =? ATA_PRIMARY_DRIVE then set_regs v (dr_lo d) (dr_mid d) (dr_hi d) d
  else if p =? ATA_PRIMARY_LBA_LO then set_regs (dr_select d) (snd (dr_lo d), v) (dr_mid d) (dr_hi d) d
  else if p =? ATA_PRIMARY_LBA_MID then set_regs (dr_select d) (dr_lo d) (snd (dr_mid d), v) (dr_hi d) d
  else if p =? ATA_PRIMARY_LBA_HI then set_regs (dr_select d) (dr_lo d) (dr_mid d) (snd (dr_hi d), v) d
  else if p =? ATA_PRIMARY_CMD then drive_command v d
  else d.

(** A read of the status register. *)
Definition drive_status (d : Drive) : Drive * Z :=
  match dr_busy d with
  | S k => (set_phase (dr_err d) (dr_phase d) k d, ATA_STATUS_BSY)
  | O =>
      (d, Z.lor (if dr_err d then ATA_STATUS_ERR else 0)
            (Z.lor ATA_STATUS_RDY (match dr_phase d with Idle => 0 | _ => ATA_STATUS_DRQ end)))
  end.

Definition drive_insw (n : nat) (d : Drive) : Drive * list Z :=
  match dr_phase d with
  | DataIn lba => (set_phase (dr_err d) Idle (dr_busy d) d, take n (words_of (sector d lba)))
  | _ => (d, replicate n 65535)
  end.

Definition drive_outsw (ws : list Z) (d : Drive) : Drive :=
  match dr_phase d with
  | DataOut lba => set_phase (dr_err d) Idle (dr_latency d) (set_sector lba (flat_map (to_le 2) ws) d)
  | _ => d
  end.

(** The ports of the machine are those of a drive. *)
Class AtaHardware (S : Type) `{Io : PortIO S} := {
  drive : S -> Drive;
  hw_status : forall s, (drive (fst (port_in8 ATA_PRIMARY_STATUS s)), snd (port_in8 ATA_PRIMARY_STATUS s))
    = drive_status (drive s);
  hw_out8 : forall p v s, ATA_PRIMARY_DATA <= p <= ATA_PRIMARY_CMD ->
    drive (port_out8 p v s) = drive_out8 p v (drive s);
  hw_insw : forall n s, (drive (fst (port_insw ATA_PRIMARY_DATA n s)), snd (port_insw ATA_PRIMARY_DATA n s))
    = drive_insw n (drive s);
  hw_outsw : forall ws s, drive (port_outsw ATA_PRIMARY_DATA ws s) = drive_outsw ws (drive s);
}.

(** A drive that waits for a command, and one that has failed the last one. *)
Definition drive_idle (d : Drive) : Prop :=
  dr_err d = false /\ dr_phase d = Idle /\ Z.of_nat (dr_busy d) < ATA_TIMEOUT
  /\ Z.of_nat (dr_latency d) < ATA_TIMEOUT.
Definition drive_failed (d : Drive) : Prop := dr_err d = true /\ dr_busy d = O.

(** * Facts *)

Lemma sector_of_ok m lba : length (sector_of m lba) = 512%nat /\ is_bytes (sector_of m lba).
Proof.
  assert (length (zeros 512) = 512%nat /\ is_bytes (zeros 512)) as Hz.
  { split; [apply length_replicate|apply is_bytes_zeros]. }
  unfold sector_of. destruct (m !! lba) as [x|]; [|exact Hz]. case_decide; [done|exact Hz].
Qed.

Lemma sector_length d lba : length (sector d lba) = 512%nat.
Proof. apply sector_of_ok. Qed.
Lemma sector_bytes d lba : is_bytes (sector d lba).
Proof. apply sector_of_ok. Qed.

(** Words and bytes. *)
Lemma words_bytes n b : length b = (2 * n)%nat -> is_bytes b ->
  flat_map (to_le 2) (words_of b) = b /\ length (words_of b) = n.
Proof.
  revert b. induction n as [|n IH]; intros b Hl Hb.
  { by destruct b; [|cbn in Hl; lia]. }
  destruct b as [|x [|y t]]; [cbn in Hl; lia|cbn in Hl; lia|].
  apply Forall_cons in Hb as [Hx Hb]. apply Forall_cons in Hb as [Hy Hb].
  destruct (IH t) as [H1 H2]; [cbn in Hl; lia|done|].
  cbn [words_of flat_map length]. rewrite H1, H2. split; [|done].
  change (to_le 2 (le [x; y])) with (to_le (length [x; y]) (le [x; y])).
  rewrite to_le_le; [done|]. apply Forall_cons; split; [exact Hx|]. apply Forall_cons; split; [exact Hy|]. apply Forall_nil_2.
Qed.

Lemma sector_words d lba :
  flat_map (to_le 2) (take 256 (words_of (sector d lba))) = sector d lba.
Proof.
  destruct (words_bytes 256 (sector d lba)) as [H1 H2]; [apply sector_length|apply sector_bytes|].
  rewrite take_ge; [done|]. lia.
Qed.

(** The bytes of an address. *)
Lemma lba_byte_div lba k : 0 <= k -> lba_byte lba k = (lba / 2 ^ k) mod 256.
Proof.
  intros. unfold lba_byte, wrap8. change 255 with (2 ^ 8 - 1). rewrite land_low by lia.
  rewrite Z.shiftr_div_pow2 by lia. change (2 ^ 8) with 256. by rewrite Z.mod_mod by lia.
Qed.

Lemma next_byte lba k : 0 <= k -> lba / 2 ^ k = (lba / 2 ^ (k + 8)) * 256 + (lba / 2 ^ k) mod 256.
Proof.
  intros. rewrite Z.pow_add_r by lia. change (2 ^ 8) with 256.
  rewrite <- Z.div_div by lia. pose proof (Z.div_mod (lba / 2 ^ k) 256 ltac:(lia)). lia.
Qed.

Lemma select_nibble lba : Z.lor 224 (wrap8 (Z.land (Z.shiftr lba 24) 15)) mod 16 = (lba / 2 ^ 24) mod 16.
Proof.
  change 15 with (2 ^ 4 - 1). rewrite land_low, Z.shiftr_div_pow2 by lia. change (2 ^ 4) with 16.
  pose proof (Z.mod_pos_bound (lba / 2 ^ 24) 16 ltac:(lia)) as H.
  unfold wrap8. rewrite (Z.mod_small _ 256) by lia.
  rewrite (lor_disjoint_add 5) by (try done; lia).
  rewrite <- (Z.mod_add _ (-14)) by lia. rewrite Z.mod_small; lia.
Qed.

Section Hardware.
Context {S : Type} `{Hw : AtaHardware S}.

Lemma outs8_drive ws s :
  Forall (fun '(p, _) => ATA_PRIMARY_DATA <= p <= ATA_PRIMARY_CMD) ws ->
  drive (outs8 ws s) = fold_left (fun d '(p, v) => drive_out8 p v d) ws (drive s).
Proof.
  unfold outs8. intros H. revert s. induction H as [|[p v] ws Hp H IH]; intros s; cbn; [done|].
  by rewrite IH, hw_out8.
Qed.

(** The command registers after the writes of one sector command; the 28-bit one
    has room for the address modulo 2^28. *)
Lemma command_drive lba cmd s :
  (0 <= lba /\ (cmd = ATA_CMD_READ_SECTORS \/ cmd = ATA_CMD_WRITE_SECTORS) ->
   exists d, dr_sectors d = dr_sectors (drive s) /\ dr_bad d = dr_bad (drive s)
     /\ dr_latency d = dr_latency (drive s)
     /\ drive (outs8 (command_lba28 lba cmd) s)
        = accept (if cmd =? ATA_CMD_READ_SECTORS then DataIn else DataOut) (lba mod 2 ^ 28) d)
  /\ (0 <= lba < 2 ^ 48 /\ (cmd = ATA_CMD_READ_SECTORS_EXT \/ cmd = ATA_CMD_WRITE_SECTORS_EXT) ->
   exists d, dr_sectors d = dr_sectors (drive s) /\ dr_bad d = dr_bad (drive s)
     /\ dr_latency d = dr_latency (drive s)
     /\ drive (outs8 (command_lba48 lba cmd) s)
        = accept (if cmd =? ATA_CMD_READ_SECTORS_EXT then DataIn else DataOut) lba d).
Proof.
  pose proof (next_byte lba 0 ltac:(lia)) as B0. pose proof (next_byte lba 8 ltac:(lia)) as B1.
  pose proof (next_byte lba 16 ltac:(lia)) as B2. pose proof (next_byte lba 24 ltac:(lia)) as B3.
  pose proof (next_byte lba 32 ltac:(lia)) as B4. pose proof (next_byte lba 40 ltac:(lia)) as B5.
  change (0 + 8) with 8 in B0. change (8 + 8) with 16 in B1. change (16 + 8) with 24 in B2.
  change (24 + 8) with 32 in B3. change (32 + 8) with 40 in B4. change (40 + 8) with 48 in B5. rewrite Z.pow_0_r, Z.div_1_r in B0.
  split.
  - intros [Hl Hc]. rewrite outs8_drive by (repeat constructor; by vm_compute).
    assert (lba mod 2 ^ 28 = ((lba / 2 ^ 24) mod 16) * 2 ^ 24 + lba mod 2 ^ 24) as B.
    { change (2 ^ 28) with (2 ^ 24 * 16). rewrite Z.rem_mul_r by lia. lia. }
    pose proof (Z.div_mod lba (2 ^ 24) ltac:(lia)) as B'.
    destruct Hc as [->| ->]; cbn -[Z.pow Z.div Z.modulo lba_byte Z.lor accept]; unfold drive_command; cbn -[Z.pow Z.div Z.modulo lba_byte Z.lor accept];
      eexists; (split; [|split; [|split; [|f_equal]]]);
      [reflexivity|reflexivity|reflexivity| |reflexivity|reflexivity|reflexivity|];
      unfold lba28_of; cbn -[Z.pow Z.div Z.modulo lba_byte Z.lor]; rewrite select_nibble, !lba_byte_div by lia;
      rewrite Z.pow_0_r, Z.div_1_r; lia.
  - intros [Hl Hc]. rewrite outs8_drive by (repeat constructor; by vm_compute).
    assert (lba / 2 ^ 40 = (lba / 2 ^ 40) mod 256) as B by (rewrite Z.mod_small; [done|]; split;
      [apply Z.div_pos; lia|apply Z.div_lt_upper_bound; lia]).
    destruct Hc as [->| ->]; cbn -[Z.pow Z.div Z.modulo lba_byte Z.lor accept]; unfold drive_command; cbn -[Z.pow Z.div Z.modulo lba_byte Z.lor accept];
      eexists; (split; [|split; [|split; [|f_equal]]]);
      [reflexivity|reflexivity|reflexivity| |reflexivity|reflexivity|reflexivity|];
      unfold lba48_of; cbn -[Z.pow Z.div Z.modulo lba_byte Z.lor]; rewrite !lba_byte_div by lia;
      rewrite Z.pow_0_r, Z.div_1_r; lia.
Qed.
End Hardware.
