(* ===== verification/AtaProps.v ===== *)
(** Theorems on the ATA driver over a drive that behaves as [AtaDrive] says, with
    closed instances on the drive itself. *)

From S2P Require Import Prelude Packed Ports Ata AtaDrive.

(** [n] sectors from [lba] on. *)
Fixpoint sectors_from (d : Drive) (lba : Z) (n : nat) : bytes :=
  match n with
  | O => []
  | S n' => sector d lba ++ sectors_from d (lba + 1) n'
  end.

Lemma sectors_from_length d lba n : length (sectors_from d lba n) = (512 * n)%nat.
Proof.
  revert lba. induction n as [|n IH]; intros lba; cbn [sectors_from]; [done|].
  rewrite length_app, IH, sector_length. lia.
Qed.

(** Same medium, whatever the registers. *)
Definition same_medium (d d' : Drive) : Prop :=
  dr_sectors d' = dr_sectors d /\ dr_bad d' = dr_bad d /\ dr_latency d' = dr_latency d.

Lemma same_medium_sectors d d' lba n : same_medium d d' -> sectors_from d' lba n = sectors_from d lba n.
Proof.
  intros (Hs & _). revert lba. induction n as [|n IH]; intros lba; cbn; [done|].
  rewrite IH. unfold sector. by rewrite Hs.
Qed.

Section Ata.
Context {S : Type} `{Hw : AtaHardware S}.

Lemma status_run s : exists s', port_in8 ATA_PRIMARY_STATUS s = (s', snd (drive_status (drive s)))
  /\ drive s' = fst (drive_status (drive s)).
Proof.
  pose proof (hw_status s) as H. destruct (port_in8 ATA_PRIMARY_STATUS s) as [s' v].
  cbn [fst snd] in H. exists s'. rewrite <- H. done.
Qed.

(** Polling ends when the drive stops being busy. *)
Lemma poll_ready_spec n s : (dr_busy (drive s) < n)%nat ->
  exists s', poll_ready n s = (s', negb (dr_err (drive s)))
    /\ drive s' = set_phase (dr_err (drive s)) (dr_phase (drive s)) 0 (drive s).
Proof.
  revert s. induction n as [|n IH]; intros s Hb; [lia|]. cbn [poll_ready].
  destruct (status_run s) as (s1 & E & Hd). rewrite E. unfold drive_status in *.
  destruct (dr_busy (drive s)) as [|k] eqn:Eb; cbn [fst snd] in *.
  - exists s1. rewrite Hd. split.
    + destruct (dr_err (drive s)), (dr_phase (drive s)); reflexivity.
    + destruct (drive s). cbn in *. by subst.
  - destruct (IH s1) as (s2 & E2 & Hd2); [rewrite Hd; cbn; lia|].
    exists s2. change (status_has ATA_STATUS_BSY ATA_STATUS_ERR) with false.
    change (status_has ATA_STATUS_BSY ATA_STATUS_BSY) with true. cbv iota.
    rewrite E2, Hd2, Hd. done.
Qed.

Lemma poll_drq_spec n s : (dr_busy (drive s) < n)%nat -> dr_err (drive s) = true \/ dr_phase (drive s) <> Idle ->
  exists s', poll_drq n s = (s', negb (dr_err (drive s)))
    /\ drive s' = set_phase (dr_err (drive s)) (dr_phase (drive s)) 0 (drive s).
Proof.
  revert s. induction n as [|n IH]; intros s Hb Hp; [lia|]. cbn [poll_drq].
  destruct (status_run s) as (s1 & E & Hd). rewrite E. unfold drive_status in *.
  destruct (dr_busy (drive s)) as [|k] eqn:Eb; cbn [fst snd] in *.
  - exists s1. rewrite Hd. split.
    + destruct (dr_err (drive s)), (dr_phase (drive s)); try reflexivity. by destruct Hp.
    + destruct (drive s). cbn in *. by subst.
  - destruct (IH s1) as (s2 & E2 & Hd2); [rewrite Hd; cbn; lia|by rewrite Hd|].
    exists s2. change (status_has ATA_STATUS_BSY ATA_STATUS_BSY) with true. cbv iota.
    rewrite E2, Hd2, Hd. done.
Qed.

Lemma timeout_nat k : Z.of_nat k < ATA_TIMEOUT -> (k < Z.to_nat ATA_TIMEOUT)%nat.
Proof. lia. Qed.

(** A sequence of register writes that issues a command for [lba]. *)
Definition issues (cmds : list (Z * Z)) (ph : Z -> Phase) (lba : Z) : Prop :=
  forall s, exists d, same_medium (drive s) d /\ drive (outs8 cmds s) = accept ph lba d.

Lemma issues_lba28 lba cmd : 0 <= lba -> cmd = ATA_CMD_READ_SECTORS \/ cmd = ATA_CMD_WRITE_SECTORS ->
  issues (command_lba28 lba cmd) (if cmd =? ATA_CMD_READ_SECTORS then DataIn else DataOut) (lba mod 2 ^ 28).
Proof.
  intros Hl Hc s. destruct (command_drive lba cmd s) as [H _].
  destruct (H (conj Hl Hc)) as (d & ? & ? & ? & E). by exists d.
Qed.

Lemma issues_lba48 lba cmd : 0 <= lba < 2 ^ 48 ->
  cmd = ATA_CMD_READ_SECTORS_EXT \/ cmd = ATA_CMD_WRITE_SECTORS_EXT ->
  issues (command_lba48 lba cmd) (if cmd =? ATA_CMD_READ_SECTORS_EXT then DataIn else DataOut) lba.
Proof.
  intros Hl Hc s. destruct (command_drive lba cmd s) as [_ H].
  destruct (H (conj Hl Hc)) as (d & ? & ? & ? & E). by exists d.
Qed.

(** One command up to the data phase, on a good sector and on a bad one. *)
Lemma start_sector_spec cmds ph lba s : issues cmds ph lba -> (forall l, ph l <> Idle) ->
  drive_idle (drive s) ->
  exists s', start_sector cmds s = (s', bool_decide (lba ∉ dr_bad (drive s)))
    /\ same_medium (drive s) (drive s') /\ dr_busy (drive s') = O
    /\ if bool_decide (lba ∉ dr_bad (drive s))
       then dr_err (drive s') = false /\ dr_phase (drive s') = ph lba
       else dr_err (drive s') = true.
Proof.
  intros Hi Hph (He & Hp & Hb & Hl). unfold start_sector, ata_wait_ready.
  destruct (poll_ready_spec (Z.to_nat ATA_TIMEOUT) s (timeout_nat _ Hb)) as (s1 & E1 & Hd1).
  rewrite E1, He. cbn [negb].
  destruct (Hi s1) as (d & (Hs & Hbad & Hlat) & E2). rewrite Hd1 in Hs, Hbad, Hlat.
  cbn [dr_sectors dr_bad dr_latency set_phase] in Hs, Hbad, Hlat. unfold ata_wait_drq.
  destruct (bool_decide_reflect (lba ∉ dr_bad (drive s))) as [Hok|Hno].
  - unfold accept in E2. rewrite bool_decide_eq_false_2 in E2 by (by rewrite Hbad).
    destruct (poll_drq_spec (Z.to_nat ATA_TIMEOUT) (outs8 cmds s1)) as (s2 & E3 & Hd3).
    { rewrite E2. cbn. rewrite Hlat. by apply timeout_nat. }
    { right. rewrite E2. apply Hph. }
    exists s2. rewrite E3, Hd3, E2. cbn. by split_and!.
  - unfold accept in E2. rewrite bool_decide_eq_true_2 in E2 by (rewrite Hbad; by apply dec_stable).
    destruct (poll_drq_spec (Z.to_nat ATA_TIMEOUT) (outs8 cmds s1)) as (s2 & E3 & Hd3).
    { rewrite E2. cbn. rewrite Hlat. by apply timeout_nat. }
    { left. by rewrite E2. }
    exists s2. rewrite E3, Hd3, E2. cbn. by split_and!.
Qed.

(** * Transfers *)

Lemma insw_run s : exists s' ws, port_insw ATA_PRIMARY_DATA 256 s = (s', ws)
  /\ drive s' = fst (drive_insw 256 (drive s)) /\ ws = snd (drive_insw 256 (drive s)).
Proof.
  pose proof (hw_insw 256 s) as H. destruct (port_insw ATA_PRIMARY_DATA 256 s) as [s' ws].
  cbn [fst snd] in H. exists s', ws. by rewrite <- H.
Qed.

Lemma idle_after s d : drive_idle d -> same_medium d (drive s) -> dr_err (drive s) = false ->
  dr_phase (drive s) = Idle -> dr_busy (drive s) = O \/ dr_busy (drive s) = dr_latency d ->
  drive_idle (drive s).
Proof.
  intros (_ & _ & _ & Hl) (_ & _ & Hlat) He Hp Hb. split_and!; [done|done| |by rewrite Hlat].
  destruct Hb as [->| ->]; [done|exact Hl].
Qed.

Lemma read_loop_spec cmds n lba pos dest s :
  (forall i, lba <= i < lba + Z.of_nat n -> issues (cmds i) DataIn i) ->
  (forall i, lba <= i < lba + Z.of_nat n -> i ∉ dr_bad (drive s)) ->
  0 <= lba -> lba + Z.of_nat n < U64 -> 0 <= pos -> pos + 512 * Z.of_nat n <= Z.of_nat (length dest) ->
  drive_idle (drive s) ->
  exists s', read_loop cmds n lba pos dest s
      = Some (s', take (Z.to_nat pos) dest ++ sectors_from (drive s) lba n
                  ++ drop (Z.to_nat pos + 512 * n) dest, true)
    /\ same_medium (drive s) (drive s') /\ drive_idle (drive s').
Proof.
  revert lba pos dest s. induction n as [|n IH]; intros lba pos dest s Hc Hb H0 Hlim Hp Hl Hi.
  { exists s. cbn [read_loop sectors_from app]. rewrite Nat.mul_0_r, Nat.add_0_r, take_drop. by split_and!. }
  cbn [read_loop].
  destruct (start_sector_spec (cmds lba) DataIn lba s) as (s1 & E1 & Hm1 & Hb1 & Hok);
    [apply Hc; lia|done|done|].
  rewrite E1. rewrite bool_decide_eq_true_2 in * by (apply Hb; lia). cbn [negb]. destruct Hok as [He1 Hp1].
  destruct (insw_run s1) as (s2 & ws & E2 & Hd2 & Hws). rewrite E2. unfold drive_insw in Hd2, Hws.
  rewrite Hp1 in Hd2, Hws. cbn [fst snd] in Hd2, Hws.
  subst ws. rewrite sector_words.
  assert (same_medium (drive s) (drive s2)) as Hm2 by (rewrite Hd2; exact Hm1).
  rewrite splice_some by (rewrite ?sector_length; lia). rewrite add64_small by lia.
  assert (sector (drive s1) lba = sector (drive s) lba) as Hsec by (unfold sector; by rewrite (proj1 Hm1)).
  destruct (IH (lba + 1) (pos + 512) (take (Z.to_nat pos) dest ++ sector (drive s1) lba
      ++ drop (Z.to_nat pos + length (sector (drive s1) lba)) dest) s2) as (s3 & E3 & Hm3 & Hi3).
  - intros i Hr. apply Hc. lia.
  - intros i Hr. rewrite (proj1 (proj2 Hm2)). apply Hb. lia.
  - lia.
  - lia.
  - lia.
  - rewrite !length_app, length_take, length_drop, sector_length. lia.
  - apply (idle_after s2 (drive s)); [done|done|by rewrite Hd2|by rewrite Hd2|left; by rewrite Hd2].
  - exists s3. rewrite E3. split; [|split; [|done]].
    + f_equal. f_equal. f_equal. rewrite (same_medium_sectors (drive s) (drive s2)) by done.
      rewrite Hsec, sector_length.
      replace (Z.to_nat (pos + 512)) with (Z.to_nat pos + 512)%nat by lia.
      cbn [sectors_from]. set (A := take (Z.to_nat pos) dest). set (B := sector (drive s) lba).
      assert (length (A ++ B) = Z.to_nat pos + 512)%nat as HAB
        by (subst A B; rewrite length_app, length_take, sector_length; lia).
      rewrite (app_assoc A B). rewrite take_app_length' by done.
      rewrite drop_app_ge by lia. rewrite drop_drop, <- !app_assoc. do 4 f_equal. lia.
    + destruct Hm2 as (? & ? & ?), Hm3 as (? & ? & ?). split_and!; congruence.
Qed.

(** The medium after [n] sectors of [src] have been written from [lba] on, where
    the address of each is taken through [phys]. *)
Fixpoint put_sectors (phys : Z -> Z) (m : gmap Z bytes) (lba : Z) (n : nat) (src : bytes) : gmap Z bytes :=
  match n with
  | O => m
  | Datatypes.S n' => put_sectors phys (<[phys lba := take 512 src]> m) (lba + 1) n' (drop 512 src)
  end.

Lemma write_loop_spec cmds phys n lba pos src s :
  (forall i, lba <= i < lba + Z.of_nat n -> issues (cmds i) DataOut (phys i)) ->
  (forall i, lba <= i < lba + Z.of_nat n -> phys i ∉ dr_bad (drive s)) ->
  0 <= lba -> lba + Z.of_nat n < U64 -> 0 <= pos -> pos + 512 * Z.of_nat n <= Z.of_nat (length src) ->
  is_bytes src -> drive_idle (drive s) ->
  exists s', write_loop cmds n lba pos src s = Some (s', true)
    /\ dr_sectors (drive s') = put_sectors phys (dr_sectors (drive s)) lba n (drop (Z.to_nat pos) src)
    /\ dr_bad (drive s') = dr_bad (drive s) /\ drive_idle (drive s').
Proof.
  revert lba pos s. induction n as [|n IH]; intros lba pos s Hc Hb H0 Hlim Hp Hl Hby Hi.
  { by exists s. }
  cbn [write_loop].
  destruct (start_sector_spec (cmds lba) DataOut (phys lba) s) as (s1 & E1 & Hm1 & Hb1 & Hok);
    [apply Hc; lia|done|done|].
  rewrite E1. rewrite bool_decide_eq_true_2 in * by (apply Hb; lia). cbn [negb]. destruct Hok as [He1 Hp1].
  rewrite slice_some by lia. set (part := take _ _). rewrite add64_small by lia.
  assert (length part = 512%nat) as Hlp by (subst part; rewrite length_take, length_drop; lia).
  pose proof (hw_outsw (words_of part) s1) as Hd2. set (s2 := port_outsw _ _ _) in *.
  unfold drive_outsw in Hd2. rewrite Hp1 in Hd2.
  destruct (words_bytes 256 part) as [Hwb _]; [done|subst part; auto with bytes|]. rewrite Hwb in Hd2.
  destruct Hm1 as (Hs1 & Hbad1 & Hlat1).
  destruct (IH (lba + 1) (pos + 512) s2) as (s3 & E3 & Hs3 & Hbad3 & Hi3); try lia; try done.
  - intros i Hr. apply Hc. lia.
  - intros i Hr. rewrite Hd2. cbn. rewrite Hbad1. apply Hb. lia.
  - apply (idle_after s2 (drive s2)); [|done|by rewrite Hd2|by rewrite Hd2|right; by rewrite Hd2].
    destruct Hi as (_ & _ & _ & Hlat). rewrite Hd2. split_and!; [done|done| |]; cbn; by rewrite Hlat1.
  - exists s3. split; [done|]. split; [|split; [|done]].
    + rewrite Hs3, Hd2. cbn [dr_sectors set_phase set_sector put_sectors]. rewrite Hs1. subst part.
      rewrite drop_drop. do 2 f_equal. lia.
    + by rewrite Hbad3, Hd2, <- Hbad1.
Qed.

Lemma sector_of_insert m lba b l : length b = 512%nat -> is_bytes b ->
  sector_of (<[lba := b]> m) l = if decide (l = lba) then b else sector_of m l.
Proof.
  intros Hl Hb. unfold sector_of. case_decide as E.
  - subst. rewrite lookup_insert_eq. by rewrite decide_True.
  - by rewrite lookup_insert_ne.
Qed.

(** The sectors of a contiguous write. *)
Lemma put_sectors_id m lba n src l : (512 * n <= length src)%nat -> is_bytes src ->
  sector_of (put_sectors (fun i => i) m lba n src) l
  = if decide (lba <= l < lba + Z.of_nat n)
    then take 512 (drop (512 * Z.to_nat (l - lba)) src) else sector_of m l.
Proof.
  revert m lba src. induction n as [|n IH]; intros m lba src Hl Hb; cbn [put_sectors].
  { by rewrite decide_False by lia. }
  rewrite IH; [|rewrite length_drop; lia|auto with bytes].
  rewrite sector_of_insert; [|rewrite length_take; lia|auto with bytes].
  destruct (decide (l = lba)) as [->|Hne].
  - rewrite decide_False by lia. rewrite decide_True by lia. by rewrite Z.sub_diag.
  - destruct (decide (lba + 1 <= l < lba + 1 + Z.of_nat n)).
    + rewrite decide_True by lia. rewrite drop_drop. do 2 f_equal. lia.
    + by rewrite decide_False by lia.
Qed.

(** Reading what such a write left. *)
Lemma sectors_put m d lba n src : (512 * n <= length src)%nat -> is_bytes src ->
  dr_sectors d = put_sectors (fun i => i) m lba n src ->
  sectors_from d lba n = take (512 * n) src.
Proof.
  intros Hl Hb Hd.
  assert (forall k j, (j + k = n)%nat ->
    sectors_from d (lba + Z.of_nat j) k = take (512 * k) (drop (512 * j) src)) as G.
  { induction k as [|k IH]; intros j Hj; cbn [sectors_from]; [by rewrite Nat.mul_0_r, take_0|].
    unfold sector. rewrite Hd, put_sectors_id by done. rewrite decide_True by lia.
    replace (Z.to_nat (lba + Z.of_nat j - lba)) with j by lia.
    replace (lba + Z.of_nat j + 1) with (lba + Z.of_nat (Datatypes.S j)) by lia. rewrite IH by lia.
    replace (512 * Datatypes.S k)%nat with (512 + 512 * k)%nat by lia.
    rewrite <- take_take_drop, drop_drop. do 3 f_equal. lia. }
  specialize (G n O ltac:(lia)). rewrite Z.add_0_r in G. rewrite G. by rewrite Nat.mul_0_r, drop_0.
Qed.

(** * Requests *)

(** The address range a request may cover: all of it below 2^28, or none. *)
Definition lba_range (lba n : Z) : Prop :=
  0 <= lba /\ 0 < n /\ (lba + n <= 2 ^ 28 \/ 2 ^ 28 <= lba /\ lba + n <= 2 ^ 48 /\ n <= 65535).

Lemma read_sectors_spec lba n dest s : lba_range lba n ->
  (forall i, lba <= i < lba + n -> i ∉ dr_bad (drive s)) ->
  512 * n <= Z.of_nat (length dest) -> drive_idle (drive s) ->
  exists s', ata_read_sectors dest lba n s
      = Some (s', sectors_from (drive s) lba (Z.to_nat n) ++ drop (512 * Z.to_nat n) dest, true)
    /\ same_medium (drive s) (drive s') /\ drive_idle (drive s').
Proof.
  intros (H0 & Hn & Hr) Hb Hl Hi. unfold ata_read_sectors, ata_read_sectors_lba28, ata_read_sectors_lba48.
  destruct (Z.eqb_spec n 0); [lia|].
  destruct (Z.ltb_spec 268435455 lba) as [Hhi|Hlo].
  - destruct Hr as [?|(_ & H48 & H16)]; [lia|].
    destruct (Z.ltb_spec 281474976710655 lba); [lia|]. destruct (Z.ltb_spec 65535 n); [lia|].
    destruct (read_loop_spec (fun l => command_lba48 l ATA_CMD_READ_SECTORS_EXT) (Z.to_nat n) lba 0 dest s)
      as (s' & E & Hm & Hi'); try (done || lia).
    + intros i Hir. apply (issues_lba48 i ATA_CMD_READ_SECTORS_EXT); [lia|by left].
    + intros i Hir. apply Hb. lia.
    + unfold U64. lia.
    + exists s'. split; [exact E|done].
  - destruct Hr as [H28|]; [|lia].
    destruct (read_loop_spec (fun l => command_lba28 l ATA_CMD_READ_SECTORS) (Z.to_nat n) lba 0 dest s)
      as (s' & E & Hm & Hi'); try (done || lia).
    + intros i Hir. rewrite <- (Z.mod_small i (2 ^ 28)) at 2 by lia.
      apply (issues_lba28 i ATA_CMD_READ_SECTORS); [lia|by left].
    + intros i Hir. apply Hb. lia.
    + unfold U64. lia.
    + exists s'. split; [exact E|done].
Qed.

Lemma write_sectors_spec lba n src s : lba_range lba n ->
  (forall i, lba <= i < lba + n -> i ∉ dr_bad (drive s)) ->
  Z.of_nat (length src) = 512 * n -> is_bytes src -> drive_idle (drive s) ->
  exists s', ata_write_sectors src lba n s = Some (s', true)
    /\ dr_sectors (drive s') = put_sectors (fun i => i) (dr_sectors (drive s)) lba (Z.to_nat n) src
    /\ dr_bad (drive s') = dr_bad (drive s) /\ drive_idle (drive s').
Proof.
  intros (H0 & Hn & Hr) Hb Hl Hby Hi. unfold ata_write_sectors, ata_write_sectors_lba28, ata_write_sectors_lba48.
  destruct (Z.eqb_spec n 0); [lia|].
  destruct (Z.ltb_spec 268435455 lba) as [Hhi|Hlo].
  - destruct Hr as [?|(_ & H48 & H16)]; [lia|].
    destruct (Z.ltb_spec 281474976710655 lba); [lia|]. destruct (Z.ltb_spec 65535 n); [lia|].
    apply (write_loop_spec (fun l => command_lba48 l ATA_CMD_WRITE_SECTORS_EXT) (fun i => i) (Z.to_nat n) lba 0 src s);
      try (done || lia).
    + intros i Hir. apply (issues_lba48 i ATA_CMD_WRITE_SECTORS_EXT); [lia|by right].
    + intros i Hir. apply Hb. lia.
    + unfold U64. lia.
  - destruct Hr as [H28|]; [|lia].
    apply (write_loop_spec (fun l => command_lba28 l ATA_CMD_WRITE_SECTORS) (fun i => i) (Z.to_nat n) lba 0 src s);
      try (done || lia).
    + intros i Hir. cbv beta. rewrite <- (Z.mod_small i (2 ^ 28)) at 2 by lia.
      apply (issues_lba28 i ATA_CMD_WRITE_SECTORS); [lia|by right].
    + intros i Hir. apply Hb. lia.
    + unfold U64. lia.
Qed.

(** A drive that keeps ERR refuses everything. *)
Lemma failed_refuses s : drive_failed (drive s) ->
  exists s', ata_wait_ready s = (s', false) /\ drive s' = drive s.
Proof.
  intros [He Hb]. unfold ata_wait_ready.
  destruct (poll_ready_spec (Z.to_nat ATA_TIMEOUT) s ltac:(rewrite Hb; by apply timeout_nat)) as (s' & E & Hd).
  exists s'. rewrite E, He. split; [done|]. rewrite Hd. destruct (drive s). cbn in *. by subst.
Qed.

(** The read callback of the ext4 driver fills the buffer with the sectors of
    the block, whatever the addressing mode, and leaves the disk as it was. *)
Theorem ata_block_read_correct p b buf s :
  let n := Z.of_nat (length buf) / 512 in
  let lba := p + b * n in
  Z.of_nat (length buf) mod 512 = 0 -> 0 <= p -> 0 <= b -> lba_range lba n ->
  (forall i, lba <= i < lba + n -> i ∉ dr_bad (drive s)) -> drive_idle (drive s) ->
  exists s', ext4_read_block_ata (Some (mkAtaDevice p)) b (Some buf) s
      = Some (s', Some (sectors_from (drive s) lba (Z.to_nat n)), 0)
    /\ same_medium (drive s) (drive s') /\ drive_idle (drive s').
Proof.
  intros n lba Hmod Hp Hb Hr Hbad Hi. unfold ext4_read_block_ata, block_lba. cbn [partition_lba].
  pose proof Hr as (H0 & Hn & Hr'). subst n lba.
  assert (Z.of_nat (length buf) / 512 <= 2 ^ 28) as Hn28 by lia.
  assert (wrap32 (Z.of_nat (length buf) / 512) = Z.of_nat (length buf) / 512) as -> by (apply Z.mod_small; unfold U32; lia).
  rewrite mul64_small, add64_small by (unfold U64; nia).
  destruct (Z.eqb_spec (Z.of_nat (length buf)) 0) as [E|_]; [exfalso; clear -Hn E; dlia|].
  rewrite Hmod. cbn [negb Z.eqb].
  destruct (read_sectors_spec _ _ buf s Hr Hbad) as (s' & E & Hm & Hi'); [dlia|done|].
  rewrite E. exists s'. rewrite drop_ge by dlia. by rewrite app_nil_r.
Qed.

(** C5. A block written through the callback is read back, and no sector outside
    it has changed. *)
Theorem ata_block_roundtrip p b buf buf' s :
  let n := Z.of_nat (length buf) / 512 in
  let lba := p + b * n in
  Z.of_nat (length buf) mod 512 = 0 -> length buf' = length buf -> is_bytes buf ->
  0 <= p -> 0 <= b -> lba_range lba n ->
  (forall i, lba <= i < lba + n -> i ∉ dr_bad (drive s)) -> drive_idle (drive s) ->
  exists s' s'', ext4_write_block_ata (Some (mkAtaDevice p)) b (Some buf) s = Some (s', 0)
    /\ (forall i, ~ (lba <= i < lba + n) -> sector (drive s') i = sector (drive s) i)
    /\ ext4_read_block_ata (Some (mkAtaDevice p)) b (Some buf') s' = Some (s'', Some buf, 0).
Proof.
  intros n lba Hmod Hlen Hby Hp Hb Hr Hbad Hi. unfold ext4_write_block_ata, ext4_read_block_ata, block_lba.
  cbn [partition_lba]. rewrite Hlen. pose proof Hr as (H0 & Hn & Hr'). subst n lba.
  assert (Z.of_nat (length buf) / 512 <= 2 ^ 28) as Hn28 by lia.
  assert (wrap32 (Z.of_nat (length buf) / 512) = Z.of_nat (length buf) / 512) as -> by (apply Z.mod_small; unfold U32; lia).
  rewrite mul64_small, add64_small by (unfold U64; nia).
  destruct (Z.eqb_spec (Z.of_nat (length buf)) 0) as [E|_]; [exfalso; clear -Hn E; dlia|].
  rewrite Hmod. cbn [negb Z.eqb]. set (n := Z.of_nat (length buf) / 512) in *. set (lba := p + b * n) in *.
  destruct (write_sectors_spec lba n buf s Hr Hbad) as (s1 & E1 & Hs1 & Hb1 & Hi1); [subst n; dlia|done|done|].
  destruct (read_sectors_spec lba n buf' s1 Hr) as (s2 & E2 & _); [by rewrite Hb1|subst n; dlia|done|].
  exists s1, s2. rewrite E1, E2. split; [done|]. split.
  - intros i Hni. unfold sector. rewrite Hs1, put_sectors_id by (done || (subst n; dlia)).
    rewrite decide_False; [done|]. lia.
  - rewrite (sectors_put (dr_sectors (drive s)) _ _ _ buf) by (done || (subst n; dlia)).
    rewrite take_ge, drop_ge by (subst n; dlia). by rewrite app_nil_r.
Qed.

(** C37. One bad sector disables the disk: reading it fails, and since the error
    bit stays in the status until the next command and the driver issues no
    command while it is set, every later read, write and flush fails too. *)
Theorem ata_error_sticks lba dest s :
  0 <= lba < 2 ^ 28 -> lba ∈ dr_bad (drive s) -> drive_idle (drive s) ->
  exists s', ata_read_sectors dest lba 1 s = Some (s', dest, false) /\ drive_failed (drive s')
    /\ forall t, drive_failed (drive t) ->
         (forall b l n, 0 < n -> exists t', ata_read_sectors b l n t = Some (t', b, false) /\ drive_failed (drive t'))
         /\ (forall b l n, 0 < n -> exists t', ata_write_sectors b l n t = Some (t', false) /\ drive_failed (drive t'))
         /\ (forall m, exists t', ata_flush_cache m t = (t', false) /\ drive_failed (drive t')).
Proof.
  intros Hl Hbad Hi.
  destruct (start_sector_spec (command_lba28 lba ATA_CMD_READ_SECTORS) DataIn lba s) as (s1 & E1 & Hm1 & Hb1 & Hok);
    [|done|done|].
  { rewrite <- (Z.mod_small lba (2 ^ 28)) at 2 by lia. apply (issues_lba28 lba ATA_CMD_READ_SECTORS); [lia|by left]. }
  rewrite bool_decide_eq_false_2 in * by tauto.
  exists s1. split; [|split; [done|]].
  { unfold ata_read_sectors, ata_read_sectors_lba28. destruct (Z.ltb_spec 268435455 lba); [lia|].
    change (1 =? 0) with false. change (Z.to_nat 1) with 1%nat. cbn [read_loop]. by rewrite E1. }
  intros t Ht. destruct (failed_refuses t Ht) as (t' & E & Hd).
  assert (drive_failed (drive t')) as Ht' by by rewrite Hd.
  assert (forall cmds, start_sector cmds t = (t', false)) as Hstart.
  { intros cmds. unfold start_sector. by rewrite E. }
  assert (forall n, 0 < n -> exists k, Z.to_nat n = Datatypes.S k) as HS.
  { intros n Hn. exists (Z.to_nat (n - 1)). lia. }
  split_and!.
  - intros b l n Hn. destruct (HS n Hn) as [k Hk].
    unfold ata_read_sectors, ata_read_sectors_lba28, ata_read_sectors_lba48.
    destruct (Z.eqb_spec n 0); [lia|]. rewrite Hk. cbn [read_loop]. rewrite !Hstart. cbn [negb].
    destruct (268435455 <? l), (281474976710655 <? l), (65535 <? n); first [by exists t'|by exists t].
  - intros b l n Hn. destruct (HS n Hn) as [k Hk].
    unfold ata_write_sectors, ata_write_sectors_lba28, ata_write_sectors_lba48.
    destruct (Z.eqb_spec n 0); [lia|]. rewrite Hk. cbn [write_loop]. rewrite !Hstart. cbn [negb].
    destruct (268435455 <? l), (281474976710655 <? l), (65535 <? n); first [by exists t'|by exists t].
  - intros m. unfold ata_flush_cache. rewrite E. by exists t'.
Qed.

(** A request that starts below 2^28 and ends beyond it wraps: its last
    sectors go to the start of the disk. *)
Theorem lba28_wraps_to_start src s :
  length src = 1024%nat -> is_bytes src -> drive_idle (drive s) -> dr_bad (drive s) = ∅ ->
  exists s', ata_write_sectors src (2 ^ 28 - 1) 2 s = Some (s', true)
    /\ sector (drive s') 0 = drop 512 src.
Proof.
  intros Hl Hb Hi Hbad. unfold ata_write_sectors, ata_write_sectors_lba28.
  change (268435455 <? 2 ^ 28 - 1) with false. change (2 =? 0) with false. cbv iota.
  change (Z.to_nat 2) with 2%nat.
  destruct (write_loop_spec (fun l => command_lba28 l ATA_CMD_WRITE_SECTORS) (fun i => i mod 2 ^ 28) 2
    (2 ^ 28 - 1) 0 src s) as (s' & E & Hs & _); try done.
  - intros i Hir. apply (issues_lba28 i ATA_CMD_WRITE_SECTORS); [lia|by right].
  - intros i _. rewrite Hbad. set_solver.
  - by rewrite Hl.
  - exists s'. split; [exact E|]. unfold sector. rewrite Hs. cbn [put_sectors].
    change ((2 ^ 28 - 1 + 1) mod 2 ^ 28) with 0. change (Z.to_nat 0) with O. rewrite drop_0.
    rewrite sector_of_insert; [|rewrite length_take, length_drop; lia|auto with bytes].
    rewrite decide_True by done. rewrite take_ge; [done|]. rewrite length_drop. lia.
Qed.
End Ata.
