(* ===== verification/Ext4Ata.v ===== *)
(** The ext4 driver on the ATA driver: the callbacks of [Ata] meet the contract
    of [Ext4Spec], so the theorems on reading files hold for files on the disk.
    Closed instances of the ATA theorems on a concrete drive are here too. *)

From S2P Require Import Prelude Packed Ports Ata AtaDrive AtaProps Ext4Layout Ext4 Ext4Spec Ext4Extents Ext4Files.

(** * The drive as a machine *)

#[export] Instance drive_ports : PortIO Drive := {
  port_in8 p d := if p =? ATA_PRIMARY_STATUS then drive_status d else (d, 0);
  port_out8 p v d := drive_out8 p v d;
  port_in32 _ d := (d, 0);
  port_out32 _ _ d := d;
  port_insw _ n d := drive_insw n d;
  port_outsw _ ws d := drive_outsw ws d;
}.

#[export] Program Instance drive_hardware : AtaHardware Drive := { drive d := d }.
Next Obligation. intros s. change (port_in8 ATA_PRIMARY_STATUS s) with (drive_status s). by destruct (drive_status s). Qed.
Next Obligation. done. Qed.
Next Obligation. intros n s. change (port_insw ATA_PRIMARY_DATA n s) with (drive_insw n s). by destruct (drive_insw n s). Qed.
Next Obligation. done. Qed.

(** A disk with one bad sector that is busy for a while after each command. *)
Definition sample_drive : Drive :=
  mkDrive (<[2050 := replicate 512 7]> ∅) {[5]} 3 0 (0, 0) (0, 0) (0, 0) false Idle 0.

Lemma sample_drive_idle : drive_idle sample_drive.
Proof. by split_and!. Qed.

Lemma ata_block_read_correct_witness :
  exists s', ext4_read_block_ata (Some EXT4_ATA_DEVICE) 1 (Some (zeros 1024)) sample_drive
    = Some (s', Some (replicate 512 7 ++ zeros 512), 0).
Proof.
  destruct (ata_block_read_correct 2048 1 (zeros 1024) sample_drive) as (s' & E & _).
  - by vm_compute.
  - lia.
  - lia.
  - split_and!; [by vm_compute|by vm_compute|left; by vm_compute].
  - intros i Hi. change (2048 + 1 * (Z.of_nat (length (zeros 1024)) / 512)) with 2050 in Hi.
    cbn. rewrite elem_of_singleton. lia.
  - exact sample_drive_idle.
  - exists s'. etransitivity; [exact E|]. by vm_compute.
Defined.

Lemma ata_block_roundtrip_witness :
  exists s' s'', ext4_write_block_ata (Some EXT4_ATA_DEVICE) 3 (Some (replicate 1024 9)) sample_drive = Some (s', 0)
    /\ ext4_read_block_ata (Some EXT4_ATA_DEVICE) 3 (Some (zeros 1024)) s' = Some (s'', Some (replicate 1024 9), 0).
Proof.
  destruct (ata_block_roundtrip 2048 3 (replicate 1024 9) (zeros 1024) sample_drive) as (s' & s'' & E1 & _ & E2).
  - by vm_compute.
  - by vm_compute.
  - apply Forall_replicate. by vm_compute.
  - lia.
  - lia.
  - split_and!; [by vm_compute|by vm_compute|left; by vm_compute].
  - intros i Hi. change (2048 + 3 * (Z.of_nat (length (replicate 1024 9)) / 512)) with 2054 in Hi.
    cbn. rewrite elem_of_singleton. lia.
  - exact sample_drive_idle.
  - exists s', s''. split; [exact E1|exact E2].
Defined.

Lemma ata_error_sticks_witness :
  exists s' s'', ata_read_sectors (zeros 512) 5 1 sample_drive = Some (s', zeros 512, false)
    /\ ata_read_sectors (zeros 512) 2050 1 s' = Some (s'', zeros 512, false).
Proof.
  destruct (ata_error_sticks 5 (zeros 512) sample_drive ltac:(lia)) as (s' & E & Hf & Hall).
  - cbn. by apply elem_of_singleton.
  - exact sample_drive_idle.
  - destruct (Hall s' Hf) as (Hr & _). destruct (Hr (zeros 512) 2050 1 ltac:(lia)) as (s'' & E2 & _).
    exists s', s''. split; [exact E|exact E2].
Defined.

Lemma lba28_wraps_to_start_witness :
  exists s', ata_write_sectors (replicate 1024 9) (2 ^ 28 - 1) 2 (mkDrive ∅ ∅ 3 0 (0, 0) (0, 0) (0, 0) false Idle 0)
      = Some (s', true)
    /\ sector s' 0 = replicate 512 9.
Proof.
  destruct (lba28_wraps_to_start (replicate 1024 9) (mkDrive ∅ ∅ 3 0 (0, 0) (0, 0) (0, 0) false Idle 0))
    as (s' & E & H).
  - by vm_compute.
  - apply Forall_replicate. by vm_compute.
  - by split_and!.
  - done.
  - exists s'. split; [exact E|]. etransitivity; [exact H|]. by vm_compute.
Defined.

(** * The callbacks as a device *)

Section Callbacks.
Context {S : Type} `{Hw : AtaHardware S} `{Env : Ext4Env S}.
(** The allocator leaves the disk alone. *)
Context (kmalloc_keeps : forall n s, drive (fst (env_kmalloc n s)) = drive s).
(** Blocks of [n] sectors, a divisor of 2048. *)
Context (n : Z) (n_range : 2 <= n <= 128) (n_div : 2048 mod n = 0).

Definition ata_device_of (dev : Z) : option Ext4AtaDevice :=
  if dev =? 0 then None else Some EXT4_ATA_DEVICE.

(** The callbacks that [ext4_mount_c] is given. *)
Definition ata_read_c : Ext4ReadBlockC S := fun dev b buf s =>
  match ext4_read_block_ata (ata_device_of dev) b (Some buf) s with
  | Some (s', Some buf', rc) => (s', (rc, buf'))
  | _ => (s, (-1, buf))
  end.

Definition ata_ops : Ext4BlockOps S := mkOps (Some read_block_trampoline) None None.

Definition drive_settled (d : Drive) : Prop :=
  (drive_idle d \/ drive_failed d) /\ Z.of_nat (dr_latency d) < ATA_TIMEOUT.

Definition ata_inv (w : World S) : Prop :=
  EXT4_C_READ w = Some ata_read_c /\ Z.of_nat (length (EXT4_MMAP_SCRATCH w)) = EXT4_MMAP_SCRATCH_SIZE
  /\ drive_settled (drive (env w)).

(** Where a block starts; the arithmetic of the code wraps. *)
Definition ata_lba (b : Z) : Z := block_lba EXT4_ATA_DEVICE b (512 * n).

Lemma n_pow : exists q, 2048 = n * q.
Proof. exists (2048 / n). pose proof (Z.div_mod 2048 n ltac:(lia)). lia. Qed.

Lemma ata_lba_aligned b : 0 <= ata_lba b < U64 /\ ata_lba b mod n = 0.
Proof.
  unfold ata_lba, block_lba. cbn [partition_lba EXT4_ATA_DEVICE]. split; [apply add64_range|].
  replace (512 * n / 512) with n by (rewrite Z.mul_comm, Z.div_mul; lia).
  unfold wrap32. rewrite (Z.mod_small n) by (unfold U32; lia).
  destruct n_pow as [q Hq]. unfold EXT4_PARTITION_LBA, add64, mul64, wrap64.
  rewrite Zplus_mod_idemp_r, Hq.
  pose proof (Z.div_mod (n * q + b * n) U64 ltac:(done)) as H.
  assert (U64 = n * (q * 2 ^ 53)) as Hu by (unfold U64; change 18446744073709551616 with (2048 * 2 ^ 53); rewrite Hq; ring).
  revert H. generalize ((n * q + b * n) / U64) ((n * q + b * n) mod U64). intros d r H. rewrite Hu in H.
  replace r with (n * (q + b - q * 2 ^ 53 * d)) by lia.
  rewrite Z.mul_comm. apply Z.mod_mul. lia.
Qed.

(** An aligned block does not cross a bound that its size divides. *)
Lemma aligned_below a k q : 0 < k -> a mod k = 0 -> a < k * q -> a + k <= k * q.
Proof.
  intros Hk Ha Hlt. pose proof (Z.div_mod a k ltac:(lia)) as E. rewrite Ha in E.
  assert (a / k < q) by nia. nia.
Qed.

(** A transfer from any settled state. *)
Lemma read_loop_any cmds c lba pos dest s :
  (forall i, lba <= i < lba + Z.of_nat c -> issues (cmds i) DataIn i) ->
  0 <= lba -> lba + Z.of_nat c < U64 -> 0 <= pos -> pos + 512 * Z.of_nat c <= Z.of_nat (length dest) ->
  drive_settled (drive s) ->
  exists s' dest' ok, read_loop cmds c lba pos dest s = Some (s', dest', ok)
    /\ same_medium (drive s) (drive s') /\ drive_settled (drive s') /\ length dest' = length dest
    /\ (ok = true -> dest' = take (Z.to_nat pos) dest ++ sectors_from (drive s) lba c
                             ++ drop (Z.to_nat pos + 512 * c) dest).
Proof.
  intros Hc H0 Hlim Hp Hl [Hset Hlat].
  destruct c as [|c].
  { exists s, dest, true. split; [done|]. split; [done|]. split; [done|]. split; [done|]. intros _.
    cbn [sectors_from app]. by rewrite Nat.mul_0_r, Nat.add_0_r, take_drop. }
  destruct Hset as [Hi|Hf].
  2:{ destruct (failed_refuses s Hf) as (s' & E & Hd). exists s', dest, false. cbn [read_loop].
      unfold start_sector. rewrite E. cbn [negb]. unfold drive_settled. rewrite Hd.
      split; [done|]. split; [done|]. split; [by split; [right|]|]. done. }
  remember (Datatypes.S c) as k eqn:Ek. clear Ek c.
  revert lba pos dest s Hc H0 Hlim Hp Hl Hlat Hi.
  induction k as [|k IH]; intros lba pos dest s Hc H0 Hlim Hp Hl Hlat Hi.
  { exists s, dest, true. split; [done|]. split; [done|]. split; [by split; [left|]|]. split; [done|]. intros _.
    cbn [sectors_from app]. by rewrite Nat.mul_0_r, Nat.add_0_r, take_drop. }
  cbn [read_loop].
  destruct (start_sector_spec (cmds lba) DataIn lba s) as (s1 & E1 & Hm1 & Hb1 & Hok); [apply Hc; lia|done|done|].
  rewrite E1. pose proof Hm1 as (Hs1 & Hbad1 & Hlat1).
  destruct (bool_decide_reflect (lba ∉ dr_bad (drive s))) as [Hin|Hin]; cbn [negb].
  2:{ exists s1, dest, false. split; [done|]. split; [done|]. unfold drive_settled. rewrite Hlat1.
      split; [by split; [right|]|]. done. }
  destruct Hok as [He1 Hp1]. destruct (insw_run s1) as (s2 & ws & E2 & Hd2 & Hws). rewrite E2.
  unfold drive_insw in Hd2, Hws. rewrite Hp1 in Hd2, Hws. cbn [fst snd] in Hd2, Hws.
  subst ws. rewrite sector_words.
  assert (same_medium (drive s) (drive s2)) as Hm2 by (rewrite Hd2; exact Hm1).
  rewrite splice_some by (rewrite ?sector_length; lia). rewrite add64_small by lia.
  assert (sector (drive s1) lba = sector (drive s) lba) as Hsec by (unfold sector; by rewrite Hs1).
  set (A := take (Z.to_nat pos) dest). set (B := sector (drive s1) lba).
  assert (length (A ++ B) = Z.to_nat pos + 512)%nat as HAB
    by (subst A B; rewrite length_app, length_take, sector_length; lia).
  destruct (IH (lba + 1) (pos + 512) (A ++ B ++ drop (Z.to_nat pos + length B) dest) s2)
    as (s3 & d3 & ok & E3 & Hm3 & Hset3 & Hl3 & Hd3); try lia.
  - intros i Hr. apply Hc. lia.
  - rewrite app_assoc, length_app, HAB, length_drop. subst B. rewrite sector_length. lia.
  - by rewrite (proj2 (proj2 Hm2)).
  - apply (idle_after s2 (drive s)); [done|done|by rewrite Hd2|by rewrite Hd2|left; by rewrite Hd2].
  - exists s3, d3, ok. rewrite E3. split; [done|]. split.
    { destruct Hm2 as (? & ? & ?), Hm3 as (? & ? & ?). split_and!; congruence. }
    split; [done|]. split.
    { rewrite Hl3, app_assoc, length_app, HAB, length_drop. subst B. rewrite sector_length. lia. }
    intros Ht. rewrite (Hd3 Ht). rewrite (same_medium_sectors (drive s) (drive s2)) by done.
    replace (Z.to_nat (pos + 512)) with (Z.to_nat pos + 512)%nat by lia.
    rewrite (app_assoc A B), take_app_length' by done.
    rewrite drop_app_ge by lia. rewrite drop_drop, <- !app_assoc. cbn [sectors_from].
    rewrite <- Hsec. fold B. rewrite <- !app_assoc. do 4 f_equal. subst B. rewrite sector_length. lia.
Qed.

(** One block, in any state of the disk. *)
Lemma ata_read_any b buf s : Z.of_nat (length buf) = 512 * n -> drive_settled (drive s) ->
  exists s' buf' rc, ext4_read_block_ata (Some EXT4_ATA_DEVICE) b (Some buf) s = Some (s', Some buf', rc)
    /\ same_medium (drive s) (drive s') /\ drive_settled (drive s') /\ length buf' = length buf
    /\ (rc = 0 -> buf' = sectors_from (drive s) (ata_lba b) (Z.to_nat n)).
Proof.
  intros Hl Hset. unfold ext4_read_block_ata. rewrite Hl. fold (ata_lba b).
  destruct (Z.eqb_spec (512 * n) 0); [lia|].
  replace (512 * n mod 512) with 0 by (rewrite Z.mul_comm, Z.mod_mul; lia). cbn [negb Z.eqb].
  replace (512 * n / 512) with n by (rewrite Z.mul_comm, Z.div_mul; lia).
  unfold wrap32. rewrite (Z.mod_small n) by (unfold U32; lia).
  destruct (ata_lba_aligned b) as [Hr Ha]. destruct n_pow as [q Hq].
  assert (2 ^ 28 = n * (q * 2 ^ 17)) as H28 by (change (2 ^ 28) with (2048 * 2 ^ 17); rewrite Hq; ring).
  assert (2 ^ 48 = n * (q * 2 ^ 37)) as H48 by (change (2 ^ 48) with (2048 * 2 ^ 37); rewrite Hq; ring).
  assert (forall cmds, (forall i, ata_lba b <= i < ata_lba b + n -> issues (cmds i) DataIn i) ->
    ata_lba b + n <= 2 ^ 48 ->
    exists s' buf' ok, read_loop cmds (Z.to_nat n) (ata_lba b) 0 buf s = Some (s', buf', ok)
      /\ same_medium (drive s) (drive s') /\ drive_settled (drive s') /\ length buf' = length buf
      /\ (ok = true -> buf' = sectors_from (drive s) (ata_lba b) (Z.to_nat n))) as Hloop.
  { intros cmds Hc Hlim.
    destruct (read_loop_any cmds (Z.to_nat n) (ata_lba b) 0 buf s) as (s' & d & ok & E & Hm & Hs & Hld & Hd); try lia.
    - intros i Hir. apply Hc. lia.
    - unfold U64. lia.
    - done.
    - exists s', d, ok. split; [exact E|]. split; [done|]. split; [done|]. split; [done|].
      intros Ht. rewrite (Hd Ht), take_0. cbn [app]. rewrite drop_ge by lia. by rewrite app_nil_r. }
  unfold ata_read_sectors, ata_read_sectors_lba28, ata_read_sectors_lba48.
  destruct (Z.eqb_spec n 0); [lia|]. destruct (Z.ltb_spec 65535 n); [lia|].
  destruct (Z.ltb_spec 268435455 (ata_lba b)) as [Hhi|Hlo].
  - destruct (Z.ltb_spec 281474976710655 (ata_lba b)) as [Hbig|Hsm].
    { exists s, buf, (-1). split; [done|]. split; [done|]. split; [done|]. split; [done|]. lia. }
    pose proof (aligned_below (ata_lba b) n (q * 2 ^ 37) ltac:(lia) Ha ltac:(lia)) as Hlim.
    destruct (Hloop (fun l => command_lba48 l ATA_CMD_READ_SECTORS_EXT)) as (s' & d & ok & -> & Hm & Hs & Hld & Hd).
    { intros i Hir. apply (issues_lba48 i ATA_CMD_READ_SECTORS_EXT); [lia|by left]. }
    { lia. }
    exists s', d, (if ok then 0 else -1). split; [done|]. split; [done|]. split; [done|]. split; [done|].
    destruct ok; [intros _; by apply Hd|lia].
  - pose proof (aligned_below (ata_lba b) n (q * 2 ^ 17) ltac:(lia) Ha ltac:(lia)) as Hlim.
    destruct (Hloop (fun l => command_lba28 l ATA_CMD_READ_SECTORS)) as (s' & d & ok & -> & Hm & Hs & Hld & Hd).
    { intros i Hir. rewrite <- (Z.mod_small i (2 ^ 28)) at 2 by lia.
      apply (issues_lba28 i ATA_CMD_READ_SECTORS); [lia|by left]. }
    { lia. }
    exists s', d, (if ok then 0 else -1). split; [done|]. split; [done|]. split; [done|]. split; [done|].
    destruct ok; [intros _; by apply Hd|lia].
Qed.

Lemma sectors_from_bytes d lba k : is_bytes (sectors_from d lba k).
Proof.
  revert lba. induction k as [|k IH]; intros lba; cbn; [constructor|].
  apply is_bytes_app; [apply sector_bytes|apply IH].
Qed.

(** The disk as the device of the ext4 driver. *)
#[export] Program Instance ata_reader : BlockReader S ata_ops 1 (512 * n) := {
  blk w b := sectors_from (drive (env w)) (ata_lba b) (Z.to_nat n);
  dev_inv := ata_inv;
  good _ := False;
}.
Next Obligation. intros w b. cbv beta. rewrite sectors_from_length. lia. Qed.
Next Obligation. intros w b. apply sectors_from_bytes. Qed.
Next Obligation.
  intros w sc (Hc & Hs & Hd) Hl. split; [|done]. split; [done|]. split; [|done].
  by rewrite <- Hs, <- Hl.
Qed.
Next Obligation. by intros w (_ & -> & _). Qed.
Next Obligation.
  intros w k d p (Hc & Hs & Hd) E. pose proof (kmalloc_keeps k (env w)) as Hk. rewrite E in Hk. cbn [fst] in Hk.
  split; [|split; [|done]].
  - split; [done|]. split; [done|]. unfold env, set_env. by rewrite Hk.
  - intros b. unfold env at 1, set_env. by rewrite Hk.
Qed.
Next Obligation.
  intros w b buf (Hc & Hs & Hd) Hl.
  destruct (ata_read_any b buf (env w) Hl Hd) as (s' & buf' & rc & E & Hm & Hset & Hlen & Hok).
  exists read_block_trampoline, (set_env s' w), buf', (if rc =? 0 then Ok tt else Err Io).
  split; [done|]. split.
  { unfold read_block_trampoline. rewrite Hc. unfold ata_read_c. change (ata_device_of 1) with (Some EXT4_ATA_DEVICE).
    by rewrite E. }
  split; [by split_and!|]. split; [|split; [done|split; [done|]]].
  - intros c. unfold env at 1, set_env. by apply same_medium_sectors.
  - destruct (Z.eqb_spec rc 0); [left; split; [done|by apply Hok]|right; exists Io; split; [done|by left]].
Qed.
End Callbacks.

Section Reading.
Context {S : Type} `{Hw : AtaHardware S} `{Env : Ext4Env S}.
Context (kmalloc_keeps : forall n s, drive (fst (env_kmalloc n s)) = drive s).
Context (n : Z) (n_range : 2 <= n <= 128) (n_div : 2048 mod n = 0).

(** C33. Reading a file through the ext4 driver mounted on the ATA callbacks gives
    the bytes of the sectors its blocks are on, two to eight sectors a block from
    sector 2048; when it fails it is with an I/O or memory error or with the error
    of the block map, and the disk is as before in every case. *)
Theorem ext4_reads_from_ata (fs : Ext4Filesystem S) (w : World S) inode m off dst :
  let content b := sectors_from (drive (env w)) (ata_lba n b) (Z.to_nat n) in
  let len := read_len inode off (Z.of_nat (length dst)) in
  file_ok (Dev := ata_reader kmalloc_keeps n n_range n_div) fs w inode m -> n <= 8 -> is_u64 off ->
  exists w' dst' r, read_at_into fs inode off (w, dst) = Some ((w', dst'), r)
    /\ (forall b, sectors_from (drive (env w')) (ata_lba n b) (Z.to_nat n) = content b)
    /\ match r with
       | Ok x => x = len /\ exists l, file_range content m (512 * n) off (Z.to_nat len) = Ok l
           /\ dst' = l ++ drop (Z.to_nat len) dst
       | Err e => env_error e \/ file_range content m (512 * n) off (Z.to_nat len) = Err e
       end.
Proof.
  intros content len Hf Hn Hoff.
  destruct (read_at_spec (Dev := ata_reader kmalloc_keeps n n_range n_div) fs w inode m off dst Hf
    ltac:(unfold EXT4_MMAP_SCRATCH_SIZE; lia) Hoff) as (w' & d & r & E & (_ & Hb & _) & _ & Hr).
  exists w', d, r. split; [exact E|]. split; [exact Hb|].
  change (blk w) with content in Hr. fold len in Hr.
  destruct Hr as [Hr|(e & -> & He & _)]; [|by left].
  destruct (file_range content m (512 * n) off (Z.to_nat len)) as [l|e].
  - destruct Hr as [-> ->]. split; [done|]. by exists l.
  - subst r. by right.
Qed.
End Reading.

(** * A file on the sample disk *)

#[export] Instance drive_env : Ext4Env Drive := fun _ d => (d, 1).

Lemma drive_keeps n d : drive (fst (env_kmalloc n d)) = drive d.
Proof. done. Qed.

(** A file of three bytes in block 1, which is sectors 2050 and 2051. *)
Definition ata_inode : bytes :=
  set_field Ext4Inode "i_size_lo" 3 (zeros 40 ++ to_le 4 1 ++ zeros 116).
Definition ata_fs : Ext4Filesystem Drive :=
  mkFs 1 ata_ops (zeros 1024) [] None 1024 8192 8 256 1 32 100 false false false.
Definition ata_world : World Drive := mkWorld sample_drive (Some ata_read_c) None None (zeros 4096).

Lemma ext4_reads_from_ata_witness :
  exists w' r, read_at_into ata_fs ata_inode 0 (ata_world, zeros 4) = Some ((w', [7; 7; 7; 0]), r) /\ r = Ok 3.
Proof.
  destruct (ext4_reads_from_ata drive_keeps 2 ltac:(lia) eq_refl ata_fs ata_world ata_inode
    (fun lb => Ok (if lb =? 0 then 1 else 0)) 0 (zeros 4)) as (w' & d & r & E & _ & Hr).
  - split.
    + split; [reflexivity|reflexivity|reflexivity|by vm_compute].
    + split; [reflexivity|]. split; [by vm_compute|].
      split; [left; exact sample_drive_idle|by vm_compute].
    + apply (bool_decide_unpack (Forall is_u8 _)). by vm_compute.
    + unfold block_map. replace (uses_extents ata_inode) with false by by vm_compute.
      intros lb Hlb. replace (inode_size_of ata_inode / (512 * 2) + 1) with 1 in Hlb by by vm_compute.
      assert (lb = 0) as -> by lia. eexists _, _. split; [by vm_compute|]. by vm_compute.
  - lia.
  - by vm_compute.
  - assert (snd <$> read_at_into ata_fs ata_inode 0 (ata_world, zeros 4) = Some (Ok 3)) as Es by by vm_compute.
    rewrite E in Es. injection Es as ->. exists w', (Ok 3). split; [|reflexivity]. rewrite E.
    destruct Hr as (_ & l & Hl & ->). do 3 f_equal.
    match type of Hl with ?x = Ok l => assert (x = Ok [7; 7; 7]) as El by by vm_compute end.
    rewrite El in Hl. injection Hl as <-. by vm_compute.
Defined.
