(* ===== verification/FileFault.v ===== *)
(** Mapped files: the page-fault handler of [Demand] with the read callback of
    [Ext4].  A page fault in a region that maps an ext4 file fills the page with
    the bytes of the file. *)

From S2P Require Import Prelude Pmm FrameAlloc Paging PagingFacts PagingProps Cow CowProps Demand DemandProps Packed Ext4Layout Ext4 Ext4Spec Ext4Extents Ext4Files Ext4Sample Ext4Props.

(** [slice::from_raw_parts_mut(dst, len)] on the bytes of memory, and what a
    write to that slice leaves. *)
Definition load_bytes (d : Z) (n : nat) (m : store) : bytes :=
  map (fun i => rd m (d + Z.of_nat i)) (seq 0 n).

Fixpoint store_bytes (d : Z) (bs : bytes) (m : store) : store :=
  match bs with
  | [] => m
  | b :: t => store_bytes (d + 1) t (wr m d b)
  end.

Lemma load_bytes_length d n m : length (load_bytes d n m) = n.
Proof. unfold load_bytes. by rewrite length_map, length_seq. Qed.

Lemma store_bytes_spec d bs m a :
  rd (store_bytes d bs m) a
  = if decide (d <= a < d + Z.of_nat (length bs)) then default 0 (bs !! Z.to_nat (a - d)) else rd m a.
Proof.
  revert d m. induction bs as [|b t IH]; intros d m; cbn [store_bytes length].
  { by rewrite decide_False by lia. }
  rewrite IH. destruct (decide (a = d)) as [->|Hne].
  - rewrite decide_False by lia. rewrite decide_True by lia. by rewrite Z.sub_diag, rd_wr_eq.
  - rewrite rd_wr_ne by done. destruct (decide (d + 1 <= a < d + 1 + Z.of_nat (length t))).
    + rewrite decide_True by lia.
      by replace (Z.to_nat (a - d)) with (S (Z.to_nat (a - (d + 1)))) by lia.
    + by rewrite decide_False by lia.
Qed.

(** The byte of a range is the byte of the file. *)
Lemma file_range_lookup c m bs off n l i : file_range c m bs off n = Ok l -> (i < n)%nat ->
  exists p, m ((off + Z.of_nat i) / bs) = Ok p /\ l !! i = Some (file_byte c bs (off + Z.of_nat i) p).
Proof.
  revert off l i. induction n as [|n IH]; intros off l i E Hi; [lia|]. cbn in E.
  destruct (m (off / bs)) as [p|] eqn:Em; [|done].
  destruct (file_range c m bs (off + 1) n) as [l'|] eqn:El; [|done]. injection E as <-.
  destruct i as [|i].
  - rewrite Z.add_0_r. by exists p.
  - destruct (IH _ _ i El ltac:(lia)) as (p' & Hp' & Hl'). exists p'.
    replace (off + Z.of_nat (S i)) with (off + 1 + Z.of_nat i) by lia. done.
Qed.

Section FileFault.
Context {D : Type} `{Env : Ext4Env D} {o : Ext4BlockOps D} {dev bs : Z}.
Context `{Dev : !BlockReader D o dev bs}.
Context {A : Type} {Ops : FrameOps A} {Laws : FrameLaws A}.

(** The callback on memory: reading keeps the disk, so each call starts from the
    same outside state. *)
Definition ext4_callback (w : World D) (file : Ext4MmapFile D) (p c off d len : Z) (m : store)
  : store * Z :=
  match ext4_mmap_read_at (Some file) off (Some (load_bytes d (Z.to_nat len) m)) w with
  | Some (_, Some buf, n) => (store_bytes d (take (Z.to_nat len) buf) m, n)
  | _ => (m, 0)
  end.

Lemma ext4_callback_ok w file : callback_ok (ext4_callback w file).
Proof.
  intros p c off d len m a Ha. unfold ext4_callback.
  destruct (ext4_mmap_read_at _ _ _ _) as [[[w' [buf|]] n]|]; [|done|done]. cbn [fst].
  rewrite store_bytes_spec, decide_False; [done|]. rewrite length_take. lia.
Qed.

(** A mapped file on a device that does not fail, with every block readable. *)
Record mapped_ok (w : World D) (file : Ext4MmapFile D) (m : Z -> result Ext4Error Z) : Prop := {
  mo_file : file_ok (o := o) (dev := dev) (bs := bs) (mf_fs file) w (mf_inode file) m;
  mo_block : bs <= EXT4_MMAP_SCRATCH_SIZE;
  mo_good : good w;
  mo_size : mf_file_size file = inode_size_of (mf_inode file);
  mo_map : forall lb, 0 <= lb <= mf_file_size file / bs -> exists p, m lb = Ok p;
}.

(** Byte [k] of the file. *)
Definition mapped_byte (w : World D) (m : Z -> result Ext4Error Z) (k : Z) : Z :=
  match m (k / bs) with Ok p => file_byte (blk w) bs k p | Err _ => 0 end.

Lemma file_range_total c m off n size : 0 < bs -> 0 <= off -> off + Z.of_nat n <= size ->
  (forall lb, 0 <= lb <= size / bs -> exists p, m lb = Ok p) ->
  exists l, file_range c m bs off n = Ok l.
Proof.
  intros Hbs. revert off. induction n as [|n IH]; intros off H0 Hn Hm; [by exists []|]. cbn.
  destruct (Hm (off / bs)) as [p ->].
  { split; [apply Z.div_pos; lia|apply Z.div_le_mono; lia]. }
  destruct (IH (off + 1)) as [l ->]; [lia|lia|done|]. by eexists.
Qed.

(** The callback delivers the bytes of the file. *)
Lemma ext4_callback_spec w file m p c off d len mem :
  mapped_ok w file m -> 0 <= off -> 0 < len -> off + len <= mf_file_size file ->
  forall i, 0 <= i < len -> rd (fst (ext4_callback w file p c off d len mem)) (d + i) = mapped_byte w m (off + i).
Proof.
  intros [Hf Hbs Hg Hsz Hmap] Ho Hl Hsize i Hi. pose proof (fo_fs _ _ _ _ Hf) as Hfs.
  destruct (on_min_size _ Hfs) as [Hmin _]. unfold EXT4_MIN_BLOCK_SIZE in Hmin.
  pose proof (inode_size_range _ (fo_bytes _ _ _ _ Hf)) as Hr. unfold is_u64 in Hr.
  set (buf := load_bytes d (Z.to_nat len) mem).
  assert (Z.of_nat (length buf) = len) as Hlb by (subst buf; rewrite load_bytes_length; lia).
  destruct (read_at_spec (mf_fs file) w (mf_inode file) m off buf Hf Hbs ltac:(unfold is_u64; lia))
    as (w' & dst' & r & E & _ & _ & Hr').
  rewrite Hlb in Hr'. unfold read_len in Hr'. rewrite Z.max_r, Z.min_l in Hr' by lia.
  destruct (file_range_total (blk w) m off (Z.to_nat len) (mf_file_size file)) as [l Hll]; [lia|lia|lia|done|].
  rewrite Hll in Hr'. destruct Hr' as [[-> ->]|(? & _ & _ & ?)]; [|done].
  change (Z.to_nat 0) with O in E. rewrite take_0, drop_ge in E by lia. rewrite app_nil_r in E. cbn [app] in E.
  pose proof (file_range_length _ _ _ _ _ _ Hll) as Hlen.
  unfold ext4_callback, ext4_mmap_read_at, mmap_read_at_into. fold buf.
  destruct (Z.eqb_spec (Z.of_nat (length buf)) 0); [lia|]. rewrite E. cbn [fst].
  rewrite take_ge by lia. rewrite store_bytes_spec, decide_True by lia.
  replace (Z.to_nat (d + i - d)) with (Z.to_nat i) by lia.
  destruct (file_range_lookup _ _ _ _ _ _ (Z.to_nat i) Hll ltac:(lia)) as (q & Hq & ->).
  rewrite Z2Nat.id in * by lia. unfold mapped_byte. by rewrite Hq.
Qed.

(** C10. A page fault in a region that maps an ext4 file: when the handler
    succeeds the page is mapped, and byte [i] of the page is byte [off + i] of the
    file, or zero past its end. *)
Theorem file_fault_reads_file w file m T mg (s s' : demand_state A) a code r f off :
  mapped_ok w file m ->
  paging_ok T mg (dpaging s) -> is_u64 a -> canonical mg (demand_align_down a) = true ->
  view mg (dpaging s) (demand_align_down a) = None ->
  find_region a (REGIONS s) = Some r -> 0 <= vm_flags r ->
  backing r = FileBacked f -> file_size f = mf_file_size file -> 0 <= file_offset f -> is_u64 (vm_start r) ->
  page_file_offset r f (demand_align_down a) = Ok off ->
  handle_demand_page_fault (ext4_callback w file) a code s = Some (s', Ok tt) ->
  exists x, view mg (dpaging s') (demand_align_down a)
      = Some (PageLeaf (pte_set x (flags_set (vm_flags r) PRESENT)))
    /\ forall i, 0 <= i < 4096 ->
         rd (dbytes s') (x + i) = if off + i <? mf_file_size file then mapped_byte w m (off + i) else 0.
Proof.
  intros Hm Hok Ha Hc Hv Hfind Hfl Hb Hsize Hfo Hvs Hoff E.
  pose proof (demand_fault_spec (ext4_callback w file) T mg s a code (ext4_callback_ok w file) Hok Ha) as H.
  cbv zeta in H. rewrite E in H.
  destruct H as (r' & x & Hr & _ & _ & _ & Hview & _ & _ & Hfill & _); [|done|done|].
  { intros r0 Hr0. rewrite Hfind in Hr0. by injection Hr0 as <-. }
  rewrite Hfind in Hr. injection Hr as <-.
  exists x. split; [rewrite Hview; by rewrite decide_True|].
  assert (0 <= off) as Hoff0.
  { revert Hoff. unfold page_file_offset, checked_sub64, checked_add64.
    destruct (Z.leb_spec 0 (demand_align_down a - vm_start r)); [|done].
    destruct (Z.ltb_spec (file_offset f + (demand_align_down a - vm_start r)) U64); [|done].
    intros [= <-]. lia. }
  destruct Hfill as (m0 & Hz & _ & ->). apply page_file_offset_ok in Hoff as ->.
  set (off := page_offset_in r f (demand_align_down a)) in *.
  assert (file_bytes r (demand_align_down a) = Z.max 0 (Z.min 4096 (mf_file_size file - off))) as ->
    by (unfold file_bytes; by rewrite Hb, Hsize).
  rewrite Hb. intros i Hi.
  destruct (Z.ltb_spec 0 (Z.max 0 (Z.min 4096 (mf_file_size file - off)))) as [Hin|Hout].
  2:{ destruct (Z.ltb_spec (off + i) (mf_file_size file)); [lia|by apply Hz]. }
  rewrite Z.max_r by lia. destruct (Z.ltb_spec (off + i) (mf_file_size file)) as [Hi'|Hi'].
  - apply (ext4_callback_spec w file m); (done || lia).
  - rewrite (ext4_callback_ok w file) by lia. by apply Hz.
Qed.
End FileFault.

(** * A closed instance

    The file of [Ext4Sample], mapped from its byte 1024 on at 0x7000. *)

Definition sample_mapped : Ext4MmapFile (gmap Z bytes) := mkMmapFile sample_fs file_inode 2500.
Definition mapped_region : VmRegion := mkVmRegion 28672 32768 2 (FileBacked (mkFileBacking 0 0 1024 2500)).
Definition mapped_demand : demand_state pmm_global :=
  mkDemand (dpaging sample_demand) (dbytes sample_demand) [Some mapped_region].
Definition sample_callback := ext4_callback sample_world sample_mapped.

Lemma sample_mapped_ok :
  mapped_ok (o := ram_ops) (dev := 0) (bs := RAM_BS) sample_world sample_mapped (map_of file_extents).
Proof.
  split; [exact sample_file_ok|by vm_compute|exact I|by vm_compute|].
  change (mf_file_size sample_mapped / RAM_BS) with 2. intros lb Hlb.
  assert (lb = 0 \/ lb = 1 \/ lb = 2) as [->|[->| ->]] by lia;
    eexists; vm_compute; reflexivity.
Qed.

Lemma file_fault_reads_file_witness :
  exists s' x, handle_demand_page_fault sample_callback 28680 0 mapped_demand = Some (s', Ok tt)
    /\ rd (dbytes s') x = 4 /\ rd (dbytes s') (x + 1024) = 7 /\ rd (dbytes s') (x + 1476) = 0.
Proof.
  destruct sample_demand_ok as [Hok Hview].
  assert (is_ok <$> (snd <$> handle_demand_page_fault sample_callback 28680 0 mapped_demand) = Some true)
    as E by (by vm_compute).
  destruct (handle_demand_page_fault sample_callback 28680 0 mapped_demand) as [[s' [[]|er]]|] eqn:Eh;
    [|discriminate E|discriminate E].
  destruct (file_fault_reads_file (bs := RAM_BS) sample_world sample_mapped (map_of file_extents)
    sample_types sample_mgr mapped_demand s' 28680 0 mapped_region (mkFileBacking 0 0 1024 2500) 1024
    sample_mapped_ok Hok ltac:(by vm_compute) ltac:(by vm_compute)
    ltac:(change (dpaging mapped_demand) with (dpaging sample_demand); rewrite Hview; by vm_compute)
    ltac:(by vm_compute) ltac:(by vm_compute) eq_refl eq_refl ltac:(by vm_compute) ltac:(by vm_compute)
    ltac:(by vm_compute) Eh) as (x & _ & H).
  exists s', x. split; [reflexivity|].
  split; [|split]; [rewrite <- (Z.add_0_r x)| |]; (rewrite H by lia; by vm_compute).
Defined.
