(* ===== verification/Pci.v ===== *)
(** The PCI bus: [drivers/pci/lib.rs].

    Configuration space through the ports 0xCF8 and 0xCFC and through the memory
    window, base address registers, the capability list, and the enumeration of
    the buses.  The machine is that of [Ports]. *)

From S2P Require Import Prelude Ports.

Definition PCI_CONFIG_ADDRESS : Z := 3320.
Definition PCI_CONFIG_DATA : Z := 3324.

Definition PCI_VENDOR_ID : Z := 0.
Definition PCI_DEVICE_ID : Z := 2.
Definition PCI_COMMAND : Z := 4.
Definition PCI_STATUS : Z := 6.
Definition PCI_REVISION_ID : Z := 8.
Definition PCI_PROG_IF : Z := 9.
Definition PCI_SUBCLASS : Z := 10.
Definition PCI_CLASS : Z := 11.
Definition PCI_HEADER_TYPE : Z := 14.
Definition PCI_BAR0 : Z := 16.
Definition PCI_CAPABILITIES_PTR : Z := 52.

Definition PCI_COMMAND_IO_SPACE : Z := bit 0.
Definition PCI_COMMAND_MEMORY_SPACE : Z := bit 1.
Definition PCI_COMMAND_BUS_MASTER : Z := bit 2.
Definition PCI_COMMAND_INTERRUPT_DISABLE : Z := bit 10.
Definition PCI_STATUS_CAPABILITIES_LIST : Z := bit 4.
Definition PCI_CAP_ID_MSI : Z := 5.
Definition PCI_CAP_ID_MSIX : Z := 17.
Definition PCI_HEADER_TYPE_MULTI_FUNCTION : Z := 128.
Definition PCI_VENDOR_ID_INVALID : Z := 65535.

(** [a + b] on [u8]. *)
Definition add8 (a b : Z) : Z := wrap8 (a + b).

(** * Addresses *)

Record PciAddress := mkPciAddress {
  pa_bus : Z;
  pa_device : Z;
  pa_function : Z;
}.

Definition PciAddress_new (bus device function : Z) : PciAddress :=
  mkPciAddress bus (Z.land device 31) (Z.land function 7).

Definition config_address (a : PciAddress) (offset : Z) : Z :=
  let offset := Z.land offset 252 in
  Z.lor (Z.lor (Z.lor (Z.lor 2147483648 (Z.shiftl (pa_bus a) 16)) (Z.shiftl (pa_device a) 11))
    (Z.shiftl (pa_function a) 8)) offset.

Definition ecam_address (a : PciAddress) (ecam_base offset : Z) : Z :=
  ecam_base +w Z.shiftl (pa_bus a) 20 +w Z.shiftl (pa_device a) 15 +w Z.shiftl (pa_function a) 12
  +w offset.

(** * Records *)

Inductive BarType : Set := IoSpace | Memory32 | Memory64 | BarNone.

Record Bar := mkBar {
  bar_type : BarType;
  base_address : Z;
  bar_size : Z;
  prefetchable : bool;
}.

Definition Bar_none : Bar := mkBar BarNone 0 0 false.

Record Capability := mkCapability { cap_id : Z; cap_offset : Z }.

Record CapabilityIterator := mkCapIter {
  ci_addr : PciAddress;
  ci_next_offset : Z;
  ci_iterations : Z;
}.

Record PciDevice := mkPciDevice {
  address : PciAddress;
  vendor_id : Z;
  device_id : Z;
  class_code : Z;
  subclass : Z;
  prog_if : Z;
  revision_id : Z;
  header_type : Z;
  msi_cap_offset : Z;
  msix_cap_offset : Z;
}.

Definition is_multi_function (d : PciDevice) : bool :=
  has_bits (header_type d) PCI_HEADER_TYPE_MULTI_FUNCTION.
Definition supports_msi (d : PciDevice) : bool := negb (msi_cap_offset d =? 0).
Definition supports_msix (d : PciDevice) : bool := negb (msix_cap_offset d =? 0).

Section Pci.
Context {S : Type} `{Io : PortIO S}.

(** * Configuration space, through the ports *)

Definition outl (port v : Z) : hw S unit := put (port_out32 port v).
Definition inl (port : Z) : hw S Z := port_in32 port.

Definition pci_config_read32 (a : PciAddress) (offset : Z) : hw S Z :=
  outl PCI_CONFIG_ADDRESS (config_address a offset) ;;
  inl PCI_CONFIG_DATA.

Definition pci_config_read16 (a : PciAddress) (offset : Z) : hw S Z :=
  outl PCI_CONFIG_ADDRESS (config_address a offset) ;;
  v ← inl PCI_CONFIG_DATA;
  mret (Z.land (Z.shiftr v (Z.land offset 2 * 8)) 65535).

Definition pci_config_read8 (a : PciAddress) (offset : Z) : hw S Z :=
  outl PCI_CONFIG_ADDRESS (config_address a offset) ;;
  v ← inl PCI_CONFIG_DATA;
  mret (Z.land (Z.shiftr v (Z.land offset 3 * 8)) 255).

Definition pci_config_write32 (a : PciAddress) (offset value : Z) : hw S unit :=
  outl PCI_CONFIG_ADDRESS (config_address a offset) ;;
  outl PCI_CONFIG_DATA value.

Definition pci_config_write16 (a : PciAddress) (offset value : Z) : hw S unit :=
  outl PCI_CONFIG_ADDRESS (config_address a offset) ;;
  let shift := Z.land offset 2 * 8 in
  data ← inl PCI_CONFIG_DATA;
  let mask := not32 (wrap32 (Z.shiftl 65535 shift)) in
  outl PCI_CONFIG_DATA (Z.lor (Z.land data mask) (wrap32 (Z.shiftl value shift))).

Definition pci_config_write8 (a : PciAddress) (offset value : Z) : hw S unit :=
  outl PCI_CONFIG_ADDRESS (config_address a offset) ;;
  let shift := Z.land offset 3 * 8 in
  data ← inl PCI_CONFIG_DATA;
  let mask := not32 (wrap32 (Z.shiftl 255 shift)) in
  outl PCI_CONFIG_DATA (Z.lor (Z.land data mask) (wrap32 (Z.shiftl value shift))).

(** * Base address registers *)

Definition pci_read_bar (a : PciAddress) (bar_index : Z) : hw S Bar :=
  if 6 <=? bar_index then mret Bar_none
  else
    let bar_offset := PCI_BAR0 + bar_index * 4 in
    bar_value ← pci_config_read32 a bar_offset;
    if bar_value =? 0 then mret Bar_none
    else if has_bits bar_value 1 then
      let base := Z.land bar_value 4294967292 in
      pci_config_write32 a bar_offset 4294967295 ;;
      size_mask ← pci_config_read32 a bar_offset;
      pci_config_write32 a bar_offset bar_value ;;
      let size := not64 (Z.land size_mask 4294967292) +w 1 in
      mret (mkBar IoSpace base (Z.land size 65535) false)
    else
      let bar_type_bits := Z.land (Z.shiftr bar_value 1) 3 in
      let prefetch := has_bits bar_value 8 in
      if bar_type_bits =? 0 then
        let base := Z.land bar_value 4294967280 in
        pci_config_write32 a bar_offset 4294967295 ;;
        size_mask ← pci_config_read32 a bar_offset;
        pci_config_write32 a bar_offset bar_value ;;
        let size := not64 (Z.land size_mask 4294967280) +w 1 in
        mret (mkBar Memory32 base size prefetch)
      else if bar_type_bits =? 2 then
        if 5 <=? bar_index then mret Bar_none
        else
          let bar_high_offset := bar_offset + 4 in
          bar_high ← pci_config_read32 a bar_high_offset;
          let base := Z.lor (Z.shiftl bar_high 32) (Z.land bar_value 4294967280) in
          pci_config_write32 a bar_offset 4294967295 ;;
          pci_config_write32 a bar_high_offset 4294967295 ;;
          size_mask_low ← pci_config_read32 a bar_offset;
          size_mask_high ← pci_config_read32 a bar_high_offset;
          pci_config_write32 a bar_offset bar_value ;;
          pci_config_write32 a bar_high_offset bar_high ;;
          let size_mask := Z.lor (Z.shiftl size_mask_high 32) (Z.land size_mask_low 4294967280) in
          mret (mkBar Memory64 base (not64 size_mask +w 1) prefetch)
      else mret Bar_none.

(** * Capabilities *)

(** [while cap_offset != 0 && iterations < 48]: [n] rounds are left. *)
Fixpoint walk_capabilities (a : PciAddress) (id : Z) (n : nat) (offset : Z) : hw S (option Z) :=
  match n with
  | O => mret None
  | Datatypes.S n' =>
      if offset =? 0 then mret None
      else
        cap_header ← pci_config_read16 a offset;
        if Z.land cap_header 255 =? id then mret (Some offset)
        else walk_capabilities a id n' (Z.land (Z.shiftr cap_header 8) 252)
  end.

Definition pci_find_capability (a : PciAddress) (id : Z) : hw S (option Z) :=
  status ← pci_config_read16 a PCI_STATUS;
  if negb (has_bits status PCI_STATUS_CAPABILITIES_LIST) then mret None
  else
    first ← pci_config_read8 a PCI_CAPABILITIES_PTR;
    walk_capabilities a id 48 (Z.land first 252).

Definition CapabilityIterator_new (a : PciAddress) : hw S (option CapabilityIterator) :=
  status ← pci_config_read16 a PCI_STATUS;
  if negb (has_bits status PCI_STATUS_CAPABILITIES_LIST) then mret None
  else
    first ← pci_config_read8 a PCI_CAPABILITIES_PTR;
    mret (Some (mkCapIter a (Z.land first 252) 0)).

(** [Iterator::next]. *)
Definition capability_next (it : CapabilityIterator) : hw S (CapabilityIterator * option Capability) :=
  if (ci_next_offset it =? 0) || (48 <=? ci_iterations it) then mret (it, None)
  else
    cap_header ← pci_config_read16 (ci_addr it) (ci_next_offset it);
    mret (mkCapIter (ci_addr it) (Z.land (Z.shiftr cap_header 8) 252) (ci_iterations it + 1),
          Some (mkCapability (Z.land cap_header 255) (ci_next_offset it))).

(** * Devices *)

Definition PciDevice_exists (a : PciAddress) : hw S bool :=
  v ← pci_config_read16 a PCI_VENDOR_ID;
  mret (negb (v =? PCI_VENDOR_ID_INVALID)).

Definition PciDevice_read (a : PciAddress) : hw S (option PciDevice) :=
  vendor ← pci_config_read16 a PCI_VENDOR_ID;
  if vendor =? PCI_VENDOR_ID_INVALID then mret None
  else
    device ← pci_config_read16 a PCI_DEVICE_ID;
    class ← pci_config_read8 a PCI_CLASS;
    sub ← pci_config_read8 a PCI_SUBCLASS;
    prog ← pci_config_read8 a PCI_PROG_IF;
    rev ← pci_config_read8 a PCI_REVISION_ID;
    header ← pci_config_read8 a PCI_HEADER_TYPE;
    msi ← pci_find_capability a PCI_CAP_ID_MSI;
    msix ← pci_find_capability a PCI_CAP_ID_MSIX;
    mret (Some (mkPciDevice a vendor device class sub prog rev header (default 0 msi) (default 0 msix))).

(** A read-modify-write of the command register. *)
Definition change_command (d : PciDevice) (f : Z -> Z) : hw S unit :=
  cmd ← pci_config_read16 (address d) PCI_COMMAND;
  pci_config_write16 (address d) PCI_COMMAND (f cmd).

Definition enable_bus_master (d : PciDevice) : hw S unit :=
  change_command d (fun cmd => Z.lor cmd PCI_COMMAND_BUS_MASTER).
Definition enable_memory_space (d : PciDevice) : hw S unit :=
  change_command d (fun cmd => Z.lor cmd PCI_COMMAND_MEMORY_SPACE).
Definition enable_io_space (d : PciDevice) : hw S unit :=
  change_command d (fun cmd => Z.lor cmd PCI_COMMAND_IO_SPACE).
Definition disable_legacy_interrupts (d : PciDevice) : hw S unit :=
  change_command d (fun cmd => Z.lor cmd PCI_COMMAND_INTERRUPT_DISABLE).
Definition enable_legacy_interrupts (d : PciDevice) : hw S unit :=
  change_command d (fun cmd => Z.land cmd (not16 PCI_COMMAND_INTERRUPT_DISABLE)).

Definition read_bar (d : PciDevice) (bar_index : Z) : hw S Bar := pci_read_bar (address d) bar_index.

(** * Enumeration

    The table of devices and its counter are globals.  The scan of a bus calls
    itself on the secondary bus of every bridge: [None] is the end of the stack,
    whose depth is the fuel. *)

Definition MAX_PCI_DEVICES : Z := 256.

Record PciTable := mkPciTable {
  PCI_DEVICES : list (option PciDevice);
  PCI_DEVICE_COUNT : Z;
}.

Abbreviation scan := (eprog Empty_set (S * PciTable)).

Definition on_hw {X} (p : hw S X) : scan X := fun s =>
  let '(h, x) := p (fst s) in Some ((h, snd s), Ok x).
Definition on_table (f : PciTable -> PciTable) : scan unit := modify (fun s => (fst s, f (snd s))).

Definition record_device (d : PciDevice) (t : PciTable) : PciTable :=
  if PCI_DEVICE_COUNT t <? MAX_PCI_DEVICES
  then mkPciTable (<[Z.to_nat (PCI_DEVICE_COUNT t) := Some d]> (PCI_DEVICES t)) (PCI_DEVICE_COUNT t + 1)
  else t.

Definition is_bridge (d : PciDevice) : bool := (class_code d =? 6) && (subclass d =? 4).

Section Buses.
(** [pci_enumerate_bus] on a secondary bus. *)
Context (enumerate_bus : Z -> scan unit).

Definition pci_enumerate_function (bus device function : Z) : scan unit :=
  let a := PciAddress_new bus device function in
  dev ← on_hw (PciDevice_read a);
  match dev with
  | None => mret tt
  | Some d =>
      on_table (record_device d) ;;
      if is_bridge d then
        secondary_bus ← on_hw (pci_config_read8 a 25);
        enumerate_bus secondary_bus
      else mret tt
  end.

(** One round of the loop over the further functions. *)
Definition pci_enumerate_if_there (bus device function : Z) : scan unit :=
  there ← on_hw (PciDevice_exists (PciAddress_new bus device function));
  if (there : bool) then pci_enumerate_function bus device function else mret tt.

Definition pci_enumerate_device (bus device : Z) : scan unit :=
  let a := PciAddress_new bus device 0 in
  there ← on_hw (PciDevice_exists a);
  if negb there then mret tt
  else
    pci_enumerate_function bus device 0 ;;
    header ← on_hw (pci_config_read8 a PCI_HEADER_TYPE);
    if has_bits header PCI_HEADER_TYPE_MULTI_FUNCTION then
      prog_for 7 1 (pci_enumerate_if_there bus device)
    else mret tt.
End Buses.

Fixpoint pci_enumerate_bus (depth : nat) (bus : Z) : scan unit :=
  match depth with
  | O => undefined
  | Datatypes.S depth' => prog_for 32 0 (fun device => pci_enumerate_device (pci_enumerate_bus depth') bus device)
  end.

(** One round of the loop over the host controllers. *)
Definition pci_enumerate_host (depth : nat) (function : Z) : scan unit :=
  there ← on_hw (PciDevice_exists (PciAddress_new 0 0 function));
  if (there : bool) then pci_enumerate_bus depth function else mret tt.

Definition pci_enumerate (depth : nat) : scan Z :=
  on_table (fun t => mkPciTable (PCI_DEVICES t) 0) ;;
  host_header ← on_hw (pci_config_read8 (PciAddress_new 0 0 0) PCI_HEADER_TYPE);
  (if has_bits host_header PCI_HEADER_TYPE_MULTI_FUNCTION then
     prog_for 8 0 (pci_enumerate_host depth)
   else pci_enumerate_bus depth 0) ;;
  gets (fun s => PCI_DEVICE_COUNT (snd s)).

Definition pci_init (depth : nat) : scan Z := pci_enumerate depth.
End Pci.

(** * The table *)

Definition pci_get_device_count (t : PciTable) : Z := PCI_DEVICE_COUNT t.

Definition pci_get_device (index : Z) (t : PciTable) : option PciDevice :=
  if (index <? PCI_DEVICE_COUNT t) && (index <? MAX_PCI_DEVICES)
  then mjoin (PCI_DEVICES t !! Z.to_nat index)
  else None.

(** The loops over the table: the first device that passes the test. *)
Definition find_in_table (test : PciDevice -> bool) (t : PciTable) : option PciDevice :=
  find_loop 0 (Z.min (PCI_DEVICE_COUNT t) MAX_PCI_DEVICES) (fun i =>
    match PCI_DEVICES t !! Z.to_nat i with
    | Some (Some d) => if test d then Some d else None
    | _ => None
    end).

Definition pci_find_device (vendor device : Z) (t : PciTable) : option PciDevice :=
  find_in_table (fun d => (vendor_id d =? vendor) && (device_id d =? device)) t.

Definition pci_find_device_by_class (class sub : Z) (t : PciTable) : option PciDevice :=
  find_in_table (fun d => (class_code d =? class) && (subclass d =? sub)) t.

(** * Configuration space, through the memory window *)

Section Ecam.
Context {S : Type} `{Mm : MmioIO S}.

Definition pci_ecam_read32 (ecam_base : Z) (a : PciAddress) (offset : Z) : hw S Z :=
  mmio_read 4 (ecam_address a ecam_base (Z.land offset 4092)).
Definition pci_ecam_read16 (ecam_base : Z) (a : PciAddress) (offset : Z) : hw S Z :=
  mmio_read 2 (ecam_address a ecam_base (Z.land offset 4094)).
Definition pci_ecam_read8 (ecam_base : Z) (a : PciAddress) (offset : Z) : hw S Z :=
  mmio_read 1 (ecam_address a ecam_base offset).
Definition pci_ecam_write32 (ecam_base : Z) (a : PciAddress) (offset value : Z) : hw S unit :=
  put (mmio_write 4 (ecam_address a ecam_base (Z.land offset 4092)) value).
Definition pci_ecam_write16 (ecam_base : Z) (a : PciAddress) (offset value : Z) : hw S unit :=
  put (mmio_write 2 (ecam_address a ecam_base (Z.land offset 4094)) value).
Definition pci_ecam_write8 (ecam_base : Z) (a : PciAddress) (offset value : Z) : hw S unit :=
  put (mmio_write 1 (ecam_address a ecam_base offset) value).
End Ecam.
