(* ===== verification/PciHost.v ===== *)
(** The contract of the hardware behind [Pci]: a host bridge with a configuration
    space of double words, and what the routines of the driver do to it.

    The address port selects a double word; the data port reads it, or hands a
    write to the device, whose answer is the new value ([on_write]).  A double
    word that no device has reads as ones. *)

From S2P Require Import Prelude Ports Pci.


Record PciHost := mkHost {
  latch : Z;
  cfg : gmap Z Z;
}.

Definition dword (c : gmap Z Z) (k : Z) : Z := default 4294967295 (c !! k).

(** A write of [v] to the double word [k]. *)
Definition cfg_write (upd : Z -> Z -> Z -> Z) (k v : Z) (c : gmap Z Z) : gmap Z Z :=
  match c !! k with Some old => <[k := upd k old v]> c | None => c end.

Class PciHardware (S : Type) `{Io : PortIO S} := {
  host : S -> PciHost;
  on_write : Z -> Z -> Z -> Z;
  hw_select : forall v s, host (port_out32 PCI_CONFIG_ADDRESS v s) = mkHost v (cfg (host s));
  hw_data : forall s, host (fst (port_in32 PCI_CONFIG_DATA s)) = host s
    /\ snd (port_in32 PCI_CONFIG_DATA s) = dword (cfg (host s)) (latch (host s));
  hw_store : forall v s, host (port_out32 PCI_CONFIG_DATA v s)
    = mkHost (latch (host s)) (cfg_write on_write (latch (host s)) v (cfg (host s)));
}.

(** * Registers of a function *)

Definition cfg32 (a : PciAddress) (o : Z) (c : gmap Z Z) : Z := dword c (config_address a o).
Definition cfg16 (a : PciAddress) (o : Z) (c : gmap Z Z) : Z :=
  Z.land (Z.shiftr (cfg32 a o c) (Z.land o 2 * 8)) 65535.
Definition cfg8 (a : PciAddress) (o : Z) (c : gmap Z Z) : Z :=
  Z.land (Z.shiftr (cfg32 a o c) (Z.land o 3 * 8)) 255.

(** What the read-modify-write of a field of [w] bits at bit [shift] sends. *)
Definition merge (ones shift v old : Z) : Z :=
  Z.lor (Z.land old (not32 (wrap32 (Z.shiftl ones shift)))) (wrap32 (Z.shiftl v shift)).

Section Runs.
Context {S : Type} `{Hw : PciHardware S}.

Definition set32 (a : PciAddress) (o v : Z) (c : gmap Z Z) : gmap Z Z :=
  cfg_write on_write (config_address a o) v c.
Definition set16 (a : PciAddress) (o v : Z) (c : gmap Z Z) : gmap Z Z :=
  set32 a o (merge 65535 (Z.land o 2 * 8) v (cfg32 a o c)) c.
Definition set8 (a : PciAddress) (o v : Z) (c : gmap Z Z) : gmap Z Z :=
  set32 a o (merge 255 (Z.land o 3 * 8) v (cfg32 a o c)) c.

(** A routine as a function of configuration space: its answer and its effect. *)
Definition runs {X} (p : hw S X) (r : gmap Z Z -> X) (f : gmap Z Z -> gmap Z Z) : Prop :=
  forall s, exists s', p s = (s', r (cfg (host s))) /\ cfg (host s') = f (cfg (host s)).

Lemma runs_ret {X} (x : X) : runs (mret x) (fun _ => x) (fun c => c).
Proof. intros s. by exists s. Qed.

Lemma runs_bind {X Y} (p : hw S X) (k : X -> hw S Y) r f r' f' :
  runs p r f -> (forall x, runs (k x) (r' x) (f' x)) ->
  runs (p ≫= k) (fun c => r' (r c) (f c)) (fun c => f' (r c) (f c)).
Proof.
  intros Hp Hk s. destruct (Hp s) as (s1 & E & Hc). destruct (Hk (r (cfg (host s))) s1) as (s2 & E2 & Hc2).
  exists s2. rewrite (hw_bind_run p k s s1 _ E), E2. by rewrite <- Hc.
Qed.

Lemma runs_eq {X} (p : hw S X) r f r' f' :
  runs p r f -> (forall c, r c = r' c) -> (forall c, f c = f' c) -> runs p r' f'.
Proof. intros Hp Hr Hf s. destruct (Hp s) as (s' & E & Hc). exists s'. by rewrite E, Hr, Hc, Hf. Qed.

(** Only what holds of the configuration at hand is needed. *)
Lemma runs_at {X} (p : hw S X) r f s : runs p r f ->
  exists s', p s = (s', r (cfg (host s))) /\ cfg (host s') = f (cfg (host s)).
Proof. intros H. apply H. Qed.

Lemma run_read32 a o : runs (pci_config_read32 a o) (cfg32 a o) (fun c => c).
Proof.
  intros s. pose proof (hw_select (config_address a o) s) as Hs.
  destruct (hw_data (port_out32 PCI_CONFIG_ADDRESS (config_address a o) s)) as [H1 H2].
  eexists. split.
  - unfold pci_config_read32, outl, inl, put, mbind, hw_bind. rewrite Hs in H2. cbn in H2.
    unfold cfg32. rewrite <- H2. apply surjective_pairing.
  - by rewrite H1, Hs.
Qed.

Lemma run_read_field a o sh ones :
  runs (outl PCI_CONFIG_ADDRESS (config_address a o) ;;
        v ← inl PCI_CONFIG_DATA; mret (Z.land (Z.shiftr v sh) ones))
    (fun c => Z.land (Z.shiftr (cfg32 a o c) sh) ones) (fun c => c).
Proof.
  intros s. destruct (run_read32 a o s) as (s' & E & Hc). exists s'. split; [|done].
  revert E. unfold pci_config_read32, outl, inl, put, mbind, hw_bind.
  destruct (port_in32 PCI_CONFIG_DATA _) as [s1 v]. by intros [= -> ->].
Qed.

Lemma run_read16 a o : runs (pci_config_read16 a o) (cfg16 a o) (fun c => c).
Proof. apply run_read_field. Qed.
Lemma run_read8 a o : runs (pci_config_read8 a o) (cfg8 a o) (fun c => c).
Proof. apply run_read_field. Qed.

Lemma run_write32 a o v : runs (pci_config_write32 a o v) (fun _ => tt) (set32 a o v).
Proof.
  intros s. eexists. split; [done|].
  cbn. rewrite hw_store, hw_select. done.
Qed.

Lemma run_write_field a o sh ones v :
  runs (outl PCI_CONFIG_ADDRESS (config_address a o) ;;
        data ← inl PCI_CONFIG_DATA;
        outl PCI_CONFIG_DATA (Z.lor (Z.land data (not32 (wrap32 (Z.shiftl ones sh)))) (wrap32 (Z.shiftl v sh))))
    (fun _ => tt) (fun c => set32 a o (merge ones sh v (cfg32 a o c)) c).
Proof.
  intros s. destruct (run_read32 a o s) as (s' & E & Hc).
  revert E. unfold pci_config_read32, outl, inl, put, mbind, hw_bind.
  destruct (hw_data (port_out32 PCI_CONFIG_ADDRESS (config_address a o) s)) as [H1 _].
  destruct (port_in32 PCI_CONFIG_DATA _) as [s1 x]. cbn in H1. intros [= -> ->].
  eexists. split; [done|]. cbn. rewrite hw_store, H1, hw_select. cbn. done.
Qed.

Lemma run_write16 a o v : runs (pci_config_write16 a o v) (fun _ => tt) (set16 a o v).
Proof. apply run_write_field. Qed.
Lemma run_write8 a o v : runs (pci_config_write8 a o v) (fun _ => tt) (set8 a o v).
Proof. apply run_write_field. Qed.
End Runs.

Create HintDb pci discriminated.
#[export] Hint Resolve run_read32 run_read16 run_read8 run_write32 run_write16 run_write8 runs_ret : pci.

(** * Writes to configuration space *)

Section Writes.
Context (upd : Z -> Z -> Z -> Z).

Lemma cfg_write_other k k' v c : k' <> k -> cfg_write upd k v c !! k' = c !! k'.
Proof. intros. unfold cfg_write. destruct (c !! k); [by rewrite lookup_insert_ne|done]. Qed.

Lemma cfg_write_same k v c old : c !! k = Some old -> cfg_write upd k v c !! k = Some (upd k old v).
Proof. intros E. unfold cfg_write. rewrite E. apply lookup_insert_eq. Qed.
End Writes.
