(* ===== verification/PciSample.v ===== *)
(** A small machine that meets the contract of [PciHost]: two buses, a bridge
    and a device with registers of every kind, for the closed instances. *)

From S2P Require Import Prelude Ports Pci PciHost.

(** Bus 0 has a host bridge, a bridge to bus 1 and a device; bus 1 has one
    device.  The registers of a device, by offset. *)
Definition sample_registers : list (PciAddress * list (Z * Z)) :=
  [(mkPciAddress 0 0 0, [(0, 305430150); (8, 100663296); (12, 0)]);
   (mkPciAddress 0 1 0, [(0, 305430151); (4, 0); (8, 100925440); (12, 65536); (24, 65792)]);
   (mkPciAddress 0 3 0, [(0, 305466100); (4, 2836398083); (8, 33554432); (12, 0);
                         (16, 4273934336); (20, 49217); (24, 12); (28, 1); (52, 64);
                         (64, 9064453); (68, 0); (72, 0); (76, 0); (80, 196625); (84, 0); (88, 2048)]);
   (mkPciAddress 1 0 0, [(0, 305430152); (4, 0); (8, 33554432); (12, 0)])].

Definition sample_cfg : gmap Z Z :=
  list_to_map (flat_map (fun '(a, rs) => map (fun '(o, v) => (config_address a o, v)) rs) sample_registers).

Definition sample_device_address : PciAddress := mkPciAddress 0 3 0.
Definition sample_key (o : Z) : Z := config_address sample_device_address o.

(** Command and status, three base address registers, and plain registers. *)
Definition sample_write (k old v : Z) : Z :=
  if k =? sample_key 4 then
    Z.lor (Z.land v 65535) (Z.shiftl (Z.ldiff (Z.shiftr old 16) (Z.land (Z.shiftr v 16) 63744)) 16)
  else if k =? sample_key 16 then Z.lor (Z.land v (2 ^ 32 - 2 ^ 12)) 0
  else if k =? sample_key 20 then Z.lor (Z.land v (2 ^ 32 - 2 ^ 5)) 1
  else if k =? sample_key 24 then Z.lor (Z.land v (2 ^ 32 - 2 ^ 20)) 12
  else if k =? sample_key 28 then Z.lor (Z.land v (2 ^ 32 - 2 ^ 0)) 0
  else v.

#[export] Instance sample_ports : PortIO PciHost := {
  port_in8 _ h := (h, 0);
  port_out8 _ _ h := h;
  port_in32 p h := (h, if p =? PCI_CONFIG_DATA then dword (cfg h) (latch h) else 0);
  port_out32 p v h :=
    if p =? PCI_CONFIG_ADDRESS then mkHost v (cfg h)
    else if p =? PCI_CONFIG_DATA then mkHost (latch h) (cfg_write sample_write (latch h) v (cfg h))
    else h;
  port_insw _ _ h := (h, []);
  port_outsw _ _ h := h;
}.

#[export] Program Instance sample_hardware : PciHardware PciHost := {
  host h := h;
  on_write := sample_write;
}.

Next Obligation. done. Qed.
Next Obligation. done. Qed.
Next Obligation. done. Qed.

Definition sample_host : PciHost := mkHost 0 sample_cfg.

Lemma sample_cfg_u32 k v : sample_cfg !! k = Some v -> is_u32 v.
Proof.
  unfold sample_cfg. intros H%elem_of_list_to_map_2.
  assert (Forall (fun p => 0 <= p.2 < U32)
    (flat_map (fun '(a, rs) => map (fun '(o, v) => (config_address a o, v)) rs) sample_registers)) as Hf
    by (apply (bool_decide_unpack _); by vm_compute).
  rewrite Forall_forall in Hf. exact (Hf _ H).
Qed.
