(* ===== verification/PciProps.v ===== *)
(** Theorems on the PCI driver over the host bridge of [PciHost], with closed
    instances on a small machine. *)

From S2P Require Import Prelude Ports Pci PciHost PciSample.

(** * Bits of words *)



Lemma shl_u32 w sh v : 0 <= w -> 0 <= sh -> sh + w <= 32 -> 0 <= v < 2 ^ w ->
  wrap32 (Z.shiftl v sh) = v * 2 ^ sh /\ is_u32 (v * 2 ^ sh).
Proof.
  intros. assert (0 <= v * 2 ^ sh < U32).
  { split; [apply Z.mul_nonneg_nonneg; lia|]. change U32 with (2 ^ 32).
    apply Z.lt_le_trans with (2 ^ w * 2 ^ sh); [apply Z.mul_lt_mono_pos_r; lia|].
    rewrite <- Z.pow_add_r by lia. apply Z.pow_le_mono_r; lia. }
  rewrite Z.shiftl_mul_pow2 by lia. split; [by apply Z.mod_small|done].
Qed.


(** The bits that a read-modify-write sends: those of the new field inside it,
    the old ones elsewhere. *)
Lemma merge_spec w sh v old i :
  0 <= w -> 0 <= sh -> sh + w <= 32 -> 0 <= v < 2 ^ w -> is_u32 old -> 0 <= i < 32 ->
  Z.testbit (merge (2 ^ w - 1) sh v old) i
  = if (sh <=? i) && (i <? sh + w) then Z.testbit v (i - sh) else Z.testbit old i.
Proof.
  intros Hw Hsh Hle Hv Ho Hi. unfold merge.
  destruct (shl_u32 w sh v Hw Hsh Hle Hv) as [-> _].
  destruct (shl_u32 w sh (2 ^ w - 1) Hw Hsh Hle) as [-> Hm]; [lia|].
  rewrite Z.lor_spec, Z.land_spec. unfold not32. change 4294967295 with (2 ^ 32 - 1).
  rewrite not_spec by (exact Hm || lia). rewrite !mul_pow_bits by lia.
  destruct (Z.leb_spec sh i); cbn [andb negb].
  - rewrite ones_bits by lia. replace (i - sh <? w) with (i <? sh + w)
      by (destruct (Z.ltb_spec i (sh + w)), (Z.ltb_spec (i - sh) w); lia).
    destruct (Z.ltb_spec i (sh + w)); cbn [negb].
    + by rewrite andb_false_r.
    + rewrite andb_true_r, (testbit_high v w) by lia. apply orb_false_r.
  - by rewrite andb_true_r, orb_false_r.
Qed.

Lemma merge_u32 w sh v old : 0 <= w -> 0 <= sh -> sh + w <= 32 -> 0 <= v < 2 ^ w -> is_u32 old ->
  is_u32 (merge (2 ^ w - 1) sh v old).
Proof.
  intros Hw Hsh Hle Hv Ho. unfold merge, is_u32. change U32 with (2 ^ 32).
  apply lor_bound; [lia|apply land_bound_l; [lia|exact Ho]|].
  destruct (shl_u32 w sh v Hw Hsh Hle Hv) as [-> H]. exact H.
Qed.

(** Reading the field back, and another field of the same double word. *)
Lemma merge_field w sh v old : 0 <= w -> 0 <= sh -> sh + w <= 32 -> 0 <= v < 2 ^ w -> is_u32 old ->
  Z.land (Z.shiftr (merge (2 ^ w - 1) sh v old) sh) (2 ^ w - 1) = v.
Proof.
  intros Hw Hsh Hle Hv Ho. rewrite land_low by lia.
  apply (bits_eq_below w); [apply Z.mod_pos_bound; lia|done|].
  intros i Hi. rewrite Z.mod_pow2_bits_low, Z.shiftr_spec by lia.
  rewrite (merge_spec w) by (done || lia).
  destruct (Z.leb_spec sh (i + sh)), (Z.ltb_spec (i + sh) (sh + w)); try lia. cbn [andb].
  f_equal. lia.
Qed.

Lemma merge_other w sh w' sh' v old :
  0 <= w -> 0 <= sh -> sh + w <= 32 -> 0 <= v < 2 ^ w -> is_u32 old ->
  0 <= w' -> 0 <= sh' -> sh' + w' <= 32 -> sh' + w' <= sh \/ sh + w <= sh' ->
  Z.land (Z.shiftr (merge (2 ^ w - 1) sh v old) sh') (2 ^ w' - 1)
  = Z.land (Z.shiftr old sh') (2 ^ w' - 1).
Proof.
  intros Hw Hsh Hle Hv Ho Hw' Hsh' Hle' Hd. rewrite !land_low by lia.
  apply (bits_eq_below w'); [apply Z.mod_pos_bound; lia|apply Z.mod_pos_bound; lia|].
  intros i Hi. rewrite !Z.mod_pow2_bits_low, !Z.shiftr_spec by lia.
  rewrite (merge_spec w) by (done || lia).
  destruct (Z.leb_spec sh (i + sh')), (Z.ltb_spec (i + sh') (sh + w)); try lia; done.
Qed.

(** * Addresses *)

Definition valid_address (a : PciAddress) : Prop :=
  is_u8 (pa_bus a) /\ 0 <= pa_device a < 32 /\ 0 <= pa_function a < 8.

Lemma shl_add x k y : 0 <= k -> 0 <= y < 2 ^ k -> Z.lor (Z.shiftl x k) y = x * 2 ^ k + y.
Proof.
  intros Hk Hy. rewrite Z.shiftl_mul_pow2 by lia. apply (lor_disjoint_add k); [lia| |done].
  apply Z.mod_mul. lia.
Qed.

Lemma config_address_sum a o : valid_address a -> is_u8 o ->
  config_address a o
  = 2147483648 + pa_bus a * 65536 + pa_device a * 2048 + pa_function a * 256 + (o - o mod 4).
Proof.
  intros (Hb & Hd & Hf) Ho. unfold is_u8 in *. unfold config_address.
  assert (Z.land o 252 = o - o mod 4) as ->.
  { pose proof (not64_mask 2 o ltac:(lia) ltac:(unfold is_u64, U64; lia)) as E.
    change (2 ^ 2) with 4 in E. rewrite <- E.
    apply (bits_eq_below 8); [apply land_bound_l; lia|apply land_bound_l; lia|].
    intros i Hi. rewrite !Z.land_spec. f_equal.
    assert (i = 0 \/ i = 1 \/ i = 2 \/ i = 3 \/ i = 4 \/ i = 5 \/ i = 6 \/ i = 7) as Hc by lia.
    by intuition subst. }
  rewrite (Z.shiftl_mul_pow2 _ 16), (Z.shiftl_mul_pow2 _ 11), (Z.shiftl_mul_pow2 _ 8) by lia.
  rewrite (lor_disjoint_add 24 2147483648) by (reflexivity || lia).
  rewrite (lor_disjoint_add 16 _ (pa_device a * 2 ^ 11)) by (dlia || lia).
  rewrite (lor_disjoint_add 11 _ (pa_function a * 2 ^ 8)) by (dlia || lia).
  rewrite (lor_disjoint_add 8) by (dlia || lia). lia.
Qed.

(** The configuration address is a 32-bit word with the enable bit set and
    the two low bits clear, and it selects one double word of one function:
    different buses, devices, functions or registers have different addresses. *)
Theorem config_address_unique a b o o' :
  valid_address a -> valid_address b -> is_u8 o -> is_u8 o' ->
  is_u32 (config_address a o) /\ Z.testbit (config_address a o) 31 = true
  /\ config_address a o mod 4 = 0
  /\ (config_address a o = config_address b o' <-> a = b /\ o / 4 = o' / 4).
Proof.
  intros Ha Hb Ho Ho'. rewrite !config_address_sum by done.
  destruct Ha as (A1 & A2 & A3), Hb as (B1 & B2 & B3). unfold is_u8, is_u32, U32 in *.
  split_and!; [dlia|dlia| |dlia|].
  - rewrite Z.testbit_true by lia. change (2 ^ 31) with 2147483648. dlia.
  - split.
    + intros E. destruct a as [b1 d1 f1], b as [b2 d2 f2]; cbn in *.
      assert (b1 = b2 /\ d1 = d2 /\ f1 = f2 /\ o / 4 = o' / 4) as (-> & -> & -> & ?) by dlia. done.
    + intros [-> E]. pose proof (Z.div_mod o 4). pose proof (Z.div_mod o' 4). lia.
Qed.

(** * The command register *)

Section Props.
Context {S : Type} `{Hw : PciHardware S}.

(** Every double word is 32 bits wide. *)
Definition cfg_ok (c : gmap Z Z) : Prop := forall k v, c !! k = Some v -> is_u32 v.

Lemma dword_u32 c k : cfg_ok c -> is_u32 (dword c k).
Proof.
  intros Hc. unfold dword. destruct (c !! k) eqn:E; [by apply (Hc k)|].
  unfold is_u32, U32. cbn. lia.
Qed.

(** The bits of the status register that a device latches on an error and clears
    when a one is written to them (8 and 11 to 15). *)
Definition W1C : Z := 63744.

(** A command and status register as the PCI specification describes it. *)
Definition command_register (k : Z) : Prop := forall old v, is_u32 old -> is_u32 v ->
  on_write k old v
  = Z.lor (Z.land v 65535) (Z.shiftl (Z.ldiff (Z.shiftr old 16) (Z.land (Z.shiftr v 16) W1C)) 16).

(** [pci_config_write16] to the low half of a double word sends the high half
    back as it was read. *)
Lemma set16_low a o v (c : gmap Z Z) old :
  Z.land o 2 = 0 -> c !! config_address a o = Some old -> cfg_ok c -> 0 <= v < 65536 ->
  exists new, set16 a o v c = <[config_address a o := on_write (config_address a o) old new]> c
    /\ is_u32 new /\ Z.land new 65535 = v /\ Z.shiftr new 16 = Z.shiftr old 16.
Proof.
  intros Ho Hold Hc Hv. pose proof (Hc _ _ Hold) as Hu. unfold is_u32, U32 in Hu.
  exists (merge (2 ^ 16 - 1) 0 v old).
  unfold set16, set32, cfg_write, cfg32, dword. rewrite Ho, Hold. split; [done|].
  pose proof (merge_u32 16 0 v old ltac:(lia) ltac:(lia) ltac:(lia) ltac:(lia) Hu) as Hm.
  split; [exact Hm|]. unfold is_u32, U32 in Hm. split.
  - rewrite <- (Z.shiftr_0_r (merge _ _ _ _)). change 65535 with (2 ^ 16 - 1).
    apply merge_field; (exact Hu || lia).
  - apply (bits_eq_below 16); [rewrite Z.shiftr_div_pow2 by lia; dlia..|].
    intros i Hi. rewrite !Z.shiftr_spec by lia. rewrite (merge_spec 16) by (exact Hu || lia).
    destruct (Z.leb_spec 0 (i + 16)), (Z.ltb_spec (i + 16) (0 + 16)); try lia; done.
Qed.

(** What writing [v] to the command register leaves. *)
Lemma set_command a v (c : gmap Z Z) old :
  c !! config_address a PCI_COMMAND = Some old -> cfg_ok c -> 0 <= v < 65536 ->
  command_register (config_address a PCI_COMMAND) ->
  let c' := set16 a PCI_COMMAND v c in
  cfg16 a PCI_COMMAND c' = v
  /\ cfg16 a PCI_STATUS c' = Z.ldiff (cfg16 a PCI_STATUS c) W1C
  /\ forall k, k <> config_address a PCI_COMMAND -> c' !! k = c !! k.
Proof.
  intros Hold Hc Hv Hreg c'. pose proof (Hc _ _ Hold) as Hu.
  destruct (set16_low a PCI_COMMAND v c old eq_refl Hold Hc Hv) as (new & E & Hn & Hlow & Hhigh).
  rewrite (Hreg old new Hu Hn), Hlow, Hhigh in E. subst c'. rewrite E.
  set (st := Z.shiftr old 16) in *.
  assert (0 <= st < 2 ^ 16) as Hst.
  { unfold st, is_u32, U32 in *. rewrite Z.shiftr_div_pow2 by lia. dlia. }
  assert (config_address a PCI_STATUS = config_address a PCI_COMMAND) as Ea by done.
  unfold cfg16, cfg32. rewrite Ea. unfold dword. rewrite lookup_insert_eq, Hold. unfold default, from_option, id.
  change (Z.land PCI_COMMAND 2 * 8) with 0. change (Z.land PCI_STATUS 2 * 8) with 16.
  change 65535 with (2 ^ 16 - 1) in *. rewrite Z.shiftr_0_r. fold st.
  split; [|split].
  - rewrite land_low by lia. apply (bits_eq_below 16); [apply Z.mod_pos_bound; lia|done|].
    intros i Hi. rewrite Z.mod_pow2_bits_low, Z.lor_spec, Z.shiftl_spec_low by lia.
    apply orb_false_r.
  - rewrite !land_low by lia. rewrite (Z.mod_small st) by done.
    apply Z.bits_inj'. intros i Hi. rewrite Z.ldiff_spec.
    destruct (Z.lt_ge_cases i 16).
    + rewrite Z.mod_pow2_bits_low, Z.shiftr_spec, Z.lor_spec, Z.shiftl_spec by lia.
      rewrite (testbit_high v 16) by lia. replace (i + 16 - 16) with i by lia.
      rewrite Z.ldiff_spec, Z.land_spec. cbn [orb]. by destruct (Z.testbit st i).
    + rewrite Z.mod_pow2_bits_high by lia. by rewrite (testbit_high st 16).
  - intros k Hk. by rewrite lookup_insert_ne.
Qed.

Lemma run_change_command d g :
  runs (change_command d g) (fun _ => tt)
    (fun c => set16 (address d) PCI_COMMAND (g (cfg16 (address d) PCI_COMMAND c)) c).
Proof.
  unfold change_command.
  apply (runs_bind _ _ (cfg16 (address d) PCI_COMMAND) (fun c => c) (fun _ _ => tt)
    (fun cmd c => set16 (address d) PCI_COMMAND (g cmd) c)); auto with pci.
Qed.

Lemma cfg16_range a o c : 0 <= cfg16 a o c < 65536.
Proof.
  unfold cfg16. change 65535 with (2 ^ 16 - 1). rewrite land_low by lia.
  apply Z.mod_pos_bound. lia.
Qed.

(** Enabling bus mastering sets its bit of the command register and keeps the
    others and every other register; but the status register shares the double
    word, its error bits are cleared by writing ones, and the read-modify-write
    writes back the ones it has read: every error the device had latched is
    lost. *)
Theorem bus_master_clears_errors d s :
  let a := address d in let c := cfg (host s) in
  cfg_ok c -> is_Some (c !! config_address a PCI_COMMAND) ->
  command_register (config_address a PCI_COMMAND) ->
  exists s', enable_bus_master d s = (s', tt)
    /\ cfg16 a PCI_COMMAND (cfg (host s')) = Z.lor (cfg16 a PCI_COMMAND c) PCI_COMMAND_BUS_MASTER
    /\ cfg16 a PCI_STATUS (cfg (host s')) = Z.ldiff (cfg16 a PCI_STATUS c) W1C
    /\ forall k, k <> config_address a PCI_COMMAND -> cfg (host s') !! k = c !! k.
Proof.
  intros a c Hc [old Hold] Hreg.
  destruct (run_change_command d (fun cmd => Z.lor cmd PCI_COMMAND_BUS_MASTER) s) as (s' & E & Hs').
  exists s'. split; [exact E|]. rewrite Hs'. apply (set_command a _ c old Hold Hc); [|exact Hreg].
  apply (lor_bound 16); [lia|apply cfg16_range|by vm_compute].
Qed.

(** * Base address registers *)

(** A register that implements the address bits from [n] on and reads [flags] in
    its low bits. *)
Definition address_register (k n flags : Z) : Prop := forall old v, is_u32 v ->
  on_write k old v = Z.lor (Z.land v (2 ^ 32 - 2 ^ n)) flags.



Lemma address_register_write k n flags old base :
  address_register k n flags -> 0 <= n <= 32 -> 0 <= flags < 2 ^ n ->
  0 <= base -> base mod 2 ^ n = 0 -> base + flags < U32 ->
  on_write k old (base + flags) = base + flags /\ on_write k old 4294967295 = 2 ^ 32 - 2 ^ n + flags.
Proof.
  intros Hk Hn Hf Hb Hm Hlt. unfold U32 in *. change 4294967296 with (2 ^ 32) in *.
  pose proof (pow_range n 32 Hn). rewrite !Hk by (unfold is_u32, U32; lia).
  rewrite !mask_high by lia.
  assert ((base + flags) mod 2 ^ n = flags) as ->.
  { rewrite <- Z.add_mod_idemp_l, Hm by lia. apply Z.mod_small. lia. }
  assert (4294967295 mod 2 ^ n = 2 ^ n - 1) as ->.
  { replace 4294967295 with (2 ^ n - 1 + (2 ^ (32 - n) - 1) * 2 ^ n).
    - rewrite Z.mod_add by lia. apply Z.mod_small. lia.
    - rewrite Z.mul_sub_distr_r, <- Z.pow_add_r by lia. replace (32 - n + n) with 32 by lia. lia. }
  rewrite !(lor_disjoint_add n); try lia.
  - replace (4294967295 - (2 ^ n - 1)) with (2 ^ 32 - 2 ^ n) by lia.
    replace (2 ^ 32 - 2 ^ n) with ((2 ^ (32 - n) - 1) * 2 ^ n)
      by (rewrite Z.mul_sub_distr_r, <- Z.pow_add_r by lia; f_equal; [f_equal|]; lia).
    apply Z.mod_mul. lia.
  - by replace (base + flags - flags) with base by lia.
Qed.

(** The probe of one register: all ones, the answer, the old value again. *)
Lemma run_probe {X} a o n flags base (K : Z -> hw S X) s :
  let k := config_address a o in
  cfg (host s) !! k = Some (base + flags) ->
  address_register k n flags -> 0 <= n <= 32 -> 0 <= flags < 2 ^ n ->
  0 <= base -> base mod 2 ^ n = 0 -> base + flags < U32 ->
  exists s', (pci_config_write32 a o 4294967295 ;;
              m ← pci_config_read32 a o; pci_config_write32 a o (base + flags) ;; K m) s
             = K (2 ^ 32 - 2 ^ n + flags) s'
    /\ cfg (host s') = cfg (host s).
Proof.
  intros k Hx Hk Hn Hf Hb Hm Hlt.
  destruct (run_write32 a o 4294967295 s) as (s1 & E1 & H1). rewrite (hw_bind_run _ _ _ _ _ E1).
  destruct (run_read32 a o s1) as (s2 & E2 & H2). rewrite (hw_bind_run _ _ _ _ _ E2).
  destruct (run_write32 a o (base + flags) s2) as (s3 & E3 & H3). rewrite (hw_bind_run _ _ _ _ _ E3).
  unfold set32, cfg_write in H1. fold k in H1. rewrite Hx in H1.
  pose proof (fun old => address_register_write k n flags old base Hk Hn Hf Hb Hm Hlt) as Hwr.
  rewrite (proj2 (Hwr _)) in H1. exists s3. split.
  - unfold cfg32, dword. fold k. by rewrite H1, lookup_insert_eq.
  - rewrite H3, H2, H1. unfold set32, cfg_write. fold k. rewrite lookup_insert_eq, (proj1 (Hwr _)).
    by rewrite insert_insert_eq, insert_id.
Qed.


(** The fields of the value of a memory register. *)
Lemma memory_bits base flags : 0 <= base -> base mod 16 = 0 -> 0 <= flags < 16 ->
  flags mod 2 = 0 -> base + flags < U32 ->
  has_bits (base + flags) 1 = false
  /\ Z.land (Z.shiftr (base + flags) 1) 3 = flags / 2 mod 4
  /\ has_bits (base + flags) 8 = Z.testbit flags 3
  /\ Z.land (base + flags) 4294967280 = base.
Proof.
  intros Hb Hm Hf He Hlt. unfold U32 in Hlt. split_and!.
  - apply has_bits_false. change 1 with (2 ^ 1 - 1). rewrite land_low by lia.
    change (2 ^ 1) with 2. dlia.
  - change 3 with (2 ^ 2 - 1). rewrite land_low, Z.shiftr_div_pow2 by lia.
    change (2 ^ 1) with 2. change (2 ^ 2) with 4. dlia.
  - unfold has_bits. change 8 with (bit 3). rewrite land_bit_zero, negb_involutive by lia.
    rewrite <- (Z.mod_pow2_bits_low (base + flags) 4) by lia.
    replace ((base + flags) mod 2 ^ 4) with flags by (change (2 ^ 4) with 16; dlia). done.
  - change 4294967280 with (2 ^ 32 - 2 ^ 4). rewrite mask_high by lia.
    change (2 ^ 4) with 16. dlia.
Qed.

Lemma multiple_of_16 n x : 4 <= n -> x mod 2 ^ n = 0 -> x mod 16 = 0.
Proof.
  intros Hn Hx. apply Z.mod_divide; [lia|]. apply Z.divide_trans with (2 ^ n).
  - exists (2 ^ (n - 4)). change 16 with (2 ^ 4). rewrite <- Z.pow_add_r by lia. f_equal. lia.
  - apply Z.mod_divide; [|done]. pose proof (Z.pow_pos_nonneg 2 n). lia.
Qed.

Lemma bar_mask_low n flags : 4 <= n <= 32 -> 0 <= flags < 16 ->
  Z.land (2 ^ 32 - 2 ^ n + flags) 4294967280 = 2 ^ 32 - 2 ^ n.
Proof.
  intros Hn Hf. pose proof (pow_range n 32 ltac:(lia)). pose proof (pow_range 4 n ltac:(lia)).
  change 4294967280 with (2 ^ 32 - 2 ^ 4).
  assert ((2 ^ 32 - 2 ^ n) mod 16 = 0) as Hm.
  { apply (multiple_of_16 n); [lia|]. replace (2 ^ 32 - 2 ^ n) with ((2 ^ (32 - n) - 1) * 2 ^ n)
      by (rewrite Z.mul_sub_distr_r, <- Z.pow_add_r by lia; f_equal; [f_equal|]; lia).
    apply Z.mod_mul. lia. }
  change (2 ^ 4) with 16 in *.
  destruct (Z.eq_dec n 32) as [->|Hne].
  - replace (2 ^ 32 - 2 ^ 32 + flags) with flags by lia.
    change (2 ^ 32 - 16) with (2 ^ 32 - 2 ^ 4). rewrite mask_high by lia.
    change (2 ^ 4) with 16. rewrite Z.mod_small by lia. lia.
  - change (2 ^ 32 - 16) with (2 ^ 32 - 2 ^ 4).
    rewrite mask_high by (lia || (change (2 ^ 4) with 16; lia)). change (2 ^ 4) with 16.
    rewrite <- Z.add_mod_idemp_l, Hm by lia. rewrite Z.mod_small by lia. lia.
Qed.

(** A memory register of 32 bits, and the pair of registers of a 64-bit one. *)
Definition bar32 (a : PciAddress) (i n flags base : Z) (c : gmap Z Z) : Prop :=
  let k := config_address a (PCI_BAR0 + i * 4) in
  c !! k = Some (base + flags) /\ address_register k n flags
  /\ 0 <= base /\ base mod 2 ^ n = 0 /\ base + flags < U32.

Lemma read_bar32 a i n flags base s :
  0 <= i < 6 -> 4 <= n < 32 -> flags = 0 \/ flags = 8 -> 0 < base + flags ->
  bar32 a i n flags base (cfg (host s)) ->
  exists s', pci_read_bar a i s = (s', mkBar Memory32 base (U64 - U32 + 2 ^ n) (Z.testbit flags 3))
    /\ cfg (host s') = cfg (host s).
Proof.
  intros Hi Hn Hf Hpos (Hx & Hk & Hb & Hm & Hlt). pose proof (pow_range 4 n ltac:(lia)) as Hp.
  change (2 ^ 4) with 16 in Hp.
  destruct (memory_bits base flags) as (B1 & B2 & B3 & B4);
    [lia|apply (multiple_of_16 n); [lia|done]|lia|destruct Hf as [-> | ->]; done|done|].
  unfold pci_read_bar. destruct (Z.leb_spec 6 i); [lia|].
  destruct (run_read32 a (PCI_BAR0 + i * 4) s) as (s1 & E1 & H1).
  unfold cfg32, dword in E1. rewrite Hx in E1. cbn [default from_option id] in E1.
  rewrite (hw_bind_run _ _ _ _ _ E1). unfold id. destruct (Z.eqb_spec (base + flags) 0); [lia|].
  rewrite B1, B2, B3, B4. replace (flags / 2 mod 4 =? 0) with true by (destruct Hf as [-> | ->]; done).
  rewrite <- H1 in Hx.
  destruct (run_probe a _ n flags base (fun m => mret (mkBar Memory32 base
    (not64 (Z.land m 4294967280) +w 1) (Z.testbit flags 3))) s1 Hx Hk ltac:(lia)
    ltac:(destruct Hf as [-> | ->]; lia) Hb Hm Hlt) as (s2 & E2 & H2).
  exists s2. split; [|by rewrite H2].
  cbv zeta. rewrite E2. unfold mret, hw_ret. rewrite bar_mask_low by lia.
  pose proof (pow_range n 32 ltac:(lia)). pose proof (pow_range n 31 ltac:(lia)).
  do 2 f_equal. unfold not64, U64_MAX. rewrite add64_small; [|unfold U64 in *; lia].
  unfold U64, U32. lia.
Qed.

Lemma read_bar_io a i n base s :
  0 <= i < 6 -> 2 <= n < 16 -> bar32 a i n 1 base (cfg (host s)) ->
  exists s', pci_read_bar a i s = (s', mkBar IoSpace base (2 ^ n) false)
    /\ cfg (host s') = cfg (host s).
Proof.
  intros Hi Hn (Hx & Hk & Hb & Hm & Hlt). unfold U32 in Hlt. pose proof (pow_range 2 n ltac:(lia)) as Hp.
  pose proof (pow_range n 15 ltac:(lia)) as Hp'.
  assert (forall y, y mod 2 ^ n = 0 -> y mod 4 = 0) as H4.
  { intros y Hy. apply Z.mod_divide; [lia|]. apply Z.divide_trans with (2 ^ n).
    - exists (2 ^ (n - 2)). change 4 with (2 ^ 2). rewrite <- Z.pow_add_r by lia. f_equal. lia.
    - apply Z.mod_divide; [lia|done]. }
  assert (forall y, 0 <= y -> y + 1 < U32 -> y mod 2 ^ n = 0 -> Z.land (y + 1) 4294967292 = y) as Hmask.
  { intros y H0 Hy Hy4. unfold U32 in Hy. pose proof (H4 y Hy4) as E.
    change 4294967292 with (2 ^ 32 - 2 ^ 2). rewrite mask_high by lia. change (2 ^ 2) with 4. dlia. }
  unfold pci_read_bar. destruct (Z.leb_spec 6 i); [lia|].
  destruct (run_read32 a (PCI_BAR0 + i * 4) s) as (s1 & E1 & H1).
  unfold cfg32, dword in E1. rewrite Hx in E1. unfold default, from_option, id in E1.
  rewrite (hw_bind_run _ _ _ _ _ E1). destruct (Z.eqb_spec (base + 1) 0); [lia|].
  rewrite has_bits_true.
  2:{ change 1 with (2 ^ 1 - 1) at 2. rewrite land_low by lia. change (2 ^ 1) with 2.
      pose proof (H4 _ Hm). dlia. }
  rewrite Hmask by (unfold U32; done || lia). rewrite <- H1 in Hx.
  destruct (run_probe a _ n 1 base (fun m => mret (mkBar IoSpace base
    (Z.land (not64 (Z.land m 4294967292) +w 1) 65535) false)) s1 Hx Hk ltac:(lia)
    ltac:(lia) Hb Hm ltac:(unfold U32; lia)) as (s2 & E2 & H2).
  exists s2. split; [|by rewrite H2].
  cbv zeta. rewrite E2. unfold mret, hw_ret. rewrite Hmask; [|lia|unfold U32; lia|].
  - do 2 f_equal. unfold not64, U64_MAX. rewrite add64_small; [|unfold U64 in *; lia].
    change 65535 with (2 ^ 16 - 1). rewrite land_low by lia.
    replace (18446744073709551615 - (2 ^ 32 - 2 ^ n) + 1) with (2 ^ n + (2 ^ 48 - 2 ^ 16) * 2 ^ 16) by lia.
    rewrite Z.mod_add by lia. apply Z.mod_small. lia.
  - replace (2 ^ 32 - 2 ^ n) with ((2 ^ (32 - n) - 1) * 2 ^ n)
      by (rewrite Z.mul_sub_distr_r, <- Z.pow_add_r by lia; f_equal; [f_equal|]; lia).
    apply Z.mod_mul. lia.
Qed.

(** A 64-bit register: the low word implements the address bits from [n] on, the
    high word those from [n - 32] on. *)
Definition bar64 (a : PciAddress) (i n flags base : Z) (c : gmap Z Z) : Prop :=
  let k := config_address a (PCI_BAR0 + i * 4) in
  let k' := config_address a (PCI_BAR0 + i * 4 + 4) in
  c !! k = Some (base mod 2 ^ 32 + flags) /\ address_register k (Z.min n 32) flags
  /\ c !! k' = Some (base / 2 ^ 32) /\ address_register k' (Z.max 0 (n - 32)) 0
  /\ is_u64 base /\ base mod 2 ^ n = 0.

Lemma bar64_parts n base : 4 <= n < 64 -> is_u64 base -> base mod 2 ^ n = 0 ->
  base mod 2 ^ 32 mod 2 ^ Z.min n 32 = 0
  /\ base / 2 ^ 32 mod 2 ^ Z.max 0 (n - 32) = 0
  /\ (2 ^ 32 - 2 ^ Z.max 0 (n - 32)) * 2 ^ 32 + (2 ^ 32 - 2 ^ Z.min n 32) = U64 - 2 ^ n.
Proof.
  intros Hn Hb Hm. change U64 with (2 ^ 64) in *. destruct (Z.le_gt_cases n 32) as [Hle|Hgt].
  - rewrite Z.min_l, Z.max_l by lia. split_and!.
    + pose proof (Z.pow_pos_nonneg 2 n). rewrite <- Hm.
      replace (2 ^ 32) with (2 ^ n * 2 ^ (32 - n)) by (rewrite <- Z.pow_add_r by lia; f_equal; lia).
      rewrite Z.rem_mul_r by (try apply Z.pow_pos_nonneg; lia).
      rewrite Z.mul_comm, Z.mod_add by lia. apply Z.mod_mod. lia.
    + apply Z.mod_1_r.
    + lia.
  - rewrite Z.min_r, Z.max_r by lia.
    assert (2 ^ n = 2 ^ (n - 32) * 2 ^ 32) as E by (rewrite <- Z.pow_add_r by lia; f_equal; lia).
    pose proof (Z.pow_pos_nonneg 2 (n - 32) ltac:(lia) ltac:(lia)).
    assert (base = (base / 2 ^ n) * 2 ^ (n - 32) * 2 ^ 32) as Eb.
    { pose proof (Z.div_mod base (2 ^ n) ltac:(nia)). rewrite E in *. nia. }
    split_and!.
    + rewrite Eb, Z.mod_mul by lia. done.
    + rewrite Eb, Z.div_mul by lia. apply Z.mod_mul. lia.
    + lia.
Qed.

Lemma valid_offset a i : valid_address a -> 0 <= i < 5 ->
  config_address a (PCI_BAR0 + i * 4) <> config_address a (PCI_BAR0 + i * 4 + 4).
Proof.
  intros Ha Hi. unfold PCI_BAR0. rewrite !config_address_sum by (done || unfold is_u8; lia).
  intros E. dlia.
Qed.

(** One write to a register whose contents are known. *)
Lemma write_at a o v x (K : unit -> hw S Bar) s :
  cfg (host s) !! config_address a o = Some x ->
  exists s', (pci_config_write32 a o v ≫= K) s = K tt s'
    /\ cfg (host s') = <[config_address a o := on_write (config_address a o) x v]> (cfg (host s)).
Proof.
  intros Hx. destruct (run_write32 a o v s) as (s' & E & H). exists s'.
  rewrite (hw_bind_run _ _ _ _ _ E). split; [done|]. rewrite H. unfold set32, cfg_write. by rewrite Hx.
Qed.

Lemma read_at_reg a o x (K : Z -> hw S Bar) s :
  cfg (host s) !! config_address a o = Some x ->
  exists s', (pci_config_read32 a o ≫= K) s = K x s' /\ cfg (host s') = cfg (host s).
Proof.
  intros Hx. destruct (run_read32 a o s) as (s' & E & H). exists s'.
  rewrite (hw_bind_run _ _ _ _ _ E). split; [|done]. unfold cfg32, dword. by rewrite Hx.
Qed.

Lemma size_mask64 lo hi flags n : 4 <= n < 64 -> 0 <= flags < 16 ->
  lo = 2 ^ 32 - 2 ^ Z.min n 32 + flags -> hi = 2 ^ 32 - 2 ^ Z.max 0 (n - 32) + 0 ->
  hi * 2 ^ 32 + (2 ^ 32 - 2 ^ Z.min n 32) = U64 - 2 ^ n ->
  not64 (Z.lor (Z.shiftl hi 32) (Z.land lo 4294967280)) +w 1 = 2 ^ n.
Proof.
  intros Hn Hf -> -> E. rewrite bar_mask_low by lia.
  pose proof (pow_range (Z.min n 32) 32 ltac:(lia)). pose proof (pow_range n 63 ltac:(lia)).
  rewrite shl_add; [|lia|split; [lia|]].
  - rewrite E. unfold not64, U64_MAX. rewrite add64_small; unfold U64 in *; lia.
  - pose proof (pow_range (Z.min n 32) 32 ltac:(lia)). lia.
Qed.

Lemma read_bar64 a i n flags base s :
  valid_address a -> 0 <= i < 5 -> 4 <= n < 64 -> flags = 4 \/ flags = 12 ->
  bar64 a i n flags base (cfg (host s)) ->
  exists s', pci_read_bar a i s = (s', mkBar Memory64 base (2 ^ n) (Z.testbit flags 3))
    /\ cfg (host s') = cfg (host s).
Proof.
  intros Ha Hi Hn Hf (Hx & Hk & Hx' & Hk' & Hb & Hm). pose proof (valid_offset a i Ha Hi) as Hne.
  destruct (bar64_parts n base Hn Hb Hm) as (P1 & P2 & P3).
  set (k := config_address a (PCI_BAR0 + i * 4)) in *.
  set (k' := config_address a (PCI_BAR0 + i * 4 + 4)) in *.
  set (lo := base mod 2 ^ 32) in *. set (hi := base / 2 ^ 32) in *.
  assert (0 <= lo < 2 ^ 32) as Hlo by (apply Z.mod_pos_bound; lia).
  assert (0 <= hi < 2 ^ 32) as Hhi
    by (unfold hi, is_u64, U64 in *; split; [apply Z.div_pos; lia|apply Z.div_lt_upper_bound; lia]).
  pose proof (pow_range 4 (Z.min n 32) ltac:(lia)) as Hp. change (2 ^ 4) with 16 in Hp.
  assert (lo mod 16 = 0) as Hl16 by (apply (multiple_of_16 (Z.min n 32)); [lia|done]).
  assert (lo + flags < U32) as Hlt by (unfold U32; dlia).
  destruct (memory_bits lo flags) as (B1 & B2 & B3 & B4);
    [lia|done|lia|destruct Hf as [-> | ->]; done|done|].
  pose proof (fun old => address_register_write k _ flags old lo Hk ltac:(lia) ltac:(lia)
    ltac:(lia) P1 Hlt) as Wl.
  pose proof (fun old => address_register_write k' _ 0 old hi Hk' ltac:(lia)
    ltac:(pose proof (pow_range 0 (Z.max 0 (n - 32))); lia) ltac:(lia) P2 ltac:(unfold U32; lia)) as Wh.
  rewrite Z.add_0_r in Wh.
  unfold pci_read_bar. destruct (Z.leb_spec 6 i); [lia|].
  edestruct (read_at_reg a (PCI_BAR0 + i * 4)) as (s1 & E1 & H1); [exact Hx|].
  rewrite E1. clear E1. destruct (Z.eqb_spec (lo + flags) 0); [lia|].
  rewrite B1, B2, B3, B4. replace (flags / 2 mod 4) with 2 by (destruct Hf as [-> | ->]; done).
  cbn [Z.eqb Pos.eqb]. destruct (Z.leb_spec 5 i); [lia|]. cbv zeta.
  edestruct (read_at_reg a (PCI_BAR0 + i * 4 + 4)) as (s2 & E2 & H2);
    [rewrite H1; exact Hx'|]. rewrite E2. clear E2.
  edestruct (write_at a (PCI_BAR0 + i * 4) 4294967295) as (s3 & E3 & H3);
    [rewrite H2, H1; exact Hx|]. rewrite E3. clear E3.
  edestruct (write_at a (PCI_BAR0 + i * 4 + 4) 4294967295) as (s4 & E4 & H4);
    [rewrite H3, lookup_insert_ne, H2, H1 by exact Hne; exact Hx'|]. rewrite E4. clear E4.
  fold k in H3. fold k' in H4. rewrite (proj2 (Wl _)) in H3. rewrite (proj2 (Wh _)) in H4.
  edestruct (read_at_reg a (PCI_BAR0 + i * 4)) as (s5 & E5 & H5);
    [fold k; rewrite H4, lookup_insert_ne, H3 by done; apply lookup_insert_eq|]. rewrite E5. clear E5.
  edestruct (read_at_reg a (PCI_BAR0 + i * 4 + 4)) as (s6 & E6 & H6);
    [fold k'; rewrite H5, H4; apply lookup_insert_eq|]. rewrite E6. clear E6.
  edestruct (write_at a (PCI_BAR0 + i * 4) (lo + flags)) as (s7 & E7 & H7);
    [fold k; rewrite H6, H5, H4, lookup_insert_ne, H3 by done; apply lookup_insert_eq|].
  rewrite E7. clear E7.
  edestruct (write_at a (PCI_BAR0 + i * 4 + 4) hi) as (s8 & E8 & H8);
    [fold k'; rewrite H7, lookup_insert_ne, H6, H5, H4 by done; apply lookup_insert_eq|].
  rewrite E8. clear E8. fold k in H7. fold k' in H8. rewrite (proj1 (Wl _)) in H7. rewrite (proj1 (Wh _)) in H8.
  exists s8. split.
  - unfold mret, hw_ret. do 2 f_equal.
    + rewrite shl_add by lia. unfold lo, hi. pose proof (Z.div_mod base (2 ^ 32)). lia.
    + apply (size_mask64 _ _ flags); [done|lia|done|done|]. rewrite Z.add_0_r. exact P3.
  - rewrite H8, H7, H6, H5, H4, H3, H2, H1.
    apply map_eq. intros j. destruct (decide (j = k')) as [->|].
    { by rewrite lookup_insert_eq. }
    rewrite lookup_insert_ne by done. destruct (decide (j = k)) as [->|].
    { by rewrite lookup_insert_eq. }
    by rewrite !lookup_insert_ne by done.
Qed.

(** Sizing a base address register leaves configuration space as it was and
    gives the type, the base, the prefetch bit, and the size of an I/O register
    below 64 KiB and of a 64-bit memory register; but the mask of a 32-bit memory
    register is complemented at 64 bits, so its size comes out too large by
    2^64 - 2^32. *)
Theorem bar_sizing_correct a i n base s :
  valid_address a -> 0 <= i < 5 ->
  (forall flags, 4 <= n < 64 -> flags = 4 \/ flags = 12 -> bar64 a i n flags base (cfg (host s)) ->
    exists s', pci_read_bar a i s = (s', mkBar Memory64 base (2 ^ n) (Z.testbit flags 3))
      /\ cfg (host s') = cfg (host s))
  /\ (forall flags, 4 <= n < 32 -> flags = 0 \/ flags = 8 -> 0 < base + flags ->
      bar32 a i n flags base (cfg (host s)) ->
      exists s', pci_read_bar a i s = (s', mkBar Memory32 base (U64 - U32 + 2 ^ n) (Z.testbit flags 3))
        /\ cfg (host s') = cfg (host s))
  /\ (2 <= n < 16 -> bar32 a i n 1 base (cfg (host s)) ->
      exists s', pci_read_bar a i s = (s', mkBar IoSpace base (2 ^ n) false)
        /\ cfg (host s') = cfg (host s)).
Proof.
  intros Ha Hi. split; [|split].
  - intros flags Hn Hf Hb. by apply read_bar64.
  - intros flags Hn Hf Hp Hb. apply read_bar32; (done || lia).
  - intros Hn Hb. apply read_bar_io; (done || lia).
Qed.
End Props.

(** * Closed instances *)

Definition sample_device : PciDevice := mkPciDevice sample_device_address 4660 4661 2 0 0 0 0 64 80.

Lemma sample_cfg_ok : cfg_ok sample_cfg.
Proof. exact sample_cfg_u32. Qed.

Lemma sample_command : command_register (S := PciHost) (sample_key PCI_COMMAND).
Proof. intros old v _ _. unfold on_write, sample_hardware, sample_write. by rewrite Z.eqb_refl. Qed.

Lemma sample_valid : valid_address sample_device_address.
Proof. by split; [|split]; vm_compute. Qed.


Lemma sample_key_eqb o o' : is_u8 o -> is_u8 o' -> o mod 4 = 0 -> o' mod 4 = 0 ->
  (sample_key o =? sample_key o') = (o =? o').
Proof.
  intros Ho Ho' Hm Hm'. unfold sample_key. rewrite !config_address_sum by (apply sample_valid || done).
  rewrite Hm, Hm', !Z.sub_0_r. destruct (Z.eqb_spec o o') as [->|]; [apply Z.eqb_refl|].
  apply Z.eqb_neq. lia.
Qed.

Lemma sample_address_register o n flags :
  (o, n, flags) = (16, 12, 0) \/ (o, n, flags) = (20, 5, 1) \/ (o, n, flags) = (24, 20, 12)
  \/ (o, n, flags) = (28, 0, 0) ->
  address_register (S := PciHost) (sample_key o) n flags.
Proof.
  intros H old v _. unfold on_write, sample_hardware, sample_write.
  destruct H as [[= -> -> ->]|[[= -> -> ->]|[[= -> -> ->]|[= -> -> ->]]]];
    rewrite !sample_key_eqb by (unfold is_u8; done || lia); reflexivity.
Qed.

Lemma config_address_unique_witness :
  config_address sample_device_address 5 = 2147489796
  /\ config_address sample_device_address 5 <> config_address sample_device_address 9.
Proof.
  destruct (config_address_unique sample_device_address sample_device_address 5 9 sample_valid sample_valid
    ltac:(unfold is_u8; lia) ltac:(unfold is_u8; lia)) as (_ & _ & _ & H).
  split; [by vm_compute|]. intros [_ E]%H. by vm_compute in E.
Defined.

Lemma bus_master_clears_errors_witness :
  exists s', enable_bus_master sample_device sample_host = (s', tt)
    /\ cfg16 sample_device_address PCI_COMMAND (cfg s') = 7
    /\ cfg16 sample_device_address PCI_STATUS sample_cfg = 43280
    /\ cfg16 sample_device_address PCI_STATUS (cfg s') = 16.
Proof.
  destruct (bus_master_clears_errors (Hw := sample_hardware) sample_device sample_host sample_cfg_ok
    ltac:(eexists; vm_compute; reflexivity) sample_command) as (s' & E & H1 & H2 & _).
  exists s'. split; [exact E|].
  split; [etransitivity; [exact H1|vm_compute; reflexivity]|].
  split; [vm_compute; reflexivity|]. etransitivity; [exact H2|vm_compute; reflexivity].
Defined.

Lemma bar_sizing_correct_witness :
  (exists s', pci_read_bar sample_device_address 2 sample_host = (s', mkBar Memory64 4294967296 1048576 true))
  /\ (exists s', pci_read_bar sample_device_address 0 sample_host
                 = (s', mkBar Memory32 4273934336 18446744069414588416 false))
  /\ (exists s', pci_read_bar sample_device_address 1 sample_host = (s', mkBar IoSpace 49216 32 false)).
Proof.
  split; [|split].
  - destruct (bar_sizing_correct (Hw := sample_hardware) sample_device_address 2 20 4294967296 sample_host
      sample_valid ltac:(lia)) as (H & _ & _).
    destruct (H 12 ltac:(lia) ltac:(by right)) as (s' & E & _); [|exists s'; exact E].
    split; [by vm_compute|]. split; [apply sample_address_register; vm_compute; auto|].
    split; [by vm_compute|]. split; [apply sample_address_register; vm_compute; auto|].
    split; by vm_compute.
  - destruct (bar_sizing_correct (Hw := sample_hardware) sample_device_address 0 12 4273934336 sample_host
      sample_valid ltac:(lia)) as (_ & H & _).
    destruct (H 0 ltac:(lia) ltac:(by left) ltac:(lia)) as (s' & E & _); [|exists s'; exact E].
    split; [by vm_compute|]. split; [apply sample_address_register; auto|].
    split_and!; by vm_compute.
  - destruct (bar_sizing_correct (Hw := sample_hardware) sample_device_address 1 5 49216 sample_host
      sample_valid ltac:(lia)) as (_ & _ & H).
    destruct (H ltac:(lia)) as (s' & E & _); [|exists s'; exact E].
    split; [by vm_compute|]. split; [apply sample_address_register; auto|].
    split_and!; by vm_compute.
Defined.
