(* ===== verification/PciScan.v ===== *)
(** Capability lists and the enumeration of the buses: what the two traversals of
    [Pci] find in a configuration space ([PciHost]).

    The list of capabilities and the tree of buses are data that the devices
    supply; the specifications below are functions of configuration space. *)

From S2P Require Import Prelude Ports Pci PciHost PciSample PciProps.

(** * Specifications *)

(** The capabilities from [off] on, at most [n] of them. *)
Fixpoint capabilities_from (c : gmap Z Z) (a : PciAddress) (n : nat) (off : Z) : list Capability :=
  match n with
  | O => []
  | S n' =>
      if off =? 0 then []
      else
        let h := cfg16 a off c in
        mkCapability (Z.land h 255) off :: capabilities_from c a n' (Z.land (Z.shiftr h 8) 252)
  end.

(** The capabilities of a function. *)
Definition capabilities (c : gmap Z Z) (a : PciAddress) : list Capability :=
  if has_bits (cfg16 a PCI_STATUS c) PCI_STATUS_CAPABILITIES_LIST
  then capabilities_from c a 48 (Z.land (cfg8 a PCI_CAPABILITIES_PTR c) 252)
  else [].

Definition find_cap (id : Z) (l : list Capability) : option Z :=
  cap_offset ∘ snd <$> list_find (fun x => cap_id x = id) l.

(** The function at an address. *)
Definition device_at (c : gmap Z Z) (a : PciAddress) : option PciDevice :=
  if cfg16 a PCI_VENDOR_ID c =? PCI_VENDOR_ID_INVALID then None
  else Some (mkPciDevice a (cfg16 a PCI_VENDOR_ID c) (cfg16 a PCI_DEVICE_ID c) (cfg8 a PCI_CLASS c)
    (cfg8 a PCI_SUBCLASS c) (cfg8 a PCI_PROG_IF c) (cfg8 a PCI_REVISION_ID c) (cfg8 a PCI_HEADER_TYPE c)
    (default 0 (find_cap PCI_CAP_ID_MSI (capabilities c a)))
    (default 0 (find_cap PCI_CAP_ID_MSIX (capabilities c a)))).

Definition there (c : gmap Z Z) (a : PciAddress) : bool :=
  negb (cfg16 a PCI_VENDOR_ID c =? PCI_VENDOR_ID_INVALID).
Definition many_functions (c : gmap Z Z) (a : PciAddress) : bool :=
  has_bits (cfg8 a PCI_HEADER_TYPE c) PCI_HEADER_TYPE_MULTI_FUNCTION.

(** Lists of results one after the other; [None] if one of them is missing. *)
Fixpoint in_order {A} (n : nat) (i : Z) (f : Z -> option (list A)) : option (list A) :=
  match n with
  | O => Some []
  | S n' => l ← f i; l' ← in_order n' (i + 1) f; Some (l ++ l')
  end.

Section Tree.
(** Depth-first order of the functions; [sub] is the bus behind a bridge. *)
Context (c : gmap Z Z) (sub : Z -> option (list PciDevice)).

Definition function_tree (bus device function : Z) : option (list PciDevice) :=
  let a := PciAddress_new bus device function in
  match device_at c a with
  | None => Some []
  | Some d => l ← (if is_bridge d then sub (cfg8 a 25 c) else Some []); Some (d :: l)
  end.

Definition device_tree (bus device : Z) : option (list PciDevice) :=
  let a := PciAddress_new bus device 0 in
  if there c a then
    l ← function_tree bus device 0;
    l' ← (if many_functions c a then in_order 7 1 (function_tree bus device) else Some []);
    Some (l ++ l')
  else Some [].
End Tree.

Fixpoint bus_tree (c : gmap Z Z) (depth : nat) (bus : Z) : option (list PciDevice) :=
  match depth with
  | O => None
  | S depth' => in_order 32 0 (device_tree c (bus_tree c depth') bus)
  end.

(** The buses that the host controllers start. *)
Definition machine_tree (c : gmap Z Z) (depth : nat) : option (list PciDevice) :=
  if many_functions c (PciAddress_new 0 0 0) then
    in_order 8 0 (fun f => if there c (PciAddress_new 0 0 f) then bus_tree c depth f else Some [])
  else bus_tree c depth 0.

Definition record_all (l : list PciDevice) (t : PciTable) : PciTable :=
  fold_left (fun t d => record_device d t) l t.

Section Scan.
Context {S : Type} `{Hw : PciHardware S}.

(** A routine that only reads configuration space. *)
Definition asks {X} (p : hw S X) (r : gmap Z Z -> X) : Prop := runs p r (fun c => c).

Lemma asks_bind {X Y} (p : hw S X) (k : X -> hw S Y) r r' :
  asks p r -> (forall x, asks (k x) (r' x)) -> asks (p ≫= k) (fun c => r' (r c) c).
Proof. intros Hp Hk. exact (runs_bind p k r (fun c => c) r' (fun _ c => c) Hp Hk). Qed.

Lemma asks_eq {X} (p : hw S X) r r' : asks p r -> (forall c, r c = r' c) -> asks p r'.
Proof. intros Hp H. by apply (runs_eq p r (fun c => c) r'). Qed.

(** One step of a routine that runs at a state whose configuration is [c]. *)
Ltac ask H :=
  lazymatch goal with
  | Hs : cfg (host ?s) = ?c |- exists _, mbind _ _ ?s = _ /\ _ =>
      let s1 := fresh "s" in let E := fresh "E" in let Hc := fresh "Hc" in
      destruct (H s) as (s1 & E & Hc); rewrite Hs in E, Hc;
      rewrite (hw_bind_run _ _ _ _ _ E); clear E Hs; cbv beta in Hc
  end.

(** A branch on a value that is known. *)
Lemma asks_if {X} (b : bool) (p q : hw S X) r r' : asks p r -> asks q r' ->
  asks (if b then p else q) (fun c => if b then r c else r' c).
Proof. by destruct b. Qed.

Lemma asks_walk a id n off :
  asks (walk_capabilities a id n off) (fun c => find_cap id (capabilities_from c a n off)).
Proof.
  revert off. induction n as [|n IH]; intros off; [apply runs_ret|]. cbn [walk_capabilities capabilities_from].
  destruct (off =? 0); [apply runs_ret|].
  eapply asks_eq.
  - apply asks_bind; [apply run_read16|]. intros h. apply asks_if; [apply runs_ret|apply IH].
  - intros c. cbv beta. unfold find_cap. cbn [list_find].
    set (h := cfg16 a off c). destruct (Z.eqb_spec (Z.land h 255) id) as [E|E].
    + rewrite decide_True by done. done.
    + rewrite decide_False by done. rewrite <- list_fmap_compose || idtac.
      by destruct (list_find _ _) as [[? ?]|].
Qed.

Lemma asks_find a id : asks (pci_find_capability a id) (fun c => find_cap id (capabilities c a)).
Proof.
  unfold pci_find_capability. eapply asks_eq.
  - apply asks_bind; [apply run_read16|]. intros st.
    apply (asks_if (negb (has_bits st PCI_STATUS_CAPABILITIES_LIST))); [apply runs_ret|].
    apply asks_bind; [apply run_read8|]. intros first. apply asks_walk.
  - intros c. cbv beta. unfold capabilities. by destruct (has_bits _ _).
Qed.

Lemma asks_device a : asks (PciDevice_read a) (fun c => device_at c a).
Proof.
  intros s. remember (cfg (host s)) as c eqn:Hs. symmetry in Hs. unfold PciDevice_read.
  ask (run_read16 a PCI_VENDOR_ID). unfold device_at. destruct (_ =? _); [by eexists|].
  ask (run_read16 a PCI_DEVICE_ID). ask (run_read8 a PCI_CLASS). ask (run_read8 a PCI_SUBCLASS).
  ask (run_read8 a PCI_PROG_IF). ask (run_read8 a PCI_REVISION_ID). ask (run_read8 a PCI_HEADER_TYPE).
  ask (asks_find a PCI_CAP_ID_MSI). ask (asks_find a PCI_CAP_ID_MSIX). by eexists.
Qed.

Lemma asks_there a : asks (PciDevice_exists a) (fun c => there c a).
Proof.
  intros s. remember (cfg (host s)) as c eqn:Hs. symmetry in Hs. unfold PciDevice_exists.
  ask (run_read16 a PCI_VENDOR_ID). by eexists.
Qed.

(** ** Capabilities *)

(** The iterator: at most [n] items. *)
Fixpoint collect (n : nat) (it : CapabilityIterator) : hw S (list Capability) :=
  match n with
  | O => mret []
  | Datatypes.S n' =>
      r ← capability_next it;
      match snd r with
      | None => mret []
      | Some x => l ← collect n' (fst r); mret (x :: l)
      end
  end.

Lemma asks_collect a off i n : 0 <= i <= 48 -> Z.of_nat n = 48 - i ->
  forall k, asks (collect (n + k) (mkCapIter a off i)) (fun c => capabilities_from c a n off).
Proof.
  revert off i. induction n as [|n IH]; intros off i Hi Hn k.
  - cbn [Nat.add capabilities_from]. assert (i = 48) as -> by lia.
    destruct k as [|k]; [apply runs_ret|]. cbn [collect]. unfold capability_next. cbn [ci_next_offset ci_iterations].
    replace (48 <=? 48) with true by done. rewrite orb_true_r.
    intros s. by exists s.
  - cbn [Nat.add capabilities_from collect]. unfold capability_next. cbn [ci_next_offset ci_iterations ci_addr].
    destruct (off =? 0); cbn [orb].
    + intros s. by exists s.
    + destruct (Z.leb_spec 48 i); [lia|]. intros s.
      destruct (run_read16 a off s) as (s1 & E1 & H1).
      destruct (IH (Z.land (Z.shiftr (cfg16 a off (cfg (host s))) 8) 252) (i + 1) ltac:(lia) ltac:(lia) k s1)
        as (s2 & E2 & H2).
      exists s2. split; [|by rewrite H2].
      rewrite (hw_bind_run _ _ s s1 (mkCapIter a (Z.land (Z.shiftr (cfg16 a off (cfg (host s))) 8) 252) (i + 1),
        Some (mkCapability (Z.land (cfg16 a off (cfg (host s))) 255) off)))
        by (by rewrite (hw_bind_run _ _ _ _ _ E1)).
      cbn [fst snd]. rewrite (hw_bind_run _ _ _ _ _ E2). by rewrite H1.
Qed.

(** All that the iterator gives, over [n] calls of [next]. *)
Definition all_capabilities (n : nat) (a : PciAddress) : hw S (list Capability) :=
  it ← CapabilityIterator_new a;
  match (it : option CapabilityIterator) with None => mret [] | Some it => collect n it end.

Lemma capabilities_length c a n off : (length (capabilities_from c a n off) <= n)%nat.
Proof.
  revert off. induction n as [|n IH]; intros off; cbn [capabilities_from]; [done|].
  destruct (off =? 0); cbn [length]; [lia|]. specialize (IH (Z.land (Z.shiftr (cfg16 a off c) 8) 252)). lia.
Qed.

Lemma asks_all a k : asks (all_capabilities (48 + k) a) (fun c => capabilities c a).
Proof.
  intros s. remember (cfg (host s)) as c eqn:Hs. symmetry in Hs. unfold all_capabilities, capabilities.
  destruct (run_read16 a PCI_STATUS s) as (s1 & E1 & H1). rewrite Hs in E1, H1.
  destruct (run_read8 a PCI_CAPABILITIES_PTR s1) as (s2 & E2 & H2). rewrite H1 in E2, H2.
  destruct (has_bits (cfg16 a PCI_STATUS c) PCI_STATUS_CAPABILITIES_LIST) eqn:Eb.
  - rewrite (hw_bind_run _ _ s s2 (Some (mkCapIter a (Z.land (cfg8 a PCI_CAPABILITIES_PTR c) 252) 0)))
      by (unfold CapabilityIterator_new; rewrite (hw_bind_run _ _ _ _ _ E1), Eb; cbn [negb];
          by rewrite (hw_bind_run _ _ _ _ _ E2)).
    destruct (asks_collect a (Z.land (cfg8 a PCI_CAPABILITIES_PTR c) 252) 0 48 ltac:(lia) ltac:(lia) k s2)
      as (s3 & E3 & H3). rewrite H2 in E3, H3. by exists s3.
  - exists s1. rewrite (hw_bind_run _ _ s s1 None); [done|].
    unfold CapabilityIterator_new. by rewrite (hw_bind_run _ _ _ _ _ E1), Eb.
Qed.

(** Searching the capability list finds the first capability with the id, and
    [None] exactly when there is none; the iterator gives the same list; both
    leave configuration space alone and end after at most 48 capabilities, even
    when a device links its list into a circle. *)
Theorem capability_search_correct a id k s :
  let c := cfg (host s) in let l := capabilities c a in
  (exists s', pci_find_capability a id s = (s', find_cap id l) /\ cfg (host s') = c)
  /\ (exists s', all_capabilities (48 + k) a s = (s', l) /\ cfg (host s') = c)
  /\ (length l <= 48)%nat
  /\ (find_cap id l = None <-> Forall (fun x => cap_id x <> id) l).
Proof.
  intros c l. split; [apply asks_find|]. split; [apply asks_all|]. split.
  - subst l. unfold capabilities. destruct (has_bits _ _); [apply capabilities_length|cbn; lia].
  - unfold find_cap. destruct (list_find _ l) as [[i x]|] eqn:E.
    + split; [done|]. apply list_find_Some in E as (Hx & Hid & _). intros Hf.
      by destruct (Forall_lookup_1 _ _ _ _ Hf Hx).
    + split; [|done]. intros _. by apply list_find_None in E.
Qed.

(** ** Enumeration *)

(** A part of the scan: the functions it adds to the table, or no end. *)
Definition scans (p : eprog Empty_set (S * PciTable) unit) (r : gmap Z Z -> option (list PciDevice)) : Prop :=
  forall s t, match r (cfg (host s)) with
  | Some l => exists s', p (s, t) = Some ((s', record_all l t), Ok tt) /\ cfg (host s') = cfg (host s)
  | None => p (s, t) = None
  end.

Lemma scans_ret : scans (mret tt) (fun _ => Some []).
Proof. intros s t. by exists s. Qed.

Lemma record_all_app l l' t : record_all (l ++ l') t = record_all l' (record_all l t).
Proof. apply fold_left_app. Qed.

Lemma scans_seq p q r r' : scans p r -> scans q r' ->
  scans (p ;; q) (fun c => l ← r c; l' ← r' c; Some (l ++ l')).
Proof.
  intros Hp Hq s t. specialize (Hp s t). destruct (r (cfg (host s))) as [l|]; cbn [mbind option_bind].
  - destruct Hp as (s1 & E1 & H1). specialize (Hq s1 (record_all l t)). rewrite H1 in Hq.
    destruct (r' (cfg (host s))) as [l'|]; cbn [mbind option_bind].
    + destruct Hq as (s2 & E2 & H2). exists s2. rewrite (bind_ok _ _ _ _ _ E1), E2, record_all_app. done.
    + by rewrite (bind_ok _ _ _ _ _ E1).
  - unfold mbind, prog_bind. by rewrite Hp.
Qed.

Lemma scans_ask {X} (p : hw S X) r k r' : asks p r -> (forall x, scans (k x) (r' x)) ->
  scans (on_hw p ≫= k) (fun c => r' (r c) c).
Proof.
  intros Hp Hk s t. destruct (Hp s) as (s1 & E1 & H1).
  specialize (Hk (r (cfg (host s))) s1 t). rewrite H1 in Hk.
  assert (on_hw p (s, t) = Some ((s1, t), Ok (r (cfg (host s))))) as E
    by (unfold on_hw; cbn [fst snd]; by rewrite E1).
  destruct (r' (r (cfg (host s))) (cfg (host s))) as [l|].
  - destruct Hk as (s2 & E2 & H2). exists s2. by rewrite (bind_ok _ _ _ _ _ E).
  - by rewrite (bind_ok _ _ _ _ _ E).
Qed.

Lemma scans_record d : scans (on_table (record_device d)) (fun _ => Some [d]).
Proof. intros s t. by exists s. Qed.

Lemma scans_if (b : bool) p q r r' : scans p r -> scans q r' ->
  scans (if b then p else q) (fun c => if b then r c else r' c).
Proof. by destruct b. Qed.

Lemma scans_eq p r r' : scans p r -> (forall c, r c = r' c) -> scans p r'.
Proof. intros Hp E s t. rewrite <- E. apply Hp. Qed.

Lemma scans_for n i (body : Z -> eprog Empty_set (S * PciTable) unit) f :
  (forall j, scans (body j) (fun c => f c j)) ->
  scans (prog_for n i body) (fun c => in_order n i (f c)).
Proof.
  intros Hb. revert i. induction n as [|n IH]; intros i; cbn [prog_for in_order]; [apply scans_ret|].
  exact (scans_seq _ _ _ _ (Hb i) (IH (i + 1))).
Qed.

Section Buses.
Context (enum : Z -> eprog Empty_set (S * PciTable) unit) (sub : gmap Z Z -> Z -> option (list PciDevice)).
Context (Hsub : forall b, scans (enum b) (fun c => sub c b)).

Lemma scans_function b d f : scans (pci_enumerate_function enum b d f) (fun c => function_tree c (sub c) b d f).
Proof.
  unfold pci_enumerate_function. eapply scans_eq.
  - apply (scans_ask _ _ _ (fun (x : option PciDevice) c => match x with
      | None => Some []
      | Some d' => l ← Some [d']; l' ← (if is_bridge d' then sub c (cfg8 (PciAddress_new b d f) 25 c) else Some []);
                   Some (l ++ l')
      end) (asks_device (PciAddress_new b d f))).
    intros [d'|]; [|apply scans_ret].
    apply scans_seq; [apply scans_record|].
    apply (scans_if (is_bridge d') _ _ _ (fun _ => Some [])); [|apply scans_ret].
    apply (scans_ask _ (cfg8 (PciAddress_new b d f) 25) _ (fun x c => sub c x)); [apply run_read8|exact Hsub].
  - intros c. cbv beta. unfold function_tree. by destruct (device_at c (PciAddress_new b d f)).
Qed.

Lemma scans_device b d : scans (pci_enumerate_device enum b d) (fun c => device_tree c (sub c) b d).
Proof.
  unfold pci_enumerate_device. eapply scans_eq.
  - apply (scans_ask _ _ _ (fun (x : bool) c => if negb x then Some [] else
      l ← function_tree c (sub c) b d 0;
      l' ← (if many_functions c (PciAddress_new b d 0) then in_order 7 1 (function_tree c (sub c) b d) else Some []);
      Some (l ++ l')) (asks_there (PciAddress_new b d 0))).
    intros x. apply (scans_if (negb x)); [apply scans_ret|].
    apply scans_seq; [apply scans_function|].
    apply (scans_ask _ (cfg8 (PciAddress_new b d 0) PCI_HEADER_TYPE) _ (fun h c =>
      if has_bits h PCI_HEADER_TYPE_MULTI_FUNCTION then in_order 7 1 (function_tree c (sub c) b d) else Some []));
      [apply run_read8|].
    intros h. apply (scans_if (has_bits h PCI_HEADER_TYPE_MULTI_FUNCTION)); [|apply scans_ret].
    apply (scans_for 7 1 _ (fun c => function_tree c (sub c) b d)).
    intros j. unfold pci_enumerate_if_there. eapply scans_eq.
    + apply (scans_ask _ _ _ (fun (x : bool) c => if x then function_tree c (sub c) b d j else Some [])
        (asks_there (PciAddress_new b d j))).
      intros y. apply (scans_if y); [apply scans_function|apply scans_ret].
    + intros c. cbv beta. unfold there, function_tree, device_at. by destruct (_ =? _).
  - intros c. cbv beta. unfold device_tree. by destruct (there c (PciAddress_new b d 0)).
Qed.
End Buses.

Lemma scans_bus depth b : scans (pci_enumerate_bus depth b) (fun c => bus_tree c depth b).
Proof.
  revert b. induction depth as [|depth IH]; intros b; [by intros s t|].
  cbn [pci_enumerate_bus bus_tree].
  apply (scans_for 32 0 _ (fun c => device_tree c (bus_tree c depth) b)).
  intros j. exact (scans_device _ (fun c => bus_tree c depth) IH b j).
Qed.

(** The table after a scan. *)
Lemma record_all_spec l t :
  length (PCI_DEVICES t) = 256%nat -> 0 <= PCI_DEVICE_COUNT t <= 256 ->
  let n := Z.to_nat (PCI_DEVICE_COUNT t) in let t' := record_all l t in
  length (PCI_DEVICES t') = 256%nat
  /\ PCI_DEVICE_COUNT t' = Z.min 256 (PCI_DEVICE_COUNT t + Z.of_nat (length l))
  /\ (forall i, (i < n)%nat -> PCI_DEVICES t' !! i = PCI_DEVICES t !! i)
  /\ (forall i d, (n + i < 256)%nat -> l !! i = Some d -> PCI_DEVICES t' !! (n + i)%nat = Some (Some d)).
Proof.
  revert t. induction l as [|d l IH]; intros t Hl Hc n t'.
  { subst t'. cbn [record_all fold_left length]. split_and!; [done|lia|done|by intros i d _]. }
  subst t'. change (record_all (d :: l) t) with (record_all l (record_device d t)).
  unfold record_device, MAX_PCI_DEVICES. destruct (Z.ltb_spec (PCI_DEVICE_COUNT t) 256).
  - set (t1 := mkPciTable _ _).
    destruct (IH t1) as (I1 & I2 & I3 & I4); [subst t1; cbn; by rewrite length_insert|subst t1; cbn; lia|].
    subst t1. cbn [PCI_DEVICES PCI_DEVICE_COUNT] in *. fold n in I3, I4.
    replace (Z.to_nat (PCI_DEVICE_COUNT t + 1)) with (Datatypes.S n) in I3, I4 by (unfold n; lia).
    split_and!; [done|cbn [length]; lia| |].
    + intros i Hi. rewrite I3 by lia. apply list_lookup_insert_ne. lia.
    + intros [|i] x Hi Hx.
      * rewrite I3 by lia. injection Hx as ->. replace (n + 0)%nat with n by lia.
        apply list_lookup_insert_eq. lia.
      * replace (n + Datatypes.S i)%nat with (Datatypes.S n + i)%nat by lia. apply I4; [lia|done].
  - destruct (IH t Hl Hc) as (I1 & I2 & I3 & I4). fold n in I3, I4.
    split_and!; [done|cbn [length]; lia|done|]. intros i x Hi. unfold n in Hi. lia.
Qed.

Lemma scans_machine depth s t :
  match machine_tree (cfg (host s)) depth with
  | Some l => exists s', pci_enumerate depth (s, t)
        = Some ((s', record_all l (mkPciTable (PCI_DEVICES t) 0)),
                Ok (PCI_DEVICE_COUNT (record_all l (mkPciTable (PCI_DEVICES t) 0))))
      /\ cfg (host s') = cfg (host s)
  | None => pci_enumerate depth (s, t) = None
  end.
Proof.
  set (t0 := mkPciTable (PCI_DEVICES t) 0).
  assert (scans (host_header ← on_hw (pci_config_read8 (PciAddress_new 0 0 0) PCI_HEADER_TYPE);
    (if has_bits host_header PCI_HEADER_TYPE_MULTI_FUNCTION then prog_for 8 0 (pci_enumerate_host depth)
     else pci_enumerate_bus depth 0)) (fun c => machine_tree c depth)) as H.
  { eapply scans_eq.
    - apply (scans_ask _ (cfg8 (PciAddress_new 0 0 0) PCI_HEADER_TYPE) _ (fun h c =>
        if has_bits h PCI_HEADER_TYPE_MULTI_FUNCTION
        then in_order 8 0 (fun f => if there c (PciAddress_new 0 0 f) then bus_tree c depth f else Some [])
        else bus_tree c depth 0)); [apply run_read8|].
      intros h. apply (scans_if (has_bits h PCI_HEADER_TYPE_MULTI_FUNCTION)); [|apply scans_bus].
      apply (scans_for 8 0 _ (fun c f => if there c (PciAddress_new 0 0 f) then bus_tree c depth f else Some [])).
      intros j. unfold pci_enumerate_host.
      apply (scans_ask _ _ _ (fun (x : bool) c => if x then bus_tree c depth j else Some [])
        (asks_there (PciAddress_new 0 0 j))).
      intros y. apply (scans_if y); [apply scans_bus|apply scans_ret].
    - done. }
  specialize (H s t0). cbv beta in H. unfold pci_enumerate, on_table.
  destruct (machine_tree (cfg (host s)) depth) as [l|].
  - destruct H as (s' & E & Hc). exists s'. split; [|done].
    revert E. unfold mbind, prog_bind, modify, gets. cbn [fst snd]. fold t0.
    destruct (on_hw (pci_config_read8 (PciAddress_new 0 0 0) PCI_HEADER_TYPE) (s, t0)) as [[s1 [h|e]]|];
      [|destruct e|done]. intros ->. done.
  - revert H. unfold mbind, prog_bind, modify, gets. cbn [fst snd]. fold t0.
    destruct (on_hw (pci_config_read8 (PciAddress_new 0 0 0) PCI_HEADER_TYPE) (s, t0)) as [[s1 [h|e]]|];
      [|done|done]. by intros ->.
Qed.

(** The table after a scan. *)
Lemma table_holds l t : length (PCI_DEVICES t) = 256%nat ->
  let t' := record_all l (mkPciTable (PCI_DEVICES t) 0) in let n := Z.min 256 (Z.of_nat (length l)) in
  pci_get_device_count t' = n
  /\ forall i, 0 <= i -> pci_get_device i t' = if i <? n then l !! Z.to_nat i else None.
Proof.
  intros Hl. destruct (record_all_spec l (mkPciTable (PCI_DEVICES t) 0) Hl) as (R1 & R2 & _ & R4); [cbn; lia|].
  cbn [PCI_DEVICE_COUNT] in *. rewrite Z.add_0_l in R2. cbv zeta. split; [exact R2|].
  intros i Hi. unfold pci_get_device, MAX_PCI_DEVICES.
  rewrite R2. destruct (Z.ltb_spec i (Z.min 256 (Z.of_nat (length l)))); [|done].
  destruct (Z.ltb_spec i 256); [|lia]. cbn [andb].
  destruct (lookup_lt_is_Some_2 l (Z.to_nat i)) as [d Hd]; [lia|].
  rewrite Hd. change (Z.to_nat 0) with O in R4. cbn [Nat.add] in R4.
  rewrite (R4 (Z.to_nat i) d); [done|lia|done].
Qed.

(** C13. The enumeration finds the functions of the machine in depth-first order,
    each function before the buses behind it: the table holds the first 256 of
    them, the answer is their number, and configuration space is unchanged.
    There is no answer exactly when the tree of buses is deeper than the stack. *)
Theorem pci_enumerate_correct depth s t :
  length (PCI_DEVICES t) = 256%nat ->
  match machine_tree (cfg (host s)) depth with
  | None => pci_enumerate depth (s, t) = None
  | Some l => exists s' t', let n := Z.min 256 (Z.of_nat (length l)) in
      pci_enumerate depth (s, t) = Some ((s', t'), Ok n)
      /\ cfg (host s') = cfg (host s)
      /\ pci_get_device_count t' = n
      /\ forall i, 0 <= i -> pci_get_device i t' = if i <? n then l !! Z.to_nat i else None
  end.
Proof.
  intros Hl. pose proof (scans_machine depth s t) as H.
  destruct (machine_tree (cfg (host s)) depth) as [l|]; [|done].
  destruct H as (s' & E & Hc). destruct (table_holds l t Hl) as [Hn Hg]. cbv zeta in *.
  exists s', (record_all l (mkPciTable (PCI_DEVICES t) 0)). rewrite E.
  change (PCI_DEVICE_COUNT ?x) with (pci_get_device_count x). by rewrite Hn.
Qed.

(** ** Depth *)

Lemma in_order_some {A} n i (f : Z -> option (list A)) :
  (forall j, i <= j < i + Z.of_nat n -> is_Some (f j)) -> is_Some (in_order n i f).
Proof.
  revert i. induction n as [|n IH]; intros i Hf; cbn [in_order]; [by eexists|].
  destruct (Hf i) as [l ->]; [lia|]. cbn [mbind option_bind].
  destruct (IH (i + 1)) as [l' ->]; [intros; apply Hf; lia|]. by eexists.
Qed.

Lemma in_order_none {A} n i (f : Z -> option (list A)) j :
  i <= j < i + Z.of_nat n -> f j = None -> in_order n i f = None.
Proof.
  revert i. induction n as [|n IH]; intros i Hj Hf; cbn [in_order]; [lia|].
  destruct (decide (j = i)) as [->|]; [by rewrite Hf|].
  destruct (f i); cbn [mbind option_bind]; [|done]. rewrite IH; [done|lia|done].
Qed.

(** Every bridge leads to a bus of a higher number. *)
Definition buses_ascend (c : gmap Z Z) : Prop := forall a d, valid_address a ->
  device_at c a = Some d -> is_bridge d = true -> pa_bus a < cfg8 a 25 c.

Lemma cfg8_range a o c : 0 <= cfg8 a o c < 256.
Proof. unfold cfg8. change 255 with (2 ^ 8 - 1). rewrite land_low by lia. apply Z.mod_pos_bound. lia. Qed.

Lemma new_valid b d f : is_u8 b -> valid_address (PciAddress_new b d f).
Proof.
  intros Hb. split; [done|]. cbn [pa_device pa_function PciAddress_new].
  change 31 with (2 ^ 5 - 1). change 7 with (2 ^ 3 - 1). rewrite !land_low by lia.
  split; apply Z.mod_pos_bound; lia.
Qed.

Lemma function_tree_some c sub b d f : buses_ascend c -> is_u8 b ->
  (forall b', b < b' < 256 -> is_Some (sub b')) -> is_Some (function_tree c sub b d f).
Proof.
  intros Hasc Hu Hs. unfold function_tree.
  destruct (device_at c (PciAddress_new b d f)) as [x|] eqn:E; [|by eexists].
  destruct (is_bridge x) eqn:Eb; [|by eexists].
  pose proof (Hasc _ _ (new_valid b d f Hu) E Eb) as Hlt. cbn [pa_bus PciAddress_new] in Hlt.
  destruct (Hs (cfg8 (PciAddress_new b d f) 25 c)) as [l ->].
  - pose proof (cfg8_range (PciAddress_new b d f) 25 c). lia.
  - by eexists.
Qed.

Lemma bus_tree_some c depth b : buses_ascend c -> 0 <= b < 256 -> 256 - b <= Z.of_nat depth ->
  is_Some (bus_tree c depth b).
Proof.
  intros Hasc. revert b. induction depth as [|depth IH]; intros b Hb Hd; [lia|].
  cbn [bus_tree]. apply in_order_some. intros j _. unfold device_tree.
  destruct (there c (PciAddress_new b j 0)); [|by eexists].
  assert (forall b', b < b' < 256 -> is_Some (bus_tree c depth b')) as Hsub by (intros; apply IH; lia).
  destruct (function_tree_some c (bus_tree c depth) b j 0 Hasc Hb Hsub) as [l ->]. cbn [mbind option_bind].
  destruct (many_functions c (PciAddress_new b j 0)); [|by eexists].
  destruct (in_order_some 7 1 (function_tree c (bus_tree c depth) b j)) as [l' ->]; [|by eexists].
  intros k _. by apply function_tree_some.
Qed.

Lemma machine_tree_some c depth : buses_ascend c -> (256 <= depth)%nat -> is_Some (machine_tree c depth).
Proof.
  intros Hasc Hd. unfold machine_tree. destruct (many_functions _ _).
  - apply in_order_some. intros j Hj. destruct (there _ _); [|by eexists].
    apply bus_tree_some; [done|lia|lia].
  - apply bus_tree_some; [done|lia|lia].
Qed.

(** C32. The enumeration ends, with the buses nested at most 256 deep, on every
    machine whose bridges lead to buses of higher numbers. *)
Theorem pci_enumerate_terminates s t depth :
  buses_ascend (cfg (host s)) -> (256 <= depth)%nat ->
  exists st n, pci_enumerate depth (s, t) = Some (st, Ok n).
Proof.
  intros Hasc Hd. pose proof (scans_machine depth s t) as H.
  destruct (machine_tree_some _ _ Hasc Hd) as [l El].
  rewrite El in H. destruct H as (s' & E & _). by do 2 eexists.
Qed.

Lemma bus_tree_none c depth b d x :
  0 <= d < 32 -> device_at c (PciAddress_new b d 0) = Some x -> is_bridge x = true ->
  cfg8 (PciAddress_new b d 0) 25 c = b -> bus_tree c depth b = None.
Proof.
  intros Hd Hx Hbr Hsec. induction depth as [|depth IH]; [done|]. cbn [bus_tree].
  apply (in_order_none 32 0 _ d); [lia|]. unfold device_tree, there.
  assert (function_tree c (bus_tree c depth) b d 0 = None) as ->
    by (unfold function_tree; by rewrite Hx, Hbr, Hsec, IH).
  revert Hx. unfold device_at. by destruct (_ =? _).
Qed.

(** Nothing stops the scan from following a bridge back: a bridge on bus 0
    whose secondary bus number is still 0, as it is after reset, makes the scan of
    a machine with one host controller call itself without end, whatever the size
    of the stack. *)
Theorem unconfigured_bridge_loops s t depth d x :
  let c := cfg (host s) in
  0 <= d < 32 -> device_at c (PciAddress_new 0 d 0) = Some x -> is_bridge x = true ->
  cfg8 (PciAddress_new 0 d 0) 25 c = 0 -> many_functions c (PciAddress_new 0 0 0) = false ->
  pci_enumerate depth (s, t) = None.
Proof.
  intros c Hd Hx Hb Hs Hm. pose proof (scans_machine depth s t) as H. fold c in H.
  unfold machine_tree in H. rewrite Hm in H. by rewrite (bus_tree_none c depth 0 d x) in H.
Qed.
End Scan.

(** * Closed instances *)

Lemma pci_enumerate_correct_witness :
  exists s' t', pci_enumerate 3 (sample_host, mkPciTable (replicate 256 None) 0) = Some ((s', t'), Ok 4)
    /\ (pa_bus ∘ address <$> pci_get_device 2 t') = Some 1
    /\ (msix_cap_offset <$> pci_get_device 3 t') = Some 80.
Proof.
  pose proof (pci_enumerate_correct (Hw := sample_hardware) 3 sample_host (mkPciTable (replicate 256 None) 0)
    eq_refl) as H.
  destruct (machine_tree (cfg (host sample_host)) 3) as [l|] eqn:E; [|vm_compute in E; discriminate E].
  assert (length l = 4%nat) as Hn by (vm_compute in E; injection E as <-; reflexivity).
  destruct H as (s' & t' & E' & _ & _ & Hg). exists s', t'.
  rewrite Hn in E', Hg. split; [exact E'|].
  rewrite !Hg by lia. vm_compute in E. injection E as <-. split; reflexivity.
Defined.

Lemma sample_lookup k v : sample_cfg !! k = Some v ->
  Z.land (Z.shiftr v 24) 255 = 6 -> Z.land (Z.shiftr v 16) 255 = 4 ->
  k = config_address (mkPciAddress 0 1 0) 8.
Proof.
  unfold sample_cfg. intros H%elem_of_list_to_map_2. revert H.
  assert (Forall (fun p => Z.land (Z.shiftr p.2 24) 255 = 6 -> Z.land (Z.shiftr p.2 16) 255 = 4 ->
      p.1 = config_address (mkPciAddress 0 1 0) 8)
    (flat_map (fun '(a, rs) => map (fun '(o, v) => (config_address a o, v)) rs) sample_registers)) as Hf
    by (apply (bool_decide_unpack _); by vm_compute).
  rewrite Forall_forall in Hf. intros H. exact (Hf _ H).
Qed.

Lemma bridge_fields c a d : device_at c a = Some d -> is_bridge d = true ->
  cfg8 a PCI_CLASS c = 6 /\ cfg8 a PCI_SUBCLASS c = 4.
Proof.
  unfold device_at. destruct (_ =? _); [discriminate|]. intros E%(inj Some). subst d.
  unfold is_bridge. cbn [class_code subclass]. by intros [->%Z.eqb_eq ->%Z.eqb_eq]%andb_true_iff.
Qed.

Lemma bridge_valid : valid_address (mkPciAddress 0 1 0).
Proof. by split; [|split]; vm_compute. Qed.

Lemma sample_ascend : buses_ascend sample_cfg.
Proof.
  intros a d Ha Hd Hb. destruct (bridge_fields _ _ _ Hd Hb) as [H1 H2]. clear Hd.
  unfold cfg8, cfg32, dword in H1, H2.
  change (config_address a PCI_CLASS) with (config_address a 8) in H1.
  change (config_address a PCI_SUBCLASS) with (config_address a 8) in H2.
  destruct (sample_cfg !! config_address a 8) as [v|] eqn:Ev; [|vm_compute in H1; discriminate H1].
  pose proof (sample_lookup _ _ Ev H1 H2) as Ek.
  pose proof bridge_valid as Hv. clear Ev H1 H2.
  rewrite (config_address_sum a 8 Ha), (config_address_sum (mkPciAddress 0 1 0) 8 Hv) in Ek
    by (unfold is_u8; lia).
  destruct Ha as (A1 & A2 & A3), a as [b' d' f']; unfold is_u8 in A1; cbn in *.
  assert (b' = 0 /\ d' = 1 /\ f' = 0) as (-> & -> & ->) by dlia.
  vm_compute. reflexivity.
Qed.

Lemma pci_enumerate_terminates_witness :
  exists st n, pci_enumerate 256 (sample_host, mkPciTable [] 0) = Some (st, Ok n).
Proof.
  exact (pci_enumerate_terminates (Hw := sample_hardware) sample_host (mkPciTable [] 0) 256
    sample_ascend (le_n 256)).
Defined.

(** The same machine before the bridge has been given its bus numbers. *)
Definition reset_host : PciHost :=
  mkHost 0 (<[config_address (mkPciAddress 0 1 0) 24 := 0]> sample_cfg).

Lemma unconfigured_bridge_loops_witness : pci_enumerate 100 (reset_host, mkPciTable [] 0) = None.
Proof.
  eapply (unconfigured_bridge_loops (Hw := sample_hardware) reset_host (mkPciTable [] 0) 100 1);
    [lia|vm_compute; reflexivity|reflexivity|vm_compute; reflexivity|vm_compute; reflexivity].
Defined.
