(* ===== verification/Msi.v ===== *)
(** Message-signalled interrupts: [drivers/pci/msi.rs].

    The MSI capability lives in configuration space, the MSI-X table and its
    pending bits in memory of the device.  [u8] offsets and vectors wrap. *)

From S2P Require Import Prelude Ports Pci.

Definition MSI_CONTROL : Z := 2.
Definition MSI_MESSAGE_ADDRESS_LOW : Z := 4.
Definition MSI_MESSAGE_ADDRESS_HIGH : Z := 8.
Definition MSI_MESSAGE_DATA_32 : Z := 8.
Definition MSI_MESSAGE_DATA_64 : Z := 12.
Definition MSI_MASK_BITS_32 : Z := 12.
Definition MSI_MASK_BITS_64 : Z := 16.
Definition MSI_PENDING_BITS_32 : Z := 16.
Definition MSI_PENDING_BITS_64 : Z := 20.

Definition MSI_CONTROL_ENABLE : Z := bit 0.
Definition MSI_CONTROL_MMC_MASK : Z := 14.
Definition MSI_CONTROL_MMC_SHIFT : Z := 1.
Definition MSI_CONTROL_MME_MASK : Z := 112.
Definition MSI_CONTROL_MME_SHIFT : Z := 4.
Definition MSI_CONTROL_64BIT : Z := bit 7.
Definition MSI_CONTROL_PER_VECTOR_MASK : Z := bit 8.

Definition MSIX_CONTROL : Z := 2.
Definition MSIX_TABLE_OFFSET : Z := 4.
Definition MSIX_PBA_OFFSET : Z := 8.
Definition MSIX_CONTROL_TABLE_SIZE_MASK : Z := 2047.
Definition MSIX_CONTROL_FUNC_MASK : Z := bit 14.
Definition MSIX_CONTROL_ENABLE : Z := bit 15.
Definition MSIX_ENTRY_VECTOR_CTRL_MASK : Z := bit 0.
Definition MSIX_TABLE_BIR_MASK : Z := 7.
Definition MSIX_TABLE_OFFSET_MASK : Z := not32 7.

Definition MSI_ADDRESS_BASE : Z := 4276092928.
Definition MSI_ADDRESS_DEST_ID_SHIFT : Z := 12.
Definition MSI_ADDRESS_REDIRECT_HINT : Z := bit 3.
Definition MSI_ADDRESS_DEST_MODE_LOGICAL : Z := bit 2.
Definition MSI_DATA_DELIVERY_MODE_SHIFT : Z := 8.
Definition MSI_DATA_LEVEL_ASSERT : Z := bit 14.
Definition MSI_DATA_TRIGGER_LEVEL : Z := bit 15.

(** * Messages *)

Inductive MsiDeliveryMode : Set := Fixed | LowestPriority | Smi | Nmi | Init | ExtInt.
Inductive MsiDestinationMode : Set := Physical | Logical.
Inductive MsiTriggerMode : Set := Edge | Level.

(** [self.delivery_mode as u16]. *)
Definition delivery_bits (m : MsiDeliveryMode) : Z :=
  match m with Fixed => 0 | LowestPriority => 1 | Smi => 2 | Nmi => 4 | Init => 5 | ExtInt => 7 end.

Record MsiMessage := mkMessage {
  vector : Z;
  dest_id : Z;
  delivery_mode : MsiDeliveryMode;
  dest_mode : MsiDestinationMode;
  trigger_mode : MsiTriggerMode;
  redirect_hint : bool;
}.

Definition MsiMessage_new (vector dest_id : Z) : MsiMessage :=
  mkMessage vector dest_id Fixed Physical Edge false.
Definition lowest_priority (vector : Z) : MsiMessage :=
  mkMessage vector 0 LowestPriority Logical Edge true.

Definition address_low (m : MsiMessage) : Z :=
  let addr := Z.lor MSI_ADDRESS_BASE (wrap32 (Z.shiftl (dest_id m) MSI_ADDRESS_DEST_ID_SHIFT)) in
  let addr := if redirect_hint m then Z.lor addr MSI_ADDRESS_REDIRECT_HINT else addr in
  match dest_mode m with
  | Logical => Z.lor addr MSI_ADDRESS_DEST_MODE_LOGICAL
  | Physical => addr
  end.
Definition address_high (m : MsiMessage) : Z := 0.
Definition msi_address (m : MsiMessage) : Z := address_low m.

Definition msi_data (m : MsiMessage) : Z :=
  let data := Z.lor (vector m) (wrap16 (Z.shiftl (delivery_bits (delivery_mode m)) MSI_DATA_DELIVERY_MODE_SHIFT)) in
  match trigger_mode m with
  | Level => Z.lor (Z.lor data MSI_DATA_TRIGGER_LEVEL) MSI_DATA_LEVEL_ASSERT
  | Edge => data
  end.

(** * Records *)

Record MsiCapability := mkMsiCap {
  msi_offset : Z;
  max_vectors : Z;
  is_64bit : bool;
  per_vector_mask : bool;
}.

Record MsixTableEntry := mkEntry {
  e_address_low : Z;
  e_address_high : Z;
  e_data : Z;
  e_vector_ctrl : Z;
}.

Definition from_message (m : MsiMessage) : MsixTableEntry :=
  mkEntry (address_low m) (address_high m) (msi_data m) 0.
Definition from_message_masked (m : MsiMessage) : MsixTableEntry :=
  mkEntry (address_low m) (address_high m) (msi_data m) 1.
Definition is_masked (e : MsixTableEntry) : bool := has_bits (e_vector_ctrl e) MSIX_ENTRY_VECTOR_CTRL_MASK.

Record MsixCapability := mkMsixCap {
  msix_offset : Z;
  table_size : Z;
  table_bar : Z;
  table_offset : Z;
  pba_bar : Z;
  pba_offset : Z;
}.

Record MsixController := mkController {
  capability : MsixCapability;
  table_addr : Z;
  pba_addr : Z;
}.

Definition entry_addr (c : MsixController) (index : Z) : Z := table_addr c +w index *w 16.
Definition pba_qword_addr (c : MsixController) (index : Z) : Z := pba_addr c +w index / 64 * 8.

(** [1 << vector] on [u32] and [u8]: the shift is taken modulo the width. *)
Definition bit32 (v : Z) : Z := bit (v mod 32).
Definition bit8 (v : Z) : Z := bit (v mod 8).

(** [u8::next_power_of_two] of at most 128, and [u8::trailing_zeros]. *)
Definition next_power_of_two (x : Z) : Z := if x <=? 1 then 1 else 2 ^ (Z.log2 (x - 1) + 1).
Definition trailing_zeros (x : Z) : Z := default 8 (find_loop 0 8 (fun i => if Z.testbit x i then Some i else None)).

Section Msi.
Context {S : Type} `{Io : PortIO S} `{Mm : MmioIO S}.

(** * Capabilities *)

Definition MsiCapability_read (a : PciAddress) (offset : Z) : hw S MsiCapability :=
  control ← pci_config_read16 a (add8 offset MSI_CONTROL);
  let mmc := Z.shiftr (Z.land control MSI_CONTROL_MMC_MASK) MSI_CONTROL_MMC_SHIFT in
  mret (mkMsiCap offset (bit8 mmc) (has_bits control MSI_CONTROL_64BIT)
          (has_bits control MSI_CONTROL_PER_VECTOR_MASK)).

Definition msi_is_enabled (cap : MsiCapability) (a : PciAddress) : hw S bool :=
  control ← pci_config_read16 a (add8 (msi_offset cap) MSI_CONTROL);
  mret (has_bits control MSI_CONTROL_ENABLE).

Definition allocated_vectors (cap : MsiCapability) (a : PciAddress) : hw S Z :=
  control ← pci_config_read16 a (add8 (msi_offset cap) MSI_CONTROL);
  let mme := Z.shiftr (Z.land control MSI_CONTROL_MME_MASK) MSI_CONTROL_MME_SHIFT in
  mret (bit8 mme).

Definition MsixCapability_read (a : PciAddress) (offset : Z) : hw S MsixCapability :=
  control ← pci_config_read16 a (add8 offset MSIX_CONTROL);
  let size := Z.land control MSIX_CONTROL_TABLE_SIZE_MASK + 1 in
  table_bir ← pci_config_read32 a (add8 offset MSIX_TABLE_OFFSET);
  pba_bir ← pci_config_read32 a (add8 offset MSIX_PBA_OFFSET);
  mret (mkMsixCap offset size
          (Z.land table_bir MSIX_TABLE_BIR_MASK) (Z.land table_bir MSIX_TABLE_OFFSET_MASK)
          (Z.land pba_bir MSIX_TABLE_BIR_MASK) (Z.land pba_bir MSIX_TABLE_OFFSET_MASK)).

Definition msix_is_enabled (cap : MsixCapability) (a : PciAddress) : hw S bool :=
  control ← pci_config_read16 a (add8 (msix_offset cap) MSIX_CONTROL);
  mret (has_bits control MSIX_CONTROL_ENABLE).

Definition is_function_masked (cap : MsixCapability) (a : PciAddress) : hw S bool :=
  control ← pci_config_read16 a (add8 (msix_offset cap) MSIX_CONTROL);
  mret (has_bits control MSIX_CONTROL_FUNC_MASK).

(** * MSI *)

(** The writes that [msi_enable_single] and [msi_enable_multi] share: disable,
    mask the legacy line, address and data. *)
Definition msi_program (a : PciAddress) (offset : Z) (is64 : bool) (control : Z) (m : MsiMessage) : hw S unit :=
  pci_config_write16 a (add8 offset MSI_CONTROL) control ;;
  cmd ← pci_config_read16 a PCI_COMMAND;
  pci_config_write16 a PCI_COMMAND (Z.lor cmd PCI_COMMAND_INTERRUPT_DISABLE) ;;
  pci_config_write32 a (add8 offset MSI_MESSAGE_ADDRESS_LOW) (address_low m) ;;
  if is64 then
    pci_config_write32 a (add8 offset MSI_MESSAGE_ADDRESS_HIGH) (address_high m) ;;
    pci_config_write16 a (add8 offset MSI_MESSAGE_DATA_64) (msi_data m)
  else pci_config_write16 a (add8 offset MSI_MESSAGE_DATA_32) (msi_data m).

Definition msi_enable_single (d : PciDevice) (m : MsiMessage) : hw S bool :=
  if msi_cap_offset d =? 0 then mret false
  else
    let offset := msi_cap_offset d in
    let a := address d in
    control ← pci_config_read16 a (add8 offset MSI_CONTROL);
    let control' := Z.land control (not16 MSI_CONTROL_ENABLE) in
    msi_program a offset (has_bits control MSI_CONTROL_64BIT) control' m ;;
    let control' := Z.land control' (not16 MSI_CONTROL_MME_MASK) in
    pci_config_write16 a (add8 offset MSI_CONTROL) (Z.lor control' MSI_CONTROL_ENABLE) ;;
    mret true.

Definition msi_enable_multi (d : PciDevice) (base_message : MsiMessage) (requested_vectors : Z) : hw S Z :=
  if msi_cap_offset d =? 0 then mret 0
  else
    let offset := msi_cap_offset d in
    let a := address d in
    cap ← MsiCapability_read a offset;
    let vectors := Z.min (next_power_of_two (Z.min requested_vectors (max_vectors cap))) 32 in
    let mme := trailing_zeros vectors in
    control ← pci_config_read16 a (add8 offset MSI_CONTROL);
    let control := Z.land control (not16 MSI_CONTROL_ENABLE) in
    msi_program a offset (is_64bit cap) control base_message ;;
    let control := Z.land control (not16 MSI_CONTROL_MME_MASK) in
    let control := Z.lor control (wrap16 (Z.shiftl mme MSI_CONTROL_MME_SHIFT)) in
    pci_config_write16 a (add8 offset MSI_CONTROL) (Z.lor control MSI_CONTROL_ENABLE) ;;
    mret vectors.

(** The legacy interrupt line on again. *)
Definition legacy_on (a : PciAddress) : hw S unit :=
  cmd ← pci_config_read16 a PCI_COMMAND;
  pci_config_write16 a PCI_COMMAND (Z.land cmd (not16 PCI_COMMAND_INTERRUPT_DISABLE)).

Definition msi_disable (d : PciDevice) : hw S bool :=
  if msi_cap_offset d =? 0 then mret false
  else
    let offset := msi_cap_offset d in
    let a := address d in
    control ← pci_config_read16 a (add8 offset MSI_CONTROL);
    pci_config_write16 a (add8 offset MSI_CONTROL) (Z.land control (not16 MSI_CONTROL_ENABLE)) ;;
    legacy_on a ;;
    mret true.

(** The mask register of a device with per-vector masking, changed by [f]. *)
Definition change_mask (d : PciDevice) (f : Z -> Z) : hw S bool :=
  if msi_cap_offset d =? 0 then mret false
  else
    let offset := msi_cap_offset d in
    let a := address d in
    cap ← MsiCapability_read a offset;
    if negb (per_vector_mask cap) then mret false
    else
      let mask_offset := if is_64bit cap then MSI_MASK_BITS_64 else MSI_MASK_BITS_32 in
      mask ← pci_config_read32 a (add8 offset mask_offset);
      pci_config_write32 a (add8 offset mask_offset) (f mask) ;;
      mret true.

Definition msi_mask_vector (d : PciDevice) (v : Z) : hw S bool :=
  change_mask d (fun mask => Z.lor mask (bit32 v)).
Definition msi_unmask_vector (d : PciDevice) (v : Z) : hw S bool :=
  change_mask d (fun mask => Z.land mask (not32 (bit32 v))).

Definition msi_is_pending (d : PciDevice) (v : Z) : hw S bool :=
  if msi_cap_offset d =? 0 then mret false
  else
    let offset := msi_cap_offset d in
    let a := address d in
    cap ← MsiCapability_read a offset;
    if negb (per_vector_mask cap) then mret false
    else
      let pending_offset := if is_64bit cap then MSI_PENDING_BITS_64 else MSI_PENDING_BITS_32 in
      pending ← pci_config_read32 a (add8 offset pending_offset);
      mret (has_bits pending (bit32 v)).

Definition msi_get_capability (d : PciDevice) : hw S (option MsiCapability) :=
  if msi_cap_offset d =? 0 then mret None
  else cap ← MsiCapability_read (address d) (msi_cap_offset d); mret (Some cap).

(** * MSI-X *)

(** [BarType::None | BarType::IoSpace]. *)
Definition not_memory (b : Bar) : bool :=
  match bar_type b with BarNone | IoSpace => true | _ => false end.

Definition MsixController_new (d : PciDevice) : hw S (option MsixController) :=
  if msix_cap_offset d =? 0 then mret None
  else
    cap ← MsixCapability_read (address d) (msix_cap_offset d);
    tbar ← pci_read_bar (address d) (table_bar cap);
    if not_memory tbar then mret None
    else
      pbar ← (if pba_bar cap =? table_bar cap then mret tbar else pci_read_bar (address d) (pba_bar cap));
      if negb (pba_bar cap =? table_bar cap) && not_memory pbar then mret None
      else mret (Some (mkController cap (base_address tbar +w table_offset cap)
                         (base_address pbar +w pba_offset cap))).

(** A read-modify-write of the control register. *)
Definition change_msix_control (d : PciDevice) (f : Z -> Z) : hw S unit :=
  let offset := msix_cap_offset d in
  control ← pci_config_read16 (address d) (add8 offset MSIX_CONTROL);
  pci_config_write16 (address d) (add8 offset MSIX_CONTROL) (f control).

Definition msix_enable (d : PciDevice) : hw S bool :=
  if msix_cap_offset d =? 0 then mret false
  else
    cmd ← pci_config_read16 (address d) PCI_COMMAND;
    pci_config_write16 (address d) PCI_COMMAND (Z.lor cmd PCI_COMMAND_INTERRUPT_DISABLE) ;;
    change_msix_control d (fun control => Z.lor control (Z.lor MSIX_CONTROL_ENABLE MSIX_CONTROL_FUNC_MASK)) ;;
    mret true.

Definition msix_disable (d : PciDevice) : hw S bool :=
  if msix_cap_offset d =? 0 then mret false
  else
    change_msix_control d (fun control => Z.land control (not16 MSIX_CONTROL_ENABLE)) ;;
    legacy_on (address d) ;;
    mret true.

Definition msix_set_function_mask (d : PciDevice) (masked : bool) : hw S bool :=
  if msix_cap_offset d =? 0 then mret false
  else
    change_msix_control d (fun control =>
      if masked then Z.lor control MSIX_CONTROL_FUNC_MASK else Z.land control (not16 MSIX_CONTROL_FUNC_MASK)) ;;
    mret true.

Definition msix_write_entry (c : MsixController) (index : Z) (e : MsixTableEntry) : hw S bool :=
  if table_size (capability c) <=? index then mret false
  else
    let at_ := entry_addr c index in
    put (mmio_write 4 at_ (e_address_low e)) ;;
    put (mmio_write 4 (at_ +w 4) (e_address_high e)) ;;
    put (mmio_write 4 (at_ +w 8) (e_data e)) ;;
    put (mmio_write 4 (at_ +w 12) (e_vector_ctrl e)) ;;
    mret true.

Definition msix_read_entry (c : MsixController) (index : Z) : hw S (option MsixTableEntry) :=
  if table_size (capability c) <=? index then mret None
  else
    let at_ := entry_addr c index in
    lo ← mmio_read 4 at_;
    hi ← mmio_read 4 (at_ +w 4);
    data ← mmio_read 4 (at_ +w 8);
    ctrl ← mmio_read 4 (at_ +w 12);
    mret (Some (mkEntry lo hi data ctrl)).

Definition msix_configure_vector (c : MsixController) (index : Z) (m : MsiMessage) (masked : bool) : hw S bool :=
  msix_write_entry c index (if masked then from_message_masked m else from_message m).

(** The control word of an entry, changed by [f]. *)
Definition change_vector_ctrl (c : MsixController) (index : Z) (f : Z -> Z) : hw S bool :=
  if table_size (capability c) <=? index then mret false
  else
    let at_ := entry_addr c index +w 12 in
    ctrl ← mmio_read 4 at_;
    put (mmio_write 4 at_ (f ctrl)) ;;
    mret true.

Definition msix_mask_vector (c : MsixController) (index : Z) : hw S bool :=
  change_vector_ctrl c index (fun ctrl => Z.lor ctrl MSIX_ENTRY_VECTOR_CTRL_MASK).
Definition msix_unmask_vector (c : MsixController) (index : Z) : hw S bool :=
  change_vector_ctrl c index (fun ctrl => Z.land ctrl (not32 MSIX_ENTRY_VECTOR_CTRL_MASK)).

Definition msix_is_vector_masked (c : MsixController) (index : Z) : hw S bool :=
  if table_size (capability c) <=? index then mret true
  else
    ctrl ← mmio_read 4 (entry_addr c index +w 12);
    mret (has_bits ctrl MSIX_ENTRY_VECTOR_CTRL_MASK).

Definition msix_is_pending (c : MsixController) (index : Z) : hw S bool :=
  if table_size (capability c) <=? index then mret false
  else
    let qword_index := index / 64 in
    let bit_index := index mod 64 in
    pending ← mmio_read 8 (pba_qword_addr c qword_index);
    mret (has_bits pending (bit bit_index)).

(** [for i in a .. b { body(i); }]. *)
Fixpoint hw_for (n : nat) (i : Z) (body : Z -> hw S unit) : hw S unit :=
  match n with
  | O => mret tt
  | Datatypes.S n' => body i ;; hw_for n' (i + 1) body
  end.

Definition msix_mask_all (c : MsixController) : hw S unit :=
  hw_for (Z.to_nat (table_size (capability c))) 0 (fun i => msix_mask_vector c i ;; mret tt).
Definition msix_unmask_all (c : MsixController) : hw S unit :=
  hw_for (Z.to_nat (table_size (capability c))) 0 (fun i => msix_unmask_vector c i ;; mret tt).

Definition msix_get_capability (d : PciDevice) : hw S (option MsixCapability) :=
  if msix_cap_offset d =? 0 then mret None
  else cap ← MsixCapability_read (address d) (msix_cap_offset d); mret (Some cap).

Definition msix_get_table_size (d : PciDevice) : hw S Z :=
  if msix_cap_offset d =? 0 then mret 0
  else
    control ← pci_config_read16 (address d) (add8 (msix_cap_offset d) MSIX_CONTROL);
    mret (Z.land control MSIX_CONTROL_TABLE_SIZE_MASK + 1).

(** * Choosing *)

Definition device_supports_msi_or_msix (d : PciDevice) : bool := supports_msi d || supports_msix d.

(** [for (i, msg) in messages.iter().take(count).enumerate()]. *)
Fixpoint configure_vectors (c : MsixController) (ms : list MsiMessage) (i : Z) : hw S unit :=
  match ms with
  | [] => mret tt
  | m :: ms' => msix_configure_vector c (wrap16 i) m false ;; configure_vectors c ms' (i + 1)
  end.

(** The fall back to MSI. *)
Definition configure_msi (d : PciDevice) (messages : list MsiMessage) : hw S Z :=
  if supports_msi d then
    match messages with
    | [] => mret 0
    | [m] =>
        ok ← msi_enable_single d m;
        mret (if ok : bool then 1 else 0)
    | m :: _ =>
        allocated ← msi_enable_multi d m (wrap8 (Z.of_nat (length messages)));
        mret (if 0 <? allocated then allocated else 0)
    end
  else mret 0.

Definition configure_device_interrupts (d : PciDevice) (messages : list MsiMessage)
    (msix_controller : option MsixController) : hw S Z :=
  match msix_controller with
  | Some controller =>
      if supports_msix d then
        msix_enable d ;;
        let count := Z.min (Z.of_nat (length messages)) (table_size (capability controller)) in
        configure_vectors controller (take (Z.to_nat count) messages) 0 ;;
        msix_set_function_mask d false ;;
        mret (wrap16 count)
      else configure_msi d messages
  | None => configure_msi d messages
  end.
End Msi.

(** * Vectors

    [NEXT_VECTOR] is a global. *)

Definition NEXT_VECTOR_init : Z := 48.

Definition allocate_vectors (count next_vector : Z) : Z * option Z :=
  if 255 <? next_vector + count then (next_vector, None)
  else if 224 <? add8 next_vector count then (next_vector, None)
  else (Z.min 255 (next_vector + count), Some next_vector).

(** [for i in 0..min(count, 32) { messages[i] = .. }]. *)
Definition create_messages (make : Z -> MsiMessage) (base_vector count : Z) : list MsiMessage :=
  map (fun i => if i <? Z.min count 32 then make (add8 base_vector i) else MsiMessage_new 0 0)
    (map Z.of_nat (seq 0 32)).

Definition create_msi_messages (base_vector count target_cpu : Z) : list MsiMessage :=
  create_messages (fun v => MsiMessage_new v target_cpu) base_vector count.
Definition create_msi_messages_lowest_priority (base_vector count : Z) : list MsiMessage :=
  create_messages lowest_priority base_vector count.
