(* ===== verification/MsiProps.v ===== *)
(** Theorems on message-signalled interrupts: the format of a message, MSI
    programming over the configuration space of [PciHost], the MSI-X table and
    pending bits in device memory, and the allocation of vectors. *)

From S2P Require Import Prelude Ports Pci PciHost PciSample PciProps Msi.

(** * Messages *)

(** What the interrupt hardware takes from an address and a data word. *)
Definition decode_delivery (x : Z) : option MsiDeliveryMode :=
  if x =? 0 then Some Fixed else if x =? 1 then Some LowestPriority else if x =? 2 then Some Smi
  else if x =? 4 then Some Nmi else if x =? 5 then Some Init else if x =? 7 then Some ExtInt else None.

Definition decode_message (addr data : Z) : option MsiMessage :=
  if addr / 2 ^ 20 =? 4078 then
    mode ← decode_delivery (data / 2 ^ 8 mod 8);
    Some (mkMessage (data mod 256) (addr / 2 ^ 12 mod 256) mode
      (if Z.testbit addr 2 then Logical else Physical)
      (if Z.testbit data 15 then Level else Edge) (Z.testbit addr 3))
  else None.

Lemma message_address m : is_u8 (dest_id m) ->
  address_low m = 4276092928 + dest_id m * 4096 + (if redirect_hint m then 8 else 0)
                  + (match dest_mode m with Logical => 4 | Physical => 0 end).
Proof.
  intros Hd. unfold is_u8 in Hd. unfold address_low, MSI_ADDRESS_BASE, MSI_ADDRESS_DEST_ID_SHIFT.
  rewrite Z.shiftl_mul_pow2 by lia. unfold wrap32, U32. rewrite Z.mod_small by lia.
  rewrite (lor_disjoint_add 20 4276092928) by (reflexivity || lia). change (2 ^ 12) with 4096.
  change MSI_ADDRESS_REDIRECT_HINT with 8. change MSI_ADDRESS_DEST_MODE_LOGICAL with 4.
  set (b := 4276092928 + dest_id m * 4096).
  assert (b mod 16 = 0) as Hb by (unfold b; dlia). assert (0 <= b) by (unfold b; lia). clearbody b.
  destruct (redirect_hint m), (dest_mode m); rewrite ?(lor_disjoint_add 4 b 8) by done.
  - lia.
  - apply (lor_disjoint_add 3); [lia| |lia]. change (2 ^ 3) with 8. dlia.
  - lia.
  - rewrite (lor_disjoint_add 4 b 4) by done. lia.
Qed.

Lemma message_data m : is_u8 (vector m) ->
  msi_data m = vector m + delivery_bits (delivery_mode m) * 256
               + (match trigger_mode m with Level => 49152 | Edge => 0 end).
Proof.
  intros Hv. unfold is_u8 in Hv. unfold msi_data, MSI_DATA_DELIVERY_MODE_SHIFT.
  assert (0 <= delivery_bits (delivery_mode m) < 8) as Hd by (destruct (delivery_mode m); cbn; lia).
  rewrite Z.shiftl_mul_pow2 by lia. change (2 ^ 8) with 256. unfold wrap16. rewrite Z.mod_small by lia.
  rewrite (Z.lor_comm (vector m)), (lor_disjoint_add 8)
    by (lia || (change (2 ^ 8) with 256; (apply Z.mod_mul; lia) || lia)).
  change MSI_DATA_TRIGGER_LEVEL with 32768. change MSI_DATA_LEVEL_ASSERT with 16384.
  destruct (trigger_mode m); [lia|].
  set (x := delivery_bits (delivery_mode m) * 256 + vector m). assert (0 <= x < 2048) by (unfold x; lia).
  rewrite <- Z.lor_assoc. change (Z.lor 32768 16384) with 49152.
  rewrite Z.lor_comm, (lor_disjoint_add 11) by (done || (change (2 ^ 11) with 2048; lia)). unfold x. lia.
Qed.

Lemma message_spec m : is_u8 (vector m) -> is_u8 (dest_id m) ->
  decode_message (address_low m) (msi_data m) = Some m
  /\ is_u32 (address_low m) /\ 0 <= msi_data m < 65536.
Proof.
  intros Hv Hd. unfold decode_message. rewrite (message_address m Hd), (message_data m Hv).
  destruct m as [v d mode dm tm rh]; cbn [vector dest_id delivery_mode dest_mode trigger_mode redirect_hint] in *.
  unfold is_u8 in *. split.
  - set (x := (if rh then 8 else 0) + (match dm with Logical => 4 | Physical => 0 end)).
    assert (0 <= x < 16) as Hx by (unfold x; destruct rh, dm; lia).
    replace (4276092928 + d * 4096 + (if rh then 8 else 0) + match dm with Logical => 4 | Physical => 0 end)
      with (4276092928 + d * 4096 + x) by (unfold x; lia).
    change (2 ^ 20) with 1048576. change (2 ^ 12) with 4096. change (2 ^ 8) with 256.
    replace ((4276092928 + d * 4096 + x) / 1048576) with 4078 by dlia. cbn [Z.eqb Pos.eqb].
    replace ((4276092928 + d * 4096 + x) / 4096 mod 256) with d by dlia.
    assert (forall i, 0 <= i < 4 -> Z.testbit (4276092928 + d * 4096 + x) i = Z.testbit x i) as Hbit.
    { intros i Hi. rewrite <- (Z.mod_pow2_bits_low _ 4) by lia. f_equal. change (2 ^ 4) with 16. dlia. }
    rewrite !Hbit by lia. set (y := match tm with Level => 49152 | Edge => 0 end).
    assert (0 <= delivery_bits mode < 8) as Hm by (destruct mode; cbn; lia).
    replace ((v + delivery_bits mode * 256 + y) / 256 mod 8) with (delivery_bits mode)
      by (unfold y; destruct tm; dlia).
    replace ((v + delivery_bits mode * 256 + y) mod 256) with v by (unfold y; destruct tm; dlia).
    replace (Z.testbit (v + delivery_bits mode * 256 + y) 15) with (match tm with Level => true | Edge => false end).
    2:{ rewrite Z.testbit_eqb by lia. change (2 ^ 15) with 32768. unfold y. destruct tm.
        - replace ((v + delivery_bits mode * 256 + 0) / 32768) with 0 by dlia. done.
        - replace ((v + delivery_bits mode * 256 + 49152) / 32768) with 1 by dlia. done. }
    replace (decode_delivery (delivery_bits mode)) with (Some mode) by (by destruct mode).
    cbn [mbind option_bind]. unfold x. by destruct rh, dm, tm.
  - assert (0 <= delivery_bits mode < 8) by (destruct mode; cbn; lia).
    unfold is_u32, U32. split; [destruct rh, dm; lia|destruct tm; lia].
Qed.

(** The address and data words of a message carry the vector, the
    destination, the delivery, destination and trigger mode and the redirection
    hint in the fields of the local APIC: decoding them gives the message back,
    and both fit their registers. *)
Theorem msi_message_roundtrip m :
  is_u8 (vector m) -> is_u8 (dest_id m) ->
  decode_message (address_low m) (msi_data m) = Some m
  /\ is_u32 (address_low m) /\ 0 <= msi_data m < 65536 /\ msi_address m / 4096 mod 256 = dest_id m.
Proof.
  intros Hv Hd. destruct (message_spec m Hv Hd) as (H1 & H2 & H3). split_and!; [done|exact H2|lia|lia|].
  unfold msi_address. rewrite (message_address m Hd). unfold is_u8 in Hd. destruct (redirect_hint m), (dest_mode m); dlia.
Qed.

(** * Programming a device *)

Lemma land2_mod x : Z.land x 2 = Z.land (x mod 4) 2.
Proof.
  apply Z.bits_inj'. intros i Hi. rewrite !Z.land_spec. change 4 with (2 ^ 2).
  destruct (Z.lt_ge_cases i 2).
  - by rewrite Z.mod_pow2_bits_low.
  - rewrite (testbit_high 2 2) by lia. by rewrite !andb_false_r.
Qed.

Lemma same_dword a o j : valid_address a -> is_u8 (o + j) -> o mod 4 = 0 -> 0 <= o -> 0 <= j < 4 ->
  config_address a (add8 o j) = config_address a o.
Proof.
  intros Ha Ho Hm H0 Hj. unfold is_u8 in Ho. unfold add8, wrap8. rewrite Z.mod_small by lia.
  rewrite !config_address_sum by (done || unfold is_u8; lia). dlia.
Qed.

Lemma other_dword a o o' : valid_address a -> is_u8 o -> is_u8 o' -> o mod 4 = 0 -> o' mod 4 = 0 -> o <> o' ->
  config_address a o <> config_address a o'.
Proof. intros Ha Ho Ho' Hm Hm' Hne. rewrite !config_address_sum by done. lia. Qed.

Section Program.
Context {S : Type} `{Hw : PciHardware S}.

(** A register that holds what is written to it. *)
Definition plain (k : Z) : Prop := forall old v, on_write k old v = v.

(** A function with an MSI capability at [o]: its registers are there, take what
    is written, and command and status are as specified. *)
Record msi_function (a : PciAddress) (o : Z) (c : gmap Z Z) : Prop := {
  mf_valid : valid_address a;
  mf_offset : o mod 4 = 0 /\ 64 <= o <= 240;
  mf_words : cfg_ok c;
  mf_present : forall j, j = 0 \/ j = 4 \/ j = 8 \/ j = 12 ->
    is_Some (c !! config_address a (o + j)) /\ plain (config_address a (o + j));
  mf_command : is_Some (c !! config_address a PCI_COMMAND)
    /\ command_register (config_address a PCI_COMMAND);
}.

(** What the shared part of the programming does to configuration space. *)
Definition programmed (a : PciAddress) (o : Z) (is64 : bool) (control : Z) (m : MsiMessage)
    (c : gmap Z Z) : gmap Z Z :=
  let c1 := set16 a (add8 o 2) control c in
  let c2 := set16 a PCI_COMMAND (Z.lor (cfg16 a PCI_COMMAND c1) PCI_COMMAND_INTERRUPT_DISABLE) c1 in
  let c3 := set32 a (add8 o 4) (address_low m) c2 in
  if is64 then set16 a (add8 o 12) (msi_data m) (set32 a (add8 o 8) (address_high m) c3)
  else set16 a (add8 o 8) (msi_data m) c3.

Lemma run_program a o is64 control m :
  runs (msi_program a o is64 control m) (fun _ => tt) (programmed a o is64 control m).
Proof.
  intros s. unfold msi_program.
  destruct (run_write16 a (add8 o MSI_CONTROL) control s) as (s1 & E1 & H1). rewrite (hw_bind_run _ _ _ _ _ E1).
  destruct (run_read16 a PCI_COMMAND s1) as (s2 & E2 & H2). rewrite (hw_bind_run _ _ _ _ _ E2).
  match goal with |- context [pci_config_write16 a PCI_COMMAND ?v] =>
    destruct (run_write16 a PCI_COMMAND v s2) as (s3 & E3 & H3) end.
  rewrite (hw_bind_run _ _ _ _ _ E3).
  destruct (run_write32 a (add8 o MSI_MESSAGE_ADDRESS_LOW) (address_low m) s3) as (s4 & E4 & H4).
  rewrite (hw_bind_run _ _ _ _ _ E4).
  rewrite H2, H1 in H3. rewrite H3 in H4. destruct is64.
  - destruct (run_write32 a (add8 o MSI_MESSAGE_ADDRESS_HIGH) (address_high m) s4) as (s5 & E5 & H5).
    rewrite (hw_bind_run _ _ _ _ _ E5).
    destruct (run_write16 a (add8 o MSI_MESSAGE_DATA_64) (msi_data m) s5) as (s6 & E6 & H6).
    exists s6. split; [exact E6|]. rewrite H6, H5, H4. done.
  - destruct (run_write16 a (add8 o MSI_MESSAGE_DATA_32) (msi_data m) s4) as (s6 & E6 & H6).
    exists s6. split; [exact E6|]. rewrite H6, H4. done.
Qed.

(** A plain half word. *)
Lemma set16_plain a o j v (c : gmap Z Z) old :
  valid_address a -> is_u8 (o + j) -> o mod 4 = 0 -> 0 <= o -> j = 0 \/ j = 2 ->
  c !! config_address a o = Some old -> plain (config_address a o) ->
  set16 a (add8 o j) v c = <[config_address a o := merge (2 ^ 16 - 1) (8 * j) v old]> c.
Proof.
  intros Ha Ho Hm H0 Hj Hold Hp. unfold set16, set32, cfg32. rewrite (same_dword a o j) by (done || lia).
  unfold cfg_write, dword. rewrite Hold, Hp. f_equal. unfold default, from_option, id. f_equal.
  unfold is_u8 in Ho. unfold add8, wrap8. rewrite Z.mod_small by lia. rewrite land2_mod.
  destruct Hj as [-> | ->].
  - replace ((o + 0) mod 4) with 0 by dlia. done.
  - replace ((o + 2) mod 4) with 2 by dlia. done.
Qed.

Lemma cfg16_plain a o j v (c : gmap Z Z) old :
  valid_address a -> is_u8 (o + j) -> o mod 4 = 0 -> 0 <= o -> j = 0 \/ j = 2 -> is_u32 old ->
  0 <= v < 65536 -> c !! config_address a o = Some (merge (2 ^ 16 - 1) (8 * j) v old) ->
  cfg16 a (add8 o j) c = v.
Proof.
  intros Ha Ho Hm H0 Hj Hu Hv Hc. unfold cfg16, cfg32. rewrite (same_dword a o j) by (done || lia).
  unfold dword. rewrite Hc. unfold default, from_option, id.
  assert (Z.land (add8 o j) 2 * 8 = 8 * j) as ->.
  { unfold is_u8 in Ho. unfold add8, wrap8. rewrite Z.mod_small by lia. rewrite land2_mod.
    destruct Hj as [-> | ->].
    - replace ((o + 0) mod 4) with 0 by dlia. done.
    - replace ((o + 2) mod 4) with 2 by dlia. done. }
  change 65535 with (2 ^ 16 - 1). apply merge_field; (exact Hu || lia).
Qed.

(** The registers that MSI programming touches. *)
Definition touched (a : PciAddress) (o k : Z) : Prop :=
  k = config_address a PCI_COMMAND \/ exists j, (j = 0 \/ j = 4 \/ j = 8 \/ j = 12) /\ k = config_address a (o + j).

Lemma msi_keys a o c i j : msi_function a o c -> i = 0 \/ i = 4 \/ i = 8 \/ i = 12 ->
  (config_address a (o + i) <> config_address a PCI_COMMAND)
  /\ (j = 0 \/ j = 4 \/ j = 8 \/ j = 12 -> i <> j -> config_address a (o + i) <> config_address a (o + j)).
Proof.
  intros [Ha [Hm Ho] _ _ _] Hi. unfold PCI_COMMAND. split.
  - apply other_dword; try (unfold is_u8; lia); [done|dlia|done].
  - intros Hj Hne. apply other_dword; try (unfold is_u8; lia); [done|dlia|dlia].
Qed.

(** [config_address a (o + i) <> config_address a (o + j)], or against the command
    register, for offsets inside one capability. *)
Ltac differ :=
  match goal with Hf : msi_function ?a ?o ?c |- config_address ?a (?o + ?i) <> config_address ?a (?o + ?j) =>
    destruct (msi_keys a o c i j Hf) as [_ ?]; [tauto|auto with lia]
  | Hf : msi_function ?a ?o ?c |- config_address ?a (?o + ?i) <> config_address ?a PCI_COMMAND =>
    apply (msi_keys a o c i i Hf); tauto
  | Hf : msi_function ?a ?o ?c |- config_address ?a PCI_COMMAND <> config_address ?a (?o + ?i) =>
    apply not_eq_sym; differ
  end.

(** Configuration space before the data words are written. *)
Definition addressed (a : PciAddress) (o control : Z) (m : MsiMessage) (c : gmap Z Z) : gmap Z Z :=
  let c1 := set16 a (add8 o 2) control c in
  let c2 := set16 a PCI_COMMAND (Z.lor (cfg16 a PCI_COMMAND c1) PCI_COMMAND_INTERRUPT_DISABLE) c1 in
  set32 a (add8 o 4) (address_low m) c2.

Record addressed_ok (a : PciAddress) (o control : Z) (m : MsiMessage) (c c' : gmap Z Z) : Prop := {
  ao_control : forall x, c !! config_address a (o + 0) = Some x ->
    c' !! config_address a (o + 0) = Some (merge (2 ^ 16 - 1) 16 control x);
  ao_command : cfg16 a PCI_COMMAND c' = Z.lor (cfg16 a PCI_COMMAND c) PCI_COMMAND_INTERRUPT_DISABLE;
  ao_address : c' !! config_address a (o + 4) = Some (address_low m);
  ao_data : forall j, j = 8 \/ j = 12 -> c' !! config_address a (o + j) = c !! config_address a (o + j);
  ao_rest : forall k, ~ touched a o k -> c' !! k = c !! k;
}.

Lemma touched_at a o k j : ~ touched a o k -> j = 0 \/ j = 4 \/ j = 8 \/ j = 12 -> config_address a (o + j) <> k.
Proof. intros Hk Hj <-. apply Hk. right. by exists j. Qed.

(** The control word, then the command register. *)
Lemma command_spec a o control (c : gmap Z Z) x0 :
  msi_function a o c -> 0 <= control < 65536 -> c !! config_address a (o + 0) = Some x0 ->
  let c1 := set16 a (add8 o 2) control c in
  let c2 := set16 a PCI_COMMAND (Z.lor (cfg16 a PCI_COMMAND c1) PCI_COMMAND_INTERRUPT_DISABLE) c1 in
  c2 !! config_address a (o + 0) = Some (merge (2 ^ 16 - 1) 16 control x0)
  /\ cfg16 a PCI_COMMAND c2 = Z.lor (cfg16 a PCI_COMMAND c) PCI_COMMAND_INTERRUPT_DISABLE
  /\ forall k, k <> config_address a PCI_COMMAND -> k <> config_address a (o + 0) -> c2 !! k = c !! k.
Proof.
  intros Hf Hc H0 c1. pose proof Hf as [Ha [Hm Ho] Hok Hpr [[xc Hxc] Hreg]].
  destruct (Hpr 0 ltac:(auto)) as [_ P0].
  assert (config_address a (o + 0) <> config_address a PCI_COMMAND) as Hne by differ.
  assert (c1 = <[config_address a (o + 0) := merge (2 ^ 16 - 1) 16 control x0]> c) as E1.
  { replace (o + 0) with o in * by lia.
    by apply (set16_plain a o 2); (done || (unfold is_u8; lia) || auto). }
  pose proof (Hok _ _ H0) as U0. rewrite E1. clearbody c1. clear E1.
  set (c1' := <[config_address a (o + 0) := _]> c).
  assert (cfg_ok c1') as Hok1.
  { intros k v [[_ <-]|[_ Hk]]%lookup_insert_Some; [|by apply (Hok k)]. by apply merge_u32; lia || exact U0. }
  assert (c1' !! config_address a PCI_COMMAND = Some xc) as Hxc1 by (unfold c1'; by rewrite lookup_insert_ne).
  assert (cfg16 a PCI_COMMAND c1' = cfg16 a PCI_COMMAND c) as ->.
  { unfold cfg16, cfg32, dword. by rewrite Hxc1, Hxc. }
  destruct (set_command a (Z.lor (cfg16 a PCI_COMMAND c) PCI_COMMAND_INTERRUPT_DISABLE) c1' xc Hxc1 Hok1) as (C1 & _ & C3);
    [apply (lor_bound 16); [lia|apply cfg16_range|by vm_compute]|exact Hreg|].
  split; [|split; [exact C1|]].
  - rewrite C3 by exact Hne. apply lookup_insert_eq.
  - intros k Hk Hk0. rewrite C3 by exact Hk. by apply lookup_insert_ne.
Qed.

Lemma addressed_spec a o control m (c : gmap Z Z) :
  msi_function a o c -> 0 <= control < 65536 -> addressed_ok a o control m c (addressed a o control m c).
Proof.
  intros Hf Hc. pose proof Hf as [Ha [Hm Ho] Hok Hpr _].
  destruct (Hpr 0 ltac:(auto)) as [[x0 H0] _]. destruct (Hpr 4 ltac:(auto)) as [[x4 H4] P4].
  destruct (command_spec a o control c x0 Hf Hc H0) as (C1 & C2 & C3). unfold addressed.
  set (c2 := set16 a PCI_COMMAND _ _) in *.
  assert (set32 a (add8 o 4) (address_low m) c2 = <[config_address a (o + 4) := address_low m]> c2) as ->.
  { unfold set32, cfg_write. replace (add8 o 4) with (o + 4) by (unfold add8, wrap8; rewrite Z.mod_small; lia).
    by rewrite C3, H4, P4 by differ. }
  constructor.
  - intros x Hx. rewrite H0 in Hx. injection Hx as <-. by rewrite lookup_insert_ne by differ.
  - rewrite <- C2. unfold cfg16, cfg32, dword. by rewrite lookup_insert_ne by differ.
  - apply lookup_insert_eq.
  - intros j Hj. rewrite lookup_insert_ne by (destruct Hj as [-> | ->]; differ).
    apply C3; destruct Hj as [-> | ->]; differ.
  - intros k Hk. rewrite lookup_insert_ne by (apply touched_at; auto).
    apply C3; [intros ->; apply Hk; by left|apply not_eq_sym; apply touched_at; auto].
Qed.

(** All of it: [dat] is the offset of the data word. *)
Record programmed_ok (a : PciAddress) (o control : Z) (is64 : bool) (m : MsiMessage) (c c' : gmap Z Z) : Prop := {
  po_control : forall x, c !! config_address a (o + 0) = Some x ->
    c' !! config_address a (o + 0) = Some (merge (2 ^ 16 - 1) 16 control x);
  po_command : cfg16 a PCI_COMMAND c' = Z.lor (cfg16 a PCI_COMMAND c) PCI_COMMAND_INTERRUPT_DISABLE;
  po_address : cfg32 a (o + 4) c' = address_low m;
  po_high : is64 = true -> cfg32 a (o + 8) c' = 0;
  po_data : cfg16 a (add8 (o + (if is64 then 12 else 8)) 0) c' = msi_data m;
  po_rest : forall k, ~ touched a o k -> c' !! k = c !! k;
}.

(** The data word at [dat], after the registers below it. *)
Lemma data_spec a o control (is64 : bool) m (c c3 : gmap Z Z) dat x :
  msi_function a o c -> 0 <= msi_data m < 65536 -> dat = (if is64 then 12 else 8) ->
  addressed_ok a o control m c c3 -> c !! config_address a (o + dat) = Some x ->
  let c4 := if is64 then <[config_address a (o + 8) := 0]> c3 else c3 in
  programmed_ok a o control is64 m c (set16 a (add8 (o + dat) 0) (msi_data m) c4).
Proof.
  intros Hf Hd Edat [A1 A2 A3 A4 A5] Hx c4. pose proof Hf as [Ha [Hm Ho] Hok Hpr _].
  assert (dat = 8 \/ dat = 12) as Hdat by (subst dat; destruct is64; auto).
  destruct (Hpr dat ltac:(tauto)) as [_ Pd].
  assert (c4 !! config_address a (o + dat) = Some x) as Hx4.
  { rewrite <- Hx, <- A4 by exact Hdat. unfold c4. subst dat. destruct is64; [|done].
    by rewrite lookup_insert_ne by differ. }
  assert (forall i, i = 0 \/ i = 4 -> c4 !! config_address a (o + i) = c3 !! config_address a (o + i)) as L4.
  { intros i [-> | ->]; unfold c4; destruct is64; try done; by rewrite lookup_insert_ne by differ. }
  rewrite (set16_plain a (o + dat) 0 (msi_data m) c4 x Ha)
    by (exact Hx4 || exact Pd || auto || (unfold is_u8; lia) || (destruct Hdat as [-> | ->]; dlia)).
  constructor.
  - intros y Hy. rewrite lookup_insert_ne by (destruct Hdat as [-> | ->]; differ). rewrite L4 by auto. by apply A1.
  - rewrite <- A2. unfold cfg16, cfg32, dword, c4. rewrite lookup_insert_ne by (destruct Hdat as [-> | ->]; differ).
    destruct is64; [|done]. by rewrite lookup_insert_ne by differ.
  - unfold cfg32, dword. rewrite lookup_insert_ne by (destruct Hdat as [-> | ->]; differ).
    by rewrite L4, A3 by auto.
  - intros ->. subst dat. unfold cfg32, dword, c4. rewrite lookup_insert_ne by differ. by rewrite lookup_insert_eq.
  - rewrite <- Edat. apply (cfg16_plain a (o + dat) 0 _ _ x Ha); try (unfold is_u8; lia).
    + destruct Hdat as [-> | ->]; dlia.
    + by apply (Hok (config_address a (o + dat))).
    + apply lookup_insert_eq.
  - intros k Hk. rewrite <- (A5 k Hk). rewrite lookup_insert_ne by (apply touched_at; tauto).
    unfold c4. destruct is64; [|done]. by rewrite lookup_insert_ne by (apply touched_at; auto).
Qed.

Lemma programmed_spec a o is64 control m (c : gmap Z Z) :
  msi_function a o c -> 0 <= control < 65536 -> 0 <= msi_data m < 65536 ->
  programmed_ok a o control is64 m c (programmed a o is64 control m c).
Proof.
  intros Hf Hc Hd. pose proof Hf as [Ha [Hm Ho] Hok Hpr _].
  pose proof (addressed_spec a o control m c Hf Hc) as HA.
  destruct (Hpr 8 ltac:(auto)) as [[x8 H8] P8]. destruct (Hpr 12 ltac:(auto)) as [[x12 H12] _].
  change (programmed a o is64 control m c) with
    (if is64 then set16 a (add8 o 12) (msi_data m) (set32 a (add8 o 8) (address_high m) (addressed a o control m c))
     else set16 a (add8 o 8) (msi_data m) (addressed a o control m c)).
  set (c3 := addressed a o control m c) in *. destruct is64.
  - assert (set32 a (add8 o 8) (address_high m) c3 = <[config_address a (o + 8) := 0]> c3) as ->.
    { unfold set32, cfg_write. replace (add8 o 8) with (o + 8) by (unfold add8, wrap8; rewrite Z.mod_small; lia).
      by rewrite (ao_data _ _ _ _ _ _ HA 8), H8, P8 by auto. }
    replace (add8 o 12) with (add8 (o + 12) 0) by (unfold add8; f_equal; lia).
    exact (data_spec a o control true m c c3 12 x12 Hf Hd eq_refl HA H12).
  - replace (add8 o 8) with (add8 (o + 8) 0) by (unfold add8; f_equal; lia).
    exact (data_spec a o control false m c c3 8 x8 Hf Hd eq_refl HA H8).
Qed.

(** A function that delivers [2^mme] vectors with the message [m]. *)
Record msi_enabled (a : PciAddress) (o : Z) (is64 : bool) (m : MsiMessage) (mme : Z) (c c' : gmap Z Z) : Prop := {
  me_control : forall i, 0 <= i < 16 -> Z.testbit (cfg16 a (add8 o 2) c') i =
    if i =? 0 then true else if (4 <=? i) && (i <? 7) then Z.testbit mme (i - 4)
    else Z.testbit (cfg16 a (add8 o 2) c) i;
  me_header : cfg16 a (add8 o 0) c' = cfg16 a (add8 o 0) c;
  me_command : cfg16 a PCI_COMMAND c' = Z.lor (cfg16 a PCI_COMMAND c) PCI_COMMAND_INTERRUPT_DISABLE;
  me_address : cfg32 a (o + 4) c' = address_low m;
  me_high : is64 = true -> cfg32 a (o + 8) c' = 0;
  me_data : cfg16 a (add8 (o + (if is64 then 12 else 8)) 0) c' = msi_data m;
  me_rest : forall k, ~ touched a o k -> c' !! k = c !! k;
}.

(** The two values of the control word. *)
Definition control_off (control : Z) : Z := Z.land control (not16 MSI_CONTROL_ENABLE).
Definition control_on (control mme : Z) : Z :=
  Z.lor (Z.lor (Z.land (control_off control) (not16 MSI_CONTROL_MME_MASK)) (Z.shiftl mme 4)) MSI_CONTROL_ENABLE.

Lemma control_bits control mme i : 0 <= control < 65536 -> 0 <= mme < 8 -> 0 <= i < 16 ->
  Z.testbit (control_on control mme) i =
    if i =? 0 then true else if (4 <=? i) && (i <? 7) then Z.testbit mme (i - 4) else Z.testbit control i.
Proof.
  intros Hc Hm Hi. unfold control_on, control_off. rewrite !Z.lor_spec, !Z.land_spec, Z.shiftl_spec by lia.
  unfold not16, MSI_CONTROL_ENABLE, MSI_CONTROL_MME_MASK. change 65535 with (2 ^ 16 - 1).
  rewrite !not_spec by (lia || by vm_compute). rewrite bit_testbit by lia.
  assert (i < 7 \/ 7 <= i) as [H|H] by lia.
  - assert (i = 0 \/ i = 1 \/ i = 2 \/ i = 3 \/ i = 4 \/ i = 5 \/ i = 6) as Hc' by lia.
    destruct Hc' as [-> |[-> |[-> |[-> |[-> |[-> | ->]]]]]]; cbn [Z.eqb Z.leb Z.ltb Z.compare Pos.compare Pos.compare_cont andb Z.sub Z.add Z.opp Z.pos_sub Pos.sub];
      destruct (Z.testbit control _); cbn; rewrite ?orb_false_r, ?orb_true_r; try done.
  - rewrite (testbit_high mme 3) by lia. rewrite (testbit_high 112 7) by lia.
    destruct (Z.eqb_spec i 0); [lia|]. destruct (Z.leb_spec 4 i); [|lia]. destruct (Z.ltb_spec i 7); [lia|].
    cbn. by rewrite !andb_true_r, !orb_false_r.
Qed.

Lemma control_range control mme : 0 <= control < 65536 -> 0 <= mme < 8 ->
  0 <= control_off control < 65536 /\ 0 <= control_on control mme < 65536.
Proof.
  intros Hc Hm. assert (0 <= control_off control < 2 ^ 16) as H by (apply land_bound_l; lia).
  split; [exact H|]. change 65536 with (2 ^ 16). unfold control_on.
  apply lor_bound; [lia| |by vm_compute]. apply lor_bound; [lia|apply land_bound_l; [lia|exact H]|].
  rewrite Z.shiftl_mul_pow2 by lia. lia.
Qed.

(** The last write turns the capability on. *)
Lemma enable_spec a o is64 mme m (c : gmap Z Z) :
  msi_function a o c -> 0 <= mme < 8 -> 0 <= msi_data m < 65536 ->
  let control := cfg16 a (add8 o 2) c in
  msi_enabled a o is64 m mme c
    (set16 a (add8 o 2) (control_on control mme) (programmed a o is64 (control_off control) m c)).
Proof.
  intros Hf Hm Hd control. pose proof Hf as [Ha [Hmod Ho] Hok Hpr _].
  destruct (control_range control mme (cfg16_range _ _ _) Hm) as [R1 R2].
  destruct (programmed_spec a o is64 (control_off control) m c Hf R1 Hd) as [P1 P2 P3 P4 P5 P6].
  set (c' := programmed a o is64 (control_off control) m c) in *.
  destruct (Hpr 0 ltac:(auto)) as [[x0 H0] P0]. pose proof (P1 x0 H0) as H0'.
  pose proof (Hok _ _ H0) as U0.
  pose proof (merge_u32 16 16 (control_off control) x0 ltac:(lia) ltac:(lia) ltac:(lia) R1 U0) as U0'.
  assert (o + 0 = o) as E0 by lia.
  assert (set16 a (add8 o 2) (control_on control mme) c'
    = <[config_address a (o + 0) := merge (2 ^ 16 - 1) 16 (control_on control mme)
         (merge (2 ^ 16 - 1) 16 (control_off control) x0)]> c') as ->.
  { rewrite E0 in *. apply (set16_plain a o 2); (done || (unfold is_u8; lia) || auto). }
  set (new := merge _ _ (control_on control mme) _).
  assert (Hnew : <[config_address a (o + 0) := new]> c' !! config_address a o = Some new).
  { replace (config_address a o) with (config_address a (o + 0)) by (by rewrite E0). apply lookup_insert_eq. }
  constructor.
  - intros i Hi. rewrite (cfg16_plain a o 2 (control_on control mme) _ _ Ha) by
      ((unfold is_u8; lia) || exact U0' || exact R2 || auto || apply Hnew).
    apply control_bits; [apply cfg16_range|done|done].
  - unfold cfg16, cfg32. rewrite (same_dword a o 0) by (done || (unfold is_u8; lia)). unfold dword.
    rewrite <- E0 at 1. rewrite lookup_insert_eq, <- E0, H0. unfold default, from_option, id.
    rewrite E0. replace (Z.land (add8 o 0) 2 * 8) with 0
      by (unfold add8, wrap8; rewrite Z.mod_small, land2_mod by lia; by rewrite E0, Hmod).
    change 65535 with (2 ^ 16 - 1). unfold new.
    rewrite (merge_other 16 16 16 0) by (exact U0' || lia).
    apply (merge_other 16 16 16 0); (exact U0 || lia).
  - rewrite <- P2. unfold cfg16, cfg32, dword. by rewrite lookup_insert_ne by differ.
  - rewrite <- P3. unfold cfg32, dword. by rewrite lookup_insert_ne by differ.
  - intros E. etransitivity; [|exact (P4 E)]. unfold cfg32, dword. by rewrite lookup_insert_ne by differ.
  - rewrite <- P5. unfold cfg16, cfg32. rewrite !(same_dword a (o + _) 0)
      by (done || (unfold is_u8; destruct is64; lia) || (destruct is64; dlia)).
    unfold dword. by rewrite lookup_insert_ne by (destruct is64; differ).
  - intros k Hk. rewrite <- (P6 k Hk). apply lookup_insert_ne. apply touched_at; auto.
Qed.

(** * How many vectors *)

Definition multi_vectors (req max : Z) : Z := Z.min (next_power_of_two (Z.min req max)) 32.

(** The number granted: a power of two, within what the device offers, and the
    smallest that suffices when the request can be met. *)
Definition vectors_ok (req mmc : Z) : bool :=
  let v := multi_vectors req (bit8 mmc) in
  (v =? 2 ^ trailing_zeros v) && (0 <=? trailing_zeros v) && (trailing_zeros v <? 6)
  && (v <=? 2 ^ mmc) && (negb (req <=? Z.min (2 ^ mmc) 32) || ((req <=? v) && ((v =? 1) || (v <? 2 * req)))).

Lemma vectors_all :
  forallb (fun req => forallb (fun mmc => vectors_ok (Z.of_nat req) (Z.of_nat mmc)) (seq 0 8)) (seq 0 256) = true.
Proof. vm_compute. reflexivity. Qed.

Lemma multi_vectors_spec req mmc : 0 <= req < 256 -> 0 <= mmc < 8 ->
  let v := multi_vectors req (bit8 mmc) in
  v = 2 ^ trailing_zeros v /\ 0 <= trailing_zeros v < 6 /\ v <= 2 ^ mmc
  /\ (req <= Z.min (2 ^ mmc) 32 -> req <= v /\ (v = 1 \/ v < 2 * req)).
Proof.
  intros Hr Hm v. pose proof vectors_all as H. rewrite forallb_forall in H.
  specialize (H (Z.to_nat req)). rewrite forallb_forall in H.
  assert (vectors_ok req mmc = true) as Hok.
  { rewrite <- (Z2Nat.id req), <- (Z2Nat.id mmc) by lia. apply H; apply in_seq; lia. }
  unfold vectors_ok in Hok. fold v in Hok. cbn zeta in Hok.
  rewrite !andb_true_iff, orb_true_iff, negb_true_iff, andb_true_iff, orb_true_iff in Hok. lia.
Qed.

Lemma control_fields control : 0 <= control < 65536 ->
  0 <= Z.shiftr (Z.land control MSI_CONTROL_MMC_MASK) MSI_CONTROL_MMC_SHIFT < 8
  /\ Z.shiftr (Z.land control MSI_CONTROL_MMC_MASK) MSI_CONTROL_MMC_SHIFT = control / 2 mod 8.
Proof.
  intros Hc. unfold MSI_CONTROL_MMC_MASK, MSI_CONTROL_MMC_SHIFT.
  assert (Z.shiftr (Z.land control 14) 1 = control / 2 mod 8) as ->; [|split; [dlia|done]].
  rewrite Z.shiftr_land. change (Z.shiftr 14 1) with (2 ^ 3 - 1).
  by rewrite land_low, Z.shiftr_div_pow2 by lia.
Qed.

(** Running one of the two routines up to the last write. *)
Lemma run_enable {X} a o is64 mme m (x : X) s :
  msi_function a o (cfg (host s)) -> 0 <= mme < 8 -> 0 <= msi_data m < 65536 ->
  exists s', (control ← pci_config_read16 a (add8 o MSI_CONTROL);
              msi_program a o is64 (control_off control) m ;;
              pci_config_write16 a (add8 o MSI_CONTROL) (control_on control mme) ;;
              mret x) s = (s', x)
    /\ msi_enabled a o is64 m mme (cfg (host s)) (cfg (host s')).
Proof.
  intros Hf Hm Hd.
  destruct (run_read16 a (add8 o MSI_CONTROL) s) as (s1 & E1 & H1). rewrite (hw_bind_run _ _ _ _ _ E1).
  destruct (run_program a o is64 (control_off (cfg16 a (add8 o MSI_CONTROL) (cfg (host s)))) m s1) as (s2 & E2 & H2).
  rewrite (hw_bind_run _ _ _ _ _ E2).
  destruct (run_write16 a (add8 o MSI_CONTROL) (control_on (cfg16 a (add8 o MSI_CONTROL) (cfg (host s))) mme) s2)
    as (s3 & E3 & H3).
  rewrite (hw_bind_run _ _ _ _ _ E3). exists s3. split; [done|].
  rewrite H3, H2, H1. exact (enable_spec a o is64 mme m (cfg (host s)) Hf Hm Hd).
Qed.

Lemma run_enable_single d m s :
  msi_cap_offset d <> 0 -> msi_function (address d) (msi_cap_offset d) (cfg (host s)) -> 0 <= msi_data m < 65536 ->
  exists s', msi_enable_single d m s = (s', true)
    /\ msi_enabled (address d) (msi_cap_offset d)
         (has_bits (cfg16 (address d) (add8 (msi_cap_offset d) MSI_CONTROL) (cfg (host s))) MSI_CONTROL_64BIT)
         m 0 (cfg (host s)) (cfg (host s')).
Proof.
  intros Hz Hf Hd. set (a := address d) in *. set (o := msi_cap_offset d) in *.
  set (is64 := has_bits _ _).
  destruct (run_enable a o is64 0 m true s Hf ltac:(lia) Hd) as (s' & E & Hs). exists s'. split; [|exact Hs].
  unfold msi_enable_single. fold a o. destruct (Z.eqb_spec o 0); [done|].
  rewrite <- E. destruct (run_read16 a (add8 o MSI_CONTROL) s) as (s1 & E1 & H1).
  rewrite !(hw_bind_run _ _ _ _ _ E1). fold is64. unfold control_on, control_off.
  by rewrite Z.shiftl_0_l, Z.lor_0_r.
Qed.

Lemma run_enable_multi d m req s :
  let a := address d in let o := msi_cap_offset d in
  let control := cfg16 a (add8 o MSI_CONTROL) (cfg (host s)) in
  let v := multi_vectors req (bit8 (control / 2 mod 8)) in
  o <> 0 -> msi_function a o (cfg (host s)) -> 0 <= req < 256 -> 0 <= msi_data m < 65536 ->
  exists s', msi_enable_multi d m req s = (s', v)
    /\ msi_enabled a o (has_bits control MSI_CONTROL_64BIT) m (trailing_zeros v) (cfg (host s)) (cfg (host s')).
Proof.
  intros a o control v Hz Hf Hr Hd. set (is64 := has_bits _ _).
  destruct (control_fields control (cfg16_range _ _ _)) as [_ Emmc].
  destruct (run_read16 a (add8 o MSI_CONTROL) s) as (s1 & E1 & H1).
  destruct (multi_vectors_spec req (control / 2 mod 8) Hr ltac:(dlia)) as (_ & Hmme & _). fold v in Hmme.
  rewrite <- H1 in Hf.
  destruct (run_enable a o is64 (trailing_zeros v) m v s1 Hf ltac:(lia) Hd) as (s' & E & Hs).
  exists s'. rewrite H1 in Hs. split; [|exact Hs].
  unfold msi_enable_multi. fold a o. destruct (Z.eqb_spec o 0); [done|].
  assert (MsiCapability_read a o s = (s1, mkMsiCap o (bit8 (control / 2 mod 8)) is64
      (has_bits control MSI_CONTROL_PER_VECTOR_MASK))) as Ecap.
  { unfold MsiCapability_read. rewrite (hw_bind_run _ _ _ _ _ E1). fold control. rewrite <- Emmc. done. }
  rewrite (hw_bind_run _ _ _ _ _ Ecap). cbn [max_vectors is_64bit]. fold (multi_vectors req (bit8 (control / 2 mod 8))).
  fold v. rewrite <- E. destruct (run_read16 a (add8 o MSI_CONTROL) s1) as (s2 & E2 & H2).
  rewrite !(hw_bind_run _ _ _ _ _ E2). unfold control_on, control_off, MSI_CONTROL_MME_SHIFT.
  replace (wrap16 (Z.shiftl (trailing_zeros v) 4)) with (Z.shiftl (trailing_zeros v) 4); [done|].
  rewrite Z.shiftl_mul_pow2 by lia. unfold wrap16. rewrite Z.mod_small; lia.
Qed.

(** Enabling MSI on a function whose registers hold what is written to them:
    [msi_enable_single] gives one vector, [msi_enable_multi] a power of two of
    them, at most what the device offers and at most 32, and the smallest power
    that holds the request when the device can grant it.  In both cases the
    capability ends enabled with that exponent and the other control bits kept,
    the address and data registers hold the message (the high address zero, when
    there is one), the legacy interrupt line is disabled, and no other register
    changes. *)
Theorem msi_enable_correct d m req s :
  let a := address d in let o := msi_cap_offset d in let c := cfg (host s) in
  let control := cfg16 a (add8 o MSI_CONTROL) c in
  let is64 := has_bits control MSI_CONTROL_64BIT in
  let offered := 2 ^ (control / 2 mod 8) in
  o <> 0 -> msi_function a o c -> 0 <= req < 256 -> is_u8 (vector m) ->
  (exists s', msi_enable_single d m s = (s', true) /\ msi_enabled a o is64 m 0 c (cfg (host s')))
  /\ exists s' v mme, msi_enable_multi d m req s = (s', v) /\ msi_enabled a o is64 m mme c (cfg (host s'))
     /\ v = 2 ^ mme /\ 0 <= mme < 6 /\ v <= offered
     /\ (req <= Z.min offered 32 -> req <= v /\ (v = 1 \/ v < 2 * req)).
Proof.
  intros a o c control is64 offered Hz Hf Hr Hv.
  assert (0 <= msi_data m < 65536) as Hd.
  { rewrite message_data by exact Hv. unfold is_u8 in Hv. destruct (delivery_mode m), (trigger_mode m); cbn; lia. }
  split; [by apply run_enable_single|].
  destruct (run_enable_multi d m req s Hz Hf Hr Hd) as (s' & E & Hs).
  destruct (multi_vectors_spec req (control / 2 mod 8) Hr ltac:(dlia)) as (H1 & H2 & H3 & H4).
  eexists s', _, _. split; [exact E|]. split; [exact Hs|]. split; [exact H1|]. split; [exact H2|]. split; [exact H3|exact H4].
Qed.
End Program.

(** * Closed instances *)

Definition sample_message : MsiMessage := mkMessage 49 3 LowestPriority Logical Level true.

Lemma msi_message_roundtrip_witness :
  address_low sample_message = 4276105228 /\ msi_data sample_message = 49457
  /\ decode_message 4276105228 49457 = Some sample_message.
Proof.
  destruct (msi_message_roundtrip sample_message) as [H _]; [vm_compute; auto; done..|].
  split; [reflexivity|]. split; [reflexivity|exact H].
Defined.

(** The device of the sample machine has its capability at 64 and offers 32
    vectors. *)
Lemma sample_msi : msi_function (Hw := sample_hardware) sample_device_address 64 sample_cfg.
Proof.
  split.
  - apply sample_valid.
  - split; [reflexivity|lia].
  - exact sample_cfg_ok.
  - intros j Hj. split.
    + destruct Hj as [-> |[-> |[-> | ->]]]; eexists; vm_compute; reflexivity.
    + intros old v. unfold on_write, sample_hardware, sample_write.
      change (config_address sample_device_address (64 + j)) with (sample_key (64 + j)).
      destruct Hj as [-> |[-> |[-> | ->]]];
        rewrite !sample_key_eqb by (unfold is_u8; done || lia); reflexivity.
  - split; [eexists; vm_compute; reflexivity|exact sample_command].
Qed.

Lemma msi_enable_correct_witness :
  exists s', msi_enable_multi sample_device sample_message 5 sample_host = (s', 8)
    /\ cfg32 sample_device_address 68 (cfg s') = address_low sample_message
    /\ Z.testbit (cfg16 sample_device_address 66 (cfg s')) 0 = true.
Proof.
  destruct (msi_enable_correct (Hw := sample_hardware) sample_device sample_message 5 sample_host) as [_ H].
  - vm_compute. discriminate.
  - exact sample_msi.
  - lia.
  - vm_compute. split; [discriminate|reflexivity].
  - destruct H as (s' & v & mme & E & H & Hv & Hmme & _ & Hr). exists s'.
    assert (v = 8) as Ev.
    { change (2 ^ (cfg16 (address sample_device) (add8 (msi_cap_offset sample_device) MSI_CONTROL) (cfg (host sample_host)) / 2 mod 8))
        with 32 in Hr. destruct Hr as [H1 H2]; [lia|].
      assert (mme = 0 \/ mme = 1 \/ mme = 2 \/ mme = 3 \/ mme = 4 \/ mme = 5) as Hc by lia.
      destruct Hc as [-> |[-> |[-> |[-> |[-> | ->]]]]]; cbn in Hv; lia. }
    rewrite Ev in E. split; [exact E|]. split; [exact (me_address _ _ _ _ _ _ _ H)|].
    exact (me_control _ _ _ _ _ _ _ H 0 ltac:(lia)).
Defined.
