(* ===== verification/MsixProps.v ===== *)
(** Theorems on MSI-X over the memory of a device - the table, its mask bits and
    the pending bits - and on the allocation of interrupt vectors. *)

From S2P Require Import Prelude Ports Pci PciHost PciProps Msi MsiProps.

(** The registers of a device as plain memory: 32-bit words by address. *)
Class DeviceMemory (S : Type) `{Mm : MmioIO S} := {
  words : S -> Z -> Z;
  words_u32 : forall s a, is_u32 (words s a);
  dm_read4 : forall a s, words (mmio_read 4 a s).1 = words s /\ (mmio_read 4 a s).2 = words s a;
  dm_write4 : forall a v s b, is_u32 v ->
    words (mmio_write 4 a v s) b = if b =? a then v else words s b;
  dm_read8 : forall a s, words (mmio_read 8 a s).1 = words s
    /\ (mmio_read 8 a s).2 = words s a + U32 * words s (a + 4);
}.

(** A controller whose table and pending bits lie below the end of memory. *)
Definition controller_ok (c : MsixController) : Prop :=
  0 < table_size (capability c) <= 2048 /\ 0 <= table_addr c /\ table_addr c + 32768 <= U64
  /\ 0 <= pba_addr c /\ pba_addr c + 256 <= U64.

Definition table_entry_ok (e : MsixTableEntry) : Prop :=
  is_u32 (e_address_low e) /\ is_u32 (e_address_high e) /\ is_u32 (e_data e) /\ is_u32 (e_vector_ctrl e).

Section Memory.
Context {S : Type} `{Dm : DeviceMemory S}.

(** The address of word [w] of entry [i], and the entry there. *)
Definition word_addr (c : MsixController) (i w : Z) : Z := table_addr c + 16 * i + 4 * w.
Definition entry_at (c : MsixController) (m : Z -> Z) (i : Z) : MsixTableEntry :=
  mkEntry (m (word_addr c i 0)) (m (word_addr c i 1)) (m (word_addr c i 2)) (m (word_addr c i 3)).

Lemma run_read4 a s : exists s', mmio_read 4 a s = (s', words s a) /\ words s' = words s.
Proof.
  destruct (dm_read4 a s) as [H1 H2]. exists (mmio_read 4 a s).1. split; [|done].
  rewrite <- H2. apply surjective_pairing.
Qed.

Lemma entry_addrs c i : controller_ok c -> 0 <= i < table_size (capability c) ->
  entry_addr c i = word_addr c i 0 /\ word_addr c i 0 +w 4 = word_addr c i 1
  /\ word_addr c i 0 +w 8 = word_addr c i 2 /\ word_addr c i 0 +w 12 = word_addr c i 3.
Proof.
  intros (Hs & Ht & Hlt & _) Hi. unfold entry_addr, word_addr. unfold U64 in *.
  rewrite (mul64_small i 16) by (unfold U64; lia). rewrite !add64_small by (unfold U64; lia). lia.
Qed.

Lemma read_entry_run c i s : controller_ok c -> 0 <= i < table_size (capability c) ->
  exists s', msix_read_entry c i s = (s', Some (entry_at c (words s) i)) /\ words s' = words s.
Proof.
  intros Hc Hi. unfold msix_read_entry. destruct (Z.leb_spec (table_size (capability c)) i); [lia|].
  destruct (entry_addrs c i Hc Hi) as (-> & -> & -> & ->).
  destruct (run_read4 (word_addr c i 0) s) as (s1 & E1 & H1). rewrite (hw_bind_run _ _ _ _ _ E1).
  destruct (run_read4 (word_addr c i 1) s1) as (s2 & E2 & H2). rewrite (hw_bind_run _ _ _ _ _ E2).
  destruct (run_read4 (word_addr c i 2) s2) as (s3 & E3 & H3). rewrite (hw_bind_run _ _ _ _ _ E3).
  destruct (run_read4 (word_addr c i 3) s3) as (s4 & E4 & H4). rewrite (hw_bind_run _ _ _ _ _ E4).
  exists s4. unfold entry_at. rewrite H4, H3, H2, H1. split; [done|congruence].
Qed.

Lemma write_entry_run c i e s : controller_ok c -> 0 <= i < table_size (capability c) -> table_entry_ok e ->
  exists s', msix_write_entry c i e s = (s', true)
    /\ entry_at c (words s') i = e
    /\ forall b, (forall w, 0 <= w < 4 -> b <> word_addr c i w) -> words s' b = words s b.
Proof.
  intros Hc Hi (H1 & H2 & H3 & H4). unfold msix_write_entry.
  destruct (Z.leb_spec (table_size (capability c)) i); [lia|].
  destruct (entry_addrs c i Hc Hi) as (-> & -> & -> & ->).
  eexists. split; [reflexivity|]. split.
  - destruct e as [e0 e1 e2 e3]. unfold entry_at, word_addr in *. cbn in *.
    rewrite !dm_write4 by assumption. rewrite ?Z.eqb_refl.
    repeat match goal with |- context [?x =? ?y] =>
      replace (x =? y) with false by (symmetry; apply Z.eqb_neq; lia) end. done.
  - intros b Hb. cbn. rewrite !dm_write4 by assumption.
    repeat match goal with |- context [b =? word_addr c i ?w] =>
      replace (b =? word_addr c i w) with false by (symmetry; apply Z.eqb_neq, Hb; lia) end. done.
Qed.

(** The words of different entries are different. *)
Lemma word_addr_inj c i j w v : 0 <= w < 4 -> 0 <= v < 4 ->
  word_addr c i w = word_addr c j v -> i = j /\ w = v.
Proof. unfold word_addr. lia. Qed.

Lemma entry_at_ext c m m' i : (forall w, 0 <= w < 4 -> m (word_addr c i w) = m' (word_addr c i w)) ->
  entry_at c m i = entry_at c m' i.
Proof. intros H. unfold entry_at. by rewrite !H by lia. Qed.

(** A read-modify-write of the control word of one entry. *)
Lemma change_ctrl_run c i f s : controller_ok c -> 0 <= i < table_size (capability c) ->
  is_u32 (f (words s (word_addr c i 3))) ->
  exists s', change_vector_ctrl c i f s = (s', true)
    /\ forall b, words s' b = if b =? word_addr c i 3 then f (words s b) else words s b.
Proof.
  intros Hc Hi Hf. unfold change_vector_ctrl. destruct (Z.leb_spec (table_size (capability c)) i); [lia|].
  destruct (entry_addrs c i Hc Hi) as (-> & _ & _ & ->).
  destruct (run_read4 (word_addr c i 3) s) as (s1 & E1 & H1). rewrite (hw_bind_run _ _ _ _ _ E1).
  eexists. split; [reflexivity|]. intros b. cbn. rewrite dm_write4 by exact Hf. rewrite H1.
  by destruct (Z.eqb_spec b (word_addr c i 3)) as [->|].
Qed.

Lemma mask_ctrl_spec x : is_u32 x ->
  Z.lor x MSIX_ENTRY_VECTOR_CTRL_MASK = x / 2 * 2 + 1
  /\ Z.land x (not32 MSIX_ENTRY_VECTOR_CTRL_MASK) = x / 2 * 2.
Proof.
  intros Hx. unfold is_u32, U32 in Hx. unfold MSIX_ENTRY_VECTOR_CTRL_MASK, not32. change (bit 0) with 1.
  change (4294967295 - 1) with (2 ^ 32 - 2 ^ 1). rewrite mask_high by lia. change (2 ^ 1) with 2. split; [|dlia].
  assert (0 <= x mod 2 < 2) as Hm by dlia. pose proof (Z.div_mod x 2 ltac:(lia)) as E.
  rewrite E at 1. rewrite (Z.mul_comm 2).
  rewrite <- (lor_disjoint_add 1 (x / 2 * 2) (x mod 2)) by (lia || apply Z.mod_mul; lia).
  rewrite <- Z.lor_assoc.
  assert (Z.lor (x mod 2) 1 = 1) as -> by (assert (x mod 2 = 0 \/ x mod 2 = 1) as [-> | ->] by lia; done).
  apply (lor_disjoint_add 1); [lia|apply Z.mod_mul; lia|lia].
Qed.

(** A loop that masks or unmasks every entry. *)
Lemma change_all_run c f n i s : controller_ok c -> (forall x, is_u32 x -> is_u32 (f x)) ->
  0 <= i -> i + Z.of_nat n <= table_size (capability c) ->
  exists s', hw_for n i (fun i => change_vector_ctrl c i f ;; mret tt) s = (s', tt)
    /\ (forall j, i <= j < i + Z.of_nat n -> words s' (word_addr c j 3) = f (words s (word_addr c j 3)))
    /\ (forall b, (forall j, i <= j < i + Z.of_nat n -> b <> word_addr c j 3) -> words s' b = words s b).
Proof.
  intros Hc Hf. revert i s. induction n as [|n IH]; intros i s Hi Hn.
  { exists s. split_and!; [done|lia|done]. }
  destruct (change_ctrl_run c i f s Hc ltac:(lia) (Hf _ (words_u32 _ _))) as (s1 & E1 & H1).
  destruct (IH (i + 1) s1 ltac:(lia) ltac:(lia)) as (s' & E & Hin & Hout). exists s'. split_and!.
  - cbn [hw_for]. rewrite (hw_bind_run _ _ s s1 tt); [exact E|]. by rewrite (hw_bind_run _ _ _ _ _ E1).
  - intros j Hj. destruct (Z.eq_dec j i) as [->|Hne].
    + rewrite Hout by (intros j Hj' Heq; apply word_addr_inj in Heq; lia). by rewrite H1, Z.eqb_refl.
    + rewrite Hin, H1 by lia. destruct (Z.eqb_spec (word_addr c j 3) (word_addr c i 3)) as [Heq|]; [|done].
      apply word_addr_inj in Heq; lia.
  - intros b Hb. rewrite Hout by (intros j Hj; apply Hb; lia). rewrite H1.
    destruct (Z.eqb_spec b (word_addr c i 3)) as [->|]; [|done]. exfalso. apply (Hb i ltac:(lia) eq_refl).
Qed.

(** An entry with another control word. *)
Definition with_ctrl (e : MsixTableEntry) (x : Z) : MsixTableEntry :=
  mkEntry (e_address_low e) (e_address_high e) (e_data e) x.

(** A run that replaces the control words by [f] and keeps the rest. *)
Definition controls_set (c : MsixController) (f : Z -> Z) (s s' : S) : Prop :=
  (forall i, 0 <= i < table_size (capability c) ->
     entry_at c (words s') i = with_ctrl (entry_at c (words s) i) (f (e_vector_ctrl (entry_at c (words s) i))))
  /\ forall b, (forall i, 0 <= i < table_size (capability c) -> b <> word_addr c i 3) -> words s' b = words s b.

Lemma mask_all_run c f s : controller_ok c -> (forall x, is_u32 x -> is_u32 (f x)) ->
  exists s', hw_for (Z.to_nat (table_size (capability c))) 0 (fun i => change_vector_ctrl c i f ;; mret tt) s = (s', tt)
    /\ controls_set c f s s'.
Proof.
  intros Hc Hf. pose proof Hc as (Hs & _).
  destruct (change_all_run c f (Z.to_nat (table_size (capability c))) 0 s Hc Hf) as (s' & E & Hin & Hout); [lia..|].
  exists s'. rewrite Z2Nat.id, Z.add_0_l in Hin, Hout by lia. split; [exact E|]. split; [|exact Hout].
  intros i Hi. unfold entry_at, with_ctrl. cbn [e_vector_ctrl e_address_low e_address_high e_data].
  rewrite Hin by exact Hi. rewrite !Hout by (intros j Hj Heq; apply word_addr_inj in Heq; lia). done.
Qed.

(** A vector configured in the MSI-X table is read back as the address and
    data words of its message with the mask bit asked for, the other entries
    keep their values, and an index past the table changes nothing. *)
Theorem msix_configure_roundtrip c i m masked s :
  controller_ok c -> is_u8 (vector m) -> is_u8 (dest_id m) -> 0 <= i ->
  (table_size (capability c) <= i ->
     msix_configure_vector c i m masked s = (s, false) /\ msix_read_entry c i s = (s, None))
  /\ (i < table_size (capability c) ->
     exists s1 s2 e, msix_configure_vector c i m masked s = (s1, true)
       /\ msix_read_entry c i s1 = (s2, Some e)
       /\ decode_message (e_address_low e) (e_data e) = Some m /\ e_address_high e = 0 /\ is_masked e = masked
       /\ forall j, 0 <= j < table_size (capability c) -> j <> i ->
          exists s3, msix_read_entry c j s1 = (s3, Some (entry_at c (words s) j))).
Proof.
  intros Hc Hv Hd Hi. split.
  - intros Hge. unfold msix_configure_vector, msix_write_entry, msix_read_entry.
    by destruct (Z.leb_spec (table_size (capability c)) i); [|lia].
  - intros Hlt. unfold msix_configure_vector.
    set (e := if masked then from_message_masked m else from_message m).
    assert (Ee : e = mkEntry (address_low m) 0 (msi_data m) (if masked then 1 else 0)) by (unfold e; by destruct masked).
    destruct (message_spec m Hv Hd) as (Hdec & Hlow & Hdat).
    assert (table_entry_ok e) as Hok.
    { rewrite Ee. unfold table_entry_ok, is_u32, U32 in *. cbn. split_and!; destruct masked; lia. }
    destruct (write_entry_run c i e s Hc ltac:(lia) Hok) as (s1 & E1 & H1 & Hrest).
    destruct (read_entry_run c i s1 Hc ltac:(lia)) as (s2 & E2 & _). rewrite H1 in E2.
    exists s1, s2, e. split; [exact E1|]. split; [exact E2|]. rewrite Ee. cbn [e_address_low e_data e_address_high].
    split; [exact Hdec|]. split; [done|]. split; [by destruct masked|].
    intros j Hj Hne. destruct (read_entry_run c j s1 Hc Hj) as (s3 & E3 & _). exists s3. rewrite E3.
    do 2 f_equal. apply entry_at_ext. intros w Hw. apply Hrest.
    intros v Hv' Heq. apply word_addr_inj in Heq; lia.
Qed.

(** Masking and unmasking every vector sets and clears bit 0 of the control
    word of every entry of the table, keeps the other 31 bits, the addresses and
    the data, and writes nothing outside the control words. *)
Theorem msix_mask_all_correct c s :
  controller_ok c ->
  (exists s', msix_mask_all c s = (s', tt) /\ controls_set c (fun x => x / 2 * 2 + 1) s s')
  /\ (exists s', msix_unmask_all c s = (s', tt) /\ controls_set c (fun x => x / 2 * 2) s s').
Proof.
  intros Hc. split.
  - destruct (mask_all_run c (fun x => Z.lor x MSIX_ENTRY_VECTOR_CTRL_MASK) s Hc) as (s' & E & H1 & H2).
    { intros x Hx. rewrite (proj1 (mask_ctrl_spec x Hx)). unfold is_u32, U32 in *. dlia. }
    exists s'. split; [exact E|]. split; [|exact H2]. intros i Hi. rewrite H1 by exact Hi. f_equal.
    apply mask_ctrl_spec, words_u32.
  - destruct (mask_all_run c (fun x => Z.land x (not32 MSIX_ENTRY_VECTOR_CTRL_MASK)) s Hc) as (s' & E & H1 & H2).
    { intros x Hx. rewrite (proj2 (mask_ctrl_spec x Hx)). unfold is_u32, U32 in *. dlia. }
    exists s'. split; [exact E|]. split; [|exact H2]. intros i Hi. rewrite H1 by exact Hi. f_equal.
    apply mask_ctrl_spec, words_u32.
Qed.

(** The pending bit of a vector, in the array of the device. *)
Definition pending_bit (c : MsixController) (m : Z -> Z) (i : Z) : bool :=
  Z.testbit (m (pba_addr c + i / 32 * 4)) (i mod 32).

(** [msix_is_pending] divides the index by 64 twice, so it always reads the
    first quadword of the pending bits: its answer for vector [i] is the pending
    bit of vector [i mod 64], which is the right one exactly below 64. *)
Theorem msix_is_pending_first_qword c i s :
  controller_ok c -> 0 <= i < table_size (capability c) ->
  exists s', msix_is_pending c i s = (s', pending_bit c (words s) (i mod 64)).
Proof.
  intros Hc Hi. pose proof Hc as (Hs & _ & _ & Hp & Hlt). unfold msix_is_pending, pba_qword_addr.
  destruct (Z.leb_spec (table_size (capability c)) i); [lia|].
  replace (i / 64 / 64) with 0 by dlia. change (0 * 8) with 0.
  rewrite add64_small by (unfold U64 in *; lia). rewrite Z.add_0_r.
  destruct (dm_read8 (pba_addr c) s) as [_ H8].
  exists (mmio_read 8 (pba_addr c) s).1.
  transitivity ((mmio_read 8 (pba_addr c) s).1, has_bits (mmio_read 8 (pba_addr c) s).2 (bit (i mod 64))).
  { unfold mbind, hw_bind. by destruct (mmio_read 8 (pba_addr c) s). }
  f_equal. rewrite H8. unfold has_bits. rewrite land_bit_zero, negb_involutive by dlia.
  unfold pending_bit. set (b := i mod 64). assert (0 <= b < 64) as Hb by (unfold b; dlia).
  pose proof (words_u32 s (pba_addr c)) as U0. unfold is_u32 in U0. unfold U32 in *. change 4294967296 with (2 ^ 32) in *.
  destruct (Z.lt_ge_cases b 32).
  - replace (b / 32 * 4) with 0 by dlia. replace (b mod 32) with b by dlia. rewrite Z.add_0_r.
    rewrite <- (Z.mod_pow2_bits_low _ 32) by lia. rewrite (Z.mul_comm (2 ^ 32)), Z.mod_add by lia.
    by rewrite Z.mod_small.
  - replace (b / 32 * 4) with 4 by dlia. replace (b mod 32) with (b - 32) by dlia.
    set (x := words s (pba_addr c)) in *. set (y := words s (pba_addr c + 4)).
    transitivity (Z.testbit ((x + 2 ^ 32 * y) / 2 ^ 32) (b - 32)).
    { rewrite Z.div_pow2_bits by lia. f_equal. lia. }
    f_equal. rewrite (Z.mul_comm (2 ^ 32)), Z.div_add, Z.div_small by lia. lia.
Qed.
End Memory.

(** * Allocation of vectors *)

(** A history of requests, with the answers. *)
Fixpoint allocations (next : Z) (counts : list Z) : Z * list (Z * Z) :=
  match counts with
  | [] => (next, [])
  | count :: rest =>
      let '(next1, got) := allocate_vectors count next in
      let '(next2, gots) := allocations next1 rest in
      (next2, match got with Some base => (base, count) :: gots | None => gots end)
  end.

Definition vectors_of (r : Z * Z) (v : Z) : Prop := r.1 <= v < r.1 + r.2.

Lemma allocate_spec count next : 0 <= count < 256 -> 48 <= next <= 224 ->
  allocate_vectors count next
  = if 224 <? next + count then (next, None) else (next + count, Some next).
Proof.
  intros Hc Hn. unfold allocate_vectors, add8, wrap8.
  destruct (Z.ltb_spec 255 (next + count)).
  - by destruct (Z.ltb_spec 224 (next + count)); [|lia].
  - rewrite Z.mod_small by lia. destruct (Z.ltb_spec 224 (next + count)); [done|].
    by rewrite Z.min_r by lia.
Qed.

(** Whatever the requests, the vectors granted lie between 48 and 223, above
    the exceptions and the remapped lines of the interrupt controller, no vector
    is granted twice, and the counter stays in range; a request is refused
    exactly when it does not fit below 224. *)
Theorem vector_allocation_disjoint counts next :
  Forall (fun n => 0 <= n < 256) counts -> 48 <= next <= 224 ->
  let '(next', got) := allocations next counts in
  next <= next' <= 224
  /\ (forall r v, r ∈ got -> vectors_of r v -> next <= v < next')
  /\ (forall i j r r' v, got !! i = Some r -> got !! j = Some r' -> vectors_of r v -> vectors_of r' v -> i = j)
  /\ forall count, 0 <= count < 256 -> (allocate_vectors count next').2 = None <-> 224 < next' + count.
Proof.
  intros Hc. revert next. induction Hc as [|count rest Hcount Hrest IH]; intros next Hn; cbn [allocations].
  - split; [lia|]. split; [by intros r v []%elem_of_nil|]. split; [done|].
    intros count Hcount. rewrite allocate_spec by lia. destruct (Z.ltb_spec 224 (next + count)); cbn; split; (done || lia).
  - rewrite allocate_spec by lia. destruct (Z.ltb_spec 224 (next + count)).
    + specialize (IH next Hn). by destruct (allocations next rest).
    + specialize (IH (next + count) ltac:(lia)). destruct (allocations (next + count) rest) as [next' got].
      destruct IH as (H1 & H2 & H3 & H4). split; [lia|]. split; [|split; [|exact H4]].
      * intros r v [->|Hr]%elem_of_cons Hv; [unfold vectors_of in Hv; cbn in Hv; lia|].
        specialize (H2 r v Hr Hv). lia.
      * intros i j r r' v Hi Hj Hv Hv'.
        destruct i as [|i], j as [|j]; cbn in Hi, Hj; [done| | |f_equal; by apply (H3 i j r r' v)].
        -- injection Hi as <-. apply list_elem_of_lookup_2 in Hj. specialize (H2 r' v Hj Hv').
           unfold vectors_of in Hv. cbn in Hv. lia.
        -- injection Hj as <-. apply list_elem_of_lookup_2 in Hi. specialize (H2 r v Hi Hv).
           unfold vectors_of in Hv'. cbn in Hv'. lia.
Qed.

(** The vector that a device with [2^mme] vectors enabled sends for its interrupt
    [i]: the number replaces the low [mme] bits of the data word. *)
Definition delivered (data mme i : Z) : Z := data / 2 ^ mme * 2 ^ mme + i.

Lemma create_messages_lookup make base count i :
  0 <= i < 32 -> create_messages make base count !! Z.to_nat i
  = Some (if i <? Z.min count 32 then make (add8 base i) else MsiMessage_new 0 0).
Proof.
  intros Hi. unfold create_messages. rewrite list_lookup_fmap, list_lookup_fmap.
  rewrite lookup_seq_lt by lia. cbn [fmap option_fmap option_map]. by rewrite Nat.add_0_l, Z2Nat.id by lia.
Qed.

(** The messages created for a range of vectors name consecutive vectors, and
    a device with that many MSI vectors delivers them exactly when the base is a
    multiple of the number; [allocate_vectors] does not align the base: the first
    32 vectors it grants start at 48, and the device delivers 32 to 63, on top of
    the lines of the legacy controller. *)
Theorem msi_vectors_need_alignment base mme cpu :
  0 <= mme < 6 -> 48 <= base -> base + 2 ^ mme <= 224 ->
  (forall i, 0 <= i < 2 ^ mme ->
     exists m, create_msi_messages base (2 ^ mme) cpu !! Z.to_nat i = Some m /\ vector m = base + i /\ dest_id m = cpu)
  /\ ((forall i, 0 <= i < 2 ^ mme -> delivered base mme i = base + i) <-> base mod 2 ^ mme = 0)
  /\ allocate_vectors 32 NEXT_VECTOR_init = (80, Some 48)
  /\ forall i, 0 <= i < 32 -> delivered 48 5 i = 32 + i.
Proof.
  intros Hm Hb Hlt. pose proof (pow_range mme 5 ltac:(lia)) as Hp. change (2 ^ 5) with 32 in Hp. split_and!.
  - intros i Hi. unfold create_msi_messages. rewrite create_messages_lookup by lia.
    rewrite Z.min_l by lia. destruct (Z.ltb_spec i (2 ^ mme)); [|lia]. eexists. split; [done|].
    cbn. split; [|done]. unfold add8, wrap8. rewrite Z.mod_small; lia.
  - unfold delivered. pose proof (Z.div_mod base (2 ^ mme) ltac:(lia)) as E. split.
    + intros H. specialize (H 0 ltac:(lia)). lia.
    + intros H i Hi. lia.
  - reflexivity.
  - intros i Hi. reflexivity.
Qed.

(** * Closed instances *)

(** A device that is memory. *)
#[export] Instance sample_mmio : MmioIO (gmap Z Z) := {
  mmio_read w a m := (m, if w =? 8 then wrap32 (default 0 (m !! a)) + U32 * wrap32 (default 0 (m !! (a + 4)))
                         else wrap32 (default 0 (m !! a)));
  mmio_write w a v m := <[a := v]> m;
}.

#[export] Program Instance sample_memory : DeviceMemory (gmap Z Z) := {
  words m a := wrap32 (default 0 (m !! a));
}.
Next Obligation. intros m a. unfold is_u32, wrap32, U32. apply Z.mod_pos_bound. lia. Qed.
Next Obligation. done. Qed.
Next Obligation.
  intros a v m b Hv. cbn. destruct (Z.eqb_spec b a) as [->|Hne].
  - rewrite lookup_insert_eq. cbn. by apply Z.mod_small.
  - by rewrite lookup_insert_ne by done.
Qed.
Next Obligation. done. Qed.

Definition sample_controller : MsixController := mkController (mkMsixCap 80 128 0 0 0 2048) 4273934336 4273936384.
(** Vector 70 is pending. *)
Definition sample_bar : gmap Z Z := <[4273936384 + 8 := 64]> ∅.

Lemma sample_controller_ok : controller_ok sample_controller.
Proof. unfold controller_ok, U64. cbn. lia. Qed.

Lemma msix_configure_roundtrip_witness :
  exists s1 s2 e, msix_configure_vector sample_controller 127 sample_message true sample_bar = (s1, true)
    /\ msix_read_entry sample_controller 127 s1 = (s2, Some e)
    /\ decode_message (e_address_low e) (e_data e) = Some sample_message /\ is_masked e = true.
Proof.
  destruct (msix_configure_roundtrip sample_controller 127 sample_message true sample_bar sample_controller_ok)
    as [_ H]; [vm_compute; by split|vm_compute; by split|lia|].
  destruct H as (s1 & s2 & e & H1 & H2 & H3 & _ & H4 & _); [cbn; lia|]. exists s1, s2, e.
  split; [exact H1|]. split; [exact H2|]. split; [exact H3|exact H4].
Defined.

Lemma msix_mask_all_correct_witness :
  exists s', msix_mask_all sample_controller sample_bar = (s', tt)
    /\ is_masked (entry_at sample_controller (words s') 100) = true.
Proof.
  destruct (msix_mask_all_correct sample_controller sample_bar sample_controller_ok) as [(s' & E & H & _) _].
  exists s'. split; [exact E|]. rewrite H by (cbn; lia). reflexivity.
Defined.

Lemma msix_is_pending_first_qword_witness :
  (exists s', msix_is_pending sample_controller 70 sample_bar = (s', false))
  /\ pending_bit sample_controller (words sample_bar) 70 = true.
Proof.
  split; [|vm_compute; reflexivity].
  destruct (msix_is_pending_first_qword sample_controller 70 sample_bar sample_controller_ok) as [s' E]; [cbn; lia|].
  exists s'. etransitivity; [exact E|]. apply f_equal. vm_compute. reflexivity.
Defined.

Lemma vector_allocation_disjoint_witness :
  allocations 48 [8; 200; 1; 32] = (89, [(48, 8); (56, 1); (57, 32)])
  /\ (allocate_vectors 136 89).2 = None.
Proof.
  split; [reflexivity|].
  pose proof (vector_allocation_disjoint [8; 200; 1; 32] 48 ltac:(repeat constructor; lia) ltac:(lia)) as H.
  cbn in H. apply H; lia.
Defined.

Lemma msi_vectors_need_alignment_witness :
  (exists m, create_msi_messages 64 32 3 !! 5%nat = Some m /\ vector m = 69 /\ dest_id m = 3)
  /\ delivered 64 5 7 = 71.
Proof.
  destruct (msi_vectors_need_alignment 64 5 3 ltac:(lia) ltac:(lia) ltac:(cbn; lia)) as (H1 & H2 & _).
  split; [exact (H1 5 ltac:(cbn; lia))|]. exact (proj2 H2 eq_refl 7 ltac:(cbn; lia)).
Defined.
