(* ===== verification/Pic.v ===== *)
(** Interrupt controllers: [drivers/pic/lib.rs] (the 8259 pair and the local
    APIC) and the I/O APIC of [drivers/pic/pic.rs]. *)

From S2P Require Import Prelude Ports.

(** * The 8259 pair *)

Definition PIC1_COMMAND : Z := 32.
Definition PIC1_DATA : Z := 33.
Definition PIC2_COMMAND : Z := 160.
Definition PIC2_DATA : Z := 161.
Definition ICW1_ICW4 : Z := 1.
Definition ICW1_INIT : Z := 16.
Definition ICW4_8086 : Z := 1.
Definition CASCADE_IRQ : Z := 2.
Definition PIC_EOI : Z := 32.

Section Pic.
Context {S : Type} `{Io : PortIO S}.

Definition pic_outb (port val : Z) : hw S unit := put (port_out8 port val).
Definition pic_inb (port : Z) : hw S Z := port_in8 port.
Definition io_wait : hw S unit := pic_outb 128 0.

Definition remap (offset1 offset2 : Z) : hw S unit :=
  pic_outb PIC1_COMMAND (Z.lor ICW1_INIT ICW1_ICW4) ;;
  io_wait ;;
  pic_outb PIC2_COMMAND (Z.lor ICW1_INIT ICW1_ICW4) ;;
  io_wait ;;
  pic_outb PIC1_DATA offset1 ;;
  io_wait ;;
  pic_outb PIC2_DATA offset2 ;;
  io_wait ;;
  pic_outb PIC1_DATA (bit CASCADE_IRQ) ;;
  io_wait ;;
  pic_outb PIC2_DATA CASCADE_IRQ ;;
  io_wait ;;
  pic_outb PIC1_DATA ICW4_8086 ;;
  io_wait ;;
  pic_outb PIC2_DATA ICW4_8086 ;;
  io_wait ;;
  pic_outb PIC1_DATA 0 ;;
  pic_outb PIC2_DATA 0.

Definition pic_init : hw S unit := remap 32 40.

Definition send_eoi (irq : Z) : hw S unit :=
  (if 8 <=? irq then pic_outb PIC2_COMMAND PIC_EOI else mret tt) ;;
  pic_outb PIC1_COMMAND PIC_EOI.

Definition disable : hw S unit :=
  pic_outb PIC1_DATA 255 ;;
  pic_outb PIC2_DATA 255.

Definition set_mask (irq_line : Z) : hw S unit :=
  let port := if irq_line <? 8 then PIC1_DATA else PIC2_DATA in
  let irq := irq_line mod 8 in
  value ← pic_inb port;
  pic_outb port (Z.lor value (bit irq)).

Definition clear_mask (irq_line : Z) : hw S unit :=
  let port := if irq_line <? 8 then PIC1_DATA else PIC2_DATA in
  let irq := irq_line mod 8 in
  value ← pic_inb port;
  pic_outb port (Z.land value (not8 (bit irq))).
End Pic.

(** * The local APIC *)

Definition APIC_ID : Z := 32.
Definition APIC_EOI : Z := 176.
Definition APIC_SPURIOUS : Z := 240.
Definition APIC_TIMER_LVT : Z := 800.
Definition APIC_TIMER_INITIAL : Z := 896.
Definition APIC_TIMER_DIVIDE : Z := 992.
Definition APIC_SPURIOUS_ENABLE : Z := 256.
Definition APIC_TIMER_PERIODIC : Z := 131072.
Definition APIC_TIMER_MASKED : Z := 65536.
Definition IA32_APIC_BASE_MSR : Z := 27.
Definition IA32_APIC_BASE_ENABLE : Z := bit 11.

(** The four registers that [cpuid] returns for a leaf are an argument. *)
Definition has_apic (cpuid : Z -> Z * Z * Z * Z) : bool :=
  let '(_, _, _, edx) := cpuid 1 in has_bits edx (bit 9).
Definition has_x2apic (cpuid : Z -> Z * Z * Z * Z) : bool :=
  let '(_, _, ecx, _) := cpuid 1 in has_bits ecx (bit 21).

Definition divide_value (divider : Z) : Z :=
  if divider =? 1 then 11 else if divider =? 2 then 0 else if divider =? 4 then 1
  else if divider =? 8 then 2 else if divider =? 16 then 3 else if divider =? 32 then 8
  else if divider =? 64 then 9 else if divider =? 128 then 10 else 0.

Section LocalApic.
Context {S : Type} `{Mm : MmioIO S} `{Ms : MsrIO S}.

Definition get_local_apic_base : hw S Z :=
  apic_base_msr ← msr_read IA32_APIC_BASE_MSR;
  mret (Z.land apic_base_msr (not64 4095)).

Definition enable_local_apic : hw S unit :=
  apic_base_msr ← msr_read IA32_APIC_BASE_MSR;
  put (msr_write IA32_APIC_BASE_MSR (Z.lor apic_base_msr IA32_APIC_BASE_ENABLE)) ;;
  apic_base ← get_local_apic_base;
  let spurious_reg := apic_base +w APIC_SPURIOUS in
  spurious_value ← mmio_read 4 spurious_reg;
  put (mmio_write 4 spurious_reg (Z.lor (Z.lor spurious_value APIC_SPURIOUS_ENABLE) 255)).

Definition disable_local_apic : hw S unit :=
  apic_base ← get_local_apic_base;
  let spurious_reg := apic_base +w APIC_SPURIOUS in
  spurious_value ← mmio_read 4 spurious_reg;
  put (mmio_write 4 spurious_reg (Z.land spurious_value (not32 APIC_SPURIOUS_ENABLE))).

Definition local_apic_eoi : hw S unit :=
  apic_base ← get_local_apic_base;
  put (mmio_write 4 (apic_base +w APIC_EOI) 0).

Definition local_apic_read (offset : Z) : hw S Z :=
  apic_base ← get_local_apic_base;
  mmio_read 4 (apic_base +w offset).

Definition local_apic_write (offset value : Z) : hw S unit :=
  apic_base ← get_local_apic_base;
  put (mmio_write 4 (apic_base +w offset) value).

Definition get_local_apic_id : hw S Z :=
  v ← local_apic_read APIC_ID;
  mret (Z.land (Z.shiftr v 24) 255).

Definition local_apic_timer_init (vector divider initial_count : Z) : hw S unit :=
  local_apic_write APIC_TIMER_DIVIDE (divide_value divider) ;;
  local_apic_write APIC_TIMER_LVT (Z.lor APIC_TIMER_PERIODIC vector) ;;
  local_apic_write APIC_TIMER_INITIAL initial_count.

Definition local_apic_timer_stop : hw S unit :=
  local_apic_write APIC_TIMER_LVT APIC_TIMER_MASKED ;;
  local_apic_write APIC_TIMER_INITIAL 0.
End LocalApic.

(** * The I/O APIC *)

Definition IOAPIC_REG_ID : Z := 0.
Definition IOAPIC_REG_VERSION : Z := 1.
Definition IOAPIC_REG_REDTBL_BASE : Z := 16.
Definition IOAPIC_MASKED : Z := bit 16.
Definition IOAPIC_LEVEL_TRIGGERED : Z := bit 15.
Definition IOAPIC_ACTIVE_LOW : Z := bit 13.
Definition IOAPIC_DEFAULT_BASE : Z := 4273995776.

Record IoApic := mkIoApic { base_addr : Z }.

Definition IoApic_new (base_addr : Z) : IoApic := mkIoApic base_addr.
Definition create_default_ioapic : IoApic := IoApic_new IOAPIC_DEFAULT_BASE.

(** [configure_irq] up to the write. *)
Definition redirection_entry (vector apic_id : Z) (masked level_triggered active_low : bool) : Z :=
  let entry := vector in
  let entry := Z.lor entry (Z.shiftl apic_id 56) in
  let entry := if masked then Z.lor entry IOAPIC_MASKED else entry in
  let entry := if level_triggered then Z.lor entry IOAPIC_LEVEL_TRIGGERED else entry in
  if active_low then Z.lor entry IOAPIC_ACTIVE_LOW else entry.

Section IoApic.
Context {S : Type} `{Mm : MmioIO S}.
Context (io : IoApic).

Definition ioapic_read (reg : Z) : hw S Z :=
  put (mmio_write 4 (base_addr io) reg) ;;
  mmio_read 4 (base_addr io +w 16).

Definition ioapic_write (reg value : Z) : hw S unit :=
  put (mmio_write 4 (base_addr io) reg) ;;
  put (mmio_write 4 (base_addr io +w 16) value).

Definition get_id : hw S Z :=
  v ← ioapic_read IOAPIC_REG_ID;
  mret (Z.land (Z.shiftr v 24) 255).

Definition get_version : hw S (Z * Z) :=
  version_reg ← ioapic_read IOAPIC_REG_VERSION;
  mret (Z.land version_reg 255, Z.land (Z.shiftr version_reg 16) 255).

Definition read_redirection_entry (irq : Z) : hw S Z :=
  let low_reg := IOAPIC_REG_REDTBL_BASE + irq * 2 in
  let high_reg := low_reg + 1 in
  low ← ioapic_read low_reg;
  high ← ioapic_read high_reg;
  mret (Z.lor (Z.shiftl high 32) low).

Definition write_redirection_entry (irq entry : Z) : hw S unit :=
  let low_reg := IOAPIC_REG_REDTBL_BASE + irq * 2 in
  let high_reg := low_reg + 1 in
  ioapic_write high_reg (wrap32 (Z.shiftr entry 32)) ;;
  ioapic_write low_reg (wrap32 entry).

Definition configure_irq (irq vector apic_id : Z) (masked level_triggered active_low : bool) : hw S unit :=
  write_redirection_entry irq (redirection_entry vector apic_id masked level_triggered active_low).

Definition mask_irq (irq : Z) : hw S unit :=
  entry ← read_redirection_entry irq;
  write_redirection_entry irq (Z.lor entry IOAPIC_MASKED).

Definition unmask_irq (irq : Z) : hw S unit :=
  entry ← read_redirection_entry irq;
  write_redirection_entry irq (Z.land entry (not64 IOAPIC_MASKED)).
End IoApic.

(** * MADT entries *)

Inductive MadtEntryType : Set :=
  | LocalApic | IoApicEntry | InterruptSourceOverride | NmiSource | LocalApicNmi
  | LocalApicAddressOverride | IoSapic | LocalSapic | PlatformInterruptSources
  | ProcessorLocalX2Apic | LocalX2ApicNmi.

Record MadtEntryHeader := mkMadtHeader { entry_type : Z; madt_length : Z }.
Record MadtLocalApic := mkMadtLocalApic { la_header : MadtEntryHeader; processor_id : Z; la_apic_id : Z; la_flags : Z }.
Record MadtIoApic := mkMadtIoApic {
  mi_header : MadtEntryHeader; ioapic_id : Z; mi_reserved : Z; ioapic_address : Z;
  global_system_interrupt_base : Z }.
Record MadtInterruptOverride := mkMadtOverride {
  mo_header : MadtEntryHeader; mo_bus : Z; mo_source : Z; global_system_interrupt : Z; mo_flags : Z }.
