(* ===== verification/PicProps.v ===== *)
(** Theorems on the interrupt controllers: the 8259 pair as a state machine, the
    registers of the local APIC and the redirection table of the I/O APIC. *)

From S2P Require Import Prelude Ports Pic.

(** * The 8259

    One chip: the stage of its initialisation, the vector base, the two
    configuration words, and its mask and in-service registers. *)

Inductive Stage : Set := Ready | WantIcw2 | WantIcw3 | WantIcw4.

Record Chip := mkChip {
  stage : Stage;
  vector_base : Z;
  icw3 : Z;
  icw4 : Z;
  imr : Z;
  isr : Z;
}.

(** The lowest set bit of the in-service register ends: a non-specific end of
    interrupt. *)
Definition end_highest (isr : Z) : Z := Z.land isr (isr - 1).

(** A write to the command port: ICW1 has bit 4, a non-specific end of interrupt
    is 32. *)
Definition chip_command (v : Z) (c : Chip) : Chip :=
  if Z.testbit v 4 then mkChip WantIcw2 (vector_base c) (icw3 c) (icw4 c) 0 0
  else if v =? 32 then mkChip (stage c) (vector_base c) (icw3 c) (icw4 c) (imr c) (end_highest (isr c))
  else c.

(** A write to the data port. *)
Definition chip_data (v : Z) (c : Chip) : Chip :=
  match stage c with
  | WantIcw2 => mkChip WantIcw3 (v - v mod 8) (icw3 c) (icw4 c) (imr c) (isr c)
  | WantIcw3 => mkChip WantIcw4 (vector_base c) v (icw4 c) (imr c) (isr c)
  | WantIcw4 => mkChip Ready (vector_base c) (icw3 c) v (imr c) (isr c)
  | Ready => mkChip Ready (vector_base c) (icw3 c) (icw4 c) v (isr c)
  end.

Definition pic_write (p v : Z) (c : Chip * Chip) : Chip * Chip :=
  if p =? PIC1_COMMAND then (chip_command v c.1, c.2)
  else if p =? PIC1_DATA then (chip_data v c.1, c.2)
  else if p =? PIC2_COMMAND then (c.1, chip_command v c.2)
  else if p =? PIC2_DATA then (c.1, chip_data v c.2)
  else c.

(** A machine with the pair behind its ports. *)
Class PicHardware (S : Type) `{Io : PortIO S} := {
  chips : S -> Chip * Chip;
  ph_out : forall p v s, chips (port_out8 p v s) = pic_write p v (chips s);
  ph_in : forall p s, chips (port_in8 p s).1 = chips s
    /\ (p = PIC1_DATA -> (port_in8 p s).2 = imr (chips s).1)
    /\ (p = PIC2_DATA -> (port_in8 p s).2 = imr (chips s).2);
}.

(** Delivering line [n]: its bit goes in service, and the cascade line of the
    first chip with it. *)
Definition deliver (n : Z) (c : Chip * Chip) : Chip * Chip :=
  let serve k c := mkChip (stage c) (vector_base c) (icw3 c) (icw4 c) (imr c) (Z.lor (isr c) (bit k)) in
  if n <? 8 then (serve n c.1, c.2) else (serve 2 c.1, serve (n - 8) c.2).

(** Line [n] may interrupt: every line in service has lower priority. *)
Definition may_interrupt (n : Z) (c : Chip * Chip) : Prop :=
  if n <? 8 then forall k, 0 <= k <= n -> Z.testbit (isr c.1) k = false
  else (forall k, 0 <= k <= 2 -> Z.testbit (isr c.1) k = false)
    /\ forall k, 0 <= k <= n - 8 -> Z.testbit (isr c.2) k = false.

(** The vector that the processor gets for line [n]. *)
Definition line_vector (n : Z) (c : Chip * Chip) : Z :=
  if n <? 8 then vector_base c.1 + n else vector_base c.2 + (n - 8).

(** Whether line [n] is masked. *)
Definition line_masked (n : Z) (c : Chip * Chip) : bool :=
  if n <? 8 then Z.testbit (imr c.1) n else Z.testbit (imr c.2) (n - 8).

(** The chips take no part in initialisation. *)
Definition both_ready (c : Chip * Chip) : Prop := stage c.1 = Ready /\ stage c.2 = Ready.

Definition chip_ok (c : Chip) : Prop := is_u8 (imr c) /\ is_u8 (isr c).

Lemma end_highest_spec x k : 0 <= k -> 0 <= x -> (forall j, 0 <= j <= k -> Z.testbit x j = false) ->
  end_highest (Z.lor x (bit k)) = x.
Proof.
  intros Hk Hx Hz. unfold end_highest. rewrite bit_pow by lia.
  assert (x mod 2 ^ (k + 1) = 0) as Hm.
  { apply Z.bits_inj'. intros i Hi. rewrite Z.bits_0.
    destruct (Z.lt_ge_cases i (k + 1)); [rewrite Z.mod_pow2_bits_low by lia; apply Hz; lia|].
    by apply Z.mod_pow2_bits_high; lia. }
  rewrite (lor_disjoint_add (k + 1)) by (lia || (split; [lia|]; apply Z.pow_lt_mono_r; lia)).
  pose proof (Z.div_mod x (2 ^ (k + 1)) ltac:(lia)) as E. rewrite Hm in E.
  assert (exists q, x = q * 2 ^ (k + 1)) as [q ->] by (exists (x / 2 ^ (k + 1)); lia). clear Hz Hm E Hx.
  assert (2 ^ k < 2 ^ (k + 1)) by (apply Z.pow_lt_mono_r; lia).
  assert (0 < 2 ^ k) by (apply Z.pow_pos_nonneg; lia).
  replace (q * 2 ^ (k + 1) + 2 ^ k - 1) with (q * 2 ^ (k + 1) + (2 ^ k - 1)) by lia.
  rewrite <- (lor_disjoint_add (k + 1) _ (2 ^ k)), <- (lor_disjoint_add (k + 1) _ (2 ^ k - 1)) by ((apply Z.mod_mul; lia) || lia).
  apply Z.bits_inj'. intros i Hi. rewrite Z.land_spec, !Z.lor_spec, !mul_pow_bits, ones_bits, Z.pow2_bits_eqb by lia.
  destruct (Z.leb_spec (k + 1) i), (Z.eqb_spec k i), (Z.ltb_spec i k); try lia; cbn;
    rewrite ?orb_false_r, ?andb_diag, ?andb_false_r; done.
Qed.

Section Pics.
Context {S : Type} `{Ph : PicHardware S}.

Lemma outb_chips p v s : exists s', pic_outb p v s = (s', tt) /\ chips s' = pic_write p v (chips s).
Proof. eexists. split; [reflexivity|apply ph_out]. Qed.

(** A sequence of writes. *)
Lemma chips_remap o1 o2 s : exists s', remap o1 o2 s = (s', tt)
  /\ chips s' = (mkChip Ready (o1 - o1 mod 8) 4 1 0 0, mkChip Ready (o2 - o2 mod 8) 2 1 0 0).
Proof.
  eexists. split; [reflexivity|]. cbn. rewrite !ph_out. destruct (chips s) as [c1 c2]. reflexivity.
Qed.

Lemma eqb_iff a b x y : (a = b <-> x = y) -> (a =? b) = (x =? y).
Proof. intros H. destruct (Z.eqb_spec a b), (Z.eqb_spec x y); tauto. Qed.

(** A change of the mask register of the chip of line [n]. *)
Lemma change_mask_run n f s : both_ready (chips s) ->
  let port := if n <? 8 then PIC1_DATA else PIC2_DATA in
  exists s', (value ← pic_inb port; pic_outb port (f value (n mod 8))) s = (s', tt)
    /\ both_ready (chips s')
    /\ forall k, 0 <= k < 16 -> line_masked k (chips s')
       = if Bool.eqb (n <? 8) (k <? 8)
         then if k <? 8 then Z.testbit (f (imr (chips s).1) (n mod 8)) k
              else Z.testbit (f (imr (chips s).2) (n mod 8)) (k - 8)
         else line_masked k (chips s).
Proof.
  intros Hr port. destruct (ph_in port s) as (H1 & H2 & H3). unfold pic_inb.
  destruct (port_in8 port s) as [s1 v] eqn:E. cbn [fst snd] in H1, H2, H3.
  destruct (outb_chips port (f v (n mod 8)) s1) as (s' & E' & Hs'). exists s'. split.
  { by rewrite (hw_bind_run _ _ _ _ _ E). }
  rewrite Hs', H1. unfold port in *. destruct (chips s) as [[[] v1 a1 b1 m1 i1] [[] v2 a2 b2 m2 i2]]; 
    destruct Hr as [Hr1 Hr2]; try discriminate. cbn in H2, H3. destruct (n <? 8).
  - rewrite (H2 eq_refl). split; [done|]. intros k Hk. unfold line_masked. cbn. by destruct (k <? 8).
  - rewrite (H3 eq_refl). split; [done|]. intros k Hk. unfold line_masked. cbn. by destruct (k <? 8).
Qed.

(** Remapping brings the pair, in whatever state the firmware left it, out of
    initialisation in cascade and 8086 mode with nothing in service, line [n] at
    vector [offset1 + n] or [offset2 + n - 8] for offsets that are multiples of
    eight, and leaves every line unmasked; [pic_init] puts the lines at 32 to
    47. *)
Theorem remap_correct o1 o2 s :
  is_u8 o1 -> is_u8 o2 -> o1 mod 8 = 0 -> o2 mod 8 = 0 ->
  (exists s', remap o1 o2 s = (s', tt) /\ both_ready (chips s')
    /\ icw3 (chips s').1 = bit CASCADE_IRQ /\ icw3 (chips s').2 = CASCADE_IRQ
    /\ icw4 (chips s').1 = ICW4_8086 /\ icw4 (chips s').2 = ICW4_8086
    /\ isr (chips s').1 = 0 /\ isr (chips s').2 = 0
    /\ forall n, 0 <= n < 16 -> line_masked n (chips s') = false
         /\ line_vector n (chips s') = (if n <? 8 then o1 + n else o2 + (n - 8)))
  /\ exists s', pic_init s = (s', tt) /\ forall n, 0 <= n < 16 -> line_vector n (chips s') = 32 + n.
Proof.
  intros H1 H2 M1 M2. split.
  - destruct (chips_remap o1 o2 s) as (s' & E & Hs). exists s'. split; [exact E|]. rewrite Hs, M1, M2.
    split_and!; try done. intros n Hn. unfold line_masked, line_vector. cbn.
    rewrite !Z.testbit_0_l. destruct (n <? 8); split; (done || lia).
  - destruct (chips_remap 32 40 s) as (s' & E & Hs). exists s'. split; [exact E|]. rewrite Hs.
    intros n Hn. unfold line_vector. cbn. destruct (n <? 8); dlia.
Qed.

(** Masking and unmasking a line changes that line alone: the mask bit of
    every other line of the pair, the vectors and what is in service stay, and
    [disable] masks all sixteen. *)
Theorem mask_correct n s :
  let c := chips s in
  both_ready c -> chip_ok c.1 -> chip_ok c.2 -> 0 <= n < 16 ->
  (exists s', set_mask n s = (s', tt) /\ both_ready (chips s')
    /\ forall k, 0 <= k < 16 -> line_masked k (chips s') = (k =? n) || line_masked k c)
  /\ (exists s', clear_mask n s = (s', tt) /\ both_ready (chips s')
    /\ forall k, 0 <= k < 16 -> line_masked k (chips s') = negb (k =? n) && line_masked k c)
  /\ (exists s', disable s = (s', tt) /\ both_ready (chips s')
    /\ forall k, 0 <= k < 16 -> line_masked k (chips s') = true).
Proof.
  intros c Hr H1 H2 Hn. split; [|split].
  - destruct (change_mask_run n (fun v i => Z.lor v (bit i)) s Hr) as (s' & E & R' & H).
    exists s'. split; [exact E|]. split; [exact R'|]. intros k Hk. rewrite H by lia. fold c.
    unfold line_masked. destruct (Z.ltb_spec n 8), (Z.ltb_spec k 8); cbn [Bool.eqb];
      try (destruct (Z.eqb_spec k n); [lia|done]);
      rewrite setbit_spec by dlia; first [replace (n mod 8) with n by dlia|replace (n mod 8) with (n - 8) by dlia];
      f_equal; apply eqb_iff; lia.
  - destruct (change_mask_run n (fun v i => Z.land v (not8 (bit i))) s Hr) as (s' & E & R' & H).
    exists s'. split; [exact E|]. split; [exact R'|]. intros k Hk. rewrite H by lia. fold c.
    unfold line_masked. destruct (Z.ltb_spec n 8), (Z.ltb_spec k 8); cbn [Bool.eqb];
      try (destruct (Z.eqb_spec k n); [lia|done]);
      rewrite clearbit8_spec by (apply H1 || apply H2 || dlia);
      first [replace (n mod 8) with n by dlia|replace (n mod 8) with (n - 8) by dlia];
      f_equal; f_equal; apply eqb_iff; lia.
  - eexists. split; [reflexivity|]. cbn. rewrite !ph_out. unfold c in Hr. destruct (chips s) as [[[] ? ? ? ? ?] [[] ? ? ? ? ?]];
      destruct Hr as [Hr1 Hr2]; try discriminate. cbn. split; [done|]. intros k Hk. unfold line_masked. cbn.
    destruct (Z.ltb_spec k 8); change 255 with (2 ^ 8 - 1); rewrite ones_bits by lia; apply Z.ltb_lt; lia.
Qed.

Lemma eoi_spec n s before :
  both_ready before -> chip_ok before.1 -> chip_ok before.2 -> 0 <= n < 16 -> may_interrupt n before ->
  chips s = deliver n before ->
  exists s', send_eoi n s = (s', tt) /\ chips s' = before.
Proof.
  intros Hr [_ I1] [_ I2] Hn Hmay Hs. unfold is_u8 in *. unfold send_eoi, may_interrupt, deliver in *.
  destruct before as [[st1 v1 a1 b1 m1 i1] [st2 v2 a2 b2 m2 i2]]. destruct Hr as [Hr1 Hr2]. cbn in *. subst st1 st2.
  destruct (Z.ltb_spec n 8).
  - destruct (Z.leb_spec 8 n); [lia|]. eexists. split; [reflexivity|]. cbn. rewrite ph_out, Hs. cbn.
    by rewrite end_highest_spec by (lia || exact Hmay).
  - destruct (Z.leb_spec 8 n); [|lia]. eexists. split; [reflexivity|]. cbn. rewrite !ph_out, Hs. cbn.
    destruct Hmay as [M1 M2]. by rewrite !end_highest_spec by (lia || exact M1 || exact M2).
Qed.

(** The end of interrupt for a line that was allowed to interrupt takes
    exactly that line, and its cascade, out of service: what was in service
    before is in service after, so nested interrupts unwind. *)
Theorem eoi_undoes_delivery n s before :
  both_ready before -> chip_ok before.1 -> chip_ok before.2 -> 0 <= n < 16 -> may_interrupt n before ->
  chips s = deliver n before ->
  exists s', send_eoi n s = (s', tt) /\ chips s' = before.
Proof. exact (eoi_spec n s before). Qed.
End Pics.

(** * The I/O APIC

    A select register at the base and a window 16 bytes above it, on registers of
    32 bits.  The delivery status and the remote IRR of a redirection entry (bits
    12 and 14) are read-only. *)

Definition READ_ONLY : Z := 20480.
Definition redirection_low (k : Z) : bool := (16 <=? k) && (k mod 2 =? 0).
Definition register_store (k old v : Z) : Z :=
  if redirection_low k then Z.lor (Z.ldiff v READ_ONLY) (Z.land old READ_ONLY) else v.

Class IoApicHardware (S : Type) `{Mm : MmioIO S} (io : IoApic) := {
  selected : S -> Z;
  registers : S -> store;
  ia_select : forall v s, selected (mmio_write 4 (base_addr io) v s) = v
    /\ registers (mmio_write 4 (base_addr io) v s) = registers s;
  ia_store : forall v s, registers (mmio_write 4 (base_addr io +w 16) v s)
    = wr (registers s) (selected s) (register_store (selected s) (rd (registers s) (selected s)) v);
  ia_load : forall s, registers (mmio_read 4 (base_addr io +w 16) s).1 = registers s
    /\ (mmio_read 4 (base_addr io +w 16) s).2 = rd (registers s) (selected s);
}.

(** The redirection entry of a line. *)
Definition redirection (m : store) (irq : Z) : Z := rd m (16 + irq * 2) + U32 * rd m (16 + irq * 2 + 1).
Definition registers_ok (m : store) : Prop := forall k, is_u32 (rd m k).

Lemma redirection_bit m irq i : registers_ok m -> 0 <= i < 64 ->
  Z.testbit (redirection m irq) i
  = if i <? 32 then Z.testbit (rd m (16 + irq * 2)) i else Z.testbit (rd m (16 + irq * 2 + 1)) (i - 32).
Proof.
  intros Hm Hi. pose proof (Hm (16 + irq * 2)) as H. unfold is_u32 in H. unfold redirection, U32 in *.
  change 4294967296 with (2 ^ 32) in *. rewrite Z.add_comm, (Z.mul_comm (2 ^ 32)).
  rewrite <- (lor_disjoint_add 32) by ((apply Z.mod_mul; lia) || lia).
  rewrite Z.lor_spec, mul_pow_bits by lia.
  destruct (Z.leb_spec 32 i), (Z.ltb_spec i 32); try lia; cbn.
  - rewrite (testbit_high (rd m (16 + irq * 2)) 32 i) by lia. apply orb_false_r.
  - done.
Qed.

Lemma redirection_u64 m irq : registers_ok m -> is_u64 (redirection m irq).
Proof.
  intros Hm. pose proof (Hm (16 + irq * 2)). pose proof (Hm (16 + irq * 2 + 1)).
  unfold redirection, is_u64, is_u32, U32, U64 in *. lia.
Qed.

(** What a device stores of [v] where [old] was. *)
Definition stored (old v i : Z) : bool :=
  if (i =? 12) || (i =? 14) then Z.testbit old i else Z.testbit v i.

(** The bits of a configured entry. *)
Definition entry_bit (vector apic_id : Z) (masked level low : bool) (i : Z) : bool :=
  if i <? 8 then Z.testbit vector i else if 56 <=? i then Z.testbit apic_id (i - 56)
  else ((i =? 16) && masked) || ((i =? 15) && level) || ((i =? 13) && low).

Lemma or_flag (b : bool) x k i : 0 <= k -> 0 <= i ->
  Z.testbit (if b then Z.lor x (bit k) else x) i = Z.testbit x i || ((i =? k) && b).
Proof.
  intros. destruct b; [rewrite setbit_spec by lia|]; by rewrite ?andb_true_r, ?andb_false_r, ?orb_false_r, 1?orb_comm.
Qed.

Lemma or_flag_bound (b : bool) x k : 0 <= k < 64 -> 0 <= x < 2 ^ 64 ->
  0 <= (if b then Z.lor x (bit k) else x) < 2 ^ 64.
Proof.
  intros Hk Hx. destruct b; [|done]. apply lor_bound; [lia|done|]. rewrite bit_pow by lia.
  pose proof (Z.pow_pos_nonneg 2 k). split; [lia|]. apply Z.pow_lt_mono_r; lia.
Qed.

Lemma entry_bits vector apic_id masked level low : is_u8 vector -> is_u8 apic_id ->
  is_u64 (redirection_entry vector apic_id masked level low)
  /\ forall i, 0 <= i < 64 ->
       Z.testbit (redirection_entry vector apic_id masked level low) i = entry_bit vector apic_id masked level low i.
Proof.
  intros Hv Ha. unfold is_u8 in *. split.
  - unfold is_u64. change U64 with (2 ^ 64). unfold redirection_entry.
    do 3 (apply or_flag_bound; [lia|]). apply lor_bound; [lia|lia|].
    rewrite Z.shiftl_mul_pow2 by lia. lia.
  - intros i Hi. unfold redirection_entry, entry_bit, IOAPIC_MASKED, IOAPIC_LEVEL_TRIGGERED, IOAPIC_ACTIVE_LOW.
    rewrite !or_flag, Z.lor_spec by lia. destruct (Z.ltb_spec i 8).
    + rewrite Z.shiftl_spec_low by lia. destruct (Z.eqb_spec i 16), (Z.eqb_spec i 15), (Z.eqb_spec i 13); try lia.
      cbn. by rewrite !orb_false_r.
    + rewrite (testbit_high vector 8) by lia. rewrite Z.shiftl_spec by lia. cbn [orb]. destruct (Z.leb_spec 56 i).
      * destruct (Z.eqb_spec i 16), (Z.eqb_spec i 15), (Z.eqb_spec i 13); try lia. cbn. by rewrite !orb_false_r.
      * rewrite Z.testbit_neg_r by lia. done.
Qed.

Section IoApicProps.
Context {S : Type} (io : IoApic) `{Ih : IoApicHardware S io}.

Lemma ioapic_read_run reg s : exists s', ioapic_read io reg s = (s', rd (registers s) reg)
  /\ registers s' = registers s.
Proof.
  destruct (ia_select reg s) as [H1 H2]. destruct (ia_load (mmio_write 4 (base_addr io) reg s)) as [H3 H4].
  exists (mmio_read 4 (base_addr io +w 16) (mmio_write 4 (base_addr io) reg s)).1. split; [|congruence].
  rewrite <- H2, <- H1 at 1. rewrite H1 in H4. rewrite H1, <- H4. apply surjective_pairing.
Qed.

Lemma ioapic_write_run reg v s : exists s', ioapic_write io reg v s = (s', tt)
  /\ registers s' = wr (registers s) reg (register_store reg (rd (registers s) reg) v).
Proof.
  destruct (ia_select reg s) as [H1 H2]. eexists. split; [reflexivity|]. cbn. by rewrite ia_store, H1, H2.
Qed.

Lemma read_redirection_run irq s : registers_ok (registers s) ->
  exists s', read_redirection_entry io irq s = (s', redirection (registers s) irq) /\ registers s' = registers s.
Proof.
  intros Hm. unfold read_redirection_entry.
  destruct (ioapic_read_run (IOAPIC_REG_REDTBL_BASE + irq * 2) s) as (s1 & E1 & H1). rewrite (hw_bind_run _ _ _ _ _ E1).
  destruct (ioapic_read_run (IOAPIC_REG_REDTBL_BASE + irq * 2 + 1) s1) as (s2 & E2 & H2). rewrite (hw_bind_run _ _ _ _ _ E2).
  exists s2. split; [|congruence]. rewrite H1. unfold redirection, IOAPIC_REG_REDTBL_BASE.
  pose proof (Hm (16 + irq * 2)) as H. unfold is_u32, U32 in *.
  rewrite Z.shiftl_mul_pow2, (lor_disjoint_add 32) by ((apply Z.mod_mul; lia) || lia).
  unfold mret, hw_ret. f_equal. lia.
Qed.

(** Writing an entry: the writable bits are those of the new value, the entries of
    the other lines stay. *)
Lemma write_redirection_run irq entry s : registers_ok (registers s) -> 0 <= irq -> is_u64 entry ->
  exists s', write_redirection_entry io irq entry s = (s', tt)
    /\ registers_ok (registers s')
    /\ (forall i, 0 <= i < 64 ->
          Z.testbit (redirection (registers s') irq) i = stored (redirection (registers s) irq) entry i)
    /\ forall j, 0 <= j -> j <> irq -> redirection (registers s') j = redirection (registers s) j.
Proof.
  intros Hm Hirq He. unfold write_redirection_entry, IOAPIC_REG_REDTBL_BASE.
  destruct (ioapic_write_run (16 + irq * 2 + 1) (wrap32 (Z.shiftr entry 32)) s) as (s1 & E1 & H1).
  rewrite (hw_bind_run _ _ _ _ _ E1).
  destruct (ioapic_write_run (16 + irq * 2) (wrap32 entry) s1) as (s2 & E2 & H2).
  exists s2. split; [exact E2|].
  unfold register_store in H1, H2.
  replace (redirection_low (16 + irq * 2 + 1)) with false in H1
    by (unfold redirection_low; replace ((16 + irq * 2 + 1) mod 2) with 1 by dlia; by rewrite andb_false_r).
  replace (redirection_low (16 + irq * 2)) with true in H2
    by (unfold redirection_low; replace ((16 + irq * 2) mod 2) with 0 by dlia;
        by replace (16 <=? 16 + irq * 2) with true by (symmetry; apply Z.leb_le; lia)).
  rewrite H1, rd_wr_ne in H2 by lia. rewrite H2. clear H1 H2 E1 E2.
  set (hi := wrap32 (Z.shiftr entry 32)). set (old := rd (registers s) (16 + irq * 2)).
  set (lo := Z.lor _ _).
  assert (is_u32 hi) as Uhi by (unfold hi, wrap32, is_u32, U32; dlia).
  assert (0 <= wrap32 entry < 2 ^ 32) as Hw by (unfold wrap32, U32; apply Z.mod_pos_bound; lia).
  assert (is_u32 lo) as Ulo.
  { unfold lo, is_u32. change U32 with (2 ^ 32). apply lor_bound; [lia| |apply land_bound_l; [lia|apply Hm]].
    rewrite Z.ldiff_land. apply land_bound_l; lia. }
  assert (registers_ok (wr (wr (registers s) (16 + irq * 2 + 1) hi) (16 + irq * 2) lo)) as Hok.
  { intros k. rewrite !rd_wr. repeat case_decide; [exact Ulo|exact Uhi|apply Hm]. }
  split; [exact Hok|]. split.
  - intros i Hi. rewrite redirection_bit by (exact Hok || lia). unfold stored. rewrite !rd_wr_eq, rd_wr_ne, rd_wr_eq by lia.
    destruct (Z.ltb_spec i 32).
    + rewrite redirection_bit by (exact Hm || lia). destruct (Z.ltb_spec i 32); [|lia]. fold old. unfold lo.
      rewrite Z.lor_spec, Z.ldiff_spec, Z.land_spec. unfold wrap32. change U32 with (2 ^ 32).
      rewrite Z.mod_pow2_bits_low by lia.
      assert (Z.testbit READ_ONLY i = (i =? 12) || (i =? 14)) as ->.
      { change READ_ONLY with (Z.lor (bit 12) (bit 14)). by rewrite Z.lor_spec, !bit_testbit by lia. }
      destruct ((i =? 12) || (i =? 14)); cbn; rewrite ?andb_false_r, ?andb_true_r, ?orb_false_r; done.
    + destruct (Z.eqb_spec i 12), (Z.eqb_spec i 14); try lia. cbn.
      unfold hi, wrap32. change U32 with (2 ^ 32). rewrite Z.mod_pow2_bits_low, Z.shiftr_spec by lia.
      f_equal. lia.
  - intros j Hj Hne. unfold redirection. rewrite !rd_wr_ne by lia. done.
Qed.

(** [configure_irq] writes an entry from which the I/O APIC takes the vector,
    the destination, the mask, the trigger mode and the polarity asked for, with
    fixed delivery to a physical destination; reading the entry back gives those
    fields, and the entries of the other lines stay. *)
Theorem configure_irq_correct irq vector apic_id masked level low s :
  registers_ok (registers s) -> is_u8 irq -> is_u8 vector -> is_u8 apic_id ->
  exists s' s'' e, configure_irq io irq vector apic_id masked level low s = (s', tt)
    /\ read_redirection_entry io irq s' = (s'', e)
    /\ e mod 2 ^ 8 = vector /\ e / 2 ^ 56 = apic_id /\ e / 2 ^ 8 mod 2 ^ 4 = 0
    /\ Z.testbit e 16 = masked /\ Z.testbit e 15 = level /\ Z.testbit e 13 = low
    /\ forall j, 0 <= j -> j <> irq -> redirection (registers s') j = redirection (registers s) j.
Proof.
  intros Hm [Hirq _] Hv Ha.
  destruct (entry_bits vector apic_id masked level low Hv Ha) as [Hu Hbits].
  destruct (write_redirection_run irq (redirection_entry vector apic_id masked level low) s Hm Hirq Hu)
    as (s' & E & Hm' & Hb & Hrest).
  destruct (read_redirection_run irq s' Hm') as (s'' & E' & _).
  exists s', s'', (redirection (registers s') irq). split; [exact E|]. split; [exact E'|].
  pose proof (redirection_u64 _ irq Hm') as Hr. set (e := redirection (registers s') irq) in *.
  assert (forall i, 0 <= i < 64 -> i <> 12 -> i <> 14 -> Z.testbit e i = entry_bit vector apic_id masked level low i) as He.
  { intros i Hi H12 H14. unfold e. rewrite Hb by lia. unfold stored.
    destruct (Z.eqb_spec i 12), (Z.eqb_spec i 14); try lia. apply Hbits. lia. }
  clearbody e. clear Hb Hbits E E'. unfold is_u8, is_u64, U64 in *. split_and!.
  - apply (bits_eq_below 8); [apply Z.mod_pos_bound; lia|done|]. intros i Hi.
    rewrite Z.mod_pow2_bits_low, He by lia. unfold entry_bit. by destruct (Z.ltb_spec i 8); [|lia].
  - apply (bits_eq_below 8); [|done|].
    + split; [apply Z.div_pos; lia|]. apply Z.div_lt_upper_bound; lia.
    + intros i Hi. rewrite Z.div_pow2_bits, He by lia. unfold entry_bit.
      destruct (Z.ltb_spec (i + 56) 8); [lia|]. destruct (Z.leb_spec 56 (i + 56)); [|lia]. f_equal. lia.
  - apply (bits_eq_below 4); [apply Z.mod_pos_bound; lia|lia|]. intros i Hi.
    rewrite Z.mod_pow2_bits_low, Z.div_pow2_bits, He, Z.bits_0 by lia. unfold entry_bit.
    destruct (Z.ltb_spec (i + 8) 8), (Z.leb_spec 56 (i + 8)), (Z.eqb_spec (i + 8) 16), (Z.eqb_spec (i + 8) 15),
      (Z.eqb_spec (i + 8) 13); try lia; done.
  - rewrite He by lia. unfold entry_bit. cbn. by rewrite !orb_false_r.
  - rewrite He by lia. unfold entry_bit. cbn. by rewrite !orb_false_r.
  - rewrite He by lia. done.
  - exact Hrest.
Qed.

(** Masking and unmasking a line of the I/O APIC changes bit 16 of its entry
    and nothing else: the other bits, the read-only ones included, and every other
    entry stay. *)
Theorem ioapic_mask_correct irq s :
  registers_ok (registers s) -> is_u8 irq ->
  (exists s', mask_irq io irq s = (s', tt)
    /\ (forall i, 0 <= i < 64 -> Z.testbit (redirection (registers s') irq) i
          = (i =? 16) || Z.testbit (redirection (registers s) irq) i)
    /\ forall j, 0 <= j -> j <> irq -> redirection (registers s') j = redirection (registers s) j)
  /\ exists s', unmask_irq io irq s = (s', tt)
    /\ (forall i, 0 <= i < 64 -> Z.testbit (redirection (registers s') irq) i
          = negb (i =? 16) && Z.testbit (redirection (registers s) irq) i)
    /\ forall j, 0 <= j -> j <> irq -> redirection (registers s') j = redirection (registers s) j.
Proof.
  intros Hm [Hirq _]. destruct (read_redirection_run irq s Hm) as (s1 & E1 & H1).
  pose proof (redirection_u64 _ irq Hm) as He. set (e := redirection (registers s) irq) in *.
  rewrite <- H1 in Hm. unfold mask_irq, unmask_irq. rewrite !(hw_bind_run _ _ _ _ _ E1). split.
  - assert (is_u64 (Z.lor e IOAPIC_MASKED)) as Hu by (apply (lor_bound 64); [lia|exact He|by vm_compute]).
    destruct (write_redirection_run irq _ s1 Hm Hirq Hu) as (s' & E & _ & Hb & Hrest).
    exists s'. split; [exact E|]. rewrite H1 in Hb, Hrest. split; [|exact Hrest]. fold e in Hb.
    intros i Hi. rewrite Hb by lia. unfold stored, IOAPIC_MASKED. rewrite setbit_spec by lia.
    destruct (Z.eqb_spec i 12), (Z.eqb_spec i 14), (Z.eqb_spec i 16); try lia; done.
  - assert (is_u64 (Z.land e (not64 IOAPIC_MASKED))) as Hu by (apply (land_bound_l 64); [lia|exact He]).
    destruct (write_redirection_run irq _ s1 Hm Hirq Hu) as (s' & E & _ & Hb & Hrest).
    exists s'. split; [exact E|]. rewrite H1 in Hb, Hrest. split; [|exact Hrest]. fold e in Hb.
    intros i Hi. rewrite Hb by lia. unfold stored, IOAPIC_MASKED, not64.
    change U64_MAX with (2 ^ 64 - 1). rewrite Z.land_spec, not_spec, bit_testbit by (lia || by vm_compute).
    destruct (Z.eqb_spec i 12), (Z.eqb_spec i 14), (Z.eqb_spec i 16); try lia; cbn; by rewrite ?andb_true_r, ?andb_false_r.
Qed.
End IoApicProps.

(** * The local APIC

    Its registers and the model-specific registers, as plain words. *)

Class LocalApicHardware (S : Type) `{Mm : MmioIO S} `{Ms : MsrIO S} := {
  apic : S -> store;
  msrs : S -> store;
  la_rdmsr : forall k s, apic (msr_read k s).1 = apic s /\ msrs (msr_read k s).1 = msrs s
    /\ (msr_read k s).2 = rd (msrs s) k;
  la_wrmsr : forall k v s, apic (msr_write k v s) = apic s /\ msrs (msr_write k v s) = wr (msrs s) k v;
  la_read : forall a s, apic (mmio_read 4 a s).1 = apic s /\ msrs (mmio_read 4 a s).1 = msrs s
    /\ (mmio_read 4 a s).2 = rd (apic s) a;
  la_write : forall a v s, apic (mmio_write 4 a v s) = wr (apic s) a v /\ msrs (mmio_write 4 a v s) = msrs s;
}.

(** The divisor that the timer takes from bits 0, 1 and 3 of its configuration. *)
Definition decode_divide (x : Z) : Z :=
  let v := x mod 4 + x / 8 mod 2 * 4 in if v =? 7 then 1 else 2 ^ (v + 1).

Lemma divide_value_spec divider :
  decode_divide (divide_value divider) = if bool_decide (divider ∈ [1; 2; 4; 8; 16; 32; 64; 128]) then divider else 2.
Proof.
  case_bool_decide as H.
  - rewrite !elem_of_cons, elem_of_nil in H. destruct H as [-> |[-> |[-> |[-> |[-> |[-> |[-> |[-> |[]]]]]]]]]; reflexivity.
  - unfold divide_value.
    repeat match goal with |- context [divider =? ?k] =>
      destruct (Z.eqb_spec divider k) as [->|_]; [exfalso; apply H; rewrite !elem_of_cons; tauto|] end.
    reflexivity.
Qed.

Section LocalApicProps.
Context {S : Type} `{Lh : LocalApicHardware S}.

Definition apic_base (m : store) : Z := Z.land (rd m IA32_APIC_BASE_MSR) (not64 4095).

Lemma apic_base_spec m : is_u64 (rd m IA32_APIC_BASE_MSR) ->
  apic_base m = rd m IA32_APIC_BASE_MSR - rd m IA32_APIC_BASE_MSR mod 4096 /\ 0 <= apic_base m /\ apic_base m + 4096 <= U64.
Proof.
  intros H. unfold apic_base. pose proof (not64_mask 12 _ ltac:(lia) H) as E. change (2 ^ 12) with 4096 in E.
  change (4096 - 1) with 4095 in E. rewrite E. unfold is_u64, U64 in *. dlia.
Qed.

Lemma get_base_run s : exists s', get_local_apic_base s = (s', apic_base (msrs s)) /\ apic s' = apic s /\ msrs s' = msrs s.
Proof.
  destruct (la_rdmsr IA32_APIC_BASE_MSR s) as (H1 & H2 & H3). exists (msr_read IA32_APIC_BASE_MSR s).1.
  split; [|done]. unfold apic_base. rewrite <- H3. unfold get_local_apic_base, mbind, hw_bind.
  by destruct (msr_read IA32_APIC_BASE_MSR s).
Qed.

Lemma apic_write_run o v s : is_u64 (rd (msrs s) IA32_APIC_BASE_MSR) -> 0 <= o < 4096 ->
  exists s', local_apic_write o v s = (s', tt)
    /\ apic s' = wr (apic s) (apic_base (msrs s) + o) v /\ msrs s' = msrs s.
Proof.
  intros Hu Ho. destruct (apic_base_spec _ Hu) as (_ & H0 & Hlt).
  destruct (get_base_run s) as (s1 & E1 & A1 & M1). unfold local_apic_write. rewrite (hw_bind_run _ _ _ _ _ E1).
  rewrite add64_small by lia. destruct (la_write (apic_base (msrs s) + o) v s1) as [A2 M2].
  eexists. split; [reflexivity|]. by rewrite A2, M2, A1, M1.
Qed.

(** Starting the local APIC timer programs, at the base of the APIC_BASE
    register, a divide configuration that the timer decodes to the divisor asked
    for (2 for one it does not have), a periodic unmasked entry with the vector,
    and the count; no other register changes, and stopping it afterwards masks the
    entry and clears the count. *)
Theorem local_apic_timer_correct vector divider count s :
  is_u64 (rd (msrs s) IA32_APIC_BASE_MSR) -> is_u8 vector ->
  let base := apic_base (msrs s) in
  exists s' s'', local_apic_timer_init vector divider count s = (s', tt)
    /\ local_apic_timer_stop s' = (s'', tt)
    /\ decode_divide (rd (apic s') (base + APIC_TIMER_DIVIDE))
       = (if bool_decide (divider ∈ [1; 2; 4; 8; 16; 32; 64; 128]) then divider else 2)
    /\ rd (apic s') (base + APIC_TIMER_LVT) = 131072 + vector
    /\ rd (apic s') (base + APIC_TIMER_INITIAL) = count
    /\ rd (apic s'') (base + APIC_TIMER_LVT) = APIC_TIMER_MASKED /\ rd (apic s'') (base + APIC_TIMER_INITIAL) = 0
    /\ msrs s'' = msrs s
    /\ forall a, a ∉ [base + APIC_TIMER_DIVIDE; base + APIC_TIMER_LVT; base + APIC_TIMER_INITIAL] ->
         rd (apic s') a = rd (apic s) a /\ rd (apic s'') a = rd (apic s) a.
Proof.
  intros Hu Hv base. unfold local_apic_timer_init, local_apic_timer_stop.
  unfold APIC_TIMER_DIVIDE, APIC_TIMER_LVT, APIC_TIMER_INITIAL.
  destruct (apic_write_run 992 (divide_value divider) s Hu ltac:(lia)) as (s1 & E1 & A1 & M1).
  rewrite (hw_bind_run _ _ _ _ _ E1). rewrite <- M1 in Hu.
  destruct (apic_write_run 800 (Z.lor APIC_TIMER_PERIODIC vector) s1 Hu ltac:(lia)) as (s2 & E2 & A2 & M2).
  rewrite (hw_bind_run _ _ _ _ _ E2). rewrite <- M2 in Hu.
  destruct (apic_write_run 896 count s2 Hu ltac:(lia)) as (s3 & E3 & A3 & M3). rewrite <- M3 in Hu.
  destruct (apic_write_run 800 APIC_TIMER_MASKED s3 Hu ltac:(lia)) as (s4 & E4 & A4 & M4). rewrite <- M4 in Hu.
  destruct (apic_write_run 896 0 s4 Hu ltac:(lia)) as (s5 & E5 & A5 & M5).
  rewrite M4, M3, M2, M1 in A5. rewrite M3, M2, M1 in A4. rewrite M2, M1 in A3. rewrite M1 in A2. fold base in A1, A2, A3, A4, A5.
  exists s3, s5. split; [exact E3|]. split; [rewrite (hw_bind_run _ _ _ _ _ E4); exact E5|].
  rewrite A5, A4, A3, A2, A1. split_and!.
  - rewrite !rd_wr_ne, rd_wr_eq by lia. apply divide_value_spec.
  - rewrite rd_wr_ne, rd_wr_eq by lia. apply (lor_disjoint_add 8); [lia|done|exact Hv].
  - by rewrite rd_wr_eq.
  - by rewrite rd_wr_ne, rd_wr_eq by lia.
  - by rewrite rd_wr_eq.
  - congruence.
  - intros a Ha. rewrite !elem_of_cons, elem_of_nil in Ha.
    rewrite !rd_wr_ne by (intros <-; tauto). done.
Qed.
End LocalApicProps.

(** * Closed instances *)

(** A machine with the pair, an I/O APIC at its default base, and a local APIC. *)
Record SampleMachine := mkMachine {
  sm_chips : Chip * Chip;
  sm_select : Z;
  sm_redirections : store;
  sm_words : store;
  sm_msrs : store;
}.

#[export] Instance machine_ports : PortIO SampleMachine := {
  port_in8 p m := (m, if p =? PIC1_DATA then imr (sm_chips m).1 else if p =? PIC2_DATA then imr (sm_chips m).2 else 0);
  port_out8 p v m := mkMachine (pic_write p v (sm_chips m)) (sm_select m) (sm_redirections m) (sm_words m) (sm_msrs m);
  port_in32 _ m := (m, 0);
  port_out32 _ _ m := m;
  port_insw _ _ m := (m, []);
  port_outsw _ _ m := m;
}.

#[export] Instance machine_mmio : MmioIO SampleMachine := {
  mmio_read w a m := (m, if a =? IOAPIC_DEFAULT_BASE + 16 then rd (sm_redirections m) (sm_select m) else rd (sm_words m) a);
  mmio_write w a v m :=
    mkMachine (sm_chips m)
      (if a =? IOAPIC_DEFAULT_BASE then v else sm_select m)
      (if a =? IOAPIC_DEFAULT_BASE + 16
       then wr (sm_redirections m) (sm_select m) (register_store (sm_select m) (rd (sm_redirections m) (sm_select m)) v)
       else sm_redirections m)
      (if (a =? IOAPIC_DEFAULT_BASE) || (a =? IOAPIC_DEFAULT_BASE + 16) then sm_words m else wr (sm_words m) a v)
      (sm_msrs m);
}.

#[export] Program Instance machine_pic : PicHardware SampleMachine := { chips := sm_chips }.
Next Obligation. done. Qed.
Next Obligation. intros p s. cbn. split; [done|]. split; intros ->; done. Qed.

#[export] Program Instance machine_ioapic : IoApicHardware SampleMachine create_default_ioapic := {
  selected := sm_select;
  registers := sm_redirections;
}.
Next Obligation. done. Qed.
Next Obligation. done. Qed.
Next Obligation. done. Qed.

(** A processor with the two kinds of registers. *)
#[export] Instance apic_mmio : MmioIO (store * store) := {
  mmio_read w a m := (m, rd m.1 a);
  mmio_write w a v m := (wr m.1 a v, m.2);
}.
#[export] Instance apic_msr : MsrIO (store * store) := {
  msr_read k m := (m, rd m.2 k);
  msr_write k v m := (m.1, wr m.2 k v);
}.
#[export] Program Instance sample_apic : LocalApicHardware (store * store) := { apic := fst; msrs := snd }.
Next Obligation. done. Qed.
Next Obligation. done. Qed.
Next Obligation. done. Qed.
Next Obligation. done. Qed.

(** Line 14 in service. *)
Definition sample_chips : Chip * Chip := (mkChip Ready 8 4 1 184 0, mkChip Ready 112 2 1 143 64).
Definition sample_machine : SampleMachine := mkMachine sample_chips 0 (<[48 := 20480]> ∅) ∅ ∅.

Lemma remap_correct_witness :
  exists s', remap 32 40 sample_machine = (s', tt) /\ line_vector 14 (chips s') = 46 /\ line_masked 14 (chips s') = false.
Proof.
  destruct (remap_correct 32 40 sample_machine ltac:(unfold is_u8; lia) ltac:(unfold is_u8; lia) eq_refl eq_refl)
    as [(s' & E & _ & _ & _ & _ & _ & _ & _ & H) _].
  exists s'. split; [exact E|]. destruct (H 14 ltac:(lia)) as [H1 H2]. split; [exact H2|exact H1].
Defined.

Lemma mask_correct_witness :
  exists s', clear_mask 10 sample_machine = (s', tt) /\ line_masked 10 (chips s') = false
    /\ line_masked 9 (chips s') = true.
Proof.
  destruct (mask_correct 10 sample_machine) as (_ & (s' & E & _ & H) & _).
  - by split.
  - vm_compute. by split.
  - vm_compute. by split.
  - lia.
  - exists s'. split; [exact E|]. rewrite !H by lia. by split.
Defined.

(** Line 14 is in service, of lower priority than line 11. *)
Lemma sample_line_11 : may_interrupt 11 sample_chips.
Proof.
  assert (forall x b, x = 64 -> b < 6 -> forall k, 0 <= k <= b -> Z.testbit x k = false) as G.
  { intros x b -> Hb k Hk. change 64 with (2 ^ 6). rewrite Z.pow2_bits_eqb by lia. by destruct (Z.eqb_spec 6 k); [lia|]. }
  split; intros k Hk; [apply Z.testbit_0_l|]. by apply (G _ 3); [|lia|].
Qed.

Lemma eoi_undoes_delivery_witness :
  exists s', send_eoi 11 (mkMachine (deliver 11 sample_chips) 0 ∅ ∅ ∅) = (s', tt) /\ chips s' = sample_chips.
Proof.
  apply (eoi_undoes_delivery 11 _ sample_chips).
  - by split.
  - vm_compute. by split.
  - vm_compute. by split.
  - lia.
  - exact sample_line_11.
  - reflexivity.
Defined.

Lemma sample_registers_ok : registers_ok (registers sample_machine).
Proof.
  intros k. unfold sample_machine. cbn. unfold rd. destruct (Z.eq_dec k 48) as [->|Hne].
  - rewrite lookup_insert_eq. unfold is_u32, U32. cbn. lia.
  - rewrite lookup_insert_ne, lookup_empty by done. unfold is_u32, U32. cbn. lia.
Qed.

Lemma configure_irq_correct_witness :
  exists s' s'' e, configure_irq create_default_ioapic 16 33 3 true true false sample_machine = (s', tt)
    /\ read_redirection_entry create_default_ioapic 16 s' = (s'', e) /\ e mod 2 ^ 8 = 33 /\ e / 2 ^ 56 = 3.
Proof.
  destruct (configure_irq_correct create_default_ioapic 16 33 3 true true false sample_machine sample_registers_ok)
    as (s' & s'' & e & E & E' & H1 & H2 & _); [unfold is_u8; lia..|].
  exists s', s'', e. split; [exact E|]. split; [exact E'|]. by split.
Defined.

Lemma ioapic_mask_correct_witness :
  exists s', mask_irq create_default_ioapic 16 sample_machine = (s', tt)
    /\ Z.testbit (redirection (registers s') 16) 16 = true /\ Z.testbit (redirection (registers s') 16) 14 = true.
Proof.
  destruct (ioapic_mask_correct create_default_ioapic 16 sample_machine sample_registers_ok ltac:(unfold is_u8; lia))
    as [(s' & E & H & _) _].
  exists s'. split; [exact E|]. rewrite !H by lia. split; reflexivity.
Defined.

Lemma local_apic_timer_correct_witness :
  exists s' s'', local_apic_timer_init 32 16 1000 (∅, <[27 := 4276095232]> ∅) = (s', tt)
    /\ local_apic_timer_stop s' = (s'', tt)
    /\ decode_divide (rd (apic s') 4276093920) = 16 /\ rd (apic s') 4276093728 = 131104.
Proof.
  destruct (local_apic_timer_correct 32 16 1000 (∅, <[27 := 4276095232]> ∅)) as (s' & s'' & E & E' & H1 & H2 & _).
  - vm_compute. by split.
  - unfold is_u8. lia.
  - exists s', s''. split; [exact E|]. split; [exact E'|]. split.
    + etransitivity; [exact H1|reflexivity].
    + exact H2.
Defined.
