(* ===== verification/PicMod.v ===== *)
(** The interrupt controllers as [drivers/pic/pic.rs] writes them: the first half of
    that file, which repeats [drivers/pic/lib.rs] with its own port and register
    accesses.  The I/O APIC, its second half, is in Pic.v. *)

From S2P Require Import Prelude Ports Pic.

(** * Low-level accesses *)

Module PicFile.
Section Low.
Context {S : Type} `{Io : PortIO S}.
Definition outb (port val : Z) : hw S unit := put (port_out8 port val).
Definition inb (port : Z) : hw S Z := port_in8 port.
Definition io_wait : hw S unit := outb 0x80 0.
End Low.

Section LowApic.
Context {S : Type} `{Mm : MmioIO S} `{Ms : MsrIO S}.
(** The register comes and goes in two halves, [edx] and [eax]. *)
Definition rdmsr (msr : Z) : hw S Z :=
  v ← msr_read msr;
  let low := wrap32 v in
  let high := wrap32 (Z.shiftr v 32) in
  mret (Z.lor (Z.shiftl high 32) low).
Definition wrmsr (msr value : Z) : hw S unit :=
  let low := wrap32 value in
  let high := wrap32 (Z.shiftr value 32) in
  put (msr_write msr (Z.lor (Z.shiftl high 32) low)).
Definition read_volatile_u32 (addr : Z) : hw S Z := mmio_read 4 addr.
Definition write_volatile_u32 (addr value : Z) : hw S unit := put (mmio_write 4 addr value).
End LowApic.

(** [cpuid] with subleaf 0 is an argument. *)
Definition has_apic (cpuid : Z -> Z * Z * Z * Z) : bool :=
  let '(_, _, _, edx) := cpuid 1 in negb (Z.land edx (Z.shiftl 1 9) =? 0).
Definition has_x2apic (cpuid : Z -> Z * Z * Z * Z) : bool :=
  let '(_, _, ecx, _) := cpuid 1 in negb (Z.land ecx (Z.shiftl 1 21) =? 0).

(** * The 8259 pair *)

Definition PIC1 : Z := 0x20.
Definition PIC2 : Z := 0xA0.
Definition PIC1_COMMAND : Z := PIC1.
Definition PIC1_DATA : Z := PIC1 + 1.
Definition PIC2_COMMAND : Z := PIC2.
Definition PIC2_DATA : Z := PIC2 + 1.
Definition ICW1_ICW4 : Z := 0x01.
Definition ICW1_INIT : Z := 0x10.
Definition ICW4_8086 : Z := 0x01.
Definition CASCADE_IRQ : Z := 2.
Definition PIC_EOI : Z := 0x20.

Section Pair.
Context {S : Type} `{Io : PortIO S}.

Definition remap (offset1 offset2 : Z) : hw S unit :=
  outb PIC1_COMMAND (Z.lor ICW1_INIT ICW1_ICW4) ;;
  io_wait ;;
  outb PIC2_COMMAND (Z.lor ICW1_INIT ICW1_ICW4) ;;
  io_wait ;;
  outb PIC1_DATA offset1 ;;
  io_wait ;;
  outb PIC2_DATA offset2 ;;
  io_wait ;;
  outb PIC1_DATA (Z.shiftl 1 CASCADE_IRQ) ;;
  io_wait ;;
  outb PIC2_DATA CASCADE_IRQ ;;
  io_wait ;;
  outb PIC1_DATA ICW4_8086 ;;
  io_wait ;;
  outb PIC2_DATA ICW4_8086 ;;
  io_wait ;;
  outb PIC1_DATA 0 ;;
  outb PIC2_DATA 0.

Definition send_eoi (irq : Z) : hw S unit :=
  (if 8 <=? irq then outb PIC2_COMMAND PIC_EOI else mret tt) ;;
  outb PIC1_COMMAND PIC_EOI.

Definition disable : hw S unit :=
  outb PIC1_DATA 0xff ;;
  outb PIC2_DATA 0xff.

Definition mask_port (irq_line : Z) : Z := if irq_line <? 8 then PIC1_DATA else PIC2_DATA.

Definition set_mask (irq_line : Z) : hw S unit :=
  let irq := irq_line mod 8 in
  v ← inb (mask_port irq_line);
  outb (mask_port irq_line) (Z.lor v (Z.shiftl 1 irq)).

Definition clear_mask (irq_line : Z) : hw S unit :=
  let irq := irq_line mod 8 in
  v ← inb (mask_port irq_line);
  outb (mask_port irq_line) (Z.land v (not8 (Z.shiftl 1 irq))).
End Pair.

(** * The local APIC *)

Definition APIC_ID : Z := 0x020.
Definition APIC_EOI : Z := 0x0B0.
Definition APIC_SPURIOUS : Z := 0x0F0.
Definition APIC_TIMER_LVT : Z := 0x320.
Definition APIC_TIMER_INITIAL : Z := 0x380.
Definition APIC_TIMER_DIVIDE : Z := 0x3E0.
Definition APIC_SPURIOUS_ENABLE : Z := 0x100.
Definition APIC_TIMER_PERIODIC : Z := 0x20000.
Definition APIC_TIMER_MASKED : Z := 0x10000.
Definition IA32_APIC_BASE_MSR : Z := 0x1B.
Definition IA32_APIC_BASE_ENABLE : Z := Z.shiftl 1 11.

Definition divide_value (divider : Z) : Z :=
  match divider with
  | 1 => 11 | 2 => 0 | 4 => 1 | 8 => 2 | 16 => 3 | 32 => 8 | 64 => 9 | 128 => 10
  | _ => 0
  end.

Section Local.
Context {S : Type} `{Mm : MmioIO S} `{Ms : MsrIO S}.

Definition get_local_apic_base : hw S Z :=
  apic_base_msr ← rdmsr IA32_APIC_BASE_MSR;
  mret (Z.land apic_base_msr 0xFFFFFFFFFFFFF000).

Definition enable_local_apic : hw S unit :=
  apic_base_msr ← rdmsr IA32_APIC_BASE_MSR;
  wrmsr IA32_APIC_BASE_MSR (Z.lor apic_base_msr IA32_APIC_BASE_ENABLE) ;;
  apic_base ← get_local_apic_base;
  let spurious_reg := apic_base +w APIC_SPURIOUS in
  spurious_value ← read_volatile_u32 spurious_reg;
  write_volatile_u32 spurious_reg (Z.lor (Z.lor spurious_value APIC_SPURIOUS_ENABLE) 0xFF).

Definition disable_local_apic : hw S unit :=
  apic_base ← get_local_apic_base;
  let spurious_reg := apic_base +w APIC_SPURIOUS in
  spurious_value ← read_volatile_u32 spurious_reg;
  write_volatile_u32 spurious_reg (Z.land spurious_value (not32 APIC_SPURIOUS_ENABLE)).

Definition local_apic_eoi : hw S unit :=
  apic_base ← get_local_apic_base;
  let eoi_reg := apic_base +w APIC_EOI in
  write_volatile_u32 eoi_reg 0.

Definition local_apic_read (offset : Z) : hw S Z :=
  apic_base ← get_local_apic_base;
  read_volatile_u32 (apic_base +w offset).

Definition local_apic_write (offset value : Z) : hw S unit :=
  apic_base ← get_local_apic_base;
  write_volatile_u32 (apic_base +w offset) value.

Definition get_local_apic_id : hw S Z :=
  v ← local_apic_read APIC_ID;
  mret (Z.land (Z.shiftr v 24) 0xFF).

Definition local_apic_timer_init (vector divider initial_count : Z) : hw S unit :=
  local_apic_write APIC_TIMER_DIVIDE (divide_value divider) ;;
  local_apic_write APIC_TIMER_LVT (Z.lor APIC_TIMER_PERIODIC vector) ;;
  local_apic_write APIC_TIMER_INITIAL initial_count.

Definition local_apic_timer_stop : hw S unit :=
  local_apic_write APIC_TIMER_LVT APIC_TIMER_MASKED ;;
  local_apic_write APIC_TIMER_INITIAL 0.
End Local.
End PicFile.

(** * The two files agree *)

(** Programs that do the same from every state of the machine; it is preserved by
    sequencing. *)
Definition same {S X} (p q : hw S X) : Prop := forall s, p s = q s.
#[export] Instance same_equivalence S X : Equivalence (@same S X).
Proof. split; [by intros p s|by intros p q H s|intros p q r H1 H2 s; by rewrite H1]. Qed.
Lemma same_bind_where {S X Y} (P : X -> Prop) (p p' : hw S X) (q q' : X -> hw S Y) :
  same p p' -> (forall s, P (p' s).2) -> (forall x, P x -> same (q x) (q' x)) -> same (p ≫= q) (p' ≫= q').
Proof.
  intros Hp HP Hq s. unfold mbind, hw_bind. rewrite Hp. specialize (HP s). destruct (p' s) as [s' x]. by apply Hq.
Qed.
Lemma same_bind {S X Y} (p p' : hw S X) (q q' : X -> hw S Y) :
  same p p' -> (forall x, same (q x) (q' x)) -> same (p ≫= q) (p' ≫= q').
Proof. intros Hp Hq. by apply (same_bind_where (fun _ => True)). Qed.

Lemma halves v : is_u64 v -> Z.lor (Z.shiftl (wrap32 (Z.shiftr v 32)) 32) (wrap32 v) = v.
Proof.
  intros Hv. unfold is_u64, wrap32, U64, U32 in *. rewrite Z.shiftr_div_pow2, Z.shiftl_mul_pow2 by lia.
  rewrite (Z.mod_small (v / 2 ^ 32)) by (split; [apply Z.div_pos; lia|apply Z.div_lt_upper_bound; lia]).
  rewrite (lor_disjoint_add 32); [|lia|by apply Z.mod_mul|by apply Z.mod_pos_bound].
  change 4294967296 with (2 ^ 32). pose proof (Z.div_mod v (2 ^ 32) ltac:(lia)). lia.
Qed.

(** * The local APIC, given that the base register has 64 bits *)

Section Agree.
Context {S : Type} `{Mm : MmioIO S} `{Ms : MsrIO S}.
Hypothesis wide : forall r s, is_u64 (msr_read r s).2.

Lemma divide_value_same d : PicFile.divide_value d = Pic.divide_value d.
Proof. destruct d as [|p|p]; try done. do 8 (try (destruct p as [p|p|]; try done)). Qed.

Lemma rdmsr_same r : same (PicFile.rdmsr r) (msr_read r).
Proof.
  intros s. unfold PicFile.rdmsr, mbind, hw_bind. specialize (wide r s). destruct (msr_read r s) as [s' v].
  by rewrite (halves v wide).
Qed.

Lemma wrmsr_same r v : is_u64 v -> same (PicFile.wrmsr r v) (put (msr_write r v)).
Proof. intros Hv s. unfold PicFile.wrmsr. by rewrite halves. Qed.

Lemma base_same : same PicFile.get_local_apic_base get_local_apic_base.
Proof. apply same_bind; [apply rdmsr_same|done]. Qed.

Lemma write_same o v : same (PicFile.local_apic_write o v) (local_apic_write o v).
Proof. apply same_bind; [apply base_same|done]. Qed.
Lemma read_same o : same (PicFile.local_apic_read o) (local_apic_read o).
Proof. apply same_bind; [apply base_same|done]. Qed.

Lemma enable_same : same PicFile.enable_local_apic enable_local_apic.
Proof.
  apply (same_bind_where is_u64); [apply rdmsr_same|apply wide|]. intros v Hv. apply same_bind.
  - apply wrmsr_same, (lor_bound 64); [lia|exact Hv|by vm_compute].
  - intros _. apply same_bind; [apply base_same|done].
Qed.

(** The two files that drive the interrupt controllers, [pic.rs] and the [lib.rs]
    that is built, do the same: the functions of the 8259 pair and of the local APIC
    have the same effect and the same result from every state of every machine whose
    model-specific registers have 64 bits, although [pic.rs] moves those registers in
    halves and names the divider by cases. *)
Theorem pic_files_agree `{Io : PortIO S} cpuid :
  (PicFile.has_apic cpuid = has_apic cpuid /\ PicFile.has_x2apic cpuid = has_x2apic cpuid)
  /\ (forall o1 o2, same (PicFile.remap o1 o2) (remap o1 o2))
  /\ (forall n, same (PicFile.send_eoi n) (send_eoi n)) /\ same PicFile.disable disable
  /\ (forall n, same (PicFile.set_mask n) (set_mask n) /\ same (PicFile.clear_mask n) (clear_mask n))
  /\ same PicFile.get_local_apic_base get_local_apic_base
  /\ same PicFile.enable_local_apic enable_local_apic /\ same PicFile.disable_local_apic disable_local_apic
  /\ same PicFile.local_apic_eoi local_apic_eoi /\ same PicFile.get_local_apic_id get_local_apic_id
  /\ (forall o v, same (PicFile.local_apic_read o) (local_apic_read o)
                 /\ same (PicFile.local_apic_write o v) (local_apic_write o v))
  /\ (forall v d n, same (PicFile.local_apic_timer_init v d n) (local_apic_timer_init v d n))
  /\ same PicFile.local_apic_timer_stop local_apic_timer_stop.
Proof.
  split_and!; try done.
  - apply base_same.
  - apply enable_same.
  - apply same_bind; [apply base_same|done].
  - apply same_bind; [apply base_same|done].
  - apply same_bind; [apply read_same|done].
  - intros o v. split; [apply read_same|apply write_same].
  - intros v d n. unfold PicFile.local_apic_timer_init. rewrite divide_value_same.
    apply same_bind; [apply write_same|intros _]. apply same_bind; [apply write_same|intros _; apply write_same].
  - apply same_bind; [apply write_same|intros _; apply write_same].
Qed.
End Agree.

(** * A closed instance *)

(** One register of 64 bits, and memory that holds nothing. *)
#[local] Instance word_mmio : MmioIO Z := {
  mmio_read _ _ s := (s, 0);
  mmio_write _ _ _ s := s;
}.
#[local] Instance word_msr : MsrIO Z := {
  msr_read _ s := (s, wrap64 s);
  msr_write _ v _ := v;
}.
#[local] Instance word_ports : PortIO Z := {
  port_in8 _ s := (s, 0);
  port_out8 _ _ s := s;
  port_in32 _ s := (s, 0);
  port_out32 _ _ s := s;
  port_insw _ _ s := (s, []);
  port_outsw _ _ s := s;
}.

Lemma pic_files_agree_witness :
  (PicFile.enable_local_apic (0xFEE00000 : Z)).1 = 0xFEE00800
  /\ PicFile.get_local_apic_base (0xFEE00900 : Z) = (0xFEE00900, 0xFEE00000).
Proof.
  assert (forall r (s : Z), is_u64 (msr_read r s).2) as Hw by (intros r s; apply Z.mod_pos_bound; reflexivity).
  destruct (pic_files_agree Hw (fun _ => (0, 0, 0, 0))) as (_ & _ & _ & _ & _ & Hb & He & _).
  rewrite (Hb (0xFEE00900 : Z)), (He (0xFEE00000 : Z)). split; vm_compute; reflexivity.
Defined.
