(* ===== verification/Descriptors.v ===== *)
(** Segment and interrupt descriptors: [gdt/lib.rs] and [idt/lib.rs].

    The tables are globals at addresses the linker chooses, which are arguments.
    [gdt_load], [reload_segments], [tss_load] and [idt_load] are assembly: what
    they load into the processor is the last part of the state. *)

From S2P Require Import Prelude.

(** * The task state segment *)

Record TaskStateSegment := mkTss {
  reserved0 : Z;
  rsp0 : Z; rsp1 : Z; rsp2 : Z;
  reserved1 : Z;
  ist1 : Z; ist2 : Z; ist3 : Z; ist4 : Z; ist5 : Z; ist6 : Z; ist7 : Z;
  reserved2 : Z;
  reserved3 : Z;
  iopb_offset : Z;
}.

(** [size_of::<TaskStateSegment>()]. *)
Definition TSS_SIZE : Z := 104.

Definition TaskStateSegment_new : TaskStateSegment := mkTss 0 0 0 0 0 0 0 0 0 0 0 0 0 0 TSS_SIZE.

Definition set_rsp0 (p : Z) (t : TaskStateSegment) : TaskStateSegment :=
  mkTss (reserved0 t) p (rsp1 t) (rsp2 t) (reserved1 t) (ist1 t) (ist2 t) (ist3 t) (ist4 t) (ist5 t)
    (ist6 t) (ist7 t) (reserved2 t) (reserved3 t) (iopb_offset t).
Definition get_rsp0 (t : TaskStateSegment) : Z := rsp0 t.
Definition set_iopb (v : Z) (t : TaskStateSegment) : TaskStateSegment :=
  mkTss (reserved0 t) (rsp0 t) (rsp1 t) (rsp2 t) (reserved1 t) (ist1 t) (ist2 t) (ist3 t) (ist4 t) (ist5 t)
    (ist6 t) (ist7 t) (reserved2 t) (reserved3 t) v.

Definition set_ist (index p : Z) (t : TaskStateSegment) : TaskStateSegment :=
  let pick k old := if index =? k then p else old in
  mkTss (reserved0 t) (rsp0 t) (rsp1 t) (rsp2 t) (reserved1 t) (pick 1 (ist1 t)) (pick 2 (ist2 t))
    (pick 3 (ist3 t)) (pick 4 (ist4 t)) (pick 5 (ist5 t)) (pick 6 (ist6 t)) (pick 7 (ist7 t))
    (reserved2 t) (reserved3 t) (iopb_offset t).

Definition get_ist (index : Z) (t : TaskStateSegment) : Z :=
  if index =? 1 then ist1 t else if index =? 2 then ist2 t else if index =? 3 then ist3 t
  else if index =? 4 then ist4 t else if index =? 5 then ist5 t else if index =? 6 then ist6 t
  else if index =? 7 then ist7 t else 0.

Definition IST_DOUBLE_FAULT : Z := 1.
Definition IST_NMI : Z := 2.
Definition IST_MACHINE_CHECK : Z := 3.
Definition IST_DEBUG : Z := 4.
Definition IST_PAGE_FAULT : Z := 5.

(** * Segments *)

Definition KERNEL_CODE_SELECTOR : Z := 8.
Definition KERNEL_DATA_SELECTOR : Z := 16.
Definition USER_DATA_SELECTOR : Z := Z.lor 24 3.
Definition USER_CODE_SELECTOR : Z := Z.lor 32 3.
Definition TSS_SELECTOR : Z := 40.

Record GdtEntry := mkGdtEntry {
  limit_low : Z;
  base_low : Z;
  base_middle : Z;
  access : Z;
  flags_limit_high : Z;
  base_high : Z;
}.

Definition GdtEntry_null : GdtEntry := mkGdtEntry 0 0 0 0 0 0.
Definition GdtEntry_new (base limit access flags : Z) : GdtEntry :=
  mkGdtEntry (Z.land limit 65535) (Z.land base 65535) (Z.land (Z.shiftr base 16) 255) access
    (Z.lor (Z.land (Z.shiftr limit 16) 15) (wrap8 (Z.shiftl (Z.land flags 15) 4)))
    (Z.land (Z.shiftr base 24) 255).

Definition kernel_code_segment : GdtEntry := GdtEntry_new 0 0 154 2.
Definition kernel_data_segment : GdtEntry := GdtEntry_new 0 0 146 0.
Definition user_code_segment : GdtEntry := GdtEntry_new 0 0 250 2.
Definition user_data_segment : GdtEntry := GdtEntry_new 0 0 242 0.

Record TssEntry := mkTssEntry { low : GdtEntry; base_upper : Z; tss_reserved : Z }.

Definition TssEntry_null : TssEntry := mkTssEntry GdtEntry_null 0 0.
Definition TssEntry_new (tss_addr tss_size : Z) : TssEntry :=
  let base := tss_addr in
  let limit := wrap32 (tss_size - 1) in
  mkTssEntry
    (mkGdtEntry (Z.land limit 65535) (Z.land base 65535) (Z.land (Z.shiftr base 16) 255) 137
       (Z.lor (Z.land (Z.shiftr limit 16) 15) (wrap8 (Z.shiftl (Z.land 0 15) 4)))
       (Z.land (Z.shiftr base 24) 255))
    (Z.land (Z.shiftr base 32) 4294967295) 0.

Record GdtPointer := mkGdtPointer { gp_limit : Z; gp_base : Z }.

Record Gdt := mkGdt {
  g_null : GdtEntry;
  g_kernel_code : GdtEntry;
  g_kernel_data : GdtEntry;
  g_user_data : GdtEntry;
  g_user_code : GdtEntry;
  g_tss : TssEntry;
}.

(** [size_of::<Gdt>()]. *)
Definition GDT_SIZE : Z := 56.

Definition Gdt_new : Gdt :=
  mkGdt GdtEntry_null kernel_code_segment kernel_data_segment user_data_segment user_code_segment TssEntry_null.
Definition Gdt_set_tss (tss_addr : Z) (g : Gdt) : Gdt :=
  mkGdt (g_null g) (g_kernel_code g) (g_kernel_data g) (g_user_data g) (g_user_code g)
    (TssEntry_new tss_addr TSS_SIZE).
Definition Gdt_pointer (self : Z) : GdtPointer := mkGdtPointer (GDT_SIZE - 1) self.

(** * Gates *)

Record IdtEntry := mkIdtEntry {
  offset_low : Z;
  selector : Z;
  ist : Z;
  type_attr : Z;
  offset_mid : Z;
  offset_high : Z;
  reserved : Z;
}.

Definition IdtEntry_new : IdtEntry := mkIdtEntry 0 0 0 0 0 0 0.

Definition IdtEntry_set_handler (handler selector ist gate_type dpl : Z) : IdtEntry :=
  mkIdtEntry (Z.land handler 65535) selector (Z.land ist 7)
    (Z.lor (Z.lor (bit 7) (Z.shiftl (Z.land dpl 3) 5)) (Z.land gate_type 15))
    (Z.land (Z.shiftr handler 16) 65535) (Z.land (Z.shiftr handler 32) 4294967295) 0.
Definition IdtEntry_set_interrupt_gate (handler selector ist dpl : Z) : IdtEntry :=
  IdtEntry_set_handler handler selector ist 14 dpl.
Definition IdtEntry_set_trap_gate (handler selector ist dpl : Z) : IdtEntry :=
  IdtEntry_set_handler handler selector ist 15 dpl.

Definition Idt : Type := list IdtEntry.
Definition Idt_new : Idt := replicate 256 IdtEntry_new.

Definition Idt_set_entry (index : Z) (e : IdtEntry) (i : Idt) : Idt :=
  if index <? 256 then <[Z.to_nat index := e]> i else i.
Definition Idt_set_interrupt_gate (vector handler selector ist : Z) (i : Idt) : Idt :=
  if vector <? 256 then <[Z.to_nat vector := IdtEntry_set_interrupt_gate handler selector ist 0]> i else i.
Definition Idt_set_trap_gate (vector handler selector ist : Z) (i : Idt) : Idt :=
  if vector <? 256 then <[Z.to_nat vector := IdtEntry_set_trap_gate handler selector ist 0]> i else i.

Record IdtPointer := mkIdtPointer { ip_limit : Z; ip_base : Z }.
(** 256 gates of 16 bytes. *)
Definition Idt_pointer (self : Z) : IdtPointer := mkIdtPointer (wrap16 (256 * 16 - 1)) self.

(** * The globals, and the processor *)

Record Linked := mkLinked {
  GDT_ADDR : Z;
  TSS_ADDR : Z;
  IDT_ADDR : Z;
  isr : Z -> Z;   (** [isr0] to [isr31] *)
  irq : Z -> Z;   (** [irq0] to [irq15] *)
}.

Record descriptor_state := mkDescriptors {
  GDT : Gdt;
  TSS : TaskStateSegment;
  GDT_POINTER : GdtPointer;
  IDT : Idt;
  IDT_POINTER : IdtPointer;
  cpu_gdtr : option GdtPointer;
  cpu_cs : Z;
  cpu_ds : Z;
  cpu_tr : Z;
  cpu_idtr : option IdtPointer;
}.

Definition descriptors_init (cs ds : Z) : descriptor_state :=
  mkDescriptors Gdt_new TaskStateSegment_new (mkGdtPointer 0 0) Idt_new (mkIdtPointer 0 0) None cs ds 0 None.

Section Init.
Context (L : Linked).

Definition init_tss (t : TaskStateSegment) : TaskStateSegment :=
  let t := set_rsp0 9437184 t in
  let t := set_ist 1 9371648 t in
  let t := set_ist 2 9306112 t in
  let t := set_ist 3 9240576 t in
  let t := set_ist 5 9109504 t in
  set_iopb TSS_SIZE t.

(** [gdt_load], [reload_segments] (code by a far return to selector 8, the data
    segments with 16) and [tss_load]. *)
Definition gdt_init (s : descriptor_state) : descriptor_state :=
  let t := init_tss (TSS s) in
  let g := Gdt_set_tss (TSS_ADDR L) (GDT s) in
  let p := Gdt_pointer (GDT_ADDR L) in
  mkDescriptors g t p (IDT s) (IDT_POINTER s) (Some p) 8 16 TSS_SELECTOR (cpu_idtr s).

Definition set_kernel_stack (p : Z) (s : descriptor_state) : descriptor_state :=
  mkDescriptors (GDT s) (set_rsp0 p (TSS s)) (GDT_POINTER s) (IDT s) (IDT_POINTER s) (cpu_gdtr s)
    (cpu_cs s) (cpu_ds s) (cpu_tr s) (cpu_idtr s).

(** The gates in the order of [idt_init]: vector, trap or interrupt, handler, IST. *)
Definition gate_list : list (Z * bool * Z * Z) :=
  let i v ist := (v, false, isr L v, ist) in
  let t v := (v, true, isr L v, 0) in
  let q v := (v, false, irq L (v - 32), 0) in
  [i 0 0; t 1; i 2 2; t 3; t 4; i 5 0; i 6 0; i 7 0; i 8 1; i 9 0; i 10 0; i 11 0; i 12 0; i 13 0;
   i 14 5; i 15 0; i 16 0; i 17 0; i 18 3; i 19 0; i 20 0; i 21 0; i 22 0; i 23 0; i 24 0; i 25 0;
   i 26 0; i 27 0; i 28 0; i 29 0; i 30 0; i 31 0;
   q 32; q 33; q 34; q 35; q 36; q 37; q 38; q 39; q 40; q 41; q 42; q 43; q 44; q 45; q 46; q 47].

Definition set_gates (gs : list (Z * bool * Z * Z)) (i : Idt) : Idt :=
  let kernel_cs := 8 in
  fold_left (fun i '(v, trap, handler, ist) =>
    if trap : bool then Idt_set_trap_gate v handler kernel_cs ist i
    else Idt_set_interrupt_gate v handler kernel_cs ist i) gs i.

Definition idt_init (s : descriptor_state) : descriptor_state :=
  let i := set_gates gate_list (IDT s) in
  let p := Idt_pointer (IDT_ADDR L) in
  mkDescriptors (GDT s) (TSS s) (GDT_POINTER s) i p (cpu_gdtr s) (cpu_cs s) (cpu_ds s) (cpu_tr s) (Some p).
End Init.
