(* ===== verification/DescriptorProps.v ===== *)
(** Theorems on the descriptor tables: what the processor decodes from them, the
    tables after [gdt_init] and [idt_init] together, and the stacks of the
    critical exceptions against the frames of the physical memory manager. *)

From S2P Require Import Prelude E820 Pmm PmmFacts PmmInit PmmProps Descriptors.

(** * What the processor decodes *)

Definition segment_base (e : GdtEntry) : Z := base_low e + base_middle e * 2 ^ 16 + base_high e * 2 ^ 24.
Definition segment_limit (e : GdtEntry) : Z := limit_low e + flags_limit_high e mod 16 * 2 ^ 16.
Definition segment_flags (e : GdtEntry) : Z := flags_limit_high e / 16.
Definition system_base (e : TssEntry) : Z := segment_base (low e) + base_upper e * 2 ^ 32.

(** A present segment of the ring: 64-bit code, or writable data. *)
Definition code64 (ring : Z) (e : GdtEntry) : bool :=
  Z.testbit (access e) 7 && (access e / 32 mod 4 =? ring) && (access e / 8 mod 4 =? 3)
  && Z.testbit (segment_flags e) 1 && negb (Z.testbit (segment_flags e) 2).
Definition writable_data (ring : Z) (e : GdtEntry) : bool :=
  Z.testbit (access e) 7 && (access e / 32 mod 4 =? ring) && (access e / 8 mod 4 =? 2) && Z.testbit (access e) 1.
(** A present, available 64-bit task state segment. *)
Definition tss64 (e : TssEntry) : bool := access (low e) =? 137.

(** The slot of a selector. *)
Definition segment_at (g : Gdt) (sel : Z) : option GdtEntry :=
  [g_null g; g_kernel_code g; g_kernel_data g; g_user_data g; g_user_code g; low (g_tss g)] !! Z.to_nat (sel / 8).

Definition gate_offset (e : IdtEntry) : Z := offset_low e + offset_mid e * 2 ^ 16 + offset_high e * 2 ^ 32.
Definition gate_present (e : IdtEntry) : bool := Z.testbit (type_attr e) 7.
Definition gate_dpl (e : IdtEntry) : Z := type_attr e / 32 mod 4.
Definition gate_kind (e : IdtEntry) : Z := type_attr e mod 16.

(** Where the processor goes on vector [v]: the handler, whether interrupts stay
    enabled, and the stack it switches to, when it switches.  A gate that is not
    present, or whose selector is no 64-bit code segment of ring 0, faults. *)
Definition interrupt_entry (s : descriptor_state) (v : Z) : option (Z * bool * option Z) :=
  e ← IDT s !! Z.to_nat v;
  c ← segment_at (GDT s) (selector e);
  if gate_present e && code64 0 c && (gate_kind e =? 14) then
    Some (gate_offset e, false, if ist e =? 0 then None else Some (get_ist (ist e) (TSS s)))
  else if gate_present e && code64 0 c && (gate_kind e =? 15) then
    Some (gate_offset e, true, if ist e =? 0 then None else Some (get_ist (ist e) (TSS s)))
  else None.

(** * Fields *)

Lemma bits_field x k n : 0 <= k -> 0 <= n -> Z.land (Z.shiftr x k) (2 ^ n - 1) = x / 2 ^ k mod 2 ^ n.
Proof. intros. by rewrite land_low, Z.shiftr_div_pow2 by lia. Qed.

Lemma nibbles a b : 0 <= a < 16 -> 0 <= b < 16 ->
  Z.lor a (wrap8 (Z.shiftl b 4)) = a + b * 16.
Proof.
  intros Ha Hb. rewrite Z.shiftl_mul_pow2 by lia. unfold wrap8. rewrite Z.mod_small by lia.
  rewrite Z.lor_comm, (lor_disjoint_add 4) by ((apply Z.mod_mul; lia) || lia). lia.
Qed.

Lemma GdtEntry_new_fields base limit a flags : is_u32 base -> is_u32 limit -> is_u8 flags ->
  GdtEntry_new base limit a flags
  = mkGdtEntry (limit mod 65536) (base mod 65536) (base / 65536 mod 256) a
      (limit / 65536 mod 16 + flags mod 16 * 16) (base / 16777216).
Proof.
  intros Hb Hl Hf. unfold GdtEntry_new, is_u32, is_u8, U32 in *.
  change 65535 with (2 ^ 16 - 1). change 255 with (2 ^ 8 - 1). change 15 with (2 ^ 4 - 1).
  rewrite !bits_field by lia. rewrite !land_low by lia.
  change (2 ^ 16) with 65536. change (2 ^ 8) with 256. change (2 ^ 4) with 16. change (2 ^ 24) with 16777216.
  rewrite nibbles by dlia. f_equal. dlia.
Qed.

Lemma tss_entry_fields addr size : is_u64 addr -> 0 < size <= 2 ^ 20 ->
  let t := TssEntry_new addr size in
  system_base t = addr /\ segment_limit (low t) = size - 1 /\ tss64 t = true.
Proof.
  intros Ha Hs t. unfold t, TssEntry_new, system_base, segment_base, segment_limit, tss64.
  cbn [low base_upper base_low base_middle base_high limit_low flags_limit_high access].
  unfold wrap32. change (2 ^ 20) with 1048576 in *. unfold U32 at 1. rewrite Z.mod_small by lia.
  change 65535 with (2 ^ 16 - 1). change 255 with (2 ^ 8 - 1). change 15 with (2 ^ 4 - 1).
  change 4294967295 with (2 ^ 32 - 1). rewrite !bits_field by lia. rewrite !land_low by lia.
  change (2 ^ 16) with 65536. change (2 ^ 8) with 256. change (2 ^ 4) with 16. change (2 ^ 24) with 16777216.
  change (2 ^ 32) with 4294967296. unfold U32. rewrite nibbles by dlia. unfold is_u64, U64 in *. split_and!; [dlia|dlia|done].
Qed.

(** A descriptor built from a base, a limit, an access byte and flags decodes
    to the base, the low 20 bits of the limit, the access byte and the low four
    flags; the two-slot descriptor of a task state segment decodes to its 64-bit
    address and its size less one. *)
Theorem descriptor_roundtrip base limit a flags addr size :
  is_u32 base -> is_u32 limit -> is_u8 flags -> is_u64 addr -> 0 < size <= 2 ^ 20 ->
  let e := GdtEntry_new base limit a flags in
  (segment_base e = base /\ segment_limit e = limit mod 2 ^ 20 /\ access e = a /\ segment_flags e = flags mod 16)
  /\ let t := TssEntry_new addr size in
     system_base t = addr /\ segment_limit (low t) = size - 1 /\ tss64 t = true.
Proof.
  intros Hb Hl Hf Ha Hs e. split.
  - unfold e. rewrite GdtEntry_new_fields by done. unfold segment_base, segment_limit, segment_flags. cbn.
    unfold is_u32, U32 in *. change (Z.pow_pos 2 16) with 65536. change (Z.pow_pos 2 24) with 16777216.
    change (Z.pow_pos 2 20) with 1048576. split_and!; dlia.
  - by apply tss_entry_fields.
Qed.

Lemma gate_fields handler sel i k dpl : is_u64 handler -> 0 <= k < 16 -> 0 <= dpl < 4 ->
  let e := IdtEntry_set_handler handler sel i k dpl in
  gate_offset e = handler /\ selector e = sel /\ ist e = i mod 8 /\ gate_present e = true
  /\ gate_dpl e = dpl /\ gate_kind e = k.
Proof.
  intros Hh Hk Hd e. unfold e, IdtEntry_set_handler, gate_offset, gate_present, gate_dpl, gate_kind.
  cbn [offset_low offset_mid offset_high selector ist type_attr].
  change 65535 with (2 ^ 16 - 1). change 4294967295 with (2 ^ 32 - 1). change (Z.land i 7) with (Z.land i (2 ^ 3 - 1)).
  change (Z.land dpl 3) with (Z.land dpl (2 ^ 2 - 1)). change 15 with (2 ^ 4 - 1).
  rewrite !bits_field by lia. rewrite !land_low by lia.
  assert (Z.lor (Z.lor (bit 7) (Z.shiftl (dpl mod 2 ^ 2) 5)) (k mod 2 ^ 4) = 128 + dpl * 32 + k) as ->.
  { rewrite !Z.mod_small by (change (2 ^ 2) with 4; change (2 ^ 4) with 16; lia).
    rewrite Z.shiftl_mul_pow2 by lia. change (bit 7) with 128. change (2 ^ 5) with 32.
    rewrite (lor_disjoint_add 7 128) by (done || (change (2 ^ 7) with 128; lia)).
    apply (lor_disjoint_add 5); [lia| |change (2 ^ 5) with 32; lia]. change (2 ^ 5) with 32. dlia. }
  change (2 ^ 16) with 65536. change (2 ^ 32) with 4294967296. change (2 ^ 3) with 8.
  unfold is_u64, U64 in Hh. split_and!; try dlia; try done.
  rewrite Z.testbit_true by lia. change (2 ^ 7) with 128. dlia.
Qed.

(** * The tables *)

Section Tables.
Context (L : Linked).

Definition gate_handler (v : Z) : Z := if v <? 32 then isr L v else irq L (v - 32).
Definition gate_trap (v : Z) : bool := (v =? 1) || (v =? 3) || (v =? 4).
Definition gate_ist (v : Z) : Z :=
  if v =? 8 then IST_DOUBLE_FAULT else if v =? 2 then IST_NMI else if v =? 18 then IST_MACHINE_CHECK
  else if v =? 14 then IST_PAGE_FAULT else 0.

Definition gate_spec (v : Z) : Z * bool * Z * Z := (v, gate_trap v, gate_handler v, gate_ist v).

Lemma gate_list_spec : gate_list L = map gate_spec (map Z.of_nat (seq 0 48)).
Proof. reflexivity. Qed.

Definition gate_of (g : Z * bool * Z * Z) : IdtEntry :=
  let '(v, trap, handler, ist) := g in IdtEntry_set_handler handler 8 ist (if trap : bool then 15 else 14) 0.

(** A table written once per vector. *)
Lemma set_gates_lookup vs i v : Forall (fun v => 0 <= v < 256) vs -> length i = 256%nat -> 0 <= v ->
  length (set_gates (map gate_spec vs) i) = 256%nat
  /\ set_gates (map gate_spec vs) i !! Z.to_nat v
     = if bool_decide (v ∈ vs) then if v <? 256 then Some (gate_of (gate_spec v)) else None else i !! Z.to_nat v.
Proof.
  intros Hvs. revert i. induction Hvs as [|u vs Hu Hvs IH]; intros i Hlen Hv.
  { split; [done|]. by rewrite bool_decide_false by (by intros []%elem_of_nil). }
  set (i' := <[Z.to_nat u := gate_of (gate_spec u)]> i).
  assert (set_gates (map gate_spec (u :: vs)) i = set_gates (map gate_spec vs) i') as ->.
  { unfold set_gates. cbn [map fold_left]. f_equal. unfold gate_spec, gate_of, Idt_set_trap_gate, Idt_set_interrupt_gate.
    destruct (Z.ltb_spec u 256); [|lia]. unfold i', gate_spec, gate_of. by destruct (gate_trap u). }
  destruct (IH i' ltac:(unfold i'; by rewrite length_insert) Hv) as [H1 H2]. split; [exact H1|]. rewrite H2.
  destruct (decide (v ∈ vs)) as [Hin|Hnin].
  - rewrite !bool_decide_true by (try apply elem_of_cons; auto). done.
  - rewrite (bool_decide_false (v ∈ vs)) by done. destruct (decide (v = u)) as [->|Hne].
    + rewrite bool_decide_true by (apply elem_of_cons; auto). destruct (Z.ltb_spec u 256); [|lia].
      unfold i'. apply list_lookup_insert_eq. lia.
    + rewrite bool_decide_false by (rewrite elem_of_cons; tauto).
      unfold i'. apply list_lookup_insert_ne. lia.
Qed.

Lemma idt_lookup s v : length (IDT s) = 256%nat -> 0 <= v < 256 ->
  IDT (idt_init L s) !! Z.to_nat v = if v <? 48 then Some (gate_of (gate_spec v)) else IDT s !! Z.to_nat v.
Proof.
  intros Hlen Hv. cbn [idt_init IDT]. rewrite gate_list_spec.
  rewrite (proj2 (set_gates_lookup (map Z.of_nat (seq 0 48)) _ v ltac:(repeat constructor; lia) Hlen ltac:(lia))).
  assert (v ∈ map Z.of_nat (seq 0 48) <-> v < 48) as Hin.
  { rewrite list_elem_of_fmap. split.
    - intros (k & -> & Hk). apply elem_of_seq in Hk. lia.
    - intros Hlt. exists (Z.to_nat v). rewrite elem_of_seq. lia. }
  destruct (Z.ltb_spec v 48).
  - rewrite bool_decide_true by (by apply Hin). by destruct (Z.ltb_spec v 256); [|lia].
  - rewrite bool_decide_false by (rewrite Hin; lia). done.
Qed.

Lemma null_gate s v : IDT s !! Z.to_nat v = Some IdtEntry_new -> interrupt_entry s v = None.
Proof.
  intros E. unfold interrupt_entry. rewrite E. cbn [mbind option_bind]. cbn [selector IdtEntry_new].
  destruct (segment_at _ _); [|done]. done.
Qed.

Lemma gate_ist_range v : 0 <= gate_ist v < 8.
Proof. unfold gate_ist. repeat case_match; vm_compute; split; done. Qed.

Lemma gate_entry s v c : GDT s = c -> segment_at c 8 = Some kernel_code_segment ->
  IDT s !! Z.to_nat v = Some (gate_of (gate_spec v)) -> is_u64 (gate_handler v) ->
  interrupt_entry s v = Some (gate_handler v, gate_trap v,
    if gate_ist v =? 0 then None else Some (get_ist (gate_ist v) (TSS s))).
Proof.
  intros EG Hc E Hh. unfold interrupt_entry. rewrite E. cbn [mbind option_bind].
  unfold gate_of, gate_spec. pose proof (gate_ist_range v) as Hi.
  destruct (gate_fields (gate_handler v) 8 (gate_ist v) (if gate_trap v then 15 else 14) 0 Hh
    ltac:(destruct (gate_trap v); lia) ltac:(lia)) as (H1 & H2 & H3 & H4 & _ & H6).
  rewrite H2, EG, Hc, H1, H3, H4, H6. cbn [mbind option_bind]. rewrite Z.mod_small by lia.
  replace (code64 0 kernel_code_segment) with true by reflexivity. by destruct (gate_trap v).
Qed.

(** Handlers are code of the kernel. *)
Definition linked_ok : Prop := is_u64 (TSS_ADDR L) /\ (forall n, is_u64 (isr L n)) /\ (forall n, is_u64 (irq L n)).

(** What a vector leads to after the start of both tables. *)
Lemma boot_gates cs ds : linked_ok ->
  let s := idt_init L (gdt_init L (descriptors_init cs ds)) in
  (forall v, 0 <= v < 48 -> interrupt_entry s v = Some (gate_handler v, gate_trap v,
     if v =? 8 then Some 9371648 else if v =? 2 then Some 9306112
     else if v =? 18 then Some 9240576 else if v =? 14 then Some 9109504 else None))
  /\ forall v, 48 <= v < 256 -> interrupt_entry s v = None.
Proof.
  intros (Ht & Hi & Hq) s.
  assert (forall v, 0 <= v < 256 -> IDT s !! Z.to_nat v
    = if v <? 48 then Some (gate_of (gate_spec v)) else Some IdtEntry_new) as Hidt.
  { intros v Hv. unfold s. rewrite idt_lookup by done. destruct (v <? 48); [done|].
    apply lookup_replicate_2. lia. }
  split.
  - intros v Hv. specialize (Hidt v ltac:(lia)). destruct (Z.ltb_spec v 48); [|lia].
    rewrite (gate_entry s v _ eq_refl eq_refl Hidt).
    + unfold gate_ist. repeat case_match; done.
    + unfold gate_handler. by destruct (v <? 32).
  - intros v Hv. apply null_gate. rewrite Hidt by lia. by destruct (Z.ltb_spec v 48); [lia|].
Qed.

(** C23. After [gdt_init] and [idt_init] the processor runs on the kernel's 64-bit
    code segment and data segment and on the task state segment at its address,
    the user selectors name ring 3 segments, and every vector up to 47 enters its
    own stub in ring 0 - debug, breakpoint and overflow with interrupts on, double
    fault, NMI, machine check and page fault on four stacks of their own, the
    others on the current one; vectors from 48 on have no gate and fault. *)
Theorem boot_descriptors_correct cs ds :
  linked_ok ->
  let s := idt_init L (gdt_init L (descriptors_init cs ds)) in
  (cpu_gdtr s = Some (mkGdtPointer 55 (GDT_ADDR L)) /\ cpu_idtr s = Some (mkIdtPointer 4095 (IDT_ADDR L)))
  /\ (exists c d, segment_at (GDT s) (cpu_cs s) = Some c /\ code64 0 c = true
        /\ segment_at (GDT s) (cpu_ds s) = Some d /\ writable_data 0 d = true)
  /\ (exists c d, segment_at (GDT s) USER_CODE_SELECTOR = Some c /\ code64 3 c = true
        /\ segment_at (GDT s) USER_DATA_SELECTOR = Some d /\ writable_data 3 d = true)
  /\ (segment_at (GDT s) (cpu_tr s) = Some (low (g_tss (GDT s))) /\ tss64 (g_tss (GDT s)) = true
        /\ system_base (g_tss (GDT s)) = TSS_ADDR L /\ segment_limit (low (g_tss (GDT s))) = TSS_SIZE - 1)
  /\ (forall v, 0 <= v < 48 -> interrupt_entry s v = Some (gate_handler v, gate_trap v,
        if v =? 8 then Some 9371648 else if v =? 2 then Some 9306112
        else if v =? 18 then Some 9240576 else if v =? 14 then Some 9109504 else None))
  /\ forall v, 48 <= v < 256 -> interrupt_entry s v = None.
Proof.
  intros HL s. pose proof HL as (Ht & _). split; [done|]. split; [by eexists _, _|]. split; [by eexists _, _|].
  destruct (tss_entry_fields (TSS_ADDR L) TSS_SIZE Ht ltac:(split; by vm_compute)) as (T1 & T2 & T3).
  split; [split_and!; [done|exact T3|exact T1|exact T2]|]. exact (boot_gates cs ds HL).
Qed.

(** Frames of low memory and the kernel stay out of reach. *)
Lemma kernel_frame_held m map g p m' log s' f :
  good_map m map -> pmm_init map g m = (Some p, m', Ok tt) -> served (mkPst p m') log s' ->
  (forall addr, (RFree addr, Freed) ∈ log -> KERNEL_END <= addr) ->
  forall log1 r a log2, log = log1 ++ (r, Addr a) :: log2 ->
    f ∈ frame_run (a / PAGE_SIZE) (request_size r) -> 0 <= f < total_frames p -> f < KERNEL_END / PAGE_SIZE -> False.
Proof.
  intros G E Hs Hno log1 r a log2 El Hf Hft Hlt.
  pose proof (pmm_init_spec m map g G) as H. rewrite E in H. destruct H as (p' & [= <-] & I & Ht & Hu & _).
  assert ({[ f ]} ⊆ used_set (mkPst p m')) as Hsub.
  { apply singleton_subseteq_l, elem_of_used_set. split; [done|]. apply not_false_is_true. rewrite Hu by done.
    intros [_ Hr]. apply Hr. left. lia. }
  destruct (held_served _ _ _ _ Hs I Hsub) as (_ & _ & Hd). apply (Hd log1 r a log2 El f Hf).
  apply (held_keeps {[ f ]}); [|done|by apply elem_of_singleton].
  intros addr Ha Hin%elem_of_singleton.
  assert (KERNEL_END <= addr) as Hge by (apply Hno; rewrite El; apply elem_of_app; by left).
  apply (Z.div_le_mono _ _ PAGE_SIZE) in Hge; [lia|done].
Qed.

(** The memory of an emergency stack: 64 KiB below its top. *)
Definition stack_slots (t : TaskStateSegment) : list (Z * Z) :=
  map (fun top => (top - 65536, top)) [ist1 t; ist2 t; ist3 t; ist5 t; rsp0 t].

(** C35. The four emergency stacks and the ring 0 stack of the task state segment
    are 64 KiB slots that do not overlap, and no request to the physical memory
    manager, once it is initialised on a sane map and as long as nobody frees the
    kernel's own frames, is ever granted a frame that meets one of them. *)
Theorem emergency_stacks_never_granted s m map g p m' log s' :
  good_map m map -> pmm_init map g m = (Some p, m', Ok tt) ->
  served (mkPst p m') log s' ->
  (forall addr, (RFree addr, Freed) ∈ log -> KERNEL_END <= addr) ->
  let slots := stack_slots (TSS (gdt_init L s)) in
  (forall i j a b, slots !! i = Some a -> slots !! j = Some b -> i <> j -> a.2 <= b.1 \/ b.2 <= a.1)
  /\ forall log1 r a log2 f slot, log = log1 ++ (r, Addr a) :: log2 ->
       f ∈ frame_run (a / PAGE_SIZE) (request_size r) -> 0 <= f < total_frames p -> slot ∈ slots ->
       f * PAGE_SIZE + PAGE_SIZE <= slot.1 \/ slot.2 <= f * PAGE_SIZE.
Proof.
  intros G E Hs Hno slots.
  assert (slots = [(9306112, 9371648); (9240576, 9306112); (9175040, 9240576); (9043968, 9109504);
    (9371648, 9437184)]) as -> by reflexivity.
  split.
  - intros i j a b Hi Hj Hne.
    destruct i as [|[|[|[|[|i]]]]], j as [|[|[|[|[|j]]]]]; try done; cbn in Hi, Hj; simplify_eq; cbn; lia.
  - intros log1 r a log2 f slot El Hf Hft Hslot.
    destruct (Z.lt_ge_cases f (KERNEL_END / PAGE_SIZE)) as [Hlt|Hge].
    + exfalso. by apply (kernel_frame_held m map g p m' log s' f G E Hs Hno log1 r a log2 El Hf).
    + right. change (KERNEL_END / PAGE_SIZE) with 2560 in Hge. unfold PAGE_SIZE.
      rewrite !elem_of_cons, elem_of_nil in Hslot. naive_solver lia.
Qed.
End Tables.

(** * Closed instances *)

Lemma descriptor_roundtrip_witness :
  segment_base (GdtEntry_new 1048576 1048575 146 12) = 1048576
  /\ segment_limit (GdtEntry_new 1048576 1048575 146 12) = 1048575
  /\ system_base (TssEntry_new 18446603336222199808 104) = 18446603336222199808.
Proof.
  destruct (descriptor_roundtrip 1048576 1048575 146 12 18446603336222199808 104) as [(H1 & H2 & _) (H3 & _)];
    [vm_compute; by split..|].
  split; [exact H1|]. split; [exact H2|exact H3].
Defined.

Definition sample_link : Linked :=
  mkLinked 1310720 1310848 1314816 (fun n => 1052672 + n * 16) (fun n => 1056768 + n * 16).

Lemma boot_descriptors_correct_witness :
  let L := mkLinked 1310720 1310848 1314816 (fun _ => 1052672) (fun _ => 1056768) in
  let s := idt_init L (gdt_init L (descriptors_init 24 32)) in
  interrupt_entry s 14 = Some (1052672, false, Some 9109504)
  /\ interrupt_entry s 33 = Some (1056768, false, None) /\ interrupt_entry s 48 = None.
Proof.
  intros L s. destruct (boot_descriptors_correct L 24 32) as (_ & _ & _ & _ & H & H').
  { split_and!; vm_compute; by split. }
  split; [exact (H 14 ltac:(lia))|]. split; [exact (H 33 ltac:(lia))|exact (H' 48 ltac:(lia))].
Defined.

Lemma emergency_stacks_never_granted_witness :
  exists p m' a s', pmm_init sample_map None sample_map_bytes = (Some p, m', Ok tt)
    /\ serve RAlloc (mkPst p m') = Some (s', Addr a)
    /\ (a / PAGE_SIZE * PAGE_SIZE + PAGE_SIZE <= 9043968 \/ 9109504 <= a / PAGE_SIZE * PAGE_SIZE).
Proof.
  destruct (sample_init None) as (p & m' & E). destruct (sample_init_free _ _ _ E) as (I & Ht & Hfree).
  pose proof (alloc_frame_spec _ I) as H.
  destruct (alloc_frame (mkPst p m')) as [s' [a|e]] eqn:Ea.
  2:{ exfalso. destruct H as (_ & _ & H). rewrite H in Hfree; [done|]. cbn [pm]. lia. }
  destruct H as (f & Hf & _ & -> & _). exists p, m', (f * PAGE_SIZE), s'.
  assert (serve RAlloc (mkPst p m') = Some (s', Addr (f * PAGE_SIZE))) as Hs by (cbn [serve]; by rewrite Ea).
  split; [done|]. split; [done|]. rewrite page_div.
  destruct (emergency_stacks_never_granted sample_link (descriptors_init 0 0) _ _ None p m' [(RAlloc, Addr (f * PAGE_SIZE))] s' sample_good E) as [_ G].
  - apply (served_cons _ _ _ s'); [done|done|apply served_nil].
  - intros addr Ha. apply list_elem_of_singleton in Ha. done.
  - apply (G [] RAlloc (f * PAGE_SIZE) [] f (9043968, 9109504)).
    + reflexivity.
    + rewrite page_div. apply elem_of_frame_run. cbn [request_size]. lia.
    + exact Hf.
    + apply (list_elem_of_lookup_2 _ 3%nat). reflexivity.
Defined.
