(* ===== verification/DescriptorsMod.v ===== *)
(** The other descriptor modules of the repository: [gdt/mod.rs] with [gdt/tss.rs],
    and [idt/mod.rs].  The kernel links [gdt/lib.rs] and [idt/lib.rs] instead, which
    [Descriptors] models; the structures are the same and are taken from there, the
    functions are translated from these files. *)

From S2P Require Import Prelude Descriptors.

(** * [gdt/tss.rs] *)

Module TssRs.
Definition TaskStateSegment_new : TaskStateSegment :=
  {| reserved0 := 0; rsp0 := 0; rsp1 := 0; rsp2 := 0; reserved1 := 0;
     ist1 := 0; ist2 := 0; ist3 := 0; ist4 := 0; ist5 := 0; ist6 := 0; ist7 := 0;
     reserved2 := 0; reserved3 := 0; iopb_offset := TSS_SIZE |}.

Definition set_rsp0 (stack_ptr : Z) (t : TaskStateSegment) : TaskStateSegment :=
  let '(mkTss r0 _ s1 s2 r1 i1 i2 i3 i4 i5 i6 i7 r2 r3 io) := t in
  mkTss r0 stack_ptr s1 s2 r1 i1 i2 i3 i4 i5 i6 i7 r2 r3 io.
Definition get_rsp0 (t : TaskStateSegment) : Z := rsp0 t.

(** An index out of range is ignored. *)
Definition set_ist (index stack_ptr : Z) (t : TaskStateSegment) : TaskStateSegment :=
  let '(mkTss r0 s0 s1 s2 r1 i1 i2 i3 i4 i5 i6 i7 r2 r3 io) := t in
  match index with
  | 1 => mkTss r0 s0 s1 s2 r1 stack_ptr i2 i3 i4 i5 i6 i7 r2 r3 io
  | 2 => mkTss r0 s0 s1 s2 r1 i1 stack_ptr i3 i4 i5 i6 i7 r2 r3 io
  | 3 => mkTss r0 s0 s1 s2 r1 i1 i2 stack_ptr i4 i5 i6 i7 r2 r3 io
  | 4 => mkTss r0 s0 s1 s2 r1 i1 i2 i3 stack_ptr i5 i6 i7 r2 r3 io
  | 5 => mkTss r0 s0 s1 s2 r1 i1 i2 i3 i4 stack_ptr i6 i7 r2 r3 io
  | 6 => mkTss r0 s0 s1 s2 r1 i1 i2 i3 i4 i5 stack_ptr i7 r2 r3 io
  | 7 => mkTss r0 s0 s1 s2 r1 i1 i2 i3 i4 i5 i6 stack_ptr r2 r3 io
  | _ => t
  end.

Definition get_ist (index : Z) (t : TaskStateSegment) : Z :=
  match index with
  | 1 => ist1 t | 2 => ist2 t | 3 => ist3 t | 4 => ist4 t | 5 => ist5 t | 6 => ist6 t | 7 => ist7 t
  | _ => 0
  end.
End TssRs.

(** * [gdt/mod.rs] *)

Module GdtMod.
Definition KERNEL_CODE_SELECTOR : Z := 0x08.
Definition KERNEL_DATA_SELECTOR : Z := 0x10.
Definition USER_DATA_SELECTOR : Z := Z.lor 0x18 3.
Definition USER_CODE_SELECTOR : Z := Z.lor 0x20 3.
Definition TSS_SELECTOR : Z := 0x28.

Definition GdtEntry_null : GdtEntry := mkGdtEntry 0 0 0 0 0 0.
Definition GdtEntry_new (base limit access flags : Z) : GdtEntry :=
  {| limit_low := Z.land limit 0xFFFF;
     base_low := Z.land base 0xFFFF;
     base_middle := Z.land (Z.shiftr base 16) 0xFF;
     Descriptors.access := access;
     flags_limit_high := Z.lor (Z.land (Z.shiftr limit 16) 0x0F) (wrap8 (Z.shiftl (Z.land flags 0x0F) 4));
     base_high := Z.land (Z.shiftr base 24) 0xFF |}.

Definition kernel_code_segment : GdtEntry := GdtEntry_new 0 0xFFFFF 0x9A 0x0A.
Definition kernel_data_segment : GdtEntry := GdtEntry_new 0 0xFFFFF 0x92 0x0C.
Definition user_code_segment : GdtEntry := GdtEntry_new 0 0xFFFFF 0xFA 0x0A.
Definition user_data_segment : GdtEntry := GdtEntry_new 0 0xFFFFF 0xF2 0x0C.

Definition TssEntry_null : TssEntry := mkTssEntry GdtEntry_null 0 0.
Definition TssEntry_new (tss_addr tss_size : Z) : TssEntry :=
  let base := tss_addr in
  let limit := wrap32 (tss_size - 1) in
  let access := 0x89 in
  let flags := 0x00 in
  {| low :=
       {| limit_low := Z.land limit 0xFFFF;
          base_low := Z.land base 0xFFFF;
          base_middle := Z.land (Z.shiftr base 16) 0xFF;
          Descriptors.access := access;
          flags_limit_high := Z.lor (Z.land (Z.shiftr limit 16) 0x0F) (wrap8 (Z.shiftl (Z.land flags 0x0F) 4));
          base_high := Z.land (Z.shiftr base 24) 0xFF |};
     base_upper := Z.land (Z.shiftr base 32) 0xFFFFFFFF;
     tss_reserved := 0 |}.

Definition Gdt_new : Gdt :=
  mkGdt GdtEntry_null kernel_code_segment kernel_data_segment user_data_segment user_code_segment TssEntry_null.
Definition Gdt_set_tss (tss_addr : Z) (g : Gdt) : Gdt :=
  let '(mkGdt n kc kd ud uc _) := g in mkGdt n kc kd ud uc (TssEntry_new tss_addr TSS_SIZE).
Definition Gdt_pointer (self : Z) : GdtPointer := mkGdtPointer (wrap16 (GDT_SIZE - 1)) self.

Definition descriptors_init (cs ds : Z) : descriptor_state :=
  mkDescriptors Gdt_new TssRs.TaskStateSegment_new (mkGdtPointer 0 0) Idt_new (mkIdtPointer 0 0) None cs ds 0 None.

(** The assignments to [TSS]. *)
Definition init_tss (t : TaskStateSegment) : TaskStateSegment :=
  let '(mkTss r0 _ s1 s2 r1 _ _ _ i4 _ i6 i7 r2 r3 _) := t in
  mkTss r0 0x900000 s1 s2 r1 0x8F0000 0x8E0000 0x8D0000 i4 0x8B0000 i6 i7 r2 r3 TSS_SIZE.

(** [init]; [gdt_load], [reload_segments] and [tss_load] are those of [Descriptors.gdt_init]. *)
Definition gdt_mod_init (L : Linked) (s : descriptor_state) : descriptor_state :=
  let t := init_tss (TSS s) in
  let g := Gdt_set_tss (TSS_ADDR L) (GDT s) in
  let p := Gdt_pointer (GDT_ADDR L) in
  mkDescriptors g t p (IDT s) (IDT_POINTER s) (Some p) 8 16 TSS_SELECTOR (cpu_idtr s).

Definition kernel_code_selector : Z := KERNEL_CODE_SELECTOR.
Definition kernel_data_selector : Z := KERNEL_DATA_SELECTOR.
Definition user_code_selector : Z := USER_CODE_SELECTOR.
Definition user_data_selector : Z := USER_DATA_SELECTOR.

Definition set_kernel_stack (stack_ptr : Z) (s : descriptor_state) : descriptor_state :=
  mkDescriptors (GDT s) (TssRs.set_rsp0 stack_ptr (TSS s)) (GDT_POINTER s) (IDT s) (IDT_POINTER s) (cpu_gdtr s)
    (cpu_cs s) (cpu_ds s) (cpu_tr s) (cpu_idtr s).
Definition get_tss_ptr (L : Linked) : Z := TSS_ADDR L.
Definition get_tss_mut_ptr (L : Linked) : Z := TSS_ADDR L.
End GdtMod.

(** * [idt/mod.rs] *)

Module IdtMod.
Definition IdtEntry_new : IdtEntry := mkIdtEntry 0 0 0 0 0 0 0.

Definition IdtEntry_set_handler (handler selector ist gate_type dpl : Z) : IdtEntry :=
  {| offset_low := Z.land handler 0xFFFF;
     offset_mid := Z.land (Z.shiftr handler 16) 0xFFFF;
     offset_high := Z.land (Z.shiftr handler 32) 0xFFFFFFFF;
     Descriptors.selector := selector;
     Descriptors.ist := Z.land ist 0x7;
     type_attr := Z.lor (Z.lor (bit 7) (Z.shiftl (Z.land dpl 0x3) 5)) (Z.land gate_type 0xF);
     reserved := 0 |}.
Definition IdtEntry_set_interrupt_gate (handler selector ist dpl : Z) : IdtEntry :=
  IdtEntry_set_handler handler selector ist 0xE dpl.
Definition IdtEntry_set_trap_gate (handler selector ist dpl : Z) : IdtEntry :=
  IdtEntry_set_handler handler selector ist 0xF dpl.

Definition Idt_new : Idt := replicate 256 IdtEntry_new.
Definition Idt_set_entry (index : Z) (e : IdtEntry) (i : Idt) : Idt :=
  if index <? 256 then <[Z.to_nat index := e]> i else i.
Definition Idt_set_interrupt_gate (vector handler selector ist : Z) (i : Idt) : Idt :=
  if vector <? 256 then <[Z.to_nat vector := IdtEntry_set_interrupt_gate handler selector ist 0]> i else i.
Definition Idt_set_trap_gate (vector handler selector ist : Z) (i : Idt) : Idt :=
  if vector <? 256 then <[Z.to_nat vector := IdtEntry_set_trap_gate handler selector ist 0]> i else i.
Definition Idt_pointer (self : Z) : IdtPointer := mkIdtPointer (wrap16 (256 * 16 - 1)) self.

(** [mod exceptions]. *)
Definition DIVIDE_ERROR : Z := 0.
Definition DEBUG : Z := 1.
Definition NMI : Z := 2.
Definition BREAKPOINT : Z := 3.
Definition OVERFLOW : Z := 4.
Definition BOUND_RANGE : Z := 5.
Definition INVALID_OPCODE : Z := 6.
Definition DEVICE_NOT_AVAILABLE : Z := 7.
Definition DOUBLE_FAULT : Z := 8.
Definition INVALID_TSS : Z := 10.
Definition SEGMENT_NOT_PRESENT : Z := 11.
Definition STACK_SEGMENT_FAULT : Z := 12.
Definition GENERAL_PROTECTION : Z := 13.
Definition PAGE_FAULT : Z := 14.
Definition FPU_ERROR : Z := 16.
Definition ALIGNMENT_CHECK : Z := 17.
Definition MACHINE_CHECK : Z := 18.
Definition SIMD_EXCEPTION : Z := 19.
Definition VIRTUALIZATION : Z := 20.
Definition CONTROL_PROTECTION : Z := 21.

(** The assignments of [init], in its order. *)
Definition init_gates (L : Linked) (i : Idt) : Idt :=
  let kernel_cs := 0x08 in
  let i := Idt_set_interrupt_gate 0 (isr L 0) kernel_cs 0 i in
  let i := Idt_set_trap_gate 1 (isr L 1) kernel_cs 0 i in
  let i := Idt_set_interrupt_gate 2 (isr L 2) kernel_cs 2 i in
  let i := Idt_set_trap_gate 3 (isr L 3) kernel_cs 0 i in
  let i := Idt_set_trap_gate 4 (isr L 4) kernel_cs 0 i in
  let i := Idt_set_interrupt_gate 5 (isr L 5) kernel_cs 0 i in
  let i := Idt_set_interrupt_gate 6 (isr L 6) kernel_cs 0 i in
  let i := Idt_set_interrupt_gate 7 (isr L 7) kernel_cs 0 i in
  let i := Idt_set_interrupt_gate 8 (isr L 8) kernel_cs 1 i in
  let i := Idt_set_interrupt_gate 9 (isr L 9) kernel_cs 0 i in
  let i := Idt_set_interrupt_gate 10 (isr L 10) kernel_cs 0 i in
  let i := Idt_set_interrupt_gate 11 (isr L 11) kernel_cs 0 i in
  let i := Idt_set_interrupt_gate 12 (isr L 12) kernel_cs 0 i in
  let i := Idt_set_interrupt_gate 13 (isr L 13) kernel_cs 0 i in
  let i := Idt_set_interrupt_gate 14 (isr L 14) kernel_cs 5 i in
  let i := Idt_set_interrupt_gate 15 (isr L 15) kernel_cs 0 i in
  let i := Idt_set_interrupt_gate 16 (isr L 16) kernel_cs 0 i in
  let i := Idt_set_interrupt_gate 17 (isr L 17) kernel_cs 0 i in
  let i := Idt_set_interrupt_gate 18 (isr L 18) kernel_cs 3 i in
  let i := Idt_set_interrupt_gate 19 (isr L 19) kernel_cs 0 i in
  let i := Idt_set_interrupt_gate 20 (isr L 20) kernel_cs 0 i in
  let i := Idt_set_interrupt_gate 21 (isr L 21) kernel_cs 0 i in
  let i := Idt_set_interrupt_gate 22 (isr L 22) kernel_cs 0 i in
  let i := Idt_set_interrupt_gate 23 (isr L 23) kernel_cs 0 i in
  let i := Idt_set_interrupt_gate 24 (isr L 24) kernel_cs 0 i in
  let i := Idt_set_interrupt_gate 25 (isr L 25) kernel_cs 0 i in
  let i := Idt_set_interrupt_gate 26 (isr L 26) kernel_cs 0 i in
  let i := Idt_set_interrupt_gate 27 (isr L 27) kernel_cs 0 i in
  let i := Idt_set_interrupt_gate 28 (isr L 28) kernel_cs 0 i in
  let i := Idt_set_interrupt_gate 29 (isr L 29) kernel_cs 0 i in
  let i := Idt_set_interrupt_gate 30 (isr L 30) kernel_cs 0 i in
  let i := Idt_set_interrupt_gate 31 (isr L 31) kernel_cs 0 i in
  let i := Idt_set_interrupt_gate 32 (irq L 0) kernel_cs 0 i in
  let i := Idt_set_interrupt_gate 33 (irq L 1) kernel_cs 0 i in
  let i := Idt_set_interrupt_gate 34 (irq L 2) kernel_cs 0 i in
  let i := Idt_set_interrupt_gate 35 (irq L 3) kernel_cs 0 i in
  let i := Idt_set_interrupt_gate 36 (irq L 4) kernel_cs 0 i in
  let i := Idt_set_interrupt_gate 37 (irq L 5) kernel_cs 0 i in
  let i := Idt_set_interrupt_gate 38 (irq L 6) kernel_cs 0 i in
  let i := Idt_set_interrupt_gate 39 (irq L 7) kernel_cs 0 i in
  let i := Idt_set_interrupt_gate 40 (irq L 8) kernel_cs 0 i in
  let i := Idt_set_interrupt_gate 41 (irq L 9) kernel_cs 0 i in
  let i := Idt_set_interrupt_gate 42 (irq L 10) kernel_cs 0 i in
  let i := Idt_set_interrupt_gate 43 (irq L 11) kernel_cs 0 i in
  let i := Idt_set_interrupt_gate 44 (irq L 12) kernel_cs 0 i in
  let i := Idt_set_interrupt_gate 45 (irq L 13) kernel_cs 0 i in
  let i := Idt_set_interrupt_gate 46 (irq L 14) kernel_cs 0 i in
  let i := Idt_set_interrupt_gate 47 (irq L 15) kernel_cs 0 i in
  i.

(** [init]. *)
Definition idt_mod_init (L : Linked) (s : descriptor_state) : descriptor_state :=
  let i := init_gates L (IDT s) in
  let p := Idt_pointer (IDT_ADDR L) in
  mkDescriptors (GDT s) (TSS s) (GDT_POINTER s) i p (cpu_gdtr s) (cpu_cs s) (cpu_ds s) (cpu_tr s) (Some p).
End IdtMod.
