(* ===== verification/DescriptorsModProps.v ===== *)
(** The descriptor modules that are not linked build the same machine as those that
    are. *)

From S2P Require Import Prelude Descriptors DescriptorProps DescriptorsMod.

Lemma init_gates_list L i : IdtMod.init_gates L i = set_gates (gate_list L) i.
Proof. reflexivity. Qed.

Lemma set_ist_same index p t : TssRs.set_ist index p t = set_ist index p t.
Proof.
  destruct t. destruct index as [|k|k]; [done| |done]. by repeat (destruct k as [k|k|]; try done).
Qed.

Lemma get_ist_same index t : TssRs.get_ist index t = get_ist index t.
Proof. destruct index as [|k|k]; [done| |done]. by repeat (destruct k as [k|k|]; try done). Qed.

(** The slots of the two tables, in pairs. *)
Definition same_segment (c d : GdtEntry) : Prop :=
  access d = access c /\ segment_base d = segment_base c
  /\ forall ring, code64 ring d = code64 ring c /\ writable_data ring d = writable_data ring c.

Lemma code64_ring ring e : code64 ring e
  = (Z.testbit (access e) 7 && (access e / 8 mod 4 =? 3) && Z.testbit (segment_flags e) 1 && negb (Z.testbit (segment_flags e) 2))
    && (access e / 32 mod 4 =? ring).
Proof. unfold code64. by repeat (case_match || destruct (Z.testbit _ _) || destruct (_ =? _)). Qed.

Lemma mod_segments L cs ds sel :
  match segment_at (GDT (gdt_init L (descriptors_init cs ds))) sel,
        segment_at (GDT (GdtMod.gdt_mod_init L (GdtMod.descriptors_init cs ds))) sel with
  | Some c, Some d => same_segment c d
  | None, None => True
  | _, _ => False
  end.
Proof.
  unfold segment_at. destruct (Z.to_nat (sel / 8)) as [|[|[|[|[|[|n]]]]]]; cbn [lookup list_lookup];
    try done; (split; [reflexivity|split; [reflexivity|intros ring; rewrite !code64_ring; split; reflexivity]]).
Qed.

Lemma entry_same s o v : IDT o = IDT s -> TSS o = TSS s ->
  (forall sel, match segment_at (GDT s) sel, segment_at (GDT o) sel with
               | Some c, Some d => same_segment c d
               | None, None => True
               | _, _ => False
               end) -> interrupt_entry o v = interrupt_entry s v.
Proof.
  intros Ei Et Hs. unfold interrupt_entry. rewrite Ei, Et. destruct (IDT s !! Z.to_nat v) as [e|]; [|done].
  cbn [mbind option_bind]. specialize (Hs (selector e)).
  destruct (segment_at (GDT s) (selector e)) as [c|], (segment_at (GDT o) (selector e)) as [d|]; try done.
  destruct Hs as (_ & _ & Hr). cbn [mbind option_bind]. by rewrite (proj1 (Hr 0)).
Qed.

(** [gdt/mod.rs] and [idt/mod.rs] start the machine as [gdt/lib.rs] and
    [idt/lib.rs] do: the same task state segment, gates and processor registers;
    descriptors with the same access byte and base that are 64-bit code, or writable
    data, of the same ring; the same entry, with the same stack, for every vector.
    They differ in what long mode ignores: the segments of [gdt/mod.rs] have the
    largest limit, those of [gdt/lib.rs] the limit 0. *)
Theorem unlinked_tables_equivalent L cs ds :
  let s := idt_init L (gdt_init L (descriptors_init cs ds)) in
  let o := IdtMod.idt_mod_init L (GdtMod.gdt_mod_init L (GdtMod.descriptors_init cs ds)) in
  (TSS o = TSS s /\ IDT o = IDT s /\ g_tss (GDT o) = g_tss (GDT s))
  /\ (cpu_gdtr o = cpu_gdtr s /\ cpu_idtr o = cpu_idtr s /\ cpu_cs o = cpu_cs s /\ cpu_ds o = cpu_ds s /\ cpu_tr o = cpu_tr s)
  /\ (forall sel, match segment_at (GDT s) sel, segment_at (GDT o) sel with
        | Some c, Some d => same_segment c d
        | None, None => True
        | _, _ => False
        end)
  /\ (forall v, interrupt_entry o v = interrupt_entry s v)
  /\ Forall (fun sel => segment_limit <$> segment_at (GDT s) sel = Some 0
                       /\ segment_limit <$> segment_at (GDT o) sel = Some 1048575)
       [KERNEL_CODE_SELECTOR; KERNEL_DATA_SELECTOR; USER_DATA_SELECTOR; USER_CODE_SELECTOR].
Proof.
  intros s o. assert (TSS o = TSS s) as Et by reflexivity.
  assert (IDT o = IDT s) as Ei by exact (init_gates_list L Idt_new).
  pose proof (mod_segments L cs ds) as Hs.
  split; [by split_and!|]. split; [done|]. split; [exact Hs|]. split; [intros v; by apply entry_same|].
  repeat constructor.
Qed.

(** The accessors of [gdt/tss.rs] agree with those of [gdt/lib.rs], at any index; an
    entry that is set is read back and the others stay, and an index out of range
    sets nothing and reads 0. *)
Theorem ist_entries index other p t :
  TssRs.set_ist index p t = set_ist index p t /\ TssRs.get_ist index t = get_ist index t
  /\ get_ist other (set_ist index p t)
     = if decide (other = index /\ 1 <= index <= 7) then p else get_ist other t.
Proof.
  split; [apply set_ist_same|]. split; [apply get_ist_same|].
  unfold get_ist, set_ist. cbn [ist1 ist2 ist3 ist4 ist5 ist6 ist7].
  case_decide as Hd.
  - destruct Hd as [-> Hi]. repeat case_match; try done; lia.
  - destruct (decide (other = index)) as [->|Hne]; repeat case_match; try done; lia.
Qed.
