(* ===== verification/Boot.v ===== *)
(** The entry of the kernel and what it brings along: [boot_info.rs], and from
    [main.rs] the memory routines, the hexadecimal output and the test callback
    for mapped files.

    Text is a list of characters, in the order in which it reaches the port or
    the screen. *)

From S2P Require Import Prelude.
From Stdlib Require Import Ascii.

(** * Boot information *)

Definition BOOT_INFO_ADDR : Z := 24576.
Definition BOOT_INFO_MAGIC : Z := 1312900681.
Definition BOOT_TYPE_BIOS : Z := 1112100691.
Definition BOOT_TYPE_UEFI : Z := 1430603337.

Record boot_info := mkBootInfo {
  BOOT_TYPE : Z;
  RSDP_ADDR : Z;
  MEM_ENTRY_COUNT : Z;
}.
Definition boot_info_zero : boot_info := mkBootInfo 0 0 0.

(** Volatile reads of a little-endian word. *)
Definition read_u32 (m : store) (a : Z) : Z :=
  rd m a + 256 * rd m (a + 1) + 65536 * rd m (a + 2) + 16777216 * rd m (a + 3).
Definition read_u64 (m : store) (a : Z) : Z := read_u32 m a + U32 * read_u32 m (a + 4).

Definition boot_info_init (m : store) (b : boot_info) : boot_info :=
  if negb (read_u32 m BOOT_INFO_ADDR =? BOOT_INFO_MAGIC) then b
  else mkBootInfo (read_u32 m (BOOT_INFO_ADDR + 4)) (read_u64 m (BOOT_INFO_ADDR + 8))
         (read_u32 m (BOOT_INFO_ADDR + 16)).

Definition get_boot_type (b : boot_info) : Z := BOOT_TYPE b.
Definition is_uefi_boot (b : boot_info) : bool := BOOT_TYPE b =? BOOT_TYPE_UEFI.
Definition is_bios_boot (b : boot_info) : bool := BOOT_TYPE b =? BOOT_TYPE_BIOS.
Definition get_rsdp_addr (b : boot_info) : Z := RSDP_ADDR b.
Definition get_mem_entry_count (b : boot_info) : Z := MEM_ENTRY_COUNT b.
Definition boot_type_str (b : boot_info) : string :=
  if get_boot_type b =? BOOT_TYPE_UEFI then "UEFI"%string
  else if get_boot_type b =? BOOT_TYPE_BIOS then "BIOS/MBR"%string else "Unknown"%string.

(** * Memory routines *)

Definition memcpy (dest src n : Z) (m : store) : store :=
  for_loop 0 n (fun i m => wr m (dest + i) (rd m (src + i))) m.

Definition memset (dest c n : Z) (m : store) : store :=
  for_loop 0 n (fun i m => wr m (dest + i) (wrap8 c)) m.

(** The first difference, if there is one. *)
Definition memcmp (s1 s2 n : Z) (m : store) : Z :=
  default 0 (find_loop 0 n (fun i =>
    let a := rd m (s1 + i) in
    let b := rd m (s2 + i) in
    if negb (a =? b) then Some (a - b) else None)).

Definition bcmp (s1 s2 n : Z) (m : store) : Z :=
  default 0 (find_loop 0 n (fun i =>
    let a := rd m (s1 + i) in
    let b := rd m (s2 + i) in
    if negb (a =? b) then Some (a - b) else None)).

(** [while i > 0 { i -= 1; .. }]. *)
Fixpoint copy_back (n : nat) (dest src : Z) (m : store) : store :=
  match n with
  | O => m
  | S i => copy_back i dest src (wr m (dest + Z.of_nat i) (rd m (src + Z.of_nat i)))
  end.

Definition memmove (dest src n : Z) (m : store) : store :=
  if dest <? src then memcpy dest src n m else copy_back (Z.to_nat n) dest src m.

(** * Hexadecimal output *)

Definition HEX_CHARS : list ascii :=
  ["0"; "1"; "2"; "3"; "4"; "5"; "6"; "7"; "8"; "9"; "A"; "B"; "C"; "D"; "E"; "F"]%char.
Definition hex_char (d : Z) : ascii := default "0"%char (HEX_CHARS !! Z.to_nat d).

(** The buffer that [serial_print_hex_u64] fills from the low digit up. *)
Fixpoint low_digits (n : nat) (num : Z) : list ascii :=
  match n with
  | O => []
  | S n' => if 0 <? num then hex_char (Z.land num 15) :: low_digits n' (Z.shiftr num 4) else []
  end.

Definition serial_print_hex_u64 (num : Z) : list ascii :=
  ["0"; "x"]%char ++ (if num =? 0 then ["0"%char] else rev (low_digits 16 num)).

(** The loop of [print_hex_u64] over the shifts [60], [56], .. [0]. *)
Fixpoint high_digits (n : nat) (num : Z) (started : bool) : list ascii :=
  match n with
  | O => []
  | S n' =>
      let nibble := Z.land (Z.shiftr num (4 * Z.of_nat n')) 15 in
      if negb (nibble =? 0) || started then hex_char nibble :: high_digits n' num true
      else high_digits n' num started
  end.

Definition print_hex_u64 (num : Z) : list ascii :=
  ["0"; "x"]%char ++ (if num =? 0 then ["0"%char] else high_digits 16 num false).

Definition print_hex_byte (b : Z) : list ascii := [hex_char (Z.shiftr b 4); hex_char (Z.land b 15)].

(** [print_hex] of [idt/handlers.rs]: all sixteen digits. *)
Fixpoint all_digits (n : nat) (num : Z) : list ascii :=
  match n with
  | O => []
  | S n' => hex_char (Z.land (Z.shiftr num (4 * Z.of_nat n')) 15) :: all_digits n' num
  end.
Definition print_hex (num : Z) : list ascii := ["0"; "x"]%char ++ all_digits 16 num.

(** * The test callback *)

Definition BLOB_LEN : Z := 32.

Definition mmap_test_read_at (ctx offset dst len : Z) (m : store) : store * Z :=
  if (ctx =? 0) || (dst =? 0) || (len =? 0) then (m, 0)
  else
    let start := offset in
    if BLOB_LEN <=? start then (m, 0)
    else
      let available := BLOB_LEN - start in
      let to_copy := Z.min len available in
      (memcpy dst (ctx + start) to_copy m, to_copy).
