(* ===== verification/BootProps.v ===== *)
(** Theorems on the boot information, the memory routines, the hexadecimal output
    and the callback for mapped files. *)

From S2P Require Import Prelude FrameAlloc Paging PagingFacts PagingProps Cow CowProps Demand DemandProps Boot.
From Stdlib Require Import Ascii.

(** * Memory *)

(** The range [dest, dest + n) holds what the range at [src] held; nothing else
    changed. *)
Definition moved (dest src n : Z) (m m' : store) : Prop :=
  (forall i, 0 <= i < n -> rd m' (dest + i) = rd m (src + i))
  /\ forall a, ~ (dest <= a < dest + n) -> rd m' a = rd m a.

Lemma memcpy_spec dest src n m : 0 <= n -> dest <= src \/ src + n <= dest -> moved dest src n m (memcpy dest src n m).
Proof.
  intros Hn Hov. unfold memcpy.
  assert (moved dest src (Z.max 0 n) m (for_loop 0 n (fun i m => wr m (dest + i) (rd m (src + i))) m)) as H.
  { apply (for_loop_ind (fun i s => moved dest src i m s)).
    - split; [lia|done].
    - intros i s Hi [H1 H2]. split.
      + intros j Hj. destruct (Z.eq_dec j i) as [->|Hne]; [rewrite rd_wr_eq; apply H2; lia|].
        rewrite rd_wr_ne by lia. apply H1. lia.
      + intros a Ha. rewrite rd_wr_ne by lia. apply H2. lia. }
  by rewrite Z.max_r in H by lia.
Qed.

Lemma copy_back_spec n dest src m : src <= dest -> moved dest src (Z.of_nat n) m (copy_back n dest src m).
Proof.
  intros Hle. revert m. induction n as [|n IH]; intros m; cbn [copy_back]; [split; [lia|done]|].
  destruct (IH (wr m (dest + Z.of_nat n) (rd m (src + Z.of_nat n)))) as [H1 H2]. split.
  - intros i Hi. destruct (Z.eq_dec i (Z.of_nat n)) as [->|Hne].
    + rewrite H2, rd_wr_eq by lia. done.
    + rewrite H1 by lia. apply rd_wr_ne. lia.
  - intros a Ha. rewrite H2 by lia. apply rd_wr_ne. lia.
Qed.

(** [memmove] moves a range whatever the overlap, [memcpy] does when the
    ranges do not overlap or the destination comes first, and neither touches
    another byte. *)
Theorem memmove_correct dest src n m :
  0 <= n ->
  moved dest src n m (memmove dest src n m)
  /\ (dest <= src \/ src + n <= dest -> moved dest src n m (memcpy dest src n m)).
Proof.
  intros Hn. split; [|by apply memcpy_spec]. unfold memmove.
  destruct (Z.ltb_spec dest src); [apply memcpy_spec; lia|].
  rewrite <- (Z2Nat.id n) at 1 by done. apply copy_back_spec. lia.
Qed.

(** [memcmp] is the sign of the first difference, and [bcmp] the same. *)
Lemma memcmp_spec s1 s2 n m : 0 <= n ->
  (memcmp s1 s2 n m = 0 /\ forall i, 0 <= i < n -> rd m (s1 + i) = rd m (s2 + i))
  \/ exists k, 0 <= k < n /\ (forall i, 0 <= i < k -> rd m (s1 + i) = rd m (s2 + i))
       /\ memcmp s1 s2 n m = rd m (s1 + k) - rd m (s2 + k) /\ memcmp s1 s2 n m <> 0.
Proof.
  intros Hn. unfold memcmp. destruct (find_loop 0 n _) as [x|] eqn:E; cbn [default].
  - right. apply find_loop_Some in E as (k & Hk & Hx & Hlt). exists k. split; [lia|]. split.
    + intros i Hi. specialize (Hlt i ltac:(lia)). cbn in Hlt. by destruct (Z.eqb_spec (rd m (s1 + i)) (rd m (s2 + i))).
    + cbn in Hx. destruct (Z.eqb_spec (rd m (s1 + k)) (rd m (s2 + k))); [done|]. injection Hx as <-.
      unfold id. split; [done|lia].
  - left. split; [done|]. intros i Hi. pose proof (find_loop_None _ _ _ E i Hi) as H. cbn in H.
    by destruct (Z.eqb_spec (rd m (s1 + i)) (rd m (s2 + i))).
Qed.

(** * Hexadecimal *)

Definition hex_value (c : ascii) : Z :=
  let n := Z.of_nat (nat_of_ascii c) in if n <? 58 then n - 48 else n - 55.
Definition parse_hex (cs : list ascii) : Z := fold_left (fun acc c => acc * 16 + hex_value c) cs 0.

Lemma hex_value_char d : 0 <= d < 16 -> hex_value (hex_char d) = d.
Proof.
  intros Hd.
  assert (d = 0 \/ d = 1 \/ d = 2 \/ d = 3 \/ d = 4 \/ d = 5 \/ d = 6 \/ d = 7 \/ d = 8 \/ d = 9 \/ d = 10 \/ d = 11
    \/ d = 12 \/ d = 13 \/ d = 14 \/ d = 15) as H by lia.
  repeat destruct H as [-> | H]; try reflexivity. by subst.
Qed.

Lemma parse_app cs c : parse_hex (cs ++ [c]) = parse_hex cs * 16 + hex_value c.
Proof. unfold parse_hex. by rewrite fold_left_app. Qed.

Lemma nibble_mod num k : 0 <= k -> Z.land (Z.shiftr num k) 15 = num / 2 ^ k mod 16.
Proof. intros. change 15 with (2 ^ 4 - 1). by rewrite land_low, Z.shiftr_div_pow2 by lia. Qed.

(** The digits from the top are those of [num / 16] and the last. *)
Lemma all_digits_snoc n num : 0 <= num ->
  all_digits (S n) num = all_digits n (num / 16) ++ [hex_char (num mod 16)].
Proof.
  intros Hnum. induction n as [|n IH].
  - cbn [all_digits app]. do 2 f_equal. rewrite nibble_mod by lia. by rewrite Z.div_1_r.
  - change (all_digits (S (S n)) num) with (hex_char (Z.land (Z.shiftr num (4 * Z.of_nat (S n))) 15) :: all_digits (S n) num).
    rewrite IH. change (all_digits (S n) (num / 16)) with
      (hex_char (Z.land (Z.shiftr (num / 16) (4 * Z.of_nat n)) 15) :: all_digits n (num / 16)).
    cbn [app]. do 2 f_equal. rewrite !nibble_mod by lia. rewrite Z.div_div by lia.
    change 16 with (2 ^ 4) at 2. rewrite <- Z.pow_add_r by lia. do 3 f_equal. lia.
Qed.

(** Leading zeros dropped. *)
Lemma high_digits_started n num : high_digits n num true = all_digits n num.
Proof. induction n as [|n IH]; cbn; [done|]. by rewrite orb_true_r, IH. Qed.

Lemma high_digits_zero n : high_digits n 0 false = [].
Proof. induction n as [|n IH]; cbn [high_digits]; [done|]. rewrite Z.shiftr_0_l. exact IH. Qed.

Lemma high_digits_snoc n num : 0 < num -> num < 16 ^ Z.of_nat n ->
  high_digits n num false
  = high_digits (n - 1) (num / 16) false ++ [hex_char (num mod 16)].
Proof.
  intros Hpos. induction n as [|n IH]; intros Hlt; [cbn in Hlt; lia|]. cbn [Nat.sub]. rewrite Nat.sub_0_r.
  cbn [high_digits]. rewrite nibble_mod by lia. change 16 with (2 ^ 4) in Hlt. rewrite <- Z.pow_mul_r in Hlt by lia.
  assert (0 < 2 ^ (4 * Z.of_nat n)) as Hp by (apply Z.pow_pos_nonneg; lia).
  assert (num / 2 ^ (4 * Z.of_nat n) < 16) as Hq.
  { apply Z.div_lt_upper_bound; [done|]. change 16 with (2 ^ 4) . rewrite <- Z.pow_add_r by lia.
    replace (4 * Z.of_nat n + 4) with (4 * Z.of_nat (S n)) by lia. done. }
  assert (0 <= num / 2 ^ (4 * Z.of_nat n)) as Hq0 by (apply Z.div_pos; lia).
  rewrite (Z.mod_small (num / 2 ^ (4 * Z.of_nat n))) by lia. rewrite orb_false_r.
  destruct (Z.eqb_spec (num / 2 ^ (4 * Z.of_nat n)) 0) as [Hz|Hnz]; cbn [negb].
  - assert (num < 2 ^ (4 * Z.of_nat n)) as Hlt' by (apply Z.div_small_iff in Hz; lia).
    change 16 with (2 ^ 4) in IH at 1. rewrite <- Z.pow_mul_r in IH by lia. rewrite IH by done.
    destruct n as [|n]; [cbn in Hlt'; lia|]. cbn [Nat.sub]. rewrite Nat.sub_0_r. f_equal.
    cbn [high_digits]. rewrite nibble_mod by lia.
    replace (num / 16 / 2 ^ (4 * Z.of_nat n)) with (num / 2 ^ (4 * Z.of_nat (S n))).
    2:{ rewrite Z.div_div by lia. change 16 with (2 ^ 4). rewrite <- Z.pow_add_r by lia. do 2 f_equal. lia. }
    by rewrite Hz.
  - rewrite high_digits_started. destruct n as [|n].
    + cbn [all_digits high_digits app]. rewrite Z.div_1_r in *. do 2 f_equal. rewrite Z.mod_small; lia.
    + rewrite all_digits_snoc by lia. cbn [high_digits]. rewrite nibble_mod by lia.
      replace (num / 16 / 2 ^ (4 * Z.of_nat n)) with (num / 2 ^ (4 * Z.of_nat (S n))).
      2:{ rewrite Z.div_div by lia. change 16 with (2 ^ 4). rewrite <- Z.pow_add_r by lia. do 2 f_equal. lia. }
      rewrite (Z.mod_small (num / 2 ^ _)) by lia. destruct (Z.eqb_spec (num / 2 ^ (4 * Z.of_nat (S n))) 0); [done|].
      cbn [negb orb]. by rewrite high_digits_started.
Qed.

Lemma low_digits_step n num : 0 < num ->
  rev (low_digits (S n) num) = rev (low_digits n (num / 16)) ++ [hex_char (num mod 16)].
Proof.
  intros Hn. cbn [low_digits]. destruct (Z.ltb_spec 0 num); [|lia]. cbn [rev].
  change 15 with (2 ^ 4 - 1). by rewrite land_low, Z.shiftr_div_pow2 by lia.
Qed.

Lemma low_digits_zero n : low_digits n 0 = [].
Proof. by destruct n. Qed.

Lemma div16_bounds n num : 0 < num -> num < 16 ^ Z.of_nat (S n) -> 0 <= num / 16 < 16 ^ Z.of_nat n.
Proof.
  intros Hp Hlt. split; [apply Z.div_pos; lia|]. apply Z.div_lt_upper_bound; [lia|].
  replace (Z.of_nat (S n)) with (1 + Z.of_nat n) in Hlt by lia. rewrite Z.pow_add_r in Hlt by lia. lia.
Qed.

Lemma digits_agree n num : 0 <= num < 16 ^ Z.of_nat n -> high_digits n num false = rev (low_digits n num).
Proof.
  revert num. induction n as [|n IH]; intros num Hn; [done|].
  destruct (Z.eq_dec num 0) as [->|Hne]; [by rewrite high_digits_zero, low_digits_zero|].
  rewrite high_digits_snoc, low_digits_step by lia. cbn [Nat.sub]. rewrite Nat.sub_0_r.
  rewrite IH; [done|]. apply div16_bounds; lia.
Qed.

Lemma digits_parse n num : 0 <= num < 16 ^ Z.of_nat n -> parse_hex (rev (low_digits n num)) = num.
Proof.
  revert num. induction n as [|n IH]; intros num Hn; [change (Z.of_nat 0) with 0 in Hn; cbn; lia|].
  destruct (Z.eq_dec num 0) as [->|Hne]; [done|].
  rewrite low_digits_step, parse_app by lia. rewrite IH by (apply div16_bounds; lia).
  rewrite hex_value_char by dlia. dlia.
Qed.

Lemma digits_head n num c cs : 0 < num < 16 ^ Z.of_nat n -> rev (low_digits n num) = c :: cs -> hex_value c <> 0.
Proof.
  revert num c cs. induction n as [|n IH]; intros num c cs Hn; [change (Z.of_nat 0) with 0 in Hn; lia|].
  rewrite low_digits_step by lia. pose proof (div16_bounds n num ltac:(lia) ltac:(lia)) as Hd.
  destruct (rev (low_digits n (num / 16))) as [|d ds] eqn:E; cbn [app].
  - intros [= <- _]. rewrite hex_value_char by dlia.
    assert (num / 16 = 0) as Hz by (rewrite <- (digits_parse n (num / 16) Hd), E; done). dlia.
  - intros [= <- _]. apply (IH (num / 16) d ds); [|exact E]. split; [|lia].
    destruct (Z.eq_dec (num / 16) 0) as [Hz|]; [|lia]. by rewrite Hz, low_digits_zero in E.
Qed.

Lemma all_digits_parse n num : 0 <= num < 16 ^ Z.of_nat n -> parse_hex (all_digits n num) = num.
Proof.
  revert num. induction n as [|n IH]; intros num Hn; [change (Z.of_nat 0) with 0 in Hn; cbn; lia|].
  destruct (Z.eq_dec num 0) as [->|Hne].
  - rewrite all_digits_snoc, parse_app by lia. rewrite IH; [done|]. split; [done|]. apply Z.pow_pos_nonneg; lia.
  - rewrite all_digits_snoc, parse_app by lia. rewrite IH by (apply div16_bounds; lia).
    rewrite hex_value_char by dlia. dlia.
Qed.

(** The serial port and the screen show a 64-bit number as the same text: [0x]
    and the digits that parse back to the number, with no leading zero; the older
    [print_hex] shows all sixteen digits, which parse back as well. *)
Theorem hex_output_agrees num :
  is_u64 num ->
  print_hex_u64 num = serial_print_hex_u64 num
  /\ (exists ds, serial_print_hex_u64 num = ["0"; "x"]%char ++ ds /\ parse_hex ds = num
       /\ (num <> 0 -> exists c cs, ds = c :: cs /\ hex_value c <> 0))
  /\ (exists ds, print_hex num = ["0"; "x"]%char ++ ds /\ length ds = 16%nat /\ parse_hex ds = num).
Proof.
  intros Hn. assert (0 <= num < 16 ^ Z.of_nat 16) as Hb by exact Hn. clear Hn.
  split; [|split].
  - unfold print_hex_u64, serial_print_hex_u64. destruct (num =? 0); [done|]. by rewrite digits_agree.
  - unfold serial_print_hex_u64. eexists. split; [done|]. destruct (Z.eqb_spec num 0) as [->|Hne]; [done|].
    split; [by apply digits_parse|]. intros _.
    destruct (rev (low_digits 16 num)) as [|c cs] eqn:E.
    + exfalso. apply Hne. by rewrite <- (digits_parse 16 num Hb), E.
    + exists c, cs. split; [done|]. apply (digits_head 16 num c cs); [lia|exact E].
  - exists (all_digits 16 num). split; [done|]. split; [done|].
    apply all_digits_parse. exact Hb.
Qed.

(** * The callback *)

Lemma memcpy_other dest src n m a : ~ (dest <= a < dest + n) -> rd (memcpy dest src n m) a = rd m a.
Proof.
  intros Ha. unfold memcpy. apply (for_loop_ind (fun _ s => rd s a = rd m a)); [done|].
  intros i s Hi E. rewrite rd_wr_ne by lia. exact E.
Qed.

Lemma test_read_at_ok : callback_ok (fun _ c o d l m => mmap_test_read_at c o d l m).
Proof.
  intros p c o d l m a Ha. unfold mmap_test_read_at.
  destruct ((c =? 0) || (d =? 0) || (l =? 0)); [done|]. destruct (BLOB_LEN <=? o); [done|].
  cbn [fst]. apply memcpy_other. lia.
Qed.

(** The test callback reads at most what is left of the 32 bytes, answers how
    many bytes it has read, puts exactly those bytes of the blob at the
    destination and writes nothing else, for any offset and length; so it meets
    the contract that demand paging asks of a callback, and null pointers and
    offsets past the end read nothing. *)
Theorem test_callback_correct ctx off dst len m :
  0 < dst -> 0 < ctx -> 0 <= off -> 0 <= len ->
  dst + len <= ctx \/ ctx + BLOB_LEN <= dst ->
  let '(m', n) := mmap_test_read_at ctx off dst len m in
  n = Z.max 0 (Z.min len (BLOB_LEN - off)) /\ moved dst (ctx + off) n m m'
  /\ callback_ok (fun _ c o d l m => mmap_test_read_at c o d l m).
Proof.
  intros Hd Hc Ho Hl Hov.
  pose proof test_read_at_ok as Hcb.
  unfold mmap_test_read_at, BLOB_LEN in *.
  destruct (Z.eqb_spec ctx 0), (Z.eqb_spec dst 0); try lia. cbn [orb].
  assert (moved dst (ctx + off) 0 m m) as H0 by (split; [lia|done]).
  destruct (Z.eqb_spec len 0).
  { replace (Z.max 0 (Z.min len (32 - off))) with 0 by lia. by split_and!. }
  destruct (Z.leb_spec 32 off).
  { replace (Z.max 0 (Z.min len (32 - off))) with 0 by lia. by split_and!. }
  rewrite Z.max_r by lia. split; [done|]. split; [|exact Hcb]. apply memcpy_spec; lia.
Qed.

(** * Closed instances *)

Definition squares : store := list_to_map (map (fun i => (100 + i, i * i)) [0; 1; 2; 3; 4; 5; 6; 7]).

(** An overlapping move upwards, on which [memcpy] would smear the first bytes. *)
Lemma memmove_correct_witness :
  rd (memmove 102 100 4 squares) 104 = 4 /\ rd (memcpy 102 100 4 squares) 104 = 0.
Proof.
  split; [|vm_compute; reflexivity].
  destruct (memmove_correct 102 100 4 squares ltac:(lia)) as [[H _] _].
  etransitivity; [exact (H 2 ltac:(lia))|vm_compute; reflexivity].
Defined.

Lemma hex_output_agrees_witness :
  print_hex_u64 48879 = ["0"; "x"; "B"; "E"; "E"; "F"]%char
  /\ print_hex_u64 48879 = serial_print_hex_u64 48879.
Proof.
  split; [reflexivity|]. apply (hex_output_agrees 48879). vm_compute. by split.
Defined.

Lemma test_callback_correct_witness :
  exists m', mmap_test_read_at 100 5 4096 4096 squares = (m', 27) /\ rd m' 4098 = 49.
Proof.
  pose proof (test_callback_correct 100 5 4096 4096 squares ltac:(lia) ltac:(lia) ltac:(lia) ltac:(lia)
    ltac:(unfold BLOB_LEN; lia)) as H.
  destruct (mmap_test_read_at 100 5 4096 4096 squares) as [m' n]. destruct H as (-> & [H _] & _).
  exists m'. split; [reflexivity|]. etransitivity; [exact (H 2 ltac:(vm_compute; by split))|vm_compute; reflexivity].
Defined.
