(* ===== verification/Faults.v ===== *)
(** Exception and interrupt handlers: the ones of [main.rs], which the kernel
    links, and the older ones of [idt/handlers.rs], which resolve page faults by
    demand paging and copy-on-write.

    A handler that halts the processor ends in a report.  The text it prints goes
    to the serial port and to the screen. *)

From S2P Require Import Prelude Ports FrameAlloc Paging Cow Demand GuardPage Pic Boot.
From Stdlib Require Import Ascii.

(** * Text *)

Definition text (s : string) : list ascii := String.list_ascii_of_string s.

Record Console := mkConsole { serial : list ascii; screen : list ascii }.
Definition to_serial (t : list ascii) (c : Console) : Console := mkConsole (serial c ++ t) (screen c).
Definition to_screen (t : list ascii) (c : Console) : Console := mkConsole (serial c) (screen c ++ t).
Definition newline : list ascii := [ascii_of_nat 10].

(** [match vector { 0 => .., _ => .. }] of names. *)
Definition name_of (vector : Z) (unknown : string) (names : list (Z * string)) : list ascii :=
  text (default unknown (snd <$> List.find (fun p => p.1 =? vector) names)).

(** * The linked handlers *)

Definition exception_name (vector : Z) : list ascii :=
  name_of vector "Unknown" [
   (0, "Divide Error"%string); (1, "Debug"%string); (2, "NMI"%string); (3, "Breakpoint"%string);
   (4, "Overflow"%string); (5, "Bound Range"%string); (6, "Invalid Opcode"%string);
   (7, "Device Not Available"%string); (8, "Double Fault"%string); (10, "Invalid TSS"%string);
   (11, "Segment Not Present"%string); (12, "Stack Fault"%string);
   (13, "General Protection Fault"%string); (14, "Page Fault"%string); (16, "FPU Error"%string);
   (17, "Alignment Check"%string); (18, "Machine Check"%string); (19, "SIMD Exception"%string);
   (20, "Virtualization"%string); (21, "Control Protection"%string)].

Definition OVERFLOW_BANNER : list ascii := text "*** KERNEL STACK OVERFLOW ***" ++ newline.

(** A guard page was hit. *)
Definition report_overflow (fault_addr error_code rip : Z) (c : Console) : Console :=
  let c := to_serial (OVERFLOW_BANNER ++ text "  Guard page hit at: " ++ serial_print_hex_u64 fault_addr
             ++ newline ++ text "  RIP: " ++ serial_print_hex_u64 rip
             ++ newline ++ text "  Error code: " ++ serial_print_hex_u64 error_code ++ newline) c in
  to_screen (OVERFLOW_BANNER ++ text "  Guard page hit at: " ++ print_hex_u64 fault_addr
             ++ newline ++ text "  RIP: " ++ print_hex_u64 rip ++ newline) c.

Definition flag_text (b : bool) (s : string) : list ascii := if b then text s else [].

Definition report_page_fault (fault_addr error_code rip : Z) (c : Console) : Console :=
  let is_not_present := Z.land error_code 1 =? 0 in
  let c := to_serial (text "PAGE FAULT: addr=" ++ serial_print_hex_u64 fault_addr
             ++ text " error=" ++ serial_print_hex_u64 error_code ++ text " ["
             ++ flag_text (negb is_not_present) "P" ++ flag_text (has_bits error_code 2) "W"
             ++ flag_text (has_bits error_code 4) "U" ++ flag_text (has_bits error_code 8) "RSVD"
             ++ flag_text (has_bits error_code 16) "IF"
             ++ text "]" ++ newline ++ text "  RIP=" ++ serial_print_hex_u64 rip ++ newline) c in
  to_screen (text "PAGE FAULT: addr=" ++ print_hex_u64 fault_addr ++ text " error=" ++ print_hex_u64 error_code
             ++ newline ++ text "  RIP=" ++ print_hex_u64 rip ++ newline) c.

Definition report_exception (vector error_code rip cs rflags : Z) (c : Console) : Console :=
  let body (hex : Z -> list ascii) :=
    text "EXCEPTION: " ++ exception_name vector ++ text " (vector=" ++ hex vector ++ text ", error="
    ++ hex error_code ++ text ")" ++ newline ++ text "  RIP=" ++ hex rip ++ text " CS=" ++ hex cs
    ++ text " RFLAGS=" ++ hex rflags ++ newline in
  to_screen (body print_hex_u64) (to_serial (body serial_print_hex_u64) c).

(** [exception_handler]: the console at the final halt. *)
Definition exception_handler {A} (vector error_code rip cs rflags cr2 : Z) (g : guard_state A) (c : Console)
  : Console :=
  if vector =? 14 then
    let fault_addr := cr2 in
    let is_not_present := Z.land error_code 1 =? 0 in
    if is_not_present && negb (guard_page_is_guard_page fault_addr g =? 0)
    then report_overflow fault_addr error_code rip c
    else report_page_fault fault_addr error_code rip c
  else report_exception vector error_code rip cs rflags c.

Section Irq.
Context {S : Type} `{Io : PortIO S}.

(** [irq_handler]; [(irq - 32) as u8]. *)
Definition irq_handler (irq : Z) (c : Console) : hw S Console :=
  let c := if (irq =? 32) || (irq =? 33) then c
           else to_screen (text "IRQ: " ++ print_hex_u64 irq ++ newline) c in
  send_eoi (wrap8 (irq -w 32)) ;;
  mret c.

(** [send_eoi] and [irq_handler] of [idt/handlers.rs]; [ticks] is [TICK_COUNT]. *)
Definition vector_eoi (irq : Z) : hw S unit :=
  (if 40 <=? irq then pic_outb PIC2_COMMAND PIC_EOI else mret tt) ;;
  pic_outb PIC1_COMMAND PIC_EOI.

Definition KEYBOARD_DATA_PORT : Z := 96.

Definition idt_irq_handler (irq ticks : Z) (c : Console) : hw S (Z * Console) :=
  r ← (if irq =? 32 then
         let ticks := ticks +w 1 in
         mret (ticks, if ticks mod 100 =? 0
                      then to_screen (text "Timer tick: " ++ print_hex ticks ++ newline) c else c)
       else if irq =? 33 then
         scancode ← pic_inb KEYBOARD_DATA_PORT;
         mret (ticks, to_screen (text "Keyboard scancode: " ++ print_hex scancode ++ newline) c)
       else mret (ticks, to_screen (text "IRQ received: " ++ print_hex irq ++ newline) c));
  vector_eoi irq ;;
  mret r.
End Irq.

(** * The handlers that resolve page faults *)

(** What the two subsystems share: page tables, bytes of the frames, the regions
    and the reference counts. *)
Record fault_state (A : Type) := mkFault {
  fpaging : paging_state A;
  fbytes : store;
  fregions : list (option VmRegion);
  frefs : store;
}.
Arguments mkFault {A}.
Arguments fpaging {A}.
Arguments fbytes {A}.
Arguments fregions {A}.
Arguments frefs {A}.

(** How a handler ends: the interrupted code goes on, or the processor halts. *)
Inductive Outcome : Set := Resumed | Halted (report : list ascii).

Definition idt_exception_name (vector : Z) : list ascii :=
  name_of vector "Unknown Exception" [
   (0, "Divide Error"%string); (1, "Debug"%string); (2, "Non-Maskable Interrupt"%string);
   (3, "Breakpoint"%string); (4, "Overflow"%string); (5, "Bound Range Exceeded"%string);
   (6, "Invalid Opcode"%string); (7, "Device Not Available"%string); (8, "Double Fault"%string);
   (9, "Coprocessor Segment Overrun"%string); (10, "Invalid TSS"%string);
   (11, "Segment Not Present"%string); (12, "Stack-Segment Fault"%string);
   (13, "General Protection Fault"%string); (14, "Page Fault"%string); (16, "x87 FPU Error"%string);
   (17, "Alignment Check"%string); (18, "Machine Check"%string);
   (19, "SIMD Floating-Point Exception"%string); (20, "Virtualization Exception"%string);
   (21, "Control Protection Exception"%string)].

Definition fault_report (faulting_addr error_code : Z) : list ascii :=
  let present := has_bits error_code 1 in
  let write := has_bits error_code 2 in
  let user := has_bits error_code 4 in
  text "PAGE FAULT: addr=" ++ print_hex faulting_addr ++ text " error=" ++ print_hex error_code ++ text " ["
  ++ text (if present then "P" else "-") ++ text (if write then "W" else "R") ++ text (if user then "U" else "K")
  ++ flag_text (has_bits error_code 8) "RSVD" ++ flag_text (has_bits error_code 16) "IF"
  ++ text "]" ++ newline.

Section Faults.
Context {A : Type} {Ops : FrameOps A}.
Context (call_read_at : Z -> Z -> Z -> Z -> Z -> store -> store * Z).
Notation fst_ := (fault_state A).

Definition demand_of (s : fst_) : demand_state A := mkDemand (fpaging s) (fbytes s) (fregions s).
Definition set_demand (d : demand_state A) (s : fst_) : fst_ := mkFault (dpaging d) (dbytes d) (REGIONS d) (frefs s).
Definition on_demand {X} (p : prog (demand_state A) X) : prog fst_ X := zoom demand_of set_demand p.

Definition cow_of (s : fst_) : cow_state A := mkCow (fpaging s) (fbytes s) (frefs s).
Definition set_cow (c : cow_state A) (s : fst_) : fst_ := mkFault (cpaging c) (cbytes c) (fregions s) (refcount_table c).
Definition on_cow {X} (p : prog (cow_state A) X) : prog fst_ X := zoom cow_of set_cow p.

(** [handle_page_fault]; [faulting_addr] is [CR2]. *)
Definition handle_page_fault (faulting_addr error_code : Z) : prog fst_ Outcome :=
  let present := has_bits error_code 1 in
  let write := has_bits error_code 2 in
  let reserved := has_bits error_code 8 in
  handled ← (if negb present && negb reserved then
               r ← catch (on_demand (handle_demand_page_fault call_read_at faulting_addr error_code));
               mret (is_ok (r : result string unit))
             else mret false);
  if (handled : bool) then mret Resumed
  else
    handled ← (if present && write && negb reserved then
                 r ← catch (on_cow (on_paging (get_page_flags faulting_addr)));
                 match (r : result string Z) with
                 | Ok flags =>
                     if is_cow_page flags then
                       r ← catch (on_cow (handle_cow_fault faulting_addr));
                       mret (is_ok (r : result string unit))
                     else mret false
                 | Err _ => mret false
                 end
               else mret false);
    if (handled : bool) then mret Resumed
    else mret (Halted (fault_report faulting_addr error_code)).

Definition idt_exception_handler (vector error_code cr2 : Z) : prog fst_ Outcome :=
  if vector =? 14 then handle_page_fault cr2 error_code
  else mret (Halted (text "EXCEPTION: " ++ idt_exception_name vector ++ text " (vector=" ++ print_hex vector
                     ++ text ", error=" ++ print_hex error_code ++ text ")" ++ newline)).
End Faults.
