(* ===== verification/FaultProps.v ===== *)
(** Theorems on the handlers: page faults resolved by demand paging and
    copy-on-write, stack overflows reported, interrupts acknowledged. *)

From S2P Require Import Prelude Ports Pmm FrameAlloc Paging PagingFacts PagingProps Cow CowProps Demand DemandProps GuardPage GuardPageProps Pic PicProps Boot Faults.
From Stdlib Require Import Ascii.

(** * Page faults *)

Section Faults.
Context {A : Type} {Ops : FrameOps A} {Laws : FrameLaws A}.
Context (cb : Z -> Z -> Z -> Z -> Z -> store -> store * Z).
Notation fst_ := (fault_state A).
Implicit Types (s : fst_) (mg : PagingManager).

(** A fault that the handler gives to demand paging: not present, no reserved bit. *)
Definition not_present (code : Z) : Prop := has_bits code 1 = false /\ has_bits code 8 = false.
(** A fault that it gives to copy-on-write: a write to a present page. *)
Definition write_protected (code : Z) : Prop :=
  has_bits code 1 = true /\ has_bits code 2 = true /\ has_bits code 8 = false.

Lemma handle_not_present a code s : not_present code ->
  handle_page_fault cb a code s
  = match handle_demand_page_fault cb a code (demand_of s) with
    | Some (d, Ok _) => Some (set_demand d s, Ok Resumed)
    | Some (d, Err _) => Some (set_demand d s, Ok (Halted (fault_report a code)))
    | None => None
    end.
Proof.
  intros [H1 H8]. unfold handle_page_fault. rewrite H1, H8. cbn [negb andb].
  destruct (handle_demand_page_fault cb a code (demand_of s)) as [[d r]|] eqn:E.
  - assert (catch (on_demand (handle_demand_page_fault cb a code)) s = Some (set_demand d s, Ok r)) as Ec.
    { apply catch_run. by apply zoom_run. }
    erewrite bind_ok by (erewrite bind_ok by exact Ec; reflexivity). by destruct r.
  - unfold catch, on_demand, zoom, mbind, prog_bind. by rewrite E.
Qed.

Lemma handle_write_protected a code s flags : write_protected code ->
  get_page_flags a (fpaging s) = Some (fpaging s, Ok flags) ->
  handle_page_fault cb a code s
  = if is_cow_page flags then
      match handle_cow_fault a (cow_of s) with
      | Some (c, Ok _) => Some (set_cow c s, Ok Resumed)
      | Some (c, Err _) => Some (set_cow c s, Ok (Halted (fault_report a code)))
      | None => None
      end
    else Some (s, Ok (Halted (fault_report a code))).
Proof.
  intros (H1 & H2 & H8) Ef. unfold handle_page_fault. rewrite H1, H2, H8. cbn [negb andb].
  erewrite bind_ok by reflexivity.
  assert (set_cow (set_cpaging (fpaging s) (cow_of s)) s = s) as Es by (by destruct s).
  assert (catch (on_cow (on_paging (get_page_flags a))) s = Some (s, Ok (Ok flags))) as Ec.
  { apply catch_run. rewrite <- Es at 2. unfold on_cow. apply zoom_run. apply zoom_run. exact Ef. }
  destruct (is_cow_page flags) eqn:Ei.
  - destruct (handle_cow_fault a (cow_of s)) as [[c r]|] eqn:E.
    + assert (catch (on_cow (handle_cow_fault a)) s = Some (set_cow c s, Ok r)) as Eh by (apply catch_run; by apply zoom_run).
      erewrite bind_ok.
      2:{ erewrite bind_ok by exact Ec. cbv beta iota. rewrite Ei. erewrite bind_ok by exact Eh. reflexivity. }
      by destruct r.
    + unfold mbind, prog_bind. rewrite Ec. cbn beta iota. rewrite Ei. unfold catch, on_cow, zoom. by rewrite E.
  - erewrite bind_ok by (erewrite bind_ok by exact Ec; cbv beta iota; rewrite Ei; reflexivity). done.
Qed.

(** A page fault on an absent page, as [idt/handlers.rs] handles it: when the
    code resumes, the address was in a registered region and its page is now
    mapped, present, to a frame that was free and filled as the region says; when
    the processor halts, no translation has changed.  Either way the regions and
    the reference counts of copy-on-write stay. *)
Theorem demand_fault_resumes T mg s a code :
  callback_ok cb -> paging_ok T mg (fpaging s) -> is_u64 a ->
  (forall r, find_region a (fregions s) = Some r -> 0 <= vm_flags r) -> not_present code ->
  let page := demand_align_down a in
  canonical mg page = true -> view mg (fpaging s) page = None ->
  exists s' out, handle_page_fault cb a code s = Some (s', Ok out)
    /\ fregions s' = fregions s /\ frefs s' = frefs s
    /\ match out with
       | Resumed => exists r x, find_region a (fregions s) = Some r
           /\ fa_used (palloc (fpaging s)) (x / 4096) = false
           /\ (forall v, view mg (fpaging s') v
                 = if decide (same_page mg v page)
                   then Some (PageLeaf (pte_set x (flags_set (vm_flags r) PRESENT)))
                   else view mg (fpaging s) v)
           /\ (forall i, file_bytes r page <= i < 4096 -> rd (fbytes s') (x + i) = 0)
       | Halted report => report = fault_report a code
           /\ forall v, view mg (fpaging s') v = view mg (fpaging s) v
       end.
Proof.
  intros Hcb Hok Ha Hfl Hnp page Hc Hv. rewrite (handle_not_present a code s Hnp).
  pose proof (demand_fault_spec cb T mg (demand_of s) a code Hcb Hok Ha Hfl Hc Hv) as H. cbv zeta in H.
  destruct (handle_demand_page_fault cb a code (demand_of s)) as [[d [u|e]]|]; [| |done].
  - destruct H as (r & x & H1 & H2 & _ & _ & H5 & H6 & _ & _ & H9).
    exists (set_demand d s), Resumed. split_and!; [done|exact H9|done|]. exists r, x. by split_and!.
  - destruct H as (H1 & H2 & _). eexists (set_demand d s), (Halted _). by split_and!.
Qed.

(** A write fault on a copy-on-write page resolves only when the faulting
    address is the base of the page: the handler passes the address of the access
    as it is, and [handle_cow_fault] wants it aligned.  At the base the code
    resumes with the page writable, or the processor halts because no frame is
    left for the copy; at any other address of the page the processor halts with
    every translation as it was. *)
Theorem cow_fault_needs_alignment T mg s v e code :
  cow_mapped T mg (cow_of s) v e -> frame_of e < MAX_FRAMES -> write_protected code ->
  exists s' out, handle_page_fault cb v code s = Some (s', Ok out)
    /\ fregions s' = fregions s
    /\ if decide (v mod 4096 = 0) then
         match out with
         | Resumed => exists e', view mg (fpaging s') v = Some (PageLeaf e')
              /\ Z.land e' WRITABLE <> 0 /\ Z.land e' COW_BIT = 0
         | Halted _ => s' = s /\ 1 < rd (frefs s) (frame_of e)
         end
       else out = Halted (fault_report v code) /\ forall w, view mg (fpaging s') w = view mg (fpaging s) w.
Proof.
  intros Hcm Hf Hwp. pose proof Hcm as [Hok Hc Hv (He & Hp & Hcow) Hu _].
  assert (get_page_flags v (fpaging s) = Some (fpaging s, Ok (pte_flags e))) as Eg.
  { exact (page_flags_spec T mg (fpaging s) v (PageLeaf e) Hok Hc Hv). }
  rewrite (handle_write_protected v code s _ Hwp Eg), Hcow.
  case_decide as Hal.
  - pose proof (cow_fault_spec T mg (cow_of s) v e Hcm Hal Hf) as H. cbv zeta in H.
    destruct (handle_cow_fault v (cow_of s)) as [[c [u|er]]|]; [| |done].
    + destruct H as (p & e' & _ & _ & _ & _ & H5 & H6 & _ & _ & H9 & _).
      exists (set_cow c s), Resumed. split_and!; [done|done|]. exists e'.
      split; [cbn; by rewrite H9, decide_True|]. by split.
    + destruct H as (-> & H2 & _). exists s, (Halted (fault_report v code)). by destruct s.
  - pose proof (cow_fault_unaligned T mg (cow_of s) v e Hcm Hal Hf) as H.
    destruct (handle_cow_fault v (cow_of s)) as [[c [u|er]]|]; [done| |done].
    destruct H as [H _]. exists (set_cow c s), (Halted (fault_report v code)). by split_and!.
Qed.
End Faults.

(** * Stack overflows *)

(** The handler has put the banner on the serial port. *)
Definition reports_overflow (c c' : Console) : Prop := exists rest, serial c' = serial c ++ OVERFLOW_BANNER ++ rest.

Lemma page_fault_no_banner c t rest : serial c ++ text "PAGE FAULT: addr=" ++ t = serial c ++ OVERFLOW_BANNER ++ rest -> False.
Proof. intros E%app_inv_head. discriminate E. Qed.

Lemma overflow_report_iff {A} code rip cs rflags a (g : guard_state A) c : is_u64 a ->
  reports_overflow c (exception_handler 14 code rip cs rflags a g c)
  <-> Z.land code 1 = 0 /\ is_guard_page a g = true.
Proof.
  intros Ha. unfold exception_handler, guard_page_is_guard_page. change (14 =? 14) with true. cbv iota zeta.
  destruct (Z.eqb_spec (Z.land code 1) 0) as [Hz|Hz]; [destruct (is_guard_page a g) eqn:Eg|]; cbn [negb andb Z.eqb].
  - split; [done|]. intros _. eexists. cbn [report_overflow to_serial to_screen serial]. reflexivity.
  - split; [|by intros [_ ?]]. intros [rest E]. cbn [report_page_fault to_serial to_screen serial] in E.
    by apply page_fault_no_banner in E.
  - split; [|by intros [? _]]. intros [rest E]. cbn [report_page_fault to_serial to_screen serial] in E.
    by apply page_fault_no_banner in E.
Qed.

(** C36. After a kernel stack has been allocated, the linked exception handler
    reports a stack overflow for a fault on an absent page exactly when the
    address lies in the guard page below that stack, while the registry had room
    for it, or in an older guard page; a fault on a present page is never
    reported so; and an access that stays in the stack's own pages is not, unless
    an older guard page holds it. *)
Theorem stack_overflow_reported {A} `{FrameLaws A} T mg (s : guard_state A) n code rip cs rflags c :
  guard_ok s -> paging_ok T mg (gpaging s) -> 0 <= n -> slot_top s n <= 2 ^ 47 ->
  (forall v, slot_base s <= v < slot_top s n -> not_huge (view mg (gpaging s) v)) ->
  exists s' r, allocate_kernel_stack n s = Some (s', r)
    /\ forall a, is_u64 a ->
         (reports_overflow c (exception_handler 14 code rip cs rflags a s' c)
          <-> Z.land code 1 = 0
              /\ (slot_base s <= a < slot_base s + 4096 /\ GUARD_REGISTRY_COUNT s < 64 \/ is_guard_page a s = true)).
Proof.
  intros Hg Hok Hn Htop Hnh. pose proof (kernel_stack_spec T mg s n Hg Hok Hn Htop Hnh) as H1.
  destruct (allocate_kernel_stack n s) as [[s' r]|]; [|done]. destruct H1 as (_ & _ & _ & _ & Hgp & _).
  exists s', r. split; [done|]. intros a Ha. rewrite overflow_report_iff, Hgp by exact Ha.
  destruct Hg as [_ _ [Ho1 Ho2]].
  assert (a / 4096 =? slot_base s / 4096 = true <-> slot_base s <= a < slot_base s + 4096) as Hp.
  { rewrite Z.eqb_eq. unfold slot_base, KERNEL_STACK_AREA_BASE in *. unfold is_u64 in Ha. dlia. }
  rewrite orb_true_iff, andb_true_iff, Z.ltb_lt, Hp. tauto.
Qed.

(** * Interrupts *)

Section Irq.
Context {S : Type} `{Ph : PicHardware S}.

(** Interrupt [n] of the legacy controller, delivered when it may interrupt,
    is acknowledged by the handler of its vector: the controller is again as it
    was before, the timer and the keyboard print nothing and other lines name
    their vector; the end-of-interrupt routine of [idt/handlers.rs], which takes
    the vector, does the same as [send_eoi] with the line. *)
Theorem irq_handler_acknowledges n s c before :
  both_ready before -> chip_ok before.1 -> chip_ok before.2 -> 0 <= n < 16 -> may_interrupt n before ->
  chips s = deliver n before ->
  (exists s' c', irq_handler (32 + n) c s = (s', c') /\ chips s' = before /\ serial c' = serial c
     /\ screen c' = screen c ++ (if n <? 2 then [] else text "IRQ: " ++ print_hex_u64 (32 + n) ++ newline))
  /\ vector_eoi (32 + n) s = send_eoi n s.
Proof.
  intros Hr H1 H2 Hn Hmay Hs. destruct (eoi_spec n s before Hr H1 H2 Hn Hmay Hs) as (s' & E & Hc).
  split.
  - unfold irq_handler. rewrite sub64_small by (unfold U64; lia). replace (32 + n - 32) with n by lia.
    unfold wrap8. rewrite Z.mod_small by lia. rewrite (hw_bind_run _ _ _ _ _ E).
    eexists s', _. split; [reflexivity|]. split; [exact Hc|].
    destruct (Z.ltb_spec n 2).
    + replace ((32 + n =? 32) || (32 + n =? 33)) with true; [by rewrite app_nil_r|].
      symmetry. rewrite orb_true_iff, !Z.eqb_eq. lia.
    + replace ((32 + n =? 32) || (32 + n =? 33)) with false; [done|].
      symmetry. rewrite orb_false_iff, !Z.eqb_neq. lia.
  - unfold vector_eoi, send_eoi. by destruct (Z.leb_spec 40 (32 + n)), (Z.leb_spec 8 n); try lia.
Qed.
End Irq.

(** * Closed instances *)

Definition sample_faults : fault_state pmm_global :=
  mkFault (dpaging sample_demand) (dbytes sample_demand) (REGIONS sample_demand) ∅.

Lemma demand_fault_resumes_witness :
  exists s' x, handle_page_fault sample_read 28680 4 sample_faults = Some (s', Ok Resumed)
    /\ view sample_mgr (fpaging s') 28672 = Some (PageLeaf (pte_set x 3)).
Proof.
  destruct sample_demand_ok as [Hok Hview].
  assert (view sample_mgr (dpaging sample_demand) 28672 = None) as Hv by (rewrite Hview; by vm_compute).
  destruct (demand_fault_resumes sample_read sample_types sample_mgr sample_faults 28680 4
    sample_read_ok Hok ltac:(unfold is_u64, U64; lia)
    ltac:(intros r Hr; vm_compute in Hr; injection Hr as <-; cbn; lia) ltac:(by split)
    ltac:(by vm_compute) Hv) as (s' & out & E & _ & _ & H).
  assert ((snd <$> handle_page_fault sample_read 28680 4 sample_faults) = Some (Ok Resumed)) as E' by (by vm_compute).
  rewrite E in E'. injection E' as ->. destruct H as (r & x & Hr & _ & Hvw & _). exists s', x. split; [exact E|].
  assert (r = sample_region) as -> by (vm_compute in Hr; injection Hr as <-; done).
  rewrite Hvw, decide_True; [done|by vm_compute].
Defined.

(** The same copy-on-write page, hit at its base and eight bytes into it. *)
Definition sample_shared : fault_state pmm_global :=
  mkFault (cpaging (sample_cow 513 (wr ∅ 0 2))) ∅ [] (wr ∅ 0 2).

Lemma cow_fault_needs_alignment_witness :
  (exists s', handle_page_fault sample_read 24576 3 sample_shared = Some (s', Ok Resumed))
  /\ exists s', handle_page_fault sample_read 24584 3 sample_shared = Some (s', Ok (Halted (fault_report 24584 3))).
Proof.
  split.
  - destruct (cow_fault_needs_alignment sample_read sample_types sample_mgr sample_shared 24576 513 3
      (sample_cow_mapped 2 24576 ltac:(done) ltac:(done)) ltac:(done) ltac:(by split_and!)) as (s' & out & E & _).
    exists s'. assert ((snd <$> handle_page_fault sample_read 24576 3 sample_shared) = Some (Ok Resumed)) as E' by (by vm_compute).
    rewrite E in E'. injection E' as ->. exact E.
  - destruct (cow_fault_needs_alignment sample_read sample_types sample_mgr sample_shared 24584 513 3
      (sample_cow_mapped 2 24584 ltac:(done) ltac:(done)) ltac:(done) ltac:(by split_and!)) as (s' & out & E & _ & H).
    exists s'. rewrite decide_False in H by done. destruct H as [-> _]. exact E.
Defined.

Lemma stack_overflow_reported_witness :
  exists s' r, allocate_kernel_stack 2 sample_guard = Some (s', r)
    /\ reports_overflow (mkConsole [] []) (exception_handler 14 2 1052672 8 2 33554440 s' (mkConsole [] [])).
Proof.
  assert (forall v, slot_base sample_guard <= v < slot_top sample_guard 2 ->
    not_huge (view sample_mgr sample_paging v)) as Hn.
  { intros v Hv. change (slot_base sample_guard) with 33554432 in Hv.
    change (slot_top sample_guard 2) with 33566720 in Hv.
    assert (exists b, view sample_mgr sample_paging v = view sample_mgr sample_paging b
      /\ (b = 33554432 \/ b = 33558528 \/ b = 33562624)) as (b & E & Hb).
    { exists (v - v mod 4096). split; [|dlia]. apply leaf_same_path.
      apply same_page_base; [lia|dlia|]. rewrite !page_base_small by dlia. dlia. }
    rewrite E. destruct Hb as [->|[->| ->]]; by apply sample_not_huge. }
  destruct (stack_overflow_reported sample_types sample_mgr sample_guard 2 2 1052672 8 2 (mkConsole [] [])
    ltac:(constructor; [done|done|split; done]) sample_paging_ok ltac:(lia) ltac:(by vm_compute) Hn)
    as (s' & r & E & H).
  exists s', r. split; [exact E|]. apply (H 33554440 ltac:(unfold is_u64, U64; lia)). split; [reflexivity|]. left. split; [|reflexivity].
  change (slot_base sample_guard) with 33554432. lia.
Defined.

Lemma irq_handler_acknowledges_witness :
  exists s', irq_handler 43 (mkConsole [] []) (mkMachine (deliver 11 sample_chips) 0 ∅ ∅ ∅)
    = (s', mkConsole [] (text "IRQ: 0x2B" ++ newline)) /\ chips s' = sample_chips.
Proof.
  destruct (irq_handler_acknowledges 11 (mkMachine (deliver 11 sample_chips) 0 ∅ ∅ ∅) (mkConsole [] []) sample_chips)
    as [(s' & [t1 t2] & E & Hc & H1 & H2) _].
  - by split.
  - vm_compute. by split.
  - vm_compute. by split.
  - lia.
  - exact sample_line_11.
  - reflexivity.
  - exists s'. cbn in H1, H2. rewrite H1, H2 in E. split; [exact E|exact Hc].
Defined.
