(* ===== verification/Font.v ===== *)
(** The 8x16 font: [drivers/video/font_8x16.rs].

    The table of [drivers/video/vga.c] is the same.  A glyph is sixteen rows of
    eight bits, the leftmost pixel in the highest bit. *)

From S2P Require Import Prelude.

Definition font_8x16 : list (list Z) :=
  [ [0; 0; 0; 0; 0; 0; 0; 0; 0; 0; 0; 0; 0; 0; 0; 0];
    [0; 0; 0; 0; 0; 0; 0; 0; 0; 0; 0; 0; 0; 0; 0; 0];
    [0; 0; 0; 0; 0; 0; 0; 0; 0; 0; 0; 0; 0; 0; 0; 0];
    [0; 0; 0; 0; 0; 0; 0; 0; 0; 0; 0; 0; 0; 0; 0; 0];
    [0; 0; 0; 0; 0; 0; 0; 0; 0; 0; 0; 0; 0; 0; 0; 0];
    [0; 0; 0; 0; 0; 0; 0; 0; 0; 0; 0; 0; 0; 0; 0; 0];
    [0; 0; 0; 0; 0; 0; 0; 0; 0; 0; 0; 0; 0; 0; 0; 0];
    [0; 0; 0; 0; 0; 0; 0; 0; 0; 0; 0; 0; 0; 0; 0; 0];
    [0; 0; 0; 0; 0; 0; 0; 0; 0; 0; 0; 0; 0; 0; 0; 0];
    [0; 0; 0; 0; 0; 0; 0; 0; 0; 0; 0; 0; 0; 0; 0; 0];
    [0; 0; 0; 0; 0; 0; 0; 0; 0; 0; 0; 0; 0; 0; 0; 0];
    [0; 0; 0; 0; 0; 0; 0; 0; 0; 0; 0; 0; 0; 0; 0; 0];
    [0; 0; 0; 0; 0; 0; 0; 0; 0; 0; 0; 0; 0; 0; 0; 0];
    [0; 0; 0; 0; 0; 0; 0; 0; 0; 0; 0; 0; 0; 0; 0; 0];
    [0; 0; 0; 0; 0; 0; 0; 0; 0; 0; 0; 0; 0; 0; 0; 0];
    [0; 0; 0; 0; 0; 0; 0; 0; 0; 0; 0; 0; 0; 0; 0; 0];
    [0; 0; 0; 0; 0; 0; 0; 0; 0; 0; 0; 0; 0; 0; 0; 0];
    [0; 0; 0; 0; 0; 0; 0; 0; 0; 0; 0; 0; 0; 0; 0; 0];
    [0; 0; 0; 0; 0; 0; 0; 0; 0; 0; 0; 0; 0; 0; 0; 0];
    [0; 0; 0; 0; 0; 0; 0; 0; 0; 0; 0; 0; 0; 0; 0; 0];
    [0; 0; 0; 0; 0; 0; 0; 0; 0; 0; 0; 0; 0; 0; 0; 0];
    [0; 0; 0; 0; 0; 0; 0; 0; 0; 0; 0; 0; 0; 0; 0; 0];
    [0; 0; 0; 0; 0; 0; 0; 0; 0; 0; 0; 0; 0; 0; 0; 0];
    [0; 0; 0; 0; 0; 0; 0; 0; 0; 0; 0; 0; 0; 0; 0; 0];
    [0; 0; 0; 0; 0; 0; 0; 0; 0; 0; 0; 0; 0; 0; 0; 0];
    [0; 0; 0; 0; 0; 0; 0; 0; 0; 0; 0; 0; 0; 0; 0; 0];
    [0; 0; 0; 0; 0; 0; 0; 0; 0; 0; 0; 0; 0; 0; 0; 0];
    [0; 0; 0; 0; 0; 0; 0; 0; 0; 0; 0; 0; 0; 0; 0; 0];
    [0; 0; 0; 0; 0; 0; 0; 0; 0; 0; 0; 0; 0; 0; 0; 0];
    [0; 0; 0; 0; 0; 0; 0; 0; 0; 0; 0; 0; 0; 0; 0; 0];
    [0; 0; 0; 0; 0; 0; 0; 0; 0; 0; 0; 0; 0; 0; 0; 0];
    [0; 0; 0; 0; 0; 0; 0; 0; 0; 0; 0; 0; 0; 0; 0; 0];
    [0; 0; 0; 0; 0; 0; 0; 0; 0; 0; 0; 0; 0; 0; 0; 0];
    [0; 0; 0x18; 0x3c; 0x3c; 0x3c; 0x18; 0x18; 0x18; 0; 0x18; 0x18; 0; 0; 0; 0];
    [0; 0x66; 0x66; 0x66; 0x24; 0; 0; 0; 0; 0; 0; 0; 0; 0; 0; 0];
    [0; 0; 0x6c; 0x6c; 0xfe; 0x6c; 0x6c; 0x6c; 0xfe; 0x6c; 0x6c; 0; 0; 0; 0; 0];
    [0; 0x18; 0x18; 0x7c; 0xc6; 0xc0; 0x7c; 0x06; 0xc6; 0x7c; 0x18; 0x18; 0; 0; 0; 0];
    [0; 0; 0; 0; 0xc2; 0xc6; 0x0c; 0x18; 0x30; 0x60; 0xc6; 0x86; 0; 0; 0; 0];
    [0; 0; 0x38; 0x6c; 0x6c; 0x38; 0x76; 0xdc; 0xcc; 0xcc; 0xcc; 0x76; 0; 0; 0; 0];
    [0; 0x30; 0x30; 0x30; 0x60; 0; 0; 0; 0; 0; 0; 0; 0; 0; 0; 0];
    [0; 0; 0x0c; 0x18; 0x30; 0x30; 0x30; 0x30; 0x30; 0x30; 0x18; 0x0c; 0; 0; 0; 0];
    [0; 0; 0x30; 0x18; 0x0c; 0x0c; 0x0c; 0x0c; 0x0c; 0x0c; 0x18; 0x30; 0; 0; 0; 0];
    [0; 0; 0; 0; 0; 0x66; 0x3c; 0xff; 0x3c; 0x66; 0; 0; 0; 0; 0; 0];
    [0; 0; 0; 0; 0; 0x18; 0x18; 0x7e; 0x18; 0x18; 0; 0; 0; 0; 0; 0];
    [0; 0; 0; 0; 0; 0; 0; 0; 0; 0x18; 0x18; 0x18; 0x30; 0; 0; 0];
    [0; 0; 0; 0; 0; 0; 0; 0xfe; 0; 0; 0; 0; 0; 0; 0; 0];
    [0; 0; 0; 0; 0; 0; 0; 0; 0; 0; 0x18; 0x18; 0; 0; 0; 0];
    [0; 0; 0; 0x02; 0x06; 0x0c; 0x18; 0x30; 0x60; 0xc0; 0x80; 0; 0; 0; 0; 0];
    [0; 0; 0x7c; 0xc6; 0xc6; 0xce; 0xde; 0xf6; 0xe6; 0xc6; 0xc6; 0x7c; 0; 0; 0; 0];
    [0; 0; 0x18; 0x38; 0x78; 0x18; 0x18; 0x18; 0x18; 0x18; 0x18; 0x7e; 0; 0; 0; 0];
    [0; 0; 0x7c; 0xc6; 0x06; 0x0c; 0x18; 0x30; 0x60; 0xc0; 0xc6; 0xfe; 0; 0; 0; 0];
    [0; 0; 0x7c; 0xc6; 0x06; 0x06; 0x3c; 0x06; 0x06; 0x06; 0xc6; 0x7c; 0; 0; 0; 0];
    [0; 0; 0x0c; 0x1c; 0x3c; 0x6c; 0xcc; 0xfe; 0x0c; 0x0c; 0x0c; 0x1e; 0; 0; 0; 0];
    [0; 0; 0xfe; 0xc0; 0xc0; 0xc0; 0xfc; 0x06; 0x06; 0x06; 0xc6; 0x7c; 0; 0; 0; 0];
    [0; 0; 0x38; 0x60; 0xc0; 0xc0; 0xfc; 0xc6; 0xc6; 0xc6; 0xc6; 0x7c; 0; 0; 0; 0];
    [0; 0; 0xfe; 0xc6; 0x06; 0x06; 0x0c; 0x18; 0x30; 0x30; 0x30; 0x30; 0; 0; 0; 0];
    [0; 0; 0x7c; 0xc6; 0xc6; 0xc6; 0x7c; 0xc6; 0xc6; 0xc6; 0xc6; 0x7c; 0; 0; 0; 0];
    [0; 0; 0x7c; 0xc6; 0xc6; 0xc6; 0x7e; 0x06; 0x06; 0x06; 0x0c; 0x78; 0; 0; 0; 0];
    [0; 0; 0; 0; 0x18; 0x18; 0; 0; 0x18; 0x18; 0; 0; 0; 0; 0; 0];
    [0; 0; 0; 0; 0x18; 0x18; 0; 0; 0x18; 0x18; 0x30; 0; 0; 0; 0; 0];
    [0; 0; 0; 0x06; 0x0c; 0x18; 0x30; 0x60; 0x30; 0x18; 0x0c; 0x06; 0; 0; 0; 0];
    [0; 0; 0; 0; 0; 0x7e; 0; 0; 0x7e; 0; 0; 0; 0; 0; 0; 0];
    [0; 0; 0; 0x60; 0x30; 0x18; 0x0c; 0x06; 0x0c; 0x18; 0x30; 0x60; 0; 0; 0; 0];
    [0; 0; 0x7c; 0xc6; 0xc6; 0x0c; 0x18; 0x18; 0x18; 0; 0x18; 0x18; 0; 0; 0; 0];
    [0; 0; 0x7c; 0xc6; 0xc6; 0xde; 0xde; 0xde; 0xdc; 0xc0; 0xc6; 0x7c; 0; 0; 0; 0];
    [0; 0; 0x10; 0x38; 0x6c; 0xc6; 0xc6; 0xfe; 0xc6; 0xc6; 0xc6; 0xc6; 0; 0; 0; 0];
    [0; 0; 0xfc; 0x66; 0x66; 0x66; 0x7c; 0x66; 0x66; 0x66; 0x66; 0xfc; 0; 0; 0; 0];
    [0; 0; 0x3c; 0x66; 0xc2; 0xc0; 0xc0; 0xc0; 0xc0; 0xc2; 0x66; 0x3c; 0; 0; 0; 0];
    [0; 0; 0xf8; 0x6c; 0x66; 0x66; 0x66; 0x66; 0x66; 0x66; 0x6c; 0xf8; 0; 0; 0; 0];
    [0; 0; 0xfe; 0x66; 0x62; 0x68; 0x78; 0x68; 0x60; 0x62; 0x66; 0xfe; 0; 0; 0; 0];
    [0; 0; 0xfe; 0x66; 0x62; 0x68; 0x78; 0x68; 0x60; 0x60; 0x60; 0xf0; 0; 0; 0; 0];
    [0; 0; 0x3c; 0x66; 0xc2; 0xc0; 0xc0; 0xde; 0xc6; 0xc6; 0x66; 0x3a; 0; 0; 0; 0];
    [0; 0; 0xc6; 0xc6; 0xc6; 0xc6; 0xfe; 0xc6; 0xc6; 0xc6; 0xc6; 0xc6; 0; 0; 0; 0];
    [0; 0; 0x3c; 0x18; 0x18; 0x18; 0x18; 0x18; 0x18; 0x18; 0x18; 0x3c; 0; 0; 0; 0];
    [0; 0; 0x1e; 0x0c; 0x0c; 0x0c; 0x0c; 0x0c; 0xcc; 0xcc; 0xcc; 0x78; 0; 0; 0; 0];
    [0; 0; 0xe6; 0x66; 0x66; 0x6c; 0x78; 0x78; 0x6c; 0x66; 0x66; 0xe6; 0; 0; 0; 0];
    [0; 0; 0xf0; 0x60; 0x60; 0x60; 0x60; 0x60; 0x60; 0x62; 0x66; 0xfe; 0; 0; 0; 0];
    [0; 0; 0xc6; 0xee; 0xfe; 0xfe; 0xd6; 0xc6; 0xc6; 0xc6; 0xc6; 0xc6; 0; 0; 0; 0];
    [0; 0; 0xc6; 0xe6; 0xf6; 0xfe; 0xde; 0xce; 0xc6; 0xc6; 0xc6; 0xc6; 0; 0; 0; 0];
    [0; 0; 0x7c; 0xc6; 0xc6; 0xc6; 0xc6; 0xc6; 0xc6; 0xc6; 0xc6; 0x7c; 0; 0; 0; 0];
    [0; 0; 0xfc; 0x66; 0x66; 0x66; 0x7c; 0x60; 0x60; 0x60; 0x60; 0xf0; 0; 0; 0; 0];
    [0; 0; 0x7c; 0xc6; 0xc6; 0xc6; 0xc6; 0xc6; 0xc6; 0xd6; 0xde; 0x7c; 0x0c; 0x0e; 0; 0];
    [0; 0; 0xfc; 0x66; 0x66; 0x66; 0x7c; 0x6c; 0x66; 0x66; 0x66; 0xe6; 0; 0; 0; 0];
    [0; 0; 0x7c; 0xc6; 0xc6; 0x60; 0x38; 0x0c; 0x06; 0xc6; 0xc6; 0x7c; 0; 0; 0; 0];
    [0; 0; 0xff; 0xdb; 0x99; 0x18; 0x18; 0x18; 0x18; 0x18; 0x18; 0x3c; 0; 0; 0; 0];
    [0; 0; 0xc6; 0xc6; 0xc6; 0xc6; 0xc6; 0xc6; 0xc6; 0xc6; 0xc6; 0x7c; 0; 0; 0; 0];
    [0; 0; 0xc6; 0xc6; 0xc6; 0xc6; 0xc6; 0xc6; 0xc6; 0x6c; 0x38; 0x10; 0; 0; 0; 0];
    [0; 0; 0xc6; 0xc6; 0xc6; 0xc6; 0xd6; 0xd6; 0xd6; 0xfe; 0xee; 0x6c; 0; 0; 0; 0];
    [0; 0; 0xc6; 0xc6; 0x6c; 0x7c; 0x38; 0x38; 0x7c; 0x6c; 0xc6; 0xc6; 0; 0; 0; 0];
    [0; 0; 0xc3; 0xc3; 0xc3; 0x66; 0x3c; 0x18; 0x18; 0x18; 0x18; 0x3c; 0; 0; 0; 0];
    [0; 0; 0xfe; 0xc6; 0x86; 0x0c; 0x18; 0x30; 0x60; 0xc2; 0xc6; 0xfe; 0; 0; 0; 0];
    [0; 0; 0x3c; 0x30; 0x30; 0x30; 0x30; 0x30; 0x30; 0x30; 0x30; 0x3c; 0; 0; 0; 0];
    [0; 0; 0; 0x80; 0xc0; 0xe0; 0x70; 0x38; 0x1c; 0x0e; 0x06; 0x02; 0; 0; 0; 0];
    [0; 0; 0x3c; 0x0c; 0x0c; 0x0c; 0x0c; 0x0c; 0x0c; 0x0c; 0x0c; 0x3c; 0; 0; 0; 0];
    [0; 0x10; 0x38; 0x6c; 0xc6; 0; 0; 0; 0; 0; 0; 0; 0; 0; 0; 0];
    [0; 0; 0; 0; 0; 0; 0; 0; 0; 0; 0; 0; 0xff; 0; 0; 0];
    [0; 0x30; 0x18; 0x0c; 0; 0; 0; 0; 0; 0; 0; 0; 0; 0; 0; 0];
    [0; 0; 0; 0; 0; 0x78; 0x0c; 0x7c; 0xcc; 0xcc; 0xcc; 0x76; 0; 0; 0; 0];
    [0; 0; 0xe0; 0x60; 0x60; 0x78; 0x6c; 0x66; 0x66; 0x66; 0x66; 0x7c; 0; 0; 0; 0];
    [0; 0; 0; 0; 0; 0x7c; 0xc6; 0xc0; 0xc0; 0xc0; 0xc6; 0x7c; 0; 0; 0; 0];
    [0; 0; 0x1c; 0x0c; 0x0c; 0x3c; 0x6c; 0xcc; 0xcc; 0xcc; 0xcc; 0x76; 0; 0; 0; 0];
    [0; 0; 0; 0; 0; 0x7c; 0xc6; 0xfe; 0xc0; 0xc0; 0xc6; 0x7c; 0; 0; 0; 0];
    [0; 0; 0x38; 0x6c; 0x64; 0x60; 0xf0; 0x60; 0x60; 0x60; 0x60; 0xf0; 0; 0; 0; 0];
    [0; 0; 0; 0; 0; 0x76; 0xcc; 0xcc; 0xcc; 0xcc; 0xcc; 0x7c; 0x0c; 0xcc; 0x78; 0];
    [0; 0; 0xe0; 0x60; 0x60; 0x6c; 0x76; 0x66; 0x66; 0x66; 0x66; 0xe6; 0; 0; 0; 0];
    [0; 0; 0x18; 0x18; 0; 0x38; 0x18; 0x18; 0x18; 0x18; 0x18; 0x3c; 0; 0; 0; 0];
    [0; 0; 0x06; 0x06; 0; 0x0e; 0x06; 0x06; 0x06; 0x06; 0x06; 0x06; 0x66; 0x66; 0x3c; 0];
    [0; 0; 0xe0; 0x60; 0x60; 0x66; 0x6c; 0x78; 0x78; 0x6c; 0x66; 0xe6; 0; 0; 0; 0];
    [0; 0; 0x38; 0x18; 0x18; 0x18; 0x18; 0x18; 0x18; 0x18; 0x18; 0x3c; 0; 0; 0; 0];
    [0; 0; 0; 0; 0; 0xe6; 0xff; 0xdb; 0xdb; 0xdb; 0xdb; 0xdb; 0; 0; 0; 0];
    [0; 0; 0; 0; 0; 0xdc; 0x66; 0x66; 0x66; 0x66; 0x66; 0x66; 0; 0; 0; 0];
    [0; 0; 0; 0; 0; 0x7c; 0xc6; 0xc6; 0xc6; 0xc6; 0xc6; 0x7c; 0; 0; 0; 0];
    [0; 0; 0; 0; 0; 0xdc; 0x66; 0x66; 0x66; 0x66; 0x66; 0x7c; 0x60; 0x60; 0xf0; 0];
    [0; 0; 0; 0; 0; 0x76; 0xcc; 0xcc; 0xcc; 0xcc; 0xcc; 0x7c; 0x0c; 0x0c; 0x1e; 0];
    [0; 0; 0; 0; 0; 0xdc; 0x76; 0x66; 0x60; 0x60; 0x60; 0xf0; 0; 0; 0; 0];
    [0; 0; 0; 0; 0; 0x7c; 0xc6; 0x60; 0x38; 0x0c; 0xc6; 0x7c; 0; 0; 0; 0];
    [0; 0; 0x10; 0x30; 0x30; 0xfc; 0x30; 0x30; 0x30; 0x30; 0x36; 0x1c; 0; 0; 0; 0];
    [0; 0; 0; 0; 0; 0xcc; 0xcc; 0xcc; 0xcc; 0xcc; 0xcc; 0x76; 0; 0; 0; 0];
    [0; 0; 0; 0; 0; 0xc3; 0xc3; 0xc3; 0xc3; 0x66; 0x3c; 0x18; 0; 0; 0; 0];
    [0; 0; 0; 0; 0; 0xc6; 0xc6; 0xc6; 0xd6; 0xd6; 0xfe; 0x6c; 0; 0; 0; 0];
    [0; 0; 0; 0; 0; 0xc6; 0x6c; 0x38; 0x38; 0x38; 0x6c; 0xc6; 0; 0; 0; 0];
    [0; 0; 0; 0; 0; 0xc6; 0xc6; 0xc6; 0xc6; 0xc6; 0xc6; 0x7e; 0x06; 0x0c; 0xf8; 0];
    [0; 0; 0; 0; 0; 0xfe; 0xcc; 0x18; 0x30; 0x60; 0xc6; 0xfe; 0; 0; 0; 0];
    [0; 0; 0x0e; 0x18; 0x18; 0x18; 0x70; 0x18; 0x18; 0x18; 0x18; 0x0e; 0; 0; 0; 0];
    [0; 0; 0x18; 0x18; 0x18; 0x18; 0; 0x18; 0x18; 0x18; 0x18; 0; 0; 0; 0; 0];
    [0; 0; 0x70; 0x18; 0x18; 0x18; 0x0e; 0x18; 0x18; 0x18; 0x18; 0x70; 0; 0; 0; 0];
    [0; 0; 0x76; 0xdc; 0; 0; 0; 0; 0; 0; 0; 0; 0; 0; 0; 0];
    [0; 0; 0; 0; 0; 0; 0; 0; 0; 0; 0; 0; 0; 0; 0; 0] ].
