(* ===== verification/Video.v ===== *)
(** Video output: the library [drivers/video/lib.rs], which is a layer of
    wrappers, over the routines of [drivers/video/vga.c] that it calls.

    The frame buffer is a byte store; the text buffer at [0xB8000] is a store of
    16-bit cells by index.  Arithmetic is that of C: products of coordinates and
    strides are 32-bit, [int16_t] variables wrap. *)

From S2P Require Import Prelude Font.

(** * Pixels of [lib.rs] *)

Record Pixel := mkPixel { px : Z; py : Z; pr : Z; pg : Z; pb : Z }.
Record PixelRgb := mkPixelRgb { cx : Z; cy : Z; ccolor : Z }.

Definition Pixel_from_rgb (x y color : Z) : Pixel :=
  mkPixel x y (Z.land (Z.shiftr color 16) 255) (Z.land (Z.shiftr color 8) 255) (Z.land color 255).
Definition to_rgb (p : Pixel) : Z :=
  Z.lor (Z.lor (Z.shiftl (pr p) 16) (Z.shiftl (pg p) 8)) (pb p).
Definition SENTINEL : PixelRgb := mkPixelRgb 0xFFFF 0 0.

Definition COLOR_BLACK : Z := 0x000000.
Definition COLOR_WHITE : Z := 0xFFFFFF.
Definition COLOR_RED : Z := 0xFF0000.
Definition COLOR_GREEN : Z := 0x00FF00.
Definition COLOR_BLUE : Z := 0x0000FF.
Definition COLOR_YELLOW : Z := 0xFFFF00.
Definition COLOR_CYAN : Z := 0x00FFFF.
Definition COLOR_MAGENTA : Z := 0xFF00FF.
Definition COLOR_PURPLE : Z := 0x800080.
Definition COLOR_ORANGE : Z := 0xFFA500.
Definition COLOR_GRAY : Z := 0x808080.
Definition COLOR_LIGHT_GRAY : Z := 0xC0C0C0.
Definition COLOR_DARK_GRAY : Z := 0x404040.

(** * The state of [vga.c] *)

Definition VGA_GFX_WIDTH : Z := 1920.
Definition VGA_GFX_HEIGHT : Z := 1080.
Definition VGA_GFX_BPP : Z := 3.
Definition VGA_GFX_PITCH : Z := VGA_GFX_WIDTH * VGA_GFX_BPP.
Definition VGA_GFX_MEMORY : Z := 0xFD000000.
Definition CHAR_WIDTH : Z := 8.
Definition CHAR_HEIGHT : Z := 16.
Definition VGA_TEXT_COLS : Z := 80.
Definition VGA_TEXT_ROWS : Z := 25.
Definition VGA_TEXT_ATTR : Z := 0x0F.

Record geometry := mkGeometry {
  gfx_buffer : Z;
  gfx_pitch : Z;
  gfx_width : Z;
  gfx_height : Z;
  gfx_bpp : Z;
}.

Record video := mkVideo {
  geom : geometry;
  frame : store;            (** the bytes behind [gfx_buffer] *)
  text_cursor_x : Z;
  text_cursor_y : Z;
  vga_text_buf : store;     (** the cells *)
  vga_text_col : Z;
  vga_text_row : Z;
  vga_textmode_active : bool;
}.

Definition text_fg_color : Z := 0xFFFFFF.
Definition text_bg_color : Z := 0x000000.

Definition default_geometry : geometry :=
  mkGeometry VGA_GFX_MEMORY VGA_GFX_PITCH VGA_GFX_WIDTH VGA_GFX_HEIGHT VGA_GFX_BPP.
Definition video_zero (frame cells : store) : video :=
  mkVideo default_geometry frame 0 0 cells 0 0 false.

Definition set_frame (m : store) (v : video) : video :=
  mkVideo (geom v) m (text_cursor_x v) (text_cursor_y v) (vga_text_buf v) (vga_text_col v)
    (vga_text_row v) (vga_textmode_active v).
Definition set_cursor (x y : Z) (v : video) : video :=
  mkVideo (geom v) (frame v) x y (vga_text_buf v) (vga_text_col v) (vga_text_row v) (vga_textmode_active v).
Definition set_geometry (g : geometry) (v : video) : video :=
  mkVideo g (frame v) (text_cursor_x v) (text_cursor_y v) (vga_text_buf v) (vga_text_col v)
    (vga_text_row v) (vga_textmode_active v).
Definition set_text (m : store) (col row : Z) (v : video) : video :=
  mkVideo (geom v) (frame v) (text_cursor_x v) (text_cursor_y v) m col row (vga_textmode_active v).

(** [int16_t] values. *)
Definition s16 (x : Z) : Z := (x + 32768) mod 65536 - 32768.

(** * Drawing *)

Section Draw.
Context (g : geometry).

(** [pixel[0] = b; pixel[1] = g; pixel[2] = r; if (gfx_bpp == 4) pixel[3] = 0xFF;] *)
Definition put_bytes (pixel r gr b : Z) (m : store) : store :=
  let m := wr m pixel b in
  let m := wr m (pixel + 1) gr in
  let m := wr m (pixel + 2) r in
  if gfx_bpp g =? 4 then wr m (pixel + 3) 0xFF else m.

(** The same through [row[x * gfx_bpp + k]]. *)
Definition put_in_row (row x r gr b : Z) (m : store) : store :=
  let at_ k := row + wrap32 (wrap32 (x * gfx_bpp g) + k) in
  let m := wr m (at_ 0) b in
  let m := wr m (at_ 1) gr in
  let m := wr m (at_ 2) r in
  if gfx_bpp g =? 4 then wr m (at_ 3) 0xFF else m.

Definition row_addr (y : Z) : Z := gfx_buffer g + wrap32 (y * gfx_pitch g).
Definition pixel_addr (x y : Z) : Z := row_addr y + wrap32 (x * gfx_bpp g).

Definition on_screen (x y : Z) : bool := (x <? gfx_width g) && (y <? gfx_height g).

Definition gfx_clear_screen (r gr b : Z) (m : store) : store :=
  for_loop 0 (gfx_height g) (fun y m =>
    for_loop 0 (gfx_width g) (fun x m => put_in_row (row_addr y) x r gr b m) m) m.

Definition gfx_put_pixel (x y r gr b : Z) (m : store) : store :=
  if on_screen x y then put_bytes (pixel_addr x y) r gr b m else m.

Definition gfx_draw_rect (x y width height r gr b : Z) (m : store) : store :=
  let x_end := wrap16 (if gfx_width g <? x + width then gfx_width g else x + width) in
  let y_end := wrap16 (if gfx_height g <? y + height then gfx_height g else y + height) in
  for_loop y y_end (fun j m =>
    for_loop x x_end (fun i m => put_in_row (row_addr j) i r gr b m) m) m.

Definition abs_i16 (val : Z) : Z := s16 (if val <? 0 then - val else val).

(** The variables of the loop of [gfx_draw_line]. *)
Record pen := mkPen { pen_x : Z; pen_y : Z; pen_err : Z }.

Definition line_visible (p : pen) : bool :=
  (0 <=? pen_x p) && (pen_x p <? s16 (gfx_width g)) && (0 <=? pen_y p) && (pen_y p <? s16 (gfx_height g)).

Definition line_step (dx dy sx sy : Z) (p : pen) : pen :=
  let e2 := s16 (2 * pen_err p) in
  let p := if - dy <? e2 then mkPen (s16 (pen_x p + sx)) (pen_y p) (s16 (pen_err p - dy)) else p in
  if e2 <? dx then mkPen (pen_x p) (s16 (pen_y p + sy)) (s16 (pen_err p + dx)) else p.

(** [for (;;)], with fuel. *)
Fixpoint line_loop (fuel : nat) (dx dy sx sy x1 y1 r gr b : Z) (p : pen) (m : store) : option store :=
  match fuel with
  | O => None
  | S fuel' =>
      let m := if line_visible p then put_bytes (pixel_addr (pen_x p) (pen_y p)) r gr b m else m in
      if (pen_x p =? x1) && (pen_y p =? y1) then Some m
      else line_loop fuel' dx dy sx sy x1 y1 r gr b (line_step dx dy sx sy p) m
  end.

Definition gfx_draw_line (fuel : nat) (x0 y0 x1 y1 r gr b : Z) (m : store) : option store :=
  let dx := abs_i16 (s16 (x1 - x0)) in
  let dy := abs_i16 (s16 (y1 - y0)) in
  let sx := if x0 <? x1 then 1 else -1 in
  let sy := if y0 <? y1 then 1 else -1 in
  line_loop fuel dx dy sx sy x1 y1 r gr b (mkPen x0 y0 (s16 (dx - dy))) m.

(** * Characters *)

Definition red (color : Z) : Z := Z.land (Z.shiftr color 16) 255.
Definition green (color : Z) : Z := Z.land (Z.shiftr color 8) 255.
Definition blue (color : Z) : Z := Z.land color 255.

Definition glyph_row (ch row : Z) : Z :=
  default 0 (default [] (font_8x16 !! Z.to_nat ch) !! Z.to_nat row).

Definition gfx_draw_char (x y c : Z) (m : store) : store :=
  let ch := if 128 <=? c then 63 else c in
  for_loop 0 CHAR_HEIGHT (fun row m =>
    let bits := glyph_row ch row in
    for_loop 0 CHAR_WIDTH (fun col m =>
      let px := wrap16 (x + col) in
      let py := wrap16 (y + row) in
      if on_screen px py then
        let color := if has_bits bits (Z.shiftr 0x80 col) then text_fg_color else text_bg_color in
        put_bytes (pixel_addr px py) (red color) (green color) (blue color) m
      else m) m) m.
End Draw.

Definition on_frame (f : geometry -> store -> store) (v : video) : video :=
  set_frame (f (geom v) (frame v)) v.

Definition gfx_newline (v : video) : video :=
  let y := wrap16 (text_cursor_y v + CHAR_HEIGHT) in
  set_cursor 0 (if gfx_height (geom v) <? y + CHAR_HEIGHT then 0 else y) v.

Definition gfx_putchar (c : Z) (v : video) : video :=
  if (c =? 10) || (c =? 13) then gfx_newline v
  else if c =? 0 then v
  else
    let max_x := wrap16 (gfx_width (geom v) / CHAR_WIDTH) in
    let v := on_frame (fun g => gfx_draw_char g (wrap16 (text_cursor_x v * CHAR_WIDTH)) (text_cursor_y v) c) v in
    let v := set_cursor (wrap16 (text_cursor_x v + 1)) (text_cursor_y v) v in
    if max_x <=? text_cursor_x v then gfx_newline v else v.

(** The bytes up to the first 0; there is no answer when the
    string has none, where the code reads on. *)
Fixpoint each_char (putchar : Z -> video -> video) (str : list Z) (v : video) : option video :=
  match str with
  | [] => None
  | c :: str' => if c =? 0 then Some v else each_char putchar str' (putchar c v)
  end.

Definition gfx_puts : list Z -> video -> option video := each_char gfx_putchar.

(** * The text screen *)

Definition text_cell (c : Z) : Z := wrap16 (Z.lor c (Z.shiftl VGA_TEXT_ATTR 8)).

Definition vga_text_scroll (v : video) : video :=
  let last := (VGA_TEXT_ROWS - 1) * VGA_TEXT_COLS in
  let m := for_loop 0 last (fun i m => wr m i (rd m (i + VGA_TEXT_COLS))) (vga_text_buf v) in
  let m := for_loop last (VGA_TEXT_ROWS * VGA_TEXT_COLS) (fun i m => wr m i (text_cell 32)) m in
  set_text m (vga_text_col v) (VGA_TEXT_ROWS - 1) v.

(** The row is raised, and the screen scrolled when it was the last. *)
Definition text_next_row (v : video) : video :=
  let v := set_text (vga_text_buf v) 0 (wrap8 (vga_text_row v + 1)) v in
  if VGA_TEXT_ROWS <=? vga_text_row v then vga_text_scroll v else v.

Definition vga_text_putchar (c : Z) (v : video) : video :=
  if (c =? 10) || (c =? 13) then text_next_row v
  else if c =? 0 then v
  else
    let m := wr (vga_text_buf v) (vga_text_row v * VGA_TEXT_COLS + vga_text_col v) (text_cell c) in
    let v := set_text m (wrap8 (vga_text_col v + 1)) (vga_text_row v) v in
    if VGA_TEXT_COLS <=? vga_text_col v then text_next_row v else v.

Definition init_textmode_fallback (v : video) : video :=
  mkVideo (geom v) (frame v) (text_cursor_x v) (text_cursor_y v)
    (for_loop 0 (VGA_TEXT_ROWS * VGA_TEXT_COLS) (fun i m => wr m i (text_cell 32)) (vga_text_buf v))
    0 0 true.

Definition writestring_vga (str : list Z) (v : video) : option video :=
  if vga_textmode_active v then each_char vga_text_putchar str v else gfx_puts str v.

(** * The interface of [vga.c] *)

Definition set_framebuffer_info (addr pitch width height bpp_bytes : Z) (v : video) : video :=
  set_geometry (mkGeometry addr pitch width height (if bpp_bytes =? 0 then VGA_GFX_BPP else bpp_bytes)) v.
Definition initialize_vga_graphics (v : video) : video := on_frame (fun g => gfx_clear_screen g 0 0 0) v.
Definition initialize_vga_video (v : video) : video :=
  set_cursor 0 0 (on_frame (fun g => gfx_clear_screen g 0 0 0) v).
Definition put_pixel_vga (x y color : Z) : video -> video :=
  on_frame (fun g => gfx_put_pixel g x y (red color) (green color) (blue color)).
Definition clear_screen_vga (color : Z) : video -> video :=
  on_frame (fun g => gfx_clear_screen g (red color) (green color) (blue color)).
Definition draw_rect_vga (x y width height color : Z) : video -> video :=
  on_frame (fun g => gfx_draw_rect g x y width height (red color) (green color) (blue color)).
Definition draw_line_vga (fuel : nat) (x0 y0 x1 y1 color : Z) (v : video) : option video :=
  m ← gfx_draw_line (geom v) fuel x0 y0 x1 y1 (red color) (green color) (blue color) (frame v);
  Some (set_frame m v).
Definition read_pixel (x y : Z) (v : video) : Z :=
  if on_screen (geom v) x y then
    let pixel := pixel_addr (geom v) x y in
    Z.lor (Z.lor (Z.shiftl (rd (frame v) (pixel + 2)) 16) (Z.shiftl (rd (frame v) (pixel + 1)) 8))
      (rd (frame v) pixel)
  else 0.
Definition is_valid_pixel_position (x y : Z) (v : video) : Z := if on_screen (geom v) x y then 1 else 0.
Definition write_pixel_struct (p : Pixel) : video -> video :=
  on_frame (fun g => gfx_put_pixel g (px p) (py p) (pr p) (pg p) (pb p)).

(** [for (i = 0; i < count; i++)] over an array that has as many elements. *)
Fixpoint write_pixels (pixels : list Pixel) (count : nat) (v : video) : video :=
  match pixels, count with
  | p :: pixels', S count' => write_pixels pixels' count' (write_pixel_struct p v)
  | _, _ => v
  end.

(** Up to the sentinel; there is no answer when the array has none, where the
    code reads on. *)
Fixpoint write_pixels_rgb (pixels : list PixelRgb) (v : video) : option video :=
  match pixels with
  | [] => None
  | p :: pixels' =>
      if cx p =? 0xFFFF then Some v
      else write_pixels_rgb pixels' (put_pixel_vga (cx p) (cy p) (ccolor p) v)
  end.

(** * The interface of [lib.rs] *)

Definition set_framebuffer : Z -> Z -> Z -> Z -> Z -> video -> video := set_framebuffer_info.
Definition video_init : video -> video := initialize_vga_graphics.
Definition init_video : video -> video := initialize_vga_video.
Definition video_print (s : list Z) : video -> option video := writestring_vga s.
Definition clear (color : Z) : video -> video := clear_screen_vga color.
Definition put_pixel (x y color : Z) : video -> video := put_pixel_vga x y color.
Definition draw_rect (x y width height color : Z) : video -> video := draw_rect_vga x y width height color.
Definition draw_line (fuel : nat) (x0 y0 x1 y1 color : Z) : video -> option video :=
  draw_line_vga fuel x0 y0 x1 y1 color.
Definition pixel_rgb (x y r gr b : Z) : video -> video := on_frame (fun g => gfx_put_pixel g x y r gr b).
Definition pixel_packed (x y color : Z) : video -> video := put_pixel_vga x y color.
Definition pixel_struct (p : Pixel) : video -> video := write_pixel_struct p.
Definition get_pixel (x y : Z) (v : video) : Z := read_pixel x y v.
Definition is_valid_position (x y : Z) (v : video) : bool := negb (is_valid_pixel_position x y v =? 0).
Definition framebuffer_address (v : video) : Z := wrap32 (gfx_buffer (geom v)).
Definition screen_width (v : video) : Z := gfx_width (geom v).
Definition screen_height (v : video) : Z := gfx_height (geom v).
Definition write_pixel_batch (pixels : list Pixel) : video -> video :=
  write_pixels pixels (Z.to_nat (wrap32 (Z.of_nat (length pixels)))).
Definition write_pixel_rgb_batch (pixels : list PixelRgb) : video -> option video := write_pixels_rgb pixels.
