(* ===== verification/VideoProps.v ===== *)
(** What the drawing routines of [Video] do to the picture.

    [paints] is the effect of a routine: the pixels it sets and their colours.
    Every other pixel, and every byte that belongs to no pixel of the screen,
    keeps its value. *)

From S2P Require Import Prelude Font Video.

(** A linear frame buffer of 24 or 32 bits per pixel, below 4 GiB. *)
Record geometry_ok (g : geometry) : Prop := {
  go_buffer : 0 <= gfx_buffer g;
  go_bpp : 3 <= gfx_bpp g <= 4;
  go_width : 0 <= gfx_width g < 65536;
  go_height : 0 <= gfx_height g < 65536;
  go_pitch : gfx_width g * gfx_bpp g <= gfx_pitch g;
  go_size : gfx_height g * gfx_pitch g < U32;
}.

Definition visible (g : geometry) (x y : Z) : Prop := 0 <= x < gfx_width g /\ 0 <= y < gfx_height g.

(** Red, green and blue of a pixel. *)
Definition colour : Type := Z * Z * Z.
Definition rgb_at (g : geometry) (m : store) (x y : Z) : colour :=
  let a := pixel_addr g x y in (rd m (a + 2), rd m (a + 1), rd m a).

(** The byte [a] belongs to no pixel of the screen. *)
Definition off_picture (g : geometry) (a : Z) : Prop :=
  forall x y, visible g x y -> ~ (pixel_addr g x y <= a < pixel_addr g x y + gfx_bpp g).

Record paints (g : geometry) (P : Z -> Z -> option colour) (m m' : store) : Prop := {
  p_pixels : forall x y, visible g x y -> rgb_at g m' x y = default (rgb_at g m x y) (P x y);
  p_frame : forall a, off_picture g a -> rd m' a = rd m a;
}.

(** The colour a packed value stands for, and the value of a colour. *)
Definition unpack (color : Z) : colour := (red color, green color, blue color).
Definition pack (c : colour) : Z := let '(r, gr, b) := c in Z.lor (Z.lor (Z.shiftl r 16) (Z.shiftl gr 8)) b.

Lemma pack_bytes r gr b : is_u8 r -> is_u8 gr -> is_u8 b -> pack (r, gr, b) = r * 65536 + gr * 256 + b.
Proof.
  unfold is_u8, pack. intros Hr Hg Hb. rewrite !Z.shiftl_mul_pow2 by lia.
  change (2 ^ 16) with 65536. change (2 ^ 8) with 256.
  rewrite (lor_disjoint_add 16 (r * 65536)), (lor_disjoint_add 8); try lia.
  - change (2 ^ 8) with 256. replace (r * 65536 + gr * 256) with ((r * 256 + gr) * 256) by lia.
    by apply Z.mod_mul.
  - change (2 ^ 16) with 65536. by apply Z.mod_mul.
Qed.

Lemma components color : 0 <= color ->
  red color = color / 65536 mod 256 /\ green color = color / 256 mod 256 /\ blue color = color mod 256.
Proof.
  intros. unfold red, green, blue. rewrite !Z.shiftr_div_pow2 by lia. change 255 with (2 ^ 8 - 1).
  rewrite !land_low by lia. done.
Qed.

Lemma pack_unpack color : 0 <= color -> pack (unpack color) = color mod 16777216.
Proof.
  intros Hc. unfold unpack. destruct (components color Hc) as (-> & -> & ->).
  rewrite pack_bytes by (unfold is_u8; apply Z.mod_pos_bound; lia). dlia.
Qed.

Section Paint.
Context (g : geometry) (G : geometry_ok g).

Lemma pixel_addr_eq x y : visible g x y ->
  pixel_addr g x y = gfx_buffer g + y * gfx_pitch g + x * gfx_bpp g.
Proof.
  destruct G. intros [Hx Hy]. unfold pixel_addr, row_addr, wrap32, U32 in *.
  rewrite !Z.mod_small by nia. lia.
Qed.

Lemma row_pixel x y : visible g x y ->
  row_addr g y + wrap32 (wrap32 (x * gfx_bpp g) + 0) = pixel_addr g x y
  /\ row_addr g y + wrap32 (wrap32 (x * gfx_bpp g) + 1) = pixel_addr g x y + 1
  /\ row_addr g y + wrap32 (wrap32 (x * gfx_bpp g) + 2) = pixel_addr g x y + 2
  /\ (gfx_bpp g = 4 -> row_addr g y + wrap32 (wrap32 (x * gfx_bpp g) + 3) = pixel_addr g x y + 3).
Proof.
  destruct G. intros [Hx Hy]. unfold pixel_addr, wrap32, U32 in *.
  rewrite (Z.mod_small (x * gfx_bpp g)) by nia. rewrite !Z.mod_small by nia.
  split_and!; try intros; rewrite ?Z.mod_small by nia; lia.
Qed.

(** Different pixels have different bytes. *)
Lemma pixels_apart x y x' y' : visible g x y -> visible g x' y' -> (x, y) <> (x', y') ->
  pixel_addr g x y + gfx_bpp g <= pixel_addr g x' y' \/ pixel_addr g x' y' + gfx_bpp g <= pixel_addr g x y.
Proof.
  intros V V' Hne. rewrite !pixel_addr_eq by done. destruct G, V as [Hx Hy], V' as [Hx' Hy'].
  assert (y < y' \/ y' < y \/ (y = y' /\ (x < x' \/ x' < x))) as Hc.
  { destruct (Z.lt_trichotomy y y') as [?|[->|?]]; [auto| |auto]. right; right.
    split; [done|]. assert (x <> x') by congruence. lia. }
  destruct Hc as [?|[?|[-> [?|?]]]]; nia.
Qed.

Lemma on_screen_true x y : visible g x y -> on_screen g x y = true.
Proof. intros [? ?]. unfold on_screen. by rewrite !(proj2 (Z.ltb_lt _ _)) by lia. Qed.

Lemma on_screen_visible x y : 0 <= x -> 0 <= y -> on_screen g x y = true -> visible g x y.
Proof. unfold on_screen, visible. intros. rewrite andb_true_iff, !Z.ltb_lt in *. lia. Qed.

Lemma paints_nothing m : paints g (fun _ _ => None) m m.
Proof. by split. Qed.

Lemma put_bytes_rd a r gr b m c : ~ (a <= c < a + gfx_bpp g) -> rd (put_bytes g a r gr b m) c = rd m c.
Proof.
  destruct G. intros Hc. unfold put_bytes. destruct (Z.eqb_spec (gfx_bpp g) 4); rewrite !rd_wr_ne by lia; done.
Qed.

Lemma paints_put x y r gr b m : visible g x y ->
  paints g (fun x' y' => if decide ((x', y') = (x, y)) then Some (r, gr, b) else None) m
    (put_bytes g (pixel_addr g x y) r gr b m).
Proof.
  intros V. split.
  - intros x' y' V'. case_decide as Hd; simpl.
    + injection Hd as -> ->. unfold rgb_at, put_bytes. destruct (gfx_bpp g =? 4); rewrite !rd_wr;
        repeat case_decide; try lia; done.
    + pose proof (pixels_apart x y x' y' V V' ltac:(congruence)). destruct G.
      unfold rgb_at. rewrite !put_bytes_rd by lia. done.
  - intros a Ha. apply put_bytes_rd. by apply Ha.
Qed.

Lemma put_in_row_eq x y r gr b m : visible g x y ->
  put_in_row g (row_addr g y) x r gr b m = put_bytes g (pixel_addr g x y) r gr b m.
Proof.
  intros V. destruct (row_pixel x y V) as (E0 & E1 & E2 & E3). unfold put_in_row, put_bytes.
  rewrite E0, E1, E2. destruct (Z.eqb_spec (gfx_bpp g) 4); [|done]. by rewrite E3.
Qed.

Lemma paints_ext P Q m m' : (forall x y, visible g x y -> P x y = Q x y) -> paints g P m m' -> paints g Q m m'.
Proof. intros E [Hp Hf]. split; [|done]. intros. rewrite <- E by done. auto. Qed.

Lemma paints_trans P Q m m' m'' : paints g P m m' -> paints g Q m' m'' ->
  paints g (fun x y => match Q x y with Some c => Some c | None => P x y end) m m''.
Proof.
  intros [Hp Hf] [Hp' Hf']. split.
  - intros x y V. rewrite Hp' by done. destruct (Q x y); simpl; [done|auto].
  - intros. rewrite Hf' by done. auto.
Qed.

(** A loop paints what its rounds paint. *)
Lemma paints_loop a b (P : Z -> Z -> Z -> option colour) Q f m :
  (forall i m, a <= i < b -> paints g (P i) m (f i m)) ->
  (forall i x y c, a <= i < b -> visible g x y -> P i x y = Some c -> Q x y = Some c) ->
  (forall x y c, visible g x y -> Q x y = Some c -> exists i, a <= i < b /\ P i x y = Some c) ->
  paints g Q m (for_loop a b f m).
Proof.
  intros Hf Hpq Hqp.
  assert (forall x y, visible g x y ->
    ((exists j, a <= j < Z.max a b /\ P j x y <> None) -> Some (rgb_at g (for_loop a b f m) x y) = Q x y)
    /\ ((forall j, a <= j < Z.max a b -> P j x y = None) -> rgb_at g (for_loop a b f m) x y = rgb_at g m x y)) as H.
  { intros x y V. apply (for_loop_ind (fun i s =>
      ((exists j, a <= j < i /\ P j x y <> None) -> Some (rgb_at g s x y) = Q x y)
      /\ ((forall j, a <= j < i -> P j x y = None) -> rgb_at g s x y = rgb_at g m x y))).
    - split; [intros (j & Hj & _); lia|done].
    - intros i s Hi [H1 H2]. pose proof (p_pixels g _ _ _ (Hf i s Hi) x y V) as E.
      destruct (P i x y) as [c|] eqn:Ep; simpl in E.
      + split; [intros _; rewrite E; symmetry; by eapply Hpq|].
        intros Hn. by rewrite Hn in Ep by lia.
      + rewrite E. split.
        * intros (j & Hj & Hn). apply H1. exists j. split; [|done].
          destruct (decide (j = i)) as [->|]; [congruence|lia].
        * intros Hn. apply H2. intros. apply Hn. lia. }
  split.
  - intros x y V. destruct (H x y V) as [H1 H2]. destruct (Q x y) as [c|] eqn:Eq; simpl.
    + destruct (Hqp x y c V Eq) as (i & Hi & Hp). injection (H1 ltac:(exists i; split; [lia|congruence])). done.
    + apply H2. intros j Hj. destruct (P j x y) eqn:Ep; [|done].
      rewrite (Hpq j x y c ltac:(lia) V Ep) in Eq. done.
  - intros c Hc. apply (for_loop_ind (fun _ s => rd s c = rd m c)); [done|].
    intros i s Hi E. rewrite (p_frame g _ _ _ (Hf i s Hi) c Hc). exact E.
Qed.

(** * Rectangles *)

Definition in_rect (x y x_end y_end : Z) (c : colour) : Z -> Z -> option colour := fun i j =>
  if decide (x <= i < x_end /\ y <= j < y_end) then Some c else None.

Lemma paints_rect x y x_end y_end r gr b m :
  0 <= x -> 0 <= y -> x_end <= gfx_width g -> y_end <= gfx_height g ->
  paints g (in_rect x y x_end y_end (r, gr, b)) m
    (for_loop y y_end (fun j m => for_loop x x_end (fun i m => put_in_row g (row_addr g j) i r gr b m) m) m).
Proof.
  intros Hx Hy Hxe Hye.
  apply (paints_loop _ _ (fun j => in_rect x j x_end (j + 1) (r, gr, b))).
  - intros j m' Hj.
    apply (paints_loop _ _ (fun i i' j' => if decide ((i', j') = (i, j)) then Some (r, gr, b) else None)).
    + intros i m'' Hi. rewrite put_in_row_eq by (split; lia). apply paints_put. split; lia.
    + intros i x' y' c Hi _. unfold in_rect. repeat case_decide; simplify_eq; try done. lia.
    + intros x' y' c _. unfold in_rect. case_decide as Hd; [|done]. intros [= <-].
      exists x'. split; [lia|]. rewrite decide_True; [done|]. f_equal. lia.
  - intros i x' y' c Hi _. unfold in_rect. repeat case_decide; try done. lia.
  - intros x' y' c _. unfold in_rect. case_decide as Hd; [|done]. intros [= <-].
    exists y'. split; [lia|]. rewrite decide_True; [done|lia].
Qed.

Lemma clear_screen_paints r gr b m : paints g (fun _ _ => Some (r, gr, b)) m (gfx_clear_screen g r gr b m).
Proof.
  pose proof (paints_rect 0 0 (gfx_width g) (gfx_height g) r gr b m ltac:(lia) ltac:(lia) ltac:(lia) ltac:(lia)) as H.
  revert H. apply paints_ext. intros x y [? ?]. unfold in_rect. by rewrite decide_True by lia.
Qed.

Lemma draw_rect_paints x y w h r gr b m : 0 <= x -> 0 <= y -> 0 <= w -> 0 <= h ->
  paints g (in_rect x y (x + w) (y + h) (r, gr, b)) m (gfx_draw_rect g x y w h r gr b m).
Proof.
  intros Hx Hy Hw Hh. unfold gfx_draw_rect.
  set (xe := if gfx_width g <? x + w then gfx_width g else x + w).
  set (ye := if gfx_height g <? y + h then gfx_height g else y + h).
  assert (xe = Z.min (gfx_width g) (x + w)) as Ex by (unfold xe; destruct (Z.ltb_spec (gfx_width g) (x + w)); lia).
  assert (ye = Z.min (gfx_height g) (y + h)) as Ey by (unfold ye; destruct (Z.ltb_spec (gfx_height g) (y + h)); lia).
  assert (wrap16 xe = xe /\ wrap16 ye = ye) as [-> ->].
  { destruct G. unfold wrap16. rewrite !Z.mod_small by lia. done. }
  eapply paints_ext; [|apply paints_rect; lia].
  intros i j [? ?]. unfold in_rect. repeat case_decide; try done; lia.
Qed.

Lemma put_pixel_paints x y r gr b m : 0 <= x -> 0 <= y ->
  paints g (fun x' y' => if decide ((x', y') = (x, y)) then Some (r, gr, b) else None) m
    (gfx_put_pixel g x y r gr b m).
Proof.
  intros Hx Hy. unfold gfx_put_pixel. destruct (on_screen g x y) eqn:E.
  - apply paints_put. by apply on_screen_visible.
  - eapply paints_ext; [|apply paints_nothing]. intros x' y' V. case_decide as Hd; [|done].
    injection Hd as -> ->. by rewrite on_screen_true in E.
Qed.
End Paint.

(** * The picture as [lib.rs] reads it *)

Lemma read_pixel_rgb x y v : visible (geom v) x y -> get_pixel x y v = pack (rgb_at (geom v) (frame v) x y).
Proof. intros V. unfold get_pixel, read_pixel. by rewrite on_screen_true. Qed.

Lemma read_pixel_painted P v m' x y : geometry_ok (geom v) -> paints (geom v) P (frame v) m' -> visible (geom v) x y ->
  get_pixel x y (set_frame m' v) = match P x y with Some c => pack c | None => get_pixel x y v end.
Proof.
  intros G H V. rewrite !read_pixel_rgb by done. cbn [frame geom set_frame]. rewrite (p_pixels _ _ _ _ H) by done.
  by destruct (P x y).
Qed.

(** * The drawing operations *)

(** A rectangle of any position and size, clipped at the borders of the screen:
    its pixels read back as the colour, and every other pixel and every byte that
    belongs to no pixel keeps its value.  [clear] is the rectangle that covers the
    screen and [put_pixel] the one of a single pixel. *)
Theorem draw_rect_correct v x y w h color :
  geometry_ok (geom v) -> 0 <= x -> 0 <= y -> 0 <= w -> 0 <= h -> 0 <= color ->
  let rect := draw_rect x y w h color v in
  let dot := put_pixel x y color v in
  (forall i j, visible (geom v) i j ->
     get_pixel i j rect = (if decide (x <= i < x + w /\ y <= j < y + h) then color mod 16777216 else get_pixel i j v)
     /\ get_pixel i j dot = (if decide ((i, j) = (x, y)) then color mod 16777216 else get_pixel i j v)
     /\ get_pixel i j (clear color v) = color mod 16777216)
  /\ (forall a, off_picture (geom v) a ->
        rd (frame rect) a = rd (frame v) a /\ rd (frame dot) a = rd (frame v) a
        /\ rd (frame (clear color v)) a = rd (frame v) a)
  /\ (forall i j, 0 <= i -> 0 <= j -> ~ visible (geom v) i j ->
        is_valid_position i j v = false /\ get_pixel i j rect = 0 /\ put_pixel i j color v = v).
Proof.
  intros G Hx Hy Hw Hh Hc rect dot.
  pose proof (draw_rect_paints _ G x y w h (red color) (green color) (blue color) (frame v) Hx Hy Hw Hh) as R.
  pose proof (put_pixel_paints _ G x y (red color) (green color) (blue color) (frame v) Hx Hy) as D.
  pose proof (clear_screen_paints _ G (red color) (green color) (blue color) (frame v)) as C.
  split_and!.
  - intros i j V. split_and!.
    + etransitivity; [exact (read_pixel_painted _ v _ i j G R V)|].
      unfold in_rect. case_decide; [by apply (pack_unpack color)|done].
    + etransitivity; [exact (read_pixel_painted _ v _ i j G D V)|].
      case_decide; [by apply (pack_unpack color)|done].
    + etransitivity; [exact (read_pixel_painted _ v _ i j G C V)|]. by apply (pack_unpack color).
  - intros a Ha. split_and!; [exact (p_frame _ _ _ _ R a Ha)|exact (p_frame _ _ _ _ D a Ha)|exact (p_frame _ _ _ _ C a Ha)].
  - intros i j Hi Hj Hn. assert (on_screen (geom v) i j = false) as E.
    { destruct (on_screen (geom v) i j) eqn:E; [|done]. destruct Hn. by apply on_screen_visible. }
    unfold is_valid_position, is_valid_pixel_position, get_pixel, read_pixel, put_pixel, put_pixel_vga, on_frame, gfx_put_pixel.
    change (geom rect) with (geom v). rewrite !E. split_and!; try done. by destruct v.
Qed.

(** * Lines *)

(** A step of a line towards its end: one pixel along, across, or both. *)
Definition line_move (sx sy : Z) (p q : Z * Z) : Prop :=
  exists i j, (i = 0 \/ i = 1) /\ (j = 0 \/ j = 1) /\ (i, j) <> (0, 0) /\ q = (p.1 + sx * i, p.2 + sy * j).

Inductive line_path (sx sy : Z) : Z * Z -> Z * Z -> list (Z * Z) -> Prop :=
| lp_end p : line_path sx sy p p [p]
| lp_step p q e l : line_move sx sy p q -> line_path sx sy q e l -> line_path sx sy p e (p :: l).

(** Within half a pixel of the line from [(x0, y0)] to [(x1, y1)]. *)
Definition near_line (x0 y0 x1 y1 : Z) (p : Z * Z) : Prop :=
  2 * Z.abs (Z.abs (x1 - x0) * Z.abs (p.2 - y0) - Z.abs (y1 - y0) * Z.abs (p.1 - x0))
  <= Z.max (Z.abs (x1 - x0)) (Z.abs (y1 - y0)).

Definition is_s16 (x : Z) : Prop := -32768 <= x < 32768.

Lemma s16_small x : is_s16 x -> s16 x = x.
Proof. unfold is_s16, s16. intros. rewrite Z.mod_small by lia. lia. Qed.

Section Line.
Context (x0 y0 x1 y1 : Z) (Hx0 : is_s16 x0) (Hy0 : is_s16 y0) (Hx1 : is_s16 x1) (Hy1 : is_s16 y1).
Context (Hdx : Z.abs (x1 - x0) <= 10922) (Hdy : Z.abs (y1 - y0) <= 10922).
Notation dx := (Z.abs (x1 - x0)).
Notation dy := (Z.abs (y1 - y0)).
Notation sx := (if x0 <? x1 then 1 else -1).
Notation sy := (if y0 <? y1 then 1 else -1).

(** The pen after [i] steps along and [j] across. *)
Definition pen_at (i j : Z) : pen := mkPen (x0 + sx * i) (y0 + sy * j) (dx - dy + (dx * j - dy * i)).

Definition on_line (i j : Z) : Prop :=
  0 <= i <= dx /\ 0 <= j <= dy /\ 2 * Z.abs (dx * j - dy * i) <= Z.max dx dy.

Lemma line_error_bounded i j : on_line i j -> is_s16 (2 * pen_err (pen_at i j)).
Proof. unfold on_line, is_s16. simpl. intros (Hi & Hj & HD). lia. Qed.

Lemma along_range i : 0 <= i <= dx -> is_s16 (x0 + sx * i).
Proof. unfold is_s16 in *. destruct (Z.ltb_spec x0 x1); lia. Qed.

Lemma across_range j : 0 <= j <= dy -> is_s16 (y0 + sy * j).
Proof. unfold is_s16 in *. destruct (Z.ltb_spec y0 y1); lia. Qed.

(** Which steps are taken. *)
Lemma line_choice i j : on_line i j -> (i, j) <> (dx, dy) ->
  exists i' j', on_line i' j' /\ (i' = i \/ i' = i + 1) /\ (j' = j \/ j' = j + 1) /\ (i', j') <> (i, j)
    /\ (i' = i + 1 <-> - dy < 2 * (dx - dy + (dx * j - dy * i)))
    /\ (j' = j + 1 <-> 2 * (dx - dy + (dx * j - dy * i)) < dx).
Proof.
  unfold on_line. intros (Hi & Hj & HD) Hne.
  assert (0 <= dx) as H1 by lia. assert (0 <= dy) as H2 by lia.
  generalize dependent dx. generalize dependent dy. clear. intros dy _ Hj H2 dx _ Hi HD Hne H1.
  assert (i < dx \/ j < dy) as Hlt.
  { destruct (decide (i = dx)) as [->|]; [|lia]. destruct (decide (j = dy)) as [->|]; [by destruct Hne|lia]. }
  assert (- dy < 2 * (dx - dy + (dx * j - dy * i)) -> i < dx) as Ha.
  { intros Hc. destruct (decide (i = dx)) as [->|]; [|lia]. assert (j < dy) by lia.
    assert (dx * (j - dy + 1) <= 0) by nia. nia. }
  assert (2 * (dx - dy + (dx * j - dy * i)) < dx -> j < dy) as Hb.
  { intros Hc. destruct (decide (j = dy)) as [->|]; [|lia]. assert (i < dx) by lia.
    assert (0 <= dy * (dx - i - 1)) by nia. nia. }
  assert (dx = dy -> i = j) as Hd.
  { intros ->. destruct (decide (i = j)); [done|]. exfalso.
    assert (0 < dy) by lia. assert (dy <= Z.abs (dy * j - dy * i)).
    { replace (dy * j - dy * i) with (dy * (j - i)) by lia. rewrite Z.abs_mul. nia. } lia. }
  set (D := dx * j - dy * i) in *.
  assert (forall i' j', dx * j' - dy * i' = D + dx * (j' - j) - dy * (i' - i)) as HD'.
  { intros. unfold D. lia. }
  destruct (Z.lt_ge_cases (- dy) (2 * (dx - dy + D))) as [Ca|Ca],
    (Z.lt_ge_cases (2 * (dx - dy + D)) dx) as [Cb|Cb].
  - exists (i + 1), (j + 1). rewrite HD'. split_and!; try lia; intros [= ?]; lia.
  - exists (i + 1), j. rewrite HD'. split_and!; try lia; intros [= ?]; lia.
  - exists i, (j + 1). rewrite HD'. split_and!; try lia; intros [= ?]; lia.
  - exfalso. lia.
Qed.

Lemma line_step_at i j : on_line i j -> (i, j) <> (dx, dy) ->
  exists i' j', on_line i' j' /\ line_step dx dy sx sy (pen_at i j) = pen_at i' j'
    /\ line_move sx sy (x0 + sx * i, y0 + sy * j) (x0 + sx * i', y0 + sy * j') /\ i <= i' /\ j <= j' /\ i + j < i' + j'.
Proof.
  intros HL Hne. destruct (line_choice i j HL Hne) as (i' & j' & HL' & Hi & Hj & Hp & Ci & Cj).
  assert (i' <> i \/ j' <> j) by (destruct (decide (i' = i)) as [->|]; [right; congruence|by left]).
  exists i', j'. split; [exact HL'|]. split; [|split; [|lia]].
  - pose proof (line_error_bounded i j HL) as He. pose proof (line_error_bounded i' j' HL') as He'.
    pose proof (along_range i' ltac:(apply HL')). pose proof (across_range j' ltac:(apply HL')).
    unfold line_step. rewrite (s16_small _ He). unfold pen_at in *. cbn [pen_x pen_y pen_err] in *.
    set (E := dx - dy + (dx * j - dy * i)) in *.
    assert (is_s16 (E - dy)) by (unfold is_s16 in *; lia).
    destruct (Z.ltb_spec (- dy) (2 * E)); destruct (Z.ltb_spec (2 * E) dx); cbn [pen_x pen_y pen_err];
      repeat match goal with
      | H : ?k = ?k + 1 |- _ => exfalso; lia
      end.
    + assert (i' = i + 1) as -> by tauto. assert (j' = j + 1) as -> by tauto.
      rewrite ?(s16_small (E - dy)) by done.
      rewrite !s16_small; [f_equal; unfold E; lia|..]; unfold is_s16, E in *; lia.
    + assert (i' = i + 1) as -> by tauto. assert (j' = j) as -> by lia.
      rewrite ?(s16_small (E - dy)) by done.
      rewrite !s16_small; [f_equal; unfold E; lia|..]; unfold is_s16, E in *; lia.
    + assert (i' = i) as -> by lia. assert (j' = j + 1) as -> by tauto.
      rewrite ?(s16_small (E - dy)) by done.
      rewrite !s16_small; [f_equal; unfold E; lia|..]; unfold is_s16, E in *; lia.
    + exfalso. assert (i' = i) as -> by lia. assert (j' = j) as -> by lia. done.
  - exists (i' - i), (j' - j). split_and!; [lia|lia| |simpl; f_equal; lia].
    intros [= ? ?]. apply Hp. f_equal; lia.
Qed.

(** The loop draws a path of adjacent pixels to the end of the line. *)
Lemma line_loop_spec g (G : geometry_ok g) r gr b : gfx_width g < 32768 -> gfx_height g < 32768 ->
  forall n i j m, on_line i j -> dx - i + (dy - j) < Z.of_nat n ->
  exists l m', line_loop g n dx dy sx sy x1 y1 r gr b (pen_at i j) m = Some m'
    /\ line_path sx sy (x0 + sx * i, y0 + sy * j) (x1, y1) l
    /\ Forall (near_line x0 y0 x1 y1) l
    /\ paints g (fun x y => if decide ((x, y) ∈ l) then Some (r, gr, b) else None) m m'.
Proof.
  intros Hw Hh. induction n as [|n IH]; intros i j m HL Hn; [destruct HL; lia|]. simpl.
  set (m1 := if line_visible g (pen_at i j) then _ else m).
  assert (paints g (fun x y => if decide ((x, y) = (x0 + sx * i, y0 + sy * j)) then Some (r, gr, b) else None) m m1) as P1.
  { unfold m1, line_visible. cbn [pen_x pen_y pen_at].
    rewrite !s16_small by (destruct G; unfold is_s16; lia).
    destruct (_ && _) eqn:Ev.
    - apply paints_put; [done|]. rewrite !andb_true_iff, !Z.leb_le, !Z.ltb_lt in Ev. split; lia.
    - eapply paints_ext; [|by apply paints_nothing]. intros x y [? ?]. case_decide as Hd; [|done].
      injection Hd as -> ->. apply not_true_iff_false in Ev. destruct Ev.
      rewrite !andb_true_iff, !Z.leb_le, !Z.ltb_lt. lia. }
  assert (near_line x0 y0 x1 y1 (x0 + sx * i, y0 + sy * j)) as Hnear.
  { destruct HL as (Hi & Hj & HD). unfold near_line. simpl.
    replace (Z.abs (x0 + sx * i - x0)) with i by (destruct (Z.ltb_spec x0 x1); lia).
    replace (Z.abs (y0 + sy * j - y0)) with j by (destruct (Z.ltb_spec y0 y1); lia). exact HD. }
  destruct ((x0 + sx * i =? x1) && (y0 + sy * j =? y1)) eqn:Ee.
  - apply andb_true_iff in Ee as [E1%Z.eqb_eq E2%Z.eqb_eq].
    exists [(x1, y1)], m1. rewrite E1, E2 in *. split_and!; [done|constructor|by repeat constructor|].
    eapply paints_ext; [|exact P1]. intros x y _. simpl.
    destruct (decide ((x, y) = (x1, y1))) as [E|E];
      [rewrite decide_True; [done|set_solver]|rewrite decide_False; [done|set_solver]].
  - assert ((i, j) <> (dx, dy)) as Hne.
    { intros [= -> ->]. apply not_true_iff_false in Ee. apply Ee.
      apply andb_true_iff. split; apply Z.eqb_eq; [destruct (Z.ltb_spec x0 x1)|destruct (Z.ltb_spec y0 y1)]; lia. }
    destruct (line_step_at i j HL Hne) as (i' & j' & HL' & -> & Hmove & Hi' & Hj' & Hlt).
    destruct (IH i' j' m1 HL' ltac:(lia)) as (l & m' & -> & Hpath & Hall & P2).
    exists ((x0 + sx * i, y0 + sy * j) :: l), m'. split_and!; [done|by econstructor|by constructor|].
    eapply paints_ext; [|exact (paints_trans _ _ _ _ _ _ P1 P2)]. intros x y _. simpl.
    destruct (decide ((x, y) ∈ l)) as [E|E].
    + rewrite decide_True; [done|set_solver].
    + destruct (decide ((x, y) = (x0 + sx * i, y0 + sy * j))) as [E'|E'];
        [rewrite decide_True; [done|set_solver]|rewrite decide_False; [done|set_solver]].
Qed.
End Line.

(** C31. A line whose ends are at most 10922 apart in each direction is drawn and the
    loop ends: the pixels are a path of adjacent points from the one end to the
    other, each within half a pixel of the ideal line; the visible ones get the
    colour, and nothing else changes. *)
Theorem draw_line_correct v x0 y0 x1 y1 color fuel :
  geometry_ok (geom v) -> gfx_width (geom v) < 32768 -> gfx_height (geom v) < 32768 ->
  is_s16 x0 -> is_s16 y0 -> is_s16 x1 -> is_s16 y1 ->
  Z.abs (x1 - x0) <= 10922 -> Z.abs (y1 - y0) <= 10922 -> 0 <= color ->
  Z.abs (x1 - x0) + Z.abs (y1 - y0) < Z.of_nat fuel ->
  exists l v', draw_line fuel x0 y0 x1 y1 color v = Some v'
    /\ line_path (if x0 <? x1 then 1 else -1) (if y0 <? y1 then 1 else -1) (x0, y0) (x1, y1) l
    /\ Forall (near_line x0 y0 x1 y1) l
    /\ (forall i j, visible (geom v) i j ->
          get_pixel i j v' = if decide ((i, j) ∈ l) then color mod 16777216 else get_pixel i j v)
    /\ (forall a, off_picture (geom v) a -> rd (frame v') a = rd (frame v) a).
Proof.
  intros G Hw Hh Hx0 Hy0 Hx1 Hy1 Hdx Hdy Hc Hf.
  destruct (line_loop_spec x0 y0 x1 y1 Hx0 Hy0 Hx1 Hy1 Hdx Hdy (geom v) G (red color) (green color) (blue color)
    Hw Hh fuel 0 0 (frame v)) as (l & m' & E & Hpath & Hall & P); [unfold on_line; lia|lia|].
  exists l, (set_frame m' v). rewrite !Z.mul_0_r, !Z.add_0_r in Hpath. split_and!; [|exact Hpath|exact Hall| |].
  - unfold draw_line, draw_line_vga, gfx_draw_line, abs_i16.
    rewrite (s16_small (x1 - x0)), (s16_small (y1 - y0)) by (unfold is_s16; lia).
    replace (if x1 - x0 <? 0 then - (x1 - x0) else x1 - x0) with (Z.abs (x1 - x0))
      by (destruct (Z.ltb_spec (x1 - x0) 0); lia).
    replace (if y1 - y0 <? 0 then - (y1 - y0) else y1 - y0) with (Z.abs (y1 - y0))
      by (destruct (Z.ltb_spec (y1 - y0) 0); lia).
    rewrite !s16_small by (unfold is_s16; lia).
    unfold pen_at in E. rewrite !Z.mul_0_r, !Z.add_0_r in E. by rewrite E.
  - intros i j V. etransitivity; [exact (read_pixel_painted _ v _ i j G P V)|].
    case_decide; [by apply (pack_unpack color)|done].
  - exact (p_frame _ _ _ _ P).
Qed.

(** * Closed instances *)

Definition small_screen : video := set_geometry (mkGeometry 4096 96 24 32 4) (video_zero ∅ ∅).

Lemma small_screen_ok : geometry_ok (geom small_screen).
Proof. split; vm_compute; repeat split; discriminate. Qed.

Lemma draw_rect_correct_witness :
  get_pixel 5 6 (draw_rect 4 4 100 5 COLOR_ORANGE small_screen) = COLOR_ORANGE
  /\ get_pixel 3 6 (draw_rect 4 4 100 5 COLOR_ORANGE small_screen) = 0.
Proof.
  destruct (draw_rect_correct small_screen 4 4 100 5 COLOR_ORANGE small_screen_ok
    ltac:(lia) ltac:(lia) ltac:(lia) ltac:(lia) ltac:(discriminate)) as (P & _ & _).
  split.
  - etransitivity; [apply (P 5 6); vm_compute; repeat split; discriminate|]. vm_compute. reflexivity.
  - etransitivity; [apply (P 3 6); vm_compute; repeat split; discriminate|]. vm_compute. reflexivity.
Defined.

Lemma draw_line_correct_witness :
  exists l v', draw_line 23 20 3 3 (-2) COLOR_CYAN small_screen = Some v' /\ Forall (near_line 20 3 3 (-2)) l.
Proof.
  destruct (draw_line_correct small_screen 20 3 3 (-2) COLOR_CYAN 23 small_screen_ok) as (l & v' & E & _ & N & _);
    try (unfold is_s16; simpl; lia); [discriminate|].
  exists l, v'. split; [exact E|exact N].
Defined.
