(* ===== verification/VideoText.v ===== *)
(** Text on the screen: characters in graphics mode, and the text-mode screen
    as a terminal.

    In graphics mode the screen is a grid of cells that the cursor runs through
    and begins anew at the top ([Grid]); in text mode it shows the last 25 lines
    of all the text ([Terminal]). *)

From S2P Require Import Prelude Font Video VideoProps.

(** * Graphics mode *)

(** The colour of a pixel of the cell of a character. *)
Definition cell_colour (c col row : Z) : colour :=
  unpack (if has_bits (glyph_row (if 128 <=? c then 63 else c) row) (Z.shiftr 0x80 col)
          then text_fg_color else text_bg_color).

Definition in_cell (x y c : Z) : Z -> Z -> option colour := fun i j =>
  if decide (x <= i < x + CHAR_WIDTH /\ y <= j < y + CHAR_HEIGHT)
  then Some (cell_colour c (i - x) (j - y)) else None.

Lemma draw_char_paints g (G : geometry_ok g) x y c m :
  0 <= x -> 0 <= y -> x + CHAR_WIDTH <= gfx_width g -> y + CHAR_HEIGHT <= gfx_height g ->
  paints g (in_cell x y c) m (gfx_draw_char g x y c m).
Proof.
  unfold gfx_draw_char, CHAR_WIDTH, CHAR_HEIGHT. intros Hx Hy Hw Hh.
  apply (paints_loop _ _ _ (fun row i j =>
    if decide (x <= i < x + 8 /\ j = y + row) then Some (cell_colour c (i - x) row) else None)).
  - intros row m1 Hrow.
    apply (paints_loop _ _ _ (fun col i j =>
      if decide ((i, j) = (x + col, y + row)) then Some (cell_colour c col row) else None)).
    + intros col m2 Hcol. destruct G. unfold wrap16. rewrite !Z.mod_small by lia.
      rewrite on_screen_true by (split; lia). apply paints_put; [by split|split; lia].
    + intros col i j k Hcol _. case_decide as Hd; [|done]. injection Hd as -> ->. intros [= <-].
      rewrite decide_True by lia. do 2 f_equal. lia.
    + intros i j k _. case_decide as Hd; [|done]. intros [= <-]. exists (i - x). split; [lia|].
      rewrite decide_True; [done|]. f_equal; lia.
  - intros row i j k Hrow _. unfold in_cell, CHAR_WIDTH, CHAR_HEIGHT. case_decide as Hd; [|done]. intros [= <-].
    rewrite decide_True by lia. do 2 f_equal. lia.
  - intros i j k _. unfold in_cell, CHAR_WIDTH, CHAR_HEIGHT. case_decide as Hd; [|done]. intros [= <-].
    exists (j - y). split; [lia|]. rewrite decide_True by lia. done.
Qed.

Module Grid.
Record grid := mkGrid { col : Z; row : Z; cells : gmap (Z * Z) Z }.

Section Grid.
Context (cols rows : Z).

Definition newline (t : grid) : grid := mkGrid 0 (if row t + 1 <? rows then row t + 1 else 0) (cells t).
Definition put (c : Z) (t : grid) : grid :=
  if (c =? 10) || (c =? 13) then newline t
  else
    let t := mkGrid (col t + 1) (row t) (<[(col t, row t) := c]> (cells t)) in
    if cols <=? col t then newline t else t.
Definition cursor_ok (t : grid) : Prop := 0 <= col t < cols /\ 0 <= row t < rows.

Lemma newline_ok t : 0 < cols -> cursor_ok t -> cursor_ok (newline t).
Proof. unfold cursor_ok. simpl. intros ? [??]. destruct (Z.ltb_spec (row t + 1) rows); lia. Qed.

Lemma put_ok c t : cursor_ok t -> cursor_ok (put c t).
Proof.
  intros H. assert (0 < cols) by (destruct H; lia). unfold put.
  destruct (_ || _); [by apply newline_ok|]. simpl. destruct (Z.leb_spec cols (col t + 1)).
  - unfold cursor_ok, newline in *. simpl. destruct (Z.ltb_spec (row t + 1) rows); lia.
  - unfold cursor_ok in *. simpl. lia.
Qed.
End Grid.
End Grid.

Section Graphics.
Context (v0 : video).
Notation g := (geom v0).
Context (G : geometry_ok g) (Hw : CHAR_WIDTH <= gfx_width g) (Hh : CHAR_HEIGHT <= gfx_height g).
Notation cols := (gfx_width g / CHAR_WIDTH).
Notation rows := (gfx_height g / CHAR_HEIGHT).

(** The picture shows the cells of the grid, on the picture of before. *)
Record shows (t : Grid.grid) (v : video) : Prop := {
  sh_geom : geom v = g;
  sh_cursor : Grid.cursor_ok cols rows t;
  sh_x : text_cursor_x v = Grid.col t;
  sh_y : text_cursor_y v = Grid.row t * CHAR_HEIGHT;
  sh_mode : vga_textmode_active v = vga_textmode_active v0;
  sh_cells : vga_text_buf v = vga_text_buf v0;
  sh_picture : paints g (fun i j =>
    (fun c => cell_colour c (i mod CHAR_WIDTH) (j mod CHAR_HEIGHT))
      <$> Grid.cells t !! (i / CHAR_WIDTH, j / CHAR_HEIGHT)) (frame v0) (frame v);
}.

Lemma cells_fit c r : 0 <= c < cols -> 0 <= r < rows ->
  0 <= c * CHAR_WIDTH /\ c * CHAR_WIDTH + CHAR_WIDTH <= gfx_width g
  /\ 0 <= r * CHAR_HEIGHT /\ r * CHAR_HEIGHT + CHAR_HEIGHT <= gfx_height g.
Proof. unfold CHAR_WIDTH, CHAR_HEIGHT. intros. split_and!; dlia. Qed.

Lemma shows_newline t v : shows t v -> shows (Grid.newline rows t) (gfx_newline v).
Proof.
  intros [Hg [Hc Hr] Hx Hy Hm Ht Hp]. destruct (cells_fit _ _ Hc Hr) as (?&?&?&?).
  assert (0 < cols /\ 0 < rows) as [? ?] by (unfold CHAR_WIDTH, CHAR_HEIGHT in *; split; dlia).
  split; try done.
  - apply Grid.newline_ok; [done|by split].
  - simpl. rewrite Hg, Hy. unfold wrap16. destruct G. rewrite Z.mod_small by (unfold CHAR_HEIGHT in *; lia).
    unfold CHAR_HEIGHT in *.
    destruct (Z.ltb_spec (gfx_height g) (Grid.row t * 16 + 16 + 16)), (Z.ltb_spec (Grid.row t + 1) (gfx_height g / 16));
      dlia.
Qed.

Lemma shows_putchar c t v : c <> 0 -> shows t v -> shows (Grid.put cols rows c t) (gfx_putchar c v).
Proof.
  intros Hc0 S. unfold Grid.put, gfx_putchar. destruct (_ || _); [by apply shows_newline|].
  rewrite (proj2 (Z.eqb_neq c 0)) by done. destruct S as [Hg [Hc Hr] Hx Hy Hm Ht Hp].
  destruct (cells_fit _ _ Hc Hr) as (?&?&?&?).
  set (t' := Grid.mkGrid _ _ _).
  set (v' := set_cursor _ _ (on_frame _ v)).
  assert (geom v' = g /\ text_cursor_x v' = Grid.col t + 1 /\ text_cursor_y v' = Grid.row t * CHAR_HEIGHT)
    as (Hg' & Hx' & Hy').
  { subst v'. simpl. rewrite Hx. split_and!; [done| |done]. unfold wrap16. destruct G.
    unfold CHAR_WIDTH in *. apply Z.mod_small. lia. }
  assert (paints g (fun i j =>
    (fun c => cell_colour c (i mod CHAR_WIDTH) (j mod CHAR_HEIGHT))
      <$> Grid.cells t' !! (i / CHAR_WIDTH, j / CHAR_HEIGHT)) (frame v0) (frame v')) as Hp'.
  { subst v'. simpl. rewrite Hg, Hx, Hy.
    replace (wrap16 (Grid.col t * CHAR_WIDTH)) with (Grid.col t * CHAR_WIDTH)
      by (symmetry; apply Z.mod_small; destruct G; unfold CHAR_WIDTH in *; lia).
    eapply paints_ext; [|eapply paints_trans; [exact Hp|by apply draw_char_paints]].
    intros i j [? ?]. unfold in_cell. simpl. case_decide as Hd.
    - assert (i / CHAR_WIDTH = Grid.col t /\ j / CHAR_HEIGHT = Grid.row t) as [-> ->]
        by (unfold CHAR_WIDTH, CHAR_HEIGHT in *; split; dlia).
      rewrite lookup_insert_eq. simpl. do 2 f_equal; unfold CHAR_WIDTH, CHAR_HEIGHT in *; dlia.
    - rewrite lookup_insert_ne; [done|]. intros [= E1 E2]. apply Hd.
      unfold CHAR_WIDTH, CHAR_HEIGHT in *. dlia. }
  replace (wrap16 (gfx_width (geom v) / CHAR_WIDTH)) with cols.
  2:{ rewrite Hg. symmetry. apply Z.mod_small. destruct G. unfold CHAR_WIDTH. split; dlia. }
  rewrite Hx'. change (Grid.col t') with (Grid.col t + 1).
  destruct (Z.leb_spec cols (Grid.col t + 1)).
  - assert (shows (Grid.mkGrid (Grid.col t) (Grid.row t) (Grid.cells t')) (set_cursor (Grid.col t) (text_cursor_y v') v')) as S'.
    { split; try done. }
    exact (shows_newline _ _ S').
  - split; try done. unfold Grid.cursor_ok, t'. simpl. lia.
Qed.
End Graphics.

(** * Text mode *)

Module Terminal.
(** The lines that are complete, and the one the cursor is in. *)
Record term := mkTerm { finished : list (list Z); current : list Z }.

Definition empty : term := mkTerm [] [].
Definition lines (t : term) : list (list Z) := finished t ++ [current t].
Definition break (t : term) : term := mkTerm (lines t) [].
Definition put (t : term) (c : Z) : term :=
  if (c =? 10) || (c =? 13) then break t
  else
    let t := mkTerm (finished t) (current t ++ [c]) in
    if VGA_TEXT_COLS <=? Z.of_nat (length (current t)) then break t else t.

(** The character at a position of the screen: the screen shows the last
    [VGA_TEXT_ROWS] lines, with blanks after their ends. *)
Definition top (t : term) : nat := length (finished t) - 24.
Definition shown (t : term) (r k : nat) : Z := default 32 (default [] (lines t !! (top t + r)%nat) !! k).
End Terminal.
Import Terminal.

Definition cells_show (t : term) (m : store) : Prop :=
  forall r k, 0 <= r < VGA_TEXT_ROWS -> 0 <= k < VGA_TEXT_COLS ->
    rd m (r * VGA_TEXT_COLS + k) = text_cell (shown t (Z.to_nat r) (Z.to_nat k)).

Definition row_of (t : term) : Z := Z.min (Z.of_nat (length (finished t))) 24.

(** Cells outside the text buffer. *)
Definition same_outside (m m' : store) : Prop :=
  forall i, ~ (0 <= i < VGA_TEXT_ROWS * VGA_TEXT_COLS) -> rd m' i = rd m i.

Ltac text_unfold := unfold VGA_TEXT_ROWS, VGA_TEXT_COLS, row_of in *.

Lemma rd_shift a b d m i : 0 < d ->
  rd (for_loop a b (fun i m => wr m i (rd m (i + d))) m) i = if decide (a <= i < b) then rd m (i + d) else rd m i.
Proof.
  intros Hd.
  pose proof (for_loop_ind (fun j s => forall i, rd s i = if decide (a <= i < j) then rd m (i + d) else rd m i) a b
    (fun i m => wr m i (rd m (i + d))) m) as H. simpl in H.
  rewrite H; clear H; [repeat case_decide; lia || done|intros k; rewrite decide_False by lia; done|].
  intros j s Hj E k. rewrite rd_wr, !E. repeat case_decide; subst; try done; try lia.
Qed.

(** An empty line at the end shows as blanks. *)
Lemma line_after_break t n : default [] (lines (break t) !! n) = default [] (lines t !! n).
Proof.
  unfold break. unfold lines at 1. simpl. destruct (decide (n < length (lines t))%nat).
  - by rewrite lookup_app_l.
  - rewrite lookup_app_r, (lookup_ge_None_2 (lines t)) by lia. by destruct (n - _)%nat as [|[|]].
Qed.

Lemma next_row_shows t v :
  cells_show t (vga_text_buf v) -> vga_text_row v = row_of t ->
  let v' := text_next_row v in
  cells_show (break t) (vga_text_buf v') /\ vga_text_row v' = row_of (break t) /\ vga_text_col v' = 0
  /\ same_outside (vga_text_buf v) (vga_text_buf v') /\ geom v' = geom v /\ frame v' = frame v
  /\ text_cursor_x v' = text_cursor_x v /\ text_cursor_y v' = text_cursor_y v
  /\ vga_textmode_active v' = vga_textmode_active v.
Proof.
  intros Hm Hr v'. unfold cells_show in Hm. text_unfold.
  assert (length (finished (break t)) = S (length (finished t))) as Hl
    by (simpl; unfold lines; rewrite length_app; simpl; lia).
  assert (row_of (break t) = Z.min (Z.of_nat (S (length (finished t)))) 24) as Hrb by (unfold row_of; by rewrite Hl).
  assert (wrap8 (vga_text_row v + 1) = vga_text_row v + 1) as Hwrap
    by (rewrite Hr; apply Z.mod_small; lia).
  fold (row_of (break t)). rewrite Hrb. clear Hrb. subst v'. unfold text_next_row. simpl. rewrite Hwrap, Hr.
  destruct (Z.leb_spec VGA_TEXT_ROWS (Z.min (Z.of_nat (length (finished t))) 24 + 1)) as [Hs|Hs]; text_unfold.
  - assert (24 <= length (finished t))%nat as Hlen by lia.
    unfold vga_text_scroll, set_text. simpl. text_unfold. split_and!; try done; [|lia|].
    + intros r k Hrr Hk. text_unfold. unfold shown, top. rewrite Hl, line_after_break, rd_fill, rd_shift by lia.
      case_decide.
      * assert (r = 24) as -> by lia. rewrite (lookup_ge_None_2 (lines t)); [done|].
        unfold lines. rewrite length_app. simpl. lia.
      * rewrite decide_True by lia. replace (r * 80 + k + 80) with ((r + 1) * 80 + k) by lia.
        rewrite (Hm (r + 1) k) by lia. unfold shown, top. do 5 f_equal. lia.
    + intros i Hi. text_unfold. rewrite rd_fill, rd_shift by lia. by rewrite !decide_False by lia.
  - split_and!; try done; [|cbn [vga_text_row set_text]; lia].
    intros r k Hrr Hk. text_unfold. cbn [vga_text_buf set_text]. rewrite (Hm r k) by done. unfold shown, top.
    rewrite Hl, line_after_break. do 5 f_equal. lia.
Qed.

(** What the text screen shows of a terminal, on the state of before. *)
Record screen_of (v0 : video) (t : term) (v : video) : Prop := {
  so_cells : cells_show t (vga_text_buf v);
  so_row : vga_text_row v = row_of t;
  so_col : vga_text_col v = Z.of_nat (length (current t));
  so_width : (length (current t) < 80)%nat;
  so_mode : vga_textmode_active v = true;
  so_outside : same_outside (vga_text_buf v0) (vga_text_buf v);
  so_frame : frame v = frame v0 /\ geom v = geom v0;
}.

Lemma put_shown t c r k : (length (current t) < 80)%nat -> (r < 25)%nat ->
  shown (mkTerm (finished t) (current t ++ [c])) r k =
    if decide (r = Z.to_nat (row_of t) /\ k = length (current t)) then c else shown t r k.
Proof.
  intros Hc Hr. unfold shown, lines, top, row_of. simpl.
  destruct (decide (r = Z.to_nat (Z.min (Z.of_nat (length (finished t))) 24))) as [E|E].
  - assert ((length (finished t) - 24 + r)%nat = length (finished t)) as -> by lia.
    rewrite !list_lookup_middle by done. simpl. case_decide as Hk.
    + destruct Hk as [_ ->]. by rewrite list_lookup_middle.
    + assert (k <> length (current t)) by tauto. destruct (decide (k < length (current t))%nat).
      * by rewrite lookup_app_l.
      * rewrite (lookup_ge_None_2 (current t ++ [c])) by (rewrite length_app; simpl; lia).
        by rewrite (lookup_ge_None_2 (current t)) by lia.
  - rewrite decide_False by tauto. destruct (decide (length (finished t) - 24 + r < length (finished t))%nat).
    + by rewrite !lookup_app_l.
    + rewrite (lookup_ge_None_2 (finished t ++ [current t ++ [c]])) by (rewrite length_app; simpl; lia).
      by rewrite (lookup_ge_None_2 (finished t ++ [current t])) by (rewrite length_app; simpl; lia).
Qed.

Lemma putchar_shows v0 t v c : c <> 0 -> screen_of v0 t v -> screen_of v0 (put t c) (vga_text_putchar c v).
Proof.
  intros Hc0 [Hcells Hrow Hcol Hwidth Hmode Hout [Hf Hg]]. unfold put, vga_text_putchar. destruct (_ || _).
  { destruct (next_row_shows t v Hcells Hrow) as (H1 & H2 & H3 & H4 & H5 & H6 & _ & _ & H9).
    split; try done; [simpl; lia|congruence| |by rewrite H6, H5].
    intros i Hi. rewrite H4 by done. by apply Hout. }
  rewrite (proj2 (Z.eqb_neq c 0)) by done.
  set (t1 := mkTerm (finished t) (current t ++ [c])).
  set (v1 := set_text _ _ _ v).
  assert (vga_text_col v1 = Z.of_nat (length (current t1))) as Hcol1.
  { subst v1 t1. simpl. rewrite Hcol, length_app. simpl. unfold wrap8. rewrite Z.mod_small by lia. lia. }
  assert (0 <= row_of t < 25) by (unfold row_of; lia).
  assert (cells_show t1 (vga_text_buf v1)) as Hcells1.
  { intros r k Hr Hk. text_unfold. unfold v1, t1. simpl. rewrite rd_wr, put_shown, Hrow, Hcol by lia.
    unfold VGA_TEXT_COLS, row_of. case_decide as Hd.
    - rewrite decide_True by lia. done.
    - rewrite decide_False by lia. by apply Hcells. }
  assert (same_outside (vga_text_buf v0) (vga_text_buf v1)) as Hout1.
  { intros i Hi. unfold v1. simpl. rewrite rd_wr_ne; [by apply Hout|]. text_unfold. rewrite Hrow, Hcol. lia. }
  assert (vga_text_row v1 = row_of t1) as Hrow1 by exact Hrow.
  rewrite Hcol1. destruct (Z.leb_spec VGA_TEXT_COLS (Z.of_nat (length (current t1)))) as [Hl|Hl].
  - destruct (next_row_shows t1 v1 Hcells1 Hrow1) as (H1 & H2 & H3 & H4 & H5 & H6 & _ & _ & H9).
    split; try done; [simpl; lia|by rewrite H9| |by rewrite H6, H5].
    intros i Hi. rewrite H4 by done. by apply Hout1.
  - split; try done. text_unfold. lia.
Qed.

(** * Strings *)

Definition no_nul (s : list Z) : Prop := Forall (fun c => c <> 0) s.

Lemma each_char_terminated f s v : no_nul s ->
  each_char f (s ++ [0]) v = Some (fold_left (fun v c => f c v) s v).
Proof.
  intros H. revert v. induction H as [|c s Hc _ IH]; intros v; simpl; [done|].
  by rewrite (proj2 (Z.eqb_neq c 0)), IH.
Qed.

Lemma each_char_runs_over f s v : no_nul s -> each_char f s v = None.
Proof.
  intros H. revert v. induction H as [|c s Hc _ IH]; intros v; simpl; [done|].
  by rewrite (proj2 (Z.eqb_neq c 0)), IH.
Qed.

(** Printing several strings, one after the other. *)
Fixpoint print_all (ss : list (list Z)) (v : video) : option video :=
  match ss with
  | [] => Some v
  | s :: ss' => v ← video_print s v; print_all ss' v
  end.

Lemma init_shows_empty v : screen_of v Terminal.empty (init_textmode_fallback v).
Proof.
  split; try done; simpl; [|lia|].
  - intros r k Hr Hk. simpl. rewrite rd_fill. text_unfold. rewrite decide_True by lia. unfold shown, top.
    simpl. destruct (Z.to_nat r); simpl; by rewrite ?lookup_nil.
  - intros i Hi. simpl. rewrite rd_fill. text_unfold. by rewrite decide_False by lia.
Qed.

Lemma print_shows v0 t v s : no_nul s -> screen_of v0 t v ->
  exists v', video_print (s ++ [0]) v = Some v' /\ screen_of v0 (fold_left Terminal.put s t) v'.
Proof.
  intros Hs H. unfold video_print, writestring_vga. rewrite (so_mode _ _ _ H), each_char_terminated by done.
  eexists. split; [done|]. revert t v H. induction Hs as [|c s Hc _ IH]; intros t v H; simpl; [done|].
  apply IH. by apply putchar_shows.
Qed.

(** C27. After the fallback to text mode, whatever strings are printed, the screen is a
    terminal of 25 lines of 80 columns: it shows the last 25 lines of all the text
    (a line that reaches the last column is complete), blank after their ends; the
    cursor is on the screen; no other byte is written.  A string without its final
    0 makes the code read on. *)
Theorem text_screen_refines_terminal v ss s :
  Forall no_nul ss -> no_nul s ->
  exists v', print_all (map (fun s => s ++ [0]) ss) (init_textmode_fallback v) = Some v'
    /\ screen_of v (fold_left Terminal.put (concat ss) Terminal.empty) v'
    /\ 0 <= vga_text_row v' < VGA_TEXT_ROWS /\ 0 <= vga_text_col v' < VGA_TEXT_COLS
    /\ video_print s v' = None.
Proof.
  intros Hss Hs.
  assert (forall t w, screen_of v t w -> exists v',
    print_all (map (fun s => s ++ [0]) ss) w = Some v' /\ screen_of v (fold_left Terminal.put (concat ss) t) v') as H.
  { induction Hss as [|s1 ss Hs1 _ IH]; intros t w Hw; simpl; [by eexists|].
    destruct (print_shows v t w s1 Hs1 Hw) as (w' & E & Hw'). rewrite E. simpl.
    destruct (IH _ _ Hw') as (v' & E' & Hv'). exists v'. by rewrite fold_left_app. }
  destruct (H _ _ (init_shows_empty v)) as (v' & E & Hv'). exists v'. split; [exact E|]. split; [exact Hv'|].
  destruct Hv' as [_ Hr Hc Hw Hm _ _]. split; [|split].
  - rewrite Hr. text_unfold. lia.
  - rewrite Hc. text_unfold. lia.
  - unfold video_print, writestring_vga. rewrite Hm. by apply each_char_runs_over.
Qed.

(** * Readable glyphs *)

Definition printable : list Z := map Z.of_nat (seq 33 94).

Definition glyph (c : Z) : list Z := map (glyph_row c) (map Z.of_nat (seq 0 16)).

Lemma glyphs_distinct : NoDup (map glyph printable).
Proof. apply (bool_decide_unpack _). vm_compute. exact I. Qed.

Lemma glyph_rows_are_bytes : Forall (fun c => Forall is_u8 (glyph c)) printable.
Proof. apply (bool_decide_unpack _). vm_compute. exact I. Qed.

Lemma cell_colour_bit c col row : c < 128 -> 0 <= col < 8 ->
  cell_colour c col row = unpack (if Z.testbit (glyph_row c row) (7 - col) then text_fg_color else text_bg_color).
Proof.
  intros Hc Hcol. unfold cell_colour. rewrite (proj2 (Z.leb_gt 128 c)) by done.
  replace (Z.shiftr 128 col) with (bit (7 - col)).
  2:{ rewrite bit_pow, Z.shiftr_div_pow2 by lia. change 128 with (2 ^ 7). rewrite <- Z.pow_sub_r by lia. done. }
  unfold has_bits. rewrite land_bit_zero by lia. by rewrite negb_involutive.
Qed.

Lemma cell_determines_char c c' : c ∈ printable -> c' ∈ printable ->
  (forall col row, 0 <= col < CHAR_WIDTH -> 0 <= row < CHAR_HEIGHT -> cell_colour c col row = cell_colour c' col row) ->
  c = c'.
Proof.
  intros Hc Hc' H.
  assert (forall k, k ∈ printable -> 33 <= k < 127) as Hr
    by (intros k; unfold printable; rewrite list_elem_of_fmap; intros (n & -> & Hn%elem_of_seq); lia).
  pose proof (Hr c Hc). pose proof (Hr c' Hc').
  apply list_elem_of_lookup in Hc as (i & Hi). apply list_elem_of_lookup in Hc' as (j & Hj).
  enough (i = j) as -> by congruence.
  pose proof (Forall_lookup_1 _ _ _ _ glyph_rows_are_bytes Hi) as B.
  pose proof (Forall_lookup_1 _ _ _ _ glyph_rows_are_bytes Hj) as B'. cbv beta in B, B'.
  eapply (NoDup_lookup _ i j _ glyphs_distinct); rewrite list_lookup_fmap, ?Hi, ?Hj; [done|]. cbn [fmap option_fmap option_map].
  f_equal. symmetry. unfold glyph. apply map_ext_in. intros row (n & <- & Hn%in_seq)%in_map_iff.
  assert (is_u8 (glyph_row c (Z.of_nat n)) /\ is_u8 (glyph_row c' (Z.of_nat n))) as [U U'].
  { unfold glyph in B, B'. rewrite !Forall_map, Forall_seq in B, B'. split; [apply B|apply B']; lia. }
  apply (bits_eq_below 8); [exact U|exact U'|]. intros b Hb.
  pose proof (H (7 - b) (Z.of_nat n)) as E. unfold CHAR_WIDTH, CHAR_HEIGHT in E.
  rewrite !cell_colour_bit in E by lia. replace (7 - (7 - b)) with b in E by lia.
  specialize (E ltac:(lia) ltac:(lia)). repeat destruct (Z.testbit _ _); done.
Qed.

Lemma pack_cell_colour c c' col row : pack (cell_colour c col row) = pack (cell_colour c' col row) ->
  cell_colour c col row = cell_colour c' col row.
Proof. unfold cell_colour. destruct (has_bits (glyph_row (if 128 <=? c then _ else _) _) _), (has_bits _ _); vm_compute; done. Qed.

Lemma print_all_shows v0 (G : geometry_ok (geom v0)) ss t v :
  CHAR_WIDTH <= gfx_width (geom v0) -> CHAR_HEIGHT <= gfx_height (geom v0) ->
  Forall no_nul ss -> vga_textmode_active v0 = false -> shows v0 t v ->
  exists v', print_all (map (fun s => s ++ [0]) ss) v = Some v'
    /\ shows v0 (fold_left (fun t c => Grid.put (gfx_width (geom v0) / CHAR_WIDTH)
                              (gfx_height (geom v0) / CHAR_HEIGHT) c t) (concat ss) t) v'.
Proof.
  intros Hw Hh Hss Hm. revert t v. induction Hss as [|s ss Hs _ IH]; intros t v H; simpl; [by eexists|].
  unfold video_print, writestring_vga, gfx_puts. rewrite (sh_mode _ _ _ H), Hm, each_char_terminated by done. simpl.
  rewrite fold_left_app. apply IH. revert t v H. induction Hs as [|c s Hc _ IHs]; intros t v H; simpl; [done|].
  apply IHs. by apply shows_putchar.
Qed.

(** Text in graphics mode: the screen is a grid of cells of 8 by 16 pixels, which
    the cursor runs through line by line and begins anew at the top.  The picture
    is the glyphs of the characters last written to each cell, on the picture of
    before; no byte outside the picture changes, and a printable character can be
    read back from its cell. *)
Theorem graphics_text_correct v ss c0 r0 :
  geometry_ok (geom v) -> CHAR_WIDTH <= gfx_width (geom v) -> CHAR_HEIGHT <= gfx_height (geom v) ->
  vga_textmode_active v = false -> Forall no_nul ss ->
  let cols := gfx_width (geom v) / CHAR_WIDTH in
  let rows := gfx_height (geom v) / CHAR_HEIGHT in
  Grid.cursor_ok cols rows (Grid.mkGrid c0 r0 ∅) ->
  text_cursor_x v = c0 -> text_cursor_y v = r0 * CHAR_HEIGHT ->
  let t := fold_left (fun t c => Grid.put cols rows c t) (concat ss) (Grid.mkGrid c0 r0 ∅) in
  exists v', print_all (map (fun s => s ++ [0]) ss) v = Some v'
    /\ shows v t v'
    /\ (forall i j, visible (geom v) i j ->
          get_pixel i j v' = match Grid.cells t !! (i / CHAR_WIDTH, j / CHAR_HEIGHT) with
                             | Some c => pack (cell_colour c (i mod CHAR_WIDTH) (j mod CHAR_HEIGHT))
                             | None => get_pixel i j v
                             end)
    /\ (forall col row c c', 0 <= col < cols -> 0 <= row < rows -> Grid.cells t !! (col, row) = Some c ->
          c ∈ printable -> c' ∈ printable ->
          (forall i j, 0 <= i < CHAR_WIDTH -> 0 <= j < CHAR_HEIGHT ->
             get_pixel (col * CHAR_WIDTH + i) (row * CHAR_HEIGHT + j) v' = pack (cell_colour c' i j)) ->
          c' = c).
Proof.
  intros G Hw Hh Hm Hss cols rows Hcur Hx Hy t.
  assert (shows v (Grid.mkGrid c0 r0 ∅) v) as S0.
  { by split. }
  destruct (print_all_shows v G ss _ v Hw Hh Hss Hm S0) as (v' & E & S). exists v'.
  assert (forall i j, visible (geom v) i j ->
    get_pixel i j v' = match Grid.cells t !! (i / CHAR_WIDTH, j / CHAR_HEIGHT) with
                       | Some c => pack (cell_colour c (i mod CHAR_WIDTH) (j mod CHAR_HEIGHT))
                       | None => get_pixel i j v
                       end) as Hpix.
  { intros i j V. pose proof (sh_geom _ _ _ S) as Hg.
    rewrite (read_pixel_rgb i j v) by exact V.
    rewrite (read_pixel_rgb i j v') by (rewrite Hg; exact V). rewrite Hg, (p_pixels _ _ _ _ (sh_picture _ _ _ S)) by done.
    fold cols rows t. by destruct (Grid.cells t !! _). }
  split; [exact E|]. split; [exact S|]. split; [exact Hpix|].
  intros col row c c' Hc Hr Hcell Hp Hp' Hread. apply cell_determines_char; [done..|].
  intros i j Hi Hj. apply pack_cell_colour. destruct (cells_fit v col row Hc Hr) as (?&?&?&?).
  apply eq_sym. rewrite <- (Hread i j Hi Hj), Hpix by (split; unfold CHAR_WIDTH, CHAR_HEIGHT in *; lia).
  assert ((col * CHAR_WIDTH + i) / CHAR_WIDTH = col /\ (row * CHAR_HEIGHT + j) / CHAR_HEIGHT = row
    /\ (col * CHAR_WIDTH + i) mod CHAR_WIDTH = i /\ (row * CHAR_HEIGHT + j) mod CHAR_HEIGHT = j) as (-> & -> & -> & ->)
    by (unfold CHAR_WIDTH, CHAR_HEIGHT in *; split_and!; dlia).
  by rewrite Hcell.
Qed.

(** * Closed instances *)

Definition greeting : list Z := [72; 105; 10; 33].

Lemma text_screen_refines_terminal_witness :
  exists v', print_all [greeting ++ [0]] (init_textmode_fallback (video_zero ∅ ∅)) = Some v'
    /\ rd (vga_text_buf v') 80 = 0x0F21 /\ vga_text_row v' = 1 /\ video_print [72] v' = None.
Proof.
  assert (Forall no_nul [greeting]) as H1 by (repeat constructor; discriminate).
  assert (no_nul [72]) as H2 by (repeat constructor; discriminate).
  destruct (text_screen_refines_terminal (video_zero ∅ ∅) [greeting] [72] H1 H2) as (v' & E & S & _ & _ & N).
  exists v'. split; [exact E|]. split; [|split; [|exact N]].
  - etransitivity; [exact (so_cells _ _ _ S 1 0 ltac:(text_unfold; lia) ltac:(text_unfold; lia))|]. reflexivity.
  - etransitivity; [exact (so_row _ _ _ S)|]. reflexivity.
Defined.

Lemma graphics_text_correct_witness :
  let v := set_geometry (mkGeometry 4096 96 24 32 4) (video_zero ∅ ∅) in
  exists v', print_all [greeting ++ [0]] v = Some v' /\ get_pixel 0 4 v' = 16777215 /\ get_pixel 2 4 v' = 0.
Proof.
  set (v := set_geometry _ _).
  assert (geometry_ok (geom v)) as G by (split; vm_compute; repeat split; discriminate).
  assert (Forall no_nul [greeting]) as H1 by (repeat constructor; discriminate).
  destruct (graphics_text_correct v [greeting] 0 0 G) as (v' & E & _ & P & _);
    [unfold CHAR_WIDTH; simpl; lia|unfold CHAR_HEIGHT; simpl; lia|reflexivity|exact H1
    |vm_compute; repeat split; discriminate|reflexivity|reflexivity|].
  exists v'. split; [exact E|]. split.
  - etransitivity; [apply (P 0 4); vm_compute; repeat split; discriminate|]. vm_compute. reflexivity.
  - etransitivity; [apply (P 2 4); vm_compute; repeat split; discriminate|]. vm_compute. reflexivity.
Defined.
