(* ===== verification/VideoMod.v ===== *)
(** The video interface as [drivers/video/video.rs] writes it, which is not the one
    that is built ([drivers/video/lib.rs]): other names, a start that differs, and the
    three batch writers with their guards. *)

From S2P Require Import Prelude Font Video VideoProps.

Module VideoRs.
Record Pixel := mkPixel { x : Z; y : Z; r : Z; g : Z; b : Z }.
Record PixelRgb := mkPixelRgb { rx : Z; ry : Z; color : Z }.

Definition Pixel_new (x y r g b : Z) : Pixel := mkPixel x y r g b.
Definition from_rgb (x y color : Z) : Pixel :=
  mkPixel x y (wrap8 (Z.land (Z.shiftr color 16) 0xFF)) (wrap8 (Z.land (Z.shiftr color 8) 0xFF))
    (wrap8 (Z.land color 0xFF)).
Definition to_rgb (p : Pixel) : Z := Z.lor (Z.lor (Z.shiftl (r p) 16) (Z.shiftl (g p) 8)) (b p).
Definition PixelRgb_new (x y color : Z) : PixelRgb := mkPixelRgb x y color.
Definition SENTINEL : PixelRgb := mkPixelRgb 0xFFFF 0 0.

(** The layout that the C code reads: the same fields in the same order. *)
Definition c_pixel (p : Pixel) : Video.Pixel := Video.mkPixel (x p) (y p) (r p) (g p) (b p).
Definition c_pixel_rgb (p : PixelRgb) : Video.PixelRgb := Video.mkPixelRgb (rx p) (ry p) (color p).

(** * The frame buffer, the start, text *)

Definition set_framebuffer (addr pitch width height bpp : Z) : video -> video :=
  set_framebuffer_info addr pitch width height bpp.
Definition get_framebuffer (v : video) : Z := wrap32 (gfx_buffer (geom v)).
Definition width (v : video) : Z := gfx_width (geom v).
Definition height (v : video) : Z := gfx_height (geom v).
Definition init : video -> video := initialize_vga_video.
Definition init_graphics : video -> video := initialize_vga_graphics.
Definition print (s : list Z) : video -> option video := writestring_vga s.

(** * Drawing *)

Definition put_pixel (x y color : Z) : video -> video := put_pixel_vga x y color.
Definition clear (color : Z) : video -> video := clear_screen_vga color.
Definition draw_rect (x y w h color : Z) : video -> video := draw_rect_vga x y w h color.
Definition draw_line (fuel : nat) (x0 y0 x1 y1 color : Z) : video -> option video :=
  draw_line_vga fuel x0 y0 x1 y1 color.

(** * Pixels *)

Definition write_pixel_rgb_components (x y r g b : Z) : video -> video := on_frame (fun geo => gfx_put_pixel geo x y r g b).
Definition write_pixel_packed (x y color : Z) : video -> video := put_pixel_vga x y color.
Definition write_from_struct (p : Pixel) : video -> video := write_pixel_struct (c_pixel p).
Definition read_pixel_color (x y : Z) : video -> Z := read_pixel x y.
Definition is_valid_position (x y : Z) (v : video) : bool := negb (is_valid_pixel_position x y v =? 0).

Definition is_empty {A} (l : list A) : bool := Nat.eqb (length l) 0.

Definition write_pixels_batch (pixels : list Pixel) (v : video) : video :=
  if negb (is_empty pixels) then write_pixels (map c_pixel pixels) (Z.to_nat (wrap32 (Z.of_nat (length pixels)))) v
  else v.

(** [None]: the C loop has found no end and reads behind the slice. *)
Definition write_pixels_rgb_batch (pixels : list PixelRgb) (v : video) : option video :=
  if negb (is_empty pixels) then write_pixels_rgb (map c_pixel_rgb pixels) v else Some v.

(** [write_pixels_arrays] of [vga.c]: three arrays, up to the sentinel among the
    first. *)
Fixpoint write_pixels_arrays (x_coords y_coords colors : list Z) (v : video) : option video :=
  match x_coords with
  | [] => None
  | x :: xs =>
      if x =? 0xFFFF then Some v
      else match y_coords, colors with
           | y :: ys, c :: cs => write_pixels_arrays xs ys cs (put_pixel_vga x y c v)
           | _, _ => None
           end
  end.

Definition write_pixels_from_arrays (x_coords y_coords colors : list Z) (v : video) : option video :=
  if negb (is_empty x_coords) && Nat.eqb (length x_coords) (length y_coords)
     && Nat.eqb (length y_coords) (length colors)
  then write_pixels_arrays x_coords y_coords colors v
  else Some v.

Definition COLOR_BLACK : Z := 0x000000.
Definition COLOR_WHITE : Z := 0xFFFFFF.
Definition COLOR_RED : Z := 0xFF0000.
Definition COLOR_GREEN : Z := 0x00FF00.
Definition COLOR_BLUE : Z := 0x0000FF.
Definition COLOR_YELLOW : Z := 0xFFFF00.
Definition COLOR_CYAN : Z := 0x00FFFF.
Definition COLOR_MAGENTA : Z := 0xFF00FF.
Definition COLOR_GRAY : Z := 0x808080.
Definition COLOR_DARK_GRAY : Z := 0x404040.
Definition COLOR_LIGHT_GRAY : Z := 0xC0C0C0.
Definition COLOR_ORANGE : Z := 0xFF8000.
Definition COLOR_PURPLE : Z := 0x800080.
End VideoRs.

(** * The batch writers *)

(** One pixel after the other. *)
Definition put_all (ps : list (Z * Z * Z)) (v : video) : video :=
  fold_left (fun v '(x, y, c) => put_pixel_vga x y c v) ps v.

(** The picture of a list of pixels: the last one at a position counts. *)
Definition picture (ps : list (Z * Z * Z)) (i j : Z) : option colour :=
  (fun '(_, _, c) => unpack c) <$> last (filter (fun '(x, y, _) => (x, y) = (i, j)) ps).

(** The entries before the first one with the sentinel, if there is one. *)
Fixpoint before_sentinel (ps : list (Z * Z * Z)) : option (list (Z * Z * Z)) :=
  match ps with
  | [] => None
  | (x, y, c) :: ps' => if x =? 0xFFFF then Some [] else cons (x, y, c) <$> before_sentinel ps'
  end.

Definition packed (p : VideoRs.PixelRgb) : Z * Z * Z := (VideoRs.rx p, VideoRs.ry p, VideoRs.color p).
Definition packed_pixel (p : VideoRs.Pixel) : Z * Z * Z := (VideoRs.x p, VideoRs.y p, VideoRs.to_rgb p).
Definition zip3 (xs ys cs : list Z) : list (Z * Z * Z) := zip (zip xs ys) cs.

Lemma put_paints v x y c : geometry_ok (geom v) -> 0 <= x -> 0 <= y ->
  paints (geom v) (fun i j => if decide ((x, y) = (i, j)) then Some (unpack c) else None) (frame v)
    (frame (put_pixel_vga x y c v)).
Proof.
  intros G Hx Hy. unfold put_pixel_vga, on_frame, gfx_put_pixel. cbn [frame set_frame].
  destruct (on_screen (geom v) x y) eqn:E.
  - eapply paints_ext; [|apply (paints_put _ G); by apply on_screen_visible]. intros i j _. cbv beta.
    by destruct (decide ((i, j) = (x, y))), (decide ((x, y) = (i, j))); congruence || done.
  - eapply paints_ext; [|apply paints_nothing]. intros i j V. cbv beta. case_decide as Hd; [|done].
    injection Hd as -> ->. by rewrite (on_screen_true _ _ _ V) in E.
Qed.

Lemma put_all_paints ps v : geometry_ok (geom v) -> Forall (fun '(x, y, _) => 0 <= x /\ 0 <= y) ps ->
  paints (geom v) (picture ps) (frame v) (frame (put_all ps v)) /\ geom (put_all ps v) = geom v.
Proof.
  intros G H. revert v G. induction H as [|[[x y] c] ps [Hx Hy] _ IH]; intros v G; cbn [put_all fold_left];
    [by split; [apply paints_nothing|]|].
  destruct (IH (put_pixel_vga x y c v) G) as [Hp Hg]. split; [|exact Hg].
  eapply paints_ext; [|eapply paints_trans; [exact (put_paints v x y c G Hx Hy)|exact Hp]].
  intros i j _. cbv beta. unfold picture. rewrite filter_cons.
  destruct (decide ((x, y) = (i, j))) as [E|E].
  - rewrite last_cons. by destruct (last _).
  - by destruct (last _).
Qed.

Lemma rgb_batch_run ps v : write_pixels_rgb (map VideoRs.c_pixel_rgb ps) v
  = (fun qs => put_all qs v) <$> before_sentinel (map packed ps).
Proof.
  revert v. induction ps as [|p ps IH]; intros v; cbn; [done|]. destruct (VideoRs.rx p =? 0xFFFF); [done|].
  rewrite IH. by destruct (before_sentinel (map packed ps)).
Qed.

Lemma arrays_run xs ys cs v : length xs = length ys -> length ys = length cs ->
  VideoRs.write_pixels_arrays xs ys cs v = (fun qs => put_all qs v) <$> before_sentinel (zip3 xs ys cs).
Proof.
  revert ys cs v. induction xs as [|x xs IH]; intros [|y ys] [|c cs] v H1 H2; cbn in *; try done.
  destruct (x =? 0xFFFF); [done|]. rewrite IH by lia. unfold zip3. by destruct (before_sentinel _).
Qed.

Lemma components_of_pixel p : is_u8 (VideoRs.r p) -> is_u8 (VideoRs.g p) -> is_u8 (VideoRs.b p) ->
  unpack (VideoRs.to_rgb p) = (VideoRs.r p, VideoRs.g p, VideoRs.b p).
Proof.
  intros Hr Hg Hb. pose proof (pack_bytes _ _ _ Hr Hg Hb) as E. unfold pack in E. unfold VideoRs.to_rgb, unpack.
  rewrite E. unfold is_u8 in *. destruct (components (VideoRs.r p * 65536 + VideoRs.g p * 256 + VideoRs.b p)) as (-> & -> & ->); [lia|].
  f_equal; [f_equal|]; dlia.
Qed.

Definition bytes_ok (p : VideoRs.Pixel) : Prop := is_u8 (VideoRs.r p) /\ is_u8 (VideoRs.g p) /\ is_u8 (VideoRs.b p).

Lemma struct_batch_run ps v : Forall bytes_ok ps ->
  write_pixels (map VideoRs.c_pixel ps) (length ps) v = put_all (map packed_pixel ps) v.
Proof.
  intros H. revert v. induction H as [|p ps (Hr & Hg & Hb) _ IH]; intros v; cbn; [done|].
  rewrite IH. f_equal. unfold put_pixel_vga, write_pixel_struct. cbn [Video.px Video.py Video.pr Video.pg Video.pb VideoRs.c_pixel].
  pose proof (components_of_pixel p Hr Hg Hb) as E. unfold unpack in E. by injection E as -> -> ->.
Qed.

(** The bounds of the batch writers of [video.rs].  The one that takes a count
    draws the whole slice; the two that take a sentinel draw the pixels before the
    first x of 0xFFFF and read nothing behind it, and without one among the elements
    they run over the end of the slice - the arrays of unequal lengths, and empty
    slices, are refused untouched.  What is drawn is the picture of the list: the
    last pixel at a position counts, pixels off the screen are skipped, and no other
    byte is written. *)
Theorem batch_writes_bounded v ps rs xs ys cs :
  geometry_ok (geom v) ->
  Forall (fun p => 0 <= VideoRs.x p /\ 0 <= VideoRs.y p /\ bytes_ok p) ps -> Z.of_nat (length ps) < U32 ->
  let drawn qs w := paints (geom v) (picture qs) (frame v) (frame w) /\ geom w = geom v in
  let outcome qs r := match before_sentinel qs with
                      | Some qs' => Forall (fun '(x, y, _) => 0 <= x /\ 0 <= y) qs' -> exists w, r = Some w /\ drawn qs' w
                      | None => qs <> [] -> r = None
                      end in
  drawn (map packed_pixel ps) (VideoRs.write_pixels_batch ps v)
  /\ outcome (map packed rs) (VideoRs.write_pixels_rgb_batch rs v)
  /\ (length xs = length ys -> length ys = length cs ->
        outcome (zip3 xs ys cs) (VideoRs.write_pixels_from_arrays xs ys cs v))
  /\ (~ (length xs = length ys /\ length ys = length cs) -> VideoRs.write_pixels_from_arrays xs ys cs v = Some v).
Proof.
  intros G Hps Hn drawn outcome.
  assert (forall qs, outcome qs ((fun qs' => put_all qs' v) <$> before_sentinel qs)) as Hout.
  { intros qs. unfold outcome. destruct (before_sentinel qs) as [qs'|]; [|done]. intros Hf.
    eexists. split; [done|]. by apply put_all_paints. }
  split_and!.
  - assert (VideoRs.write_pixels_batch ps v = put_all (map packed_pixel ps) v) as ->.
    { unfold VideoRs.write_pixels_batch, wrap32. rewrite Z.mod_small, Nat2Z.id by lia.
      rewrite struct_batch_run by (eapply Forall_impl; [exact Hps|]; by intros p (_ & _ & ?)).
      by destruct ps. }
    apply put_all_paints; [done|]. apply Forall_map. eapply Forall_impl; [exact Hps|]. by intros p (? & ? & _).
  - unfold VideoRs.write_pixels_rgb_batch. destruct rs as [|r rs]; [by intros []|]. cbn [VideoRs.is_empty length Nat.eqb negb].
    rewrite rgb_batch_run. apply Hout.
  - intros H1 H2. unfold VideoRs.write_pixels_from_arrays. rewrite (proj2 (Nat.eqb_eq _ _) H1), (proj2 (Nat.eqb_eq _ _) H2).
    destruct xs as [|x xs]; [by intros []|]. cbn [VideoRs.is_empty length Nat.eqb negb andb].
    rewrite arrays_run by done. apply Hout.
  - intros Hne. unfold VideoRs.write_pixels_from_arrays.
    destruct (Nat.eqb_spec (length xs) (length ys)), (Nat.eqb_spec (length ys) (length cs)); try tauto;
      by rewrite ?andb_false_r.
Qed.

(** * A closed instance *)

Lemma batch_writes_bounded_witness :
  let v := set_geometry (mkGeometry 4096 96 24 32 4) (video_zero ∅ ∅) in
  exists w, VideoRs.write_pixels_from_arrays [1; 1; 0xFFFF; 7] [2; 2; 0; 7] [255; 0xFF8000; 0; 1] v = Some w
    /\ rgb_at (geom v) (frame w) 1 2 = (255, 128, 0) /\ rgb_at (geom v) (frame w) 7 7 = (0, 0, 0)
    /\ VideoRs.write_pixels_rgb_batch [VideoRs.PixelRgb_new 1 2 255] v = None
    /\ VideoRs.write_pixels_from_arrays [1] [2; 2] [255] v = Some v.
Proof.
  set (v := set_geometry _ _).
  assert (geometry_ok (geom v)) as G by (split; vm_compute; repeat split; discriminate).
  destruct (batch_writes_bounded v [] [VideoRs.PixelRgb_new 1 2 255] [1; 1; 0xFFFF; 7] [2; 2; 0; 7]
    [255; 0xFF8000; 0; 1] G (Forall_nil_2 _) ltac:(reflexivity)) as (_ & Hr & Ha & _).
  destruct (batch_writes_bounded v [] [] [1] [2; 2] [255] G (Forall_nil_2 _) ltac:(reflexivity)) as (_ & _ & _ & Hn).
  destruct (Ha eq_refl eq_refl) as (w & E & [Hp _] & _).
  { repeat (apply Forall_cons; split; [split; discriminate|]). exact (Forall_nil_2 _). }
  exists w. split; [exact E|]. split; [|split; [|split]].
  - etransitivity; [apply Hp; vm_compute; repeat split; discriminate|]. vm_compute. reflexivity.
  - etransitivity; [apply Hp; vm_compute; repeat split; discriminate|]. vm_compute. reflexivity.
  - apply Hr. discriminate.
  - apply Hn. intros [H _]. discriminate.
Defined.
