(* ===== verification/DebugText.v ===== *)
(** Text through fixed buffers: the hexadecimal printers that [pmm.rs], [paging.rs],
    [pat.rs] and [main.rs] each write for themselves, and the print buffers of
    [idt/handlers.rs].

    The buffers are lists of their size and every access checks its index, as the
    code's array accesses do; [None] is an index out of range.  Boot.v has the same
    output as a function of the number, which the theorems here relate to the
    buffers. *)

From S2P Require Import Prelude Boot BootProps Font Video VideoProps VideoText.
From Stdlib Require Import Ascii.

(** * Digits through a buffer *)

Record filling := mkFilling { num : Z; buf : list ascii; filled : nat }.

(** [buf[i] = HEX[(num & 0xF) as usize]; num >>= 4; i += 1]. *)
Definition put_digit (d : filling) : option filling :=
  c ← HEX_CHARS !! Z.to_nat (Z.land (num d) 0xF);
  if Nat.ltb (filled d) (length (buf d))
  then Some (mkFilling (Z.shiftr (num d) 4) (<[filled d := c]> (buf d)) (S (filled d)))
  else None.

(** [while num > 0 && i < 16]. *)
Fixpoint fill_digits (fuel : nat) (d : filling) : option filling :=
  match fuel with
  | O => None
  | S fuel' =>
      if (0 <? num d) && Nat.ltb (filled d) 16 then d' ← put_digit d; fill_digits fuel' d' else Some d
  end.

(** [while i > 0 { i -= 1; serial_outb(buf[i]); }]. *)
Fixpoint drain_digits (i : nat) (b : list ascii) : option (list ascii) :=
  match i with
  | O => Some []
  | S i' => c ← b !! i'; cs ← drain_digits i' b; Some (c :: cs)
  end.

(** The printer with a buffer of [size] bytes. *)
Definition buffered_hex (size : nat) (n : Z) : option (list ascii) :=
  if n =? 0 then Some ["0"; "x"; "0"]%char
  else
    d ← fill_digits 17 (mkFilling n (replicate size zero) 0);
    cs ← drain_digits (filled d) (buf d);
    Some (["0"; "x"]%char ++ cs).

(** [serial_print_hex] of [paging.rs] and of [pat.rs], and the two of [pmm.rs]. *)
Definition serial_print_hex : Z -> option (list ascii) := buffered_hex 16.
Definition pat_serial_print_hex : Z -> option (list ascii) := buffered_hex 16.
Definition pmm_serial_print_hex_u64 : Z -> option (list ascii) := buffered_hex 16.
Definition debug_print_hex_u64 : Z -> option (list ascii) := buffered_hex 17.

(** * The buffers of [idt/handlers.rs] *)

Definition PRINT_BUFFER_SIZE : nat := 256.

(** [print]: the writes to [PRINT_BUFFER], in their order, and the buffer after
    them, each with its index checked. *)
Definition print_writes (s : list Z) : list (nat * Z) :=
  let len := Nat.min (length s) 255 in
  zip (seq 0 len) s ++ [(len, 0)].
Fixpoint apply_writes {X} (ws : list (nat * X)) (b : list X) : option (list X) :=
  match ws with
  | [] => Some b
  | (i, x) :: ws' => if Nat.ltb i (length b) then apply_writes ws' (<[i := x]> b) else None
  end.
Definition handlers_print (s : list Z) (b : list Z) (v : video) : option (list Z * video) :=
  b' ← apply_writes (print_writes s) b;
  v' ← writestring_vga b' v;
  Some (b', v').

(** [print_hex]: [HEX_BUFFER] of 19 bytes. *)
Definition hex_writes (n : Z) : option (list (nat * ascii)) :=
  ds ← mapM (fun i => c ← HEX_CHARS !! Z.to_nat (Z.land (Z.shiftr n (60 - Z.of_nat i * 4)) 0xF);
                      Some ((2 + i)%nat, c)) (seq 0 16);
  Some ((0%nat, "0"%char) :: (1%nat, "x"%char) :: ds ++ [(18%nat, zero)]).
Definition handlers_hex_buffer (n : Z) (b : list ascii) : option (list ascii) :=
  ws ← hex_writes n; apply_writes ws b.

(** * The buffers are large enough *)

Lemma hex_char_lookup d : 0 <= d < 16 -> HEX_CHARS !! Z.to_nat d = Some (hex_char d).
Proof.
  intros Hd. unfold hex_char. destruct (lookup_lt_is_Some_2 HEX_CHARS (Z.to_nat d)) as [c ->]; [|done].
  change (Z.to_nat d < 16)%nat. lia.
Qed.

Lemma nibble_range n : 0 <= Z.land n 0xF < 16.
Proof. change 0xF with (2 ^ 4 - 1). rewrite land_low by lia. by apply Z.mod_pos_bound. Qed.

Lemma fill_run m fuel n b i : 0 <= n < 16 ^ Z.of_nat m -> (i + m <= 16)%nat -> (i + m <= length b)%nat -> (m < fuel)%nat ->
  exists d, fill_digits fuel (mkFilling n b i) = Some d
    /\ take (filled d) (buf d) = take i b ++ low_digits m n /\ (filled d <= length (buf d))%nat.
Proof.
  revert fuel n b i. induction m as [|m IH]; intros [|fuel] n b i Hn Hi Hb Hf; try lia.
  - assert (n = 0) as -> by (change (16 ^ Z.of_nat 0) with 1 in Hn; lia). eexists. split; [reflexivity|].
    cbn. rewrite app_nil_r. split; [done|lia].
  - cbn [fill_digits num filled]. cbn [low_digits]. destruct (Z.ltb_spec 0 n) as [Hp|Hz].
    2:{ eexists. split; [reflexivity|]. cbn. rewrite app_nil_r. split; [done|lia]. }
    rewrite (proj2 (Nat.ltb_lt i 16)) by lia. cbn [andb]. unfold put_digit. cbn [num buf filled].
    rewrite (hex_char_lookup _ (nibble_range n)). cbn [mbind option_bind].
    rewrite (proj2 (Nat.ltb_lt i (length b))) by lia. cbn [mbind option_bind].
    destruct (IH fuel (Z.shiftr n 4) (<[i:=hex_char (Z.land n 15)]> b) (S i)) as (d & E & Ht & Hl).
    + rewrite Z.shiftr_div_pow2 by lia. apply div16_bounds; lia.
    + lia.
    + rewrite length_insert. lia.
    + lia.
    + exists d. split; [exact E|]. split; [|exact Hl]. rewrite Ht.
      rewrite (take_S_r _ _ (hex_char (Z.land n 15))) by (apply list_lookup_insert_eq; lia).
      rewrite take_insert_ge by lia. by rewrite <- app_assoc.
Qed.

Lemma drain_run i b : (i <= length b)%nat -> drain_digits i b = Some (rev (take i b)).
Proof.
  induction i as [|i IH]; intros Hi; cbn [drain_digits]; [by rewrite take_0|].
  destruct (lookup_lt_is_Some_2 b i) as [c Hc]; [lia|]. rewrite Hc. cbn [mbind option_bind].
  rewrite IH by lia. cbn [mbind option_bind]. by rewrite (take_S_r _ _ _ Hc), rev_app_distr.
Qed.

Lemma buffered_hex_run size n : (16 <= size)%nat -> is_u64 n -> buffered_hex size n = Some (serial_print_hex_u64 n).
Proof.
  intros Hs Hn. unfold buffered_hex, serial_print_hex_u64. destruct (n =? 0); [done|].
  destruct (fill_run 16 17 n (replicate size zero) 0) as (d & E & Ht & Hl); [exact Hn|lia|by rewrite length_replicate|lia|].
  rewrite E. cbn [mbind option_bind]. by rewrite drain_run, Ht by done.
Qed.

(** A shorter buffer is too small for the numbers of more digits. *)
Lemma fill_overflows k fuel n b i : length b = (i + k)%nat -> (i + k < 16)%nat -> (k < fuel)%nat ->
  16 ^ Z.of_nat k <= n -> fill_digits fuel (mkFilling n b i) = None.
Proof.
  revert fuel n b i. induction k as [|k IH]; intros [|fuel] n b i Hb Hi Hf Hn; try lia; cbn [fill_digits num filled].
  - change (16 ^ Z.of_nat 0) with 1 in Hn. rewrite (proj2 (Z.ltb_lt 0 n)), (proj2 (Nat.ltb_lt i 16)) by lia. cbn [andb].
    unfold put_digit. cbn [num buf filled]. rewrite (hex_char_lookup _ (nibble_range n)). cbn [mbind option_bind].
    by rewrite (proj2 (Nat.ltb_ge i (length b))) by lia.
  - assert (0 < 16 ^ Z.of_nat k) by (apply Z.pow_pos_nonneg; lia).
    replace (Z.of_nat (S k)) with (1 + Z.of_nat k) in Hn by lia. rewrite Z.pow_add_r in Hn by lia.
    rewrite (proj2 (Z.ltb_lt 0 n)), (proj2 (Nat.ltb_lt i 16)) by lia. cbn [andb].
    unfold put_digit. cbn [num buf filled]. rewrite (hex_char_lookup _ (nibble_range n)). cbn [mbind option_bind].
    rewrite (proj2 (Nat.ltb_lt i (length b))) by lia. cbn [mbind option_bind]. apply IH; try lia.
    + rewrite length_insert. lia.
    + rewrite Z.shiftr_div_pow2 by lia. change (2 ^ 4) with 16. apply Z.div_le_lower_bound; lia.
Qed.

(** * Strings through the print buffer *)

Lemma apply_writes_app {X} (ws ws' : list (nat * X)) b :
  apply_writes (ws ++ ws') b = b' ← apply_writes ws b; apply_writes ws' b'.
Proof.
  revert b. induction ws as [|[i x] ws IH]; intros b; cbn [app apply_writes]; [done|].
  destruct (Nat.ltb i (length b)); [apply IH|done].
Qed.

Lemma apply_writes_zip (s b : list Z) : (length s <= length b)%nat ->
  apply_writes (zip (seq 0 (length s)) s) b = Some (s ++ drop (length s) b).
Proof.
  enough (forall p, (length p + length s <= length b)%nat -> take (length p) b = p ->
    apply_writes (zip (seq (length p) (length s)) s) b = Some (p ++ s ++ drop (length p + length s) b)) as H.
  { intros Hl. exact (H [] Hl (take_0 _)). }
  revert b. induction s as [|c s IH]; intros b p Hl Hp; cbn [length seq zip zip_with apply_writes].
  - rewrite Nat.add_0_r. cbn [app]. rewrite <- (take_drop (length p) b) at 1. by rewrite Hp.
  - cbn [length] in Hl. rewrite (proj2 (Nat.ltb_lt _ _)) by lia.
    specialize (IH (<[length p := c]> b) (p ++ [c])).
    rewrite length_app in IH. cbn [length] in IH. rewrite Nat.add_1_r in IH. rewrite IH.
    + rewrite <- app_assoc. cbn. do 4 f_equal. rewrite drop_insert_lt by lia. f_equal. lia.
    + rewrite length_insert. lia.
    + rewrite (take_S_r _ _ c) by (apply list_lookup_insert_eq; lia). by rewrite take_insert_ge, Hp by lia.
Qed.

Lemma zip_take_r {A B} (l : list A) (k : list B) n : length l = n -> zip l k = zip l (take n k).
Proof.
  intros <-. revert k. induction l as [|x l IH]; intros [|y k]; cbn; try done. by rewrite <- IH.
Qed.

Lemma print_buffer s b : length b = PRINT_BUFFER_SIZE ->
  exists rest, apply_writes (print_writes s) b = Some (take 255 s ++ 0 :: rest)
    /\ length (take 255 s ++ 0 :: rest) = PRINT_BUFFER_SIZE.
Proof.
  intros Hb. unfold print_writes. set (len := Nat.min (length s) 255).
  assert (length (take 255 s) = len) as Hl by (rewrite length_take; lia).
  rewrite (zip_take_r _ s len) by apply length_seq.
  assert (take len s = take 255 s) as ->.
  { unfold len. destruct (Nat.min_spec (length s) 255) as [[H ->]|[H ->]]; [|done].
    by rewrite !take_ge by lia. }
  rewrite apply_writes_app, <- Hl.
  unfold PRINT_BUFFER_SIZE in *. rewrite apply_writes_zip by lia. cbn [mbind option_bind apply_writes].
  rewrite (proj2 (Nat.ltb_lt _ _)) by (rewrite length_app, length_drop; lia).
  rewrite insert_app_r_alt by lia. rewrite Nat.sub_diag.
  destruct (drop (length (take 255 s)) b) as [|x rest] eqn:E.
  { apply (f_equal length) in E. rewrite length_drop in E. cbn in E. lia. }
  exists rest. split; [done|]. cbn. rewrite length_app. cbn.
  apply (f_equal length) in E. rewrite length_drop in E. cbn in E. lia.
Qed.

(** The string up to its first 0. *)
Fixpoint up_to_nul (s : list Z) : list Z :=
  match s with
  | [] => []
  | c :: s' => if c =? 0 then [] else c :: up_to_nul s'
  end.
Lemma each_char_up_to_nul f s rest v : each_char f (s ++ 0 :: rest) v = Some (fold_left (fun v c => f c v) (up_to_nul s) v).
Proof.
  revert v. induction s as [|c s IH]; intros v; cbn; [done|]. destruct (c =? 0); [done|]. apply IH.
Qed.
Lemma up_to_nul_no_nul s : no_nul (up_to_nul s).
Proof.
  induction s as [|c s IH]; cbn; [by apply Forall_nil|]. destruct (Z.eqb_spec c 0); [by apply Forall_nil|].
  apply Forall_cons. by split.
Qed.

(** Sixteen bytes are needed. *)
Lemma fifteen_bytes n : is_u64 n -> buffered_hex 15 n = None <-> 16 ^ 15 <= n.
Proof.
  intros Hn. unfold is_u64, U64 in Hn. unfold buffered_hex. destruct (Z.eqb_spec n 0) as [->|Hne]; [by split|].
  destruct (Z.le_gt_cases (16 ^ 15) n) as [Hge|Hlt].
  - by rewrite (fill_overflows 15 17 n _ 0) by (lia || done).
  - split; [|lia]. intros Hnone. exfalso.
    destruct (fill_run 15 17 n (replicate 15 zero) 0) as (d & Ed & _ & Hd);
      [change (Z.of_nat 15) with 15; lia|lia|by rewrite length_replicate|lia|].
    rewrite Ed in Hnone. cbn [mbind option_bind] in Hnone. by rewrite (drain_run _ _ Hd) in Hnone.
Qed.

(** C39. The printers stay in their buffers.  For every 64-bit number the hexadecimal
    printers of [paging.rs], [pat.rs] and [pmm.rs] never index outside their buffers
    of 16 and 17 bytes, and all print the text that [main.rs] prints; 16 bytes are
    needed, since a buffer of 15 is overrun exactly by the numbers of sixteen digits.
    The print buffer of [idt/handlers.rs] takes any string: every write is inside its
    256 bytes, the text that reaches the screen is the string up to its first 0 and
    its 255th character, and the C code that reads it finds its end inside the
    buffer; the hexadecimal buffer of 19 bytes holds exactly the 18 characters of
    [print_hex] and the final 0. *)
Theorem print_buffers_suffice n s b h v :
  is_u64 n -> length b = PRINT_BUFFER_SIZE -> length h = 19%nat ->
  (serial_print_hex n = Some (serial_print_hex_u64 n) /\ pat_serial_print_hex n = Some (serial_print_hex_u64 n)
   /\ pmm_serial_print_hex_u64 n = Some (serial_print_hex_u64 n) /\ debug_print_hex_u64 n = Some (serial_print_hex_u64 n))
  /\ (buffered_hex 15 n = None <-> 16 ^ 15 <= n)
  /\ Forall (fun w => (w.1 < PRINT_BUFFER_SIZE)%nat) (print_writes s)
  /\ (exists b' v', handlers_print s b v = Some (b', v') /\ length b' = PRINT_BUFFER_SIZE
        /\ video_print (up_to_nul (take 255 s) ++ [0]) v = Some v')
  /\ handlers_hex_buffer n h = Some (print_hex n ++ [zero]).
Proof.
  intros Hn Hb Hh.
  destruct (print_buffer s b Hb) as (rest & E & Hl).
  assert (forall f, each_char f (take 255 s ++ 0 :: rest) v = each_char f (up_to_nul (take 255 s) ++ [0]) v) as He.
  { intros f. by rewrite each_char_up_to_nul, (each_char_terminated _ _ _ (up_to_nul_no_nul _)). }
  split; [split_and!; (apply buffered_hex_run; [lia|done])|]. split; [by apply fifteen_bytes|]. split_and!.
  - unfold print_writes, PRINT_BUFFER_SIZE. apply Forall_app. split; [|apply Forall_singleton; cbn; lia].
    apply Forall_forall. intros [i c] Hw%elem_of_zip_l%elem_of_seq. cbn. lia.
  - assert (writestring_vga (take 255 s ++ 0 :: rest) v = video_print (up_to_nul (take 255 s) ++ [0]) v) as Ew
      by (unfold video_print, writestring_vga, gfx_puts; by destruct (vga_textmode_active v)).
    assert (exists v', video_print (up_to_nul (take 255 s) ++ [0]) v = Some v') as [v' Ev].
    { unfold video_print, writestring_vga, gfx_puts.
      destruct (vga_textmode_active v); rewrite (each_char_terminated _ _ _ (up_to_nul_no_nul _)); by eexists. }
    exists (take 255 s ++ 0 :: rest), v'. unfold handlers_print. rewrite E. cbn [mbind option_bind].
    rewrite Ew, Ev. by split_and!.
  - do 19 (destruct h as [|? h]; [done|]). destruct h; [|done]. unfold handlers_hex_buffer, hex_writes.
    assert (forall k, HEX_CHARS !! Z.to_nat (Z.land (Z.shiftr n k) 0xF) = Some (hex_char (Z.land (Z.shiftr n k) 15))) as Hc
      by (intros k; apply hex_char_lookup, nibble_range).
    cbn [seq mapM]. rewrite !Hc. reflexivity.
Qed.

(** * A closed instance *)

Lemma print_buffers_suffice_witness :
  let h := replicate 19 zero in
  serial_print_hex 0xFFFFFFFFFFFFFFFF = Some (serial_print_hex_u64 0xFFFFFFFFFFFFFFFF)
  /\ buffered_hex 15 0xFFFFFFFFFFFFFFFF = None
  /\ (exists b' v', handlers_print (replicate 300 65) (replicate 256 0) (video_zero ∅ ∅) = Some (b', v')
        /\ length b' = 256%nat)
  /\ handlers_hex_buffer 0xFFFFFFFFFFFFFFFF h = Some (print_hex 0xFFFFFFFFFFFFFFFF ++ [zero]).
Proof.
  intros h.
  assert (is_u64 0xFFFFFFFFFFFFFFFF) as Hn by (vm_compute; split; [discriminate|reflexivity]).
  assert (length (replicate 256 0) = PRINT_BUFFER_SIZE) as Hb by apply length_replicate.
  pose proof (print_buffers_suffice 0xFFFFFFFFFFFFFFFF (replicate 300 65) (replicate 256 0) h (video_zero ∅ ∅) Hn Hb eq_refl)
    as H.
  split; [exact (proj1 (proj1 H))|]. destruct H as (_ & H2 & _ & (b' & v' & H3 & Hl & _) & H4).
  split; [apply H2; discriminate|]. split; [exists b', v'; exact (conj H3 Hl)|exact H4].
Defined.
