(* ===== verification/Kernel.v ===== *)
(** The kernel entry: [enter] of [main.rs], stage by stage.

    The state has a part for every subsystem that the entry brings up; the ports
    (serial, interrupt controllers, PCI) are those of a machine given as a
    parameter.  A stage is a program on this state; its text goes to the screen
    through [video::print], or to the serial port.  The self-tests, which
    constants of the code switch off, are in SelfTest.v, and the final loop around
    [hlt] is in Halt.v. *)

From S2P Require Import Prelude E820 Pmm FrameAlloc Paging Cow Heap Pat GuardPage Ports Pci Pic Descriptors Boot Font Video Faults.
From Stdlib Require Import Ascii.

(** * The state *)

Record kernel (S : Type) := mkK {
  k_machine : S;
  k_info : boot_info;
  k_tables : descriptor_state;
  k_map : MemoryMapStorage;
  k_paging : paging_state pmm_global;
  k_pat : pat_state;
  k_refs : store;
  k_heap : heap_global;
  k_guards : list Z * Z * Z;      (** registry, its count, the stack offset *)
  k_pci : PciTable;
  k_interrupts : bool;            (** the interrupt flag *)
  k_video : video;
}.
Arguments mkK {S}.
Arguments k_machine {S}.
Arguments k_info {S}.
Arguments k_tables {S}.
Arguments k_map {S}.
Arguments k_paging {S}.
Arguments k_pat {S}.
Arguments k_refs {S}.
Arguments k_heap {S}.
Arguments k_guards {S}.
Arguments k_pci {S}.
Arguments k_interrupts {S}.
Arguments k_video {S}.

(** The bytes of physical memory: those the frame allocator works on. *)
Definition k_memory {S} (k : kernel S) : store := gbytes (palloc (k_paging k)).

Section Setters.
Context {S : Type}.
Definition set_machine (x : S) (k : kernel S) : kernel S :=
  mkK x (k_info k) (k_tables k) (k_map k) (k_paging k) (k_pat k) (k_refs k) (k_heap k) (k_guards k) (k_pci k)
    (k_interrupts k) (k_video k).
Definition set_info (x : boot_info) (k : kernel S) : kernel S :=
  mkK (k_machine k) x (k_tables k) (k_map k) (k_paging k) (k_pat k) (k_refs k) (k_heap k) (k_guards k) (k_pci k)
    (k_interrupts k) (k_video k).
Definition set_tables (x : descriptor_state) (k : kernel S) : kernel S :=
  mkK (k_machine k) (k_info k) x (k_map k) (k_paging k) (k_pat k) (k_refs k) (k_heap k) (k_guards k) (k_pci k)
    (k_interrupts k) (k_video k).
Definition set_map (x : MemoryMapStorage) (k : kernel S) : kernel S :=
  mkK (k_machine k) (k_info k) (k_tables k) x (k_paging k) (k_pat k) (k_refs k) (k_heap k) (k_guards k) (k_pci k)
    (k_interrupts k) (k_video k).
Definition set_paging (x : paging_state pmm_global) (k : kernel S) : kernel S :=
  mkK (k_machine k) (k_info k) (k_tables k) (k_map k) x (k_pat k) (k_refs k) (k_heap k) (k_guards k) (k_pci k)
    (k_interrupts k) (k_video k).
Definition set_pat (x : pat_state) (k : kernel S) : kernel S :=
  mkK (k_machine k) (k_info k) (k_tables k) (k_map k) (k_paging k) x (k_refs k) (k_heap k) (k_guards k) (k_pci k)
    (k_interrupts k) (k_video k).
Definition set_cow (c : cow_state pmm_global) (k : kernel S) : kernel S :=
  mkK (k_machine k) (k_info k) (k_tables k) (k_map k) (cpaging c) (k_pat k) (refcount_table c) (k_heap k) (k_guards k)
    (k_pci k) (k_interrupts k) (k_video k).
Definition set_heap (x : heap_global) (k : kernel S) : kernel S :=
  mkK (k_machine k) (k_info k) (k_tables k) (k_map k) (k_paging k) (k_pat k) (k_refs k) x (k_guards k) (k_pci k)
    (k_interrupts k) (k_video k).
Definition set_guards (g : guard_state pmm_global) (k : kernel S) : kernel S :=
  mkK (k_machine k) (k_info k) (k_tables k) (k_map k) (gpaging g) (k_pat k) (k_refs k) (k_heap k)
    (GUARD_REGISTRY g, GUARD_REGISTRY_COUNT g, NEXT_STACK_OFFSET g) (k_pci k) (k_interrupts k) (k_video k).
Definition set_pci (x : S * PciTable) (k : kernel S) : kernel S :=
  mkK x.1 (k_info k) (k_tables k) (k_map k) (k_paging k) (k_pat k) (k_refs k) (k_heap k) (k_guards k) x.2
    (k_interrupts k) (k_video k).
Definition set_interrupts (x : bool) (k : kernel S) : kernel S :=
  mkK (k_machine k) (k_info k) (k_tables k) (k_map k) (k_paging k) (k_pat k) (k_refs k) (k_heap k) (k_guards k) (k_pci k)
    x (k_video k).
Definition set_screen (x : video) (k : kernel S) : kernel S :=
  mkK (k_machine k) (k_info k) (k_tables k) (k_map k) (k_paging k) (k_pat k) (k_refs k) (k_heap k) (k_guards k) (k_pci k)
    (k_interrupts k) x.
Definition cow_part (k : kernel S) : cow_state pmm_global := mkCow (k_paging k) (k_memory k) (k_refs k).
Definition guard_part (k : kernel S) : guard_state pmm_global :=
  let '(r, n, o) := k_guards k in mkGuard (k_paging k) r n o.
End Setters.

(** [panic], [halt_forever] and the shims that stand for them never return; the
    kernel's own code has no error values. *)
Abbreviation boot S := (eprog Empty_set (kernel S)).

Definition COM1 : Z := 0x3F8.
Definition char_codes (t : list ascii) : list Z := map (fun a => Z.of_N (N_of_ascii a)) t.

Section Enter.
Context {S : Type} `{Io : PortIO S}.
Context (L : Linked) (cpuid : Z -> Z -> CpuidResult) (bus_depth : nat).

Definition on_machine {X} (p : hw S X) : boot S X := fun k =>
  let '(s, x) := p (k_machine k) in Some (set_machine s k, Ok x).

(** [serial_outb_port], [serial_print], [video::print]. *)
Definition serial_outb_port (port val : Z) : boot S unit := on_machine (Ports.put (port_out8 port val)).
Definition serial_print (t : list ascii) : boot S unit :=
  on_machine (Ports.put (outs8 (map (fun c => (COM1, c)) (char_codes t)))).
Definition print (t : list ascii) : boot S unit := fun k =>
  match video_print (char_codes t ++ [0]) (k_video k) with
  | Some v => Some (set_screen v k, Ok tt)
  | None => None
  end.

Definition ENABLE_IRQS : bool := true.

Definition serial_init : boot S unit :=
  serial_outb_port 0x3F9 0x00 ;;
  serial_outb_port 0x3FB 0x80 ;;
  serial_outb_port 0x3F8 0x01 ;;
  serial_outb_port 0x3F9 0x00 ;;
  serial_outb_port 0x3FB 0x03 ;;
  serial_outb_port 0x3FA 0xC7 ;;
  serial_outb_port 0x3FC 0x0B ;;
  serial_print (text "COM1 initialized" ++ newline).

Definition read_boot_info : boot S unit :=
  modify (fun k => set_info (boot_info_init (k_memory k) (k_info k)) k) ;;
  serial_print (text "Boot path: ") ;;
  info ← gets k_info;
  serial_print (text (boot_type_str info)) ;;
  serial_print newline.

Definition init_tables : boot S unit :=
  modify (fun k => set_tables (gdt_init L (k_tables k)) k) ;;
  modify (fun k => set_tables (idt_init L (k_tables k)) k).

Definition init_pic : boot S unit :=
  on_machine pic_init ;;
  if negb ENABLE_IRQS then on_machine disable else mret tt.

Definition init_display (fb_addr pitch width height bpp : Z) : boot S unit :=
  (if negb (fb_addr =? 0) then
     let bpp_bytes := if 8 <? bpp then bpp / 8 else bpp in
     modify (fun k => set_screen (set_framebuffer_info fb_addr pitch width height bpp_bytes (k_video k)) k) ;;
     modify (fun k => set_screen (initialize_vga_graphics (k_video k)) k)
   else modify (fun k => set_screen (init_textmode_fallback (k_video k)) k)) ;;
  print (text "Welcome to Nafuraito OS!" ++ newline) ;;
  print (text "GDT, IDT, PIC initialized... OK" ++ newline).

Definition init_memory_map (memory_map_addr : Z) : boot S unit :=
  print (text "Initializing Memory... ") ;;
  modify (fun k => set_map (memory_init (k_memory k) memory_map_addr (k_map k)) k) ;;
  print (text "OK" ++ newline) ;;
  print (text "  Highest addr: ") ;;
  highest ← gets (fun k => memory_get_highest_address (k_memory k) (k_map k));
  print (print_hex_u64 highest) ;;
  print newline.

(** A C call that works on the paging state. *)
Definition on_kpaging {X} (p : paging_state pmm_global -> option (paging_state pmm_global * X)) : boot S X := fun k =>
  match p (k_paging k) with Some (s, x) => Some (set_paging s k, Ok x) | None => None end.

Definition yes_no (x : Z) : list ascii := text (if negb (x =? 0) then "Yes" else "No").

Definition init_paging : boot S unit :=
  print (text "Initializing Paging..." ++ newline) ;;
  cr3 ← gets (fun k => paging_read_cr3 (k_paging k));
  print (text "  Current CR3: ") ;;
  print (print_hex_u64 cr3) ;;
  print newline ;;
  paging_result ← on_kpaging (paging_init_c cpuid cr3);
  if paging_result =? 0 then
    print (text "  Paging init: OK" ++ newline) ;;
    mode ← gets (fun k => paging_get_mode (k_paging k));
    print (text "  Mode: ") ;;
    print (text (if mode =? 1 then "5-level (LA57)" else if mode =? 0 then "4-level (LA48)" else "Unknown")) ;;
    print newline ;;
    la57_enabled ← gets (fun k => paging_is_la57_enabled (k_paging k));
    print (text "  LA57 support: ") ;;
    print (yes_no (paging_check_la57_support cpuid)) ;;
    print (newline ++ text "  LA57 enabled: ") ;;
    print (yes_no la57_enabled) ;;
    print (newline ++ text "  NX support:   ") ;;
    print (yes_no (paging_check_nx_support cpuid)) ;;
    print newline
  else print (text "  Paging init: FAILED" ++ newline).

Definition init_pat : boot S unit :=
  print (text "Initializing PAT..." ++ newline) ;;
  let edx1 := edx (cpuid 1 0) in
  if negb (pat_check_support edx1 =? 0) then
    print (text "  PAT support: Yes" ++ newline) ;;
    r ← (fun k => let '(p, r) := pat_init_c edx1 (k_pat k) in Some (set_pat p k, Ok r));
    if r =? 0 then
      print (text "  PAT init: OK" ++ newline) ;;
      print (text "    Memory types configured:" ++ newline) ;;
      print (text "      PA0: WB (Normal memory)" ++ newline) ;;
      print (text "      PA1: WT (Write-through)" ++ newline) ;;
      print (text "      PA2: UC (MMIO)" ++ newline) ;;
      print (text "      PA5: WC (Framebuffer)" ++ newline)
    else print (text "  PAT init: FAILED" ++ newline)
  else print (text "  PAT support: No (not available on this CPU)" ++ newline).

Definition init_cow : boot S unit :=
  print (text "Initializing CoW system... ") ;;
  modify (fun k => set_cow (cow_init (cow_part k)) k) ;;
  print (text "OK" ++ newline).

Definition init_pmm (memory_map_addr : Z) : boot S unit :=
  print (text "Initializing PMM..." ++ newline) ;;
  print (text "  Memory map addr: ") ;;
  print (print_hex_u64 memory_map_addr) ;;
  print (newline ++ text "  Total usable: ") ;;
  usable ← gets (fun k => memory_get_total_usable (k_memory k) (k_map k));
  print (print_hex_u64 usable) ;;
  print (newline ++ text "  Starting PMM init..." ++ newline) ;;
  pmm_result ← (fun k => let '(g, r) := pmm_init_c (k_map k) (palloc (k_paging k)) in
                  Some (set_paging (set_alloc g (k_paging k)) k, Ok r));
  print (text "PMM init returned: ") ;;
  print (print_hex_byte (wrap8 pmm_result)) ;;
  print newline ;;
  if pmm_result =? 0 then
    print (text "OK (") ;;
    free ← gets (fun k => pmm_free_memory (palloc (k_paging k)));
    print (print_hex_u64 free) ;;
    print (text " bytes free)" ++ newline)
  else
    print (text "FAILED (error=") ;;
    print (print_hex_u64 (wrap64 (- pmm_result))) ;;
    print (text ")" ++ newline).

Definition init_heap : boot S unit :=
  print (text "Initializing kernel heap... ") ;;
  heap_result ← (fun k => match heap_init_c (k_heap k) with
                          | Some (h, r) => Some (set_heap h k, Ok r)
                          | None => None
                          end);
  ready ← gets (fun k => heap_is_initialized_c (k_heap k));
  print (text (if (heap_result =? 0) && negb (ready =? 0) then "OK" else "FAILED") ++ newline).

Definition init_guards : boot S unit :=
  print (text "Initializing guard pages... ") ;;
  modify (fun k => set_guards (guard_page_init (guard_part k)) k) ;;
  print (text "OK" ++ newline).

(** The decimal digits of the device count: at most three, the lowest ones. *)
Fixpoint count_digits (n : nat) (count : Z) : list ascii :=
  match n with
  | O => []
  | Datatypes.S n' =>
      if 0 <? count then count_digits n' (count / 10) ++ [ascii_of_nat (48 + Z.to_nat (count mod 10))] else []
  end.

Definition on_pci {X} (p : eprog Empty_set (S * PciTable) X) : boot S X :=
  zoom (fun k => (k_machine k, k_pci k)) set_pci p.

Definition init_pci : boot S unit :=
  print (text "Initializing PCI... ") ;;
  on_pci (pci_init bus_depth) ;;
  device_count ← on_pci (pci_enumerate bus_depth);
  print (text "OK (") ;;
  print (if 0 <? device_count then count_digits 3 device_count else text "0") ;;
  print (text " devices)" ++ newline).

Definition enable_interrupts : boot S unit :=
  if ENABLE_IRQS then
    modify (set_interrupts true) ;;
    print (text "Interrupts enabled" ++ newline)
  else print (text "Interrupts stay masked (IRQ path disabled)" ++ newline).

Definition print_summary : boot S unit :=
  print (newline ++ text "GDT Info:" ++ newline) ;;
  print (text "  Kernel Code Selector: 0x") ;;
  print (print_hex_byte KERNEL_CODE_SELECTOR) ;;
  print (newline ++ text "  Kernel Data Selector: 0x") ;;
  print (print_hex_byte KERNEL_DATA_SELECTOR) ;;
  print (newline ++ text "  TSS Selector:         0x") ;;
  print (print_hex_byte TSS_SELECTOR) ;;
  print newline ;;
  print (newline ++ text "Memory Info:" ++ newline) ;;
  print (text "  Total Usable: ") ;;
  usable ← gets (fun k => memory_get_total_usable (k_memory k) (k_map k));
  print (print_hex_u64 usable) ;;
  print (text " bytes" ++ newline) ;;
  print (text "  Highest Addr: ") ;;
  highest ← gets (fun k => memory_get_highest_address (k_memory k) (k_map k));
  print (print_hex_u64 highest) ;;
  print newline ;;
  print (newline ++ text "Kernel is stable." ++ newline).

(** The stages of [enter] in their order. *)
Definition stages (fb_addr pitch width height bpp memory_map_addr : Z) : list (boot S unit) :=
  [serial_init; read_boot_info; init_tables; init_pic; init_display fb_addr pitch width height bpp;
   init_memory_map memory_map_addr; init_paging; init_pat; init_cow; init_pmm memory_map_addr; init_heap;
   init_guards; init_pci; enable_interrupts; print_summary].

Fixpoint run_stages (ss : list (boot S unit)) : boot S unit :=
  match ss with
  | [] => mret tt
  | s :: ss' => s ;; run_stages ss'
  end.

(** [enter], up to its final loop. *)
Definition enter (fb_addr pitch width height bpp memory_map_addr : Z) : boot S unit :=
  run_stages (stages fb_addr pitch width height bpp memory_map_addr).
End Enter.
