(* ===== verification/KernelFacts.v ===== *)
(** The effect of every stage of [enter].

    A stage is a function on the state apart from its output ([core]); the rules
    for sequences, reads and prints compose it from the parts.  The scan of the
    buses goes through the 32-bit ports alone, so it keeps the state of the
    interrupt controllers ([keeps]). *)

From S2P Require Import Prelude E820 Pmm PmmFacts PmmInit PmmProps FrameAlloc Paging Cow Heap HeapFacts HeapRep HeapProps Pat GuardPage Ports Pci PciHost PciSample PciProps PciScan Pic PicProps Descriptors DescriptorProps Boot Font Video VideoProps VideoText Faults Kernel.
From Stdlib Require Import Ascii.

(** * Programs that keep a view of the machine *)

Section Keeps.
Context {S A : Type} `{Io : PortIO S} (view : S -> A).

Definition keeps {X} (p : hw S X) : Prop := forall s, view (p s).1 = view s.
Definition scan_keeps {X} (p : eprog Empty_set (S * PciTable) X) : Prop := forall s t s' t' r,
  p (s, t) = Some ((s', t'), r) -> view s' = view s.

Lemma keeps_ret {X} (x : X) : keeps (mret x).
Proof. done. Qed.
Lemma keeps_bind {X Y} (p : hw S X) (q : X -> hw S Y) : keeps p -> (forall x, keeps (q x)) -> keeps (p ≫= q).
Proof.
  intros Hp Hq s. unfold mbind, hw_bind. specialize (Hp s). destruct (p s) as [s' x].
  rewrite <- Hp. apply Hq.
Qed.
Lemma keeps_put f : (forall s, view (f s) = view s) -> keeps (Ports.put f).
Proof. intros H s. apply H. Qed.
Lemma keeps_if {X} (b : bool) (p q : hw S X) : keeps p -> keeps q -> keeps (if b then p else q).
Proof. by destruct b. Qed.

Lemma scan_keeps_ret {X} (x : X) : scan_keeps (mret x).
Proof. by intros s t s' t' r [= <- <- <-]. Qed.
Lemma scan_keeps_bind {X Y} (p : eprog Empty_set (S * PciTable) X) (q : X -> eprog Empty_set (S * PciTable) Y) :
  scan_keeps p -> (forall x, scan_keeps (q x)) -> scan_keeps (p ≫= q).
Proof.
  intros Hp Hq s t s' t' r. unfold mbind, prog_bind.
  destruct (p (s, t)) as [[[s1 t1] [x|e]]|] eqn:E; [|by destruct e|done]. intros H.
  rewrite (Hq _ _ _ _ _ _ H). exact (Hp _ _ _ _ _ E).
Qed.
Lemma scan_keeps_hw {X} (p : hw S X) : keeps p -> scan_keeps (on_hw p).
Proof.
  intros H s t s' t' r. unfold on_hw. cbn [fst snd]. specialize (H s). destruct (p s).
  by intros [= <- <- <-].
Qed.
Lemma scan_keeps_table f : scan_keeps (on_table f).
Proof. intros s t s' t' r. unfold on_table, modify. by intros [= <- <- <-]. Qed.
Lemma scan_keeps_if {X} (b : bool) (p q : eprog Empty_set (S * PciTable) X) :
  scan_keeps p -> scan_keeps q -> scan_keeps (if b then p else q).
Proof. by destruct b. Qed.
Lemma scan_keeps_for n i f : (forall j, scan_keeps (f j)) -> scan_keeps (prog_for n i f).
Proof.
  intros Hf. revert i. induction n as [|n IH]; intros i; cbn [prog_for]; [apply scan_keeps_ret|].
  by apply scan_keeps_bind.
Qed.

Context (Hout : forall p v s, view (port_out32 p v s) = view s) (Hin : forall p s, view (port_in32 p s).1 = view s).

Ltac keeping := repeat first
  [ apply keeps_ret | apply keeps_put; intros; apply Hout | exact (Hin _)
  | apply keeps_if | apply keeps_bind; [|intros ?] ].

Lemma keeps_read16 a o : keeps (pci_config_read16 a o).
Proof. unfold pci_config_read16, outl, inl. keeping. Qed.
Lemma keeps_read8 a o : keeps (pci_config_read8 a o).
Proof. unfold pci_config_read8, outl, inl. keeping. Qed.
Lemma keeps_walk a id n o : keeps (walk_capabilities a id n o).
Proof.
  revert o. induction n as [|n IH]; intros o; cbn [walk_capabilities]; [apply keeps_ret|].
  apply keeps_if; [apply keeps_ret|]. apply keeps_bind; [apply keeps_read16|intros h].
  apply keeps_if; [apply keeps_ret|apply IH].
Qed.
Lemma keeps_find a id : keeps (pci_find_capability a id).
Proof.
  unfold pci_find_capability. apply keeps_bind; [apply keeps_read16|intros h].
  apply keeps_if; [apply keeps_ret|]. apply keeps_bind; [apply keeps_read8|intros f; apply keeps_walk].
Qed.
Lemma keeps_device a : keeps (PciDevice_read a).
Proof.
  unfold PciDevice_read. repeat first [apply keeps_ret|apply keeps_read16|apply keeps_read8|apply keeps_find
    |apply keeps_if|apply keeps_bind; [|intros ?]].
Qed.
Lemma keeps_exists a : keeps (PciDevice_exists a).
Proof. unfold PciDevice_exists. apply keeps_bind; [apply keeps_read16|intros v; apply keeps_ret]. Qed.

Lemma scan_keeps_function enum b d f : (forall b', scan_keeps (enum b')) ->
  scan_keeps (pci_enumerate_function enum b d f).
Proof.
  intros He. unfold pci_enumerate_function. apply scan_keeps_bind; [apply scan_keeps_hw, keeps_device|].
  intros [x|]; [|apply scan_keeps_ret]. apply scan_keeps_bind; [apply scan_keeps_table|intros _].
  apply scan_keeps_if; [|apply scan_keeps_ret].
  apply scan_keeps_bind; [apply scan_keeps_hw, keeps_read8|intros sec; apply He].
Qed.

Lemma scan_keeps_device enum b d : (forall b', scan_keeps (enum b')) -> scan_keeps (pci_enumerate_device enum b d).
Proof.
  intros He. unfold pci_enumerate_device.
  apply scan_keeps_bind; [apply scan_keeps_hw, keeps_exists|intros x].
  apply scan_keeps_if; [apply scan_keeps_ret|].
  apply scan_keeps_bind; [by apply scan_keeps_function|intros _].
  apply scan_keeps_bind; [apply scan_keeps_hw, keeps_read8|intros h].
  apply scan_keeps_if; [|apply scan_keeps_ret]. apply scan_keeps_for. intros j. unfold pci_enumerate_if_there.
  apply scan_keeps_bind; [apply scan_keeps_hw, keeps_exists|intros y].
  apply (scan_keeps_if y); [by apply scan_keeps_function|apply scan_keeps_ret].
Qed.

Lemma scan_keeps_bus depth b : scan_keeps (pci_enumerate_bus depth b).
Proof.
  revert b. induction depth as [|depth IH]; intros b; cbn [pci_enumerate_bus]; [done|].
  apply scan_keeps_for. intros d. by apply scan_keeps_device.
Qed.

(** The enumeration works through the 32-bit ports only. *)
Lemma scan_keeps_enumerate depth : scan_keeps (pci_enumerate depth).
Proof.
  unfold pci_enumerate. apply scan_keeps_bind; [apply scan_keeps_table|intros _].
  apply scan_keeps_bind; [apply scan_keeps_hw, keeps_read8|intros h].
  apply scan_keeps_bind; [|intros _ s t s' t' r; unfold gets; by intros [= <- <- <-]].
  apply scan_keeps_if; [|apply scan_keeps_bus]. apply scan_keeps_for. intros j. unfold pci_enumerate_host.
  apply scan_keeps_bind; [apply scan_keeps_hw, keeps_exists|intros x].
  apply (scan_keeps_if x); [apply scan_keeps_bus|apply scan_keeps_ret].
Qed.

Lemma keeps_remap o1 o2 : (forall p v s, view (port_out8 p v s) = view s) -> keeps (remap o1 o2).
Proof.
  intros H. unfold remap, io_wait, pic_outb.
  repeat first [apply keeps_put; intros; apply H|apply keeps_bind; [|intros ?]].
Qed.
End Keeps.

(** A machine with the interrupt controllers and the PCI host bridge behind its
    ports, which do not disturb each other. *)
Class BootMachine (S : Type) `{Io : PortIO S} := {
  bm_pic :: PicHardware S;
  bm_pci :: PciHardware S;
  bm_out8 : forall p v s, host (port_out8 p v s) = host s;
  bm_out32 : forall p v s, chips (port_out32 p v s) = chips s;
  bm_in32 : forall p s, chips (port_in32 p s).1 = chips s;
}.

Section KernelFacts.
Context {S : Type} `{Bm : BootMachine S}.
Context (L : Linked) (cpuid : Z -> Z -> CpuidResult) (bus_depth : nat).

(** * The state without the output *)

Notation visible_machine := (Chip * Chip * gmap Z Z)%type.
Notation core_state := (kernel visible_machine).

Definition core (k : kernel S) : core_state :=
  mkK (chips (k_machine k), cfg (host (k_machine k))) (k_info k) (k_tables k) (k_map k) (k_paging k) (k_pat k)
    (k_refs k) (k_heap k) (k_guards k) (k_pci k) (k_interrupts k) (video_zero ∅ ∅).

(** Under [P] the program ends, and its effect is [f]. *)
Definition effect {X} (P : core_state -> Prop) (p : boot S X) (f : core_state -> core_state) : Prop :=
  forall k, P (core k) -> exists k' x, p k = Some (k', Ok x) /\ core k' = f (core k).
Definition always : core_state -> Prop := fun _ => True.

Lemma eff_ret {X} P (x : X) : effect P (mret x) (fun c => c).
Proof. intros k _. by exists k, x. Qed.

Lemma eff_bind {X Y} P Q (p : boot S X) (q : X -> boot S Y) f g :
  effect P p f -> (forall c, P c -> Q (f c)) -> (forall x, effect Q (q x) g) ->
  effect P (p ≫= q) (fun c => g (f c)).
Proof.
  intros Hp Hpq Hq k Hk. destruct (Hp k Hk) as (k1 & x & E & E1).
  destruct (Hq x k1) as (k2 & y & E2 & E3); [rewrite E1; auto|].
  exists k2, y. rewrite (bind_ok _ _ _ _ _ E). split; [exact E2|]. by rewrite E3, E1.
Qed.

(** Both parts without a condition, one of them without an effect. *)
Lemma eff_then {X Y} (p : boot S X) (q : X -> boot S Y) f :
  effect always p (fun c => c) -> (forall x, effect always (q x) f) -> effect always (p ≫= q) f.
Proof. intros Hp Hq. exact (eff_bind always always p q _ _ Hp (fun _ _ => I) Hq). Qed.

Lemma eff_first {X Y} (p : boot S X) (q : X -> boot S Y) f :
  effect always p f -> (forall x, effect always (q x) (fun c => c)) -> effect always (p ≫= q) f.
Proof. intros Hp Hq. exact (eff_bind always always p q f (fun c => c) Hp (fun _ _ => I) Hq). Qed.

Lemma eff_gets {X} (g : kernel S -> X) : effect always (gets g) (fun c => c).
Proof. intros k _. by exists k, (g k). Qed.

(** A part without an effect keeps the condition. *)
Lemma eff_skip {X Y} P (p : boot S X) (q : X -> boot S Y) f :
  effect always p (fun c => c) -> (forall x, effect P (q x) f) -> effect P (p ≫= q) f.
Proof. intros Hp Hq. apply (eff_bind P P p q (fun c => c) f); [|done|done]. intros k _. by apply Hp. Qed.

Lemma eff_read {X Y} P (gc : core_state -> X) (g : kernel S -> X) (q : X -> boot S Y) f :
  (forall k, g k = gc (core k)) -> (forall x, effect (fun c => P c /\ gc c = x) (q x) f) ->
  effect P (gets g ≫= q) f.
Proof.
  intros Hg Hq k Hk. rewrite (bind_ok _ _ k k (g k) eq_refl). by apply Hq.
Qed.

Lemma eff_if {X} P (b : bool) (p q : boot S X) f : effect P p f -> effect P q f -> effect P (if b then p else q) f.
Proof. by destruct b. Qed.

Lemma eff_modify (F : kernel S -> kernel S) f :
  (forall k, core (F k) = f (core k)) -> effect always (modify F) f.
Proof. intros H k _. by exists (F k), tt. Qed.

Lemma eff_print t : effect always (print t) (fun c => c).
Proof.
  intros k _. unfold print.
  assert (forall f s v, exists v', each_char f (s ++ [0]) v = Some v') as H.
  { intros f s. induction s as [|c s IH]; intros v; simpl; [by eexists|].
    destruct (c =? 0); [by eexists|apply IH]. }
  assert (exists v, video_print (char_codes t ++ [0]) (k_video k) = Some v) as [v ->].
  { unfold video_print, writestring_vga, gfx_puts. destruct (vga_textmode_active (k_video k)); apply H. }
  by exists (set_screen v k), tt.
Qed.

Lemma eff_machine {X} (p : hw S X) f :
  (forall s, (chips (p s).1, cfg (host (p s).1)) = f (chips s, cfg (host s))) ->
  effect always (on_machine p) (fun c => set_machine (f (k_machine c)) c).
Proof.
  intros H k _. unfold on_machine. specialize (H (k_machine k)). destruct (p (k_machine k)) as [s x].
  exists (set_machine s k), x. split; [done|]. unfold core, set_machine. simpl in *. by rewrite H.
Qed.

Lemma chips_outs8 ws s : (forall w, w ∈ ws -> w.1 <> PIC1_COMMAND /\ w.1 <> PIC1_DATA /\ w.1 <> PIC2_COMMAND /\ w.1 <> PIC2_DATA) ->
  chips (outs8 ws s) = chips s.
Proof.
  unfold outs8. revert s. induction ws as [|[p v] ws IH]; intros s H; cbn; [done|].
  rewrite IH by (intros w Hw; apply H; set_solver). rewrite ph_out. unfold pic_write.
  destruct (H (p, v) ltac:(set_solver)) as (?&?&?&?). cbn in *.
  repeat rewrite (proj2 (Z.eqb_neq _ _)) by done. done.
Qed.

Lemma host_outs8 ws s : host (outs8 ws s) = host s.
Proof. unfold outs8. revert s. induction ws as [|[p v] ws IH]; intros s; cbn; [done|]. by rewrite IH, bm_out8. Qed.

Lemma eff_silent {X} (p : hw S X) : (forall s, chips (p s).1 = chips s /\ host (p s).1 = host s) ->
  effect always (on_machine p) (fun c => c).
Proof.
  intros H k Hk. destruct (eff_machine p (fun x => x) ltac:(intros s; destruct (H s) as [-> ->]; done) k Hk)
    as (k' & x & E & E1). exists k', x. by destruct k.
Qed.

Lemma eff_serial t : effect always (serial_print t) (fun c => c).
Proof.
  apply eff_silent. intros s. cbn. rewrite host_outs8. split; [|done]. apply chips_outs8.
  intros w (c & -> & _)%list_elem_of_fmap. done.
Qed.

Lemma eff_serial_port p v : p <> PIC1_COMMAND -> p <> PIC1_DATA -> p <> PIC2_COMMAND -> p <> PIC2_DATA ->
  effect always (serial_outb_port p v) (fun c => c).
Proof.
  intros ????. apply eff_silent. intros s. cbn. rewrite bm_out8, ph_out. unfold pic_write.
  by repeat rewrite (proj2 (Z.eqb_neq _ _)) by done.
Qed.

(** Programs that only print. *)
Ltac quiet := repeat first
  [ apply eff_print | apply eff_serial | apply eff_ret | apply eff_gets
  | apply eff_serial_port; done
  | apply eff_if
  | apply eff_then; [|intros ?] ].

(** * The stages *)

Lemma serial_init_effect : effect always serial_init (fun c => c).
Proof. unfold serial_init. quiet. Qed.

Lemma read_boot_info_effect :
  effect always read_boot_info (fun c => set_info (boot_info_init (k_memory c) (k_info c)) c).
Proof. unfold read_boot_info. apply eff_first; [by apply eff_modify|intros _]. quiet. Qed.

Lemma init_tables_effect :
  effect always (init_tables L) (fun c => set_tables (idt_init L (gdt_init L (k_tables c))) c).
Proof.
  unfold init_tables.
  apply (eff_bind always always _ _ (fun c => set_tables (gdt_init L (k_tables c)) c)
    (fun c => set_tables (idt_init L (k_tables c)) c)); [by apply eff_modify|done|intros _; by apply eff_modify].
Qed.

Definition remapped : Chip * Chip := (mkChip Ready 32 4 1 0 0, mkChip Ready 40 2 1 0 0).

Lemma init_pic_effect : effect always init_pic (fun c => set_machine (remapped, (k_machine c).2) c).
Proof.
  unfold init_pic. apply eff_first; [|intros _; quiet].
  apply (eff_machine pic_init (fun m => (remapped, m.2))).
  intros s. destruct (chips_remap 32 40 s) as (s' & E & Hs). unfold pic_init. rewrite E. cbn [fst snd].
  rewrite Hs. f_equal. pose proof (keeps_remap host 32 40 bm_out8 s) as H. rewrite E in H. cbn in H. by rewrite H.
Qed.

Lemma init_display_effect fb pitch w h bpp : effect always (init_display fb pitch w h bpp) (fun c => c).
Proof.
  unfold init_display. apply eff_then; [|intros _; quiet].
  apply eff_if; [|by apply eff_modify]. apply eff_then; [by apply eff_modify|intros _; by apply eff_modify].
Qed.

Lemma init_memory_map_effect addr :
  effect always (init_memory_map addr) (fun c => set_map (memory_init (k_memory c) addr (k_map c)) c).
Proof.
  unfold init_memory_map. apply eff_then; [apply eff_print|intros _].
  apply eff_first; [by apply eff_modify|intros _]. quiet.
Qed.

(** The manager that [paging_init] stores. *)
Definition boot_manager (s : paging_state pmm_global) : PagingManager :=
  mkPagingManager (if is_la57_enabled s then FiveLevel else FourLevel) (Z.land (cr3 s) (not64 4095))
    (check_la57_support cpuid) (check_nx_support cpuid).

Lemma init_paging_effect :
  effect always (init_paging cpuid) (fun c => set_paging (set_mgr (Some (boot_manager (k_paging c))) (k_paging c)) c).
Proof.
  unfold init_paging. apply eff_skip; [apply eff_print|intros _].
  apply (eff_read always (fun c => cr3 (k_paging c))); [done|intros cr].
  do 3 (apply eff_skip; [apply eff_print|intros _]).
  apply (eff_bind _ always _ _ (fun c => set_paging (set_mgr (Some (boot_manager (k_paging c))) (k_paging c)) c)
    (fun c => c)); [|done|intros r; quiet].
  intros k [_ <-]. eexists _, _. split; reflexivity.
Qed.

Lemma init_pat_effect :
  effect always (init_pat cpuid) (fun c => set_pat (pat_init (edx (cpuid 1 0)) (k_pat c)).1 c).
Proof.
  unfold init_pat. apply eff_then; [apply eff_print|intros _].
  unfold pat_check_support. destruct (check_pat_support (edx (cpuid 1 0))) eqn:Ep; cbn [negb Z.eqb].
  - apply eff_then; [apply eff_print|intros _]. apply eff_first; [|intros r; quiet].
    intros k _. unfold pat_init_c. destruct (pat_init (edx (cpuid 1 0)) (k_pat k)) as [s r] eqn:E.
    eexists _, _. split; [reflexivity|]. cbn. by rewrite E.
  - intros k Hk. destruct (eff_print (text "  PAT support: No (not available on this CPU)" ++ newline) k Hk)
      as (k' & x & E & C). exists k', x. split; [exact E|]. rewrite C. unfold pat_init. rewrite Ep. by destruct k.
Qed.

Lemma init_cow_effect : effect always init_cow (fun c => set_cow (cow_init (cow_part c)) c).
Proof.
  unfold init_cow. apply eff_then; [apply eff_print|intros _].
  apply eff_first; [by apply eff_modify|intros _; quiet].
Qed.

Lemma init_pmm_effect addr : effect always (init_pmm addr)
  (fun c => set_paging (set_alloc (pmm_init_c (k_map c) (palloc (k_paging c))).1 (k_paging c)) c).
Proof.
  unfold init_pmm. do 4 (apply eff_then; [apply eff_print|intros _]). apply eff_then; [apply eff_gets|intros u].
  do 2 (apply eff_then; [apply eff_print|intros _]). apply eff_first; [|intros r; quiet].
  intros k _. destruct (pmm_init_c (k_map k) (palloc (k_paging k))) as [g r] eqn:E.
  eexists _, _. split; [reflexivity|]. cbn. by rewrite E.
Qed.

(** What the stages rely on in the state they find. *)
Record ready (c : core_state) : Prop := {
  rd_lock : HEAP_LOCK (k_heap c) = false;
  rd_arrays : array_lengths (hs (HEAP_STATE (k_heap c)));
  rd_devices : length (PCI_DEVICES (k_pci c)) = 256%nat;
  rd_buses : buses_ascend (k_machine c).2;
}.

Definition heap_after (h : heap_global) : heap_global :=
  mkHeapGlobal false true (set_hs (reset (hs (HEAP_STATE h))) (HEAP_STATE h)).

Lemma init_heap_effect : effect ready init_heap (fun c => set_heap (heap_after (k_heap c)) c).
Proof.
  unfold init_heap. apply eff_skip; [apply eff_print|intros _].
  apply (eff_bind _ always _ _ (fun c => set_heap (heap_after (k_heap c)) c) (fun c => c)); [|done|intros r; quiet].
  intros k R. pose proof (rd_lock _ R) as Hl. cbn [k_heap core] in Hl.
  unfold heap_init_c, heap_init, with_heap_lock. rewrite Hl. eexists _, _. split; reflexivity.
Qed.

Lemma init_guards_effect : effect always init_guards (fun c => c).
Proof.
  unfold init_guards. apply eff_then; [apply eff_print|intros _]. apply eff_then; [|intros _; quiet].
  apply eff_modify. intros []. unfold guard_page_init, guard_part, set_guards, core. cbn.
  by destruct k_guards as [[r n] o].
Qed.

(** The functions behind the host controllers. *)
Definition found (c : core_state) : list PciDevice := default [] (machine_tree (k_machine c).2 bus_depth).
Definition scan_pci (c : core_state) : core_state :=
  set_pci (k_machine c, record_all (found c) (mkPciTable (PCI_DEVICES (k_pci c)) 0)) c.

Lemma ready_scan c : ready c -> ready (scan_pci c).
Proof. intros [H1 H2 H3 H4]. split; [done|done| |done]. exact (proj1 (record_all_spec _ (mkPciTable _ 0) H3 ltac:(cbn; lia))). Qed.

Hypothesis deep : (256 <= bus_depth)%nat.

Lemma enumerate_effect : effect ready (on_pci (pci_enumerate bus_depth)) scan_pci.
Proof.
  intros k R. unfold on_pci, zoom, scan_pci, found. pose proof (rd_buses _ R) as Hb. cbn [k_machine core snd] in Hb |- *.
  pose proof (scans_machine bus_depth (k_machine k) (k_pci k)) as H.
  destruct (machine_tree_some _ _ Hb deep) as [l El]. rewrite El in H |- *.
  destruct H as (s' & E & Hc). rewrite E. eexists _, _. split; [reflexivity|].
  apply (scan_keeps_enumerate chips bm_out32 bm_in32) in E. unfold core, set_pci. cbn. by rewrite Hc, E.
Qed.

Lemma init_pci_effect : effect ready (init_pci bus_depth) (fun c => scan_pci (scan_pci c)).
Proof.
  unfold init_pci. apply eff_skip; [apply eff_print|intros _].
  apply (eff_bind _ ready _ _ scan_pci scan_pci); [exact enumerate_effect|exact ready_scan|intros _].
  apply (eff_bind _ always _ _ scan_pci (fun c => c)); [exact enumerate_effect|done|intros n; quiet].
Qed.

Lemma enable_interrupts_effect : effect always enable_interrupts (set_interrupts true).
Proof. unfold enable_interrupts. apply eff_first; [by apply eff_modify|intros _; quiet]. Qed.

Lemma print_summary_effect : effect always print_summary (fun c => c).
Proof. unfold print_summary. quiet. Qed.
(** * The stages in sequence *)

Definition step_all (fs : list (core_state -> core_state)) (c : core_state) : core_state :=
  fold_left (fun c f => f c) fs c.

(** The stages' effects, in order. *)
Definition effects (addr : Z) : list (core_state -> core_state) :=
  [fun c => c;
   fun c => set_info (boot_info_init (k_memory c) (k_info c)) c;
   fun c => set_tables (idt_init L (gdt_init L (k_tables c))) c;
   fun c => set_machine (remapped, (k_machine c).2) c;
   fun c => c;
   fun c => set_map (memory_init (k_memory c) addr (k_map c)) c;
   fun c => set_paging (set_mgr (Some (boot_manager (k_paging c))) (k_paging c)) c;
   fun c => set_pat (pat_init (edx (cpuid 1 0)) (k_pat c)).1 c;
   fun c => set_cow (cow_init (cow_part c)) c;
   fun c => set_paging (set_alloc (pmm_init_c (k_map c) (palloc (k_paging c))).1 (k_paging c)) c;
   fun c => set_heap (heap_after (k_heap c)) c;
   fun c => c;
   fun c => scan_pci (scan_pci c);
   set_interrupts true;
   fun c => c].

(** A stage with its effect, which keeps what the later ones rely on. *)
Definition stage_ok (p : boot S unit) (f : core_state -> core_state) : Prop :=
  effect ready p f /\ forall c, ready c -> ready (f c).

Lemma run_effect ss fs : Forall2 stage_ok ss fs -> effect ready (run_stages ss) (step_all fs).
Proof.
  induction 1 as [|p f ss fs [Hp Hf] _ IH]; [apply eff_ret|].
  exact (eff_bind ready ready p (fun _ => run_stages ss) f (step_all fs) Hp Hf (fun _ => IH)).
Qed.

Lemma stage_always p f : effect always p f ->
  (forall c, k_heap (f c) = k_heap c /\ k_pci (f c) = k_pci c /\ (k_machine (f c)).2 = (k_machine c).2) ->
  stage_ok p f.
Proof.
  intros Hp Hf. split; [intros k _; by apply Hp|]. intros c [R1 R2 R3 R4].
  destruct (Hf c) as (E1 & E2 & E3). split; by rewrite ?E1, ?E2, ?E3.
Qed.

Lemma ready_heap c : ready c -> ready (set_heap (heap_after (k_heap c)) c).
Proof.
  intros [R1 R2 R3 R4]. split; try done. cbn [k_heap set_heap heap_after HEAP_STATE]. unfold set_hs.
  rewrite reset_spec by done. split_and!; apply length_replicate.
Qed.

Lemma stages_ok fb pitch w h bpp addr :
  Forall2 stage_ok (stages L cpuid bus_depth fb pitch w h bpp addr) (effects addr).
Proof.
  unfold stages, effects.
  repeat (apply Forall2_cons; split); try apply Forall2_nil; try done.
  - by apply stage_always; [apply serial_init_effect|].
  - by apply stage_always; [apply read_boot_info_effect|].
  - by apply stage_always; [apply init_tables_effect|].
  - by apply stage_always; [apply init_pic_effect|].
  - by apply stage_always; [apply init_display_effect|].
  - by apply stage_always; [apply init_memory_map_effect|].
  - by apply stage_always; [apply init_paging_effect|].
  - by apply stage_always; [apply init_pat_effect|].
  - by apply stage_always; [apply init_cow_effect|].
  - by apply stage_always; [apply init_pmm_effect|].
  - split; [exact init_heap_effect|exact ready_heap].
  - by apply stage_always; [apply init_guards_effect|].
  - split; [exact init_pci_effect|]. intros c R. by do 2 apply ready_scan.
  - by apply stage_always; [apply enable_interrupts_effect|].
  - by apply stage_always; [apply print_summary_effect|].
Qed.

(** Any number of stages from the start. *)
Lemma prefix_effect n fb pitch w h bpp addr :
  effect ready (run_stages (take n (stages L cpuid bus_depth fb pitch w h bpp addr))) (step_all (take n (effects addr))).
Proof. apply run_effect, Forall2_take, stages_ok. Qed.
End KernelFacts.
