(* ===== verification/KernelProps.v ===== *)
(** What [enter] establishes.

    The stages bring the machine up whatever text they print; no interrupt can
    arrive before its gate is loaded; in the text mode the last report of the kernel
    stands on the screen. *)

From S2P Require Import Prelude E820 Pmm PmmFacts PmmInit PmmProps FrameAlloc Paging Cow Heap HeapFacts HeapRep HeapProps Pat GuardPage Ports Pci PciHost PciSample PciProps PciScan Pic PicProps Descriptors DescriptorProps Boot Font Video VideoProps VideoText Faults Kernel KernelFacts.
From Stdlib Require Import Ascii.

(** * The lines of the controllers *)

Section Lines.
Context (L : Linked).

Lemma remapped_lines line : 0 <= line < 16 ->
  line_masked line remapped = false /\ line_vector line remapped = 32 + line.
Proof.
  intros Hl. unfold line_masked, line_vector, remapped. cbn [imr vector_base fst snd]. rewrite !Z.testbit_0_l.
  destruct (line <? 8); split; (done || lia).
Qed.

(** The gate of a line. *)
Lemma line_gate cs ds line : linked_ok L -> 0 <= line < 16 ->
  interrupt_entry (idt_init L (gdt_init L (descriptors_init cs ds))) (32 + line) = Some (irq L line, false, None).
Proof.
  intros HL Hl. destruct (boot_gates L cs ds HL) as [Hg _]. rewrite Hg by lia. unfold gate_handler, gate_trap.
  rewrite (proj2 (Z.ltb_ge (32 + line) 32)) by lia. replace (32 + line - 32) with line by lia.
  by repeat rewrite (proj2 (Z.eqb_neq _ _)) by lia.
Qed.
End Lines.

Section KernelProps.
Context {S : Type} `{Bm : BootMachine S}.
Context (L : Linked) (cpuid : Z -> Z -> CpuidResult) (bus_depth : nat).
Hypothesis deep : (256 <= bus_depth)%nat.

Notation final addr c := (step_all (effects L cpuid bus_depth addr) c).

(** * The order of the start *)

Lemma interrupts_late n addr c : k_interrupts c = false ->
  k_interrupts (step_all (take n (effects L cpuid bus_depth addr)) c) = bool_decide (14 <= n)%nat.
Proof.
  intros Hi. do 14 (destruct n as [|n]; [exact Hi|]).
  rewrite bool_decide_true by lia. by destruct n as [|[|n]].
Qed.

(** The tables and the controllers of the last two stages. *)
Lemma late_tables n addr c : (14 <= n)%nat ->
  k_tables (step_all (take n (effects L cpuid bus_depth addr)) c) = idt_init L (gdt_init L (k_tables c)).
Proof. intros Hn. do 14 (destruct n as [|n]; [lia|]). by destruct n as [|[|n]]. Qed.
Lemma late_chips n addr c : (14 <= n)%nat ->
  (k_machine (step_all (take n (effects L cpuid bus_depth addr)) c)).1 = remapped.
Proof. intros Hn. do 14 (destruct n as [|n]; [lia|]). by destruct n as [|[|n]]. Qed.

(** C15. Interrupts come on only when they can be served: after any number of
    stages, if the interrupt flag is set then the controllers are remapped and
    every line of the pair leads through its own gate to its own handler. *)
Theorem interrupts_have_gates n fb pitch w h bpp addr k cs ds :
  linked_ok L -> ready (core k) -> k_tables k = descriptors_init cs ds -> k_interrupts k = false ->
  exists k', run_stages (take n (stages L cpuid bus_depth fb pitch w h bpp addr)) k = Some (k', Ok tt)
    /\ (k_interrupts k' = true <-> (14 <= n)%nat)
    /\ (k_interrupts k' = true -> both_ready (chips (k_machine k'))
        /\ forall line, 0 <= line < 16 -> line_masked line (chips (k_machine k')) = false
             /\ interrupt_entry (k_tables k') (line_vector line (chips (k_machine k'))) = Some (irq L line, false, None)).
Proof.
  intros HL R Ht Hi. destruct (prefix_effect L cpuid bus_depth deep n fb pitch w h bpp addr k R) as (k' & [] & E & C).
  exists k'. split; [exact E|].
  assert (k_interrupts k' = bool_decide (14 <= n)%nat) as ->.
  { rewrite <- (interrupts_late n addr (core k) Hi), <- C. done. }
  rewrite bool_decide_eq_true. split; [done|]. intros Hn.
  assert (chips (k_machine k') = remapped) as ->.
  { rewrite <- (late_chips n addr (core k) Hn), <- C. done. }
  assert (k_tables k' = idt_init L (gdt_init L (descriptors_init cs ds))) as ->.
  { rewrite <- Ht. change (k_tables k) with (k_tables (core k)). rewrite <- (late_tables n addr (core k) Hn), <- C. done. }
  split; [done|]. intros line Hl. destruct (remapped_lines line Hl) as [-> ->]. split; [done|]. by apply line_gate.
Qed.

(** * The machine after the start *)

(** What the frame allocator holds after [init] on a sane map: the manager of
    the first region with room, or nothing new. *)
Definition frames_started (m : store) (map : MemoryMap) (g g' : pmm_global) : Prop :=
  match init_region m map with
  | None => g' = g
  | Some b => exists p, g' = mkGlobal (Some p) (gbytes g') /\ bitmap p = b /\ KERNEL_END <= b
      /\ pmm_inv (mkPst p (gbytes g'))
      /\ total_frames p = highest_usable_address m map / PAGE_SIZE
      /\ (forall f, 0 <= f < total_frames p -> (frame_used (mkPst p (gbytes g')) f = true <-> withheld m map p f))
      /\ (forall a, ~ (b <= a < b + bitmap_size p) -> rd (gbytes g') a = rd m a)
  end.

Lemma frames_start map g : good_map (gbytes g) map ->
  frames_started (gbytes g) map g (pmm_init_c (mkMemoryMapStorage map true) g).1.
Proof.
  intros G. pose proof (pmm_init_spec (gbytes g) map (instance g) G) as H.
  unfold frames_started, pmm_init_c. cbn [mms_initialized mms_map negb].
  destruct (pmm_init map (instance g) (gbytes g)) as [[i m'] [u|e]].
  - destruct H as (p & -> & I & Ht & Hu & Hm & -> & Hp & _). exists p. cbn [fst gbytes]. split_and!; try done.
    intros f Hf. unfold withheld. rewrite <- Hu by done. by destruct (frame_used _ f).
  - destruct H as (-> & -> & _ & ->). by destruct g.
Qed.

(** The table of devices lists the functions that answer. *)
Definition devices_listed (l : list PciDevice) (t : PciTable) : Prop :=
  pci_get_device_count t = Z.min 256 (Z.of_nat (length l))
  /\ forall i, 0 <= i -> pci_get_device i t = if i <? pci_get_device_count t then l !! Z.to_nat i else None.

Lemma scanned_twice c : length (PCI_DEVICES (k_pci c)) = 256%nat ->
  devices_listed (found bus_depth c) (k_pci (scan_pci bus_depth (scan_pci bus_depth c))).
Proof.
  intros Hl. unfold devices_listed. unfold scan_pci at 1 3 5. cbn [k_pci set_pci snd].
  destruct (table_holds (found bus_depth (scan_pci bus_depth c)) (k_pci (scan_pci bus_depth c))) as [Hn Hg].
  { exact (proj1 (record_all_spec _ (mkPciTable _ 0) Hl ltac:(cbn; lia))). }
  cbv zeta in Hn, Hg. rewrite Hn. done.
Qed.

Lemma refcounts_cleared (s : cow_state pmm_global) a : 0 <= a -> get_refcount a (cow_init s) = 0.
Proof.
  intros Ha. unfold get_refcount, cow_init. cbn [refcount_table set_refcounts]. rewrite rd_fill.
  destruct (Z.leb_spec MAX_FRAMES (phys_to_frame_index a)); [done|].
  rewrite decide_True; [done|]. split; [|done]. by apply Z.div_pos.
Qed.

Lemma heap_started A h : array_lengths (hs (HEAP_STATE h)) -> global_rep A (heap_after h) ∅ (global_mem h).
Proof.
  intros Hl. split; [done|done| |by intros]. cbn [HEAP_STATE heap_after]. unfold set_hs.
  rewrite reset_spec by done. apply empty_heap_rep.
Qed.

(** The parts of the final state. *)
Lemma final_frames addr c : let map := parse (k_memory c) addr in
  k_map (final addr c) = mkMemoryMapStorage map true
  /\ palloc (k_paging (final addr c)) = (pmm_init_c (mkMemoryMapStorage map true) (palloc (k_paging c))).1.
Proof. by split. Qed.
Lemma final_paging addr c : pmgr (k_paging (final addr c)) = Some (boot_manager cpuid (k_paging c))
  /\ cr3 (k_paging (final addr c)) = cr3 (k_paging c) /\ pmem (k_paging (final addr c)) = pmem (k_paging c).
Proof. by split_and!. Qed.
Lemma final_refs addr c : exists s : cow_state pmm_global, k_refs (final addr c) = refcount_table (cow_init s).
Proof. unfold effects. generalize (@cow_init pmm_global). intros ci. eexists. reflexivity. Qed.
Lemma final_parts addr c : k_heap (final addr c) = heap_after (k_heap c)
  /\ k_pat (final addr c) = (pat_init (edx (cpuid 1 0)) (k_pat c)).1
  /\ (k_machine (final addr c)).2 = (k_machine c).2 /\ k_interrupts (final addr c) = true.
Proof. unfold effects. generalize (@cow_init pmm_global). intros ci. split_and!; reflexivity. Qed.
Lemma final_pci addr c : exists c', (k_machine c').2 = (k_machine c).2 /\ k_pci c' = k_pci c
  /\ k_pci (final addr c) = k_pci (scan_pci bus_depth (scan_pci bus_depth c')).
Proof. exists (step_all (take 10 (effects L cpuid bus_depth addr)) c).
  unfold effects. generalize (@cow_init pmm_global). intros ci. split_and!; reflexivity.
Qed.

(** C11. The start of the kernel never stops early: with the heap's lock free, the
    static arrays of their lengths and bridges that lead to higher buses, [enter]
    reaches its final loop for every frame buffer and memory map.  Then the memory
    map is the parsed one and the frame allocator holds its free frames, the paging
    manager is set with CR3 and the page tables as they were, no frame is
    shared, the heap is empty and usable, the PAT is programmed, the PCI table
    lists the functions that answer and configuration space is as it was, and
    interrupts are on. *)
Theorem boot_correct fb pitch w h bpp addr k :
  ready (core k) ->
  let m := k_memory k in let map := parse m addr in
  exists k' l, enter L cpuid bus_depth fb pitch w h bpp addr k = Some (k', Ok tt)
    /\ k_map k' = mkMemoryMapStorage map true
    /\ (good_map m map -> frames_started m map (palloc (k_paging k)) (palloc (k_paging k')))
    /\ (pmgr (k_paging k') = Some (boot_manager cpuid (k_paging k)) /\ cr3 (k_paging k') = cr3 (k_paging k)
        /\ pmem (k_paging k') = pmem (k_paging k))
    /\ (forall a, 0 <= a -> get_refcount a (cow_part k') = 0)
    /\ (forall A, global_rep A (k_heap k') ∅ (global_mem (k_heap k)))
    /\ (check_pat_support (edx (cpuid 1 0)) = true -> read_pat (k_pat k') = optimized)
    /\ (machine_tree (cfg (host (k_machine k))) bus_depth = Some l /\ devices_listed l (k_pci k')
        /\ cfg (host (k_machine k')) = cfg (host (k_machine k)))
    /\ k_interrupts k' = true.
Proof.
  intros R m map. destruct (machine_tree_some _ _ (rd_buses _ R) deep) as [l El]. cbn [k_machine core snd] in El.
  destruct (run_effect _ _ (stages_ok L cpuid bus_depth deep fb pitch w h bpp addr) k R) as (k' & [] & E & C).
  exists k', l. split; [exact E|]. set (c := core k) in *.
  assert (found bus_depth c = l) as Hf by (unfold found, c; cbn [k_machine core snd]; by rewrite El).
  change (k_map k') with (k_map (core k')). change (k_paging k') with (k_paging (core k')).
  change (k_heap k') with (k_heap (core k')). change (k_pat k') with (k_pat (core k')).
  change (k_pci k') with (k_pci (core k')). change (k_interrupts k') with (k_interrupts (core k')).
  change (cfg (host (k_machine k'))) with ((k_machine (core k')).2).
  assert (forall a, get_refcount a (cow_part k') = get_refcount a (cow_part (core k'))) as Er by done.
  rewrite C in *. destruct (final_frames addr c) as [-> ->]. destruct (final_parts addr c) as (-> & -> & -> & ->).
  split; [done|]. split; [intros G; exact (frames_start map (palloc (k_paging k)) G)|].
  split; [exact (final_paging addr c)|]. split.
  { intros a Ha. rewrite Er. destruct (final_refs addr c) as [s Es]. unfold get_refcount, cow_part.
    cbn [refcount_table]. rewrite Es. exact (refcounts_cleared s a Ha). }
  split; [intros A; exact (heap_started A (k_heap c) (rd_arrays _ R))|]. split.
  { intros Hp. pose proof (pat_init_correct (edx (cpuid 1 0)) (k_pat c)) as H.
    destruct (pat_init _ _) as [s' [u|e]]; [by destruct H as (_ & _ & H & _)|]. destruct H as [H _]. congruence. }
  split; [|done]. split; [done|]. split; [|done]. destruct (final_pci addr c) as (c' & E1 & E2 & ->).
  rewrite <- Hf. replace (found bus_depth c) with (found bus_depth c') by (unfold found; by rewrite E1).
  apply scanned_twice. rewrite E2. exact (rd_devices _ R).
Qed.

(** * The text on the screen *)

(** What a program may do to the output, as a relation between the display before
    and after. *)
Definition display {X} (R : video -> video -> Prop) (p : boot S X) : Prop :=
  forall k k' x, p k = Some (k', Ok x) -> R (k_video k) (k_video k').

Lemma dis_seq {X Y} (R1 R2 R : video -> video -> Prop) (p : boot S X) (q : X -> boot S Y) :
  (forall v v1 v2, R1 v v1 -> R2 v1 v2 -> R v v2) ->
  display R1 p -> (forall x, display R2 (q x)) -> display R (p ≫= q).
Proof.
  intros HR Hp Hq k k' y. unfold mbind, prog_bind.
  destruct (p k) as [[k1 [x|e]]|] eqn:E; [|by destruct e|done]. intros Ey. eapply HR; [by eapply Hp|by eapply Hq].
Qed.

Section Display.
Context (R : video -> video -> Prop) `{!PreOrder R}.

Lemma dis_ret {X} (x : X) : display R (mret x).
Proof. by intros k k' y [= <- _]. Qed.
Lemma dis_gets {X} (g : kernel S -> X) : display R (gets g).
Proof. by intros k k' y [= <- _]. Qed.
Lemma dis_bind {X Y} (p : boot S X) (q : X -> boot S Y) :
  display R p -> (forall x, display R (q x)) -> display R (p ≫= q).
Proof. apply dis_seq. intros v v1 v2 H1 H2. by etransitivity. Qed.
Lemma dis_modify F : (forall k, k_video (F k) = k_video k) -> display R (modify F).
Proof. intros H k k' y [= <- _]. by rewrite H. Qed.
Lemma dis_machine {X} (p : hw S X) : display R (on_machine p).
Proof. intros k k' y. unfold on_machine. destruct (p (k_machine k)). by intros [= <- _]. Qed.
Lemma dis_if {X} (b : bool) (p q : boot S X) : display R p -> display R q -> display R (if b then p else q).
Proof. by destruct b. Qed.
Lemma dis_kpaging {X} (p : paging_state pmm_global -> option (paging_state pmm_global * X)) : display R (on_kpaging p).
Proof. intros k k' y. unfold on_kpaging. destruct (p (k_paging k)) as [[s z]|]; [|done]. by intros [= <- _]. Qed.
Lemma dis_pci {X} (p : eprog Empty_set (S * PciTable) X) : display R (on_pci p).
Proof. intros k k' y. unfold on_pci, zoom. destruct (p _) as [[t r]|]; [|done]. by intros [= <- _]. Qed.
End Display.

(** The display goes from a terminal to a terminal. *)
Definition terminals (v v' : video) : Prop := forall v0 t, screen_of v0 t v -> exists t', screen_of v0 t' v'.
#[export] Instance terminals_preorder : PreOrder terminals.
Proof.
  split.
  - intros v v0 t H. by exists t.
  - intros v1 v2 v3 H1 H2 v0 t H. destruct (H1 v0 t H) as [t1 H']. exact (H2 v0 t1 H').
Qed.

Lemma dis_print t : display terminals (print t).
Proof.
  intros k k' y. unfold print. intros E v0 t0 H.
  assert (forall s v w t0, screen_of v0 t0 v -> each_char vga_text_putchar (s ++ [0]) v = Some w ->
    exists t', screen_of v0 t' w) as G.
  { clear. intros s. induction s as [|c s IH]; intros v w t0 H; simpl; [intros [= <-]; by exists t0|].
    destruct (Z.eqb_spec c 0); [intros [= <-]; by exists t0|]. intros E. eapply IH; [|exact E]. by apply putchar_shows. }
  destruct (video_print _ _) as [w|] eqn:Ew; [|done]. injection E as <- _. cbn [k_video set_screen].
  unfold video_print, writestring_vga in Ew. rewrite (so_mode _ _ _ H) in Ew. by eapply G.
Qed.

Ltac showing R := repeat first
  [ apply dis_print | apply (dis_modify R); intros; reflexivity | apply (dis_ret R) | apply (dis_gets R)
  | apply (dis_machine R) | apply (dis_kpaging R) | apply (dis_pci R)
  | apply dis_if
  | apply (dis_bind R); [|intros ?] ].

(** The report at the end of a screen. *)
Definition report : list Z := char_codes (text "Kernel is stable.").
Definition reported (t : Terminal.term) : Prop := last (Terminal.finished t) = Some report /\ Terminal.current t = [].
Definition reports (v v' : video) : Prop := forall v0 t, screen_of v0 t v -> exists t', screen_of v0 t' v' /\ reported t'.

Lemma summary_reports : display reports print_summary.
Proof.
  assert (forall v v1 v2, terminals v v1 -> reports v1 v2 -> reports v v2) as HR.
  { intros v v1 v2 H1 H2 v0 t H. destruct (H1 v0 t H) as [t1 H']. exact (H2 v0 t1 H'). }
  unfold print_summary.
  repeat (apply (dis_seq terminals reports reports _ _ HR); [first [apply dis_print|apply (dis_gets terminals)]|intros ?]).
  intros k k' y. unfold print. intros E v0 t H.
  destruct (print_shows v0 t (k_video k) (char_codes (newline ++ text "Kernel is stable." ++ newline)))
    as (w & Ew & Hw); [apply (bool_decide_unpack _); by vm_compute|done|].
  rewrite Ew in E. injection E as <- _. exists (fold_left Terminal.put (char_codes (newline ++ text "Kernel is stable." ++ newline)) t). split; [exact Hw|]. split; [|done].
  change (last ((Terminal.finished t ++ [Terminal.current t]) ++ [report]) = Some report). apply last_snoc.
Qed.

(** The stages between the display and the summary. *)
Lemma middle_talks addr : Forall (display terminals)
  [init_memory_map addr; init_paging cpuid; init_pat cpuid; init_cow; init_pmm addr; init_heap; init_guards;
   init_pci bus_depth; enable_interrupts].
Proof.
  repeat (apply Forall_cons; split); try (apply Forall_nil; exact I).
  - unfold init_memory_map. showing terminals.
  - unfold init_paging. showing terminals.
  - unfold init_pat. showing terminals. intros k k' y. destruct (pat_init_c _ _). by intros [= <- _].
  - unfold init_cow. generalize (@cow_init pmm_global). intros ci. showing terminals.
  - unfold init_pmm. showing terminals. intros k k' y. destruct (pmm_init_c _ _). by intros [= <- _].
  - unfold init_heap. showing terminals.
    intros k k' y. destruct (heap_init_c (k_heap k)) as [[h r]|]; [|done]. by intros [= <- _].
  - unfold init_guards. showing terminals.
  - unfold init_pci. showing terminals.
  - unfold enable_interrupts. showing terminals.
Qed.

Lemma dis_all (ss ss' : list (boot S unit)) : Forall (display terminals) ss ->
  display reports (run_stages ss') -> display reports (run_stages (ss ++ ss')).
Proof.
  intros Hs H'. induction Hs as [|p ss Hp _ IH]; [done|]. cbn [app run_stages].
  apply (dis_seq terminals reports reports); [|done|by intros _].
  intros v v1 v2 H1 H2 v0 t H. destruct (H1 v0 t H) as [t1 H3]. exact (H2 v0 t1 H3).
Qed.

(** The stages before the display print nothing there. *)
Lemma early_silent : Forall (display eq) [serial_init; read_boot_info; init_tables L; init_pic].
Proof.
  repeat (apply Forall_cons; split); try (apply Forall_nil; exact I);
    unfold serial_init, read_boot_info, init_tables, init_pic, serial_outb_port, serial_print; showing (@eq video).
Qed.

Lemma enter_reports pitch w h bpp addr :
  display (fun v v' => exists t, screen_of v t v' /\ reported t) (enter L cpuid bus_depth 0 pitch w h bpp addr).
Proof.
  set (R := fun v v' : video => _).
  assert (forall v v1 v2, v = v1 -> R v1 v2 -> R v v2) as Heq by (by intros v v1 v2 ->).
  unfold enter, stages. cbn [run_stages].
  pose proof early_silent as He. repeat (apply Forall_cons in He as [? He]).
  do 4 (apply (dis_seq eq R R _ _ Heq); [done|intros _]).
  apply (dis_seq (fun v v' => exists t, screen_of v t v') reports R).
  { intros v v1 v2 [t Ht] Hr. exact (Hr v t Ht). }
  - unfold init_display. cbn [negb Z.eqb].
    apply (dis_seq (fun v v' => v' = init_textmode_fallback v) terminals).
    + intros v v1 v2 -> Ht. exact (Ht v _ (init_shows_empty v)).
    + by intros k k' y [= <- _].
    + intros _. showing terminals.
  - intros _. apply (dis_all _ [print_summary] (middle_talks addr)). cbn [run_stages].
    apply (dis_seq reports eq reports); [by intros v v1 v2 Hr <-|exact summary_reports|intros _; apply (dis_ret eq)].
Qed.

(** In the text mode the report of the kernel is on the screen when [enter]
    reaches its final loop: without a frame buffer, whatever was on the screen and in
    memory before, the screen is a terminal whose last complete line is "Kernel is
    stable.", with the cursor at the start of the next line, and only the text
    buffer was written. *)
Theorem boot_reports pitch w h bpp addr k :
  ready (core k) ->
  exists k' t, enter L cpuid bus_depth 0 pitch w h bpp addr k = Some (k', Ok tt)
    /\ screen_of (k_video k) t (k_video k')
    /\ last (Terminal.finished t) = Some report /\ Terminal.current t = [].
Proof.
  intros R. destruct (run_effect _ _ (stages_ok L cpuid bus_depth deep 0 pitch w h bpp addr) k R) as (k' & [] & E & _).
  destruct (enter_reports pitch w h bpp addr _ _ _ E) as (t & Ht & Hr). exists k', t. exact (conj E (conj Ht Hr)).
Qed.
End KernelProps.

(** * Closed instances *)

(** The pair of controllers and the two buses of the sample host. *)
Notation PcMachine := (Chip * Chip * PciHost)%type.

#[export] Instance pc_ports : PortIO PcMachine := {
  port_in8 p m := (m, if p =? PIC1_DATA then imr m.1.1 else if p =? PIC2_DATA then imr m.1.2 else 0);
  port_out8 p v m := (pic_write p v m.1, m.2);
  port_in32 p m := let '(h, v) := port_in32 (PortIO := sample_ports) p m.2 in ((m.1, h), v);
  port_out32 p v m := (m.1, port_out32 (PortIO := sample_ports) p v m.2);
  port_insw _ _ m := (m, []);
  port_outsw _ _ m := m;
}.

#[export] Program Instance pc_pic : PicHardware PcMachine := { chips := fst }.
Next Obligation. done. Qed.
Next Obligation. intros p s. cbn. split; [done|]. split; intros ->; done. Qed.

#[export] Program Instance pc_pci : PciHardware PcMachine := { host := snd; on_write := sample_write }.
Next Obligation. done. Qed.
Next Obligation. done. Qed.
Next Obligation. done. Qed.

#[export] Program Instance pc_machine : BootMachine PcMachine.
Next Obligation. done. Qed.
Next Obligation. done. Qed.
Next Obligation. done. Qed.

Definition sample_kernel : kernel PcMachine :=
  mkK (sample_chips, sample_host) boot_info_zero (descriptors_init 24 32) (mkMemoryMapStorage sample_map false)
    (mkPaging (mkGlobal None sample_map_bytes) ∅ None 16384 0 []) (mkPatState 0 None) ∅ sample_boot
    (replicate 64 0, 0, 0) (mkPciTable (replicate 256 None) 0) false (video_zero ∅ ∅).
Definition sample_cpu : Z -> Z -> CpuidResult := fun _ _ => mkCpuidResult 0 0 0 (2 ^ 16).

Lemma sample_ready : ready (core sample_kernel).
Proof. split; [done|by vm_compute|done|exact sample_ascend]. Qed.

Definition kernel_link : Linked := mkLinked 1310720 1310848 1314816 (fun _ => 1052672) (fun _ => 1056768).
Lemma kernel_linked : linked_ok kernel_link.
Proof. split_and!; vm_compute; by split. Qed.

Lemma boot_correct_witness : exists k' p,
  enter kernel_link sample_cpu 256 0 0 0 0 0 MEMORY_MAP_ADDR sample_kernel = Some (k', Ok tt)
  /\ instance (palloc (k_paging k')) = Some p /\ bitmap p = 10485760
  /\ pci_get_device_count (k_pci k') = 4 /\ k_interrupts k' = true.
Proof.
  destruct (boot_correct kernel_link sample_cpu 256 (le_n 256) 0 0 0 0 0 MEMORY_MAP_ADDR sample_kernel sample_ready)
    as (k' & l & E & _ & Hp & _ & _ & _ & _ & (Hl & [Hn _] & _) & Hi).
  specialize (Hp sample_good). unfold frames_started in Hp.
  assert (init_region (k_memory sample_kernel) (parse (k_memory sample_kernel) MEMORY_MAP_ADDR) = Some 10485760) as Er
    by (vm_compute; reflexivity).
  rewrite Er in Hp. destruct Hp as (p & Hp & Hb & _). exists k', p.
  split; [exact E|]. split; [by rewrite Hp|]. split; [exact Hb|]. split; [|exact Hi].
  rewrite Hn. assert (length l = 4%nat) as ->; [|reflexivity].
  vm_compute in Hl. injection Hl as <-. reflexivity.
Defined.

Lemma interrupts_have_gates_witness : exists k',
  run_stages (take 14 (stages kernel_link sample_cpu 256 0 0 0 0 0 MEMORY_MAP_ADDR)) sample_kernel = Some (k', Ok tt)
  /\ k_interrupts k' = true
  /\ interrupt_entry (k_tables k') (line_vector 1 (chips (k_machine k'))) = Some (irq kernel_link 1, false, None).
Proof.
  destruct (interrupts_have_gates kernel_link sample_cpu 256 (le_n 256) 14 0 0 0 0 0 MEMORY_MAP_ADDR sample_kernel 24 32
    kernel_linked sample_ready eq_refl eq_refl) as (k' & E & Hi & Hg).
  exists k'. split; [exact E|]. assert (k_interrupts k' = true) as Hk by (apply Hi; lia). split; [exact Hk|].
  exact (proj2 (proj2 (Hg Hk) 1 ltac:(lia))).
Defined.

Lemma boot_reports_witness : exists k' t,
  enter kernel_link sample_cpu 256 0 0 0 0 0 MEMORY_MAP_ADDR sample_kernel = Some (k', Ok tt)
  /\ screen_of (video_zero ∅ ∅) t (k_video k') /\ last (Terminal.finished t) = Some report.
Proof.
  destruct (boot_reports kernel_link sample_cpu 256 (le_n 256) 0 0 0 0 MEMORY_MAP_ADDR sample_kernel sample_ready)
    as (k' & t & E & Hs & Hl & _).
  exists k', t. exact (conj E (conj Hs Hl)).
Defined.
