(* ===== verification/SelfTest.v ===== *)
(** The self-tests of [enter]: the page-mapping test and the test of demand-paged
    mappings.  Two constants of the code keep them off ([RUN_PAGING_SELFTEST],
    [RUN_DEMAND_PAGING_TEST]); they are the code's own statement of how the memory
    modules work together.

    The tests touch memory that is not mapped: an access is a translation, or a page
    fault that a handler, a parameter, resolves or does not.  The pages of the tests
    are writable, so the permission bits play no part. *)

From S2P Require Import Prelude FrameAlloc Paging Demand GuardPage Boot Faults.
From Stdlib Require Import Ascii.

Definition RUN_PAGING_SELFTEST : bool := false.
Definition RUN_DEMAND_PAGING_TEST : bool := false.

(** A test stops in a handler that does not return, or in [halt_forever]. *)
Inductive Stop : Set := InHandler | HaltForever.

Section SelfTest.
Context {A : Type} {Ops : FrameOps A}.

(** What the tests work on: the state that page faults act on, and the text. *)
Notation bench := (fault_state A * Console)%type.
Notation test := (eprog Stop bench).

Definition out (f : Console -> Console) : test unit := modify (fun b => (b.1, f b.2)).
Definition log (t : list ascii) : test unit := out (to_serial t).
Definition show (t : list ascii) : test unit := out (to_screen t).

(** Calls of the memory modules. *)
Definition set_fpaging (p : paging_state A) (s : fault_state A) : fault_state A :=
  mkFault p (fbytes s) (fregions s) (frefs s).
Definition on_fpaging {X} (p : paging_state A -> option (paging_state A * X)) : test X := fun b =>
  match p (fpaging b.1) with
  | Some (t, x) => Some ((set_fpaging t b.1, b.2), Ok x)
  | None => None
  end.
Definition on_regions_of {X} (p : demand_state A -> option (demand_state A * X)) : test X := fun b =>
  match p (demand_of b.1) with
  | Some (d, x) => Some ((set_demand d b.1, b.2), Ok x)
  | None => None
  end.

(** * Page mapping *)

Definition paging_test_simple (a b : Z) : Z := a +w b.

Definition TEST_VIRT : Z := 0xFFFF800000000000.

Definition test_alloc_frame : test Z :=
  on_fpaging (fun t => let '(a, x) := fa_alloc (palloc t) in Some (set_alloc a t, x)).
Definition test_free_frame (phys : Z) : test unit :=
  on_fpaging (fun t => let '(a, _) := fa_free phys (palloc t) in Some (set_alloc a t, tt)).

(** The part after a successful mapping. *)
Definition check_mapping (test_virt test_phys : Z) : test unit :=
  show (text "  Mapped virt ") ;; show (print_hex_u64 test_virt) ;;
  show (text " -> phys ") ;; show (print_hex_u64 test_phys) ;; show newline ;;
  translated ← on_fpaging (paging_translate_address test_virt);
  show (text "  Translation check: ") ;;
  (if translated =? test_phys then show (text "OK")
   else show (text "FAILED (got ") ;; show (print_hex_u64 translated) ;; show (text ")")) ;;
  show newline ;;
  unmap_result ← on_fpaging (paging_unmap_page test_virt);
  if unmap_result =? 0 then
    show (text "  Unmapped successfully" ++ newline) ;;
    is_mapped ← on_fpaging (paging_is_mapped test_virt);
    if is_mapped =? 0 then show (text "  Unmap verification: OK" ++ newline)
    else show (text "  Unmap verification: FAILED" ++ newline)
  else show (text "  Unmap FAILED" ++ newline).

Definition paging_selftest : test unit :=
  log (text "About to test page mapping..." ++ newline) ;;
  show (newline ++ text "Testing Page Mapping..." ++ newline) ;;
  log (text "Allocating test frame..." ++ newline) ;;
  test_phys ← test_alloc_frame;
  log (text "Allocated frame: ") ;; log (serial_print_hex_u64 test_phys) ;; log newline ;;
  if negb (test_phys =? 0) then
    show (text "  Allocated test frame: ") ;; show (print_hex_u64 test_phys) ;; show newline ;;
    log (text "About to map page..." ++ newline) ;;
    log (text "Mapping virt ") ;; log (serial_print_hex_u64 TEST_VIRT) ;;
    log (text " to phys ") ;; log (serial_print_hex_u64 test_phys) ;; log newline ;;
    log (text "Calling paging_map_page..." ++ newline) ;;
    log (text "Testing simple C call: ") ;;
    log (serial_print_hex_u64 (paging_test_simple 10 20)) ;;
    log (text "\n") ;;
    map_result ← on_fpaging (paging_map_page TEST_VIRT test_phys 3);
    log (text "Map result: ") ;; log (serial_print_hex_u64 (wrap64 map_result)) ;; log newline ;;
    (if map_result =? 0 then check_mapping TEST_VIRT test_phys
     else show (text "  Map FAILED" ++ newline)) ;;
    test_free_frame test_phys
  else show (text "  Could not allocate test frame" ++ newline).

(** * Demand-paged mappings *)

(** The handler of page faults: fault address, error code; whether the access is
    tried again. *)
Context (page_fault : Z -> Z -> bench -> option (bench * bool)).

Definition raise_page_fault (addr code : Z) : test unit := fun b =>
  match page_fault addr code b with
  | Some (b', true) => Some (b', Ok tt)
  | Some (b', false) => Some (b', Err InHandler)
  | None => None
  end.

(** The physical address behind an access of the kernel; after [n] faults in a row
    the processor has not got past it. *)
Fixpoint access (n : nat) (write : bool) (addr : Z) : test Z :=
  r ← on_fpaging (fun t => translate_address addr t);
  match r with
  | Ok phys => mret phys
  | Err _ =>
      match n with
      | O => undefined
      | S n' => raise_page_fault addr (if write then 2 else 0) ;; access n' write addr
      end
  end.

Definition read_volatile (addr : Z) : test Z :=
  phys ← access 1 false addr;
  gets (fun b => rd (fbytes b.1) phys).
Definition write_volatile (addr v : Z) : test unit :=
  phys ← access 1 true addr;
  modify (fun b => (mkFault (fpaging b.1) (wr (fbytes b.1) phys v) (fregions b.1) (frefs b.1), b.2)).

Definition MMAP_TEST_BASE : Z := 0xFFFF800001000000.
Definition MMAP_FILE_BASE : Z := 0xFFFF800002000000.
Definition MMAP_SIZE : Z := 2 * 4096.
Definition MMAP_FLAGS : Z := 2.

(** [memory_munmap] and its report; the answer is [mmap_ok]. *)
Definition unmap_and_report (addr : Z) (name : string) : test bool :=
  unmap_result ← on_regions_of (memory_munmap addr MMAP_SIZE);
  if unmap_result =? 0 then show (text "  " ++ text name ++ text " munmap: OK" ++ newline) ;; mret true
  else show (text "  " ++ text name ++ text " munmap: FAILED" ++ newline) ;; mret false.

Definition anonymous_selftest : test bool :=
  anon_mapped ← on_regions_of (fun d => Some (memory_mmap_zero MMAP_TEST_BASE MMAP_SIZE MMAP_FLAGS d));
  if negb (anon_mapped =? 0) then
    show (text "  Anonymous mmap: OK at ") ;; show (print_hex_u64 anon_mapped) ;; show newline ;;
    write_volatile anon_mapped 0xAB ;;
    v0 ← read_volatile anon_mapped;
    v1 ← read_volatile (anon_mapped + 4096);
    show (text "  Anon readback: ") ;; show (print_hex_byte v0) ;;
    show (text " / ") ;; show (print_hex_byte v1) ;; show newline ;;
    unmap_and_report anon_mapped "Anonymous"
  else show (text "  Anonymous mmap: FAILED" ++ newline) ;; mret false.

(** [blob] and [read_at] are the addresses of [MMAP_TEST_BLOB] and of
    [mmap_test_read_at]. *)
Definition file_selftest (blob read_at : Z) : test bool :=
  show (text "  EXT4: disabled (linking issues)" ++ newline) ;;
  file_backed_mapped ← on_regions_of (fun d =>
    Some (memory_mmap_file MMAP_FILE_BASE MMAP_SIZE 0 blob read_at 0 BLOB_LEN d));
  if negb (file_backed_mapped =? 0) then
    show (text "  File-backed mmap: OK at ") ;; show (print_hex_u64 file_backed_mapped) ;; show newline ;;
    b0 ← read_volatile file_backed_mapped;
    b1 ← read_volatile (file_backed_mapped + 1);
    show (text "  File readback: ") ;; show (print_hex_byte b0) ;;
    show (text " ") ;; show (print_hex_byte b1) ;; show newline ;;
    unmap_and_report file_backed_mapped "File-backed"
  else show (text "  File-backed mmap: FAILED" ++ newline) ;; mret false.

Definition mmap_selftest (blob read_at : Z) : test unit :=
  show (newline ++ text "Testing demand-paged mmap..." ++ newline) ;;
  anon_ok ← anonymous_selftest;
  file_ok ← file_selftest blob read_at;
  if negb (anon_ok && file_ok) then
    show (text "mmap self-test FAILED" ++ newline) ;;
    throw HaltForever
  else mret tt.
End SelfTest.

(** * The two handlers *)

Section Handlers.
Context {A : Type} {Ops : FrameOps A}.
Notation bench := (fault_state A * Console)%type.

(** The linked [exception_handler] ends in a loop around [hlt]; the registers the
    processor pushes and the registry of guard pages are parameters. *)
Definition linked_fault (rip cs rflags : Z) (guards : list Z * Z) (addr code : Z) (b : bench) : option (bench * bool) :=
  Some ((b.1, exception_handler 14 code rip cs rflags addr (mkGuard (fpaging b.1) guards.1 guards.2 0) b.2), false).

(** [idt/handlers.rs]. *)
Definition demand_fault (cb : Z -> Z -> Z -> Z -> Z -> store -> store * Z) (addr code : Z) (b : bench)
  : option (bench * bool) :=
  match idt_exception_handler cb 14 code addr b.1 with
  | Some (s, Ok Resumed) => Some ((s, b.2), true)
  | Some (s, Ok (Halted report)) => Some ((s, to_screen report b.2), false)
  | Some (s, Err _) => Some ((s, b.2), false)
  | None => None
  end.
End Handlers.
