(* ===== verification/SelfTestFacts.v ===== *)
(** The steps of the self-tests: what each call of the memory modules does to the
    state that the tests work on, and to the screen. *)

From S2P Require Import Prelude Pmm FrameAlloc Paging PagingFacts PagingProps CowProps Demand DemandProps GuardPage Boot BootProps Faults FaultProps SelfTest.
From Stdlib Require Import Ascii.

Section SelfTest.
Context {A : Type} {Ops : FrameOps A} {Laws : FrameLaws A}.
Notation bench := (fault_state A * Console)%type.
Implicit Types (s : fault_state A) (mg : PagingManager).

(** * A frame mapped, translated, unmapped and given back *)

Lemma map_trip T mg (t : paging_state A) f v : paging_ok T mg t -> canonical mg v = true -> v mod 4096 = 0 -> 0 <= v ->
  view mg t v = None -> 0 < f < PHYS_FRAMES -> fa_used (palloc t) f = true ->
  (forall a q, T !! a = Some q -> a / 4096 <> f) ->
  exists t1 r T1, paging_map_page v (f * 4096) 3 t = Some (t1, r) /\ (r = 0 \/ r = -1) /\ paging_ok T1 mg t1
    /\ fa_used (palloc t1) f = true /\ (forall a q, T1 !! a = Some q -> a / 4096 <> f)
    /\ (r = -1 -> forall v', view mg t1 v' = view mg t v')
    /\ (r = 0 -> paging_translate_address v t1 = Some (t1, f * 4096)
         /\ forall v', view mg t1 v' = if decide (same_page mg v' v) then Some (PageLeaf (pte_set (f * 4096) 3)) else view mg t v').
Proof.
  intros Hok Hc Hvm Hv Hn Hf Hu Hnt. unfold paging_map_page, c_result. change (flags_set 3 PRESENT) with 3.
  assert ((f * 4096) mod 4096 = 0) as Hm by (apply Z.mod_mul; lia).
  assert (not_huge (view mg t v)) as Hnh by (by rewrite Hn).
  pose proof (map_page_full T mg t v (f * 4096) 3 Hok Hc (proj2 (is_aligned_mod _) Hm) Hnh) as Hp.
  rewrite pte_set_present in Hp by done.
  destruct (map_page v (f * 4096) 3 t) as [[t1 r]|]; [|done].
  destruct Hp as (Hmono & T1 & Hok1 & [_ Hadd] & Hr).
  assert (forall a q, T1 !! a = Some q -> a / 4096 <> f) as Hnt1.
  { intros a q Ha E. destruct (Hadd a q Ha) as [H0|H0]; [by eapply Hnt|]. rewrite E in H0. congruence. }
  destruct r as [[]|e].
  - destruct Hr as [_ Hview]. exists t1, 0, T1. split; [done|]. split; [by left|]. split_and!; try done; [by apply Hmono|].
    intros _. split; [|exact Hview]. unfold paging_translate_address.
    pose proof (translate_spec T1 mg t1 v Hok1 Hc) as Ht. rewrite Hview, decide_True in Ht by done.
    rewrite page_leaf_phys in Ht by (try done; unfold PHYS_FRAMES in Hf; lia). by rewrite Ht, Hvm, Z.add_0_r.
  - destruct Hr as [_ Hview]. exists t1, (-1), T1. split; [done|]. split; [by right|]. split_and!; try done. by apply Hmono.
Qed.

Lemma unmap_trip T mg (t : paging_state A) f v e : paging_ok T mg t -> canonical mg v = true -> view mg t v = Some (PageLeaf e) ->
  fa_used (palloc t) f = true -> (forall a q, T !! a = Some q -> a / 4096 <> f) ->
  exists t1 T1, paging_unmap_page v t = Some (t1, 0) /\ paging_ok T1 mg t1 /\ paging_is_mapped v t1 = Some (t1, 0)
    /\ fa_used (palloc t1) f = true /\ (forall a q, T1 !! a = Some q -> a / 4096 <> f)
    /\ forall v', view mg t1 v' = if decide (same_page mg v' v) then None else view mg t v'.
Proof.
  intros Hok Hc Hv Hu Hnt. unfold paging_unmap_page, c_result, unmap_page.
  pose proof (unmap_page_spec T mg t v true Hok Hc ltac:(by rewrite Hv)) as Hp.
  destruct (unmap_page_internal v true t) as [[t1 [[]|er]]|]; [| |done].
  2:{ destruct Hp as [_ Hp]. congruence. }
  destruct Hp as (_ & _ & (T1 & Hok1 & Hrel & _) & Hview). pose proof (proj1 Hrel) as Hsub. exists t1, T1. split; [done|]. split; [done|].
  split.
  { unfold paging_is_mapped. pose proof (translate_spec T1 mg t1 v Hok1 Hc) as Ht.
    rewrite Hview, decide_True in Ht by done. by destruct Ht as [er ->]. }
  split; [by rewrite (released_other _ _ _ _ _ Hrel Hnt)|]. split; [|exact Hview]. intros a q Ha. eapply Hnt. by apply Hsub.
Qed.

Lemma free_trip T mg (t : paging_state A) f : paging_ok T mg t -> 0 < f -> fa_used (palloc t) f = true ->
  (forall a q, T !! a = Some q -> a / 4096 <> f) ->
  exists a, fa_free (f * 4096) (palloc t) = (a, true) /\ paging_ok T mg (set_alloc a t)
    /\ forall g, fa_used a g = negb (g =? f) && fa_used (palloc t) g.
Proof.
  intros [Hm [W I Hus]] Hf Hu Hnt. destruct (fa_free_law (palloc t) f I Hf Hu) as (a & E & Ia & Hua).
  exists a. split; [exact E|]. split; [|exact Hua]. constructor; [done|]. constructor; [done|exact Ia|].
  intros c q Hc. cbn. rewrite Hua, (Hus c q Hc). destruct (Z.eqb_spec (c / 4096) f) as [Ec|]; [|done].
  by destruct (Hnt c q Hc).
Qed.

Lemma view_same_page_none mg (t : paging_state A) v v' : same_page mg v v' -> view mg t v' = None -> view mg t v = None.
Proof.
  intros E Hn. unfold view, same_page in *.
  by rewrite (leaf_same_path (pmem t) (mode_levels (mode mg)) (root_table_phys mg) v v' E).
Qed.

(** * The screen *)

(** The screen of a console after a test that says [t]. *)
Definition says {X} (p : eprog Stop bench X) (s s' : fault_state A) (x : X) (t : list ascii) : Prop :=
  forall c, exists c', p (s, c) = Some ((s', c'), Ok x) /\ screen c' = screen c ++ t.

Lemma says_ret {X} (x : X) s : says (mret x) s s x [].
Proof. intros c. exists c. by rewrite app_nil_r. Qed.
Lemma says_bind {X Y} (p : eprog Stop bench X) (q : X -> eprog Stop bench Y) s s1 s2 x y t t' :
  says p s s1 x t -> says (q x) s1 s2 y t' -> says (p ≫= q) s s2 y (t ++ t').
Proof.
  intros Hp Hq c. destruct (Hp c) as (c1 & E1 & S1). destruct (Hq c1) as (c2 & E2 & S2).
  exists c2. rewrite (bind_ok _ _ _ _ _ E1). split; [exact E2|]. by rewrite S2, S1, app_assoc.
Qed.
Lemma says_show t s : says (show t) s s tt t.
Proof. intros c. by eexists. Qed.
Lemma says_log t s : says (log t) s s tt [].
Proof. intros c. eexists. split; [reflexivity|]. cbn. by rewrite app_nil_r. Qed.
Lemma says_paging {X} (p : paging_state A -> option (paging_state A * X)) s t x : p (fpaging s) = Some (t, x) ->
  says (on_fpaging p) s (set_fpaging t s) x [].
Proof. intros E c. exists c. unfold on_fpaging. cbn [fst snd]. rewrite E. by rewrite app_nil_r. Qed.
Lemma says_app {X} (p : eprog Stop bench X) s s' x t t' : says p s s' x t -> t = t' -> says p s s' x t'.
Proof. by intros H <-. Qed.

Lemma frame_freed s x a b : fa_free x (palloc (fpaging s)) = (a, b) ->
  says (test_free_frame x) s (set_fpaging (set_alloc a (fpaging s)) s) tt [].
Proof. intros E. apply says_paging. by rewrite E. Qed.

(** A test that says [t] and then stops in a handler, whose end is [f]. *)
Definition stops {X} (p : eprog Stop bench X) (s : fault_state A) (t : list ascii) (f : Console -> bench) : Prop :=
  forall c, exists c1, screen c1 = screen c ++ t /\ p (s, c) = Some (f c1, Err InHandler).

Lemma stops_then {X Y} (p : eprog Stop bench X) (q : X -> eprog Stop bench Y) s s1 x t t' f :
  says p s s1 x t -> stops (q x) s1 t' f -> stops (p ≫= q) s (t ++ t') f.
Proof.
  intros Hp Hq c. destruct (Hp c) as (c1 & E1 & S1). destruct (Hq c1) as (c2 & S2 & E2).
  exists c2. split; [by rewrite S2, S1, app_assoc|]. by rewrite (bind_ok _ _ _ _ _ E1).
Qed.
Lemma stops_here {X Y} (p : eprog Stop bench X) (q : X -> eprog Stop bench Y) s t f :
  stops p s t f -> stops (p ≫= q) s t f.
Proof. intros Hp c. destruct (Hp c) as (c1 & S1 & E1). exists c1. split; [exact S1|by apply bind_err]. Qed.

(** * Accesses *)

Lemma same_page_aligned mg a : is_u64 a -> same_page mg a (demand_align_down a).
Proof.
  intros Ha. rewrite demand_align_down_spec by done. unfold is_u64 in Ha.
  apply same_page_base; [lia|dlia|]. unfold page_base.
  replace ((a - a mod 4096) / 4096) with (a / 4096); [done|]. dlia.
Qed.

Lemma flags_ok_present f : flags_ok f -> flags_ok (flags_set f PRESENT).
Proof.
  intros [H1 H2]. unfold flags_set, PRESENT. split; [apply Z.lor_nonneg; by split|].
  by rewrite Z.land_lor_distr_l, H2.
Qed.

Lemma translate_absent T mg (t : paging_state A) a : paging_ok T mg t -> canonical mg a = true ->
  view mg t a = None -> exists e, translate_address a t = Some (t, Err e).
Proof. intros Hok Hc Hv. pose proof (translate_spec T mg t a Hok Hc) as H. by rewrite Hv in H. Qed.

Lemma read_translation {X} (k : result string Z -> eprog Stop bench X) a s c r :
  translate_address a (fpaging s) = Some (fpaging s, r) ->
  (on_fpaging (fun t => translate_address a t) ≫= k) (s, c) = k r (s, c).
Proof.
  intros E. erewrite bind_ok; [|unfold on_fpaging; cbn [fst]; rewrite E; reflexivity]. by destruct s.
Qed.


(** An access to an absent page of a region, under the demand-paging handler. *)
Lemma access_absent cb T mg s c write a r :
  callback_ok cb -> paging_ok T mg (fpaging s) -> is_u64 a -> find_region a (fregions s) = Some r ->
  flags_ok (vm_flags r) -> canonical mg a = true -> canonical mg (demand_align_down a) = true ->
  view mg (fpaging s) a = None ->
  match access (demand_fault cb) 1 write a (s, c) with
  | Some ((s', c'), Ok phys) => c' = c /\ fregions s' = fregions s /\ exists x T',
      phys = x + a mod 4096
      /\ page_added T T' mg (demand_align_down a) (flags_set (vm_flags r) PRESENT) x (fpaging s) (fpaging s')
      /\ translate_address a (fpaging s') = Some (fpaging s', Ok phys)
      /\ (forall i, file_bytes r (demand_align_down a) <= i < 4096 -> rd (fbytes s') (x + i) = 0)
      /\ (forall b, ~ (x <= b < x + 4096) -> rd (fbytes s') b = rd (fbytes s) b)
      /\ filled_from cb r (demand_align_down a) x (fbytes s) (fbytes s')
  | Some ((s', c'), Err e) => e = InHandler
      /\ screen c' = screen c ++ fault_report a (if write then 2 else 0)
      /\ forall v, view mg (fpaging s') v = view mg (fpaging s) v
  | None => False
  end.
Proof.
  intros Hcb Hok Ha Hfind Hfl Hc Hcp Hv. cbn [access].
  destruct (translate_absent T mg (fpaging s) a Hok Hc Hv) as [e Ee]. rewrite (read_translation _ _ _ _ _ Ee).
  set (code := if write then 2 else 0). unfold raise_page_fault.
  assert (not_present code) as Hnp by (by destruct write).
  assert (view mg (fpaging s) (demand_align_down a) = None) as Hvp.
  { apply (view_same_page_none mg _ _ a); [|done]. symmetry. by apply same_page_aligned. }
  pose proof (demand_fault_full cb T mg (demand_of s) a code Hcb Hok Ha
    ltac:(intros r0 Hr0; change (find_region a (fregions s) = Some r0) in Hr0; rewrite Hfind in Hr0;
      injection Hr0 as <-; exact (proj1 Hfl)) Hcp Hvp) as H. cbv zeta in H.
  pose proof (handle_not_present cb a code s Hnp) as Hh.
  unfold mbind at 1, prog_bind. unfold demand_fault, idt_exception_handler. change (14 =? 14) with true. cbv iota.
  cbn [fst snd]. rewrite Hh.
  destruct (handle_demand_page_fault cb a code (demand_of s)) as [[d [[]|er]]|]; [| |done].
  2:{ destruct H as (_ & Hview & _). by split_and!. }
  destruct H as (r0 & x & T' & Hr0 & P & Hz & Hout & Hfill & Hrs).
  change (find_region a (fregions s) = Some r0) in Hr0. rewrite Hfind in Hr0. injection Hr0 as <-.
  destruct (pa_frame _ _ _ _ _ _ _ _ P) as [Hxm Hx].
  pose proof (translate_spec T' mg (dpaging d) a (pa_ok _ _ _ _ _ _ _ _ P) Hc) as Ht.
  rewrite (pa_view _ _ _ _ _ _ _ _ P) in Ht.
  rewrite decide_True, page_leaf_phys in Ht by (try lia; try apply flags_ok_present; try done; by apply same_page_aligned).
  rewrite (read_translation _ _ (set_demand d s) _ _ Ht). cbn [mret prog_ret].
  split; [done|]. split; [exact Hrs|]. exists x, T'. by split_and!.
Qed.

(** An access to a present page. *)
Lemma access_present h T mg s c n write a x flags : paging_ok T mg (fpaging s) -> canonical mg a = true ->
  view mg (fpaging s) a = Some (PageLeaf (pte_set x flags)) -> 0 <= x < 2 ^ 52 -> x mod 4096 = 0 -> flags_ok flags ->
  access h n write a (s, c) = Some ((s, c), Ok (x + a mod 4096)).
Proof.
  intros Hok Hc Hv Hx Hm Hf. pose proof (translate_spec T mg (fpaging s) a Hok Hc) as Ht.
  rewrite Hv, page_leaf_phys in Ht by done. destruct n; cbn [access]; by rewrite (read_translation _ _ _ _ _ Ht).
Qed.

(** * Frames that the tests leave alone *)

(** A frame in use that is not a page table. *)
Definition held (T : gmap Z (list Z)) (t : paging_state A) (g : Z) : Prop :=
  fa_used (palloc t) g = true /\ forall a q, T !! a = Some q -> a / 4096 <> g.

(** What was held is still held, and its bytes are the same. *)
Record keeps (T T' : gmap Z (list Z)) s s' : Prop := {
  keeps_held : forall g, held T (fpaging s) g -> held T' (fpaging s') g;
  keeps_bytes : forall a, held T (fpaging s) (a / 4096) -> rd (fbytes s') a = rd (fbytes s) a;
}.

Lemma keeps_trans T1 T2 T3 s1 s2 s3 : keeps T1 T2 s1 s2 -> keeps T2 T3 s2 s3 -> keeps T1 T3 s1 s3.
Proof.
  intros [H1 B1] [H2 B2]. constructor; [auto|]. intros a Ha. rewrite B2, B1; auto.
Qed.

Lemma keeps_regions T s rs : keeps T T s (mkFault (fpaging s) (fbytes s) rs (frefs s)).
Proof. by constructor. Qed.

Lemma page_added_keeps T T' mg page flags x s s' : page_added T T' mg page flags x (fpaging s) (fpaging s') ->
  (forall b, ~ (x <= b < x + 4096) -> rd (fbytes s') b = rd (fbytes s) b) -> keeps T T' s s'.
Proof.
  intros P Hb. destruct (pa_frame _ _ _ _ _ _ _ _ P) as [Hxm Hx]. constructor.
  - intros g [Hu Ht]. split; [by apply (pa_mono _ _ _ _ _ _ _ _ P)|]. intros a q Ha.
    destruct (pa_tables _ _ _ _ _ _ _ _ P a q Ha) as [_ [HT|Hn]]; [by eapply Ht|congruence].
  - intros a [Hu _]. apply Hb. intros Ha. assert (a / 4096 = x / 4096) as E by dlia.
    rewrite E in Hu. by rewrite (pa_free _ _ _ _ _ _ _ _ P) in Hu.
Qed.

(** The new page itself is held, and was not. *)
Lemma page_added_held T T' mg page flags x (t t' : paging_state A) : page_added T T' mg page flags x t t' ->
  held T' t' (x / 4096) /\ ~ held T t (x / 4096).
Proof.
  intros P. split.
  - split; [apply P|]. intros a q Ha. by apply (pa_tables _ _ _ _ _ _ _ _ P a q).
  - intros [Hu _]. by rewrite (pa_free _ _ _ _ _ _ _ _ P) in Hu.
Qed.

(** * Regions of the tests *)

Definition test_base (base : Z) : Prop := base = MMAP_TEST_BASE \/ base = MMAP_FILE_BASE.
(** The registry with one region of a test. *)
Definition one_region (base flags : Z) (b : BackingKind) : registry :=
  <[0%nat := Some (mkVmRegion base (base + MMAP_SIZE) flags b)]> REGIONS_init.

Lemma test_window mg base : test_base base -> one_window mg base (base + MMAP_SIZE).
Proof.
  intros Hb. constructor.
  - intros a Ha. unfold canonical, is_canonical_la48, is_canonical_la57. rewrite !Z.shiftr_div_pow2 by lia.
    assert (65535 * 2 ^ 48 + 2 ^ 47 <= a < 2 ^ 64)
      by (destruct Hb as [-> | ->]; unfold MMAP_TEST_BASE, MMAP_FILE_BASE, MMAP_SIZE in Ha; lia).
    destruct (mode mg); apply orb_true_iff; right; apply Z.eqb_eq; symmetry.
    + apply (Z.div_unique _ _ _ (a - 65535 * 2 ^ 48)); lia.
    + apply (Z.div_unique _ _ _ (a - 127 * 2 ^ 57)); lia.
  - unfold page_base. destruct (mode mg), Hb as [-> | ->]; by vm_compute.
Qed.

(** A range of a test has two pages. *)
Lemma test_pages_only base v : test_base base -> base <= v < base + MMAP_SIZE -> v mod 4096 = 0 -> v = base \/ v = base + 4096.
Proof.
  intros Hb Hv Hm. assert (base mod 4096 = 0) by (destruct Hb as [-> | ->]; by vm_compute). unfold MMAP_SIZE in Hv. dlia.
Qed.

Lemma test_pages_differ mg base : test_base base -> ~ same_page mg (base + 4096) base.
Proof.
  intros Hb E. unfold same_page in E. destruct (mode mg), Hb as [-> | ->]; vm_compute in E; discriminate.
Qed.

Lemma test_pages_none T mg (t : paging_state A) base : test_base base -> view mg t base = None ->
  view mg t (base + 4096) = None -> data_pages T mg t base (base + MMAP_SIZE).
Proof.
  intros Hb H0 H1. apply data_pages_none. intros v Hv Hm.
  destruct (test_pages_only base v Hb Hv Hm) as [-> | ->]; done.
Qed.

Lemma test_data_added T T' mg base a flags x (t t' : paging_state A) : test_base base -> a = base \/ a = base + 4096 ->
  page_added T T' mg a flags x t t' -> flags_ok flags -> data_pages T mg t base (base + MMAP_SIZE) ->
  data_pages T' mg t' base (base + MMAP_SIZE).
Proof.
  intros Hb Ha P Hfl Hd. apply (data_pages_added T T' mg a flags x t t'); try done.
  - by apply test_window.
  - destruct Hb as [-> | ->]; by vm_compute.
  - destruct Hb as [-> | ->]; by vm_compute.
  - unfold MMAP_SIZE. lia.
Qed.

(** The leaf of a page added. *)
Lemma page_added_leaf T T' mg a flags x (t t' : paging_state A) : page_added T T' mg a flags x t t' -> flags_ok flags ->
  view mg t' a = Some (PageLeaf (pte_set x flags)) /\ pte_address (pte_set x flags) = x
  /\ 0 <= x < 2 ^ 52 /\ x mod 4096 = 0.
Proof.
  intros P Hf. destruct (pa_frame _ _ _ _ _ _ _ _ P) as [Hm Hx].
  split_and!; [|apply pte_set_address; [lia|done|done]|lia|lia|done].
  by rewrite (pa_view _ _ _ _ _ _ _ _ P), decide_True.
Qed.

Lemma page_added_other T T' mg a flags x (t t' : paging_state A) v : page_added T T' mg a flags x t t' ->
  ~ same_page mg v a -> view mg t' v = view mg t v.
Proof. intros P Hn. by rewrite (pa_view _ _ _ _ _ _ _ _ P), decide_False. Qed.

Lemma test_unmap mg T s base flags b : test_base base -> paging_ok T mg (fpaging s) ->
  fregions s = one_region base flags b -> data_pages T mg (fpaging s) base (base + MMAP_SIZE) ->
  exists d T', memory_munmap base MMAP_SIZE (demand_of s) = Some (d, 0) /\ REGIONS d = REGIONS_init
    /\ dbytes d = fbytes s /\ paging_ok T' mg (dpaging d)
    /\ (forall v, 0 <= v -> view mg (dpaging d) v
          = if decide (covers mg base (base + MMAP_SIZE) v) then None else view mg (fpaging s) v)
    /\ (forall g, held T (fpaging s) g ->
          (forall v e, base <= v < base + MMAP_SIZE -> v mod 4096 = 0 ->
             view mg (fpaging s) v = Some (PageLeaf e) -> pte_address e / 4096 <> g) ->
          held T' (dpaging d) g).
Proof.
  intros Hb Hok Hr Hd. unfold memory_munmap, munmap. change (MMAP_SIZE =? 0) with false. cbv iota.
  assert (aligned_range base MMAP_SIZE = Ok (base, base + MMAP_SIZE)) as -> by (destruct Hb as [-> | ->]; reflexivity).
  erewrite bind_ok by reflexivity. cbn [demand_of REGIONS]. rewrite Hr.
  assert (overlaps_registry base (base + MMAP_SIZE) (one_region base flags b) = true) as ->
    by (destruct Hb as [-> | ->]; reflexivity).
  cbn [negb]. replace (base + MMAP_SIZE - base) with MMAP_SIZE by lia.
  assert (0 <= base /\ base mod 4096 = 0 /\ (base + MMAP_SIZE) mod 4096 = 0 /\ base + MMAP_SIZE < U64) as (H0 & Hm & Hm' & Hlt)
    by (destruct Hb as [-> | ->]; by vm_compute).
  destruct (unmap_pages_spec mg (base + MMAP_SIZE) (Z.to_nat (MMAP_SIZE / PAGING_PAGE_SIZE + 1)) T (demand_of s) base
    Hok Hd (test_window mg base Hb) H0 Hm Hm' Hlt ltac:(rewrite Z.add_simpl_l; by vm_compute))
    as (s1 & T1 & E1 & Hr1 & Hb1 & [Hok1 Hs1 Hv1 Hk1]).
  erewrite bind_ok by exact E1. unfold on_regions. rewrite Hr1. cbn [demand_of REGIONS]. rewrite Hr.
  assert (unmap_slots base (base + MMAP_SIZE) (List.length (one_region base flags b)) 0 (one_region base flags b)
    = (REGIONS_init, Ok tt)) as -> by (destruct Hb as [-> | ->]; vm_compute; reflexivity).
  do 2 eexists. split; [reflexivity|]. split_and!; try done.
  intros g [Hu Ht] Hl. split; [apply Hk1; split_and!; [done|by intros; eapply Ht|done]|].
  intros a q Ha. by eapply Ht, Hs1.
Qed.

(** * Tests under the demand-paging handler *)

Definition test_page (base a : Z) : Prop := test_base base /\ (a = base \/ a = base + 4096).

(** A test returns, with the postcondition on the state, the answer and the text;
    or it stops in the handler, whose report of a fault in a test page is the end of
    the text. *)
Definition wp {X} (p : eprog Stop bench X) s (Q : fault_state A -> X -> list ascii -> Prop) : Prop :=
  forall c, match p (s, c) with
  | Some ((s', c'), Ok x) => exists t, screen c' = screen c ++ t /\ Q s' x t
  | Some ((_, c'), Err e) => e = InHandler /\ exists t base a code,
      test_page base a /\ screen c' = screen c ++ t ++ fault_report a code
  | None => False
  end.

Lemma wp_bind {X Y} (p : eprog Stop bench X) (q : X -> eprog Stop bench Y) s Q R : wp p s Q ->
  (forall s1 x t, Q s1 x t -> wp (q x) s1 (fun s2 y u => R s2 y (t ++ u))) -> wp (p ≫= q) s R.
Proof.
  intros Hp Hq c. specialize (Hp c). unfold mbind, prog_bind.
  destruct (p (s, c)) as [[[s1 c1] [x|e]]|]; [|done|done].
  destruct Hp as (t & S1 & HQ). specialize (Hq s1 x t HQ c1).
  destruct (q x (s1, c1)) as [[[s2 c2] [y|e]]|]; [| |done].
  - destruct Hq as (u & S2 & HR). exists (t ++ u). by rewrite S2, S1, app_assoc.
  - destruct Hq as (-> & u & base & a & code & Ha & S2). split; [done|]. exists (t ++ u), base, a, code.
    by rewrite S2, S1, <- !app_assoc.
Qed.

Lemma wp_says {X} (p : eprog Stop bench X) s s' x t (Q : fault_state A -> X -> list ascii -> Prop) :
  says p s s' x t -> Q s' x t -> wp p s Q.
Proof. intros Hp HQ c. destruct (Hp c) as (c' & E & S'). rewrite E. by exists t. Qed.

Lemma wp_then {X Y} (p : eprog Stop bench X) (q : X -> eprog Stop bench Y) s s1 x t R :
  says p s s1 x t -> wp (q x) s1 (fun s2 y u => R s2 y (t ++ u)) -> wp (p ≫= q) s R.
Proof.
  intros Hp Hq. apply (wp_bind p q s (fun s' x' t' => s' = s1 /\ x' = x /\ t' = t)); [by apply (wp_says p s s1 x t)|].
  by intros ? ? ? (-> & -> & ->).
Qed.

Lemma wp_mono {X} (p : eprog Stop bench X) s (Q R : fault_state A -> X -> list ascii -> Prop) :
  wp p s Q -> (forall s' x t, Q s' x t -> R s' x t) -> wp p s R.
Proof.
  intros Hp HQ c. specialize (Hp c). destruct (p (s, c)) as [[[s1 c1] [x|e]]|]; [|done|done].
  destruct Hp as (t & S1 & H). exists t. auto.
Qed.

Lemma test_page_canonical mg base a : test_page base a -> canonical mg a = true.
Proof.
  intros [Hb Ha]. apply (ow_canonical _ _ _ (test_window mg base Hb)). unfold MMAP_SIZE. lia.
Qed.

Lemma test_page_facts mg base a fl b : test_page base a ->
  is_u64 a /\ canonical mg a = true /\ demand_align_down a = a /\ a mod 4096 = 0
  /\ find_region a (one_region base fl b) = Some (mkVmRegion base (base + MMAP_SIZE) fl b).
Proof.
  intros Hp. pose proof (test_page_canonical mg base a Hp) as Hc. destruct Hp as [Hb Ha].
  split_and!; [|exact Hc|..]; destruct Hb as [-> | ->], Ha as [-> | ->]; by vm_compute.
Qed.

(** The first access to a page of a test. *)
Section Access.
Context (cb : Z -> Z -> Z -> Z -> Z -> store -> store * Z) (Hcb : callback_ok cb).

Lemma wp_access T mg s write base a fl b : test_page base a -> paging_ok T mg (fpaging s) ->
  fregions s = one_region base fl b -> flags_ok fl -> view mg (fpaging s) a = None ->
  wp (access (demand_fault cb) 1 write a) s (fun s' x t => t = [] /\ fregions s' = fregions s
    /\ exists T', page_added T T' mg a (flags_set fl PRESENT) x (fpaging s) (fpaging s')
    /\ keeps T T' s s'
    /\ (forall i, file_bytes (mkVmRegion base (base + MMAP_SIZE) fl b) a <= i < 4096 -> rd (fbytes s') (x + i) = 0)
    /\ filled_from cb (mkVmRegion base (base + MMAP_SIZE) fl b) a x (fbytes s) (fbytes s')).
Proof.
  intros Hp Hok Hr Hfl Hv c. destruct (test_page_facts mg base a fl b Hp) as (Ha & Hc & Hal & Hm & Hf).
  rewrite <- Hr in Hf. pose proof (access_absent cb T mg s c write a _ Hcb Hok Ha Hf Hfl Hc
    ltac:(by rewrite Hal) Hv) as H. rewrite Hal, Hm in H.
  destruct (access (demand_fault cb) 1 write a (s, c)) as [[[s' c'] [phys|e]]|]; [| |done].
  - destruct H as (-> & Hrs & x & T' & -> & P & _ & Hz & Ho & Hfill). rewrite Z.add_0_r.
    exists []. rewrite app_nil_r. split; [done|]. split; [done|]. split; [done|]. exists T'.
    split; [exact P|]. split; [by eapply page_added_keeps|]. by split.
  - destruct H as (-> & S' & _). split; [done|]. exists [], base, a, (if write then 2 else 0). by split.
Qed.
End Access.

Lemma says_read h T mg s a x flags : paging_ok T mg (fpaging s) -> canonical mg a = true ->
  view mg (fpaging s) a = Some (PageLeaf (pte_set x flags)) -> 0 <= x < 2 ^ 52 -> x mod 4096 = 0 -> flags_ok flags ->
  says (read_volatile h a) s s (rd (fbytes s) (x + a mod 4096)) [].
Proof.
  intros Hok Hc Hv Hx Hm Hf c. exists c. unfold read_volatile.
  rewrite (bind_ok _ _ _ _ _ (access_present h T mg s c 1 false a x flags Hok Hc Hv Hx Hm Hf)). by rewrite app_nil_r.
Qed.

(** Bytes of frames that are not held do not matter. *)
Lemma keeps_write T T' s s' x v : keeps T T' s s' -> ~ held T (fpaging s) (x / 4096) ->
  keeps T T' s (mkFault (fpaging s') (wr (fbytes s') x v) (fregions s') (frefs s')).
Proof.
  intros [H1 B1] Hx. constructor; [exact H1|]. intros a Ha. cbn. rewrite rd_wr_ne; [auto|]. by intros ->.
Qed.

Lemma wp_write cb T mg s base a v fl b : callback_ok cb -> test_page base a -> paging_ok T mg (fpaging s) ->
  fregions s = one_region base fl b -> flags_ok fl -> view mg (fpaging s) a = None ->
  wp (write_volatile (demand_fault cb) a v) s (fun s' _ t => t = [] /\ fregions s' = fregions s
    /\ exists x T', page_added T T' mg a (flags_set fl PRESENT) x (fpaging s) (fpaging s')
    /\ keeps T T' s s' /\ rd (fbytes s') x = v).
Proof.
  intros Hcb Hp Hok Hr Hfl Hv. unfold write_volatile.
  eapply wp_bind; [by apply (wp_access cb Hcb T mg s true base a fl b)|]. cbv beta.
  intros s1 x t (-> & Hr1 & T' & P & K & _). apply (wp_says _ s1 (mkFault (fpaging s1) (wr (fbytes s1) x v) (fregions s1) (frefs s1)) tt []); [intros c; exists c; split; [reflexivity|by rewrite app_nil_r]|].
  split; [done|]. split; [exact Hr1|]. exists x, T'. split; [exact P|]. split; [|by apply rd_wr_eq].
  apply keeps_write; [done|]. by apply (page_added_held _ _ _ _ _ _ _ _ P).
Qed.

Lemma wp_read cb T mg s base a fl b : callback_ok cb -> test_page base a -> paging_ok T mg (fpaging s) ->
  fregions s = one_region base fl b -> flags_ok fl -> view mg (fpaging s) a = None ->
  wp (read_volatile (demand_fault cb) a) s (fun s' u t => t = [] /\ fregions s' = fregions s
    /\ exists x T', page_added T T' mg a (flags_set fl PRESENT) x (fpaging s) (fpaging s')
    /\ keeps T T' s s' /\ u = rd (fbytes s') x
    /\ (file_bytes (mkVmRegion base (base + MMAP_SIZE) fl b) a <= 0 -> u = 0)
    /\ filled_from cb (mkVmRegion base (base + MMAP_SIZE) fl b) a x (fbytes s) (fbytes s')).
Proof.
  intros Hcb Hp Hok Hr Hfl Hv. unfold read_volatile.
  eapply wp_bind; [by apply (wp_access cb Hcb T mg s false base a fl b)|]. cbv beta.
  intros s1 x t (-> & Hr1 & T' & P & K & Hz & Hfill). apply (wp_says _ s1 s1 (rd (fbytes s1) x) []); [intros c; exists c; split; [reflexivity|by rewrite app_nil_r]|].
  split; [done|]. split; [exact Hr1|]. exists x, T'. split; [exact P|]. split; [exact K|]. split; [done|].
  split; [|exact Hfill]. intros H0. rewrite <- (Z.add_0_r x). apply Hz. lia.
Qed.

(** * The end of a test *)

(** The state a test leaves: no region, every translation as before, and what was
    held with its bytes. *)
Definition restored T mg s s' : Prop :=
  fregions s' = REGIONS_init /\ exists T', paging_ok T' mg (fpaging s')
  /\ (forall v, 0 <= v -> view mg (fpaging s') v = view mg (fpaging s) v) /\ keeps T T' s s'.

Lemma restored_trans T T2 mg s1 s2 s3 : (forall v, 0 <= v -> view mg (fpaging s2) v = view mg (fpaging s1) v) ->
  keeps T T2 s1 s2 -> restored T2 mg s2 s3 -> restored T mg s1 s3.
Proof.
  intros Hv K (Hr & T3 & Hok3 & Hv3 & K3). split; [done|]. exists T3. split; [done|].
  split; [intros v H0; by rewrite Hv3, Hv|by eapply keeps_trans].
Qed.

Lemma covers_two mg base v : test_base base -> 0 <= v -> covers mg base (base + MMAP_SIZE) v ->
  same_page mg v base \/ same_page mg v (base + 4096).
Proof.
  intros Hb Hv. pose proof (test_window mg base Hb) as W.
  assert (0 <= base /\ base mod 4096 = 0 /\ (base + 4096) mod 4096 = 0) as (H0 & Hm & Hm1) by (destruct Hb as [-> | ->]; by vm_compute).
  unfold MMAP_SIZE in *. rewrite (covers_next mg base _ v W) by (done || lia).
  pose proof (window_next mg base _ W H0 Hm ltac:(lia)) as W1.
  rewrite (covers_next mg (base + 4096) _ v W1) by (done || lia).
  rewrite !same_page_base by lia. intros [?|[?|Hc]]; [by left|by right|]. unfold covers in Hc. lia.
Qed.

Lemma test_restored T0 s0 T mg s base flags b name : test_base base -> paging_ok T mg (fpaging s) ->
  fregions s = one_region base flags b -> data_pages T mg (fpaging s) base (base + MMAP_SIZE) ->
  keeps T0 T s0 s ->
  view mg (fpaging s0) base = None -> view mg (fpaging s0) (base + 4096) = None ->
  (forall v, 0 <= v -> view mg (fpaging s) v = view mg (fpaging s0) v
     \/ same_page mg v base \/ same_page mg v (base + 4096)) ->
  (forall v e, v = base \/ v = base + 4096 -> view mg (fpaging s) v = Some (PageLeaf e) ->
     ~ held T0 (fpaging s0) (pte_address e / 4096)) ->
  exists s', says (unmap_and_report base name) s s' true (text "  " ++ text name ++ text " munmap: OK" ++ newline)
    /\ restored T0 mg s0 s'.
Proof.
  intros Hb Hok Hr Hd K Hn0 Hn1 Hv Hl.
  destruct (test_unmap mg T s base flags b Hb Hok Hr Hd) as (d & T' & E & Hrd & Hbd & Hok' & Hv' & Hk').
  exists (set_demand d s). split.
  - unfold unmap_and_report. eapply says_app.
    + eapply says_bind; [intros c; exists c; unfold on_regions_of; cbn [fst snd]; rewrite E; by rewrite app_nil_r|].
      cbn [Z.eqb]. eapply says_bind; [apply says_show|apply says_ret].
    + by rewrite app_nil_r, app_nil_l.
  - split; [exact Hrd|]. exists T'. split; [exact Hok'|]. split.
    + intros v H0. change (fpaging (set_demand d s)) with (dpaging d). rewrite Hv' by done. case_decide as Hc.
      * destruct (covers_two mg base v Hb H0 Hc) as [Hs|Hs]; symmetry; by eapply view_same_page_none.
      * destruct (Hv v H0) as [?|Hs]; [done|]. exfalso. apply Hc.
        pose proof (test_window mg base Hb) as W.
        assert (0 <= base /\ base mod 4096 = 0 /\ (base + 4096) mod 4096 = 0) as (Hb0 & Hm & Hm1) by (destruct Hb as [-> | ->]; by vm_compute).
        unfold MMAP_SIZE in *. rewrite (covers_next mg base _ v W) by (done || lia). rewrite !same_page_base in Hs by lia.
        destruct Hs as [Hs|Hs]; [by left|right]. unfold covers. rewrite Hs. lia.
    + constructor.
      * intros g Hg. apply Hk'; [by apply K|]. intros v e Hve Hvm He <-. apply (Hl v e); [|done|exact Hg]. by apply test_pages_only.
      * intros a Ha. change (fbytes (set_demand d s)) with (dbytes d). rewrite Hbd. by apply K.
Qed.

End SelfTest.
