(* ===== verification/SelfTestProps.v ===== *)
(** What the self-tests of [enter] would show.

    The page-mapping test passes or reports a lack of frames, and leaves every
    translation and the test frame as they were.  The test of demand-paged mappings
    cannot get past its first access under the linked exception handler. *)

From S2P Require Import Prelude Pmm FrameAlloc Paging PagingFacts PagingProps CowProps Demand DemandProps GuardPage Boot BootProps Faults FaultProps SelfTest SelfTestFacts.
From Stdlib Require Import Ascii.

Section SelfTest.
Context {A : Type} {Ops : FrameOps A} {Laws : FrameLaws A}.
Notation bench := (fault_state A * Console)%type.
Implicit Types (s : fault_state A) (mg : PagingManager).

(** * The page-mapping test *)

Definition mapping_line (x : Z) : list ascii :=
  text "  Mapped virt " ++ print_hex_u64 TEST_VIRT ++ text " -> phys " ++ print_hex_u64 x ++ newline.
Definition test_heading : list ascii := newline ++ text "Testing Page Mapping..." ++ newline.

(** The verdicts of the test. *)
Inductive verdict : Set := NoFrame | MapFailed (x : Z) | Passed (x : Z).
Definition report (d : verdict) : list ascii :=
  test_heading ++
  match d with
  | NoFrame => text "  Could not allocate test frame" ++ newline
  | MapFailed x => text "  Allocated test frame: " ++ print_hex_u64 x ++ newline ++ text "  Map FAILED" ++ newline
  | Passed x => text "  Allocated test frame: " ++ print_hex_u64 x ++ newline ++ mapping_line x
      ++ text "  Translation check: " ++ text "OK" ++ newline ++ text "  Unmapped successfully" ++ newline
      ++ text "  Unmap verification: OK" ++ newline
  end.

Ltac saying := repeat first [eapply says_bind; [first [apply says_show|apply says_log]|]|apply says_show|apply says_log].
Ltac say_texts := unfold report, test_heading, mapping_line; rewrite ?app_nil_l, ?app_nil_r, <- ?app_assoc; reflexivity.

Lemma check_mapping_says v x s t1 t2 t3 :
  paging_translate_address v (fpaging s) = Some (t1, x) -> paging_unmap_page v t1 = Some (t2, 0) ->
  paging_is_mapped v t2 = Some (t3, 0) ->
  says (check_mapping v x) s (set_fpaging t3 s) tt
    (text "  Mapped virt " ++ print_hex_u64 v ++ text " -> phys " ++ print_hex_u64 x ++ newline
     ++ text "  Translation check: " ++ text "OK" ++ newline ++ text "  Unmapped successfully" ++ newline
     ++ text "  Unmap verification: OK" ++ newline).
Proof.
  intros E1 E2 E3. unfold check_mapping. eapply says_app.
  - saying. eapply says_bind; [by apply says_paging|]. rewrite Z.eqb_refl. saying.
    eapply says_bind; [by apply says_paging|]. cbn [Z.eqb]. saying.
    eapply says_bind; [by apply says_paging|]. cbn [Z.eqb]. saying.
  - say_texts.
Qed.

Lemma test_virt_canonical mg : canonical mg TEST_VIRT = true.
Proof. unfold canonical. by destruct (mode mg); vm_compute. Qed.

(** The page-mapping test, on well-formed tables that do not map its address:
    it says that a frame, or a frame for a table, is missing, or that the page was
    mapped, translates to the frame, and is unmapped again.  Whatever it says,
    every translation is as before, nothing but the tables and the allocator has
    changed, and the test frame, which was free, is free again. *)
Theorem paging_selftest_correct T mg s c :
  paging_ok T mg (fpaging s) -> view mg (fpaging s) TEST_VIRT = None ->
  exists s' c' d, paging_selftest (s, c) = Some ((s', c'), Ok tt) /\ screen c' = screen c ++ report d
    /\ (exists T', paging_ok T' mg (fpaging s')) /\ (forall v, view mg (fpaging s') v = view mg (fpaging s) v)
    /\ fbytes s' = fbytes s /\ fregions s' = fregions s /\ frefs s' = frefs s
    /\ match d with
       | NoFrame => s' = s
       | MapFailed x | Passed x => 0 < x /\ fa_used (palloc (fpaging s)) (x / 4096) = false
           /\ fa_used (palloc (fpaging s')) (x / 4096) = false
       end.
Proof.
  intros Hok Hv. pose proof (test_virt_canonical mg) as Hc.
  enough (exists s' d, says paging_selftest s s' tt (report d)
    /\ (exists T', paging_ok T' mg (fpaging s')) /\ (forall v, view mg (fpaging s') v = view mg (fpaging s) v)
    /\ fbytes s' = fbytes s /\ fregions s' = fregions s /\ frefs s' = frefs s
    /\ match d with
       | NoFrame => s' = s
       | MapFailed x | Passed x => 0 < x /\ fa_used (palloc (fpaging s)) (x / 4096) = false
           /\ fa_used (palloc (fpaging s')) (x / 4096) = false
       end) as (s' & d & Hs & H).
  { destruct (Hs c) as (c' & E & Ec). exists s', c', d. by split. }
  unfold paging_selftest.
  destruct (fa_alloc (palloc (fpaging s))) as [a x] eqn:Ea.
  assert (says test_alloc_frame s (set_fpaging (set_alloc a (fpaging s)) s) x []) as Hal.
  { apply says_paging. by rewrite Ea. }
  destruct (fa_alloc_law _ _ _ (ok_alloc _ _ _ _ (pg_tables _ _ _ Hok)) Ea) as [[-> ->]|Hg].
  - exists s, NoFrame.
    replace (set_fpaging (set_alloc (palloc (fpaging s)) (fpaging s)) s) with s in Hal by (by destruct s as [[] ? ? ?]).
    split; [|split_and!; [by exists T|done..]]. eapply says_app.
    + saying. eapply says_bind; [exact Hal|]. cbn [negb Z.eqb]. saying.
    + say_texts.
  - pose proof (grant_tables_ok T mg _ _ _ Hok Hg) as Hok0. destruct Hg as (f & Hf & -> & Hfree & Hus & _).
    change (f * PAGE_SIZE) with (f * 4096) in *. set (t0 := set_alloc a (fpaging s)) in *.
    assert (fa_used (palloc t0) f = true) as Hu0 by (cbn; by rewrite Hus, Z.eqb_refl).
    assert (forall b q, T !! b = Some q -> b / 4096 <> f) as Hnt0.
    { intros b q Hb <-. pose proof (ok_used _ _ _ _ (pg_tables _ _ _ Hok) b q Hb). congruence. }
    destruct (map_trip T mg t0 f TEST_VIRT Hok0 Hc eq_refl ltac:(done) Hv Hf Hu0 Hnt0)
      as (t1 & r & T1 & Em & Hr & Hok1 & Hu1 & Hnt1 & Hfail & Hpass).
    assert (f * 4096 / 4096 = f) as Hdiv by (apply Z.div_mul; lia).
    destruct Hr as [-> | ->].
    + destruct (Hpass eq_refl) as [Et Hview]. clear Hfail Hpass.
      destruct (unmap_trip T1 mg t1 f TEST_VIRT (pte_set (f * 4096) 3) Hok1 Hc
        ltac:(by rewrite Hview, decide_True) Hu1 Hnt1) as (t2 & T2 & Eu & Hok2 & Ei & Hu2 & Hnt2 & Hview2).
      destruct (free_trip T2 mg t2 f Hok2 ltac:(lia) Hu2 Hnt2) as (a' & Ef & Hok3 & Hua).
      exists (set_fpaging (set_alloc a' t2) s), (Passed (f * 4096)). split.
      * eapply says_app.
        { saying. eapply says_bind; [exact Hal|]. rewrite (proj2 (Z.eqb_neq (f * 4096) 0)) by lia. cbn [negb].
          saying. eapply says_bind; [by apply says_paging|]. saying. cbn [Z.eqb].
          eapply says_bind; [exact (check_mapping_says _ _ (set_fpaging t1 s) t1 t2 t2 Et Eu Ei)|].
          exact (frame_freed (set_fpaging t2 s) (f * 4096) a' true Ef). }
        say_texts.
      * split_and!; try done; [by exists T2| |lia|by rewrite Hdiv|cbn; by rewrite Hdiv, Hua, Z.eqb_refl].
        intros v. change (view mg t2 v = view mg t0 v). rewrite Hview2, Hview. case_decide as E; [|done].
        symmetry. by apply (view_same_page_none mg t0 v TEST_VIRT).
    + specialize (Hfail eq_refl). clear Hpass.
      destruct (free_trip T1 mg t1 f Hok1 ltac:(lia) Hu1 Hnt1) as (a' & Ef & Hok3 & Hua).
      exists (set_fpaging (set_alloc a' t1) s), (MapFailed (f * 4096)). split.
      * eapply says_app.
        { saying. eapply says_bind; [exact Hal|]. rewrite (proj2 (Z.eqb_neq (f * 4096) 0)) by lia. cbn [negb].
          saying. eapply says_bind; [by apply says_paging|]. saying. cbn [Z.eqb]. saying.
          exact (frame_freed (set_fpaging t1 s) (f * 4096) a' true Ef). }
        say_texts.
      * split_and!; try done; [by exists T1|lia|by rewrite Hdiv|cbn; by rewrite Hdiv, Hua, Z.eqb_refl].
Qed.

(** * Demand-paged mappings *)

(** An access to an absent page of a registered region, with the demand-paging
    handler: one fault is enough.  Either the access goes through to a frame that
    was free, which now backs the page, with zeros from the end of the region's
    file on and the text as it was; or the handler has reported the fault and
    halted, with every translation as before. *)
Theorem demand_access_correct cb T mg s c write a r :
  callback_ok cb -> paging_ok T mg (fpaging s) -> is_u64 a -> find_region a (fregions s) = Some r ->
  flags_ok (vm_flags r) -> canonical mg a = true -> canonical mg (demand_align_down a) = true ->
  view mg (fpaging s) a = None ->
  match access (demand_fault cb) 1 write a (s, c) with
  | Some ((s', c'), Ok phys) => c' = c /\ fregions s' = fregions s
      /\ fa_used (palloc (fpaging s)) (phys / 4096) = false /\ phys mod 4096 = a mod 4096
      /\ translate_address a (fpaging s') = Some (fpaging s', Ok phys)
      /\ (forall v, ~ same_page mg v a -> view mg (fpaging s') v = view mg (fpaging s) v)
      /\ (file_bytes r (demand_align_down a) <= a mod 4096 -> rd (fbytes s') phys = 0)
  | Some ((s', c'), Err e) => e = InHandler
      /\ screen c' = screen c ++ fault_report a (if write then 2 else 0)
      /\ forall v, view mg (fpaging s') v = view mg (fpaging s) v
  | None => False
  end.
Proof.
  intros Hcb Hok Ha Hfind Hfl Hc Hcp Hv.
  pose proof (access_absent cb T mg s c write a r Hcb Hok Ha Hfind Hfl Hc Hcp Hv) as H.
  destruct (access _ _ _ _ _) as [[[s' c'] [phys|e]]|]; [|done|done].
  destruct H as (-> & Hrs & x & T' & -> & P & Ht & Hz & _ & _).
  destruct (pa_frame _ _ _ _ _ _ _ _ P) as [Hxm Hx].
  assert (0 <= a mod 4096 < 4096) as Hm by (apply Z.mod_pos_bound; lia).
  split; [done|]. split; [done|]. split.
  { replace ((x + a mod 4096) / 4096) with (x / 4096) by dlia. apply P. }
  split; [dlia|]. split; [exact Ht|]. split; [|intros Hf; apply Hz; lia].
  intros v Hne. rewrite (pa_view _ _ _ _ _ _ _ _ P), decide_False; [done|].
  intros E. apply Hne. unfold same_page in *. rewrite E. symmetry. by apply same_page_aligned.
Qed.

(** The registry with the anonymous region of the test. *)
Definition test_regions : registry := one_region MMAP_TEST_BASE MMAP_FLAGS ZeroFill.
Lemma test_region_mapped : mmap MMAP_TEST_BASE MMAP_SIZE MMAP_FLAGS ZeroFill REGIONS_init = (test_regions, Ok MMAP_TEST_BASE).
Proof. vm_compute. reflexivity. Qed.

Lemma test_mmap s : fregions s = REGIONS_init ->
  says (on_regions_of (fun d => Some (memory_mmap_zero MMAP_TEST_BASE MMAP_SIZE MMAP_FLAGS d))) s
    (mkFault (fpaging s) (fbytes s) test_regions (frefs s)) MMAP_TEST_BASE [].
Proof.
  intros Hr c. exists c. unfold on_regions_of, memory_mmap_zero, demand_of. cbn [fst snd REGIONS].
  rewrite Hr, test_region_mapped. by rewrite app_nil_r.
Qed.

Lemma test_first_page : test_page MMAP_TEST_BASE MMAP_TEST_BASE.
Proof. split; [by left|by left]. Qed.

(** What the screen shows up to the first access. *)
Definition first_access : list ascii :=
  newline ++ text "Testing demand-paged mmap..." ++ newline
  ++ text "  Anonymous mmap: OK at " ++ print_hex_u64 MMAP_TEST_BASE ++ newline.

(** C40. Under the exception handler that the kernel links, the test of
    demand-paged mappings stops at its first access: the region is registered, but
    the write raises a fault that the handler reports and does not resolve; no byte
    and no translation has changed. *)
Theorem mmap_selftest_stops blob read_at rip cs rflags guards T mg s c :
  paging_ok T mg (fpaging s) -> view mg (fpaging s) MMAP_TEST_BASE = None ->
  fregions s = REGIONS_init ->
  exists c1, screen c1 = screen c ++ first_access
    /\ mmap_selftest (linked_fault rip cs rflags guards) blob read_at (s, c)
       = Some ((mkFault (fpaging s) (fbytes s) test_regions (frefs s),
                exception_handler 14 2 rip cs rflags MMAP_TEST_BASE (mkGuard (fpaging s) guards.1 guards.2 0) c1),
               Err InHandler).
Proof.
  intros Hok Hv Hr. pose proof (test_page_canonical mg MMAP_TEST_BASE _ test_first_page) as Hc.
  destruct (translate_absent T mg _ _ Hok Hc Hv) as [e Ee].
  set (s1 := mkFault (fpaging s) (fbytes s) test_regions (frefs s)).
  set (f := fun c1 => (s1, exception_handler 14 2 rip cs rflags MMAP_TEST_BASE (mkGuard (fpaging s) guards.1 guards.2 0) c1)).
  assert (stops (write_volatile (linked_fault rip cs rflags guards) MMAP_TEST_BASE 171) s1 [] f) as Hw.
  { intros c0. exists c0. split; [by rewrite app_nil_r|]. unfold write_volatile. apply bind_err. cbn [access].
    rewrite (read_translation _ _ s1 _ _ Ee). by apply bind_err. }
  enough (stops (mmap_selftest (linked_fault rip cs rflags guards) blob read_at) s first_access f) as H by exact (H c).
  unfold mmap_selftest, anonymous_selftest.
  replace first_access with ((newline ++ text "Testing demand-paged mmap..." ++ newline) ++ [] ++
    text "  Anonymous mmap: OK at " ++ print_hex_u64 MMAP_TEST_BASE ++ newline ++ [])
    by (unfold first_access; rewrite app_nil_l, app_nil_r, <- !app_assoc; reflexivity).
  eapply stops_then; [apply says_show|]. apply stops_here.
  eapply stops_then; [by apply test_mmap|]. change (negb (MMAP_TEST_BASE =? 0)) with true. cbv iota.
  do 3 (eapply stops_then; [apply says_show|]). by apply stops_here.
Qed.
(** What the two halves of the test say when they pass. *)
Definition anonymous_text : list ascii :=
  text "  Anonymous mmap: OK at " ++ print_hex_u64 MMAP_TEST_BASE ++ newline
  ++ text "  Anon readback: " ++ print_hex_byte 0xAB ++ text " / " ++ print_hex_byte 0 ++ newline
  ++ text "  Anonymous munmap: OK" ++ newline.

Lemma anonymous_passes cb T mg s : callback_ok cb -> paging_ok T mg (fpaging s) -> fregions s = REGIONS_init ->
  view mg (fpaging s) MMAP_TEST_BASE = None -> view mg (fpaging s) (MMAP_TEST_BASE + 4096) = None ->
  wp (anonymous_selftest (demand_fault cb)) s (fun s' ok t => ok = true /\ t = anonymous_text /\ restored T mg s s').
Proof.
  intros Hcb Hok Hr Hn0 Hn1. set (s1 := mkFault (fpaging s) (fbytes s) test_regions (frefs s)).
  assert (test_base MMAP_TEST_BASE) as Hb by (by left).
  pose proof (keeps_regions T s test_regions : keeps T T s s1) as Ks.
  assert (flags_ok (flags_set MMAP_FLAGS PRESENT)) as Hf3 by (by split).
  assert (canonical mg MMAP_TEST_BASE = true) as Hc 
    by exact (test_page_canonical mg MMAP_TEST_BASE _ test_first_page).
  unfold anonymous_selftest. eapply wp_then; [by apply test_mmap|]. change (negb (MMAP_TEST_BASE =? 0)) with true. cbv iota.
  do 3 (eapply wp_then; [apply says_show|]).
  eapply wp_bind; [apply (wp_write cb T mg s1 MMAP_TEST_BASE MMAP_TEST_BASE 171 MMAP_FLAGS ZeroFill); try done; by split; [|left]|].
  cbv beta. intros s2 _ t (-> & Hr2 & x0 & T2 & P0 & K0 & Hb0).
  destruct (page_added_leaf _ _ _ _ _ _ _ _ P0 Hf3) as (L0 & A0 & X0 & M0).
  eapply wp_then; [exact (says_read _ T2 mg s2 MMAP_TEST_BASE x0 _ (pa_ok _ _ _ _ _ _ _ _ P0) Hc L0 X0 M0 Hf3)|].
  change (MMAP_TEST_BASE mod 4096) with 0. rewrite Z.add_0_r, Hb0.
  assert (view mg (fpaging s2) (MMAP_TEST_BASE + 4096) = None) as Hn2.
  { rewrite (page_added_other _ _ _ _ _ _ _ _ _ P0); [exact Hn1|by apply test_pages_differ]. }
  eapply wp_bind; [apply (wp_read cb T2 mg s2 MMAP_TEST_BASE (MMAP_TEST_BASE + 4096) MMAP_FLAGS ZeroFill); try done;
    [by split; [|right]|exact (pa_ok _ _ _ _ _ _ _ _ P0)]|].
  cbv beta. intros s3 v1 t (-> & Hr3 & x1 & T3 & P1 & K1 & _ & Hz & _). rewrite (Hz ltac:(done)).
  destruct (page_added_leaf _ _ _ _ _ _ _ _ P1 Hf3) as (L1 & A1 & _).
  assert (data_pages T3 mg (fpaging s3) MMAP_TEST_BASE (MMAP_TEST_BASE + MMAP_SIZE)) as Hd.
  { eapply test_data_added; [done|by right|exact P1|done|]. eapply test_data_added; [done|by left|exact P0|done|].
    by apply test_pages_none. }
  destruct (test_restored T s T3 mg s3 MMAP_TEST_BASE MMAP_FLAGS ZeroFill "Anonymous" Hb (pa_ok _ _ _ _ _ _ _ _ P1)
    ltac:(by rewrite Hr3, Hr2) Hd (keeps_trans _ _ _ _ _ _ Ks (keeps_trans _ _ _ _ _ _ K0 K1)) Hn0 Hn1) as (s4 & Hsay & Hres).
  { intros v Hv. destruct (decide (same_page mg v (MMAP_TEST_BASE + 4096))) as [?|Hne1]; [by right; right|].
    destruct (decide (same_page mg v MMAP_TEST_BASE)) as [?|Hne0]; [by right; left|left].
    by rewrite (page_added_other _ _ _ _ _ _ _ _ _ P1 Hne1), (page_added_other _ _ _ _ _ _ _ _ _ P0 Hne0). }
  { intros v e [-> | ->] He.
    - rewrite (page_added_other _ _ _ _ _ _ _ _ _ P1), L0 in He
        by (intros E; symmetry in E; by apply (test_pages_differ mg MMAP_TEST_BASE)).
      injection He as <-. rewrite A0. apply (page_added_held _ _ _ _ _ _ _ _ P0).
    - rewrite L1 in He. injection He as <-. rewrite A1. intros Hh. apply (keeps_held _ _ _ _ K0) in Hh.
      by apply (page_added_held _ _ _ _ _ _ _ _ P1). }
  do 5 (eapply wp_then; [apply says_show|]). eapply wp_says; [exact Hsay|]. split; [done|]. split; [|exact Hres].
  unfold anonymous_text. rewrite ?app_nil_l, <- ?app_assoc. reflexivity.
Qed.

(** The bytes of the blob in a page filled from it. *)
Definition blob_file (blob read_at : Z) : FileBacking := mkFileBacking blob read_at 0 BLOB_LEN.
Definition reads_blob (cb : Z -> Z -> Z -> Z -> Z -> store -> store * Z) (blob read_at : Z) : Prop :=
  forall off dst len m, cb read_at blob off dst len m = mmap_test_read_at blob off dst len m.

Lemma blob_in_page cb blob read_at base fl x m m' i : test_base base -> reads_blob cb blob read_at -> 0 < blob -> 0 < x ->
  x mod 4096 = 0 -> (forall j, 0 <= j < BLOB_LEN -> (blob + j) / 4096 <> x / 4096) ->
  filled_from cb (mkVmRegion base (base + MMAP_SIZE) fl (FileBacked (blob_file blob read_at))) base x m m' ->
  0 <= i < BLOB_LEN -> rd m' (x + i) = rd m (blob + i).
Proof.
  intros Hb Hrd H0 Hx Hm Hfar (m0 & _ & Hout & ->) Hi. cbn [backing].
  assert (file_bytes (mkVmRegion base (base + MMAP_SIZE) fl (FileBacked (blob_file blob read_at))) base = BLOB_LEN)
    as -> by (destruct Hb as [-> | ->]; reflexivity).
  assert (page_offset_in (mkVmRegion base (base + MMAP_SIZE) fl (FileBacked (blob_file blob read_at)))
    (blob_file blob read_at) base = 0) as -> by (destruct Hb as [-> | ->]; reflexivity).
  change (0 <? BLOB_LEN) with true. cbv iota.
  cbn [Demand.read_at ctx blob_file]. rewrite Hrd. unfold mmap_test_read_at.
  rewrite !(proj2 (Z.eqb_neq _ 0)) by (unfold BLOB_LEN; lia). cbn [orb]. change (BLOB_LEN <=? 0) with false. cbv iota.
  cbn [fst]. change (Z.min BLOB_LEN (BLOB_LEN - 0)) with BLOB_LEN. rewrite Z.add_0_r. unfold BLOB_LEN in *.
  assert (forall j, 0 <= j < 32 -> ~ (x <= blob + j < x + 4096)) as Hno.
  { intros j Hj Hin. apply (Hfar j Hj). dlia. }
  assert (x <= blob \/ blob + 32 <= x) as Hov.
  { pose proof (Hno 0 ltac:(lia)). pose proof (Hno 31 ltac:(lia)). destruct (decide (x <= blob)); [by left|right].
    destruct (decide (blob + 32 <= x)); [done|]. exfalso. apply (Hno (x - blob)); lia. }
  destruct (memcpy_spec x blob 32 m0 ltac:(lia) Hov) as [Hc _]. rewrite Hc by done. apply Hout. by apply Hno.
Qed.

Definition file_text (b0 b1 : Z) : list ascii :=
  text "  EXT4: disabled (linking issues)" ++ newline
  ++ text "  File-backed mmap: OK at " ++ print_hex_u64 MMAP_FILE_BASE ++ newline
  ++ text "  File readback: " ++ print_hex_byte b0 ++ text " " ++ print_hex_byte b1 ++ newline
  ++ text "  File-backed munmap: OK" ++ newline.

Lemma file_passes cb blob read_at T mg s : callback_ok cb -> reads_blob cb blob read_at -> 0 < blob ->
  (forall i, 0 <= i < BLOB_LEN -> held T (fpaging s) ((blob + i) / 4096)) ->
  paging_ok T mg (fpaging s) -> fregions s = REGIONS_init ->
  view mg (fpaging s) MMAP_FILE_BASE = None -> view mg (fpaging s) (MMAP_FILE_BASE + 4096) = None ->
  wp (file_selftest (demand_fault cb) blob read_at) s (fun s' ok t =>
    ok = true /\ t = file_text (rd (fbytes s) blob) (rd (fbytes s) (blob + 1)) /\ restored T mg s s').
Proof.
  intros Hcb Hrd H0 Hheld Hok Hr Hn0 Hn1. set (bk := FileBacked (blob_file blob read_at)).
  set (rs := one_region MMAP_FILE_BASE 0 bk). set (s1 := mkFault (fpaging s) (fbytes s) rs (frefs s)).
  assert (test_base MMAP_FILE_BASE) as Hb by (by right).
  pose proof (keeps_regions T s rs : keeps T T s s1) as Ks.
  assert (flags_ok (flags_set 0 PRESENT)) as Hf1 by (by split).
  assert (says (on_regions_of (fun d => Some (memory_mmap_file MMAP_FILE_BASE MMAP_SIZE 0 blob read_at 0 BLOB_LEN d))) s s1 MMAP_FILE_BASE []) as Hm.
  { intros c. exists c. unfold on_regions_of, memory_mmap_file, demand_of. cbn [fst snd REGIONS]. rewrite Hr.
    split; [vm_compute; reflexivity|by rewrite app_nil_r]. }
  unfold file_selftest. eapply wp_then; [apply says_show|]. eapply wp_then; [exact Hm|].
  change (negb (MMAP_FILE_BASE =? 0)) with true. cbv iota. do 3 (eapply wp_then; [apply says_show|]).
  eapply wp_bind; [apply (wp_read cb T mg s1 MMAP_FILE_BASE MMAP_FILE_BASE 0 bk); try done; by split; [|left]|].
  cbv beta. intros s2 b0 t (-> & Hr2 & x & T2 & P & K & -> & _ & Hfill).
  destruct (page_added_leaf _ _ _ _ _ _ _ _ P Hf1) as (L & A' & X & M).
  assert (forall i, 0 <= i < BLOB_LEN -> rd (fbytes s2) (x + i) = rd (fbytes s) (blob + i)) as Hbytes.
  { intros i Hi. apply (blob_in_page cb blob read_at MMAP_FILE_BASE 0 x); try done; [apply (pa_frame _ _ _ _ _ _ _ _ P)|].
    intros j Hj E. apply (page_added_held _ _ _ _ _ _ _ _ P). rewrite <- E. by apply Hheld. }
  assert (same_page mg (MMAP_FILE_BASE + 1) MMAP_FILE_BASE) as Hsp
    by (unfold same_page; destruct (mode mg); by vm_compute).
  assert (view mg (fpaging s2) (MMAP_FILE_BASE + 1) = Some (PageLeaf (pte_set x (flags_set 0 PRESENT)))) as L1.
  { by rewrite (pa_view _ _ _ _ _ _ _ _ P), decide_True. }
  assert (canonical mg (MMAP_FILE_BASE + 1) = true) as Hc1
    by (apply (ow_canonical _ _ _ (test_window mg MMAP_FILE_BASE Hb)); unfold MMAP_SIZE; lia).
  eapply wp_then; [exact (says_read _ T2 mg s2 (MMAP_FILE_BASE + 1) x _ (pa_ok _ _ _ _ _ _ _ _ P) Hc1 L1 X M Hf1)|].
  change ((MMAP_FILE_BASE + 1) mod 4096) with 1. rewrite (Hbytes 1) by done.
  replace (rd (fbytes s2) x) with (rd (fbytes s) blob) by (rewrite <- (Z.add_0_r x), Hbytes, Z.add_0_r; done).
  destruct (test_restored T s T2 mg s2 MMAP_FILE_BASE 0 bk "File-backed" Hb (pa_ok _ _ _ _ _ _ _ _ P) Hr2
    ltac:(eapply test_data_added; [done|by left|exact P|done|by apply test_pages_none])
    (keeps_trans _ _ _ _ _ _ Ks K) Hn0 Hn1) as (s3 & Hsay & Hres).
  { intros v Hv. destruct (decide (same_page mg v MMAP_FILE_BASE)) as [?|Hne]; [by right; left|left].
    by rewrite (page_added_other _ _ _ _ _ _ _ _ _ P Hne). }
  { intros v e [-> | ->] He.
    - rewrite L in He. injection He as <-. rewrite A'. apply (page_added_held _ _ _ _ _ _ _ _ P).
    - rewrite (page_added_other _ _ _ _ _ _ _ _ _ P) in He by (by apply test_pages_differ).
      change (fpaging s1) with (fpaging s) in He. congruence. }
  do 5 (eapply wp_then; [apply says_show|]). eapply wp_says; [exact Hsay|]. split; [done|]. split; [|exact Hres].
  unfold file_text. rewrite ?app_nil_l, <- ?app_assoc. reflexivity.
Qed.

Definition passed_text (b0 b1 : Z) : list ascii :=
  newline ++ text "Testing demand-paged mmap..." ++ newline ++ anonymous_text ++ file_text b0 b1.

(** C24. The test of demand-paged mappings, under the handler of [idt/handlers.rs]:
    from well-formed tables that map none of its four pages and an empty registry,
    with the blob in memory that is in use, it passes.  The screen shows the byte
    that was written, a zero from the second page and the first two bytes of the
    blob; every region and page of the test is gone, every translation is as
    before, and memory that was in use is still in use and has its bytes.  Only the
    handler can stop it, with the report of a fault in a page of the test. *)
Theorem mmap_selftest_passes cb blob read_at T mg s c :
  callback_ok cb -> reads_blob cb blob read_at -> 0 < blob ->
  (forall i, 0 <= i < BLOB_LEN -> held T (fpaging s) ((blob + i) / 4096)) ->
  paging_ok T mg (fpaging s) -> fregions s = REGIONS_init ->
  (forall base a, test_page base a -> view mg (fpaging s) a = None) ->
  match mmap_selftest (demand_fault cb) blob read_at (s, c) with
  | Some ((s', c'), Ok _) =>
      screen c' = screen c ++ passed_text (rd (fbytes s) blob) (rd (fbytes s) (blob + 1)) /\ restored T mg s s'
  | Some ((_, c'), Err e) => e = InHandler /\ exists t base a code,
      test_page base a /\ screen c' = screen c ++ t ++ fault_report a code
  | None => False
  end.
Proof.
  intros Hcb Hrd H0 Hheld Hok Hr Hn.
  enough (wp (mmap_selftest (demand_fault cb) blob read_at) s (fun s' _ t =>
    t = passed_text (rd (fbytes s) blob) (rd (fbytes s) (blob + 1)) /\ restored T mg s s')) as H.
  { specialize (H c). destruct (mmap_selftest _ _ _ _) as [[[s' c'] [[]|e]]|]; [|done|done].
    destruct H as (t & S' & -> & Hres). by split. }
  assert (forall base, test_base base -> view mg (fpaging s) base = None /\ view mg (fpaging s) (base + 4096) = None) as Hn2.
  { intros base Hb. split; apply (Hn base); (split; [done|]); [by left|by right]. }
  unfold mmap_selftest. eapply wp_then; [apply says_show|].
  eapply wp_bind; [apply (anonymous_passes cb T); try done; by apply Hn2; left|].
  intros s1 ok t (-> & -> & Hr1 & T1 & Hok1 & Hv1 & K1).
  eapply wp_bind.
  { apply (file_passes cb blob read_at T1 mg s1); try done; [intros i Hi; by apply K1, Hheld| |];
      (rewrite Hv1 by done); by apply Hn2; right. }
  intros s2 ok t (-> & -> & Hres). cbn [andb negb]. eapply wp_says; [apply says_ret|].
  split; [|by eapply restored_trans]. rewrite !(keeps_bytes _ _ _ _ K1); [|by apply Hheld|].
  - unfold passed_text. rewrite ?app_nil_r, <- ?app_assoc. reflexivity.
  - rewrite <- (Z.add_0_r blob). by apply Hheld.
Qed.

End SelfTest.

(** * Closed instances *)

(** The tables of [PagingProps] with an empty registry. *)
Definition sample_bench : fault_state pmm_global := mkFault sample_paging ∅ REGIONS_init ∅.
Definition no_text : Console := mkConsole [] [].

Lemma paging_selftest_correct_witness : exists s' c',
  paging_selftest (sample_bench, no_text) = Some ((s', c'), Ok tt) /\ screen c' = report (Passed 20480)
  /\ forall v, view sample_mgr (fpaging s') v = view sample_mgr sample_paging v.
Proof.
  destruct (paging_selftest_correct sample_types sample_mgr sample_bench no_text sample_paging_ok
    ltac:(by vm_compute)) as (s' & c' & d & E & _ & _ & Hv & _).
  assert ((fun p => screen p.1.2) <$> paging_selftest (sample_bench, no_text) = Some (report (Passed 20480))) as Er
    by (vm_compute; reflexivity).
  rewrite E in Er. injection Er as Er. exists s', c'. split; [exact E|]. split; [exact Er|exact Hv].
Defined.

Lemma mmap_selftest_stops_witness : exists c1, screen c1 = first_access
  /\ mmap_selftest (linked_fault 1 8 2 ([], 0)) 4096 1 (sample_bench, no_text)
     = Some ((mkFault sample_paging ∅ test_regions ∅,
              exception_handler 14 2 1 8 2 MMAP_TEST_BASE (mkGuard sample_paging [] 0 0) c1), Err InHandler).
Proof.
  exact (mmap_selftest_stops 4096 1 1 8 2 ([], 0) sample_types sample_mgr sample_bench no_text sample_paging_ok
    ltac:(by vm_compute) eq_refl).
Defined.

Lemma demand_access_correct_witness : exists s' phys,
  access (demand_fault sample_read) 1 false 28680 (sample_faults, no_text) = Some ((s', no_text), Ok phys)
  /\ phys mod 4096 = 8.
Proof.
  destruct sample_demand_ok as [Hok Hview].
  assert (view sample_mgr (dpaging sample_demand) 28680 = None) as Hv by (rewrite Hview; by vm_compute).
  pose proof (demand_access_correct sample_read sample_types sample_mgr sample_faults no_text false 28680 sample_region
    sample_read_ok Hok ltac:(unfold is_u64, U64; lia) eq_refl ltac:(by split) ltac:(by vm_compute) ltac:(by vm_compute) Hv) as H.
  assert ((fun p : fault_state pmm_global * Console * result Stop Z => is_ok p.2) <$>
    access (demand_fault sample_read) 1 false 28680 (sample_faults, no_text) = Some true) as E by (by vm_compute).
  destruct (access _ _ _ _ _) as [[[s' c'] [phys|e]]|]; [|done|done].
  destruct H as (-> & _ & _ & Hm & _). by exists s', phys.
Defined.

(** The same tables with the first bytes of the blob at 256, in a frame that
    start-up reserves. *)
Definition sample_blob : fault_state pmm_global :=
  mkFault sample_paging (wr (wr ∅ 256 0x4E) 257 0x41) REGIONS_init ∅.
Definition sample_blob_read (p c off d len : Z) (m : store) : store * Z := mmap_test_read_at c off d len m.

Lemma sample_blob_held i : 0 <= i < BLOB_LEN -> held sample_types sample_paging ((256 + i) / 4096).
Proof.
  intros Hi. unfold BLOB_LEN in Hi. replace ((256 + i) / 4096) with 0 by dlia. split; [by vm_compute|].
  intros a q Ha%sample_types_lookup. destruct Ha as [[-> _]|[[-> _]|[[-> _]|[-> _]]]]; by vm_compute.
Qed.

Lemma mmap_selftest_passes_witness : exists s' c',
  mmap_selftest (demand_fault sample_blob_read) 256 1 (sample_blob, no_text) = Some ((s', c'), Ok tt)
  /\ screen c' = passed_text 0x4E 0x41 /\ fregions s' = REGIONS_init /\ rd (fbytes s') 256 = 0x4E.
Proof.
  assert (forall base a, test_page base a -> view sample_mgr sample_paging a = None) as Hn
    by (intros base a [[-> | ->] [-> | ->]]; by vm_compute).
  pose proof (mmap_selftest_passes sample_blob_read 256 1 sample_types sample_mgr sample_blob no_text
    test_read_at_ok ltac:(by intros ? ? ? ?) ltac:(lia) sample_blob_held sample_paging_ok eq_refl Hn) as H.
  assert ((fun p : fault_state pmm_global * Console * result Stop unit => is_ok p.2) <$>
    mmap_selftest (demand_fault sample_blob_read) 256 1 (sample_blob, no_text) = Some true) as E by (by vm_compute).
  destruct (mmap_selftest _ _ _ _) as [[[s' c'] [[]|e]]|]; [|done|done].
  destruct H as [Hs [Hr (T' & _ & _ & K)]]. exists s', c'. split; [done|]. split; [exact Hs|]. split; [exact Hr|].
  exact (keeps_bytes _ _ _ _ K 256 (sample_blob_held 0 ltac:(done))).
Defined.
