(* ===== verification/Halt.v ===== *)
(** Where the kernel stops: the loops around [hlt] of [main.rs], and the interrupts
    that wake them.

    A loop is the list of the instructions of its body.  The processor stands at an
    instruction, awake or asleep; [hlt] puts it to sleep, and only an interrupt
    wakes it, which runs the handler of the kernel and returns behind the [hlt]. *)

From S2P Require Import Prelude Paging GuardPage Ports Pic PicProps Descriptors DescriptorProps Boot Video Faults Kernel.
From Stdlib Require Import Ascii.

(** * The loops *)

Inductive instr : Set := Cli | Hlt.

Definition panic : list instr := [Cli; Hlt].
Definition alloc_error : list instr := [Hlt].
Definition panic_const_div_by_zero : list instr := [Hlt].
Definition slice_index_fail : list instr := [Hlt].
Definition panic_bounds_check : list instr := [Hlt].
Definition handle_alloc_error : list instr := [Hlt].
Definition handle_error : list instr := [Hlt].
Definition unwrap_failed : list instr := [Hlt].
Definition halt_forever : list instr := [Hlt].
(** The ends of [exception_handler] and of [enter]. *)
Definition overflow_end : list instr := [Hlt].
Definition page_fault_end : list instr := [Hlt].
Definition exception_end : list instr := [Hlt].
Definition enter_end : list instr := [Hlt].

(** The loops that leave the interrupt flag as it is. *)
Definition halt_loops : list (list instr) :=
  [alloc_error; panic_const_div_by_zero; slice_index_fail; panic_bounds_check; handle_alloc_error; handle_error;
   unwrap_failed; halt_forever; overflow_end; page_fault_end; exception_end; enter_end].

(** The shims that return. *)
Definition formatter_write_str (formatter s : Z) : result unit unit := Ok tt.
Definition rust_no_alloc_shim_is_unstable_v2 : unit := tt.

(** * The processor in a loop *)

Record cpu (S : Type) := mkCpu { pc : nat; asleep : bool; kernel_of : kernel S }.
Arguments mkCpu {S}.
Arguments pc {S}.
Arguments asleep {S}.
Arguments kernel_of {S}.

Definition start {S} (k : kernel S) : cpu S := mkCpu 0 false k.

Section Halt.
Context {S : Type} `{Ph : PicHardware S}.
Context (L : Linked) (loop : list instr).

(** The instruction at hand; an asleep processor executes nothing. *)
Definition tick (c : cpu S) : option (cpu S) :=
  let next := ((pc c + 1) mod length loop)%nat in
  if asleep c then None
  else match loop !! pc c with
       | Some Cli => Some (mkCpu next false (set_interrupts false (kernel_of c)))
       | Some Hlt => Some (mkCpu next true (kernel_of c))
       | None => None
       end.

(** [irq_handler] on the state of the kernel. *)
Definition kernel_irq_handler (irq : Z) : boot S unit :=
  (if irq =? 32 then mret tt
   else if irq =? 33 then mret tt
   else print (text "IRQ: ") ;; print (print_hex_u64 irq) ;; print newline) ;;
  on_machine (send_eoi (wrap8 (irq -w 32))).

(** Entering a gate: an interrupt gate switches interrupts off. *)
Definition enter_gate (trap : bool) (k : kernel S) : kernel S := if trap then k else set_interrupts false k.

(** The stub [irq n] of [idt.asm]: it pushes [32 + n], calls the handler and returns
    with the flags of before. *)
Definition irq_stub (n : Z) (trap : bool) : boot S unit := fun k =>
  (modify (enter_gate trap) ;; kernel_irq_handler (32 + n) ;; modify (set_interrupts (k_interrupts k))) k.

(** Line [n] asks: the machine is [s'] when the controllers have delivered the line.
    The processor takes the interrupt if its flag is set and the line is not masked;
    it looks up the gate, and goes on, awake, where it was. *)
Definition interrupt (n : Z) (s' : S) (c : cpu S) : option (cpu S) :=
  let k := kernel_of c in
  let pair := chips (k_machine k) in
  if k_interrupts k && negb (line_masked n pair) then
    match interrupt_entry (k_tables k) (line_vector n pair) with
    | Some (handler, trap, _) =>
        if handler =? irq L n then
          match irq_stub n trap (set_machine s' k) with
          | Some (k', Ok _) => Some (mkCpu (pc c) false k')
          | _ => None
          end
        else None
    | None => None
    end
  else None.
End Halt.

(** [exception_handler] on the state of the kernel, up to its loop: its text goes to
    the serial port first. *)
Definition kernel_exception_handler {S} `{Io : PortIO S} (vector error_code rip cs rflags cr2 : Z) : boot S unit :=
  fun k =>
  let c := exception_handler vector error_code rip cs rflags cr2 (guard_part k) (mkConsole [] []) in
  (serial_print (serial c) ;; print (screen c)) k.

(** The loop in which it ends. *)
Definition exception_loop {A} (vector error_code cr2 : Z) (g : guard_state A) : list instr :=
  if vector =? 14 then
    if (Z.land error_code 1 =? 0) && negb (guard_page_is_guard_page cr2 g =? 0) then overflow_end else page_fault_end
  else exception_end.

(** Exception [v]: through its gate into the handler. *)
Definition exception {S} `{Io : PortIO S} (v error_code rip cs rflags cr2 : Z) : boot S unit := fun k =>
  match interrupt_entry (k_tables k) v with
  | Some (_, trap, _) =>
      (modify (enter_gate trap) ;; kernel_exception_handler v error_code rip cs rflags cr2) k
  | None => None
  end.

(** * The machine in a loop, as a step relation *)

Section Steps.
Context {S : Type} `{Ph : PicHardware S}.
Context {Same : Type} (rest : S -> Same).   (** what a request leaves alone *)
Context (L : Linked).

(** The controllers deliver line [n], and nothing else changes. *)
Definition raised (n : Z) (s s' : S) : Prop := chips s' = deliver n (chips s) /\ rest s' = rest s.

(** [None] is an instruction, [Some n] an interrupt of line [n]. *)
Inductive step (loop : list instr) : option Z -> cpu S -> cpu S -> Prop :=
  | step_tick c c' : tick loop c = Some c' -> step loop None c c'
  | step_irq n s' c c' :
      0 <= n < 16 -> may_interrupt n (chips (k_machine (kernel_of c))) -> raised n (k_machine (kernel_of c)) s' ->
      interrupt L n s' c = Some c' -> step loop (Some n) c c'.

Inductive run (loop : list instr) : cpu S -> list (option Z) -> cpu S -> Prop :=
  | run_nil c : run loop c [] c
  | run_cons l ls c c1 c2 : step loop l c c1 -> run loop c1 ls c2 -> run loop c (l :: ls) c2.
End Steps.

(** The lines served, in order. *)
Definition lines_served (ls : list (option Z)) : list Z := omap id ls.
