(* ===== verification/HaltProps.v ===== *)
(** What the loops around [hlt] do.

    With interrupts on, a loop is an idle loop: every line is served whenever it asks,
    and serving it changes nothing but the screen.  With interrupts off it is the end
    of the machine. *)

From S2P Require Import Prelude E820 Pmm FrameAlloc Paging Cow Heap Pat GuardPage Ports Pci PciHost PciSample PciProps PciScan Pic PicProps Descriptors DescriptorProps Boot Font Video VideoProps VideoText Faults Kernel KernelFacts KernelProps Halt.
From Stdlib Require Import Ascii.

(** * The text of an interrupt *)

(** What serving a line prints. *)
Definition irq_text (n : Z) : list Z :=
  if n <? 2 then [] else char_codes (text "IRQ: " ++ print_hex_u64 (32 + n) ++ newline).

(** The text goes to a terminal. *)
Definition type_text (s : list Z) (t : Terminal.term) : Terminal.term := fold_left Terminal.put s t.

(** Characters that end no string. *)
Definition plain (t : list ascii) : Prop := no_nul (char_codes t).
Lemma plain_app t1 t2 : plain t1 -> plain t2 -> plain (t1 ++ t2).
Proof. unfold plain, no_nul, char_codes. rewrite map_app. intros. by apply Forall_app. Qed.
Lemma plain_hex_char d : plain [hex_char d].
Proof.
  apply Forall_singleton. unfold hex_char. destruct (HEX_CHARS !! Z.to_nat d) as [a|] eqn:E; [|done].
  apply list_elem_of_lookup_2 in E. unfold HEX_CHARS in E.
  repeat (apply elem_of_cons in E as [->|E]; [done|]). by apply not_elem_of_nil in E.
Qed.
Lemma plain_high_digits m num started : plain (high_digits m num started).
Proof.
  revert started. induction m as [|m IH]; intros started; cbn [high_digits]; [apply Forall_nil; exact I|].
  case_match; [|apply IH]. apply (plain_app [_]); [apply plain_hex_char|apply IH].
Qed.
Lemma plain_low_digits m num : plain (low_digits m num).
Proof.
  revert num. induction m as [|m IH]; intros num; cbn [low_digits]; [apply Forall_nil; exact I|].
  case_match; [|apply Forall_nil; exact I]. apply (plain_app [_]); [apply plain_hex_char|apply IH].
Qed.
Lemma plain_hex num : plain (print_hex_u64 num).
Proof. apply plain_app; [by repeat constructor|]. case_match; [by repeat constructor|apply plain_high_digits]. Qed.

Ltac plain_text := repeat match goal with
  | |- plain (_ ++ _) => apply plain_app
  | |- plain (print_hex_u64 _) => apply plain_hex
  | |- plain (if ?b then _ else _) => destruct b
  | |- plain _ => solve [assumption | apply (bool_decide_unpack _); by vm_compute]
  end.

Lemma plain_exception_name v : plain (exception_name v).
Proof.
  unfold exception_name, name_of. destruct (List.find _ _) as [[a t]|] eqn:E; [|plain_text].
  apply List.find_some in E as [E _]. cbn [fmap option_fmap option_map default snd].
  repeat (destruct E as [E|E]; [injection E as <- <-; plain_text|]). destruct E.
Qed.

(** The text of the exception handler on the screen. *)
Lemma plain_report {A} v code rip cs rflags cr2 (g : guard_state A) :
  plain (screen (exception_handler v code rip cs rflags cr2 g (mkConsole [] []))).
Proof.
  unfold exception_handler, report_overflow, report_page_fault, report_exception, OVERFLOW_BANNER, newline.
  pose proof (plain_exception_name v). destruct (v =? 14); [destruct (andb _ _)|]; cbn [screen to_screen to_serial]; plain_text.
Qed.

Section HaltFacts.
Context {S : Type} `{Bm : BootMachine S}.
Notation rest_of := (fun s : S => cfg (host s)).

(** * Text on the terminal *)

Lemma print_run v0 t (k : kernel S) s : plain s -> screen_of v0 t (k_video k) ->
  exists v, print s k = Some (set_screen v k, Ok tt) /\ screen_of v0 (type_text (char_codes s) t) v.
Proof. intros Hs H. unfold print. destruct (print_shows v0 t _ _ Hs H) as (v & -> & Hv). by exists v. Qed.

(** A program that shows a text, or leaves the screen if it is none. *)
Definition shows_text {X} (p : boot S X) (s : list Z) : Prop :=
  forall v0 t k k' x, p k = Some (k', Ok x) -> screen_of v0 t (k_video k) ->
    screen_of v0 (type_text s t) (k_video k').

Lemma shows_print s : plain s -> shows_text (print s) (char_codes s).
Proof. intros Hs v0 t k k' x E H. destruct (print_run v0 t k s Hs H) as (v & E' & Hv). rewrite E in E'. by injection E' as ->. Qed.
Lemma shows_bind {X Y} (p : boot S X) (q : X -> boot S Y) s1 s2 :
  shows_text p s1 -> (forall x, shows_text (q x) s2) -> shows_text (p ≫= q) (s1 ++ s2).
Proof.
  intros Hp Hq v0 t k k' y. unfold mbind, prog_bind. destruct (p k) as [[k1 [x|e]]|] eqn:E; [|by destruct e|done].
  intros E2 H. unfold type_text. rewrite fold_left_app. eapply Hq; [exact E2|]. by eapply Hp.
Qed.
Lemma shows_nothing {X} (p : boot S X) : display eq p -> shows_text p [].
Proof. intros Hp v0 t k k' x E H. by rewrite <- (Hp _ _ _ E). Qed.

(** * Serving a line *)

Lemma eoi_keeps n (s : S) : host (send_eoi n s).1 = host s.
Proof.
  revert s. change (keeps host (send_eoi n)). unfold send_eoi, pic_outb.
  apply keeps_bind; [apply keeps_if|intros _]; try apply keeps_ret; apply keeps_put; intros; apply bm_out8.
Qed.

Lemma shows_irq_handler n : 0 <= n < 16 -> shows_text (kernel_irq_handler (32 + n)) (irq_text n).
Proof.
  intros Hn. unfold kernel_irq_handler. rewrite <- (app_nil_r (irq_text n)). unfold irq_text.
  apply shows_bind; [|intros _; apply shows_nothing, (dis_machine eq)].
  destruct (Z.eqb_spec (32 + n) 32), (Z.eqb_spec (32 + n) 33), (Z.ltb_spec n 2); try lia;
    try (by apply shows_nothing; intros k k' y [= <- _]).
  unfold char_codes at 1. rewrite !map_app. apply shows_bind; [apply shows_print; by repeat constructor|intros _].
  apply shows_bind; [apply shows_print, plain_hex|intros _]. apply shows_print. by repeat constructor.
Qed.

(** The handler keeps everything but the screen, and ends the line's service. *)
Lemma irq_handler_effect n before : both_ready before -> chip_ok before.1 -> chip_ok before.2 -> 0 <= n < 16 ->
  may_interrupt n before ->
  effect (fun c => (k_machine c).1 = deliver n before) (kernel_irq_handler (32 + n))
    (fun c => set_machine (before, (k_machine c).2) c).
Proof.
  intros Hr H1 H2 Hn Hmay. unfold kernel_irq_handler. apply eff_skip.
  { apply eff_if; [apply eff_ret|]. apply eff_if; [apply eff_ret|].
    apply eff_then; [apply eff_print|intros _]. apply eff_then; [apply eff_print|intros _; apply eff_print]. }
  intros _ k Hk. cbn in Hk. rewrite sub64_small by (unfold U64; lia). replace (32 + n - 32) with n by lia.
  unfold wrap8. rewrite Z.mod_small by lia. unfold on_machine.
  destruct (eoi_spec n (k_machine k) before Hr H1 H2 Hn Hmay Hk) as (s' & E & Hc). rewrite E.
  eexists _, _. split; [reflexivity|]. unfold core, set_machine. cbn. rewrite Hc.
  pose proof (eoi_keeps n (k_machine k)) as Hh. rewrite E in Hh. cbn in Hh. by rewrite Hh.
Qed.

Context (L : Linked) (HL : linked_ok L) (cs ds : Z).

(** Interrupts are on, and the gates and the controllers are those of the start. *)
Record serving (k : kernel S) : Prop := {
  sv_on : k_interrupts k = true;
  sv_chips : chips (k_machine k) = remapped;
  sv_tables : k_tables k = idt_init L (gdt_init L (descriptors_init cs ds));
}.

Lemma serving_core k k' : core k' = core k -> serving k -> serving k'.
Proof.
  intros E [H1 H2 H3]. split.
  - change (k_interrupts (core k') = true). by rewrite E.
  - change ((k_machine (core k')).1 = remapped). by rewrite E.
  - change (k_tables (core k') = idt_init L (gdt_init L (descriptors_init cs ds))). by rewrite E.
Qed.

Lemma remapped_ok : both_ready remapped /\ chip_ok remapped.1 /\ chip_ok remapped.2
  /\ forall n, 0 <= n < 16 -> may_interrupt n remapped.
Proof.
  split_and!; try done. intros n Hn. unfold may_interrupt. cbn. destruct (n <? 8); [|split]; intros; apply Z.testbit_0_l.
Qed.

Lemma stub_run n k s' : serving k -> 0 <= n < 16 -> raised rest_of n (k_machine k) s' ->
  exists k', irq_stub n false (set_machine s' k) = Some (k', Ok tt) /\ core k' = core k
    /\ forall v0 t, screen_of v0 t (k_video k) -> screen_of v0 (type_text (irq_text n) t) (k_video k').
Proof.
  intros [Hon Hc Ht] Hn [Hs Hh]. destruct remapped_ok as (R1 & R2 & R3 & R4).
  set (k1 := set_interrupts false (set_machine s' k)).
  destruct (irq_handler_effect n remapped R1 R2 R3 Hn (R4 n Hn) k1) as (k2 & [] & E & C).
  { cbn. by rewrite Hs, Hc. }
  exists (set_interrupts true k2). unfold irq_stub, modify, enter_gate.
  rewrite (bind_ok _ _ _ k1 tt) by reflexivity. cbv beta iota. rewrite (bind_ok _ _ _ k2 tt) by exact E.
  cbn [k_interrupts set_machine]. rewrite Hon. split; [reflexivity|]. split.
  - transitivity (set_interrupts true (core k2)); [reflexivity|]. rewrite C. unfold k1, core, set_interrupts, set_machine. cbn.
    by rewrite Hh, <- Hc, <- Hon.
  - intros v0 t H. exact (shows_irq_handler n Hn v0 t k1 k2 tt E H).
Qed.

Lemma interrupt_run n s' (c : cpu S) : serving (kernel_of c) -> 0 <= n < 16 ->
  interrupt L n s' c = match irq_stub n false (set_machine s' (kernel_of c)) with
                       | Some (k', Ok _) => Some (mkCpu (pc c) false k')
                       | _ => None
                       end.
Proof.
  intros [Hon Hc Ht] Hn. unfold interrupt. destruct (remapped_lines n Hn) as [Hm Hv].
  rewrite Hon, Hc, Ht, Hm, Hv, (line_gate L cs ds n HL Hn), Z.eqb_refl. done.
Qed.

Lemma interrupt_served n s' (c : cpu S) : serving (kernel_of c) -> 0 <= n < 16 ->
  raised rest_of n (k_machine (kernel_of c)) s' ->
  exists k', interrupt L n s' c = Some (mkCpu (pc c) false k') /\ core k' = core (kernel_of c)
    /\ forall v0 t, screen_of v0 t (k_video (kernel_of c)) -> screen_of v0 (type_text (irq_text n) t) (k_video k').
Proof.
  intros Hs Hn Hr. destruct (stub_run n _ s' Hs Hn Hr) as (k' & E & C). exists k'.
  by rewrite (interrupt_run n s' c Hs Hn), E.
Qed.

(** * The idle loops *)

Lemma idle_tick (c : cpu S) : pc c = 0%nat ->
  tick [Hlt] c = if asleep c then None else Some (mkCpu 0 true (kernel_of c)).
Proof. intros E. unfold tick. rewrite E. by destruct (asleep c). Qed.

(** Along a run the state of before is kept, and the messages follow one another. *)
Lemma idle_run c ls c' : run rest_of L [Hlt] c ls c' -> pc c = 0%nat -> serving (kernel_of c) ->
  pc c' = 0%nat /\ core (kernel_of c') = core (kernel_of c)
  /\ forall v0 t, screen_of v0 t (k_video (kernel_of c)) ->
       screen_of v0 (type_text (concat (map irq_text (lines_served ls))) t) (k_video (kernel_of c')).
Proof.
  induction 1 as [c|l ls c c1 c2 Hst _ IH]; intros Hpc Hs; [done|].
  destruct Hst as [c c1 E|n s' c c1 Hn Hm Hr E].
  - rewrite (idle_tick c Hpc) in E. destruct (asleep c); [done|]. injection E as <-. by apply IH.
  - destruct (interrupt_served n s' c Hs Hn Hr) as (k' & E' & C & V). rewrite E in E'. injection E' as ->.
    destruct (IH Hpc (serving_core _ _ C Hs)) as (P & C' & V'). split; [exact P|]. split; [by rewrite C'|].
    intros v0 t H. cbn [lines_served omap list_omap id map concat]. unfold type_text. rewrite fold_left_app.
    apply V'. by apply V.
Qed.

(** Whenever a line asks it is served; an awake processor goes to sleep. *)
Lemma idle_live (c : cpu S) : pc c = 0%nat -> serving (kernel_of c) ->
  (asleep c = false -> step rest_of L [Hlt] None c (mkCpu 0 true (kernel_of c)))
  /\ forall n s', 0 <= n < 16 -> raised rest_of n (k_machine (kernel_of c)) s' ->
       exists k', step rest_of L [Hlt] (Some n) c (mkCpu 0 false k').
Proof.
  intros Hpc Hs. split.
  - intros Ha. apply step_tick. by rewrite (idle_tick c Hpc), Ha.
  - intros n s' Hn Hr. destruct (interrupt_served n s' c Hs Hn Hr) as (k' & E & _). exists k'. rewrite Hpc in E.
    eapply step_irq; [exact Hn| |exact Hr|exact E]. rewrite (sv_chips _ Hs). by apply remapped_ok.
Qed.
End HaltFacts.

Section HaltProps.
Context {S : Type} `{Bm : BootMachine S}.
Context (L : Linked) (cpuid : Z -> Z -> CpuidResult) (bus_depth : nat).
Hypothesis deep : (256 <= bus_depth)%nat.
Notation rest_of := (fun s : S => cfg (host s)).

(** The start leaves a machine that serves, with its report on the terminal. *)
Lemma enter_serving fb pitch w h bpp addr (k : kernel S) cs ds :
  ready (core k) -> k_tables k = descriptors_init cs ds -> k_interrupts k = false ->
  exists k0, enter L cpuid bus_depth fb pitch w h bpp addr k = Some (k0, Ok tt) /\ serving L cs ds k0
    /\ (fb = 0 -> exists t, screen_of (k_video k) t (k_video k0) /\ reported t).
Proof.
  intros R Ht Hi.
  destruct (prefix_effect L cpuid bus_depth deep 15 fb pitch w h bpp addr k R) as (k0 & [] & E & C).
  exists k0. split; [exact E|]. split.
  - pose proof (late_tables L cpuid bus_depth deep 15 addr (core k) ltac:(lia)) as Et.
    pose proof (late_chips L cpuid bus_depth deep 15 addr (core k) ltac:(lia)) as Ec.
    pose proof (interrupts_late L cpuid bus_depth deep 15 addr (core k) Hi) as Ei.
    rewrite <- C in Et, Ec, Ei. split; [exact Ei|exact Ec|]. rewrite <- Ht. exact Et.
  - intros ->. exact (enter_reports L cpuid bus_depth pitch w h bpp addr k k0 tt E).
Qed.

(** C12. The kernel at rest.  After [enter] (in the text mode) the processor idles in
    the final loop, and along any run - lines asking in any order and number, at
    any instant - the kernel's state stays as [enter] left it, the controllers have
    no line in service and interrupts are on; the screen goes on from the report
    with one message per interrupt, in order (none for the timer and the keyboard).
    In every state of the run a line that asks is served, and a processor that is
    awake goes to sleep: the loop is never stuck. *)
Theorem idle_kernel_serves pitch w h bpp addr (k : kernel S) cs ds :
  linked_ok L -> ready (core k) -> k_tables k = descriptors_init cs ds -> k_interrupts k = false ->
  exists k0 t0, enter L cpuid bus_depth 0 pitch w h bpp addr k = Some (k0, Ok tt)
    /\ screen_of (k_video k) t0 (k_video k0) /\ reported t0
    /\ forall ls c, run rest_of L enter_end (start k0) ls c ->
         core (kernel_of c) = core k0
         /\ k_interrupts (kernel_of c) = true /\ chips (k_machine (kernel_of c)) = remapped
         /\ screen_of (k_video k) (type_text (concat (map irq_text (lines_served ls))) t0) (k_video (kernel_of c))
         /\ (asleep c = false -> exists c', step rest_of L enter_end None c c')
         /\ forall n s', 0 <= n < 16 -> raised rest_of n (k_machine (kernel_of c)) s' ->
              exists c', step rest_of L enter_end (Some n) c c'.
Proof.
  intros HL R Ht Hi. destruct (enter_serving 0 pitch w h bpp addr k cs ds R Ht Hi) as (k0 & E & Hs & Hv).
  destruct (Hv eq_refl) as (t0 & Hsc & Hrep). exists k0, t0. do 3 (split; [done|]).
  intros ls c Hrun. destruct (idle_run L HL cs ds _ _ _ Hrun eq_refl Hs) as (Hpc & C & V).
  pose proof (serving_core L cs ds k0 (kernel_of c) C Hs) as Hs'. split; [exact C|].
  split; [exact (sv_on _ _ _ _ Hs')|]. split; [exact (sv_chips _ _ _ _ Hs')|]. split; [by apply V|].
  destruct (idle_live L HL cs ds c Hpc Hs') as [H1 H2]. split; [intros Ha; eexists; exact (H1 Ha)|].
  intros n s' Hn Hr. destruct (H2 n s' Hn Hr) as (k' & Hst). by eexists.
Qed.
End HaltProps.

Section Loops.
Context {S : Type} `{Bm : BootMachine S}.
Context (L : Linked).
Notation rest_of := (fun s : S => cfg (host s)).

(** Every loop around [hlt] - the ends of the allocation, bounds and unwrap
    errors among them - only waits: with interrupts on, whatever sequence of lines
    asks, there is a run that serves exactly this sequence, and it ends asleep and
    ready for more, the kernel's state unchanged. *)
Theorem halt_loops_only_wait loop (k : kernel S) cs ds ns :
  linked_ok L -> loop ∈ halt_loops -> serving L cs ds k ->
  (forall n s, 0 <= n < 16 -> exists s' : S, raised rest_of n s s') ->
  Forall (fun n => 0 <= n < 16) ns ->
  exists ls k', run rest_of L loop (start k) ls (mkCpu 0 true k') /\ lines_served ls = ns
    /\ core k' = core k /\ serving L cs ds k'.
Proof.
  intros HL Hl Hs Henv Hns. assert (loop = [Hlt]) as ->.
  { unfold halt_loops in Hl. repeat (apply elem_of_cons in Hl as [->|Hl]; [done|]). by apply not_elem_of_nil in Hl. }
  enough (forall a, exists ls k', run rest_of L [Hlt] (mkCpu 0 a k) ls (mkCpu 0 true k') /\ lines_served ls = ns
    /\ core k' = core k /\ serving L cs ds k') as H by exact (H false).
  revert k Hs. induction Hns as [|n ns Hn _ IH]; intros k Hs a.
  - destruct a; [exists [], k; split; [apply run_nil|done]|].
    exists [None], k. split; [|done]. eapply run_cons; [|apply run_nil]. by apply step_tick.
  - destruct (Henv n (k_machine k) Hn) as [s' Hr].
    destruct (interrupt_served L HL cs ds n s' (mkCpu 0 a k) Hs Hn Hr) as (k1 & E & C & _).
    destruct (IH k1 (serving_core L cs ds k k1 C Hs) false) as (ls & k' & Hrun & Hls & C' & Hs').
    exists (Some n :: ls), k'. split; [|split; [by cbn; f_equal|split; [by rewrite C'|exact Hs']]].
    eapply run_cons; [|exact Hrun]. eapply step_irq; [exact Hn| |exact Hr|exact E].
    cbn [kernel_of]. rewrite (sv_chips _ _ _ _ Hs). by apply remapped_ok.
Qed.

(** With interrupts off nothing but the next instruction can happen. *)
Lemma dark_step loop l (c c' : cpu S) : k_interrupts (kernel_of c) = false -> step rest_of L loop l c c' ->
  l = None /\ tick loop c = Some c'.
Proof.
  intros Hi Hst. destruct Hst as [c c' E|n s' c c' _ _ _ E]; [done|]. unfold interrupt in E. by rewrite Hi in E.
Qed.
Lemma asleep_for_good loop ls (k : kernel S) i c' : k_interrupts k = false ->
  run rest_of L loop (mkCpu i true k) ls c' -> ls = [] /\ c' = mkCpu i true k.
Proof.
  intros Hi. inversion 1 as [|l ls' c c1 c2 Hst]; subst; [done|]. by destruct (dark_step loop l (mkCpu i true k) c1 Hi Hst) as [_ ?].
Qed.
Lemma dark_halt loop ls (k : kernel S) c' : loop !! 0%nat = Some Hlt -> k_interrupts k = false ->
  run rest_of L loop (start k) ls c' -> (length ls <= 1)%nat /\ lines_served ls = [] /\ kernel_of c' = k.
Proof.
  intros Hl Hi. inversion 1 as [|l ls' c c1 c2 Hst Hrun]; subst; [split; [cbn; lia|done]|].
  destruct (dark_step loop l (start k) c1 Hi Hst) as [-> E].
  unfold tick, start in E. cbn [asleep pc] in E. rewrite Hl in E. injection E as <-. cbn [kernel_of] in Hrun.
  destruct (asleep_for_good _ _ _ _ _ Hi Hrun) as [-> ->]. by split_and!.
Qed.


(** C25. An exception is fatal, but for three vectors the machine goes on serving
    interrupts.  Through its gate the exception reports on the serial port and the
    screen and ends in its loop.  For a vector behind an interrupt gate the machine
    is at its end there: at most the [hlt] runs, no line is served.  Debug, breakpoint
    and overflow have trap gates: the loop still serves every line that asks, and
    each message follows the report on the screen. *)
Theorem exceptions_end_in_hlt v code rip cs' rflags cr2 (k : kernel S) cs ds v0 t :
  linked_ok L -> 0 <= v < 32 -> serving L cs ds k -> screen_of v0 t (k_video k) ->
  let report := char_codes (screen (exception_handler v code rip cs' rflags cr2 (guard_part k) (mkConsole [] []))) in
  let loop := exception_loop v code cr2 (guard_part k) in
  exists k1, exception v code rip cs' rflags cr2 k = Some (k1, Ok tt)
    /\ core k1 = set_interrupts (gate_trap v) (core k)
    /\ screen_of v0 (type_text report t) (k_video k1)
    /\ forall ls c, run rest_of L loop (start k1) ls c ->
         if gate_trap v
         then screen_of v0 (type_text (report ++ concat (map irq_text (lines_served ls))) t) (k_video (kernel_of c))
              /\ forall n s', 0 <= n < 16 -> raised rest_of n (k_machine (kernel_of c)) s' ->
                   exists c', step rest_of L loop (Some n) c c'
         else (length ls <= 1)%nat /\ lines_served ls = [] /\ kernel_of c = k1.
Proof.
  intros HL Hv Hs Hsc report loop.
  assert (loop = [Hlt]) as -> by (unfold loop, exception_loop; by repeat case_match).
  set (k0 := enter_gate (gate_trap v) k).
  assert (core k0 = set_interrupts (gate_trap v) (core k)) as C0.
  { unfold k0, enter_gate. destruct (gate_trap v); [|done]. rewrite <- (sv_on _ _ _ _ Hs). by destruct k. }
  assert (guard_part k0 = guard_part k) as Hg by (unfold k0; by destruct (gate_trap v)).
  set (con := exception_handler v code rip cs' rflags cr2 (guard_part k) (mkConsole [] [])) in *.
  destruct (eff_serial (fun _ _ => mkCpuidResult 0 0 0 0) (serial con) k0 I) as (ks & [] & Es & Cs).
  assert (k_video ks = k_video k) as Hvid.
  { pose proof (dis_machine eq (Ports.put (outs8 (map (fun c => (COM1, c)) (char_codes (serial con))))) _ _ _ Es) as H.
    rewrite <- H. unfold k0. by destruct (gate_trap v). }
  rewrite <- Hvid in Hsc.
  destruct (print_run v0 t ks (screen con) (plain_report _ _ _ _ _ _ _) Hsc) as (w & Ew & Hw).
  exists (set_screen w ks).
  assert (exception v code rip cs' rflags cr2 k = Some (set_screen w ks, Ok tt)) as E.
  { unfold exception. destruct (boot_gates L cs ds HL) as [Hgate _]. rewrite (sv_tables _ _ _ _ Hs), Hgate by lia.
    unfold modify. rewrite (bind_ok _ _ _ k0 tt) by reflexivity. cbv beta iota. unfold kernel_exception_handler.
    rewrite Hg. fold con. rewrite (bind_ok _ _ _ ks tt) by exact Es. exact Ew. }
  assert (core (set_screen w ks) = set_interrupts (gate_trap v) (core k)) as C by (rewrite <- C0, <- Cs; done).
  split; [exact E|]. split; [exact C|]. split; [exact Hw|]. intros ls c Hrun.
  assert (k_interrupts (set_screen w ks) = gate_trap v) as Hi.
  { change (k_interrupts (core (set_screen w ks)) = gate_trap v). by rewrite C. }
  destruct (gate_trap v).
  - assert (core (set_screen w ks) = core k) as Ck.
    { rewrite C. unfold set_interrupts, core. cbn. by rewrite (sv_on _ _ _ _ Hs). }
    pose proof (serving_core L cs ds k _ Ck Hs) as Hs1.
    destruct (idle_run L HL cs ds _ _ _ Hrun eq_refl Hs1) as (Hpc & C' & V). split.
    + unfold type_text. rewrite fold_left_app. by apply V.
    + intros n s' Hn Hr.
      destruct (idle_live L HL cs ds c Hpc (serving_core L cs ds _ _ C' Hs1)) as [_ H2].
      destruct (H2 n s' Hn Hr) as (k' & Hst). by eexists.
  - exact (dark_halt [Hlt] ls _ c eq_refl Hi Hrun).
Qed.
End Loops.

(** * Closed instances *)

Notation pc_rest := (fun s : Chip * Chip * PciHost => cfg (host s)).

Lemma pc_raised n (s : Chip * Chip * PciHost) : raised pc_rest n s (deliver n s.1, s.2).
Proof. by split. Qed.

(** A machine at rest, in text mode. *)
Definition idle_sample : kernel (Chip * Chip * PciHost) :=
  set_interrupts true (set_machine (remapped, sample_host)
    (set_tables (idt_init kernel_link (gdt_init kernel_link (descriptors_init 24 32)))
      (set_screen (init_textmode_fallback (video_zero ∅ ∅)) sample_kernel))).
Lemma idle_sample_serves : serving kernel_link 24 32 idle_sample.
Proof. split; reflexivity. Qed.

Lemma idle_kernel_serves_witness : exists k0 t0 c,
  enter kernel_link sample_cpu 256 0 0 0 0 0 MEMORY_MAP_ADDR sample_kernel = Some (k0, Ok tt)
  /\ reported t0 /\ run pc_rest kernel_link enter_end (start k0) [Some 3] c
  /\ screen_of (video_zero ∅ ∅) (type_text (char_codes (text "IRQ: 0x23" ++ newline)) t0) (k_video (kernel_of c)).
Proof.
  destruct (idle_kernel_serves kernel_link sample_cpu 256 (le_n 256) 0 0 0 0 MEMORY_MAP_ADDR sample_kernel 24 32
    kernel_linked sample_ready eq_refl eq_refl) as (k0 & t0 & E & _ & Hr & Hrun).
  destruct (Hrun [] (start k0) (run_nil _ _ _ _)) as (_ & _ & _ & _ & _ & Hserve).
  destruct (Hserve 3 _ ltac:(lia) (pc_raised 3 (k_machine k0))) as [c Hst].
  assert (run pc_rest kernel_link enter_end (start k0) [Some 3] c) as Hc
    by (eapply run_cons; [exact Hst|apply run_nil]).
  exists k0, t0, c. split; [exact E|]. split; [exact Hr|]. split; [exact Hc|].
  destruct (Hrun _ _ Hc) as (_ & _ & _ & Hs & _). exact Hs.
Defined.

Lemma halt_loops_only_wait_witness : exists ls k',
  run pc_rest kernel_link alloc_error (start idle_sample) ls (mkCpu 0 true k') /\ lines_served ls = [1; 14; 1]
  /\ k_interrupts k' = true.
Proof.
  destruct (halt_loops_only_wait kernel_link alloc_error idle_sample 24 32 [1; 14; 1]) as (ls & k' & Hr & Hl & _ & Hs).
  - exact kernel_linked.
  - apply elem_of_cons. by left.
  - exact idle_sample_serves.
  - intros n s _. eexists. exact (pc_raised n s).
  - repeat (apply Forall_cons; split); try lia. apply Forall_nil. exact I.
  - exists ls, k'. exact (conj Hr (conj Hl (sv_on _ _ _ _ Hs))).
Defined.


Lemma exceptions_end_in_hlt_witness : exists k1 k3,
  exception 6 0 0x100000 24 2 0 idle_sample = Some (k1, Ok tt) /\ k_interrupts k1 = false
  /\ exception 3 0 0x100000 24 2 0 idle_sample = Some (k3, Ok tt) /\ k_interrupts k3 = true.
Proof.
  pose proof (init_shows_empty (video_zero ∅ ∅)) as Hv.
  destruct (exceptions_end_in_hlt kernel_link 6 0 0x100000 24 2 0 idle_sample 24 32 _ _ kernel_linked ltac:(lia)
    idle_sample_serves Hv) as (k1 & E1 & C1 & _).
  destruct (exceptions_end_in_hlt kernel_link 3 0 0x100000 24 2 0 idle_sample 24 32 _ _ kernel_linked ltac:(lia)
    idle_sample_serves Hv) as (k3 & E3 & C3 & _).
  exists k1, k3. split; [exact E1|]. split; [exact (f_equal k_interrupts C1)|].
  split; [exact E3|exact (f_equal k_interrupts C3)].
Defined.
