(* ===== verification/Interrupts.v ===== *)
(** The end of the start with interrupts on: from [sti] to the final loop the kernel
    prints its summary while lines may ask, so that messages of interrupts fall
    between the characters of the summary.

    The grain is the character: an interrupt comes before or after a call of
    [vga_text_putchar], not inside one. *)

From S2P Require Import Prelude E820 Pmm FrameAlloc Paging Cow Heap Pat GuardPage Ports Pci PciHost PciSample PciProps PciScan Pic PicProps Descriptors DescriptorProps Boot Font Video VideoProps VideoText Faults Kernel KernelFacts KernelProps Halt HaltProps.
From Stdlib Require Import Ascii.

(** * The text that follows [sti] *)

(** The strings of [print_summary], in order. *)
Definition summary_strings {S} (k : kernel S) : list (list ascii) :=
  [newline ++ text "GDT Info:" ++ newline;
   text "  Kernel Code Selector: 0x"; print_hex_byte KERNEL_CODE_SELECTOR;
   newline ++ text "  Kernel Data Selector: 0x"; print_hex_byte KERNEL_DATA_SELECTOR;
   newline ++ text "  TSS Selector:         0x"; print_hex_byte TSS_SELECTOR; newline;
   newline ++ text "Memory Info:" ++ newline;
   text "  Total Usable: "; print_hex_u64 (memory_get_total_usable (k_memory k) (k_map k));
   text " bytes" ++ newline;
   text "  Highest Addr: "; print_hex_u64 (memory_get_highest_address (k_memory k) (k_map k)); newline;
   newline ++ text "Kernel is stable." ++ newline].

(** With the message of [enable_interrupts] before it. *)
Definition last_strings {S} (k : kernel S) : list (list ascii) :=
  (text "Interrupts enabled" ++ newline) :: summary_strings k.
Definition last_text {S} (k : kernel S) : list Z := concat (map char_codes (last_strings k)).

(** * Printing with interrupts *)

Inductive event : Set := Char (c : Z) | Irq (n : Z).
Definition event_text (e : event) : list Z := match e with Char c => [c] | Irq n => irq_text n end.
Definition event_char (e : event) : option Z := match e with Char c => Some c | Irq _ => None end.

Section Talk.
Context {S : Type} `{Ph : PicHardware S}.
Context {Same : Type} (rest : S -> Same).
Context (L : Linked).

(** What is left to print, and the kernel: the next character, or a line that asks. *)
Inductive talk : list Z * kernel S -> event -> list Z * kernel S -> Prop :=
  | talk_char c s k : talk (c :: s, k) (Char c) (s, set_screen (vga_text_putchar c (k_video k)) k)
  | talk_irq n s k s' c' :
      0 <= n < 16 -> may_interrupt n (chips (k_machine k)) -> raised rest n (k_machine k) s' ->
      interrupt L n s' (mkCpu 0 false k) = Some c' -> talk (s, k) (Irq n) (s, kernel_of c').

Inductive talks : list Z * kernel S -> list event -> list Z * kernel S -> Prop :=
  | talks_nil x : talks x [] x
  | talks_cons e es x y z : talk x e y -> talks y es z -> talks x (e :: es) z.
End Talk.

(** * Programs that print a known text *)

Definition put_text (s : list Z) (v : video) : video := fold_left (fun v c => vga_text_putchar c v) s v.

Lemma putchar_mode c v : vga_textmode_active (vga_text_putchar c v) = vga_textmode_active v.
Proof.
  unfold vga_text_putchar, text_next_row, vga_text_scroll, set_text.
  repeat (case_match; try done); cbn; try done.
Qed.
Lemma put_text_mode s v : vga_textmode_active (put_text s v) = vga_textmode_active v.
Proof. revert v. induction s as [|c s IH]; intros v; cbn; [done|]. rewrite IH. apply putchar_mode. Qed.

Section Says.
Context {S : Type} `{Io : PortIO S} (k0 : kernel S).

(** In text mode the program prints the text on the screen of [k0], and that is all. *)
Definition screen_shows (p : boot S unit) (s : list Z) : Prop := forall v, vga_textmode_active v = true ->
  p (set_screen v k0) = Some (set_screen (put_text s v) k0, Ok tt).

Lemma screen_print s : plain s -> screen_shows (print s) (char_codes s).
Proof.
  intros Hs v Hv. unfold print, video_print, writestring_vga. cbn [k_video set_screen]. rewrite Hv.
  by rewrite (each_char_terminated _ _ _ Hs).
Qed.
Lemma screen_bind p (q : unit -> boot S unit) s1 s2 : screen_shows p s1 -> screen_shows (q tt) s2 -> screen_shows (p ≫= q) (s1 ++ s2).
Proof.
  intros Hp Hq v Hv. rewrite (bind_ok _ _ _ _ _ (Hp v Hv)). unfold put_text. rewrite fold_left_app. apply Hq.
  by rewrite put_text_mode.
Qed.
Lemma screen_read {X} (g : kernel S -> X) (q : X -> boot S unit) s :
  (forall v, g (set_screen v k0) = g k0) -> screen_shows (q (g k0)) s -> screen_shows (gets g ≫= q) s.
Proof.
  intros Hg Hq v Hv. rewrite (bind_ok _ _ (set_screen v k0) (set_screen v k0) (g k0)) by (unfold gets; by rewrite Hg).
  by apply Hq.
Qed.
Lemma screen_last s : plain s -> screen_shows (print s) (char_codes s ++ []).
Proof. rewrite app_nil_r. apply screen_print. Qed.
End Says.

Lemma plain_byte b : plain (print_hex_byte b).
Proof. apply (plain_app [_] [_]); apply plain_hex_char. Qed.

Lemma screen_summary {S} `{Io : PortIO S} (k0 : kernel S) :
  screen_shows k0 print_summary (concat (map char_codes (summary_strings k0))).
Proof.
  unfold print_summary, summary_strings. cbn [map concat].
  repeat first
    [ apply screen_last; plain_text
    | apply screen_bind; [apply screen_print; first [apply plain_byte|plain_text]|]
    | apply screen_read; [done|] ].
Qed.

(** Plain texts have no 0. *)
Lemma plain_strings {S} (k : kernel S) : no_nul (last_text k).
Proof.
  unfold last_text, last_strings, summary_strings. cbn [map concat].
  repeat (apply Forall_app; split; [first [exact (plain_byte _)|exact (plain_hex _)|apply (bool_decide_unpack _); by vm_compute]|]).
  apply Forall_nil. exact I.
Qed.

Section Interrupted.
Context {S : Type} `{Bm : BootMachine S}.
Notation rest_of := (fun s : S => cfg (host s)).

Section Serving.
Context (L : Linked) (HL : linked_ok L) (cs ds : Z).

Lemma talks_run x es y : talks rest_of L x es y -> serving L cs ds x.2 -> no_nul x.1 ->
  core y.2 = core x.2 /\ omap event_char es ++ y.1 = x.1
  /\ forall v0 t, screen_of v0 t (k_video x.2) ->
       screen_of v0 (type_text (concat (map event_text es)) t) (k_video y.2).
Proof.
  induction 1 as [x|e es x y z Hst _ IH]; intros Hs Hn; [done|].
  destruct Hst as [c s k|n s k s' c' Hr Hm Hra E]; cbn [fst snd] in *.
  - apply Forall_cons in Hn as [Hc Hn].
    assert (serving L cs ds (set_screen (vga_text_putchar c (k_video k)) k)) as Hs' by exact (serving_core L cs ds k (set_screen _ k) eq_refl Hs).
    destruct (IH Hs' Hn) as (C & T & V). split; [exact C|].
    split; [cbn; by f_equal|]. intros v0 t H. cbn [map concat event_text app]. apply V. by apply putchar_shows.
  - destruct (interrupt_served L HL cs ds n s' (mkCpu 0 false k) Hs Hr Hra) as (k' & E' & C & V).
    rewrite E in E'. injection E' as ->. cbn [kernel_of] in *.
    destruct (IH (serving_core L cs ds k k' C Hs) Hn) as (C' & T & V'). split; [by rewrite C'|].
    split; [exact T|]. intros v0 t H. cbn [map concat event_text]. unfold type_text. rewrite fold_left_app.
    apply V'. by apply V.
Qed.

(** The next character can always be printed, and a line that asks is served. *)
Lemma talk_live s k : serving L cs ds k ->
  (forall c s', s = c :: s' -> exists k', talk rest_of L (s, k) (Char c) (s', k'))
  /\ forall n m, 0 <= n < 16 -> raised rest_of n (k_machine k) m ->
       exists k', talk rest_of L (s, k) (Irq n) (s, k').
Proof.
  intros Hs. split; [intros c s' ->; eexists; apply talk_char|]. intros n m Hn Hr.
  destruct (interrupt_served L HL cs ds n m (mkCpu 0 false k) Hs Hn Hr) as (k' & E & _).
  exists k'. eapply (talk_irq _ _ n s k m (mkCpu 0 false k')); [exact Hn| |exact Hr|exact E].
  rewrite (sv_chips _ _ _ _ Hs). by apply remapped_ok.
Qed.

(** Without interrupts. *)
Lemma talks_alone s k : talks rest_of L (s, k) (map Char s) ([], set_screen (put_text s (k_video k)) k).
Proof.
  revert k. induction s as [|c s IH]; intros k; cbn [map].
  - replace (set_screen _ k) with k by (by destruct k). apply talks_nil.
  - eapply talks_cons; [apply talk_char|]. exact (IH (set_screen (vga_text_putchar c (k_video k)) k)).
Qed.
End Serving.

Lemma run_stages_app (ss1 ss2 : list (boot S unit)) k k1 : run_stages ss1 k = Some (k1, Ok tt) ->
  run_stages (ss1 ++ ss2) k = run_stages ss2 k1.
Proof.
  revert k. induction ss1 as [|p ss1 IH]; intros k; cbn [app run_stages]; [by intros [= ->]|].
  unfold mbind at 1, prog_bind at 1. destruct (p k) as [[k2 [[]|e]]|] eqn:E; [|by destruct e|done]. intros E2.
  rewrite (bind_ok _ _ _ _ _ E). by apply IH.
Qed.

Context (L : Linked) (cpuid : Z -> Z -> CpuidResult) (bus_depth : nat).

(** A terminal before the summary. *)
Lemma prefix_shows pitch w h bpp addr :
  display (fun v v' => exists t, screen_of v t v') (run_stages (take 13 (stages L cpuid bus_depth 0 pitch w h bpp addr))).
Proof.
  set (R := fun v v' : video => _).
  assert (forall v v1 v2, v = v1 -> R v1 v2 -> R v v2) as Heq by (by intros v v1 v2 ->).
  unfold stages. cbn [take run_stages].
  pose proof (early_silent L) as He. repeat (apply Forall_cons in He as [? He]).
  do 4 (apply (dis_seq eq R R _ _ Heq); [done|intros _]).
  apply (dis_seq R terminals R).
  { intros v v1 v2 [t Ht] Hr. exact (Hr v t Ht). }
  - unfold init_display. cbn [negb Z.eqb].
    apply (dis_seq (fun v v' => v' = init_textmode_fallback v) terminals).
    + intros v v1 v2 -> Ht. exact (Ht v _ (init_shows_empty v)).
    + by intros k k' y [= <- _].
    + intros _. apply (dis_seq terminals terminals); [|apply dis_print|intros _; apply dis_print].
      intros v v1 v2 Ha Hb. by etransitivity.
  - intros _. pose proof (middle_talks cpuid bus_depth addr) as Hm.
    assert (forall ss : list (boot S unit), Forall (display terminals) ss -> display terminals (run_stages ss)) as Hall.
    { induction 1 as [|p ss Hp _ IH]; cbn [run_stages]; [by apply (dis_ret terminals)|].
      apply (dis_bind terminals); [exact Hp|by intros _]. }
    exact (Hall _ (Forall_take _ 8 _ Hm)).
Qed.
Hypothesis deep : (256 <= bus_depth)%nat.

(** C16. The summary survives interrupts.  From the instant interrupts are on, in the
    text mode, [enter] prints its last text character by character, while lines ask
    at any instant: the first thirteen stages and [sti] lead to a state [k1], and
    [enter] alone prints the whole text from there.  Along any interleaving the
    state of the kernel apart from the screen is the one [enter] leaves; the
    characters of the text appear in order and complete, and the screen is the
    terminal on which they and the messages of the interrupts were typed as they
    came.  In every state the next character can be printed and every line that asks
    is served, so the report is reached. *)
Theorem summary_survives_interrupts pitch w h bpp addr (k : kernel S) cs ds :
  linked_ok L -> ready (core k) -> k_tables k = descriptors_init cs ds -> k_interrupts k = false ->
  exists k1 t1 k2,
    (exists k0, run_stages (take 13 (stages L cpuid bus_depth 0 pitch w h bpp addr)) k = Some (k0, Ok tt)
        /\ k1 = set_interrupts true k0)
    /\ enter L cpuid bus_depth 0 pitch w h bpp addr k = Some (k2, Ok tt)
    /\ screen_of (k_video k) t1 (k_video k1)
    /\ talks rest_of L (last_text k1, k1) (map Char (last_text k1)) ([], k2)
    /\ forall es left k', talks rest_of L (last_text k1, k1) es (left, k') ->
         core k' = core k2 /\ k_interrupts k' = true
         /\ omap event_char es ++ left = last_text k1
         /\ screen_of (k_video k) (type_text (concat (map event_text es)) t1) (k_video k')
         /\ (forall c s, left = c :: s -> exists k'', talk rest_of L (left, k') (Char c) (s, k''))
         /\ forall n m, 0 <= n < 16 -> raised rest_of n (k_machine k') m ->
              exists k'', talk rest_of L (left, k') (Irq n) (left, k'').
Proof.
  intros HL R Ht Hi.
  destruct (prefix_effect L cpuid bus_depth deep 13 0 pitch w h bpp addr k R) as (k0 & [] & E & C).
  destruct (prefix_shows pitch w h bpp addr k k0 tt E) as [t1 Hsc].
  set (k1 := set_interrupts true k0).
  assert (core k1 = step_all (take 14 (effects L cpuid bus_depth addr)) (core k)) as C1.
  { transitivity (set_interrupts true (core k0)); [done|]. rewrite C. unfold effects.
    generalize (@cow_init pmm_global). intros ci. reflexivity. }
  assert (serving L cs ds k1) as Hs.
  { split; [done| |].
    - change ((k_machine (core k1)).1 = remapped). rewrite C1. by apply late_chips.
    - change (k_tables (core k1) = idt_init L (gdt_init L (descriptors_init cs ds))). rewrite C1, <- Ht.
      by apply late_tables. }
  set (k2 := set_screen (put_text (last_text k1) (k_video k1)) k1).
  assert (enter L cpuid bus_depth 0 pitch w h bpp addr k = Some (k2, Ok tt)) as Ee.
  { unfold enter. change (stages L cpuid bus_depth 0 pitch w h bpp addr) with
      (take 13 (stages L cpuid bus_depth 0 pitch w h bpp addr) ++ [enable_interrupts; print_summary]).
    rewrite (run_stages_app _ _ _ _ E). cbn [run_stages].
    pose proof (so_mode _ _ _ Hsc) as Hmode. change (k_video k0) with (k_video k1) in Hmode.
    assert (set_screen (k_video k1) k1 = k1) as Ek1 by done.
    assert (plain (text "Interrupts enabled" ++ newline)) as Hp by (apply (bool_decide_unpack _); by vm_compute).
    pose proof (screen_print k1 _ Hp (k_video k1) Hmode) as Ep. rewrite Ek1 in Ep.
    pose proof (screen_summary k1 (put_text (char_codes (text "Interrupts enabled" ++ newline)) (k_video k1))
      ltac:(by rewrite put_text_mode)) as Esum.
    assert (enable_interrupts k0 = Some (set_screen (put_text (char_codes (text "Interrupts enabled" ++ newline)) (k_video k1)) k1, Ok tt)) as Een.
    { unfold enable_interrupts, ENABLE_IRQS. rewrite (bind_ok (modify (set_interrupts true)) _ k0 k1 tt eq_refl). exact Ep. }
    rewrite (bind_ok _ _ _ _ _ Een), (bind_ok _ _ _ _ _ Esum). unfold k2.
    replace (put_text (last_text k1) (k_video k1)) with (put_text (concat (map char_codes (summary_strings k1)))
      (put_text (char_codes (text "Interrupts enabled" ++ newline)) (k_video k1))); [exact eq_refl|].
    symmetry. exact (fold_left_app _ (char_codes (text "Interrupts enabled" ++ newline)) _ _). }
  exists k1, t1, k2. split; [exists k0; exact (conj E eq_refl)|]. split; [exact Ee|]. split; [exact Hsc|].
  split; [exact (talks_alone L (last_text k1) k1)|]. intros es left k' Htalk.
  destruct (talks_run L HL cs ds _ _ _ Htalk Hs (plain_strings k1)) as (C2 & T & V). cbn [fst snd] in *.
  pose proof (serving_core L cs ds k1 k' C2 Hs) as Hs'. split; [exact C2|]. split; [exact (sv_on _ _ _ _ Hs')|].
  split; [exact T|]. split; [by apply V|]. exact (talk_live L HL cs ds left k' Hs').
Qed.
End Interrupted.

(** * A closed instance *)

Lemma summary_survives_interrupts_witness : exists k1 t1 k',
  talks (fun s : Chip * Chip * PciHost => cfg (host s)) kernel_link (last_text k1, k1) [Char 73; Irq 5; Char 110]
    (drop 2 (last_text k1), k')
  /\ screen_of (video_zero ∅ ∅) (type_text ([73] ++ char_codes (text "IRQ: 0x25" ++ newline) ++ [110]) t1) (k_video k').
Proof.
  destruct (summary_survives_interrupts kernel_link sample_cpu 256 (le_n 256) 0 0 0 0 MEMORY_MAP_ADDR sample_kernel 24 32
    kernel_linked sample_ready eq_refl eq_refl) as (k1 & t1 & k2 & _ & _ & _ & _ & H).
  pose proof (talk_char pc_rest kernel_link 73 (drop 1 (last_text k1)) k1) as H1.
  assert (talks pc_rest kernel_link (last_text k1, k1) [Char 73]
    (drop 1 (last_text k1), set_screen (vga_text_putchar 73 (k_video k1)) k1)) as R1.
  { eapply talks_cons; [exact H1|apply talks_nil]. }
  destruct (H _ _ _ R1) as (_ & _ & _ & _ & _ & Hirq).
  destruct (Hirq 5 _ ltac:(lia) (pc_raised 5 _)) as [k3 H2].
  pose proof (talk_char pc_rest kernel_link 110 (drop 2 (last_text k1)) k3) as H3.
  assert (talks pc_rest kernel_link (last_text k1, k1) [Char 73; Irq 5; Char 110]
    (drop 2 (last_text k1), set_screen (vga_text_putchar 110 (k_video k3)) k3)) as R3.
  { eapply talks_cons; [exact H1|]. eapply talks_cons; [exact H2|]. eapply talks_cons; [exact H3|apply talks_nil]. }
  exists k1, t1, (set_screen (vga_text_putchar 110 (k_video k3)) k3). split; [exact R3|]. destruct (H _ _ _ R3) as (_ & _ & _ & Hs & _). exact Hs.
Defined.
